(* ===== verification/_CoqProject ===== *)
-Q . S2P
Prelude.v
Queue.v
Mmu.v
Pmap.v
PmapInv.v
PmapOps.v
PmapInsert.v
PmapThms.v
KState.v
Elf.v
Signo.v
Env.v
Sched.v
TlbEx.v
Signal.v
Syscall.v
Traps.v
EnvThms.v
SchedThms.v
PmapFree.v
EnvInv.v
EnvSpec.v
MemThms.v
TlbThms.v
IpcThms.v
SysThms.v
ElfThms.v
SignalThms.v
SignalTrip.v
Str.v
StrThms.v
Print.v
PrintThms.v
Output.v
OutputThms.v
Wp.v
Ide.v
Fs.v
Gx.v
FsMem.v
FsCache.v
FsBlockThms.v
FsInit.v
FsPath.v
FsFormat.v
FsFormatDir.v
FsFormatTree.v
FsFormatNode.v
FsFormatMain.v
FsImage.v
Serv.v
ServThms.v
Check.v
Uproc.v
UprocMem.v
Fd.v
Ufile.v
Upipe.v
PipeRing.v
PipeThms.v
FdOps.v
Usignal.v
UsignalThms.v
Fork.v
ForkThms.v
ForkIso.v
ForkKernel.v
ForkAccess.v
Spawn.v
SpawnThms.v
SpawnLoad.v
SpawnStart.v
Shell.v
UserProgs.v
ShellThms.v
Kernel.v
KernelCalls.v
KernelSafe.v
Boot.v
HostTools.v
