(* ===== verification/Prelude.v ===== *)
(** * A verification library for the MOS teaching kernel

    MOS is a small operating system for a 32-bit little-endian MIPS R3000: a kernel with
    paging, environments, a round-robin scheduler, messages and signals ([src/kern/],
    [src/lib/], [src/include/]), a file server that runs as a user program ([src/fs/]), a
    library for user programs ([src/user/lib/]) and a shell ([src/user/sh.c]). This library
    translates the C code into executable definitions over explicit states and proves what
    makes each part correct.

    ** Modelling

    Integers are [Z]; wrap-around at 8, 16 and 32 bits is written with [u8], [u16], [u32] and
    [s32] where the code can overflow. A C pointer is its address, or an index where the code
    points into an array ([envs], [pages], [signos]), with [None] for NULL. Code that changes
    state is a computation of the monad [M] below: it returns ([Val]), halts the machine
    ([Panic]), leaves the kernel for an environment ([Run]), or runs into undefined behaviour
    ([Undef]). The theorems that a function "returns" exclude the last three: no panic, no
    null pointer, no index out of range, no exhausted fuel.

    Results of the world outside the code are inputs of the model: the results of page
    allocations in the kernel as seen by a user program ([answers]), results of sends
    ([codes]), identifiers of new environments ([ids]), keys of the console ([keys]), messages
    to come ([inbox]), results of [fork] ([forks]). The disk is a device behind an interface,
    the class [DiskDev] (Ide.v): its laws say what a read or write of the registers does to
    the image of the disk, and [Gx.v] gives a device that has them.

    ** The parts

    The kernel:
    - Queue.v: the LIST and TAILQ macros with their [le_prev] cells ([include/queue.h]).
    - Mmu.v: address arithmetic, physical memory ([include/mmu.h], [include/pmap.h]).
    - Pmap.v: boot allocator, free pages, two-level page tables, reference counts and the TLB
      ([kern/pmap.c], [kern/tlb_asm.S]). PmapInv.v has the invariant, PmapOps.v, PmapInsert.v
      and PmapFree.v the specifications, PmapThms.v the theorems.
    - KState.v: every global of the kernel as a record; [struct Env] and the trap frame.
    - Elf.v: the ELF loader, generic in the callback that maps a page ([lib/elfloader.c]);
      ElfThms.v.
    - Signo.v, Signal.v: signal sets, the pool of pending signals, delivery
      ([include/signal.h], [kern/signal.c]); SignalThms.v, SignalTrip.v.
    - Env.v: environments ([kern/env.c], [kern/env_asm.S]); EnvThms.v, EnvInv.v (the
      invariant [kinv] of the whole kernel), EnvSpec.v.
    - Sched.v: [schedule], [env_destroy] ([kern/sched.c]); SchedThms.v.
    - TlbEx.v: TLB exceptions and the kernel's accesses to user memory ([kern/tlbex.c]);
      TlbThms.v.
    - Syscall.v: the 23 system calls and the dispatcher ([kern/syscall_all.c]); MemThms.v,
      IpcThms.v, SysThms.v.
    - Traps.v: the exception vector and the return path ([kern/traps.c], [kern/genex.S]).
    - Kernel.v, KernelCalls.v, KernelSafe.v: the kernel as a whole. Kernel.v has the invariant
      of a kernel under which a program runs ([on_cpu]), KernelCalls.v one lemma for each
      system call, KernelSafe.v the entries of the kernel as events of the programs.
    - Boot.v: the start of the kernel, from reset to the first program ([init/init.c], the
      mips_init of [tests/lab3_1], [tests/lab4_2]), and the self-tests of pmap.c and env.c.
    - Str.v, Print.v, Output.v: [lib/string.c], [lib/print.c], and printing by the kernel and
      by user programs ([kern/printk.c], [kern/console.c], [user/lib/debugf.c]); StrThms.v,
      PrintThms.v, OutputThms.v.

    A system call enters through [Traps.exception], which runs [Syscall.do_syscall] on the
    saved frame; the handlers call Env.v, Sched.v and Pmap.v (through [pmap_op], which runs a
    computation on the page tables inside the kernel's state), and the return path of Traps.v
    delivers signals with [Signal._do_signal].

    The file server:
    - Wp.v: weakest preconditions for the monad.
    - Ide.v: the disk driver and the memory of the server ([fs/ide.c]); Gx.v: a device.
    - Fs.v: block cache, bitmap, files, directories, paths ([fs/fs.c]); FsMem.v, FsCache.v
      (the invariant [fs_ok] and the view of the disk through the cache), FsBlockThms.v,
      FsInit.v, FsPath.v.
    - Serv.v: the open-file table and the requests ([fs/serv.c]); ServThms.v. Check.v: the
      self-test ([fs/check.c]).

    The image of the disk ([tools/fsformat.c], a program of the host):
    - FsFormat.v: the tool over the bytes of its array of blocks; the files of the host are
      values of [hnode].
    - FsFormatDir.v (links of a file, directories, [create_file]), FsFormatTree.v (contents,
      trees), FsFormatNode.v (the recursion over directories), FsFormatMain.v (start, bitmap,
      the image).
    - FsImage.v: the image under the server of Fs.v.
    - HostTools.v: the other programs of the host: [tools/bintoc.c], whose C file reads back to
      the binary, and [tools/readelf].

    User programs:
    - Uproc.v: a process as its library sees it: its page table, frames, messages
      ([user/lib/syscall_lib.c], [ipc.c], [pageref.c]).
    - Fd.v, Ufile.v, Upipe.v, FdOps.v: descriptors, files, pipes, the console and the calls
      that dispatch on the device ([user/lib/fd.c], [fsipc.c], [file.c], [pipe.c],
      [console.c], [fprintf.c]). PipeRing.v, PipeThms.v: the ring and the reference
      counts of a pipe under preemption.
    - Fork.v: [fork] and the copy-on-write handler over the page tables of all environments
      ([user/lib/fork.c]); ForkThms.v, ForkIso.v (two memories), ForkKernel.v and
      ForkAccess.v (the kernel implements that description).
    - Shell.v: the shell ([user/sh.c]) and [wait] ([user/lib/wait.c]); ShellThms.v.
    - UprocMem.v: loads, stores and copies in a process. Spawn.v: starting a program
      ([user/lib/spawn.c]); SpawnThms.v (the first page of the child's stack),
      SpawnLoad.v (segments), SpawnStart.v (registers, shared pages, status; no free
      environment).
    - FdOps.v also has start and end of a program ([user/lib/libos.c], [entry.S]). [wait] is in Shell.v.
    - Usignal.v: signal sets and the system calls on signals as a program makes them
      ([user/lib/signal.c]), over the state of the kernel; UsignalThms.v.
    - UserProgs.v: [cat], [echo], [num], [ls], [init], [icode] ([user/*.c]).

    Three descriptions of user memory meet here. Uproc.v has one process with its page table and
    the frames behind it. Fork.v has the page tables of all environments ([world]); Spawn.v
    joins the two: [to_world] puts the process and its children into a [world], so [spawn] uses
    the system calls of Fork.v on the tables of its child and the loads and stores of Uproc.v on
    its own. ForkKernel.v and ForkAccess.v tie [world] to the kernel: [sys_mem_alloc],
    [sys_mem_map], [sys_mem_unmap], [sys_exofork] and the TLB handlers on the kernel's state
    refine the calls and accesses of Fork.v.

    ** What the theorems show

    Each theorem that states a property of the code carries a claim number C<n> in its doc
    comment; a [_witness] after it applies it to a concrete state.
    - The kernel as a whole: for programs whose events (traps, loads, stores) respect
      [allowed], the invariant holds before every event, and the event ends in user mode or
      halts the machine, for want of memory or of a runnable environment or for a reason of
      [halts] ([kernel_safe]); start-up leads to such a state ([boot_safe], [boot_correct]).
      [allowed] admits loads from UTEMP up, of the windows [envs], [pages], [vpt] and [vpd]
      too, stores below UTOP, traps that satisfy [trap_ok] and system calls that satisfy
      [sane]. It leaves out what the findings of this development are about (permission bits
      from 12 on, stores to the page tables at UVPT, pointers outside user memory, a signal
      number outside the table, a second release of a receiver, the destruction of a stopped
      environment), stopping oneself, accesses below UTEMP, loads of page tables for addresses
      above ULIM, and the calls that send a signal; the comment of [kernel_safe] has the list.
    - Permissions: what the three system calls do with bits from 12 on, in every state
      ([user_perm_chooses_page]).
    - Memory: boot establishes [pmap_inv] ([mips_mem_init_correct]); [page_insert],
      [page_remove] and the freeing of an address space keep it, with their exact effect on
      mappings, reference counts, free list and TLB; the TLB never contradicts the tables of a
      live address space. The memory system calls inherit this on every branch.
    - Environments: [env_alloc], [env_free] and [sys_exofork] keep [kinv]; the refill handler
      ends after one allocation.
    - Scheduling: [schedule] as a function of the state, round robin, length of a slice.
    - Messages and signals: both branches of a send; a signal saved on the user's stack and
      restored by [sys_back_do_signal] leaves the interrupted context as it was.
    - Loader: the pages of a segment, and the case in which content is lost.
    - Output and strings: [vprintfmt] produces the text of a reference renderer; user and
      kernel print the same characters; [memcpy] by words equals the copy by bytes.
    - File system: a block survives being dropped from the cache and read again; allocation
      takes a free block and no other; start-up from a formatted disk establishes [fs_ok];
      [fs_sync] leaves the disk equal to the view; [walk_path] refines a search on the view.
    - Server: [open_alloc] hands out a slot that no client maps.
    - Fork: after [fork] each program sees its own memory: the pair refines two separate
      memories that start equal ([fork_snapshot]).
    - Pipes: with the byte copied first the ring refines a queue under every preemption, with
      the position stored first as long as no thread is preempted between the two, and not
      otherwise; a reader never sees a pipe closed too early as long as [close] unmaps the
      descriptor first; where [fork] breaks this, and where the positions wrap.
    - Descriptors: the table, the lookup with the page fault its unguarded load of [vpt] may
      cause, the cycle of allocation and closing ([fd_table_correct]).
    - Shell: the tokens are those of a reference lexer.
    - Image: [main] of the tool returns for every tree of host files that fits; the server
      starts on the image with its invariant and a well-formed tree, and finds every file of
      the host under its path with the same bytes ([fsformat_wellformed], [fsformat_roundtrip];
      the latter composes the tool, [fs_init] and [walk_path]).
    - Fork and kernel: the kernel's system calls and its TLB handlers refine the world in which
      fork.c is verified ([kernel_implements_calls], [access_implements]).
    - Spawn: [init_stack] on every branch with the layout of the child's stack page; a segment
      is put into the child's pages and nowhere else; exactly the library pages are shared; the
      result when no environment is free.

    ** Fuel

    Recursion that is not structural takes fuel, and a theorem on the function shows that the
    fuel is enough: the refill loop needs 2 rounds ([_do_tlb_refill]), the scan of pending
    signals 1025 ([signal_fuel]: one more than the pool has nodes), the walk of a path as many
    rounds as it has characters, the digits of a number 32, the scan of a format or a line its
    length plus 2, strings of the server 8192 characters ([str_fuel]), a store that faults
    2 attempts. The loader's loops get a page for each 4096 bytes and two more.

    ** Limits

    - Kernel mode: faults of the kernel's own code, the fast path of the refill assembly, the
      size and replacement of the TLB, interrupts inside the kernel (it runs with them off).
      The TLB keeps an entry until it is invalidated.
    - Output for diagnosis ([printk] in handlers, [debugf] in the libraries) is left out of
      the code that calls it, [panic] ends the run with its message.
    - The self-tests of pmap.c and env.c ([page_check], [physical_memory_manage_check],
      [env_check], [envid2env_check]) are run on a machine of 64 MB; [pre_env_run] is left out.
    - Devices other than the disk and the console: [sys_write_dev] and [sys_read_dev] are
      modelled up to the transfer, which is an argument.
    - The stack a user function runs on; the file server's memory is one flat map.
    - Where C leaves the order of a copy and an increment open (pipe.c), the order is an
      argument, in Upipe.v ([runs]) and in PipeRing.v.
    - Uproc.v knows which page tables a process has ([tables]), so that a load of [vpt] may
      fault as it does in KernelSafe.v; the entries of the kernel's windows are left out
      there, and a page table costs an allocation of its own only when such a load makes it
      (elsewhere one answer stands for the page and its table).
    - Spawn.v: of a child's trap frame only the two words that [spawn] sets. A child does not
      run while its parent spawns it; the results of [fork] and the states that [wait] sees are
      inputs ([forks], [seen]).
    - FsFormat.v: the host's calls succeed, a read returns a full block while there is one, and
      the path of a file is its name. The theorems are for little-endian images;
      [reverse_block] (CONFIG_REVERSE_ENDIAN) is modelled without theorems.
    - UserProgs.v: [init]'s sums over its own data are left out; buffers and local variables
      are addresses given as arguments.

    ** Not modelled

    - [kern/entry.S] but for the entry of exceptions, [kern/kclock.S], [init/start.S]: setting
      registers; [kern/panic.c], [print_tf] and [_user_panic]: output of fixed texts.
    - The programs that only test the system ([test*.c], [fktest.c],
      [fstest.c], [pingpong.c], [tltest.c], [devtst.c], [idle.c], [halt.c], [user/bare/]) and
      the kernel's tests under [tests/]: clients of the library without logic of their own. *)

From Stdlib Require Import ZArith Lia.
From stdpp Require Import base numbers list gmap strings.

#[global] Open Scope Z_scope.

(** ** Machine integers

    [u_int] and [u_long] are 32 bits wide on MIPS32, [u_short] 16 and [u_char] 8:
    values are [Z], wrap-around is written where the code can overflow. *)

Definition u32 (z : Z) : Z := z mod 4294967296.
Definition u16 (z : Z) : Z := z mod 65536.
Definition u8 (z : Z) : Z := z mod 256.

(** The value of the 32-bit pattern [z] read as a C [int]. *)
Definition s32 (z : Z) : Z :=
  let w := u32 z in if w <? 2147483648 then w else w - 4294967296.

Definition is_u32 (z : Z) : Prop := 0 <= z < 4294967296.

(** C truth of [x & mask]. *)
Definition hasbits (x mask : Z) : bool := negb (Z.land x mask =? 0).

(** ** Outcomes and the state monad of the kernel

    [Val]: the function returns; [Panic]: [panic()] halts the machine; [Run e]:
    [env_run] leaves the kernel for environment [e] and never returns to its caller;
    [Undef]: the C code runs into undefined behaviour (a null or dangling pointer, an
    index out of range). *)
Inductive outcome (S A : Type) :=
| Val (a : A) (s : S)
| Panic (msg : string) (s : S)
| Run (e : Z) (s : S)
| Undef (why : string).
Arguments Val {S A} a s.
Arguments Panic {S A} msg s.
Arguments Run {S A} e s.
Arguments Undef {S A} why.

Definition M (S A : Type) : Type := S -> outcome S A.

#[global] Instance M_ret {S} : MRet (M S) := fun A a s => Val a s.
#[global] Instance M_bind {S} : MBind (M S) := fun A B k m s =>
  match m s with
  | Val a s' => k a s'
  | Panic msg s' => Panic msg s'
  | Run e s' => Run e s'
  | Undef why => Undef why
  end.

Section Primitives.
Context {S A : Type}.
Definition gets (f : S -> A) : M S A := fun s => Val (f s) s.
Definition modify (f : S -> S) : M S unit := fun s => Val tt (f s).
Definition panic (msg : string) : M S A := fun s => Panic msg s.
Definition undef (why : string) : M S A := fun _ => Undef why.
(** A partial pure step: [None] is undefined behaviour. *)
Definition lift_opt (why : string) (o : option A) : M S A :=
  match o with Some a => mret a | None => undef why end.
End Primitives.

Definition assert {S} (msg : string) (b : bool) : M S unit :=
  if b then mret tt else panic msg.
Definition when {S} (b : bool) (m : M S unit) : M S unit := if b then m else mret tt.

(** [for] over an explicit list of loop indices. *)
Fixpoint for_each {S X} (l : list X) (body : X -> M S unit) : M S unit :=
  match l with
  | [] => mret tt
  | x :: l' => body x ;; for_each l' body
  end.

(** Indices [a, a+1, ..., a+n-1]. *)
Fixpoint zseq (a : Z) (n : nat) : list Z :=
  match n with O => [] | S n' => a :: zseq (a + 1) n' end.

(** Run a computation over a part [T] of the state [S]. *)
Definition zoom {S T A} (get : S -> T) (put : T -> S -> S) (m : M T A) : M S A := fun s =>
  match m (get s) with
  | Val a t => Val a (put t s)
  | Panic msg t => Panic msg (put t s)
  | Run e t => Run e (put t s)
  | Undef why => Undef why
  end.

(** A C function that returns an error code or sets an out parameter. *)
Inductive cres (A : Type) := Err (r : Z) | Ok (a : A).
Arguments Err {A} r.
Arguments Ok {A} a.

(** The [int] such a function returns. *)
Definition rc {A} (r : cres A) : Z := match r with Err e => e | Ok _ => 0 end.

(** ** Error codes (include/error.h) *)
Definition E_UNSPECIFIED := 1.
Definition E_BAD_ENV := 2.
Definition E_INVAL := 3.
Definition E_NO_MEM := 4.
Definition E_NO_SYS := 5.
Definition E_NO_FREE_ENV := 6.
Definition E_IPC_NOT_RECV := 7.
Definition E_NO_DISK := 8.
Definition E_MAX_OPEN := 9.
Definition E_NOT_FOUND := 10.
Definition E_BAD_PATH := 11.
Definition E_FILE_EXISTS := 12.
Definition E_NOT_EXEC := 13.

(** ** Laws of the monad *)
Section Laws.
Context {S : Type}.

Lemma bind_ext {A B} (m : M S A) (f g : A -> M S B) s :
  (forall a s', f a s' = g a s') -> (m ≫= f) s = (m ≫= g) s.
Proof. intros H. unfold mbind, M_bind. by destruct (m s). Qed.

Lemma bind_val {A B} (m : M S A) (k : A -> M S B) s a s' :
  m s = Val a s' -> (m ≫= k) s = k a s'.
Proof. intros H. unfold mbind, M_bind. by rewrite H. Qed.

Lemma bind_panic {A B} (m : M S A) (k : A -> M S B) s w s' :
  m s = Panic w s' -> (m ≫= k) s = Panic w s'.
Proof. intros H. unfold mbind, M_bind. by rewrite H. Qed.

Lemma bind_run {A B} (m : M S A) (k : A -> M S B) s e s' :
  m s = Run e s' -> (m ≫= k) s = Run e s'.
Proof. intros H. unfold mbind, M_bind. by rewrite H. Qed.

Lemma bind_ret {A B} (a : A) (k : A -> M S B) s : (mret a ≫= k) s = k a s.
Proof. reflexivity. Qed.

Lemma bind_gets {A B} (f : S -> A) (k : A -> M S B) s : (gets f ≫= k) s = k (f s) s.
Proof. reflexivity. Qed.

Lemma bind_modify {B} (f : S -> S) (k : unit -> M S B) s :
  (modify f ≫= k) s = k tt (f s).
Proof. reflexivity. Qed.

Lemma bind_bind {A B C} (m : M S A) (k : A -> M S B) (h : B -> M S C) s :
  ((m ≫= k) ≫= h) s = (m ≫= (fun a => k a ≫= h)) s.
Proof. unfold mbind, M_bind. by destruct (m s). Qed.

Lemma bind_assert_true {B} msg (k : unit -> M S B) s :
  (assert msg true ≫= k) s = k tt s.
Proof. reflexivity. Qed.

(** Inversion: a sequence that returns did return from its first step. *)
Lemma bind_val_inv {A B} (m : M S A) (k : A -> M S B) s b s2 :
  (m ≫= k) s = Val b s2 -> exists a s1, m s = Val a s1 /\ k a s1 = Val b s2.
Proof. unfold mbind, M_bind. destruct (m s); naive_solver. Qed.
End Laws.

Lemma zoom_val {S T A} (get : S -> T) put (m : M T A) s a t :
  m (get s) = Val a t -> zoom get put m s = Val a (put t s).
Proof. intros H. unfold zoom. by rewrite H. Qed.

Lemma zoom_val_inv {S T A} (get : S -> T) put (m : M T A) s a s' :
  zoom get put m s = Val a s' -> exists t, m (get s) = Val a t /\ s' = put t s.
Proof. unfold zoom. destruct (m (get s)); naive_solver. Qed.

(** Loop rule: an invariant over the indices still to visit. *)
Lemma for_each_inv {S X} (I : list X -> S -> Prop) (body : X -> M S unit) l s :
  I l s ->
  (forall x l' s, I (x :: l') s -> exists s', body x s = Val tt s' /\ I l' s') ->
  exists s', for_each l body s = Val tt s' /\ I [] s'.
Proof.
  intros H0 Hstep. revert s H0. induction l as [|x l IH]; intros s H0; cbn.
  - by exists s.
  - destruct (Hstep x l s H0) as (s1 & E1 & I1).
    destruct (IH s1 I1) as (s2 & E2 & I2). exists s2. split; [|done].
    by rewrite (bind_val _ _ _ _ _ E1).
Qed.

Lemma for_each_app {S X} (body : X -> M S unit) l1 l2 s :
  for_each (l1 ++ l2) body s = (for_each l1 body ;; for_each l2 body) s.
Proof.
  revert s. induction l1 as [|x l1 IH]; intros s; cbn; [done|].
  rewrite bind_bind. unfold mbind, M_bind. destruct (body x s); [|done..]. apply IH.
Qed.

(** One step of symbolic execution of a monadic body. *)
Ltac mstep :=
  first
    [ rewrite bind_ret | rewrite bind_gets | rewrite bind_modify | rewrite bind_assert_true
    | rewrite bind_bind
    | match goal with H : ?m ?s = Val _ _ |- context [(?m ≫= _) ?s] => rewrite (bind_val _ _ _ _ _ H) end ].
Ltac msteps := repeat (mstep; cbn beta iota).

(** [lia] with quotients and remainders by constants expanded. *)
Ltac dlia := Z.to_euclidean_division_equations; lia.

(** ** Lists of integers *)
Lemma zseq_length a n : length (zseq a n) = n.
Proof. revert a. induction n as [|n IH]; intros a; cbn; [done|]. by rewrite IH. Qed.

Lemma zseq_S a n : zseq a (S n) = a :: zseq (a + 1) n.
Proof. done. Qed.

Lemma zseq_snoc a n : zseq a (S n) = zseq a n ++ [a + Z.of_nat n].
Proof.
  revert a. induction n as [|n IH]; intros a; [cbn; f_equal; lia|].
  rewrite (zseq_S a (S n)), IH, (zseq_S a n). cbn [app]. do 3 f_equal. lia.
Qed.

Lemma elem_of_zseq a n x : x ∈ zseq a n <-> a <= x < a + Z.of_nat n.
Proof.
  revert a. induction n as [|n IH]; intros a.
  - split; [intros H; by apply elem_of_nil in H|lia].
  - rewrite zseq_S, elem_of_cons, IH. lia.
Qed.

Lemma zseq_lookup a n i : (i < n)%nat -> zseq a n !! i = Some (a + Z.of_nat i).
Proof.
  revert a i. induction n as [|n IH]; intros a i Hi; [lia|]. cbn [zseq]. destruct i as [|i]; cbn [lookup list_lookup].
  - f_equal. lia.
  - rewrite IH by lia. f_equal. lia.
Qed.

Lemma NoDup_zseq a n : NoDup (zseq a n).
Proof.
  revert a. induction n as [|n IH]; intros a; constructor; [|done].
  rewrite elem_of_zseq. lia.
Qed.

(** A list without the occurrences of one element. *)
Definition without (x : Z) (l : list Z) : list Z := filter (fun y : Z => y <> x) l.

Lemma elem_of_without x y l : y ∈ without x l <-> y <> x /\ y ∈ l.
Proof. unfold without. by rewrite list_elem_of_filter. Qed.

Lemma NoDup_without x l : NoDup l -> NoDup (without x l).
Proof. apply NoDup_filter. Qed.

Lemma without_notin x l : x ∉ l -> without x l = l.
Proof. intros H. induction l as [|y l IH]; [done|]. apply not_elem_of_cons in H as [Hy H].
  unfold without. rewrite filter_cons_True by congruence. f_equal. by apply IH. Qed.

Lemma without_split x l1 l2 :
  NoDup (l1 ++ x :: l2) -> without x (l1 ++ x :: l2) = l1 ++ l2.
Proof.
  intros (N1 & N2 & N3)%NoDup_app. apply NoDup_cons in N3 as [N3 _].
  unfold without. rewrite filter_app, filter_cons_False by (intros H; by apply H).
  f_equal; apply without_notin; [|done]. intros H. apply (N2 x H). left.
Qed.

(** Cartesian products. *)
Lemma elem_of_list_prod {A B} (l : list A) (k : list B) a b :
  (a, b) ∈ list_prod l k <-> a ∈ l /\ b ∈ k.
Proof. by rewrite !list_elem_of_In, in_prod_iff. Qed.

Lemma NoDup_list_prod {A B} (l : list A) (k : list B) :
  NoDup l -> NoDup k -> NoDup (list_prod l k).
Proof.
  intros Hl Hk. induction Hl as [|a l Ha Hl IH]; cbn; [constructor|].
  apply NoDup_app. split_and!; [|intros x Hx Hx2|done].
  - apply NoDup_fmap_2; [|done]. by intros ? ? [= ->].
  - destruct x as [a' b]. apply elem_of_list_prod in Hx2 as [Hx2 _].
    apply list_elem_of_fmap in Hx as (b' & [= -> ->] & _). done.
Qed.

Lemma list_prod_app_l {A B} (l1 l2 : list A) (k : list B) :
  list_prod (l1 ++ l2) k = list_prod l1 k ++ list_prod l2 k.
Proof. induction l1 as [|a l1 IH]; cbn; [done|]. by rewrite IH, app_assoc. Qed.

Lemma NoDup_map_inj {A B} (f : A -> B) l i j :
  NoDup (map f l) -> i ∈ l -> j ∈ l -> f i = f j -> i = j.
Proof.
  intros N (a & Ha)%list_elem_of_lookup (b & Hb)%list_elem_of_lookup E.
  assert (a = b) as ->; [|congruence].
  apply (NoDup_lookup (f <$> l) a b (f i)); [done|by rewrite list_lookup_fmap, Ha|].
  by rewrite list_lookup_fmap, Hb, E.
Qed.

(** ** Sums over lists *)
Definition zsum {X} (f : X -> Z) (l : list X) : Z := foldr (fun x acc => f x + acc) 0 l.

Section Zsum.
Context {X : Type}.
Implicit Types (f g : X -> Z) (l : list X).

Lemma zsum_cons f x l : zsum f (x :: l) = f x + zsum f l.
Proof. done. Qed.

Lemma zsum_ext f g l : (forall x, x ∈ l -> f x = g x) -> zsum f l = zsum g l.
Proof.
  induction l as [|x l IH]; intros H; [done|]. rewrite !zsum_cons.
  rewrite (H x) by left. f_equal. apply IH. intros y Hy. apply H. by right.
Qed.

Lemma zsum_nonneg f l : (forall x, x ∈ l -> 0 <= f x) -> 0 <= zsum f l.
Proof.
  induction l as [|x l IH]; intros H; [done|]. rewrite zsum_cons.
  pose proof (H x ltac:(left)). assert (0 <= zsum f l); [|lia].
  apply IH. intros y Hy. apply H. by right.
Qed.

(** Changing the summand at one point of a duplicate-free list. *)
Lemma zsum_upd f g l x :
  NoDup l -> x ∈ l -> (forall y, y ∈ l -> y <> x -> f y = g y) ->
  zsum f l = zsum g l + (f x - g x).
Proof.
  intros Hnd. induction Hnd as [|y l Hy Hnd IH]; intros Hx H; [by apply not_elem_of_nil in Hx|].
  rewrite !zsum_cons. apply elem_of_cons in Hx as [->|Hx].
  - rewrite (zsum_ext f g l); [lia|]. intros z Hz. apply H; [by right|]. by intros ->.
  - rewrite (H y) by (left || (intros ->; done)). rewrite IH; [lia|done|].
    intros z Hz. apply H. by right.
Qed.

Lemma zsum_ge f l x : (forall y, y ∈ l -> 0 <= f y) -> x ∈ l -> f x <= zsum f l.
Proof.
  induction l as [|y l IH]; intros H Hx; [by apply not_elem_of_nil in Hx|].
  rewrite zsum_cons. pose proof (H y ltac:(left)).
  assert (0 <= zsum f l) by (apply zsum_nonneg; intros z Hz; apply H; by right).
  apply elem_of_cons in Hx as [->|Hx]; [lia|].
  assert (f x <= zsum f l); [|lia]. apply IH; [|done]. intros z Hz. apply H. by right.
Qed.
End Zsum.

Lemma zsum_app {X} (f : X -> Z) l k : zsum f (l ++ k) = zsum f l + zsum f k.
Proof. induction l as [|x l IH]; [done|]. cbn [app]. rewrite !zsum_cons, IH. lia. Qed.

Lemma zsum_zero {X} (f : X -> Z) l : (forall x, x ∈ l -> f x = 0) -> zsum f l = 0.
Proof.
  induction l as [|x l IH]; intros H; [done|]. rewrite zsum_cons, (H x), IH; [done| |left].
  intros y Hy. apply H. by right.
Qed.

(** ** Bits *)
Lemma hasbits_testbit x k : 0 <= k -> hasbits x (2 ^ k) = Z.testbit x k.
Proof.
  intros Hk. unfold hasbits. destruct (Z.testbit x k) eqn:E.
  - apply negb_true_iff, Z.eqb_neq. intros H0.
    apply (f_equal (fun z => Z.testbit z k)) in H0.
    rewrite Z.land_spec, E, Z.pow2_bits_true, Z.bits_0 in H0 by done. done.
  - apply negb_false_iff, Z.eqb_eq. apply Z.bits_inj'. intros n Hn.
    rewrite Z.land_spec, Z.bits_0, Z.pow2_bits_eqb by done.
    destruct (Z.eqb_spec k n) as [->|]; [by rewrite E|by rewrite andb_false_r].
Qed.

Lemma shiftr_div x k : 0 <= k -> Z.shiftr x k = x / 2 ^ k.
Proof. apply Z.shiftr_div_pow2. Qed.

Lemma land_ones_mod x k : 0 <= k -> Z.land x (Z.ones k) = x mod 2 ^ k.
Proof. apply Z.land_ones. Qed.

Lemma u32_small z : is_u32 z -> u32 z = z.
Proof. intros H. unfold u32. by apply Z.mod_small. Qed.

Lemma u32_range z : is_u32 (u32 z).
Proof. unfold u32, is_u32. apply Z.mod_pos_bound. lia. Qed.

Create HintDb mos.
Create Rewrite HintDb mos_rw.
#[export] Hint Resolve u32_range NoDup_zseq zseq_length : mos.
#[export] Hint Rewrite @zseq_length : mos_rw.
