(* ===== verification/Queue.v ===== *)
(** * Intrusive queues (include/queue.h)

    The LIST and TAILQ macros over explicit link fields. An element is the index of a
    structure in its array ([pages], [envs]); a pointer is an [option Z] with [None] for
    NULL; a [T **] pointer is the address of a link cell: the head's first pointer or the
    next field of an element. The macros are translated store by store, so a removal that
    goes through a null or stale [le_prev] behaves as the code does. The refinement
    lemmas relate them to operations on lists for states that represent a list. *)

From stdpp Require Import base numbers list gmap.
From S2P Require Import Prelude.

(** ** Cells: what a [T **] link pointer can point to *)
Inductive cell := CHead | CNext (e : Z).

#[global] Instance cell_eq_dec : EqDecision cell.
Proof. solve_decision. Defined.

(** ** LIST *)
Module LIST.

(** A head and the [LIST_ENTRY] fields of all elements. Zero-filled fields are absent
    from the maps: a missing [le_next] or [le_prev] is NULL. *)
Record t := mk {
  lh_first : option Z;
  le_next : gmap Z (option Z);
  le_prev : gmap Z cell }.

Definition next (q : t) (e : Z) : option Z := default None (le_next q !! e).

Definition empty : t := mk None ∅ ∅.

Definition set_first (v : option Z) (q : t) : t := mk v (le_next q) (le_prev q).
Definition set_next (e : Z) (v : option Z) (q : t) : t :=
  mk (lh_first q) (<[e := v]> (le_next q)) (le_prev q).
Definition set_prev (e : Z) (c : cell) (q : t) : t :=
  mk (lh_first q) (le_next q) (<[e := c]> (le_prev q)).

(** [*c] and [*c = v] *)
Definition read_cell (q : t) (c : cell) : option Z :=
  match c with CHead => lh_first q | CNext e => next q e end.
Definition write_cell (c : cell) (v : option Z) (q : t) : t :=
  match c with CHead => set_first v q | CNext e => set_next e v q end.

Definition LIST_EMPTY (q : t) : bool := match lh_first q with None => true | _ => false end.
Definition LIST_FIRST (q : t) : option Z := lh_first q.
Definition LIST_INIT (q : t) : t := set_first None q.

Definition LIST_INSERT_AFTER (listelm elm : Z) (q : t) : t :=
  let q := set_prev elm (CNext listelm) q in
  let q := set_next elm (next q listelm) q in
  let q := match next q elm with Some n => set_prev n (CNext elm) q | None => q end in
  set_next listelm (Some elm) q.

Definition LIST_INSERT_BEFORE (listelm elm : Z) (q : t) : option t :=
  c ← le_prev q !! listelm;
  let q := set_prev elm c q in
  let q := set_next elm (Some listelm) q in
  c' ← le_prev q !! listelm;
  let q := write_cell c' (Some elm) q in
  Some (set_prev listelm (CNext elm) q).

Definition LIST_INSERT_HEAD (elm : Z) (q : t) : t :=
  let q := set_next elm (lh_first q) q in
  let q := match lh_first q with Some f => set_prev f (CNext elm) q | None => q end in
  let q := set_first (Some elm) q in
  set_prev elm CHead q.

(** [None]: the store through a null [le_prev]. *)
Definition LIST_REMOVE (elm : Z) (q : t) : option t :=
  c ← le_prev q !! elm;
  let q := match next q elm with Some n => set_prev n c q | None => q end in
  c' ← le_prev q !! elm;
  Some (write_cell c' (next q elm) q).

(** [LIST_FOREACH], as the list of elements visited in at most [fuel] steps. *)
Fixpoint LIST_FOREACH (fuel : nat) (q : t) (var : option Z) : list Z :=
  match fuel, var with
  | S n, Some e => e :: LIST_FOREACH n q (next q e)
  | _, _ => []
  end.

(** *** Representation of a list *)
Fixpoint lseg (q : t) (c : cell) (l : list Z) : Prop :=
  match l with
  | [] => read_cell q c = None
  | x :: l' => read_cell q c = Some x /\ le_prev q !! x = Some c /\ lseg q (CNext x) l'
  end.

Definition is_list (q : t) (l : list Z) : Prop := NoDup l /\ lseg q CHead l.

(** Cells a segment reads. *)
Fixpoint lcells (c : cell) (l : list Z) : list cell :=
  c :: match l with [] => [] | x :: l' => lcells (CNext x) l' end.

Lemma elem_of_lcells c l x : CNext x ∈ lcells c l -> c = CNext x \/ x ∈ l.
Proof.
  revert c. induction l as [|y l IH]; intros c; cbn; rewrite elem_of_cons.
  - intros [->|H]; [by left|]. by apply elem_of_nil in H.
  - intros [->|H]; [by left|]. right. apply IH in H as [[= ->]|H]; [left|by right].
Qed.

Lemma CHead_not_lcells x l : CHead ∉ lcells (CNext x) l.
Proof.
  revert x. induction l as [|y l IH]; intros x; cbn; rewrite elem_of_cons; intros [?|H];
    try done; [by apply elem_of_nil in H|by apply (IH y)].
Qed.

(** A segment only depends on the cells it reads and on the back pointers of its elements. *)
Lemma lseg_frame q q' c l :
  (forall c', c' ∈ lcells c l -> read_cell q' c' = read_cell q c') ->
  (forall x, x ∈ l -> le_prev q' !! x = le_prev q !! x) ->
  lseg q c l -> lseg q' c l.
Proof.
  revert c. induction l as [|x l IH]; intros c Hc Hp; cbn.
  - rewrite Hc by left. done.
  - intros (H1 & H2 & H3). rewrite Hc, Hp by left. split_and!; [done..|].
    apply IH; [..|done].
    + intros c' Hc'. apply Hc. by right.
    + intros y Hy. apply Hp. by right.
Qed.

Lemma is_list_nil q : lh_first q = None -> is_list q [].
Proof. intros H. split; [constructor|done]. Qed.

Lemma is_list_head q x l : is_list q (x :: l) -> LIST_FIRST q = Some x.
Proof. by intros (_ & H & _). Qed.

Lemma is_list_empty q l : is_list q l -> LIST_EMPTY q = true <-> l = [].
Proof.
  intros (_ & H). unfold LIST_EMPTY. destruct l; cbn in H; [by rewrite H|].
  destruct H as (-> & _). done.
Qed.

Lemma next_set_next q e v e' :
  next (set_next e v q) e' = if decide (e = e') then v else next q e'.
Proof. unfold next, set_next; cbn. rewrite lookup_insert. by case_decide. Qed.

Lemma next_set_prev q e c e' : next (set_prev e c q) e' = next q e'.
Proof. done. Qed.

Lemma le_prev_write_cell c v q : le_prev (write_cell c v q) = le_prev q.
Proof. by destruct c. Qed.

Lemma read_write_cell q c v c' :
  read_cell (write_cell c v q) c' = if decide (c = c') then v else read_cell q c'.
Proof.
  destruct c as [|e], c' as [|e']; cbn; try done.
  rewrite next_set_next. repeat case_decide; congruence.
Qed.

(** [LIST_INSERT_HEAD] is cons. *)
Lemma insert_head_refines q l x :
  is_list q l -> x ∉ l -> is_list (LIST_INSERT_HEAD x q) (x :: l).
Proof.
  intros (Hnd & Hl) Hx. split; [by constructor|]. unfold LIST_INSERT_HEAD. cbn.
  destruct l as [|y l]; cbn in Hl.
  - rewrite Hl. cbn. unfold next; cbn. rewrite !lookup_insert_eq. done.
  - destruct Hl as (Hf & Hp & Hl). rewrite Hf. cbn.
    apply not_elem_of_cons in Hx as [Hxy Hx]. apply NoDup_cons in Hnd as [Hy Hnd].
    unfold next at 1; cbn. rewrite !lookup_insert_eq, lookup_insert_ne, lookup_insert_eq by done.
    split_and!; [done..|]. eapply lseg_frame; [..|exact Hl].
    + intros [|e] He; [by apply CHead_not_lcells in He|]. cbn. rewrite !next_set_prev.
      unfold next; cbn. rewrite lookup_insert_ne; [done|]. intros ->.
      apply elem_of_lcells in He as [[= ->]|He]; done.
    + intros z Hz. cbn. rewrite !lookup_insert_ne; [done|..]; by intros ->.
Qed.

Lemma lseg_split q c l1 x l2 :
  lseg q c (l1 ++ x :: l2) ->
  exists c', le_prev q !! x = Some c' /\ read_cell q c' = Some x /\ lseg q (CNext x) l2 /\
    c' ∈ lcells c l1 /\ (l1 = [] -> c' = c).
Proof.
  revert c. induction l1 as [|y l1 IH]; intros c; cbn.
  - intros (H1 & H2 & H3). exists c. split_and!; try done. left.
  - intros (H1 & H2 & H3). destruct (IH _ H3) as (c' & Hc & Hr & Hl & Hin & _).
    exists c'. split_and!; try done. by right.
Qed.

(** [LIST_REMOVE] of a member deletes it and keeps the order of the others. *)
Lemma lseg_remove q c l1 x l2 c' :
  NoDup (l1 ++ x :: l2) -> c <> CNext x -> (forall y, c = CNext y -> y ∉ l1 ++ x :: l2) ->
  lseg q c (l1 ++ x :: l2) -> le_prev q !! x = Some c' ->
  let q1 := match next q x with Some n => set_prev n c' q | None => q end in
  lseg (write_cell c' (next q x) q1) c (l1 ++ l2).
Proof.
  revert c. induction l1 as [|y l1 IH]; intros c Hnd Hcx Hcl; cbn -[write_cell].
  - intros (H1 & H2 & H3) E. rewrite H2 in E. injection E as ->.
    apply NoDup_cons in Hnd as [Hx Hnd].
    destruct l2 as [|z l2].
    + cbn in H3. rewrite H3. cbn. rewrite read_write_cell. by rewrite decide_True.
    + destruct H3 as (H3 & H4 & H5). cbn in H3. rewrite H3. cbn.
      rewrite read_write_cell, decide_True, le_prev_write_cell by done. cbn.
      rewrite lookup_insert_eq. split_and!; [done..|].
      apply NoDup_cons in Hnd as [Hz Hnd].
      eapply lseg_frame; [..|exact H5].
      * intros c0 Hc0. rewrite read_write_cell, decide_False; [by destruct c0|].
        intros <-. destruct c' as [|e]; [by apply CHead_not_lcells in Hc0|].
        apply elem_of_lcells in Hc0 as [[= ->]|Hc0]; apply (Hcl e eq_refl); [right; left|].
        do 2 right. done.
      * intros w Hw. rewrite le_prev_write_cell. cbn. rewrite lookup_insert_ne; [done|]. by intros ->.
  - intros (H1 & H2 & H3) E. apply NoDup_cons in Hnd as [Hy Hnd].
    assert (Hxy : x <> y). { intros ->. apply Hy. apply elem_of_app. right. left. }
    destruct (lseg_split _ _ _ _ _ H3) as (c0 & Hc0 & _ & Hl2 & Hin & _).
    rewrite E in Hc0. injection Hc0 as <-.
    assert (Hcc : c' <> c).
    { intros ->. destruct c as [|e]; [by apply CHead_not_lcells in Hin|].
      apply elem_of_lcells in Hin as [[= ->]|Hin]; apply (Hcl e eq_refl).
      - left. - right. apply elem_of_app. by left. }
    assert (Hny : next q x <> Some y).
    { intros Hn. destruct l2 as [|z l2]; cbn in Hl2; [congruence|].
      destruct Hl2 as (Hz & _). assert (z = y) as -> by congruence.
      apply Hy. apply elem_of_app. right. right. left. }
    split_and!.
    + rewrite read_write_cell, decide_False by done.
      destruct (next q x); [|done]. by destruct c.
    + rewrite le_prev_write_cell. destruct (next q x) as [n|] eqn:En; [|done].
      cbn. rewrite lookup_insert_ne by congruence. done.
    + apply IH; try done; [congruence|]. intros ? [= <-]. done.
Qed.

Lemma remove_refines q l1 x l2 :
  is_list q (l1 ++ x :: l2) ->
  exists q', LIST_REMOVE x q = Some q' /\ is_list q' (l1 ++ l2).
Proof.
  intros (Hnd & Hl). destruct (lseg_split _ _ _ _ _ Hl) as (c' & Hc & _ & Hl2 & _).
  unfold LIST_REMOVE. rewrite Hc. cbn -[write_cell].
  assert (Hp : le_prev (match next q x with Some n => set_prev n c' q | None => q end) !! x
    = Some c').
  { destruct (next q x) as [n|] eqn:En; [|done]. cbn. rewrite lookup_insert_ne; [done|].
    intros ->. destruct l2 as [|z l2]; cbn in Hl2; [congruence|]. destruct Hl2 as (Hz & _).
    assert (z = x) as -> by congruence. apply NoDup_app in Hnd as (_ & _ & Hnd).
    apply NoDup_cons in Hnd as [Hn _]. apply Hn. left. }
  rewrite Hp. cbn -[write_cell]. eexists. split; [reflexivity|]. split.
  { apply NoDup_app in Hnd as (N1 & N2 & N3). apply NoDup_cons in N3 as [_ N3].
    apply NoDup_app. split_and!; [done| |done]. intros y Hy Hy2. apply (N2 y Hy). by right. }
  replace (next (match next q x with Some n => set_prev n c' q | None => q end) x)
    with (next q x) by (destruct (next q x) eqn:En; rewrite ?next_set_prev; congruence).
  apply (lseg_remove q CHead); done.
Qed.

(** Removing the head. *)
Lemma remove_head_refines q x l :
  is_list q (x :: l) -> exists q', LIST_REMOVE x q = Some q' /\ is_list q' l.
Proof. apply (remove_refines q [] x l). Qed.

(** [LIST_INSERT_AFTER] of a fresh element. *)
Lemma lseg_insert_after q c l1 a l2 x :
  x ∉ l1 ++ a :: l2 -> c <> CNext x -> NoDup (l1 ++ a :: l2) ->
  (forall y, c = CNext y -> y ∉ l1 ++ a :: l2) ->
  lseg q c (l1 ++ a :: l2) -> lseg (LIST_INSERT_AFTER a x q) c (l1 ++ a :: x :: l2).
Proof.
  intros Hx Hcx Hnd Hcl Hl.
  assert (Hxa : x <> a). { intros ->. apply Hx, elem_of_app. right. left. }
  set (q1 := LIST_INSERT_AFTER a x q).
  assert (Rn : forall e, next q1 e =
    if decide (a = e) then Some x else if decide (x = e) then next q a else next q e).
  { intros e. unfold q1, LIST_INSERT_AFTER. rewrite next_set_next. case_decide; [done|].
    rewrite !next_set_prev, next_set_next, decide_True by done.
    destruct (next q a); rewrite ?next_set_prev, next_set_next; repeat case_decide; done. }
  assert (Rh : lh_first q1 = lh_first q).
  { unfold q1, LIST_INSERT_AFTER. cbn. by destruct (next _ x). }
  assert (Rp : forall e, le_prev q1 !! e =
    if decide (next q a = Some e) then Some (CNext x) else
    if decide (x = e) then Some (CNext a) else le_prev q !! e).
  { intros e. unfold q1, LIST_INSERT_AFTER. rewrite !next_set_prev, next_set_next, decide_True by done.
    destruct (next q a) as [n|]; cbn; rewrite ?lookup_insert; repeat case_decide; naive_solver. }
  clearbody q1. revert c Hcx Hnd Hcl Hl Hx.
  induction l1 as [|y l1 IH]; intros c Hcx Hnd Hcl Hl Hx; cbn in *.
  - destruct Hl as (H1 & H2 & H3). apply NoDup_cons in Hnd as [Ha Hnd].
    assert (Hna : next q a <> Some a).
    { intros E. destruct l2 as [|z l2]; cbn in H3; [congruence|]. destruct H3 as (Hz & _).
      assert (z = a) as -> by congruence. apply Ha. left. }
    assert (Hnx : next q a <> Some x).
    { intros E. destruct l2 as [|z l2]; cbn in H3; [congruence|]. destruct H3 as (Hz & _).
      assert (z = x) as -> by congruence. apply Hx. right. left. }
    rewrite !Rp. rewrite (decide_False (P := next q a = Some a)) by done.
    rewrite (decide_False (P := x = a)) by done.
    rewrite (decide_False (P := next q a = Some x)), (decide_True (P := x = x)) by done.
    split_and!; try done.
    + destruct c as [|e]; cbn; [by rewrite Rh|]. rewrite Rn.
      rewrite decide_False; [|intros ->; apply (Hcl e eq_refl); left].
      rewrite decide_False; [done|congruence].
    + rewrite Rn. by rewrite decide_True.
    + assert (Hsub : lseg q1 (CNext x) l2); [|done].
      destruct l2 as [|z l2]; cbn in H3 |- *; rewrite Rn, decide_False, decide_True by done.
      * done.
      * destruct H3 as (H3 & H4 & H5). rewrite Rp, decide_True by done. split_and!; try done.
        apply NoDup_cons in Hnd as [Hz Hnd].
        eapply lseg_frame; [..|exact H5].
        -- intros [|e] He; [by apply CHead_not_lcells in He|]. cbn. rewrite Rn.
           apply elem_of_lcells in He. rewrite !decide_False; [done|..]; intros <-.
           ++ destruct He as [[= ->]|He]; apply Hx; [right; left|]. by do 2 right.
           ++ destruct He as [[= ->]|He]; apply Ha; [left|]. by right.
        -- intros w Hw. rewrite Rp, !decide_False; [done|..].
           ++ intros <-. apply Hx. by do 2 right.
           ++ intros E. assert (w = z) as -> by congruence. done.
  - destruct Hl as (H1 & H2 & H3). apply NoDup_cons in Hnd as [Hy Hnd].
    apply not_elem_of_cons in Hx as [Hxy Hx].
    assert (Hay : a <> y). { intros ->. apply Hy, elem_of_app. right. left. }
    destruct (lseg_split _ _ _ _ _ H3) as (c0 & Hc0 & _ & Hl2 & _).
    split_and!.
    + destruct c as [|e]; cbn; [by rewrite Rh|]. rewrite Rn, !decide_False; [done|congruence|].
      intros ->. apply (Hcl e eq_refl). right. apply elem_of_app. right. left.
    + rewrite Rp, !decide_False; [done|done|]. intros E.
      destruct l2 as [|z l2]; cbn in Hl2; [congruence|]. destruct Hl2 as (Hz & _).
      assert (z = y) as -> by congruence. apply Hy, elem_of_app. right. right. left.
    + apply IH; try done; [congruence|]. by intros ? [= <-].
Qed.

Lemma insert_after_refines q l1 a l2 x :
  is_list q (l1 ++ a :: l2) -> x ∉ l1 ++ a :: l2 ->
  is_list (LIST_INSERT_AFTER a x q) (l1 ++ a :: x :: l2).
Proof.
  intros (Hnd & Hl) Hx. split.
  - apply NoDup_app in Hnd as (N1 & N2 & N3). apply NoDup_cons in N3 as [N3 N4].
    rewrite elem_of_app in Hx. apply NoDup_app. split_and!; [done|..].
    + intros y Hy. rewrite !elem_of_cons. intros [->|[->|?]].
      * apply (N2 a Hy). left. * apply Hx. by left. * apply (N2 y Hy). by right.
    + repeat constructor; try done.
      * rewrite elem_of_cons. intros [->|?]; [|done]. apply Hx. right. left.
      * intros ?. apply Hx. right. by right.
  - by apply lseg_insert_after.
Qed.

(** [LIST_FOREACH] visits the represented list, in order. *)
Lemma foreach_refines q l fuel :
  is_list q l -> (length l <= fuel)%nat -> LIST_FOREACH fuel q (LIST_FIRST q) = l.
Proof.
  intros (_ & Hl). change (LIST_FIRST q) with (read_cell q CHead).
  revert Hl. generalize CHead as c. revert l.
  induction fuel as [|n IH]; intros [|x l] c Hl Hf; cbn in Hl, Hf; try lia.
  - done.
  - by rewrite Hl.
  - destruct Hl as (-> & _ & Hl). cbn. f_equal. apply (IH l (CNext x)); [done|lia].
Qed.

Lemma is_list_unique q l l' : is_list q l -> is_list q l' -> l = l'.
Proof.
  intros H H'. rewrite <- (foreach_refines q l (length l + length l')%nat H ltac:(lia)).
  by apply foreach_refines; [|lia].
Qed.

End LIST.

(** ** TAILQ *)
Module TAILQ.
Import LIST.

(** The links of a tail queue (its [tqe_next]/[tqe_prev] fields and [tqh_first] are those
    of a list) and the address of the last next field. *)
Record t := mk { links : LIST.t; tqh_last : cell }.

Definition tqh_first (q : t) : option Z := lh_first (links q).
Definition tqe_next (q : t) (e : Z) : option Z := next (links q) e.
Definition tqe_prev (q : t) (e : Z) : option cell := le_prev (links q) !! e.

Definition on_links (f : LIST.t -> LIST.t) (q : t) : t := mk (f (links q)) (tqh_last q).
Definition set_last (c : cell) (q : t) : t := mk (links q) c.

Definition TAILQ_INIT (q : t) : t := set_last CHead (on_links (set_first None) q).
Definition TAILQ_EMPTY (q : t) : bool := match tqh_first q with None => true | _ => false end.
Definition TAILQ_FIRST (q : t) : option Z := tqh_first q.

Definition TAILQ_INSERT_HEAD (elm : Z) (q : t) : t :=
  let q := on_links (set_next elm (tqh_first q)) q in
  let q := match tqe_next q elm with
           | Some _ => match tqh_first q with
                       | Some f => on_links (set_prev f (CNext elm)) q
                       | None => q
                       end
           | None => set_last (CNext elm) q
           end in
  let q := on_links (set_first (Some elm)) q in
  on_links (set_prev elm CHead) q.

Definition TAILQ_INSERT_TAIL (elm : Z) (q : t) : t :=
  let q := on_links (set_next elm None) q in
  let q := on_links (set_prev elm (tqh_last q)) q in
  let q := on_links (write_cell (tqh_last q) (Some elm)) q in
  set_last (CNext elm) q.

(** [None]: the store through a null [tqe_prev]. *)
Definition TAILQ_REMOVE (elm : Z) (q : t) : option t :=
  c ← tqe_prev q elm;
  let q := match tqe_next q elm with
           | Some n => on_links (set_prev n c) q
           | None => set_last c q
           end in
  c' ← tqe_prev q elm;
  Some (on_links (write_cell c' (tqe_next q elm)) q).

(** The cell holding the null pointer that ends [l]. *)
Definition last_cell (l : list Z) : cell :=
  match last l with None => CHead | Some x => CNext x end.

Definition is_tailq (q : t) (l : list Z) : Prop :=
  is_list (links q) l /\ tqh_last q = last_cell l.

Lemma is_tailq_init q : is_tailq (TAILQ_INIT q) [].
Proof. split; [by apply is_list_nil|done]. Qed.

Lemma is_tailq_first q l : is_tailq q l -> TAILQ_FIRST q = head l.
Proof. intros ((_ & H) & _). destruct l; cbn in H; [done|]. by destruct H. Qed.

Lemma is_tailq_empty q l : is_tailq q l -> TAILQ_EMPTY q = true <-> l = [].
Proof. intros [H _]. by apply is_list_empty in H. Qed.

Lemma is_tailq_NoDup q l : is_tailq q l -> NoDup l.
Proof. by intros ((H & _) & _). Qed.

Lemma tailq_remove_links e q :
  links <$> TAILQ_REMOVE e q = LIST_REMOVE e (links q).
Proof.
  unfold TAILQ_REMOVE, LIST_REMOVE, tqe_prev, tqe_next.
  destruct (le_prev (links q) !! e) as [c|] eqn:E; [|done]. cbn -[write_cell].
  destruct (next (links q) e); cbn -[write_cell]; [|by rewrite E].
  by destruct (<[z:=c]> (le_prev (links q)) !! e).
Qed.

Lemma tailq_insert_head_links e q :
  links (TAILQ_INSERT_HEAD e q) = LIST_INSERT_HEAD e (links q).
Proof.
  unfold TAILQ_INSERT_HEAD, LIST_INSERT_HEAD, tqe_next, tqh_first. cbn.
  rewrite next_set_next, decide_True by done. by destruct (lh_first (links q)).
Qed.

Lemma last_cell_app l1 x l2 : last_cell (l1 ++ x :: l2) = last_cell (x :: l2).
Proof. unfold last_cell. rewrite last_app. by destruct (last (x :: l2)) eqn:E; [|rewrite last_None in E]. Qed.

(** The end of a segment is the cell that reads null. *)
Lemma lseg_last q c l :
  lseg q c l -> read_cell q (match last l with None => c | Some x => CNext x end) = None.
Proof.
  revert c. induction l as [|x l IH]; intros c; [done|].
  intros (_ & _ & H). apply IH in H. rewrite last_cons. by destruct (last l).
Qed.

Lemma tailq_insert_head_refines q l x :
  is_tailq q l -> x ∉ l -> is_tailq (TAILQ_INSERT_HEAD x q) (x :: l).
Proof.
  intros [Hl Hlast] Hx. split; [rewrite tailq_insert_head_links; by apply LIST.insert_head_refines|].
  unfold TAILQ_INSERT_HEAD, tqe_next, tqh_first. cbn. rewrite next_set_next, decide_True by done.
  destruct Hl as (_ & Hl). destruct l as [|y l]; cbn in Hl.
  - by rewrite Hl.
  - destruct Hl as (-> & _). cbn. rewrite Hlast. unfold last_cell. cbn. by destruct (last l).
Qed.

Lemma lseg_snoc q c l x :
  x ∉ l -> c <> CNext x -> NoDup l -> (forall y, c = CNext y -> y ∉ l) ->
  lseg q c l ->
  let z := match last l with None => c | Some y => CNext y end in
  lseg (write_cell z (Some x) (set_prev x z (set_next x None q))) c (l ++ [x]).
Proof.
  revert c. induction l as [|y l IH]; intros c Hx Hcx Hnd Hcl; cbn -[write_cell last].
  - intros _. rewrite read_write_cell, decide_True, le_prev_write_cell by done. cbn.
    rewrite lookup_insert_eq. split_and!; [done..|].
    change (read_cell (write_cell c (Some x) (set_prev x c (set_next x None q))) (CNext x) = None).
    rewrite read_write_cell, decide_False by done. cbn. rewrite next_set_prev, next_set_next.
    by rewrite decide_True.
  - intros (H1 & H2 & H3). apply not_elem_of_cons in Hx as [Hxy Hx].
    apply NoDup_cons in Hnd as [Hy Hnd]. rewrite last_cons.
    set (z := match last l with None => CNext y | Some w => CNext w end).
    replace (match match last l with Some w => Some w | None => Some y end with
             | Some w => CNext w | None => c end) with z by (unfold z; by destruct (last l)).
    split_and!.
    + rewrite read_write_cell, decide_False.
      * destruct c as [|e]; cbn; [done|]. rewrite next_set_prev, next_set_next, decide_False; [done|congruence].
      * intros E. destruct c as [|e]; unfold z in E; destruct (last l) as [w|] eqn:Ew; try done;
          injection E as <-; apply (Hcl _ eq_refl).
        -- right. by apply last_Some_elem_of.
        -- left.
    + rewrite le_prev_write_cell. cbn. by rewrite lookup_insert_ne.
    + apply (IH (CNext y)); try done; [congruence|]. by intros ? [= <-].
Qed.

Lemma insert_tail_refines q l x :
  is_tailq q l -> x ∉ l -> is_tailq (TAILQ_INSERT_TAIL x q) (l ++ [x]).
Proof.
  intros ((Hnd & Hl) & Hlast) Hx. split; [split|].
  - apply NoDup_app. split_and!; [done| |apply NoDup_singleton].
    intros y Hy ->%list_elem_of_singleton. done.
  - unfold TAILQ_INSERT_TAIL. cbn -[write_cell]. rewrite Hlast. apply lseg_snoc; done.
  - cbn. unfold last_cell. by rewrite last_snoc.
Qed.

Lemma tailq_remove_refines q l1 x l2 :
  is_tailq q (l1 ++ x :: l2) ->
  exists q', TAILQ_REMOVE x q = Some q' /\ is_tailq q' (l1 ++ l2).
Proof.
  intros [Hl Hlast]. pose proof (tailq_remove_links x q) as HR.
  destruct (LIST.remove_refines _ _ _ _ Hl) as (q1 & E & Hq1). rewrite E in HR.
  destruct (TAILQ_REMOVE x q) as [q'|] eqn:Eq; [|done]. injection HR as HR.
  exists q'. split; [done|]. split; [by rewrite HR|].
  destruct Hl as (Hnd & Hl). destruct (lseg_split _ _ _ _ _ Hl) as (c & Hc & _ & Hl2 & Hin & Hnil).
  unfold TAILQ_REMOVE, tqe_prev, tqe_next in Eq. rewrite Hc in Eq. cbn -[write_cell] in Eq.
  destruct l2 as [|y l2]; cbn in Hl2.
  - rewrite Hl2 in Eq. cbn -[write_cell] in Eq. rewrite Hc in Eq. cbn -[write_cell] in Eq.
    injection Eq as <-. cbn. rewrite app_nil_r.
    assert (forall c0 l1, lseg (links q) c0 (l1 ++ [x]) -> le_prev (links q) !! x =
      Some (match last l1 with None => c0 | Some w => CNext w end)) as Hg.
    { clear. intros c0 l1. revert c0. induction l1 as [|w l1 IH]; intros c0; cbn -[last].
      - by intros (_ & H & _).
      - intros (_ & _ & H). rewrite (IH _ H), last_cons. by destruct (last l1). }
    rewrite (Hg _ _ Hl) in Hc. by injection Hc as <-.
  - destruct Hl2 as (Hy & _). rewrite Hy in Eq. cbn -[write_cell] in Eq.
    destruct (<[y:=c]> (le_prev (links q)) !! x); cbn -[write_cell] in Eq; [|done].
    injection Eq as <-. cbn. rewrite Hlast, !last_cell_app.
    unfold last_cell. by rewrite !last_cons; destruct (last l2).
Qed.

(** Removing the head. *)
Lemma tailq_remove_head_refines q x l :
  is_tailq q (x :: l) -> exists q', TAILQ_REMOVE x q = Some q' /\ is_tailq q' l.
Proof. apply (tailq_remove_refines q [] x l). Qed.

(** Removing any member, with the result written as a filter. *)
Lemma remove_elem_refines q l x :
  is_tailq q l -> x ∈ l ->
  exists q', TAILQ_REMOVE x q = Some q' /\ is_tailq q' (without x l).
Proof.
  intros Hq (l1 & l2 & ->)%list_elem_of_split. rewrite without_split by (by eapply is_tailq_NoDup).
  by apply tailq_remove_refines.
Qed.

End TAILQ.
