(* ===== verification/Mmu.v ===== *)
(** * Address arithmetic and physical memory (include/mmu.h, include/types.h, include/pmap.h)

    The address macros as functions on [Z], the fixed memory layout, and physical memory as
    a map from page numbers to pages of 1024 words (absent words read 0: pages are cleared
    when they are allocated). [slot p i] is the kernel virtual address of word [i] of
    physical page [p]; [rd]/[wr] are the kernel's loads and stores through kseg0. *)

From Stdlib Require Import ZArith Lia.
From stdpp Require Import base numbers list gmap strings.
From S2P Require Import Prelude.

(** ** Constants *)
Definition BY2PG := 4096.
Definition PDMAP := 4194304.
Definition PGSHIFT := 12.
Definition PDSHIFT := 22.

Definition PTE_G := 256.      (* 0x0100 *)
Definition PTE_V := 512.      (* 0x0200 *)
Definition PTE_D := 1024.     (* 0x0400 *)
Definition PTE_N := 2048.     (* 0x0800 *)
Definition PTE_COW := 1.
Definition PTE_LIBRARY := 4.

Definition KSEG0 := 2147483648.  (* 0x80000000 *)
Definition KSEG1 := 2684354560.  (* 0xA0000000 *)
Definition KSEG2 := 3221225472.  (* 0xC0000000 *)

Definition ULIM := 2147483648.
Definition KSTACKTOP := ULIM + PDMAP.
Definition UVPT := ULIM - PDMAP.
Definition UPAGES := UVPT - PDMAP.
Definition UENVS := UPAGES - PDMAP.
Definition UTOP := UENVS.
Definition UXSTACKTOP := UTOP.
Definition USTACKTOP := UTOP - 2 * BY2PG.
Definition UTEXT := PDMAP.
Definition UCOW := UTEXT - BY2PG.
Definition UTEMP := UCOW - BY2PG.

(** ** Macros *)
Definition PDX (va : Z) : Z := Z.land (Z.shiftr va 22) 1023.
Definition PTX (va : Z) : Z := Z.land (Z.shiftr va 12) 1023.
Definition PTE_ADDR (pte : Z) : Z := Z.land pte (u32 (Z.lnot 4095)).
Definition PPN (va : Z) : Z := Z.shiftr va 12.
Definition VPN (va : Z) : Z := Z.shiftr va 12.

(** types.h: [ROUND(a, n)] and [ROUNDDOWN(a, n)] on [u_long]. *)
Definition ROUND (a n : Z) : Z := Z.land (u32 (a + n - 1)) (u32 (Z.lnot (n - 1))).
Definition ROUNDDOWN (a n : Z) : Z := Z.land a (u32 (Z.lnot (n - 1))).
Definition MIN (a b : Z) : Z := if a <=? b then a else b.

(** [struct Page *] to address and back; a page pointer is its index in [pages]. *)
Definition page2ppn (pp : Z) : Z := pp.
Definition page2pa (pp : Z) : Z := u32 (Z.shiftl (page2ppn pp) PGSHIFT).

(** ** Physical memory *)
Abbreviation mem := (gmap Z (gmap Z Z)).

Definition word (m : mem) (p i : Z) : Z := default 0 (default ∅ (m !! p) !! i).
Definition upd (m : mem) (p i v : Z) : mem := <[p := <[i := v]> (default ∅ (m !! p))]> m.
Definition clear_page (m : mem) (p : Z) : mem := <[p := ∅]> m.

Definition slot (p i : Z) : Z := ULIM + p * 4096 + 4 * i.

(** A load or store of the word at kernel virtual address [a]. *)
Definition rd (m : mem) (a : Z) : Z :=
  let pa := a - ULIM in word m (Z.shiftr pa 12) (Z.shiftr (Z.land pa 4095) 2).
Definition wr (m : mem) (a v : Z) : mem :=
  let pa := a - ULIM in upd m (Z.shiftr pa 12) (Z.shiftr (Z.land pa 4095) 2) v.

(** Bytes of a page, little-endian. *)
Definition word_byte (w k : Z) : Z := Z.land (Z.shiftr w (8 * k)) 255.
Definition set_word_byte (w k b : Z) : Z :=
  Z.lor (Z.land w (Z.lnot (Z.shiftl 255 (8 * k)))) (Z.shiftl (u8 b) (8 * k)).
Definition page_byte (m : mem) (p off : Z) : Z := word_byte (word m p (off / 4)) (off mod 4).
Definition set_page_byte (m : mem) (p off b : Z) : mem :=
  upd m p (off / 4) (set_word_byte (word m p (off / 4)) (off mod 4) b).

(** [memcpy] of [bs] to offset [off] of page [p]. *)
Fixpoint copy_to_page (m : mem) (p off : Z) (bs : list Z) : mem :=
  match bs with
  | [] => m
  | b :: bs' => copy_to_page (set_page_byte m p off b) p (off + 1) bs'
  end.

(** ** Macros as arithmetic *)
Lemma PPN_div va : PPN va = va / 4096.
Proof. unfold PPN. rewrite shiftr_div by lia. done. Qed.

Lemma VPN_div va : VPN va = va / 4096.
Proof. unfold VPN. rewrite shiftr_div by lia. done. Qed.

Lemma PDX_div va : PDX va = (va / 4194304) mod 1024.
Proof. unfold PDX. change 1023 with (Z.ones 10). rewrite land_ones_mod, shiftr_div by lia. done. Qed.

Lemma PTX_div va : PTX va = (va / 4096) mod 1024.
Proof. unfold PTX. change 1023 with (Z.ones 10). rewrite land_ones_mod, shiftr_div by lia. done. Qed.

(** Masking the low [k] bits of a 32-bit value. *)
Lemma land_high_mask a k : 0 <= k <= 32 -> is_u32 a ->
  Z.land a (u32 (Z.lnot (2 ^ k - 1))) = 2 ^ k * (a / 2 ^ k).
Proof.
  intros Hk Ha. assert (0 < 2 ^ k) by (apply Z.pow_pos_nonneg; lia).
  rewrite (Z.mul_comm (2 ^ k)), <- Z.shiftl_mul_pow2, <- shiftr_div by lia.
  unfold u32. change 4294967296 with (2 ^ 32).
  replace (2 ^ k - 1) with (Z.ones k) by (rewrite Z.ones_equiv; lia).
  apply Z.bits_inj'. intros n Hn. rewrite Z.land_spec, Z.shiftl_spec by done.
  destruct (Z_lt_dec n k).
  - rewrite (Z.testbit_neg_r _ (n - k)) by lia. rewrite Z.mod_pow2_bits_low by lia.
    rewrite Z.lnot_spec, Z.ones_spec_low by lia. by rewrite andb_false_r.
  - rewrite Z.shiftr_spec by lia. replace (n - k + k) with n by lia.
    destruct (Z_lt_dec n 32).
    + rewrite Z.mod_pow2_bits_low, Z.lnot_spec, Z.ones_spec_high by lia. by rewrite andb_true_r.
    + rewrite Z.mod_pow2_bits_high by lia. rewrite andb_false_r. symmetry.
      destruct (Z.eq_dec a 0) as [->|]; [apply Z.bits_0|]. apply Z.bits_above_log2; [apply Ha|].
      destruct Ha. apply Z.log2_lt_pow2; [lia|]. apply (Z.lt_le_trans _ (2 ^ 32)); [done|].
      apply Z.pow_le_mono_r; lia.
Qed.

Lemma PTE_ADDR_div a : is_u32 a -> PTE_ADDR a = 4096 * (a / 4096).
Proof. intros H. apply (land_high_mask a 12); [lia|done]. Qed.

Lemma ROUND_div a k : 0 <= k <= 32 -> 0 <= a -> a + 2 ^ k - 1 < 4294967296 ->
  ROUND a (2 ^ k) = 2 ^ k * ((a + 2 ^ k - 1) / 2 ^ k).
Proof.
  intros Hk H0 H1. assert (0 < 2 ^ k) by (apply Z.pow_pos_nonneg; lia).
  unfold ROUND. rewrite u32_small by (unfold is_u32; lia).
  apply land_high_mask; [done|unfold is_u32; lia].
Qed.

Lemma ROUNDDOWN_div a k : 0 <= k <= 32 -> is_u32 a -> ROUNDDOWN a (2 ^ k) = 2 ^ k * (a / 2 ^ k).
Proof. apply land_high_mask. Qed.

Lemma page2pa_mul pp : 0 <= pp < 1048576 -> page2pa pp = pp * 4096.
Proof.
  intros H. unfold page2pa, page2ppn, PGSHIFT. rewrite Z.shiftl_mul_pow2 by lia.
  apply u32_small. unfold is_u32. lia.
Qed.

(** ** Memory lemmas *)
Lemma word_upd m p i v p' i' :
  word (upd m p i v) p' i' = if decide (p = p' /\ i = i') then v else word m p' i'.
Proof.
  unfold word, upd. destruct (decide (p = p')) as [<-|Hp].
  - rewrite lookup_insert_eq. cbn. destruct (decide (i = i')) as [<-|Hi].
    + by rewrite lookup_insert_eq, decide_True.
    + by rewrite lookup_insert_ne, decide_False by tauto.
  - by rewrite lookup_insert_ne, decide_False by tauto.
Qed.

Lemma word_clear m p p' i : word (clear_page m p) p' i = if decide (p = p') then 0 else word m p' i.
Proof.
  unfold word, clear_page. rewrite lookup_insert. case_decide; [|done]. done.
Qed.

Lemma slot_shape p i : 0 <= i < 1024 ->
  Z.shiftr (slot p i - ULIM) 12 = p /\ Z.shiftr (Z.land (slot p i - ULIM) 4095) 2 = i.
Proof.
  intros Hi. unfold slot. replace (ULIM + p * 4096 + 4 * i - ULIM) with (4 * i + p * 4096) by lia.
  change 4095 with (Z.ones 12). rewrite land_ones_mod, !shiftr_div by lia.
  change (2 ^ 12) with 4096. change (2 ^ 2) with 4. split; dlia.
Qed.

Lemma rd_slot m p i : 0 <= i < 1024 -> rd m (slot p i) = word m p i.
Proof. intros H. unfold rd. by destruct (slot_shape p i H) as [-> ->]. Qed.

Lemma wr_slot m p i v : 0 <= i < 1024 -> wr m (slot p i) v = upd m p i v.
Proof. intros H. unfold wr. by destruct (slot_shape p i H) as [-> ->]. Qed.

(** ** Page-table entries *)
Definition valid (e : Z) : bool := hasbits e PTE_V.

Lemma valid_testbit e : valid e = Z.testbit e 9.
Proof. apply (hasbits_testbit e 9). lia. Qed.

(** The entry [page2pa(pp) | perm | PTE_V] when [perm] has no bit above the low twelve. *)
Definition mk_pte (pp perm : Z) : Z := Z.lor (Z.lor (page2pa pp) perm) PTE_V.

Lemma valid_mk_pte pp perm : valid (mk_pte pp perm) = true.
Proof.
  rewrite valid_testbit. unfold mk_pte. rewrite Z.lor_spec.
  change (Z.testbit PTE_V 9) with true. by rewrite orb_true_r.
Qed.

Lemma PPN_mk_pte pp perm : 0 <= pp < 1048576 -> 0 <= perm < 4096 -> PPN (mk_pte pp perm) = pp.
Proof.
  intros Hp Hq. unfold PPN, mk_pte. rewrite !Z.shiftr_lor, page2pa_mul by done.
  rewrite !shiftr_div by lia. change (2 ^ 12) with 4096. change (PTE_V / 4096) with 0.
  rewrite (Z.div_small perm) by done. rewrite !Z.lor_0_r. dlia.
Qed.

Lemma lor_u32 a b : is_u32 a -> is_u32 b -> is_u32 (Z.lor a b).
Proof.
  unfold is_u32. intros [Ha Ha'] [Hb Hb']. split; [by apply Z.lor_nonneg|].
  change 4294967296 with (2 ^ 32) in *.
  destruct (Z.eq_dec (Z.lor a b) 0) as [->|Hn]; [lia|].
  assert (0 <= Z.lor a b) by (by apply Z.lor_nonneg).
  apply Z.log2_lt_pow2; [lia|]. rewrite Z.log2_lor by done.
  apply Z.max_lub_lt.
  - destruct (Z.eq_dec a 0) as [->|]; [cbn; lia|]. apply Z.log2_lt_pow2; lia.
  - destruct (Z.eq_dec b 0) as [->|]; [cbn; lia|]. apply Z.log2_lt_pow2; lia.
Qed.

Lemma mk_pte_u32 pp perm : is_u32 perm -> is_u32 (mk_pte pp perm).
Proof.
  intros H. unfold mk_pte. repeat apply lor_u32; [apply u32_range|done|done].
Qed.

Lemma valid_0 : valid 0 = false.
Proof. done. Qed.

#[export] Hint Resolve mk_pte_u32 valid_mk_pte : mos.
#[export] Hint Rewrite valid_mk_pte word_upd word_clear : mos_rw.

(** ** Bytes of words *)
Lemma set_word_byte_bits w k b k' : 0 <= k < 4 -> 0 <= k' < 4 ->
  word_byte (set_word_byte w k b) k' = if decide (k = k') then u8 b else word_byte w k'.
Proof.
  intros Hk Hk'. assert (Hu : forall n, 8 <= n -> Z.testbit (u8 b) n = false).
  { intros n Hn. unfold u8. change 256 with (2 ^ 8). apply Z.mod_pow2_bits_high. lia. }
  apply Z.bits_inj'. intros n Hn. unfold word_byte, set_word_byte. change 255 with (Z.ones 8).
  destruct (Z_lt_dec n 8) as [Hlt|Hge].
  - rewrite Z.land_spec, Z.ones_spec_low, andb_true_r, Z.shiftr_spec by lia.
    rewrite Z.lor_spec, Z.land_spec, Z.lnot_spec, !Z.shiftl_spec by lia.
    destruct (decide (k = k')) as [<-|Hne].
    + replace (n + 8 * k - 8 * k) with n by lia. rewrite Z.ones_spec_low by lia. by rewrite andb_false_r.
    + assert (H : Z.testbit (Z.ones 8) (n + 8 * k' - 8 * k) = false /\ Z.testbit (u8 b) (n + 8 * k' - 8 * k) = false).
      { destruct (Z_lt_dec (n + 8 * k' - 8 * k) 0); [by rewrite !Z.testbit_neg_r|].
        rewrite Z.ones_spec_high, Hu by lia. done. }
      destruct H as [-> ->]. rewrite andb_true_r, orb_false_r, Z.land_spec, Z.ones_spec_low, Z.shiftr_spec by lia. by rewrite andb_true_r.
  - rewrite Z.land_spec, Z.ones_spec_high, andb_false_r by lia. destruct (decide (k = k')); [by rewrite Hu by lia|].
    by rewrite Z.land_spec, Z.ones_spec_high, andb_false_r by lia.
Qed.

Lemma set_word_byte_u32 w k b : is_u32 w -> 0 <= k < 4 -> is_u32 (set_word_byte w k b).
Proof.
  intros Hw Hk. unfold set_word_byte. apply lor_u32.
  - replace w with (Z.land w (Z.ones 32)) by (rewrite land_ones_mod by lia; by apply Z.mod_small).
    rewrite <- Z.land_assoc, (Z.land_comm (Z.ones 32)), Z.land_assoc, land_ones_mod by lia. apply u32_range.
  - pose proof (Z.mod_pos_bound b 256). unfold is_u32, u8. rewrite Z.shiftl_mul_pow2 by lia.
    assert (2 ^ (8 * k) <= 2 ^ 24) by (apply Z.pow_le_mono_r; lia). change (2 ^ 24) with 16777216 in *. 
    assert (0 < 2 ^ (8*k)) by (apply Z.pow_pos_nonneg; lia). nia.
Qed.

Lemma page_byte_set m p off b p' off' : 0 <= off < 4096 -> 0 <= off' < 4096 ->
  page_byte (set_page_byte m p off b) p' off' = if decide (p = p' /\ off = off') then u8 b else page_byte m p' off'.
Proof.
  intros Ho Ho'. unfold page_byte, set_page_byte. rewrite word_upd. destruct (decide (p = p' /\ off / 4 = off' / 4)) as [[<- E]|Hne].
  - rewrite E, set_word_byte_bits by dlia. destruct (decide (off mod 4 = off' mod 4)) as [E'|Hne'].
    + rewrite decide_True; [done|]. split; [done|dlia].
    + rewrite decide_False; [done|]. intros [_ ->]. done.
  - rewrite decide_False; [done|]. intros [-> ->]. by apply Hne.
Qed.

(** ** Theorems on the address arithmetic *)

(** Every 32-bit address is recovered from its page-directory index, page-table index and
    offset, and each index is in range of its 1024-entry table. *)
Theorem va_split va : is_u32 va ->
  va = Z.lor (Z.lor (Z.shiftl (PDX va) PDSHIFT) (Z.shiftl (PTX va) PGSHIFT)) (Z.land va 4095) /\
  0 <= PDX va < 1024 /\ 0 <= PTX va < 1024 /\
  PTE_ADDR va = PDX va * PDMAP + PTX va * BY2PG.
Proof.
  intros Hva. rewrite PTE_ADDR_div, PDX_div, PTX_div by done. unfold is_u32 in Hva.
  change 4095 with (Z.ones 12). rewrite land_ones_mod by lia.
  unfold PDSHIFT, PGSHIFT, PDMAP, BY2PG. rewrite !Z.shiftl_mul_pow2 by lia.
  change (2 ^ 22) with 4194304. change (2 ^ 12) with 4096.
  assert (E : Z.lor ((va / 4194304) mod 1024 * 4194304) ((va / 4096) mod 1024 * 4096)
    = (va / 4194304) mod 1024 * 4194304 + (va / 4096) mod 1024 * 4096).
  { symmetry. apply Z.add_nocarry_lor, Z.bits_inj'. intros n Hn.
    rewrite Z.land_spec, Z.bits_0.
    change 4194304 with (2 ^ 22) at 2. change 4096 with (2 ^ 12) at 2.
    change 1024 with (2 ^ 10) at 2. destruct (Z_lt_dec n 22).
    - by rewrite Z.mul_pow2_bits_low by lia.
    - rewrite (Z.mul_pow2_bits _ 12), Z.mod_pow2_bits_high by lia. by rewrite andb_false_r. }
  rewrite E.
  assert (E2 : forall x, 0 <= x < 1048576 -> Z.lor (x * 4096) (va mod 4096) = x * 4096 + va mod 4096).
  { intros x Hx. symmetry. apply Z.add_nocarry_lor, Z.bits_inj'. intros n Hn.
    rewrite Z.land_spec, Z.bits_0. change 4096 with (2 ^ 12). destruct (Z_lt_dec n 12).
    - by rewrite Z.mul_pow2_bits_low by lia.
    - rewrite (Z.mod_pow2_bits_high) by lia. by rewrite andb_false_r. }
  replace ((va / 4194304) mod 1024 * 4194304 + (va / 4096) mod 1024 * 4096)
    with ((va / 4096) * 4096) by dlia.
  rewrite E2 by dlia. split_and!; dlia.
Qed.
