(* ===== verification/Pmap.v ===== *)
(** * Physical pages and page tables (kern/pmap.c, kern/tlb_asm.S)

    The state of pmap.c: the [pages] array (reference counts, and the free-list links as a
    [LIST.t] over page numbers), physical memory, the boot allocator's [freemem], and the
    TLB that [tlb_out] writes. A page directory is given, as in the code, by its kernel
    virtual address. *)

From Stdlib Require Import ZArith Lia.
From stdpp Require Import base numbers list gmap strings.
From S2P Require Import Prelude Queue Mmu.
Import LIST.

(** ** State *)
Record pmap_st := mkPmap {
  memsize : Z;                 (* maximum physical address *)
  npage : Z;                   (* amount of memory, in pages *)
  freemem : Z;                 (* boot allocator *)
  pages_ref : gmap Z Z;        (* pages[i].pp_ref, a u_short *)
  page_free_list : LIST.t;     (* head, and pages[i].pp_link *)
  phys : mem;
  tlb : gmap Z Z;              (* EntryHi (VPN | ASID << 6) to EntryLo *)
  cur_pgdir : Z }.

Definition set_memsize v s := mkPmap v (npage s) (freemem s) (pages_ref s) (page_free_list s) (phys s) (tlb s) (cur_pgdir s).
Definition set_npage v s := mkPmap (memsize s) v (freemem s) (pages_ref s) (page_free_list s) (phys s) (tlb s) (cur_pgdir s).
Definition set_freemem v s := mkPmap (memsize s) (npage s) v (pages_ref s) (page_free_list s) (phys s) (tlb s) (cur_pgdir s).
Definition set_refs v s := mkPmap (memsize s) (npage s) (freemem s) v (page_free_list s) (phys s) (tlb s) (cur_pgdir s).
Definition set_free v s := mkPmap (memsize s) (npage s) (freemem s) (pages_ref s) v (phys s) (tlb s) (cur_pgdir s).
Definition set_phys v s := mkPmap (memsize s) (npage s) (freemem s) (pages_ref s) (page_free_list s) v (tlb s) (cur_pgdir s).
Definition set_tlb v s := mkPmap (memsize s) (npage s) (freemem s) (pages_ref s) (page_free_list s) (phys s) v (cur_pgdir s).
Definition set_cur_pgdir v s := mkPmap (memsize s) (npage s) (freemem s) (pages_ref s) (page_free_list s) (phys s) (tlb s) v.

Abbreviation P := (M pmap_st).

Definition pp_ref (s : pmap_st) (pp : Z) : Z := default 0 (pages_ref s !! pp).
Definition set_pp_ref (pp v : Z) (s : pmap_st) : pmap_st := set_refs (<[pp := u16 v]> (pages_ref s)) s.

(** Kernel loads and stores of words. *)
Definition load (a : Z) : P Z := gets (fun s => rd (phys s) a).
Definition store (a v : Z) : P unit := modify (fun s => set_phys (wr (phys s) a v) s).

(** ** Address conversions that may panic (include/mmu.h, include/pmap.h) *)
Definition PADDR (kva : Z) : P Z :=
  if kva <? ULIM then panic "PADDR called with invalid kva" else mret (kva - ULIM).

Definition KADDR (pa : Z) : P Z :=
  n ← gets npage;
  if n <=? PPN pa then panic "KADDR called with invalid pa" else mret (u32 (pa + ULIM)).

Definition pa2page (pa : Z) : P Z :=
  n ← gets npage;
  if n <=? PPN pa then panic "pa2page called with invalid pa" else mret (PPN pa).

Definition page2kva (pp : Z) : P Z := KADDR (page2pa pp).

(** Returns [~0] when [va] is not mapped. *)
Definition va2pa (pgdir va : Z) : P Z :=
  pde ← load (pgdir + 4 * PDX va);
  if negb (hasbits pde PTE_V) then mret (u32 (Z.lnot 0)) else
  p ← KADDR (PTE_ADDR pde);
  pte ← load (p + 4 * PTX va);
  if negb (hasbits pte PTE_V) then mret (u32 (Z.lnot 0)) else
  mret (PTE_ADDR pte).

(** ** Boot *)

(** [memsize_reg] is the value the DEV_MP device reports. *)
Definition mips_detect_memory (memsize_reg : Z) : P unit :=
  modify (set_memsize memsize_reg) ;;
  ms ← gets memsize;
  modify (set_npage (Z.shiftr ms 12)).

(** [memset(dst, 0, n)] on a word-aligned kernel range of whole words. *)
Definition memset_zero (dst n : Z) : P unit :=
  if negb (n mod 4 =? 0) then undef "partial word" else
  for_each (zseq 0 (Z.to_nat (n / 4))) (fun i => store (dst + 4 * i) 0).

(** [kend] is the linker's [end] symbol. *)
Definition alloc (kend n align : Z) (clear : bool) : P Z :=
  fresh ← gets (fun s => freemem s =? 0);
  when fresh (modify (set_freemem kend)) ;;
  modify (fun s => set_freemem (ROUND (freemem s) align) s) ;;
  alloced_mem ← gets freemem;
  modify (fun s => set_freemem (u32 (freemem s + n)) s) ;;
  fm ← gets freemem;
  pa ← PADDR fm;
  ms ← gets memsize;
  assert "alloc: out of memory" (negb (ms <=? pa)) ;;
  when clear (memset_zero alloced_mem n) ;;
  mret alloced_mem.

(** [sizeof(struct Page)]: two link pointers and a padded [u_short]. *)
Definition sizeof_Page := 12.

(** Returns the address of the [pages] array. *)
Definition mips_vm_init (kend : Z) : P Z :=
  n ← gets npage;
  alloc kend (u32 (n * sizeof_Page)) BY2PG true.

Definition page_init : P unit :=
  modify (fun s => set_free (LIST_INIT (page_free_list s)) s) ;;
  modify (fun s => set_freemem (ROUND (freemem s) BY2PG) s) ;;
  fm ← gets freemem;
  pa ← PADDR fm;
  let page_used_num := PPN pa in
  for_each (zseq 0 (Z.to_nat page_used_num)) (fun i => modify (set_pp_ref i 1)) ;;
  n ← gets npage;
  for_each (zseq page_used_num (Z.to_nat (n - page_used_num))) (fun i =>
    modify (set_pp_ref i 0) ;;
    modify (fun s => set_free (LIST_INSERT_HEAD i (page_free_list s)) s)).

(** ** Page allocation *)
Definition list_remove_page (pp : Z) : P unit :=
  q ← gets page_free_list;
  q' ← lift_opt "LIST_REMOVE through a null le_prev" (LIST_REMOVE pp q);
  modify (set_free q').

(** [memset((void * )page2kva(pp), 0, BY2PG)]: the whole page is cleared. *)
Definition memset_page (kva : Z) : P unit :=
  modify (fun s => set_phys (clear_page (phys s) (Z.shiftr (kva - ULIM) 12)) s).

Definition page_alloc : P (cres Z) :=
  q ← gets page_free_list;
  if LIST_EMPTY q then mret (Err (- E_NO_MEM)) else
  pp ← lift_opt "null page" (LIST_FIRST q);
  list_remove_page pp ;;
  kva ← page2kva pp;
  memset_page kva ;;
  mret (Ok pp).

Definition page_free (pp : Z) : P unit :=
  r ← gets (fun s => pp_ref s pp);
  assert "pp->pp_ref == 0" (r =? 0) ;;
  modify (fun s => set_free (LIST_INSERT_HEAD pp (page_free_list s)) s).

Definition page_decref (pp : Z) : P unit :=
  r ← gets (fun s => pp_ref s pp);
  assert "pp->pp_ref > 0" (0 <? r) ;;
  modify (set_pp_ref pp (r - 1)) ;;
  r' ← gets (fun s => pp_ref s pp);
  if r' =? 0 then page_free pp else mret tt.

(** ** The TLB *)

(** EntryHi of a virtual address in an address space. *)
Definition entryhi (asid va : Z) : Z := Z.lor (PTE_ADDR va) (u32 (Z.shiftl asid 6)).

(** tlb_asm.S: probe for the entry and overwrite it with an invalid one. *)
Definition tlb_out (hi : Z) : P unit := modify (fun s => set_tlb (delete hi (tlb s)) s).

Definition tlb_invalidate (asid va : Z) : P unit := tlb_out (entryhi asid va).

(** ** Page tables *)

(** [Ok None]: [*ppte = NULL]; [Ok (Some a)]: the address of the entry. *)
Definition pgdir_walk (pgdir va : Z) (create : bool) : P (cres (option Z)) :=
  let pgdir_entryp := pgdir + 4 * PDX va in
  pde ← load pgdir_entryp;
  if negb (hasbits pde PTE_V) then
    if create then
      r ← page_alloc;
      match r with
      | Err _ => mret (Err (- E_NO_MEM))
      | Ok pp =>
          modify (set_pp_ref pp 1) ;;
          store pgdir_entryp (Z.lor (Z.lor (page2pa pp) PTE_V) PTE_D) ;;
          kva ← page2kva pp;
          mret (Ok (Some (kva + 4 * PTX va)))
      end
    else mret (Ok None)
  else
    kva ← KADDR (PTE_ADDR pde);
    mret (Ok (Some (kva + 4 * PTX va))).

(** The page and the address of its entry, [None] for NULL. *)
Definition page_lookup (pgdir va : Z) : P (option (Z * Z)) :=
  r ← pgdir_walk pgdir va false;
  match r with
  | Ok (Some ppte) =>
      pte ← load ppte;
      if hasbits pte PTE_V then pp ← pa2page pte; mret (Some (pp, ppte))
      else mret None
  | _ => mret None
  end.

Definition page_remove (pgdir asid va : Z) : P unit :=
  r ← page_lookup pgdir va;
  match r with
  | None => mret tt
  | Some (pp, ppte) =>
      page_decref pp ;;
      store ppte 0 ;;
      tlb_invalidate asid va
  end.

(** [*pte = page2pa(pp) | perm | PTE_V] *)
Definition set_pte (ppte pp perm : Z) : P unit := store ppte (mk_pte pp perm).

(** page_insert from its Step 2: flush, get or create the entry, fill it. *)
Definition page_insert_new (pgdir asid pp va perm : Z) : P Z :=
  tlb_invalidate asid va ;;
  r ← pgdir_walk pgdir va true;
  match r with
  | Err _ => mret (- E_NO_MEM)
  | Ok None => undef "store to a null entry"
  | Ok (Some ppte) =>
      set_pte ppte pp perm ;;
      modify (fun s => set_pp_ref pp (pp_ref s pp + 1) s) ;;
      mret 0
  end.

Definition page_insert (pgdir asid pp va perm : Z) : P Z :=
  r ← pgdir_walk pgdir va false;
  match r with
  | Ok (Some ppte) =>
      pte ← load ppte;
      if hasbits pte PTE_V then
        old ← pa2page pte;
        if negb (old =? pp) then
          page_remove pgdir asid va ;;
          page_insert_new pgdir asid pp va perm
        else
          tlb_invalidate asid va ;;
          set_pte ppte pp perm ;;
          mret 0
      else page_insert_new pgdir asid pp va perm
  | _ => page_insert_new pgdir asid pp va perm
  end.

(** ** The boot-time self-test *)

(** [assert(e)] on a value the test computes. *)
Definition check {A} `{EqDecision A} (msg : string) (m : P A) (v : A) : P unit :=
  a ← m; assert msg (bool_decide (a = v)).

Definition check_ok (msg : string) (m : P (cres Z)) : P Z :=
  r ← m; match r with Ok pp => mret pp | Err _ => panic msg end.

Definition check_err {A} (msg : string) (m : P (cres A)) : P unit :=
  r ← m; match r with Ok _ => panic msg | Err e => assert msg (e =? - E_NO_MEM) end.

Definition page_check (kend : Z) : P unit :=
  boot_pgdir ← alloc kend BY2PG BY2PG true;
  pp0 ← check_ok "page_alloc(&pp0) == 0" page_alloc;
  pp1 ← check_ok "page_alloc(&pp1) == 0" page_alloc;
  pp2 ← check_ok "page_alloc(&pp2) == 0" page_alloc;
  assert "pp1 && pp1 != pp0" (negb (pp1 =? pp0)) ;;
  assert "pp2 && pp2 != pp1 && pp2 != pp0" (negb (pp2 =? pp1) && negb (pp2 =? pp0)) ;;
  fl ← gets (fun s => lh_first (page_free_list s));
  modify (fun s => set_free (LIST_INIT (page_free_list s)) s) ;;
  check_err "page_alloc(&pp) == -E_NO_MEM" page_alloc ;;
  r ← page_insert boot_pgdir 0 pp1 0 0;
  assert "page_insert(boot_pgdir, 0, pp1, 0x0, 0) < 0" (r <? 0) ;;
  page_free pp0 ;;
  check "page_insert(boot_pgdir, 0, pp1, 0x0, 0) == 0" (page_insert boot_pgdir 0 pp1 0 0) 0 ;;
  pde0 ← load boot_pgdir;
  assert "PTE_ADDR(boot_pgdir[0]) == page2pa(pp0)" (PTE_ADDR pde0 =? page2pa pp0) ;;
  check "va2pa(boot_pgdir, 0x0) == page2pa(pp1)" (va2pa boot_pgdir 0) (page2pa pp1) ;;
  check "pp1->pp_ref == 1" (gets (fun s => pp_ref s pp1)) 1 ;;
  check "page_insert(boot_pgdir, 0, pp2, BY2PG, 0) == 0" (page_insert boot_pgdir 0 pp2 BY2PG 0) 0 ;;
  check "va2pa(boot_pgdir, BY2PG) == page2pa(pp2)" (va2pa boot_pgdir BY2PG) (page2pa pp2) ;;
  check "pp2->pp_ref == 1" (gets (fun s => pp_ref s pp2)) 1 ;;
  check_err "page_alloc(&pp) == -E_NO_MEM" page_alloc ;;
  check "page_insert(boot_pgdir, 0, pp2, BY2PG, 0) == 0" (page_insert boot_pgdir 0 pp2 BY2PG 0) 0 ;;
  check "va2pa(boot_pgdir, BY2PG) == page2pa(pp2)" (va2pa boot_pgdir BY2PG) (page2pa pp2) ;;
  check "pp2->pp_ref == 1" (gets (fun s => pp_ref s pp2)) 1 ;;
  check_err "page_alloc(&pp) == -E_NO_MEM" page_alloc ;;
  r ← page_insert boot_pgdir 0 pp0 PDMAP 0;
  assert "page_insert(boot_pgdir, 0, pp0, PDMAP, 0) < 0" (r <? 0) ;;
  check "page_insert(boot_pgdir, 0, pp1, BY2PG, 0) == 0" (page_insert boot_pgdir 0 pp1 BY2PG 0) 0 ;;
  check "va2pa(boot_pgdir, 0x0) == page2pa(pp1)" (va2pa boot_pgdir 0) (page2pa pp1) ;;
  check "va2pa(boot_pgdir, BY2PG) == page2pa(pp1)" (va2pa boot_pgdir BY2PG) (page2pa pp1) ;;
  check "pp1->pp_ref == 2" (gets (fun s => pp_ref s pp1)) 2 ;;
  check "pp2->pp_ref == 0" (gets (fun s => pp_ref s pp2)) 0 ;;
  pp ← check_ok "page_alloc(&pp) == 0" page_alloc;
  assert "pp == pp2" (pp =? pp2) ;;
  page_remove boot_pgdir 0 0 ;;
  check "va2pa(boot_pgdir, 0x0) == ~0" (va2pa boot_pgdir 0) 4294967295 ;;
  check "va2pa(boot_pgdir, BY2PG) == page2pa(pp1)" (va2pa boot_pgdir BY2PG) (page2pa pp1) ;;
  check "pp1->pp_ref == 1" (gets (fun s => pp_ref s pp1)) 1 ;;
  check "pp2->pp_ref == 0" (gets (fun s => pp_ref s pp2)) 0 ;;
  page_remove boot_pgdir 0 BY2PG ;;
  check "va2pa(boot_pgdir, 0x0) == ~0" (va2pa boot_pgdir 0) 4294967295 ;;
  check "va2pa(boot_pgdir, BY2PG) == ~0" (va2pa boot_pgdir BY2PG) 4294967295 ;;
  check "pp1->pp_ref == 0" (gets (fun s => pp_ref s pp1)) 0 ;;
  check "pp2->pp_ref == 0" (gets (fun s => pp_ref s pp2)) 0 ;;
  pp ← check_ok "page_alloc(&pp) == 0" page_alloc;
  assert "pp == pp1" (pp =? pp1) ;;
  check_err "page_alloc(&pp) == -E_NO_MEM" page_alloc ;;
  pde0 ← load boot_pgdir;
  assert "PTE_ADDR(boot_pgdir[0]) == page2pa(pp0)" (PTE_ADDR pde0 =? page2pa pp0) ;;
  store boot_pgdir 0 ;;
  check "pp0->pp_ref == 1" (gets (fun s => pp_ref s pp0)) 1 ;;
  modify (set_pp_ref pp0 0) ;;
  modify (fun s => set_free (set_first fl (page_free_list s)) s) ;;
  page_free pp0 ;;
  page_free pp1 ;;
  page_free pp2.

(** The state of the BSS, before [mips_detect_memory]. *)
Definition pmap_bss : pmap_st := mkPmap 0 0 0 ∅ LIST.empty ∅ ∅ 0.

(** mips_init's memory part: detect, build [pages], build the free list. *)
Definition mips_mem_init (memsize_reg kend : Z) : P Z :=
  mips_detect_memory memsize_reg ;;
  pages ← mips_vm_init kend;
  page_init ;;
  mret pages.
