(* ===== verification/PmapInv.v ===== *)
(** * Invariants of the page tables and reference counts

    [pmap_inv D ext fl s]: [D] are the page directories (as page numbers), [fl] the free
    list, and [ext p] the references to page [p] held by the kernel itself (boot pages, the
    shared tables of the template directory). The user parts of the directories in [D] use
    pairwise distinct page tables, no free page is referenced, and the reference count of
    every page is [ext p] plus the number of directory and table entries that map it. *)

From Stdlib Require Import ZArith Lia.
From stdpp Require Import base numbers list gmap strings.
From S2P Require Import Prelude Queue Mmu Pmap.
Import LIST.

(** Number of directory entries below [UTOP]. *)
Definition NU : Z := PDX UTOP.

Lemma NU_eq : NU = 509.
Proof. done. Qed.

(** ** Abstract view of an address space *)

(** The valid entry that maps [va] in directory page [d], if any. *)
Definition lookup_pte (m : mem) (d va : Z) : option Z :=
  let pde := word m d (PDX va) in
  if valid pde then
    let pte := word m (PPN pde) (PTX va) in
    if valid pte then Some pte else None
  else None.

Definition user_va (va : Z) : Prop := 0 <= va < UTOP.

Lemma PDX_user va : user_va va -> 0 <= PDX va < NU.
Proof.
  unfold user_va, UTOP, UENVS, UPAGES, UVPT, ULIM, PDMAP. intros H. rewrite PDX_div, NU_eq. dlia.
Qed.

Lemma PTX_range va : 0 <= PTX va < 1024.
Proof. rewrite PTX_div. dlia. Qed.

Lemma user_va_u32 va : user_va va -> is_u32 va.
Proof. unfold user_va, is_u32, UTOP, UENVS, UPAGES, UVPT, ULIM, PDMAP. lia. Qed.
#[export] Hint Resolve PDX_user PTX_range user_va_u32 : mos.

(** ** Counting references *)
Definition ind (b : bool) : Z := if b then 1 else 0.

(** Does table entry [j] of directory entry [i] of [d] map page [p]? *)
Definition leaf_maps (m : mem) (p : Z) (x : Z * Z * Z) : bool :=
  let '(d, i, j) := x in
  let pde := word m d i in
  let pte := word m (PPN pde) j in
  valid pde && valid pte && (PPN pte =? p).

Definition dir_maps (m : mem) (p : Z) (x : Z * Z) : bool :=
  let pde := word m x.1 x.2 in valid pde && (PPN pde =? p).

Definition dslots (D : list Z) : list (Z * Z) := list_prod D (zseq 0 509).
Definition lslots (D : list Z) : list (Z * Z * Z) := list_prod (dslots D) (zseq 0 1024).

Definition refs (D : list Z) (m : mem) (p : Z) : Z :=
  zsum (fun x => ind (leaf_maps m p x)) (lslots D) +
  zsum (fun x => ind (dir_maps m p x)) (dslots D) +
  ind (bool_decide (p ∈ D)).

Lemma elem_of_dslots D d i : (d, i) ∈ dslots D <-> d ∈ D /\ 0 <= i < NU.
Proof. unfold dslots. rewrite elem_of_list_prod, elem_of_zseq, NU_eq. change (0 + Z.of_nat 509) with 509. tauto. Qed.

Lemma elem_of_lslots D d i j :
  (d, i, j) ∈ lslots D <-> d ∈ D /\ 0 <= i < NU /\ 0 <= j < 1024.
Proof. unfold lslots. rewrite elem_of_list_prod, elem_of_dslots, elem_of_zseq. change (0 + Z.of_nat 1024) with 1024. tauto. Qed.

Lemma NoDup_lslots D : NoDup D -> NoDup (dslots D) /\ NoDup (lslots D).
Proof. intros H. split; repeat apply NoDup_list_prod; auto with mos. Qed.

Lemma ind_nonneg b : 0 <= ind b.
Proof. destruct b; cbn; lia. Qed.
#[export] Hint Resolve ind_nonneg : mos.

Lemma refs_nonneg D m p : 0 <= refs D m p.
Proof.
  unfold refs. pose proof (ind_nonneg (bool_decide (p ∈ D))).
  assert (0 <= zsum (fun x => ind (leaf_maps m p x)) (lslots D)) by (apply zsum_nonneg; auto with mos).
  assert (0 <= zsum (fun x => ind (dir_maps m p x)) (dslots D)) by (apply zsum_nonneg; auto with mos).
  lia.
Qed.

(** A page that something refers to has a positive count. *)
Lemma refs_leaf D m p d i j :
  d ∈ D -> 0 <= i < NU -> 0 <= j < 1024 -> leaf_maps m p (d, i, j) = true -> 1 <= refs D m p.
Proof.
  intros Hd Hi Hj E.
  assert (1 <= zsum (fun x => ind (leaf_maps m p x)) (lslots D)).
  { transitivity (ind (leaf_maps m p (d, i, j))); [by rewrite E|].
    apply (zsum_ge (fun x => ind (leaf_maps m p x))); [auto with mos|]. by apply elem_of_lslots. }
  assert (0 <= zsum (fun x => ind (dir_maps m p x)) (dslots D)) by (apply zsum_nonneg; auto with mos).
  pose proof (ind_nonneg (bool_decide (p ∈ D))). unfold refs. lia.
Qed.

Lemma refs_dir D m p d i :
  d ∈ D -> 0 <= i < NU -> dir_maps m p (d, i) = true -> 1 <= refs D m p.
Proof.
  intros Hd Hi E.
  assert (1 <= zsum (fun x => ind (dir_maps m p x)) (dslots D)).
  { transitivity (ind (dir_maps m p (d, i))); [by rewrite E|].
    apply (zsum_ge (fun x => ind (dir_maps m p x))); [auto with mos|]. by apply elem_of_dslots. }
  assert (0 <= zsum (fun x => ind (leaf_maps m p x)) (lslots D)) by (apply zsum_nonneg; auto with mos).
  pose proof (ind_nonneg (bool_decide (p ∈ D))). unfold refs. lia.
Qed.

Lemma refs_in_dirs D m p : p ∈ D -> 1 <= refs D m p.
Proof.
  intros H. unfold refs. rewrite (bool_decide_eq_true_2 _ H). cbn [ind].
  assert (0 <= zsum (fun x => ind (leaf_maps m p x)) (lslots D)) by (apply zsum_nonneg; auto with mos).
  assert (0 <= zsum (fun x => ind (dir_maps m p x)) (dslots D)) by (apply zsum_nonneg; auto with mos).
  lia.
Qed.

(** ** Well-formed memory: the part that does not involve the counts *)
Record mem_wf (D : list Z) (n : Z) (m : mem) : Prop := {
  wf_npage : 0 <= n <= 524288;
  wf_words : forall p i, is_u32 (word m p i);
  wf_dirs_nodup : NoDup D;
  wf_dirs : forall d, d ∈ D -> 0 <= d < n;
  wf_tab_range : forall d i, d ∈ D -> 0 <= i < NU -> valid (word m d i) = true ->
    PPN (word m d i) < n;
  wf_tab_inj : forall d i d' i', d ∈ D -> d' ∈ D -> 0 <= i < NU -> 0 <= i' < NU ->
    valid (word m d i) = true -> valid (word m d' i') = true ->
    PPN (word m d i) = PPN (word m d' i') -> d = d' /\ i = i';
  wf_tab_dir : forall d i, d ∈ D -> 0 <= i < NU -> valid (word m d i) = true ->
    PPN (word m d i) ∉ D;
  wf_leaf_range : forall d i j, d ∈ D -> 0 <= i < NU -> 0 <= j < 1024 ->
    valid (word m d i) = true -> valid (word m (PPN (word m d i)) j) = true ->
    PPN (word m (PPN (word m d i)) j) < n }.

Record pmap_inv (D : list Z) (ext : Z -> Z) (fl : list Z) (s : pmap_st) : Prop := {
  inv_mem : mem_wf D (npage s) (phys s);
  inv_fl : is_list (page_free_list s) fl;
  inv_fl_range : forall p, p ∈ fl -> 0 <= p < npage s;
  inv_fl_ref : forall p, p ∈ fl -> pp_ref s p = 0;
  inv_ext : forall p, 0 <= ext p;
  inv_ref16 : forall p, 0 <= pp_ref s p < 65536;
  inv_ref : forall p, 0 <= p < npage s -> pp_ref s p = ext p + refs D (phys s) p }.

Lemma PPN_nonneg m D n p i : mem_wf D n m -> 0 <= PPN (word m p i).
Proof. intros W. rewrite PPN_div. destruct (wf_words _ _ _ W p i). dlia. Qed.

(** No free page is referenced from any address space: there is no use after free. *)
Lemma free_unreferenced D ext fl s p :
  pmap_inv D ext fl s -> p ∈ fl -> refs D (phys s) p = 0 /\ ext p = 0.
Proof.
  intros I Hp. pose proof (inv_ref _ _ _ _ I p (inv_fl_range _ _ _ _ I p Hp)) as E.
  rewrite (inv_fl_ref _ _ _ _ I p Hp) in E.
  pose proof (refs_nonneg D (phys s) p). pose proof (inv_ext _ _ _ _ I p). lia.
Qed.

(** ** Effect of storing a table entry *)
Section SetLeaf.
Context (D : list Z) (n : Z) (m : mem) (W : mem_wf D n m).
Context (d i j e : Z) (Hd : d ∈ D) (Hi : 0 <= i < NU) (Hj : 0 <= j < 1024).
Context (Hv : valid (word m d i) = true) (He : is_u32 e).

Let t := PPN (word m d i).
Let m' := upd m t j e.

Lemma set_leaf_dir d' i' : d' ∈ D -> word m' d' i' = word m d' i'.
Proof.
  intros Hd'. unfold m'. rewrite word_upd, decide_False; [done|]. intros [<- _].
  by apply (wf_tab_dir _ _ _ W d i).
Qed.

Lemma set_leaf_word d' i' j' :
  d' ∈ D -> 0 <= i' < NU -> valid (word m d' i') = true ->
  word m' (PPN (word m d' i')) j' =
    if decide (d = d' /\ i = i' /\ j = j') then e else word m (PPN (word m d' i')) j'.
Proof.
  intros Hd' Hi' Hv'. unfold m'. rewrite word_upd.
  destruct (decide (d = d' /\ i = i' /\ j = j')) as [(<- & <- & <-)|Hn]; [by rewrite decide_True|].
  rewrite decide_False; [done|]. intros [Ht <-].
  destruct (wf_tab_inj _ _ _ W d i d' i') as [-> ->]; try done. by apply Hn.
Qed.

Lemma set_leaf_wf : (valid e = true -> PPN e < n) -> mem_wf D n m'.
Proof.
  intros Hen. destruct W. split; try done.
  - intros p k. unfold m'. rewrite word_upd. by case_decide.
  - intros d' i' Hd'. rewrite set_leaf_dir by done. auto.
  - intros d1 i1 d2 i2 Hd1 Hd2. rewrite !set_leaf_dir by done. auto.
  - intros d' i' Hd'. rewrite set_leaf_dir by done. auto.
  - intros d' i' j' Hd' Hi' Hj'. rewrite set_leaf_dir by done. intros Hv'.
    rewrite set_leaf_word by done. case_decide; auto.
Qed.

Lemma set_leaf_lookup d' va :
  d' ∈ D -> user_va va ->
  lookup_pte m' d' va =
    if decide (d = d' /\ i = PDX va /\ j = PTX va)
    then if valid e then Some e else None else lookup_pte m d' va.
Proof.
  intros Hd' Hva. unfold lookup_pte. rewrite set_leaf_dir by done.
  pose proof (PDX_user va Hva).
  destruct (valid (word m d' (PDX va))) eqn:Ev.
  - rewrite set_leaf_word by done. by case_decide.
  - rewrite decide_False; [done|]. intros (Ed & Ei & _). rewrite <- Ed, <- Ei in Ev. congruence.
Qed.

Lemma set_leaf_refs p : refs D m' p = refs D m p
  + (ind (valid e && (PPN e =? p)) - ind (leaf_maps m p (d, i, j))).
Proof.
  unfold refs.
  assert (Hdir : zsum (fun x => ind (dir_maps m' p x)) (dslots D)
    = zsum (fun x => ind (dir_maps m p x)) (dslots D)).
  { apply zsum_ext. intros [d' i'] Hx. apply elem_of_dslots in Hx as [Hd' _].
    unfold dir_maps. cbn. by rewrite set_leaf_dir. }
  rewrite Hdir, (zsum_upd (fun x => ind (leaf_maps m' p x)) (fun x => ind (leaf_maps m p x))
    (lslots D) (d, i, j)).
  - unfold leaf_maps at 2. rewrite set_leaf_dir, Hv, set_leaf_word, decide_True by done. cbn [andb]. lia.
  - apply NoDup_lslots, W.
  - by apply elem_of_lslots.
  - intros [[d' i'] j'] Hx Hne. apply elem_of_lslots in Hx as (Hd' & Hi' & Hj').
    unfold leaf_maps. rewrite set_leaf_dir by done.
    destruct (valid (word m d' i')) eqn:Ev; [|done].
    rewrite set_leaf_word, decide_False; [done| |done..]. intros (-> & -> & ->). done.
Qed.
End SetLeaf.

(** ** Effect of installing a cleared page as a new table *)
Section NewTable.
Context (D : list Z) (n : Z) (m : mem) (W : mem_wf D n m).
Context (d i t e : Z) (Hd : d ∈ D) (Hi : 0 <= i < NU).
Context (Hv : valid (word m d i) = false) (He : is_u32 e) (Hev : valid e = true) (Het : PPN e = t).
Context (Ht : 0 <= t < n) (Hfree : refs D m t = 0).

Let m' := upd (clear_page m t) d i e.

Lemma new_table_not_dir : t ∉ D.
Proof. intros H. pose proof (refs_in_dirs D m t H). lia. Qed.

Lemma new_table_not_tab d' i' : d' ∈ D -> 0 <= i' < NU -> valid (word m d' i') = true ->
  PPN (word m d' i') <> t.
Proof.
  intros Hd' Hi' Hv' E. pose proof (refs_dir D m t d' i' Hd' Hi') as H.
  unfold dir_maps in H. cbn in H. rewrite Hv', E, Z.eqb_refl in H. specialize (H eq_refl). lia.
Qed.

Lemma new_table_dir d' i' : d' ∈ D ->
  word m' d' i' = if decide (d = d' /\ i = i') then e else word m d' i'.
Proof.
  intros Hd'. unfold m'. rewrite word_upd. case_decide; [done|].
  rewrite word_clear, decide_False; [done|]. intros <-. by apply new_table_not_dir.
Qed.

Lemma new_table_leaf d' i' j' : d' ∈ D -> 0 <= i' < NU -> valid (word m d' i') = true ->
  word m' (PPN (word m d' i')) j' = word m (PPN (word m d' i')) j'.
Proof.
  intros Hd' Hi' Hv'. unfold m'. rewrite word_upd, decide_False.
  - rewrite word_clear, decide_False; [done|]. intros E. by apply (new_table_not_tab d' i').
  - intros [E _]. apply (wf_tab_dir _ _ _ W d' i'); try done. by rewrite <- E.
Qed.

Lemma new_table_zero j' : word m' t j' = 0.
Proof.
  unfold m'. rewrite word_upd, decide_False.
  - by rewrite word_clear, decide_True.
  - intros [E _]. apply new_table_not_dir. by rewrite <- E.
Qed.

Lemma new_table_wf : mem_wf D n m'.
Proof.
  destruct W. split; try done.
  - intros p k. unfold m'. rewrite word_upd. case_decide; [done|]. rewrite word_clear.
    case_decide; [unfold is_u32; lia|done].
  - intros d' i' Hd' Hi'. rewrite new_table_dir by done. case_decide; [lia|auto].
  - intros d1 i1 d2 i2 Hd1 Hd2 Hi1 Hi2. rewrite !new_table_dir by done.
    destruct (decide (d = d1 /\ i = i1)) as [[E1 E2]|], (decide (d = d2 /\ i = i2)) as [[E3 E4]|].
    + split; congruence.
    + rewrite Het. intros _ Hv2 E. by destruct (new_table_not_tab d2 i2).
    + rewrite Het. intros Hv1 _ E. by destruct (new_table_not_tab d1 i1).
    + by auto.
  - intros d' i' Hd' Hi'. rewrite new_table_dir by done. case_decide; [|by auto].
    rewrite Het. intros _. apply new_table_not_dir.
  - intros d' i' j' Hd' Hi' Hj'. rewrite new_table_dir by done. case_decide.
    + intros _. by rewrite Het, new_table_zero.
    + intros Hv'. rewrite new_table_leaf by done. auto.
Qed.

Lemma new_table_lookup d' va : d' ∈ D -> user_va va -> lookup_pte m' d' va = lookup_pte m d' va.
Proof.
  intros Hd' Hva.
  pose proof (PDX_user va Hva).
  unfold lookup_pte. rewrite new_table_dir by done. case_decide as Hc.
  - destruct Hc as [Ed Ei]. rewrite <- Ed, <- Ei. by rewrite Hev, Het, new_table_zero, Hv.
  - destruct (valid (word m d' (PDX va))) eqn:Ev; [|done]. by rewrite new_table_leaf.
Qed.

Lemma new_table_refs p : refs D m' p = refs D m p + ind (t =? p).
Proof.
  unfold refs.
  assert (Hleaf : zsum (fun x => ind (leaf_maps m' p x)) (lslots D)
    = zsum (fun x => ind (leaf_maps m p x)) (lslots D)).
  { apply zsum_ext. intros [[d' i'] j'] Hx. apply elem_of_lslots in Hx as (Hd' & Hi' & Hj').
    unfold leaf_maps. rewrite new_table_dir by done. case_decide as Hc.
    - destruct Hc as [Ed Ei]. rewrite <- Ed, <- Ei. by rewrite Hev, Het, new_table_zero, Hv.
    - destruct (valid (word m d' i')) eqn:Ev; [|done]. by rewrite new_table_leaf. }
  rewrite Hleaf, (zsum_upd (fun x => ind (dir_maps m' p x)) (fun x => ind (dir_maps m p x))
    (dslots D) (d, i)).
  - unfold dir_maps at 2 3. cbn [fst snd]. rewrite new_table_dir, decide_True, Hev, Hv, Het by done.
    cbn. lia.
  - apply NoDup_lslots, W.
  - by apply elem_of_dslots.
  - intros [d' i'] Hx Hne. apply elem_of_dslots in Hx as [Hd' _]. unfold dir_maps. cbn [fst snd].
    rewrite new_table_dir, decide_False; [done| |done]. intros [-> ->]. done.
Qed.
End NewTable.

(** ** Writing to a page that is neither a directory nor a table

    User data, and pages that have just been taken from the free list. *)
Definition data_page (D : list Z) (m : mem) (p : Z) : Prop :=
  (p ∉ D) /\ forall d i, d ∈ D -> 0 <= i < NU -> valid (word m d i) = true -> PPN (word m d i) <> p.

Lemma unreferenced_data D m p : refs D m p = 0 -> data_page D m p.
Proof.
  intros H. split; [by apply (new_table_not_dir D m p H)|].
  intros d i. by apply (new_table_not_tab D m p H).
Qed.

Lemma data_page_mono D m m' q :
  (forall d i, d ∈ D -> 0 <= i < NU -> valid (word m d i) = true -> word m' d i = word m d i) ->
  data_page D m' q -> data_page D m q.
Proof.
  intros H [H1 H2]. split; [done|]. intros d i Hd Hi Hv E. apply (H2 d i Hd Hi); by rewrite H.
Qed.

(** The other pages do not see a store to the table of a valid directory entry. *)
Lemma data_page_not_table D m q d i j v : d ∈ D -> 0 <= i < NU -> valid (word m d i) = true ->
  data_page D m q -> forall k, word (upd m (PPN (word m d i)) j v) q k = word m q k.
Proof.
  intros Hd Hi Hv [_ H] k. rewrite word_upd, decide_False; [done|]. intros [E _]. by apply (H d i).
Qed.

Section DataPage.
Context (D : list Z) (n : Z) (m m' : mem) (W : mem_wf D n m) (p : Z) (Hp : data_page D m p).
Context (Hsame : forall q i, q <> p -> word m' q i = word m q i).
Context (Hwords : forall i, is_u32 (word m' p i)).

Lemma data_dir d i : d ∈ D -> word m' d i = word m d i.
Proof. intros H. apply Hsame. intros ->. by apply Hp. Qed.

Lemma data_table d i j : d ∈ D -> 0 <= i < NU -> valid (word m d i) = true ->
  word m' (PPN (word m d i)) j = word m (PPN (word m d i)) j.
Proof. intros H1 H2 H3. apply Hsame. by apply Hp. Qed.

Lemma data_lookup d va : d ∈ D -> user_va va -> lookup_pte m' d va = lookup_pte m d va.
Proof.
  intros Hd Hva. pose proof (PDX_user va Hva). unfold lookup_pte. rewrite data_dir by done.
  destruct (valid (word m d (PDX va))) eqn:E; [|done]. by rewrite data_table.
Qed.

Lemma data_refs q : refs D m' q = refs D m q.
Proof.
  unfold refs. f_equal. f_equal; apply zsum_ext.
  - intros [[d i] j] Hx. apply elem_of_lslots in Hx as (Hd & Hi & _). unfold leaf_maps.
    rewrite data_dir by done. destruct (valid (word m d i)) eqn:E; [|done]. by rewrite data_table.
  - intros [d i] Hx. apply elem_of_dslots in Hx as (Hd & _). unfold dir_maps. cbn [fst snd].
    by rewrite data_dir.
Qed.

Lemma data_wf : mem_wf D n m'.
Proof.
  destruct W. split; try done.
  - intros q i. destruct (decide (q = p)) as [->|]; [done|]. by rewrite Hsame.
  - intros d i Hd. rewrite data_dir by done. auto.
  - intros d1 i1 d2 i2 H1 H2. rewrite !data_dir by done. auto.
  - intros d i Hd. rewrite data_dir by done. auto.
  - intros d i j Hd Hi Hj. rewrite data_dir by done. intros Hv. rewrite data_table by done. auto.
Qed.
End DataPage.
