(* ===== verification/PmapOps.v ===== *)
(** * Specifications of the page-table operations (kern/pmap.c)

    Each operation of Pmap.v is shown to return from every state that satisfies
    [pmap_inv] (no panic, no undefined behaviour), with its effect on the abstract view
    [lookup_pte], on the free list and on the TLB, and to preserve the invariant. *)

From Stdlib Require Import ZArith Lia.
From stdpp Require Import base numbers list gmap strings.
From S2P Require Import Prelude Queue Mmu Pmap PmapInv.
Import LIST.

(** ** Addresses *)
Lemma slot_add p i : slot p 0 + 4 * i = slot p i.
Proof. unfold slot. lia. Qed.

Lemma PPN_page p : PPN (p * 4096) = p.
Proof. rewrite PPN_div. dlia. Qed.

Lemma KADDR_page s p : 0 <= p < npage s -> npage s <= 524288 -> KADDR (p * 4096) s = Val (slot p 0) s.
Proof.
  intros Hp Hn. unfold KADDR. mstep. rewrite PPN_page.
  destruct (Z.leb_spec (npage s) p); [lia|]. unfold mret, M_ret. f_equal.
  unfold slot, ULIM. rewrite u32_small by (unfold is_u32; lia). lia.
Qed.

Lemma KADDR_pte s e : is_u32 e -> PPN e < npage s -> npage s <= 524288 ->
  KADDR (PTE_ADDR e) s = Val (slot (PPN e) 0) s.
Proof.
  intros He Hp Hn. rewrite PTE_ADDR_div, Z.mul_comm, <- PPN_div by done.
  apply KADDR_page; [|done]. rewrite PPN_div in *. unfold is_u32 in He. dlia.
Qed.

Lemma page2kva_page s p : 0 <= p < npage s -> npage s <= 524288 -> page2kva p s = Val (slot p 0) s.
Proof. intros Hp Hn. unfold page2kva. rewrite page2pa_mul by lia. by apply KADDR_page. Qed.

Lemma pa2page_pte s e : PPN e < npage s -> pa2page e s = Val (PPN e) s.
Proof. intros Hp. unfold pa2page. mstep. by destruct (Z.leb_spec (npage s) (PPN e)); [lia|]. Qed.

Lemma load_slot s p i : 0 <= i < 1024 -> load (slot p i) s = Val (word (phys s) p i) s.
Proof. intros H. unfold load, gets. by rewrite rd_slot. Qed.

Lemma store_slot s p i v : 0 <= i < 1024 ->
  store (slot p i) v s = Val tt (set_phys (upd (phys s) p i v) s).
Proof. intros H. unfold store, modify. by rewrite wr_slot. Qed.

Lemma memset_page_slot s p : memset_page (slot p 0) s = Val tt (set_phys (clear_page (phys s) p) s).
Proof. unfold memset_page, modify. destruct (slot_shape p 0) as [-> _]; [lia|done]. Qed.

Lemma pp_ref_set s p v p' :
  pp_ref (set_pp_ref p v s) p' = if decide (p = p') then u16 v else pp_ref s p'.
Proof. unfold pp_ref, set_pp_ref; cbn. rewrite lookup_insert. by case_decide. Qed.

Lemma u16_small v : 0 <= v < 65536 -> u16 v = v.
Proof. intros H. unfold u16. by apply Z.mod_small. Qed.

(** ** The view only depends on the virtual page number *)
Lemma vpn_indices va va' : VPN va = VPN va' -> PDX va = PDX va' /\ PTX va = PTX va'.
Proof. unfold VPN, PDX, PTX. rewrite !shiftr_div by lia. intros H. rewrite H. split; [|done].
  change (2 ^ 22) with (4096 * 1024). change (2 ^ 12) with 4096 in H.
  rewrite <- !Z.div_div, H by lia. done.
Qed.

Lemma indices_vpn va va' : is_u32 va -> is_u32 va' -> PDX va = PDX va' -> PTX va = PTX va' ->
  VPN va = VPN va'.
Proof.
  unfold is_u32. intros H H'. rewrite !PDX_div, !PTX_div. unfold VPN.
  rewrite !shiftr_div by lia. change (2 ^ 12) with 4096. dlia.
Qed.

Lemma lookup_pte_vpn m d va va' : VPN va = VPN va' -> lookup_pte m d va = lookup_pte m d va'.
Proof. intros H. unfold lookup_pte. by destruct (vpn_indices va va' H) as [-> ->]. Qed.

(** ** Page allocator *)
Lemma page_alloc_empty s : is_list (page_free_list s) [] -> page_alloc s = Val (Err (- E_NO_MEM)) s.
Proof. intros H. unfold page_alloc. mstep. by rewrite (proj2 (is_list_empty _ _ H) eq_refl). Qed.

Lemma page_alloc_cons s p fl :
  is_list (page_free_list s) (p :: fl) -> 0 <= p < npage s -> npage s <= 524288 ->
  exists q', is_list q' fl /\
    page_alloc s = Val (Ok p) (set_phys (clear_page (phys s) p) (set_free q' s)).
Proof.
  intros H Hp Hn. destruct (remove_head_refines _ _ _ H) as (q' & E & Hq').
  exists q'. split; [done|]. unfold page_alloc. mstep.
  pose proof (is_list_head _ _ _ H) as Hf. unfold LIST_EMPTY, LIST_FIRST in *. rewrite Hf.
  cbn. msteps. unfold list_remove_page. msteps. rewrite E. cbn. msteps.
  rewrite (bind_val _ _ _ _ _ (page2kva_page (set_free q' s) p Hp Hn)).
  by rewrite (bind_val _ _ _ _ _ (memset_page_slot _ p)).
Qed.

Definition decref_state (p : Z) (s : pmap_st) : pmap_st :=
  let s1 := set_pp_ref p (pp_ref s p - 1) s in
  if pp_ref s p =? 1 then set_free (LIST_INSERT_HEAD p (page_free_list s1)) s1 else s1.

Lemma page_decref_pos s p : 0 < pp_ref s p < 65536 -> page_decref p s = Val tt (decref_state p s).
Proof.
  intros H. unfold page_decref, decref_state. mstep.
  destruct (Z.ltb_spec 0 (pp_ref s p)); [|lia]. msteps. rewrite pp_ref_set, decide_True by done.
  rewrite u16_small by lia. destruct (Z.eqb_spec (pp_ref s p - 1) 0), (Z.eqb_spec (pp_ref s p) 1);
    try lia; [|done].
  unfold page_free. mstep. rewrite pp_ref_set, decide_True, u16_small by (done || lia).
  destruct (Z.eqb_spec (pp_ref s p - 1) 0); [done|lia].
Qed.

(** ** Walking and looking up *)
Section Walk.
Context (D : list Z) (s : pmap_st) (W : mem_wf D (npage s) (phys s)).
Context (d va : Z) (Hd : d ∈ D) (Hva : user_va va).

Lemma walk_nocreate :
  pgdir_walk (slot d 0) va false s =
  Val (Ok (if valid (word (phys s) d (PDX va))
           then Some (slot (PPN (word (phys s) d (PDX va))) (PTX va)) else None)) s.
Proof.
  pose proof (PDX_user va Hva) as Hi. rewrite NU_eq in Hi.
  unfold pgdir_walk. rewrite slot_add.
  rewrite (bind_val _ _ _ _ _ (load_slot s d (PDX va) ltac:(lia))).
  unfold valid. destruct (hasbits (word (phys s) d (PDX va)) PTE_V) eqn:E; cbn [negb]; [|done].
  rewrite (bind_val _ _ _ (slot (PPN (word (phys s) d (PDX va))) 0) s).
  - by rewrite slot_add.
  - apply KADDR_pte; [apply W| |apply W]. apply (wf_tab_range _ _ _ W); auto with mos.
Qed.

Lemma page_lookup_spec :
  page_lookup (slot d 0) va s =
  Val (match lookup_pte (phys s) d va with
       | Some e => Some (PPN e, slot (PPN (word (phys s) d (PDX va))) (PTX va))
       | None => None
       end) s.
Proof.
  unfold page_lookup. rewrite (bind_val _ _ _ _ _ walk_nocreate). unfold lookup_pte.
  destruct (valid (word (phys s) d (PDX va))) eqn:E; [|done].
  rewrite (bind_val _ _ _ _ _ (load_slot _ _ _ (PTX_range va))).
  change (hasbits ?x PTE_V) with (valid x). set (e := word (phys s) _ (PTX va)).
  destruct (valid e) eqn:Ee; [|done].
  rewrite (bind_val _ _ _ (PPN e) s); [done|]. apply pa2page_pte.
  apply (wf_leaf_range _ _ _ W); auto with mos.
Qed.
End Walk.

(** [va2pa] reads the same entry. *)
Lemma va2pa_spec D s d va :
  mem_wf D (npage s) (phys s) -> d ∈ D -> user_va va ->
  va2pa (slot d 0) va s =
  Val (match lookup_pte (phys s) d va with Some e => PTE_ADDR e | None => u32 (Z.lnot 0) end) s.
Proof.
  intros W Hd Hva. pose proof (PDX_user va Hva) as Hi. rewrite NU_eq in Hi.
  unfold va2pa, lookup_pte. rewrite slot_add.
  rewrite (bind_val _ _ _ _ _ (load_slot s d (PDX va) ltac:(lia))).
  change (hasbits ?x PTE_V) with (valid x).
  destruct (valid (word (phys s) d (PDX va))) eqn:E; cbn [negb]; [|done].
  rewrite (bind_val _ _ _ (slot (PPN (word (phys s) d (PDX va))) 0) s).
  - rewrite slot_add, (bind_val _ _ _ _ _ (load_slot _ _ _ (PTX_range va))).
    by destruct (valid (word (phys s) (PPN (word (phys s) d (PDX va))) (PTX va))).
  - apply KADDR_pte; [apply W| |apply W]. apply (wf_tab_range _ _ _ W); auto with mos.
Qed.

(** ** Effect of an operation on the mapping of one page *)
Record pt_effect (D : list Z) (d asid va : Z) (new : option Z) (s s' : pmap_st) : Prop := {
  eff_npage : npage s' = npage s;
  eff_at : lookup_pte (phys s') d va = new;
  eff_frame : forall d' va', d' ∈ D -> user_va va' -> ~ (d' = d /\ VPN va' = VPN va) ->
    lookup_pte (phys s') d' va' = lookup_pte (phys s) d' va';
  eff_table : forall d' i, d' ∈ D -> 0 <= i < NU -> valid (word (phys s) d' i) = true ->
    word (phys s') d' i = word (phys s) d' i;
  eff_data : forall q i, data_page D (phys s') q -> word (phys s') q i = word (phys s) q i;
  eff_tlb : tlb s' = delete (entryhi asid va) (tlb s);
  eff_cur : cur_pgdir s' = cur_pgdir s;
  eff_high : forall d' i, d' ∈ D -> NU <= i -> word (phys s') d' i = word (phys s) d' i }.

(** Storing an entry in the (existing) table of [va]. *)
Lemma set_leaf_effect D n m d va e :
  mem_wf D n m -> d ∈ D -> user_va va -> valid (word m d (PDX va)) = true -> is_u32 e ->
  let m' := upd m (PPN (word m d (PDX va))) (PTX va) e in
  lookup_pte m' d va = (if valid e then Some e else None) /\
  (forall d' va', d' ∈ D -> user_va va' -> ~ (d' = d /\ VPN va' = VPN va) ->
    lookup_pte m' d' va' = lookup_pte m d' va').
Proof.
  intros W Hd Hva Hv He m'.
  assert (L := set_leaf_lookup D n m W d (PDX va) (PTX va) e Hd (PDX_user va Hva) Hv).
  split.
  - unfold m'. rewrite L by done. by rewrite decide_True.
  - intros d' va' Hd' Hva' Hne. unfold m'. rewrite L, decide_False; [done| |done..].
    intros (-> & E1 & E2). apply Hne. split; [done|].
    apply indices_vpn; auto with mos.
Qed.

Lemma decref_npage p s : npage (decref_state p s) = npage s.
Proof. unfold decref_state. by destruct (_ =? 1). Qed.
Lemma decref_phys p s : phys (decref_state p s) = phys s.
Proof. unfold decref_state. by destruct (_ =? 1). Qed.
Lemma decref_tlb p s : tlb (decref_state p s) = tlb s.
Proof. unfold decref_state. by destruct (_ =? 1). Qed.
Lemma decref_cur p s : cur_pgdir (decref_state p s) = cur_pgdir s.
Proof. unfold decref_state. by destruct (_ =? 1). Qed.
Lemma decref_ref p s p' : 0 < pp_ref s p < 65536 ->
  pp_ref (decref_state p s) p' = pp_ref s p' - ind (p =? p').
Proof.
  intros H. unfold decref_state.
  assert (E : pp_ref (set_pp_ref p (pp_ref s p - 1) s) p' = pp_ref s p' - ind (p =? p')).
  { rewrite pp_ref_set. destruct (Z.eqb_spec p p') as [<-|Hne].
    - rewrite decide_True, u16_small by (done || lia). cbn. lia.
    - rewrite decide_False by done. cbn. lia. }
  destruct (_ =? 1); [|done]. exact E.
Qed.
#[export] Hint Rewrite decref_npage decref_phys decref_tlb decref_cur : mos_rw.

(** ** page_remove *)
Section Remove.
Context (D : list Z) (ext : Z -> Z) (fl : list Z) (s : pmap_st) (I : pmap_inv D ext fl s).
Context (d asid va : Z) (Hd : d ∈ D) (Hva : user_va va).
Let W := inv_mem _ _ _ _ I.

Lemma remove_unmapped : lookup_pte (phys s) d va = None ->
  page_remove (slot d 0) asid va s = Val tt s.
Proof.
  intros E. unfold page_remove. rewrite (bind_val _ _ _ _ _ (page_lookup_spec D s W d va Hd Hva)).
  by rewrite E.
Qed.

Context (e : Z) (He : lookup_pte (phys s) d va = Some e).
Let t := PPN (word (phys s) d (PDX va)).

Lemma lookup_some_parts :
  valid (word (phys s) d (PDX va)) = true /\ word (phys s) t (PTX va) = e /\ valid e = true /\
  is_u32 e /\ 0 <= PPN e < npage s.
Proof.
  unfold lookup_pte in He. fold t in He.
  destruct (valid (word (phys s) d (PDX va))) eqn:E1; [|done].
  destruct (valid (word (phys s) t (PTX va))) eqn:E2; [|done]. injection He as <-.
  split_and!; try done; [apply W..| |].
  - eapply PPN_nonneg, W.
  - apply (wf_leaf_range _ _ _ W); auto with mos.
Qed.

Lemma mapped_ref_pos : 0 < pp_ref s (PPN e) < 65536.
Proof.
  destruct lookup_some_parts as (E1 & E2 & E3 & E4 & E5).
  pose proof (inv_ref16 _ _ _ _ I (PPN e)). rewrite (inv_ref _ _ _ _ I) in * by done.
  pose proof (inv_ext _ _ _ _ I (PPN e)).
  assert (1 <= refs D (phys s) (PPN e)); [|lia].
  apply (refs_leaf D (phys s) (PPN e) d (PDX va) (PTX va)); auto with mos.
  unfold leaf_maps. fold t. by rewrite E1, E2, E3, Z.eqb_refl.
Qed.

Definition remove_state : pmap_st :=
  set_tlb (delete (entryhi asid va) (tlb s))
    (set_phys (upd (phys s) t (PTX va) 0) (decref_state (PPN e) s)).

Definition remove_fl : list Z := if pp_ref s (PPN e) =? 1 then PPN e :: fl else fl.

Lemma remove_mapped : page_remove (slot d 0) asid va s = Val tt remove_state.
Proof.
  unfold page_remove. rewrite (bind_val _ _ _ _ _ (page_lookup_spec D s W d va Hd Hva)), He.
  rewrite (bind_val _ _ _ _ _ (page_decref_pos _ _ mapped_ref_pos)).
  rewrite (bind_val _ _ _ _ _ (store_slot _ _ _ _ (PTX_range va))).
  unfold tlb_invalidate, tlb_out, modify, remove_state. cbn.
  by rewrite decref_phys, decref_tlb.
Qed.

Lemma remove_effect : pt_effect D d asid va None s remove_state.
Proof.
  destruct lookup_some_parts as (E1 & E2 & E3 & E4 & E5).
  destruct (set_leaf_effect D (npage s) (phys s) d va 0 W Hd Hva E1 ltac:(unfold is_u32; lia))
    as [L1 L2].
  split; cbn; autorewrite with mos_rw; try done.
  - intros d' i' Hd' _ _. by apply (set_leaf_dir D _ _ W d (PDX va)); auto with mos.
  - intros q i Hq. apply (data_page_not_table D); auto with mos.
    eapply (data_page_mono D); [|exact Hq].
    intros d' i' Hd' _ _. by apply (set_leaf_dir D _ _ W d (PDX va)); auto with mos.
  - intros d' i' Hd' _. by apply (set_leaf_dir D _ _ W d (PDX va)); auto with mos.
Qed.

Lemma remove_inv : pmap_inv D ext remove_fl remove_state.
Proof.
  destruct lookup_some_parts as (E1 & E2 & E3 & E4 & E5).
  pose proof mapped_ref_pos as Hpos.
  assert (Hnew : PPN e ∉ fl).
  { intros H. rewrite (inv_fl_ref _ _ _ _ I _ H) in Hpos. lia. }
  assert (Href : forall p, pp_ref remove_state p = pp_ref s p - ind (PPN e =? p)).
  { intros p. rewrite <- decref_ref by done. done. }
  split.
  - cbn. autorewrite with mos_rw.
    apply set_leaf_wf; auto with mos; [done|discriminate].
  - unfold remove_fl, remove_state, decref_state. cbn.
    destruct (_ =? 1); cbn; [apply insert_head_refines; [|done]|]; apply I.
  - cbn. autorewrite with mos_rw. intros p. unfold remove_fl.
    destruct (_ =? 1); [rewrite elem_of_cons; intros [->|H]; [done|]|intros H];
      by apply (inv_fl_range _ _ _ _ I).
  - intros p. rewrite Href. unfold remove_fl. destruct (Z.eqb_spec (pp_ref s (PPN e)) 1) as [E1'|].
    + rewrite elem_of_cons. intros [->|H]; [by rewrite E1', Z.eqb_refl|].
      rewrite (inv_fl_ref _ _ _ _ I _ H). destruct (Z.eqb_spec (PPN e) p) as [<-|]; done.
    + intros H. rewrite (inv_fl_ref _ _ _ _ I _ H).
      destruct (Z.eqb_spec (PPN e) p) as [<-|]; done.
  - apply I.
  - intros p. rewrite Href. pose proof (inv_ref16 _ _ _ _ I p).
    destruct (Z.eqb_spec (PPN e) p) as [<-|]; cbn; lia.
  - intros p. rewrite Href. cbn. autorewrite with mos_rw. intros Hp.
    rewrite (inv_ref _ _ _ _ I) by done.
    rewrite (set_leaf_refs D (npage s) (phys s) W d (PDX va) (PTX va) 0); auto with mos.
    unfold leaf_maps. fold t. rewrite E1, E2, E3, valid_0. destruct (PPN e =? p); cbn [andb ind]; lia.
Qed.
End Remove.

(** [page_remove] returns, unmaps exactly the page of [va] in that directory, drops one
    reference (freeing the page when it was the last), flushes the TLB entry and preserves
    the invariant. *)
Lemma page_remove_ok D ext fl s d asid va :
  pmap_inv D ext fl s -> d ∈ D -> user_va va ->
  match lookup_pte (phys s) d va with
  | None => page_remove (slot d 0) asid va s = Val tt s
  | Some e => exists s', page_remove (slot d 0) asid va s = Val tt s' /\
      pt_effect D d asid va None s s' /\
      pmap_inv D ext (if pp_ref s (PPN e) =? 1 then PPN e :: fl else fl) s' /\
      (forall p, pp_ref s' p = pp_ref s p - ind (PPN e =? p)) /\
      (forall d' i, d' ∈ D -> word (phys s') d' i = word (phys s) d' i)
  end.
Proof.
  intros I Hd Hva. destruct (lookup_pte (phys s) d va) as [e|] eqn:E.
  - exists (remove_state s d asid va e). split_and!.
    + by apply (remove_mapped D ext fl).
    + by apply (remove_effect D ext fl).
    + by apply (remove_inv D ext fl).
    + intros p. rewrite <- decref_ref; [done|]. by apply (mapped_ref_pos D ext fl s I d va).
    + intros d' i Hd'. cbn.
      apply (set_leaf_dir D _ _ (inv_mem _ _ _ _ I) d (PDX va)); auto with mos.
      by apply (lookup_some_parts D ext fl s I d va Hd Hva e).
  - by apply (remove_unmapped D ext fl).
Qed.
