(* ===== verification/PmapInsert.v ===== *)
(** * Inserting pages, creating and destroying address spaces (kern/pmap.c)

    [walk_create] describes [pgdir_walk] with [create] on each of its branches, and
    [page_insert_ok] the effect of [page_insert] on the mappings, the counts, the free list
    and the TLB; [tlb_coherent] says that no TLB entry of a live address space contradicts its
    page tables. Then: how [pmap_inv] changes when a page becomes a directory
    ([env_setup_vm]), when an empty page table is dropped from it, and when an empty directory
    is dropped ([env_free], kern/env.c). *)

From Stdlib Require Import ZArith Lia.
From stdpp Require Import base numbers list gmap strings.
From S2P Require Import Prelude Queue Mmu Pmap PmapInv PmapOps.
Import LIST.

Lemma pmap_inv_tlb D ext fl s t : pmap_inv D ext fl s -> pmap_inv D ext fl (set_tlb t s).
Proof. intros []. by split. Qed.

Lemma dir_pte_mk p : Z.lor (Z.lor (page2pa p) PTE_V) PTE_D = mk_pte p PTE_D.
Proof. unfold mk_pte. rewrite <- !Z.lor_assoc. f_equal. Qed.

(** ** Walking with [create] *)
Section Create.
Context (D : list Z) (ext : Z -> Z) (fl : list Z) (s : pmap_st) (I : pmap_inv D ext fl s).
Context (d va : Z) (Hd : d ∈ D) (Hva : user_va va).
Let W := inv_mem _ _ _ _ I.

Record created (fl' : list Z) (s' : pmap_st) : Prop := {
  cr_table : valid (word (phys s') d (PDX va)) = true;
  cr_inv : pmap_inv D ext fl' s';
  cr_lookup : forall d' va', d' ∈ D -> user_va va' ->
    lookup_pte (phys s') d' va' = lookup_pte (phys s) d' va';
  cr_tables : forall d' i, d' ∈ D -> 0 <= i < NU -> valid (word (phys s) d' i) = true ->
    word (phys s') d' i = word (phys s) d' i;
  cr_data : forall q i, data_page D (phys s') q -> word (phys s') q i = word (phys s) q i;
  cr_fl : forall p, p ∈ fl' -> p ∈ fl;
  cr_ref : forall p, p ∉ fl -> pp_ref s' p = pp_ref s p;
  cr_keep : forall q, data_page D (phys s) q -> (q ∈ fl -> q ∈ fl') -> data_page D (phys s') q;
  cr_old : valid (word (phys s) d (PDX va)) = true -> fl' = fl;
  cr_rest : npage s' = npage s /\ (tlb s' = tlb s) /\ (cur_pgdir s' = cur_pgdir s);
  cr_high : forall d' i, d' ∈ D -> NU <= i -> word (phys s') d' i = word (phys s) d' i }.

Lemma walk_create_old : valid (word (phys s) d (PDX va)) = true ->
  pgdir_walk (slot d 0) va true s =
    Val (Ok (Some (slot (PPN (word (phys s) d (PDX va))) (PTX va)))) s.
Proof.
  intros E. pose proof (walk_nocreate D s W d va Hd Hva) as H. rewrite E in H. rewrite <- H.
  pose proof (PDX_user va Hva) as Hi. rewrite NU_eq in Hi.
  unfold pgdir_walk. rewrite slot_add, !(bind_val _ _ _ _ _ (load_slot s d (PDX va) ltac:(lia))).
  change (hasbits ?x PTE_V) with (valid x). by rewrite E.
Qed.

Lemma walk_create_nomem : valid (word (phys s) d (PDX va)) = false -> fl = [] ->
  pgdir_walk (slot d 0) va true s = Val (Err (- E_NO_MEM)) s.
Proof.
  intros E Efl. pose proof (PDX_user va Hva) as Hi. rewrite NU_eq in Hi.
  unfold pgdir_walk. rewrite slot_add, (bind_val _ _ _ _ _ (load_slot s d (PDX va) ltac:(lia))).
  change (hasbits ?x PTE_V) with (valid x). rewrite E. cbn [negb].
  pose proof (inv_fl _ _ _ _ I) as L. rewrite Efl in L.
  by rewrite (bind_val _ _ _ _ _ (page_alloc_empty _ L)).
Qed.

Context (p : Z) (fl' : list Z) (Efl : fl = p :: fl').
Context (E : valid (word (phys s) d (PDX va)) = false).

Lemma new_page_facts : 0 <= p < npage s /\ npage s <= 524288 /\ refs D (phys s) p = 0 /\
  ext p = 0 /\ (p ∉ fl') /\ PPN (mk_pte p PTE_D) = p.
Proof.
  assert (Hp : p ∈ fl) by (rewrite Efl; left).
  pose proof (free_unreferenced _ _ _ _ _ I Hp) as [? ?].
  pose proof (inv_fl_range _ _ _ _ I _ Hp). pose proof (wf_npage _ _ _ W).
  pose proof (inv_fl _ _ _ _ I) as L. rewrite Efl in L. destruct L as [N _].
  apply NoDup_cons in N as [N _].
  split_and!; try done; try lia. apply PPN_mk_pte; unfold PTE_D; lia.
Qed.

(** The memory with [p] cleared and installed as the table of [va]. *)
Definition new_table_memory : mem := upd (clear_page (phys s) p) d (PDX va) (mk_pte p PTE_D).

Lemma walk_create_new : exists q', is_list q' fl' /\
  page_alloc s = Val (Ok p) (set_phys (clear_page (phys s) p) (set_free q' s)) /\
  let s' := set_phys new_table_memory (set_pp_ref p 1 (set_free q' s)) in
  pgdir_walk (slot d 0) va true s = Val (Ok (Some (slot p (PTX va)))) s' /\
  PPN (word (phys s') d (PDX va)) = p /\ created fl' s'.
Proof.
  destruct new_page_facts as (Hp & Hn & Href & Hext & Hnin & HPPN).
  pose proof (PDX_user va Hva) as Hi. pose proof Hi as Hi'. rewrite NU_eq in Hi'.
  pose proof (inv_fl _ _ _ _ I) as L. rewrite Efl in L.
  destruct (page_alloc_cons s p fl' L Hp Hn) as (q' & Hq & EA).
  assert (Hev : valid (mk_pte p PTE_D) = true) by apply valid_mk_pte.
  assert (He : is_u32 (mk_pte p PTE_D)) by (apply mk_pte_u32; unfold is_u32, PTE_D; lia).
  set (e := mk_pte p PTE_D) in *.
  set (m' := upd (clear_page (phys s) p) d (PDX va) e).
  exists q'. split; [done|]. split; [done|]. cbv zeta. change new_table_memory with m'.
  assert (Hpd : word m' d (PDX va) = e) by (unfold m'; rewrite word_upd; by rewrite decide_True).
  split_and!.
  - unfold pgdir_walk. rewrite slot_add, (bind_val _ _ _ _ _ (load_slot s d (PDX va) ltac:(lia))).
    change (hasbits ?x PTE_V) with (valid x). rewrite E. cbn [negb].
    rewrite (bind_val _ _ _ _ _ EA). msteps.
    rewrite (bind_val _ _ _ _ _ (store_slot _ _ (PDX va) _ ltac:(lia))), dir_pte_mk.
    erewrite bind_val by (apply page2kva_page; [exact Hp|exact Hn]). by rewrite slot_add.
  - cbn. by rewrite Hpd.
  - assert (WF : mem_wf D (npage s) m') by (apply (new_table_wf D _ _ W); auto with mos).
    assert (Hr : forall q, default 0 (<[p:=u16 1]> (pages_ref s) !! q) = pp_ref s q + ind (p =? q)).
    { intros q. destruct (Z.eqb_spec p q) as [<-|].
      - rewrite lookup_insert_eq, (inv_fl_ref _ _ _ _ I) by (rewrite Efl; left). done. 
      - rewrite lookup_insert_ne by done. unfold pp_ref. cbn. lia. }
    split; cbn; try done.
    + by rewrite Hpd.
    + split; cbn; try apply I; try done; unfold pp_ref; cbn.
      * intros q Hq'. apply (inv_fl_range _ _ _ _ I). rewrite Efl. by right.
      * intros q Hq'. rewrite Hr. destruct (Z.eqb_spec p q) as [->|]; [done|].
        rewrite (inv_fl_ref _ _ _ _ I); [done|]. rewrite Efl. by right.
      * intros q. rewrite Hr. pose proof (inv_ref16 _ _ _ _ I q).
        destruct (Z.eqb_spec p q) as [<-|]; cbn; [|lia].
        rewrite (inv_fl_ref _ _ _ _ I p) by (rewrite Efl; left). lia.
      * intros q Hq'. rewrite Hr, (inv_ref _ _ _ _ I) by done.
        unfold m'. rewrite (new_table_refs D _ _ W d (PDX va) p e); auto with mos. lia.
    + intros d' va' Hd' Hva'. apply (new_table_lookup D _ _ W); auto with mos.
    + intros d' i' Hd' _ Hv'. unfold m'. rewrite (new_table_dir D _ d (PDX va) p e); auto with mos.
      case_decide as Hc; [|done]. destruct Hc as [<- <-]. congruence.
    + intros q i [Hq1 Hq2]. unfold m'. rewrite word_upd, decide_False by (by intros [<- _]).
      rewrite word_clear, decide_False; [done|]. intros <-.
      apply (Hq2 d (PDX va)); [done|done|by rewrite Hpd|by rewrite Hpd].
    + intros q Hq'. rewrite Efl. by right.
    + intros q Hq'. unfold pp_ref at 1; cbn. rewrite Hr.
      destruct (Z.eqb_spec p q) as [->|]; [|apply Z.add_0_r]. destruct Hq'. rewrite Efl. left.
    + intros q [Hq1 Hq2] Hf. split; [done|]. intros d' i' Hd' Hi''. unfold m'.
      rewrite (new_table_dir D _ d (PDX va) p e) by auto with mos.
      case_decide as Hc; [|by apply Hq2]. rewrite HPPN. intros _ <-. apply Hnin, Hf. rewrite Efl. left.
    + congruence.
    + intros d' i' Hd' Hi2. unfold m'. rewrite (new_table_dir D _ d (PDX va) p e), decide_False by (lia || auto with mos).
      done.
Qed.
End Create.

Lemma walk_create D ext fl s d va : pmap_inv D ext fl s -> d ∈ D -> user_va va ->
  (pgdir_walk (slot d 0) va true s = Val (Err (- E_NO_MEM)) s /\ fl = [] /\
     valid (word (phys s) d (PDX va)) = false) \/
  (exists fl' s', (created D ext fl s d va fl' s') /\
     pgdir_walk (slot d 0) va true s =
       Val (Ok (Some (slot (PPN (word (phys s') d (PDX va))) (PTX va)))) s').
Proof.
  intros I Hd Hva. destruct (valid (word (phys s) d (PDX va))) eqn:E.
  - right. exists fl, s. split; [by split|]. by apply (walk_create_old D ext fl).
  - destruct fl as [|p fl'].
    + left. split; [|done]. by apply (walk_create_nomem D ext []).
    + right. destruct (walk_create_new D ext _ s I d va Hd Hva p fl' eq_refl E) as (q' & _ & _ & Ew & Ep & C).
      eexists fl', _. split; [exact C|]. by rewrite Ep.
Qed.

(** ** Filling the entry *)
Section Fill.
Context (D : list Z) (ext : Z -> Z) (fl : list Z) (s : pmap_st) (I : pmap_inv D ext fl s).
Context (d asid va pp perm : Z) (Hd : d ∈ D) (Hva : user_va va).
Context (Hpp : 0 <= pp < npage s) (Hperm : 0 <= perm < 4096).
Context (Hv : valid (word (phys s) d (PDX va)) = true).
Let W := inv_mem _ _ _ _ I.
Let t := PPN (word (phys s) d (PDX va)).
Let e := mk_pte pp perm.
Let m' := upd (phys s) t (PTX va) e.

Lemma fill_entry : is_u32 e /\ valid e = true /\ PPN e = pp.
Proof.
  pose proof (wf_npage _ _ _ W). split_and!; [|apply valid_mk_pte|apply PPN_mk_pte; lia].
  apply mk_pte_u32. unfold is_u32. lia.
Qed.

Lemma fill_wf : mem_wf D (npage s) m'.
Proof.
  destruct fill_entry as (He & Hev & HP).
  apply set_leaf_wf; auto with mos. intros _. rewrite HP. lia.
Qed.

Lemma fill_lookup : lookup_pte m' d va = Some e /\
  (forall d' va', d' ∈ D -> user_va va' -> ~ (d' = d /\ VPN va' = VPN va) ->
    lookup_pte m' d' va' = lookup_pte (phys s) d' va').
Proof.
  destruct fill_entry as (He & Hev & HP).
  pose proof (set_leaf_effect D _ _ d va e W Hd Hva Hv He) as L. rewrite Hev in L. exact L.
Qed.

Lemma fill_refs p : refs D m' p = refs D (phys s) p + (ind (pp =? p) -
  match lookup_pte (phys s) d va with Some e0 => ind (PPN e0 =? p) | None => 0 end).
Proof.
  destruct fill_entry as (He & Hev & HP).
  unfold m', t. rewrite (set_leaf_refs D _ _ W d (PDX va) (PTX va) e) by auto with mos. rewrite Hev, HP. cbn [andb].
  unfold leaf_maps, lookup_pte. rewrite Hv. fold t. cbn [andb].
  by destruct (valid (word (phys s) t (PTX va))).
Qed.

(** A first mapping: the count of [pp] goes up by one. *)
Lemma fill_inv : lookup_pte (phys s) d va = None -> pp ∉ fl -> pp_ref s pp < 65535 ->
  pmap_inv D ext fl (set_pp_ref pp (pp_ref s pp + 1) (set_phys m' s)).
Proof.
  intros HN Hfl H16. pose proof (inv_ref16 _ _ _ _ I pp) as H0.
  assert (Hr : forall q, pp_ref (set_pp_ref pp (pp_ref s pp + 1) (set_phys m' s)) q
    = pp_ref s q + ind (pp =? q)).
  { intros q. rewrite pp_ref_set, u16_small by lia. change (pp_ref (set_phys m' s) q) with (pp_ref s q).
    destruct (Z.eqb_spec pp q) as [<-|]; [by rewrite decide_True|]. rewrite decide_False by done.
    cbn [ind]. lia. }
  split; try apply I; [apply fill_wf| | |].
  - intros q Hq. rewrite Hr, (inv_fl_ref _ _ _ _ I) by done.
    by destruct (Z.eqb_spec pp q) as [->|].
  - intros q. rewrite Hr. pose proof (inv_ref16 _ _ _ _ I q).
    destruct (Z.eqb_spec pp q) as [<-|]; cbn [ind]; lia.
  - intros q Hq. rewrite Hr. cbn. rewrite fill_refs, HN, (inv_ref _ _ _ _ I) by done. lia.
Qed.

(** The page is already there: only the permissions change. *)
Lemma refill_inv e0 : lookup_pte (phys s) d va = Some e0 -> PPN e0 = pp ->
  pmap_inv D ext fl (set_phys m' s).
Proof.
  intros HS Hp. split; try apply I; [apply fill_wf|]. intros q Hq.
  change (pp_ref (set_phys m' s) q) with (pp_ref s q).
  cbn. rewrite fill_refs, HS, Hp, (inv_ref _ _ _ _ I) by done. lia.
Qed.
End Fill.

(** What a successful insertion leaves behind. *)
Record inserted (D : list Z) (ext : Z -> Z) (fl : list Z) (d asid va pp perm : Z)
    (s s' : pmap_st) (fl' : list Z) : Prop := {
  ins_effect : pt_effect D d asid va (Some (mk_pte pp perm)) s s';
  ins_inv : pmap_inv D ext fl' s';
  ins_mapped_not_free : pp ∉ fl';
  ins_keep : forall q, data_page D (phys s) q -> (q ∈ fl -> q ∈ fl') -> data_page D (phys s') q;
  ins_ref : pp_ref s' pp = pp_ref s pp +
    match lookup_pte (phys s) d va with Some e0 => 1 - ind (PPN e0 =? pp) | None => 1 end }.

Lemma page_insert_new_ok D ext fl s d asid va pp perm :
  pmap_inv D ext fl s -> d ∈ D -> user_va va -> 0 <= pp < npage s -> pp ∉ fl ->
  pp_ref s pp < 65535 -> 0 <= perm < 4096 -> lookup_pte (phys s) d va = None ->
  (page_insert_new (slot d 0) asid pp va perm s =
     Val (- E_NO_MEM) (set_tlb (delete (entryhi asid va) (tlb s)) s) /\ fl = [] /\
     valid (word (phys s) d (PDX va)) = false) \/
  (exists s' fl', page_insert_new (slot d 0) asid pp va perm s = Val 0 s' /\
     inserted D ext fl d asid va pp perm s s' fl' /\ (forall p, p ∈ fl' -> p ∈ fl) /\
     pp_ref s' pp = pp_ref s pp + 1 /\ (valid (word (phys s) d (PDX va)) = true -> fl' = fl)).
Proof.
  intros I Hd Hva Hpp Hfl H16 Hperm HN. set (s1 := set_tlb (delete (entryhi asid va) (tlb s)) s).
  pose proof (pmap_inv_tlb _ _ _ _ (delete (entryhi asid va) (tlb s)) I) as I1. fold s1 in I1.
  assert (E1 : tlb_invalidate asid va s = Val tt s1) by done.
  unfold page_insert_new. rewrite (bind_val _ _ _ _ _ E1).
  destruct (walk_create D ext fl s1 d va I1 Hd Hva) as [(E & -> & Hv)|(fl' & s2 & C & E)];
    rewrite (bind_val _ _ _ _ _ E); [by left|right].
  destruct C as [Hv I2 HL HT HDt Hsub Hkeep HK Hold (Hn & Htlb & Hcur) HH].
  assert (Hfl' : pp ∉ fl') by (intros H; by apply Hfl, Hsub).
  assert (Href : pp_ref s2 pp = pp_ref s pp) by by rewrite Hkeep.
  assert (HN2 : lookup_pte (phys s2) d va = None) by by rewrite HL.
  assert (Hpp2 : 0 <= pp < npage s2) by by rewrite Hn.
  unfold set_pte. rewrite (bind_val _ _ _ _ _ (store_slot _ _ _ _ (PTX_range va))). mstep.
  eexists _, fl'. split; [reflexivity|]. rewrite <- Href in H16.
  destruct (fill_lookup D ext fl' s2 I2 d va pp perm Hd Hva Hpp2 Hperm Hv) as [L1 L2].
  assert (HR : pp_ref (set_pp_ref pp (pp_ref s2 pp + 1) (set_phys (upd (phys s2) (PPN (word (phys s2) d (PDX va)))
    (PTX va) (mk_pte pp perm)) s2)) pp = pp_ref s pp + 1).
  { pose proof (inv_ref16 _ _ _ _ I2 pp). rewrite pp_ref_set, decide_True, u16_small by (done || lia). lia. }
  split_and!; [split|done|exact HR|exact Hold].
  - split; cbn; try done.
    + intros d' va' Hd' Hva' Hne. rewrite L2 by done. by apply HL.
    + intros d' i' Hd' Hi' Hv'. transitivity (word (phys s2) d' i'); [|by apply HT].
      by apply (set_leaf_dir D _ _ (inv_mem _ _ _ _ I2) d (PDX va)); auto with mos.
    + intros q i Hq.
      assert (Hq2 : data_page D (phys s2) q).
      { eapply (data_page_mono D); [|exact Hq]. intros d' i' Hd' _ _.
        by apply (set_leaf_dir D _ _ (inv_mem _ _ _ _ I2) d (PDX va)); auto with mos. }
      transitivity (word (phys s2) q i); [|by apply HDt]. apply (data_page_not_table D); auto with mos.
    + intros d' i' Hd' Hi'. transitivity (word (phys s2) d' i'); [|by apply HH].
      by apply (set_leaf_dir D _ _ (inv_mem _ _ _ _ I2) d (PDX va)); auto with mos.
  - by apply (fill_inv D ext fl' s2).
  - done.
  - intros q Hq Hf. apply (data_page_mono D _ (phys s2)); [|by apply HK]. intros d' i' Hd' _ _. symmetry.
    by apply (set_leaf_dir D _ _ (inv_mem _ _ _ _ I2) d (PDX va)); auto with mos.
  - rewrite HN. exact HR.
Qed.

Lemma page_insert_ok D ext fl s d asid va pp perm :
  pmap_inv D ext fl s -> d ∈ D -> user_va va -> 0 <= pp < npage s -> pp ∉ fl ->
  pp_ref s pp < 65535 -> 0 <= perm < 4096 ->
  (page_insert (slot d 0) asid pp va perm s =
     Val (- E_NO_MEM) (set_tlb (delete (entryhi asid va) (tlb s)) s) /\ fl = [] /\
     valid (word (phys s) d (PDX va)) = false) \/
  (exists s' fl', page_insert (slot d 0) asid pp va perm s = Val 0 s' /\
     inserted D ext fl d asid va pp perm s s' fl').
Proof.
  intros I Hd Hva Hpp Hfl H16 Hperm. pose proof (inv_mem _ _ _ _ I) as W.
  pose proof (page_insert_new_ok D ext fl s d asid va pp perm I Hd Hva Hpp Hfl H16 Hperm) as New.
  assert (New' : lookup_pte (phys s) d va = None ->
    (page_insert_new (slot d 0) asid pp va perm s =
       Val (- E_NO_MEM) (set_tlb (delete (entryhi asid va) (tlb s)) s) /\ fl = [] /\
       valid (word (phys s) d (PDX va)) = false) \/
    (exists s' fl', page_insert_new (slot d 0) asid pp va perm s = Val 0 s' /\
       inserted D ext fl d asid va pp perm s s' fl')).
  { intros HN. destruct (New HN) as [?|(s' & fl' & ? & ? & _)]; [by left|]. right. eauto. }
  clear New. unfold page_insert. rewrite (bind_val _ _ _ _ _ (walk_nocreate D s W d va Hd Hva)).
  destruct (lookup_pte (phys s) d va) as [e0|] eqn:HL.
  - destruct (lookup_some_parts D ext fl s I d va Hd Hva e0 HL) as (E1 & E2 & E3 & E4 & E5).
    rewrite E1, (bind_val _ _ _ _ _ (load_slot _ _ _ (PTX_range va))), E2.
    change (hasbits e0 PTE_V) with (valid e0). rewrite E3.
    rewrite (bind_val _ _ _ _ _ (pa2page_pte s e0 ltac:(lia))). right.
    destruct (Z.eqb_spec (PPN e0) pp) as [Hp|Hp]; cbn [negb].
    + eexists _, fl. split; [unfold tlb_invalidate, tlb_out; mstep; unfold set_pte;
        rewrite (bind_val _ _ _ _ _ (store_slot _ _ _ _ (PTX_range va))); reflexivity|].
      destruct (fill_lookup D ext fl s I d va pp perm Hd Hva Hpp Hperm E1) as [L1 L2].
      split; [split; cbn; try done| |done| |].
      { intros d' i' Hd' _ _. by apply (set_leaf_dir D _ _ W d (PDX va)); auto with mos. }
      { intros q i Hq. apply (data_page_not_table D); auto with mos. eapply (data_page_mono D); [|exact Hq].
        intros d' i' Hd' _ _. by apply (set_leaf_dir D _ _ W d (PDX va)); auto with mos. }
      { intros d' i' Hd' _. by apply (set_leaf_dir D _ _ W d (PDX va)); auto with mos. }
      by apply (pmap_inv_tlb D ext fl (set_phys _ s)), (refill_inv D ext fl s I d va pp perm Hd Hva Hpp Hperm E1 e0).
      { intros q Hq _. apply (data_page_mono D _ (phys s)); [|exact Hq]. intros d' i' Hd' _ _. symmetry.
        by apply (set_leaf_dir D _ _ W d (PDX va)); auto with mos. }
      rewrite HL, Hp, Z.eqb_refl. cbn [ind]. symmetry. apply Z.add_0_r.
    + pose proof (page_remove_ok D ext fl s d asid va I Hd Hva) as R. rewrite HL in R.
      destruct R as (s1 & ER & [Hn L1 L2 Htab Hdt Ht Hc Hh] & I1 & Hr & Hw). rewrite (bind_val _ _ _ _ _ ER).
      specialize (Hr pp). destruct (Z.eqb_spec (PPN e0) pp) as [|_]; [done|]. cbn [ind] in Hr.
      destruct (page_insert_new_ok D ext _ s1 d asid va pp perm I1 Hd Hva) as [(_ & Hnil & Hv)|Hok].
      * by rewrite Hn.
      * case_match; [|done]. intros [->|]%elem_of_cons; done.
      * lia.
      * done.
      * done.
      * exfalso. rewrite (Htab d (PDX va)) in Hv; auto with mos. congruence.
      * destruct Hok as (s2 & fl2 & E & [[Hn2 L3 L4 Htab2 Hdt2 Ht2 Hc2 Hh2] I2 Hf HK Hrf] & _ & _ & Hold). exists s2, fl2.
        split; [done|]. split; [|done|done| |].
        2:{ intros q Hq _. apply HK; [apply (data_page_mono D _ (phys s)); [|exact Hq]; intros d' i' Hd' _ _; symmetry; by apply Hw|].
            rewrite Hold; [done|]. rewrite Htab; auto with mos. }
        2:{ rewrite Hrf, L1, Hr, HL. destruct (Z.eqb_spec (PPN e0) pp); [done|]. cbn [ind]. lia. }
        split; try congruence.
        -- intros d' va' Hd' Hva' Hne. rewrite L4, L2 by done. done.
        -- intros d' i' Hd' Hi' Hv'. rewrite Htab2; [by apply Htab|done..|]. by rewrite Htab.
        -- intros q i Hq. rewrite Hdt2 by done. apply Hdt. by eapply (data_page_mono D).
        -- by rewrite Ht2, Ht, delete_delete_eq.
        -- intros d' i' Hd' Hi'. by rewrite Hh2, Hh.
  - destruct (valid (word (phys s) d (PDX va))) eqn:E1; [|by apply New'].
    rewrite (bind_val _ _ _ _ _ (load_slot _ _ _ (PTX_range va))).
    unfold lookup_pte in HL. rewrite E1 in HL.
    change (hasbits ?x PTE_V) with (valid x).
    destruct (valid (word (phys s) _ (PTX va))); [done|]. by apply New'.
Qed.

Import LIST.

(** ** A new directory whose user part is empty *)
Section NewDir.
Context (D : list Z) (n : Z) (m m' : mem) (W : mem_wf D n m) (d : Z).
Context (Hd : 0 <= d < n) (Hdata : data_page D m d).
Context (Hsame : forall q i, q <> d -> word m' q i = word m q i).
Context (Hempty : forall i, 0 <= i < NU -> valid (word m' d i) = false).
Context (Hwords : forall i, is_u32 (word m' d i)).

Lemma new_dir_notin : d ∉ D.
Proof. apply Hdata. Qed.

Lemma new_dir_old d' i : d' ∈ D -> word m' d' i = word m d' i.
Proof. intros H. apply Hsame. intros ->. by apply new_dir_notin. Qed.

Lemma new_dir_leaf d' i j : d' ∈ D -> 0 <= i < NU -> valid (word m d' i) = true ->
  word m' (PPN (word m d' i)) j = word m (PPN (word m d' i)) j.
Proof. intros H1 H2 H3. apply Hsame. by apply Hdata. Qed.

Lemma new_dir_wf : mem_wf (d :: D) n m'.
Proof.
  pose proof W as W0. destruct W0. split; try done.
  - intros p i. destruct (decide (p = d)) as [->|]; [done|]. by rewrite Hsame.
  - constructor; [apply new_dir_notin|done].
  - intros d' [->|H]%elem_of_cons; auto.
  - intros d' i [->|H]%elem_of_cons Hi; [by rewrite Hempty|]. rewrite new_dir_old by done. auto.
  - intros d1 i1 d2 i2 [->|H1]%elem_of_cons [->|H2]%elem_of_cons Hi1 Hi2;
      rewrite ?Hempty by done; try done. rewrite !new_dir_old by done. auto.
  - intros d' i [->|H]%elem_of_cons Hi; [by rewrite Hempty|]. rewrite new_dir_old by done.
    intros Hv [E|E]%elem_of_cons; [|by apply (wf_tab_dir d' i)].
    by apply (proj2 Hdata d' i).
  - intros d' i j [->|H]%elem_of_cons Hi Hj; [by rewrite Hempty|].
    rewrite new_dir_old by done. intros Hv. rewrite new_dir_leaf by done. auto.
Qed.

Lemma new_dir_lookup d' va : d' ∈ D -> user_va va -> lookup_pte m' d' va = lookup_pte m d' va.
Proof.
  intros Hd' Hva. pose proof (PDX_user va Hva). unfold lookup_pte. rewrite new_dir_old by done.
  destruct (valid (word m d' (PDX va))) eqn:E; [|done]. by rewrite new_dir_leaf.
Qed.

Lemma new_dir_lookup_new va : user_va va -> lookup_pte m' d va = None.
Proof. intros Hva. unfold lookup_pte. by rewrite Hempty by auto with mos. Qed.

Lemma dslots_cons : dslots (d :: D) = map (fun i => (d, i)) (zseq 0 509) ++ dslots D.
Proof. done. Qed.

Lemma lslots_cons : lslots (d :: D) =
  list_prod (map (fun i => (d, i)) (zseq 0 509)) (zseq 0 1024) ++ lslots D.
Proof. unfold lslots. by rewrite dslots_cons, list_prod_app_l. Qed.

Lemma new_dir_refs p : refs (d :: D) m' p = refs D m p + ind (d =? p).
Proof.
  unfold refs. rewrite lslots_cons, dslots_cons, !zsum_app.
  rewrite (zsum_zero _ (list_prod (map _ _) _)).
  2:{ intros [[d' i] j] [H Hj]%elem_of_list_prod. apply list_elem_of_fmap in H as (i' & [= -> ->] & Hi).
      apply elem_of_zseq in Hi. change (0 + Z.of_nat 509) with NU in Hi.
      unfold leaf_maps. by rewrite Hempty. }
  rewrite (zsum_zero _ (map _ _)).
  2:{ intros [d' i] H. apply list_elem_of_fmap in H as (i' & [= -> ->] & Hi).
      apply elem_of_zseq in Hi. change (0 + Z.of_nat 509) with NU in Hi.
      unfold dir_maps. cbn [fst snd]. by rewrite Hempty. }
  rewrite (zsum_ext _ (fun x => ind (leaf_maps m p x)) (lslots D)).
  2:{ intros [[d' i] j] Hx. apply elem_of_lslots in Hx as (Hd' & Hi & _). unfold leaf_maps.
      rewrite new_dir_old by done. destruct (valid (word m d' i)) eqn:E; [|done].
      by rewrite new_dir_leaf. }
  rewrite (zsum_ext _ (fun x => ind (dir_maps m p x)) (dslots D)).
  2:{ intros [d' i] Hx. apply elem_of_dslots in Hx as (Hd' & _). unfold dir_maps. cbn [fst snd].
      by rewrite new_dir_old. }
  pose proof new_dir_notin as Hn. destruct (Z.eqb_spec d p) as [<-|Hne].
  - rewrite (bool_decide_eq_true_2 (d ∈ d :: D)) by left.
    rewrite (bool_decide_eq_false_2 (d ∈ D)) by done. cbn [ind]. lia.
  - rewrite (bool_decide_ext (p ∈ d :: D) (p ∈ D)); [cbn [ind]; lia|].
    rewrite elem_of_cons. split; [intros [->|]; done|by right].
Qed.
End NewDir.

Lemma new_dir_inv D ext fl s d m' :
  pmap_inv D ext (d :: fl) s ->
  (forall q i, q <> d -> word m' q i = word (phys s) q i) ->
  (forall i, 0 <= i < NU -> valid (word m' d i) = false) -> (forall i, is_u32 (word m' d i)) ->
  forall q', is_list q' fl ->
  pmap_inv (d :: D) ext fl (set_pp_ref d 1 (set_phys m' (set_free q' s))).
Proof.
  intros I Hsame Hempty Hwords q' Hq'.
  assert (Hp : d ∈ d :: fl) by left.
  pose proof (free_unreferenced _ _ _ _ _ I Hp) as [Href Hext]. apply unreferenced_data in Href.
  pose proof (inv_fl_range _ _ _ _ I _ Hp) as Hr.
  destruct (inv_fl _ _ _ _ I) as [[Hnin _]%NoDup_cons _].
  assert (HR : forall q, pp_ref (set_pp_ref d 1 (set_phys m' (set_free q' s))) q = pp_ref s q + ind (d =? q)).
  { intros q. rewrite pp_ref_set. change (pp_ref (set_phys m' _) q) with (pp_ref s q).
    destruct (Z.eqb_spec d q) as [<-|]; [|rewrite decide_False by done; cbn [ind]; lia].
    by rewrite decide_True, (inv_fl_ref _ _ _ _ I). }
  split; try apply I; try done.
  - by apply (new_dir_wf D _ (phys s) m' (inv_mem _ _ _ _ I)).
  - intros p H. apply (inv_fl_range _ _ _ _ I). by right.
  - intros p H. rewrite HR, (inv_fl_ref _ _ _ _ I) by by right.
    destruct (Z.eqb_spec d p) as [->|]; done.
  - intros p. rewrite HR. pose proof (inv_ref16 _ _ _ _ I p).
    destruct (Z.eqb_spec d p) as [<-|]; cbn [ind]; [|lia]. rewrite (inv_fl_ref _ _ _ _ I d Hp). lia.
  - intros p H. rewrite HR, (inv_ref _ _ _ _ I) by done. cbn [phys set_pp_ref set_phys set_refs].
    rewrite (new_dir_refs D (phys s) m' d) by done. lia.
Qed.

(** ** Taking a page from the free list, and giving it back *)
Lemma page_alloc_ok D ext p fl s :
  pmap_inv D ext (p :: fl) s ->
  exists s', page_alloc s = Val (Ok p) s' /\ pmap_inv D ext fl s' /\
    (forall i, word (phys s') p i = 0) /\
    (forall q i, q <> p -> word (phys s') q i = word (phys s) q i) /\
    (forall d va, d ∈ D -> user_va va -> lookup_pte (phys s') d va = lookup_pte (phys s) d va) /\
    npage s' = npage s /\ pages_ref s' = pages_ref s /\ tlb s' = tlb s /\
    cur_pgdir s' = cur_pgdir s /\ (p ∉ fl) /\ 0 <= p < npage s /\ pp_ref s p = 0.
Proof.
  intros I. assert (Hp : p ∈ p :: fl) by left.
  pose proof (inv_mem _ _ _ _ I) as W. pose proof (inv_fl_range _ _ _ _ I _ Hp) as Hr.
  destruct (free_unreferenced _ _ _ _ _ I Hp) as [Href Hext].
  apply unreferenced_data in Href. pose proof (wf_npage _ _ _ W) as Hn.
  destruct (page_alloc_cons s p fl (inv_fl _ _ _ _ I) Hr ltac:(lia)) as (q' & Hq & E).
  destruct (inv_fl _ _ _ _ I) as [[Hnin _]%NoDup_cons _].
  rewrite E. eexists. split; [reflexivity|]. cbn [phys set_phys set_free npage pages_ref tlb cur_pgdir].
  assert (Z1 : forall i, word (clear_page (phys s) p) p i = 0)
    by (intros i; by rewrite word_clear, decide_True).
  assert (S1 : forall q i, q <> p -> word (clear_page (phys s) p) q i = word (phys s) q i)
    by (intros q i Hq1; by rewrite word_clear, decide_False).
  assert (U1 : forall i, is_u32 (word (clear_page (phys s) p) p i))
    by (intros i; rewrite Z1; unfold is_u32; lia).
  split_and!; try done.
  - split; try apply I; try done.
    + by apply (data_wf D _ (phys s) _ W p Href).
    + intros q Hq1. apply (inv_fl_range _ _ _ _ I). by right.
    + intros q Hq1. apply (inv_fl_ref _ _ _ _ I). by right.
    + intros q Hq1. cbn. rewrite (data_refs D (phys s) _ p Href S1). by apply (inv_ref _ _ _ _ I).
  - intros d va Hd Hva. by apply (data_lookup D (phys s) _ p Href S1).
  - apply Hr.
  - apply Hr.
  - by apply (inv_fl_ref _ _ _ _ I).
Qed.

Lemma page_free_ok D ext fl s p :
  pmap_inv D ext fl s -> p ∉ fl -> 0 <= p < npage s -> pp_ref s p = 0 ->
  exists s', page_free p s = Val tt s' /\ pmap_inv D ext (p :: fl) s' /\
    s' = set_free (page_free_list s') s.
Proof.
  intros I Hp Hr H0. unfold page_free. mstep. rewrite H0. cbn [Z.eqb]. mstep.
  eexists. split; [reflexivity|]. split; [|done]. split; try apply I.
  - apply insert_head_refines; [apply I|done].
  - intros q [->|Hq]%elem_of_cons; [done|]. by apply (inv_fl_range _ _ _ _ I).
  - intros q [->|Hq]%elem_of_cons; [done|]. by apply (inv_fl_ref _ _ _ _ I).
Qed.
