(* ===== verification/PmapThms.v ===== *)
(** * Theorems on physical pages and page tables (kern/pmap.c)

    The boot code establishes [pmap_inv]; [page_alloc], [page_insert] and [page_remove]
    keep it together with the coherence of the TLB; [page_lookup] and [va2pa] read the
    mapping it describes; the self-test of the kernel passes; and the limits: a count that
    wraps, permission bits that reach the page number. *)

From Stdlib Require Import ZArith Lia.
From stdpp Require Import base numbers list gmap strings.
From S2P Require Import Prelude Queue Mmu Pmap PmapInv PmapOps PmapInsert.
Import LIST.

(** ** TLB coherence

    [live] pairs each address space with its ASID. An entry the TLB holds for a user page
    of a live address space is the entry its page table holds. *)
Definition tlb_coherent (live : list (Z * Z)) (s : pmap_st) : Prop :=
  forall d asid va e, (d, asid) ∈ live -> user_va va ->
    tlb s !! entryhi asid va = Some e -> lookup_pte (phys s) d va = Some e.

(** Distinct ASIDs for distinct address spaces, all over directories of [D]. *)
Definition live_ok (D : list Z) (live : list (Z * Z)) : Prop :=
  (forall d asid, (d, asid) ∈ live -> d ∈ D /\ 0 <= asid < 64) /\
  (forall d d' asid, (d, asid) ∈ live -> (d', asid) ∈ live -> d = d') /\
  (forall d asid asid', (d, asid) ∈ live -> (d, asid') ∈ live -> asid = asid').

Lemma entryhi_eq asid va : 0 <= asid < 64 -> is_u32 va ->
  entryhi asid va = VPN va * 4096 + asid * 64.
Proof.
  intros Ha Hv. unfold entryhi. rewrite PTE_ADDR_div by done.
  rewrite Z.shiftl_mul_pow2, u32_small by (unfold is_u32; lia).
  unfold VPN. rewrite shiftr_div by lia. change (2 ^ 12) with 4096. change (2 ^ 6) with 64.
  rewrite (Z.mul_comm 4096). symmetry. apply Z.add_nocarry_lor, Z.bits_inj'. intros n Hn.
  rewrite Z.land_spec, Z.bits_0. destruct (Z_lt_dec n 12).
  - change 4096 with (2 ^ 12) at 2. by rewrite Z.mul_pow2_bits_low by lia.
  - replace (asid * 64) with ((asid * 64) mod 2 ^ 12) by (change (2 ^ 12) with 4096; dlia).
    rewrite Z.mod_pow2_bits_high by lia. apply andb_false_r.
Qed.

Lemma entryhi_inj a a' va va' : 0 <= a < 64 -> 0 <= a' < 64 -> is_u32 va -> is_u32 va' ->
  entryhi a va = entryhi a' va' -> a = a' /\ VPN va = VPN va'.
Proof. intros Ha Ha' Hv Hv'. rewrite !entryhi_eq by done. dlia. Qed.

Section Coherence.
Context (D : list Z) (live : list (Z * Z)) (L : live_ok D live).

Lemma coherent_flush s hi : tlb_coherent live s -> tlb_coherent live (set_tlb (delete hi (tlb s)) s).
Proof.
  intros C d asid va e Hl Hva He. cbn in He. apply lookup_delete_Some in He as [_ He].
  by apply (C d asid).
Qed.

(** An operation that flushes the entry it changes keeps the TLB coherent. *)
Lemma coherent_effect s s' d asid va new :
  (d, asid) ∈ live -> user_va va -> pt_effect D d asid va new s s' ->
  tlb_coherent live s -> tlb_coherent live s'.
Proof.
  intros Hda Hva Eff C d' asid' va' e Hl Hva'. rewrite (eff_tlb _ _ _ _ _ _ _ Eff).
  intros [Hne He]%lookup_delete_Some. destruct L as (L1 & L2 & L3).
  destruct (L1 _ _ Hl) as [Hd' Ha'].
  rewrite (eff_frame _ _ _ _ _ _ _ Eff d' va') by
    (try done; intros [-> HV]; apply Hne;
     rewrite (L3 _ _ _ Hda Hl), !entryhi_eq by auto with mos; by rewrite HV).
  by apply (C d' asid').
Qed.
End Coherence.

(** ** The invariant at boot *)
Definition boot_ext (used p : Z) : Z := if (0 <=? p) && (p <? used) then 1 else 0.

Definition used_pages (f : Z) : Z := (f - ULIM + 4095) / 4096.

Lemma page_init_used f : ULIM <= f -> f + 4095 < 4294967296 ->
  (ULIM <= ROUND f BY2PG) /\ PPN (ROUND f BY2PG - ULIM) = used_pages f /\ 0 <= used_pages f.
Proof.
  intros H1 H2. change BY2PG with (2 ^ 12). unfold used_pages. unfold ULIM in *.
  rewrite ROUND_div, PPN_div by lia. change (2 ^ 12) with 4096. split_and!; dlia.
Qed.

Lemma mem_wf_nil n m : 0 <= n <= 524288 -> (forall p i, is_u32 (word m p i)) -> mem_wf [] n m.
Proof. intros Hn Hw. split; [done|done|apply NoDup_nil_2|..]; intros; exfalso; by eapply elem_of_nil. Qed.

Lemma refs_nil m p : refs [] m p = 0.
Proof. done. Qed.

(** What the loops of page_init leave alone. *)
Definition same_memory (s s' : pmap_st) : Prop :=
  npage s' = npage s /\ phys s' = phys s /\ tlb s' = tlb s /\ cur_pgdir s' = cur_pgdir s.

Definition refs16 (s : pmap_st) : Prop := forall p, 0 <= pp_ref s p < 65536.

Lemma refs16_set s p v : refs16 s -> refs16 (set_pp_ref p (u16 v) s).
Proof.
  intros H q. rewrite pp_ref_set. case_decide; [|apply H]. unfold u16. dlia.
Qed.

(** The first loop: the pages below [used] count 1. *)
Lemma init_used_loop s used : 0 <= used -> refs16 s -> is_list (page_free_list s) [] ->
  exists s', for_each (zseq 0 (Z.to_nat used)) (fun i => modify (set_pp_ref i 1)) s = Val tt s' /\
    same_memory s s' /\ refs16 s' /\ is_list (page_free_list s') [] /\
    (forall p, 0 <= p < used -> pp_ref s' p = 1).
Proof.
  intros Hu H16 Hl.
  destruct (for_each_inv (fun l s' =>
      exists k, l = zseq k (length l) /\ k + Z.of_nat (length l) = used /\ 0 <= k /\
        same_memory s s' /\ refs16 s' /\ is_list (page_free_list s') [] /\
        (forall p, 0 <= p < k -> pp_ref s' p = 1))
    (fun i => modify (set_pp_ref i 1)) (zseq 0 (Z.to_nat used)) s) as (s1 & E1 & I1).
  - exists 0. rewrite zseq_length. split_and!; try done; try lia.
  - intros i l s2 (k & El & Hk & Hk0 & Hsm & H2 & Hl2 & Hr2). eexists. split; [reflexivity|].
    cbn in El, Hk. injection El as -> El. exists (k + 1). split_and!; try done; try lia.
    + by apply (refs16_set s2 k 1).
    + intros p Hp. rewrite pp_ref_set. case_decide; [done|]. apply Hr2. lia.
  - destruct I1 as (k & _ & Hk & _ & Hsm & H2 & Hl2 & Hr2). cbn in Hk. rewrite Z.add_0_r in Hk.
    subst k. by exists s1.
Qed.

(** The second loop: the others count 0 and enter the free list, the last page first. *)
Lemma init_free_loop s used n : 0 <= used <= n -> refs16 s -> is_list (page_free_list s) [] ->
  (forall p, 0 <= p < used -> pp_ref s p = 1) ->
  exists s', for_each (zseq used (Z.to_nat (n - used))) (fun i =>
      modify (set_pp_ref i 0) ;;
      modify (fun s => set_free (LIST_INSERT_HEAD i (page_free_list s)) s)) s = Val tt s' /\
    same_memory s s' /\ refs16 s' /\
    is_list (page_free_list s') (reverse (zseq used (Z.to_nat (n - used)))) /\
    (forall p, 0 <= p < n -> pp_ref s' p = if p <? used then 1 else 0).
Proof.
  intros Hu H16 Hl H1.
  destruct (for_each_inv (fun l s' =>
      exists k, l = zseq k (length l) /\ k + Z.of_nat (length l) = n /\ used <= k /\
        same_memory s s' /\ refs16 s' /\
        is_list (page_free_list s') (reverse (zseq used (Z.to_nat (k - used)))) /\
        (forall p, 0 <= p < k -> pp_ref s' p = if p <? used then 1 else 0))
    (fun i => modify (set_pp_ref i 0) ;;
              modify (fun s => set_free (LIST_INSERT_HEAD i (page_free_list s)) s))
    (zseq used (Z.to_nat (n - used))) s) as (s1 & E1 & I1).
  - exists used. rewrite zseq_length, Z.sub_diag. split_and!; try done; try lia.
    intros p Hp. destruct (Z.ltb_spec p used); [by apply H1|lia].
  - intros i l s2 (k & El & Hk & Hk0 & Hsm & H2 & Hl2 & Hr2). eexists. split; [reflexivity|].
    cbn in El, Hk. injection El as -> El. exists (k + 1). split_and!; try done; try lia.
    + by apply (refs16_set s2 k 0).
    + replace (Z.to_nat (k + 1 - used)) with (S (Z.to_nat (k - used))) by lia.
      rewrite zseq_snoc, reverse_app. replace (used + Z.of_nat (Z.to_nat (k - used))) with k by lia.
      apply insert_head_refines; [done|]. rewrite elem_of_reverse, elem_of_zseq. lia.
    + intros p Hp. change (pp_ref (set_free _ ?x) p) with (pp_ref x p). rewrite pp_ref_set.
      destruct (decide (k = p)) as [<-|]; [|apply Hr2; lia]. by destruct (Z.ltb_spec k used); [lia|].
  - destruct I1 as (k & _ & Hk & _ & Hsm & H2 & Hl2 & Hr2). cbn in Hk. rewrite Z.add_0_r in Hk.
    subst k. by exists s1.
Qed.

Lemma page_init_ok s :
  let used := used_pages (freemem s) in
  ULIM <= freemem s -> freemem s + 4095 < 4294967296 ->
  used <= npage s <= 524288 -> (forall p i, is_u32 (word (phys s) p i)) -> refs16 s ->
  exists s', page_init s = Val tt s' /\ same_memory s s' /\
    pmap_inv [] (boot_ext used) (reverse (zseq used (Z.to_nat (npage s - used)))) s'.
Proof.
  intros used H1 H2 Hn Hw H16. destruct (page_init_used _ H1 H2) as (HR & HP & Hu). fold used in HP, Hu.
  unfold page_init. msteps. cbn [freemem set_freemem set_free].
  rewrite (bind_val _ _ _ (ROUND (freemem s) BY2PG - ULIM)
    (set_freemem (ROUND (freemem s) BY2PG) (set_free (LIST_INIT (page_free_list s)) s)))
    by (unfold PADDR; destruct (Z.ltb_spec (ROUND (freemem s) BY2PG) ULIM); [lia|done]).
  rewrite HP. set (s0 := set_freemem _ _).
  assert (L0 : is_list (page_free_list s0) []) by (split; [constructor|done]).
  destruct (init_used_loop s0 used Hu H16 L0) as (s1 & E1 & S1 & R1 & L1 & U1).
  rewrite (bind_val _ _ _ _ _ E1). mstep. pose proof S1 as (Hn1 & Hp1 & Ht1 & Hc1).
  replace (npage s1) with (npage s) by by rewrite Hn1.
  destruct (init_free_loop s1 used (npage s) ltac:(lia) R1 L1 U1) as (s2 & E2 & S2 & R2 & L2 & U2).
  destruct S2 as (Hn2 & Hp2 & Ht2 & Hc2). exists s2.
  assert (Hns : npage s2 = npage s) by by rewrite Hn2, Hn1.
  split_and!; [done|unfold same_memory; by rewrite Hn2, Hn1, Hp2, Hp1, Ht2, Ht1, Hc2, Hc1|]. split; try done.
  - rewrite Hns, Hp2, Hp1. apply mem_wf_nil; [lia|done].
  - intros p. rewrite elem_of_reverse, elem_of_zseq, Hns. lia.
  - intros p. rewrite elem_of_reverse, elem_of_zseq. intros Hp. rewrite U2 by lia.
    by destruct (Z.ltb_spec p used); [lia|].
  - intros p. unfold boot_ext. by case_match.
  - intros p. rewrite Hns. intros Hp. rewrite refs_nil, Z.add_0_r, U2 by done. unfold boot_ext.
    by destruct (Z.leb_spec 0 p); [|lia].
Qed.

(** ** A small machine for the witnesses

    Eight pages, the first used by the kernel; after [page_init], page 7 has become a page
    directory and page 6 is allocated but not mapped. *)
Definition small : pmap_st := mkPmap 32768 8 2147487744 ∅ LIST.empty ∅ ∅ 0.

Definition one_dir : pmap_st :=
  match (page_init ;; page_alloc ;; modify (set_pp_ref 7 1) ;; page_alloc) small with
  | Val _ s => s
  | _ => small
  end.

Lemma one_dir_inv : pmap_inv [7] (boot_ext 1) [5; 4; 3; 2; 1] one_dir.
Proof.
  destruct (page_init_ok small) as (s1 & E1 & (Hn & _) & I1).
  { by vm_compute. }
  { by vm_compute. }
  { by vm_compute. }
  { intros p i. unfold word. cbn [phys small]. rewrite lookup_empty. cbn [default from_option].
    rewrite lookup_empty. by vm_compute. }
  { intros p. unfold pp_ref. cbn [pages_ref small]. rewrite lookup_empty. by vm_compute. }
  change (reverse (zseq _ _)) with [7; 6; 5; 4; 3; 2; 1] in I1.
  change (boot_ext _) with (boot_ext 1) in I1.
  destruct (page_alloc_cons s1 7 [6; 5; 4; 3; 2; 1] (inv_fl _ _ _ _ I1)) as (q' & Hq & E2);
    [rewrite Hn; done|rewrite Hn; done|].
  assert (Z1 : forall i, word (clear_page (phys s1) 7) 7 i = 0)
    by (intros i; by rewrite word_clear, decide_True).
  assert (I2 : pmap_inv [7] (boot_ext 1) [6; 5; 4; 3; 2; 1]
    (set_pp_ref 7 1 (set_phys (clear_page (phys s1) 7) (set_free q' s1)))).
  { apply (new_dir_inv [] (boot_ext 1) _ s1 7); try done.
    - intros q i Hq1. by rewrite word_clear, decide_False.
    - intros i Hi. by rewrite Z1.
    - intros i. rewrite Z1. unfold is_u32. lia. }
  destruct (page_alloc_ok _ _ _ _ _ I2) as (s3 & E3 & I3 & _).
  unfold one_dir. rewrite (bind_val _ _ _ _ _ E1), (bind_val _ _ _ _ _ E2), bind_modify.
  rewrite E3. exact I3.
Qed.

Lemma one_dir_live : live_ok [7] [(7, 0)] /\ tlb_coherent [(7, 0)] one_dir.
Proof.
  split.
  - split_and!.
    + intros d a [= -> ->]%list_elem_of_singleton. split; [left|lia].
    + intros d d' a [= -> ->]%list_elem_of_singleton [= -> ]%list_elem_of_singleton. done.
    + intros d a a' [= -> ->]%list_elem_of_singleton [= -> ]%list_elem_of_singleton. done.
  - intros d a va e _ _. replace (tlb one_dir) with (∅ : gmap Z Z) by (vm_compute; reflexivity).
    by rewrite lookup_empty.
Qed.

(** C6: page_insert on any address space of the kernel. From a state that satisfies the
    invariant and a coherent TLB it always returns; either it reports [-E_NO_MEM], which
    happens only when the free list is empty and the page table of [va] does not exist, and
    then no mapping, count or table changed; or it returns 0 and [va] maps to [pp] with the
    requested permissions, every other page of every address space is mapped as before, the
    page just mapped is not free, and counts, free list and TLB are consistent again. *)
Theorem page_insert_correct D ext fl live s d asid va pp perm :
  pmap_inv D ext fl s -> live_ok D live -> tlb_coherent live s -> (d, asid) ∈ live ->
  user_va va -> 0 <= pp < npage s -> pp ∉ fl -> pp_ref s pp < 65535 -> 0 <= perm < 4096 ->
  exists r s', page_insert (slot d 0) asid pp va perm s = Val r s' /\ tlb_coherent live s' /\
  ((r = - E_NO_MEM /\ fl = [] /\ valid (word (phys s) d (PDX va)) = false /\
    phys s' = phys s /\ pages_ref s' = pages_ref s /\ pmap_inv D ext fl s') \/
   (r = 0 /\ lookup_pte (phys s') d va = Some (mk_pte pp perm) /\
    (forall d' va', d' ∈ D -> user_va va' -> ~ (d' = d /\ VPN va' = VPN va) ->
       lookup_pte (phys s') d' va' = lookup_pte (phys s) d' va') /\
    exists fl', pmap_inv D ext fl' s' /\ pp ∉ fl')).
Proof.
  intros I L C Hl Hva Hpp Hfl H16 Hperm. assert (Hd : d ∈ D) by by eapply L.
  destruct (page_insert_ok D ext fl s d asid va pp perm) as [(E & Hn & Hv)|(s' & fl' & E & [Eff I' Hf _])];
    try done; rewrite E; eexists _, _; (split; [reflexivity|]).
  - split; [by apply coherent_flush|]. left. split_and!; try done. by apply pmap_inv_tlb.
  - split; [by apply (coherent_effect D live L s s' d asid va _ Hl Hva Eff)|].
    right. split_and!; [done|apply Eff..|eauto].
Qed.

Lemma user_4M : user_va 4194304.
Proof. by vm_compute. Qed.

Lemma page_insert_correct_witness :
  exists r s', page_insert (slot 7 0) 0 6 4194304 PTE_D one_dir = Val r s' /\
    r = 0 /\ lookup_pte (phys s') 7 4194304 = Some (mk_pte 6 PTE_D).
Proof.
  destruct one_dir_live as [L C].
  destruct (page_insert_correct [7] (boot_ext 1) [5; 4; 3; 2; 1] [(7, 0)] one_dir 7 0 4194304 6 PTE_D
    one_dir_inv L C) as (r & s' & E & _ & H).
  - left.
  - done.
  - by vm_compute.
  - apply (bool_decide_unpack (6 ∉ [5; 4; 3; 2; 1])). by vm_compute.
  - by vm_compute.
  - by vm_compute.
  - exists r, s'. split; [done|]. destruct H as [(_ & H & _)|(H1 & H2 & _)]; [discriminate|by split].
Defined.

(** C7: page_remove on any address space. It always returns; when [va] is not mapped the
    state is untouched; otherwise [va] becomes unmapped, every other page of every address
    space keeps its mapping, exactly one reference to the page is dropped, the page becomes
    free exactly when that was the last one, and no stale translation stays in the TLB. *)
Theorem page_remove_correct D ext fl live s d asid va :
  pmap_inv D ext fl s -> live_ok D live -> tlb_coherent live s -> (d, asid) ∈ live -> user_va va ->
  exists s' fl', page_remove (slot d 0) asid va s = Val tt s' /\
    pmap_inv D ext fl' s' /\ tlb_coherent live s' /\ lookup_pte (phys s') d va = None /\
    match lookup_pte (phys s) d va with
    | None => s' = s /\ fl' = fl
    | Some e =>
        tlb s' !! entryhi asid va = None /\
        (forall p, pp_ref s' p = pp_ref s p - ind (PPN e =? p)) /\
        fl' = (if pp_ref s' (PPN e) =? 0 then PPN e :: fl else fl) /\
        (forall d' va', d' ∈ D -> user_va va' -> ~ (d' = d /\ VPN va' = VPN va) ->
           lookup_pte (phys s') d' va' = lookup_pte (phys s) d' va')
    end.
Proof.
  intros I L C Hl Hva. assert (Hd : d ∈ D) by by eapply L.
  pose proof (page_remove_ok D ext fl s d asid va I Hd Hva) as R.
  destruct (lookup_pte (phys s) d va) as [e|] eqn:E; [|by exists s, fl].
  destruct R as (s' & ER & Eff & I' & Hr & _). exists s', (if pp_ref s (PPN e) =? 1 then PPN e :: fl else fl).
  split_and!; try done; [|apply Eff| | |apply Eff].
  - by apply (coherent_effect D live L s s' d asid va _ Hl Hva Eff).
  - rewrite (eff_tlb _ _ _ _ _ _ _ Eff). apply lookup_delete_eq.
  - rewrite Hr, Z.eqb_refl. cbn [ind].
    by destruct (Z.eqb_spec (pp_ref s (PPN e)) 1), (Z.eqb_spec (pp_ref s (PPN e) - 1) 0); [|lia|lia|].
Qed.

(** A mapped page in the witness machine. *)
Definition one_page : pmap_st :=
  match page_insert (slot 7 0) 0 6 4194304 PTE_D one_dir with Val _ s => s | _ => one_dir end.

#[local] Opaque one_dir.

Lemma one_page_ok : exists fl, pmap_inv [7] (boot_ext 1) fl one_page /\ tlb_coherent [(7, 0)] one_page /\
  lookup_pte (phys one_page) 7 4194304 = Some (mk_pte 6 PTE_D).
Proof.
  destruct one_dir_live as [L C].
  destruct (page_insert_ok [7] (boot_ext 1) [5; 4; 3; 2; 1] one_dir 7 0 4194304 6 PTE_D one_dir_inv)
    as [(_ & H & _)|(s' & fl' & E & [Eff I' _ _])].
  - left.
  - exact user_4M.
  - by vm_compute.
  - apply (bool_decide_unpack (6 ∉ [5; 4; 3; 2; 1])). by vm_compute.
  - by vm_compute.
  - by vm_compute.
  - discriminate H.
  - unfold one_page. rewrite E. exists fl'. split_and!; [done| |apply Eff].
    apply (coherent_effect [7] [(7, 0)] L one_dir s' 7 0 4194304 _ ltac:(left) user_4M Eff C).
Qed.

#[local] Opaque one_page.

Lemma page_remove_correct_witness :
  lookup_pte (phys one_page) 7 4194304 = Some (mk_pte 6 PTE_D) /\
  exists s', page_remove (slot 7 0) 0 4194304 one_page = Val tt s' /\
    lookup_pte (phys s') 7 4194304 = None.
Proof.
  destruct one_page_ok as (fl & I & C & Hm). split; [exact Hm|].
  destruct (page_remove_correct [7] (boot_ext 1) fl [(7, 0)] one_page 7 0 4194304 I
    (proj1 one_dir_live) C) as (s' & fl' & E & _ & _ & H & _).
  - left.
  - exact user_4M.
  - exists s'. exact (conj E H).
Defined.

(** page_lookup and va2pa return on every user address of every address space and
    read the same mapping: page_lookup gives the page and the address of the entry that
    maps it, or NULL; va2pa gives the physical address of that page, or [~0]. *)
Theorem lookup_va2pa_agree D ext fl s d va :
  pmap_inv D ext fl s -> d ∈ D -> user_va va ->
  match lookup_pte (phys s) d va with
  | Some e => exists ppte, page_lookup (slot d 0) va s = Val (Some (PPN e, ppte)) s /\
      load ppte s = Val e s /\ va2pa (slot d 0) va s = Val (page2pa (PPN e)) s
  | None => page_lookup (slot d 0) va s = Val None s /\
      va2pa (slot d 0) va s = Val 4294967295 s
  end.
Proof.
  intros I Hd Hva. pose proof (inv_mem _ _ _ _ I) as W.
  pose proof (page_lookup_spec D s W d va Hd Hva) as E1.
  pose proof (va2pa_spec D s d va W Hd Hva) as E2.
  destruct (lookup_pte (phys s) d va) as [e|] eqn:E; [|by split].
  destruct (lookup_some_parts D ext fl s I d va Hd Hva e E) as (V1 & V2 & V3 & V4 & V5).
  eexists. split; [exact E1|]. split; [rewrite load_slot by apply PTX_range; by rewrite V2|].
  pose proof (wf_npage _ _ _ W). rewrite E2, page2pa_mul, PTE_ADDR_div, PPN_div by (done || lia).
  f_equal. lia.
Qed.

Lemma lookup_va2pa_agree_witness : exists ppte,
  page_lookup (slot 7 0) 4194304 one_page = Val (Some (6, ppte)) one_page /\
  va2pa (slot 7 0) 4194304 one_page = Val (page2pa 6) one_page.
Proof.
  destruct one_page_ok as (fl & I & C & Hm).
  pose proof (lookup_va2pa_agree [7] (boot_ext 1) fl one_page 7 4194304 I) as H.
  rewrite Hm in H. replace (PPN (mk_pte 6 PTE_D)) with 6 in H by (vm_compute; reflexivity).
  destruct H as (ppte & H1 & _ & H2); [left|exact user_4M|]. exists ppte. exact (conj H1 H2).
Defined.

(** page_alloc reports [-E_NO_MEM] exactly when no page is free; otherwise it takes
    the head of the free list, and the page it returns is cleared, unreferenced, and no
    mapping of any address space changes; page_free puts it back where it was. *)
Theorem page_alloc_free D ext fl s :
  pmap_inv D ext fl s ->
  match fl with
  | [] => page_alloc s = Val (Err (- E_NO_MEM)) s
  | p :: fl' => exists s', page_alloc s = Val (Ok p) s' /\ pmap_inv D ext fl' s' /\
      (p ∉ fl') /\ 0 <= p < npage s /\ refs D (phys s') p = 0 /\
      (forall i, word (phys s') p i = 0) /\
      (forall d va, d ∈ D -> user_va va -> lookup_pte (phys s') d va = lookup_pte (phys s) d va) /\
      exists s'', page_free p s' = Val tt s'' /\ pmap_inv D ext fl s''
  end.
Proof.
  intros I. destruct fl as [|p fl]; [by apply page_alloc_empty, I|].
  destruct (page_alloc_ok D ext p fl s I) as (s' & E & I' & Hz & _ & HL & Hn & Hrefs & _ & _ & Hnin & Hr & H0).
  exists s'. assert (H0' : pp_ref s' p = 0) by (unfold pp_ref in *; by rewrite Hrefs).
  destruct (page_free_ok D ext fl s' p I' Hnin ltac:(by rewrite Hn) H0') as (s'' & E2 & I'' & _).
  split_and!; try done; try apply Hr; [|by exists s''].
  pose proof (inv_ref _ _ _ _ I' p ltac:(by rewrite Hn)) as HR. rewrite H0' in HR.
  pose proof (inv_ext _ _ _ _ I' p). pose proof (refs_nonneg D (phys s') p). lia.
Qed.

Lemma page_alloc_free_witness : exists s', page_alloc one_dir = Val (Ok 5) s' /\
  exists s'', page_free 5 s' = Val tt s''.
Proof.
  destruct (page_alloc_free _ _ _ _ one_dir_inv) as (s' & E & _ & _ & _ & _ & _ & _ & s'' & E2 & _).
  exists s'. split; [exact E|]. by exists s''.
Defined.

(** ** Boot *)
Definition blank (m : mem) : Prop := forall p i, word m p i = 0.

Lemma blank_wr m a : blank m -> blank (wr m a 0).
Proof. intros H p i. unfold wr. rewrite word_upd. case_decide; [done|apply H]. Qed.

Lemma memset_zero_blank s dst n : n mod 4 = 0 -> blank (phys s) ->
  exists m, memset_zero dst n s = Val tt (set_phys m s) /\ blank m.
Proof.
  intros Hn Hb. unfold memset_zero. rewrite Hn. cbn [Z.eqb negb].
  destruct (for_each_inv (fun _ s' => exists m, s' = set_phys m s /\ blank m)
    (fun i => store (dst + 4 * i) 0) (zseq 0 (Z.to_nat (n / 4))) s) as (s' & E & m & -> & Hm).
  - exists (phys s). by destruct s.
  - intros i l s1 (m & -> & Hm). eexists. split; [reflexivity|].
    eexists. split; [reflexivity|]. by apply blank_wr.
  - by exists m.
Qed.

(** The first call of [alloc]: it starts at the end of the kernel image. *)
Lemma alloc_first s kend n : freemem s = 0 -> blank (phys s) -> n mod 4 = 0 -> 0 <= n ->
  ULIM <= kend -> ROUND kend BY2PG + n < 4294967296 -> kend + 4095 < 4294967296 ->
  ROUND kend BY2PG + n - ULIM < memsize s ->
  exists m, alloc kend n BY2PG true s =
    Val (ROUND kend BY2PG) (set_phys m (set_freemem (ROUND kend BY2PG + n) s)) /\ blank m.
Proof.
  intros H0 Hb Hn Hn0 Hk Hov Hov2 Hmem. destruct (page_init_used kend Hk Hov2) as (HR & _ & _).
  set (a := ROUND kend BY2PG) in *. unfold ULIM in *.
  unfold alloc. mstep. rewrite H0. cbn [Z.eqb when]. msteps. cbn [freemem set_freemem]. fold a.
  rewrite u32_small by (unfold is_u32; lia).
  rewrite (bind_val _ _ _ (a + n - ULIM) (set_freemem (a + n) s))
    by (unfold PADDR, ULIM; by destruct (Z.ltb_spec (a + n) 2147483648); [lia|]).
  mstep. cbn [memsize set_freemem]. unfold ULIM.
  destruct (Z.leb_spec (memsize s) (a + n - 2147483648)); [lia|]. cbn [negb when]. mstep.
  destruct (memset_zero_blank (set_freemem (a + n) s) a n Hn Hb) as (m & E & Hm).
  exists m. split; [|done]. by rewrite (bind_val _ _ _ _ _ E).
Qed.

(** Booting the memory subsystem (mips_detect_memory, mips_vm_init, page_init) on any
    machine whose memory holds the kernel image and the [pages] array: it returns the
    address of [pages] and establishes the invariant of the page tables, with no address
    space, one reference on every page up to the end of the [pages] array, and every other
    page free, the last page of memory first. *)
Lemma mips_mem_init_correct msize kend :
  let n := msize / 4096 in
  let top := ROUND kend BY2PG + 12 * n in
  let used := used_pages top in
  0 <= msize <= 2147483648 -> ULIM <= kend -> kend + 4095 < 4294967296 ->
  top + 4095 < 4294967296 -> top - ULIM + 4095 <= 4096 * n ->
  exists s, mips_mem_init msize kend pmap_bss = Val (ROUND kend BY2PG) s /\
    npage s = n /\ pmap_inv [] (boot_ext used) (reverse (zseq used (Z.to_nat (n - used)))) s /\ tlb s = ∅.
Proof.
  intros n top used Hm Hk Hk2 Htop Hfit. assert (Hn : 0 <= n <= 524288) by (unfold n; dlia).
  assert (Hmn : 4096 * n <= msize) by (unfold n; dlia).
  destruct (page_init_used kend Hk Hk2) as (HR & _ & _).
  unfold mips_mem_init, mips_detect_memory, mips_vm_init. msteps.
  set (s0 := set_npage _ _). cbn [memsize set_memsize] in s0.
  assert (En : npage s0 = n) by (unfold s0, n; cbn; by rewrite shiftr_div by lia).
  rewrite En. unfold sizeof_Page. unfold ULIM in *. rewrite u32_small by (unfold is_u32; lia).
  replace (n * 12) with (12 * n) by lia.
  destruct (alloc_first s0 kend (12 * n)) as (m & E & Hb); try done; try (unfold ULIM; lia).
  { clear. dlia. }
  { unfold top, ULIM in *. cbn. lia. }
  rewrite (bind_val _ _ _ _ _ E). set (s1 := set_phys m _).
  destruct (page_init_ok s1) as (s2 & E2 & (Hn2 & _ & Ht2 & _) & I2); try done.
  - unfold s1, ULIM; cbn. lia.
  - change (used_pages (freemem s1)) with used. change (npage s1) with (npage s0). rewrite En.
    unfold used, used_pages, ULIM. dlia.
  - intros p i. change (phys s1) with m. rewrite Hb. unfold is_u32. lia.
  - exists s2. rewrite (bind_val _ _ _ _ _ E2). change (npage s1) with (npage s0) in *.
    rewrite En in *. by split_and!.
Qed.

Lemma mips_mem_init_correct_witness : exists s,
  mips_mem_init 67108864 2151677952 pmap_bss = Val (ROUND 2151677952 BY2PG) s /\ npage s = 16384.
Proof.
  destruct (mips_mem_init_correct 67108864 2151677952) as (s & E & Hn & _);
    [by vm_compute..|]. exists s. exact (conj E Hn).
Defined.

(** the kernel's own test of the page allocator and the page tables, page_check, run
    after boot on a 64 MB machine with the kernel ending at 0x80400000, passes every one of
    its assertions and gives back every page it took. *)
Theorem page_check_passes : exists s s',
  mips_mem_init 67108864 2151677952 pmap_bss = Val 2151677952 s /\
  page_check 2151677952 s = Val tt s' /\
  forallb (fun p => pp_ref s' p =? pp_ref s p) (zseq 0 (Z.to_nat 16384)) = true.
Proof.
  assert (H : match mips_mem_init 67108864 2151677952 pmap_bss with
    | Val a s => (a =? 2151677952) &&
        match page_check 2151677952 s with
        | Val _ s' => forallb (fun p => pp_ref s' p =? pp_ref s p) (zseq 0 (Z.to_nat 16384))
        | _ => false
        end
    | _ => false
    end = true) by (vm_compute; reflexivity).
  destruct (mips_mem_init 67108864 2151677952 pmap_bss) as [a s| | |]; try discriminate H.
  apply andb_true_iff in H as [Ha H]. apply Z.eqb_eq in Ha as ->.
  destruct (page_check 2151677952 s) as [[] s'| | |] eqn:E; try discriminate H. by exists s, s'.
Qed.

(** ** The width of the reference count *)

(** More references held outside the address spaces. *)
Lemma pmap_inv_ext D ext fl s p k : pmap_inv D ext fl s -> 0 <= p < npage s -> p ∉ fl -> 0 <= k ->
  pp_ref s p + k < 65536 ->
  pmap_inv D (fun q => ext q + (if q =? p then k else 0)) fl (set_pp_ref p (pp_ref s p + k) s).
Proof.
  intros I Hp Hfl Hk Hlt. pose proof (inv_ref16 _ _ _ _ I p).
  split; try apply I.
  - intros q Hq. rewrite pp_ref_set. case_decide as E; [by rewrite E in Hfl|]. by apply (inv_fl_ref _ _ _ _ I).
  - intros q. pose proof (inv_ext _ _ _ _ I q). destruct (q =? p); lia.
  - intros q. rewrite pp_ref_set. pose proof (inv_ref16 _ _ _ _ I q). case_decide; [|done].
    rewrite u16_small; lia.
  - intros q Hq. cbn. rewrite pp_ref_set. pose proof (inv_ref _ _ _ _ I q Hq) as HR. case_decide as E.
    + subst q. rewrite u16_small, Z.eqb_refl by lia. lia.
    + destruct (Z.eqb_spec q p); [done|]. lia.
Qed.

(** [pp_ref] is a 16-bit count and page_insert increments it without a check. Mapping
    a page that already has 65535 references succeeds and leaves its count at 0 while the
    page is mapped, and removing that same mapping then panics the kernel in page_decref. *)
Theorem page_insert_ref_wraps D ext fl s d asid va pp perm :
  pmap_inv D ext fl s -> d ∈ D -> user_va va -> 0 <= pp < npage s -> 0 <= perm < 4096 ->
  valid (word (phys s) d (PDX va)) = true -> lookup_pte (phys s) d va = None ->
  pp_ref s pp = 65535 ->
  exists s', page_insert (slot d 0) asid pp va perm s = Val 0 s' /\
    lookup_pte (phys s') d va = Some (mk_pte pp perm) /\ pp_ref s' pp = 0 /\
    page_remove (slot d 0) asid va s' = Panic "pp->pp_ref > 0" s'.
Proof.
  intros I Hd Hva Hpp Hperm Hv HN H16. pose proof (inv_mem _ _ _ _ I) as W.
  destruct (fill_entry D ext fl s I d va pp perm Hpp Hperm) as (He & Hev & HP).
  destruct (fill_lookup D ext fl s I d va pp perm Hd Hva Hpp Hperm Hv) as [L1 _].
  pose proof (fill_wf D ext fl s I d va pp perm Hd Hva Hpp Hperm Hv) as W'.
  set (s1 := set_tlb (delete (entryhi asid va) (tlb s)) s).
  assert (EN : page_insert_new (slot d 0) asid pp va perm s =
    Val 0 (set_pp_ref pp (65535 + 1) (set_phys (upd (phys s) (PPN (word (phys s) d (PDX va))) (PTX va)
      (mk_pte pp perm)) s1))).
  { unfold page_insert_new, tlb_invalidate, tlb_out. mstep. fold s1.
    rewrite (bind_val _ _ _ _ _ (walk_create_old D ext fl s1 (pmap_inv_tlb _ _ _ _ _ I) d va Hd Hva Hv)).
    unfold set_pte. rewrite (bind_val _ _ _ _ _ (store_slot _ _ _ _ (PTX_range va))). mstep.
    unfold mret, M_ret. rewrite <- H16. done. }
  eexists. split; [|split; [|split]].
  - unfold page_insert. rewrite (bind_val _ _ _ _ _ (walk_nocreate D s W d va Hd Hva)), Hv.
    rewrite (bind_val _ _ _ _ _ (load_slot _ _ _ (PTX_range va))).
    unfold lookup_pte in HN. rewrite Hv in HN. change (hasbits ?x PTE_V) with (valid x).
    destruct (valid (word (phys s) _ (PTX va))); [done|]. exact EN.
  - exact L1.
  - by rewrite pp_ref_set, decide_True.
  - set (s2 := set_pp_ref _ _ _). unfold page_remove.
    rewrite (bind_val _ _ _ _ _ (page_lookup_spec D s2 W' d va Hd Hva)).
    change (phys s2) with (upd (phys s) (PPN (word (phys s) d (PDX va))) (PTX va) (mk_pte pp perm)).
    rewrite L1. apply bind_panic. unfold page_decref. mstep. rewrite HP. unfold s2.
    by rewrite pp_ref_set, decide_True.
Qed.

Definition worn_page : pmap_st := set_pp_ref 6 (pp_ref one_page 6 + 65534) one_page.

Lemma worn_page_facts : npage worn_page = 8 /\ pp_ref one_page 6 = 1 /\ pp_ref worn_page 6 = 65535 /\
  user_va 4198400 /\ valid (word (phys worn_page) 7 (PDX 4198400)) = true /\
  lookup_pte (phys worn_page) 7 4198400 = None.
Proof. vm_compute. by split_and!. Qed.

Lemma page_insert_ref_wraps_witness : exists s',
  page_insert (slot 7 0) 0 6 4198400 PTE_D worn_page = Val 0 s' /\ pp_ref s' 6 = 0.
Proof.
  destruct one_page_ok as (fl & I & _ & Hm). destruct worn_page_facts as (Hn & H1 & H2 & H3 & H4 & H5).
  destruct (page_insert_ref_wraps [7] _ fl worn_page 7 0 4198400 6 PTE_D
    (pmap_inv_ext [7] (boot_ext 1) fl one_page 6 65534 I ltac:(change (npage one_page) with (npage worn_page); rewrite Hn; lia)
      ltac:(intros H; apply (inv_fl_ref _ _ _ _ I) in H; rewrite H1 in H; discriminate H)
      ltac:(lia) ltac:(rewrite H1; lia))) as (s' & E & _ & H0 & _).
  - left.
  - exact H3.
  - rewrite Hn. lia.
  - unfold PTE_D. lia.
  - exact H4.
  - exact H5.
  - exact H2.
  - exists s'. exact (conj E H0).
Defined.
