(* ===== verification/KState.v ===== *)
(** * The state of the kernel (include/env.h, include/trap.h, include/signal.h)

    [Env] is [struct Env]: the links of its two lists are in the list components, an [Env *]
    is its index in [envs], and a [signo_node *] its index in [signos]. [kstate] is every
    global of the kernel, with the page tables and physical pages in [pm]. The C [int] words
    of a [sigset_t] are kept as their 32-bit patterns. *)

From Stdlib Require Import ZArith Lia.
From stdpp Require Import base numbers list gmap strings.
From S2P Require Import Prelude Queue Mmu Pmap.

(** ** Constants *)
Definition NENV := 1024.
Definition LOG2NENV := 10.
Definition ENVX (envid : Z) : Z := Z.land envid (NENV - 1).
Definition ENV_FREE := 0.
Definition ENV_RUNNABLE := 1.
Definition ENV_NOT_RUNNABLE := 2.
Definition NASID := 64.
Definition MAX_SIG_NUM := 1024.

Definition STATUS_IM4 := 4096.
Definition STATUS_KUp := 8.
Definition STATUS_IEp := 4.

(** ** Trap frames *)
Record Trapframe := mkTf {
  regs : list Z;               (* 32 registers *)
  cp0_status : Z;
  hi : Z;
  lo : Z;
  cp0_badvaddr : Z;
  cp0_cause : Z;
  cp0_epc : Z }.

Definition sizeof_Trapframe := 152.
Definition tf0 : Trapframe := mkTf (replicate 32 0) 0 0 0 0 0 0.
Definition reg (tf : Trapframe) (i : nat) : Z := nth i (regs tf) 0.
Definition set_reg (i : nat) (v : Z) (tf : Trapframe) : Trapframe :=
  mkTf (<[i := v]> (regs tf)) (cp0_status tf) (hi tf) (lo tf) (cp0_badvaddr tf) (cp0_cause tf) (cp0_epc tf).
Definition set_status (v : Z) (tf : Trapframe) : Trapframe :=
  mkTf (regs tf) v (hi tf) (lo tf) (cp0_badvaddr tf) (cp0_cause tf) (cp0_epc tf).
Definition set_epc (v : Z) (tf : Trapframe) : Trapframe :=
  mkTf (regs tf) (cp0_status tf) (hi tf) (lo tf) (cp0_badvaddr tf) (cp0_cause tf) v.

(** The words of a frame in memory order, and back. *)
Definition tf_words (tf : Trapframe) : list Z :=
  regs tf ++ [cp0_status tf; hi tf; lo tf; cp0_badvaddr tf; cp0_cause tf; cp0_epc tf].
Definition tf_of_words (l : list Z) : Trapframe :=
  mkTf (take 32 l) (nth 32 l 0) (nth 33 l 0) (nth 34 l 0) (nth 35 l 0) (nth 36 l 0) (nth 37 l 0).

(** ** Signals *)
Record sigset_t := mkSigset { sig0 : Z; sig1 : Z }.
Definition sigset0 : sigset_t := mkSigset 0 0.

Record sigaction := mkSigaction { sa_handler : Z; sa_mask : sigset_t }.
Definition sigaction0 : sigaction := mkSigaction 0 sigset0.

Definition SIGKILL := 9.
Definition SIGSEGV := 11.
Definition SIGTERM := 15.
Definition SIG_BLOCK := 0.
Definition SIG_UNBLOCK := 1.
Definition SIG_SETMASK := 2.

(** ** Environments *)
Record Env := mkEnv {
  env_tf : Trapframe;
  env_id : Z;
  env_asid : Z;
  env_parent_id : Z;
  env_status : Z;
  env_pgdir : Z;   (* kernel virtual address *)
  env_pri : Z;
  env_ipc_value : Z;
  env_ipc_from : Z;
  env_ipc_recving : Z;
  env_ipc_dstva : Z;
  env_ipc_perm : Z;
  env_user_tlb_mod_entry : Z;
  env_runs : Z;
  do_signal_entry : Z;
  signoHeader : option Z;   (* index in signos, None for NULL *)
  env_sigprocmask : sigset_t;
  sighandler_table : list sigaction }.   (* 64 entries *)

Definition with_env_tf (v : Trapframe) (e : Env) : Env :=
  mkEnv v (env_id e) (env_asid e) (env_parent_id e) (env_status e) (env_pgdir e) (env_pri e) (env_ipc_value e) (env_ipc_from e) (env_ipc_recving e) (env_ipc_dstva e) (env_ipc_perm e) (env_user_tlb_mod_entry e) (env_runs e) (do_signal_entry e) (signoHeader e) (env_sigprocmask e) (sighandler_table e).
Definition with_env_id (v : Z) (e : Env) : Env :=
  mkEnv (env_tf e) v (env_asid e) (env_parent_id e) (env_status e) (env_pgdir e) (env_pri e) (env_ipc_value e) (env_ipc_from e) (env_ipc_recving e) (env_ipc_dstva e) (env_ipc_perm e) (env_user_tlb_mod_entry e) (env_runs e) (do_signal_entry e) (signoHeader e) (env_sigprocmask e) (sighandler_table e).
Definition with_env_asid (v : Z) (e : Env) : Env :=
  mkEnv (env_tf e) (env_id e) v (env_parent_id e) (env_status e) (env_pgdir e) (env_pri e) (env_ipc_value e) (env_ipc_from e) (env_ipc_recving e) (env_ipc_dstva e) (env_ipc_perm e) (env_user_tlb_mod_entry e) (env_runs e) (do_signal_entry e) (signoHeader e) (env_sigprocmask e) (sighandler_table e).
Definition with_env_parent_id (v : Z) (e : Env) : Env :=
  mkEnv (env_tf e) (env_id e) (env_asid e) v (env_status e) (env_pgdir e) (env_pri e) (env_ipc_value e) (env_ipc_from e) (env_ipc_recving e) (env_ipc_dstva e) (env_ipc_perm e) (env_user_tlb_mod_entry e) (env_runs e) (do_signal_entry e) (signoHeader e) (env_sigprocmask e) (sighandler_table e).
Definition with_env_status (v : Z) (e : Env) : Env :=
  mkEnv (env_tf e) (env_id e) (env_asid e) (env_parent_id e) v (env_pgdir e) (env_pri e) (env_ipc_value e) (env_ipc_from e) (env_ipc_recving e) (env_ipc_dstva e) (env_ipc_perm e) (env_user_tlb_mod_entry e) (env_runs e) (do_signal_entry e) (signoHeader e) (env_sigprocmask e) (sighandler_table e).
Definition with_env_pgdir (v : Z) (e : Env) : Env :=
  mkEnv (env_tf e) (env_id e) (env_asid e) (env_parent_id e) (env_status e) v (env_pri e) (env_ipc_value e) (env_ipc_from e) (env_ipc_recving e) (env_ipc_dstva e) (env_ipc_perm e) (env_user_tlb_mod_entry e) (env_runs e) (do_signal_entry e) (signoHeader e) (env_sigprocmask e) (sighandler_table e).
Definition with_env_pri (v : Z) (e : Env) : Env :=
  mkEnv (env_tf e) (env_id e) (env_asid e) (env_parent_id e) (env_status e) (env_pgdir e) v (env_ipc_value e) (env_ipc_from e) (env_ipc_recving e) (env_ipc_dstva e) (env_ipc_perm e) (env_user_tlb_mod_entry e) (env_runs e) (do_signal_entry e) (signoHeader e) (env_sigprocmask e) (sighandler_table e).
Definition with_env_ipc_value (v : Z) (e : Env) : Env :=
  mkEnv (env_tf e) (env_id e) (env_asid e) (env_parent_id e) (env_status e) (env_pgdir e) (env_pri e) v (env_ipc_from e) (env_ipc_recving e) (env_ipc_dstva e) (env_ipc_perm e) (env_user_tlb_mod_entry e) (env_runs e) (do_signal_entry e) (signoHeader e) (env_sigprocmask e) (sighandler_table e).
Definition with_env_ipc_from (v : Z) (e : Env) : Env :=
  mkEnv (env_tf e) (env_id e) (env_asid e) (env_parent_id e) (env_status e) (env_pgdir e) (env_pri e) (env_ipc_value e) v (env_ipc_recving e) (env_ipc_dstva e) (env_ipc_perm e) (env_user_tlb_mod_entry e) (env_runs e) (do_signal_entry e) (signoHeader e) (env_sigprocmask e) (sighandler_table e).
Definition with_env_ipc_recving (v : Z) (e : Env) : Env :=
  mkEnv (env_tf e) (env_id e) (env_asid e) (env_parent_id e) (env_status e) (env_pgdir e) (env_pri e) (env_ipc_value e) (env_ipc_from e) v (env_ipc_dstva e) (env_ipc_perm e) (env_user_tlb_mod_entry e) (env_runs e) (do_signal_entry e) (signoHeader e) (env_sigprocmask e) (sighandler_table e).
Definition with_env_ipc_dstva (v : Z) (e : Env) : Env :=
  mkEnv (env_tf e) (env_id e) (env_asid e) (env_parent_id e) (env_status e) (env_pgdir e) (env_pri e) (env_ipc_value e) (env_ipc_from e) (env_ipc_recving e) v (env_ipc_perm e) (env_user_tlb_mod_entry e) (env_runs e) (do_signal_entry e) (signoHeader e) (env_sigprocmask e) (sighandler_table e).
Definition with_env_ipc_perm (v : Z) (e : Env) : Env :=
  mkEnv (env_tf e) (env_id e) (env_asid e) (env_parent_id e) (env_status e) (env_pgdir e) (env_pri e) (env_ipc_value e) (env_ipc_from e) (env_ipc_recving e) (env_ipc_dstva e) v (env_user_tlb_mod_entry e) (env_runs e) (do_signal_entry e) (signoHeader e) (env_sigprocmask e) (sighandler_table e).
Definition with_env_user_tlb_mod_entry (v : Z) (e : Env) : Env :=
  mkEnv (env_tf e) (env_id e) (env_asid e) (env_parent_id e) (env_status e) (env_pgdir e) (env_pri e) (env_ipc_value e) (env_ipc_from e) (env_ipc_recving e) (env_ipc_dstva e) (env_ipc_perm e) v (env_runs e) (do_signal_entry e) (signoHeader e) (env_sigprocmask e) (sighandler_table e).
Definition with_env_runs (v : Z) (e : Env) : Env :=
  mkEnv (env_tf e) (env_id e) (env_asid e) (env_parent_id e) (env_status e) (env_pgdir e) (env_pri e) (env_ipc_value e) (env_ipc_from e) (env_ipc_recving e) (env_ipc_dstva e) (env_ipc_perm e) (env_user_tlb_mod_entry e) v (do_signal_entry e) (signoHeader e) (env_sigprocmask e) (sighandler_table e).
Definition with_do_signal_entry (v : Z) (e : Env) : Env :=
  mkEnv (env_tf e) (env_id e) (env_asid e) (env_parent_id e) (env_status e) (env_pgdir e) (env_pri e) (env_ipc_value e) (env_ipc_from e) (env_ipc_recving e) (env_ipc_dstva e) (env_ipc_perm e) (env_user_tlb_mod_entry e) (env_runs e) v (signoHeader e) (env_sigprocmask e) (sighandler_table e).
Definition with_signoHeader (v : option Z) (e : Env) : Env :=
  mkEnv (env_tf e) (env_id e) (env_asid e) (env_parent_id e) (env_status e) (env_pgdir e) (env_pri e) (env_ipc_value e) (env_ipc_from e) (env_ipc_recving e) (env_ipc_dstva e) (env_ipc_perm e) (env_user_tlb_mod_entry e) (env_runs e) (do_signal_entry e) v (env_sigprocmask e) (sighandler_table e).
Definition with_env_sigprocmask (v : sigset_t) (e : Env) : Env :=
  mkEnv (env_tf e) (env_id e) (env_asid e) (env_parent_id e) (env_status e) (env_pgdir e) (env_pri e) (env_ipc_value e) (env_ipc_from e) (env_ipc_recving e) (env_ipc_dstva e) (env_ipc_perm e) (env_user_tlb_mod_entry e) (env_runs e) (do_signal_entry e) (signoHeader e) v (sighandler_table e).
Definition with_sighandler_table (v : list sigaction) (e : Env) : Env :=
  mkEnv (env_tf e) (env_id e) (env_asid e) (env_parent_id e) (env_status e) (env_pgdir e) (env_pri e) (env_ipc_value e) (env_ipc_from e) (env_ipc_recving e) (env_ipc_dstva e) (env_ipc_perm e) (env_user_tlb_mod_entry e) (env_runs e) (do_signal_entry e) (signoHeader e) (env_sigprocmask e) v.

(** An entry of the zero-initialised [envs] array. *)
Definition env0 : Env :=
  mkEnv tf0 0 0 0 0 0 0 0 0 0 0 0 0 0 0 None sigset0 (replicate 64 sigaction0).

Definition sizeof_Env := 1004.

(** ** The kernel *)
Record kstate := mkK {
  pm : pmap_st;   (* kern/pmap.c *)
  envs : gmap Z Env;
  curenv : option Z;   (* index in envs, None for NULL *)
  env_free_list : LIST.t;   (* head, and envs[i].env_link *)
  env_sched_list : TAILQ.t;   (* head, and envs[i].env_sched_link *)
  base_pgdir : Z;
  asid_bitmap : gmap Z Z;   (* two words *)
  mkenvid_i : Z;   (* the static counter of mkenvid *)
  sched_count : Z;   (* the static counter of schedule *)
  signos : gmap Z (Z * option Z);   (* signo and next of each node *)
  signo_free_list : option Z;
  ktf : Trapframe;   (* the frame at KSTACKTOP - 1 *)
  hw_asid : Z;   (* the ASID in CP0_ENTRYHI *)
  cons_out : list Z;   (* characters printed, latest first *)
  cons_in : list Z;   (* successive results of scancharc *)
  dev_in : gmap Z Z;   (* bytes the devices present for reading *)
  dev_out : list (Z * list Z) }.   (* blocks written to devices, latest first *)

Definition set_pm (v : pmap_st) (e : kstate) : kstate :=
  mkK v (envs e) (curenv e) (env_free_list e) (env_sched_list e) (base_pgdir e) (asid_bitmap e) (mkenvid_i e) (sched_count e) (signos e) (signo_free_list e) (ktf e) (hw_asid e) (cons_out e) (cons_in e) (dev_in e) (dev_out e).
Definition set_envs (v : gmap Z Env) (e : kstate) : kstate :=
  mkK (pm e) v (curenv e) (env_free_list e) (env_sched_list e) (base_pgdir e) (asid_bitmap e) (mkenvid_i e) (sched_count e) (signos e) (signo_free_list e) (ktf e) (hw_asid e) (cons_out e) (cons_in e) (dev_in e) (dev_out e).
Definition set_curenv (v : option Z) (e : kstate) : kstate :=
  mkK (pm e) (envs e) v (env_free_list e) (env_sched_list e) (base_pgdir e) (asid_bitmap e) (mkenvid_i e) (sched_count e) (signos e) (signo_free_list e) (ktf e) (hw_asid e) (cons_out e) (cons_in e) (dev_in e) (dev_out e).
Definition set_env_free_list (v : LIST.t) (e : kstate) : kstate :=
  mkK (pm e) (envs e) (curenv e) v (env_sched_list e) (base_pgdir e) (asid_bitmap e) (mkenvid_i e) (sched_count e) (signos e) (signo_free_list e) (ktf e) (hw_asid e) (cons_out e) (cons_in e) (dev_in e) (dev_out e).
Definition set_env_sched_list (v : TAILQ.t) (e : kstate) : kstate :=
  mkK (pm e) (envs e) (curenv e) (env_free_list e) v (base_pgdir e) (asid_bitmap e) (mkenvid_i e) (sched_count e) (signos e) (signo_free_list e) (ktf e) (hw_asid e) (cons_out e) (cons_in e) (dev_in e) (dev_out e).
Definition set_base_pgdir (v : Z) (e : kstate) : kstate :=
  mkK (pm e) (envs e) (curenv e) (env_free_list e) (env_sched_list e) v (asid_bitmap e) (mkenvid_i e) (sched_count e) (signos e) (signo_free_list e) (ktf e) (hw_asid e) (cons_out e) (cons_in e) (dev_in e) (dev_out e).
Definition set_asid_bitmap (v : gmap Z Z) (e : kstate) : kstate :=
  mkK (pm e) (envs e) (curenv e) (env_free_list e) (env_sched_list e) (base_pgdir e) v (mkenvid_i e) (sched_count e) (signos e) (signo_free_list e) (ktf e) (hw_asid e) (cons_out e) (cons_in e) (dev_in e) (dev_out e).
Definition set_mkenvid_i (v : Z) (e : kstate) : kstate :=
  mkK (pm e) (envs e) (curenv e) (env_free_list e) (env_sched_list e) (base_pgdir e) (asid_bitmap e) v (sched_count e) (signos e) (signo_free_list e) (ktf e) (hw_asid e) (cons_out e) (cons_in e) (dev_in e) (dev_out e).
Definition set_sched_count (v : Z) (e : kstate) : kstate :=
  mkK (pm e) (envs e) (curenv e) (env_free_list e) (env_sched_list e) (base_pgdir e) (asid_bitmap e) (mkenvid_i e) v (signos e) (signo_free_list e) (ktf e) (hw_asid e) (cons_out e) (cons_in e) (dev_in e) (dev_out e).
Definition set_signos (v : gmap Z (Z * option Z)) (e : kstate) : kstate :=
  mkK (pm e) (envs e) (curenv e) (env_free_list e) (env_sched_list e) (base_pgdir e) (asid_bitmap e) (mkenvid_i e) (sched_count e) v (signo_free_list e) (ktf e) (hw_asid e) (cons_out e) (cons_in e) (dev_in e) (dev_out e).
Definition set_signo_free_list (v : option Z) (e : kstate) : kstate :=
  mkK (pm e) (envs e) (curenv e) (env_free_list e) (env_sched_list e) (base_pgdir e) (asid_bitmap e) (mkenvid_i e) (sched_count e) (signos e) v (ktf e) (hw_asid e) (cons_out e) (cons_in e) (dev_in e) (dev_out e).
Definition set_ktf (v : Trapframe) (e : kstate) : kstate :=
  mkK (pm e) (envs e) (curenv e) (env_free_list e) (env_sched_list e) (base_pgdir e) (asid_bitmap e) (mkenvid_i e) (sched_count e) (signos e) (signo_free_list e) v (hw_asid e) (cons_out e) (cons_in e) (dev_in e) (dev_out e).
Definition set_hw_asid (v : Z) (e : kstate) : kstate :=
  mkK (pm e) (envs e) (curenv e) (env_free_list e) (env_sched_list e) (base_pgdir e) (asid_bitmap e) (mkenvid_i e) (sched_count e) (signos e) (signo_free_list e) (ktf e) v (cons_out e) (cons_in e) (dev_in e) (dev_out e).
Definition set_cons_out (v : list Z) (e : kstate) : kstate :=
  mkK (pm e) (envs e) (curenv e) (env_free_list e) (env_sched_list e) (base_pgdir e) (asid_bitmap e) (mkenvid_i e) (sched_count e) (signos e) (signo_free_list e) (ktf e) (hw_asid e) v (cons_in e) (dev_in e) (dev_out e).
Definition set_cons_in (v : list Z) (e : kstate) : kstate :=
  mkK (pm e) (envs e) (curenv e) (env_free_list e) (env_sched_list e) (base_pgdir e) (asid_bitmap e) (mkenvid_i e) (sched_count e) (signos e) (signo_free_list e) (ktf e) (hw_asid e) (cons_out e) v (dev_in e) (dev_out e).
Definition set_dev_in (v : gmap Z Z) (e : kstate) : kstate :=
  mkK (pm e) (envs e) (curenv e) (env_free_list e) (env_sched_list e) (base_pgdir e) (asid_bitmap e) (mkenvid_i e) (sched_count e) (signos e) (signo_free_list e) (ktf e) (hw_asid e) (cons_out e) (cons_in e) v (dev_out e).
Definition set_dev_out (v : list (Z * list Z)) (e : kstate) : kstate :=
  mkK (pm e) (envs e) (curenv e) (env_free_list e) (env_sched_list e) (base_pgdir e) (asid_bitmap e) (mkenvid_i e) (sched_count e) (signos e) (signo_free_list e) (ktf e) (hw_asid e) (cons_out e) (cons_in e) (dev_in e) v.

Abbreviation K := (M kstate).

Definition env (s : kstate) (i : Z) : Env := default env0 (envs s !! i).

(** [e->field] and [e->field = v]. *)
Definition get_env {A} (i : Z) (f : Env -> A) : K A := gets (fun s => f (env s i)).
Definition upd_env (i : Z) (f : Env -> Env) : K unit :=
  modify (fun s => set_envs (<[i := f (env s i)]> (envs s)) s).

(** A use of [curenv] that dereferences it. *)
Definition curenv_deref : K Z :=
  c ← gets curenv; lift_opt "curenv is NULL" c.

(** The operations of pmap.c, in the kernel. *)
Definition pmap_op {A} (m : P A) : K A := zoom pm set_pm m.

(** [try(e)]: return a non-zero result to the caller. *)
Definition try {S} (m : M S Z) (k : M S Z) : M S Z :=
  r ← m; if negb (r =? 0) then mret r else k.

(** [panic_on(e)]. *)
Definition panic_on {S} (msg : string) (m : M S Z) : M S unit :=
  r ← m; if negb (r =? 0) then panic msg else mret tt.

(** The BSS at boot. *)
Definition kernel_bss : kstate :=
  mkK pmap_bss ∅ None LIST.empty (TAILQ.mk LIST.empty CHead) 0 ∅ 0 0 ∅ None tf0 0 [] [] ∅ [].

Lemma env_upd s i f j :
  env (set_envs (<[i := f (env s i)]> (envs s)) s) j = if decide (i = j) then f (env s i) else env s j.
Proof.
  unfold env; cbn. rewrite lookup_insert. by case_decide.
Qed.
#[export] Hint Rewrite env_upd : mos_rw.
