(* ===== verification/Elf.v ===== *)
(** * The ELF loader (lib/elfloader.c, include/elf.h)

    A binary is its list of bytes. [elf_load_seg] is generic in the monad and in the
    callback that maps one page, as the C function is: the kernel passes
    [load_icode_mapper], spawn its own. *)

From Stdlib Require Import ZArith Lia.
From stdpp Require Import base numbers list gmap strings.
From S2P Require Import Prelude Mmu.

(** ** Little-endian fields *)
Definition byte_at (b : list Z) (i : Z) : option Z := if i <? 0 then None else b !! Z.to_nat i.

Definition half_at (b : list Z) (i : Z) : option Z :=
  x ← byte_at b i; y ← byte_at b (i + 1); Some (x + 256 * y).

Definition word_at (b : list Z) (i : Z) : option Z :=
  x ← half_at b i; y ← half_at b (i + 2); Some (x + 65536 * y).

(** ** Headers *)
Record Elf32_Ehdr := mkEhdr { e_entry : Z; e_phoff : Z; e_phentsize : Z; e_phnum : Z }.
Record Elf32_Phdr := mkPhdr {
  p_type : Z; p_offset : Z; p_vaddr : Z; p_filesz : Z; p_memsz : Z; p_flags : Z }.

Definition sizeof_Ehdr := 52.
Definition PT_LOAD := 1.
Definition PF_W := 2.

(** NULL unless the size, the magic number and the type (executable) are right. *)
Definition elf_from (binary : list Z) (size : Z) : option Elf32_Ehdr :=
  if negb (sizeof_Ehdr <=? size) then None else
  m0 ← byte_at binary 0; m1 ← byte_at binary 1; m2 ← byte_at binary 2; m3 ← byte_at binary 3;
  ty ← half_at binary 16;
  if (m0 =? 127) && (m1 =? 69) && (m2 =? 76) && (m3 =? 70) && (ty =? 2) then
    entry ← word_at binary 24; phoff ← word_at binary 28;
    phentsize ← half_at binary 42; phnum ← half_at binary 44;
    Some (mkEhdr entry phoff phentsize phnum)
  else None.

Definition phdr_at (b : list Z) (off : Z) : option Elf32_Phdr :=
  ty ← word_at b off; po ← word_at b (off + 4); va ← word_at b (off + 8);
  fs ← word_at b (off + 16); ms ← word_at b (off + 20); fl ← word_at b (off + 24);
  Some (mkPhdr ty po va fs ms fl).

(** [ELF_FOREACH_PHDR_OFF]: the offsets the loop visits. *)
Definition phdr_offs (e : Elf32_Ehdr) : list Z :=
  map (fun k => u32 (e_phoff e + k * e_phentsize e)) (zseq 0 (Z.to_nat (e_phnum e))).

(** ** Loading one segment *)
Section Load.
Context {St : Type}.
(** [map_page va offset perm src len]; [src] is an offset into the segment's content. *)
Context (map_page : Z -> Z -> Z -> option Z -> Z -> M St Z).

(** [for (; i < bin_size; i += BY2PG)]; returns the final [i]. *)
Fixpoint load_content (fuel : nat) (va perm bin_size i : Z) : M St (cres Z) :=
  if i <? bin_size then
    match fuel with
    | O => undef "elf_load_seg: content loop"
    | S fuel' =>
        r ← map_page (u32 (va + i)) 0 perm (Some i) (MIN (u32 (bin_size - i)) BY2PG);
        if negb (r =? 0) then mret (Err r) else
        load_content fuel' va perm bin_size (u32 (i + BY2PG))
    end
  else mret (Ok i).

(** [while (i < sgsize)] *)
Fixpoint load_bss (fuel : nat) (va perm bin_size sgsize i : Z) : M St Z :=
  if i <? sgsize then
    match fuel with
    | O => undef "elf_load_seg: bss loop"
    | S fuel' =>
        r ← map_page (u32 (va + i)) 0 perm None (MIN (u32 (bin_size - i)) BY2PG);
        if negb (r =? 0) then mret r else
        load_bss fuel' va perm bin_size sgsize (u32 (i + BY2PG))
    end
  else mret 0.

Definition load_fuel (n : Z) : nat := Z.to_nat (n / BY2PG + 1).

Definition elf_load_seg (ph : Elf32_Phdr) : M St Z :=
  let va := p_vaddr ph in
  let bin_size := p_filesz ph in
  let sgsize := p_memsz ph in
  let perm := if hasbits (p_flags ph) PF_W then Z.lor PTE_V PTE_D else PTE_V in
  let offset := va - ROUNDDOWN va BY2PG in
  let first := MIN bin_size (BY2PG - offset) in
  r ← (if negb (offset =? 0) then map_page va offset perm (Some 0) first else mret 0);
  if negb (r =? 0) then mret r else
  ri ← load_content (load_fuel bin_size) va perm bin_size (if negb (offset =? 0) then first else 0);
  match ri with
  | Err r => mret r
  | Ok i => load_bss (load_fuel sgsize) va perm bin_size sgsize i
  end.
End Load.
