(* ===== verification/Signo.v ===== *)
(** * Signal sets and the pool of pending-signal nodes (include/signal.h, kern/signal.c)

    The [sigset_*] macros on pairs of 32-bit patterns, and the free list of [signo_node]s.
    [chain] relates the [next] fields to the list of nodes they link. *)

From Stdlib Require Import ZArith Lia.
From stdpp Require Import base numbers list gmap strings.
From S2P Require Import Prelude Queue Mmu Pmap KState.

(** ** Signal sets *)

(** The macros clear the bits of 0x40100 from the first word. *)
Definition unmaskable : Z := 262400. (* 0x40100 *)

Definition sigset_add (b c : sigset_t) : sigset_t :=
  mkSigset (Z.land (Z.lor (sig0 b) (sig0 c)) (u32 (Z.lnot unmaskable))) (Z.lor (sig1 b) (sig1 c)).
Definition sigset_del (b c : sigset_t) : sigset_t :=
  mkSigset (Z.land (sig0 b) (u32 (Z.lnot (sig0 c)))) (Z.land (sig1 b) (u32 (Z.lnot (sig1 c)))).
Definition sigset_set (b : sigset_t) : sigset_t :=
  mkSigset (Z.land (sig0 b) (u32 (Z.lnot unmaskable))) (sig1 b).

(** [None]: [sig] is indexed out of its two words. *)
Definition sigset_ctn (set : sigset_t) (signo : Z) : option bool :=
  let bit := Z.shiftl 1 (Z.land signo 31) in
  match Z.quot signo 32 with
  | 0 => Some (hasbits (sig0 set) bit)
  | 1 => Some (hasbits (sig1 set) bit)
  | _ => None
  end.

(** ** The node pool *)
Definition node (s : kstate) (p : Z) : Z * option Z := default (0, None) (signos s !! p).
Definition signo_of (s : kstate) (p : Z) : Z := (node s p).1.
Definition next_of (s : kstate) (p : Z) : option Z := (node s p).2.
Definition set_node (p : Z) (v : Z * option Z) (s : kstate) : kstate :=
  set_signos (<[p := v]> (signos s)) s.
Definition set_next_of (p : Z) (n : option Z) (s : kstate) : kstate := set_node p (signo_of s p, n) s.
Definition set_signo_of (p : Z) (v : Z) (s : kstate) : kstate := set_node p (v, next_of s p) s.

(** A C [char] is signed here. *)
Definition s8 (z : Z) : Z := let w := u8 z in if w <? 128 then w else w - 256.

Definition signo_init : K unit :=
  modify (set_signo_free_list (Some 0)) ;;
  for_each (zseq 0 (Z.to_nat (MAX_SIG_NUM - 1))) (fun i => modify (set_next_of i (Some (i + 1)))).

(** [Err (-1)] when the pool is empty. *)
Definition signo_alloc (signo : Z) : K (cres Z) :=
  f ← gets signo_free_list;
  match f with
  | None => mret (Err (-1))
  | Some p =>
      modify (fun s => set_signo_free_list (next_of s p) s) ;;
      modify (set_signo_of p (s8 signo)) ;;
      mret (Ok p)
  end.

Definition signo_free (p : Z) : K unit :=
  modify (fun s => set_next_of p (signo_free_list s) s) ;;
  modify (set_signo_free_list (Some p)).

(** ** Chains of nodes *)
Fixpoint chain (s : kstate) (h : option Z) (l : list Z) : Prop :=
  match l with
  | [] => h = None
  | p :: l' => h = Some p /\ chain s (next_of s p) l'
  end.

Lemma node_set s p v q : node (set_node p v s) q = if decide (p = q) then v else node s q.
Proof. unfold node, set_node; cbn. rewrite lookup_insert. by case_decide. Qed.

Lemma next_of_set_next s p n q :
  next_of (set_next_of p n s) q = if decide (p = q) then n else next_of s q.
Proof. unfold next_of, set_next_of. rewrite node_set. by case_decide. Qed.

Lemma signo_of_set_next s p n q : signo_of (set_next_of p n s) q = signo_of s q.
Proof. unfold signo_of, set_next_of. rewrite node_set. case_decide as E; [by rewrite E|done]. Qed.

Lemma next_of_set_signo s p v q : next_of (set_signo_of p v s) q = next_of s q.
Proof. unfold next_of, set_signo_of. rewrite node_set. case_decide as E; [by rewrite E|done]. Qed.

Lemma signo_of_set_signo s p v q :
  signo_of (set_signo_of p v s) q = if decide (p = q) then v else signo_of s q.
Proof. unfold signo_of, set_signo_of. rewrite node_set. by case_decide. Qed.
#[export] Hint Rewrite next_of_set_next signo_of_set_next next_of_set_signo signo_of_set_signo : mos_rw.

(** Chains depend only on the [next] fields of their members. *)
Lemma chain_ext s s' h l :
  (forall p, p ∈ l -> next_of s' p = next_of s p) -> chain s h l -> chain s' h l.
Proof.
  revert h. induction l as [|p l IH]; intros h Hn; [done|].
  intros [-> H]. split; [done|]. rewrite Hn by left. apply IH; [|done].
  intros q Hq. apply Hn. by right.
Qed.

Lemma chain_inj s h l l' : chain s h l -> chain s h l' -> l = l'.
Proof.
  revert h l'. induction l as [|p l IH]; intros h [|q l']; cbn.
  - done.
  - intros -> [? _]. done.
  - intros [-> _] ?. done.
  - intros [-> H] [[= <-] H']. f_equal. by eapply IH.
Qed.

(** A chain is acyclic: its members are distinct. *)
Lemma chain_NoDup s h l : chain s h l -> NoDup l.
Proof.
  revert h. induction l as [|p l IH]; intros h; [constructor|].
  intros [-> H]. constructor; [|by eapply IH]. intros Hin.
  apply list_elem_of_split in Hin as (l1 & l2 & El).
  assert (H2 : chain s (next_of s p) l2).
  { subst l. clear IH. revert H. generalize (next_of s p) at 1. induction l1 as [|q l1 IH]; intros h.
    - by intros [_ H].
    - intros [_ H]. by eapply IH. }
  pose proof (chain_inj _ _ _ _ H H2) as E. rewrite El in E.
  apply (f_equal length) in E. rewrite length_app in E. cbn in E. lia.
Qed.

Lemma chain_app s h l1 p l2 : chain s h (l1 ++ p :: l2) ->
  chain s (Some p) (p :: l2) /\ (forall l3, chain s (Some p) l3 -> chain s h (l1 ++ l3)).
Proof.
  revert h. induction l1 as [|q l1 IH]; intros h; cbn.
  - intros [-> H]. by split.
  - intros [-> H]. destruct (IH _ H) as [H1 H2]. split; [done|]. intros l3 H3. split; [done|]. by apply H2.
Qed.

(** ** The pool *)
Definition pool (s : kstate) (l : list Z) : Prop := chain s (signo_free_list s) l.

Lemma chain_zseq s a n :
  (forall q, a <= q < a + Z.of_nat n -> next_of s q = Some (q + 1)) ->
  next_of s (a + Z.of_nat n) = None -> chain s (Some a) (zseq a (S n)).
Proof.
  revert a. induction n as [|n IH]; intros a Hn Hlast.
  - cbn. split; [done|]. rewrite <- Hlast. f_equal. lia.
  - rewrite zseq_S. split; [done|]. rewrite Hn by lia. apply IH.
    + intros q Hq. apply Hn. lia.
    + rewrite <- Hlast. f_equal. lia.
Qed.

Lemma signo_init_ok s : next_of s 1023 = None ->
  exists s', signo_init s = Val tt s' /\ pool s' (zseq 0 (Z.to_nat 1024)) /\
    s' = set_signo_free_list (Some 0) (set_signos (signos s') s).
Proof.
  intros Hlast. unfold signo_init. mstep. set (s0 := set_signo_free_list (Some 0) s).
  destruct (for_each_inv (fun l s' => exists k, l = zseq k (length l) /\ k + Z.of_nat (length l) = 1023 /\
      0 <= k /\ s' = set_signos (signos s') s0 /\ (forall q, next_of s' q =
        if bool_decide (0 <= q < k) then Some (q + 1) else next_of s q))
    (fun i => modify (set_next_of i (Some (i + 1)))) (zseq 0 (Z.to_nat (MAX_SIG_NUM - 1))) s0)
    as (s' & E & k & _ & Hk & _ & Es & Hn).
  - exists 0. rewrite zseq_length. split_and!; [done|done|done|by destruct s|].
    intros q. by rewrite bool_decide_eq_false_2 by lia.
  - intros i l s1 (k & El & Hk & Hk0 & Es & Hn). eexists. split; [reflexivity|]. cbn in El, Hk.
    injection El as -> El. exists (k + 1). split_and!; [done|lia|lia|by rewrite Es|].
    intros q. rewrite next_of_set_next. destruct (decide (k = q)) as [<-|Hne].
    + by rewrite bool_decide_eq_true_2 by lia.
    + rewrite Hn. destruct (decide (0 <= q < k)).
      * by rewrite !bool_decide_eq_true_2 by lia.
      * by rewrite !bool_decide_eq_false_2 by lia.
  - exists s'. cbn in Hk. rewrite Z.add_0_r in Hk. subst k. split_and!; [exact E| |exact Es].
    unfold pool. rewrite Es. change (Z.to_nat 1024) with (S (Z.to_nat 1023)).
    cbn [signo_free_list set_signos set_signo_free_list]. rewrite <- Es. apply chain_zseq.
    + intros q Hq. rewrite Hn. by rewrite bool_decide_eq_true_2 by lia.
    + rewrite Hn. by rewrite bool_decide_eq_false_2 by lia.
Qed.

Lemma signo_alloc_empty s v : pool s [] -> signo_alloc v s = Val (Err (-1)) s.
Proof. intros H. unfold signo_alloc. mstep. unfold pool in H. cbn in H. by rewrite H. Qed.

Lemma signo_alloc_cons s p l v : pool s (p :: l) ->
  exists s', signo_alloc v s = Val (Ok p) s' /\ pool s' l /\ signo_of s' p = s8 v /\
    (forall q, next_of s' q = next_of s q) /\ (forall q, q <> p -> signo_of s' q = signo_of s q) /\
    s' = set_signo_free_list (next_of s p) (set_signos (signos s') s).
Proof.
  intros [H1 H2]. unfold signo_alloc. mstep. rewrite H1. msteps. eexists. split; [reflexivity|].
  set (s' := set_signo_of _ _ _).
  assert (Hn : forall q, next_of s' q = next_of s q) by (intros q; unfold s'; by rewrite next_of_set_signo).
  split_and!; [|by unfold s'; rewrite signo_of_set_signo, decide_True|done| |done].
  - by apply (chain_ext s).
  - intros q Hq. unfold s'. by rewrite signo_of_set_signo, decide_False.
Qed.

Lemma signo_free_ok s p l : pool s l -> p ∉ l ->
  exists s', signo_free p s = Val tt s' /\ pool s' (p :: l) /\
    (forall q, signo_of s' q = signo_of s q) /\ (forall q, q <> p -> next_of s' q = next_of s q) /\
    s' = set_signo_free_list (Some p) (set_signos (signos s') s).
Proof.
  intros H Hp. unfold signo_free. msteps. eexists. split; [reflexivity|].
  set (s' := set_signo_free_list _ _).
  assert (Hn : forall q, next_of s' q = if decide (p = q) then signo_free_list s else next_of s q)
    by (intros q; apply next_of_set_next).
  split_and!; [| | |done].
  - split; [done|]. rewrite Hn, decide_True by done. apply (chain_ext s); [|done].
    intros q Hq. rewrite Hn, decide_False; [done|]. by intros ->.
  - intros q. apply signo_of_set_next.
  - intros q Hq. by rewrite Hn, decide_False.
Qed.
