(* ===== verification/Env.v ===== *)
(** * Environments (kern/env.c, kern/env_asm.S)

    Allocation and destruction of environments, their identifiers and ASIDs, and the switch
    to an environment, [env_run], which leaves the kernel: its outcome is [Run e]. *)

From Stdlib Require Import ZArith Lia.
From stdpp Require Import base numbers list gmap strings.
From S2P Require Import Prelude Queue Mmu Pmap KState Elf Signo.

(** ** ASIDs *)
Definition asid_word (s : kstate) (i : Z) : Z := default 0 (asid_bitmap s !! i).
Definition set_asid_word (i v : Z) (s : kstate) : kstate :=
  set_asid_bitmap (<[i := v]> (asid_bitmap s)) s.

(** The test of the loop body: is ASID [i] free? *)
Definition asid_is_free (s : kstate) (i : Z) : bool :=
  negb (hasbits (asid_word s (Z.shiftr i 5)) (Z.shiftl 1 (Z.land i 31))).

Definition asid_alloc : K (cres Z) :=
  found ← gets (fun s => find (asid_is_free s) (zseq 0 (Z.to_nat NASID)));
  match found with
  | Some i =>
      modify (fun s => set_asid_word (Z.shiftr i 5)
        (Z.lor (asid_word s (Z.shiftr i 5)) (Z.shiftl 1 (Z.land i 31))) s) ;;
      mret (Ok i)
  | None => mret (Err (- E_NO_FREE_ENV))
  end.

Definition asid_free (i : Z) : K unit :=
  modify (fun s => set_asid_word (Z.shiftr i 5)
    (Z.land (asid_word s (Z.shiftr i 5)) (u32 (Z.lnot (Z.shiftl 1 (Z.land i 31))))) s).

(** ** Identifiers *)
Definition mkenvid (e : Z) : K Z :=
  modify (fun s => set_mkenvid_i (u32 (mkenvid_i s + 1)) s) ;;
  i ← gets mkenvid_i;
  mret (Z.lor (u32 (Z.shiftl i (1 + LOG2NENV))) e).

(** [Ok None]: [*penv = curenv] while [curenv] is NULL. *)
Definition envid2env (envid : Z) (checkperm : bool) : K (cres (option Z)) :=
  if envid =? 0 then c ← gets curenv; mret (Ok c) else
  let e := ENVX envid in
  st ← get_env e env_status;
  id ← get_env e env_id;
  if (st =? ENV_FREE) || negb (id =? envid) then mret (Err (- E_BAD_ENV)) else
  if checkperm then
    c ← gets curenv;
    if bool_decide (c = Some e) then mret (Ok (Some e)) else
    parent ← get_env e env_parent_id;
    c ← curenv_deref;
    cid ← get_env c env_id;
    if negb (parent =? cid) then mret (Err (- E_BAD_ENV)) else mret (Ok (Some e))
  else mret (Ok (Some e)).

(** Dereferencing the [Env *] that [envid2env] stored. *)
Definition env_deref (o : option Z) : K Z := lift_opt "NULL env" o.

(** ** Address spaces *)
Definition map_segment (pgdir asid pa va size perm : Z) : K unit :=
  assert "pa % BY2PG == 0" (pa mod BY2PG =? 0) ;;
  assert "va % BY2PG == 0" (va mod BY2PG =? 0) ;;
  assert "size % BY2PG == 0" (size mod BY2PG =? 0) ;;
  for_each (zseq 0 (Z.to_nat (size / BY2PG))) (fun k =>
    let i := k * BY2PG in
    pp ← pmap_op (pa2page (u32 (pa + i)));
    pmap_op (page_insert pgdir asid pp (u32 (va + i)) (Z.lor PTE_V perm)) ;;
    mret tt).

(** [pages_kva] is the address of the [pages] array, [envs_kva] the linker's address of [envs]. *)
Definition env_init (pages_kva envs_kva : Z) : K unit :=
  modify (fun s => set_env_sched_list (TAILQ.TAILQ_INIT (env_sched_list s)) s) ;;
  modify (fun s => set_env_free_list (LIST.LIST_INIT (env_free_list s)) s) ;;
  for_each (map (fun k => NENV - 1 - k) (zseq 0 (Z.to_nat NENV))) (fun i =>
    modify (fun s => set_env_free_list (LIST.LIST_INSERT_HEAD i (env_free_list s)) s)) ;;
  r ← pmap_op page_alloc;
  match r with
  | Err _ => panic "page_alloc(&p)"
  | Ok p =>
      pmap_op (modify (fun s => set_pp_ref p (pp_ref s p + 1) s)) ;;
      kva ← pmap_op (page2kva p);
      modify (set_base_pgdir kva) ;;
      pages_pa ← pmap_op (PADDR pages_kva);
      n ← gets (fun s => npage (pm s));
      map_segment kva 0 pages_pa UPAGES (ROUND (u32 (n * sizeof_Page)) BY2PG) PTE_G ;;
      envs_pa ← pmap_op (PADDR envs_kva);
      map_segment kva 0 envs_pa UENVS (ROUND (NENV * sizeof_Env) BY2PG) PTE_G ;;
      signo_init
  end.

Definition env_setup_vm (e : Z) : K Z :=
  r ← pmap_op page_alloc;
  match r with
  | Err r => mret r
  | Ok p =>
      pmap_op (modify (fun s => set_pp_ref p (pp_ref s p + 1) s)) ;;
      pgdir ← pmap_op (page2kva p);
      upd_env e (with_env_pgdir pgdir) ;;
      base ← gets base_pgdir;
      for_each (zseq (PDX UTOP) (Z.to_nat (PDX UVPT - PDX UTOP))) (fun i =>
        v ← pmap_op (load (base + 4 * i));
        pmap_op (store (pgdir + 4 * i) v)) ;;
      pa ← pmap_op (PADDR pgdir);
      pmap_op (store (pgdir + 4 * PDX UVPT) (Z.lor pa PTE_V)) ;;
      pmap_op (store (pgdir + 4 * PDX KSEG2) (Z.lor pa PTE_V)) ;;
      mret 0
  end.

(** ** Creation *)

(** The fields set up by [env_alloc] after the page directory, the ASID and the id. *)
Definition init_env_tf (e : Env) : Env :=
  with_env_tf (set_reg 29 (USTACKTOP - 4 - 4)
    (set_status (Z.lor (Z.lor STATUS_IM4 STATUS_KUp) STATUS_IEp) (env_tf e))) e.

Definition init_env_signals (e : Env) : Env :=
  with_env_sigprocmask sigset0
    (with_sighandler_table (replicate 64 sigaction0) (with_signoHeader None e)).

Definition env_alloc (parent_id : Z) : K (cres Z) :=
  q ← gets env_free_list;
  if LIST.LIST_EMPTY q then mret (Err (- E_NO_FREE_ENV)) else
  e ← lift_opt "null env" (LIST.LIST_FIRST q);
  q' ← lift_opt "LIST_REMOVE through a null le_prev" (LIST.LIST_REMOVE e q);
  modify (set_env_free_list q') ;;
  env_setup_vm e ;;
  upd_env e (with_env_user_tlb_mod_entry 0) ;;
  upd_env e (with_env_runs 0) ;;
  upd_env e (with_env_parent_id parent_id) ;;
  ra ← asid_alloc;
  match ra with Ok a => upd_env e (with_env_asid a) | Err _ => mret tt end ;;
  id ← mkenvid e;
  upd_env e (with_env_id id) ;;
  upd_env e init_env_tf ;;
  upd_env e init_env_signals ;;
  mret (Ok e).

(** [binary + src], [len] bytes. *)
Definition slice (binary : list Z) (src len : Z) : K (list Z) :=
  if (src <? 0) || (Z.of_nat (length binary) <? src + len) then undef "read past the binary"
  else mret (take (Z.to_nat len) (drop (Z.to_nat src) binary)).

Definition load_icode_mapper (binary : list Z) (base e va offset perm : Z) (src : option Z) (len : Z) : K Z :=
  r ← pmap_op page_alloc;
  match r with
  | Err _ => panic "[kern/env.c/load_icode_mapper]no more process space"
  | Ok p =>
      match src with
      | Some o =>
          bs ← slice binary (base + o) len;
          pmap_op (page2kva p) ;;
          if BY2PG <? offset + len then undef "copy past the page" else
          pmap_op (modify (fun s => set_phys (copy_to_page (phys s) p offset bs) s))
      | None => mret tt
      end ;;
      pgdir ← get_env e env_pgdir;
      asid ← get_env e env_asid;
      pmap_op (page_insert pgdir asid p va perm)
  end.

Definition load_icode (e : Z) (binary : list Z) : K unit :=
  match elf_from binary (Z.of_nat (length binary)) with
  | None => panic "bad elf"
  | Some ehdr =>
      for_each (phdr_offs ehdr) (fun ph_off =>
        ph ← lift_opt "program header past the binary" (phdr_at binary ph_off);
        if p_type ph =? PT_LOAD then
          panic_on "elf_load_seg" (elf_load_seg (load_icode_mapper binary (p_offset ph) e) ph)
        else mret tt) ;;
      upd_env e (fun v => with_env_tf (set_epc (e_entry ehdr) (env_tf v)) v)
  end.

(** [env_alloc]'s result is not checked: on failure [e] is uninitialised or NULL. *)
Definition env_create (binary : list Z) (priority : Z) : K Z :=
  r ← env_alloc 0;
  match r with
  | Err _ => undef "env_create: NULL env"
  | Ok e =>
      upd_env e (with_env_pri priority) ;;
      upd_env e (with_env_status ENV_RUNNABLE) ;;
      load_icode e binary ;;
      modify (fun s => set_env_sched_list (TAILQ.TAILQ_INSERT_HEAD e (env_sched_list s)) s) ;;
      mret e
  end.

(** ** Destruction *)
Definition sched_remove (e : Z) : K unit :=
  q ← gets env_sched_list;
  q' ← lift_opt "TAILQ_REMOVE through a null tqe_prev" (TAILQ.TAILQ_REMOVE e q);
  modify (set_env_sched_list q').

Definition sched_insert_tail (e : Z) : K unit :=
  modify (fun s => set_env_sched_list (TAILQ.TAILQ_INSERT_TAIL e (env_sched_list s)) s).

(** The body of the loop over the page directory in [env_free]. *)
Definition free_pde (pgdir asid pdeno : Z) : P unit :=
  pde ← load (pgdir + 4 * pdeno);
  if negb (hasbits pde PTE_V) then mret tt else
  let pa := PTE_ADDR pde in
  pt ← KADDR pa;
  for_each (zseq 0 (Z.to_nat 1024)) (fun pteno =>
    pte ← load (pt + 4 * pteno);
    if hasbits pte PTE_V then
      page_remove pgdir asid (Z.lor (Z.shiftl pdeno PDSHIFT) (Z.shiftl pteno PGSHIFT))
    else mret tt) ;;
  store (pgdir + 4 * pdeno) 0 ;;
  pp ← pa2page pa;
  page_decref pp ;;
  tlb_invalidate asid (UVPT + Z.shiftl pdeno PGSHIFT) ;;
  tlb_invalidate asid (KSEG2 + Z.shiftl pdeno PGSHIFT).

(** The page tables, the user pages, the directory and its translations. *)
Definition env_free_vm (pgdir asid : Z) : P unit :=
  for_each (zseq 0 (Z.to_nat (PDX UTOP))) (free_pde pgdir asid) ;;
  pa ← PADDR pgdir;
  pp ← pa2page pa;
  page_decref pp.

Definition env_free (e : Z) : K unit :=
  pgdir ← get_env e env_pgdir;
  asid ← get_env e env_asid;
  pmap_op (env_free_vm pgdir asid) ;;
  asid_free asid ;;
  pmap_op (tlb_invalidate asid (UVPT + Z.shiftl (PDX UVPT) PGSHIFT)) ;;
  pmap_op (tlb_invalidate asid (KSEG2 + Z.shiftl (PDX UVPT) PGSHIFT)) ;;
  upd_env e (with_env_status ENV_FREE) ;;
  modify (fun s => set_env_free_list (LIST.LIST_INSERT_HEAD e (env_free_list s)) s) ;;
  sched_remove e.

(** ** Switching *)

(** env_asm.S: load the ASID and resume from the frame in [envs]. *)
Definition env_pop_tf (e asid : Z) : K unit := fun s => Run e (set_hw_asid asid s).

Definition env_run (e : Z) : K unit :=
  st ← get_env e env_status;
  assert "e->env_status == ENV_RUNNABLE" (st =? ENV_RUNNABLE) ;;
  c ← gets curenv;
  match c with
  | Some c => tf ← gets ktf; upd_env c (with_env_tf tf)
  | None => mret tt
  end ;;
  modify (set_curenv (Some e)) ;;
  upd_env e (fun v => with_env_runs (u32 (env_runs v + 1)) v) ;;
  pgdir ← get_env e env_pgdir;
  pmap_op (modify (set_cur_pgdir pgdir)) ;;
  asid ← get_env e env_asid;
  env_pop_tf e asid.
