(* ===== verification/Sched.v ===== *)
(** * The scheduler (kern/sched.c) and env_destroy (kern/env.c)

    [schedule] never returns: its outcome is [Run e] or [Panic]. *)

From Stdlib Require Import ZArith Lia.
From stdpp Require Import base numbers list gmap strings.
From S2P Require Import Prelude Queue Mmu Pmap KState Elf Signo Env.

(** [e->env_status == ENV_RUNNABLE], with [e] possibly NULL. *)
Definition runnable (e : Z) : K bool := get_env e (fun v => env_status v =? ENV_RUNNABLE).

(** Move [curenv] to the tail if it is still runnable, and pick the head. *)
Definition sched_pick : K Z :=
  c ← gets curenv;
  match c with
  | Some e => sched_remove e ;; r ← runnable e; when r (sched_insert_tail e)
  | None => mret tt
  end ;;
  q ← gets env_sched_list;
  if TAILQ.TAILQ_EMPTY q then panic "no runnale env" else
  e ← lift_opt "null env" (TAILQ.TAILQ_FIRST q);
  pri ← get_env e env_pri;
  modify (set_sched_count (s32 pri)) ;;
  mret e.

Definition schedule (yield : bool) : K unit :=
  c ← gets curenv;
  count ← gets sched_count;
  e ← match c with
      | None => sched_pick
      | Some e =>
          r ← runnable e;
          if yield || (count =? 0) || negb r then sched_pick else mret e
      end;
  modify (fun s => if 0 <? sched_count s then set_sched_count (sched_count s - 1) s else s) ;;
  env_run e.

Definition env_destroy (e : Z) : K unit :=
  env_free e ;;
  c ← gets curenv;
  if bool_decide (c = Some e) then modify (set_curenv None) ;; schedule true else mret tt.
