(* ===== verification/TlbEx.v ===== *)
(** * TLB exceptions and access to user memory (kern/tlbex.c, kern/tlb_asm.S)

    [_do_tlb_refill] and [do_tlb_mod], with [sys_kill] (kern/syscall_all.c), which the
    refill handler calls; and the loads and stores the kernel itself makes at user
    addresses, which go through the TLB like those of the user. *)

From Stdlib Require Import ZArith Lia.
From stdpp Require Import base numbers list gmap strings.
From S2P Require Import Prelude Queue Mmu Pmap KState Elf Signo Env.

(** ** Sending a signal *)
Definition sys_kill (envid signo : Z) : K Z :=
  r ← envid2env envid false;
  match r with
  | Err _ => mret (-1)
  | Ok o =>
      a ← signo_alloc signo;
      match a with
      | Err _ => panic "add signo fail"
      | Ok p =>
          e ← env_deref o;
          h ← get_env e signoHeader;
          modify (set_next_of p h) ;;
          upd_env e (with_signoHeader (Some p)) ;;
          mret 0
      end
  end.

(** ** Refill *)
Definition passive_alloc (va pgdir asid : Z) : K unit :=
  when (va <? UTEMP) (sys_kill 0 SIGSEGV ;; mret tt) ;;
  assert "invalid memory" (negb ((USTACKTOP <=? va) && (va <? USTACKTOP + BY2PG))) ;;
  assert "envs zone" (negb ((UENVS <=? va) && (va <? UPAGES))) ;;
  assert "pages zone" (negb ((UPAGES <=? va) && (va <? UVPT))) ;;
  assert "kernel address" (negb ((ULIM <=? va) && (va <? KSEG2))) ;;
  r ← pmap_op page_alloc;
  match r with
  | Err _ => panic "page_alloc(&p)"
  | Ok p => panic_on "page_insert" (pmap_op (page_insert pgdir asid p (PTE_ADDR va) PTE_D))
  end.

(** [while (page_lookup(...) == NULL) passive_alloc(...)] *)
Fixpoint do_tlb_refill_loop (fuel : nat) (va asid : Z) : K Z :=
  pgdir ← gets (fun s => cur_pgdir (pm s));
  r ← pmap_op (page_lookup pgdir va);
  match r with
  | Some (_, ppte) => pmap_op (load ppte)
  | None =>
      match fuel with
      | O => undef "the refill loop does not end"
      | S fuel' =>
          passive_alloc va pgdir asid ;;
          do_tlb_refill_loop fuel' va asid
      end
  end.

Definition _do_tlb_refill (va asid : Z) : K Z := do_tlb_refill_loop 2 va asid.

(** tlb_asm.S: the entry is written with the VPN of [va] and the ASID of EntryHi. *)
Definition do_tlb_refill (va : Z) : K Z :=
  asid ← gets hw_asid;
  e ← _do_tlb_refill va asid;
  pmap_op (modify (fun s => set_tlb (<[entryhi asid va := e]> (tlb s)) s)) ;;
  mret e.

(** ** The kernel's own accesses to user memory

    A miss is a nested exception. Its return path also delivers signals, onto the frame of
    the interrupted kernel code: that case, a user store below PTE_D, and addresses outside
    the user part are not modelled further. *)
Definition no_pending : K bool :=
  c ← gets curenv;
  match c with
  | Some c => get_env c (fun v => bool_decide (signoHeader v = None))
  | None => mret true
  end.

Definition translate (va : Z) (write : bool) : K Z :=
  if (va <? 0) || (UTOP <=? va) then undef "kernel access outside the user part" else
  asid ← gets hw_asid;
  hit ← gets (fun s => tlb (pm s) !! entryhi asid va);
  e ← match hit with
      | Some e => mret e
      | None =>
          np ← no_pending;
          if np && (UTEMP <=? va) then do_tlb_refill va
          else undef "signal delivered to a kernel frame"
      end;
  if write && negb (hasbits e PTE_D) then undef "TLB Mod in kernel mode" else mret (PPN e).

Definition uload (va : Z) : K Z :=
  if negb (va mod 4 =? 0) then undef "unaligned load" else
  p ← translate va false;
  gets (fun s => word (phys (pm s)) p ((va mod 4096) / 4)).

Definition ustore (va v : Z) : K unit :=
  if negb (va mod 4 =? 0) then undef "unaligned store" else
  p ← translate va true;
  pmap_op (modify (fun s => set_phys (upd (phys s) p ((va mod 4096) / 4) (u32 v)) s)).

Definition uload_byte (va : Z) : K Z :=
  p ← translate va false;
  gets (fun s => page_byte (phys (pm s)) p (va mod 4096)).

Definition ustore_byte (va b : Z) : K unit :=
  p ← translate va true;
  pmap_op (modify (fun s => set_phys (set_page_byte (phys s) p (va mod 4096) b) s)).

(** Structures, word by word. *)
Fixpoint uload_words (va : Z) (n : nat) : K (list Z) :=
  match n with
  | O => mret []
  | S n' => w ← uload va; ws ← uload_words (u32 (va + 4)) n'; mret (w :: ws)
  end.

Fixpoint ustore_words (va : Z) (ws : list Z) : K unit :=
  match ws with
  | [] => mret tt
  | w :: ws' => ustore va w ;; ustore_words (u32 (va + 4)) ws'
  end.

Definition uload_tf (va : Z) : K Trapframe :=
  ws ← uload_words va 38; mret (tf_of_words ws).
Definition ustore_tf (va : Z) (tf : Trapframe) : K unit := ustore_words va (tf_words tf).
Definition uload_sigset (va : Z) : K sigset_t :=
  a ← uload va; b ← uload (u32 (va + 4)); mret (mkSigset a b).
Definition ustore_sigset (va : Z) (m : sigset_t) : K unit :=
  ustore va (sig0 m) ;; ustore (u32 (va + 4)) (sig1 m).

(** ** TLB Mod *)

(** The trap frame [tf] points to: the one on the kernel stack, or [envs[i].env_tf]. *)
Inductive tfloc := KTF | ETF (e : Z).

Definition get_tf (l : tfloc) : K Trapframe :=
  match l with KTF => gets ktf | ETF e => get_env e env_tf end.
Definition put_tf (l : tfloc) (tf : Trapframe) : K unit :=
  match l with KTF => modify (set_ktf tf) | ETF e => upd_env e (with_env_tf tf) end.

Definition do_tlb_mod (l : tfloc) : K unit :=
  tmp_tf ← get_tf l;
  let sp := reg tmp_tf 29 in
  let sp := if (sp <? USTACKTOP) || (UXSTACKTOP <=? sp) then UXSTACKTOP else sp in
  let sp := u32 (sp - sizeof_Trapframe) in
  put_tf l (set_reg 29 sp tmp_tf) ;;
  ustore_tf sp tmp_tf ;;
  c ← curenv_deref;
  entry ← get_env c env_user_tlb_mod_entry;
  if negb (entry =? 0) then
    tf ← get_tf l;
    put_tf l (set_epc entry (set_reg 29 (u32 (reg tf 29 - 4)) (set_reg 4 (reg tf 29) tf)))
  else panic "TLB Mod but no user handler registered".
