(* ===== verification/Signal.v ===== *)
(** * Signal delivery (kern/signal.c, kern/genex.S)

    [_do_signal] runs on every return to user mode: it takes the first pending signal that
    the mask does not block off the list, and arranges for the user entry to run its
    handler on a frame that saves the interrupted context and the mask. *)

From Stdlib Require Import ZArith Lia.
From stdpp Require Import base numbers list gmap strings.
From S2P Require Import Prelude Queue Mmu Pmap KState Elf Signo Env TlbEx.

(** The handler slot [sighandler_table[signo - 1]]. *)
Definition handler_slot (signo : Z) (e : Env) : option sigaction :=
  if (1 <=? signo) && (signo <=? 64) then sighandler_table e !! Z.to_nat (signo - 1) else None.

Definition get_handler (c signo : Z) : K sigaction :=
  h ← get_env c (handler_slot signo);
  lift_opt "sighandler_table out of range" h.

(** Signals whose default action ends the process in user code. *)
Definition has_default (signo : Z) : bool :=
  (signo =? SIGKILL) || (signo =? SIGSEGV) || (signo =? SIGTERM).

(** The two loops of [_do_signal] (the [while] and the [goto]): the signal to deliver. The
    fuel bounds the number of nodes visited. *)
Fixpoint find_unblocked_signo (fuel : nat) (c : Z) (frm ptr : option Z) : K (option Z) :=
  match fuel, ptr with
  | _, None => mret None
  | O, Some _ => undef "cyclic signal list"
  | S fuel', Some p =>
      mask ← get_env c env_sigprocmask;
      signo ← gets (fun s => signo_of s p);
      next ← gets (fun s => next_of s p);
      blocked ← lift_opt "sig out of range" (sigset_ctn mask signo);
      if (blocked : bool) then find_unblocked_signo fuel' c (Some p) next else
      match frm with
      | Some f => modify (set_next_of f next)
      | None => upd_env c (with_signoHeader None)
      end ;;
      signo_free p ;;
      h ← get_handler c signo;
      if (sa_handler h =? 0) && negb (has_default signo)
      then find_unblocked_signo fuel' c frm next
      else mret (Some signo)
  end.

Definition signal_fuel : nat := Z.to_nat 1025.

Definition _do_signal (l : tfloc) : K unit :=
  c ← curenv_deref;
  h ← get_env c signoHeader;
  r ← find_unblocked_signo signal_fuel c None h;
  match r with
  | None => mret tt
  | Some signo =>
      entry ← get_env c do_signal_entry;
      assert (if signo =? SIGSEGV then "address too low" else "only SIGSEGV can exit in kern")
        (negb (entry =? 0)) ;;
      originMask ← get_env c env_sigprocmask;
      h ← get_handler c signo;
      upd_env c (with_env_sigprocmask (sa_mask h)) ;;
      tf ← get_tf l;
      ustore_tf (u32 (reg tf 29 - sizeof_Trapframe)) tf ;;
      let sp := u32 (reg tf 29 - sizeof_Trapframe) in
      let tf := set_reg 4 sp (set_reg 29 sp tf) in
      let sp := u32 (sp - 8) in
      let tf := set_reg 29 sp tf in
      put_tf l tf ;;
      ustore_sigset sp originMask ;;
      let tf := set_reg 5 signo (set_reg 7 sp tf) in
      let tf := set_reg 6 (sa_handler h) tf in
      let tf := set_reg 29 (u32 (sp - 16)) tf in
      put_tf l (set_epc entry tf)
  end.
