(* ===== verification/Syscall.v ===== *)
(** * System calls (kern/syscall_all.c)

    Every function of the system-call table, and the dispatcher. The arguments are the
    32-bit words the dispatcher passes; an [int] result is its signed value. *)

From Stdlib Require Import ZArith Lia.
From stdpp Require Import base numbers list gmap strings.
From S2P Require Import Prelude Queue Mmu Pmap KState Elf Signo Env Sched TlbEx Signal.

(** ** Console *)
Definition printcharc (c : Z) : K unit := modify (fun s => set_cons_out (u8 c :: cons_out s) s).

Definition sys_putchar (c : Z) : K unit := printcharc c.

Definition sys_print_cons (s num : Z) : K Z :=
  if (UTOP <? u32 (s + num)) || (UTOP <=? s) || (u32 (s + num) <? s) then mret (- E_INVAL) else
  for_each (zseq 0 (Z.to_nat num)) (fun i => b ← uload_byte (u32 (s + i)); printcharc b) ;;
  mret 0.

(** [while ((ch = scancharc()) == 0)]: the first non-zero character the console gives;
    with no more input the kernel waits forever. *)
Definition sys_cgetc : K Z :=
  input ← gets cons_in;
  match list_find (fun ch => ch <> 0) input with
  | Some (i, ch) => modify (set_cons_in (drop (S i) input)) ;; mret ch
  | None => undef "sys_cgetc waits for input"
  end.

(** ** Environments *)
Definition sys_getenvid : K Z := c ← curenv_deref; get_env c env_id.

Definition sys_yield : K unit := schedule true.

Definition sys_env_destroy (envid : Z) : K Z :=
  r ← envid2env envid true;
  match r with
  | Err r => mret r
  | Ok o => e ← env_deref o; env_destroy e ;; mret 0
  end.

Definition sys_set_tlb_mod_entry (envid func : Z) : K Z :=
  r ← envid2env envid true;
  match r with
  | Err r => mret r
  | Ok o => e ← env_deref o; upd_env e (with_env_user_tlb_mod_entry func) ;; mret 0
  end.

Definition sys_exofork : K Z :=
  c ← curenv_deref;
  cid ← get_env c env_id;
  r ← env_alloc cid;
  match r with
  | Err _ => mret (- E_NO_FREE_ENV)
  | Ok e =>
      tf ← gets ktf;
      upd_env e (with_env_tf (set_reg 2 0 tf)) ;;
      upd_env e (with_env_status ENV_NOT_RUNNABLE) ;;
      pri ← get_env c env_pri;
      upd_env e (with_env_pri pri) ;;
      mask ← get_env c env_sigprocmask;
      upd_env e (with_env_sigprocmask mask) ;;
      tbl ← get_env c sighandler_table;
      upd_env e (with_sighandler_table tbl) ;;
      get_env e env_id
  end.

Definition sys_set_env_status (envid status : Z) : K Z :=
  if negb (status =? ENV_RUNNABLE) && negb (status =? ENV_NOT_RUNNABLE) then mret (- E_INVAL) else
  r ← envid2env envid true;
  match r with
  | Err r => mret r
  | Ok o =>
      e ← env_deref o;
      st ← get_env e env_status;
      when ((st =? ENV_RUNNABLE) && (status =? ENV_NOT_RUNNABLE)) (sched_remove e) ;;
      when ((st =? ENV_NOT_RUNNABLE) && (status =? ENV_RUNNABLE)) (sched_insert_tail e) ;;
      upd_env e (with_env_status status) ;;
      mret 0
  end.

(** ** Memory *)
Definition is_illegal_va (va : Z) : bool := (va <? UTEMP) || (UTOP <=? va).

Definition is_illegal_va_range (va len : Z) : bool :=
  if len =? 0 then false else
  (u32 (va + len) <? va) || (va <? UTEMP) || (UTOP <? u32 (va + len)).

Definition sys_mem_alloc (envid va perm : Z) : K Z :=
  if is_illegal_va va then mret (- E_INVAL) else
  r ← envid2env envid true;
  match r with
  | Err _ => mret (- E_BAD_ENV)
  | Ok o =>
      rp ← pmap_op page_alloc;
      match rp with
      | Err r => mret r
      | Ok pp =>
          e ← env_deref o;
          pgdir ← get_env e env_pgdir;
          asid ← get_env e env_asid;
          pmap_op (page_insert pgdir asid pp va perm)
      end
  end.

Definition sys_mem_map (srcid srcva dstid dstva perm : Z) : K Z :=
  if is_illegal_va srcva || is_illegal_va dstva then mret (- E_INVAL) else
  rs ← envid2env srcid true;
  match rs with
  | Err _ => mret (- E_BAD_ENV)
  | Ok osrc =>
      rd ← envid2env dstid true;
      match rd with
      | Err _ => mret (- E_BAD_ENV)
      | Ok odst =>
          src ← env_deref osrc;
          spg ← get_env src env_pgdir;
          rp ← pmap_op (page_lookup spg srcva);
          match rp with
          | None => mret (- E_INVAL)
          | Some (pp, _) =>
              dst ← env_deref odst;
              dpg ← get_env dst env_pgdir;
              asid ← get_env dst env_asid;
              pmap_op (page_insert dpg asid pp dstva perm)
          end
      end
  end.

Definition sys_mem_unmap (envid va : Z) : K Z :=
  if is_illegal_va va then mret (- E_INVAL) else
  r ← envid2env envid true;
  match r with
  | Err _ => mret (- E_BAD_ENV)
  | Ok o =>
      e ← env_deref o;
      pgdir ← get_env e env_pgdir;
      asid ← get_env e env_asid;
      pmap_op (page_remove pgdir asid va) ;;
      mret 0
  end.

(** ** Trap frames and signals *)
Definition sys_set_trapframe (envid tf_va : Z) : K Z :=
  if is_illegal_va_range tf_va sizeof_Trapframe then mret (- E_INVAL) else
  r ← envid2env envid true;
  match r with
  | Err r => mret r
  | Ok o =>
      c ← gets curenv;
      tf ← uload_tf tf_va;
      if bool_decide (o = c) then modify (set_ktf tf) ;; mret (s32 (reg tf 2))
      else e ← env_deref o; upd_env e (with_env_tf tf) ;; mret 0
  end.

Definition sys_back_do_signal (envid tf_va originMask : Z) : K Z :=
  c ← curenv_deref;
  cid ← get_env c env_id;
  assert "bad envid in do signal return function" (negb (negb (envid =? 0) && negb (envid =? cid))) ;;
  r ← sys_set_trapframe envid tf_va;
  if r <? 0 then mret r else
  m ← uload_sigset originMask;
  upd_env c (with_env_sigprocmask m) ;;
  mret r.

Definition uload_sigaction (va : Z) : K sigaction :=
  h ← uload va; m ← uload_sigset (u32 (va + 4)); mret (mkSigaction h m).
Definition ustore_sigaction (va : Z) (a : sigaction) : K unit :=
  ustore va (sa_handler a) ;; ustore_sigset (u32 (va + 4)) (sa_mask a).

Definition sys_sigaction (signo act oldact : Z) : K unit :=
  c ← curenv_deref;
  feedback ← get_handler c (s32 signo);
  when (negb (act =? 0)) (a ← uload_sigaction act;
    upd_env c (fun e => with_sighandler_table
      (<[Z.to_nat (s32 signo - 1) := a]> (sighandler_table e)) e)) ;;
  when (negb (oldact =? 0)) (ustore_sigaction oldact feedback).

Definition sys_sigprocmask (how set oldset : Z) : K unit :=
  c ← curenv_deref;
  feedback ← get_env c env_sigprocmask;
  bad ← (if negb (set =? 0) then
      if how =? SIG_BLOCK then
        m ← uload_sigset set; upd_env c (fun e => with_env_sigprocmask (sigset_add (env_sigprocmask e) m) e) ;; mret false
      else if how =? SIG_UNBLOCK then
        m ← uload_sigset set; upd_env c (fun e => with_env_sigprocmask (sigset_del (env_sigprocmask e) m) e) ;; mret false
      else if how =? SIG_SETMASK then
        m ← uload_sigset set; upd_env c (with_env_sigprocmask (sigset_set m)) ;; mret false
      else mret true
    else mret false);
  when (negb bad && negb (oldset =? 0)) (ustore_sigset oldset feedback).

Definition sys_set_sig_entry (envid entry : Z) : K Z :=
  r ← envid2env envid false;
  match r with
  | Err r => mret r
  | Ok o => e ← env_deref o; upd_env e (with_do_signal_entry entry) ;; mret 0
  end.

Definition sys_panic : K unit := panic "%s".

(** ** Messages *)
Definition sys_ipc_recv (dstva : Z) : K Z :=
  if negb (dstva =? 0) && is_illegal_va dstva then mret (- E_INVAL) else
  c ← curenv_deref;
  upd_env c (with_env_ipc_recving 1) ;;
  upd_env c (with_env_ipc_dstva dstva) ;;
  upd_env c (with_env_status ENV_NOT_RUNNABLE) ;;
  modify (fun s => set_ktf (set_reg 2 0 (ktf s)) s) ;;
  schedule true ;;
  undef "schedule returned".

Definition sys_ipc_try_send (envid value srcva perm : Z) : K Z :=
  if negb (srcva =? 0) && is_illegal_va srcva then mret (- E_INVAL) else
  r ← envid2env envid false;
  match r with
  | Err _ => mret (- E_BAD_ENV)
  | Ok o =>
      e ← env_deref o;
      recving ← get_env e env_ipc_recving;
      if recving =? 0 then mret (- E_IPC_NOT_RECV) else
      c ← curenv_deref;
      cid ← get_env c env_id;
      upd_env e (with_env_ipc_value value) ;;
      upd_env e (with_env_ipc_from cid) ;;
      upd_env e (with_env_ipc_perm (Z.lor PTE_V perm)) ;;
      upd_env e (with_env_ipc_recving 0) ;;
      upd_env e (with_env_status ENV_RUNNABLE) ;;
      sched_insert_tail e ;;
      if negb (srcva =? 0) then
        pg ← get_env c env_pgdir;
        rp ← pmap_op (page_lookup pg srcva);
        match rp with
        | None => mret (- E_INVAL)
        | Some (p, _) =>
            epg ← get_env e env_pgdir;
            asid ← get_env e env_asid;
            dstva ← get_env e env_ipc_dstva;
            pmap_op (page_insert epg asid p dstva perm) ;;
            mret 0
        end
      else mret 0
  end.

(** ** Devices *)
Definition dev_ok (pa len : Z) : bool :=
  ((268435456 <=? pa) && (u32 (pa + len) <=? 268435488)) ||
  ((318767104 <=? pa) && (u32 (pa + len) <=? 318784000)) ||
  ((352321536 <=? pa) && (u32 (pa + len) <=? 352322048)).

Fixpoint uload_bytes (va : Z) (n : nat) : K (list Z) :=
  match n with
  | O => mret []
  | S n' => b ← uload_byte va; bs ← uload_bytes (u32 (va + 1)) n'; mret (b :: bs)
  end.

Fixpoint ustore_bytes (va : Z) (bs : list Z) : K unit :=
  match bs with
  | [] => mret tt
  | b :: bs' => ustore_byte va b ;; ustore_bytes (u32 (va + 1)) bs'
  end.

Definition sys_write_dev (va pa len : Z) : K Z :=
  if is_illegal_va_range va len then mret (- E_INVAL) else
  if negb (dev_ok pa len) then mret (- E_INVAL) else
  bs ← uload_bytes va (Z.to_nat len);
  modify (fun s => set_dev_out ((Z.lor KSEG1 pa, bs) :: dev_out s) s) ;;
  mret 0.

Definition sys_read_dev (va pa len : Z) : K Z :=
  if is_illegal_va_range va len then mret (- E_INVAL) else
  if negb (dev_ok pa len) then mret (- E_INVAL) else
  bs ← gets (fun s => map (fun i => default 0 (dev_in s !! (Z.lor KSEG1 pa + i))) (zseq 0 (Z.to_nat len)));
  ustore_bytes va bs ;;
  mret 0.

(** ** Dispatch *)
Definition MAX_SYSNO := 23.

(** [$v0] after a [void] function is not specified: the model leaves 0. *)
Definition void (m : K unit) : K Z := m ;; mret 0.

(** [syscall_table] *)
Definition syscall_table (sysno a1 a2 a3 a4 a5 : Z) : K Z :=
  match sysno with
  | 0 => void (sys_putchar a1)
  | 1 => sys_print_cons a1 a2
  | 2 => sys_getenvid
  | 3 => void sys_yield
  | 4 => sys_env_destroy a1
  | 5 => sys_set_tlb_mod_entry a1 a2
  | 6 => sys_mem_alloc a1 a2 a3
  | 7 => sys_mem_map a1 a2 a3 a4 a5
  | 8 => sys_mem_unmap a1 a2
  | 9 => sys_exofork
  | 10 => sys_set_env_status a1 a2
  | 11 => sys_set_trapframe a1 a2
  | 12 => void sys_panic
  | 13 => sys_ipc_try_send a1 a2 a3 a4
  | 14 => sys_ipc_recv a1
  | 15 => sys_cgetc
  | 16 => sys_write_dev a1 a2 a3
  | 17 => sys_read_dev a1 a2 a3
  | 18 => void (sys_sigaction a1 a2 a3)
  | 19 => void (sys_sigprocmask a1 a2 a3)
  | 20 => sys_kill a1 a2
  | 21 => sys_back_do_signal a1 a2 a3
  | 22 => sys_set_sig_entry a1 a2
  | _ => undef "syscall_table out of range"
  end.

Definition do_syscall : K unit :=
  tf ← gets ktf;
  let sysno := s32 (reg tf 4) in
  if (sysno <? 0) || (MAX_SYSNO <=? sysno) then
    modify (fun s => set_ktf (set_reg 2 (u32 (- E_NO_SYS)) (ktf s)) s)
  else
    modify (fun s => set_ktf (set_epc (u32 (cp0_epc (ktf s) + 4)) (ktf s)) s) ;;
    let sp := reg tf 29 in
    arg4 ← uload (u32 (sp + 16));
    arg5 ← uload (u32 (sp + 20));
    r ← syscall_table sysno (reg tf 5) (reg tf 6) (reg tf 7) arg4 arg5;
    modify (fun s => set_ktf (set_reg 2 (u32 r) (ktf s)) s).
