(* ===== verification/Traps.v ===== *)
(** * Exceptions (kern/traps.c, kern/genex.S)

    One exception from user mode: the vector, the handler, and the return path, which
    delivers signals. [Run e] from a handler resumes [e] through the same return path, on
    the frame in [envs]. *)

From Stdlib Require Import ZArith Lia.
From stdpp Require Import base numbers list gmap strings.
From S2P Require Import Prelude Queue Mmu Pmap KState Elf Signo Env Sched TlbEx Signal Syscall.

Inductive handler := handle_int | handle_tlb | handle_mod | handle_sys | handle_reserved.

Definition exception_handlers (exccode : Z) : handler :=
  match exccode with
  | 0 => handle_int
  | 1 => handle_mod
  | 2 | 3 => handle_tlb
  | 8 => handle_sys
  | _ => handle_reserved
  end.

(** [(tf->cp0_cause >> 2) & 0x1f] *)
Definition exc_code (tf : Trapframe) : Z := Z.land (Z.shiftr (cp0_cause tf) 2) 31.

Definition do_reserved : K unit := panic "Unknown ExcCode".

(** [handle_int] jumps to [schedule(0)] and does not come back. *)
Definition run_handler (h : handler) : K unit :=
  match h with
  | handle_int => schedule false
  | handle_tlb => va ← gets (fun s => cp0_badvaddr (ktf s)); do_tlb_refill va ;; mret tt
  | handle_mod => do_tlb_mod KTF
  | handle_sys => do_syscall
  | handle_reserved => do_reserved
  end.

(** [ret_from_exception]: deliver signals on the frame, then resume user mode. *)
Definition ret_from_exception (l : tfloc) : K unit := _do_signal l.

(** The frame user mode resumes from. *)
Definition exception (tf : Trapframe) : K Trapframe := fun s =>
  let s := set_ktf tf s in
  match run_handler (exception_handlers (exc_code tf)) s with
  | Val _ s' => (ret_from_exception KTF ;; get_tf KTF) s'
  | Run e s' => (ret_from_exception (ETF e) ;; get_tf (ETF e)) s'
  | Panic w s' => Panic w s'
  | Undef w => Undef w
  end.
