(* ===== verification/EnvThms.v ===== *)
(** * Theorems on ASIDs and environment identifiers (kern/env.c) *)

From Stdlib Require Import ZArith Lia.
From stdpp Require Import base numbers list gmap strings.
From S2P Require Import Prelude Queue Mmu Pmap KState Elf Signo Env.

(** ** The ASID bitmap *)
Definition asid_used (s : kstate) (i : Z) : bool := Z.testbit (asid_word s (i / 32)) (i mod 32).

Lemma asid_is_free_used s i : 0 <= i -> asid_is_free s i = negb (asid_used s i).
Proof.
  intros Hi. unfold asid_is_free, asid_used. change 31 with (Z.ones 5).
  rewrite land_ones_mod, shiftr_div, Z.shiftl_1_l by lia. change (2 ^ 5) with 32.
  by rewrite hasbits_testbit by dlia.
Qed.

Lemma asid_word_set s i v j : asid_word (set_asid_word i v s) j = if decide (i = j) then v else asid_word s j.
Proof. unfold asid_word, set_asid_word; cbn. rewrite lookup_insert. by case_decide. Qed.

(** Changing bit [i mod 32] of word [i / 32] changes the state of ASID [i] only. *)
Lemma asid_used_set s i j w :
  0 <= i -> 0 <= j ->
  (forall k, 0 <= k < 32 -> k <> i mod 32 -> Z.testbit w k = Z.testbit (asid_word s (i / 32)) k) ->
  asid_used (set_asid_word (i / 32) w s) j =
    if decide (i = j) then Z.testbit w (i mod 32) else asid_used s j.
Proof.
  intros Hi Hj Hw. unfold asid_used. rewrite asid_word_set. case_decide as Hd.
  - case_decide as Hij; [by subst|]. rewrite Hw, Hd; [done|dlia|dlia].
  - case_decide as Hij; [by subst|done].
Qed.

Lemma testbit_lor_pow2 x k n : 0 <= k -> 0 <= n -> Z.testbit (Z.lor x (2 ^ k)) n = Z.testbit x n || (k =? n).
Proof. intros Hk Hn. by rewrite Z.lor_spec, Z.pow2_bits_eqb. Qed.

Lemma testbit_clear x k n : 0 <= k < 32 -> 0 <= n < 32 ->
  Z.testbit (Z.land x (u32 (Z.lnot (2 ^ k)))) n = Z.testbit x n && negb (k =? n).
Proof.
  intros Hk Hn. unfold u32. change 4294967296 with (2 ^ 32).
  by rewrite Z.land_spec, Z.mod_pow2_bits_low, Z.lnot_spec, Z.pow2_bits_eqb by lia.
Qed.

Definition asid_mark (i : Z) (s : kstate) : kstate :=
  set_asid_word (i / 32) (Z.lor (asid_word s (i / 32)) (2 ^ (i mod 32))) s.
Definition asid_clear (i : Z) (s : kstate) : kstate :=
  set_asid_word (i / 32) (Z.land (asid_word s (i / 32)) (u32 (Z.lnot (2 ^ (i mod 32))))) s.

Lemma asid_mark_used s i j : 0 <= i -> 0 <= j -> asid_used (asid_mark i s) j = asid_used s j || (i =? j).
Proof.
  intros Hi Hj. unfold asid_mark. rewrite asid_used_set; [|done|done|].
  - rewrite testbit_lor_pow2, Z.eqb_refl, orb_true_r by dlia.
    case_decide as Hij; [subst; by rewrite Z.eqb_refl, orb_true_r|].
    destruct (Z.eqb_spec i j); [done|]. by rewrite orb_false_r.
  - intros k Hk Hne. rewrite testbit_lor_pow2 by dlia.
    destruct (Z.eqb_spec (i mod 32) k); [congruence|]. apply orb_false_r.
Qed.

Lemma asid_clear_used s i j : 0 <= i -> 0 <= j -> asid_used (asid_clear i s) j = asid_used s j && negb (i =? j).
Proof.
  intros Hi Hj. unfold asid_clear. rewrite asid_used_set; [|done|done|].
  - rewrite testbit_clear, Z.eqb_refl, andb_false_r by dlia.
    case_decide as Hij; [subst; by rewrite Z.eqb_refl, andb_false_r|].
    destruct (Z.eqb_spec i j); [done|]. by rewrite andb_true_r.
  - intros k Hk Hne. rewrite testbit_clear by dlia.
    destruct (Z.eqb_spec (i mod 32) k); [congruence|]. apply andb_true_r.
Qed.

Lemma shift_mod i : 0 <= i -> Z.shiftr i 5 = i / 32 /\ Z.shiftl 1 (Z.land i 31) = 2 ^ (i mod 32).
Proof.
  intros Hi. change 31 with (Z.ones 5). rewrite land_ones_mod, shiftr_div, Z.shiftl_1_l by lia. done.
Qed.

Lemma asid_alloc_eq s : asid_alloc s =
  match find (asid_is_free s) (zseq 0 (Z.to_nat NASID)) with
  | Some i => Val (Ok i) (asid_mark i s)
  | None => Val (Err (- E_NO_FREE_ENV)) s
  end.
Proof.
  unfold asid_alloc. mstep. destruct (find _ _) as [i|] eqn:E; [|done].
  apply find_some in E as [Hi _]. apply list_elem_of_In, elem_of_zseq in Hi. mstep.
  destruct (shift_mod i) as [-> ->]; [lia|]. done.
Qed.

Lemma asid_free_eq s i : 0 <= i -> asid_free i s = Val tt (asid_clear i s).
Proof. intros Hi. unfold asid_free, modify. by destruct (shift_mod i Hi) as [-> ->]. Qed.

(** The first index a [find] over consecutive integers returns is the least. *)
Lemma find_zseq_least (f : Z -> bool) a n i : find f (zseq a n) = Some i ->
  a <= i < a + Z.of_nat n /\ f i = true /\ (forall j, a <= j < i -> f j = false).
Proof.
  revert a. induction n as [|n IH]; intros a; [done|]. rewrite zseq_S. cbn [find].
  destruct (f a) eqn:E.
  - intros [= <-]. split_and!; [lia|lia|done|lia].
  - intros (H1 & H2 & H3)%IH. split_and!; [lia|lia|done|]. intros j Hj.
    destruct (Z.eq_dec j a) as [->|]; [done|]. apply H3. lia.
Qed.

Lemma find_zseq_none (f : Z -> bool) a n : find f (zseq a n) = None ->
  forall j, a <= j < a + Z.of_nat n -> f j = false.
Proof.
  intros H j Hj. apply (find_none f _ H). by apply list_elem_of_In, elem_of_zseq.
Qed.

(** asid_alloc hands out the least ASID not in use and marks that one alone; it
    reports [-E_NO_FREE_ENV] exactly when all 64 are in use; asid_free makes precisely that
    ASID available again. *)
Theorem asid_alloc_correct s :
  (exists i s', asid_alloc s = Val (Ok i) s' /\ 0 <= i < NASID /\ asid_used s i = false /\
     (forall j, 0 <= j < i -> asid_used s j = true) /\
     (forall j, 0 <= j -> asid_used s' j = asid_used s j || (i =? j)) /\
     exists s'', asid_free i s' = Val tt s'' /\ forall j, 0 <= j -> asid_used s'' j = asid_used s j) \/
  (asid_alloc s = Val (Err (- E_NO_FREE_ENV)) s /\ forall j, 0 <= j < NASID -> asid_used s j = true).
Proof.
  rewrite asid_alloc_eq. destruct (find _ _) as [i|] eqn:E.
  - left. apply find_zseq_least in E as (Hi & Hf & Hl).
    rewrite asid_is_free_used in Hf by lia. apply negb_true_iff in Hf.
    exists i, (asid_mark i s). split_and!; try done; try lia.
    + intros j Hj. specialize (Hl j Hj). rewrite asid_is_free_used in Hl by lia. by apply negb_false_iff.
    + intros j Hj. apply asid_mark_used; lia.
    + rewrite asid_free_eq by lia. eexists. split; [done|]. intros j Hj.
      rewrite asid_clear_used, asid_mark_used by lia.
      destruct (Z.eqb_spec i j) as [<-|]; [by rewrite Hf|]. by rewrite orb_false_r, andb_true_r.
  - right. split; [done|]. intros j Hj. pose proof (find_zseq_none _ _ _ E j Hj) as H.
    rewrite asid_is_free_used in H by lia. by apply negb_false_iff.
Qed.

(** ** Identifiers *)
Lemma lor_shift a e k : 0 <= k -> 0 <= e < 2 ^ k -> Z.lor (a * 2 ^ k) e = a * 2 ^ k + e.
Proof.
  intros Hk He. symmetry. apply Z.add_nocarry_lor, Z.bits_inj'. intros n Hn.
  rewrite Z.land_spec, Z.bits_0. destruct (Z_lt_dec n k).
  - by rewrite Z.mul_pow2_bits_low by lia.
  - rewrite <- (Z.mod_small e (2 ^ k)) by done. rewrite Z.mod_pow2_bits_high by lia. apply andb_false_r.
Qed.

Lemma mkenvid_eq s e : 0 <= e < NENV -> 0 <= mkenvid_i s < 2097151 ->
  mkenvid e s = Val ((mkenvid_i s + 1) * 2048 + e) (set_mkenvid_i (mkenvid_i s + 1) s).
Proof.
  unfold NENV. intros He Hi. unfold mkenvid. msteps. cbn [mkenvid_i set_mkenvid_i].
  rewrite (u32_small (mkenvid_i s + 1)) by (unfold is_u32; lia). change (1 + LOG2NENV) with 11.
  rewrite Z.shiftl_mul_pow2 by lia. change (2 ^ 11) with 2048.
  rewrite u32_small by (unfold is_u32; lia).
  unfold mret, M_ret. f_equal. apply (lor_shift _ e 11); lia.
Qed.

Lemma ENVX_mod id : 0 <= id -> ENVX id = id mod 1024.
Proof. intros H. unfold ENVX, NENV. change (1024 - 1) with (Z.ones 10). by rewrite land_ones_mod. Qed.

(** an identifier made by mkenvid is not zero, ENVX gives back the index of the
    environment it was made for, and it determines the value of the counter: until the
    counter has gone round (2097151 identifiers), no two environments, and no two lives of
    the same slot, share an identifier. *)
Theorem mkenvid_unique s1 e1 s2 e2 :
  0 <= e1 < NENV -> 0 <= e2 < NENV -> 0 <= mkenvid_i s1 < 2097151 -> 0 <= mkenvid_i s2 < 2097151 ->
  exists id1 id2 s1' s2', mkenvid e1 s1 = Val id1 s1' /\ mkenvid e2 s2 = Val id2 s2' /\
    mkenvid_i s1' = mkenvid_i s1 + 1 /\ is_u32 id1 /\ id1 <> 0 /\ ENVX id1 = e1 /\
    (id1 = id2 <-> e1 = e2 /\ mkenvid_i s1 = mkenvid_i s2).
Proof.
  intros H1 H2 H3 H4. rewrite !mkenvid_eq by done. do 4 eexists. unfold NENV in *.
  do 3 (split; [done|]). split; [unfold is_u32; lia|]. split; [lia|]. split.
  - rewrite ENVX_mod by lia. dlia.
  - split; [|by intros [-> ->]]. intros E. lia.
Qed.

Lemma mkenvid_unique_witness : exists id1 id2 s1' s2',
  mkenvid 3 kernel_bss = Val id1 s1' /\ mkenvid 4 (set_mkenvid_i 7 kernel_bss) = Val id2 s2' /\
  ENVX id1 = 3 /\ id1 <> id2.
Proof.
  destruct (mkenvid_unique kernel_bss 3 (set_mkenvid_i 7 kernel_bss) 4)
    as (i1 & i2 & s1 & s2 & E1 & E2 & _ & _ & _ & H & Hu); [split; [lia|done]|split; [lia|done]|cbn; lia|cbn; lia|].
  exists i1, i2, s1, s2. split_and!; [done|done|done|]. intros E. apply Hu in E as [E _]. done.
Defined.

(** envid2env on every branch. It never changes the state; 0 names the current
    environment; any other identifier is accepted exactly when its slot is in use, holds
    that very identifier, and, when [checkperm] is set, is the current environment or a
    child of it; otherwise the result is [-E_BAD_ENV]. *)
Theorem envid2env_correct s c envid (checkperm : bool) :
  curenv s = Some c ->
  let e := ENVX envid in
  let live := env_status (env s e) <> ENV_FREE /\ env_id (env s e) = envid in
  let allowed := checkperm = true -> e = c \/ env_parent_id (env s e) = env_id (env s c) in
  (envid = 0 /\ envid2env envid checkperm s = Val (Ok (Some c)) s) \/
  (envid <> 0 /\ live /\ allowed /\ envid2env envid checkperm s = Val (Ok (Some e)) s) \/
  (envid <> 0 /\ ~ (live /\ allowed) /\ envid2env envid checkperm s = Val (Err (- E_BAD_ENV)) s).
Proof.
  intros Hc e live allowed. unfold envid2env. destruct (Z.eqb_spec envid 0) as [->|Hne].
  { left. split; [done|]. mstep. by rewrite Hc. }
  right. unfold get_env. msteps. fold e.
  destruct (Z.eqb_spec (env_status (env s e)) ENV_FREE) as [E1|E1]; cbn [orb].
  { right. split_and!; [done| |done]. unfold live. tauto. }
  destruct (Z.eqb_spec (env_id (env s e)) envid) as [E2|E2]; cbn [negb orb].
  2:{ right. split_and!; [done| |done]. unfold live. tauto. }
  assert (Hl : live) by by split.
  destruct checkperm; [|left; by split_and!]. mstep. rewrite Hc.
  destruct (bool_decide_reflect (Some c = Some e)) as [[= ->]|Hce].
  { left. split_and!; try done. intros _. by left. }
  msteps. unfold curenv_deref. msteps. rewrite Hc. cbn. msteps.
  destruct (Z.eqb_spec (env_parent_id (env s e)) (env_id (env s c))) as [E3|E3]; cbn [negb].
  - left. split_and!; try done. intros _. by right.
  - right. split_and!; [done| |done]. intros [_ Ha]. destruct (Ha eq_refl) as [<-|]; done.
Qed.

(** Environment 2 (identifier 4098) running, environment 3 its child. *)
Definition family : kstate :=
  set_curenv (Some 2) (set_envs (
    <[2 := with_env_status ENV_RUNNABLE (with_env_id 4098 env0)]>
    (<[3 := with_env_parent_id 4098 (with_env_status ENV_RUNNABLE (with_env_id 6147 env0))]> ∅)) kernel_bss).

Lemma envid2env_correct_witness :
  envid2env 6147 true family = Val (Ok (Some 3)) family /\
  envid2env 6148 true family = Val (Err (- E_BAD_ENV)) family.
Proof.
  split.
  - destruct (envid2env_correct family 2 6147 true eq_refl) as [[H _]|[(_ & _ & _ & H)|(_ & H & _)]];
      [discriminate H|exact H|].
    exfalso. apply H. vm_compute. split; [split; [intros E; discriminate E|done]|]. intros _. by right.
  - destruct (envid2env_correct family 2 6148 true eq_refl) as [[H _]|[(_ & [_ H] & _)|(_ & _ & H)]];
      [discriminate H| |exact H]. vm_compute in H. discriminate H.
Defined.
