(* ===== verification/SchedThms.v ===== *)
(** * Theorems on the scheduler (kern/sched.c)

    [env_run] and [schedule] as functions on states, round robin among the runnable
    environments, and the length of a time slice. *)

From Stdlib Require Import ZArith Lia.
From stdpp Require Import base numbers list gmap strings.
From S2P Require Import Prelude Queue Mmu Pmap KState Elf Signo Env Sched.

(** ** The switch *)
Definition save_context (s : kstate) : kstate :=
  match curenv s with
  | Some c => set_envs (<[c := with_env_tf (ktf s) (env s c)]> (envs s)) s
  | None => s
  end.

(** The state in which [env_run e] leaves the kernel. *)
Definition switch (e : Z) (s : kstate) : kstate :=
  let s := set_curenv (Some e) (save_context s) in
  let s := set_envs (<[e := with_env_runs (u32 (env_runs (env s e) + 1)) (env s e)]> (envs s)) s in
  let s := set_pm (set_cur_pgdir (env_pgdir (env s e)) (pm s)) s in
  set_hw_asid (env_asid (env s e)) s.

Lemma env_run_eq e s : env_status (env s e) = ENV_RUNNABLE -> env_run e s = Run e (switch e s).
Proof.
  intros H. unfold env_run, get_env. mstep. rewrite H. msteps.
  unfold switch, save_context, upd_env. destruct (curenv s) as [c|]; msteps; reflexivity.
Qed.

Lemma env_run_stopped e s : env_status (env s e) <> ENV_RUNNABLE ->
  env_run e s = Panic "e->env_status == ENV_RUNNABLE" s.
Proof.
  intros H. unfold env_run, get_env. mstep. destruct (Z.eqb_spec (env_status (env s e)) ENV_RUNNABLE); [done|].
  done.
Qed.

(** The fields of an environment a switch never changes. *)
Definition same_env (v w : Env) : Prop :=
  env_status v = env_status w /\ env_pri v = env_pri w /\ env_id v = env_id w /\
  env_pgdir v = env_pgdir w /\ env_asid v = env_asid w.

Lemma switch_env e s i :
  same_env (env (switch e s) i) (env s i) /\
  env_tf (env (switch e s) i) =
    (if decide (curenv s = Some i) then ktf s else env_tf (env s i)) /\
  env_runs (env (switch e s) i) =
    (if decide (e = i) then u32 (env_runs (env s i) + 1) else env_runs (env s i)).
Proof.
  set (s1 := save_context s).
  assert (H1 : forall j, env s1 j =
    if decide (curenv s = Some j) then with_env_tf (ktf s) (env s j) else env s j).
  { intros j. unfold s1, save_context. destruct (curenv s) as [c|] eqn:Ec.
    - unfold env at 1; cbn. rewrite lookup_insert.
      destruct (decide (c = j)) as [->|]; [by rewrite decide_True|]. rewrite decide_False; [done|congruence].
    - by rewrite decide_False. }
  assert (H2 : env (switch e s) i =
    if decide (e = i) then with_env_runs (u32 (env_runs (env s1 i) + 1)) (env s1 i) else env s1 i).
  { unfold switch. fold s1. unfold env at 1; cbn. rewrite lookup_insert. by destruct (decide (e = i)) as [->|]. }
  rewrite H2, H1. unfold same_env. by destruct (decide (e = i)), (decide (curenv s = Some i)).
Qed.

Lemma switch_rest e s :
  curenv (switch e s) = Some e /\ env_sched_list (switch e s) = env_sched_list s /\
  sched_count (switch e s) = sched_count s /\ ktf (switch e s) = ktf s /\
  hw_asid (switch e s) = env_asid (env s e) /\ cur_pgdir (pm (switch e s)) = env_pgdir (env s e) /\
  phys (pm (switch e s)) = phys (pm s).
Proof.
  destruct (switch_env e s e) as ((H1 & H2 & H3 & H4 & H5) & _).
  assert (Hh : hw_asid (switch e s) = env_asid (env (switch e s) e)) by done.
  assert (Hp : cur_pgdir (pm (switch e s)) = env_pgdir (env (switch e s) e)) by done.
  rewrite Hh, Hp, H4, H5. unfold switch, save_context. by destruct (curenv s).
Qed.

(** ** The choice *)
Definition is_runnable (s : kstate) (e : Z) : bool := env_status (env s e) =? ENV_RUNNABLE.

(** The run queue after [curenv] has been moved to its tail or dropped. *)
Definition requeue (s : kstate) (c : option Z) (sl : list Z) : list Z :=
  match c with
  | Some e => without e sl ++ (if is_runnable s e then [e] else [])
  | None => sl
  end.

Definition dec_count (n : Z) : Z := if 0 <? n then n - 1 else n.

Lemma sched_remove_ok s sl e : TAILQ.is_tailq (env_sched_list s) sl -> e ∈ sl ->
  exists q, sched_remove e s = Val tt (set_env_sched_list q s) /\ TAILQ.is_tailq q (without e sl).
Proof.
  intros H He. destruct (TAILQ.remove_elem_refines _ _ _ H He) as (q & E & Hq).
  exists q. split; [|done]. unfold sched_remove. mstep. rewrite E. done.
Qed.

Lemma sched_pick_eq s sl : TAILQ.is_tailq (env_sched_list s) sl ->
  (forall c, curenv s = Some c -> c ∈ sl) ->
  exists q, TAILQ.is_tailq q (requeue s (curenv s) sl) /\
    sched_pick s = match requeue s (curenv s) sl with
      | [] => Panic "no runnale env" (set_env_sched_list q s)
      | e :: _ => Val e (set_sched_count (s32 (env_pri (env s e))) (set_env_sched_list q s))
      end.
Proof.
  intros H Hc. unfold sched_pick. mstep.
  assert (Pick : forall q l, TAILQ.is_tailq q l ->
    (q0 ← gets env_sched_list;
     if TAILQ.TAILQ_EMPTY q0 then panic "no runnale env" else
     e ← lift_opt "null env" (TAILQ.TAILQ_FIRST q0);
     pri ← get_env e env_pri;
     modify (set_sched_count (s32 pri)) ;; mret e) (set_env_sched_list q s) =
    match l with
    | [] => Panic "no runnale env" (set_env_sched_list q s)
    | e :: _ => Val e (set_sched_count (s32 (env_pri (env s e))) (set_env_sched_list q s))
    end).
  { intros q l Hq. mstep. cbn [env_sched_list set_env_sched_list].
    pose proof (TAILQ.is_tailq_empty _ _ Hq) as He. rewrite (TAILQ.is_tailq_first _ _ Hq).
    destruct l as [|e l]; [by rewrite (proj2 He eq_refl)|].
    destruct (TAILQ.TAILQ_EMPTY q); [by destruct He as [He _]; specialize (He eq_refl)|]. done. }
  destruct (curenv s) as [c|] eqn:Ec; cbn [requeue].
  - destruct (sched_remove_ok s sl c H (Hc c eq_refl)) as (q & E & Hq).
    rewrite bind_bind, (bind_val _ _ _ _ _ E). unfold runnable, get_env. msteps.
    change (env_status (env (set_env_sched_list q s) c) =? ENV_RUNNABLE) with (is_runnable s c).
    destruct (is_runnable s c); cbn [when].
    + exists (TAILQ.TAILQ_INSERT_TAIL c q). assert (Hq2 : TAILQ.is_tailq (TAILQ.TAILQ_INSERT_TAIL c q) (without c sl ++ [c])).
      { apply TAILQ.insert_tail_refines; [done|]. rewrite elem_of_without. tauto. }
      split; [done|]. rewrite <- (Pick _ _ Hq2). reflexivity.
    + exists q. rewrite app_nil_r. split; [done|]. rewrite <- (Pick _ _ Hq). reflexivity.
  - exists (env_sched_list s). split; [done|]. rewrite <- (Pick _ _ H). mstep. by destruct s.
Qed.

(** What [schedule] decides: keep the current environment, or take the head of the queue. *)
Definition keeps (yield : bool) (s : kstate) : bool :=
  match curenv s with
  | Some c => negb yield && negb (sched_count s =? 0) && is_runnable s c
  | None => false
  end.

Lemma schedule_keep yield s c : curenv s = Some c -> keeps yield s = true ->
  schedule yield s = Run c (switch c (set_sched_count (dec_count (sched_count s)) s)).
Proof.
  intros Hc Hk. unfold keeps in Hk. rewrite Hc in Hk.
  apply andb_true_iff in Hk as [Hk Hr]. apply andb_true_iff in Hk as [Hy Hn].
  unfold schedule. msteps. rewrite Hc. unfold runnable, get_env. msteps.
  change (env_status (env s c) =? ENV_RUNNABLE) with (is_runnable s c). rewrite Hr.
  destruct yield; [done|]. apply negb_true_iff in Hn. rewrite Hn. cbn [orb negb]. msteps.
  apply Z.eqb_eq in Hr. unfold dec_count.
  replace (if 0 <? sched_count s then set_sched_count (sched_count s - 1) s else s)
    with (set_sched_count (if 0 <? sched_count s then sched_count s - 1 else sched_count s) s)
    by (destruct s, (0 <? _); done).
  by apply env_run_eq.
Qed.

Lemma schedule_switch yield s sl : TAILQ.is_tailq (env_sched_list s) sl ->
  (forall c, curenv s = Some c -> c ∈ sl) -> keeps yield s = false ->
  exists q, TAILQ.is_tailq q (requeue s (curenv s) sl) /\
    schedule yield s = match requeue s (curenv s) sl with
      | [] => Panic "no runnale env" (set_env_sched_list q s)
      | e :: _ =>
          let s' := set_sched_count (dec_count (s32 (env_pri (env s e)))) (set_env_sched_list q s) in
          if is_runnable s e then Run e (switch e s')
          else Panic "e->env_status == ENV_RUNNABLE" s'
      end.
Proof.
  intros H Hc Hk. destruct (sched_pick_eq s sl H Hc) as (q & Hq & E). exists q. split; [done|].
  assert (Hs : forall e, requeue s (curenv s) sl = e :: tail (requeue s (curenv s) sl) ->
    (modify (fun s => if 0 <? sched_count s then set_sched_count (sched_count s - 1) s else s) ;; env_run e)
      (set_sched_count (s32 (env_pri (env s e))) (set_env_sched_list q s)) =
    let s' := set_sched_count (dec_count (s32 (env_pri (env s e)))) (set_env_sched_list q s) in
    if is_runnable s e then Run e (switch e s')
    else Panic "e->env_status == ENV_RUNNABLE" s').
  { intros e _. mstep. unfold dec_count. cbn [sched_count set_sched_count]. cbn zeta.
    set (s1 := set_sched_count (if 0 <? _ then _ else _) _).
    replace (if 0 <? s32 (env_pri (env s e)) then _ else _) with s1 by (unfold s1; by destruct (0 <? _)).
    unfold is_runnable. destruct (Z.eqb_spec (env_status (env s e)) ENV_RUNNABLE) as [Er|Er].
    - by apply env_run_eq.
    - by apply env_run_stopped. }
  assert (EP : schedule yield s = (e ← sched_pick;
    modify (fun s => if 0 <? sched_count s then set_sched_count (sched_count s - 1) s else s) ;; env_run e) s).
  { unfold schedule. msteps. unfold keeps in Hk. destruct (curenv s) as [c|] eqn:Ec; [|done].
    unfold runnable, get_env. msteps.
    change (env_status (env s c) =? ENV_RUNNABLE) with (is_runnable s c).
    by destruct yield, (sched_count s =? 0), (is_runnable s c). }
  rewrite EP. destruct (requeue s (curenv s) sl) as [|e l] eqn:ER.
  - by rewrite (bind_panic _ _ _ _ _ E).
  - rewrite (bind_val _ _ _ _ _ E). by apply Hs.
Qed.

(** What holds of the run queue when the kernel is entered: its members are the runnable
    environments, except that the current one may just have been stopped. *)
Record sched_inv (s : kstate) (sl : list Z) : Prop := {
  si_queue : TAILQ.is_tailq (env_sched_list s) sl;
  si_cur : forall c, curenv s = Some c -> c ∈ sl;
  si_run : forall e, e ∈ sl -> curenv s <> Some e -> is_runnable s e = true }.

(** The state in which [e] resumes: its context and address space are installed, the
    context of the environment that was interrupted is saved, and no status changed. *)
Record resumed (e count : Z) (sl : list Z) (s s' : kstate) : Prop := {
  re_queue : TAILQ.is_tailq (env_sched_list s') sl;
  re_cur : curenv s' = Some e;
  re_count : sched_count s' = count;
  re_space : cur_pgdir (pm s') = env_pgdir (env s e) /\ hw_asid s' = env_asid (env s e);
  re_saved : forall c, curenv s = Some c -> env_tf (env s' c) = ktf s;
  re_tf : forall i, curenv s <> Some i -> env_tf (env s' i) = env_tf (env s i);
  re_envs : forall i, same_env (env s' i) (env s i) }.

Lemma resumed_switch e s q n sl : TAILQ.is_tailq q sl ->
  resumed e n sl s (switch e (set_sched_count n (set_env_sched_list q s))).
Proof.
  intros Hq. set (s0 := set_sched_count n (set_env_sched_list q s)).
  assert (He : forall i, env s0 i = env s i) by done.
  destruct (switch_rest e s0) as (H1 & H2 & H3 & H4 & H5 & H6 & _).
  split; try (rewrite ?H1, ?H2, ?H3, ?H5, ?H6; done).
  - intros c Hc. destruct (switch_env e s0 c) as (_ & Ht & _). rewrite Ht. by rewrite decide_True.
  - intros i Hi. destruct (switch_env e s0 i) as (_ & Ht & _). rewrite Ht. by rewrite decide_False.
  - intros i. by destruct (switch_env e s0 i) as (Hs & _).
Qed.

Lemma resumed_keep e s n sl : TAILQ.is_tailq (env_sched_list s) sl ->
  resumed e n sl s (switch e (set_sched_count n s)).
Proof.
  intros Hq. replace (set_sched_count n s) with
    (set_sched_count n (set_env_sched_list (env_sched_list s) s)) by by destruct s.
  by apply resumed_switch.
Qed.

Lemma requeue_runnable s sl e : sched_inv s sl -> e ∈ requeue s (curenv s) sl -> is_runnable s e = true.
Proof.
  intros I. destruct (curenv s) as [c|] eqn:Ec; cbn [requeue].
  - rewrite elem_of_app, elem_of_without. intros [[Hne He]|He].
    + apply (si_run _ _ I); [done|]. congruence.
    + destruct (is_runnable s c) eqn:Er; [|by apply elem_of_nil in He].
      by apply list_elem_of_singleton in He as ->.
  - intros He. by apply (si_run _ _ I); [|congruence].
Qed.

Lemma schedule_ok yield s sl : sched_inv s sl ->
  if keeps yield s
  then exists c s', curenv s = Some c /\ schedule yield s = Run c s' /\
    resumed c (dec_count (sched_count s)) sl s s'
  else match requeue s (curenv s) sl with
    | [] => exists s', schedule yield s = Panic "no runnale env" s'
    | e :: _ => exists s', schedule yield s = Run e s' /\
        resumed e (dec_count (s32 (env_pri (env s e)))) (requeue s (curenv s) sl) s s'
    end.
Proof.
  intros I. destruct (keeps yield s) eqn:Hk.
  - destruct (curenv s) as [c|] eqn:Ec; [|unfold keeps in Hk; by rewrite Ec in Hk].
    exists c. eexists. split; [done|]. split; [by apply schedule_keep|]. apply resumed_keep, I.
  - destruct (schedule_switch yield s sl (si_queue _ _ I) (si_cur _ _ I) Hk) as (q & Hq & E).
    rewrite E. destruct (requeue s (curenv s) sl) as [|e l] eqn:ER; [by eexists|].
    rewrite (requeue_runnable s sl e I) by (rewrite ER; left). cbn zeta. eexists.
    split; [done|]. by apply resumed_switch.
Qed.

(** C25: schedule on every branch. The current environment is resumed, with one slice less,
    exactly when it is runnable, has slices left and does not yield. Otherwise the current
    environment goes to the tail of the queue if it is still runnable and leaves it if not,
    the head of the queue is resumed with its priority as its count of slices, and the
    kernel panics exactly when no environment is runnable; after a yield the current
    environment is resumed only if it is the only one. *)
Theorem schedule_correct yield s sl : sched_inv s sl ->
  (exists c s', curenv s = Some c /\ yield = false /\ sched_count s <> 0 /\ is_runnable s c = true /\
     schedule yield s = Run c s' /\ resumed c (dec_count (sched_count s)) sl s s') \/
  (keeps yield s = false /\ (forall e, e ∈ sl -> is_runnable s e = false) /\
     exists s', schedule yield s = Panic "no runnale env" s') \/
  (keeps yield s = false /\ exists e l s', requeue s (curenv s) sl = e :: l /\
     schedule yield s = Run e s' /\ is_runnable s e = true /\
     resumed e (dec_count (s32 (env_pri (env s e)))) (e :: l) s s' /\
     (yield = true -> curenv s = Some e -> sl = [e])).
Proof.
  intros I. pose proof (schedule_ok yield s sl I) as H. destruct (keeps yield s) eqn:Hk.
  - left. destruct H as (c & s' & Hc & E & R). exists c, s'. unfold keeps in Hk. rewrite Hc in Hk.
    apply andb_true_iff in Hk as [[Hy Hn]%andb_true_iff Hr].
    split_and!; try done; [by destruct yield|]. intros H0. by rewrite H0 in Hn.
  - right. destruct (requeue s (curenv s) sl) as [|e l] eqn:ER.
    + left. split_and!; [done| |done]. intros e He. destruct (curenv s) as [c|] eqn:Ec; cbn in ER.
      * apply app_eq_nil in ER as [E1 E2]. destruct (decide (e = c)) as [->|Hne].
        { by destruct (is_runnable s c). }
        assert (Hin : e ∈ without c sl) by by apply elem_of_without. rewrite E1 in Hin.
        by apply elem_of_nil in Hin.
      * subst sl. by apply elem_of_nil in He.
    + right. split; [done|]. destruct H as (s' & E & R). exists e, l, s'. split_and!; try done.
      * apply (requeue_runnable s sl); [done|]. rewrite ER. left.
      * intros _ Hc. rewrite Hc in ER. cbn in ER. pose proof (si_cur _ _ I e Hc) as Hin.
        destruct (without e sl) as [|x w] eqn:Ew.
        -- pose proof (TAILQ.is_tailq_NoDup _ _ (si_queue _ _ I)) as Hnd.
           apply list_elem_of_split in Hin as (l1 & l2 & ->). rewrite without_split in Ew by done.
           by apply app_eq_nil in Ew as [-> ->].
        -- cbn in ER. injection ER as -> _. assert (Hx : e ∈ without e sl) by (rewrite Ew; left).
           by apply elem_of_without in Hx as [? _].
Qed.

(** ** Round robin *)

(** The invariant after a switch, when every member of the queue is runnable. *)
Definition all_runnable (s : kstate) (sl : list Z) : Prop :=
  TAILQ.is_tailq (env_sched_list s) sl /\ (forall e, e ∈ sl -> is_runnable s e = true).

Lemma resumed_runnable e n sl s s' i : resumed e n sl s s' -> is_runnable s' i = is_runnable s i.
Proof. intros R. unfold is_runnable. by destruct (re_envs _ _ _ _ _ R i) as [-> _]. Qed.

Lemma all_runnable_inv s c l : all_runnable s (c :: l) -> curenv s = Some c -> sched_inv s (c :: l).
Proof. intros [Hq Hr] Hc. split; [done| |auto]. intros c' Hc'. rewrite Hc in Hc'. injection Hc' as <-. left. Qed.

Lemma requeue_head s c l : all_runnable s (c :: l) -> curenv s = Some c ->
  requeue s (curenv s) (c :: l) = l ++ [c].
Proof.
  intros [Hq Hr] Hc. rewrite Hc. cbn [requeue]. rewrite (Hr c) by left.
  pose proof (TAILQ.is_tailq_NoDup _ _ Hq) as Hnd.
  f_equal. apply (without_split c [] l Hnd).
Qed.

(** One switch: the queue rotates. *)
Lemma rotate_step yield s c l : all_runnable s (c :: l) -> curenv s = Some c -> keeps yield s = false ->
  exists e l' s', l ++ [c] = e :: l' /\ schedule yield s = Run e s' /\ curenv s' = Some e /\
    sched_count s' = dec_count (s32 (env_pri (env s e))) /\
    all_runnable s' (e :: l') /\ (forall i, env_pri (env s' i) = env_pri (env s i)).
Proof.
  intros A Hc Hk. pose proof (schedule_ok yield s _ (all_runnable_inv s c l A Hc)) as H.
  rewrite Hk, (requeue_head s c l A Hc) in H.
  destruct (l ++ [c]) as [|e l'] eqn:El; [by destruct l|].
  destruct H as (s' & E & R). exists e, l', s'. split_and!; try done; try apply R.
  - split; [apply R|]. intros i Hi. rewrite (resumed_runnable _ _ _ _ _ _ R).
    apply (proj2 A). assert (Hin : i ∈ l ++ [c]) by by rewrite El.
    apply elem_of_app in Hin as [Hin|Hin%list_elem_of_singleton]; [by right|subst; left].
Qed.

(** [n] calls of [schedule] in a row, the environments doing nothing else: the trace of the
    environments resumed. [None]: the kernel halted. *)
Fixpoint reschedule (yield : bool) (n : nat) (s : kstate) : option (list Z * kstate) :=
  match n with
  | O => Some ([], s)
  | S n' =>
      match schedule yield s with
      | Run e s1 => '(tr, s2) ← reschedule yield n' s1; Some (e :: tr, s2)
      | _ => None
      end
  end.

Lemma reschedule_add yield n m s : reschedule yield (n + m) s =
  ('(t1, s1) ← reschedule yield n s; '(t2, s2) ← reschedule yield m s1; Some (t1 ++ t2, s2)).
Proof.
  revert s. induction n as [|n IH]; intros s; cbn.
  - by destruct (reschedule yield m s) as [[]|].
  - destruct (schedule yield s) as [| |e s1|]; try done. rewrite IH.
    destruct (reschedule yield n s1) as [[t1 s2]|]; cbn; [|done].
    by destruct (reschedule yield m s2) as [[]|].
Qed.

(** Along a prefix [l1] of the queue behind [c]. *)
Lemma reschedule_prefix l1 c l2 s : all_runnable s (c :: l1 ++ l2) -> curenv s = Some c ->
  exists s', reschedule true (length l1) s = Some (l1, s') /\
    curenv s' = Some (default c (last l1)) /\
    all_runnable s' (match last l1 with None => c :: l2 | Some e => e :: l2 ++ c :: removelast l1 end).
Proof.
  revert c l2 s. induction l1 as [|x l1 IH]; intros c l2 s A Hc; [by exists s|].
  assert (Hk : keeps true s = false) by (unfold keeps; by rewrite Hc).
  destruct (rotate_step true s c _ A Hc Hk) as (e & l' & s1 & El & E & Hc1 & _ & A1 & _).
  cbn in El. injection El as <- <-. rewrite <- app_assoc in A1.
  destruct (IH x (l2 ++ [c]) s1 A1 Hc1) as (s2 & E2 & Hc2 & A2).
  exists s2. cbn [length reschedule]. rewrite E. cbn. rewrite E2. rewrite !last_cons. split; [done|].
  destruct l1 as [|y l1]; [done|]. destruct (last (y :: l1)) as [z|] eqn:Ez; [|by rewrite last_None in Ez].
  split; [done|]. rewrite <- app_assoc in A2. exact A2.
Qed.

Lemma removelast_last (l : list Z) e : last l = Some e -> removelast l ++ [e] = l.
Proof.
  intros H. apply last_Some in H as [l' ->]. by rewrite removelast_app, app_nil_r by done.
Qed.

(** C26: round robin. When the environments of the queue are all runnable and do nothing
    but yield, then in as many calls of schedule as there are environments each of them is
    resumed exactly once, in the order of the queue, the yielding one last, and the queue
    and the current environment are back where they were: no environment starves. *)
Theorem round_robin c l s : all_runnable s (c :: l) -> curenv s = Some c ->
  exists s', reschedule true (length (c :: l)) s = Some (l ++ [c], s') /\
    curenv s' = Some c /\ all_runnable s' (c :: l).
Proof.
  intros A Hc. rewrite <- (app_nil_r l) in A.
  destruct (reschedule_prefix l c [] s A Hc) as (s1 & E1 & Hc1 & A1).
  replace (length (c :: l)) with (length l + 1)%nat by (cbn; lia).
  rewrite reschedule_add, E1. cbn.
  assert (Hk : keeps true s1 = false) by (unfold keeps; by rewrite Hc1).
  destruct (last l) as [e|] eqn:El; cbn in Hc1, A1.
  - destruct (rotate_step true s1 _ _ A1 Hc1 Hk) as (x & l' & s2 & Ex & E & Hc2 & _ & A2 & _).
    cbn in Ex. injection Ex as <- <-. rewrite E. cbn. rewrite removelast_last in A2 by done. by exists s2.
  - apply last_None in El as ->. destruct (rotate_step true s1 _ _ A1 Hc1 Hk) as (x & l' & s2 & Ex & E & Hc2 & _ & A2 & _).
    cbn in Ex. injection Ex as <- <-. rewrite E. by exists s2.
Qed.

(** ** Time slices *)
Lemma tick_keeps s c l : all_runnable s (c :: l) -> curenv s = Some c -> 0 < sched_count s ->
  exists s', schedule false s = Run c s' /\ curenv s' = Some c /\ sched_count s' = sched_count s - 1 /\
    all_runnable s' (c :: l) /\ (forall i, env_pri (env s' i) = env_pri (env s i)).
Proof.
  intros A Hc Hn. pose proof (schedule_ok false s _ (all_runnable_inv s c l A Hc)) as H.
  assert (Hk : keeps false s = true).
  { unfold keeps. rewrite Hc, (proj2 A c) by left. by destruct (Z.eqb_spec (sched_count s) 0); [lia|]. }
  rewrite Hk in H. destruct H as (c' & s' & Hc' & E & R). rewrite Hc in Hc'. injection Hc' as <-.
  exists s'. split_and!; try done; try apply R.
  - rewrite (re_count _ _ _ _ _ R). unfold dec_count. destruct (Z.ltb_spec 0 (sched_count s)); lia.
  - split; [apply R|]. intros i Hi. rewrite (resumed_runnable _ _ _ _ _ _ R). by apply (proj2 A).
Qed.

Lemma ticks_keep n s c l : all_runnable s (c :: l) -> curenv s = Some c ->
  sched_count s = Z.of_nat n ->
  exists s', reschedule false n s = Some (replicate n c, s') /\ curenv s' = Some c /\
    sched_count s' = 0 /\ all_runnable s' (c :: l) /\ (forall i, env_pri (env s' i) = env_pri (env s i)).
Proof.
  revert s. induction n as [|n IH]; intros s A Hc Hn; [by exists s|].
  destruct (tick_keeps s c l A Hc ltac:(lia)) as (s1 & E & Hc1 & Hn1 & A1 & P1).
  destruct (IH s1 A1 Hc1 ltac:(lia)) as (s2 & E2 & Hc2 & Hn2 & A2 & P2).
  exists s2. cbn [reschedule]. rewrite E. cbn. rewrite E2. split_and!; try done.
  intros i. by rewrite P2.
Qed.

(** C27: time slices. When the slices of the current environment are used up, the timer
    resumes the next environment of the queue for exactly as many consecutive ticks as its
    priority (one tick for priority 0), after which its slices are used up in turn. *)
Theorem time_slice c d l s : all_runnable s (c :: d :: l) -> curenv s = Some c -> sched_count s = 0 ->
  0 <= env_pri (env s d) < 2147483648 ->
  let p := Z.to_nat (Z.max 1 (env_pri (env s d))) in
  exists s', reschedule false p s = Some (replicate p d, s') /\
    curenv s' = Some d /\ sched_count s' = 0 /\ all_runnable s' (d :: l ++ [c]).
Proof.
  intros A Hc H0 Hp p.
  assert (Hk : keeps false s = false) by (unfold keeps; by rewrite Hc, H0).
  destruct (rotate_step false s c _ A Hc Hk) as (e & l' & s1 & El & E & Hc1 & Hn1 & A1 & P1).
  cbn in El. injection El as <- <-.
  assert (Hs : s32 (env_pri (env s d)) = env_pri (env s d)).
  { unfold s32. rewrite u32_small by (unfold is_u32; lia). by destruct (Z.ltb_spec (env_pri (env s d)) 2147483648); [|lia]. }
  rewrite Hs in Hn1.
  destruct (ticks_keep (Z.to_nat (dec_count (env_pri (env s d)))) s1 d (l ++ [c]) A1 Hc1) as (s2 & E2 & Hc2 & Hn2 & A2 & _).
  { rewrite Hn1. unfold dec_count. destruct (Z.ltb_spec 0 (env_pri (env s d))); lia. }
  exists s2. assert (Ep : p = S (Z.to_nat (dec_count (env_pri (env s d))))).
  { unfold p, dec_count. destruct (Z.ltb_spec 0 (env_pri (env s d))); lia. }
  rewrite Ep. cbn [reschedule]. rewrite E. cbn. rewrite E2. by split_and!.
Qed.

(** Three runnable environments with priorities 1, 2 and 3 for the witnesses. *)
Definition trio : kstate :=
  let e p := with_env_pri p (with_env_status ENV_RUNNABLE env0) in
  set_curenv (Some 0) (set_envs (<[0 := e 1]> (<[1 := e 2]> (<[2 := e 3]> ∅)))
    (set_env_sched_list (TAILQ.TAILQ_INSERT_TAIL 2 (TAILQ.TAILQ_INSERT_TAIL 1
      (TAILQ.TAILQ_INSERT_TAIL 0 (TAILQ.TAILQ_INIT (env_sched_list kernel_bss))))) kernel_bss)).

Lemma trio_ok : all_runnable trio [0; 1; 2].
Proof.
  split.
  - apply (TAILQ.insert_tail_refines _ [0; 1]); [|by apply (bool_decide_unpack (2 ∉ [0; 1]))].
    apply (TAILQ.insert_tail_refines _ [0]); [|by apply (bool_decide_unpack (1 ∉ [0]))].
    apply (TAILQ.insert_tail_refines _ []); [apply TAILQ.is_tailq_init|]. apply not_elem_of_nil.
  - intros e He. repeat (apply elem_of_cons in He as [->|He]; [by vm_compute|]). by apply elem_of_nil in He.
Qed.

Lemma schedule_correct_witness : exists s', schedule true trio = Run 1 s' /\ curenv s' = Some 1.
Proof.
  destruct (schedule_correct true trio [0; 1; 2] (all_runnable_inv trio 0 [1; 2] trio_ok eq_refl))
    as [(c & s' & _ & H & _)|[(_ & H & _)|(_ & e & l & s' & ER & E & _ & R & _)]].
  - discriminate H.
  - specialize (H 0 ltac:(left)). vm_compute in H. discriminate H.
  - vm_compute in ER. injection ER as <- <-. exists s'. split; [exact E|apply R].
Defined.

Lemma round_robin_witness : exists s', reschedule true 3 trio = Some ([1; 2; 0], s').
Proof. destruct (round_robin 0 [1; 2] trio trio_ok eq_refl) as (s' & E & _). by exists s'. Defined.

Lemma time_slice_witness : exists s', reschedule false 2 trio = Some ([1; 1], s').
Proof.
  destruct (time_slice 0 1 [2] trio trio_ok eq_refl eq_refl) as (s' & E & _); [by vm_compute|].
  exists s'. exact E.
Defined.
