(* ===== verification/PmapFree.v ===== *)
(** * Freeing an address space (the page-table part of env_free, kern/env.c)

    [free_pde] empties and drops one page table, [env_free_vm] all of them and the
    directory. The result is the invariant without that directory: every page it referred
    to has lost exactly those references, and is on the free list if none is left. *)

From Stdlib Require Import ZArith Lia.
From stdpp Require Import base numbers list gmap strings.
From S2P Require Import Prelude Queue Mmu Pmap PmapInv PmapOps PmapInsert PmapThms KState Elf Signo Env.
Import LIST.

(** ** The order of the directories does not matter *)
Lemma zsum_perm {X} (f : X -> Z) l k : Permutation l k -> zsum f l = zsum f k.
Proof.
  induction 1 as [|x l k H IH|x y l|l k j H1 IH1 H2 IH2]; [done|..].
  - by rewrite !zsum_cons, IH.
  - rewrite !zsum_cons. lia.
  - congruence.
Qed.

Lemma list_prod_perm {A B} (l l' : list A) (k : list B) :
  Permutation l l' -> Permutation (list_prod l k) (list_prod l' k).
Proof.
  induction 1 as [|x l l' H IH|x y l|l l1 l2 H1 IH1 H2 IH2]; cbn; [done|..].
  - by rewrite IH.
  - rewrite !app_assoc. apply Permutation_app_tail, Permutation_app_comm.
  - by etransitivity.
Qed.

#[global] Instance refs_perm : Proper (Permutation ==> eq ==> eq ==> eq) refs.
Proof.
  intros D D' HD m _ <- p _ <-. unfold refs, lslots, dslots.
  rewrite (zsum_perm _ _ _ (list_prod_perm _ _ (zseq 0 1024) (list_prod_perm _ _ (zseq 0 509) HD))).
  rewrite (zsum_perm _ _ _ (list_prod_perm _ _ (zseq 0 509) HD)).
  f_equal. f_equal. apply bool_decide_ext. by rewrite HD.
Qed.

#[global] Instance pmap_inv_perm : Proper (Permutation ==> eq ==> eq ==> eq ==> iff) pmap_inv.
Proof.
  assert (Half : forall D D' ext fl s, Permutation D D' -> pmap_inv D ext fl s -> pmap_inv D' ext fl s).
  { intros D D' ext fl s HD I. assert (Hin : forall d, d ∈ D' -> d ∈ D) by (intros d; by rewrite HD).
    destruct (inv_mem _ _ _ _ I). split; try apply I.
    - split; try done; [by rewrite <- HD|..]; intros; rewrite <- ?HD; auto.
    - intros p Hp. rewrite <- (refs_perm _ _ HD _ _ eq_refl _ _ eq_refl). by apply (inv_ref _ _ _ _ I). }
  intros D D' HD ext _ <- fl _ <- s _ <-. split; apply Half; [done|by symmetry].
Qed.

(** ** Dropping an empty page table *)
Section DropTable.
Context (D : list Z) (n : Z) (m : mem) (W : mem_wf D n m).
Context (d i : Z) (Hd : d ∈ D) (Hi : 0 <= i < NU) (Hv : valid (word m d i) = true).
Let t := PPN (word m d i).
Context (Hempty : forall j, 0 <= j < 1024 -> valid (word m t j) = false).
Let m' := upd m d i 0.

Lemma drop_table_dir d' i' : d' ∈ D ->
  word m' d' i' = if decide (d = d' /\ i = i') then 0 else word m d' i'.
Proof. intros Hd'. unfold m'. by rewrite word_upd. Qed.

Lemma drop_table_leaf d' i' j : d' ∈ D -> 0 <= i' < NU -> valid (word m d' i') = true ->
  word m' (PPN (word m d' i')) j = word m (PPN (word m d' i')) j.
Proof.
  intros Hd' Hi' Hv'. unfold m'. rewrite word_upd, decide_False; [done|]. intros [E _].
  apply (wf_tab_dir _ _ _ W d' i'); try done. by rewrite <- E.
Qed.

Lemma drop_table_wf : mem_wf D n m'.
Proof.
  destruct W. split; try done.
  - intros p k. unfold m'. rewrite word_upd. case_decide; [unfold is_u32; lia|done].
  - intros d' i' Hd' Hi'. rewrite drop_table_dir by done. case_decide; [done|auto].
  - intros d1 i1 d2 i2 H1 H2 H3 H4. rewrite !drop_table_dir by done.
    repeat case_decide; try done. auto.
  - intros d' i' Hd' Hi'. rewrite drop_table_dir by done. case_decide; [done|auto].
  - intros d' i' j Hd' Hi' Hj. rewrite drop_table_dir by done. case_decide; [done|].
    intros Hv'. rewrite drop_table_leaf by done. auto.
Qed.

Lemma drop_table_lookup d' va : d' ∈ D -> user_va va -> lookup_pte m' d' va = lookup_pte m d' va.
Proof.
  intros Hd' Hva. pose proof (PDX_user va Hva). unfold lookup_pte. rewrite drop_table_dir by done.
  case_decide as Hc.
  - destruct Hc as [<- <-]. rewrite Hv. fold t. by rewrite Hempty by auto with mos.
  - destruct (valid (word m d' (PDX va))) eqn:Ev; [|done]. by rewrite drop_table_leaf.
Qed.

Lemma drop_table_refs p : refs D m' p = refs D m p - ind (t =? p).
Proof.
  unfold refs.
  assert (Hleaf : zsum (fun x => ind (leaf_maps m' p x)) (lslots D)
    = zsum (fun x => ind (leaf_maps m p x)) (lslots D)).
  { apply zsum_ext. intros [[d' i'] j'] Hx. apply elem_of_lslots in Hx as (Hd' & Hi' & Hj').
    unfold leaf_maps. rewrite drop_table_dir by done. case_decide as Hc.
    - destruct Hc as [<- <-]. rewrite Hv. fold t. by rewrite Hempty.
    - destruct (valid (word m d' i')) eqn:Ev; [|done]. by rewrite drop_table_leaf. }
  rewrite Hleaf, (zsum_upd (fun x => ind (dir_maps m' p x)) (fun x => ind (dir_maps m p x))
    (dslots D) (d, i)).
  - unfold dir_maps at 2 3. cbn [fst snd]. rewrite drop_table_dir, decide_True, Hv by done.
    fold t. rewrite valid_0. cbn [andb ind]. lia.
  - apply NoDup_lslots, W.
  - by apply elem_of_dslots.
  - intros [d' i'] Hx Hne. apply elem_of_dslots in Hx as [Hd' _]. unfold dir_maps. cbn [fst snd].
    rewrite drop_table_dir, decide_False; [done| |done]. intros [-> ->]. done.
Qed.
End DropTable.

(** ** Dropping one reference to a page *)

(** The pages that lost their last reference are on the free list. *)
Definition reclaims (s : pmap_st) (fl : list Z) (s' : pmap_st) (fl' : list Z) : Prop :=
  (forall p, p ∈ fl -> p ∈ fl') /\ (forall p, 0 < pp_ref s p -> pp_ref s' p = 0 -> p ∈ fl').

Lemma reclaims_refl s fl : reclaims s fl s fl.
Proof. split; [done|]. intros p H1 H2. lia. Qed.

Lemma reclaims_trans s1 l1 s2 l2 s3 l3 : (forall p, 0 <= pp_ref s2 p) ->
  reclaims s1 l1 s2 l2 -> reclaims s2 l2 s3 l3 -> reclaims s1 l1 s3 l3.
Proof.
  intros H0 [A1 B1] [A2 B2]. split; [auto|]. intros p Hp Hz.
  destruct (Z.eq_dec (pp_ref s2 p) 0); [by apply A2, B1|]. apply B2; [|done]. specialize (H0 p). lia.
Qed.

(** The free list after [page_decref p]. *)
Definition decref_fl (s : pmap_st) (p : Z) (fl : list Z) : list Z :=
  if pp_ref s p =? 1 then p :: fl else fl.

(** [page_decref] restores the invariant when the memory has just lost one reference. *)
Lemma decref_restores D D' ext fl s m' p :
  pmap_inv D ext fl s -> mem_wf D' (npage s) m' -> 0 <= p < npage s ->
  (forall q, refs D' m' q = refs D (phys s) q - ind (p =? q)) ->
  0 < pp_ref s p < 65536 ->
  pmap_inv D' ext (decref_fl s p fl) (set_phys m' (decref_state p s)) /\
  reclaims s fl (set_phys m' (decref_state p s)) (decref_fl s p fl).
Proof.
  intros I W' Hp Href Hpos.
  assert (HR : forall q, pp_ref (set_phys m' (decref_state p s)) q = pp_ref s q - ind (p =? q)).
  { intros q. rewrite <- decref_ref by done. done. }
  assert (Hnew : p ∉ fl) by (intros H; rewrite (inv_fl_ref _ _ _ _ I _ H) in Hpos; lia).
  split; [split|split].
  - cbn. by rewrite decref_npage.
  - unfold decref_fl, decref_state. cbn.
    destruct (_ =? 1); cbn; [apply insert_head_refines; [|done]|]; apply I.
  - cbn. rewrite decref_npage. intros q. unfold decref_fl.
    destruct (_ =? 1); [rewrite elem_of_cons; intros [->|H]; [done|]|intros H]; by apply (inv_fl_range _ _ _ _ I).
  - intros q. rewrite HR. unfold decref_fl. destruct (Z.eqb_spec (pp_ref s p) 1) as [E|].
    + rewrite elem_of_cons. intros [->|H]; [by rewrite E, Z.eqb_refl|].
      rewrite (inv_fl_ref _ _ _ _ I _ H). by destruct (Z.eqb_spec p q) as [<-|].
    + intros H. rewrite (inv_fl_ref _ _ _ _ I _ H). by destruct (Z.eqb_spec p q) as [<-|].
  - apply I.
  - intros q. rewrite HR. pose proof (inv_ref16 _ _ _ _ I q).
    destruct (Z.eqb_spec p q) as [<-|]; cbn [ind]; lia.
  - intros q. rewrite HR. cbn. rewrite decref_npage. intros Hq.
    rewrite Href, (inv_ref _ _ _ _ I) by done. lia.
  - intros q Hq. unfold decref_fl. destruct (_ =? 1); [by right|done].
  - intros q Hq. rewrite HR. unfold decref_fl. destruct (Z.eqb_spec p q) as [<-|]; cbn [ind]; [|lia].
    intros E. destruct (Z.eqb_spec (pp_ref s p) 1); [left|lia].
Qed.

(** ** The loops *)

(** The address of entry [j] of table [i], as the code computes it. *)
Definition va_of (i j : Z) : Z := Z.lor (Z.shiftl i PDSHIFT) (Z.shiftl j PGSHIFT).

Lemma va_of_facts i j : 0 <= i < NU -> 0 <= j < 1024 ->
  user_va (va_of i j) /\ PDX (va_of i j) = i /\ PTX (va_of i j) = j.
Proof.
  rewrite NU_eq. intros Hi Hj. unfold va_of, PDSHIFT, PGSHIFT. rewrite !Z.shiftl_mul_pow2 by lia.
  assert (E : Z.lor (i * 2 ^ 22) (j * 2 ^ 12) = i * 4194304 + j * 4096).
  { symmetry. change (i * 4194304) with (i * 2 ^ 22). change (j * 4096) with (j * 2 ^ 12).
    apply Z.add_nocarry_lor, Z.bits_inj'. intros n Hn. rewrite Z.land_spec, Z.bits_0.
    destruct (Z_lt_dec n 22); [by rewrite Z.mul_pow2_bits_low by lia|].
    replace (j * 2 ^ 12) with ((j * 2 ^ 12) mod 2 ^ 22) by (change (2 ^ 22) with 4194304; change (2 ^ 12) with 4096; dlia).
    rewrite Z.mod_pow2_bits_high by lia. apply andb_false_r. }
  rewrite E, PDX_div, PTX_div. unfold user_va, UTOP, UENVS, UPAGES, UVPT, ULIM, PDMAP.
  split; [lia|]. split; dlia.
Qed.

Lemma same_va va va' : user_va va -> user_va va' -> PDX va = PDX va' -> PTX va = PTX va' -> VPN va = VPN va'.
Proof. intros. apply indices_vpn; auto with mos. Qed.

Lemma table_none m d i j : 0 <= i < NU -> 0 <= j < 1024 -> valid (word m d i) = true ->
  lookup_pte m d (va_of i j) = None <-> valid (word m (PPN (word m d i)) j) = false.
Proof.
  intros Hi Hj Hv. destruct (va_of_facts i j Hi Hj) as (_ & H1 & H2). unfold lookup_pte.
  rewrite H1, H2, Hv. by destruct (valid (word m (PPN (word m d i)) j)).
Qed.

Section FreeLoops.
Context (D : list Z) (ext : Z -> Z) (live : list (Z * Z)) (L : live_ok D live).
Context (d asid : Z) (Hl : (d, asid) ∈ live).

Lemma Hd : d ∈ D.
Proof using D live L d asid Hl. by eapply L. Qed.

(** The state [s'] reached from [s] while [d] is being emptied. *)
Record freeing (s : pmap_st) (fl : list Z) (s' : pmap_st) (fl' : list Z) : Prop := {
  fr_inv : pmap_inv D ext fl' s';
  fr_rec : reclaims s fl s' fl';
  fr_rest : npage s' = npage s /\ cur_pgdir s' = cur_pgdir s;
  fr_coh : tlb_coherent live s';
  fr_tlb : forall hi e, tlb s' !! hi = Some e -> tlb s !! hi = Some e;
  fr_none : forall va, user_va va -> lookup_pte (phys s) d va = None -> lookup_pte (phys s') d va = None;
  fr_other : forall d' va, d' ∈ D -> d' <> d -> user_va va ->
    lookup_pte (phys s') d' va = lookup_pte (phys s) d' va;
  fr_dirs : forall d' i, d' ∈ D -> d' <> d -> word (phys s') d' i = word (phys s) d' i;
  fr_data : forall q, data_page D (phys s) q -> data_page D (phys s') q /\ forall i, word (phys s') q i = word (phys s) q i }.

Lemma freeing_refl s fl : pmap_inv D ext fl s -> tlb_coherent live s -> freeing s fl s fl.
Proof using . intros I C. split; try done. apply reclaims_refl. Qed.

Lemma freeing_trans s1 l1 s2 l2 s3 l3 : freeing s1 l1 s2 l2 -> freeing s2 l2 s3 l3 -> freeing s1 l1 s3 l3.
Proof using .
  intros A B. destruct (fr_rest _ _ _ _ A) as [E1 E2], (fr_rest _ _ _ _ B) as [E3 E4]. split.
  - apply B.
  - eapply reclaims_trans; [|apply A|apply B]. intros p. apply (inv_ref16 _ _ _ _ (fr_inv _ _ _ _ A)).
  - split; congruence.
  - apply B.
  - intros hi e H. by apply (fr_tlb _ _ _ _ A), (fr_tlb _ _ _ _ B).
  - intros va Hva H. apply (fr_none _ _ _ _ B); [done|]. by apply (fr_none _ _ _ _ A).
  - intros d' va Hd' Hne Hva. by rewrite (fr_other _ _ _ _ B), (fr_other _ _ _ _ A).
  - intros d' i Hd' Hne. by rewrite (fr_dirs _ _ _ _ B), (fr_dirs _ _ _ _ A).
  - intros q Hq. destruct (fr_data _ _ _ _ A q Hq) as [Hq1 Hw1], (fr_data _ _ _ _ B q Hq1) as [Hq2 Hw2].
    split; [done|]. intros i. by rewrite Hw2.
Qed.

(** One iteration of the inner loop. *)
Lemma free_pte_step s fl i j :
  pmap_inv D ext fl s -> tlb_coherent live s -> 0 <= i < NU -> 0 <= j < 1024 ->
  valid (word (phys s) d i) = true ->
  let t := PPN (word (phys s) d i) in
  exists s' fl', (pte ← load (slot t 0 + 4 * j);
      if hasbits pte PTE_V then page_remove (slot d 0) asid (va_of i j) else mret tt) s = Val tt s' /\
    freeing s fl s' fl' /\ lookup_pte (phys s') d (va_of i j) = None /\
    (forall d' i', d' ∈ D -> word (phys s') d' i' = word (phys s) d' i').
Proof using D ext live L d asid Hl.
  intros I C Hi Hj Hv t. destruct (va_of_facts i j Hi Hj) as (Hva & H1 & H2).
  rewrite slot_add, (bind_val _ _ _ _ _ (load_slot s t j Hj)).
  change (hasbits ?x PTE_V) with (valid x). pose proof Hd as Hd.
  destruct (valid (word (phys s) t j)) eqn:Ev.
  2:{ exists s, fl. split_and!; [done|by apply freeing_refl| |done]. by apply table_none. }
  pose proof (page_remove_ok D ext fl s d asid (va_of i j) I Hd Hva) as R.
  destruct (lookup_pte (phys s) d (va_of i j)) as [e|] eqn:El;
    [|apply table_none in El; [fold t in El; congruence|done..]].
  destruct R as (s' & ER & Eff & I' & Hr & Hdir).
  exists s', (if pp_ref s (PPN e) =? 1 then PPN e :: fl else fl).
  split; [exact ER|]. split; [|split; [apply Eff|exact Hdir]]. split; try done.
  - split.
    + intros p Hp. destruct (_ =? 1); [by right|done].
    + intros p Hp. rewrite Hr. destruct (Z.eqb_spec (PPN e) p) as [->|]; cbn [ind]; [|lia].
      intros Hz. destruct (Z.eqb_spec (pp_ref s p) 1); [left|lia].
  - split; apply Eff.
  - by apply (coherent_effect D live L s s' d asid (va_of i j) _ Hl Hva Eff).
  - intros hi e' He. rewrite (eff_tlb _ _ _ _ _ _ _ Eff) in He. by apply lookup_delete_Some in He as [_ ?].
  - intros va Hva' HN. destruct (decide (VPN va = VPN (va_of i j))) as [E|E].
    + rewrite (lookup_pte_vpn _ _ _ _ E). apply Eff.
    + rewrite (eff_frame _ _ _ _ _ _ _ Eff); [done|done|done|]. intros [_ ?]. done.
  - intros d' va Hd' Hne Hva'. apply (eff_frame _ _ _ _ _ _ _ Eff); [done|done|]. by intros [? _].
  - intros d' i' Hd' _. by apply Hdir.
  - intros q Hq. assert (Hq' : data_page D (phys s') q).
    { apply (data_page_mono D _ (phys s)); [|exact Hq]. intros d' i' Hd' _ _. symmetry. by apply Hdir. }
    split; [done|]. intros k. by apply (eff_data _ _ _ _ _ _ _ Eff).
Qed.

(** The inner loop empties the table. *)
Lemma free_ptes s fl i :
  pmap_inv D ext fl s -> tlb_coherent live s -> 0 <= i < NU -> valid (word (phys s) d i) = true ->
  let t := PPN (word (phys s) d i) in
  exists s' fl', for_each (zseq 0 (Z.to_nat 1024)) (fun pteno =>
      pte ← load (slot t 0 + 4 * pteno);
      if hasbits pte PTE_V then page_remove (slot d 0) asid (va_of i pteno) else mret tt) s = Val tt s' /\
    freeing s fl s' fl' /\
    (forall j, 0 <= j < 1024 -> valid (word (phys s') t j) = false) /\
    (forall d' i', d' ∈ D -> word (phys s') d' i' = word (phys s) d' i').
Proof using D ext live L d asid Hl.
  intros I C Hi Hv t.
  destruct (for_each_inv (fun l s' => exists k fl', l = zseq k (length l) /\ k + Z.of_nat (length l) = 1024 /\
      0 <= k /\ freeing s fl s' fl' /\
      (forall j, 0 <= j < k -> lookup_pte (phys s') d (va_of i j) = None) /\
      (forall d' i', d' ∈ D -> word (phys s') d' i' = word (phys s) d' i'))
    (fun pteno => pte ← load (slot t 0 + 4 * pteno);
      if hasbits pte PTE_V then page_remove (slot d 0) asid (va_of i pteno) else mret tt)
    (zseq 0 (Z.to_nat 1024)) s) as (s' & E & k & fl' & _ & Hk & _ & F & HN & Hdir).
  - exists 0, fl. rewrite zseq_length. split_and!; try done; [by apply freeing_refl|lia].
  - intros j l s1 (k & fl1 & El & Hk & Hk0 & F & HN & Hdir). cbn in El, Hk. injection El as -> El.
    pose proof Hd as Hd. assert (Hv1 : valid (word (phys s1) d i) = true) by by rewrite Hdir.
    destruct (free_pte_step s1 fl1 i k (fr_inv _ _ _ _ F) (fr_coh _ _ _ _ F) Hi ltac:(lia) Hv1)
      as (s2 & fl2 & E2 & F2 & HN2 & Hdir2).
    rewrite Hdir in E2 by done. exists s2. split; [exact E2|]. exists (k + 1), fl2.
    split_and!; [done|lia|lia|by eapply freeing_trans| |].
    + intros j Hj. destruct (Z.eq_dec j k) as [->|]; [done|].
      apply (fr_none _ _ _ _ F2); [apply va_of_facts; lia|]. apply HN. lia.
    + intros d' i' Hd'. by rewrite Hdir2, Hdir.
  - exists s', fl'. cbn in Hk. rewrite Z.add_0_r in Hk. subst k. split_and!; try done.
    intros j Hj. pose proof (Hdir d i Hd) as Hdi.
    unfold t. rewrite <- Hdi. apply table_none; [done|done|by rewrite Hdi|]. by apply HN.
Qed.
Lemma decref_set_phys p m s : decref_state p (set_phys m s) = set_phys m (decref_state p s).
Proof using . unfold decref_state. change (pp_ref (set_phys m s) p) with (pp_ref s p). by destruct (_ =? 1). Qed.

(** One iteration of the outer loop: the page table of entry [i] is emptied and dropped. *)
Lemma free_pde_ok s fl i : pmap_inv D ext fl s -> tlb_coherent live s -> 0 <= i < NU ->
  exists s' fl', free_pde (slot d 0) asid i s = Val tt s' /\ freeing s fl s' fl' /\
    valid (word (phys s') d i) = false /\
    (forall d' i', d' ∈ D -> 0 <= i' < NU -> ~ (d' = d /\ i' = i) -> word (phys s') d' i' = word (phys s) d' i').
Proof using D ext live L d asid Hl.
  intros I C Hi. pose proof Hd as Hd. pose proof (inv_mem _ _ _ _ I) as W. pose proof Hi as Hi'. rewrite NU_eq in Hi'.
  unfold free_pde. rewrite slot_add, (bind_val _ _ _ _ _ (load_slot s d i ltac:(lia))).
  change (hasbits ?x PTE_V) with (valid x).
  destruct (valid (word (phys s) d i)) eqn:Hv; cbn [negb].
  2:{ exists s, fl. split_and!; [done|by apply freeing_refl|done|done]. }
  set (t := PPN (word (phys s) d i)).
  assert (Ht : 0 <= t < npage s) by (split; [by eapply PPN_nonneg|by apply (wf_tab_range _ _ _ W)]).
  rewrite (bind_val _ _ _ (slot t 0) s) by (apply KADDR_pte; [apply W|apply Ht|apply W]).
  destruct (free_ptes s fl i I C Hi Hv) as (s1 & fl1 & E1 & F & Hz & Hdir). fold t in E1, Hz.
  rewrite (bind_val _ _ _ _ _ E1), (bind_val _ _ _ _ _ (store_slot s1 d i 0 ltac:(lia))).
  pose proof (fr_inv _ _ _ _ F) as I1. pose proof (inv_mem _ _ _ _ I1) as W1.
  destruct (fr_rest _ _ _ _ F) as [En Ec]. pose proof (Hdir d i Hd) as Hdi.
  set (m' := upd (phys s1) d i 0).
  rewrite (bind_val _ _ _ t (set_phys m' s1)).
  2:{ unfold pa2page. mstep. cbn [npage set_phys]. rewrite PTE_ADDR_div by apply W. rewrite (Z.mul_comm 4096), PPN_page, <- PPN_div.
      fold t. rewrite En. by destruct (Z.leb_spec (npage s) t); [lia|]. }
  assert (Hpos : 0 < pp_ref s1 t < 65536).
  { pose proof (inv_ref16 _ _ _ _ I1 t). rewrite (inv_ref _ _ _ _ I1) in * by (rewrite En; lia).
    pose proof (inv_ext _ _ _ _ I1 t). assert (1 <= refs D (phys s1) t); [|lia].
    apply (refs_dir D (phys s1) t d i Hd Hi). unfold dir_maps; cbn [fst snd]. rewrite Hdi, Hv. apply Z.eqb_refl. }
  rewrite (bind_val _ _ _ tt (set_phys m' (decref_state t s1)))
    by (rewrite page_decref_pos by done; by rewrite decref_set_phys).
  assert (Hz1 : forall j, 0 <= j < 1024 -> valid (word (phys s1) (PPN (word (phys s1) d i)) j) = false)
    by (rewrite Hdi; exact Hz).
  assert (Hv1 : valid (word (phys s1) d i) = true) by by rewrite Hdi.
  pose proof (drop_table_wf D _ _ W1 d i Hd) as W'. fold m' in W'.
  destruct (decref_restores D D ext fl1 s1 m' t I1 W' ltac:(rewrite En; lia)) as [I2 R2].
  { intros q. unfold m'. rewrite (drop_table_refs D _ _ W1 d i Hd Hi Hv1 Hz1). by rewrite Hdi. }
  { done. }
  assert (HL : forall d' va, d' ∈ D -> user_va va -> lookup_pte m' d' va = lookup_pte (phys s1) d' va)
    by (intros d' va; apply (drop_table_lookup D _ _ W1 d i Hd Hv1 Hz1)).
  set (s2 := set_phys m' (decref_state t s1)) in *.
  assert (T2 : tlb s2 = tlb s1) by (unfold s2; cbn; apply decref_tlb).
  eexists _, (decref_fl s1 t fl1). split; [reflexivity|]. cbn [phys set_tlb].
  split; [|split].
  - eapply freeing_trans; [exact F|]. split.
    + by repeat apply pmap_inv_tlb.
    + exact R2.
    + unfold s2. cbn. by rewrite decref_npage, decref_cur.
    + repeat apply coherent_flush. intros d' a va e Hl' Hva. rewrite T2. intros He.
      change (phys s2) with m'. rewrite HL; [by apply (fr_coh _ _ _ _ F d' a)|by eapply L|done].
    + intros hi e He. cbn [tlb set_tlb] in He. rewrite T2 in He.
      apply lookup_delete_Some in He as [_ He]. by apply lookup_delete_Some in He as [_ ?].
    + intros va Hva HN. cbn. by rewrite HL.
    + intros d' va Hd' _ Hva. cbn. by apply HL.
    + intros d' i' Hd' Hne. unfold s2, m'. cbn. rewrite word_upd, decide_False; [done|]. by intros [-> _].
    + intros q [Hq1 Hq2]. assert (Hw : forall k, word m' q k = word (phys s1) q k).
      { intros k. unfold m'. rewrite word_upd, decide_False; [done|]. by intros [<- _]. }
      split; [|exact Hw]. split; [done|]. change (phys (set_tlb _ _)) with m'. intros d' i' Hd' Hi2.
      unfold m'. rewrite (drop_table_dir D (phys s1) d i) by done. case_decide; [done|by apply Hq2].
  - unfold s2, m'. cbn. by rewrite word_upd, decide_True.
  - intros d' i' Hd' Hi2 Hne. unfold s2, m'. cbn. rewrite word_upd, decide_False; [by apply Hdir|]. intros [-> ->]. by apply Hne.
Qed.
End FreeLoops.

(** All the page tables. *)
Lemma free_pdes_ok D ext live d asid s fl : live_ok D live -> (d, asid) ∈ live ->
  pmap_inv D ext fl s -> tlb_coherent live s ->
  exists s' fl', for_each (zseq 0 (Z.to_nat (PDX UTOP))) (free_pde (slot d 0) asid) s = Val tt s' /\
    freeing D ext live d s fl s' fl' /\
    (forall i, 0 <= i < NU -> valid (word (phys s') d i) = false).
Proof.
  intros L Hl I C.
  destruct (for_each_inv (fun l s' => exists k fl', l = zseq k (length l) /\ k + Z.of_nat (length l) = NU /\
      0 <= k /\ freeing D ext live d s fl s' fl' /\
      (forall i, 0 <= i < k -> valid (word (phys s') d i) = false))
    (free_pde (slot d 0) asid) (zseq 0 (Z.to_nat (PDX UTOP))) s) as (s' & E & k & fl' & _ & Hk & _ & F & Hv).
  - exists 0, fl. rewrite zseq_length. split_and!; try done; [by apply freeing_refl|lia].
  - intros i l s1 (k & fl1 & El & Hk & Hk0 & F & Hv). cbn in El, Hk. injection El as -> El.
    destruct (free_pde_ok D ext live L d asid Hl s1 fl1 k (fr_inv _ _ _ _ _ _ _ _ F) (fr_coh _ _ _ _ _ _ _ _ F)
      ltac:(lia)) as (s2 & fl2 & E2 & F2 & Hv2 & Hdir2).
    exists s2. split; [exact E2|]. exists (k + 1), fl2. split_and!; [done|lia|lia|by eapply freeing_trans|].
    intros i Hi. destruct (Z.eq_dec i k) as [->|]; [done|]. rewrite Hdir2; [apply Hv; lia|by eapply L|lia|lia].
  - exists s', fl'. cbn in Hk. rewrite Z.add_0_r in Hk. subst k. by split_and!.
Qed.

(** env_free's work on memory. [live'] is what is left of the live address spaces. *)
Lemma env_free_vm_ok D ext live d asid s fl : live_ok (d :: D) ((d, asid) :: live) ->
  pmap_inv (d :: D) ext fl s -> tlb_coherent ((d, asid) :: live) s ->
  exists s' fl', env_free_vm (slot d 0) asid s = Val tt s' /\ pmap_inv D ext fl' s' /\
    reclaims s fl s' fl' /\ tlb_coherent live s' /\
    (forall va, user_va va -> tlb s' !! entryhi asid va = None) /\
    (forall hi e, tlb s' !! hi = Some e -> tlb s !! hi = Some e) /\
    (forall d' va, d' ∈ D -> user_va va -> lookup_pte (phys s') d' va = lookup_pte (phys s) d' va) /\
    (forall d' i, d' ∈ D -> word (phys s') d' i = word (phys s) d' i) /\
    npage s' = npage s /\ cur_pgdir s' = cur_pgdir s /\
    (forall q, data_page (d :: D) (phys s) q -> data_page D (phys s') q /\ forall i, word (phys s') q i = word (phys s) q i).
Proof.
  intros L I C. assert (Hl : (d, asid) ∈ (d, asid) :: live) by left.
  destruct (free_pdes_ok _ _ _ d asid s fl L Hl I C) as (s1 & fl1 & E1 & F & Hv).
  pose proof (fr_inv _ _ _ _ _ _ _ _ F) as I1. pose proof (inv_mem _ _ _ _ I1) as W1.
  destruct (fr_rest _ _ _ _ _ _ _ _ F) as [En Ec].
  assert (Hr : 0 <= d < npage s1) by (apply (wf_dirs _ _ _ W1); left).
  pose proof (wf_npage _ _ _ W1) as Hn.
  assert (Hnd : d ∉ D) by (pose proof (wf_dirs_nodup _ _ _ W1) as H; by apply NoDup_cons in H as [? _]).
  assert (W0 : mem_wf D (npage s1) (phys s1)).
  { destruct W1. split; try done.
    - by apply NoDup_cons in wf_dirs_nodup as [_ ?].
    - intros d' H. apply wf_dirs. by right.
    - intros d' i H. apply wf_tab_range. by right.
    - intros d1 i1 d2 i2 H1 H2. apply wf_tab_inj; by right.
    - intros d' i H Hi Hv' Hin. apply (wf_tab_dir d' i); [by right|done|done|by right].
    - intros d' i j H. apply wf_leaf_range. by right. }
  assert (Hdata : data_page D (phys s1) d).
  { split; [done|]. intros d' i Hd' Hi Hvi E. apply (wf_tab_dir _ _ _ W1 d' i); [by right|done|done|].
    rewrite E. left. }
  assert (Hpos : 0 < pp_ref s1 d < 65536).
  { pose proof (inv_ref16 _ _ _ _ I1 d). rewrite (inv_ref _ _ _ _ I1) in * by done.
    pose proof (inv_ext _ _ _ _ I1 d). pose proof (refs_in_dirs (d :: D) (phys s1) d ltac:(left)). lia. }
  destruct (decref_restores (d :: D) D ext fl1 s1 (phys s1) d I1 W0 Hr) as [I2 R2].
  { intros q. rewrite (new_dir_refs D (phys s1) (phys s1) d Hdata) by done. lia. }
  { done. }
  replace (set_phys (phys s1) (decref_state d s1)) with (decref_state d s1) in *
    by (rewrite <- decref_set_phys; by destruct s1).
  exists (decref_state d s1), (decref_fl s1 d fl1). split.
  { unfold env_free_vm. rewrite (bind_val _ _ _ _ _ E1).
    rewrite (bind_val _ _ _ (d * 4096) s1) by (unfold PADDR, slot; destruct (Z.ltb_spec (ULIM + d * 4096 + 4 * 0) ULIM); [unfold ULIM in *; lia|]; unfold mret, M_ret; f_equal; lia).
    rewrite (bind_val _ _ _ d s1) by (unfold pa2page; mstep; rewrite PPN_page; by destruct (Z.leb_spec (npage s1) d); [lia|]).
    by apply page_decref_pos. }
  rewrite decref_npage, decref_phys, decref_tlb, decref_cur.
  assert (HN : forall va, user_va va -> tlb s1 !! entryhi asid va = None).
  { intros va Hva. destruct (tlb s1 !! entryhi asid va) as [e|] eqn:E; [|done].
    pose proof (fr_coh _ _ _ _ _ _ _ _ F d asid va e Hl Hva E) as H. unfold lookup_pte in H.
    by rewrite Hv in H by auto with mos. }
  split_and!; try done.
  - eapply reclaims_trans; [|apply F|exact R2]. intros p. apply (inv_ref16 _ _ _ _ I1).
  - intros d' a va e Hl'. rewrite decref_tlb, decref_phys. apply (fr_coh _ _ _ _ _ _ _ _ F). by right.
  - apply F.
  - intros d' va Hd' Hva. apply (fr_other _ _ _ _ _ _ _ _ F); [by right| |done]. by intros ->.
  - intros d' i Hd'. apply (fr_dirs _ _ _ _ _ _ _ _ F); [by right|]. by intros ->.
  - intros q Hq. destruct (fr_data _ _ _ _ _ _ _ _ F q Hq) as [ [Hq1 Hq2] Hw]. split; [|exact Hw].
    split; [intros H; apply Hq1; by right|]. intros d' i Hd'. apply Hq2. by right.
Qed.
