(* ===== verification/EnvInv.v ===== *)
(** * The invariant of the environments, and env_alloc and env_free (kern/env.c)

    [kinv L dir ext fl pfl s]: [L] are the environments in use, [dir] gives the page of the
    directory of each, [fl] is the list of free environments and [pfl] of free pages. The
    address spaces satisfy [pmap_inv], the ASIDs in use are distinct and marked, the TLB is
    coherent with the page tables of the environments in use and holds nothing for the
    ASIDs that are free. *)

From Stdlib Require Import ZArith Lia.
From stdpp Require Import base numbers list gmap strings.
From S2P Require Import Prelude Queue Mmu Pmap PmapInv PmapOps PmapInsert PmapThms.
From S2P Require Import KState Elf Signo Env EnvThms PmapFree.
Import LIST.

(** ** Running the page-table operations inside the kernel state *)
Lemma pmap_op_val {A} (m : P A) s a t : m (pm s) = Val a t -> pmap_op m s = Val a (set_pm t s).
Proof. apply zoom_val. Qed.

Lemma bind_pmap {A B} (m : P A) (k : A -> K B) s a t :
  m (pm s) = Val a t -> (pmap_op m ≫= k) s = k a (set_pm t s).
Proof. intros H. apply bind_val. by apply pmap_op_val. Qed.

Lemma set_pm_pm s : set_pm (pm s) s = s.
Proof. by destruct s. Qed.

Lemma bind_pmap_id {A B} (m : P A) (k : A -> K B) s a :
  m (pm s) = Val a (pm s) -> (pmap_op m ≫= k) s = k a s.
Proof. intros H. rewrite (bind_pmap m k s a (pm s) H). by rewrite set_pm_pm. Qed.

Lemma PADDR_page s p : 0 <= p -> PADDR (slot p 0) s = Val (p * 4096) s.
Proof.
  intros Hp. unfold PADDR, slot. destruct (Z.ltb_spec (ULIM + p * 4096 + 4 * 0) ULIM); [lia|].
  unfold mret, M_ret. f_equal. lia.
Qed.

Lemma page_lor_valid p : 0 <= p < 1048576 -> Z.lor (p * 4096) PTE_V = mk_pte p 0.
Proof. intros Hp. unfold mk_pte. by rewrite page2pa_mul, Z.lor_0_r. Qed.

(** ** A new address space *)

(** The directory [env_setup_vm] builds in page [p] from the template in page [b]. *)
Record vm_ready (b p : Z) (t t' : pmap_st) : Prop := {
  vr_window : forall i, PDX UTOP <= i < PDX UVPT -> word (phys t') p i = word (phys t) b i;
  vr_self : word (phys t') p (PDX UVPT) = mk_pte p 0 /\ word (phys t') p (PDX KSEG2) = mk_pte p 0;
  vr_empty : forall i, 0 <= i < NU -> valid (word (phys t') p i) = false;
  vr_none : forall va, user_va va -> lookup_pte (phys t') p va = None;
  vr_rest : npage t' = npage t /\ tlb t' = tlb t /\ cur_pgdir t' = cur_pgdir t }.

Definition vm_memory (b p : Z) (m : mem) : mem :=
  upd (upd (upd (upd (clear_page m p) p 509 (word m b 509)) p 510 (word m b 510))
    p 511 (mk_pte p 0)) p 768 (mk_pte p 0).

Lemma vm_memory_word b p m q i : word (vm_memory b p m) q i =
  if decide (p = q) then
    if decide (i = 768) then mk_pte p 0 else if decide (i = 511) then mk_pte p 0 else
    if decide (i = 510) then word m b 510 else if decide (i = 509) then word m b 509 else 0
  else word m q i.
Proof.
  unfold vm_memory. rewrite !word_upd, word_clear.
  destruct (decide (p = q)) as [<-|]; [|by rewrite !decide_False by tauto].
  repeat case_decide; try done; lia.
Qed.

(** [upd_env] as a function. *)
Definition put_env (e : Z) (f : Env -> Env) (s : kstate) : kstate :=
  set_envs (<[e := f (env s e)]> (envs s)) s.

Lemma bind_upd_env {B} e f (k : unit -> K B) s : (upd_env e f ≫= k) s = k tt (put_env e f s).
Proof. reflexivity. Qed.

Lemma env_put e f s j : env (put_env e f s) j = if decide (e = j) then f (env s e) else env s j.
Proof. apply env_upd. Qed.

Lemma env_setup_vm_run D ext p pfl b e s :
  pmap_inv D ext (p :: pfl) (pm s) -> base_pgdir s = slot b 0 -> b <> p ->
  exists q, is_list q pfl /\
    env_setup_vm e s = Val 0 (put_env e (with_env_pgdir (slot p 0)) (set_pm
      (set_pp_ref p 1 (set_phys (vm_memory b p (phys (pm s))) (set_free q (pm s)))) s)).
Proof.
  intros I Hb Hne. pose proof (wf_npage _ _ _ (inv_mem _ _ _ _ I)) as Hn.
  assert (Hp : p ∈ p :: pfl) by left.
  pose proof (inv_fl_range _ _ _ _ I p Hp) as Hr. pose proof (inv_fl_ref _ _ _ _ I p Hp) as H0.
  destruct (page_alloc_cons (pm s) p pfl (inv_fl _ _ _ _ I) Hr ltac:(lia)) as (q & Hq & E).
  exists q. split; [done|]. unfold env_setup_vm. rewrite (bind_pmap _ _ _ _ _ E).
  erewrite bind_pmap by reflexivity.
  rewrite (bind_pmap_id _ _ _ (slot p 0)) by (apply page2kva_page; [exact Hr|exact (proj2 Hn)]).
  rewrite bind_upd_env. mstep. cbn [base_pgdir set_envs put_env set_pm]. rewrite Hb.
  change (zseq (PDX UTOP) (Z.to_nat (PDX UVPT - PDX UTOP))) with [509; 510].
  cbn [for_each]. rewrite !slot_add.
  repeat first
    [ rewrite bind_bind
    | erewrite bind_pmap by (first [apply load_slot|apply store_slot]; lia)
    | rewrite bind_ret ].
  rewrite (bind_pmap_id _ _ _ (p * 4096)) by (apply PADDR_page; lia).
  rewrite page_lor_valid by lia.
  do 2 erewrite bind_pmap by (apply store_slot; vm_compute; split; [discriminate|reflexivity]).
  unfold mret, M_ret, vm_memory. f_equal.
  cbn [phys pm set_pm put_env set_envs set_phys set_free set_pp_ref set_refs].
  assert (HW : forall i, word (clear_page (phys (pm s)) p) b i = word (phys (pm s)) b i)
    by (intros i; by rewrite word_clear, decide_False).
  assert (HU : forall v i, word (upd (clear_page (phys (pm s)) p) p 509 v) b i = word (phys (pm s)) b i)
    by (intros v i; rewrite word_upd, decide_False; [apply HW|]; by intros [<- _]).
  rewrite HU, HW. change (pp_ref (set_phys _ (set_free q (pm s))) p) with (pp_ref (pm s) p).
  rewrite H0. reflexivity.
Qed.

Lemma env_setup_vm_ok D ext p pfl b e s :
  pmap_inv D ext (p :: pfl) (pm s) -> base_pgdir s = slot b 0 -> b <> p ->
  exists t', env_setup_vm e s = Val 0 (put_env e (with_env_pgdir (slot p 0)) (set_pm t' s)) /\
    pmap_inv (p :: D) ext pfl t' /\ vm_ready b p (pm s) t' /\ (p ∉ D) /\
    (forall q i, q <> p -> word (phys t') q i = word (phys (pm s)) q i) /\
    (forall d va, d ∈ D -> user_va va -> lookup_pte (phys t') d va = lookup_pte (phys (pm s)) d va).
Proof.
  intros I Hb Hne. pose proof (inv_mem _ _ _ _ I) as W. pose proof (wf_npage _ _ _ W) as Hn.
  assert (Hp : p ∈ p :: pfl) by left. pose proof (inv_fl_range _ _ _ _ I p Hp) as Hr.
  destruct (free_unreferenced _ _ _ _ _ I Hp) as [Href _]. apply unreferenced_data in Href.
  destruct (env_setup_vm_run D ext p pfl b e s I Hb Hne) as (q & Hq & E).
  set (m' := vm_memory b p (phys (pm s))) in *.
  assert (Hw : forall i, word m' p i = if decide (i = 768) then mk_pte p 0 else if decide (i = 511) then mk_pte p 0 else
    if decide (i = 510) then word (phys (pm s)) b 510 else if decide (i = 509) then word (phys (pm s)) b 509 else 0)
    by (intros i; unfold m'; by rewrite vm_memory_word, decide_True).
  assert (Hs : forall q i, q <> p -> word m' q i = word (phys (pm s)) q i)
    by (intros q' i Hq'; unfold m'; by rewrite vm_memory_word, decide_False).
  assert (He : forall i, 0 <= i < NU -> valid (word m' p i) = false).
  { rewrite NU_eq. intros i Hi. rewrite Hw, !decide_False by lia. done. }
  assert (Hu : forall i, is_u32 (word m' p i)).
  { intros i. rewrite Hw. repeat case_decide; try apply W; try (apply mk_pte_u32); unfold is_u32; lia. }
  eexists. split; [exact E|]. split_and!.
  - by apply new_dir_inv.
  - split; cbn.
    + intros i Hi. change (PDX UTOP) with 509 in Hi. change (PDX UVPT) with 511 in Hi. rewrite Hw.
      destruct (decide (i = 509)) as [->|]; [done|]. by replace i with 510 by lia.
    + rewrite !Hw. done.
    + exact He.
    + intros va Hva. unfold lookup_pte. by rewrite He by auto with mos.
    + done.
  - apply Href.
  - exact Hs.
  - intros d va Hd Hva. by apply (data_lookup D (phys (pm s)) m' p Href Hs).
Qed.

(** ** The invariant *)
Definition dir_of (s : kstate) (i : Z) : Z := (env_pgdir (env s i) - ULIM) / 4096.
Definition dirs (s : kstate) (L : list Z) : list Z := map (dir_of s) L.
Definition spaces (s : kstate) (L : list Z) : list (Z * Z) :=
  map (fun i => (dir_of s i, env_asid (env s i))) L.

Record kinv (L : list Z) (ext : Z -> Z) (fl pfl : list Z) (s : kstate) : Prop := {
  k_free : is_list (env_free_list s) fl;
  k_part : forall i, i ∈ fl \/ i ∈ L <-> 0 <= i < NENV;
  k_disj : forall i, i ∈ fl -> i ∉ L;
  k_dir : forall i, i ∈ L -> env_pgdir (env s i) = slot (dir_of s i) 0;
  k_pm : pmap_inv (dirs s L) ext pfl (pm s);
  k_asid : forall i, i ∈ L -> 0 <= env_asid (env s i) < NASID /\ asid_used s (env_asid (env s i)) = true;
  k_asid_inj : forall i j, i ∈ L -> j ∈ L -> env_asid (env s i) = env_asid (env s j) -> i = j;
  k_coh : tlb_coherent (spaces s L) (pm s);
  k_stale : forall a va, 0 <= a < NASID -> asid_used s a = false -> user_va va ->
    tlb (pm s) !! entryhi a va = None;
  k_base : exists b, base_pgdir s = slot b 0 /\ 1 <= ext b }.

Lemma dir_of_slot s i p : env_pgdir (env s i) = slot p 0 -> dir_of s i = p.
Proof. intros H. unfold dir_of. rewrite H. unfold slot. dlia. Qed.

Lemma elem_of_dirs s L i : i ∈ L -> dir_of s i ∈ dirs s L.
Proof. intros H. by apply list_elem_of_fmap_2. Qed.

Lemma elem_of_spaces s L d a : (d, a) ∈ spaces s L <->
  exists i, i ∈ L /\ d = dir_of s i /\ a = env_asid (env s i).
Proof.
  unfold spaces. rewrite list_elem_of_fmap. split.
  - intros (i & [= -> ->] & Hi). by exists i.
  - intros (i & Hi & -> & ->). by exists i.
Qed.

Lemma kinv_NoDup L ext fl pfl s : kinv L ext fl pfl s -> NoDup L.
Proof. intros I. apply (NoDup_fmap_1 (dir_of s)), (inv_mem _ _ _ _ (k_pm _ _ _ _ _ I)). Qed.

Lemma dir_inj L ext fl pfl s i j : kinv L ext fl pfl s -> i ∈ L -> j ∈ L -> dir_of s i = dir_of s j -> i = j.
Proof.
  intros I Hi Hj E. refine (NoDup_map_inj (dir_of s) L i j _ Hi Hj E).
  apply (inv_mem _ _ _ _ (k_pm _ _ _ _ _ I)).
Qed.

Lemma kinv_live L ext fl pfl s : kinv L ext fl pfl s -> live_ok (dirs s L) (spaces s L).
Proof.
  intros I. split_and!.
  - intros d a (i & Hi & -> & ->)%elem_of_spaces. split; [by apply elem_of_dirs|]. by apply (k_asid _ _ _ _ _ I).
  - intros d d' a (i & Hi & -> & ->)%elem_of_spaces (j & Hj & -> & E)%elem_of_spaces.
    by rewrite (k_asid_inj _ _ _ _ _ I i j).
  - intros d a a' (i & Hi & -> & ->)%elem_of_spaces (j & Hj & E & ->)%elem_of_spaces.
    by rewrite (dir_inj _ _ _ _ _ i j I).
Qed.

(** The invariant only looks at these parts of the state. *)
Lemma kinv_ext L ext fl pfl s s' :
  env_free_list s' = env_free_list s -> pm s' = pm s -> asid_bitmap s' = asid_bitmap s ->
  base_pgdir s' = base_pgdir s ->
  (forall i, i ∈ L -> env_pgdir (env s' i) = env_pgdir (env s i) /\ env_asid (env s' i) = env_asid (env s i)) ->
  kinv L ext fl pfl s -> kinv L ext fl pfl s'.
Proof.
  intros E1 E2 E3 E4 HE I.
  assert (Hd : forall i, i ∈ L -> dir_of s' i = dir_of s i)
    by (intros i Hi; unfold dir_of; by destruct (HE i Hi) as [-> _]).
  assert (HD : dirs s' L = dirs s L) by (apply map_ext_in; intros i Hi; apply Hd; by apply list_elem_of_In).
  assert (HS : spaces s' L = spaces s L).
  { apply map_ext_in. intros i Hi%list_elem_of_In. rewrite Hd by done. by destruct (HE i Hi) as [_ ->]. }
  assert (HA : forall a, asid_used s' a = asid_used s a)
    by (intros a; unfold asid_used, asid_word; by rewrite E3).
  split; rewrite ?E1, ?E2, ?E4, ?HD, ?HS; try apply I.
  - intros i Hi. rewrite Hd by done. destruct (HE i Hi) as [-> _]. by apply I.
  - intros i Hi. rewrite HA. destruct (HE i Hi) as [_ ->]. by apply I.
  - intros i j Hi Hj. destruct (HE i Hi) as [_ ->], (HE j Hj) as [_ ->]. by apply I.
  - intros a va. rewrite HA. apply I.
Qed.

(** Operations on memory alone. *)
Lemma kinv_set_pm L ext fl pfl pfl' s t :
  kinv L ext fl pfl s -> pmap_inv (dirs s L) ext pfl' t -> tlb_coherent (spaces s L) t ->
  (forall hi e, tlb t !! hi = Some e -> tlb (pm s) !! hi = Some e) ->
  kinv L ext fl pfl' (set_pm t s).
Proof.
  intros I It Ct Ht. split; try apply I; try done.
  intros a va Ha Hu Hva. cbn. destruct (tlb t !! entryhi a va) as [e|] eqn:E; [|done].
  apply Ht in E. by rewrite (k_stale _ _ _ _ _ I) in E.
Qed.

(** ** env_alloc *)

(** The setters that leave [envs] alone. *)
Lemma env_set_mkenvid v s j : env (set_mkenvid_i v s) j = env s j.
Proof. done. Qed.
Lemma env_asid_mark a s j : env (asid_mark a s) j = env s j.
Proof. done. Qed.
Lemma env_asid_clear a s j : env (asid_clear a s) j = env s j.
Proof. done. Qed.
Lemma env_set_pm t s j : env (set_pm t s) j = env s j.
Proof. done. Qed.
Lemma env_set_free_list q s j : env (set_env_free_list q s) j = env s j.
Proof. done. Qed.
Lemma env_set_sched_list q s j : env (set_env_sched_list q s) j = env s j.
Proof. done. Qed.
Create Rewrite HintDb mos_env.
#[export] Hint Rewrite env_set_mkenvid env_asid_mark env_asid_clear env_set_pm env_set_free_list
  env_set_sched_list env_put : mos_env.


(** The fields [env_alloc] sets, on top of what the slot held before. *)
Definition fresh_env (p a parent id : Z) (v : Env) : Env :=
  init_env_signals (init_env_tf (with_env_id id (with_env_asid a (with_env_parent_id parent
    (with_env_runs 0 (with_env_user_tlb_mod_entry 0 (with_env_pgdir (slot p 0) v))))))).

Record allocated (L : list Z) (ext : Z -> Z) (e p a parent : Z) (s s' : kstate) : Prop := {
  al_env : env s' e = fresh_env p a parent ((mkenvid_i s + 1) * 2048 + e) (env s e);
  al_other : forall j, j <> e -> env s' j = env s j;
  al_asid : 0 <= a < NASID /\ asid_used s a = false /\
    forall j, 0 <= j -> asid_used s' j = asid_used s j || (a =? j);
  al_vm : forall b, base_pgdir s = slot b 0 -> vm_ready b p (pm s) (pm s');
  al_lookup : forall i va, i ∈ L -> user_va va ->
    lookup_pte (phys (pm s')) (dir_of s i) va = lookup_pte (phys (pm s)) (dir_of s i) va;
  al_words : forall q i, q <> p -> word (phys (pm s')) q i = word (phys (pm s)) q i;
  al_base : base_pgdir s' = base_pgdir s;
  al_rest : curenv s' = curenv s /\ env_sched_list s' = env_sched_list s /\ ktf s' = ktf s /\
    mkenvid_i s' = mkenvid_i s + 1 /\ sched_count s' = sched_count s /\
    signos s' = signos s /\ signo_free_list s' = signo_free_list s /\ hw_asid s' = hw_asid s }.

Lemma env_alloc_run L ext e fl p pfl parent s a :
  kinv L ext (e :: fl) (p :: pfl) s -> 0 <= mkenvid_i s < 2097151 ->
  find (asid_is_free s) (zseq 0 (Z.to_nat NASID)) = Some a ->
  exists s' q t, env_alloc parent s = Val (Ok e) s' /\ allocated L ext e p a parent s s' /\
    env_free_list s' = q /\ is_list q fl /\ pm s' = t /\ pmap_inv (p :: dirs s L) ext pfl t /\
    asid_bitmap s' = asid_bitmap (asid_mark a s) /\ base_pgdir s' = base_pgdir s.
Proof.
  intros I Hc Ha. destruct (k_base _ _ _ _ _ I) as (b & Hb & Hext).
  assert (Hbp : b <> p).
  { intros ->. destruct (free_unreferenced _ _ _ _ p (k_pm _ _ _ _ _ I) ltac:(left)). lia. }
  assert (He : 0 <= e < NENV) by (apply (k_part _ _ _ _ _ I); left; left).
  destruct (remove_head_refines _ _ _ (k_free _ _ _ _ _ I)) as (q & Eq & Hq).
  set (s1 := set_env_free_list q s).
  destruct (env_setup_vm_ok (dirs s L) ext p pfl b e s1 (k_pm _ _ _ _ _ I) Hb Hbp)
    as (t & Et & It & Vt & _ & Hw & HL).
  apply find_zseq_least in Ha as Ha'. destruct Ha' as (Har & Hfree & _).
  rewrite asid_is_free_used in Hfree by lia. apply negb_true_iff in Hfree.
  do 3 eexists. split.
  - unfold env_alloc. mstep. pose proof (is_list_head _ _ _ (k_free _ _ _ _ _ I)) as Hh.
    destruct (LIST_EMPTY (env_free_list s)) eqn:Ee;
      [by apply (is_list_empty _ _ (k_free _ _ _ _ _ I)) in Ee|].
    rewrite Hh. cbn [lift_opt]. mstep. rewrite Eq. cbn [lift_opt]. msteps. fold s1.
    rewrite !bind_upd_env.
    rewrite (bind_val _ _ _ (Ok a) (asid_mark a (put_env e (with_env_parent_id parent)
      (put_env e (with_env_runs 0) (put_env e (with_env_user_tlb_mod_entry 0)
        (put_env e (with_env_pgdir (slot p 0)) (set_pm t s1)))))))
      by (rewrite asid_alloc_eq; change (asid_is_free _) with (asid_is_free s); by rewrite Ha).
    rewrite bind_upd_env.
    erewrite bind_val by (apply mkenvid_eq; [exact He|exact Hc]). rewrite !bind_upd_env. reflexivity.
  - split_and!; try reflexivity; try done. split.
    + autorewrite with mos_env. rewrite !decide_True by done. reflexivity.
    + intros j Hj. autorewrite with mos_env. by rewrite !decide_False.
    + split; [lia|]. split; [done|]. intros j Hj. rewrite <- asid_mark_used by lia. reflexivity.
    + intros b' Hb'. rewrite Hb in Hb'. assert (b' = b) as -> by (unfold slot in Hb'; lia). exact Vt.
    + intros i va Hi Hva. apply HL; [by apply elem_of_dirs|done].
    + exact Hw.
    + reflexivity.
    + by split_and!.
Qed.

Lemma env_alloc_ok L ext e fl p pfl parent s a :
  kinv L ext (e :: fl) (p :: pfl) s -> 0 <= mkenvid_i s < 2097151 ->
  find (asid_is_free s) (zseq 0 (Z.to_nat NASID)) = Some a ->
  exists s', env_alloc parent s = Val (Ok e) s' /\ allocated L ext e p a parent s s' /\
    kinv (e :: L) ext fl pfl s'.
Proof.
  intros I Hc Ha.
  destruct (env_alloc_run L ext e fl p pfl parent s a I Hc Ha) as (s' & q & t & E & A & Hq1 & Hq & Ht & It & Hbm & Hbase).
  exists s'. split; [done|]. split; [done|].
  destruct (al_asid _ _ _ _ _ _ _ _ A) as (Har & Hau & Hused).
  assert (HeL : e ∉ L) by (apply (k_disj _ _ _ _ _ I); left).
  assert (Ho : forall j, j ∈ L -> env s' j = env s j).
  { intros j Hj. apply (al_other _ _ _ _ _ _ _ _ A). by intros ->. }
  assert (He1 : env_pgdir (env s' e) = slot p 0) by (rewrite (al_env _ _ _ _ _ _ _ _ A); done).
  assert (He2 : env_asid (env s' e) = a) by (rewrite (al_env _ _ _ _ _ _ _ _ A); done).
  pose proof (dir_of_slot _ _ _ He1) as Hde.
  assert (Hdo : forall j, j ∈ L -> dir_of s' j = dir_of s j) by (intros j Hj; unfold dir_of; by rewrite Ho).
  assert (HD : dirs s' (e :: L) = p :: dirs s L).
  { cbn. rewrite Hde. f_equal. apply map_ext_in. intros j Hj. apply Hdo. by apply list_elem_of_In. }
  destruct (k_base _ _ _ _ _ I) as (b & Hb & Hext).
  destruct (al_vm _ _ _ _ _ _ _ _ A b Hb) as [_ _ _ Hnone (Hnp & Htlb & _)].
  split.
  - rewrite Hq1. exact Hq.
  - intros i. rewrite <- (k_part _ _ _ _ _ I), !elem_of_cons. tauto.
  - intros i Hi [->|HiL]%elem_of_cons.
    + destruct (k_free _ _ _ _ _ I) as [N _]. by apply NoDup_cons in N as [? _].
    + apply (k_disj _ _ _ _ _ I i); [by right|done].
  - intros i [->|Hi]%elem_of_cons; [by rewrite Hde|]. rewrite Hdo, Ho by done. by apply I.
  - rewrite HD, Ht. exact It.
  - intros i [->|Hi]%elem_of_cons.
    + rewrite He2, Hused, Z.eqb_refl, orb_true_r by lia. done.
    + rewrite Ho by done. destruct (k_asid _ _ _ _ _ I i Hi) as [H1 H2]. split; [done|].
      rewrite Hused by lia. by rewrite H2.
  - assert (Hne : forall j, j ∈ L -> a <> env_asid (env s j)).
    { intros j Hj Ea. destruct (k_asid _ _ _ _ _ I j Hj) as [_ H]. rewrite <- Ea in H. congruence. }
    intros i j [->|Hi]%elem_of_cons [->|Hj]%elem_of_cons; [done|..].
    + rewrite He2, (Ho j) by done. intros Ea. by destruct (Hne j).
    + rewrite He2, (Ho i) by done. intros Ea. by destruct (Hne i).
    + rewrite !Ho by done. by apply I.
  - intros d a' va v Hs Hva. rewrite Htlb. intros Hv. apply elem_of_spaces in Hs as (i & Hi & -> & ->).
    apply elem_of_cons in Hi as [->|Hi].
    + rewrite He2 in Hv. by rewrite (k_stale _ _ _ _ _ I) in Hv.
    + rewrite Hdo by done. rewrite Ho in Hv by done. rewrite (al_lookup _ _ _ _ _ _ _ _ A) by done.
      apply (k_coh _ _ _ _ _ I (dir_of s i) (env_asid (env s i))); [|done|done].
      apply elem_of_spaces. by exists i.
  - intros a' va Ha' Hu Hva. rewrite Htlb. rewrite Hused in Hu by lia. apply orb_false_iff in Hu as [Hu _].
    by apply (k_stale _ _ _ _ _ I).
  - exists b. by rewrite Hbase.
Qed.

(** ** env_free *)

(** The state after [env_free e]. *)
Record freed (L' : list Z) (e : Z) (sl : list Z) (pfl pfl' : list Z) (s s' : kstate) : Prop := {
  fe_env : forall j, env s' j = if decide (e = j) then with_env_status ENV_FREE (env s e) else env s j;
  fe_sched : TAILQ.is_tailq (env_sched_list s') (without e sl);
  fe_pages : reclaims (pm s) pfl (pm s') pfl';
  fe_asid : forall j, 0 <= j -> asid_used s' j = asid_used s j && negb (env_asid (env s e) =? j);
  fe_lookup : forall i va, i ∈ L' -> user_va va ->
    lookup_pte (phys (pm s')) (dir_of s i) va = lookup_pte (phys (pm s)) (dir_of s i) va;
  fe_dirs : forall i k, i ∈ L' -> word (phys (pm s')) (dir_of s i) k = word (phys (pm s)) (dir_of s i) k;
  fe_data : forall q, data_page (dirs s (e :: L')) (phys (pm s)) q ->
    data_page (dirs s L') (phys (pm s')) q /\ forall i, word (phys (pm s')) q i = word (phys (pm s)) q i;
  fe_npage : npage (pm s') = npage (pm s);
  fe_cur : cur_pgdir (pm s') = cur_pgdir (pm s);
  fe_rest : curenv s' = curenv s /\ ktf s' = ktf s /\ mkenvid_i s' = mkenvid_i s /\
    sched_count s' = sched_count s /\ signos s' = signos s /\ signo_free_list s' = signo_free_list s /\
    hw_asid s' = hw_asid s /\ base_pgdir s' = base_pgdir s }.

Lemma tlb_subset (hi : Z) (t : gmap Z Z) k e : delete hi t !! k = Some e -> t !! k = Some e.
Proof. by intros [_ H]%lookup_delete_Some. Qed.

Lemma sched_remove_run s sl e : TAILQ.is_tailq (env_sched_list s) sl -> e ∈ sl ->
  exists q, sched_remove e s = Val tt (set_env_sched_list q s) /\ TAILQ.is_tailq q (without e sl).
Proof.
  intros H He. destruct (TAILQ.remove_elem_refines _ _ _ H He) as (q & E & Hq).
  exists q. split; [|done]. unfold sched_remove. mstep. by rewrite E.
Qed.

Lemma env_free_run L ext e fl pfl sl s :
  kinv (e :: L) ext fl pfl s -> TAILQ.is_tailq (env_sched_list s) sl -> e ∈ sl ->
  exists s' pfl' t, env_free e s = Val tt s' /\ freed L e sl pfl pfl' s s' /\
    pm s' = t /\ pmap_inv (dirs s L) ext pfl' t /\ tlb_coherent (spaces s L) t /\
    (forall hi v, tlb t !! hi = Some v -> tlb (pm s) !! hi = Some v) /\
    (forall va, user_va va -> tlb t !! entryhi (env_asid (env s e)) va = None) /\
    is_list (env_free_list s') (e :: fl).
Proof.
  intros I Hsl Hin. assert (HeL : e ∈ e :: L) by left.
  destruct (k_asid _ _ _ _ _ I e HeL) as [Har _].
  destruct (env_free_vm_ok (dirs s L) ext (spaces s L) (dir_of s e) (env_asid (env s e)) (pm s) pfl
    (kinv_live _ _ _ _ _ I) (k_pm _ _ _ _ _ I) (k_coh _ _ _ _ _ I))
    as (t0 & pfl' & Ev & It & Rt & Ct & Hno & Hsub & HL & HW & Hnp & Hcur & HK).
  rewrite <- (k_dir _ _ _ _ _ I e HeL) in Ev.
  assert (Hefl : e ∉ fl) by (intros H; by apply (k_disj _ _ _ _ _ I e H)).
  unfold env_free, get_env. mstep. rewrite bind_gets. cbv beta.
  rewrite (bind_pmap _ _ _ _ _ Ev).
  erewrite bind_val by (apply asid_free_eq; lia).
  unfold tlb_invalidate, tlb_out.
  do 2 erewrite bind_pmap by reflexivity. rewrite bind_upd_env, bind_modify.
  set (t := set_tlb _ (pm (set_pm _ _))). set (s3 := set_env_free_list _ _).
  destruct (sched_remove_run s3 sl e Hsl Hin) as (q & Eq & Hq).
  exists (set_env_sched_list q s3), pfl', t. rewrite Eq. split; [done|].
  assert (Hsub2 : forall hi v, tlb t !! hi = Some v -> tlb t0 !! hi = Some v).
  { intros hi v H. unfold t in H. cbn in H. by apply tlb_subset, tlb_subset in H. }
  split; [split|split_and!].
  - intros j. unfold s3. autorewrite with mos_env. by destruct (decide (e = j)) as [->|].
  - exact Hq.
  - exact Rt.
  - intros j Hj. rewrite <- asid_clear_used by lia. reflexivity.
  - intros i va Hi Hva. apply HL; [by apply elem_of_dirs|done].
  - intros i k Hi. apply HW. by apply elem_of_dirs.
  - exact HK.
  - exact Hnp.
  - exact Hcur.
  - by split_and!.
  - reflexivity.
  - unfold t. apply (pmap_inv_tlb _ _ _ (set_tlb _ t0)). by apply pmap_inv_tlb.
  - intros d a va v Hs Hva Hv. apply Hsub2 in Hv. by apply (Ct d a va).
  - intros hi v Hv. by apply Hsub, Hsub2.
  - intros va Hva. destruct (tlb t !! entryhi (env_asid (env s e)) va) as [v|] eqn:Hv; [|done].
    apply Hsub2 in Hv. by rewrite Hno in Hv.
  - apply insert_head_refines; [|done]. exact (k_free _ _ _ _ _ I).
Qed.

Lemma env_free_ok L ext e fl pfl sl s :
  kinv (e :: L) ext fl pfl s -> TAILQ.is_tailq (env_sched_list s) sl -> e ∈ sl ->
  exists s' pfl', env_free e s = Val tt s' /\ freed L e sl pfl pfl' s s' /\
    kinv L ext (e :: fl) pfl' s'.
Proof.
  intros I Hsl Hin.
  destruct (env_free_run L ext e fl pfl sl s I Hsl Hin) as (s' & pfl' & t & E & F & Ht & It & Ct & Hsub & Hno & Hfl).
  exists s', pfl'. split; [done|]. split; [done|].
  assert (HeL : e ∉ L) by (pose proof (kinv_NoDup _ _ _ _ _ I) as N; by apply NoDup_cons in N as [? _]).
  assert (Ho : forall j, j ∈ L -> env s' j = env s j).
  { intros j Hj. rewrite (fe_env _ _ _ _ _ _ _ F), decide_False; [done|]. by intros ->. }
  assert (Hdo : forall j, j ∈ L -> dir_of s' j = dir_of s j) by (intros j Hj; unfold dir_of; by rewrite Ho).
  assert (HD : dirs s' L = dirs s L) by (apply map_ext_in; intros j Hj; apply Hdo; by apply list_elem_of_In).
  assert (HS : spaces s' L = spaces s L).
  { apply map_ext_in. intros j Hj%list_elem_of_In. by rewrite Hdo, Ho. }
  assert (Hin' : forall j, j ∈ L -> j ∈ e :: L) by (intros j Hj; by right).
  destruct (k_asid _ _ _ _ _ I e ltac:(left)) as [Har _].
  split; rewrite ?HD, ?HS, ?Ht; try done.
  - intros i. rewrite <- (k_part _ _ _ _ _ I), !elem_of_cons. tauto.
  - intros i [->|Hi]%elem_of_cons; [done|]. intros HiL. by apply (k_disj _ _ _ _ _ I i Hi), Hin'.
  - intros i Hi. rewrite Hdo, Ho by done. by apply I, Hin'.
  - intros i Hi. rewrite Ho by done. destruct (k_asid _ _ _ _ _ I i (Hin' i Hi)) as [H1 H2].
    split; [done|]. rewrite (fe_asid _ _ _ _ _ _ _ F), H2 by lia.
    destruct (Z.eqb_spec (env_asid (env s e)) (env_asid (env s i))) as [Ea|]; [|done].
    apply (k_asid_inj _ _ _ _ _ I) in Ea; [by subst|left|by right].
  - intros i j Hi Hj. rewrite !Ho by done. apply I; by right.
  - intros a va Ha Hu Hva. rewrite (fe_asid _ _ _ _ _ _ _ F) in Hu by lia.
    destruct (Z.eqb_spec (env_asid (env s e)) a) as [<-|]; [by apply Hno|].
    rewrite andb_true_r in Hu. destruct (tlb t !! entryhi a va) as [v|] eqn:Hv; [|done].
    apply Hsub in Hv. by rewrite (k_stale _ _ _ _ _ I) in Hv.
  - destruct (fe_rest _ _ _ _ _ _ _ F) as (_ & _ & _ & _ & _ & _ & _ & ->). apply I.
Qed.
