(* ===== verification/EnvSpec.v ===== *)
(** * Theorems on environments: env_alloc, env_free, sys_exofork (kern/env.c, kern/syscall_all.c) *)

From Stdlib Require Import ZArith Lia.
From stdpp Require Import base numbers list gmap strings.
From S2P Require Import Prelude Queue Mmu Pmap PmapInv PmapOps PmapInsert PmapThms.
From S2P Require Import KState Elf Signo Env Sched TlbEx Signal Syscall EnvThms PmapFree EnvInv.
Import LIST.

(** ** A kernel in its initial state *)
Lemma kinv_initial ext pfl s :
  is_list (env_free_list s) (zseq 0 (Z.to_nat NENV)) -> pmap_inv [] ext pfl (pm s) ->
  tlb (pm s) = ∅ -> (exists b, base_pgdir s = slot b 0 /\ 1 <= ext b) ->
  kinv [] ext (zseq 0 (Z.to_nat NENV)) pfl s.
Proof.
  intros Hl Hp Ht Hb. split; try done.
  - intros i. rewrite elem_of_zseq. unfold NENV. split; [intros [H|H]; [lia|by apply elem_of_nil in H]|]. left. lia.
  - intros i _. apply not_elem_of_nil.
  - intros i H. by apply elem_of_nil in H.
  - intros i H. by apply elem_of_nil in H.
  - intros i j H. by apply elem_of_nil in H.
  - intros d a va e H. by apply elem_of_nil in H.
  - intros a va _ _ _. by rewrite Ht, lookup_empty.
Qed.

Lemma insert_all_refines l q : NoDup l -> is_list q [] -> is_list (foldr LIST_INSERT_HEAD q l) l.
Proof.
  intros N Hq. induction N as [|x l Hx N IH]; [done|]. cbn. by apply insert_head_refines.
Qed.

(** Eight pages, the template directory in page 0, every environment free. *)
Definition small_kernel : kstate :=
  set_base_pgdir (slot 0 0)
    (set_env_sched_list (TAILQ.TAILQ_INIT (env_sched_list kernel_bss))
    (set_env_free_list (foldr LIST_INSERT_HEAD LIST.empty (zseq 0 (Z.to_nat NENV)))
    (set_pm (match page_init small with Val _ t => t | _ => small end) kernel_bss))).

Lemma small_kernel_inv : kinv [] (boot_ext 1) (zseq 0 (Z.to_nat NENV)) [7; 6; 5; 4; 3; 2; 1] small_kernel.
Proof.
  destruct (page_init_ok small) as (s1 & E1 & (Hn & _ & Ht & _) & I1).
  { by vm_compute. }
  { by vm_compute. }
  { by vm_compute. }
  { intros p i. unfold word. cbn [phys small]. rewrite lookup_empty. cbn [default from_option].
    rewrite lookup_empty. by vm_compute. }
  { intros p. unfold pp_ref. cbn [pages_ref small]. rewrite lookup_empty. by vm_compute. }
  change (reverse (zseq _ _)) with [7; 6; 5; 4; 3; 2; 1] in I1.
  change (boot_ext _) with (boot_ext 1) in I1.
  apply kinv_initial.
  - cbn [env_free_list small_kernel set_base_pgdir set_env_free_list set_env_sched_list].
    apply insert_all_refines; [apply NoDup_zseq|]. split; [constructor|done].
  - cbn [pm small_kernel set_base_pgdir set_env_free_list set_env_sched_list set_pm]. by rewrite E1.
  - cbn [pm small_kernel set_base_pgdir set_env_free_list set_env_sched_list set_pm]. rewrite E1, Ht. done.
  - exists 0. split; [done|]. vm_compute. discriminate.
Qed.

(** C22: env_alloc. With a free environment, a free page and a free ASID it returns the
    first free environment with a fresh identifier, the least free ASID, an empty user
    address space whose kernel windows are those of the template and which maps itself
    read-only, empty signal state and the initial stack pointer and status; it changes no
    other environment and no mapping of any other address space, and the invariant of the
    kernel holds with the new environment in use. With no free environment it reports
    [-E_NO_FREE_ENV] and changes nothing. *)
Theorem env_alloc_correct L ext fl pfl parent s :
  kinv L ext fl pfl s -> 0 <= mkenvid_i s < 2097151 ->
  match fl with
  | [] => env_alloc parent s = Val (Err (- E_NO_FREE_ENV)) s
  | e :: fl' => forall p pfl' a, pfl = p :: pfl' ->
      find (asid_is_free s) (zseq 0 (Z.to_nat NASID)) = Some a ->
      exists s', env_alloc parent s = Val (Ok e) s' /\
        kinv (e :: L) ext fl' pfl' s' /\ allocated L ext e p a parent s s' /\
        ENVX (env_id (env s' e)) = e /\ env_parent_id (env s' e) = parent /\
        (length (regs (env_tf (env s e))) = 32%nat -> reg (env_tf (env s' e)) 29 = USTACKTOP - 8)
  end.
Proof.
  intros I Hc. destruct fl as [|e fl].
  { unfold env_alloc. mstep. by rewrite (proj2 (is_list_empty _ _ (k_free _ _ _ _ _ I)) eq_refl). }
  intros p pfl' a -> Ha.
  destruct (env_alloc_ok L ext e fl p pfl' parent s a I Hc Ha) as (s' & E & A & I').
  exists s'. assert (He : 0 <= e < NENV) by (apply (k_part _ _ _ _ _ I); left; left).
  unfold NENV in He. split_and!; try done.
  - rewrite (al_env _ _ _ _ _ _ _ _ A). cbn. rewrite ENVX_mod by lia. dlia.
  - by rewrite (al_env _ _ _ _ _ _ _ _ A).
  - intros Hlen. rewrite (al_env _ _ _ _ _ _ _ _ A). unfold reg. cbn.
    by rewrite nth_lookup, list_lookup_insert_eq by (rewrite Hlen; lia).
Qed.

Lemma env_alloc_correct_witness : exists s', env_alloc 0 small_kernel = Val (Ok 0) s' /\
  kinv [0] (boot_ext 1) (zseq 1 (Z.to_nat 1023)) [6; 5; 4; 3; 2; 1] s'.
Proof.
  destruct (env_alloc_correct _ _ _ _ 0 small_kernel small_kernel_inv ltac:(vm_compute; split; [discriminate|reflexivity])
    7 [6; 5; 4; 3; 2; 1] 0 eq_refl ltac:(vm_compute; reflexivity)) as (s' & E & I & _).
  exists s'. split; [exact E|exact I].
Defined.

(** One environment in use and runnable in the small kernel. *)
Definition one_env : kstate :=
  match (env_alloc 0 ;; upd_env 0 (with_env_status ENV_RUNNABLE) ;; sched_insert_tail 0 ;;
         modify (set_curenv (Some 0))) small_kernel with
  | Val _ s => s
  | _ => small_kernel
  end.

Lemma one_env_ok : kinv [0] (boot_ext 1) (zseq 1 (Z.to_nat 1023)) [6; 5; 4; 3; 2; 1] one_env /\
  TAILQ.is_tailq (env_sched_list one_env) [0] /\ curenv one_env = Some 0 /\
  env_status (env one_env 0) = ENV_RUNNABLE.
Proof.
  destruct (env_alloc_ok [] (boot_ext 1) 0 (zseq 1 (Z.to_nat 1023)) 7 [6; 5; 4; 3; 2; 1] 0 small_kernel 0
    small_kernel_inv ltac:(vm_compute; split; [discriminate|reflexivity]) ltac:(vm_compute; reflexivity))
    as (s' & E & A & I).
  destruct (al_rest _ _ _ _ _ _ _ _ A) as (_ & Hq & _).
  assert (H : one_env = set_curenv (Some 0) (set_env_sched_list (TAILQ.TAILQ_INSERT_TAIL 0 (env_sched_list s'))
    (put_env 0 (with_env_status ENV_RUNNABLE) s'))) by (unfold one_env; by rewrite (bind_val _ _ _ _ _ E)).
  rewrite H. split; [|split; [|split]].
  - clear H. apply (kinv_ext [0] (boot_ext 1) _ _ s'); [reflexivity|reflexivity|reflexivity|reflexivity| |exact I].
    intros i _.
    change (env (set_curenv _ (set_env_sched_list _ ?x)) i) with (env x i). rewrite env_put.
    destruct (decide (0 = i)) as [<-|]; split; reflexivity.
  - cbn [env_sched_list set_curenv set_env_sched_list].
    apply (TAILQ.insert_tail_refines _ []); [|apply not_elem_of_nil]. rewrite Hq. apply TAILQ.is_tailq_init.
  - reflexivity.
  - change (env (set_curenv _ (set_env_sched_list _ ?x)) 0) with (env x 0).
    rewrite env_put, decide_True by reflexivity. reflexivity.
Qed.
Lemma one_env_free i : i ∈ zseq 1 (Z.to_nat 1023) -> env_status (env one_env i) = ENV_FREE.
Proof.
  assert (H : forallb (fun i => env_status (env one_env i) =? ENV_FREE) (zseq 1 (Z.to_nat 1023)) = true)
    by (vm_compute; reflexivity).
  intros Hi. rewrite forallb_forall in H. apply Z.eqb_eq, H. by apply list_elem_of_In.
Qed.
#[local] Opaque one_env small_kernel.

(** C21: env_free on an environment that is in the run queue. It returns; every reference
    the address space held is dropped, exactly the pages left without a reference become
    free, the directory included; no mapping of another address space changes, the TLB holds
    no translation of user memory for the ASID given back, which only that environment used;
    the environment is free and out of the queue, and the invariant of the kernel holds for
    the environments that are left. *)
Theorem env_free_correct L ext fl pfl sl s e :
  kinv (e :: L) ext fl pfl s -> TAILQ.is_tailq (env_sched_list s) sl -> e ∈ sl ->
  exists s' pfl', env_free e s = Val tt s' /\ kinv L ext (e :: fl) pfl' s' /\ freed L e sl pfl pfl' s s' /\
    env_status (env s' e) = ENV_FREE /\
    (forall p, 0 <= p < npage (pm s') -> pp_ref (pm s') p = ext p + refs (dirs s' L) (phys (pm s')) p) /\
    (forall va, user_va va -> tlb (pm s') !! entryhi (env_asid (env s e)) va = None) /\
    asid_used s' (env_asid (env s e)) = false.
Proof.
  intros I Hsl Hin. destruct (env_free_ok L ext e fl pfl sl s I Hsl Hin) as (s' & pfl' & E & F & I').
  destruct (k_asid _ _ _ _ _ I e ltac:(left)) as [Har _].
  assert (Hu : asid_used s' (env_asid (env s e)) = false)
    by (rewrite (fe_asid _ _ _ _ _ _ _ F), Z.eqb_refl by lia; apply andb_false_r).
  exists s', pfl'. do 3 (split; [done|]). split_and!; [..|done].
  - by rewrite (fe_env _ _ _ _ _ _ _ F), decide_True.
  - intros p Hp. by apply (inv_ref _ _ _ _ (k_pm _ _ _ _ _ I')).
  - intros va Hva. by apply (k_stale _ _ _ _ _ I').
Qed.

Lemma env_free_correct_witness : exists s' pfl', env_free 0 one_env = Val tt s' /\
  kinv [] (boot_ext 1) (0 :: zseq 1 (Z.to_nat 1023)) pfl' s'.
Proof.
  destruct one_env_ok as (I & Hq & _).
  destruct (env_free_correct [] _ _ _ [0] one_env 0 I Hq ltac:(left)) as (s' & pfl' & E & I' & _).
  exists s', pfl'. exact (conj E I').
Defined.

(** env_alloc does not look at the result of env_setup_vm. When no page is free it
    still returns 0, with a new identifier and the environment taken off the free list,
    whose [env_pgdir] is the one its slot held before: null, or the directory of an
    environment that was destroyed. *)
Theorem env_alloc_ignores_no_mem L ext e fl parent s :
  kinv L ext (e :: fl) [] s -> 0 <= mkenvid_i s < 2097151 ->
  exists s', env_alloc parent s = Val (Ok e) s' /\ is_list (env_free_list s') fl /\
    env_pgdir (env s' e) = env_pgdir (env s e) /\
    env_id (env s' e) = (mkenvid_i s + 1) * 2048 + e.
Proof.
  intros I Hc. assert (He : 0 <= e < NENV) by (apply (k_part _ _ _ _ _ I); left; left).
  destruct (remove_head_refines _ _ _ (k_free _ _ _ _ _ I)) as (q & Eq & Hq).
  pose proof (is_list_head _ _ _ (k_free _ _ _ _ _ I)) as Hh.
  assert (Ev : env_setup_vm e (set_env_free_list q s) = Val (- E_NO_MEM) (set_env_free_list q s)).
  { unfold env_setup_vm. rewrite (bind_pmap_id _ _ _ (Err (- E_NO_MEM))); [done|].
    apply page_alloc_empty, (inv_fl _ _ _ _ (k_pm _ _ _ _ _ I)). }
  unfold env_alloc. mstep. destruct (LIST_EMPTY (env_free_list s)) eqn:Ee;
    [by apply (is_list_empty _ _ (k_free _ _ _ _ _ I)) in Ee|].
  rewrite Hh. cbn [lift_opt]. mstep. rewrite Eq. cbn [lift_opt]. msteps. rewrite !bind_upd_env.
  set (s1 := put_env _ _ (put_env _ _ (put_env _ _ _))).
  destruct (find (asid_is_free s1) (zseq 0 (Z.to_nat NASID))) as [a|] eqn:Ha.
  - rewrite (bind_val _ _ _ (Ok a) (asid_mark a s1)) by (rewrite asid_alloc_eq; by rewrite Ha).
    rewrite bind_upd_env. erewrite bind_val by (apply mkenvid_eq; [exact He|exact Hc]).
    rewrite !bind_upd_env. eexists. split; [reflexivity|]. split; [exact Hq|]. unfold s1.
    autorewrite with mos_env. rewrite !decide_True by done. done.
  - rewrite (bind_val _ _ _ (Err (- E_NO_FREE_ENV)) s1) by (rewrite asid_alloc_eq; by rewrite Ha).
    mstep. erewrite bind_val by (apply mkenvid_eq; [exact He|exact Hc]).
    rewrite !bind_upd_env. eexists. split; [reflexivity|]. split; [exact Hq|]. unfold s1.
    autorewrite with mos_env. rewrite !decide_True by done. done.
Qed.

(** Without free pages, everything else as before. *)
Lemma pmap_inv_no_pages D ext fl s : pmap_inv D ext fl s ->
  pmap_inv D ext [] (set_free LIST.empty s).
Proof.
  intros []. split; try done.
  - split; [constructor|done].
  - intros p H. by apply elem_of_nil in H.
  - intros p H. by apply elem_of_nil in H.
Qed.

Lemma kinv_no_pages L ext fl pfl s : kinv L ext fl pfl s ->
  kinv L ext fl [] (set_pm (set_free LIST.empty (pm s)) s).
Proof.
  intros I. apply (kinv_set_pm _ _ _ pfl); [done| |apply I|done]. apply (pmap_inv_no_pages _ _ pfl), I.
Qed.

Lemma env_alloc_ignores_no_mem_witness :
  let s := set_pm (set_free LIST.empty (pm small_kernel)) small_kernel in
  exists s', env_alloc 0 s = Val (Ok 0) s' /\ env_pgdir (env s' 0) = env_pgdir (env s 0).
Proof.
  destruct (env_alloc_ignores_no_mem [] (boot_ext 1) 0 (zseq 1 (Z.to_nat 1023)) 0 _
    (kinv_no_pages _ _ _ _ _ small_kernel_inv) ltac:(vm_compute; split; [discriminate|reflexivity]))
    as (s' & E & _ & H & _).
  exists s'. exact (conj E H).
Defined.
