(* ===== verification/MemThms.v ===== *)
(** * Theorems on the memory system calls (kern/syscall_all.c)

    sys_mem_alloc, sys_mem_map and sys_mem_unmap on every branch, from a state that
    satisfies the kernel's invariant, with the invariant preserved. *)

From Stdlib Require Import ZArith Lia.
From stdpp Require Import base numbers list gmap strings.
From S2P Require Import Prelude Queue Mmu Pmap PmapInv PmapOps PmapInsert PmapThms.
From S2P Require Import KState Elf Signo Env Sched TlbEx Signal Syscall EnvThms PmapFree EnvInv EnvSpec.
Import LIST.

(** ** Naming an environment *)

(** The environment a system call names, if it may. *)
Definition resolve (s : kstate) (envid : Z) (checkperm : bool) : option Z :=
  if envid =? 0 then curenv s else
  let e := ENVX envid in
  if (env_status (env s e) =? ENV_FREE) || negb (env_id (env s e) =? envid) then None else
  if checkperm then
    match curenv s with
    | Some c => if (e =? c) || (env_parent_id (env s e) =? env_id (env s c)) then Some e else None
    | None => None
    end
  else Some e.

Lemma envid2env_resolve s c envid checkperm : curenv s = Some c ->
  envid2env envid checkperm s = Val (match resolve s envid checkperm with
    | Some e => Ok (Some e) | None => Err (- E_BAD_ENV) end) s.
Proof.
  intros Hc. unfold envid2env, resolve. rewrite Hc. destruct (envid =? 0).
  { mstep. by rewrite Hc. }
  unfold get_env. mstep. rewrite bind_gets. cbv beta.
  destruct (_ || _); [done|]. destruct checkperm; [|done]. mstep. rewrite Hc.
  destruct (Z.eqb_spec (ENVX envid) c) as [->|Hne]; cbn [orb].
  { by rewrite bool_decide_eq_true_2. }
  rewrite bool_decide_eq_false_2 by congruence. unfold curenv_deref. msteps. rewrite Hc. cbn. mstep.
  mstep. by destruct (env_parent_id _ =? _).
Qed.

(** Free environments are marked so. *)
Definition free_marked (fl : list Z) (s : kstate) : Prop := forall i, i ∈ fl -> env_status (env s i) = ENV_FREE.

Lemma resolve_live L ext fl pfl s c envid cp e : kinv L ext fl pfl s -> free_marked fl s ->
  curenv s = Some c -> c ∈ L -> is_u32 envid -> resolve s envid cp = Some e -> e ∈ L.
Proof.
  intros I F Hc HcL Hu. unfold resolve. rewrite Hc. destruct (Z.eqb_spec envid 0); [congruence|].
  destruct (Z.eqb_spec (env_status (env s (ENVX envid))) ENV_FREE) as [|Hs]; [done|]. cbn [orb].
  destruct (negb _); [done|].
  assert (HL : ENVX envid ∈ L).
  { assert (Hr : 0 <= ENVX envid < NENV) by (unfold is_u32 in Hu; rewrite ENVX_mod by lia; unfold NENV; dlia).
    apply (k_part _ _ _ _ _ I) in Hr as [H|H]; [|done]. by apply F in H. }
  destruct cp; [|by intros [= <-]]. destruct (_ || _); [by intros [= <-]|done].
Qed.

(** ** Memory operations on an environment in use *)
Lemma legal_user va : is_illegal_va va = false -> user_va va.
Proof.
  unfold is_illegal_va, user_va. intros [H1 H2]%orb_false_iff.
  apply Z.ltb_ge in H1. apply Z.leb_gt in H2.
  unfold UTEMP, UCOW, UTEXT, PDMAP, BY2PG in H1. lia.
Qed.

(** The state [s'] differs from [s] in memory only, with the same current directory, and
    satisfies the invariant; the entries of the directories from UTOP on are as before. *)
Record memory_step (L : list Z) (ext : Z -> Z) (fl pfl' : list Z) (s s' : kstate) : Prop := {
  ms_only : s' = set_pm (pm s') s;
  ms_inv : kinv L ext fl pfl' s';
  ms_cur : cur_pgdir (pm s') = cur_pgdir (pm s);
  ms_npage : npage (pm s') = npage (pm s);
  ms_high : forall i k, i ∈ L -> NU <= k -> word (phys (pm s')) (dir_of s i) k = word (phys (pm s)) (dir_of s i) k }.

Definition mapping (s : kstate) (e va : Z) : option Z := lookup_pte (phys (pm s)) (dir_of s e) va.

(** Every mapping but the one of [va] in [e] is as before. *)
Definition same_mappings (L : list Z) (e va : Z) (s s' : kstate) : Prop :=
  forall i va', i ∈ L -> user_va va' -> ~ (i = e /\ VPN va' = VPN va) -> mapping s' i va' = mapping s i va'.

(** The pages of user data that are not free keep their content, and stay user data. *)
Definition same_data (L : list Z) (pfl : list Z) (s s' : kstate) : Prop :=
  forall q, data_page (dirs s L) (phys (pm s)) q -> q ∉ pfl ->
    data_page (dirs s L) (phys (pm s')) q /\ forall i, word (phys (pm s')) q i = word (phys (pm s)) q i.

Lemma same_data_words L pfl s s' :
  (forall q, data_page (dirs s L) (phys (pm s)) q -> q ∉ pfl -> data_page (dirs s L) (phys (pm s')) q) ->
  (forall q i, data_page (dirs s L) (phys (pm s')) q -> word (phys (pm s')) q i = word (phys (pm s)) q i) ->
  same_data L pfl s s'.
Proof. intros H1 H2 q Hq Hf. split; [by apply H1|]. intros i. by apply H2, H1. Qed.

Section OneEnv.
Context (L : list Z) (ext : Z -> Z) (fl pfl : list Z) (s : kstate) (I : kinv L ext fl pfl s).
Context (e va : Z) (He : e ∈ L) (Hva : user_va va).

Lemma env_space : (dir_of s e, env_asid (env s e)) ∈ spaces s L.
Proof using He. apply elem_of_spaces. by exists e. Qed.

Lemma frame_mappings t new :
  pt_effect (dirs s L) (dir_of s e) (env_asid (env s e)) va new (pm s) t ->
  same_mappings L e va s (set_pm t s).
Proof using I He.
  intros Eff i va' Hi Hva' Hne. unfold mapping. apply (eff_frame _ _ _ _ _ _ _ Eff); [by apply elem_of_dirs|done|].
  intros [Hd HV]. apply Hne. split; [|done]. by apply (dir_inj _ _ _ _ _ _ _ I).
Qed.

Lemma step_effect t new pfl' :
  pt_effect (dirs s L) (dir_of s e) (env_asid (env s e)) va new (pm s) t ->
  pmap_inv (dirs s L) ext pfl' t -> memory_step L ext fl pfl' s (set_pm t s).
Proof using I He Hva.
  intros Eff It. split; [done| |apply Eff|apply Eff|].
  2:{ intros i k Hi. apply (eff_high _ _ _ _ _ _ _ Eff). by apply elem_of_dirs. }
  apply (kinv_set_pm _ _ _ pfl); [done|done| |].
  - apply (coherent_effect _ _ (kinv_live _ _ _ _ _ I) _ _ _ _ _ _ env_space Hva Eff), I.
  - intros hi v. rewrite (eff_tlb _ _ _ _ _ _ _ Eff). apply tlb_subset.
Qed.

(** page_insert on an environment in use. *)
Lemma env_insert pp perm : 0 <= pp < npage (pm s) -> pp ∉ pfl -> pp_ref (pm s) pp < 65535 -> 0 <= perm < 4096 ->
  exists r s' pfl', pmap_op (page_insert (env_pgdir (env s e)) (env_asid (env s e)) pp va perm) s = Val r s' /\
    memory_step L ext fl pfl' s s' /\ same_mappings L e va s s' /\ same_data L pfl s s' /\
    ((r = 0 /\ mapping s' e va = Some (mk_pte pp perm) /\ (pp ∉ pfl') /\
      pp_ref (pm s') pp = pp_ref (pm s) pp +
        match mapping s e va with Some e0 => 1 - ind (PPN e0 =? pp) | None => 1 end /\
      (forall q i, data_page (dirs s L) (phys (pm s')) q -> word (phys (pm s')) q i = word (phys (pm s)) q i)) \/
     (r = - E_NO_MEM /\ pfl = [] /\ pfl' = [] /\ mapping s e va = None /\ mapping s' e va = None /\
      pages_ref (pm s') = pages_ref (pm s))).
Proof using I He Hva.
  intros Hpp Hfl H16 Hperm. rewrite (k_dir _ _ _ _ _ I e He).
  destruct (page_insert_ok (dirs s L) ext pfl (pm s) (dir_of s e) (env_asid (env s e)) va pp perm
    (k_pm _ _ _ _ _ I) (elem_of_dirs s L e He) Hva Hpp Hfl H16 Hperm)
    as [(E & -> & Hv)|(t & pfl' & E & [Eff It Hf HK Hrf])].
  - do 2 eexists. exists []. split; [by apply pmap_op_val|].
    assert (HN : mapping s e va = None) by (unfold mapping, lookup_pte; by rewrite Hv).
    split; [|split; [done|split; [done|right; by split_and!]]].
    split; [done| |done..]. apply (kinv_set_pm _ _ _ []); [done| | |].
    + apply pmap_inv_tlb, I.
    + apply coherent_flush, I.
    + intros hi v. apply tlb_subset.
  - exists 0. eexists. exists pfl'. split; [by apply pmap_op_val|].
    split; [by eapply step_effect|]. split; [by eapply frame_mappings|].
    split; [apply same_data_words; [intros q Hq Hn; by apply HK|apply Eff]|]. left.
    split; [done|]. split; [apply Eff|]. split; [done|]. split; [exact Hrf|]. apply Eff.
Qed.

(** page_remove on an environment in use. *)
Lemma env_remove :
  exists s' pfl', pmap_op (page_remove (env_pgdir (env s e)) (env_asid (env s e)) va) s = Val tt s' /\
    memory_step L ext fl pfl' s s' /\ same_mappings L e va s s' /\ same_data L pfl s s' /\ mapping s' e va = None /\
    (forall p, pp_ref (pm s') p = pp_ref (pm s) p -
       match mapping s e va with Some pte => ind (PPN pte =? p) | None => 0 end).
Proof using I He Hva.
  rewrite (k_dir _ _ _ _ _ I e He).
  pose proof (page_remove_ok (dirs s L) ext pfl (pm s) (dir_of s e) (env_asid (env s e)) va
    (k_pm _ _ _ _ _ I) (elem_of_dirs s L e He) Hva) as R.
  unfold mapping. destruct (lookup_pte (phys (pm s)) (dir_of s e) va) as [pte|] eqn:El.
  - destruct R as (t & E & Eff & It & Hr & Hw). eexists. exists (if pp_ref (pm s) (PPN pte) =? 1 then PPN pte :: pfl else pfl).
    split; [by apply pmap_op_val|]. split; [by eapply step_effect|]. split; [by eapply frame_mappings|].
    split; [|split; [apply Eff|exact Hr]]. apply same_data_words; [|apply Eff].
    intros q Hq _. apply (data_page_mono _ _ (phys (pm s))); [|exact Hq]. intros d i Hd _ _. symmetry. by apply Hw.
  - exists s, pfl. split; [rewrite (pmap_op_val _ _ _ _ R); by rewrite set_pm_pm|].
    split; [split; [by rewrite set_pm_pm|done..]|]. split; [done|]. split; [done|]. split; [done|]. intros p. lia.
Qed.

(** page_lookup on an environment in use. *)
Lemma env_lookup :
  exists o, pmap_op (page_lookup (env_pgdir (env s e)) va) s = Val o s /\
    match mapping s e va with
    | Some pte => exists a, o = Some (PPN pte, a)
    | None => o = None
    end.
Proof using I He Hva.
  rewrite (k_dir _ _ _ _ _ I e He).
  pose proof (page_lookup_spec (dirs s L) (pm s) (inv_mem _ _ _ _ (k_pm _ _ _ _ _ I)) (dir_of s e) va
    (elem_of_dirs s L e He) Hva) as E.
  eexists. split; [rewrite (pmap_op_val _ _ _ _ E); by rewrite set_pm_pm|].
  unfold mapping. destruct (lookup_pte _ _ _); [by eexists|done].
Qed.

(** A mapped page is in memory, in use, and counted. *)
Lemma mapped_page pte : mapping s e va = Some pte ->
  0 <= PPN pte < npage (pm s) /\ (PPN pte ∉ pfl) /\ 0 < pp_ref (pm s) (PPN pte) < 65536.
Proof using I He Hva.
  intros H. pose proof (k_pm _ _ _ _ _ I) as Ip.
  pose proof (mapped_ref_pos _ _ _ _ Ip (dir_of s e) va (elem_of_dirs s L e He) Hva pte H) as Hpos.
  destruct (lookup_some_parts _ _ _ _ Ip (dir_of s e) va (elem_of_dirs s L e He) Hva pte H) as (_ & _ & _ & _ & Hr).
  split; [done|]. split; [|done]. intros Hin. rewrite (inv_fl_ref _ _ _ _ Ip _ Hin) in Hpos. lia.
Qed.
End OneEnv.

(** The page of a mapping counted once is user data. *)
Lemma counted_once D ext fl s d va pte : pmap_inv D ext fl s -> d ∈ D -> user_va va ->
  lookup_pte (phys s) d va = Some pte -> pp_ref s (PPN pte) = 1 -> data_page D (phys s) (PPN pte).
Proof.
  intros I Hd Hva El H1.
  destruct (lookup_some_parts D ext fl s I d va Hd Hva pte El) as (V1 & V2 & V3 & V4 & V5).
  rewrite (inv_ref _ _ _ _ I) in H1 by done. pose proof (inv_ext _ _ _ _ I (PPN pte)) as Hex.
  assert (Hleaf : 1 <= zsum (fun x => ind (leaf_maps (phys s) (PPN pte) x)) (lslots D)).
  { transitivity (ind (leaf_maps (phys s) (PPN pte) (d, PDX va, PTX va))).
    - unfold leaf_maps. by rewrite V1, V2, V3, Z.eqb_refl.
    - apply (zsum_ge (fun x => ind (leaf_maps (phys s) (PPN pte) x))); [auto with mos|].
      apply elem_of_lslots. auto with mos. }
  assert (Hdirs : 0 <= zsum (fun x => ind (dir_maps (phys s) (PPN pte) x)) (dslots D)) by (apply zsum_nonneg; auto with mos).
  pose proof (ind_nonneg (bool_decide (PPN pte ∈ D))) as Hin. unfold refs in H1. split.
  - intros H. rewrite (bool_decide_eq_true_2 _ H) in *. cbn [ind] in *. lia.
  - intros d' i Hd' Hi Hv E.
    assert (1 <= zsum (fun x => ind (dir_maps (phys s) (PPN pte) x)) (dslots D)); [|lia].
    transitivity (ind (dir_maps (phys s) (PPN pte) (d', i))).
    + unfold dir_maps; cbn [fst snd]. by rewrite Hv, E, Z.eqb_refl.
    + apply (zsum_ge (fun x => ind (dir_maps (phys s) (PPN pte) x))); [auto with mos|]. by apply elem_of_dslots.
Qed.

(** What a caller needs to hold of the kernel when it traps. *)
Record caller (L : list Z) (ext : Z -> Z) (fl pfl : list Z) (c : Z) (s : kstate) : Prop := {
  ca_inv : kinv L ext fl pfl s;
  ca_free : free_marked fl s;
  ca_cur : curenv s = Some c;
  ca_live : c ∈ L }.

Lemma alloc_step L ext fl p pfl s : kinv L ext fl (p :: pfl) s ->
  exists s1, pmap_op page_alloc s = Val (Ok p) s1 /\ memory_step L ext fl pfl s s1 /\
    (forall i va, i ∈ L -> user_va va -> mapping s1 i va = mapping s i va) /\ same_data L (p :: pfl) s s1 /\
    (forall i, word (phys (pm s1)) p i = 0) /\ pp_ref (pm s1) p = 0 /\ (p ∉ pfl) /\ 0 <= p < npage (pm s1).
Proof.
  intros I. destruct (page_alloc_ok (dirs s L) ext p pfl (pm s) (k_pm _ _ _ _ _ I))
    as (t & E & It & Hz & HS & HL & Hn & Hrefs & Ht & Hcur & Hnin & Hr & H0).
  assert (Ct : tlb_coherent (spaces s L) t).
  { intros d a va v Hs Hva. rewrite Ht. intros Hv. rewrite HL.
    - by apply (k_coh _ _ _ _ _ I d a).
    - by apply (kinv_live _ _ _ _ _ I) in Hs as [? _].
    - done. }
  exists (set_pm t s). split; [by apply pmap_op_val|]. split.
  { split; [done| |done|done|].
    - apply (kinv_set_pm _ _ _ (p :: pfl)); [done|done|done|]. intros hi v. by rewrite Ht.
    - intros i k Hi _. apply HS. intros E'. destruct (free_unreferenced _ _ _ _ p (k_pm _ _ _ _ _ I) ltac:(left)) as [Href%unreferenced_data _].
      destruct Href as [Href _]. apply Href. rewrite <- E'. by apply elem_of_dirs. }
  split.
  { intros i va Hi Hva. change (mapping (set_pm t s) i va) with (lookup_pte (phys t) (dir_of s i) va).
    apply HL; [by apply elem_of_dirs|done]. }
  split. { intros q [Hq1 Hq2] [Hq3 _]%not_elem_of_cons. split; [|intros i; by apply HS]. split; [done|].
    destruct (free_unreferenced _ _ _ _ p (k_pm _ _ _ _ _ I) ltac:(left)) as [Href%unreferenced_data _].
    intros d i Hd Hi. cbn [pm set_pm]. rewrite HS; [by apply Hq2|]. intros ->. by destruct Href. }
  split; [done|]. cbn [pm set_pm]. rewrite Hn. split_and!; try done; try apply Hr.
  unfold pp_ref in *. by rewrite Hrefs.
Qed.

(** A fresh page, mapped: the two steps sys_mem_alloc and the refill handler share. *)
Lemma alloc_insert L ext fl p pfl1 s e va perm : kinv L ext fl (p :: pfl1) s -> e ∈ L -> user_va va ->
  0 <= perm < 4096 ->
  exists s1, pmap_op page_alloc s = Val (Ok p) s1 /\ s1 = set_pm (pm s1) s /\
    exists r s' pfl', pmap_op (page_insert (env_pgdir (env s1 e)) (env_asid (env s1 e)) p va perm) s1 = Val r s' /\
      memory_step L ext fl pfl' s s' /\ same_mappings L e va s s' /\ same_data L (p :: pfl1) s s' /\ (p ∉ pfl') /\
      ((r = 0 /\ mapping s' e va = Some (mk_pte p perm) /\ (forall i, word (phys (pm s')) p i = 0) /\
        pp_ref (pm s') p = 1) \/
       (r = - E_NO_MEM /\ pfl1 = [] /\ mapping s' e va = mapping s e va /\ pp_ref (pm s') p = 0)).
Proof.
  intros I He Hva Hperm.
  destruct (alloc_step L ext fl p pfl1 s I) as (s1 & E1 & [Es1 I1 Hc1 Hn1 Hh1] & HM & HD1 & Hz & H0 & Hnin & Hr).
  exists s1. split; [exact E1|]. split; [exact Es1|].
  destruct (env_insert L ext fl pfl1 s1 I1 e va He Hva p perm Hr Hnin ltac:(lia) Hperm)
    as (r & s' & pfl' & E2 & [Es2 I2 Hc2 Hn2 Hh2] & Hsame & HD2 & Hres).
  assert (Hmap : mapping s1 e va = mapping s e va) by by apply HM.
  exists r, s', pfl'. split; [exact E2|].
  assert (Estep : s' = set_pm (pm s') s) by (rewrite Es2, Es1; reflexivity).
  split.
  { split; [done|done|by rewrite Hc2|by rewrite Hn2|]. intros i k Hi Hk.
    assert (Hdir : dir_of s1 i = dir_of s i) by (rewrite Es1; reflexivity). by rewrite <- Hdir, Hh2, Hdir, Hh1. }
  split.
  { intros i va' Hi Hva' Hne. rewrite Hsame, HM by done. done. }
  split.
  { intros q Hq Hf. destruct (HD1 q Hq Hf) as [Hq1 Hw1]. apply not_elem_of_cons in Hf as [_ Hf].
    assert (HD : dirs s1 L = dirs s L) by (rewrite Es1; reflexivity). rewrite <- HD in Hq1.
    destruct (HD2 q Hq1 Hf) as [Hq2 Hw2]. rewrite HD in Hq2. split; [exact Hq2|]. intros i. by rewrite Hw2. }
  destruct Hres as [(-> & Hm & Hf & Hrf & Hd)|(-> & Hp1 & Hp2 & HN1 & HN2 & Hrefs)].
  - split; [done|]. left. split; [done|]. split; [done|].
    assert (Hp1 : pp_ref (pm s') p = 1).
    { rewrite Hrf, H0. destruct (mapping s1 e va) as [e0|] eqn:Em; [|done].
      destruct (mapped_page L ext fl pfl1 s1 I1 e va He Hva e0 Em) as (_ & _ & Hpos).
      destruct (Z.eqb_spec (PPN e0) p) as [Ep|]; [rewrite Ep in Hpos; lia|done]. }
    split; [|done]. intros i. rewrite Hd; [apply Hz|].
    assert (HP : PPN (mk_pte p perm) = p).
    { pose proof (wf_npage _ _ _ (inv_mem _ _ _ _ (k_pm _ _ _ _ _ I1))). apply PPN_mk_pte; lia. }
    assert (HD : dirs s1 L = dirs s' L) by (rewrite Es2; reflexivity).
    rewrite HD. rewrite <- HP at 1.
    apply (counted_once _ ext pfl' (pm s') (dir_of s' e) va); [apply I2|by apply elem_of_dirs|done|exact Hm|by rewrite HP].
  - split; [rewrite Hp2; apply not_elem_of_nil|]. right. rewrite HN2, <- Hmap, HN1. split_and!; try done.
    unfold pp_ref in *. by rewrite Hrefs.
Qed.

(** ** The three calls on the environments they name *)

(** A page taken and mapped at [va]. *)
Definition alloc_at (e va perm : Z) : K Z :=
  o ← pmap_op page_alloc;
  match o with
  | Ok p => pgdir ← get_env e env_pgdir; asid ← get_env e env_asid; pmap_op (page_insert pgdir asid p va perm)
  | Err r => mret r
  end.

Lemma sys_mem_alloc_at s c envid e va perm : curenv s = Some c -> is_illegal_va va = false ->
  resolve s envid true = Some e -> sys_mem_alloc envid va perm s = alloc_at e va perm s.
Proof.
  intros Hc Hva Er. unfold sys_mem_alloc. rewrite Hva.
  rewrite (bind_val _ _ _ _ _ (envid2env_resolve s c envid true Hc)), Er.
  by apply bind_ext; intros [r|p] s'.
Qed.

Lemma alloc_at_run L ext fl p pfl1 s e va perm : kinv L ext fl (p :: pfl1) s -> e ∈ L -> user_va va ->
  0 <= perm < 4096 -> exists r s' pfl', alloc_at e va perm s = Val r s' /\
    memory_step L ext fl pfl' s s' /\ same_mappings L e va s s' /\ same_data L (p :: pfl1) s s' /\ (p ∉ pfl') /\
    ((r = 0 /\ mapping s' e va = Some (mk_pte p perm) /\ (forall i, word (phys (pm s')) p i = 0) /\
      pp_ref (pm s') p = 1) \/
     (r = - E_NO_MEM /\ pfl1 = [] /\ mapping s' e va = mapping s e va /\ pp_ref (pm s') p = 0)).
Proof.
  intros I He Hva Hperm.
  destruct (alloc_insert L ext fl p pfl1 s e va perm I He Hva Hperm) as (s1 & E1 & _ & r & s' & pfl' & E2 & H).
  unfold alloc_at. rewrite (bind_val _ _ _ _ _ E1). unfold get_env.
  rewrite bind_gets. cbv beta. rewrite bind_gets. cbv beta. exists r, s', pfl'. exact (conj E2 H).
Qed.

Lemma alloc_at_none L ext fl s e va perm : kinv L ext fl [] s -> alloc_at e va perm s = Val (- E_NO_MEM) s.
Proof.
  intros I. unfold alloc_at. rewrite (bind_pmap_id _ _ _ (Err (- E_NO_MEM))); [done|].
  apply page_alloc_empty, (k_pm _ _ _ _ _ I).
Qed.

(** The page at [srcva] of [src] mapped at [dstva] of [dst]. *)
Definition map_at (src srcva dst dstva perm : Z) : K Z :=
  spg ← get_env src env_pgdir;
  rp ← pmap_op (page_lookup spg srcva);
  match rp with
  | None => mret (- E_INVAL)
  | Some (pp, _) => dpg ← get_env dst env_pgdir; asid ← get_env dst env_asid; pmap_op (page_insert dpg asid pp dstva perm)
  end.

Lemma sys_mem_map_at s c srcid src srcva dstid dst dstva perm : curenv s = Some c ->
  is_illegal_va srcva = false -> is_illegal_va dstva = false ->
  resolve s srcid true = Some src -> resolve s dstid true = Some dst ->
  sys_mem_map srcid srcva dstid dstva perm s = map_at src srcva dst dstva perm s.
Proof.
  intros Hc Hv1 Hv2 E1 E2. unfold sys_mem_map. rewrite Hv1, Hv2. cbn [orb].
  rewrite (bind_val _ _ _ _ _ (envid2env_resolve s c srcid true Hc)), E1.
  rewrite (bind_val _ _ _ _ _ (envid2env_resolve s c dstid true Hc)), E2. cbn [env_deref lift_opt]. mstep.
  unfold map_at. apply bind_ext. intros spg s1. by apply bind_ext; intros [[pp a]|] s2.
Qed.

Lemma map_at_run L ext fl pfl s src srcva dst dstva perm : kinv L ext fl pfl s -> src ∈ L -> dst ∈ L ->
  user_va srcva -> user_va dstva -> 0 <= perm < 4096 -> (forall p, pp_ref (pm s) p < 65535) ->
  match mapping s src srcva with
  | None => map_at src srcva dst dstva perm s = Val (- E_INVAL) s
  | Some pte => (PPN pte ∉ pfl) /\ exists r s' pfl', map_at src srcva dst dstva perm s = Val r s' /\ memory_step L ext fl pfl' s s' /\
      same_mappings L dst dstva s s' /\ same_data L pfl s s' /\
      ((r = 0 /\ mapping s' dst dstva = Some (mk_pte (PPN pte) perm) /\ PPN (mk_pte (PPN pte) perm) = PPN pte) \/
       (r = - E_NO_MEM /\ pfl = [] /\ mapping s' dst dstva = mapping s dst dstva))
  end.
Proof.
  intros I Hs Hd Hv1 Hv2 Hperm H16. unfold map_at, get_env. rewrite bind_gets. cbv beta.
  destruct (env_lookup L ext fl pfl s I src srcva Hs Hv1) as (o & El & Ho).
  rewrite (bind_val _ _ _ _ _ El).
  destruct (mapping s src srcva) as [pte|] eqn:Em; [|by rewrite Ho]. destruct Ho as (a & ->).
  destruct (mapped_page L ext fl pfl s I src srcva Hs Hv1 pte Em) as (Hr & Hnin & Hpos). split; [exact Hnin|].
  rewrite bind_gets. cbv beta. rewrite bind_gets. cbv beta.
  destruct (env_insert L ext fl pfl s I dst dstva Hd Hv2 (PPN pte) perm Hr Hnin (H16 _) Hperm)
    as (r & s' & pfl' & E2 & Hstep & Hsame & Hdata & Hres).
  exists r, s', pfl'. split; [exact E2|]. split; [done|]. split; [done|]. split; [done|].
  destruct Hres as [(-> & Hm & _)|(-> & Hp1 & _ & HN1 & HN2 & _)].
  - left. split_and!; try done. pose proof (wf_npage _ _ _ (inv_mem _ _ _ _ (k_pm _ _ _ _ _ I))).
    apply PPN_mk_pte; lia.
  - right. by rewrite HN1, HN2.
Qed.

(** The page at [va] unmapped. *)
Definition unmap_at (e va : Z) : K Z :=
  pgdir ← get_env e env_pgdir; asid ← get_env e env_asid; pmap_op (page_remove pgdir asid va) ;; mret 0.

Lemma sys_mem_unmap_at s c envid e va : curenv s = Some c -> is_illegal_va va = false ->
  resolve s envid true = Some e -> sys_mem_unmap envid va s = unmap_at e va s.
Proof.
  intros Hc Hva Er. unfold sys_mem_unmap. rewrite Hva.
  rewrite (bind_val _ _ _ _ _ (envid2env_resolve s c envid true Hc)), Er. cbn [env_deref lift_opt]. by mstep.
Qed.

Lemma unmap_at_run L ext fl pfl s e va : kinv L ext fl pfl s -> e ∈ L -> user_va va ->
  exists s' pfl', unmap_at e va s = Val 0 s' /\
    memory_step L ext fl pfl' s s' /\ same_mappings L e va s s' /\ same_data L pfl s s' /\ mapping s' e va = None /\
    (forall p, pp_ref (pm s') p = pp_ref (pm s) p -
       match mapping s e va with Some pte => ind (PPN pte =? p) | None => 0 end).
Proof.
  intros I He Hva. unfold unmap_at, get_env. rewrite bind_gets. cbv beta. rewrite bind_gets. cbv beta.
  destruct (env_remove L ext fl pfl s I e va He Hva) as (s' & pfl' & E & Hrest).
  exists s', pfl'. by rewrite (bind_val _ _ _ _ _ E).
Qed.

(** C18: sys_mem_alloc on every branch. An illegal address gives [-E_INVAL], an
    environment that is neither the caller nor its child [-E_BAD_ENV], no free page
    [-E_NO_MEM], each without any change. Otherwise the first free page is taken: on success
    [va] maps to it with the requested permissions in the environment named, the page reads
    as zeros and nothing else refers to it, no other mapping of any environment and no user data
    in use changes, and the invariant of the kernel holds; if no page is left for a page table the result is
    [-E_NO_MEM] and no mapping changes, but the page taken is lost: it is neither mapped nor
    free. *)
Theorem sys_mem_alloc_correct L ext fl pfl c s envid va perm :
  caller L ext fl pfl c s -> is_u32 envid -> 0 <= perm < 4096 ->
  if is_illegal_va va then sys_mem_alloc envid va perm s = Val (- E_INVAL) s else
  match resolve s envid true, pfl with
  | None, _ => sys_mem_alloc envid va perm s = Val (- E_BAD_ENV) s
  | Some _, [] => sys_mem_alloc envid va perm s = Val (- E_NO_MEM) s
  | Some e, p :: pfl1 => exists r s' pfl', sys_mem_alloc envid va perm s = Val r s' /\
      memory_step L ext fl pfl' s s' /\ same_mappings L e va s s' /\ same_data L (p :: pfl1) s s' /\ (p ∉ pfl') /\
      ((r = 0 /\ mapping s' e va = Some (mk_pte p perm) /\ (forall i, word (phys (pm s')) p i = 0) /\
        pp_ref (pm s') p = 1) \/
       (r = - E_NO_MEM /\ pfl1 = [] /\ mapping s' e va = mapping s e va /\ pp_ref (pm s') p = 0))
  end.
Proof.
  intros [I F Hc HcL] Hu Hperm. destruct (is_illegal_va va) eqn:Hva; [unfold sys_mem_alloc; by rewrite Hva|].
  destruct (resolve s envid true) as [e|] eqn:Er.
  2:{ unfold sys_mem_alloc. rewrite Hva. by rewrite (bind_val _ _ _ _ _ (envid2env_resolve s c envid true Hc)), Er. }
  pose proof (resolve_live _ _ _ _ _ _ _ _ _ I F Hc HcL Hu Er) as He.
  rewrite !(sys_mem_alloc_at s c envid e va perm Hc Hva Er). destruct pfl as [|p pfl1]; [by apply (alloc_at_none L ext fl)|].
  by apply alloc_at_run, Hperm; [| |apply legal_user].
Qed.

(** C19: sys_mem_map on every branch. Illegal addresses give [-E_INVAL], environments the
    caller may not manipulate [-E_BAD_ENV], an unmapped source [-E_INVAL], each without any
    change; otherwise [dstva] of the destination maps to the very page [srcva] of the source
    maps to, with the requested permissions, no other mapping and no user data changes, and the
    invariant of the kernel holds; or [-E_NO_MEM] when there is no page for a page table, and then no
    mapping changes. *)
Theorem sys_mem_map_correct L ext fl pfl c s srcid srcva dstid dstva perm :
  caller L ext fl pfl c s -> is_u32 srcid -> is_u32 dstid -> 0 <= perm < 4096 ->
  (forall p, pp_ref (pm s) p < 65535) ->
  let call := sys_mem_map srcid srcva dstid dstva perm s in
  if is_illegal_va srcva || is_illegal_va dstva then call = Val (- E_INVAL) s else
  match resolve s srcid true, resolve s dstid true with
  | Some src, Some dst =>
      match mapping s src srcva with
      | None => call = Val (- E_INVAL) s
      | Some pte => exists r s' pfl', call = Val r s' /\ memory_step L ext fl pfl' s s' /\
          same_mappings L dst dstva s s' /\ same_data L pfl s s' /\
          ((r = 0 /\ mapping s' dst dstva = Some (mk_pte (PPN pte) perm) /\ PPN (mk_pte (PPN pte) perm) = PPN pte) \/
           (r = - E_NO_MEM /\ pfl = [] /\ mapping s' dst dstva = mapping s dst dstva))
      end
  | _, _ => call = Val (- E_BAD_ENV) s
  end.
Proof.
  intros [I F Hc HcL] Hu1 Hu2 Hperm H16 call. unfold call.
  destruct (is_illegal_va srcva) eqn:Hv1; [unfold sys_mem_map; by rewrite Hv1|].
  destruct (is_illegal_va dstva) eqn:Hv2; [unfold sys_mem_map; by rewrite Hv1, Hv2|]. cbn [orb].
  destruct (resolve s srcid true) as [src|] eqn:Er1.
  2:{ unfold sys_mem_map. rewrite Hv1, Hv2. cbn [orb]. by rewrite (bind_val _ _ _ _ _ (envid2env_resolve s c srcid true Hc)), Er1. }
  destruct (resolve s dstid true) as [dst|] eqn:Er2.
  2:{ unfold sys_mem_map. rewrite Hv1, Hv2. cbn [orb]. rewrite (bind_val _ _ _ _ _ (envid2env_resolve s c srcid true Hc)), Er1.
      by rewrite (bind_val _ _ _ _ _ (envid2env_resolve s c dstid true Hc)), Er2. }
  rewrite (sys_mem_map_at s c srcid src srcva dstid dst dstva perm) by done.
  pose proof (map_at_run L ext fl pfl s src srcva dst dstva perm I (resolve_live _ _ _ _ _ _ _ _ _ I F Hc HcL Hu1 Er1)
    (resolve_live _ _ _ _ _ _ _ _ _ I F Hc HcL Hu2 Er2) (legal_user _ Hv1) (legal_user _ Hv2) Hperm H16) as H.
  destruct (mapping s src srcva); [apply H|exact H].
Qed.

(** sys_mem_unmap on every branch: [-E_INVAL] and [-E_BAD_ENV] without any change, or
    0 with [va] unmapped in the environment named, one reference to the page it mapped
    dropped, no other mapping and no user data changed and the invariant of the kernel kept. *)
Theorem sys_mem_unmap_correct L ext fl pfl c s envid va :
  caller L ext fl pfl c s -> is_u32 envid ->
  if is_illegal_va va then sys_mem_unmap envid va s = Val (- E_INVAL) s else
  match resolve s envid true with
  | None => sys_mem_unmap envid va s = Val (- E_BAD_ENV) s
  | Some e => exists s' pfl', sys_mem_unmap envid va s = Val 0 s' /\
      memory_step L ext fl pfl' s s' /\ same_mappings L e va s s' /\ same_data L pfl s s' /\ mapping s' e va = None /\
      (forall p, pp_ref (pm s') p = pp_ref (pm s) p -
         match mapping s e va with Some pte => ind (PPN pte =? p) | None => 0 end)
  end.
Proof.
  intros [I F Hc HcL] Hu. destruct (is_illegal_va va) eqn:Hva; [unfold sys_mem_unmap; by rewrite Hva|].
  destruct (resolve s envid true) as [e|] eqn:Er.
  2:{ unfold sys_mem_unmap. rewrite Hva. by rewrite (bind_val _ _ _ _ _ (envid2env_resolve s c envid true Hc)), Er. }
  rewrite (sys_mem_unmap_at s c envid e va Hc Hva Er).
  by apply unmap_at_run, legal_user; [|apply (resolve_live _ _ _ _ _ _ _ _ _ I F Hc HcL Hu Er)|].
Qed.

(** ** Witnesses *)
Lemma one_env_caller : caller [0] (boot_ext 1) (zseq 1 (Z.to_nat 1023)) [6; 5; 4; 3; 2; 1] 0 one_env.
Proof.
  destruct one_env_ok as (I & _ & Hc & _). split; [exact I| |exact Hc|left].
  intros i Hi. by apply one_env_free.
Qed.

Lemma alloc_at_ok L ext fl p p' pfl c s e va perm : caller L ext fl (p :: p' :: pfl) c s ->
  e ∈ L -> user_va va -> 0 <= perm < 4096 ->
  exists s' pfl', alloc_at e va perm s = Val 0 s' /\ caller L ext fl pfl' c s' /\
    s' = set_pm (pm s') s /\ mapping s' e va = Some (mk_pte p perm).
Proof.
  intros [I F Hc HcL] He Hva Hperm. unfold alloc_at.
  destruct (alloc_step L ext fl p _ s I) as (s1 & E1 & [Es1 I1 Hc1 _ _] & HM & _ & Hz & H0 & Hnin & Hr).
  rewrite (bind_val _ _ _ _ _ E1). unfold get_env. rewrite bind_gets. cbv beta. rewrite bind_gets. cbv beta.
  destruct (env_insert L ext fl _ s1 I1 e va He Hva p perm Hr Hnin ltac:(lia) Hperm)
    as (r & s' & pfl' & E2 & [Es2 I2 Hc2 _ _] & _ & _ & [(-> & Hm & _)|(_ & H & _)]); [|discriminate H].
  assert (Es : s' = set_pm (pm s') s) by (rewrite Es2, Es1; reflexivity).
  exists s', pfl'. split; [exact E2|]. split; [|by split]. split; [exact I2| | |exact HcL].
  - intros i Hi. rewrite Es. by apply F.
  - by rewrite Es.
Qed.

(** Page 6 mapped at 0x400000 in the only environment. *)
Definition mapped_env : kstate :=
  match alloc_at 0 4194304 PTE_D one_env with Val _ s => s | _ => one_env end.

Lemma mapped_env_ok : exists pfl, caller [0] (boot_ext 1) (zseq 1 (Z.to_nat 1023)) pfl 0 mapped_env /\
  mapping mapped_env 0 4194304 = Some (mk_pte 6 PTE_D).
Proof.
  destruct (alloc_at_ok _ _ _ _ _ _ _ _ 0 4194304 PTE_D one_env_caller ltac:(left) user_4M
    ltac:(unfold PTE_D; lia)) as (s' & pfl' & E & C & _ & Hm).
  unfold mapped_env. rewrite E. exists pfl'. exact (conj C Hm).
Qed.

(** Every page is counted less often than [pp_ref] can hold. *)
Definition refs_below (m : Z) (l : list (Z * Z)) : bool := forallb (fun x => x.2 <? m) l.

Lemma small_refs s : refs_below 65535 (map_to_list (pages_ref (pm s))) = true -> forall p, pp_ref (pm s) p < 65535.
Proof.
  unfold refs_below. rewrite forallb_forall. intros H p. unfold pp_ref.
  destruct (pages_ref (pm s) !! p) as [r|] eqn:E; cbn; [|lia].
  apply Z.ltb_lt, (H (p, r)), list_elem_of_In, elem_of_map_to_list, E.
Qed.

Lemma resolve_self s c cp : curenv s = Some c -> resolve s 0 cp = Some c.
Proof. done. Qed.

Lemma legal_4M : is_illegal_va 4194304 = false.
Proof. reflexivity. Qed.

Lemma legal_8M : is_illegal_va 8388608 = false.
Proof. reflexivity. Qed.

#[local] Opaque mapped_env.

Lemma sys_mem_alloc_correct_witness : exists r s', sys_mem_alloc 0 4194304 PTE_D one_env = Val r s'.
Proof.
  pose proof (sys_mem_alloc_correct _ _ _ _ _ _ 0 4194304 PTE_D one_env_caller
    ltac:(vm_compute; split; [discriminate|reflexivity]) ltac:(vm_compute; split; [discriminate|reflexivity])) as H.
  rewrite legal_4M in H. cbv iota in H.
  pose proof (resolve_self one_env 0 true (ca_cur _ _ _ _ _ _ one_env_caller)) as Er.
  rewrite Er in H. destruct H as (r & s' & pfl' & E & _). exists r, s'. exact E.
Defined.

Lemma sys_mem_unmap_correct_witness : exists s', sys_mem_unmap 0 4194304 mapped_env = Val 0 s' /\
  mapping s' 0 4194304 = None /\ pp_ref (pm s') 6 = pp_ref (pm mapped_env) 6 - 1.
Proof.
  destruct mapped_env_ok as (pfl & C & Hm).
  pose proof (sys_mem_unmap_correct _ _ _ _ _ _ 0 4194304 C
    ltac:(vm_compute; split; [discriminate|reflexivity])) as H.
  rewrite legal_4M in H. cbv iota in H.
  pose proof (resolve_self mapped_env 0 true (ca_cur _ _ _ _ _ _ C)) as Er.
  rewrite Er in H. destruct H as (s' & pfl' & E & _ & _ & _ & HN & Hr).
  rewrite Hm in Hr. exists s'. split; [exact E|]. split; [exact HN|]. exact (Hr 6).
Defined.

Lemma sys_mem_map_correct_witness :
  (forall p, pp_ref (pm mapped_env) p < 65535) /\
  exists r s', sys_mem_map 0 4194304 0 8388608 PTE_COW mapped_env = Val r s'.
Proof.
  assert (H16 : forall p, pp_ref (pm mapped_env) p < 65535).
  { apply small_refs. vm_compute. reflexivity. }
  split; [exact H16|]. destruct mapped_env_ok as (pfl & C & Hm).
  pose proof (sys_mem_map_correct _ _ _ _ _ _ 0 4194304 0 8388608 PTE_COW C
    ltac:(vm_compute; split; [discriminate|reflexivity]) ltac:(vm_compute; split; [discriminate|reflexivity])
    ltac:(unfold PTE_COW; lia) H16) as H. cbv zeta in H.
  rewrite legal_4M, legal_8M in H. cbn [orb] in H. cbv iota in H.
  pose proof (resolve_self mapped_env 0 true (ca_cur _ _ _ _ _ _ C)) as Er.
  rewrite Er, Hm in H. destruct H as (r & s' & pfl' & E & _). exists r, s'. exact E.
Defined.
