(* ===== verification/TlbThms.v ===== *)
(** * Theorems on the TLB refill handler (kern/tlbex.c, kern/tlb_asm.S) *)

From Stdlib Require Import ZArith Lia.
From stdpp Require Import base numbers list gmap strings.
From S2P Require Import Prelude Queue Mmu Pmap PmapInv PmapOps PmapInsert PmapThms.
From S2P Require Import KState Elf Signo Env Sched TlbEx Signal Syscall EnvThms PmapFree EnvInv EnvSpec MemThms.

(** The state with the translation of [va] for [asid] in the TLB. *)
Definition with_entry (asid va pte : Z) (s : kstate) : kstate :=
  set_pm (set_tlb (<[entryhi asid va := pte]> (tlb (pm s))) (pm s)) s.

(** Writing the entry of the page table keeps the invariant. *)
Lemma tlb_fill L ext fl pfl s e va pte : kinv L ext fl pfl s -> e ∈ L -> user_va va ->
  mapping s e va = Some pte -> kinv L ext fl pfl (with_entry (env_asid (env s e)) va pte s).
Proof.
  intros I He Hva Hm. pose proof (k_asid _ _ _ _ _ I e He) as [Ha Hu]. unfold NASID in Ha.
  pose proof I as [I1 I2 I3 I4 I5 I6 I7 I8 I9 I10]. split; try done.
  - by apply pmap_inv_tlb.
  - intros d a va' v Hs Hva' Hl. cbn in Hl. change (phys _) with (phys (pm s)).
    destruct (kinv_live _ _ _ _ _ I) as (L1 & L2 & _). destruct (L1 _ _ Hs) as [_ Ha'].
    apply lookup_insert_Some in Hl as [[E <-]|[_ Hl]]; [|by apply (I8 d a)].
    apply entryhi_inj in E as [<- HV]; auto with mos.
    rewrite (lookup_pte_vpn _ _ va' va) by done. rewrite (L2 d (dir_of s e) _ Hs); [exact Hm|].
    apply elem_of_spaces. by exists e.
  - intros a va' Ha' Hua Hva'. cbn. rewrite lookup_insert_ne; [by apply I9|].
    intros E. apply entryhi_inj in E as [<- _]; auto with mos. change (asid_used s (env_asid (env s e)) = false) in Hua. congruence.
Qed.

(** The refill runs on the address space of [c], the environment that trapped. *)
Record refilling (L : list Z) (ext : Z -> Z) (fl pfl : list Z) (c : Z) (s : kstate) : Prop := {
  re_inv : kinv L ext fl pfl s;
  re_live : c ∈ L;
  re_dir : cur_pgdir (pm s) = env_pgdir (env s c);
  re_asid : hw_asid s = env_asid (env s c) }.

(** The addresses whose page the handler allocates. *)
Definition passive (va : Z) : Prop := UTEMP <= va < UTOP /\ ~ (USTACKTOP <= va < USTACKTOP + BY2PG).

Lemma PTE_ADDR_user va : user_va va -> user_va (PTE_ADDR va) /\ VPN (PTE_ADDR va) = VPN va.
Proof.
  intros H. pose proof (user_va_u32 _ H) as Hu. unfold user_va in *. rewrite PTE_ADDR_div by done.
  split; [dlia|]. unfold VPN. rewrite !shiftr_div by lia. change (2 ^ 12) with 4096. dlia.
Qed.

(** ... and the zones in which it does. *)
Lemma open_zones va pgdir asid s : UTEMP <= va < ULIM -> ~ (USTACKTOP <= va < USTACKTOP + BY2PG) -> ~ (UENVS <= va < UVPT) ->
  passive_alloc va pgdir asid s = (r ← pmap_op page_alloc;
    match r with
    | Err _ => panic "page_alloc(&p)"
    | Ok p => panic_on "page_insert" (pmap_op (page_insert pgdir asid p (PTE_ADDR va) PTE_D))
    end) s.
Proof.
  intros Hva Hst Hw. unfold passive_alloc.
  assert (HP : UENVS <= UPAGES <= UVPT) by done.
  assert (H1 : (va <? UTEMP) = false) by (apply Z.ltb_ge; lia). rewrite H1. cbn [when]. mstep.
  assert (H2 : (USTACKTOP <=? va) && (va <? USTACKTOP + BY2PG) = false).
  { destruct (Z.leb_spec USTACKTOP va), (Z.ltb_spec va (USTACKTOP + BY2PG)); cbn; done || lia. }
  assert (H3 : (UENVS <=? va) && (va <? UPAGES) = false) by (destruct (Z.leb_spec UENVS va), (Z.ltb_spec va UPAGES); done || lia).
  assert (H4 : (UPAGES <=? va) && (va <? UVPT) = false) by (destruct (Z.leb_spec UPAGES va), (Z.ltb_spec va UVPT); done || lia).
  assert (H5 : (ULIM <=? va) = false) by (apply Z.leb_gt; lia).
  rewrite H2, H3, H4, H5. cbn [andb negb]. by msteps.
Qed.

Lemma passive_zones va pgdir asid s : passive va ->
  passive_alloc va pgdir asid s = (r ← pmap_op page_alloc;
    match r with
    | Err _ => panic "page_alloc(&p)"
    | Ok p => panic_on "page_insert" (pmap_op (page_insert pgdir asid p (PTE_ADDR va) PTE_D))
    end) s.
Proof.
  intros [Hva Hst]. assert (HU : UTOP = UENVS /\ UTOP < ULIM) by done. apply open_zones; [lia|done|lia].
Qed.

Lemma refill_hit L ext fl pfl c s fuel va asid pte : refilling L ext fl pfl c s -> user_va va ->
  mapping s c va = Some pte -> do_tlb_refill_loop fuel va asid s = Val pte s.
Proof.
  intros [I Hc Hd _] Hva Hm. pose proof (k_pm _ _ _ _ _ I) as Ip.
  pose proof (elem_of_dirs s L c Hc) as HD.
  pose proof (page_lookup_spec (dirs s L) (pm s) (inv_mem _ _ _ _ Ip) (dir_of s c) va HD Hva) as E.
  unfold mapping in Hm. rewrite Hm in E.
  destruct (lookup_some_parts _ _ _ _ Ip (dir_of s c) va HD Hva pte Hm) as (_ & Hw & _ & _ & _).
  destruct fuel; cbn [do_tlb_refill_loop]; rewrite bind_gets; cbv beta; rewrite Hd, (k_dir _ _ _ _ _ I c Hc);
    rewrite (bind_pmap_id _ _ _ _ E); cbn iota beta;
    rewrite (pmap_op_val _ _ _ _ (load_slot (pm s) _ _ (PTX_range va))), Hw, set_pm_pm; reflexivity.
Qed.

Lemma refill_miss L ext fl pfl c s fuel va asid : refilling L ext fl pfl c s -> user_va va ->
  mapping s c va = None -> do_tlb_refill_loop (S fuel) va asid s =
    (passive_alloc va (env_pgdir (env s c)) asid ;; do_tlb_refill_loop fuel va asid) s.
Proof.
  intros [I Hc Hd _] Hva Hm. pose proof (k_pm _ _ _ _ _ I) as Ip.
  pose proof (page_lookup_spec (dirs s L) (pm s) (inv_mem _ _ _ _ Ip) (dir_of s c) va (elem_of_dirs s L c Hc) Hva) as E.
  unfold mapping in Hm. rewrite Hm in E. cbn [do_tlb_refill_loop]. rewrite bind_gets. cbv beta.
  rewrite Hd. rewrite (k_dir _ _ _ _ _ I c Hc) at 1. by rewrite (bind_pmap_id _ _ _ _ E).
Qed.

Lemma refilling_step L ext fl pfl pfl' c s s' : refilling L ext fl pfl c s -> memory_step L ext fl pfl' s s' ->
  cur_pgdir (pm s') = cur_pgdir (pm s) -> refilling L ext fl pfl' c s'.
Proof.
  intros [I Hc Hd Ha] [Es Is _ _ _] Hcur. split; [done|done| |]; rewrite ?Hcur, Es; done.
Qed.

Lemma bind_panic_on {B} msg (m : K Z) (k : unit -> K B) s r s' : m s = Val r s' ->
  (panic_on msg m ≫= k) s = if r =? 0 then k tt s' else Panic msg s'.
Proof.
  intros E. unfold panic_on. rewrite bind_bind, (bind_val _ _ _ _ _ E). by destruct (r =? 0).
Qed.

(** The state of the kernel after a page fault on [va] took page [p]. *)
Record faulted (L : list Z) (ext : Z -> Z) (fl pfl pfl' : list Z) (c va p : Z) (s s' : kstate) : Prop := {
  fa_inv : kinv L ext fl pfl' s';
  fa_only : s' = set_pm (pm s') s;
  fa_cur : cur_pgdir (pm s') = cur_pgdir (pm s);
  fa_map : mapping s' c va = Some (mk_pte p PTE_D);
  fa_same : same_mappings L c va s s';
  fa_data : same_data L pfl s s';
  fa_tlb : tlb (pm s') !! entryhi (hw_asid s) va = Some (mk_pte p PTE_D);
  fa_zero : forall i, word (phys (pm s')) p i = 0;
  fa_ref : pp_ref (pm s') p = 1;
  fa_npage : npage (pm s') = npage (pm s);
  fa_high : forall i k, i ∈ L -> NU <= k -> word (phys (pm s')) (dir_of s i) k = word (phys (pm s)) (dir_of s i) k }.

Lemma do_tlb_refill_ok L ext fl pfl c s va : refilling L ext fl pfl c s -> user_va va -> passive va ->
  match mapping s c va, pfl with
  | Some pte, _ => do_tlb_refill va s = Val pte (with_entry (hw_asid s) va pte s)
  | None, [] => do_tlb_refill va s = Panic "page_alloc(&p)" s
  | None, p :: pfl1 =>
      (exists s' pfl', do_tlb_refill va s = Val (mk_pte p PTE_D) s' /\ faulted L ext fl pfl pfl' c va p s s') \/
      (pfl1 = [] /\ exists s', do_tlb_refill va s = Panic "page_insert" s')
  end.
Proof.
  intros R Hva Hp. pose proof R as [I Hc Hd Ha]. unfold do_tlb_refill. rewrite bind_gets. cbv beta.
  destruct (mapping s c va) as [pte|] eqn:Hm.
  { unfold _do_tlb_refill. by rewrite (bind_val _ _ _ _ _ (refill_hit _ _ _ _ _ _ 2 va (hw_asid s) pte R Hva Hm)). }
  assert (Emiss : _do_tlb_refill va (hw_asid s) s =
    (passive_alloc va (env_pgdir (env s c)) (hw_asid s) ;; do_tlb_refill_loop 1 va (hw_asid s)) s)
    by apply (refill_miss _ _ _ _ _ _ 1 va (hw_asid s) R Hva Hm).
  destruct (PTE_ADDR_user va Hva) as [Hva' HV].
  destruct pfl as [|p pfl1].
  { apply bind_panic. rewrite Emiss. apply bind_panic. rewrite (passive_zones _ _ _ _ Hp).
    rewrite (bind_pmap_id _ _ _ (Err (- E_NO_MEM))); [done|]. apply page_alloc_empty, (k_pm _ _ _ _ _ I). }
  destruct (alloc_insert L ext fl p pfl1 s c (PTE_ADDR va) PTE_D I Hc Hva' ltac:(unfold PTE_D; lia))
    as (s1 & E1 & Es1 & r & s' & pfl' & E2 & Step & Hsame & Hdata & Hnin & Hres).
  assert (Hdir : env_pgdir (env s1 c) = env_pgdir (env s c) /\ env_asid (env s1 c) = hw_asid s)
    by (rewrite Es1, Ha; done).
  destruct Hdir as [Hd1 Ha1]. rewrite Hd1, Ha1 in E2.
  assert (Epass : forall (k : unit -> K Z), (passive_alloc va (env_pgdir (env s c)) (hw_asid s) ≫= k) s =
    if r =? 0 then k tt s' else Panic "page_insert" s').
  { intros k. unfold mbind, M_bind. rewrite (passive_zones _ _ _ _ Hp).
    rewrite (bind_val _ _ _ _ _ E1). unfold panic_on. rewrite (bind_val _ _ _ _ _ E2). by destruct (r =? 0). }
  destruct Hres as [(-> & Hm' & Hz & Hr)|(-> & Hp1 & _)].
  - left.
    assert (HmV : mapping s' c va = Some (mk_pte p PTE_D)).
    { rewrite <- Hm'. unfold mapping. apply lookup_pte_vpn. by symmetry. }
    assert (R' : refilling L ext fl pfl' c s') by exact (refilling_step _ _ _ _ _ _ _ _ R Step (ms_cur _ _ _ _ _ _ Step)).
    exists (with_entry (hw_asid s) va (mk_pte p PTE_D) s'), pfl'. split.
    { rewrite (bind_val _ _ _ (mk_pte p PTE_D) s').
      - reflexivity.
      - rewrite Emiss, Epass. cbn [Z.eqb]. by apply (refill_hit _ _ _ _ _ _ 1 va (hw_asid s) _ R' Hva HmV). }
    assert (Eas : hw_asid s = env_asid (env s' c)) by (rewrite (ms_only _ _ _ _ _ _ Step); exact Ha).
    split; [| |exact (ms_cur _ _ _ _ _ _ Step)|exact HmV| |exact Hdata|apply lookup_insert_eq|exact Hz|exact Hr|exact (ms_npage _ _ _ _ _ _ Step)|exact (ms_high _ _ _ _ _ _ Step)].
    + rewrite Eas. apply tlb_fill; [apply Step|exact Hc|exact Hva|exact HmV].
    + exact (f_equal (set_pm _) (ms_only _ _ _ _ _ _ Step)).
    + intros i va' Hi Hv Hne. change (mapping (with_entry _ _ _ s') i va') with (mapping s' i va').
      apply Hsame; [exact Hi|exact Hv|]. by rewrite HV.
  - right. split; [exact Hp1|]. exists s'. apply bind_panic. by rewrite Emiss, Epass.
Qed.

(** C20: the TLB refill handler, for an address from UTEMP to UTOP outside the page above
    the user stack, on the address space that trapped. It returns: a mapped address gives
    the entry of its page table, and only the TLB changes; an unmapped one is given the first
    free page, zeroed and writable, and no other mapping and no user data changes. In both cases the TLB then
    holds exactly the entry of the page table, and the invariant of the kernel holds, the
    coherence of the TLB included. The kernel panics when there is no page left for the
    address or for its page table. *)
Theorem do_tlb_refill_correct L ext fl pfl c s va : refilling L ext fl pfl c s -> passive va ->
  match mapping s c va, pfl with
  | Some pte, _ => exists s', do_tlb_refill va s = Val pte s' /\ kinv L ext fl pfl s' /\
      s' = set_pm (set_tlb (<[entryhi (hw_asid s) va := pte]> (tlb (pm s))) (pm s)) s
  | None, [] => do_tlb_refill va s = Panic "page_alloc(&p)" s
  | None, p :: pfl1 =>
      (exists s' pfl', do_tlb_refill va s = Val (mk_pte p PTE_D) s' /\ faulted L ext fl pfl pfl' c va p s s') \/
      (pfl1 = [] /\ exists s', do_tlb_refill va s = Panic "page_insert" s')
  end.
Proof.
  intros R Hp. assert (Hva : user_va va).
  { destruct Hp as [Hp _]. assert (HU : UTEMP = 4186112) by reflexivity. unfold user_va. lia. }
  pose proof (do_tlb_refill_ok L ext fl pfl c s va R Hva Hp) as H.
  destruct (mapping s c va) as [pte|] eqn:Hm; [|exact H].
  eexists. split; [exact H|]. split; [|reflexivity]. rewrite (re_asid _ _ _ _ _ _ R).
  apply tlb_fill; [apply R|apply R|exact Hva|exact Hm].
Qed.

(** What env_pop_tf and the switch of directory establish. *)
Definition running_as (c : Z) (s : kstate) : kstate :=
  set_hw_asid (env_asid (env s c)) (set_pm (set_cur_pgdir (env_pgdir (env s c)) (pm s)) s).

Lemma running_as_ok L ext fl pfl c s : kinv L ext fl pfl s -> c ∈ L -> refilling L ext fl pfl c (running_as c s).
Proof.
  intros I Hc. split; [|done..].
  apply (kinv_ext _ _ _ _ (set_pm (set_cur_pgdir (env_pgdir (env s c)) (pm s)) s)); [done..|].
  apply (kinv_set_pm _ _ _ pfl); [done| |apply I|done].
  destruct (k_pm _ _ _ _ _ I). by split.
Qed.

(** ** Witness: a fault of the only environment at 0x400000. *)
Definition running : kstate := running_as 0 one_env.

Lemma running_ok : refilling [0] (boot_ext 1) (zseq 1 (Z.to_nat 1023)) [6; 5; 4; 3; 2; 1] 0 running.
Proof. apply running_as_ok; [exact (ca_inv _ _ _ _ _ _ one_env_caller)|left]. Qed.

Lemma running_unmapped : mapping running 0 4194304 = None.
Proof. vm_compute. reflexivity. Qed.

#[local] Opaque running.

Lemma passive_4M : passive 4194304.
Proof. split; vm_compute; [split; [discriminate|reflexivity]|]. intros [H _]. by apply H. Qed.

Lemma do_tlb_refill_correct_witness : exists s' pfl', do_tlb_refill 4194304 running = Val (mk_pte 6 PTE_D) s' /\
  faulted [0] (boot_ext 1) (zseq 1 (Z.to_nat 1023)) [6; 5; 4; 3; 2; 1] pfl' 0 4194304 6 running s'.
Proof.
  pose proof (do_tlb_refill_correct _ _ _ _ _ _ 4194304 running_ok passive_4M) as H.
  rewrite running_unmapped in H. destruct H as [(s' & pfl' & E & F)|[H _]]; [|discriminate H].
  exists s', pfl'. exact (conj E F).
Defined.
