(* ===== verification/IpcThms.v ===== *)
(** * Theorems on messages between environments (kern/syscall_all.c) *)

From Stdlib Require Import ZArith Lia.
From stdpp Require Import base numbers list gmap strings.
From S2P Require Import Prelude Queue Mmu Pmap PmapInv PmapOps PmapInsert PmapThms.
From S2P Require Import KState Elf Signo Env Sched TlbEx Signal Syscall EnvThms SchedThms PmapFree EnvInv EnvSpec MemThms.

Import LIST.

(** The receiver after a message. *)
Definition with_message (value from perm : Z) (v : Env) : Env :=
  with_env_status ENV_RUNNABLE (with_env_ipc_recving 0 (with_env_ipc_perm (Z.lor PTE_V perm)
    (with_env_ipc_from from (with_env_ipc_value value v)))).

(** The state when the message is written and the receiver is at the tail of the run queue. *)
Definition message_state (e value from perm : Z) (s : kstate) : kstate :=
  set_env_sched_list (TAILQ.TAILQ_INSERT_TAIL e (env_sched_list s)) (put_env e (with_message value from perm) s).

Lemma put_put e f g s : put_env e g (put_env e f s) = put_env e (fun v => g (f v)) s.
Proof.
  unfold put_env. cbn [envs set_envs]. rewrite env_upd, decide_True by done.
  unfold set_envs at 1 3. cbn. by rewrite insert_insert_eq.
Qed.

Lemma message_state_env e value from perm s i :
  env (message_state e value from perm s) i = if decide (e = i) then with_message value from perm (env s e) else env s i.
Proof. apply env_put. Qed.

Lemma kinv_message L ext fl pfl e value from perm s :
  kinv L ext fl pfl s -> kinv L ext fl pfl (message_state e value from perm s).
Proof.
  apply kinv_ext; try reflexivity. intros i _. rewrite message_state_env.
  destruct (decide (e = i)) as [->|]; split; reflexivity.
Qed.

(** Up to the message, sys_ipc_try_send does not depend on the page to send. *)
Lemma try_send_message envid value srcva perm s c e : curenv s = Some c ->
  negb (srcva =? 0) && is_illegal_va srcva = false ->
  resolve s envid false = Some e -> env_ipc_recving (env s e) <> 0 ->
  sys_ipc_try_send envid value srcva perm s =
    (if negb (srcva =? 0) then
       pg ← get_env c env_pgdir;
       rp ← pmap_op (page_lookup pg srcva);
       match rp with
       | None => mret (- E_INVAL)
       | Some (p, _) =>
           epg ← get_env e env_pgdir;
           asid ← get_env e env_asid;
           dstva ← get_env e env_ipc_dstva;
           pmap_op (page_insert epg asid p dstva perm) ;;
           mret 0
       end
     else mret 0) (message_state e value (env_id (env s c)) perm s).
Proof.
  intros Hc Hv Hr Hrecv. unfold sys_ipc_try_send. rewrite Hv.
  rewrite (bind_val _ _ _ _ _ (envid2env_resolve s c envid false Hc)), Hr. cbn [env_deref lift_opt]. mstep.
  unfold get_env. rewrite bind_gets. cbv beta.
  destruct (Z.eqb_spec (env_ipc_recving (env s e)) 0) as [|_]; [done|].
  unfold curenv_deref. msteps. rewrite Hc. cbn [lift_opt]. mstep. unfold get_env. rewrite bind_gets. cbv beta.
  rewrite !bind_upd_env. unfold sched_insert_tail. rewrite bind_modify. rewrite !put_put. reflexivity.
Qed.

(** The page part: what becomes of the mapping at the receiver's [dstva]. *)
Record page_sent (L : list Z) (ext : Z -> Z) (fl pfl : list Z) (e pp perm : Z) (s1 s' : kstate) : Prop := {
  ps_inv : exists pfl', kinv L ext fl pfl' s';
  ps_only : s' = set_pm (pm s') s1;
  ps_same : same_mappings L e (env_ipc_dstva (env s1 e)) s1 s';
  ps_map : mapping s' e (env_ipc_dstva (env s1 e)) = Some (mk_pte pp perm) \/
    (pfl = [] /\ mapping s' e (env_ipc_dstva (env s1 e)) = None) }.

(** C23: sys_ipc_try_send on every branch. A bad address gives [-E_INVAL], an unknown
    environment [-E_BAD_ENV], one that is not receiving [-E_IPC_NOT_RECV], each without any
    change. Otherwise the receiver, and no other environment, gets the value, the sender's
    identifier and the permissions, is no longer receiving, is runnable, and is at the tail
    of the run queue. With a page to send, the receiver's [dstva] is then mapped to the page
    the sender has at [srcva] and no other mapping changes; but the page is not checked before
    the receiver is woken: when the sender has nothing at [srcva] the result is [-E_INVAL] with
    the message delivered, and when there is no memory for the mapping the result is still 0. *)
Theorem sys_ipc_try_send_correct L ext fl pfl c s sl envid value srcva perm :
  caller L ext fl pfl c s -> TAILQ.is_tailq (env_sched_list s) sl -> is_u32 envid -> 0 <= perm < 4096 ->
  (forall p, pp_ref (pm s) p < 65535) ->
  let call := sys_ipc_try_send envid value srcva perm s in
  if negb (srcva =? 0) && is_illegal_va srcva then call = Val (- E_INVAL) s else
  match resolve s envid false with
  | None => call = Val (- E_BAD_ENV) s
  | Some e =>
      if env_ipc_recving (env s e) =? 0 then call = Val (- E_IPC_NOT_RECV) s else
      (e ∉ sl) -> user_va (env_ipc_dstva (env s e)) ->
      let s1 := message_state e value (env_id (env s c)) perm s in
      kinv L ext fl pfl s1 /\ TAILQ.is_tailq (env_sched_list s1) (sl ++ [e]) /\
      (forall i, env s1 i = if decide (e = i) then with_message value (env_id (env s c)) perm (env s e) else env s i) /\
      if srcva =? 0 then call = Val 0 s1 else
      match mapping s c srcva with
      | None => call = Val (- E_INVAL) s1
      | Some pte => exists s', call = Val 0 s' /\ page_sent L ext fl pfl e (PPN pte) perm s1 s'
      end
  end.
Proof.
  intros [I F Hc HcL] Hq Hu Hperm H16 call.
  destruct (negb (srcva =? 0) && is_illegal_va srcva) eqn:Hv; [unfold call, sys_ipc_try_send; by rewrite Hv|].
  destruct (resolve s envid false) as [e|] eqn:Hr.
  2:{ unfold call, sys_ipc_try_send. rewrite Hv.
      by rewrite (bind_val _ _ _ _ _ (envid2env_resolve s c envid false Hc)), Hr. }
  pose proof (resolve_live _ _ _ _ _ _ _ _ _ I F Hc HcL Hu Hr) as He.
  destruct (Z.eqb_spec (env_ipc_recving (env s e)) 0) as [H0|H0].
  { unfold call, sys_ipc_try_send. rewrite Hv.
    rewrite (bind_val _ _ _ _ _ (envid2env_resolve s c envid false Hc)), Hr. cbn [env_deref lift_opt]. mstep.
    unfold get_env. rewrite bind_gets. cbv beta. by rewrite H0. }
  intros Hsl Hdst s1. pose proof (kinv_message _ _ _ _ e value (env_id (env s c)) perm s I) as I1. fold s1 in I1.
  split; [exact I1|]. split; [by apply (TAILQ.insert_tail_refines _ sl)|].
  split; [intros i; apply message_state_env|].
  assert (Ecall : call = _) by (apply (try_send_message envid value srcva perm s c e Hc Hv Hr H0)).
  rewrite Ecall. clear Ecall. fold s1. destruct (Z.eqb_spec srcva 0) as [Hz|Hz]; [done|]. cbn [negb andb] in *.
  apply legal_user in Hv. unfold get_env. rewrite bind_gets. cbv beta.
  destruct (env_lookup L ext fl pfl s1 I1 c srcva HcL Hv) as (o & El & Ho). rewrite (bind_val _ _ _ _ _ El).
  assert (Hmap : forall i va, mapping s1 i va = mapping s i va).
  { intros i va. unfold mapping, dir_of. unfold s1. rewrite message_state_env.
    destruct (decide (e = i)) as [->|]; reflexivity. }
  rewrite Hmap in Ho. destruct (mapping s c srcva) as [pte|] eqn:Em; [|by rewrite Ho].
  destruct Ho as (a & ->). do 3 (rewrite bind_gets; cbv beta).
  assert (Hd1 : env_ipc_dstva (env s1 e) = env_ipc_dstva (env s e))
    by (unfold s1; by rewrite message_state_env, decide_True).
  rewrite <- Hmap in Em. destruct (mapped_page L ext fl pfl s1 I1 c srcva HcL Hv pte Em) as (Hrg & Hnin & Hpos).
  destruct (env_insert L ext fl pfl s1 I1 e (env_ipc_dstva (env s1 e)) He ltac:(by rewrite Hd1) (PPN pte) perm Hrg Hnin
    (H16 _) Hperm) as (r & s' & pfl' & E2 & [M1 M2 M3] & Hsame & _ & Hres).
  exists s'. split; [by rewrite (bind_val _ _ _ _ _ E2)|]. split; [by exists pfl'|exact M1|exact Hsame|].
  destruct Hres as [(_ & Hm & _)|(_ & Hp & _ & _ & HN & _)]; [by left|by right].
Qed.

(** ** sys_exofork *)

(** The child's environment: a copy of the caller's context, scheduling and signal state. *)
Definition with_child (c : Env) (tf : Trapframe) (v : Env) : Env :=
  with_sighandler_table (sighandler_table c) (with_env_sigprocmask (env_sigprocmask c)
    (with_env_pri (env_pri c) (with_env_status ENV_NOT_RUNNABLE (with_env_tf (set_reg 2 0 tf) v)))).

Lemma exofork_run s c e s1 : curenv s = Some c -> e <> c ->
  env_alloc (env_id (env s c)) s = Val (Ok e) s1 -> env s1 c = env s c -> ktf s1 = ktf s ->
  sys_exofork s = Val (env_id (env s1 e)) (put_env e (with_child (env s c) (ktf s)) s1).
Proof.
  intros Hc Hne E Ec Ek. unfold sys_exofork, curenv_deref. msteps. rewrite Hc. cbn [lift_opt]. mstep.
  unfold get_env. rewrite bind_gets. cbv beta. rewrite (bind_val _ _ _ _ _ E), bind_gets. cbv beta.
  assert (Hp : forall f, env (put_env e f s1) c = env s c) by (intros f; by rewrite env_put, decide_False).
  rewrite !bind_upd_env, bind_gets. cbv beta. rewrite Ek, !put_put, Hp, bind_upd_env, bind_gets. cbv beta.
  rewrite !put_put, Hp, bind_upd_env, bind_gets. cbv beta. rewrite !put_put, Hp, bind_upd_env, !put_put.
  unfold gets. f_equal. by rewrite env_put, decide_True.
Qed.

(** What a successful sys_exofork leaves behind: [e] is the new environment, in the address
    space of page [p], with ASID [a]. *)
Record forked (L : list Z) (ext : Z -> Z) (fl' pfl' : list Z) (c e p a : Z) (s s' : kstate) : Prop := {
  fk_caller : caller (e :: L) ext fl' pfl' c s';
  fk_queue : env_sched_list s' = env_sched_list s;
  fk_other : forall j, j <> e -> env s' j = env s j;
  fk_empty : forall va, user_va va -> mapping s' e va = None;
  fk_maps : forall i va, i ∈ L -> user_va va -> mapping s' i va = mapping s i va;
  fk_data : forall q, data_page (dirs s L) (phys (pm s)) q -> q ∉ p :: pfl' ->
    data_page (dirs s' (e :: L)) (phys (pm s')) q /\ forall i, word (phys (pm s')) q i = word (phys (pm s)) q i;
  fk_name : env_id (env s' e) = (mkenvid_i s + 1) * 2048 + e /\ resolve s' (env_id (env s' e)) true = Some e;
  fk_env : env s' e = with_child (env s c) (ktf s) (fresh_env p a (env_id (env s c)) (env_id (env s' e)) (env s e));
  fk_rest : mkenvid_i s' = mkenvid_i s + 1 /\ hw_asid s' = hw_asid s /\ cur_pgdir (pm s') = cur_pgdir (pm s);
  fk_vm : base_pgdir s' = base_pgdir s /\ forall b, base_pgdir s = slot b 0 -> vm_ready b p (pm s) (pm s');
  fk_words : forall q i, q <> p -> word (phys (pm s')) q i = word (phys (pm s)) q i }.

(** The mappings and the user data after [env_alloc]. *)
Lemma allocated_view L ext e fl p pfl' parent s a s1 : kinv L ext (e :: fl) (p :: pfl') s ->
  allocated L ext e p a parent s s1 ->
  (forall va, user_va va -> mapping s1 e va = None) /\
  (forall i va, i ∈ L -> user_va va -> mapping s1 i va = mapping s i va) /\
  (forall q, data_page (dirs s L) (phys (pm s)) q -> q ∉ p :: pfl' ->
    data_page (dirs s1 (e :: L)) (phys (pm s1)) q /\ forall i, word (phys (pm s1)) q i = word (phys (pm s)) q i).
Proof.
  intros I A. assert (HeL : e ∉ L) by (apply (k_disj _ _ _ _ _ I); left).
  destruct (k_base _ _ _ _ _ I) as (b & Hb & _). pose proof (al_vm _ _ _ _ _ _ _ _ A b Hb) as V.
  assert (Hdir : dir_of s1 e = p) by (apply dir_of_slot; by rewrite (al_env _ _ _ _ _ _ _ _ A)).
  assert (Hdo : forall i, i ∈ L -> dir_of s1 i = dir_of s i).
  { intros i Hi. unfold dir_of. rewrite (al_other _ _ _ _ _ _ _ _ A); [done|]. by intros ->. }
  split; [|split].
  - intros va Hva. unfold mapping. rewrite Hdir. by apply (vr_none _ _ _ _ V).
  - intros i va Hi Hva. unfold mapping. rewrite <- (al_lookup _ _ _ _ _ _ _ _ A i va Hi Hva). by rewrite Hdo.
  - intros q [Hq1 Hq2] [Hqp _]%not_elem_of_cons. split; [|intros i; by apply (al_words _ _ _ _ _ _ _ _ A)].
    assert (HD : dirs s1 (e :: L) = p :: dirs s L).
    { cbn [dirs map]. rewrite Hdir. f_equal. apply map_ext_in. intros i Hi%list_elem_of_In. by apply Hdo. }
    rewrite HD. split; [by apply not_elem_of_cons|]. intros d i [->|Hd]%elem_of_cons Hi.
    + intros Hv. pose proof (vr_empty _ _ _ _ V i Hi) as Hv'. congruence.
    + assert (Hdp : d <> p).
      { intros ->. destruct (free_unreferenced _ _ _ _ p (k_pm _ _ _ _ _ I) ltac:(left)) as [Href%unreferenced_data _].
        by destruct Href. }
      rewrite (al_words _ _ _ _ _ _ _ _ A) by done. by apply Hq2.
Qed.

Lemma exofork_ok L ext e fl p pfl' c s a :
  caller L ext (e :: fl) (p :: pfl') c s -> 0 <= mkenvid_i s < 2097151 ->
  find (asid_is_free s) (zseq 0 (Z.to_nat NASID)) = Some a ->
  exists s', sys_exofork s = Val (env_id (env s' e)) s' /\ forked L ext fl pfl' c e p a s s'.
Proof.
  intros [I F Hc HcL] Hn Ha.
  destruct (env_alloc_ok L ext e fl p pfl' (env_id (env s c)) s a I Hn Ha) as (s1 & E & A & I1).
  assert (He : 0 <= e < NENV) by (apply (k_part _ _ _ _ _ I); left; left). unfold NENV in He.
  assert (HeL : e ∉ L) by (apply (k_disj _ _ _ _ _ I); left).
  assert (Hne : e <> c) by (by intros ->).
  destruct (al_rest _ _ _ _ _ _ _ _ A) as (Hcur & Hq & Hk & _).
  assert (E' := exofork_run s c e s1 Hc Hne E (al_other _ _ _ _ _ _ _ _ A c ltac:(congruence)) Hk).
  set (s' := put_env e (with_child (env s c) (ktf s)) s1) in *.
  assert (Henv : forall j, env s' j = if decide (e = j) then with_child (env s c) (ktf s) (env s1 e) else env s1 j)
    by (intros j; apply env_put).
  assert (Hid : env_id (env s' e) = env_id (env s1 e)) by (by rewrite Henv, decide_True).
  assert (HeidE : env_id (env s1 e) = (mkenvid_i s + 1) * 2048 + e) by (by rewrite (al_env _ _ _ _ _ _ _ _ A)).
  assert (Hoth : forall j, j <> e -> env s' j = env s j).
  { intros j Hj. rewrite Henv, decide_False by congruence. by apply (al_other _ _ _ _ _ _ _ _ A). }
  assert (I' : kinv (e :: L) ext fl pfl' s').
  { apply (kinv_ext _ _ _ _ s1); try reflexivity; [|exact I1]. intros i _. rewrite Henv.
    destruct (decide (e = i)) as [<-|]; done. }
  destruct (allocated_view L ext e fl p pfl' (env_id (env s c)) s a s1 I A) as (V1 & V2 & V3).
  assert (Hdir : forall i, dir_of s' i = dir_of s1 i).
  { intros i. unfold dir_of. rewrite Henv. destruct (decide (e = i)) as [<-|]; done. }
  exists s'. split; [by rewrite Hid|]. split.
  - split; [exact I'| |by rewrite <- Hc|by right]. intros i Hi. rewrite Hoth; [apply F; by right|]. intros ->.
    by apply (k_disj _ _ _ _ _ I' e Hi); left.
  - exact Hq.
  - exact Hoth.
  - intros va Hva. unfold mapping. rewrite Hdir. by apply V1.
  - intros i va Hi Hva. unfold mapping. rewrite Hdir. by apply V2.
  - intros q Hq1 Hq2. assert (HD : dirs s' (e :: L) = dirs s1 (e :: L)) by (apply map_ext_in; intros i _; apply Hdir).
    rewrite HD. by apply V3.
  - split; [by rewrite Hid|].
    unfold resolve. change (curenv s') with (curenv s1). rewrite Hcur, Hc, Hid, HeidE.
    destruct (Z.eqb_spec ((mkenvid_i s + 1) * 2048 + e) 0); [lia|].
    assert (Hx : ENVX ((mkenvid_i s + 1) * 2048 + e) = e) by (rewrite ENVX_mod by lia; dlia).
    rewrite Hx, Hid, HeidE, Z.eqb_refl. rewrite (Hoth c) by congruence.
    rewrite Henv, decide_True by done. cbn [env_status with_child with_sighandler_table with_env_sigprocmask
      with_env_pri with_env_status Z.eqb negb orb env_parent_id with_env_tf].
    rewrite (al_env _ _ _ _ _ _ _ _ A). cbn. by rewrite Z.eqb_refl, orb_true_r.
  - rewrite Hid, HeidE. rewrite Henv, decide_True by done. by rewrite (al_env _ _ _ _ _ _ _ _ A).
  - destruct (k_base _ _ _ _ _ I) as (b & Hb & _). pose proof (al_vm _ _ _ _ _ _ _ _ A b Hb) as V.
    destruct (al_rest _ _ _ _ _ _ _ _ A) as (_ & _ & _ & ? & _ & _ & _ & ?), (vr_rest _ _ _ _ V) as (_ & _ & ?). done.
  - split; [exact (al_base _ _ _ _ _ _ _ _ A)|exact (al_vm _ _ _ _ _ _ _ _ A)].
  - exact (al_words _ _ _ _ _ _ _ _ A).
Qed.

Lemma exofork_none L ext pfl c s : caller L ext [] pfl c s -> sys_exofork s = Val (- E_NO_FREE_ENV) s.
Proof.
  intros [I F Hc HcL]. unfold sys_exofork, curenv_deref. msteps. rewrite Hc. cbn [lift_opt]. mstep. unfold get_env. mstep.
  assert (E : env_alloc (env_id (env s c)) s = Val (Err (- E_NO_FREE_ENV)) s).
  { unfold env_alloc. mstep. by rewrite (proj2 (is_list_empty _ _ (k_free _ _ _ _ _ I)) eq_refl). }
  by rewrite (bind_val _ _ _ _ _ E).
Qed.

(** C24: sys_exofork. With a free environment, page and ASID it returns the identifier of a
    new environment, a child of the caller, whose context is the caller's with 0 in $v0,
    which has the caller's priority, signal mask and handlers, an empty user address space,
    and is neither runnable nor in the run queue; the caller, every other environment and the user
    data are unchanged and the invariant of the kernel holds. With no free environment it returns
    [-E_NO_FREE_ENV] and changes nothing. *)
Theorem sys_exofork_correct L ext fl pfl c s :
  caller L ext fl pfl c s -> 0 <= mkenvid_i s < 2097151 ->
  match fl with
  | [] => sys_exofork s = Val (- E_NO_FREE_ENV) s
  | e :: fl' => forall p pfl' a, pfl = p :: pfl' ->
      find (asid_is_free s) (zseq 0 (Z.to_nat NASID)) = Some a ->
      exists s', sys_exofork s = Val (env_id (env s' e)) s' /\ forked L ext fl' pfl' c e p a s s'
  end.
Proof.
  intros C Hn. destruct fl as [|e fl]; [by apply (exofork_none L ext pfl c)|].
  intros p pfl' a -> Ha. by apply exofork_ok.
Qed.

(** ** Witnesses *)
#[local] Opaque one_env.

Lemma one_env_asid : find (asid_is_free one_env) (zseq 0 (Z.to_nat NASID)) = Some 1.
Proof. vm_compute. reflexivity. Qed.

Lemma one_env_counter : 0 <= mkenvid_i one_env < 2097151.
Proof. vm_compute. split; [discriminate|reflexivity]. Qed.

Lemma one_env_caller' : caller [0] (boot_ext 1) (1 :: zseq 2 1022) [6; 5; 4; 3; 2; 1] 0 one_env.
Proof. exact one_env_caller. Qed.

Lemma sys_exofork_correct_witness : exists s', sys_exofork one_env = Val (env_id (env s' 1)) s' /\
  caller [1; 0] (boot_ext 1) (zseq 2 1022) [5; 4; 3; 2; 1] 0 s'.
Proof.
  destruct (sys_exofork_correct _ _ _ _ 0 one_env one_env_caller' one_env_counter 6 [5; 4; 3; 2; 1] 1 eq_refl one_env_asid)
    as (s' & E & K).
  exists s'. exact (conj E (fk_caller _ _ _ _ _ _ _ _ _ _ K)).
Defined.

(** A second environment waits for a message at 0x800000; the first has a page at 0x400000. *)
Definition waiting : Env -> Env := fun v =>
  with_env_status ENV_NOT_RUNNABLE (with_env_ipc_dstva 8388608 (with_env_ipc_recving 1 v)).

Definition two_envs : kstate :=
  match (env_alloc 1 ;; upd_env 1 waiting ;; alloc_at 0 4194304 PTE_D) one_env with Val _ s => s | _ => one_env end.

Lemma two_envs_ok : exists pfl, caller [1; 0] (boot_ext 1) (zseq 2 1022) pfl 0 two_envs /\
  mapping two_envs 0 4194304 = Some (mk_pte 5 PTE_D) /\ env_sched_list two_envs = env_sched_list one_env /\
  env_ipc_recving (env two_envs 1) = 1 /\ env_ipc_dstva (env two_envs 1) = 8388608.
Proof.
  destruct one_env_caller' as [I F Hc _].
  destruct (env_alloc_ok [0] (boot_ext 1) 1 (zseq 2 1022) 6 [5; 4; 3; 2; 1] 1 one_env 1 I one_env_counter one_env_asid)
    as (s1 & E1 & A & I1).
  destruct (al_rest _ _ _ _ _ _ _ _ A) as (Hcur & Hq & _).
  set (s2 := put_env 1 waiting s1).
  assert (Henv : forall j, env s2 j = if decide (1 = j) then waiting (env s1 1) else env s1 j) by (intros j; apply env_put).
  assert (C2 : caller [1; 0] (boot_ext 1) (zseq 2 1022) [5; 4; 3; 2; 1] 0 s2).
  { split; [| |exact (eq_trans Hcur Hc)|right; left].
    - apply (kinv_ext _ _ _ _ s1); [reflexivity|reflexivity|reflexivity|reflexivity| |exact I1]. intros i _. rewrite Henv.
      destruct (decide (1 = i)) as [<-|]; split; reflexivity.
    - intros i Hi. apply elem_of_zseq in Hi as Hr. rewrite Henv, decide_False by lia.
      rewrite (al_other _ _ _ _ _ _ _ _ A) by lia. apply F. by right. }
  destruct (alloc_at_ok _ _ _ _ _ _ _ _ 0 4194304 PTE_D C2 ltac:(right; left) user_4M
    ltac:(unfold PTE_D; lia)) as (s' & pfl' & E & C & Es & Hm).
  assert (Et : two_envs = s') by (unfold two_envs; rewrite (bind_val _ _ _ _ _ E1), bind_upd_env; fold s2; by rewrite E).
  rewrite Et. exists pfl'. split; [exact C|]. split; [exact Hm|].
  assert (He : env s' 1 = env s2 1) by (rewrite Es; reflexivity).
  split; [rewrite Es; exact Hq|]. rewrite He, Henv, decide_True by reflexivity. split; reflexivity.
Qed.

Lemma two_envs_refs : forall p, pp_ref (pm two_envs) p < 65535.
Proof. apply small_refs. vm_compute. reflexivity. Qed.

Lemma two_envs_names : resolve two_envs 4097 false = Some 1.
Proof. vm_compute. reflexivity. Qed.

#[local] Opaque two_envs.

Lemma sys_ipc_try_send_correct_witness : exists s', sys_ipc_try_send 4097 42 4194304 PTE_D two_envs = Val 0 s' /\
  env_ipc_value (env s' 1) = 42 /\ env_status (env s' 1) = ENV_RUNNABLE.
Proof.
  destruct two_envs_ok as (pfl & C & Hm & Hq & Hrecv & Hdst). destruct one_env_ok as (_ & Hq1 & _).
  rewrite <- Hq in Hq1.
  pose proof (sys_ipc_try_send_correct _ _ _ _ 0 two_envs [0] 4097 42 4194304 PTE_D C Hq1
    ltac:(unfold is_u32; lia) ltac:(unfold PTE_D; lia) two_envs_refs) as H. cbv zeta in H.
  rewrite legal_4M, two_envs_names, Hrecv, Hdst, Hm in H. cbn [andb negb Z.eqb] in H. cbv iota in H.
  destruct (H ltac:(intros X; apply list_elem_of_singleton in X; discriminate X)
    ltac:(vm_compute; split; [discriminate|reflexivity])) as (_ & _ & Henv & s' & E & P).
  exists s'. split; [exact E|].
  assert (He : env s' 1 = with_message 42 (env_id (env two_envs 0)) PTE_D (env two_envs 1)).
  { rewrite (ps_only _ _ _ _ _ _ _ _ _ P), env_set_pm, Henv, decide_True by reflexivity. exact eq_refl. }
  rewrite He. split; reflexivity.
Defined.
