(* ===== verification/SysThms.v ===== *)
(** * More theorems on system calls (kern/syscall_all.c)

    sys_set_env_status and the run queue, the range check of the device calls, a system call
    with no number, and the permissions a user passes. *)

From Stdlib Require Import ZArith Lia.
From stdpp Require Import base numbers list gmap strings.
From S2P Require Import Prelude Queue Mmu Pmap PmapInv PmapOps PmapInsert PmapThms.
From S2P Require Import KState Elf Signo Env Sched TlbEx Signal Syscall Traps EnvThms SchedThms PmapFree EnvInv EnvSpec MemThms IpcThms.

(** ** The run queue holds the runnable environments *)
Record run_queue (s : kstate) (sl : list Z) : Prop := {
  rq_queue : TAILQ.is_tailq (env_sched_list s) sl;
  rq_status : forall i, i ∈ sl <-> env_status (env s i) = ENV_RUNNABLE }.

(** The queue after a change of the status of [e]. *)
Definition requeued (old status e : Z) (sl : list Z) : list Z :=
  if (old =? ENV_RUNNABLE) && (status =? ENV_NOT_RUNNABLE) then without e sl else
  if (old =? ENV_NOT_RUNNABLE) && (status =? ENV_RUNNABLE) then sl ++ [e] else sl.

Lemma set_env_status_run s c sl envid status e :
  curenv s = Some c -> run_queue s sl -> status = ENV_RUNNABLE \/ status = ENV_NOT_RUNNABLE ->
  resolve s envid true = Some e ->
  env_status (env s e) = ENV_RUNNABLE \/ env_status (env s e) = ENV_NOT_RUNNABLE ->
  exists s', sys_set_env_status envid status s = Val 0 s' /\ run_queue s' (requeued (env_status (env s e)) status e sl) /\
    (forall i, env s' i = if decide (e = i) then with_env_status status (env s e) else env s i) /\
    s' = set_env_sched_list (env_sched_list s') (set_envs (envs s') s).
Proof.
  intros Hc [Hq Hs] Hst' Hr Hold. set (old := env_status (env s e)) in *.
  assert (Hst : negb (status =? ENV_RUNNABLE) && negb (status =? ENV_NOT_RUNNABLE) = false)
    by (by destruct Hst' as [-> | ->]).
  assert (Hstep : exists q, TAILQ.is_tailq q (requeued old status e sl) /\
    sys_set_env_status envid status s = Val 0 (put_env e (with_env_status status) (set_env_sched_list q s))).
  { unfold sys_set_env_status. rewrite Hst.
    rewrite (bind_val _ _ _ _ _ (envid2env_resolve s c envid true Hc)), Hr. cbn [env_deref lift_opt]. mstep.
    unfold get_env. rewrite bind_gets. cbv beta. fold old. unfold requeued.
    destruct ((old =? ENV_RUNNABLE) && (status =? ENV_NOT_RUNNABLE)) eqn:E1.
    - apply andb_true_iff in E1 as [E1 E1']. apply Z.eqb_eq in E1, E1'.
      destruct (sched_remove_ok s sl e Hq (proj2 (Hs e) E1)) as (q & Er & Hq').
      exists q. split; [done|]. cbn [when]. rewrite (bind_val _ _ _ _ _ Er). rewrite E1, E1'. done.
    - cbn [when]. mstep. destruct ((old =? ENV_NOT_RUNNABLE) && (status =? ENV_RUNNABLE)) eqn:E2.
      + apply andb_true_iff in E2 as [E2 _]. apply Z.eqb_eq in E2.
        exists (TAILQ.TAILQ_INSERT_TAIL e (env_sched_list s)). split; [|done].
        apply (TAILQ.insert_tail_refines _ sl); [done|]. intros Hin. apply Hs in Hin. fold old in Hin. by rewrite E2 in Hin.
      + exists (env_sched_list s). split; [done|]. cbn [when]. mstep. by destruct s. }
  destruct Hstep as (q & Hq' & E). eexists. split; [exact E|].
  assert (Henv : forall i, env (put_env e (with_env_status status) (set_env_sched_list q s)) i =
    if decide (e = i) then with_env_status status (env s e) else env s i) by (intros i; exact (env_put e _ (set_env_sched_list q s) i)).
  split; [|split; [exact Henv|done]]. split; [exact Hq'|]. intros i. rewrite Henv.
  unfold requeued. destruct (decide (e = i)) as [<-|Hne].
  - cbn [env_status with_env_status]. pose proof (Hs e) as He. fold old in He.
    destruct Hold as [Ho|Ho], Hst' as [-> | ->]; rewrite Ho in He |- *; cbn; rewrite ?elem_of_app, ?elem_of_without, ?He.
    + done.
    + split; [intros [[] _]; done|done].
    + split; [done|]. intros _. right. left.
    + done.
  - rewrite <- (Hs i).
    destruct ((old =? ENV_RUNNABLE) && (status =? ENV_NOT_RUNNABLE)).
    { rewrite elem_of_without. split; [by intros [_ ?]|intros ?; split; congruence]. }
    destruct ((old =? ENV_NOT_RUNNABLE) && (status =? ENV_RUNNABLE)); [|done].
    rewrite elem_of_app, list_elem_of_singleton. split; [intros [?|?]; congruence|by left].
Qed.

(** C28: sys_set_env_status on every branch. Only the two statuses are accepted, an
    environment the caller may not manipulate gives [-E_BAD_ENV], and nothing changes then.
    Otherwise the status is set and the run queue changed so that it still holds exactly the
    runnable environments, once each: a stopped environment leaves it, an awakened one goes
    to its tail, and the order of the others is kept. *)
Theorem sys_set_env_status_correct s c sl envid status :
  curenv s = Some c -> run_queue s sl ->
  let call := sys_set_env_status envid status s in
  if negb (status =? ENV_RUNNABLE) && negb (status =? ENV_NOT_RUNNABLE) then call = Val (- E_INVAL) s else
  match resolve s envid true with
  | None => call = Val (- E_BAD_ENV) s
  | Some e => env_status (env s e) = ENV_RUNNABLE \/ env_status (env s e) = ENV_NOT_RUNNABLE ->
      exists s', call = Val 0 s' /\ run_queue s' (requeued (env_status (env s e)) status e sl) /\
      (forall i, env s' i = if decide (e = i) then with_env_status status (env s e) else env s i) /\
      s' = set_env_sched_list (env_sched_list s') (set_envs (envs s') s)
  end.
Proof.
  intros Hc Q call. destruct (negb (status =? ENV_RUNNABLE) && negb (status =? ENV_NOT_RUNNABLE)) eqn:Hst.
  { unfold call, sys_set_env_status. by rewrite Hst. }
  destruct (resolve s envid true) as [e|] eqn:Hr.
  2:{ unfold call, sys_set_env_status. rewrite Hst.
      by rewrite (bind_val _ _ _ _ _ (envid2env_resolve s c envid true Hc)), Hr. }
  intros Hold. apply (set_env_status_run s c); try done.
  destruct (Z.eqb_spec status ENV_RUNNABLE); [by left|]. destruct (Z.eqb_spec status ENV_NOT_RUNNABLE); [by right|done].
Qed.

(** Only the environments of [l] are runnable. *)
Lemma runnable_only s (l : list Z) :
  forallb (fun x : Z * Env => negb (env_status x.2 =? ENV_RUNNABLE) || bool_decide (x.1 ∈ l)) (map_to_list (envs s)) = true ->
  forall i, env_status (env s i) = ENV_RUNNABLE -> i ∈ l.
Proof.
  rewrite forallb_forall. intros H i. unfold env. destruct (envs s !! i) as [v|] eqn:E; cbn; [|discriminate].
  intros Hr. specialize (H (i, v)). rewrite <- list_elem_of_In, elem_of_map_to_list in H. specialize (H E).
  cbn [fst snd] in H. rewrite Hr in H. cbn in H. by apply bool_decide_eq_true_1 in H.
Qed.

Lemma one_env_queue : run_queue one_env [0].
Proof.
  destruct one_env_ok as (_ & Hq & _ & Hr). split; [exact Hq|]. intros i. split.
  - intros Hi. apply list_elem_of_singleton in Hi as ->. exact Hr.
  - apply runnable_only. vm_compute. reflexivity.
Qed.

#[local] Opaque one_env.

Lemma sys_set_env_status_correct_witness : exists s', sys_set_env_status 0 ENV_NOT_RUNNABLE one_env = Val 0 s' /\
  run_queue s' [].
Proof.
  pose proof (ca_cur _ _ _ _ _ _ one_env_caller) as Hc.
  pose proof (sys_set_env_status_correct one_env 0 [0] 0 ENV_NOT_RUNNABLE Hc one_env_queue) as H.
  cbv zeta in H. rewrite (resolve_self one_env 0 true Hc) in H.
  destruct one_env_ok as (_ & _ & _ & Hr). rewrite Hr in H. destruct (H (or_introl eq_refl)) as (s' & E & Q & _).
  exists s'. split; [exact E|]. exact Q.
Defined.

(** ** The range check of sys_write_dev and sys_read_dev *)

(** The three devices: console, disk, clock. *)
Definition in_device (pa len : Z) : Prop :=
  (268435456 <= pa /\ pa + len <= 268435488) \/
  (318767104 <= pa /\ pa + len <= 318784000) \/
  (352321536 <= pa /\ pa + len <= 352322048).

(** the range check of the device system calls accepts exactly the ranges inside one of
    the three devices, as long as the end of the range is below 2^32. When the end wraps it
    accepts every range from the console upwards that ends below the last device, which no
    device contains. *)
Theorem dev_ok_range pa len : is_u32 pa -> is_u32 len ->
  (pa + len < 4294967296 -> dev_ok pa len = true <-> in_device pa len) /\
  (4294967296 <= pa + len -> dev_ok pa len = true <-> 268435456 <= pa /\ pa + len <= 4294967296 + 268435488 \/
     318767104 <= pa /\ pa + len <= 4294967296 + 318784000 \/ 352321536 <= pa /\ pa + len <= 4294967296 + 352322048) /\
  (4294967296 <= pa + len -> ~ in_device pa len).
Proof.
  intros Hp Hl. unfold is_u32, in_device, dev_ok in *. split; [|split].
  - intros Hlt. rewrite u32_small by (unfold is_u32; lia). rewrite !orb_true_iff, !andb_true_iff, !Z.leb_le. lia.
  - intros Hge. assert (Hu : u32 (pa + len) = pa + len - 4294967296) by (unfold u32; dlia).
    rewrite Hu, !orb_true_iff, !andb_true_iff, !Z.leb_le. lia.
  - lia.
Qed.

Lemma dev_ok_range_witness : dev_ok 268435456 32 = true /\ dev_ok 4294967040 256 = true /\ ~ in_device 4294967040 256.
Proof.
  destruct (dev_ok_range 268435456 32 ltac:(unfold is_u32; lia) ltac:(unfold is_u32; lia)) as (H1 & _ & _).
  destruct (dev_ok_range 4294967040 256 ltac:(unfold is_u32; lia) ltac:(unfold is_u32; lia)) as (_ & H2 & H3).
  split; [apply H1; unfold in_device; lia|]. split; [apply H2; lia|apply H3; lia].
Defined.

(** ** A system call number outside the table *)

(** Nothing pending: the return path does nothing. *)
Lemma no_signal l c s : curenv s = Some c -> signoHeader (env s c) = None -> _do_signal l s = Val tt s.
Proof.
  intros Hc Hs. unfold _do_signal, curenv_deref. msteps. rewrite Hc. cbn [lift_opt]. mstep.
  unfold get_env. rewrite bind_gets. cbv beta. by rewrite Hs.
Qed.

(** an exception for a system call whose number is not in the table, with no signal
    pending: $v0 is set to [-E_NO_SYS] but the EPC still points at the system call
    instruction, so that the program executes it again, and the next time the frame does
    not change at all: the environment repeats the call for ever. *)
Theorem bad_syscall_repeats tf s c : curenv s = Some c -> signoHeader (env s c) = None ->
  exc_code tf = 8 -> s32 (reg tf 4) < 0 \/ MAX_SYSNO <= s32 (reg tf 4) -> length (regs tf) = 32%nat ->
  let tf' := set_reg 2 (u32 (- E_NO_SYS)) tf in
  exception tf s = Val tf' (set_ktf tf' s) /\ cp0_epc tf' = cp0_epc tf /\
  exception tf' (set_ktf tf' s) = Val tf' (set_ktf tf' s).
Proof.
  intros Hc Hsig Hexc Hno Hlen tf'.
  assert (Key : forall t s0, curenv s0 = Some c -> signoHeader (env s0 c) = None -> exc_code t = 8 ->
    s32 (reg t 4) < 0 \/ MAX_SYSNO <= s32 (reg t 4) ->
    exception t s0 = Val (set_reg 2 (u32 (- E_NO_SYS)) t) (set_ktf (set_reg 2 (u32 (- E_NO_SYS)) t) s0)).
  { intros t s0 Hc0 Hs0 He0 Hn0. unfold exception. rewrite He0. cbn [exception_handlers run_handler].
    assert (Ed : do_syscall (set_ktf t s0) = Val tt (set_ktf (set_reg 2 (u32 (- E_NO_SYS)) t) s0)).
    { unfold do_syscall. rewrite bind_gets. cbv beta. cbn [ktf set_ktf].
      destruct (Z.ltb_spec (s32 (reg t 4)) 0), (Z.leb_spec MAX_SYSNO (s32 (reg t 4))); try lia; reflexivity. }
    rewrite Ed. unfold ret_from_exception. by rewrite (bind_val _ _ _ _ _ (no_signal KTF c (set_ktf _ s0) Hc0 Hs0)). }
  split; [by apply Key|]. split; [done|].
  assert (Htf' : set_reg 2 (u32 (- E_NO_SYS)) tf' = tf').
  { unfold tf', set_reg. cbn [regs cp0_status hi lo cp0_badvaddr cp0_cause cp0_epc]. by rewrite list_insert_insert_eq. }
  assert (Hr4 : reg tf' 4 = reg tf 4).
  { unfold tf', reg. cbn [regs set_reg]. by rewrite !nth_lookup, list_lookup_insert_ne. }
  rewrite (Key tf' (set_ktf tf' s)) by (done || by rewrite Hr4). by rewrite Htf'.
Qed.

Lemma bad_syscall_repeats_witness :
  let tf := set_reg 4 99 (mkTf (replicate 32 0) 0 0 0 0 32 4194304) in
  let s := set_curenv (Some 0) kernel_bss in
  exception (set_reg 2 4294967291 tf) (set_ktf (set_reg 2 4294967291 tf) s) =
    Val (set_reg 2 4294967291 tf) (set_ktf (set_reg 2 4294967291 tf) s).
Proof.
  intros tf s. destruct (bad_syscall_repeats tf s 0 eq_refl eq_refl eq_refl ltac:(right; vm_compute; discriminate) eq_refl)
    as (_ & _ & E). exact E.
Defined.

(** ** Permissions are not masked *)

(** The entry of [va] in directory [d], whose table is present, replaced. *)
Definition overwrite (d va e : Z) (t : pmap_st) : pmap_st :=
  set_phys (upd (phys t) (PPN (word (phys t) d (PDX va))) (PTX va) e) t.

Lemma upd_upd m p i v w : upd (upd m p i v) p i w = upd m p i w.
Proof. unfold upd. rewrite lookup_insert_eq. cbn. by rewrite !insert_insert_eq. Qed.

Section Unmasked.
Context (D : list Z) (ext : Z -> Z) (d asid va pp perm : Z) (Hd : d ∈ D) (Hva : user_va va).

(** The two ways page_insert ends with a store of the entry. *)
Lemma overwrite_fill t v : mem_wf D (npage t) (phys t) -> valid (word (phys t) d (PDX va)) = true -> is_u32 v ->
  forall w, overwrite d va w (set_phys (upd (phys t) (PPN (word (phys t) d (PDX va))) (PTX va) v) t) =
    set_phys (upd (phys t) (PPN (word (phys t) d (PDX va))) (PTX va) w) t.
Proof using Hd Hva.
  intros W V Hu w. unfold overwrite. cbn [phys set_phys].
  rewrite (set_leaf_dir D _ _ W d (PDX va)) by auto with mos. by rewrite upd_upd.
Qed.

Lemma insert_new_any fl s : pmap_inv D ext fl s -> 0 <= pp < npage s ->
  page_insert_new (slot d 0) asid pp va perm s =
    match page_insert_new (slot d 0) asid pp va 0 s with
    | Val 0 t => Val 0 (overwrite d va (mk_pte pp perm) t)
    | o => o
    end.
Proof using Hd Hva.
  intros I Hpp. set (s1 := set_tlb (delete (entryhi asid va) (tlb s)) s).
  pose proof (pmap_inv_tlb _ _ _ _ (delete (entryhi asid va) (tlb s)) I) as I1. fold s1 in I1.
  assert (E1 : tlb_invalidate asid va s = Val tt s1) by done.
  unfold page_insert_new. rewrite !(bind_val _ _ _ _ _ E1).
  destruct (walk_create D ext fl s1 d va I1 Hd Hva) as [(E & _ & _)|(fl' & s2 & C & E)];
    rewrite !(bind_val _ _ _ _ _ E); [done|].
  unfold set_pte. rewrite !(bind_val _ _ _ _ _ (store_slot _ _ _ _ (PTX_range va))). mstep. mstep.
  unfold mret, M_ret. f_equal. symmetry.
  pose proof (inv_mem _ _ _ _ (cr_inv _ _ _ _ _ _ _ _ C)) as W2. pose proof (wf_npage _ _ _ (inv_mem _ _ _ _ I)).
  assert (Hu : is_u32 (mk_pte pp 0)) by (apply mk_pte_u32; unfold is_u32; lia).
  exact (f_equal (set_pp_ref pp (pp_ref s2 pp + 1))
    (overwrite_fill s2 (mk_pte pp 0) W2 (cr_table _ _ _ _ _ _ _ _ C) Hu (mk_pte pp perm))).
Qed.

(** page_insert uses [perm] in the stored entry only: whatever it is, the result is the one
    for [perm = 0] with the entry of [va] overwritten. *)
Lemma page_insert_any fl s : pmap_inv D ext fl s -> 0 <= pp < npage s ->
  page_insert (slot d 0) asid pp va perm s =
    match page_insert (slot d 0) asid pp va 0 s with
    | Val 0 t => Val 0 (overwrite d va (mk_pte pp perm) t)
    | o => o
    end.
Proof using Hd Hva.
  intros I Hpp. pose proof (inv_mem _ _ _ _ I) as W. pose proof (insert_new_any fl s I Hpp) as New.
  unfold page_insert. rewrite !(bind_val _ _ _ _ _ (walk_nocreate D s W d va Hd Hva)).
  destruct (valid (word (phys s) d (PDX va))) eqn:V; [|exact New].
  rewrite !(bind_val _ _ _ _ _ (load_slot _ _ _ (PTX_range va))).
  change (hasbits ?x PTE_V) with (valid x). destruct (valid (word (phys s) _ (PTX va))) eqn:V2; [|exact New].
  pose proof (wf_leaf_range _ _ _ W d (PDX va) (PTX va) Hd (PDX_user _ Hva) (PTX_range _) V V2) as HP.
  rewrite !(bind_val _ _ _ _ _ (pa2page_pte s _ HP)).
  destruct (negb _) eqn:Ep.
  - pose proof (page_remove_ok D ext fl s d asid va I Hd Hva) as R. unfold lookup_pte in R. rewrite V, V2 in R.
    destruct R as (s1 & ER & Eff & I1 & _). rewrite !(bind_val _ _ _ _ _ ER).
    apply (insert_new_any _ s1 I1). by rewrite (eff_npage _ _ _ _ _ _ _ Eff).
  - unfold tlb_invalidate, tlb_out. mstep. mstep. unfold set_pte.
    rewrite !(bind_val _ _ _ _ _ (store_slot _ _ _ _ (PTX_range va))). unfold mret, M_ret. f_equal. symmetry.
    apply (overwrite_fill (set_tlb _ s)); [exact W|exact V|]. pose proof (wf_npage _ _ _ W).
    apply mk_pte_u32; unfold is_u32; lia.
Qed.

(** What the overwritten entry means: the page it names, and the references. *)
Lemma overwrite_ok fl t e0 : pmap_inv D ext fl t -> is_u32 perm -> 0 <= pp < 524288 ->
  lookup_pte (phys t) d va = Some e0 ->
  let t' := overwrite d va (mk_pte pp perm) t in
  lookup_pte (phys t') d va = Some (mk_pte pp perm) /\
  (forall d' va', d' ∈ D -> user_va va' -> ~ (d' = d /\ VPN va' = VPN va) ->
    lookup_pte (phys t') d' va' = lookup_pte (phys t) d' va') /\
  forall q, refs D (phys t') q = refs D (phys t) q + ind (PPN (mk_pte pp perm) =? q) - ind (PPN e0 =? q).
Proof using Hd Hva.
  intros I Hperm Hpp El t'. pose proof (inv_mem _ _ _ _ I) as W.
  destruct (lookup_some_parts D ext fl t I d va Hd Hva e0 El) as (V1 & V2 & V3 & _).
  assert (He : is_u32 (mk_pte pp perm)) by by apply mk_pte_u32.
  pose proof (set_leaf_effect D _ _ d va _ W Hd Hva V1 He) as L. rewrite valid_mk_pte in L. destruct L as [L1 L2].
  split; [exact L1|]. split; [exact L2|]. intros q.
  change (phys t') with (upd (phys t) (PPN (word (phys t) d (PDX va))) (PTX va) (mk_pte pp perm)).
  rewrite (set_leaf_refs D _ _ W d (PDX va) (PTX va)) by auto with mos. rewrite valid_mk_pte. cbn [andb].
  unfold leaf_maps. rewrite V1, V2, V3. cbn [andb]. lia.
Qed.
End Unmasked.

(** After the call, [va] of environment [e] maps with the entry of page [pp] and the
    unmasked [perm]; no other mapping changes. The page the entry names is
    [Z.lor pp (perm / 4096)], but it is [pp] that has been counted: the counts of the two
    pages no longer agree with the references to them, unless they are the same page. *)
Record chosen_page (L : list Z) (ext : Z -> Z) (e va pp perm : Z) (s s' : kstate) : Prop := {
  cp_only : s' = set_pm (pm s') s;
  cp_map : mapping s' e va = Some (mk_pte pp perm);
  cp_names : PPN (mk_pte pp perm) = Z.lor pp (perm / 4096);
  cp_same : same_mappings L e va s s';
  cp_count : forall q, 0 <= q < npage (pm s) -> pp_ref (pm s') q =
    ext q + refs (dirs s L) (phys (pm s')) q + ind (pp =? q) - ind (Z.lor pp (perm / 4096) =? q) }.

Lemma PPN_mk_pte_any pp perm : 0 <= pp < 1048576 -> 0 <= perm -> PPN (mk_pte pp perm) = Z.lor pp (perm / 4096).
Proof.
  intros Hp Hq. unfold PPN, mk_pte. rewrite !Z.shiftr_lor, page2pa_mul by done.
  rewrite !shiftr_div by lia. change (2 ^ 12) with 4096. change (PTE_V / 4096) with 0.
  rewrite Z.lor_0_r. f_equal. dlia.
Qed.

(** page_insert into an environment in use, whatever [perm] is. *)
Lemma env_insert_any L ext fl pfl s e va pp perm : kinv L ext fl pfl s -> e ∈ L -> user_va va ->
  0 <= pp < npage (pm s) -> pp ∉ pfl -> pp_ref (pm s) pp < 65535 -> is_u32 perm ->
  exists r s', pmap_op (page_insert (env_pgdir (env s e)) (env_asid (env s e)) pp va perm) s = Val r s' /\
    ((r = 0 /\ chosen_page L ext e va pp perm s s') \/ (r = - E_NO_MEM /\ pfl = [])).
Proof.
  intros I He Hva Hpp Hfl H16 Hperm. rewrite (k_dir _ _ _ _ _ I e He). pose proof (k_pm _ _ _ _ _ I) as Ip.
  pose proof (wf_npage _ _ _ (inv_mem _ _ _ _ Ip)) as Hn. pose proof (elem_of_dirs s L e He) as Hd.
  pose proof (page_insert_any (dirs s L) ext (dir_of s e) (env_asid (env s e)) va pp perm Hd Hva pfl (pm s) Ip Hpp) as E.
  destruct (page_insert_ok (dirs s L) ext pfl (pm s) (dir_of s e) (env_asid (env s e)) va pp 0 Ip Hd Hva Hpp Hfl H16
    ltac:(lia)) as [(E0 & -> & _)|(t & pfl' & E0 & [Eff It _ _ _])]; rewrite E0 in E.
  { eexists _, _. split; [apply (pmap_op_val _ _ _ _ E)|by right]. }
  eexists 0, _. split; [apply (pmap_op_val _ _ _ _ E)|]. left. split; [done|].
  assert (Hp2 : 0 <= pp < 524288) by lia.
  destruct (overwrite_ok (dirs s L) ext (dir_of s e) va pp perm Hd Hva pfl' t _ It Hperm Hp2 (eff_at _ _ _ _ _ _ _ Eff))
    as (L1 & L2 & HR).
  assert (HP : PPN (mk_pte pp perm) = Z.lor pp (perm / 4096)) by (apply PPN_mk_pte_any; unfold is_u32 in Hperm; lia).
  split; [done|exact L1|exact HP| |].
  - intros i va' Hi Hva' Hne. pose proof (frame_mappings L ext fl pfl s I e va He t _ Eff i va' Hi Hva' Hne) as F.
    rewrite <- F. apply (L2 _ _ (elem_of_dirs s L i Hi) Hva'). intros [Hdd HV]. apply Hne. split; [|exact HV].
    by apply (dir_inj L ext fl pfl s i e I).
  - intros q Hq. specialize (HR q). rewrite HP, (PPN_mk_pte pp 0) in HR by lia. cbn [pm set_pm]. rewrite HR.
    change (pp_ref (overwrite (dir_of s e) va (mk_pte pp perm) t) q) with (pp_ref t q).
    rewrite (inv_ref _ _ _ _ It) by by rewrite (eff_npage _ _ _ _ _ _ _ Eff). lia.
Qed.

(** A page sent with any [perm]. *)
Lemma send_any L ext fl pfl c s envid e value srcva pte perm : kinv L ext fl pfl s -> curenv s = Some c -> c ∈ L ->
  e ∈ L -> resolve s envid false = Some e -> is_u32 perm -> (forall p, pp_ref (pm s) p < 65535) ->
  env_ipc_recving (env s e) <> 0 -> user_va (env_ipc_dstva (env s e)) ->
  srcva <> 0 -> is_illegal_va srcva = false -> mapping s c srcva = Some pte ->
  exists s', sys_ipc_try_send envid value srcva perm s = Val 0 s' /\
    (chosen_page L ext e (env_ipc_dstva (env s e)) (PPN pte) perm
       (message_state e value (env_id (env s c)) perm s) s' \/ pfl = []).
Proof.
  intros I Hc HcL He Er Hperm H16 Hrecv Hdst Hz Hv Em.
  rewrite (try_send_message envid value srcva perm s c e Hc) by (done || by rewrite Hv, andb_false_r).
  rewrite (proj2 (Z.eqb_neq _ _) Hz). cbn [negb].
  pose proof (kinv_message _ _ _ _ e value (env_id (env s c)) perm s I) as I1.
  set (s1 := message_state e value (env_id (env s c)) perm s) in *.
  unfold get_env. rewrite bind_gets. cbv beta.
  destruct (env_lookup L ext fl pfl s1 I1 c srcva HcL (legal_user _ Hv)) as (o & El & Ho).
  rewrite (bind_val _ _ _ _ _ El).
  assert (Hmap : mapping s1 c srcva = mapping s c srcva).
  { unfold mapping, dir_of, s1. rewrite message_state_env. destruct (decide (e = c)) as [->|]; reflexivity. }
  assert (Hd1 : env_ipc_dstva (env s1 e) = env_ipc_dstva (env s e))
    by (unfold s1; by rewrite message_state_env, decide_True).
  rewrite Hmap, Em in Ho. destruct Ho as (a & ->). do 3 (rewrite bind_gets; cbv beta). rewrite Hd1.
  rewrite <- Hmap in Em.
  destruct (mapped_page L ext fl pfl s1 I1 c srcva HcL (legal_user _ Hv) pte Em) as (Hr & Hnin & _).
  destruct (env_insert_any L ext fl pfl s1 e _ (PPN pte) perm I1 He Hdst Hr Hnin (H16 _) Hperm)
    as (r & s' & E & Hres).
  exists s'. rewrite (bind_val _ _ _ _ _ E). split; [done|]. destruct Hres as [(_ & C)|(_ & ->)]; [by left|by right].
Qed.


