(* ===== verification/ElfThms.v ===== *)
(** * Theorems on the ELF loader (lib/elfloader.c)

    The segment is loaded through a callback that works on the bytes of the new address
    space: as [load_icode_mapper] does, it replaces the page of [va] by a zeroed one with
    [len] bytes of content from [offset]. *)

From Stdlib Require Import ZArith Lia.
From stdpp Require Import base numbers list.
From S2P Require Import Prelude Mmu Elf.

(** The bytes of an address space; [None] where nothing is mapped. *)
Definition image : Type := Z -> option Z.

Section Image.
Context (content : Z -> Z).

Definition page_of (a : Z) : Z := a - a mod 4096.

Definition put_page (va offset : Z) (src : option Z) (len : Z) (m : image) : image := fun a =>
  if decide (page_of va <= a < page_of va + 4096) then
    Some (match src with
          | Some o => if decide (page_of va + offset <= a < page_of va + offset + len)
                      then content (o + (a - page_of va - offset)) else 0
          | None => 0
          end)
  else m a.

Definition image_mapper (va offset perm : Z) (src : option Z) (len : Z) : M image Z :=
  modify (put_page va offset src len) ;; mret 0.

Lemma mapper_eq va offset perm src len m : image_mapper va offset perm src len m = Val 0 (put_page va offset src len m).
Proof. done. Qed.

(** The loop over the content from a page boundary. *)
Lemma load_content_ok fuel va perm fs i m : 0 <= va -> 0 <= i -> (va + i) mod 4096 = 0 ->
  va + fs + 4096 < 4294967296 -> va + i < 4294967296 -> fs - i <= 4096 * Z.of_nat fuel ->
  exists i' m', load_content image_mapper fuel va perm fs i m = Val (Ok i') m' /\
    fs <= i' /\ i <= i' /\ (va + i') mod 4096 = 0 /\ (i' = i \/ i' < fs + 4096) /\
    forall a, m' a = if decide (va + i <= a < va + i')
      then Some (if a - va <? fs then content (a - va) else 0) else m a.
Proof.
  revert i m. induction fuel as [|fuel IH]; intros i m Hva Hi Hal Hfs Hvi Hfuel; cbn [load_content].
  { destruct (Z.ltb_spec i fs); [lia|]. exists i, m. split_and!; try done; try lia.
    intros a. by rewrite decide_False by lia. }
  destruct (Z.ltb_spec i fs) as [Hlt|Hge].
  2:{ exists i, m. split_and!; try done; try lia. intros a. by rewrite decide_False by lia. }
  rewrite (bind_val _ _ _ _ _ (mapper_eq _ _ _ _ _ _)). cbn [Z.eqb negb]. unfold BY2PG.
  rewrite !u32_small by (unfold is_u32; lia).
  destruct (IH (i + 4096) (put_page (va + i) 0 (Some i) (MIN (fs - i) 4096) m)) as (i' & m' & E & H1 & H2 & H3 & H4 & H5);
    try dlia.
  exists i', m'. split; [exact E|]. split_and!; try dlia. intros a. rewrite H5.
  assert (Hpo : page_of (va + i) = va + i) by (unfold page_of; lia).
  destruct (decide (va + (i + 4096) <= a < va + i')) as [Ha|Ha].
  { by rewrite decide_True by lia. }
  unfold put_page. rewrite Hpo. destruct (decide (va + i <= a < va + i + 4096)) as [Hb|Hb].
  - destruct (decide (va + i <= a < va + i')) as [_|]; [|lia]. f_equal. unfold MIN.
    destruct (Z.leb_spec (fs - i) 4096), (Z.ltb_spec (a - va) fs).
    all: try (rewrite decide_True by lia; f_equal; lia).
    all: rewrite decide_False by lia; done.
  - by rewrite decide_False by lia.
Qed.

(** The loop over the zeroed pages. *)
Lemma load_bss_ok fuel va perm fs ms i m : 0 <= va -> 0 <= i -> (va + i) mod 4096 = 0 ->
  va + ms + 4096 < 4294967296 -> va + i < 4294967296 -> ms - i <= 4096 * Z.of_nat fuel ->
  exists i' m', load_bss image_mapper fuel va perm fs ms i m = Val 0 m' /\
    ms <= i' /\ i <= i' /\ (i' = i \/ i' < ms + 4096) /\ (va + i') mod 4096 = 0 /\
    forall a, m' a = if decide (va + i <= a < va + i') then Some 0 else m a.
Proof.
  revert i m. induction fuel as [|fuel IH]; intros i m Hva Hi Hal Hms Hvi Hfuel; cbn [load_bss].
  { destruct (Z.ltb_spec i ms); [lia|]. exists i, m. split_and!; try done; try lia.
    intros a. by rewrite decide_False by lia. }
  destruct (Z.ltb_spec i ms) as [Hlt|Hge].
  2:{ exists i, m. split_and!; try done; try lia. intros a. by rewrite decide_False by lia. }
  rewrite (bind_val _ _ _ _ _ (mapper_eq _ _ _ _ _ _)). cbn [Z.eqb negb]. unfold BY2PG.
  rewrite (u32_small (va + i)), (u32_small (i + 4096)) by (unfold is_u32; lia).
  destruct (IH (i + 4096) (put_page (va + i) 0 None (MIN (u32 (fs - i)) 4096) m)) as (i' & m' & E & H1 & H2 & H3 & H4 & H5);
    try dlia.
  exists i', m'. split; [exact E|]. split_and!; try dlia. intros a. rewrite H5.
  assert (Hpo : page_of (va + i) = va + i) by (unfold page_of; lia).
  destruct (decide (va + (i + 4096) <= a < va + i')) as [Ha|Ha].
  { by rewrite decide_True by lia. }
  unfold put_page. rewrite Hpo. destruct (decide (va + i <= a < va + i + 4096)) as [Hb|Hb].
  - by rewrite decide_True by lia.
  - by rewrite decide_False by lia.
Qed.

(** A zeroed byte stays zeroed, whatever the alignment. *)
Lemma load_bss_zero fuel va perm fs ms i m : 0 <= i -> ms + 4096 < 4294967296 -> ms - i <= 4096 * Z.of_nat fuel ->
  exists m', load_bss image_mapper fuel va perm fs ms i m = Val 0 m' /\
    forall a, m a = Some 0 -> m' a = Some 0.
Proof.
  revert i m. induction fuel as [|fuel IH]; intros i m Hi Hms Hfuel; cbn [load_bss].
  { destruct (Z.ltb_spec i ms); [lia|]. by exists m. }
  destruct (Z.ltb_spec i ms); [|by exists m].
  rewrite (bind_val _ _ _ _ _ (mapper_eq _ _ _ _ _ _)). cbn [Z.eqb negb]. unfold BY2PG.
  rewrite (u32_small (i + 4096)) by (unfold is_u32; lia).
  destruct (IH (i + 4096) (put_page (u32 (va + i)) 0 None (MIN (u32 (fs - i)) 4096) m)) as (m' & E & H'); [lia..|].
  exists m'. split; [exact E|]. intros a Ha. apply H'. unfold put_page. by case_decide.
Qed.

Definition seg_perm (ph : Elf32_Phdr) : Z := if hasbits (p_flags ph) PF_W then Z.lor PTE_V PTE_D else PTE_V.

(** The loader with its first page apart. *)
Lemma elf_load_seg_eq ph m : 0 <= p_vaddr ph < 4294967296 ->
  let va := p_vaddr ph in let fs := p_filesz ph in let off := va mod 4096 in
  let first := MIN fs (4096 - off) in
  elf_load_seg image_mapper ph m =
    (ri ← load_content image_mapper (load_fuel fs) va (seg_perm ph) fs (if negb (off =? 0) then first else 0);
     match ri with
     | Err r => mret r
     | Ok i => load_bss image_mapper (load_fuel (p_memsz ph)) va (seg_perm ph) fs (p_memsz ph) i
     end) (if negb (off =? 0) then put_page va off (Some 0) first m else m).
Proof.
  intros Hva va fs off first. unfold elf_load_seg. fold (seg_perm ph). fold va. fold fs.
  assert (Ho : va - ROUNDDOWN va BY2PG = off).
  { unfold BY2PG. change 4096 with (2 ^ 12). rewrite ROUNDDOWN_div by (unfold is_u32; lia).
    change (2 ^ 12) with 4096. unfold off. dlia. }
  rewrite Ho. unfold BY2PG. fold first. destruct (Z.eqb_spec off 0); cbn [negb]; [done|].
  by rewrite (bind_val _ _ _ _ _ (mapper_eq _ _ _ _ _ _)).
Qed.

Lemma load_fuel_enough n : 0 <= n -> n <= 4096 * Z.of_nat (load_fuel n).
Proof. intros Hn. unfold load_fuel, BY2PG. rewrite Z2Nat.id by dlia. dlia. Qed.

(** C33: elf_load_seg puts a segment in memory, for a segment whose start is page-aligned or
    whose file content reaches the end of its first page: the loops end, the result is 0, the
    content of the file is at its addresses, the rest of the segment is zero, and no page
    the segment does not touch is mapped or changed. *)
Theorem elf_load_seg_correct ph m : let va := p_vaddr ph in let fs := p_filesz ph in let ms := p_memsz ph in
  0 <= va -> 0 <= fs <= ms -> va + ms + 8192 < 4294967296 ->
  (va mod 4096 = 0 \/ 4096 - va mod 4096 <= fs) ->
  exists m', elf_load_seg image_mapper ph m = Val 0 m' /\
    (forall k, 0 <= k < ms -> m' (va + k) = Some (if k <? fs then content k else 0)) /\
    (forall a, a < page_of va \/ page_of (va + ms - 1) + 4096 <= a -> m' a = m a).
Proof.
  intros va fs ms Hva Hfs Hlim Hgood. rewrite elf_load_seg_eq by (fold va; lia). fold va fs ms.
  set (off := va mod 4096) in *. set (first := MIN fs (4096 - off)).
  assert (Hoff : 0 <= off < 4096) by (unfold off; dlia).
  set (i0 := if negb (off =? 0) then first else 0).
  set (m0 := if negb (off =? 0) then put_page va off (Some 0) first m else m).
  assert (Hi0 : 0 <= i0 <= fs /\ (va + i0) mod 4096 = 0 /\ (off = 0 -> i0 = 0) /\ (off <> 0 -> i0 = 4096 - off)).
  { unfold i0, first, MIN. destruct (Z.eqb_spec off 0); cbn [negb]; [unfold off in *; split_and!; try lia; dlia|].
    destruct (Z.leb_spec fs (4096 - off)); unfold off in *; split_and!; try lia; dlia. }
  destruct Hi0 as (Hi1 & Hi2 & Hi3 & Hi4).
  assert (Hm0 : forall a, m0 a = if decide (page_of va <= a < va + i0) then
      Some (if decide (va <= a) then content (a - va) else 0) else m a).
  { intros a. unfold m0. destruct (Z.eqb_spec off 0) as [E|E]; cbn [negb].
    - unfold page_of. fold off. by rewrite decide_False by lia.
    - unfold put_page, page_of. fold off. rewrite (Hi4 E).
      destruct (decide (va - off <= a < va - off + 4096)), (decide (va - off <= a < va + (4096 - off))); try lia; [|done].
      f_equal. replace first with (4096 - off) by (specialize (Hi4 E); unfold i0 in Hi4; by destruct (Z.eqb_spec off 0)).
      destruct (decide (va <= a)); [rewrite decide_True by lia; f_equal; lia|by rewrite decide_False by lia]. }
  destruct (load_content_ok (load_fuel fs) va (seg_perm ph) fs i0 m0) as (i1 & m1 & E1 & A1 & A2 & A3 & A4 & A5);
    try lia; [pose proof (load_fuel_enough fs); lia|].
  destruct (load_bss_ok (load_fuel ms) va (seg_perm ph) fs ms i1 m1) as (i2 & m2 & E2 & B1 & B2 & B3 & B4 & B5);
    try lia; [pose proof (load_fuel_enough ms); lia|].
  exists m2. split; [by rewrite (bind_val _ _ _ _ _ E1)|]. split.
  - intros k Hk. rewrite B5. destruct (decide (va + i1 <= va + k < va + i2)).
    { destruct (Z.ltb_spec k fs); [lia|done]. }
    rewrite A5. replace (va + k - va) with k by lia. destruct (decide (va + i0 <= va + k < va + i1)); [done|].
    rewrite Hm0. rewrite decide_True by (unfold page_of; fold off; lia).
    rewrite decide_True by lia. destruct (Z.ltb_spec k fs); [|lia]. do 2 f_equal. lia.
  - intros a Ha. unfold page_of in Ha. fold off in Ha. rewrite B5, A5, Hm0.
    assert (Hb : i2 <= ms \/ va + i2 = va + ms - 1 - (va + ms - 1) mod 4096 + 4096) by (destruct B3, A4; dlia).
    rewrite !decide_False; [done| | |]; unfold page_of; fold off; dlia.
Qed.

(** a segment that starts inside a page, whose file content ends in that page, and that
    is longer in memory than in the file: the loop for the zeroed part starts at the end of
    the content and maps its first page, the page of the content, again. The loader returns
    0 and every byte of the content reads as 0. *)
Theorem elf_load_seg_loses_content ph m : let va := p_vaddr ph in let fs := p_filesz ph in
  0 <= va -> va mod 4096 <> 0 -> 0 < fs < 4096 - va mod 4096 -> fs < p_memsz ph ->
  va + p_memsz ph + 8192 < 4294967296 ->
  exists m', elf_load_seg image_mapper ph m = Val 0 m' /\ forall k, 0 <= k < fs -> m' (va + k) = Some 0.
Proof.
  intros va fs Hva Hoff Hfs Hms Hlim. rewrite elf_load_seg_eq by (fold va; lia). fold va fs.
  assert (Ho : 0 <= va mod 4096 < 4096) by dlia.
  destruct (Z.eqb_spec (va mod 4096) 0) as [|_]; [done|]. cbn [negb].
  assert (Hf : MIN fs (4096 - va mod 4096) = fs) by (unfold MIN; destruct (Z.leb_spec fs (4096 - va mod 4096)); lia).
  rewrite Hf. set (m0 := put_page va _ _ _ m).
  assert (E1 : load_content image_mapper (load_fuel fs) va (seg_perm ph) fs fs m0 = Val (Ok fs) m0).
  { destruct (load_fuel fs); cbn [load_content]; by destruct (Z.ltb_spec fs fs); [lia|]. }
  rewrite (bind_val _ _ _ _ _ E1).
  assert (Hfu : exists n, load_fuel (p_memsz ph) = S n /\ p_memsz ph <= 4096 * Z.of_nat n + 4096).
  { pose proof (load_fuel_enough (p_memsz ph) ltac:(lia)). destruct (load_fuel (p_memsz ph)) as [|n]; [lia|].
    exists n. split; [done|lia]. }
  destruct Hfu as (n & -> & Hn). cbn [load_bss]. destruct (Z.ltb_spec fs (p_memsz ph)); [|lia].
  rewrite (bind_val _ _ _ _ _ (mapper_eq _ _ _ _ _ _)). cbn [Z.eqb negb]. unfold BY2PG.
  rewrite (u32_small (va + fs)), (u32_small (fs + 4096)) by (unfold is_u32; lia).
  destruct (load_bss_zero n va (seg_perm ph) fs (p_memsz ph) (fs + 4096)
    (put_page (va + fs) 0 None (MIN (u32 (fs - fs)) 4096) m0)) as (m' & E & H'); [lia..|].
  exists m'. split; [exact E|]. intros k Hk. apply H'. unfold put_page, page_of.
  rewrite decide_True; [done|]. dlia.
Qed.
End Image.

(** ** Other callbacks

    A callback that does to its own state what [image_mapper] does to an image, for the calls
    that the loader makes. *)
Section Simulation.
Context {St : Type} (content : Z -> Z) (map_page : Z -> Z -> Z -> option Z -> Z -> M St Z).
Context (R : St -> image -> Prop) (ph : Elf32_Phdr).

Definition seg_call (va offset : Z) (src : option Z) (len : Z) : Prop :=
  (va = p_vaddr ph \/ p_vaddr ph < va < p_vaddr ph + p_memsz ph) /\
  match src with
  | Some o => offset = va mod 4096 /\ 0 <= o /\ 0 <= len /\ o + len <= p_filesz ph /\ offset + len <= 4096
  | None => offset = 0
  end.

Context (Hmap : forall va offset perm src len s m, seg_call va offset src len -> R s m ->
  exists s', map_page va offset perm src len s = Val 0 s' /\ R s' (put_page content va offset src len m)).

Let va := p_vaddr ph.
Let fs := p_filesz ph.
Let ms := p_memsz ph.
Context (Hva : 0 <= va) (Hfs : 0 <= fs <= ms) (Hlim : va + ms + 8192 < 4294967296).

Lemma load_content_sim perm fuel : forall i s m r m', 0 <= i -> i < fs -> (va + i) mod 4096 = 0 \/ fs <= i -> R s m ->
  load_content (image_mapper content) fuel va perm fs i m = Val r m' ->
  exists s', load_content map_page fuel va perm fs i s = Val r s' /\ R s' m'.
Proof using Hmap Hva Hfs Hlim.
  induction fuel as [|fuel IH]; intros i s m r m' Hi Hlt Hal HR; cbn [load_content].
  all: destruct (Z.ltb_spec i fs) as [_|]; [|lia]; try done.
  rewrite (bind_val _ _ _ _ _ (mapper_eq _ _ _ _ _ _ _)). cbn [Z.eqb negb]. intros E.
  rewrite (u32_small (va + i)), (u32_small (i + BY2PG)), (u32_small (fs - i)) in * by (unfold is_u32, BY2PG; lia).
  destruct (Hmap (va + i) 0 perm (Some i) (MIN (fs - i) BY2PG) s m) as (s1 & E1 & H1); [|done|].
  { split; [fold va ms; lia|]. unfold MIN, BY2PG. fold fs. destruct (Z.leb_spec (fs - i) 4096); lia. }
  rewrite (bind_val _ _ _ _ _ E1). cbn [Z.eqb negb].
  destruct (Z.ltb_spec (i + BY2PG) fs) as [Hn|Hn].
  - eapply IH; [unfold BY2PG; lia|done| |exact H1|exact E]. left. unfold BY2PG. dlia.
  - exists s1. destruct fuel; cbn [load_content] in *; destruct (Z.ltb_spec (i + BY2PG) fs); try lia; by injection E as <- <-.
Qed.

Lemma load_bss_sim perm fuel : forall i s m r m', 0 <= i -> R s m ->
  load_bss (image_mapper content) fuel va perm fs ms i m = Val r m' ->
  exists s', load_bss map_page fuel va perm fs ms i s = Val r s' /\ R s' m'.
Proof using Hmap Hva Hfs Hlim.
  induction fuel as [|fuel IH]; intros i s m r m' Hi HR; cbn [load_bss].
  all: destruct (Z.ltb_spec i ms); try done; try (intros [= <- <-]; by exists s).
  rewrite (bind_val _ _ _ _ _ (mapper_eq _ _ _ _ _ _ _)). cbn [Z.eqb negb]. intros E.
  rewrite (u32_small (va + i)), (u32_small (i + BY2PG)) in * by (unfold is_u32, BY2PG; lia).
  destruct (Hmap (va + i) 0 perm None (MIN (u32 (fs - i)) BY2PG) s m) as (s1 & E1 & H1); [split; [fold va ms; lia|done]|done|].
  rewrite (bind_val _ _ _ _ _ E1). cbn [Z.eqb negb].
  eapply IH; [unfold BY2PG; lia|exact H1|exact E].
Qed.

(** The loader does to the state what it does to the image. *)
Lemma elf_load_seg_sim s m m' : va mod 4096 = 0 \/ 4096 - va mod 4096 <= fs -> R s m ->
  elf_load_seg (image_mapper content) ph m = Val 0 m' -> exists s', elf_load_seg map_page ph s = Val 0 s' /\ R s' m'.
Proof using Hmap Hva Hfs Hlim.
  intros Hgood HR. unfold elf_load_seg. fold va fs ms. set (perm := if hasbits _ _ then _ else _).
  assert (Ho : va - ROUNDDOWN va BY2PG = va mod 4096).
  { unfold BY2PG. change 4096 with (2 ^ 12) at 1. rewrite ROUNDDOWN_div by (unfold is_u32; lia). change (2 ^ 12) with 4096. dlia. }
  rewrite Ho. assert (Hr : 0 <= va mod 4096 < 4096) by (by apply Z.mod_pos_bound).
  set (first := MIN fs (BY2PG - va mod 4096)). set (i0 := if negb (va mod 4096 =? 0) then first else 0).
  assert (Hi0 : 0 <= i0 <= fs /\ (va + i0) mod 4096 = 0).
  { unfold i0, first, MIN, BY2PG. destruct (Z.eqb_spec (va mod 4096) 0); cbn [negb]; [split; [lia|dlia]|].
    destruct (Z.leb_spec fs (4096 - va mod 4096)); (split; [lia|dlia]). }
  assert (exists s0, R s0 (if negb (va mod 4096 =? 0) then put_page content va (va mod 4096) (Some 0) first m else m) /\
    (if negb (va mod 4096 =? 0) then map_page va (va mod 4096) perm (Some 0) first else mret 0) s = Val 0 s0) as (s0 & H0 & E0).
  { destruct (Z.eqb_spec (va mod 4096) 0) as [E|E]; cbn [negb]; [by exists s|].
    destruct (Hmap va (va mod 4096) perm (Some 0) first s m) as (s0 & E0 & H0); [|done|by exists s0].
    split; [by left|]. unfold first, MIN, BY2PG. fold fs. destruct (Z.leb_spec fs (4096 - va mod 4096)); lia. }
  rewrite (bind_val _ _ _ _ _ E0). clear E0. intros E.
  assert (E' : (ri ← load_content (image_mapper content) (load_fuel fs) va perm fs i0;
     match ri with Err r => mret r | Ok i => load_bss (image_mapper content) (load_fuel ms) va perm fs ms i end)
     (if negb (va mod 4096 =? 0) then put_page content va (va mod 4096) (Some 0) first m else m) = Val 0 m').
  { unfold i0. destruct (Z.eqb_spec (va mod 4096) 0); cbn [negb] in *; [exact E|].
    by rewrite (bind_val _ _ _ _ _ (mapper_eq _ _ _ _ _ _ _)) in E. }
  clear E. cbn [Z.eqb negb]. fold i0. set (m0 := if negb (va mod 4096 =? 0) then put_page content va (va mod 4096) (Some 0) first m else m) in *.
  apply bind_val_inv in E' as (ri & m1 & E1 & E2).
  assert (exists s1, load_content map_page (load_fuel fs) va perm fs i0 s0 = Val ri s1 /\ R s1 m1) as (s1 & E3 & H1).
  { destruct (Z.ltb_spec i0 fs) as [Hlt|Hge].
    - apply (load_content_sim perm (load_fuel fs) i0 s0 m0 ri m1); (done || tauto || lia).
    - exists s0. destruct (load_fuel fs); cbn [load_content] in *; destruct (Z.ltb_spec i0 fs); try lia; by injection E1 as <- <-. }
  rewrite (bind_val _ _ _ _ _ E3).
  destruct (load_content_ok content (load_fuel fs) va perm fs i0 m0) as (i & m2 & E4 & _ & Hi & _);
    [lia..|pose proof (load_fuel_enough content fs); lia|]. rewrite E1 in E4. injection E4 as -> _.
  apply (load_bss_sim perm (load_fuel ms) i s1 m1 0 m'); (done || lia).
Qed.
End Simulation.

(** A segment of 6000 bytes of file content and 9000 of memory from 0x400100. *)
Lemma elf_load_seg_correct_witness : exists m',
  elf_load_seg (image_mapper (fun k => k mod 251)) (mkPhdr PT_LOAD 0 4194560 6000 9000 0) (fun _ => None) = Val 0 m' /\
  m' 4200000 = Some (5440 mod 251) /\ m' 4200560 = Some 0 /\ m' 4194303 = None.
Proof.
  destruct (elf_load_seg_correct (fun k => k mod 251) (mkPhdr PT_LOAD 0 4194560 6000 9000 0) (fun _ => None))
    as (m' & E & H1 & H2); [cbn; lia..|right; cbn; dlia|].
  exists m'. split; [exact E|]. split; [exact (H1 5440 ltac:(cbn; lia))|]. split; [exact (H1 6000 ltac:(cbn; lia))|].
  apply H2. left. vm_compute. reflexivity.
Defined.

Lemma elf_load_seg_loses_content_witness : exists m',
  elf_load_seg (image_mapper (fun k => k mod 251)) (mkPhdr PT_LOAD 0 4194560 100 200 0) (fun _ => None) = Val 0 m' /\
  m' 4194570 = Some 0.
Proof.
  destruct (elf_load_seg_loses_content (fun k => k mod 251) (mkPhdr PT_LOAD 0 4194560 100 200 0) (fun _ => None))
    as (m' & E & H); [cbn; lia|cbn; dlia|cbn; dlia|cbn; lia|cbn; lia|].
  exists m'. split; [exact E|]. exact (H 10 ltac:(cbn; lia)).
Defined.
