(* ===== verification/SignalThms.v ===== *)
(** * Theorems on signals (include/signal.h, kern/signal.c, kern/syscall_all.c)

    First the kernel's accesses to mapped user memory (kern/tlbex.c): what is stored is loaded
    back, and nothing else changes. Then the laws of the signal sets, and the choice and
    removal of the signal to deliver. *)

From Stdlib Require Import ZArith Lia.
From stdpp Require Import base numbers list gmap strings.
From S2P Require Import Prelude Queue Mmu Pmap KState Elf Signo Env Sched TlbEx Signal Syscall.

(** The word at the user address [a] when physical memory is [m]. *)
Definition uword (s : kstate) (m : mem) (a : Z) : Z :=
  word m (PPN (default 0 (tlb (pm s) !! entryhi (hw_asid s) a))) ((a mod 4096) / 4).

Definition with_mem (m : mem) (s : kstate) : kstate := set_pm (set_phys m (pm s)) s.

(** [n] aligned words from [lo], mapped and writable, in less than one page. *)
Record user_rw (s : kstate) (lo n : Z) : Prop := {
  rw_align : lo mod 4 = 0;
  rw_low : UTEMP <= lo;
  rw_high : lo + 4 * n <= UTOP;
  rw_small : 4 * n <= 4096;
  rw_hit : forall a, lo <= a < lo + 4 * n ->
    exists e, tlb (pm s) !! entryhi (hw_asid s) a = Some e /\ hasbits e PTE_D = true }.

Lemma user_rw_mem s m lo n : user_rw s lo n -> user_rw (with_mem m s) lo n.
Proof. intros []. by split. Qed.

Lemma with_mem_id s : with_mem (phys (pm s)) s = s.
Proof. destruct s as [p]. by destruct p. Qed.

Lemma map_zseq_shift {A} (f g : Z -> A) k a : (forall i, f i = g (i + 1)) ->
  map f (zseq a k) = map g (zseq (a + 1) k).
Proof.
  intros H. revert a. induction k as [|k IH]; intros a; [done|]. rewrite !zseq_S. cbn [map]. by rewrite IH, H.
Qed.

Section Range.
Context (s : kstate) (lo n : Z) (R : user_rw s lo n).

Lemma translate_hit a w : lo <= a < lo + 4 * n -> exists e,
  tlb (pm s) !! entryhi (hw_asid s) a = Some e /\ translate a w s = Val (PPN e) s.
Proof using R.
  intros Ha. destruct (rw_hit _ _ _ R a Ha) as (e & He & Hd). exists e. split; [done|].
  pose proof (rw_low _ _ _ R). pose proof (rw_high _ _ _ R). unfold translate.
  assert (HU : UTEMP = 4186112) by reflexivity.
  destruct (Z.ltb_spec a 0), (Z.leb_spec UTOP a); try lia. cbn [orb].
  mstep. mstep. rewrite He. mstep. rewrite Hd. by rewrite andb_false_r.
Qed.

Lemma uload_hit a : lo <= a < lo + 4 * n -> a mod 4 = 0 ->
  uload a s = Val (uword s (phys (pm s)) a) s.
Proof using R.
  intros Ha Hm. unfold uload. rewrite Hm. cbn [Z.eqb negb].
  destruct (translate_hit a false Ha) as (e & He & E). rewrite (bind_val _ _ _ _ _ E).
  unfold uword. by rewrite He.
Qed.

Lemma ustore_hit a v : lo <= a < lo + 4 * n -> a mod 4 = 0 -> exists m,
  ustore a v s = Val tt (with_mem m s) /\
  forall b, lo <= b < lo + 4 * n -> b mod 4 = 0 ->
    uword s m b = if decide (a = b) then u32 v else uword s (phys (pm s)) b.
Proof using R.
  intros Ha Hm. unfold ustore. rewrite Hm. cbn [Z.eqb negb].
  destruct (translate_hit a true Ha) as (e & He & E). eexists. split.
  { rewrite (bind_val _ _ _ _ _ E). reflexivity. }
  intros b Hb Hmb. unfold uword. rewrite word_upd. destruct (decide (a = b)) as [<-|Hne].
  - rewrite He. by rewrite decide_True.
  - rewrite decide_False; [done|]. intros [_ Hi]. pose proof (rw_small _ _ _ R). dlia.
Qed.

Lemma uload_words_hit k a : a mod 4 = 0 -> lo <= a -> a + 4 * Z.of_nat k <= lo + 4 * n ->
  uload_words a k s = Val (map (fun i => uword s (phys (pm s)) (a + 4 * i)) (zseq 0 k)) s.
Proof using R.
  pose proof (rw_high _ _ _ R) as Hh. pose proof (rw_low _ _ _ R) as Hl.
  assert (HT : UTOP = 2134900736) by reflexivity. assert (HU : UTEMP = 4186112) by reflexivity.
  revert a. induction k as [|k IH]; intros a Hm Ha Hk; [done|]. cbn [uload_words].
  rewrite (bind_val _ _ _ _ _ (uload_hit a ltac:(lia) Hm)).
  rewrite u32_small by (unfold is_u32; lia).
  rewrite (bind_val _ _ _ _ _ (IH (a + 4) ltac:(dlia) ltac:(lia) ltac:(lia))).
  unfold mret, M_ret. f_equal. rewrite zseq_S. cbn [map]. f_equal; [f_equal; lia|].
  change (0 + 1) with 1. apply map_zseq_shift. intros j. f_equal. lia.
Qed.
End Range.

Lemma ustore_words_hit ws : forall s lo n va, user_rw s lo n -> va mod 4 = 0 -> lo <= va ->
  va + 4 * Z.of_nat (length ws) <= lo + 4 * n -> exists m,
  ustore_words va ws s = Val tt (with_mem m s) /\
  forall b, lo <= b < lo + 4 * n -> b mod 4 = 0 ->
    uword s m b = if decide (va <= b < va + 4 * Z.of_nat (length ws))
      then u32 (nth (Z.to_nat ((b - va) / 4)) ws 0) else uword s (phys (pm s)) b.
Proof.
  induction ws as [|w ws IH]; intros s lo n va R Hm Hva Hlen.
  { exists (phys (pm s)). split; [by rewrite with_mem_id|]. intros b Hb _. cbn [length] in *.
    by rewrite decide_False by lia. }
  cbn [length] in Hlen. rewrite Nat2Z.inj_succ in Hlen.
  destruct (ustore_hit s lo n R va w ltac:(lia) Hm) as (m1 & E1 & H1).
  assert (HT : UTOP = 2134900736) by reflexivity. assert (HU : UTEMP = 4186112) by reflexivity.
  pose proof (rw_high _ _ _ R) as Hh. pose proof (rw_low _ _ _ R) as Hl.
  destruct (IH (with_mem m1 s) lo n (va + 4) (user_rw_mem _ _ _ _ R) ltac:(dlia) ltac:(lia) ltac:(lia))
    as (m2 & E2 & H2).
  exists m2. split.
  { cbn [ustore_words]. rewrite (bind_val _ _ _ _ _ E1). rewrite u32_small by (unfold is_u32; lia). exact E2. }
  intros b Hb Hmb. specialize (H2 b Hb Hmb). specialize (H1 b Hb Hmb).
  change (uword (with_mem m1 s)) with (uword s) in H2. rewrite H2.
  change (phys (pm (with_mem m1 s))) with m1. cbn [length]. rewrite Nat2Z.inj_succ.
  destruct (decide (va = b)) as [<-|Hne].
  - rewrite decide_False by lia. rewrite H1. rewrite decide_True by lia. by rewrite Z.sub_diag.
  - destruct (decide (va + 4 <= b < va + 4 + 4 * Z.of_nat (length ws))) as [Hin|Hout].
    + rewrite decide_True by lia.
      replace (Z.to_nat ((b - va) / 4)) with (S (Z.to_nat ((b - (va + 4)) / 4))); [done|].
      rewrite <- Z2Nat.inj_succ by dlia. f_equal. dlia.
    + rewrite H1. rewrite decide_False; [done|]. dlia.
Qed.

(** ** Signal sets *)

(** A set is a pair of 32-bit words. *)
Definition is_sigset (m : sigset_t) : Prop := is_u32 (sig0 m) /\ is_u32 (sig1 m).

(** The macros as a predicate on signal numbers. *)
Definition member (m : sigset_t) (n : Z) : bool := default false (sigset_ctn m n).

Lemma u32_lnot_testbit x k : is_u32 x -> 0 <= k < 32 -> Z.testbit (u32 (Z.lnot x)) k = negb (Z.testbit x k).
Proof.
  intros Hx Hk. unfold u32. change 4294967296 with (2 ^ 32). rewrite Z.mod_pow2_bits_low by lia.
  apply Z.lnot_spec. lia.
Qed.

Lemma ctn_low m n : 0 <= n < 32 -> sigset_ctn m n = Some (Z.testbit (sig0 m) n).
Proof.
  intros Hn. unfold sigset_ctn. rewrite Z.quot_small by lia.
  change 31 with (Z.ones 5). rewrite land_ones_mod, Z.mod_small by lia.
  rewrite Z.shiftl_1_l, hasbits_testbit by lia. done.
Qed.

Lemma ctn_high m n : 32 <= n < 64 -> sigset_ctn m n = Some (Z.testbit (sig1 m) (n - 32)).
Proof.
  intros Hn. unfold sigset_ctn. rewrite Z.quot_div_nonneg by lia.
  replace (n / 32) with 1 by dlia. change 31 with (Z.ones 5). rewrite land_ones_mod by lia.
  replace (n mod 2 ^ 5) with (n - 32) by dlia. rewrite Z.shiftl_1_l, hasbits_testbit by lia. done.
Qed.

Lemma member_testbit m n : 0 <= n < 64 ->
  member m n = Z.testbit (if n <? 32 then sig0 m else sig1 m) (n mod 32).
Proof.
  intros Hn. unfold member. destruct (Z.ltb_spec n 32).
  - rewrite ctn_low by lia. by rewrite Z.mod_small by lia.
  - rewrite ctn_high by lia. cbn. f_equal. dlia.
Qed.

(** The two bits the macros keep clear. *)
Lemma unmaskable_bits n : 0 <= n < 32 ->
  Z.testbit (u32 (Z.lnot unmaskable)) n = negb ((n =? 8) || (n =? 18)).
Proof.
  intros Hn. rewrite u32_lnot_testbit by (unfold is_u32, unmaskable; lia). f_equal.
  assert (H : forallb (fun k => bool_decide (Z.testbit unmaskable k = ((k =? 8) || (k =? 18)))) (zseq 0 32) = true)
    by (vm_compute; reflexivity).
  rewrite forallb_forall in H. specialize (H n). rewrite <- list_elem_of_In, elem_of_zseq in H.
  exact (bool_decide_eq_true_1 _ (H Hn)).
Qed.

(** the sigset_* macros are union, difference and copy on the signals 1 to 63, except
    that sigset_add and sigset_set drop exactly the numbers 8 and 18: the mask 0x40100 was
    meant for SIGKILL and SIGSTOP, but signals are tested at bit [signo], not [signo - 1], so
    SIGKILL (9) and SIGSTOP (19) can be masked and SIGFPE (8) and SIGCONT (18) cannot; and
    sigset_ctn of signal 64 reads past the two words of the set. *)
Theorem sigset_laws a b n : is_sigset a -> is_sigset b -> 1 <= n < 64 ->
  member (sigset_add a b) n = (member a n || member b n) && negb ((n =? 8) || (n =? 18)) /\
  member (sigset_del a b) n = member a n && negb (member b n) /\
  member (sigset_set b) n = member b n && negb ((n =? 8) || (n =? 18)) /\
  sigset_ctn a 64 = None /\
  (member b SIGKILL = true -> member (sigset_add a b) SIGKILL = true).
Proof.
  intros [Ha0 Ha1] [Hb0 Hb1] Hn.
  assert (Key : forall n, 0 <= n < 64 ->
    member (sigset_add a b) n = (member a n || member b n) && negb ((n =? 8) || (n =? 18))).
  { intros k Hk. rewrite !member_testbit by lia. cbn [sigset_add sig0 sig1]. destruct (Z.ltb_spec k 32).
    - rewrite Z.mod_small, Z.land_spec, Z.lor_spec, unmaskable_bits by lia. done.
    - rewrite Z.lor_spec. destruct (Z.eqb_spec k 8), (Z.eqb_spec k 18); try lia. by rewrite andb_true_r. }
  split; [apply Key; lia|]. split; [|split; [|split]].
  - rewrite !member_testbit by lia. cbn [sigset_del sig0 sig1].
    destruct (Z.ltb_spec n 32); rewrite Z.land_spec, u32_lnot_testbit by (done || dlia); done.
  - rewrite !member_testbit by lia. cbn [sigset_set sig0 sig1]. destruct (Z.ltb_spec n 32).
    + by rewrite Z.mod_small, Z.land_spec, unmaskable_bits by lia.
    + destruct (Z.eqb_spec n 8), (Z.eqb_spec n 18); try lia. by rewrite andb_true_r.
  - done.
  - intros Hk. rewrite Key, Hk by (unfold SIGKILL; lia). by rewrite orb_true_r.
Qed.

Lemma sigset_laws_witness : member (sigset_add sigset0 (mkSigset 768 0)) 9 = true /\
  member (sigset_add sigset0 (mkSigset 768 0)) 8 = false.
Proof.
  assert (H0 : is_sigset sigset0) by (split; vm_compute; split; (discriminate || reflexivity)).
  assert (H1 : is_sigset (mkSigset 768 0)) by (split; vm_compute; split; (discriminate || reflexivity)).
  destruct (sigset_laws sigset0 (mkSigset 768 0) 9 H0 H1 ltac:(lia)) as (E9 & _).
  destruct (sigset_laws sigset0 (mkSigset 768 0) 8 H0 H1 ltac:(lia)) as (E8 & _).
  rewrite E9, E8. split; reflexivity.
Defined.

(** ** The signal to deliver *)

(** What the two loops compute on the list of pending nodes: the node delivered, the nodes
    that stay pending, and the nodes given back to the pool, in order. *)
Fixpoint take_signal (blocked ignored : Z -> bool) (l : list Z) : option Z * list Z * list Z :=
  match l with
  | [] => (None, [], [])
  | p :: l' =>
      if blocked p then let '(r, kept, freed) := take_signal blocked ignored l' in (r, p :: kept, freed) else
      if ignored p then let '(r, kept, freed) := take_signal blocked ignored l' in (r, kept, p :: freed) else
      (Some p, l', [p])
  end.

(** A handler of 0 with no default action. *)
Definition is_ignored (tbl : list sigaction) (signo : Z) : bool :=
  match tbl !! Z.to_nat (signo - 1) with
  | Some h => (sa_handler h =? 0) && negb (has_default signo)
  | None => false
  end.

(** The states [s] and [s'] agree but for the node pool and the header of [c]. *)
Record signal_step (c : Z) (s s' : kstate) : Prop := {
  ss_env : forall i, i <> c -> env s' i = env s i;
  ss_self : with_signoHeader None (env s' c) = with_signoHeader None (env s c);
  ss_signo : forall p, signo_of s' p = signo_of s p;
  ss_rest : s' = set_envs (envs s') (set_signo_free_list (signo_free_list s') (set_signos (signos s') s)) }.

Lemma signal_step_refl c s : signal_step c s s.
Proof. split; try done. by destruct s. Qed.

Lemma signal_step_trans c s s1 s2 : signal_step c s s1 -> signal_step c s1 s2 -> signal_step c s s2.
Proof.
  intros [E1 F1 S1 R1] [E2 F2 S2 R2]. split.
  - intros i Hi. by rewrite E2, E1.
  - congruence.
  - intros p. by rewrite S2.
  - rewrite R2 at 1. rewrite R1 at 1. reflexivity.
Qed.

Lemma step_set_next c s p n : signal_step c s (set_next_of p n s).
Proof. split; try done. intros q; apply signo_of_set_next. Qed.

Lemma step_free c s p : exists s', signo_free p s = Val tt s' /\ signal_step c s s' /\
  signo_free_list s' = Some p /\ envs s' = envs s /\
  (forall q, next_of s' q = if decide (p = q) then signo_free_list s else next_of s q).
Proof.
  unfold signo_free. msteps. eexists. split; [reflexivity|]. split; [|split; [done|split; [done|]]].
  - split; try done. intros q; apply signo_of_set_next.
  - intros q. apply next_of_set_next.
Qed.

Lemma step_header c s h : signal_step c s (set_envs (<[c := with_signoHeader h (env s c)]> (envs s)) s).
Proof.
  split; try done; [|by rewrite env_upd, decide_True].
  intros i Hi. by rewrite env_upd, decide_False.
Qed.

Section Find.
Context (c : Z) (s0 : kstate).
Let mask := env_sigprocmask (env s0 c).
Let tbl := sighandler_table (env s0 c).
Let blocked p := member mask (signo_of s0 p).
Let ignored p := is_ignored tbl (signo_of s0 p).
Definition good_signals (l : list Z) : Prop := forall p, p ∈ l -> 1 <= signo_of s0 p < 64.

Lemma step_reads s : signal_step c s0 s ->
  env_sigprocmask (env s c) = mask /\ (forall n, handler_slot n (env s c) = handler_slot n (env s0 c)).
Proof using.
  intros St. pose proof (ss_self _ _ _ St) as E. split.
  - exact (f_equal env_sigprocmask E).
  - intros n. unfold handler_slot. by rewrite (f_equal sighandler_table E : sighandler_table (env s c) = _).
Qed.

Lemma ctn_member n : 1 <= n < 64 -> sigset_ctn mask n = Some (member mask n).
Proof using.
  intros Hn. unfold member. destruct (decide (n < 32)); [by rewrite ctn_low by lia|by rewrite ctn_high by lia].
Qed.

Lemma handler_ignored n : length tbl = 64%nat -> 1 <= n < 64 ->
  exists h, handler_slot n (env s0 c) = Some h /\ is_ignored tbl n = (sa_handler h =? 0) && negb (has_default n).
Proof using.
  intros Htbl Hn. unfold handler_slot, is_ignored. fold tbl.
  destruct (Z.leb_spec 1 n), (Z.leb_spec n 64); try lia. cbn [andb].
  destruct (lookup_lt_is_Some_2 tbl (Z.to_nat (n - 1)) ltac:(lia)) as (h & Eh). rewrite Eh. eauto.
Qed.

(** One visit of a node. *)
Lemma find_step fuel frm p s : signal_step c s0 s -> 1 <= signo_of s0 p < 64 ->
  find_unblocked_signo (S fuel) c frm (Some p) s =
    if blocked p then find_unblocked_signo fuel c (Some p) (next_of s p) s else
    (match frm with
     | Some f => modify (set_next_of f (next_of s p))
     | None => upd_env c (with_signoHeader None)
     end ;;
     signo_free p ;;
     h ← get_handler c (signo_of s0 p);
     if (sa_handler h =? 0) && negb (has_default (signo_of s0 p))
     then find_unblocked_signo fuel c frm (next_of s p)
     else mret (Some (signo_of s0 p))) s.
Proof using.
  intros St Hp. cbn [find_unblocked_signo]. unfold get_env. rewrite bind_gets. cbv beta.
  rewrite bind_gets. cbv beta. rewrite bind_gets. cbv beta.
  rewrite (ss_signo _ _ _ St), (proj1 (step_reads s St)), (ctn_member _ Hp). cbn [lift_opt]. mstep.
  unfold blocked. by destruct (member mask (signo_of s0 p)).
Qed.

Lemma handler_step s n h : signal_step c s0 s -> handler_slot n (env s0 c) = Some h ->
  get_handler c n s = Val h s.
Proof using.
  intros St Hh. unfold get_handler, get_env. rewrite bind_gets. cbv beta.
  by rewrite (proj2 (step_reads s St)), Hh.
Qed.

(** The result of the loops from the node [ptr], in a state [s] they have reached. *)
Record found (frm : option Z) (l fl : list Z) (s s' : kstate) (r : option Z) : Prop := {
  fo_sig : r = option_map (signo_of s0) (take_signal blocked ignored l).1.1;
  fo_step : signal_step c s0 s';
  fo_pool : pool s' (reverse (take_signal blocked ignored l).2 ++ fl);
  fo_list : match frm with
            | Some f => signoHeader (env s' c) = signoHeader (env s c) /\
                chain s' (next_of s' f) (take_signal blocked ignored l).1.2 /\
                (forall q, q <> f -> q ∉ l -> next_of s' q = next_of s q)
            | None => match l with
                | [] => signoHeader (env s' c) = signoHeader (env s c)
                | p :: _ => if blocked p
                    then signoHeader (env s' c) = signoHeader (env s c) /\ chain s' (Some p) (take_signal blocked ignored l).1.2
                    else signoHeader (env s' c) = None
                end
            end }.

(** Taking the node [p] out of the list and giving it back. *)
Lemma unlink frm p l fl s : signal_step c s0 s -> pool s fl -> chain s (next_of s p) l ->
  NoDup (p :: l ++ fl) -> (forall f, frm = Some f -> f <> p /\ (f ∉ l) /\ (f ∉ fl)) ->
  exists s2, (forall A (k : K A), (match frm with
       | Some f => modify (set_next_of f (next_of s p))
       | None => upd_env c (with_signoHeader None)
       end ;; signo_free p ;; k) s = k s2) /\
    signal_step c s0 s2 /\ pool s2 (p :: fl) /\ chain s2 (next_of s p) l /\
    (forall f, frm = Some f -> next_of s2 f = next_of s p) /\
    signoHeader (env s2 c) = match frm with Some _ => signoHeader (env s c) | None => None end /\
    (forall q, frm <> Some q -> q <> p -> next_of s2 q = next_of s q).
Proof using.
  intros St Hpool Hch [Hp Hnd]%NoDup_cons Hf.
  apply not_elem_of_app in Hp as [Hpl Hpf].
  assert (Hstep : exists s1, (forall A (k : K A), (match frm with
       | Some f => modify (set_next_of f (next_of s p))
       | None => upd_env c (with_signoHeader None) end ;; k) s = k s1) /\ signal_step c s0 s1 /\
     signo_free_list s1 = signo_free_list s /\
     (forall q, next_of s1 q = if decide (frm = Some q) then next_of s p else next_of s q) /\
     signoHeader (env s1 c) = match frm with Some _ => signoHeader (env s c) | None => None end).
  { destruct frm as [f|].
    - eexists. split; [reflexivity|]. split; [|split; [done|split; [|done]]].
      + eapply signal_step_trans; [exact St|]. apply step_set_next.
      + intros q. rewrite next_of_set_next. destruct (decide (f = q)) as [->|]; [by rewrite decide_True|].
        rewrite decide_False by congruence. done.
    - eexists. split; [reflexivity|]. split; [|split; [done|split; [done|]]].
      + eapply signal_step_trans; [exact St|]. apply step_header.
      + by rewrite env_upd, decide_True. }
  destruct Hstep as (s1 & E1 & St1 & Hfl1 & Hn1 & Hh1).
  destruct (step_free c s1 p) as (s2 & E2 & St2 & Hfl2 & Henv & Hn2).
  exists s2. split; [|split; [by eapply signal_step_trans|split; [|split; [|split; [|split]]]]].
  - intros A k. rewrite E1. by rewrite (bind_val _ _ _ _ _ E2).
  - split; [done|]. rewrite Hn2, decide_True, Hfl1 by done. apply (chain_ext s); [|exact Hpool].
    intros q Hq. rewrite Hn2, decide_False, Hn1, decide_False; [done| |by intros ->].
    intros E. by destruct (Hf q E) as (_ & _ & []).
  - apply (chain_ext s); [|exact Hch]. intros q Hq. rewrite Hn2, decide_False, Hn1, decide_False; [done| |by intros ->].
    intros E. by destruct (Hf q E) as (_ & [] & _).
  - intros f E. destruct (Hf f E) as (Hne & _). rewrite Hn2, decide_False, Hn1, decide_True by congruence. done.
  - rewrite <- Hh1. unfold env. by rewrite Henv.
  - intros q Hq Hqp. rewrite Hn2, decide_False, Hn1, decide_False by congruence. done.
Qed.

Lemma find_ok l : length tbl = 64%nat -> good_signals l -> forall fuel frm ptr s fl,
  (length l <= fuel)%nat -> signal_step c s0 s -> pool s fl -> chain s ptr l -> NoDup (l ++ fl) ->
  (forall f, frm = Some f -> (f ∉ l) /\ (f ∉ fl) /\ next_of s f = ptr) ->
  exists r s', find_unblocked_signo fuel c frm ptr s = Val r s' /\ found frm l fl s s' r.
Proof using.
  intros Htbl. induction l as [|p l IH]; intros Hg fuel frm ptr s fl Hfuel St Hpool Hch Hnd Hf.
  { cbn in Hch. subst ptr. exists None, s. split; [by destruct fuel|]. split; try done.
    destruct frm as [f|]; [|done]. destruct (Hf f eq_refl) as (_ & _ & ->). done. }
  destruct Hch as [-> Hch]. destruct fuel as [|fuel]; [cbn in Hfuel; lia|].
  assert (Hgp : 1 <= signo_of s0 p < 64) by (apply Hg; left).
  assert (Hgl : good_signals l) by (intros q Hq; apply Hg; by right).
  pose proof Hnd as [Hp Hnd']%NoDup_cons. apply not_elem_of_app in Hp as [Hpl Hpf].
  rewrite (find_step _ _ _ _ St Hgp). destruct (blocked p) eqn:Hb.
  - destruct (IH Hgl fuel (Some p) (next_of s p) s fl ltac:(cbn in Hfuel; lia) St Hpool Hch Hnd') as (r & s' & E & F).
    { by intros f [= <-]. }
    exists r, s'. split; [exact E|]. destruct F as [F1 F2 F3 (F4 & F5 & F6)].
    cbn [take_signal]. split; [| exact F2 | |].
    + rewrite F1. cbn [take_signal]. rewrite Hb. by destruct (take_signal _ _ l) as [[? ?] ?].
    + cbn [take_signal]. rewrite Hb. by destruct (take_signal _ _ l) as [[? ?] ?].
    + cbn [take_signal]. rewrite Hb. destruct (take_signal _ _ l) as [[r0 kept] freed]. cbn in F5 |- *.
      destruct frm as [f|]; [|done]. destruct (Hf f eq_refl) as (Hfl & _ & Hnf).
      apply not_elem_of_cons in Hfl as [Hne Hfl]. split; [done|]. split.
      * rewrite F6 by done. rewrite Hnf. done.
      * intros q Hq Hql. apply not_elem_of_cons in Hql as [Hqp Hql]. by apply F6.
  - destruct (unlink frm p l fl s St Hpool Hch Hnd) as (s2 & E2 & St2 & Hpool2 & Hch2 & Hn2 & Hh2 & Hfr2).
    { intros f E. destruct (Hf f E) as (Hfl & ? & _). by apply not_elem_of_cons in Hfl as [? ?]. }
    rewrite E2. destruct (handler_ignored _ Htbl Hgp) as (h & Hs & Hi).
    rewrite (bind_val _ _ _ _ _ (handler_step _ _ _ St2 Hs)). rewrite <- Hi. fold (ignored p).
    destruct (ignored p) eqn:Hig.
    + destruct (IH Hgl fuel frm (next_of s p) s2 (p :: fl) ltac:(cbn in Hfuel; lia) St2 Hpool2 Hch2) as (r & s' & E & F).
      { by rewrite <- Permutation_middle. }
      { intros f Ef. destruct (Hf f Ef) as (Hfl & Hff & _). apply not_elem_of_cons in Hfl as [? ?].
        split; [done|]. split; [by apply not_elem_of_cons|by apply Hn2]. }
      exists r, s'. split; [exact E|]. destruct F as [F1 F2 F3 F4]. split; [|exact F2| |].
      * rewrite F1. cbn [take_signal]. rewrite Hb, Hig. by destruct (take_signal _ _ l) as [[? ?] ?].
      * cbn [take_signal]. rewrite Hb, Hig. destruct (take_signal _ _ l) as [[r0 kept] freed].
        cbn [fst snd] in F3 |- *. by rewrite reverse_cons, <- app_assoc.
      * cbn [take_signal]. rewrite Hb, Hig. destruct (take_signal _ _ l) as [[r0 kept] freed] eqn:Et. cbn in F4 |- *.
        destruct frm as [f|].
        -- destruct F4 as (F4 & F5 & F6). rewrite Hh2 in F4. split; [done|]. split; [done|].
           intros q Hq Hql. apply not_elem_of_cons in Hql as [Hqp Hql]. rewrite F6 by done. apply Hfr2; congruence.
        -- destruct l as [|q l']; [by rewrite F4|]. destruct (blocked q); [|done]. by rewrite (proj1 F4).
    + exists (Some (signo_of s0 p)), s2. split; [done|]. split; [|exact St2| |].
      * cbn [take_signal]. by rewrite Hb, Hig.
      * cbn [take_signal]. by rewrite Hb, Hig.
      * cbn [take_signal]. rewrite Hb, Hig. cbn. destruct frm as [f|]; [|done].
        destruct (Hf f eq_refl) as (Hfl & _). apply not_elem_of_cons in Hfl as [? ?].
        split; [done|]. split; [by rewrite Hn2|]. intros q Hq Hql. apply not_elem_of_cons in Hql as [Hqp Hql].
        apply Hfr2; congruence.
Qed.
End Find.

Lemma take_signal_perm b i l : (take_signal b i l).1.2 ++ (take_signal b i l).2 ≡ₚ l.
Proof.
  induction l as [|p l IH]; [done|]. cbn [take_signal].
  destruct (take_signal b i l) as [[r kept] freed]. cbn in IH.
  destruct (b p); cbn; [by rewrite IH|]. destruct (i p); cbn.
  - by rewrite <- Permutation_middle, IH.
  - by rewrite <- Permutation_cons_append.
Qed.

(** The pending nodes [l] of [c], the free nodes [fl]: distinct, with deliverable numbers. *)
Record pending (c : Z) (l fl : list Z) (s : kstate) : Prop := {
  pe_chain : chain s (signoHeader (env s c)) l;
  pe_pool : pool s fl;
  pe_dup : NoDup (l ++ fl);
  pe_good : good_signals s l;
  pe_len : (length l <= 1024)%nat;
  pe_tbl : length (sighandler_table (env s c)) = 64%nat }.

(** The outcome of the choice among the pending nodes of [c]. *)
Definition choose (c : Z) (l : list Z) (s : kstate) : option Z * list Z * list Z :=
  take_signal (fun p => member (env_sigprocmask (env s c)) (signo_of s p))
    (fun p => is_ignored (sighandler_table (env s c)) (signo_of s p)) l.

Definition head_blocked (c : Z) (l : list Z) (s : kstate) : bool :=
  match l with [] => true | p :: _ => member (env_sigprocmask (env s c)) (signo_of s p) end.

Lemma find_signal_ok c l fl s : pending c l fl s ->
  exists s', find_unblocked_signo signal_fuel c None (signoHeader (env s c)) s =
      Val (option_map (signo_of s) (choose c l s).1.1) s' /\
    signal_step c s s' /\ pool s' (reverse (choose c l s).2 ++ fl) /\
    chain s' (signoHeader (env s' c)) (if head_blocked c l s then (choose c l s).1.2 else []).
Proof.
  intros [Hc Hp Hd Hg Hl Ht].
  destruct (find_ok c s l Ht Hg signal_fuel None _ s fl ltac:(unfold signal_fuel; lia) (signal_step_refl c s) Hp Hc Hd)
    as (r & s' & E & [F1 F2 F3 F4]); [done|].
  exists s'. split; [by rewrite E, F1|]. split; [exact F2|]. split; [exact F3|].
  destruct l as [|p l]; [by rewrite F4|]. destruct Hc as [Hh _]. unfold head_blocked.
  destruct (member _ _); [|by rewrite F4]. destruct F4 as [-> F4]. by rewrite Hh.
Qed.

(** C32: the search of _do_signal through the pending signals of an environment. It ends and
    returns the first that is neither blocked nor ignored; the node of that signal and of
    every ignored one before it go back to the pool, and nothing else of the kernel changes.
    When the newest pending signal is blocked the nodes left are the pending list. When it is
    not blocked, the list is emptied: every other pending signal is lost, and its node is in
    neither list any more. *)
Theorem find_signal_correct c l fl s : pending c l fl s ->
  exists s', find_unblocked_signo signal_fuel c None (signoHeader (env s c)) s =
      Val (option_map (signo_of s) (choose c l s).1.1) s' /\
    signal_step c s s' /\
    (choose c l s).1.2 ++ (choose c l s).2 ≡ₚ l /\
    pool s' (reverse (choose c l s).2 ++ fl) /\
    (if head_blocked c l s then chain s' (signoHeader (env s' c)) (choose c l s).1.2
     else signoHeader (env s' c) = None /\
       forall q, q ∈ (choose c l s).1.2 -> q ∉ reverse (choose c l s).2 ++ fl).
Proof.
  intros P. destruct (find_signal_ok c l fl s P) as (s' & E & St & Hp & Hc).
  pose proof (take_signal_perm (fun p => member (env_sigprocmask (env s c)) (signo_of s p))
    (fun p => is_ignored (sighandler_table (env s c)) (signo_of s p)) l) as Hperm.
  fold (choose c l s) in Hperm. exists s'. do 4 (split; [done|]).
  destruct (head_blocked c l s); [done|]. split; [exact Hc|].
  pose proof (pe_dup _ _ _ _ P) as Hd. rewrite <- Hperm in Hd.
  rewrite <- app_assoc in Hd. apply NoDup_app in Hd as (_ & Hd & _).
  intros q Hq. specialize (Hd q Hq). by rewrite reverse_Permutation.
Qed.

(** ** Two signals pending in a fresh kernel *)
Definition two_signals : kstate :=
  match (signo_init ;; modify (set_curenv (Some 0)) ;; sys_kill 0 SIGTERM ;; sys_kill 0 SIGKILL) kernel_bss with
  | Val _ s => s
  | _ => kernel_bss
  end.

Fixpoint chainb (s : kstate) (h : option Z) (l : list Z) : bool :=
  match l with
  | [] => bool_decide (h = None)
  | p :: l' => bool_decide (h = Some p) && chainb s (next_of s p) l'
  end.

Lemma chainb_chain s h l : chainb s h l = true -> chain s h l.
Proof.
  revert h. induction l as [|p l IH]; intros h H; cbn in *; [by apply bool_decide_eq_true_1 in H|].
  apply andb_true_iff in H as [H1 H2]. apply bool_decide_eq_true_1 in H1. split; [done|]. by apply IH.
Qed.

Lemma two_signals_pending : pending 0 [1; 0] (zseq 2 1022) two_signals.
Proof.
  split.
  - apply chainb_chain. vm_compute. reflexivity.
  - apply chainb_chain. vm_compute. reflexivity.
  - assert (H : [1; 0] ++ zseq 2 1022 ≡ₚ zseq 0 1024) by exact (perm_swap 0 1 (zseq 2 1022)).
    rewrite H. apply NoDup_zseq.
  - intros p Hp. apply elem_of_cons in Hp as [->|Hp]; [vm_compute; split; [discriminate|reflexivity]|].
    apply list_elem_of_singleton in Hp as ->. vm_compute; split; [discriminate|reflexivity].
  - cbn. lia.
  - vm_compute. reflexivity.
Qed.

#[local] Opaque two_signals.

Lemma find_signal_correct_witness : exists s', find_unblocked_signo signal_fuel 0 None
    (signoHeader (env two_signals 0)) two_signals = Val (Some SIGKILL) s' /\
  signoHeader (env s' 0) = None /\ pool s' (1 :: zseq 2 1022) /\ (0 ∉ 1 :: zseq 2 1022).
Proof.
  destruct (find_signal_correct 0 [1; 0] (zseq 2 1022) two_signals two_signals_pending)
    as (s' & E & _ & _ & Hp & Hh).
  assert (Hc : choose 0 [1; 0] two_signals = (Some 1, [0], [1])) by (vm_compute; reflexivity).
  assert (Hb : head_blocked 0 [1; 0] two_signals = false) by (vm_compute; reflexivity).
  assert (Hs : option_map (signo_of two_signals) (Some 1) = Some SIGKILL) by (vm_compute; reflexivity).
  rewrite Hb, Hc in Hh. rewrite Hc in E, Hp. cbn [fst snd] in *. rewrite Hs in E.
  destruct Hh as [Hn Hl]. exists s'. split; [exact E|]. split; [exact Hn|]. split; [exact Hp|].
  apply (Hl 0). left.
Defined.
