(* ===== verification/SignalTrip.v ===== *)
(** * Delivering a signal and returning from its handler (kern/signal.c, kern/syscall_all.c)

    [_do_signal] saves the interrupted frame and the mask on the user stack;
    [sys_back_do_signal], called by the user entry with the addresses it was given, restores
    both. *)

From Stdlib Require Import ZArith Lia.
From stdpp Require Import base numbers list gmap strings.
From S2P Require Import Prelude Queue Mmu Pmap KState Elf Signo Env Sched TlbEx Signal Syscall SignalThms.

(** ** Frames *)
Record tf_wf (tf : Trapframe) : Prop := {
  tw_len : length (regs tf) = 32%nat;
  tw_u32 : forall w, w ∈ tf_words tf -> is_u32 w }.

Lemma reg_set_reg tf i j v : (i < length (regs tf))%nat ->
  reg (set_reg i v tf) j = if decide (i = j) then v else reg tf j.
Proof.
  intros Hi. unfold reg. cbn [regs set_reg]. rewrite !nth_lookup. destruct (decide (i = j)) as [<-|Hne].
  - by rewrite list_lookup_insert_eq.
  - by rewrite list_lookup_insert_ne.
Qed.

Lemma length_set_reg tf i v : length (regs (set_reg i v tf)) = length (regs tf).
Proof. apply length_insert. Qed.

Lemma tf_words_length tf : length (regs tf) = 32%nat -> length (tf_words tf) = 38%nat.
Proof. intros H. unfold tf_words. by rewrite length_app, H. Qed.

(** Saving a frame as words and reading it back. *)
Lemma tf_words_roundtrip tf : length (regs tf) = 32%nat -> tf_of_words (tf_words tf) = tf.
Proof.
  intros H. unfold tf_of_words, tf_words. destruct tf as [rs st h l bv ca ep]. cbn in *.
  f_equal; try (rewrite app_nth2 by lia; rewrite H; reflexivity).
  rewrite take_app_le by lia. apply take_ge. lia.
Qed.

Lemma tf_reg_u32 tf i : tf_wf tf -> is_u32 (reg tf i).
Proof.
  intros [Hl Hu]. unfold reg. destruct (nth_in_or_default i (regs tf) 0) as [H| ->]; [|unfold is_u32; lia].
  apply Hu. unfold tf_words. apply elem_of_app. left. by apply list_elem_of_In.
Qed.

Lemma u32_s32 x : is_u32 x -> u32 (s32 x) = x.
Proof.
  intros H. unfold s32. rewrite (u32_small x) by done. unfold is_u32 in H. unfold u32.
  destruct (x <? 2147483648); [by apply Z.mod_small|]. 
  replace (x - 4294967296) with (x + (-1) * 4294967296) by lia. rewrite Z.mod_add by lia. by apply Z.mod_small.
Qed.

(** ** The frame the handler is entered with *)
Record handler_frame (tf tf1 : Trapframe) (signo h entry : Z) : Prop := {
  hf_epc : cp0_epc tf1 = entry;
  hf_sp : reg tf1 29 = reg tf 29 - 176;
  hf_a0 : reg tf1 4 = reg tf 29 - 152;
  hf_a1 : reg tf1 5 = signo;
  hf_a2 : reg tf1 6 = h;
  hf_a3 : reg tf1 7 = reg tf 29 - 160;
  hf_regs : forall i, i ∉ [4; 5; 6; 7; 29]%nat -> reg tf1 i = reg tf i;
  hf_len : length (regs tf1) = 32%nat;
  hf_rest : cp0_status tf1 = cp0_status tf /\ hi tf1 = hi tf /\ lo tf1 = lo tf }.

Definition enter_frame (tf : Trapframe) (signo h entry : Z) : Trapframe :=
  let sp := reg tf 29 - 152 in
  let tf1 := set_reg 29 (sp - 8) (set_reg 4 sp (set_reg 29 sp tf)) in
  set_epc entry (set_reg 29 (sp - 8 - 16) (set_reg 6 h (set_reg 5 signo (set_reg 7 (sp - 8) tf1)))).

Lemma enter_frame_ok tf signo h entry : length (regs tf) = 32%nat ->
  handler_frame tf (enter_frame tf signo h entry) signo h entry.
Proof.
  intros Hl. unfold enter_frame.
  assert (HE : forall t e i, reg (set_epc e t) i = reg t i) by done.
  assert (HR : forall i j v t, length (regs t) = 32%nat -> (i < 32)%nat ->
    reg (set_reg i v t) j = if decide (i = j) then v else reg t j) by (intros; apply reg_set_reg; lia).
  split; rewrite ?HE; try done.
  1-5: rewrite !HR by (rewrite ?length_set_reg; done || lia);
    repeat first [rewrite decide_True by done|rewrite decide_False by done]; lia.
  - intros i Hi. rewrite HE, !HR by (rewrite ?length_set_reg; done || lia).
    repeat (apply not_elem_of_cons in Hi as [? Hi]). by rewrite !decide_False by congruence.
  - cbn [regs set_epc]. by rewrite !length_set_reg.
Qed.

(** ** Delivery *)

(** The frame at [l], and its replacement. *)
Definition tf_at (l : tfloc) (s : kstate) : Trapframe :=
  match l with KTF => ktf s | ETF e => env_tf (env s e) end.
Definition set_tf_at (l : tfloc) (v : Trapframe) (s : kstate) : kstate :=
  match l with
  | KTF => set_ktf v s
  | ETF e => set_envs (<[e := with_env_tf v (env s e)]> (envs s)) s
  end.

Lemma get_tf_eq l s : get_tf l s = Val (tf_at l s) s.
Proof. by destruct l. Qed.

Lemma put_tf_eq l v s : put_tf l v s = Val tt (set_tf_at l v s).
Proof. by destruct l. Qed.

Lemma tf_at_set l v s : tf_at l (set_tf_at l v s) = v.
Proof. destruct l as [|e]; [done|]. cbn [tf_at set_tf_at]. by rewrite env_upd, decide_True. Qed.

Lemma set_tf_at_rest l v s : curenv (set_tf_at l v s) = curenv s /\ pm (set_tf_at l v s) = pm s /\
  hw_asid (set_tf_at l v s) = hw_asid s /\
  (forall i, env_sigprocmask (env (set_tf_at l v s) i) = env_sigprocmask (env s i)) /\
  (forall m, with_mem m (set_tf_at l v s) = set_tf_at l v (with_mem m s)).
Proof.
  destruct l as [|e]; cbn [set_tf_at]; split_and!; try done.
  intros i. rewrite env_upd. destruct (decide (e = i)) as [->|]; done.
Qed.

Lemma step_rest c s s' : signal_step c s s' -> curenv s' = curenv s /\ pm s' = pm s /\ hw_asid s' = hw_asid s.
Proof. intros [_ _ _ ->]. done. Qed.

Lemma step_tf c l s s' : signal_step c s s' -> tf_at l s' = tf_at l s.
Proof.
  intros St. destruct l as [|e]; cbn [tf_at]; [by rewrite (ss_rest _ _ _ St)|].
  destruct (decide (e = c)) as [->|Hne]; [exact (f_equal env_tf (ss_self _ _ _ St))|].
  by rewrite (ss_env _ _ _ St).
Qed.

Lemma ustore_sigset_words va m s : ustore_sigset va m s = ustore_words va [sig0 m; sig1 m] s.
Proof.
  unfold ustore_sigset. cbn [ustore_words]. unfold mbind, M_bind.
  destruct (ustore va (sig0 m) s) as [[] s1| | |]; try done.
  by destruct (ustore (u32 (va + 4)) (sig1 m) s1) as [[] s2| | |].
Qed.

Lemma uload_sigset_words va s a b : uload_words va 2 s = Val [a; b] s -> uload_sigset va s = Val (mkSigset a b) s.
Proof.
  unfold uload_sigset. cbn [uload_words]. unfold mbind, M_bind.
  destruct (uload va s) as [x s1| | |]; try done.
  by destruct (uload (u32 (va + 4)) s1) as [y s2| | |]; [intros [= -> -> ->]|..].
Qed.

(** The saved frame and mask, as words of user memory from [sp - 160]. *)
Definition saved (s : kstate) (m : mem) (sp : Z) (tf : Trapframe) (mask : sigset_t) : Prop :=
  (forall k, 0 <= k < 38 -> uword s m (sp - 152 + 4 * k) = nth (Z.to_nat k) (tf_words tf) 0) /\
  uword s m (sp - 160) = sig0 mask /\ uword s m (sp - 156) = sig1 mask.

(** What the delivery of [signo], with handler [h], does to the frame [tf] at [l]. *)
Record delivered (l : tfloc) (c signo entry : Z) (h : sigaction) (s s' : kstate) : Prop := {
  de_frame : handler_frame (tf_at l s) (tf_at l s') signo (sa_handler h) entry;
  de_mask : env_sigprocmask (env s' c) = sa_mask h;
  de_saved : saved s' (phys (pm s')) (reg (tf_at l s) 29) (tf_at l s) (env_sigprocmask (env s c));
  de_rest : curenv s' = curenv s /\ hw_asid s' = hw_asid s /\ pm s' = set_phys (phys (pm s')) (pm s) }.

(** Two stores, of the frame and then of the mask, in states with the same TLB. *)
Lemma save_words s s1 sp tf mask m1 : user_rw s (sp - 160) 40 -> tf_wf tf -> is_sigset mask ->
  (forall b, sp - 160 <= b < sp - 160 + 4 * 40 -> b mod 4 = 0 -> uword s m1 b =
     if decide (sp - 152 <= b < sp - 152 + 4 * Z.of_nat (length (tf_words tf)))
     then u32 (nth (Z.to_nat ((b - (sp - 152)) / 4)) (tf_words tf) 0) else uword s (phys (pm s)) b) ->
  phys (pm s1) = m1 -> tlb (pm s1) = tlb (pm s) -> hw_asid s1 = hw_asid s ->
  exists m2, ustore_sigset (sp - 160) mask s1 = Val tt (with_mem m2 s1) /\ saved s m2 sp tf mask.
Proof.
  intros R [Hl Hu] [Hm0 Hm1] H1 Hp Ht Ha. pose proof (rw_align _ _ _ R) as Hal.
  pose proof (tf_words_length tf Hl) as Hlen. rewrite Hlen in H1.
  assert (R1 : user_rw s1 (sp - 160) 40) by (destruct R; split; try done; by rewrite Ht, Ha).
  destruct (ustore_words_hit [sig0 mask; sig1 mask] s1 (sp - 160) 40 (sp - 160)
    R1 ltac:(lia) ltac:(lia) ltac:(cbn [length]; lia)) as (m2 & E2 & H2).
  exists m2. split; [by rewrite ustore_sigset_words|].
  assert (HU : forall m a, uword s1 m a = uword s m a) by (intros m a; unfold uword; by rewrite Ht, Ha).
  cbn [length] in H2. split; [|split].
  - intros k Hk. rewrite <- HU, H2, decide_False by (lia || dlia). rewrite HU, Hp, H1, decide_True by (lia || dlia).
    replace ((sp - 152 + 4 * k - (sp - 152)) / 4) with k by dlia. apply u32_small, Hu.
    apply list_elem_of_In, nth_In. lia.
  - rewrite <- HU, H2, decide_True by (lia || dlia). replace ((sp - 160 - (sp - 160)) / 4) with 0 by dlia.
    by apply u32_small.
  - rewrite <- HU, H2, decide_True by (lia || dlia). replace ((sp - 156 - (sp - 160)) / 4) with 1 by dlia.
    by apply u32_small.
Qed.

Lemma do_signal_ok l c pl fl s p h :
  curenv s = Some c -> pending c pl fl s -> (choose c pl s).1.1 = Some p ->
  handler_slot (signo_of s p) (env s c) = Some h ->
  do_signal_entry (env s c) <> 0 ->
  tf_wf (tf_at l s) -> is_sigset (env_sigprocmask (env s c)) -> user_rw s (reg (tf_at l s) 29 - 160) 40 ->
  exists s', _do_signal l s = Val tt s' /\ delivered l c (signo_of s p) (do_signal_entry (env s c)) h s s'.
Proof.
  intros Hc P Hch Hh Hentry Htf Hmask R.
  set (tf := tf_at l s) in *. set (sp := reg tf 29) in *.
  destruct (find_signal_ok c pl fl s P) as (s1 & E1 & St & _). rewrite Hch in E1. cbn [option_map] in E1.
  destruct (step_rest _ _ _ St) as (Hc1 & Hpm1 & Ha1). pose proof (step_tf _ l _ _ St) as Htf1. fold tf in Htf1.
  pose proof (f_equal env_sigprocmask (ss_self _ _ _ St) : env_sigprocmask (env s1 c) = env_sigprocmask (env s c)) as Hm1.
  pose proof (f_equal do_signal_entry (ss_self _ _ _ St) : do_signal_entry (env s1 c) = do_signal_entry (env s c)) as He1.
  pose proof (handler_step c s s1 _ h St Hh) as Hg1.
  set (s2 := set_envs (<[c := with_env_sigprocmask (sa_mask h) (env s1 c)]> (envs s1)) s1).
  assert (Htf2 : tf_at l s2 = tf).
  { rewrite <- Htf1. destruct l as [|e]; [done|]. cbn [tf_at]. unfold s2. rewrite env_upd.
    destruct (decide (c = e)) as [->|]; done. }
  assert (R2 : user_rw s2 (sp - 160) 40).
  { destruct R as [? ? ? ? R5]. split; try done. unfold s2. cbn [pm hw_asid set_envs]. by rewrite Hpm1, Ha1. }
  pose proof (rw_low _ _ _ R) as Hlow. pose proof (rw_high _ _ _ R) as Hhigh. pose proof (rw_align _ _ _ R) as Hal.
  assert (HT : UTOP = 2134900736) by reflexivity. assert (HU : UTEMP = 4186112) by reflexivity.
  pose proof (tf_words_length tf (tw_len _ Htf)) as Hlen.
  destruct (ustore_words_hit (tf_words tf) s2 (sp - 160) 40 (sp - 152) R2 ltac:(dlia) ltac:(lia) ltac:(lia))
    as (m1 & E3 & H1).
  set (tfA := set_reg 29 (sp - 152 - 8) (set_reg 4 (sp - 152) (set_reg 29 (sp - 152) tf))).
  set (s4 := set_tf_at l tfA (with_mem m1 s2)).
  destruct (set_tf_at_rest l tfA (with_mem m1 s2)) as (Hc4 & Hpm4 & Ha4 & Hmk4 & _). fold s4 in Hc4, Hpm4, Ha4, Hmk4.
  destruct (save_words s2 s4 sp tf (env_sigprocmask (env s c)) m1 R2 Htf Hmask H1) as (m2 & E5 & Hsav);
    [by rewrite Hpm4..|exact Ha4|].
  set (tfB := enter_frame tf (signo_of s p) (sa_handler h) (do_signal_entry (env s c))).
  exists (set_tf_at l tfB (with_mem m2 s4)).
  destruct (set_tf_at_rest l tfB (with_mem m2 s4)) as (Hc6 & Hpm6 & Ha6 & Hmk6 & _).
  split.
  - unfold _do_signal, curenv_deref. msteps. rewrite Hc. cbn [lift_opt]. mstep. unfold get_env.
    rewrite bind_gets. cbv beta. rewrite (bind_val _ _ _ _ _ E1). rewrite bind_gets. cbv beta. rewrite He1.
    destruct (Z.eqb_spec (do_signal_entry (env s c)) 0) as [|_]; [done|]. cbn [negb]. mstep.
    rewrite bind_gets. cbv beta. rewrite Hm1. rewrite (bind_val _ _ _ _ _ Hg1).
    unfold upd_env. rewrite bind_modify. fold s2. rewrite (bind_val _ _ _ _ _ (get_tf_eq l s2)). rewrite Htf2.
    fold sp. change sizeof_Trapframe with 152. rewrite (u32_small (sp - 152)) by (unfold is_u32; lia).
    unfold ustore_tf. rewrite (bind_val _ _ _ _ _ E3). rewrite (u32_small (sp - 152 - 8)) by (unfold is_u32; lia).
    rewrite (bind_val _ _ _ _ _ (put_tf_eq l _ _)). fold tfA. fold s4.
    replace (sp - 152 - 8) with (sp - 160) at 1 by lia. rewrite (bind_val _ _ _ _ _ E5).
    rewrite put_tf_eq. do 2 f_equal. unfold tfB, enter_frame. fold sp. fold tfA.
    rewrite (u32_small (sp - 152 - 8 - 16)); [done|]. unfold is_u32; lia.
  - split.
    + rewrite tf_at_set. fold tf. apply enter_frame_ok, Htf.
    + rewrite Hmk6. change (env_sigprocmask (env (with_mem m2 s4) c)) with (env_sigprocmask (env s4 c)).
      rewrite Hmk4. change (env (with_mem m1 s2) c) with (env s2 c). unfold s2. by rewrite env_upd, decide_True.
    + fold tf. fold sp. rewrite Hpm6. cbn [pm with_mem set_pm phys set_phys].
      assert (HE : forall m a, uword (set_tf_at l tfB (with_mem m2 s4)) m a = uword s2 m a).
      { intros m a. unfold uword. rewrite Ha6, Hpm6. cbn [hw_asid with_mem set_pm pm set_phys tlb]. by rewrite Ha4, Hpm4. }
      unfold saved. setoid_rewrite HE. exact Hsav.
    + rewrite Hc6, Ha6, Hpm6. cbn [curenv hw_asid with_mem set_pm pm set_phys phys]. rewrite Hc4, Ha4, Hpm4.
      unfold s2. cbn [curenv hw_asid with_mem set_pm pm set_envs]. rewrite Hc1, Ha1, Hpm1. done.
Qed.

(** ** Return *)
Lemma legal_frame sp : UTEMP <= sp - 160 -> sp <= UTOP -> is_illegal_va_range (sp - 152) sizeof_Trapframe = false.
Proof.
  intros H1 H2. assert (HT : UTOP = 2134900736) by reflexivity. assert (HU : UTEMP = 4186112) by reflexivity.
  unfold is_illegal_va_range. change sizeof_Trapframe with 152. cbn [Z.eqb].
  rewrite u32_small by (unfold is_u32; lia).
  destruct (Z.ltb_spec (sp - 152 + 152) (sp - 152)), (Z.ltb_spec (sp - 152) UTEMP), (Z.ltb_spec UTOP (sp - 152 + 152)); lia || done.
Qed.

Lemma saved_frame s sp tf mask : user_rw s (sp - 160) 40 -> length (regs tf) = 32%nat ->
  saved s (phys (pm s)) sp tf mask ->
  uload_tf (sp - 152) s = Val tf s /\ uload_sigset (sp - 160) s = Val mask s.
Proof.
  intros R Hl (Hw & Hm0 & Hm1). pose proof (rw_align _ _ _ R) as Hal.
  pose proof (tf_words_length tf Hl) as Hlen. split.
  - unfold uload_tf.
    rewrite (bind_val _ _ _ _ _ (uload_words_hit s (sp - 160) 40 R 38 (sp - 152) ltac:(dlia) ltac:(lia) ltac:(lia))).
    unfold mret, M_ret. f_equal. rewrite <- (tf_words_roundtrip tf Hl). f_equal.
    apply (nth_ext _ _ (uword s (phys (pm s)) (sp - 152 + 4 * 0)) 0).
    { by rewrite length_map, zseq_length, Hlen. }
    intros k Hk. rewrite length_map, zseq_length in Hk.
    rewrite (map_nth (fun i => uword s (phys (pm s)) (sp - 152 + 4 * i)) (zseq 0 38) 0 k).
    assert (Hz : nth k (zseq 0 38) 0 = Z.of_nat k).
    { assert (G : forall n a, (k < n)%nat -> nth k (zseq a n) 0 = a + Z.of_nat k).
      { clear. induction k as [|k IH]; intros [|n] a Hn; try lia; cbn; [lia|]. rewrite IH by lia. lia. }
      rewrite G by done. lia. }
    rewrite Hz, Hw by lia. by rewrite Nat2Z.id.
  - destruct mask as [a b]. apply uload_sigset_words. cbn [sig0 sig1] in *.
    rewrite (uload_words_hit s (sp - 160) 40 R 2 (sp - 160)) by lia. f_equal. cbn [zseq map].
    rewrite <- Hm0, <- Hm1. f_equal; [f_equal; lia|]. f_equal. f_equal. lia.
Qed.

Lemma back_do_signal_ok s c sp tf mask : curenv s = Some c -> user_rw s (sp - 160) 40 -> tf_wf tf ->
  saved s (phys (pm s)) sp tf mask ->
  exists s3, sys_back_do_signal 0 (sp - 152) (sp - 160) s = Val (s32 (reg tf 2)) s3 /\
    ktf s3 = tf /\ pm s3 = pm s /\ curenv s3 = Some c /\
    (forall i, i <> c -> env s3 i = env s i) /\
    env_sigprocmask (env s3 c) = if reg tf 2 <? 2147483648 then mask else env_sigprocmask (env s c).
Proof.
  intros Hc R Htf Hs. destruct (saved_frame s sp tf mask R (tw_len _ Htf) Hs) as (Ef & Em).
  pose proof (tf_reg_u32 tf 2 Htf) as H2. unfold is_u32 in H2.
  assert (E : sys_set_trapframe 0 (sp - 152) s = Val (s32 (reg tf 2)) (set_ktf tf s)).
  { unfold sys_set_trapframe. rewrite legal_frame by (pose proof (rw_low _ _ _ R); pose proof (rw_high _ _ _ R); lia).
    assert (Ee : envid2env 0 true s = Val (Ok (curenv s)) s) by done.
    rewrite (bind_val _ _ _ _ _ Ee), bind_gets. cbv beta. rewrite (bind_val _ _ _ _ _ Ef).
    by rewrite bool_decide_eq_true_2. }
  assert (Hr : s32 (reg tf 2) = if reg tf 2 <? 2147483648 then reg tf 2 else reg tf 2 - 4294967296).
  { unfold s32. by rewrite (u32_small (reg tf 2)). }
  assert (R3 : user_rw (set_ktf tf s) (sp - 160) 40) by (destruct R; by split).
  destruct (saved_frame (set_ktf tf s) sp tf mask R3 (tw_len _ Htf) Hs) as (_ & Em3).
  unfold sys_back_do_signal, curenv_deref. msteps. rewrite Hc. cbn [lift_opt]. mstep. unfold get_env.
  rewrite bind_gets. cbv beta. cbn [Z.eqb negb andb]. mstep. rewrite (bind_val _ _ _ _ _ E).
  rewrite Hr. destruct (Z.ltb_spec (reg tf 2) 2147483648).
  - destruct (Z.ltb_spec (reg tf 2) 0); [lia|]. rewrite (bind_val _ _ _ _ _ Em3).
    eexists. split; [reflexivity|]. split_and!; try done.
    + intros i Hi. by rewrite env_upd, decide_False.
    + by rewrite env_upd, decide_True.
  - destruct (Z.ltb_spec (reg tf 2 - 4294967296) 0); [|lia]. eexists. split; [reflexivity|]. by split_and!.
Qed.

(** C31: a signal delivered and returned from. _do_signal ends, on the frame it is given; the
    user entry runs with the address of the saved frame, the signal, its handler and the
    address of the saved mask in $a0 to $a3, every other register as it was, the mask of
    the handler in force. Once the handler, in whatever state it leaves the rest, gives the
    two addresses back to sys_back_do_signal, the kernel's frame is the one interrupted,
    $v0 included. The mask is restored with it only if the interrupted $v0 is not negative as
    an int: sys_back_do_signal takes that value for an error of sys_set_trapframe and leaves
    the mask of the handler in force. *)
Theorem signal_round_trip l c pl fl s p h :
  curenv s = Some c -> pending c pl fl s -> (choose c pl s).1.1 = Some p ->
  handler_slot (signo_of s p) (env s c) = Some h -> do_signal_entry (env s c) <> 0 ->
  tf_wf (tf_at l s) -> is_sigset (env_sigprocmask (env s c)) -> user_rw s (reg (tf_at l s) 29 - 160) 40 ->
  let tf := tf_at l s in let sp := reg tf 29 in
  exists s1, _do_signal l s = Val tt s1 /\
    delivered l c (signo_of s p) (do_signal_entry (env s c)) h s s1 /\
    forall s2, curenv s2 = Some c -> user_rw s2 (sp - 160) 40 ->
      saved s2 (phys (pm s2)) sp tf (env_sigprocmask (env s c)) ->
      exists s3, sys_back_do_signal 0 (reg (tf_at l s1) 4) (reg (tf_at l s1) 7) s2 = Val (s32 (reg tf 2)) s3 /\
        ktf s3 = tf /\ u32 (s32 (reg tf 2)) = reg tf 2 /\ pm s3 = pm s2 /\
        env_sigprocmask (env s3 c) =
          if reg tf 2 <? 2147483648 then env_sigprocmask (env s c) else env_sigprocmask (env s2 c).
Proof.
  intros Hc P Hch Hh He Htf Hm R tf sp.
  destruct (do_signal_ok l c pl fl s p h Hc P Hch Hh He Htf Hm R) as (s1 & E & D).
  exists s1. split; [exact E|]. split; [exact D|]. intros s2 Hc2 R2 Hs2.
  rewrite (hf_a0 _ _ _ _ _ (de_frame _ _ _ _ _ _ _ D)), (hf_a3 _ _ _ _ _ (de_frame _ _ _ _ _ _ _ D)).
  destruct (back_do_signal_ok s2 c _ _ _ Hc2 R2 Htf Hs2) as (s3 & E3 & H1 & H2 & _ & _ & H3).
  exists s3. split; [exact E3|]. split; [exact H1|]. split; [by apply u32_s32, tf_reg_u32|]. by split.
Qed.

(** Delivery leaves the TLB as it was. *)
Lemma delivered_rw l c signo entry h s s' a n : delivered l c signo entry h s s' ->
  user_rw s a n -> user_rw s' a n.
Proof.
  intros [_ _ _ (_ & Ha & Hp)] []. split; try done. rewrite Ha, Hp. done.
Qed.

(** ** SIGKILL delivered while a system call was about to return -7 *)
Definition trip_frame : Trapframe := set_reg 2 4294967289 (set_reg 29 2134892544 tf0).

Definition trip_state : kstate :=
  set_ktf trip_frame (set_pm (set_tlb {[ entryhi 0 2134892384 := mk_pte 6 PTE_D ]} (pm two_signals))
    (set_envs (<[0 := with_do_signal_entry 4194304 (with_env_sigprocmask (mkSigset 16 0) (env two_signals 0))]> (envs two_signals)) two_signals)).

Lemma trip_rw : user_rw trip_state 2134892384 40.
Proof.
  split; [by vm_compute|by vm_compute|by vm_compute|by vm_compute|].
  assert (H : forallb (fun a => bool_decide (entryhi (hw_asid trip_state) a = entryhi 0 2134892384)) (zseq 2134892384 160) = true)
    by (vm_compute; reflexivity).
  rewrite forallb_forall in H. intros a Ha. exists (mk_pte 6 PTE_D). split; [|vm_compute; reflexivity].
  specialize (H a). rewrite <- list_elem_of_In, elem_of_zseq in H. apply bool_decide_eq_true_1 in H; [|lia].
  rewrite H. unfold trip_state. cbn [pm set_ktf set_pm set_tlb tlb]. apply lookup_singleton_eq.
Qed.

Lemma trip_pending : pending 0 [1; 0] (zseq 2 1022) trip_state.
Proof.
  destruct two_signals_pending as [_ _ P3 _ P5 _]. split; [| |exact P3| |exact P5|].
  - apply chainb_chain. vm_compute. reflexivity.
  - apply chainb_chain. vm_compute. reflexivity.
  - intros p Hp. apply elem_of_cons in Hp as [->|Hp]; [vm_compute; split; [discriminate|reflexivity]|].
    apply list_elem_of_singleton in Hp as ->. vm_compute; split; [discriminate|reflexivity].
  - vm_compute. reflexivity.
Qed.

Lemma trip_frame_wf : tf_wf trip_frame.
Proof.
  split; [reflexivity|]. intros w Hw.
  assert (H : forallb (fun w => (0 <=? w) && (w <? 4294967296)) (tf_words trip_frame) = true) by (vm_compute; reflexivity).
  rewrite forallb_forall in H. apply list_elem_of_In, H in Hw. unfold is_u32. lia.
Qed.

Lemma trip_facts : curenv trip_state = Some 0 /\ (choose 0 [1; 0] trip_state).1.1 = Some 1 /\
  handler_slot (signo_of trip_state 1) (env trip_state 0) = Some sigaction0 /\
  do_signal_entry (env trip_state 0) = 4194304 /\ tf_at KTF trip_state = trip_frame /\
  env_sigprocmask (env trip_state 0) = mkSigset 16 0.
Proof. split_and!; vm_compute; reflexivity. Qed.

Lemma trip_reads : reg trip_frame 29 = 2134892544 /\ reg trip_frame 2 = 4294967289 /\ s32 4294967289 = -7.
Proof. repeat split. Qed.

Lemma mask_16 : is_sigset (mkSigset 16 0).
Proof. split; cbn; unfold is_u32; lia. Qed.

#[local] Opaque trip_state trip_frame.

Lemma signal_round_trip_witness : exists s1 s3, _do_signal KTF trip_state = Val tt s1 /\
  sys_back_do_signal 0 (reg (ktf s1) 4) (reg (ktf s1) 7) s1 = Val (-7) s3 /\
  ktf s3 = trip_frame /\ env_sigprocmask (env trip_state 0) = mkSigset 16 0 /\
  env_sigprocmask (env s3 0) = sigset0.
Proof.
  destruct trip_facts as (Hc & Hch & Hh & He & Htf & Hm). destruct trip_reads as (H29 & H2 & Hs7).
  pose proof trip_rw as R.
  destruct (signal_round_trip KTF 0 [1; 0] (zseq 2 1022) trip_state 1 sigaction0 Hc trip_pending Hch Hh) as (s1 & E & D & B).
  - rewrite He. discriminate.
  - rewrite Htf. exact trip_frame_wf.
  - rewrite Hm. exact mask_16.
  - rewrite Htf, H29. exact R.
  - pose proof (delivered_rw _ _ _ _ _ _ _ _ _ D R) as Rs1. destruct D as [_ Dm Ds (Dc & _)]. cbv zeta in B. rewrite Htf in Ds. rewrite Htf in B.
    rewrite H29 in Ds. rewrite H29 in B.
    destruct (B s1) as (s3 & E3 & K3 & _ & _ & M3).
    + rewrite Dc. exact Hc.
    + exact Rs1.
    + exact Ds.
    + exists s1, s3. split; [exact E|]. rewrite H2 in E3. rewrite Hs7 in E3. split; [exact E3|]. split; [exact K3|].
      split; [exact Hm|]. rewrite H2 in M3. rewrite Dm in M3. exact M3.
Defined.
