(* ===== verification/Str.v ===== *)
(** * Strings and byte copies (lib/string.c)

    Memory is a map of bytes. The loops that advance pointers are recursive functions on
    the addresses, with fuel; a word is four bytes, little-endian, and its address must be
    aligned. [size_t] and pointers are 32 bits wide. *)

From Stdlib Require Import ZArith Lia.
From stdpp Require Import base numbers list gmap.
From S2P Require Import Prelude.

(** ** Memory *)
Abbreviation bmem := (gmap Z Z).
Definition rd8 (m : bmem) (a : Z) : Z := default 0 (m !! a).
Definition wr8 (m : bmem) (a v : Z) : bmem := <[a := u8 v]> m.

Definition rd32 (m : bmem) (a : Z) : Z :=
  rd8 m a + 256 * rd8 m (a + 1) + 65536 * rd8 m (a + 2) + 16777216 * rd8 m (a + 3).
Definition wr32 (m : bmem) (a v : Z) : bmem :=
  wr8 (wr8 (wr8 (wr8 m a v) (a + 1) (Z.shiftr v 8)) (a + 2) (Z.shiftr v 16)) (a + 3) (Z.shiftr v 24).

(** ** memcpy *)

(** [while (cond && dst < max) *dst++ = *src++] in bytes; [head] is the first of the two
    byte loops, which stops at a word boundary. [None]: no fuel left. *)
Fixpoint copy_bytes (fuel : nat) (head : bool) (dst src max : Z) (m : bmem) : option (Z * Z * bmem) :=
  if (negb head || negb (Z.land dst 3 =? 0)) && (dst <? max) then
    match fuel with
    | O => None
    | S fuel' => copy_bytes fuel' head (u32 (dst + 1)) (u32 (src + 1)) max (wr8 m dst (rd8 m src))
    end
  else Some (dst, src, m).

Fixpoint copy_words (fuel : nat) (dst src max : Z) (m : bmem) : option (Z * Z * bmem) :=
  if u32 (dst + 4) <=? max then
    match fuel with
    | O => None
    | S fuel' => copy_words fuel' (u32 (dst + 4)) (u32 (src + 4)) max (wr32 m dst (rd32 m src))
    end
  else Some (dst, src, m).

Definition memcpy (dst src n : Z) (m : bmem) : option (Z * bmem) :=
  let fuel := S (Z.to_nat n) in
  let max := u32 (dst + n) in
  if negb (Z.land src 3 =? Z.land dst 3) then
    '(_, _, m) ← copy_bytes fuel false dst src max m; Some (dst, m)
  else
    '(d, s, m) ← copy_bytes fuel true dst src max m;
    '(d, s, m) ← copy_words fuel d s max m;
    '(_, _, m) ← copy_bytes fuel false d s max m;
    Some (dst, m).

(** ** memset *)
Fixpoint fill_bytes (fuel : nat) (head : bool) (dst max byte : Z) (m : bmem) : option (Z * bmem) :=
  if (negb head || negb (Z.land dst 3 =? 0)) && (dst <? max) then
    match fuel with
    | O => None
    | S fuel' => fill_bytes fuel' head (u32 (dst + 1)) max byte (wr8 m dst byte)
    end
  else Some (dst, m).

Fixpoint fill_words (fuel : nat) (dst max w : Z) (m : bmem) : option (Z * bmem) :=
  if u32 (dst + 4) <=? max then
    match fuel with
    | O => None
    | S fuel' => fill_words fuel' (u32 (dst + 4)) max w (wr32 m dst w)
    end
  else Some (dst, m).

Definition memset (dst c n : Z) (m : bmem) : option (Z * bmem) :=
  let fuel := S (Z.to_nat n) in
  let max := u32 (dst + n) in
  let byte := Z.land c 255 in
  let w := Z.lor (Z.lor (Z.lor byte (Z.shiftl byte 8)) (Z.shiftl byte 16)) (Z.shiftl byte 24) in
  '(d, m) ← fill_bytes fuel true dst max byte m;
  '(d, m) ← fill_words fuel d max w m;
  '(_, m) ← fill_bytes fuel false d max byte m;
  Some (dst, m).

(** ** Strings *)
Fixpoint strlen_loop (fuel : nat) (s n : Z) (m : bmem) : option Z :=
  if rd8 m s =? 0 then Some n else
  match fuel with O => None | S fuel' => strlen_loop fuel' (u32 (s + 1)) (n + 1) m end.
Definition strlen (fuel : nat) (s : Z) (m : bmem) : option Z := strlen_loop fuel s 0 m.

Fixpoint strcpy_loop (fuel : nat) (dst src : Z) (m : bmem) : option bmem :=
  let c := rd8 m src in
  let m := wr8 m dst c in
  if c =? 0 then Some m else
  match fuel with O => None | S fuel' => strcpy_loop fuel' (u32 (dst + 1)) (u32 (src + 1)) m end.
Definition strcpy (fuel : nat) (dst src : Z) (m : bmem) : option (Z * bmem) :=
  m ← strcpy_loop fuel dst src m; Some (dst, m).

(** A [char] is signed: the comparison with the [int] [c] is on its signed value. *)
Definition char_val (b : Z) : Z := if b <? 128 then b else b - 256.

(** 0 is NULL. *)
Fixpoint strchr (fuel : nat) (s c : Z) (m : bmem) : option Z :=
  if rd8 m s =? 0 then Some 0 else
  if char_val (rd8 m s) =? c then Some s else
  match fuel with O => None | S fuel' => strchr fuel' (u32 (s + 1)) c m end.

(** The two bytes are compared as [u_int], after sign extension. *)
Definition uint_char (b : Z) : Z := u32 (char_val b).

Fixpoint strcmp (fuel : nat) (p q : Z) (m : bmem) : option Z :=
  if negb (rd8 m p =? 0) && (rd8 m p =? rd8 m q) then
    match fuel with O => None | S fuel' => strcmp fuel' (u32 (p + 1)) (u32 (q + 1)) m end
  else if uint_char (rd8 m p) <? uint_char (rd8 m q) then Some (-1)
  else if uint_char (rd8 m q) <? uint_char (rd8 m p) then Some 1
  else Some 0.
