(* ===== verification/StrThms.v ===== *)
(** * Theorems on strings and byte copies (lib/string.c) *)

From Stdlib Require Import ZArith Lia.
From stdpp Require Import base numbers list gmap.
From S2P Require Import Prelude Str.

(** ** Bytes and words *)
Definition bytes_ok (m : bmem) : Prop := forall a, 0 <= rd8 m a < 256.

Lemma rd_wr8 m a v b : rd8 (wr8 m a v) b = if decide (a = b) then u8 v else rd8 m b.
Proof. unfold rd8, wr8. rewrite lookup_insert. by case_decide. Qed.

Lemma u8_byte v : 0 <= v < 256 -> u8 v = v.
Proof. intros H. unfold u8. by apply Z.mod_small. Qed.

(** The four bytes a word store leaves. *)
Lemma rd_wr32 m a v b : rd8 (wr32 m a v) b =
  if decide (a <= b < a + 4) then u8 (Z.shiftr v (8 * (b - a))) else rd8 m b.
Proof.
  unfold wr32. rewrite !rd_wr8. destruct (decide (a <= b < a + 4)).
  - assert (b = a \/ b = a + 1 \/ b = a + 2 \/ b = a + 3) as [-> | [-> | [-> | ->]]] by lia;
      repeat first [rewrite decide_True by lia|rewrite decide_False by lia]; 
      first [by rewrite Z.sub_diag, Z.mul_0_r, Z.shiftr_0_r|f_equal; f_equal; lia].
  - by rewrite !decide_False by lia.
Qed.

Lemma word_bytes m a k : bytes_ok m -> 0 <= k < 4 -> u8 (Z.shiftr (rd32 m a) (8 * k)) = rd8 m (a + k).
Proof.
  intros Hb Hk. pose proof (Hb a) as H0. pose proof (Hb (a + 1)) as H1. pose proof (Hb (a + 2)) as H2. pose proof (Hb (a + 3)) as H3.
  unfold rd32, u8. rewrite shiftr_div by lia.
  assert (k = 0 \/ k = 1 \/ k = 2 \/ k = 3) as [-> | [-> | [-> | ->]]] by lia.
  - change (2 ^ (8 * 0)) with 1. rewrite Z.add_0_r. dlia.
  - change (2 ^ (8 * 1)) with 256. dlia.
  - change (2 ^ (8 * 2)) with 65536. dlia.
  - change (2 ^ (8 * 3)) with 16777216. dlia.
Qed.

(** ** A word store and a word load *)
Lemma shiftr_byte v k : 0 <= v < 4294967296 -> 0 <= k < 4 -> 0 <= u8 (Z.shiftr v (8 * k)) < 256.
Proof. intros _ _. apply Z.mod_pos_bound. lia. Qed.

Lemma rd32_wr32_eq m a v : is_u32 v -> rd32 (wr32 m a v) a = v.
Proof.
  intros H. unfold is_u32 in H. unfold rd32. rewrite !rd_wr32. rewrite !decide_True by lia.
  replace (a - a) with 0 by lia. replace (a + 1 - a) with 1 by lia. replace (a + 2 - a) with 2 by lia.
  replace (a + 3 - a) with 3 by lia. unfold u8. rewrite !shiftr_div by lia.
  change (2 ^ (8 * 0)) with 1. change (2 ^ (8 * 1)) with 256. change (2 ^ (8 * 2)) with 65536.
  change (2 ^ (8 * 3)) with 16777216. dlia.
Qed.

Lemma rd32_ext m m' a : (forall i, 0 <= i < 4 -> rd8 m' (a + i) = rd8 m (a + i)) -> rd32 m' a = rd32 m a.
Proof.
  intros H. unfold rd32. pose proof (H 0 ltac:(lia)) as H0. rewrite Z.add_0_r in H0. by rewrite H0, !H by lia.
Qed.

Lemma rd32_wr32_ne m a v b : b + 4 <= a \/ a + 4 <= b -> rd32 (wr32 m a v) b = rd32 m b.
Proof. intros H. apply rd32_ext. intros i Hi. rewrite rd_wr32. by rewrite decide_False by lia. Qed.

Lemma rd32_range m a : bytes_ok m -> is_u32 (rd32 m a).
Proof.
  intros H. unfold rd32, is_u32. pose proof (H a). pose proof (H (a + 1)). pose proof (H (a + 2)). pose proof (H (a + 3)). lia.
Qed.

Lemma u8_range v : 0 <= u8 v < 256.
Proof. apply Z.mod_pos_bound. lia. Qed.

Lemma wr8_bytes_ok m a v : bytes_ok m -> bytes_ok (wr8 m a v).
Proof. intros H b. rewrite rd_wr8. case_decide; [apply u8_range|apply H]. Qed.

Lemma wr32_bytes_ok m a v : bytes_ok m -> bytes_ok (wr32 m a v).
Proof. intros H. unfold wr32. by repeat apply wr8_bytes_ok. Qed.

(** Storing a list of bytes. *)
Fixpoint wr_bytes (m : bmem) (a : Z) (bs : list Z) : bmem :=
  match bs with [] => m | b :: bs' => wr_bytes (wr8 m a b) (a + 1) bs' end.

Lemma rd_wr_bytes bs : forall m a x, rd8 (wr_bytes m a bs) x =
  if decide (a <= x < a + Z.of_nat (length bs)) then u8 (nth (Z.to_nat (x - a)) bs 0) else rd8 m x.
Proof.
  induction bs as [|b bs IH]; intros m a x; cbn [wr_bytes length].
  - by rewrite decide_False by lia.
  - rewrite IH, rd_wr8. destruct (decide (a + 1 <= x < a + 1 + Z.of_nat (length bs))).
    + rewrite decide_True by lia. replace (Z.to_nat (x - a)) with (S (Z.to_nat (x - (a + 1)))) by lia. done.
    + case_decide as E; [|by rewrite decide_False by lia]. subst x. rewrite decide_True by lia. by rewrite Z.sub_diag.
Qed.

Lemma wr_bytes_ok bs : forall m a, bytes_ok m -> bytes_ok (wr_bytes m a bs).
Proof. induction bs as [|b bs IH]; intros m a H; [done|]. by apply IH, wr8_bytes_ok. Qed.

(** ** memcpy *)
Section Memcpy.
Context (dst src n : Z) (m0 : bmem).
Context (Hb : bytes_ok m0) (Hd : 0 <= dst) (Hs : 0 <= src) (Hn : 0 <= n).
Context (Hdmax : dst + n + 4 < 4294967296) (Hsmax : src + n + 4 < 4294967296).
Context (Hover : dst <= src \/ src + n <= dst).

(** The first [i] bytes are copied. *)
Definition copied (i : Z) (m : bmem) : Prop :=
  forall a, rd8 m a = if decide (dst <= a < dst + i) then rd8 m0 (src + (a - dst)) else rd8 m0 a.

Lemma copied_bytes i m : copied i m -> bytes_ok m.
Proof using Hb. intros C a. rewrite (C a). case_decide; apply Hb. Qed.

(** The next bytes of the source are still the original ones. *)
Lemma copied_source i k m : copied i m -> 0 <= i -> 0 <= k -> i + k < n -> rd8 m (src + i + k) = rd8 m0 (src + i + k).
Proof using Hover. intros C Hi Hk Hik. rewrite (C _). rewrite decide_False; [done|lia]. Qed.

Lemma copied_wr8 i m : copied i m -> 0 <= i < n -> copied (i + 1) (wr8 m (dst + i) (rd8 m (src + i))).
Proof using Hover Hb.
  intros C Hi a. rewrite rd_wr8.
  pose proof (copied_source i 0 m C ltac:(lia) ltac:(lia) ltac:(lia)) as E. rewrite Z.add_0_r in E. rewrite E.
  destruct (decide (dst + i = a)) as [<-|Hne].
  - rewrite decide_True by lia. rewrite u8_byte by apply Hb. f_equal. lia.
  - rewrite (C a). destruct (decide (dst <= a < dst + i)); [by rewrite decide_True by lia|].
    by rewrite decide_False by lia.
Qed.

Lemma copied_wr32 i m : copied i m -> 0 <= i -> i + 4 <= n -> copied (i + 4) (wr32 m (dst + i) (rd32 m (src + i))).
Proof using Hover Hb.
  intros C Hi Hin a. rewrite rd_wr32. destruct (decide (dst + i <= a < dst + i + 4)) as [Ha|Ha].
  - rewrite word_bytes by (try lia; by apply (copied_bytes i)).
    rewrite (copied_source i (a - (dst + i)) m C) by lia. rewrite decide_True by lia. f_equal. lia.
  - rewrite (C a). destruct (decide (dst <= a < dst + i)); [by rewrite decide_True by lia|].
    by rewrite decide_False by lia.
Qed.

Lemma copy_bytes_ok fuel head i m : copied i m -> 0 <= i <= n -> n - i <= Z.of_nat fuel ->
  exists j m', copy_bytes fuel head (dst + i) (src + i) (dst + n) m = Some (dst + j, src + j, m') /\
    i <= j <= n /\ copied j m' /\ (head = false -> j = n).
Proof using All.
  revert i m. induction fuel as [|fuel IH]; intros i m C Hi Hfuel; cbn [copy_bytes].
  - assert (i = n) as -> by lia. rewrite Z.ltb_irrefl, andb_false_r. exists n, m. split_and!; done || lia.
  - destruct (negb head || negb (Z.land (dst + i) 3 =? 0)) eqn:Ec; cbn [andb].
    + destruct (Z.ltb_spec (dst + i) (dst + n)).
      * rewrite !u32_small by (unfold is_u32; lia).
        destruct (IH (i + 1) _ (copied_wr8 i m C ltac:(lia)) ltac:(lia) ltac:(lia)) as (j & m' & E & Hj & C' & Hh).
        exists j, m'. rewrite !Z.add_assoc in E. split_and!; done || lia.
      * assert (i = n) as -> by lia. exists n, m. split_and!; done || lia.
    + exists i, m. split_and!; try done || lia. intros ->. done.
Qed.

Lemma copy_words_ok fuel i m : copied i m -> 0 <= i <= n -> n - i <= Z.of_nat fuel ->
  exists j m', copy_words fuel (dst + i) (src + i) (dst + n) m = Some (dst + j, src + j, m') /\
    i <= j <= n /\ copied j m'.
Proof using All.
  revert i m. induction fuel as [|fuel IH]; intros i m C Hi Hfuel; cbn [copy_words];
    rewrite (u32_small (dst + i + 4)) by (unfold is_u32; lia); destruct (Z.leb_spec (dst + i + 4) (dst + n)).
  - lia.
  - exists i, m. split_and!; done || lia.
  - rewrite (u32_small (src + i + 4)) by (unfold is_u32; lia).
    destruct (IH (i + 4) _ (copied_wr32 i m C ltac:(lia) ltac:(lia)) ltac:(lia) ltac:(lia)) as (j & m' & E & Hj & C').
    exists j, m'. rewrite !Z.add_assoc in E. split_and!; done || lia.
  - exists i, m. split_and!; done || lia.
Qed.
End Memcpy.

(** C39: memcpy is the byte-by-byte copy. For buffers that do not wrap, disjoint or with
    the destination below the source, it ends, returns the destination, and memory is the
    original with the [n] bytes of the source at the destination: the word loop and the two
    byte loops around it, or the byte loop alone when the two addresses are not aligned
    alike, give the same result. *)
Theorem memcpy_correct dst src n m : bytes_ok m -> 0 <= dst -> 0 <= src -> 0 <= n ->
  dst + n + 4 < 4294967296 -> src + n + 4 < 4294967296 -> dst <= src \/ src + n <= dst ->
  exists m', memcpy dst src n m = Some (dst, m') /\
    forall a, rd8 m' a = if decide (dst <= a < dst + n) then rd8 m (src + (a - dst)) else rd8 m a.
Proof.
  intros Hb Hd Hs Hn Hdm Hsm Ho. unfold memcpy. rewrite (u32_small (dst + n)) by (unfold is_u32; lia).
  assert (C0 : copied dst src m 0 m) by (intros a; by rewrite decide_False by lia).
  destruct (negb (Z.land src 3 =? Z.land dst 3)).
  - destruct (copy_bytes_ok dst src n m Hb Hd Hs Hn Hdm Hsm Ho (S (Z.to_nat n)) false 0 m C0) as (j & m' & E & Hj & C & Hh); [lia..|].
    rewrite !Z.add_0_r in E. rewrite E. cbn. exists m'. split; [done|]. rewrite (Hh eq_refl) in C. exact C.
  - destruct (copy_bytes_ok dst src n m Hb Hd Hs Hn Hdm Hsm Ho (S (Z.to_nat n)) true 0 m C0) as (j & m1 & E1 & Hj & C1 & _); [lia..|].
    rewrite !Z.add_0_r in E1. rewrite E1. cbn [mbind option_bind].
    destruct (copy_words_ok dst src n m Hb Hd Hs Hn Hdm Hsm Ho (S (Z.to_nat n)) j m1 C1) as (k & m2 & E2 & Hk & C2); [lia..|].
    rewrite E2. cbn [mbind option_bind].
    destruct (copy_bytes_ok dst src n m Hb Hd Hs Hn Hdm Hsm Ho (S (Z.to_nat n)) false k m2 C2) as (l & m3 & E3 & Hl & C3 & Hh); [lia..|].
    rewrite E3. cbn. exists m3. split; [done|]. rewrite (Hh eq_refl) in C3. exact C3.
Qed.

(** Ten bytes copied between addresses that are aligned alike, from 101 to 5. *)
Definition ten_bytes : bmem := list_to_map (map (fun i => (101 + i, 10 + i)) (zseq 0 10)).

Lemma ten_bytes_ok : bytes_ok ten_bytes.
Proof.
  intros a. unfold rd8. destruct (ten_bytes !! a) as [v|] eqn:E; cbn; [|lia].
  apply elem_of_list_to_map_2 in E. apply list_elem_of_fmap in E as (i & [= -> ->] & Hi).
  apply elem_of_zseq in Hi. lia.
Qed.

Lemma memcpy_correct_witness : exists m', memcpy 5 101 10 ten_bytes = Some (5, m') /\ rd8 m' 14 = 19.
Proof.
  destruct (memcpy_correct 5 101 10 ten_bytes ten_bytes_ok) as (m' & E & H); [lia..|].
  exists m'. split; [exact E|]. rewrite (H 14). vm_compute. reflexivity.
Defined.

(** ** C strings *)

(** The bytes of [l], none of them zero, are at [p], and a zero follows. *)
Fixpoint cstring (m : bmem) (p : Z) (l : list Z) : Prop :=
  match l with
  | [] => rd8 m p = 0
  | b :: l' => rd8 m p = b /\ 0 < b < 256 /\ cstring m (p + 1) l'
  end.

(** The order of strings: the first difference decides, a prefix comes first. *)
Fixpoint lex (l1 l2 : list Z) : Z :=
  match l1, l2 with
  | [], [] => 0
  | [], _ :: _ => -1
  | _ :: _, [] => 1
  | a :: l1', b :: l2' => if a =? b then lex l1' l2' else if a <? b then -1 else 1
  end.

Lemma lex_eq l1 l2 : lex l1 l2 = 0 <-> l1 = l2.
Proof.
  revert l2. induction l1 as [|a l1 IH]; intros [|b l2]; cbn; try (split; (done || lia)).
  destruct (Z.eqb_spec a b) as [->|Hne]; [rewrite IH; split; [by intros ->|by intros [= ->]]|].
  split; [|by intros [= -> ?]]. destruct (a <? b); lia.
Qed.

Lemma uint_char_lt a b : 0 <= a < 256 -> 0 <= b < 256 -> (uint_char a <? uint_char b) = (a <? b).
Proof.
  intros Ha Hb. unfold uint_char, char_val, u32.
  destruct (Z.ltb_spec a 128), (Z.ltb_spec b 128); apply eq_bool_prop_intro;
    rewrite !Is_true_true, !Z.ltb_lt; dlia.
Qed.

Lemma strlen_ok l fuel m p n : cstring m p l -> 0 <= p -> p + Z.of_nat (length l) < 4294967296 ->
  (length l <= fuel)%nat -> strlen_loop fuel p n m = Some (n + Z.of_nat (length l)).
Proof.
  revert fuel p n. induction l as [|b l IH]; intros fuel p n H Hp Hlen Hf; cbn in H, Hlen, Hf.
  - destruct fuel; cbn; rewrite H; cbn; f_equal; lia.
  - destruct H as (Hb & Hr & H). destruct fuel as [|fuel]; [lia|]. cbn [strlen_loop]. rewrite Hb.
    destruct (Z.eqb_spec b 0); [lia|]. rewrite u32_small by (unfold is_u32; lia).
    rewrite (IH fuel (p + 1) (n + 1) H) by lia. f_equal. cbn [length]. lia.
Qed.

Lemma strcmp_ok l1 : forall l2 fuel m p q, cstring m p l1 -> cstring m q l2 -> 0 <= p -> 0 <= q ->
  p + Z.of_nat (length l1) < 4294967296 -> q + Z.of_nat (length l2) < 4294967296 ->
  (length l1 <= fuel)%nat -> strcmp fuel p q m = Some (lex l1 l2).
Proof.
  induction l1 as [|a l1 IH]; intros l2 fuel m p q H1 H2 Hp Hq Hl1 Hl2 Hf; cbn in H1.
  - destruct l2 as [|b l2]; cbn in H2; [destruct fuel; cbn; by rewrite H1, H2|].
    destruct H2 as (Hb & Hr & _).
    assert (E : strcmp fuel p q m = if uint_char 0 <? uint_char b then Some (-1)
      else if uint_char b <? uint_char 0 then Some 1 else Some 0) by (destruct fuel; cbn [strcmp]; by rewrite H1, Hb).
    rewrite E, uint_char_lt by lia. destruct (Z.ltb_spec 0 b); [done|lia].
  - destruct H1 as (Ha & Har & H1). cbn [length] in Hl1, Hf. destruct l2 as [|b l2]; cbn in H2.
    + assert (E : strcmp fuel p q m = if uint_char a <? uint_char 0 then Some (-1)
        else if uint_char 0 <? uint_char a then Some 1 else Some 0).
      { destruct fuel; [lia|]. cbn [strcmp]. rewrite Ha, H2. destruct (Z.eqb_spec a 0); [lia|done]. }
      rewrite E, !uint_char_lt by lia. cbn [lex]. destruct (Z.ltb_spec a 0), (Z.ltb_spec 0 a); lia || done.
    + destruct H2 as (Hb & Hbr & H2). cbn [length] in Hl2. destruct fuel as [|fuel]; [lia|]. cbn [strcmp lex].
      rewrite Ha, Hb. destruct (Z.eqb_spec a 0); [lia|]. cbn [negb andb]. destruct (Z.eqb_spec a b) as [->|Hne].
      * rewrite !u32_small by (unfold is_u32; lia). apply IH; done || lia.
      * rewrite !uint_char_lt by lia. destruct (Z.ltb_spec a b); [done|]. destruct (Z.ltb_spec b a); [done|lia].
Qed.

Lemma cstring_wr8 m p l a v : cstring m p l -> a < p \/ p + Z.of_nat (length l) < a -> cstring (wr8 m a v) p l.
Proof.
  revert p. induction l as [|b l IH]; intros p H Ha; cbn in *; [rewrite rd_wr8, decide_False by lia; done|].
  destruct H as (Hb & Hr & H). split; [by rewrite rd_wr8, decide_False by lia|]. split; [exact Hr|]. apply IH; [done|lia].
Qed.

Lemma strcpy_ok l : forall fuel m dst src, cstring m src l -> 0 <= dst -> 0 <= src ->
  dst + Z.of_nat (length l) < 4294967296 -> src + Z.of_nat (length l) < 4294967296 ->
  dst < src \/ src + Z.of_nat (length l) < dst -> (length l <= fuel)%nat ->
  exists m', strcpy_loop fuel dst src m = Some m' /\ cstring m' dst l /\
    forall a, a < dst \/ dst + Z.of_nat (length l) < a -> rd8 m' a = rd8 m a.
Proof.
  induction l as [|b l IH]; intros fuel m dst src H Hd Hs Hdl Hsl Ho Hf; cbn in H.
  - exists (wr8 m dst 0). split; [|split].
    + destruct fuel; cbn [strcpy_loop]; rewrite H; done.
    + cbn. by rewrite rd_wr8, decide_True.
    + intros a Ha. cbn in Ha. by rewrite rd_wr8, decide_False by lia.
  - destruct H as (Hb & Hr & H). cbn [length] in *. destruct fuel as [|fuel]; [lia|]. cbn [strcpy_loop].
    rewrite Hb. destruct (Z.eqb_spec b 0); [lia|]. rewrite !u32_small by (unfold is_u32; lia).
    destruct (IH fuel (wr8 m dst b) (dst + 1) (src + 1)) as (m' & E & C & Fr); try lia.
    { apply cstring_wr8; [done|lia]. }
    exists m'. split; [done|]. split.
    + split; [|split; [done|exact C]]. rewrite Fr by lia. by rewrite rd_wr8, decide_True, u8_byte by lia.
    + intros a Ha. rewrite Fr by lia. by rewrite rd_wr8, decide_False by lia.
Qed.

(** strlen, strcmp and strcpy on C strings, with fuel for their length. strlen is the
    number of bytes before the zero; strcmp is the order of the two strings as unsigned
    bytes, 0 exactly for equal strings, although the bytes are compared after sign
    extension; strcpy leaves the string at the destination, for buffers where it does not
    overwrite what it still has to read, and no other byte changes. *)
Theorem cstring_functions fuel m p q l1 l2 : cstring m p l1 -> cstring m q l2 -> 0 <= p -> 0 <= q ->
  p + Z.of_nat (length l1) < 4294967296 -> q + Z.of_nat (length l2) < 4294967296 -> (length l1 <= fuel)%nat ->
  strlen fuel p m = Some (Z.of_nat (length l1)) /\
  strcmp fuel p q m = Some (lex l1 l2) /\ (strcmp fuel p q m = Some 0 <-> l1 = l2) /\
  forall dst, 0 <= dst -> dst + Z.of_nat (length l1) < 4294967296 ->
    dst < p \/ p + Z.of_nat (length l1) < dst ->
    exists m', strcpy fuel dst p m = Some (dst, m') /\ cstring m' dst l1 /\
      forall a, a < dst \/ dst + Z.of_nat (length l1) < a -> rd8 m' a = rd8 m a.
Proof.
  intros H1 H2 Hp Hq Hl1 Hl2 Hf.
  assert (Ec := strcmp_ok l1 l2 fuel m p q H1 H2 Hp Hq Hl1 Hl2 Hf).
  split; [exact (strlen_ok l1 fuel m p 0 H1 Hp Hl1 Hf)|]. split; [done|]. split.
  { rewrite Ec, <- lex_eq. split; [by intros [= ->]|by intros ->]. }
  intros dst Hd Hdl Ho. destruct (strcpy_ok l1 fuel m dst p H1) as (m' & E & C & Fr); [done..|].
  exists m'. unfold strcpy. rewrite E. done.
Qed.

Lemma cstring_functions_witness : strcmp 9 100 200 (list_to_map [(100, 104); (101, 105); (200, 104); (201, 200)]) = Some (-1).
Proof.
  destruct (cstring_functions 9 (list_to_map [(100, 104); (101, 105); (200, 104); (201, 200)]) 100 200 [104; 105] [104; 200])
    as (_ & E & _); [cbn; repeat split; lia..|cbn; lia|cbn; lia|cbn; lia|].
  exact E.
Defined.
