(* ===== verification/Print.v ===== *)
(** * Formatted output (lib/print.c)

    Characters are bytes, a format is the list of its characters before the zero. The
    output is the list of the blocks passed to the callback [out], in order. The arguments
    are the words and strings [va_arg] yields. *)

From Stdlib Require Import ZArith Lia.
From stdpp Require Import base numbers list.
From S2P Require Import Prelude.

(** ** print_num *)

(** [do { ... } while (u != 0)]: the digits, least significant first. *)
Definition digit_char (tmp : Z) (upcase : bool) : Z :=
  if tmp <=? 9 then 48 + tmp else if upcase then 65 + tmp - 10 else 97 + tmp - 10.

Fixpoint num_digits (fuel : nat) (u base : Z) (upcase : bool) : list Z :=
  match fuel with
  | O => []
  | S fuel' =>
      digit_char (u mod base) upcase ::
      (if u / base =? 0 then [] else num_digits fuel' (u / base) base upcase)
  end.

(** Writes at increasing positions of the buffer. *)
Fixpoint write_at (i : nat) (l : list Z) (buf : list Z) : list Z :=
  match l with
  | [] => buf
  | c :: l' => write_at (S i) l' (<[i := c]> buf)
  end.

(** [for (i = from; i < to; i++) buf[i] = padc] *)
Definition pad_from (from to : Z) (padc : Z) (buf : list Z) : list Z :=
  write_at (Z.to_nat from) (replicate (Z.to_nat (to - from)) padc) buf.

(** The swaps of [while (end > begin)]. *)
Fixpoint swap_loop (fuel : nat) (b e : Z) (buf : list Z) : list Z :=
  match fuel with
  | O => buf
  | S fuel' =>
      if b <? e then
        let x := nth (Z.to_nat b) buf 0 in
        let y := nth (Z.to_nat e) buf 0 in
        swap_loop fuel' (b + 1) (e - 1) (<[Z.to_nat e := x]> (<[Z.to_nat b := y]> buf))
      else buf
  end.

(** The block passed to [out]. *)
Definition print_num (u base : Z) (neg_flag : bool) (length0 : Z) (ladjust : bool) (padc : Z) (upcase : bool) : list Z :=
  let buf := replicate (Z.to_nat (length0 + 70)) 0 in
  let chars := num_digits 32 u base upcase ++ (if neg_flag then [45] else []) in
  let buf := write_at 0 chars buf in
  let actualLength := Z.of_nat (length chars) in
  let len := if length0 <? actualLength then actualLength else length0 in
  let padc := if ladjust then 32 else padc in
  let buf :=
    if neg_flag && negb ladjust && (padc =? 48) then
      <[Z.to_nat (len - 1) := 45]> (pad_from (actualLength - 1) (len - 1) padc buf)
    else pad_from actualLength len padc buf in
  let e := if ladjust then actualLength - 1 else len - 1 in
  let buf := swap_loop (Z.to_nat len) 0 e buf in
  take (Z.to_nat len) buf.

(** ** print_char and print_str *)
Definition spaces (n : Z) : list (list Z) := replicate (Z.to_nat n) [32].

Definition print_char (c length0 : Z) (ladjust : bool) : list (list Z) :=
  let len := if length0 <? 1 then 1 else length0 in
  if ladjust then [c] :: spaces (len - 1) else spaces (len - 1) ++ [[c]].

Definition print_str (s : list Z) (length0 : Z) (ladjust : bool) : list (list Z) :=
  let n := Z.of_nat (length s) in
  let len := if length0 <? n then n else length0 in
  if ladjust then s :: spaces (len - n) else spaces (len - n) ++ [s].

(** ** vprintfmt *)
Inductive va := VInt (w : Z) | VStr (s : list Z).

(** [Ub]: an argument is missing or of the wrong type, or the width overflows an [int]. *)
Inductive fmt_result := Done (out : list (list Z)) | Ub | NoFuel.

(** Text up to the next [%]. *)
Fixpoint scan_text (fmt : list Z) : list Z * list Z :=
  match fmt with
  | [] => ([], [])
  | c :: fmt' => if c =? 37 then ([], fmt) else let '(t, r) := scan_text fmt' in (c :: t, r)
  end.

(** [while ( *++fmt)]: the flags. *)
Fixpoint scan_flags (fmt : list Z) (ladjust : bool) (padc : Z) : list Z * bool * Z :=
  match fmt with
  | [] => ([], ladjust, padc)
  | c :: fmt' =>
      if c =? 45 then scan_flags fmt' true padc
      else if (c =? 43) || (c =? 32) then scan_flags fmt' ladjust padc
      else if c =? 48 then scan_flags fmt' ladjust 48
      else if (c =? 35) || (c =? 42) then scan_flags fmt' ladjust padc
      else (fmt, ladjust, padc)
  end.

Fixpoint scan_width (fmt : list Z) (width : Z) : option (list Z * Z) :=
  match fmt with
  | c :: fmt' =>
      if (48 <=? c) && (c <=? 57) then
        let w := width * 10 + c - 48 in
        if 2147483647 <? width * 10 + c then None else scan_width fmt' w
      else Some (fmt, width)
  | [] => Some ([], width)
  end.

(** [long] and [int] have the same width: the long flag only skips the [l]. *)
Definition scan_long (fmt : list Z) : list Z :=
  match fmt with c :: fmt' => if c =? 108 then fmt' else fmt | [] => [] end.

(** [print_num] takes its number as an [unsigned long]. *)
Definition print_unsigned (base w width : Z) (ladjust : bool) (padc : Z) (upcase : bool) : list Z :=
  print_num (u32 w) base false width ladjust padc upcase.

Definition print_signed (w width : Z) (ladjust : bool) (padc : Z) : list Z :=
  let num := s32 w in
  if num <? 0 then print_num (u32 (- num)) 10 true width ladjust padc false
  else print_num (u32 num) 10 false width ladjust padc false.

(** The conversion [c]: the blocks it outputs and the arguments left. *)
Definition conversion (c width : Z) (ladjust : bool) (padc : Z) (ap : list va) : option (list (list Z) * list va) :=
  let num f := match ap with VInt w :: ap' => Some ([f w], ap') | _ => None end in
  if c =? 98 then num (fun w => print_unsigned 2 w width ladjust padc false)
  else if (c =? 100) || (c =? 68) then num (fun w => print_signed w width ladjust padc)
  else if (c =? 111) || (c =? 79) then num (fun w => print_unsigned 8 w width ladjust padc false)
  else if (c =? 117) || (c =? 85) then num (fun w => print_unsigned 10 w width ladjust padc false)
  else if c =? 120 then num (fun w => print_unsigned 16 w width ladjust padc false)
  else if c =? 88 then num (fun w => print_unsigned 16 w width ladjust padc true)
  else if c =? 99 then
    match ap with VInt w :: ap' => Some (print_char (u8 w) width ladjust, ap') | _ => None end
  else if c =? 115 then
    match ap with VStr s :: ap' => Some (print_str s width ladjust, ap') | _ => None end
  else Some ([[c]], ap).

Fixpoint vprintfmt (fuel : nat) (fmt : list Z) (ap : list va) (out : list (list Z)) : fmt_result :=
  match fuel with
  | O => NoFuel
  | S fuel' =>
      let '(text, fmt) := scan_text fmt in
      let out := out ++ [text] in
      match fmt with
      | [] => Done out
      | _ :: fmt =>
          let '(fmt, ladjust, padc) := scan_flags fmt false 32 in
          match scan_width fmt 0 with
          | None => Ub
          | Some (fmt, width) =>
              match scan_long fmt with
              | [] => vprintfmt fuel' [] ap out
              | c :: fmt =>
                  match conversion c width ladjust padc ap with
                  | Some (o, ap) => vprintfmt fuel' fmt ap (out ++ o)
                  | None => Ub
                  end
              end
          end
      end
  end.
