(* ===== verification/PrintThms.v ===== *)
(** * Theorems on formatted output (lib/print.c) *)

From Stdlib Require Import ZArith Lia.
From stdpp Require Import base numbers list.
From S2P Require Import Prelude Print.

(** ** The buffer *)
Lemma insert_mid (x y : list Z) a v n : n = length x -> <[n := v]> (x ++ a :: y) = x ++ v :: y.
Proof. intros ->. induction x as [|z x IH]; [done|]. exact (f_equal (cons z) IH). Qed.

Lemma write_at_app l : forall a mid rest, length mid = length l ->
  write_at (length a) l (a ++ mid ++ rest) = a ++ l ++ rest.
Proof.
  induction l as [|c l IH]; intros a mid rest Hl; destruct mid as [|x mid]; try discriminate; [done|].
  cbn [write_at app]. rewrite insert_mid by done.
  replace (S (length a)) with (length (a ++ [c])) by (rewrite length_app; cbn; lia).
  replace (a ++ c :: mid ++ rest) with ((a ++ [c]) ++ mid ++ rest) by by rewrite <- app_assoc.
  rewrite IH by (cbn in Hl; lia). by rewrite <- app_assoc.
Qed.

Lemma write_at_split i l buf : (i + length l <= length buf)%nat ->
  write_at i l buf = take i buf ++ l ++ drop (i + length l) buf.
Proof.
  intros H. rewrite <- (take_drop i buf) at 1. rewrite <- (take_drop (length l) (drop i buf)) at 1.
  replace i with (length (take i buf)) at 1 by (rewrite length_take; lia).
  rewrite write_at_app by (rewrite length_take, length_drop; lia). by rewrite drop_drop.
Qed.

Lemma length_write_at l : forall i buf, length (write_at i l buf) = length buf.
Proof. induction l as [|c l IH]; intros i buf; [done|]. cbn. by rewrite IH, length_insert. Qed.

(** The swaps reverse the segment between the two indices. *)
Lemma swap_loop_ok : forall n fuel mid x y b e, length mid = n -> (n <= 2 * fuel + 1)%nat ->
  b = Z.of_nat (length x) -> e = b + Z.of_nat n - 1 ->
  swap_loop fuel b e (x ++ mid ++ y) = x ++ reverse mid ++ y.
Proof.
  induction n as [n IH] using lt_wf_ind. intros fuel mid x y b e Hn Hf Hb He.
  destruct (decide (n <= 1)%nat) as [Hs|Hs].
  { assert (Hm : reverse mid = mid) by (destruct mid as [|a [|? ?]]; [done|done|cbn in Hn; lia]).
    rewrite Hm. destruct fuel; [done|]. cbn [swap_loop]. destruct (Z.ltb_spec b e); [lia|done]. }
  destruct fuel as [|fuel]; [lia|]. cbn [swap_loop]. destruct (Z.ltb_spec b e); [|lia].
  destruct mid as [|a mid']; [cbn in Hn; lia|].
  destruct (exists_last (l := mid')) as (m & c & ->); [intros ->; cbn in Hn; lia|].
  cbn [length] in Hn. rewrite length_app in Hn. cbn [length] in Hn.
  assert (Hbn : Z.to_nat b = (length x + 0)%nat) by lia.
  assert (Hen : Z.to_nat e = (length x + (S (length m + 0)))%nat) by lia.
  assert (Hx : nth (Z.to_nat b) (x ++ (a :: m ++ [c]) ++ y) 0 = a).
  { rewrite Hbn. rewrite app_nth2 by lia. replace (length x + 0 - length x)%nat with 0%nat by lia. done. }
  assert (Hy : nth (Z.to_nat e) (x ++ (a :: m ++ [c]) ++ y) 0 = c).
  { rewrite Hen, app_nth2 by lia. replace (length x + S (length m + 0) - length x)%nat with (S (length m)) by lia.
    cbn [app nth]. rewrite <- app_assoc, app_nth2 by lia. by rewrite Nat.sub_diag. }
  rewrite Hx, Hy. cbn [app]. rewrite (insert_mid x) by lia.
  replace (x ++ c :: (m ++ [c]) ++ y) with ((x ++ c :: m) ++ c :: y) by (rewrite <- !app_assoc; done).
  rewrite insert_mid by (rewrite length_app; cbn [length]; lia). rewrite <- app_assoc. cbn [app].
  replace (x ++ c :: m ++ a :: y) with ((x ++ [c]) ++ m ++ (a :: y)) by by rewrite <- app_assoc.
  rewrite (IH (length m)) by (rewrite ?length_app; cbn [length]; lia).
  rewrite reverse_cons, reverse_app. cbn. rewrite <- !app_assoc. done.
Qed.

Lemma write_chars l (mid rest : list Z) : length mid = length l -> write_at 0 l (mid ++ rest) = l ++ rest.
Proof. intros H. exact (write_at_app l [] mid rest H). Qed.

(** A padding loop that starts after [a]. *)
Lemma pad_ok a mid rest from to c : from = Z.of_nat (length a) -> length mid = Z.to_nat (to - from) ->
  pad_from from to c (a ++ mid ++ rest) = a ++ replicate (Z.to_nat (to - from)) c ++ rest.
Proof.
  intros Hf Hm. unfold pad_from. replace (Z.to_nat from) with (length a) by lia.
  apply write_at_app. by rewrite length_replicate.
Qed.

Lemma take_app_exact {A} (l k : list A) n : n = length l -> take n (l ++ k) = l.
Proof. intros ->. by rewrite take_app_length. Qed.

(** ** Numbers *)
Definition digit_value (c : Z) : Z := if c <=? 57 then c - 48 else if c <=? 90 then c - 55 else c - 87.

(** The number a list of digits, most significant first, stands for. *)
Definition value (base : Z) (l : list Z) : Z := foldl (fun acc c => acc * base + digit_value c) 0 l.

Lemma digit_value_char d up : 0 <= d < 16 -> digit_value (digit_char d up) = d.
Proof.
  intros Hd. unfold digit_value, digit_char. destruct (Z.leb_spec d 9).
  - destruct (Z.leb_spec (48 + d) 57); lia.
  - destruct up.
    + destruct (Z.leb_spec (65 + d - 10) 57), (Z.leb_spec (65 + d - 10) 90); lia.
    + destruct (Z.leb_spec (97 + d - 10) 57), (Z.leb_spec (97 + d - 10) 90); lia.
Qed.

Lemma value_snoc base l c : value base (l ++ [c]) = value base l * base + digit_value c.
Proof. unfold value. by rewrite foldl_app. Qed.

Section Digits.
Context (base : Z) (up : bool) (Hbase : 2 <= base <= 16).

Lemma num_digits_value fuel u : 0 <= u < base ^ Z.of_nat fuel -> fuel <> O ->
  value base (reverse (num_digits fuel u base up)) = u.
Proof using Hbase.
  revert u. induction fuel as [|fuel IH]; intros u Hu Hf; [done|]. cbn [num_digits].
  rewrite reverse_cons, value_snoc, digit_value_char by (pose proof (Z.mod_pos_bound u base); lia).
  assert (Hdm : u = base * (u / base) + u mod base) by (apply Z.div_mod; lia).
  destruct (Z.eqb_spec (u / base) 0) as [E|E]; [rewrite E in Hdm; cbn; lia|].
  assert (Hlt : 0 <= u / base < base ^ Z.of_nat fuel).
  { rewrite Nat2Z.inj_succ, Z.pow_succ_r in Hu by lia. split; [apply Z.div_pos; lia|].
    apply Z.div_lt_upper_bound; lia. }
  destruct fuel as [|fuel]; [cbn in Hlt; lia|]. rewrite IH by done. lia.
Qed.

Lemma num_digits_length fuel u : (length (num_digits fuel u base up) <= fuel)%nat.
Proof using.
  revert u. induction fuel as [|fuel IH]; intros u; [done|]. cbn [num_digits length].
  destruct (u / base =? 0); cbn [length]; [lia|]. specialize (IH (u / base)). lia.
Qed.

(** The most significant digit is not 0, except for 0 itself. *)
Lemma num_digits_leading fuel u : 0 < u < base ^ Z.of_nat fuel -> fuel <> O ->
  exists l d, num_digits fuel u base up = l ++ [d] /\ 0 < digit_value d.
Proof using Hbase.
  revert u. induction fuel as [|fuel IH]; intros u Hu Hf; [done|]. cbn [num_digits].
  assert (Hdm : u = base * (u / base) + u mod base) by (apply Z.div_mod; lia).
  pose proof (Z.mod_pos_bound u base ltac:(lia)) as Hm.
  destruct (Z.eqb_spec (u / base) 0) as [E|E].
  - exists [], (digit_char (u mod base) up). split; [done|]. rewrite digit_value_char by lia. rewrite E in Hdm. lia.
  - assert (Hlt : 0 < u / base < base ^ Z.of_nat fuel).
    { rewrite Nat2Z.inj_succ, Z.pow_succ_r in Hu by lia. pose proof (Z.div_pos u base ltac:(lia) ltac:(lia)).
      split; [lia|]. apply Z.div_lt_upper_bound; lia. }
    destruct fuel as [|fuel]; [cbn in Hlt; lia|]. destruct (IH (u / base) Hlt ltac:(done)) as (l & d & El & Hd).
    exists (digit_char (u mod base) up :: l), d. by rewrite El.
Qed.
End Digits.

Lemma pow_32 base : 2 <= base -> 4294967296 <= base ^ Z.of_nat 32.
Proof. intros H. change 4294967296 with (2 ^ 32). change (Z.of_nat 32) with 32. apply Z.pow_le_mono_l. lia. Qed.

(** The layout of a number: sign, digits and padding. *)
Definition layout (ds sign : list Z) (neg : bool) (width : Z) (ladjust : bool) (padc : Z) : list Z :=
  let pad := Z.to_nat (width - Z.of_nat (length (ds ++ sign))) in
  if ladjust then sign ++ reverse ds ++ replicate pad 32
  else if neg && (padc =? 48) then sign ++ replicate pad 48 ++ reverse ds
  else replicate pad padc ++ sign ++ reverse ds.

Lemma reverse_replicate {A} (x : A) n : reverse (replicate n x) = replicate n x.
Proof.
  induction n as [|n IH]; [done|]. cbn [replicate]. rewrite reverse_cons, IH. by rewrite <- replicate_cons_app.
Qed.

Lemma print_num_layout u base neg width ladjust padc up : 0 <= width ->
  print_num u base neg width ladjust padc up =
  layout (num_digits 32 u base up) (if neg then [45] else []) neg width ladjust padc.
Proof.
  intros Hw. unfold print_num, layout. set (ds := num_digits 32 u base up). set (sign := if neg then [45] else []).
  assert (Hds : (length ds <= 32)%nat) by apply num_digits_length.
  assert (Hsg : (length sign <= 1)%nat) by (unfold sign; destruct neg; cbn; lia).
  set (n := length (ds ++ sign)). assert (Hn : (n <= 33)%nat) by (unfold n; rewrite length_app; lia).
  set (L := if width <? Z.of_nat n then Z.of_nat n else width).
  assert (HL : Z.of_nat n <= L /\ width <= L /\ L <= width + 33 /\ Z.to_nat (L - Z.of_nat n) = Z.to_nat (width - Z.of_nat n)).
  { unfold L. destruct (Z.ltb_spec width (Z.of_nat n)); lia. }
  destruct HL as (HL1 & HL2 & HL3 & Hpad). set (pad := Z.to_nat (width - Z.of_nat n)) in *.
  set (rest := replicate (Z.to_nat (width + 70) - n - pad) 0 : list Z).
  assert (Hbuf : replicate (Z.to_nat (width + 70)) 0 = replicate n 0 ++ replicate pad 0 ++ rest).
  { unfold rest. rewrite <- !replicate_add. f_equal. lia. }
  rewrite Hbuf, write_chars by by rewrite length_replicate.
  destruct ladjust; cbn [negb]; [rewrite andb_false_r; cbn [andb]|rewrite andb_true_r].
  - rewrite (pad_ok (ds ++ sign)) by (fold n; rewrite ?length_replicate; lia). rewrite Hpad.
    rewrite (swap_loop_ok n (Z.to_nat L) (ds ++ sign) [] (replicate pad 32 ++ rest) 0) by (fold n; cbn [length]; lia).
    cbn [app]. rewrite reverse_app, app_assoc.
    assert (Hs : reverse sign = sign) by (unfold sign; by destruct neg). rewrite Hs, <- !app_assoc.
    replace (sign ++ reverse ds ++ replicate pad 32 ++ rest) with ((sign ++ reverse ds ++ replicate pad 32) ++ rest)
      by by rewrite <- !app_assoc.
    apply take_app_exact. rewrite !length_app, length_reverse, length_replicate.
    unfold n in *. rewrite length_app in *. lia.
  - assert (Hs : reverse sign = sign) by (unfold sign; by destruct neg).
    destruct (neg && (padc =? 48)) eqn:Ez.
    + apply andb_true_iff in Ez as [En Ec]. apply Z.eqb_eq in Ec. subst padc.
      assert (Esg : sign = [45]) by (unfold sign; by rewrite En). rewrite Esg in *.
      assert (En1 : n = S (length ds)) by (unfold n; rewrite length_app, Esg; cbn [length]; lia).
      assert (Emid : (ds ++ [45]) ++ replicate pad 0 ++ rest = ds ++ (take pad (45 :: replicate pad 0)) ++
        drop pad (45 :: replicate pad 0) ++ rest).
      { rewrite <- app_assoc. f_equal. rewrite (app_assoc (take pad _) (drop pad _) rest), take_drop. reflexivity. }
      rewrite Emid. rewrite (pad_ok ds) by (rewrite ?length_take; cbn [length]; rewrite ?length_replicate; lia).
      replace (Z.to_nat (L - 1 - (Z.of_nat n - 1))) with pad by lia.
      assert (Ed : exists z, drop pad (45 :: replicate pad 0) = [z]).
      { destruct (drop pad (45 :: replicate pad 0)) as [|z [|? ?]] eqn:E; [| by exists z|];
          apply (f_equal length) in E; rewrite length_drop in E; cbn [length] in E; rewrite length_replicate in E; lia. }
      destruct Ed as (z & ->). rewrite app_assoc. cbn [app].
      rewrite insert_mid by (rewrite length_app, length_replicate; lia).
      replace ((ds ++ replicate pad 48) ++ 45 :: rest) with ([] ++ (ds ++ replicate pad 48 ++ [45]) ++ rest)
        by (cbn [app]; by rewrite <- !app_assoc).
      rewrite (swap_loop_ok (Z.to_nat L) (Z.to_nat L)) by (rewrite ?length_app, ?length_replicate; cbn [length]; lia).
      cbn [app]. rewrite !reverse_app, reverse_replicate. cbn [reverse rev_append app].
      rewrite <- app_assoc. replace (reverse [45]) with [45] by done.
      transitivity (take (Z.to_nat L) ((45 :: replicate pad 48 ++ reverse ds) ++ rest)); [cbn [app]; by rewrite <- app_assoc|].
      apply take_app_exact. cbn [length]. rewrite !length_app, length_reverse, length_replicate. cbn [length]. lia.
    + rewrite (pad_ok (ds ++ sign)) by (fold n; rewrite ?length_replicate; lia). rewrite Hpad.
      replace ((ds ++ sign) ++ replicate pad padc ++ rest) with ([] ++ (ds ++ sign ++ replicate pad padc) ++ rest)
        by (cbn [app]; by rewrite <- !app_assoc).
      assert (HLn : (length ds + length sign + pad)%nat = Z.to_nat L)
        by (unfold n in *; rewrite length_app in *; lia).
      rewrite (swap_loop_ok (Z.to_nat L) (Z.to_nat L)) by (rewrite ?length_app, ?length_replicate; cbn [length]; lia).
      cbn [app]. rewrite !reverse_app, reverse_replicate, Hs.
      transitivity (take (Z.to_nat L) ((replicate pad padc ++ sign ++ reverse ds) ++ rest)); [by rewrite <- !app_assoc|].
      apply take_app_exact. rewrite !length_app, length_reverse, length_replicate. lia.
Qed.

(** [print_num] on the numbers it is called with. *)
Lemma print_num_ok u base neg width ladjust padc up : 0 <= u < 4294967296 -> 2 <= base <= 16 -> 0 <= width ->
  exists ds, ds <> [] /\ value base ds = u /\
    (0 < u -> exists d r, ds = d :: r /\ 0 < digit_value d) /\
    print_num u base neg width ladjust padc up =
      layout (reverse ds) (if neg then [45] else []) neg width ladjust padc.
Proof.
  intros Hu Hb Hw. pose proof (pow_32 base ltac:(lia)) as Hp.
  exists (reverse (num_digits 32 u base up)). split_and!.
  - change 32%nat with (S 31). cbn [num_digits]. rewrite reverse_cons. by destruct (reverse _).
  - apply num_digits_value; [done|lia|done].
  - intros Hpos. destruct (num_digits_leading base up Hb 32 u) as (l & d & El & Hd); [lia|done|].
    exists d, (reverse l). rewrite El, reverse_app. done.
  - rewrite reverse_involutive. by apply print_num_layout.
Qed.

(** ** Formats as lists of pieces *)

(** Text without a percent sign, or a conversion with its flags, width and [l]. *)
Inductive piece :=
| Lit (t : list Z)
| Conv (minus zero : bool) (width : Z) (long : bool) (c : Z).

Definition decimal (w : Z) : list Z := if w =? 0 then [] else reverse (num_digits 32 w 10 false).

Definition fmt_of (p : piece) : list Z :=
  match p with
  | Lit t => t
  | Conv minus zero width long c =>
      37 :: (if minus then [45] else []) ++ (if zero then [48] else []) ++ decimal width ++
      (if long then [108] else []) ++ [c]
  end.

(** [b d D o O u U x X c s] *)
Definition conversions : list Z := [98; 100; 68; 111; 79; 117; 85; 120; 88; 99; 115].

Definition wf_piece (p : piece) : Prop :=
  match p with
  | Lit t => Forall (fun c => c <> 37) t
  | Conv _ _ width _ c => 0 <= width < 4096 /\ c ∈ conversions
  end.

(** What a piece prints, with the arguments it leaves. *)
Definition padded (s : list Z) (width : Z) (ladjust : bool) : list Z :=
  let pad := replicate (Z.to_nat (width - Z.of_nat (length s))) 32 in
  if ladjust then s ++ pad else pad ++ s.

Definition numeral (base u : Z) (neg : bool) (width : Z) (ladjust : bool) (padc : Z) (up : bool) : list Z :=
  layout (num_digits 32 u base up) (if neg then [45] else []) neg width ladjust padc.

Definition text_of (p : piece) (ap : list va) : option (list Z * list va) :=
  match p, ap with
  | Lit t, _ => Some (t, ap)
  | Conv minus zero width _ c, VInt w :: ap' =>
      let padc := if zero then 48 else 32 in
      if c =? 98 then Some (numeral 2 (u32 w) false width minus padc false, ap')
      else if (c =? 100) || (c =? 68) then
        Some (numeral 10 (Z.abs (s32 w)) (s32 w <? 0) width minus padc false, ap')
      else if (c =? 111) || (c =? 79) then Some (numeral 8 (u32 w) false width minus padc false, ap')
      else if (c =? 117) || (c =? 85) then Some (numeral 10 (u32 w) false width minus padc false, ap')
      else if c =? 120 then Some (numeral 16 (u32 w) false width minus padc false, ap')
      else if c =? 88 then Some (numeral 16 (u32 w) false width minus padc true, ap')
      else if c =? 99 then Some (padded [u8 w] width minus, ap')
      else None
  | Conv minus _ width _ c, VStr s :: ap' => if c =? 115 then Some (padded s width minus, ap') else None
  | Conv _ _ _ _ _, [] => None
  end.

Fixpoint texts (ps : list piece) (ap : list va) : option (list Z) :=
  match ps with
  | [] => Some []
  | p :: ps' =>
      match text_of p ap with
      | None => None
      | Some (t, ap') => match texts ps' ap' with Some ts => Some (t ++ ts) | None => None end
      end
  end.

(** The characters of an output. *)
Definition printed (r : fmt_result) : option (list Z) :=
  match r with Done out => Some (concat out) | _ => None end.

(** ** Blocks *)
Lemma concat_spaces n : concat (spaces n) = replicate (Z.to_nat n) 32.
Proof. unfold spaces. induction (Z.to_nat n) as [|k IH]; [done|]. exact (f_equal (cons 32) IH). Qed.

Lemma print_str_padded s width ladjust : concat (print_str s width ladjust) = padded s width ladjust.
Proof.
  unfold print_str, padded. set (n := Z.of_nat (length s)).
  assert (Hn : Z.to_nat ((if width <? n then n else width) - n) = Z.to_nat (width - n))
    by (destruct (Z.ltb_spec width n); lia).
  destruct ladjust.
  - cbn [concat]. rewrite concat_spaces. by rewrite Hn.
  - rewrite concat_app, concat_spaces, Hn. cbn. by rewrite app_nil_r.
Qed.

Lemma print_char_padded c width ladjust : concat (print_char c width ladjust) = padded [c] width ladjust.
Proof. rewrite <- print_str_padded. unfold print_char, print_str. cbn [length]. by change (Z.of_nat 1) with 1. Qed.

Lemma s32_range w : -2147483648 <= s32 w <= 2147483647.
Proof. unfold s32. pose proof (u32_range w). unfold is_u32 in *. destruct (Z.ltb_spec (u32 w) 2147483648); lia. Qed.

Lemma print_signed_numeral w width ladjust padc : 0 <= width ->
  print_signed w width ladjust padc = numeral 10 (Z.abs (s32 w)) (s32 w <? 0) width ladjust padc false.
Proof.
  intros Hw. unfold print_signed, numeral. pose proof (s32_range w).
  destruct (Z.ltb_spec (s32 w) 0); rewrite print_num_layout by done; rewrite u32_small by (unfold is_u32; lia).
  - by replace (- s32 w) with (Z.abs (s32 w)) by lia.
  - by rewrite Z.abs_eq.
Qed.

Lemma print_unsigned_numeral base w width ladjust padc up : 0 <= width ->
  print_unsigned base w width ladjust padc up = numeral base (u32 w) false width ladjust padc up.
Proof. intros Hw. unfold print_unsigned. by rewrite print_num_layout. Qed.

(** A conversion prints the text of its piece. *)
Lemma conversion_ok minus zero width long c ap t ap' : 0 <= width ->
  text_of (Conv minus zero width long c) ap = Some (t, ap') ->
  exists o, conversion c width minus (if zero then 48 else 32) ap = Some (o, ap') /\ concat o = t.
Proof.
  intros Hw H. destruct ap as [|[w|s] ap1]; cbn [text_of] in H; [done| |].
  - unfold conversion.
    repeat match type of H with (if ?b then _ else _) = _ => destruct b; [
      injection H as <- <-; eexists; (split; [reflexivity|]);
      first [by rewrite print_char_padded | by rewrite print_signed_numeral by done; cbn; rewrite app_nil_r
            | by rewrite print_unsigned_numeral by done; cbn; rewrite app_nil_r]|] end. done.
  - destruct (Z.eqb_spec c 115) as [->|]; [|done]. injection H as <- <-. exists (print_str s width minus).
    split; [done|]. apply print_str_padded.
Qed.

(** ** Scanning *)
Definition is_digit (c : Z) : bool := (48 <=? c) && (c <=? 57).
Definition not_digit_head (l : list Z) : Prop := match l with [] => True | c :: _ => is_digit c = false end.

Lemma num_digits_decimal fuel u : Forall (fun c => is_digit c = true) (num_digits fuel u 10 false).
Proof.
  revert u. induction fuel as [|fuel IH]; intros u; [constructor|]. cbn [num_digits]. constructor.
  - pose proof (Z.mod_pos_bound u 10 ltac:(lia)). unfold digit_char, is_digit.
    destruct (Z.leb_spec (u mod 10) 9); [|lia]. apply andb_true_iff. split; apply Z.leb_le; lia.
  - destruct (u / 10 =? 0); [constructor|apply IH].
Qed.

Definition dec_step (acc c : Z) : Z := acc * 10 + digit_value c.

Lemma dec_step_digit c : is_digit c = true -> digit_value c = c - 48 /\ 48 <= c <= 57.
Proof.
  intros [H1 H2]%andb_true_iff. apply Z.leb_le in H1, H2. unfold digit_value.
  destruct (Z.leb_spec c 57); lia.
Qed.

Lemma dec_fold_ge ds : forall w, 0 <= w -> Forall (fun c => is_digit c = true) ds -> w <= foldl dec_step w ds.
Proof.
  induction ds as [|c ds IH]; intros w Hw Hd; cbn [foldl]; [lia|]. apply Forall_cons in Hd as [Hc Hd].
  destruct (dec_step_digit c Hc) as [Ec Hr]. unfold dec_step in *.
  specialize (IH (w * 10 + digit_value c) ltac:(lia) Hd). lia.
Qed.

Lemma scan_width_digits ds rest : forall w, 0 <= w -> Forall (fun c => is_digit c = true) ds ->
  not_digit_head rest -> foldl dec_step w ds < 4096 ->
  scan_width (ds ++ rest) w = Some (rest, foldl dec_step w ds).
Proof.
  induction ds as [|c ds IH]; intros w Hw Hd Hr Hb.
  - cbn [app foldl]. destruct rest as [|c rest]; [done|]. cbn [scan_width]. unfold not_digit_head, is_digit in Hr. by rewrite Hr.
  - apply Forall_cons in Hd as [Hc Hd]. destruct (dec_step_digit c Hc) as [Ec Hcr].
    cbn [foldl] in *. assert (Es : dec_step w c = w * 10 + c - 48) by (unfold dec_step; lia).
    pose proof (dec_fold_ge ds (dec_step w c) ltac:(lia) Hd).
    cbn [app scan_width]. unfold is_digit in Hc. rewrite Hc.
    destruct (Z.ltb_spec 2147483647 (w * 10 + c)); [lia|]. rewrite <- Es. apply IH; [lia|done..].
Qed.

Lemma scan_width_decimal w rest : 0 <= w < 4096 -> not_digit_head rest ->
  scan_width (decimal w ++ rest) 0 = Some (rest, w).
Proof.
  intros Hw Hr. unfold decimal. destruct (Z.eqb_spec w 0) as [->|].
  - by apply (scan_width_digits [] rest 0).
  - pose proof (pow_32 10 ltac:(lia)).
    assert (Hv : foldl dec_step 0 (reverse (num_digits 32 w 10 false)) = w)
      by (apply (num_digits_value 10 false); [lia|lia|done]).
    rewrite (scan_width_digits _ rest 0); rewrite ?Hv; [done|lia| |done|lia].
    apply Forall_reverse, num_digits_decimal.
Qed.

Definition flag_chars : list Z := [45; 43; 32; 48; 35; 42].

Lemma scan_flags_stop c rest l p : c ∉ flag_chars -> scan_flags (c :: rest) l p = (c :: rest, l, p).
Proof.
  intros H. unfold flag_chars in H. rewrite !not_elem_of_cons in H. cbn [scan_flags].
  destruct_and! H. by repeat match goal with |- context [?a =? ?b] => destruct (Z.eqb_spec a b); [congruence|] end.
Qed.

Lemma scan_flags_ok (minus zero : bool) c rest : c ∉ flag_chars ->
  scan_flags ((if minus then [45] else []) ++ (if zero then [48] else []) ++ c :: rest) false 32 =
  (c :: rest, minus, if zero then 48 else 32).
Proof. intros H. destruct minus, zero; cbn [app scan_flags Z.eqb Pos.eqb orb]; by apply scan_flags_stop. Qed.

(** The head of what follows the flags is not a flag. *)
Lemma decimal_head w c rest : 0 <= w < 4096 -> c ∉ flag_chars ->
  exists c' rest', (decimal w ++ c :: rest = c' :: rest') /\ c' ∉ flag_chars.
Proof.
  intros Hw Hc. unfold decimal. destruct (Z.eqb_spec w 0); [by exists c, rest|].
  pose proof (pow_32 10 ltac:(lia)).
  destruct (num_digits_leading 10 false ltac:(lia) 32 w) as (l & d & El & Hd); [lia|done|].
  pose proof (num_digits_decimal 32 w) as Hall. rewrite El in *. rewrite reverse_app.
  exists d, (reverse l ++ c :: rest). split; [done|]. apply Forall_app in Hall as [_ Hall].
  apply Forall_cons in Hall as [Hdig _]. destruct (dec_step_digit d Hdig) as [Ed Hr].
  unfold flag_chars. rewrite !not_elem_of_cons. repeat split; try lia. apply not_elem_of_nil.
Qed.

Lemma conversions_plain c : c ∈ conversions -> c ∉ flag_chars /\ is_digit c = false /\ c <> 108.
Proof.
  unfold conversions. intros H. repeat (apply elem_of_cons in H as [->|H];
    [split_and!; [vm_compute; intros Hx; repeat (inversion Hx as [|? ? ? Hx']; subst; clear Hx; rename Hx' into Hx)|done|done]|]).
  by apply not_elem_of_nil in H.
Qed.

Lemma scan_conversion (minus zero : bool) width (long : bool) c rest : 0 <= width < 4096 -> c ∈ conversions ->
  exists fmt1 fmt2, scan_flags ((if minus then [45] else []) ++ (if zero then [48] else []) ++ decimal width ++
      (if long then [108] else []) ++ (c :: rest)) false 32 = (fmt1, minus, if zero then 48 else 32) /\
    scan_width fmt1 0 = Some (fmt2, width) /\ scan_long fmt2 = c :: rest.
Proof.
  intros Hw Hc. destruct (conversions_plain c Hc) as (Hf & Hd & Hl).
  set (tail := (if long then [108] else []) ++ c :: rest).
  assert (Ht : exists c1 r1, tail = c1 :: r1 /\ c1 ∉ flag_chars /\ is_digit c1 = false).
  { unfold tail. destruct long; [|by exists c, rest]. exists 108, (c :: rest). split_and!; [done| |done].
    unfold flag_chars. rewrite !not_elem_of_cons. repeat split; try done. apply not_elem_of_nil. }
  destruct Ht as (c1 & r1 & Et & Hf1 & Hd1).
  destruct (decimal_head width c1 r1 Hw Hf1) as (c2 & r2 & E2 & Hf2).
  exists (decimal width ++ tail), tail. rewrite Et, E2. split_and!.
  - by apply scan_flags_ok.
  - rewrite <- E2, <- Et. apply scan_width_decimal; [done|]. by rewrite Et.
  - rewrite <- Et. unfold tail. destruct long; [done|]. cbn [app scan_long]. by destruct (Z.eqb_spec c 108).
Qed.

(** ** The main loop *)
Lemma scan_text_lit t fmt : Forall (fun c => c <> 37) t ->
  scan_text (t ++ fmt) = (t ++ (scan_text fmt).1, (scan_text fmt).2).
Proof.
  induction 1 as [|c t Hc Ht IH]; [cbn [app]; by destruct (scan_text fmt)|]. cbn [app scan_text].
  destruct (Z.eqb_spec c 37); [done|]. by rewrite IH.
Qed.

(** Blocks already output only precede the others. *)
Definition after_out (out : list (list Z)) (r : fmt_result) : fmt_result :=
  match r with Done o => Done (out ++ o) | _ => r end.

Lemma vprintfmt_out fuel : forall fmt ap out,
  vprintfmt fuel fmt ap out = after_out out (vprintfmt fuel fmt ap []).
Proof.
  induction fuel as [|fuel IH]; intros fmt ap out; [done|]. cbn [vprintfmt].
  destruct (scan_text fmt) as [text [|c0 r]]; [done|].
  destruct (scan_flags r false 32) as [[f1 l] p]. destruct (scan_width f1 0) as [[f2 w]|]; [|done].
  destruct (scan_long f2) as [|c f3].
  - rewrite (IH _ _ (out ++ [text])), (IH _ _ ([] ++ [text])). destruct (vprintfmt fuel [] ap []); [|done..].
    cbn. by rewrite <- app_assoc.
  - destruct (conversion c w l p ap) as [[o ap']|]; [|done].
    rewrite (IH _ _ ((out ++ [text]) ++ o)), (IH _ _ (([] ++ [text]) ++ o)).
    destruct (vprintfmt fuel f3 ap' []); [|done..]. cbn. by rewrite <- !app_assoc.
Qed.

Lemma printed_lit fuel t fmt ap : Forall (fun c => c <> 37) t ->
  printed (vprintfmt (S fuel) (t ++ fmt) ap []) =
  (fun ts => t ++ ts) <$> printed (vprintfmt (S fuel) fmt ap []).
Proof.
  intros Ht. cbn [vprintfmt]. rewrite (scan_text_lit t fmt Ht). destruct (scan_text fmt) as [text rest]. cbn [fst snd app].
  destruct rest as [|c0 r]; [cbn; by rewrite !app_nil_r|].
  destruct (scan_flags r false 32) as [[f1 l] p]. destruct (scan_width f1 0) as [[f2 w]|]; [|done].
  destruct (scan_long f2) as [|c f3].
  - rewrite (vprintfmt_out _ _ _ [t ++ text]), (vprintfmt_out _ _ _ [text]).
    destruct (vprintfmt fuel [] ap []); [|done..]. cbn. by rewrite <- app_assoc.
  - destruct (conversion c w l p ap) as [[o ap']|]; [|done]. cbn [app].
    rewrite (vprintfmt_out _ _ _ ((t ++ text) :: o)), (vprintfmt_out _ _ _ (text :: o)).
    destruct (vprintfmt fuel f3 ap' []); [|done..]. cbn. by rewrite <- app_assoc.
Qed.

Lemma printed_conv fuel minus zero width long c fmt ap t ap' : wf_piece (Conv minus zero width long c) ->
  text_of (Conv minus zero width long c) ap = Some (t, ap') ->
  printed (vprintfmt (S fuel) (fmt_of (Conv minus zero width long c) ++ fmt) ap []) =
  (fun ts => t ++ ts) <$> printed (vprintfmt fuel fmt ap' []).
Proof.
  intros [Hw Hc] Ht. destruct (conversion_ok _ _ _ _ _ _ _ _ (proj1 Hw) Ht) as (o & Eo & Ho).
  destruct (scan_conversion minus zero width long c fmt Hw Hc) as (f1 & f2 & E1 & E2 & E3).
  cbn [fmt_of]. rewrite <- app_comm_cons, <- !app_assoc. cbn [app]. cbn [vprintfmt scan_text Z.eqb Pos.eqb].
  rewrite E1, E2, E3, Eo. cbn [app]. rewrite vprintfmt_out. destruct (vprintfmt fuel fmt ap' []); [|done..].
  cbn. by rewrite concat_app, Ho.
Qed.

Lemma vprintfmt_pieces ps : forall fuel ap ts, Forall wf_piece ps -> (length ps < fuel)%nat -> texts ps ap = Some ts ->
  printed (vprintfmt fuel (concat (map fmt_of ps)) ap []) = Some ts.
Proof.
  induction ps as [|p ps IH]; intros fuel ap ts Hwf Hf Ht; destruct fuel as [|fuel]; [lia| |lia|].
  - injection Ht as <-. done.
  - apply Forall_cons in Hwf as [Hp Hwf]. cbn [length] in Hf. cbn [texts] in Ht.
    destruct (text_of p ap) as [[t ap']|] eqn:E; [|done]. destruct (texts ps ap') as [ts'|] eqn:Ets; [|done].
    injection Ht as <-. cbn [map concat]. destruct p as [t0|minus zero width long c].
    + cbn [text_of] in E. replace (text_of (Lit t0) ap) with (Some (t0, ap)) in E by done. injection E as <- <-.
      cbn [fmt_of]. rewrite printed_lit by exact Hp. rewrite (IH (S fuel) ap ts'); [done|done|lia|done].
    + rewrite (printed_conv _ _ _ _ _ _ _ _ _ _ Hp E). rewrite (IH fuel ap' ts'); [done|done|lia|done].
Qed.

(** *** Termination *)
Lemma scan_text_length fmt : (length (scan_text fmt).2 <= length fmt)%nat.
Proof.
  induction fmt as [|c fmt IH]; [done|]. cbn [scan_text]. destruct (c =? 37); [done|].
  destruct (scan_text fmt). cbn in *. lia.
Qed.

Lemma scan_flags_length fmt : forall l p, (length (scan_flags fmt l p).1.1 <= length fmt)%nat.
Proof.
  induction fmt as [|c fmt IH]; intros l p; [done|]. cbn [scan_flags].
  repeat match goal with |- context [if ?b then _ else _] => destruct b end; cbn [length];
    first [apply (Nat.le_trans _ _ _ (IH _ _)); lia | cbn; lia].
Qed.

Lemma scan_width_length fmt : forall w f w', scan_width fmt w = Some (f, w') -> (length f <= length fmt)%nat.
Proof.
  induction fmt as [|c fmt IH]; intros w f w' H; cbn [scan_width] in H; [by injection H as <- <-|].
  destruct ((48 <=? c) && (c <=? 57)); [|by injection H as <- <-].
  destruct (2147483647 <? w * 10 + c); [done|]. apply IH in H. cbn. lia.
Qed.

Lemma scan_long_length fmt : (length (scan_long fmt) <= length fmt)%nat.
Proof. destruct fmt as [|c fmt]; [done|]. cbn. destruct (c =? 108); cbn; lia. Qed.

Lemma vprintfmt_terminates fuel : forall fmt ap out, (length fmt < fuel)%nat -> vprintfmt fuel fmt ap out <> NoFuel.
Proof.
  induction fuel as [|fuel IH]; intros fmt ap out H; [lia|]. cbn [vprintfmt].
  pose proof (scan_text_length fmt) as H1. destruct (scan_text fmt) as [text [|c0 r]]; [done|].
  pose proof (scan_flags_length r false 32) as H2. destruct (scan_flags r false 32) as [[f1 l] p]. cbn in H1, H2.
  destruct (scan_width f1 0) as [[f2 w]|] eqn:Ew; [|done]. apply scan_width_length in Ew.
  pose proof (scan_long_length f2) as H3. destruct (scan_long f2) as [|c f3]; cbn in H3.
  - apply IH. cbn. lia.
  - destruct (conversion c w l p ap) as [[o ap']|]; [|done]. apply IH. lia.
Qed.

(** ** Properties *)

(** [print_num] writes a number of up to 32 bits in any base up to 16: the text is the
    sign, the padding and digits that are not empty, whose value is the number and which start
    with no zero unless the number is zero; padding with zeros goes between the sign and the
    digits, other padding before the sign, and left adjustment pads with spaces after the
    digits. The text is as long as the width asks, and longer only when the number needs it. *)
Theorem print_num_correct u base neg width ladjust padc up : 0 <= u < 4294967296 -> 2 <= base <= 16 -> 0 <= width ->
  exists ds pad, let sign := if neg : bool then [45] else [] in
    ds <> [] /\ value base ds = u /\ (0 < u -> exists d r, ds = d :: r /\ 0 < digit_value d) /\
    print_num u base neg width ladjust padc up =
      (if ladjust : bool then sign ++ ds ++ replicate pad 32
       else if neg && (padc =? 48) then sign ++ replicate pad 48 ++ ds
       else replicate pad padc ++ sign ++ ds) /\
    Z.of_nat (length (print_num u base neg width ladjust padc up)) =
      Z.max width (Z.of_nat (length sign + length ds)).
Proof.
  intros Hu Hb Hw. destruct (print_num_ok u base neg width ladjust padc up Hu Hb Hw) as (ds & Hne & Hv & Hz & E).
  exists ds, (Z.to_nat (width - Z.of_nat (length (reverse ds ++ (if neg then [45] else []))))).
  rewrite E. unfold layout. rewrite reverse_involutive. cbv zeta. split_and!; [done|done|done|done|].
  destruct ladjust; [|destruct (neg && (padc =? 48))]; rewrite !length_app, length_replicate, !length_reverse;
    destruct neg; cbn [length]; lia.
Qed.

Example print_num_correct_witness : exists ds pad,
  ds <> [] /\ value 10 ds = 42 /\ (0 < 42 -> exists d r, ds = d :: r /\ 0 < digit_value d) /\
  print_num 42 10 true 6 false 48 false = [45] ++ replicate pad 48 ++ ds /\
  Z.of_nat (length (print_num 42 10 true 6 false 48 false)) = Z.max 6 (Z.of_nat (length [45] + length ds)).
Proof. exact (print_num_correct 42 10 true 6 false 48 false ltac:(lia) ltac:(lia) ltac:(lia)). Defined.

(** C38: [vprintfmt] prints what its format says. A format made of text and of conversions
    (flags [-] and [0], a width, [l], one of [bdDoOuUxXcs]) prints the text unchanged and each
    argument in the notation of its conversion, in order: signed numbers by absolute value and
    sign, the most negative one included. On every format it terminates, with fuel for one
    round per character. *)
Theorem vprintfmt_correct :
  (forall ps ap ts fuel, Forall wf_piece ps -> texts ps ap = Some ts -> (length ps < fuel)%nat ->
    printed (vprintfmt fuel (concat (map fmt_of ps)) ap []) = Some ts) /\
  (forall fuel fmt ap out, (length fmt < fuel)%nat -> vprintfmt fuel fmt ap out <> NoFuel).
Proof.
  split.
  - intros ps ap ts fuel Hwf Ht Hf. by apply vprintfmt_pieces.
  - intros fuel fmt ap out. apply vprintfmt_terminates.
Qed.

(** ["a%05d%-3sx"] with [-7] and ["b"]. *)
Example vprintfmt_correct_witness :
  printed (vprintfmt 9 [97; 37; 48; 53; 100; 37; 45; 51; 115; 120] [VInt 4294967289; VStr [98]] []) =
  Some [97; 45; 48; 48; 48; 55; 98; 32; 32; 120].
Proof.
  refine (proj1 vprintfmt_correct [Lit [97]; Conv false true 5 false 100; Conv true false 3 false 115; Lit [120]]
    [VInt 4294967289; VStr [98]] [97; 45; 48; 48; 48; 55; 98; 32; 32; 120] 9%nat _ _ _); [|by vm_compute|cbn; lia].
  repeat constructor; vm_compute; try done.
Defined.
