(* ===== verification/Output.v ===== *)
(** * Printing (user/lib/debugf.c, kern/printk.c, kern/console.c)

    The kernel hands each character of the blocks of [vprintfmt] to the console device. A user
    program collects the blocks in a buffer of 1024 bytes on its stack and hands the buffer to
    the kernel each time it is full and at the end. *)

From Stdlib Require Import ZArith Lia.
From stdpp Require Import base numbers list strings.
From S2P Require Import Prelude Mmu Print.

(** ** The kernel: the characters on the console, in order *)
Definition printcharc (cons : list Z) (ch : Z) : list Z := cons ++ [u8 ch].

Definition outputk (cons buf : list Z) : list Z := foldl printcharc cons buf.

Definition printk (fmt : list Z) (ap : list va) (cons : list Z) : option (list Z) :=
  match vprintfmt (S (length fmt)) fmt ap [] with
  | Done blocks => Some (foldl outputk cons blocks)
  | _ => None
  end.

(** ** The user program *)
Definition BUF_LEN := 1024.

(** [struct debug_ctx], and the buffers handed to the kernel, newest first. *)
Record debug_ctx := mkCtx { buf : list Z; pos : Z; flushed : list (list Z) }.

Section Debug.
(** The address of the buffer. *)
Context (addr : Z).

(** The test of [sys_print_cons]. *)
Definition print_cons_ok (s num : Z) : bool :=
  negb ((UTOP <? u32 (s + num)) || (UTOP <=? s) || (u32 (s + num) <? s)).

Definition debug_flush : M debug_ctx unit :=
  p ← gets pos;
  if p =? 0 then mret tt else
  assert "syscall_print_cons" (print_cons_ok addr p) ;;
  modify (fun c => mkCtx (buf c) 0 (take (Z.to_nat p) (buf c) :: flushed c)).

(** [memcpy(ctx->buf + ctx->pos, s, n); ctx->pos += n] *)
Definition append (s : list Z) : M debug_ctx unit :=
  modify (fun c => mkCtx (write_at (Z.to_nat (pos c)) s (buf c)) (u32 (pos c + Z.of_nat (length s))) (flushed c)).

Fixpoint output_loop (fuel : nat) (s : list Z) : M debug_ctx unit :=
  match fuel with
  | O => undef "the loop of debug_output does not end"
  | S fuel' =>
      p ← gets pos;
      if BUF_LEN <? u32 (p + Z.of_nat (length s)) then
        let n := Z.to_nat (BUF_LEN - p) in
        append (take n s) ;; debug_flush ;; output_loop fuel' (drop n s)
      else append s
  end.

(** A round but the first takes at least one character: fuel for one round a character and
    two more. *)
Definition debug_output (s : list Z) : M debug_ctx unit := output_loop (2 + length s) s.

Definition vdebugf (fmt : list Z) (ap : list va) : M debug_ctx unit :=
  modify (fun c => mkCtx (buf c) 0 (flushed c)) ;;
  match vprintfmt (S (length fmt)) fmt ap [] with
  | Done blocks => for_each blocks debug_output ;; debug_flush
  | _ => undef "vprintfmt"
  end.
End Debug.

(** What the console shows after [debugf] from an uninitialised buffer [junk]. *)
Definition debugf (addr : Z) (junk : list Z) (fmt : list Z) (ap : list va) (cons : list Z) : option (list Z) :=
  match vdebugf addr fmt ap (mkCtx junk 0 []) with
  | Val _ c => Some (foldl outputk cons (reverse (flushed c)))
  | _ => None
  end.
