(* ===== verification/OutputThms.v ===== *)
(** * Theorems on printing (user/lib/debugf.c, kern/printk.c) *)

From Stdlib Require Import ZArith Lia.
From stdpp Require Import base numbers list strings.
From S2P Require Import Prelude Mmu Print PrintThms Output.

(** ** The console *)
Lemma outputk_app cons b : outputk cons b = cons ++ map u8 b.
Proof.
  revert cons. unfold outputk. induction b as [|c b IH]; intros cons; cbn [foldl map]; [by rewrite app_nil_r|].
  rewrite IH. unfold printcharc. by rewrite <- app_assoc.
Qed.

Lemma foldl_outputk bs : forall cons, foldl outputk cons bs = cons ++ map u8 (concat bs).
Proof.
  induction bs as [|b bs IH]; intros cons; cbn [foldl concat map]; [by rewrite app_nil_r|].
  by rewrite IH, outputk_app, map_app, app_assoc.
Qed.

(** ** The buffer *)

(** All that was printed and what waits in the buffer. *)
Definition content (c : debug_ctx) : list Z := concat (reverse (flushed c)) ++ take (Z.to_nat (pos c)) (buf c).

Record ctx_ok (c : debug_ctx) : Prop := {
  ctx_pos : 0 <= pos c <= BUF_LEN;
  ctx_len : length (buf c) = Z.to_nat BUF_LEN;
  ctx_full : Forall (fun b => length b = Z.to_nat BUF_LEN) (flushed c) }.

Section Buffer.
Context (addr : Z).
Hypothesis addr_ok : 0 <= addr /\ addr + BUF_LEN <= UTOP.

Lemma cons_ok n : 0 <= n <= BUF_LEN -> print_cons_ok addr n = true.
Proof.
  intros Hn. unfold print_cons_ok. unfold BUF_LEN in *. assert (UTOP < 4294967296) by (by vm_compute).
  rewrite u32_small by (unfold is_u32; lia). destruct (Z.ltb_spec UTOP (addr + n)), (Z.leb_spec UTOP addr), (Z.ltb_spec (addr + n) addr); (done || lia || idtac).
Qed.

Lemma append_ok s c : ctx_ok c -> pos c + Z.of_nat (length s) <= BUF_LEN ->
  exists c', append s c = Val tt c' /\ ctx_ok c' /\ content c' = content c ++ s /\
    pos c' = pos c + Z.of_nat (length s) /\ flushed c' = flushed c.
Proof.
  intros [Hp Hl Hf] Hs. eexists. split; [reflexivity|].
  assert (Hu : u32 (pos c + Z.of_nat (length s)) = pos c + Z.of_nat (length s)) by (apply u32_small; unfold is_u32, BUF_LEN in *; lia).
  split; [split; cbn [pos buf flushed]; [lia|by rewrite length_write_at|done]|].
  split; [|by split]. unfold content. cbn [pos buf flushed]. rewrite Hu, <- app_assoc. f_equal.
  rewrite write_at_split by lia. rewrite app_assoc, take_app_length'; [done|].
  rewrite length_app, length_take. lia.
Qed.

Lemma flush_ok c : ctx_ok c -> exists c', debug_flush addr c = Val tt c' /\ content c' = content c /\ pos c' = 0 /\
  length (buf c') = length (buf c) /\
  flushed c' = if pos c =? 0 then flushed c else take (Z.to_nat (pos c)) (buf c) :: flushed c.
Proof.
  intros [Hp Hl Hf]. unfold debug_flush. rewrite bind_gets. destruct (Z.eqb_spec (pos c) 0) as [E|E].
  - by exists c.
  - rewrite cons_ok by done. eexists. split; [reflexivity|]. split; [|by split]. unfold content. cbn [pos buf flushed].
    rewrite reverse_cons, concat_app. cbn. by rewrite !app_nil_r.
Qed.

Lemma output_loop_ok : forall (fuel : nat) (s : list Z) (c : debug_ctx), ctx_ok c -> Z.of_nat (length s) < 2147483648 ->
  (length s + (if (pos c =? BUF_LEN)%Z then 1 else 0) < fuel)%nat ->
  exists c', output_loop addr fuel s c = Val tt c' /\ ctx_ok c' /\ content c' = content c ++ s.
Proof.
  induction fuel as [|fuel IH]; intros s c O Hs Hf; [lia|]. pose proof O as [Hp Hl Hfl]. cbn [output_loop]. rewrite bind_gets.
  rewrite u32_small by (unfold is_u32, BUF_LEN in *; lia). destruct (Z.ltb_spec BUF_LEN (pos c + Z.of_nat (length s))) as [Hgt|Hle].
  - cbv zeta. set (n := Z.to_nat (BUF_LEN - pos c)). assert (Hn : length (take n s) = n) by (rewrite length_take; lia).
    destruct (append_ok (take n s) c O ltac:(rewrite Hn; lia)) as (c1 & E1 & O1 & C1 & P1 & F1). rewrite (bind_val _ _ _ _ _ E1). cbv beta.
    destruct (flush_ok c1 O1) as (c2 & E2 & C2 & P2 & L2 & F2). rewrite (bind_val _ _ _ _ _ E2). cbv beta.
    pose proof O1 as [Hp1 Hl1 Hf1]. assert (Hpc : pos c1 = BUF_LEN) by lia.
    assert (O2 : ctx_ok c2).
    { split; [unfold BUF_LEN; lia|lia|]. rewrite F2, Hpc. cbn. constructor; [|done]. rewrite length_take, Hl1. unfold BUF_LEN. lia. }
    destruct (IH (drop n s) c2 O2) as (c3 & E3 & O3 & C3).
    + rewrite length_drop. lia.
    + rewrite length_drop, P2. cbn [Z.eqb BUF_LEN]. destruct (Z.eqb_spec (pos c) BUF_LEN); lia.
    + exists c3. split; [exact E3|]. split; [done|]. rewrite C3, C2, C1, <- app_assoc. by rewrite take_drop.
  - destruct (append_ok s c O Hle) as (c' & E & O' & C & _). by exists c'.
Qed.

Lemma outputs_ok bs : forall c, ctx_ok c -> Forall (fun b => Z.of_nat (length b) < 2147483648) bs ->
  exists c', for_each bs (debug_output addr) c = Val tt c' /\ ctx_ok c' /\ content c' = content c ++ concat bs.
Proof.
  induction bs as [|b bs IH]; intros c O HF; cbn [for_each concat]; [exists c; by rewrite app_nil_r|].
  apply Forall_cons in HF as [Hb HF].
  destruct (output_loop_ok (2 + length b) b c O Hb) as (c1 & E1 & O1 & C1); [destruct (pos c =? BUF_LEN); lia|].
  unfold debug_output at 1. rewrite (bind_val _ _ _ _ _ E1). cbv beta. destruct (IH c1 O1 HF) as (c2 & E2 & O2 & C2).
  exists c2. split; [done|]. split; [done|]. by rewrite C2, C1, <- app_assoc.
Qed.
End Buffer.

(** [debugf] through its buffer shows on the console what [printk] shows, the concatenation
    of the blocks of [vprintfmt], whatever their lengths and however they straddle the buffer;
    every buffer but the last is handed to the kernel full, and none is empty or longer than
    the buffer. *)
Theorem debugf_printk addr junk fmt ap cons blocks : 0 <= addr -> addr + BUF_LEN <= UTOP ->
  length junk = Z.to_nat BUF_LEN -> vprintfmt (S (length fmt)) fmt ap [] = Done blocks ->
  Forall (fun b => Z.of_nat (length b) < 2147483648) blocks ->
  debugf addr junk fmt ap cons = printk fmt ap cons /\ printk fmt ap cons = Some (cons ++ map u8 (concat blocks)) /\
  exists c last, vdebugf addr fmt ap (mkCtx junk 0 []) = Val tt c /\
    concat (reverse (flushed c)) = concat blocks /\
    flushed c = last ++ drop (length last) (flushed c) /\
    Forall (fun b => length b = Z.to_nat BUF_LEN) (drop (length last) (flushed c)) /\
    (last = [] \/ exists b, last = [b] /\ (0 < length b <= Z.to_nat BUF_LEN)%nat).
Proof.
  intros Ha Ht Hj Hv HF. assert (Hpk : printk fmt ap cons = Some (cons ++ map u8 (concat blocks))).
  { unfold printk. rewrite Hv. by rewrite foldl_outputk. }
  assert (H : exists c last, vdebugf addr fmt ap (mkCtx junk 0 []) = Val tt c /\ concat (reverse (flushed c)) = concat blocks /\
    flushed c = last ++ drop (length last) (flushed c) /\ Forall (fun b => length b = Z.to_nat BUF_LEN) (drop (length last) (flushed c)) /\
    (last = [] \/ exists b, last = [b] /\ (0 < length b <= Z.to_nat BUF_LEN)%nat)).
  { assert (O0 : ctx_ok (mkCtx junk 0 [])) by (split; cbn; [unfold BUF_LEN; lia|done|done]).
    destruct (outputs_ok addr (conj Ha Ht) blocks _ O0 HF) as (c1 & E1 & O1 & C1).
    destruct (flush_ok addr (conj Ha Ht) c1 O1) as (c2 & E2 & C2 & P2 & _ & F2). pose proof O1 as [Hp Hl Hf].
    exists c2, (if pos c1 =? 0 then [] else [take (Z.to_nat (pos c1)) (buf c1)]).
    assert (Hc : concat (reverse (flushed c2)) = concat blocks).
    { unfold content in C1, C2. rewrite P2 in C2. cbn in C1, C2. by rewrite app_nil_r, C1 in C2. }
    split. { unfold vdebugf. rewrite bind_modify, Hv. rewrite (bind_val _ _ _ _ _ E1). exact E2. }
    split; [done|]. rewrite F2. destruct (Z.eqb_spec (pos c1) 0) as [E|E]; cbn.
    - split; [done|]. split; [done|by left].
    - split; [done|]. split; [done|]. right. eexists. split; [done|]. rewrite length_take, Hl. unfold BUF_LEN in *. lia. }
  split; [|by split]. destruct H as (c & last & E & Hc & _). unfold debugf. rewrite E, Hpk, foldl_outputk. by rewrite Hc.
Qed.

Lemma debugf_printk_witness : debugf 2134888448 (replicate (Z.to_nat 1024) 0) [104; 105; 10] [] [62] = printk [104; 105; 10] [] [62].
Proof.
  apply (debugf_printk 2134888448 (replicate (Z.to_nat 1024) 0) [104; 105; 10] [] [62] [[104; 105; 10]]).
  - lia.
  - vm_compute. discriminate.
  - by vm_compute.
  - by vm_compute.
  - repeat constructor.
Defined.
