(* ===== verification/Wp.v ===== *)
(** * Weakest preconditions for the state monad

    [wp m s Q]: from state [s] the computation [m] returns, with a result and a state that
    satisfy [Q]. It does not panic, does not leave the program and runs into no undefined
    behaviour. Also here: loops with an early return, and calls whose error is returned. *)

From Stdlib Require Import ZArith Lia.
From stdpp Require Import base numbers list strings.
From S2P Require Import Prelude.

Definition wp {S A} (m : M S A) (s : S) (Q : A -> S -> Prop) : Prop :=
  match m s with Val a s' => Q a s' | _ => False end.

(** [for (x in l) { ...; if (...) return a; }] *)
Fixpoint for_first {S X A} (l : list X) (body : X -> M S (option A)) : M S (option A) :=
  match l with
  | [] => mret None
  | x :: l' => r ← body x; match r with Some a => mret (Some a) | None => for_first l' body end
  end.

(** [if ((r = m) < 0) return r;] *)
Definition bindr {S A B} (m : M S (cres A)) (k : A -> M S (cres B)) : M S (cres B) :=
  r ← m; match r with Err e => mret (Err e) | Ok a => k a end.
Notation "x ←? m ; k" := (bindr m (fun x => k)) (at level 20, m at level 100, k at level 200, only parsing).

Section Rules.
Context {S : Type}.

Lemma wp_val {A} (m : M S A) s a s' (Q : A -> S -> Prop) : m s = Val a s' -> Q a s' -> wp m s Q.
Proof. intros E H. unfold wp. by rewrite E. Qed.

Lemma wp_inv {A} (m : M S A) s (Q : A -> S -> Prop) : wp m s Q -> exists a s', m s = Val a s' /\ Q a s'.
Proof. unfold wp. destruct (m s) as [a s'| | |]; intros H; [by exists a, s'|done..]. Qed.

Lemma wp_bind {A B} (m : M S A) (k : A -> M S B) s Q :
  wp m s (fun a s' => wp (k a) s' Q) -> wp (m ≫= k) s Q.
Proof. unfold wp, mbind, M_bind. by destruct (m s). Qed.

Lemma wp_mono {A} (m : M S A) s (P Q : A -> S -> Prop) :
  wp m s P -> (forall a s', P a s' -> Q a s') -> wp m s Q.
Proof. unfold wp. destruct (m s); auto. Qed.

Lemma wp_seq {A B} (m : M S A) (k : A -> M S B) s P Q :
  wp m s P -> (forall a s', P a s' -> wp (k a) s' Q) -> wp (m ≫= k) s Q.
Proof. intros H K. apply wp_bind. by apply (wp_mono _ _ _ _ H). Qed.

Lemma wp_ret {A} (a : A) s (Q : A -> S -> Prop) : Q a s -> wp (mret a) s Q.
Proof. done. Qed.

Lemma wp_gets {A} (f : S -> A) s (Q : A -> S -> Prop) : Q (f s) s -> wp (gets f) s Q.
Proof. done. Qed.

Lemma wp_modify (f : S -> S) s (Q : unit -> S -> Prop) : Q tt (f s) -> wp (modify f) s Q.
Proof. done. Qed.

Lemma wp_assert msg b s (Q : unit -> S -> Prop) : b = true -> Q tt s -> wp (assert msg b) s Q.
Proof. by intros ->. Qed.

Lemma wp_when b (m : M S unit) s (Q : unit -> S -> Prop) :
  (b = true -> wp m s Q) -> (b = false -> Q tt s) -> wp (when b m) s Q.
Proof. destruct b; cbn; auto. Qed.

Lemma wp_bindr {A B} (m : M S (cres A)) (k : A -> M S (cres B)) s Q :
  wp m s (fun r s' => match r with Err e => Q (Err e) s' | Ok a => wp (k a) s' Q end) -> wp (bindr m k) s Q.
Proof. intros H. unfold bindr. apply wp_bind. apply (wp_mono _ _ _ _ H). by intros [e|a] s'. Qed.

(** A loop without a result: [I] holds before each index. *)
Lemma wp_for_each {X} (I : list X -> S -> Prop) (body : X -> M S unit) l s (Q : unit -> S -> Prop) :
  I l s -> (forall x l' s, I (x :: l') s -> wp (body x) s (fun _ s' => I l' s')) ->
  (forall s, I [] s -> Q tt s) -> wp (for_each l body) s Q.
Proof.
  intros H0 Hstep HQ. revert s H0. induction l as [|x l IH]; intros s H0; cbn [for_each]; [by apply HQ|].
  apply wp_bind. apply (wp_mono _ _ _ _ (Hstep x l s H0)). intros _ s' H'. by apply IH.
Qed.

(** A search: the body returns or keeps the invariant. *)
Lemma wp_for_first {X A} (I : list X -> S -> Prop) (body : X -> M S (option A)) l s (Q : option A -> S -> Prop) :
  I l s -> (forall x l' s, I (x :: l') s -> wp (body x) s (fun r s' =>
    match r with Some a => Q (Some a) s' | None => I l' s' end)) ->
  (forall s, I [] s -> Q None s) -> wp (for_first l body) s Q.
Proof.
  intros H0 Hstep HQ. revert s H0. induction l as [|x l IH]; intros s H0; cbn [for_first]; [by apply HQ|].
  apply wp_bind. apply (wp_mono _ _ _ _ (Hstep x l s H0)). intros [a|] s' H'; [done|]. by apply IH.
Qed.
End Rules.

(** One step of a weakest precondition. *)
Ltac wstep := first
  [ apply wp_ret | apply wp_gets | apply wp_modify | apply wp_bindr | apply wp_bind ].
Ltac wsteps := repeat (wstep; cbv beta iota).
