(* ===== verification/Ide.v ===== *)
(** * The disk driver of the file server (fs/ide.c) and the memory of the server

    The server's address space is a map of bytes with the permissions of its pages. A page
    that is not mapped is mapped and cleared by the kernel on the first access. [answers]
    says for each allocation to come whether the kernel has a page; no entry means yes.
    The disk is a device with registers: its behaviour is the interface [DiskDev]. *)

From Stdlib Require Import ZArith Lia.
From stdpp Require Import base numbers list gmap strings.
From S2P Require Import Prelude Mmu Str Wp KState Elf Signo Env TlbEx Syscall.

(** ** include/drivers/dev_disk.h *)
Definition DEV_DISK_ADDRESS := 318767104. (* 0x13000000 *)
Definition DEV_DISK_OFFSET := 0.
Definition DEV_DISK_OFFSET_HIGH32 := 8.
Definition DEV_DISK_ID := 16.
Definition DEV_DISK_START_OPERATION := 32.
Definition DEV_DISK_STATUS := 48.
Definition DEV_DISK_BUFFER := 16384.
Definition DEV_DISK_BUFFER_LEN := 512.
Definition DEV_DISK_OPERATION_READ := 0.
Definition DEV_DISK_OPERATION_WRITE := 1.

Definition BY2SECT := 512.

(** A word as the bytes a register takes. *)
Definition le32 (v : Z) : list Z := map (fun k => word_byte v k) (zseq 0 4).
Definition word_of (bs : list Z) : Z := foldr (fun b acc => b + 256 * acc) 0 bs.

(** ** The device

    [image d id o]: byte [o] of disk [id]; [capacity]: its size. The laws are the protocol of
    the device: select disk and offset, start a read and find the sector in the buffer, or
    fill the buffer and start a write. *)
Class DiskDev (D : Type) := {
  dd_write : Z -> list Z -> D -> D;
  dd_read : Z -> Z -> D -> list Z * D;
  image : D -> Z -> Z -> Z;
  capacity : D -> Z -> Z;
  dd_select (id off : Z) (d : D) : D :=
    dd_write DEV_DISK_ID (le32 id) (dd_write DEV_DISK_OFFSET_HIGH32 (le32 0) (dd_write DEV_DISK_OFFSET (le32 off) d));
  dd_image_byte : forall d id o, 0 <= image d id o < 256;
  
  dd_read_sector : forall d id off, is_u32 id -> off mod BY2SECT = 0 -> is_u32 off -> off + BY2SECT <= capacity d id ->
    exists st d2 d3,
      dd_read DEV_DISK_STATUS 4
        (dd_write DEV_DISK_START_OPERATION (le32 DEV_DISK_OPERATION_READ) (dd_select id off d)) = (st, d2) /\
      word_of st <> 0 /\
      dd_read DEV_DISK_BUFFER BY2SECT d2 = (map (fun k => image d id (off + k)) (zseq 0 512), d3) /\
      (forall i, capacity d3 i = capacity d i) /\ (forall i o, image d3 i o = image d i o);
  dd_write_sector : forall d id off bs, is_u32 id -> off mod BY2SECT = 0 -> is_u32 off -> off + BY2SECT <= capacity d id ->
    length bs = 512%nat -> Forall (fun b => 0 <= b < 256) bs ->
    exists st d3,
      dd_read DEV_DISK_STATUS 4
        (dd_write DEV_DISK_START_OPERATION (le32 DEV_DISK_OPERATION_WRITE)
          (dd_write DEV_DISK_BUFFER bs (dd_select id off d))) = (st, d3) /\
      word_of st <> 0 /\ (forall i, capacity d3 i = capacity d i) /\
      (forall i o, image d3 i o =
        if decide (i = id /\ off <= o < off + BY2SECT) then nth (Z.to_nat (o - off)) bs 0 else image d i o) }.

(** ** The server's memory *)
Section Server.
Context {D : Type} {HD : DiskDev D}.

(** [super] and [bitmap] are the pointers of fs.c; 0 is NULL. *)
Record fs_st := mkFs {
  um : bmem;
  upt : gmap Z Z;
  answers : list bool;
  dsk : D;
  super : Z;
  bitmap : Z }.

Definition set_um (v : bmem) (s : fs_st) : fs_st := mkFs v (upt s) (answers s) (dsk s) (super s) (bitmap s).
Definition set_upt (v : gmap Z Z) (s : fs_st) : fs_st := mkFs (um s) v (answers s) (dsk s) (super s) (bitmap s).
Definition set_answers (v : list bool) (s : fs_st) : fs_st := mkFs (um s) (upt s) v (dsk s) (super s) (bitmap s).
Definition set_dsk (v : D) (s : fs_st) : fs_st := mkFs (um s) (upt s) (answers s) v (super s) (bitmap s).
Definition set_super (v : Z) (s : fs_st) : fs_st := mkFs (um s) (upt s) (answers s) (dsk s) v (bitmap s).
Definition set_bitmap (v : Z) (s : fs_st) : fs_st := mkFs (um s) (upt s) (answers s) (dsk s) (super s) v.

Abbreviation F := (M fs_st).

Definition perm_of (s : fs_st) (va : Z) : Z := default 0 (upt s !! VPN va).
Definition page_mapped (s : fs_st) (va : Z) : bool := hasbits (perm_of s va) PTE_V.

(** A page of zeros. *)
Definition clear_bytes (m : bmem) (vpn : Z) : bmem := filter (fun kv => VPN kv.1 <> vpn) m.

(** Whether the kernel finds a page. *)
Definition ask : F bool :=
  l ← gets answers;
  match l with [] => mret true | b :: l' => modify (set_answers l') ;; mret b end.

Definition map_fresh (va perm : Z) : F unit :=
  modify (fun s => set_upt (<[VPN va := Z.lor perm PTE_V]> (upt s)) (set_um (clear_bytes (um s) (VPN va)) s)).

Definition syscall_mem_alloc (va perm : Z) : F Z :=
  if is_illegal_va va then mret (- E_INVAL) else
  b ← ask;
  if b : bool then map_fresh va perm ;; mret 0 else mret (- E_NO_MEM).

(** [syscall_mem_map(0, va, 0, va, perm)]: the page at [va] gets new permissions. *)
Definition syscall_mem_protect (va perm : Z) : F Z :=
  if is_illegal_va va then mret (- E_INVAL) else
  b ← gets (fun s => page_mapped s va);
  if b : bool then modify (fun s => set_upt (<[VPN va := Z.lor perm PTE_V]> (upt s)) s) ;; mret 0
  else mret (- E_INVAL).

Definition syscall_mem_unmap (va : Z) : F Z :=
  if is_illegal_va va then mret (- E_INVAL) else
  modify (fun s => set_upt (delete (VPN va) (upt s)) s) ;; mret 0.

(** The access to a page: demand-zero when it is not mapped; a store to a page that is not
    writable has no handler. *)
Definition touch (va : Z) (write : bool) : F unit :=
  if is_illegal_va va then undef "address outside the user space" else
  b ← gets (fun s => page_mapped s va);
  if b : bool then
    p ← gets (fun s => perm_of s va);
    assert "TLB Mod" (negb write || hasbits p PTE_D)
  else
    b ← ask;
    if b : bool then map_fresh va PTE_D else panic "page_alloc(&p)".

Definition ld8 (a : Z) : F Z := touch a false ;; gets (fun s => rd8 (um s) a).
Definition st8 (a v : Z) : F unit := touch a true ;; modify (fun s => set_um (wr8 (um s) a v) s).
Definition ld32 (a : Z) : F Z :=
  if a mod 4 =? 0 then touch a false ;; gets (fun s => rd32 (um s) a) else undef "unaligned load".
Definition st32 (a v : Z) : F unit :=
  if a mod 4 =? 0 then touch a true ;; modify (fun s => set_um (wr32 (um s) a v) s) else undef "unaligned store".

Fixpoint ld_bytes (a : Z) (n : nat) : F (list Z) :=
  match n with O => mret [] | S n' => b ← ld8 a; bs ← ld_bytes (a + 1) n'; mret (b :: bs) end.
Fixpoint st_bytes (a : Z) (bs : list Z) : F unit :=
  match bs with [] => mret tt | b :: bs' => st8 a b ;; st_bytes (a + 1) bs' end.

(** [msyscall(SYS_write_dev, va, dev, len)] and [SYS_read_dev] for the disk; the buffer of a
    word is the variable [sector_setting]. *)
Definition write_reg (dev v : Z) : F unit :=
  when (dev_ok dev 4) (modify (fun s => set_dsk (dd_write (dev - DEV_DISK_ADDRESS) (le32 v) (dsk s)) s)).
Definition read_reg (dev old : Z) : F Z :=
  if dev_ok dev 4 then
    '(bs, d) ← gets (fun s => dd_read (dev - DEV_DISK_ADDRESS) 4 (dsk s));
    modify (set_dsk d) ;; mret (word_of bs)
  else mret old.
Definition write_dev (va dev len : Z) : F Z :=
  if is_illegal_va_range va len then mret (- E_INVAL) else
  if negb (dev_ok dev len) then mret (- E_INVAL) else
  bs ← ld_bytes va (Z.to_nat len);
  modify (fun s => set_dsk (dd_write (dev - DEV_DISK_ADDRESS) bs (dsk s)) s) ;; mret 0.
Definition read_dev (va dev len : Z) : F Z :=
  if is_illegal_va_range va len then mret (- E_INVAL) else
  if negb (dev_ok dev len) then mret (- E_INVAL) else
  '(bs, d) ← gets (fun s => dd_read (dev - DEV_DISK_ADDRESS) len (dsk s));
  modify (set_dsk d) ;; st_bytes va bs ;; mret 0.

(** ** ide.c *)
Definition ide_set_location (secno high32 offset : Z) : F unit :=
  write_reg (Z.lor DEV_DISK_ADDRESS DEV_DISK_OFFSET) offset ;;
  write_reg (Z.lor DEV_DISK_ADDRESS DEV_DISK_OFFSET_HIGH32) high32 ;;
  write_reg (Z.lor DEV_DISK_ADDRESS DEV_DISK_ID) secno.

Definition panic_if (msg : string) (b : bool) : F unit := assert msg (negb b).

(** The bodies of the two loops, at [begin + off]. *)
Definition ide_read_sector (diskno pos dst : Z) : F unit :=
  ide_set_location diskno 0 pos ;;
  write_reg (Z.lor DEV_DISK_ADDRESS DEV_DISK_START_OPERATION) DEV_DISK_OPERATION_READ ;;
  st ← read_reg (Z.lor DEV_DISK_ADDRESS DEV_DISK_STATUS) DEV_DISK_OPERATION_READ;
  panic_if "sector_setting == 0" (st =? 0) ;;
  r ← read_dev dst (Z.lor DEV_DISK_ADDRESS DEV_DISK_BUFFER) BY2SECT;
  panic_if "SYS_read_dev" (negb (r =? 0)).

Definition ide_write_sector (diskno pos src : Z) : F unit :=
  ide_set_location diskno 0 pos ;;
  r ← write_dev src (Z.lor DEV_DISK_ADDRESS DEV_DISK_BUFFER) BY2SECT;
  panic_if "SYS_write_dev" (negb (r =? 0)) ;;
  write_reg (Z.lor DEV_DISK_ADDRESS DEV_DISK_START_OPERATION) DEV_DISK_OPERATION_WRITE ;;
  st ← read_reg (Z.lor DEV_DISK_ADDRESS DEV_DISK_STATUS) DEV_DISK_OPERATION_WRITE;
  panic_if "sector_setting == 0" (st =? 0).

(** [for (u_int off = 0; begin + off < end; off += BY2SECT)] *)
Fixpoint sector_loop (body : Z -> Z -> F unit) (fuel : nat) (begin end_ mem off : Z) : F unit :=
  if u32 (begin + off) <? end_ then
    match fuel with
    | O => undef "the loop over the sectors does not end"
    | S fuel' =>
        body (u32 (begin + off)) (u32 (mem + off)) ;;
        sector_loop body fuel' begin end_ mem (u32 (off + BY2SECT))
    end
  else mret tt.

Definition ide_read (diskno secno dst nsecs : Z) : F unit :=
  let begin := u32 (secno * BY2SECT) in
  let end_ := u32 (begin + nsecs * BY2SECT) in
  sector_loop (ide_read_sector diskno) (Z.to_nat nsecs) begin end_ dst 0.

Definition ide_write (diskno secno src nsecs : Z) : F unit :=
  let begin := u32 (secno * BY2SECT) in
  let end_ := u32 (begin + nsecs * BY2SECT) in
  sector_loop (ide_write_sector diskno) (Z.to_nat nsecs) begin end_ src 0.
End Server.
Arguments fs_st : clear implicits.
