(* ===== verification/Fs.v ===== *)
(** * The file system of the file server (fs/fs.c, fs/serv.h, user/include/fs.h)

    Block [n] of the disk is cached in the page at [DISKMAP + n * BY2BLK]. A [struct File *]
    is an address in a cached block, read and written field by field. C strings are the lists
    of their characters before the zero; the local buffers of names are such lists. *)

From Stdlib Require Import ZArith Lia.
From stdpp Require Import base numbers list gmap strings.
From S2P Require Import Prelude Mmu Str Wp KState Elf Signo Env TlbEx Syscall Ide.

(** ** serv.h and fs.h *)
Definition PTE_DIRTY := 2.
Definition BY2BLK := BY2PG.
Definition SECT2BLK := BY2BLK / BY2SECT.
Definition DISKMAP := 268435456.  (* 0x10000000 *)
Definition DISKMAX := 1073741824. (* 0x40000000 *)
Definition BIT2BLK := BY2BLK * 8.
Definition MAXNAMELEN := 128.
Definition NDIRECT := 10.
Definition NINDIRECT := BY2BLK / 4.
Definition BY2FILE := 256.
Definition FILE2BLK := BY2BLK / BY2FILE.
Definition FTYPE_REG := 0.
Definition FTYPE_DIR := 1.
Definition FS_MAGIC := 1747476631. (* 0x68286097 *)

(** [struct File]: the addresses of its fields. *)
Definition f_name (f : Z) : Z := f.
Definition f_size (f : Z) : Z := f + 128.
Definition f_type (f : Z) : Z := f + 132.
Definition f_direct (f i : Z) : Z := f + 136 + 4 * i.
Definition f_indirect (f : Z) : Z := f + 176.
Definition f_dir (f : Z) : Z := f + 180.

(** [struct Super] *)
Definition s_magic (p : Z) : Z := p.
Definition s_nblocks (p : Z) : Z := p + 4.
Definition s_root (p : Z) : Z := p + 8.

Section FileSystem.
Context {D : Type} {HD : DiskDev D}.
Abbreviation F := (M (fs_st D)).

(** ** Strings in memory *)

(** [strcmp(a, l) == 0] *)
Fixpoint streq_at (a : Z) (l : list Z) : F bool :=
  c ← ld8 a;
  match l with
  | [] => mret (c =? 0)
  | x :: l' => if c =? x then streq_at (a + 1) l' else mret false
  end.

(** [strcpy(a, l)] *)
Definition strcpy_at (a : Z) (l : list Z) : F unit := st_bytes a (l ++ [0]).

(** [memcpy] between pages that do not overlap. *)
Definition memcpy_at (dst src : Z) (n : nat) : F unit := bs ← ld_bytes src n; st_bytes dst bs.

(** ** The block cache *)
Definition diskaddr (blockno : Z) : Z := u32 (DISKMAP + BY2BLK * blockno).

Definition va_is_mapped (va : Z) : F bool := gets (fun s => page_mapped s va).

Definition block_is_mapped (blockno : Z) : F bool := va_is_mapped (diskaddr blockno).

Definition va_is_dirty (va : Z) : F bool := gets (fun s => hasbits (perm_of s va) PTE_DIRTY).

Definition block_is_dirty (blockno : Z) : F bool :=
  let va := diskaddr blockno in
  m ← va_is_mapped va;
  if m : bool then va_is_dirty va else mret false.

Definition dirty_block (blockno : Z) : F Z :=
  let va := diskaddr blockno in
  m ← va_is_mapped va;
  if negb m then mret (- E_NOT_FOUND) else
  d ← va_is_dirty va;
  if d : bool then mret 0 else syscall_mem_protect va (Z.lor PTE_D PTE_DIRTY).

Definition write_block (blockno : Z) : F unit :=
  m ← block_is_mapped blockno;
  assert "write unmapped block" m ;;
  ide_write 0 (u32 (blockno * SECT2BLK)) (diskaddr blockno) SECT2BLK.

(** *** The free-block bitmap: bit set means free *)
Definition bit_of (blockno : Z) : Z := Z.shiftl 1 (blockno mod 32).
Definition bitmap_word (p blockno : Z) : Z := p + 4 * (blockno / 32).

Definition block_is_free (blockno : Z) : F bool :=
  sp ← gets super;
  if sp =? 0 then mret false else
  n ← ld32 (s_nblocks sp);
  if n <=? blockno then mret false else
  bp ← gets bitmap;
  w ← ld32 (bitmap_word bp blockno);
  mret (hasbits w (bit_of blockno)).

Definition free_block (blockno : Z) : F unit :=
  if blockno =? 0 then mret tt else
  sp ← gets super;
  n ← ld32 (s_nblocks sp);
  if n <=? blockno then mret tt else
  bp ← gets bitmap;
  w ← ld32 (bitmap_word bp blockno);
  st32 (bitmap_word bp blockno) (Z.lor w (bit_of blockno)).

(** The address of the block and [isnew]. *)
Definition read_block (blockno : Z) : F (cres (Z * bool)) :=
  sp ← gets super;
  n ← (if sp =? 0 then mret None else n ← ld32 (s_nblocks sp); mret (Some n));
  assert "reading non-existent block" (match n with Some n => blockno <? n | None => true end) ;;
  bp ← gets bitmap;
  fr ← (if bp =? 0 then mret false else block_is_free blockno);
  assert "reading free block" (negb fr) ;;
  let va := diskaddr blockno in
  m ← block_is_mapped blockno;
  if m : bool then mret (Ok (va, false))
  else
    syscall_mem_alloc va PTE_D ;;
    ide_read 0 (u32 (blockno * SECT2BLK)) va SECT2BLK ;;
    mret (Ok (va, true)).

(** [try(syscall_mem_alloc(...))]: 0 or the error. *)
Definition map_block (blockno : Z) : F Z :=
  m ← block_is_mapped blockno;
  if m : bool then mret 0 else syscall_mem_alloc (diskaddr blockno) PTE_D.

Definition unmap_block (blockno : Z) : F unit :=
  m ← block_is_mapped blockno;
  let va := if m : bool then diskaddr blockno else 0 in
  fr ← block_is_free blockno;
  d ← (if negb fr then block_is_dirty blockno else mret false);
  when (negb fr && d) (write_block blockno) ;;
  syscall_mem_unmap va ;;
  m ← block_is_mapped blockno;
  assert "!block_is_mapped(blockno)" (negb m).

(** The bound [super->s_nblocks] does not change in the loop. *)
Definition alloc_block_num : F (cres Z) :=
  sp ← gets super;
  n ← ld32 (s_nblocks sp);
  r ← for_first (zseq 3 (Z.to_nat (n - 3))) (fun blockno =>
    bp ← gets bitmap;
    w ← ld32 (bitmap_word bp blockno);
    if hasbits w (bit_of blockno) then
      st32 (bitmap_word bp blockno) (Z.land w (u32 (Z.lnot (bit_of blockno)))) ;;
      write_block (blockno / BIT2BLK + 2) ;;
      mret (Some blockno)
    else mret None);
  match r with Some b => mret (Ok b) | None => mret (Err (- E_NO_DISK)) end.

Definition alloc_block : F (cres Z) :=
  bno ←? alloc_block_num;
  r ← map_block bno;
  if r <? 0 then free_block bno ;; mret (Err r) else mret (Ok bno).

(** ** Start *)
Definition read_super : F unit :=
  r ← read_block 1;
  match r with
  | Err _ => panic "cannot read superblock"
  | Ok (blk, _) =>
      modify (set_super blk) ;;
      m ← ld32 (s_magic blk);
      assert "bad file system magic number" (m =? FS_MAGIC) ;;
      n ← ld32 (s_nblocks blk);
      assert "file system is too large" (n <=? DISKMAX / BY2BLK)
  end.

Definition assert_used (blockno : Z) : F unit :=
  fr ← block_is_free blockno;
  assert "!block_is_free" (negb fr).

Definition read_bitmap : F unit :=
  sp ← gets super;
  n ← ld32 (s_nblocks sp);
  let nbitmap := n / BIT2BLK + 1 in
  for_each (zseq 0 (Z.to_nat nbitmap)) (fun i => read_block (i + 2) ;; mret tt) ;;
  modify (set_bitmap (diskaddr 2)) ;;
  assert_used 0 ;;
  assert_used 1 ;;
  for_each (zseq 0 (Z.to_nat nbitmap)) (fun i => assert_used (i + 2)).

(** ["OOPS!\n"] *)
Definition oops : list Z := [79; 79; 80; 83; 33; 10].

Definition check_write_block : F unit :=
  modify (set_super 0) ;;
  read_block 0 ;;
  memcpy_at (diskaddr 0) (diskaddr 1) 4096 ;;
  strcpy_at (diskaddr 1) oops ;;
  write_block 1 ;;
  m ← block_is_mapped 1;
  assert "block_is_mapped(1)" m ;;
  syscall_mem_unmap (diskaddr 1) ;;
  m ← block_is_mapped 1;
  assert "!block_is_mapped(1)" (negb m) ;;
  read_block 1 ;;
  e ← streq_at (diskaddr 1) oops;
  assert "strcmp(diskaddr(1), oops) == 0" e ;;
  memcpy_at (diskaddr 1) (diskaddr 0) 4096 ;;
  write_block 1 ;;
  modify (set_super (diskaddr 1)).

Definition fs_init : F unit := read_super ;; check_write_block ;; read_bitmap.

(** ** Files *)

(** The address of the slot that holds the number of block [filebno]. *)
Definition file_block_walk (f filebno : Z) (alloc : bool) : F (cres Z) :=
  if filebno <? NDIRECT then mret (Ok (f_direct f filebno))
  else if filebno <? NINDIRECT then
    ind ← ld32 (f_indirect f);
    bindr
      (if ind =? 0 then
         if negb alloc then mret (Err (- E_NOT_FOUND))
         else bindr alloc_block (fun r => st32 (f_indirect f) r ;; mret (Ok tt))
       else mret (Ok tt))
      (fun _ =>
        ind ← ld32 (f_indirect f);
        bindr (read_block ind) (fun '(blk, _) => mret (Ok (blk + 4 * filebno))))
  else mret (Err (- E_INVAL)).

Definition file_map_block (f filebno : Z) (alloc : bool) : F (cres Z) :=
  ptr ←? file_block_walk f filebno alloc;
  b ← ld32 ptr;
  bindr
    (if b =? 0 then
       if negb alloc then mret (Err (- E_NOT_FOUND))
       else bindr alloc_block (fun r => st32 ptr r ;; mret (Ok tt))
     else mret (Ok tt))
    (fun _ => b ← ld32 ptr; mret (Ok b)).

Definition file_clear_block (f filebno : Z) : F (cres unit) :=
  ptr ←? file_block_walk f filebno false;
  b ← ld32 ptr;
  (if negb (b =? 0) then free_block b ;; st32 ptr 0 else mret tt) ;;
  mret (Ok tt).

Definition file_get_block (f filebno : Z) : F (cres Z) :=
  diskbno ←? file_map_block f filebno true;
  bindr (read_block diskbno) (fun '(blk, _) => mret (Ok blk)).

Definition file_dirty (f offset : Z) : F Z :=
  r ← file_map_block f (offset / BY2BLK) false;
  match r with Err e => mret e | Ok diskbno => dirty_block diskbno end.

(** ** Directories *)
Definition dir_lookup (dir : Z) (name : list Z) : F (cres Z) :=
  sz ← ld32 (f_size dir);
  let nblock := sz / BY2BLK in
  r ← for_first (zseq 0 (Z.to_nat nblock)) (fun i =>
    b ← file_get_block dir i;
    match b with
    | Err e => mret (Some (Err e))
    | Ok blk =>
        for_first (zseq 0 (Z.to_nat FILE2BLK)) (fun j =>
          let f := blk + BY2FILE * j in
          e ← streq_at (f_name f) name;
          if e : bool then st32 (f_dir f) dir ;; mret (Some (Ok f)) else mret None)
    end);
  mret (default (Err (- E_NOT_FOUND)) r).

Definition dir_alloc_file (dir : Z) : F (cres Z) :=
  sz ← ld32 (f_size dir);
  let nblock := sz / BY2BLK in
  r ← for_first (zseq 0 (Z.to_nat nblock)) (fun i =>
    b ← file_get_block dir i;
    match b with
    | Err e => mret (Some (Err e))
    | Ok blk =>
        for_first (zseq 0 (Z.to_nat FILE2BLK)) (fun j =>
          let f := blk + BY2FILE * j in
          c ← ld8 (f_name f);
          if c =? 0 then mret (Some (Ok f)) else mret None)
    end);
  match r with
  | Some r => mret r
  | None =>
      sz ← ld32 (f_size dir);
      st32 (f_size dir) (u32 (sz + BY2BLK)) ;;
      file_get_block dir nblock
  end.

(** ** Paths *)
Fixpoint skip_slash (p : list Z) : list Z :=
  match p with c :: p' => if c =? 47 then skip_slash p' else p | [] => [] end.

(** [while ( *path != '/' && *path != '\0') path++;]: what is passed and what is left. *)
Fixpoint path_elem (path : list Z) : list Z * list Z :=
  match path with
  | [] => ([], [])
  | c :: path' => if c =? 47 then ([], path) else let '(e, r) := path_elem path' in (c :: e, r)
  end.

(** The result, [*pdir], [*pfile] and what is copied to [lastelem]. *)
Record walk_res := mkWalk { w_ret : Z; w_dir : Z; w_file : Z; w_last : option (list Z) }.

Fixpoint walk_loop (fuel : nat) (path : list Z) (dir file : Z) : F walk_res :=
  match path with
  | [] => mret (mkWalk 0 dir file None)
  | _ =>
      match fuel with
      | O => undef "the path does not end"
      | S fuel' =>
          let dir := file in
          let '(name, path) := path_elem path in
          if MAXNAMELEN <=? Z.of_nat (length name) then mret (mkWalk (- E_BAD_PATH) 0 0 None)
          else
            let path := skip_slash path in
            ty ← ld32 (f_type dir);
            if negb (ty =? FTYPE_DIR) then mret (mkWalk (- E_NOT_FOUND) 0 0 None)
            else
              r ← dir_lookup dir name;
              match r with
              | Err e =>
                  if (e =? - E_NOT_FOUND) && bool_decide (path = []) then mret (mkWalk e dir 0 (Some name))
                  else mret (mkWalk e 0 0 None)
              | Ok file => walk_loop fuel' path dir file
              end
      end
  end.

Definition walk_path (path : list Z) : F walk_res :=
  sp ← gets super;
  walk_loop (length path) (skip_slash path) 0 (s_root sp).

Definition file_open (path : list Z) : F (cres Z) :=
  w ← walk_path path;
  if w_ret w <? 0 then mret (Err (w_ret w)) else mret (Ok (w_file w)).

Definition file_create (path : list Z) : F (cres Z) :=
  w ← walk_path path;
  let r := w_ret w in
  if r =? 0 then mret (Err (- E_FILE_EXISTS))
  else if negb (r =? - E_NOT_FOUND) || (w_dir w =? 0) then mret (Err r)
  else
    a ← dir_alloc_file (w_dir w);
    match a with
    | Err _ => mret (Err r)
    | Ok f => strcpy_at (f_name f) (default [] (w_last w)) ;; mret (Ok f)
    end.

(** ** Sizes, flushing, removal *)
Definition file_truncate (f newsize : Z) : F unit :=
  sz ← ld32 (f_size f);
  let old_nblocks := sz / BY2BLK + 1 in
  let new_nblocks := if newsize =? 0 then 0 else newsize / BY2BLK + 1 in
  let clear := for_each (zseq new_nblocks (Z.to_nat (old_nblocks - new_nblocks)))
                 (fun bno => file_clear_block f bno ;; mret tt) in
  (if new_nblocks <=? NDIRECT then
     clear ;;
     ind ← ld32 (f_indirect f);
     when (negb (ind =? 0)) (free_block ind ;; st32 (f_indirect f) 0)
   else clear) ;;
  st32 (f_size f) newsize.

Definition file_flush (f : Z) : F unit :=
  sz ← ld32 (f_size f);
  let nblocks := sz / BY2BLK + 1 in
  for_each (zseq 0 (Z.to_nat nblocks)) (fun bno =>
    r ← file_map_block f bno false;
    match r with
    | Err _ => mret tt
    | Ok diskno => d ← block_is_dirty diskno; when d (write_block diskno)
    end).

Definition flush_dir (f : Z) : F unit :=
  d ← ld32 (f_dir f);
  when (negb (d =? 0)) (file_flush d).

Definition file_set_size (f newsize : Z) : F Z :=
  sz ← ld32 (f_size f);
  when (newsize <? sz) (file_truncate f newsize) ;;
  st32 (f_size f) newsize ;;
  flush_dir f ;;
  mret 0.

(** The bound [super->s_nblocks] does not change in the loop. *)
Definition fs_sync : F unit :=
  sp ← gets super;
  n ← ld32 (s_nblocks sp);
  for_each (zseq 0 (Z.to_nat n)) (fun i => d ← block_is_dirty i; when d (write_block i)).

Definition file_close (f : Z) : F unit := file_flush f ;; flush_dir f.

Definition file_remove (path : list Z) : F Z :=
  w ← walk_path path;
  if w_ret w <? 0 then mret (w_ret w) else
  let f := w_file w in
  file_truncate f 0 ;;
  st8 (f_name f) 0 ;;
  file_flush f ;;
  flush_dir f ;;
  mret 0.
End FileSystem.
