(* ===== verification/Gx.v ===== *)
(** * A disk that keeps the protocol

    A device with one register per address of dev_disk.h, as an instance of [DiskDev]: the
    theorems on the driver and the file system hold for it. *)

From Stdlib Require Import ZArith Lia.
From stdpp Require Import base numbers list gmap strings.
From S2P Require Import Prelude Mmu Ide.

(** [g_img id]: the bytes of the disk [id], every disk of [g_cap] bytes. *)
Record gx := mkGx { g_off : Z; g_id : Z; g_buf : list Z; g_status : Z; g_img : Z -> gmap Z Z; g_cap : Z }.

Definition sector (img : gmap Z Z) (off : Z) : list Z := map (fun k => u8 (default 0 (img !! (off + k)))) (zseq 0 512).

Fixpoint put_sector (img : gmap Z Z) (off : Z) (bs : list Z) : gmap Z Z :=
  match bs with [] => img | b :: bs' => put_sector (<[off := b]> img) (off + 1) bs' end.

Definition in_cap (g : gx) : bool := (0 <=? g_off g) && (g_off g + 512 <=? g_cap g).

Definition gx_write (reg : Z) (bs : list Z) (g : gx) : gx :=
  if reg =? DEV_DISK_OFFSET then mkGx (word_of bs) (g_id g) (g_buf g) (g_status g) (g_img g) (g_cap g)
  else if reg =? DEV_DISK_ID then mkGx (g_off g) (word_of bs) (g_buf g) (g_status g) (g_img g) (g_cap g)
  else if reg =? DEV_DISK_BUFFER then mkGx (g_off g) (g_id g) bs (g_status g) (g_img g) (g_cap g)
  else if reg =? DEV_DISK_START_OPERATION then
    if negb (in_cap g) then mkGx (g_off g) (g_id g) (g_buf g) 0 (g_img g) (g_cap g)
    else if word_of bs =? DEV_DISK_OPERATION_READ then
      mkGx (g_off g) (g_id g) (sector (g_img g (g_id g)) (g_off g)) 1 (g_img g) (g_cap g)
    else
      let img := put_sector (g_img g (g_id g)) (g_off g) (g_buf g) in
      let id := g_id g in
      mkGx (g_off g) (g_id g) (g_buf g) 1 (fun i => if i =? id then img else g_img g i) (g_cap g)
  else g.

Definition gx_read (reg len : Z) (g : gx) : list Z * gx :=
  if reg =? DEV_DISK_STATUS then (le32 (g_status g), g)
  else if reg =? DEV_DISK_BUFFER then (take (Z.to_nat len) (g_buf g), g)
  else (le32 0, g).

Lemma word_of_le32 v : is_u32 v -> word_of (le32 v) = v.
Proof.
  intros H. unfold le32, word_of, is_u32 in *. cbn [zseq map foldr].
  unfold word_byte. change 255 with (Z.ones 8). rewrite !land_ones_mod, !shiftr_div by lia.
  change (2 ^ (8 * 0)) with 1. change (2 ^ (8 * (0 + 1))) with 256. change (2 ^ (8 * (0 + 1 + 1))) with 65536.
  change (2 ^ (8 * (0 + 1 + 1 + 1))) with 16777216. change (2 ^ 8) with 256. dlia.
Qed.

Lemma put_sector_lookup bs : forall img off o, put_sector img off bs !! o =
  if decide (off <= o < off + Z.of_nat (length bs)) then Some (nth (Z.to_nat (o - off)) bs 0) else img !! o.
Proof.
  induction bs as [|b bs IH]; intros img off o; cbn [put_sector length].
  - by rewrite decide_False by lia.
  - rewrite IH. destruct (decide (off + 1 <= o < off + 1 + Z.of_nat (length bs))).
    + rewrite decide_True by lia. replace (Z.to_nat (o - off)) with (S (Z.to_nat (o - (off + 1)))) by lia. done.
    + rewrite lookup_insert. case_decide; [|by rewrite decide_False by lia].
      subst o. rewrite decide_True by lia. by rewrite Z.sub_diag.
Qed.

Definition gx_select (id off : Z) (d : gx) : gx :=
  gx_write DEV_DISK_ID (le32 id) (gx_write DEV_DISK_OFFSET_HIGH32 (le32 0) (gx_write DEV_DISK_OFFSET (le32 off) d)).

Lemma gx_select_ok id off d : is_u32 id -> is_u32 off ->
  gx_select id off d = mkGx off id (g_buf d) (g_status d) (g_img d) (g_cap d).
Proof.
  intros Hid Ho. unfold gx_select, gx_write.
  change (DEV_DISK_OFFSET =? DEV_DISK_OFFSET) with true. change (DEV_DISK_ID =? DEV_DISK_OFFSET) with false.
  change (DEV_DISK_OFFSET_HIGH32 =? DEV_DISK_OFFSET) with false. change (DEV_DISK_OFFSET_HIGH32 =? DEV_DISK_ID) with false.
  change (DEV_DISK_OFFSET_HIGH32 =? DEV_DISK_BUFFER) with false.
  change (DEV_DISK_OFFSET_HIGH32 =? DEV_DISK_START_OPERATION) with false.
  change (DEV_DISK_ID =? DEV_DISK_ID) with true. cbv iota. by rewrite !word_of_le32.
Qed.

Definition gx_image (d : gx) (i o : Z) : Z := u8 (default 0 (g_img d i !! o)).

Lemma gx_read_sector d id off : is_u32 id -> is_u32 off -> off + 512 <= g_cap d ->
  exists st d2 d3,
    gx_read DEV_DISK_STATUS 4
      (gx_write DEV_DISK_START_OPERATION (le32 DEV_DISK_OPERATION_READ) (gx_select id off d)) = (st, d2) /\
    word_of st <> 0 /\
    gx_read DEV_DISK_BUFFER 512 d2 = (map (fun k => gx_image d id (off + k)) (zseq 0 512), d3) /\
    (forall i : Z, g_cap d3 = g_cap d) /\ (forall i o, gx_image d3 i o = gx_image d i o).
Proof.
  intros Hid Ho Hc. rewrite gx_select_ok by done. unfold gx_write.
  change (DEV_DISK_START_OPERATION =? DEV_DISK_OFFSET) with false.
  change (DEV_DISK_START_OPERATION =? DEV_DISK_ID) with false.
  change (DEV_DISK_START_OPERATION =? DEV_DISK_BUFFER) with false.
  change (DEV_DISK_START_OPERATION =? DEV_DISK_START_OPERATION) with true.
  unfold in_cap. cbn [g_off g_cap g_id g_img]. unfold is_u32 in Ho.
  destruct (Z.leb_spec 0 off); [|lia]. destruct (Z.leb_spec (off + 512) (g_cap d)); [|lia]. cbn [andb negb].
  change (word_of (le32 DEV_DISK_OPERATION_READ) =? DEV_DISK_OPERATION_READ) with true. cbv iota.
  eexists _, _, _. split; [reflexivity|]. split; [by vm_compute|]. split.
  - unfold gx_read. change (DEV_DISK_BUFFER =? DEV_DISK_STATUS) with false.
    change (DEV_DISK_BUFFER =? DEV_DISK_BUFFER) with true. cbv iota. cbn [g_buf].
    rewrite take_ge; [reflexivity|]. unfold sector. rewrite length_map, zseq_length. lia.
  - split; intros; reflexivity.
Qed.

Lemma gx_write_sector d id off bs : is_u32 id -> is_u32 off -> off + 512 <= g_cap d ->
  length bs = 512%nat -> Forall (fun b => 0 <= b < 256) bs ->
  exists st d3,
    gx_read DEV_DISK_STATUS 4
      (gx_write DEV_DISK_START_OPERATION (le32 DEV_DISK_OPERATION_WRITE)
        (gx_write DEV_DISK_BUFFER bs (gx_select id off d))) = (st, d3) /\
    word_of st <> 0 /\ (forall i : Z, g_cap d3 = g_cap d) /\
    (forall i o, gx_image d3 i o =
      if decide (i = id /\ off <= o < off + 512) then nth (Z.to_nat (o - off)) bs 0 else gx_image d i o).
Proof.
  intros Hid Ho Hc Hl Hb. rewrite gx_select_ok by done. unfold gx_write.
  change (DEV_DISK_BUFFER =? DEV_DISK_OFFSET) with false. change (DEV_DISK_BUFFER =? DEV_DISK_ID) with false.
  change (DEV_DISK_BUFFER =? DEV_DISK_BUFFER) with true.
  change (DEV_DISK_START_OPERATION =? DEV_DISK_OFFSET) with false.
  change (DEV_DISK_START_OPERATION =? DEV_DISK_ID) with false.
  change (DEV_DISK_START_OPERATION =? DEV_DISK_BUFFER) with false.
  change (DEV_DISK_START_OPERATION =? DEV_DISK_START_OPERATION) with true. cbv iota.
  unfold in_cap. cbn [g_off g_cap g_id g_img g_buf]. unfold is_u32 in Ho.
  destruct (Z.leb_spec 0 off); [|lia]. destruct (Z.leb_spec (off + 512) (g_cap d)); [|lia]. cbn [andb negb].
  change (word_of (le32 DEV_DISK_OPERATION_WRITE) =? DEV_DISK_OPERATION_READ) with false. cbv iota.
  eexists _, _. split; [reflexivity|]. split; [by vm_compute|]. split; [done|].
  intros i o. unfold gx_image. cbn [g_img]. destruct (Z.eqb_spec i id) as [->|Hi].
  - rewrite put_sector_lookup, Hl. change (Z.of_nat 512) with 512.
    destruct (decide (off <= o < off + 512)) as [Hr|Hr].
    + rewrite decide_True by done. cbn [default]. unfold u8. apply Z.mod_small.
      rewrite Forall_forall in Hb. apply Hb, list_elem_of_In, nth_In. lia.
    + rewrite decide_False by tauto. done.
  - by rewrite decide_False by tauto.
Qed.

#[export] Instance gx_dev : DiskDev gx.
Proof.
  refine {| dd_write := gx_write; dd_read := gx_read; image := gx_image; capacity := fun g _ => g_cap g |}.
  - intros. apply Z.mod_pos_bound. lia.
  - intros d id off Hid _ Ho Hc. exact (gx_read_sector d id off Hid Ho Hc).
  - intros d id off bs Hid _ Ho Hc Hl Hb. exact (gx_write_sector d id off bs Hid Ho Hc Hl Hb).
Defined.
