(* ===== verification/FsMem.v ===== *)
(** * The server's memory and the disk driver: lemmas

    Accesses to mapped, writable pages are plain accesses to memory; reading and writing
    sectors copies bytes between memory and the image of the disk. *)

From Stdlib Require Import ZArith Lia.
From stdpp Require Import base numbers list gmap strings.
From S2P Require Import Prelude Mmu Str StrThms Wp KState Elf Signo Env TlbEx Syscall Ide.

Lemma nth_map_zseq {A} (f : Z -> A) n k d : 0 <= k < Z.of_nat n -> nth (Z.to_nat k) (map f (zseq 0 n)) d = f k.
Proof.
  intros H. rewrite (nth_indep _ d (f 0)) by (rewrite length_map, zseq_length; lia). rewrite map_nth. f_equal.
  assert (G : forall m a j, 0 <= j < Z.of_nat m -> nth (Z.to_nat j) (zseq a m) 0 = a + j).
  { induction m as [|m IH]; intros a j Hj; [lia|]. rewrite zseq_S. destruct (Z.eq_dec j 0) as [->|Hn]; [by rewrite Z.add_0_r|].
    replace (Z.to_nat j) with (S (Z.to_nat (j - 1))) by lia. cbn [nth]. rewrite IH by lia. lia. }
  rewrite G by done. lia.
Qed.

Section Server.
Context {D : Type} {HD : DiskDev D}.
Implicit Types (s : fs_st D).

(** ** Accesses to a mapped, writable page *)
Definition rw (s : fs_st D) (a : Z) : Prop :=
  is_illegal_va a = false /\ page_mapped s a = true /\ hasbits (perm_of s a) PTE_D = true.

Lemma touch_rw s a w : rw s a -> touch a w s = Val tt s.
Proof.
  intros (H1 & H2 & H3). unfold touch. rewrite H1, bind_gets, H2, bind_gets, H3. by destruct w.
Qed.

Lemma ld8_rw s a : rw s a -> ld8 a s = Val (rd8 (um s) a) s.
Proof. intros H. unfold ld8. by rewrite (bind_val _ _ _ _ _ (touch_rw s a false H)). Qed.

Lemma ld32_rw s a : rw s a -> a mod 4 = 0 -> ld32 a s = Val (rd32 (um s) a) s.
Proof. intros H E. unfold ld32. rewrite E. cbn [Z.eqb]. by rewrite (bind_val _ _ _ _ _ (touch_rw s a false H)). Qed.

Lemma st8_rw s a v : rw s a -> st8 a v s = Val tt (set_um (wr8 (um s) a v) s).
Proof. intros H. unfold st8. by rewrite (bind_val _ _ _ _ _ (touch_rw s a true H)). Qed.

Lemma st32_rw s a v : rw s a -> a mod 4 = 0 -> st32 a v s = Val tt (set_um (wr32 (um s) a v) s).
Proof. intros H E. unfold st32. rewrite E. cbn [Z.eqb]. by rewrite (bind_val _ _ _ _ _ (touch_rw s a true H)). Qed.

Lemma rw_set_um s m a : rw (set_um m s) a <-> rw s a.
Proof. done. Qed.

Lemma rw_set_dsk s d a : rw (set_dsk d s) a <-> rw s a.
Proof. done. Qed.

Lemma set_um_id s : set_um (um s) s = s.
Proof. by destruct s. Qed.

Lemma ld_bytes_rw s n : forall a, (forall i, 0 <= i < Z.of_nat n -> rw s (a + i)) ->
  ld_bytes a n s = Val (map (fun i => rd8 (um s) (a + i)) (zseq 0 n)) s.
Proof.
  induction n as [|n IH]; intros a H; [done|]. cbn [ld_bytes].
  pose proof (H 0 ltac:(lia)) as H0. rewrite Z.add_0_r in H0. rewrite (bind_val _ _ _ _ _ (ld8_rw s a H0)).
  rewrite (bind_val _ _ _ _ _ (IH (a + 1) ltac:(intros i Hi; rewrite <- Z.add_assoc; apply H; lia))).
  unfold mret, M_ret. f_equal. rewrite zseq_S. cbn [map]. f_equal; [by rewrite Z.add_0_r|].
  assert (G : forall k j, map (fun i => rd8 (um s) (a + 1 + i)) (zseq j k) = map (fun i => rd8 (um s) (a + i)) (zseq (j + 1) k)).
  { induction k as [|k IHk]; intros j; [done|]. rewrite !zseq_S. cbn [map]. rewrite IHk. do 2 f_equal. lia. }
  apply G.
Qed.

Lemma st_bytes_rw bs : forall s a, (forall i, 0 <= i < Z.of_nat (length bs) -> rw s (a + i)) ->
  st_bytes a bs s = Val tt (set_um (wr_bytes (um s) a bs) s).
Proof.
  induction bs as [|b bs IH]; intros s a H; cbn [st_bytes wr_bytes]; [by rewrite set_um_id|]. cbn [length] in H.
  pose proof (H 0 ltac:(lia)) as H0. rewrite Z.add_0_r in H0. rewrite (bind_val _ _ _ _ _ (st8_rw s a b H0)).
  rewrite IH; [by destruct s|]. intros i Hi. apply rw_set_um. rewrite <- Z.add_assoc. apply H. lia.
Qed.

(** ** Device registers *)
Definition word_reg (reg : Z) : Prop :=
  reg = DEV_DISK_OFFSET \/ reg = DEV_DISK_OFFSET_HIGH32 \/ reg = DEV_DISK_ID \/ reg = DEV_DISK_START_OPERATION \/ reg = DEV_DISK_STATUS.

Lemma word_reg_ok reg : word_reg reg ->
  dev_ok (Z.lor DEV_DISK_ADDRESS reg) 4 = true /\ Z.lor DEV_DISK_ADDRESS reg - DEV_DISK_ADDRESS = reg.
Proof. by intros [-> | [-> | [-> | [-> | ->]]]]. Qed.

Lemma write_reg_ok reg v s : word_reg reg ->
  write_reg (Z.lor DEV_DISK_ADDRESS reg) v s = Val tt (set_dsk (dd_write reg (le32 v) (dsk s)) s).
Proof. intros H. destruct (word_reg_ok reg H) as [E1 E2]. unfold write_reg. rewrite E1. cbn [when]. by rewrite E2. Qed.

Lemma read_reg_ok reg old s bs d : word_reg reg -> dd_read reg 4 (dsk s) = (bs, d) ->
  read_reg (Z.lor DEV_DISK_ADDRESS reg) old s = Val (word_of bs) (set_dsk d s).
Proof.
  intros H E. destruct (word_reg_ok reg H) as [E1 E2]. unfold read_reg. rewrite E1, bind_gets, E2, E. done.
Qed.

Lemma ide_set_location_ok diskno off s :
  ide_set_location diskno 0 off s = Val tt (set_dsk (dd_select diskno off (dsk s)) s).
Proof.
  unfold ide_set_location.
  rewrite (bind_val _ _ _ _ _ (write_reg_ok DEV_DISK_OFFSET off s ltac:(by left))).
  rewrite (bind_val _ _ _ _ _ (write_reg_ok DEV_DISK_OFFSET_HIGH32 0 _ ltac:(by right; left))).
  rewrite (write_reg_ok DEV_DISK_ID diskno _ ltac:(by right; right; left)). by destruct s.
Qed.

Lemma buffer_ok : dev_ok (Z.lor DEV_DISK_ADDRESS DEV_DISK_BUFFER) BY2SECT = true /\
  Z.lor DEV_DISK_ADDRESS DEV_DISK_BUFFER - DEV_DISK_ADDRESS = DEV_DISK_BUFFER.
Proof. done. Qed.

(** ** Sectors *)

(** A legal range of mapped, writable memory. *)
Definition rw_range (s : fs_st D) (a n : Z) : Prop :=
  UTEMP <= a /\ a + n <= UTOP /\ forall i, 0 <= i < n -> rw s (a + i).

Lemma rw_range_legal s a n : rw_range s a n -> 0 < n -> is_illegal_va_range a n = false.
Proof.
  intros (H1 & H2 & _) Hn. unfold is_illegal_va_range.
  assert (E1 : UTEMP = 4186112) by reflexivity. assert (E2 : UTOP = 2134900736) by reflexivity.
  rewrite u32_small by (unfold is_u32; lia).
  destruct (Z.eqb_spec n 0); [lia|].
  destruct (Z.ltb_spec (a + n) a), (Z.ltb_spec a UTEMP), (Z.ltb_spec UTOP (a + n)); first [reflexivity|lia].
Qed.

Lemma panic_if_ok msg b s : b = false -> panic_if msg b s = Val tt s.
Proof. by intros ->. Qed.

Record same_disk (d d' : D) : Prop := {
  sd_cap : forall i, capacity d' i = capacity d i;
  sd_image : forall i o, image d' i o = image d i o }.

Lemma ide_read_sector_ok diskno pos dst s : is_u32 diskno -> pos mod BY2SECT = 0 -> is_u32 pos ->
  pos + BY2SECT <= capacity (dsk s) diskno -> rw_range s dst BY2SECT ->
  exists d', same_disk (dsk s) d' /\ ide_read_sector diskno pos dst s =
    Val tt (set_dsk d' (set_um (wr_bytes (um s) dst (map (fun k => image (dsk s) diskno (pos + k)) (zseq 0 512))) s)).
Proof.
  intros Hid Ha Hp Hc Hr.
  destruct (dd_read_sector (dsk s) diskno pos Hid Ha Hp Hc) as (st & d2 & d3 & E1 & Hst & E2 & Hcap & Him).
  exists d3. split; [by split|]. unfold ide_read_sector.
  rewrite (bind_val _ _ _ _ _ (ide_set_location_ok diskno pos s)).
  rewrite (bind_val _ _ _ _ _ (write_reg_ok DEV_DISK_START_OPERATION _ _ ltac:(do 3 right; by left))).
  erewrite bind_val; [|eapply (read_reg_ok DEV_DISK_STATUS); [by do 4 right|exact E1]]. cbv beta.
  unfold panic_if. destruct (Z.eqb_spec (word_of st) 0) as [|_]; [done|]. cbn [negb]. rewrite bind_assert_true.
  unfold read_dev. rewrite (rw_range_legal s dst BY2SECT Hr) by (unfold BY2SECT; lia).
  destruct buffer_ok as [-> ->]. cbn [negb]. rewrite bind_bind, bind_gets. cbn [dsk set_dsk]. rewrite E2.
  rewrite bind_bind, bind_modify, bind_bind.
  erewrite bind_val; [|apply st_bytes_rw]; [by destruct s|].
  intros i Hi. rewrite length_map, zseq_length in Hi. destruct Hr as (_ & _ & Hr). apply rw_set_dsk, Hr. unfold BY2SECT. lia.
Qed.

Lemma ide_write_sector_ok diskno pos src s : is_u32 diskno -> pos mod BY2SECT = 0 -> is_u32 pos -> bytes_ok (um s) ->
  pos + BY2SECT <= capacity (dsk s) diskno -> rw_range s src BY2SECT ->
  exists d', (forall i, capacity d' i = capacity (dsk s) i) /\
    (forall i o, image d' i o = if decide (i = diskno /\ pos <= o < pos + BY2SECT)
       then rd8 (um s) (src + (o - pos)) else image (dsk s) i o) /\
    ide_write_sector diskno pos src s = Val tt (set_dsk d' s).
Proof.
  intros Hid Ha Hp Hb Hc Hr. set (bs := map (fun i => rd8 (um s) (src + i)) (zseq 0 512)).
  assert (Hlen : length bs = 512%nat) by (unfold bs; by rewrite length_map, zseq_length).
  assert (Hbs : Forall (fun b => 0 <= b < 256) bs).
  { apply Forall_map, Forall_forall. intros x _. apply Hb. }
  destruct (dd_write_sector (dsk s) diskno pos bs Hid Ha Hp Hc Hlen Hbs) as (st & d3 & E1 & Hst & Hcap & Him).
  exists d3. split; [done|]. split.
  { intros i o. rewrite Him. case_decide as Hd; [|done]. unfold bs. rewrite nth_map_zseq; [done|].
    unfold BY2SECT in Hd. lia. }
  unfold ide_write_sector. rewrite (bind_val _ _ _ _ _ (ide_set_location_ok diskno pos s)).
  assert (Ew : write_dev src (Z.lor DEV_DISK_ADDRESS DEV_DISK_BUFFER) BY2SECT (set_dsk (dd_select diskno pos (dsk s)) s) =
    Val 0 (set_dsk (dd_write DEV_DISK_BUFFER bs (dd_select diskno pos (dsk s))) s)).
  { unfold write_dev. rewrite (rw_range_legal s src BY2SECT Hr) by (unfold BY2SECT; lia).
    destruct buffer_ok as [-> ->]. cbn [negb]. change (Z.to_nat BY2SECT) with 512%nat.
    erewrite bind_val; [|apply ld_bytes_rw]; [by destruct s|].
    intros i Hi. destruct Hr as (_ & _ & Hr). apply rw_set_dsk, Hr. unfold BY2SECT. lia. }
  rewrite (bind_val _ _ _ _ _ Ew). cbv beta. rewrite (bind_val _ _ _ _ _ (panic_if_ok "SYS_write_dev" (negb (0 =? 0)) _ eq_refl)).
  rewrite (bind_val _ _ _ _ _ (write_reg_ok DEV_DISK_START_OPERATION _ _ ltac:(do 3 right; by left))).
  erewrite bind_val; [|eapply (read_reg_ok DEV_DISK_STATUS); [by do 4 right|exact E1]]. cbv beta.
  unfold panic_if. destruct (Z.eqb_spec (word_of st) 0) as [|_]; [done|]. by destruct s.
Qed.

(** ** Runs of sectors *)
Lemma ide_read_loop_ok diskno begin dst n : is_u32 diskno -> 0 <= begin -> begin mod BY2SECT = 0 -> 0 <= n ->
  begin + n * BY2SECT < 4294967296 -> forall k off s, off = (n - Z.of_nat k) * BY2SECT -> 0 <= off ->
  begin + n * BY2SECT <= capacity (dsk s) diskno -> rw_range s dst (n * BY2SECT) ->
  exists m' d', same_disk (dsk s) d' /\
    sector_loop (ide_read_sector diskno) k begin (begin + n * BY2SECT) dst off s = Val tt (set_dsk d' (set_um m' s)) /\
    (bytes_ok (um s) -> bytes_ok m') /\
    forall a, rd8 m' a = if decide (dst + off <= a < dst + n * BY2SECT) then image (dsk s) diskno (begin + (a - dst))
      else rd8 (um s) a.
Proof.
  intros Hid Hb Hbm Hn Hbn. assert (EU : UTOP = 2134900736) by reflexivity. assert (EL : UTEMP = 4186112) by reflexivity.
  induction k as [|k IH]; intros off s Hoff Ho Hc Hr; cbn [sector_loop]; destruct Hr as (R1 & R2 & R3); unfold BY2SECT in *.
  - rewrite u32_small by (unfold is_u32; lia). destruct (Z.ltb_spec (begin + off) (begin + n * 512)); [lia|].
    exists (um s), (dsk s). split; [by split|]. split; [by destruct s|]. split; [done|]. intros a.
    by rewrite decide_False by lia.
  - rewrite Nat2Z.inj_succ in Hoff. rewrite (u32_small (begin + off)) by (unfold is_u32; lia).
    rewrite (u32_small (dst + off)) by (unfold is_u32; lia).
    rewrite (u32_small (off + 512)) by (unfold is_u32; lia).
    destruct (Z.ltb_spec (begin + off) (begin + n * 512)); [|lia].
    destruct (ide_read_sector_ok diskno (begin + off) (dst + off) s Hid) as (d1 & [Sc1 Si1] & E1).
    { unfold BY2SECT. rewrite Hoff. replace (begin + (n - Z.succ (Z.of_nat k)) * 512) with (begin + (n - Z.succ (Z.of_nat k)) * 512) by lia.
      by rewrite Z_mod_plus_full. }
    { unfold is_u32. lia. } { unfold BY2SECT. lia. }
    { unfold rw_range, BY2SECT. split; [lia|]. split; [lia|]. intros i Hi. rewrite <- Z.add_assoc. apply R3. lia. }
    rewrite (bind_val _ _ _ _ _ E1).
    set (s1 := set_dsk d1 _). destruct (IH (off + 512) s1) as (m2 & d2 & [Sc2 Si2] & E2 & B2 & V2); [lia|lia| | |].
    { unfold s1. cbn [dsk set_dsk]. rewrite Sc1. exact Hc. }
    { split; [done|]. split; [done|]. exact R3. }
    exists m2, d2. split. { split; intros; [by rewrite Sc2, <- Sc1|by rewrite Si2, <- Si1]. }
    split; [rewrite E2; by destruct s|]. split.
    { intros Hbo. apply B2. unfold s1. apply wr_bytes_ok, Hbo. }
    intros a. rewrite V2. unfold s1. cbn [um dsk set_dsk set_um]. rewrite rd_wr_bytes, length_map, zseq_length.
    change (Z.of_nat 512) with 512. rewrite Si1.
    destruct (decide (dst + (off + 512) <= a < dst + n * 512)); [by rewrite decide_True by lia|].
    case_decide as Hd; [|by rewrite decide_False by lia]. rewrite decide_True by lia.
    rewrite nth_map_zseq by lia. rewrite u8_byte by apply dd_image_byte. f_equal. lia.
Qed.

Lemma ide_read_ok diskno secno dst nsecs s : is_u32 diskno -> 0 <= secno -> 0 <= nsecs ->
  (secno + nsecs) * BY2SECT < 4294967296 -> (secno + nsecs) * BY2SECT <= capacity (dsk s) diskno ->
  rw_range s dst (nsecs * BY2SECT) ->
  exists m' d', same_disk (dsk s) d' /\ ide_read diskno secno dst nsecs s = Val tt (set_dsk d' (set_um m' s)) /\
    (bytes_ok (um s) -> bytes_ok m') /\
    forall a, rd8 m' a = if decide (dst <= a < dst + nsecs * BY2SECT)
      then image (dsk s) diskno (secno * BY2SECT + (a - dst)) else rd8 (um s) a.
Proof.
  intros Hid Hs Hn Hb Hc Hr. unfold BY2SECT in *.
  destruct (ide_read_loop_ok diskno (secno * 512) dst nsecs Hid ltac:(lia) ltac:(unfold BY2SECT; by rewrite Z_mod_mult)
    Hn ltac:(unfold BY2SECT; lia) (Z.to_nat nsecs) 0 s ltac:(unfold BY2SECT; lia) ltac:(lia) ltac:(unfold BY2SECT; lia) Hr)
    as (m' & d' & S' & E' & B' & V').
  exists m', d'. split; [done|]. unfold ide_read, BY2SECT in *.
  rewrite !(u32_small (secno * 512)) by (unfold is_u32; lia). rewrite u32_small by (unfold is_u32; lia).
  split; [exact E'|]. split; [done|]. intros a. rewrite V', Z.add_0_r. done.
Qed.

Lemma ide_write_loop_ok diskno begin src n : is_u32 diskno -> 0 <= begin -> begin mod BY2SECT = 0 -> 0 <= n ->
  begin + n * BY2SECT < 4294967296 -> forall k off s, off = (n - Z.of_nat k) * BY2SECT -> 0 <= off -> bytes_ok (um s) ->
  begin + n * BY2SECT <= capacity (dsk s) diskno -> rw_range s src (n * BY2SECT) ->
  exists d', (forall i, capacity d' i = capacity (dsk s) i) /\
    sector_loop (ide_write_sector diskno) k begin (begin + n * BY2SECT) src off s = Val tt (set_dsk d' s) /\
    forall i o, image d' i o = if decide (i = diskno /\ begin + off <= o < begin + n * BY2SECT)
      then rd8 (um s) (src + (o - begin)) else image (dsk s) i o.
Proof.
  intros Hid Hb Hbm Hn Hbn. assert (EU : UTOP = 2134900736) by reflexivity. assert (EL : UTEMP = 4186112) by reflexivity.
  induction k as [|k IH]; intros off s Hoff Ho Hbo Hc Hr; cbn [sector_loop]; destruct Hr as (R1 & R2 & R3); unfold BY2SECT in *.
  - rewrite u32_small by (unfold is_u32; lia). destruct (Z.ltb_spec (begin + off) (begin + n * 512)); [lia|].
    exists (dsk s). split; [done|]. split; [by destruct s|]. intros i o. by rewrite decide_False by lia.
  - rewrite Nat2Z.inj_succ in Hoff. rewrite (u32_small (begin + off)) by (unfold is_u32; lia).
    rewrite (u32_small (src + off)) by (unfold is_u32; lia).
    rewrite (u32_small (off + 512)) by (unfold is_u32; lia).
    destruct (Z.ltb_spec (begin + off) (begin + n * 512)); [|lia].
    destruct (ide_write_sector_ok diskno (begin + off) (src + off) s Hid) as (d1 & Sc1 & Si1 & E1).
    { unfold BY2SECT. rewrite Hoff. by rewrite Z_mod_plus_full. }
    { unfold is_u32. lia. } { done. } { unfold BY2SECT. lia. }
    { unfold rw_range, BY2SECT. split; [lia|]. split; [lia|]. intros i Hi. rewrite <- Z.add_assoc. apply R3. lia. }
    rewrite (bind_val _ _ _ _ _ E1).
    destruct (IH (off + 512) (set_dsk d1 s)) as (d2 & Sc2 & E2 & V2); [lia|lia|exact Hbo| | |].
    { cbn [dsk set_dsk]. rewrite Sc1. exact Hc. }
    { split; [done|]. split; [done|]. exact R3. }
    exists d2. split. { intros i. by rewrite Sc2, <- Sc1. }
    split; [rewrite E2; by destruct s|].
    intros i o. rewrite V2. cbn [um dsk set_dsk]. rewrite Si1. unfold BY2SECT.
    destruct (decide (i = diskno /\ begin + (off + 512) <= o < begin + n * 512)); [by rewrite decide_True by lia|].
    case_decide as Hd; [|by rewrite decide_False by lia]. rewrite decide_True by lia. f_equal. lia.
Qed.

Lemma ide_write_ok diskno secno src nsecs s : is_u32 diskno -> 0 <= secno -> 0 <= nsecs -> bytes_ok (um s) ->
  (secno + nsecs) * BY2SECT < 4294967296 -> (secno + nsecs) * BY2SECT <= capacity (dsk s) diskno ->
  rw_range s src (nsecs * BY2SECT) ->
  exists d', (forall i, capacity d' i = capacity (dsk s) i) /\
    ide_write diskno secno src nsecs s = Val tt (set_dsk d' s) /\
    forall i o, image d' i o = if decide (i = diskno /\ secno * BY2SECT <= o < (secno + nsecs) * BY2SECT)
      then rd8 (um s) (src + (o - secno * BY2SECT)) else image (dsk s) i o.
Proof.
  intros Hid Hs Hn Hbo Hb Hc Hr. unfold BY2SECT in *.
  destruct (ide_write_loop_ok diskno (secno * 512) src nsecs Hid ltac:(lia) ltac:(unfold BY2SECT; by rewrite Z_mod_mult)
    Hn ltac:(unfold BY2SECT; lia) (Z.to_nat nsecs) 0 s ltac:(unfold BY2SECT; lia) ltac:(lia) Hbo ltac:(unfold BY2SECT; lia) Hr)
    as (d' & S' & E' & V').
  exists d'. split; [done|]. unfold ide_write, BY2SECT in *.
  rewrite !(u32_small (secno * 512)) by (unfold is_u32; lia). rewrite u32_small by (unfold is_u32; lia).
  split; [exact E'|]. intros i o. rewrite V', Z.add_0_r.
  replace ((secno + nsecs) * 512) with (secno * 512 + nsecs * 512) by lia. done.
Qed.
End Server.
