(* ===== verification/FsCache.v ===== *)
(** * The block cache: invariant, view and the operations on blocks (fs/fs.c)

    [view s b o] is byte [o] of block [b] as the file system sees it: the cached page when
    the block is cached, the disk otherwise. Reading a block into the cache and writing it
    back leave the view alone. *)

From Stdlib Require Import ZArith Lia.
From stdpp Require Import base numbers list gmap strings.
From S2P Require Import Prelude Mmu Str StrThms Wp KState Elf Signo Env TlbEx Syscall Ide Fs FsMem.

(** ** Addresses *)
Definition NBLK := 262144.
Lemma NBLK_eq : DISKMAX / BY2BLK = NBLK.
Proof. reflexivity. Qed.

Lemma diskaddr_eq b : 0 <= b < NBLK -> diskaddr b = 268435456 + 4096 * b.
Proof. intros H. unfold diskaddr, DISKMAP, BY2BLK, BY2PG, NBLK in *. apply u32_small. unfold is_u32. lia. Qed.

Lemma vpn_block b o : 0 <= b < NBLK -> 0 <= o < 4096 -> VPN (diskaddr b + o) = 65536 + b.
Proof.
  intros Hb Ho. rewrite diskaddr_eq by done. unfold VPN. rewrite shiftr_div by lia. change (2 ^ 12) with 4096. dlia.
Qed.

Lemma vpn_block0 b : 0 <= b < NBLK -> VPN (diskaddr b) = 65536 + b.
Proof. intros Hb. rewrite <- (vpn_block b 0) by (done || lia). by rewrite Z.add_0_r. Qed.

Lemma legal_block b o : 0 <= b < NBLK -> 0 <= o < 4096 -> is_illegal_va (diskaddr b + o) = false.
Proof.
  intros Hb Ho. rewrite diskaddr_eq by done. unfold is_illegal_va, NBLK in *.
  assert (E1 : UTEMP = 4186112) by reflexivity. assert (E2 : UTOP = 2134900736) by reflexivity. rewrite E1, E2.
  destruct (Z.ltb_spec (268435456 + 4096 * b + o) 4186112), (Z.leb_spec 2134900736 (268435456 + 4096 * b + o)); first [done|lia].
Qed.

Lemma legal_block0 b : 0 <= b < NBLK -> is_illegal_va (diskaddr b) = false.
Proof. intros H. rewrite <- (Z.add_0_r (diskaddr b)). apply legal_block; [done|lia]. Qed.

Lemma diskaddr_mod4 b o : 0 <= b < NBLK -> o mod 4 = 0 -> (diskaddr b + o) mod 4 = 0.
Proof. intros Hb Ho. rewrite diskaddr_eq by done. dlia. Qed.

(** ** Bits of a word *)
Lemma hasbits_bit w b : hasbits w (bit_of b) = Z.testbit w (b mod 32).
Proof.
  unfold bit_of. pose proof (Z.mod_pos_bound b 32 ltac:(lia)). rewrite Z.shiftl_1_l. apply hasbits_testbit. lia.
Qed.

Lemma bit_of_u32 b : is_u32 (bit_of b).
Proof.
  unfold bit_of, is_u32. pose proof (Z.mod_pos_bound b 32 ltac:(lia)). rewrite Z.shiftl_1_l.
  split; [apply Z.pow_nonneg; lia|]. apply (Z.le_lt_trans _ (2 ^ 31)); [apply Z.pow_le_mono_r; lia|lia].
Qed.

Lemma land_u32 a b : is_u32 a -> 0 <= b -> is_u32 (Z.land a b).
Proof.
  intros H _. unfold is_u32. replace (Z.land a b) with (Z.land a b mod 2 ^ 32); [apply Z.mod_pos_bound; lia|].
  rewrite <- !Z.land_ones by lia. rewrite <- Z.land_assoc, (Z.land_comm b), Z.land_assoc, Z.land_ones by lia.
  by rewrite Z.mod_small.
Qed.

Lemma testbit_clear_bit w b k : 0 <= k < 32 ->
  Z.testbit (Z.land w (u32 (Z.lnot (bit_of b)))) k = Z.testbit w k && negb (k =? b mod 32).
Proof.
  intros Hk. rewrite Z.land_spec. f_equal. unfold u32. change 4294967296 with (2 ^ 32).
  rewrite Z.mod_pow2_bits_low, Z.lnot_spec by lia. f_equal. unfold bit_of.
  pose proof (Z.mod_pos_bound b 32 ltac:(lia)). rewrite Z.shiftl_1_l, Z.pow2_bits_eqb by lia. apply Z.eqb_sym.
Qed.

Lemma testbit_set w b k : 0 <= k < 32 ->
  Z.testbit (Z.lor w (bit_of b)) k = Z.testbit w k || (k =? b mod 32).
Proof.
  intros Hk. rewrite Z.lor_spec. f_equal. unfold bit_of.
  pose proof (Z.mod_pos_bound b 32 ltac:(lia)). rewrite Z.shiftl_1_l, Z.pow2_bits_eqb by lia. apply Z.eqb_sym.
Qed.

Section Cache.
Context {D : Type} {HD : DiskDev D}.
Implicit Types (s : fs_st D).

Definition cached s b : bool := page_mapped s (diskaddr b).
Definition dirty s b : bool := hasbits (perm_of s (diskaddr b)) PTE_DIRTY.
Definition view s b o : Z := if cached s b then rd8 (um s) (diskaddr b + o) else image (dsk s) 0 (b * 4096 + o).
Definition vword s b o : Z := view s b o + 256 * view s b (o + 1) + 65536 * view s b (o + 2) + 16777216 * view s b (o + 3).

(** The number of bitmap blocks. *)
Definition nbitmap (n : Z) : Z := n / BIT2BLK + 1.

Definition free s b : bool := hasbits (rd32 (um s) (bitmap_word (diskaddr 2) b)) (bit_of b).

(** The kernel finds a page for every allocation. *)
Definition plenty s : Prop := Forall (fun b => b = true) (answers s).

Record fs_ok s n : Prop := {
  ok_n : n <= NBLK;
  ok_reserved : 2 + nbitmap n <= n;
  ok_super : super s = diskaddr 1;
  ok_bitmap : bitmap s = diskaddr 2;
  ok_nblocks : rd32 (um s) (diskaddr 1 + 4) = n;
  ok_cached : forall b, 1 <= b < 2 + nbitmap n -> cached s b = true;
  ok_used : forall b, 0 <= b < 2 + nbitmap n -> free s b = false;
  ok_bytes : bytes_ok (um s);
  ok_perm : forall b, 0 <= b < n -> cached s b = true -> hasbits (perm_of s (diskaddr b)) PTE_D = true;
  ok_cap : n * 4096 <= capacity (dsk s) 0 }.

Lemma nbitmap_range n : 0 <= n <= NBLK -> 1 <= nbitmap n <= 9.
Proof. unfold nbitmap, NBLK, BIT2BLK, BY2BLK, BY2PG. intros H. dlia. Qed.

Lemma ok_range s n : fs_ok s n -> 3 <= n <= NBLK /\ 1 <= nbitmap n <= 9.
Proof.
  intros O. pose proof (ok_n _ _ O). pose proof (ok_reserved _ _ O) as Hr.
  assert (0 <= n). { unfold nbitmap, BIT2BLK, BY2BLK, BY2PG in Hr. dlia. }
  pose proof (nbitmap_range n ltac:(lia)). lia.
Qed.

(** The word of the bitmap that holds bit [b] is in a cached bitmap block. *)
Lemma bitmap_word_block n b : 0 <= b < n -> n <= NBLK -> exists k o, 2 <= k < 2 + nbitmap n /\ 0 <= o /\ o + 4 <= 4096 /\ o mod 4 = 0 /\
  k = b / BIT2BLK + 2 /\ bitmap_word (diskaddr 2) b = diskaddr k + o.
Proof.
  intros Hb Hn. unfold NBLK in Hn. exists (b / 32768 + 2), (4 * (b / 32) - 4096 * (b / 32768)).
  unfold nbitmap, bitmap_word, BIT2BLK, BY2BLK, BY2PG. change (4096 * 8) with 32768.
  rewrite !diskaddr_eq by (unfold NBLK; dlia). split_and!; dlia.
Qed.

Lemma rw_block s n b o : fs_ok s n -> 0 <= b < n -> cached s b = true -> 0 <= o < 4096 -> rw s (diskaddr b + o).
Proof.
  intros O Hb Hc Ho. pose proof (ok_range _ _ O). split; [apply legal_block; lia|].
  pose proof (ok_perm _ _ O b Hb Hc) as Hp. unfold cached, page_mapped, perm_of in *.
  rewrite vpn_block by lia. rewrite vpn_block0 in Hc, Hp by lia. done.
Qed.

Lemma ld_nblocks s n : fs_ok s n -> ld32 (s_nblocks (super s)) s = Val n s.
Proof.
  intros O. pose proof (ok_range _ _ O). unfold s_nblocks. rewrite (ok_super _ _ O).
  rewrite ld32_rw; [by rewrite (ok_nblocks _ _ O)| |apply diskaddr_mod4; [unfold NBLK; lia|done]].
  apply (rw_block s n); [done|lia| |lia]. apply (ok_cached _ _ O). lia.
Qed.

Lemma rw_bitmap s n b : fs_ok s n -> 0 <= b < n ->
  rw s (bitmap_word (diskaddr 2) b) /\ bitmap_word (diskaddr 2) b mod 4 = 0.
Proof.
  intros O Hb. pose proof (ok_range _ _ O). destruct (bitmap_word_block n b Hb ltac:(lia)) as (k & o & Hk & Ho & Ho' & Hm & _ & ->).
  pose proof (ok_reserved _ _ O). split.
  - apply (rw_block s n); [done|lia| |lia]. apply (ok_cached _ _ O). lia.
  - apply diskaddr_mod4; [lia|done].
Qed.

Lemma ld_bitmap s n b : fs_ok s n -> 0 <= b < n ->
  ld32 (bitmap_word (bitmap s) b) s = Val (rd32 (um s) (bitmap_word (diskaddr 2) b)) s.
Proof. intros O Hb. rewrite (ok_bitmap _ _ O). destruct (rw_bitmap s n b O Hb). by rewrite ld32_rw. Qed.

Lemma block_is_free_ok s n b : fs_ok s n -> 0 <= b -> block_is_free b s = Val ((b <? n) && free s b) s.
Proof.
  intros O Hb. pose proof (ok_range _ _ O). unfold block_is_free. rewrite bind_gets.
  destruct (Z.eqb_spec (super s) 0) as [E|_].
  { exfalso. rewrite (ok_super _ _ O), diskaddr_eq in E by (unfold NBLK; lia). lia. }
  rewrite (bind_val _ _ _ _ _ (ld_nblocks s n O)). cbv beta.
  destruct (Z.leb_spec n b), (Z.ltb_spec b n); try lia; [done|]. rewrite bind_gets.
  by rewrite (bind_val _ _ _ _ _ (ld_bitmap s n b O ltac:(lia))).
Qed.

(** ** Reading and writing blocks *)

(** Blocks enter the cache; the bytes [P] selects do not change. *)
Record extp (P : Z -> Z -> Prop) n s s' : Prop := {
  ext_view : forall b o, 0 <= b < n -> 0 <= o < 4096 -> P b o -> view s' b o = view s b o;
  ext_cached : forall b, 0 <= b < n -> cached s b = true -> cached s' b = true;
  ext_perm : forall b, 0 <= b < n -> cached s b = true -> perm_of s' (diskaddr b) = perm_of s (diskaddr b);
  ext_plenty : plenty s -> plenty s' }.

Definition everywhere (b o : Z) : Prop := True.
Abbreviation ext := (extp everywhere).

Lemma ext_refl P n s : extp P n s s.
Proof. by split. Qed.

Lemma ext_trans P n s1 s2 s3 : extp P n s1 s2 -> extp P n s2 s3 -> extp P n s1 s3.
Proof.
  intros [V1 C1 P1 L1] [V2 C2 P2 L2]. split; intros.
  - by rewrite V2, V1.
  - auto.
  - by rewrite P2, P1 by auto.
  - auto.
Qed.

Lemma ext_mono (P Q : Z -> Z -> Prop) n s s' : (forall b o, 0 <= b < n -> 0 <= o < 4096 -> Q b o -> P b o) ->
  extp P n s s' -> extp Q n s s'.
Proof. intros H [V C L A]. split; auto. Qed.

Lemma rd32_view s b o : cached s b = true -> rd32 (um s) (diskaddr b + o) = vword s b o.
Proof. intros H. unfold vword, view. rewrite H. unfold rd32. by rewrite <- !Z.add_assoc. Qed.

Lemma vword_ext s s' b o : (forall i, 0 <= i < 4 -> view s' b (o + i) = view s b (o + i)) -> vword s' b o = vword s b o.
Proof.
  intros H. unfold vword. pose proof (H 0 ltac:(lia)) as H0. rewrite Z.add_0_r in H0. by rewrite H0, !H by lia.
Qed.

Lemma ext_vword n s s' b o : ext n s s' -> 0 <= b < n -> 0 <= o -> o + 4 <= 4096 -> vword s' b o = vword s b o.
Proof. intros E Hb Ho Ho'. apply vword_ext. intros i Hi. apply (ext_view _ _ _ _ E); (done || lia). Qed.

(** Bits of the bitmap as a part of the view. *)
Lemma free_view s s' n b : fs_ok s n -> fs_ok s' n -> 0 <= b < n ->
  (forall k o, 2 <= k < 2 + nbitmap n -> 0 <= o < 4096 -> view s' k o = view s k o) -> free s' b = free s b.
Proof.
  intros O O' Hb HV. pose proof (ok_range _ _ O).
  destruct (bitmap_word_block n b Hb ltac:(lia)) as (k & o & Hk & Ho & Ho' & Hm & _ & E). unfold free. rewrite E.
  rewrite !rd32_view by (apply (ok_cached _ n); (done || lia)). f_equal. apply vword_ext. intros i Hi. apply HV; lia.
Qed.

Lemma ext_free n s s' b : fs_ok s n -> fs_ok s' n -> ext n s s' -> 0 <= b < n -> free s' b = free s b.
Proof.
  intros O O' E Hb. apply (free_view s s' n b O O' Hb). intros k o Hk Ho. pose proof (ok_reserved _ _ O).
  apply (ext_view _ _ _ _ E); (done || lia).
Qed.

(** Writing a block back. *)
Definition written s b d' : Prop :=
  (forall i, capacity d' i = capacity (dsk s) i) /\
  forall i o, image d' i o = if decide (i = 0 /\ b * 4096 <= o < (b + 1) * 4096)
    then rd8 (um s) (diskaddr b + (o - b * 4096)) else image (dsk s) i o.

Lemma sector_range s n b : fs_ok s n -> 0 <= b < n -> cached s b = true -> rw_range s (diskaddr b) (SECT2BLK * BY2SECT).
Proof.
  intros O Hb Hc. pose proof (ok_range _ _ O). change (SECT2BLK * BY2SECT) with 4096.
  unfold rw_range. assert (E1 : UTEMP = 4186112) by reflexivity. assert (E2 : UTOP = 2134900736) by reflexivity.
  rewrite E1, E2. split; [rewrite diskaddr_eq by lia; unfold NBLK in *; lia|].
  split; [rewrite diskaddr_eq by lia; unfold NBLK in *; lia|]. intros i Hi. by apply (rw_block s n).
Qed.

Lemma sect_eq b : 0 <= b < NBLK -> u32 (b * SECT2BLK) = b * 8.
Proof. intros H. change SECT2BLK with 8. unfold NBLK in H. apply u32_small. unfold is_u32. lia. Qed.

Lemma write_block_ok s n b : fs_ok s n -> 0 <= b < n -> cached s b = true ->
  exists d', write_block b s = Val tt (set_dsk d' s) /\ written s b d'.
Proof.
  intros O Hb Hc. pose proof (ok_range _ _ O). pose proof (ok_cap _ _ O). unfold NBLK in *.
  destruct (ide_write_ok 0 (b * 8) (diskaddr b) SECT2BLK s) as (d' & Hcap & E & Him).
  { unfold is_u32. lia. } { lia. } { by vm_compute. } { apply (ok_bytes _ _ O). }
  { change SECT2BLK with 8. unfold BY2SECT. lia. } { change SECT2BLK with 8. unfold BY2SECT. lia. }
  { by apply (sector_range s n). }
  exists d'. split.
  - unfold write_block, block_is_mapped, va_is_mapped. rewrite bind_gets. change (page_mapped s (diskaddr b)) with (cached s b).
    rewrite Hc, bind_assert_true. rewrite sect_eq by (unfold NBLK; lia). exact E.
  - split; [done|]. intros i o. rewrite Him. change SECT2BLK with 8. unfold BY2SECT.
    replace (b * 8 * 512) with (b * 4096) by lia. replace ((b * 8 + 8) * 512) with ((b + 1) * 4096) by lia. done.
Qed.

Lemma view_set_dsk s n b d' b' o : 0 <= b < n -> 0 <= b' < n -> 0 <= o < 4096 -> cached s b = true -> written s b d' ->
  view (set_dsk d' s) b' o = view s b' o.
Proof.
  intros Hb Hb' Ho Hc [_ Him]. unfold view. change (cached (set_dsk d' s) b') with (cached s b').
  destruct (cached s b') eqn:E; [done|]. cbn [dsk set_dsk]. rewrite Him. rewrite decide_False; [done|].
  intros [_ Hin]. assert (b' = b) by nia. congruence.
Qed.

Lemma fs_ok_set_dsk s n d' : (forall i, capacity d' i = capacity (dsk s) i) -> fs_ok s n -> fs_ok (set_dsk d' s) n.
Proof. intros Hc []. split; try done. cbn [dsk set_dsk]. by rewrite Hc. Qed.

Lemma write_block_ext s n b d' : fs_ok s n -> 0 <= b < n -> cached s b = true -> written s b d' ->
  fs_ok (set_dsk d' s) n /\ ext n s (set_dsk d' s).
Proof.
  intros O Hb Hc W. split; [by apply fs_ok_set_dsk; [apply W|]|]. split; try done.
  intros b' o Hb' Ho _. by apply (view_set_dsk s n b).
Qed.

(** A fresh page. *)
Lemma rd8_clear m vpn a : rd8 (clear_bytes m vpn) a = if decide (VPN a = vpn) then 0 else rd8 m a.
Proof.
  unfold rd8, clear_bytes. case_decide as E.
  - by rewrite map_lookup_filter_None_2 by (right; intros x _; cbn; tauto).
  - destruct (m !! a) as [x|] eqn:Ea.
    + by rewrite (map_lookup_filter_Some_2 _ _ _ x).
    + by rewrite map_lookup_filter_None_2 by (by left).
Qed.

Lemma ask_plenty s : plenty s -> exists l, ask s = Val true (set_answers l s) /\ Forall (fun b => b = true) l.
Proof.
  unfold plenty, ask. intros H. rewrite bind_gets. destruct (answers s) as [|b l] eqn:E.
  - exists []. split; [|done]. rewrite <- E. by destruct s.
  - apply Forall_cons in H as [-> H]. exists l. by rewrite bind_modify.
Qed.

Definition fresh s l b : fs_st D :=
  set_upt (<[VPN (diskaddr b) := Z.lor PTE_D PTE_V]> (upt s)) (set_um (clear_bytes (um s) (VPN (diskaddr b))) (set_answers l s)).

Lemma mem_alloc_block s b : 0 <= b < NBLK -> plenty s -> exists l, Forall (fun b => b = true) l /\
  syscall_mem_alloc (diskaddr b) PTE_D s = Val 0 (fresh s l b).
Proof.
  intros Hb Hp. destruct (ask_plenty s Hp) as (l & E & Hl). exists l. split; [done|].
  unfold syscall_mem_alloc. rewrite legal_block0 by done. rewrite (bind_val _ _ _ _ _ E). cbv beta iota. by destruct s.
Qed.

Lemma perm_fresh s l b a : 0 <= b < NBLK -> VPN a = 65536 + b -> perm_of (fresh s l b) a = 1536.
Proof. intros Hb E. unfold perm_of, fresh. cbn [upt set_upt]. by rewrite E, vpn_block0, lookup_insert_eq. Qed.

Lemma perm_fresh_ne s l b a : 0 <= b < NBLK -> VPN a <> 65536 + b -> perm_of (fresh s l b) a = perm_of s a.
Proof. intros Hb E. unfold perm_of, fresh. cbn [upt set_upt]. by rewrite vpn_block0, lookup_insert_ne by (done || congruence). Qed.

Lemma cached_fresh s l b b' : 0 <= b < NBLK -> 0 <= b' < NBLK -> cached (fresh s l b) b' = (b' =? b) || cached s b'.
Proof.
  intros Hb Hb'. unfold cached, page_mapped. destruct (Z.eqb_spec b' b) as [->|Hn].
  - by rewrite (perm_fresh _ _ b) by (done || by apply vpn_block0).
  - rewrite perm_fresh_ne by (rewrite ?vpn_block0 by done; lia). done.
Qed.

Lemma rd8_fresh s l b b' o : 0 <= b < NBLK -> 0 <= b' < NBLK -> 0 <= o < 4096 ->
  rd8 (um (fresh s l b)) (diskaddr b' + o) = if b' =? b then 0 else rd8 (um s) (diskaddr b' + o).
Proof.
  intros Hb Hb' Ho. unfold fresh. cbn [um set_upt set_um]. rewrite rd8_clear, vpn_block, vpn_block0 by done.
  destruct (Z.eqb_spec b' b) as [->|]; [by rewrite decide_True|]. rewrite decide_False by lia. done.
Qed.

(** The invariant through a change of the memory outside the reserved blocks. *)
Lemma fs_ok_transfer s s' n : fs_ok s n -> super s' = super s -> bitmap s' = bitmap s -> bytes_ok (um s') ->
  capacity (dsk s') 0 = capacity (dsk s) 0 ->
  (forall b, 1 <= b < 2 + nbitmap n -> cached s' b = true) ->
  (forall b, 0 <= b < n -> cached s' b = true -> hasbits (perm_of s' (diskaddr b)) PTE_D = true) ->
  (forall b a, 1 <= b < 2 + nbitmap n -> diskaddr b <= a < diskaddr b + 4096 -> rd8 (um s') a = rd8 (um s) a) ->
  fs_ok s' n.
Proof.
  intros O E1 E2 Hb Hc HC HP HM. pose proof (ok_range _ _ O). pose proof (ok_reserved _ _ O). destruct O. split; try congruence; try done.
  - rewrite <- ok_nblocks0. apply rd32_ext. intros i Hi. apply (HM 1); lia.
  - intros b Hr. rewrite <- (ok_used0 b Hr). unfold free. f_equal.
    destruct (bitmap_word_block n b ltac:(lia) ltac:(lia)) as (k & o & Hk & Ho & Ho' & _ & _ & ->).
    apply rd32_ext. intros i Hi. apply (HM k); lia.
Qed.

(** *** read_block *)

(** Block [b] enters the cache. *)
Record loaded s b s' : Prop := {
  lo_bytes : bytes_ok (um s) -> bytes_ok (um s');
  lo_super : super s' = super s;
  lo_bitmap : bitmap s' = bitmap s;
  lo_disk : same_disk (dsk s) (dsk s');
  lo_cached : forall b', 0 <= b' < NBLK -> cached s' b' = (b' =? b) || cached s b';
  lo_new_perm : perm_of s' (diskaddr b) = 1536;
  lo_perm : forall b', 0 <= b' < NBLK -> b' <> b -> perm_of s' (diskaddr b') = perm_of s (diskaddr b');
  lo_new : forall o, 0 <= o < 4096 -> rd8 (um s') (diskaddr b + o) = image (dsk s) 0 (b * 4096 + o);
  lo_mem : forall b' o, 0 <= b' < NBLK -> b' <> b -> 0 <= o < 4096 -> rd8 (um s') (diskaddr b' + o) = rd8 (um s) (diskaddr b' + o);
  lo_plenty : plenty s' }.

Lemma load_raw s b : 0 <= b < NBLK -> (b + 1) * 4096 <= capacity (dsk s) 0 -> plenty s -> exists s',
  (syscall_mem_alloc (diskaddr b) PTE_D ;; ide_read 0 (u32 (b * SECT2BLK)) (diskaddr b) SECT2BLK) s = Val tt s' /\ loaded s b s'.
Proof.
  intros Hb Hcap Hp. pose proof Hb as Hb0. unfold NBLK in Hb0.
  destruct (mem_alloc_block s b Hb Hp) as (l & Hl & E1). rewrite (bind_val _ _ _ _ _ E1). set (s1 := fresh s l b).
  assert (Hok : hasbits 1536 PTE_V = true) by reflexivity.
  destruct (ide_read_ok 0 (b * 8) (diskaddr b) SECT2BLK s1) as (m' & d' & [Sc Si] & E2 & B2 & V2).
  { unfold is_u32. lia. } { lia. } { by vm_compute. } { change SECT2BLK with 8. unfold BY2SECT. lia. }
  { change SECT2BLK with 8. unfold BY2SECT. unfold s1, fresh. cbn [dsk set_upt set_um set_answers]. lia. }
  { change (SECT2BLK * BY2SECT) with 4096. assert (E3 : UTEMP = 4186112) by reflexivity.
    assert (E4 : UTOP = 2134900736) by reflexivity. unfold rw_range. rewrite E3, E4, diskaddr_eq by done.
    split; [lia|]. split; [lia|]. intros i Hi. rewrite <- diskaddr_eq by done.
    split; [by apply legal_block|]. unfold page_mapped, s1. rewrite (perm_fresh s l b) by (done || by apply vpn_block). by split. }
  exists (set_dsk d' (set_um m' s1)). change SECT2BLK with 8 in *. rewrite u32_small by (unfold is_u32; lia).
  split; [exact E2|]. change (8 * BY2SECT) with 4096 in V2. split; try done.
  - intros Hbo. apply B2. unfold s1, fresh. cbn [um set_upt set_um]. intros a. rewrite rd8_clear. case_decide; [lia|apply Hbo].
  - intros b' Hb'. change (cached (set_dsk d' (set_um m' s1)) b') with (cached (fresh s l b) b'). by apply cached_fresh.
  - change (perm_of (set_dsk d' (set_um m' s1)) (diskaddr b)) with (perm_of (fresh s l b) (diskaddr b)).
    apply perm_fresh; [done|by apply vpn_block0].
  - intros b' Hb' Hne. change (perm_of (set_dsk d' (set_um m' s1)) (diskaddr b')) with (perm_of (fresh s l b) (diskaddr b')).
    apply perm_fresh_ne; [done|]. rewrite vpn_block0 by done. lia.
  - intros o Ho. cbn [um set_dsk set_um]. rewrite V2, decide_True by lia.
    unfold s1, fresh. cbn [dsk set_upt set_um set_answers]. f_equal. unfold BY2SECT. lia.
  - intros b' o Hb' Hne Ho. cbn [um set_dsk set_um]. rewrite V2. rewrite decide_False.
    + unfold s1. rewrite rd8_fresh by done. destruct (Z.eqb_spec b' b); done.
    + rewrite !diskaddr_eq by done. nia.
Qed.

Lemma load_block s n b : fs_ok s n -> 0 <= b < n -> cached s b = false -> plenty s -> exists s',
  (syscall_mem_alloc (diskaddr b) PTE_D ;; ide_read 0 (u32 (b * SECT2BLK)) (diskaddr b) SECT2BLK) s = Val tt s' /\
  fs_ok s' n /\ ext n s s' /\ cached s' b = true.
Proof.
  intros O Hb Hc Hp. pose proof (ok_range _ _ O) as Hn. pose proof (ok_cap _ _ O). pose proof (ok_reserved _ _ O).
  destruct (load_raw s b ltac:(lia) ltac:(lia) Hp) as (s' & E & L). exists s'. split; [exact E|].
  assert (Hnew : forall b', 1 <= b' < 2 + nbitmap n -> b' <> b) by (intros b' Hb' ->; by rewrite (ok_cached _ _ O) in Hc).
  pose proof L as [Lb Ls Lm [Sc Si] Lc Lp' Lp Ln Lk La]. split; [|split].
  - apply (fs_ok_transfer s); try done.
    + apply Lb, (ok_bytes _ _ O).
    + intros b' Hb'. rewrite Lc by lia. by rewrite (ok_cached _ _ O), orb_true_r by done.
    + intros b' Hb' Hc'. destruct (Z.eq_dec b' b) as [->|Hne]; [by rewrite Lp'|].
      rewrite Lp by (done || lia). apply (ok_perm _ _ O b' Hb'). rewrite Lc in Hc' by lia. by destruct (Z.eqb_spec b' b).
    + intros b' a Hb' Ha. replace a with (diskaddr b' + (a - diskaddr b')) by lia. apply Lk; [lia|by apply Hnew|lia].
  - split.
    + intros b' o Hb' Ho _. unfold view. rewrite Lc by lia. destruct (Z.eqb_spec b' b) as [->|Hne]; cbn [orb].
      * rewrite Hc. by apply Ln.
      * destruct (cached s b'); [apply Lk; (done || lia)|apply Si].
    + intros b' Hb' Hc'. rewrite Lc by lia. by rewrite Hc', orb_true_r.
    + intros b' Hb' Hc'. apply Lp; [lia|]. intros ->. congruence.
    + intros _. exact La.
  - rewrite Lc by lia. by rewrite Z.eqb_refl.
Qed.

Lemma read_block_ok s n b : fs_ok s n -> 0 <= b < n -> free s b = false -> plenty s -> exists s',
  read_block b s = Val (Ok (diskaddr b, negb (cached s b))) s' /\ fs_ok s' n /\ ext n s s' /\ cached s' b = true.
Proof.
  intros O Hb Hf Hp. pose proof (ok_range _ _ O) as Hn. unfold read_block. rewrite bind_gets.
  destruct (Z.eqb_spec (super s) 0) as [E|_].
  { exfalso. rewrite (ok_super _ _ O), diskaddr_eq in E by (unfold NBLK; lia). lia. }
  rewrite bind_bind, (bind_val _ _ _ _ _ (ld_nblocks s n O)). cbv beta. rewrite bind_ret.
  destruct (Z.ltb_spec b n); [|lia]. rewrite bind_assert_true, bind_gets.
  destruct (Z.eqb_spec (bitmap s) 0) as [E|_].
  { exfalso. rewrite (ok_bitmap _ _ O), diskaddr_eq in E by (unfold NBLK; lia). lia. }
  rewrite (bind_val _ _ _ _ _ (block_is_free_ok s n b O ltac:(lia))). cbv beta.
  rewrite Hf, andb_false_r, bind_assert_true. unfold block_is_mapped, va_is_mapped. rewrite bind_gets.
  change (page_mapped s (diskaddr b)) with (cached s b). destruct (cached s b) eqn:Hc; cbn [negb].
  - exists s. split; [done|]. split; [done|]. split; [apply ext_refl|done].
  - destruct (load_block s n b O Hb Hc Hp) as (s' & E & O' & X & C). exists s'. split; [|done].
    apply bind_val_inv in E as (a1 & s1 & E1 & E2). rewrite (bind_val _ _ _ _ _ E1). cbv beta.
    by rewrite (bind_val _ _ _ _ _ E2).
Qed.

(** ** Dirty blocks *)
Lemma block_is_dirty_ok s b : block_is_dirty b s = Val (cached s b && dirty s b) s.
Proof.
  unfold block_is_dirty, va_is_mapped, va_is_dirty. rewrite bind_gets.
  change (page_mapped s (diskaddr b)) with (cached s b). by destruct (cached s b).
Qed.

Definition dirtied s b : fs_st D := set_upt (<[VPN (diskaddr b) := Z.lor (Z.lor PTE_D PTE_DIRTY) PTE_V]> (upt s)) s.

Lemma perm_dirtied s b a : perm_of (dirtied s b) a = if decide (VPN a = VPN (diskaddr b)) then 1538 else perm_of s a.
Proof.
  unfold perm_of, dirtied. cbn [upt set_upt]. rewrite lookup_insert. case_decide; case_decide; congruence || done.
Qed.

Lemma dirty_block_ok s n b : fs_ok s n -> 0 <= b < n -> exists s',
  dirty_block b s = Val (if cached s b then 0 else - E_NOT_FOUND) s' /\
  s' = (if cached s b && negb (dirty s b) then dirtied s b else s).
Proof.
  intros O Hb. pose proof (ok_range _ _ O). unfold dirty_block, va_is_mapped, va_is_dirty. rewrite bind_gets.
  change (page_mapped s (diskaddr b)) with (cached s b). destruct (cached s b) eqn:Hc; [|by exists s].
  cbn [negb]. rewrite bind_gets. change (hasbits (perm_of s (diskaddr b)) PTE_DIRTY) with (dirty s b).
  destruct (dirty s b); [by exists s|]. eexists. split; [|reflexivity].
  unfold syscall_mem_protect. rewrite legal_block0 by lia. rewrite bind_gets.
  change (page_mapped s (diskaddr b)) with (cached s b). rewrite Hc. by destruct s.
Qed.

Lemma dirtied_ok s n b : fs_ok s n -> 0 <= b < n -> cached s b = true -> fs_ok (dirtied s b) n /\
  (forall b', 0 <= b' < n -> cached (dirtied s b) b' = cached s b') /\
  (forall b', 0 <= b' < n -> dirty (dirtied s b) b' = (b' =? b) || dirty s b') /\
  (forall b' o, 0 <= b' < n -> view (dirtied s b) b' o = view s b' o).
Proof.
  intros O Hb Hc. pose proof (ok_range _ _ O).
  assert (HP : forall b', 0 <= b' < n -> perm_of (dirtied s b) (diskaddr b') = if b' =? b then 1538 else perm_of s (diskaddr b')).
  { intros b' Hb'. rewrite perm_dirtied, !vpn_block0 by lia. destruct (Z.eqb_spec b' b) as [->|]; [by rewrite decide_True|].
    by rewrite decide_False by lia. }
  assert (HC : forall b', 0 <= b' < n -> cached (dirtied s b) b' = cached s b').
  { intros b' Hb'. unfold cached at 1, page_mapped. rewrite HP by done. destruct (Z.eqb_spec b' b) as [->|]; [by rewrite Hc|done]. }
  split; [|split; [done|split]].
  - apply (fs_ok_transfer s); try done.
    + apply (ok_bytes _ _ O).
    + intros b' Hb'. pose proof (ok_reserved _ _ O). rewrite HC by lia. by apply (ok_cached _ _ O).
    + intros b' Hb' Hc'. rewrite HP by done. destruct (Z.eqb_spec b' b); [done|]. apply (ok_perm _ _ O); [done|]. by rewrite <- HC.
  - intros b' Hb'. unfold dirty at 1. rewrite HP by done. by destruct (Z.eqb_spec b' b).
  - intros b' o Hb'. unfold view. by rewrite HC.
Qed.

(** ** Stores to a cached block *)
Definition stored s b o v : fs_st D := set_um (wr32 (um s) (diskaddr b + o) v) s.

Lemma st32_block s n b o v : fs_ok s n -> 0 <= b < n -> cached s b = true -> 0 <= o < 4096 -> o mod 4 = 0 ->
  st32 (diskaddr b + o) v s = Val tt (stored s b o v).
Proof.
  intros O Hb Hc Ho Hm. pose proof (ok_range _ _ O). apply st32_rw; [by apply (rw_block s n)|apply diskaddr_mod4; [lia|done]].
Qed.

Lemma ld32_block s n b o : fs_ok s n -> 0 <= b < n -> cached s b = true -> 0 <= o < 4096 -> o mod 4 = 0 ->
  ld32 (diskaddr b + o) s = Val (vword s b o) s.
Proof.
  intros O Hb Hc Ho Hm. pose proof (ok_range _ _ O). rewrite ld32_rw; [by rewrite rd32_view|by apply (rw_block s n)|].
  apply diskaddr_mod4; [lia|done].
Qed.

Lemma ld8_block s n b o : fs_ok s n -> 0 <= b < n -> cached s b = true -> 0 <= o < 4096 ->
  ld8 (diskaddr b + o) s = Val (view s b o) s.
Proof.
  intros O Hb Hc Ho. rewrite ld8_rw by (by apply (rw_block s n)). unfold view. by rewrite Hc.
Qed.

Lemma rd8_stored s n b o v b' o' : n <= NBLK -> 0 <= b < n -> 0 <= b' < n -> 0 <= o -> o + 4 <= 4096 -> 0 <= o' < 4096 ->
  rd8 (um (stored s b o v)) (diskaddr b' + o') =
  if decide (b' = b /\ o <= o' < o + 4) then u8 (Z.shiftr v (8 * (o' - o))) else rd8 (um s) (diskaddr b' + o').
Proof.
  intros Hn Hb Hb' Ho Ho2 Ho'. unfold stored. cbn [um set_um]. rewrite rd_wr32, !diskaddr_eq by lia.
  destruct (decide (b' = b /\ o <= o' < o + 4)) as [[-> Hin]|Hout].
  - rewrite decide_True by lia. f_equal. f_equal. lia.
  - rewrite decide_False by nia. done.
Qed.

Lemma view_stored s n b o v b' o' : n <= NBLK -> 0 <= b < n -> cached s b = true -> 0 <= b' < n -> 0 <= o -> o + 4 <= 4096 -> 0 <= o' < 4096 ->
  ~ (b' = b /\ o <= o' < o + 4) -> view (stored s b o v) b' o' = view s b' o'.
Proof.
  intros Hn Hb Hc Hb' Ho Ho2 Ho' Hne. unfold view. change (cached (stored s b o v) b') with (cached s b').
  destruct (cached s b'); [|done]. rewrite (rd8_stored s n) by done. by rewrite decide_False.
Qed.

Lemma vword_stored_eq s n b o v : 0 <= b < n -> cached s b = true -> is_u32 v -> vword (stored s b o v) b o = v.
Proof. intros Hb Hc Hv. rewrite <- rd32_view by done. by apply rd32_wr32_eq. Qed.

Lemma vword_stored_ne s n b o v b' o' : n <= NBLK -> 0 <= b < n -> cached s b = true -> 0 <= b' < n -> 0 <= o -> o + 4 <= 4096 ->
  0 <= o' -> o' + 4 <= 4096 -> (b' <> b \/ o' + 4 <= o \/ o + 4 <= o') -> vword (stored s b o v) b' o' = vword s b' o'.
Proof. intros Hn Hb Hc Hb' Ho Ho2 Ho' Ho2' Hne. apply vword_ext. intros i Hi. apply (view_stored s n); try done; lia. Qed.

(** The bytes a store leaves. *)
Definition except b o (b' o' : Z) : Prop := ~ (b' = b /\ o <= o' < o + 4).

Lemma stored_ext s n b o v : n <= NBLK -> 0 <= b < n -> cached s b = true -> 0 <= o -> o + 4 <= 4096 ->
  extp (except b o) n s (stored s b o v).
Proof. intros Hn Hb Hc Ho Ho2. split; try done. intros b' o' Hb' Ho' Hne. by apply (view_stored s n). Qed.

(** A store outside the fixed part of the super block and the bitmap. *)
Lemma fs_ok_stored s n b o v : fs_ok s n -> 0 <= b < n -> 0 <= o -> o + 4 <= 4096 ->
  (b = 1 /\ 8 <= o \/ 2 + nbitmap n <= b) -> fs_ok (stored s b o v) n.
Proof.
  intros O Hb Ho Ho2 Hwhere. pose proof (ok_range _ _ O). pose proof (ok_reserved _ _ O). destruct O.
  split; try done.
  - rewrite <- ok_nblocks0. apply rd32_ext. intros i Hi. rewrite <- Z.add_assoc.
    rewrite (rd8_stored s n) by lia. by rewrite decide_False by lia.
  - intros c Hc. rewrite <- (ok_used0 c Hc). unfold free. f_equal.
    destruct (bitmap_word_block n c ltac:(lia) ltac:(lia)) as (k & j & Hk & Hj & Hj' & _ & _ & ->).
    apply rd32_ext. intros i Hi. rewrite <- Z.add_assoc. rewrite (rd8_stored s n) by lia. by rewrite decide_False by lia.
  - by apply wr32_bytes_ok.
Qed.

(** ** The bitmap *)
Definition set_word s b w : fs_st D := set_um (wr32 (um s) (bitmap_word (diskaddr 2) b) w) s.

(** Blocks that are not part of the bitmap. *)
Definition data n (b o : Z) : Prop := b < 2 \/ 2 + nbitmap n <= b.

Lemma bitmap_word_same b c : 0 <= b -> 0 <= c -> b / 32 = c / 32 ->
  bitmap_word (diskaddr 2) b = bitmap_word (diskaddr 2) c.
Proof. intros _ _ E. unfold bitmap_word. by rewrite E. Qed.

Lemma set_word_ok s n b w (upd : bool -> bool) : fs_ok s n -> 2 + nbitmap n <= b < n -> is_u32 w ->
  (forall k, 0 <= k < 32 -> Z.testbit w k =
    if k =? b mod 32 then upd (free s b) else Z.testbit (rd32 (um s) (bitmap_word (diskaddr 2) b)) k) ->
  fs_ok (set_word s b w) n /\ (forall c, 0 <= c < n -> free (set_word s b w) c = if c =? b then upd (free s b) else free s c) /\
  extp (data n) n s (set_word s b w).
Proof.
  intros O Hb Hw Hbits. pose proof (ok_range _ _ O) as Hr. pose proof (ok_reserved _ _ O).
  destruct (bitmap_word_block n b ltac:(lia) ltac:(lia)) as (k & o & Hk & Ho & Ho2 & Hm & Hkb & E).
  assert (Ew : set_word s b w = stored s k o w) by (unfold set_word, stored; by rewrite E).
  assert (HF : forall c, 0 <= c < n -> free (set_word s b w) c = if c =? b then upd (free s b) else free s c).
  { intros c Hc. unfold free at 1. rewrite hasbits_bit. unfold set_word. cbn [um set_um].
    destruct (Z.eq_dec (c / 32) (b / 32)) as [Eq|Ne].
    - rewrite (bitmap_word_same c b) by lia. rewrite rd32_wr32_eq by done.
      rewrite Hbits by (apply Z.mod_pos_bound; lia).
      destruct (Z.eqb_spec (c mod 32) (b mod 32)), (Z.eqb_spec c b) as [->|]; try done; [dlia|].
      unfold free. rewrite hasbits_bit. by rewrite (bitmap_word_same c b) by lia.
    - destruct (Z.eqb_spec c b) as [->|]; [done|]. unfold free. rewrite hasbits_bit. f_equal.
      apply rd32_wr32_ne. unfold bitmap_word. lia. }
  split; [|split; [done|]].
  - destruct O. split; try done.
    + rewrite Ew, <- ok_nblocks0. apply rd32_ext. intros i Hi. rewrite <- Z.add_assoc.
      rewrite (rd8_stored s n) by lia. by rewrite decide_False by lia.
    + intros c Hc. rewrite HF by lia. destruct (Z.eqb_spec c b); [lia|]. by apply ok_used0.
    + by apply wr32_bytes_ok.
  - rewrite Ew. apply (ext_mono (except k o)).
    + intros b' o' _ _ Hd [-> _]. unfold data in Hd. lia.
    + apply stored_ext; try lia. apply (ok_cached _ _ O). lia.
Qed.

(** free_block *)
Lemma free_block_ok s n b : fs_ok s n -> 2 + nbitmap n <= b < n -> exists s',
  free_block b s = Val tt s' /\ fs_ok s' n /\ extp (data n) n s s' /\ dsk s' = dsk s /\ upt s' = upt s /\
  (forall c, 0 <= c < n -> free s' c = (c =? b) || free s c).
Proof.
  intros O Hb. pose proof (ok_range _ _ O). unfold free_block. destruct (Z.eqb_spec b 0); [lia|]. rewrite bind_gets.
  rewrite (bind_val _ _ _ _ _ (ld_nblocks s n O)). cbv beta. destruct (Z.leb_spec n b); [lia|]. rewrite bind_gets.
  rewrite (bind_val _ _ _ _ _ (ld_bitmap s n b O ltac:(lia))). cbv beta. rewrite (ok_bitmap _ _ O).
  destruct (rw_bitmap s n b O ltac:(lia)) as [R1 R2]. rewrite st32_rw by done.
  set (w := rd32 (um s) (bitmap_word (diskaddr 2) b)).
  assert (Hw : is_u32 w) by apply rd32_range, (ok_bytes _ _ O).
  destruct (set_word_ok s n b (Z.lor w (bit_of b)) (fun _ => true) O Hb) as (O' & HF & X).
  { apply lor_u32; [done|apply bit_of_u32]. }
  { intros k Hk. rewrite testbit_set by done. by destruct (k =? b mod 32); rewrite ?orb_true_r, ?orb_false_r. }
  eexists. split; [reflexivity|]. split; [exact O'|]. split; [exact X|]. split; [done|]. split; [done|].
  intros c Hc. etransitivity; [exact (HF c Hc)|]. by destruct (c =? b).
Qed.

Lemma free_block_invalid s n b : fs_ok s n -> (b = 0 \/ n <= b) -> free_block b s = Val tt s.
Proof.
  intros O Hb. pose proof (ok_range _ _ O). unfold free_block. destruct (Z.eqb_spec b 0); [done|]. rewrite bind_gets.
  rewrite (bind_val _ _ _ _ _ (ld_nblocks s n O)). cbv beta. by destruct (Z.leb_spec n b); [|lia].
Qed.

(** ** Allocation *)
Lemma find_zseq (p : Z -> bool) m : forall a, match List.find p (zseq a m) with
  | Some b => a <= b < a + Z.of_nat m /\ p b = true /\ forall c, a <= c < b -> p c = false
  | None => forall c, a <= c < a + Z.of_nat m -> p c = false end.
Proof.
  induction m as [|m IH]; intros a; [intros c Hc; lia|]. rewrite zseq_S. cbn [List.find].
  destruct (p a) eqn:E; [split; [lia|]; split; [done|]; intros c Hc; lia|].
  specialize (IH (a + 1)). destruct (List.find p (zseq (a + 1) m)) as [b|].
  - destruct IH as (Hb & Hp & Hl). split; [lia|]. split; [done|]. intros c Hc.
    destruct (Z.eq_dec c a) as [->|]; [done|]. apply Hl. lia.
  - intros c Hc. destruct (Z.eq_dec c a) as [->|]; [done|]. apply IH. lia.
Qed.

Lemma for_first_find {S X A} (p : X -> bool) (body : X -> M S (option A)) (l : list X) (t : S) :
  (forall x, x ∈ l -> p x = false -> body x t = Val None t) ->
  (forall x, x ∈ l -> p x = true -> exists a t', body x t = Val (Some a) t') ->
  for_first l body t = match List.find p l with Some x => body x t | None => Val None t end.
Proof.
  induction l as [|x l IH]; intros Hf Ht; [done|]. cbn [for_first List.find]. destruct (p x) eqn:E.
  - destruct (Ht x ltac:(left) E) as (a & t' & Ea). rewrite (bind_val _ _ _ _ _ Ea). cbv beta iota. by rewrite Ea.
  - rewrite (bind_val _ _ _ _ _ (Hf x ltac:(left) E)). cbv beta iota. apply IH.
    + intros y Hy. apply Hf. by right.
    + intros y Hy. apply Ht. by right.
Qed.

(** The block of the bitmap that holds bit [b] is written to the disk. *)
Definition bitmap_block (b : Z) : Z := b / BIT2BLK + 2.

Record allocated s s' n b : Prop := {
  al_range : 2 + nbitmap n <= b < n;
  al_free : free s b = true;
  al_least : forall c, 0 <= c < b -> free s c = false;
  al_ok : fs_ok s' n;
  al_bits : forall c, 0 <= c < n -> free s' c = free s c && negb (c =? b);
  al_upt : upt s' = upt s;
  al_answers : answers s' = answers s;
  al_ext : extp (data n) n s s';
  al_disk : forall o, image (dsk s') 0 o =
    if decide (bitmap_block b * 4096 <= o < (bitmap_block b + 1) * 4096)
    then view s' (bitmap_block b) (o - bitmap_block b * 4096) else image (dsk s) 0 o }.

Lemma alloc_here s n b : fs_ok s n -> 2 + nbitmap n <= b < n -> free s b = true -> exists s',
  (st32 (bitmap_word (diskaddr 2) b) (Z.land (rd32 (um s) (bitmap_word (diskaddr 2) b)) (u32 (Z.lnot (bit_of b)))) ;;
   write_block (b / BIT2BLK + 2)) s = Val tt s' /\ fs_ok s' n /\
  (forall c, 0 <= c < n -> free s' c = free s c && negb (c =? b)) /\ upt s' = upt s /\ answers s' = answers s /\
  extp (data n) n s s' /\
  (forall o, image (dsk s') 0 o = if decide (bitmap_block b * 4096 <= o < (bitmap_block b + 1) * 4096)
    then view s' (bitmap_block b) (o - bitmap_block b * 4096) else image (dsk s) 0 o).
Proof.
  intros O Hb Hf. pose proof (ok_range _ _ O). pose proof (ok_reserved _ _ O).
  destruct (rw_bitmap s n b O ltac:(lia)) as [R1 R2]. rewrite (bind_val _ _ _ _ _ (st32_rw _ _ _ R1 R2)).
  set (w := rd32 (um s) (bitmap_word (diskaddr 2) b)).
  assert (Hw : is_u32 w) by apply rd32_range, (ok_bytes _ _ O).
  destruct (set_word_ok s n b (Z.land w (u32 (Z.lnot (bit_of b)))) (fun _ => false) O Hb) as (O1 & HF & X1).
  { apply land_u32; [done|apply u32_range]. }
  { intros k Hk. rewrite testbit_clear_bit by done. by destruct (k =? b mod 32); rewrite ?andb_false_r, ?andb_true_r. }
  destruct (bitmap_word_block n b ltac:(lia) ltac:(lia)) as (k & o & Hk & _ & _ & _ & Ek & _).
  set (s1 := set_word s b (Z.land w (u32 (Z.lnot (bit_of b))))) in *.
  assert (C1 : cached s1 k = true) by (apply (ok_cached _ _ O1); lia).
  destruct (write_block_ok s1 n k O1 ltac:(lia) C1) as (d' & E & W). rewrite <- Ek.
  destruct (write_block_ext s1 n k d' O1 ltac:(lia) C1 W) as [O2 X2].
  exists (set_dsk d' s1). split; [exact E|]. split; [exact O2|]. split; [|split; [done|split; [done|split]]].
  - intros c Hc. change (free (set_dsk d' s1) c) with (free s1 c). rewrite HF by done.
    destruct (c =? b); by rewrite ?andb_false_r, ?andb_true_r.
  - apply (ext_trans _ _ _ s1); [done|]. by apply (ext_mono everywhere).
  - intros i. destruct W as [_ W]. cbn [dsk set_dsk]. rewrite W. unfold bitmap_block. rewrite <- Ek.
    destruct (decide (k * 4096 <= i < (k + 1) * 4096)) as [Hi|Hi].
    + rewrite decide_True by done. unfold view. change (cached (set_dsk d' s1) k) with (cached s1 k). by rewrite C1.
    + rewrite decide_False by tauto. done.
Qed.

Lemma alloc_block_num_ok s n : fs_ok s n ->
  (exists b s', alloc_block_num s = Val (Ok b) s' /\ allocated s s' n b) \/
  (alloc_block_num s = Val (Err (- E_NO_DISK)) s /\ forall c, 0 <= c < n -> free s c = false).
Proof.
  intros O. pose proof (ok_range _ _ O). unfold alloc_block_num. rewrite bind_gets.
  rewrite (bind_val _ _ _ _ _ (ld_nblocks s n O)). cbv beta.
  match goal with |- context [for_first _ ?f] => set (body := f) end.
  assert (Hbody : forall b, 3 <= b < n -> body b s = if free s b then
    (st32 (bitmap_word (diskaddr 2) b) (Z.land (rd32 (um s) (bitmap_word (diskaddr 2) b)) (u32 (Z.lnot (bit_of b)))) ;;
     write_block (b / BIT2BLK + 2) ;; mret (Some b)) s else Val None s).
  { intros b Hb. unfold body. rewrite bind_gets. rewrite (bind_val _ _ _ _ _ (ld_bitmap s n b O ltac:(lia))). cbv beta.
    rewrite (ok_bitmap _ _ O). unfold free. by destruct (hasbits _ (bit_of b)). }
  assert (Hnr : forall b, 0 <= b < n -> free s b = true -> 2 + nbitmap n <= b).
  { intros b Hb Hf. destruct (Z_lt_dec b (2 + nbitmap n)); [|lia]. by rewrite (ok_used _ _ O) in Hf by lia. }
  assert (Hsome : forall b, 3 <= b < n -> free s b = true -> exists s', body b s = Val (Some b) s' /\
    (( forall c, 0 <= c < b -> free s c = false) -> allocated s s' n b)).
  { intros b Hb Hf. destruct (alloc_here s n b O ltac:(split; [apply Hnr; [lia|done]|lia]) Hf) as (s' & E & O' & F' & U & A & X & I).
    exists s'. rewrite Hbody, Hf by done. split.
    - apply bind_val_inv in E as (u1 & s1 & E1 & E2). rewrite (bind_val _ _ _ _ _ E1). cbv beta.
      by rewrite (bind_val _ _ _ _ _ E2).
    - intros Hl. split; try done. split; [apply Hnr; [lia|done]|lia]. }
  assert (EF : for_first (zseq 3 (Z.to_nat (n - 3))) body s = match List.find (free s) (zseq 3 (Z.to_nat (n - 3))) with
    | Some x => body x s | None => Val None s end).
  { apply for_first_find; intros b Hb%elem_of_zseq Hf.
    - by rewrite Hbody, Hf by lia.
    - destruct (Hsome b ltac:(lia) Hf) as (s' & E & _). by exists b, s'. }
  pose proof (find_zseq (free s) (Z.to_nat (n - 3)) 3) as Hfind.
  destruct (List.find (free s) (zseq 3 (Z.to_nat (n - 3)))) as [b|].
  - left. destruct Hfind as (Hb & Hf & Hl). destruct (Hsome b ltac:(lia) Hf) as (s' & E & A). exists b, s'.
    rewrite E in EF. rewrite (bind_val _ _ _ _ _ EF). split; [done|]. apply A. intros c Hc.
    destruct (free s c) eqn:Hfc; [|done]. pose proof (Hnr c ltac:(lia) Hfc). by rewrite Hl in Hfc by lia.
  - right. rewrite (bind_val _ _ _ _ _ EF). split; [done|]. intros c Hc.
    destruct (free s c) eqn:Hfc; [|done]. pose proof (Hnr c Hc Hfc). by rewrite Hfind in Hfc by lia.
Qed.

(** [alloc_block]: the block is cached; a block that was cached before keeps its old content. *)
Record alloc_post s s' n b : Prop := {
  ap_range : 2 + nbitmap n <= b < n;
  ap_free : free s b = true;
  ap_least : forall c, 0 <= c < b -> free s c = false;
  ap_ok : fs_ok s' n;
  ap_bits : forall c, 0 <= c < n -> free s' c = free s c && negb (c =? b);
  ap_cached : cached s' b = true;
  ap_ext : extp (fun c o => data n c o /\ c <> b) n s s';
  ap_content : forall o, 0 <= o < 4096 -> view s' b o = if cached s b then view s b o else 0 }.

Lemma alloc_block_ok s n : fs_ok s n -> plenty s ->
  (exists b s', alloc_block s = Val (Ok b) s' /\ alloc_post s s' n b) \/
  (alloc_block s = Val (Err (- E_NO_DISK)) s /\ forall c, 0 <= c < n -> free s c = false).
Proof.
  intros O Hp. pose proof (ok_range _ _ O). pose proof (ok_reserved _ _ O). unfold alloc_block, bindr.
  destruct (alloc_block_num_ok s n O) as [(b & s1 & E1 & A)|[E1 Hno]]; [left|right; by rewrite (bind_val _ _ _ _ _ E1)].
  rewrite (bind_val _ _ _ _ _ E1). cbv beta iota. destruct A. exists b. unfold map_block, block_is_mapped, va_is_mapped.
  rewrite bind_bind, bind_gets. change (page_mapped s1 (diskaddr b)) with (cached s1 b).
  assert (Ec : forall c, cached s1 c = cached s c) by (intros c; unfold cached, page_mapped, perm_of; by rewrite al_upt0).
  rewrite Ec. destruct (cached s b) eqn:Hc.
  - exists s1. split; [done|]. split; try done; [by rewrite Ec| |].
    + by apply (ext_mono (data n)); [intros c o _ _ [Hd _]|].
    + intros o Ho. rewrite Hc. apply (ext_view _ _ _ _ al_ext0); [lia|done|right; lia].
  - assert (Hp1 : plenty s1) by (unfold plenty; by rewrite al_answers0).
    destruct (mem_alloc_block s1 b ltac:(pose proof (ok_range _ _ O); lia) Hp1) as (l & Hl & E2). rewrite (bind_val _ _ _ _ _ E2). cbv beta.
    exists (fresh s1 l b). split; [done|].
    assert (Hcs : forall c, 0 <= c < n -> cached (fresh s1 l b) c = (c =? b) || cached s1 c)
      by (intros c Hcr; apply cached_fresh; unfold NBLK in *; lia).
    assert (HP : forall c, 0 <= c < n -> c <> b -> perm_of (fresh s1 l b) (diskaddr c) = perm_of s1 (diskaddr c)).
    { intros c Hcr Hne. apply perm_fresh_ne; [lia|]. rewrite vpn_block0 by lia. lia. }
    assert (HMem : forall c o, 0 <= c < n -> c <> b -> 0 <= o < 4096 ->
      rd8 (um (fresh s1 l b)) (diskaddr c + o) = rd8 (um s1) (diskaddr c + o)).
    { intros c o Hcr Hne Ho. rewrite rd8_fresh by (unfold NBLK in *; lia). by destruct (Z.eqb_spec c b). }
    assert (O2 : fs_ok (fresh s1 l b) n).
    { apply (fs_ok_transfer s1); try done.
      - intros a. unfold fresh. cbn [um set_upt set_um]. rewrite rd8_clear. case_decide; [lia|]. apply (ok_bytes _ _ al_ok0).
      - intros c Hcr. rewrite Hcs by lia. by rewrite (ok_cached _ _ al_ok0), orb_true_r by done.
      - intros c Hcr Hcc. destruct (Z.eq_dec c b) as [->|Hne].
        + by rewrite (perm_fresh s1 l b) by (try apply vpn_block0; lia).
        + rewrite HP by done. apply (ok_perm _ _ al_ok0 c Hcr). rewrite Hcs in Hcc by done. by destruct (Z.eqb_spec c b).
      - intros c a Hcr Ha. replace a with (diskaddr c + (a - diskaddr c)) by lia. apply HMem; lia. }
    assert (V2 : forall c o, 0 <= c < n -> c <> b -> 0 <= o < 4096 -> view (fresh s1 l b) c o = view s1 c o).
    { intros c o Hcr Hne Ho. unfold view. rewrite Hcs by done. destruct (Z.eqb_spec c b); [done|]. cbn [orb].
      destruct (cached s1 c); [by apply HMem|done]. }
    split; try done.
    + intros c Hcr. rewrite <- al_bits0 by done. apply (free_view s1 _ n); try done. intros k o Hk Ho. apply V2; lia.
    + rewrite Hcs by lia. by rewrite Z.eqb_refl.
    + apply (ext_trans _ _ _ s1); [by apply (ext_mono (data n)); [intros c o _ _ [Hd _]|]|]. split.
      * intros c o Hcr Ho [_ Hne]. by apply V2.
      * intros c Hcr Hcc. rewrite Hcs by done. by rewrite Hcc, orb_true_r.
      * intros c Hcr Hcc. apply HP; [done|]. intros ->. rewrite Ec, Hc in Hcc. done.
      * by intros _.
    + intros o Ho. unfold view. rewrite Hcs, Z.eqb_refl by lia. cbn [orb]. rewrite rd8_fresh by lia. by rewrite Hc, Z.eqb_refl.
Qed.
End Cache.

Abbreviation ext := (extp everywhere).
