(* ===== verification/FsBlockThms.v ===== *)
(** * Theorems on blocks: allocation, write-back, the cache (fs/fs.c, fs/ide.c)

    With a small file system for the witnesses, [demo]: eight blocks, of which block 3 has the
    entries of the root directory (the file [a] and the empty directory [d]), is cached and
    dirty; 4 to 7 are free. *)

From Stdlib Require Import ZArith Lia.
From stdpp Require Import base numbers list gmap strings.
From S2P Require Import Prelude Mmu KState Elf Signo Env TlbEx Syscall Str StrThms Wp Ide Fs Gx FsMem FsCache.

Definition demo_mem : bmem :=
  foldr (fun '(a, v) m => wr32 m a v) ∅
    [(diskaddr 1 + 4, 8); (diskaddr 2, 240);
     (f_size (diskaddr 1 + 8), 4096); (f_type (diskaddr 1 + 8), 1); (f_direct (diskaddr 1 + 8) 0, 3);
     (f_name (diskaddr 3), 97); (f_name (diskaddr 3 + 256), 100); (f_type (diskaddr 3 + 256), 1)].

Definition demo_pages : gmap Z Z := list_to_map [(65537, 1536); (65538, 1536); (65539, 1538)].

Definition demo : fs_st gx :=
  mkFs demo_mem demo_pages [] (mkGx 0 0 [] 0 (fun _ => ∅) 32768) (diskaddr 1) (diskaddr 2).

Lemma demo_cached b : 0 <= b < 8 -> cached demo b = (1 <=? b) && (b <=? 3).
Proof.
  intros H. assert (b = 0 \/ b = 1 \/ b = 2 \/ b = 3 \/ b = 4 \/ b = 5 \/ b = 6 \/ b = 7) as HH by lia.
  destruct HH as [-> | [-> | [-> | [-> | [-> | [-> | [-> | ->]]]]]]]; by vm_compute.
Qed.

Lemma demo_free b : 0 <= b < 8 -> free demo b = (4 <=? b).
Proof.
  intros H. assert (b = 0 \/ b = 1 \/ b = 2 \/ b = 3 \/ b = 4 \/ b = 5 \/ b = 6 \/ b = 7) as HH by lia.
  destruct HH as [-> | [-> | [-> | [-> | [-> | [-> | [-> | ->]]]]]]]; by vm_compute.
Qed.

Lemma empty_bytes_ok : bytes_ok ∅.
Proof. intros a. unfold rd8. rewrite lookup_empty. cbn. lia. Qed.

Lemma demo_ok : fs_ok demo 8.
Proof.
  assert (En : nbitmap 8 = 1) by reflexivity.
  split; rewrite ?En; try done.
  - intros b Hb. rewrite demo_cached by lia. apply andb_true_iff. split; apply Z.leb_le; lia.
  - intros b Hb. rewrite demo_free by lia. apply Z.leb_gt. lia.
  - unfold demo, demo_mem. cbn [um foldr]. repeat apply wr32_bytes_ok. apply empty_bytes_ok.
  - intros b Hb Hc. rewrite demo_cached in Hc by lia. apply andb_true_iff in Hc as [H1%Z.leb_le H2%Z.leb_le].
    assert (b = 1 \/ b = 2 \/ b = 3) as [-> | [-> | ->]] by lia; by vm_compute.
Qed.

Lemma demo_plenty : plenty demo.
Proof. constructor. Qed.

Section Blocks.
Context {D : Type} {HD : DiskDev D}.
Implicit Types (s : fs_st D).

(** ** unmap_block *)
Lemma block_is_mapped_ok s b : block_is_mapped b s = Val (cached s b) s.
Proof. done. Qed.

Definition unmapped s b : fs_st D := set_upt (delete (VPN (diskaddr b)) (upt s)) s.

Lemma cached_unmapped s b b' : 0 <= b < NBLK -> 0 <= b' < NBLK -> cached (unmapped s b) b' = negb (b' =? b) && cached s b'.
Proof.
  intros Hb Hb'. unfold cached, page_mapped, perm_of, unmapped. cbn [upt set_upt]. rewrite !vpn_block0 by done.
  destruct (Z.eqb_spec b' b) as [->|].
  - by rewrite lookup_delete_eq.
  - by rewrite lookup_delete_ne by lia.
Qed.

Lemma perm_unmapped_ne s b b' : 0 <= b < NBLK -> 0 <= b' < NBLK -> b' <> b ->
  perm_of (unmapped s b) (diskaddr b') = perm_of s (diskaddr b').
Proof.
  intros Hb Hb' Hn. unfold perm_of, unmapped. cbn [upt set_upt]. rewrite !vpn_block0 by done.
  by rewrite lookup_delete_ne by lia.
Qed.

Lemma fs_ok_unmapped s n b : fs_ok s n -> 2 + nbitmap n <= b < n -> fs_ok (unmapped s b) n.
Proof.
  intros O Hb. pose proof (ok_range _ _ O). apply (fs_ok_transfer s); try done.
  - apply (ok_bytes _ _ O).
  - intros c Hc. rewrite cached_unmapped by lia. rewrite (ok_cached _ _ O) by done. by destruct (Z.eqb_spec c b); [lia|].
  - intros c Hc. rewrite cached_unmapped by lia. destruct (Z.eqb_spec c b) as [->|]; [done|]. cbn [negb andb].
    rewrite perm_unmapped_ne by lia. by apply (ok_perm _ _ O).
Qed.

(** Dropping a block from the cache: it is written first exactly when it is in use and dirty. *)
Lemma unmap_block_ok s n b : fs_ok s n -> 2 + nbitmap n <= b < n -> cached s b = true -> exists d',
  unmap_block b s = Val tt (unmapped (set_dsk d' s) b) /\
  (if negb (free s b) && dirty s b then written s b d' else d' = dsk s).
Proof.
  intros O Hb Hc. pose proof (ok_range _ _ O). unfold unmap_block.
  rewrite (bind_val _ _ _ _ _ (block_is_mapped_ok s b)). cbv beta. rewrite Hc.
  rewrite (bind_val _ _ _ _ _ (block_is_free_ok s n b O ltac:(lia))). cbv beta.
  destruct (Z.ltb_spec b n); [|lia]. cbn [andb].
  assert (Hlast : forall d', (syscall_mem_unmap (diskaddr b) ;; m ← block_is_mapped b; assert "!block_is_mapped(blockno)" (negb m))
    (set_dsk d' s) = Val tt (unmapped (set_dsk d' s) b)).
  { intros d'. unfold syscall_mem_unmap. rewrite legal_block0 by lia. rewrite bind_bind, bind_modify, bind_ret.
    rewrite (bind_val _ _ _ _ _ (block_is_mapped_ok (unmapped (set_dsk d' s) b) b)). cbv beta.
    rewrite cached_unmapped by lia. by rewrite Z.eqb_refl. }
  destruct (free s b) eqn:Hf; cbn [negb].
  - exists (dsk s). split; [|done]. rewrite bind_ret. cbn [andb when]. rewrite bind_ret.
    replace s with (set_dsk (dsk s) s) at 1 by by destruct s. apply Hlast.
  - rewrite (bind_val _ _ _ _ _ (block_is_dirty_ok s b)). cbv beta. rewrite Hc. cbn [andb].
    destruct (dirty s b) eqn:Hd; cbn [when].
    + destruct (write_block_ok s n b O ltac:(lia) Hc) as (d' & E & W). exists d'. split; [|done].
      rewrite (bind_val _ _ _ _ _ E). apply Hlast.
    + exists (dsk s). split; [|done]. rewrite bind_ret.
      replace s with (set_dsk (dsk s) s) at 1 by by destruct s. apply Hlast.
Qed.

(** ** fs_sync *)
Record synced s n k s' : Prop := {
  sy_ok : fs_ok s' n;
  sy_um : um s' = um s;
  sy_upt : upt s' = upt s;
  sy_image : forall b o, 0 <= b < n -> 0 <= o < 4096 -> image (dsk s') 0 (b * 4096 + o) =
    if (b <? k) && cached s b && dirty s b then view s b o else image (dsk s) 0 (b * 4096 + o) }.

Lemma sync_step s n k s' : 0 <= k < n -> synced s n k s' -> exists s2,
  (d ← block_is_dirty k; when d (write_block k)) s' = Val tt s2 /\ synced s n (k + 1) s2.
Proof.
  intros Hk [O U P I]. rewrite (bind_val _ _ _ _ _ (block_is_dirty_ok s' k)). cbv beta.
  assert (Ec : forall b, cached s' b = cached s b) by (intros b; unfold cached, page_mapped, perm_of; by rewrite P).
  assert (Ed : forall b, dirty s' b = dirty s b) by (intros b; unfold dirty, perm_of; by rewrite P).
  rewrite Ec, Ed. destruct (cached s k && dirty s k) eqn:E; cbn [when].
  - apply andb_true_iff in E as [Hc Hd]. destruct (write_block_ok s' n k O Hk ltac:(by rewrite Ec)) as (d' & E & W).
    exists (set_dsk d' s'). split; [done|]. destruct W as [Wc Wi]. split; try done.
    + by apply fs_ok_set_dsk.
    + intros b o Hb Ho. cbn [dsk set_dsk]. rewrite Wi. destruct (Z.eq_dec b k) as [->|Hn].
      * rewrite decide_True by lia. rewrite Hc, Hd. destruct (Z.ltb_spec k (k + 1)); [|lia]. cbn [andb].
        unfold view. rewrite Hc, U. f_equal. lia.
      * rewrite decide_False by nia. rewrite I by done. destruct (Z.ltb_spec b k), (Z.ltb_spec b (k + 1)); try lia; done.
  - exists s'. split; [done|]. split; try done. intros b o Hb Ho. rewrite I by done.
    destruct (Z.ltb_spec b k), (Z.ltb_spec b (k + 1)); try lia; try done. assert (b = k) as -> by lia.
    cbn [andb]. by rewrite E.
Qed.

Lemma fs_sync_ok s n : fs_ok s n -> exists s', fs_sync s = Val tt s' /\ synced s n n s'.
Proof.
  intros O. pose proof (ok_range _ _ O). unfold fs_sync. rewrite bind_gets. rewrite (bind_val _ _ _ _ _ (ld_nblocks s n O)). cbv beta.
  assert (G : forall m k s1, k + Z.of_nat m = n -> 0 <= k -> synced s n k s1 -> exists s',
    for_each (zseq k m) (fun i => d ← block_is_dirty i; when d (write_block i)) s1 = Val tt s' /\ synced s n n s').
  { induction m as [|m IH]; intros k s1 Hkm Hk Y.
    - exists s1. replace k with n in Y by lia. done.
    - rewrite zseq_S. cbn [for_each]. destruct (sync_step s n k s1 ltac:(lia) Y) as (s2 & E & Y2).
      rewrite (bind_val _ _ _ _ _ E). cbv beta. apply IH; [lia|lia|done]. }
  apply (G _ 0); [lia|lia|]. split; try done. intros b o Hb Ho. by destruct (Z.ltb_spec b 0); [lia|].
Qed.

(** ** Properties *)

(** C14: [alloc_block] takes the least free block, marks exactly that block used, leaves every
    byte of every other data block alone, and fails with [-E_NO_DISK], changing nothing,
    exactly when no block is free. A block that was not cached comes back as zeros; one that was
    still cached from an earlier use comes back with its old content. *)
Theorem alloc_block_correct s n : fs_ok s n -> plenty s ->
  (exists b s', alloc_block s = Val (Ok b) s' /\ fs_ok s' n /\ 0 <= b < n /\
    free s b = true /\ (forall c, 0 <= c < b -> free s c = false) /\
    (forall c, 0 <= c < n -> free s' c = free s c && negb (c =? b)) /\
    (forall c o, 2 + nbitmap n <= c < n -> c <> b -> 0 <= o < 4096 -> view s' c o = view s c o) /\
    (forall o, 0 <= o < 4096 -> view s' b o = if cached s b then view s b o else 0)) \/
  (alloc_block s = Val (Err (- E_NO_DISK)) s /\ forall c, 0 <= c < n -> free s c = false).
Proof.
  intros O Hp. pose proof (ok_range _ _ O). destruct (alloc_block_ok s n O Hp) as [(b & s' & E & A)|H']; [left|by right].
  exists b, s'. destruct A. split_and!; try done; try lia.
  intros c o Hc Hne Ho. apply (ext_view _ _ _ _ ap_ext); [lia|done|]. split; [right; lia|done].
Qed.

(** C15: A block that is dropped from the cache and read again: if it is in use and was marked
    dirty, every byte is as before; if it was not marked dirty, the changes made to the cached
    page are lost and the block is what the disk holds. *)
Theorem block_round_trip s n b : fs_ok s n -> plenty s -> 2 + nbitmap n <= b < n -> cached s b = true -> free s b = false ->
  exists s', (unmap_block b ;; read_block b) s = Val (Ok (diskaddr b, true)) s' /\ fs_ok s' n /\ cached s' b = true /\
    (forall o, 0 <= o < 4096 -> view s' b o = if dirty s b then view s b o else image (dsk s) 0 (b * 4096 + o)) /\
    (forall c o, 0 <= c < n -> c <> b -> 0 <= o < 4096 -> view s' c o = view s c o).
Proof.
  intros O Hp Hb Hc Hf. pose proof (ok_range _ _ O). destruct (unmap_block_ok s n b O Hb Hc) as (d' & E & W).
  rewrite (bind_val _ _ _ _ _ E). cbv beta. set (s1 := unmapped (set_dsk d' s) b) in *.
  rewrite Hf in W. cbn [negb andb] in W.
  assert (Od : fs_ok (set_dsk d' s) n).
  { apply fs_ok_set_dsk; [|done]. destruct (dirty s b); [apply W|by subst d']. }
  assert (O1 : fs_ok s1 n) by (by apply fs_ok_unmapped).
  assert (C1 : cached s1 b = false) by (unfold s1; rewrite cached_unmapped by lia; by rewrite Z.eqb_refl).
  destruct (read_block_ok s1 n b O1 ltac:(lia) Hf Hp) as (s' & E' & O' & X & C').
  exists s'. rewrite C1 in E'. split; [exact E'|]. split; [done|]. split; [done|].
  assert (V1 : forall o, view s1 b o = image d' 0 (b * 4096 + o)) by (intros o; unfold view; by rewrite C1).
  split.
  - intros o Ho. rewrite (ext_view _ _ _ _ X) by (done || lia). rewrite V1. destruct (dirty s b).
    + destruct W as [_ W]. rewrite W, decide_True by lia. unfold view. rewrite Hc. f_equal. lia.
    + by subst d'.
  - intros c o Hcr Hne Ho. rewrite (ext_view _ _ _ _ X) by (done || lia). unfold view, s1 at 1.
    rewrite cached_unmapped by lia. destruct (Z.eqb_spec c b); [done|]. cbn [negb andb].
    change (cached (set_dsk d' s) c) with (cached s c). destruct (cached s c); [done|].
    change (image d' 0 (c * 4096 + o) = image (dsk s) 0 (c * 4096 + o)). destruct (dirty s b); [|by subst d'].
    destruct W as [_ W]. rewrite W, decide_False by nia. done.
Qed.

(** [fs_sync] writes every dirty block and only those: afterwards the disk holds the cached
    content of each dirty block and its old content elsewhere. The cache does not change (blocks
    stay marked dirty). *)
Theorem fs_sync_correct s n : fs_ok s n -> exists s', fs_sync s = Val tt s' /\ fs_ok s' n /\
  um s' = um s /\ upt s' = upt s /\
  forall b o, 0 <= b < n -> 0 <= o < 4096 -> image (dsk s') 0 (b * 4096 + o) =
    if cached s b && dirty s b then view s b o else image (dsk s) 0 (b * 4096 + o).
Proof.
  intros O. destruct (fs_sync_ok s n O) as (s' & E & [O' U P I]). exists s'. split_and!; try done.
  intros b o Hb Ho. rewrite I by done. by destruct (Z.ltb_spec b n); [|lia].
Qed.
End Blocks.

(** *** At the file system [demo] *)
Lemma alloc_block_correct_witness :
  (exists b s', alloc_block demo = Val (Ok b) s' /\ fs_ok s' 8 /\ 0 <= b < 8 /\
    free demo b = true /\ (forall c, 0 <= c < b -> free demo c = false) /\
    (forall c, 0 <= c < 8 -> free s' c = free demo c && negb (c =? b)) /\
    (forall c o, 2 + nbitmap 8 <= c < 8 -> c <> b -> 0 <= o < 4096 -> view s' c o = view demo c o) /\
    (forall o, 0 <= o < 4096 -> view s' b o = if cached demo b then view demo b o else 0)) \/
  (alloc_block demo = Val (Err (- E_NO_DISK)) demo /\ forall c, 0 <= c < 8 -> free demo c = false).
Proof. exact (alloc_block_correct demo 8 demo_ok demo_plenty). Defined.

Lemma block_round_trip_witness : exists s', (unmap_block 3 ;; read_block 3) demo = Val (Ok (diskaddr 3, true)) s' /\
  fs_ok s' 8 /\ cached s' 3 = true /\
  (forall o, 0 <= o < 4096 -> view s' 3 o = if dirty demo 3 then view demo 3 o else image (dsk demo) 0 (3 * 4096 + o)) /\
  (forall c o, 0 <= c < 8 -> c <> 3 -> 0 <= o < 4096 -> view s' c o = view demo c o).
Proof.
  apply (block_round_trip demo 8 3 demo_ok demo_plenty); [by vm_compute|by rewrite demo_cached|by rewrite demo_free].
Defined.

Lemma fs_sync_correct_witness : exists s', fs_sync demo = Val tt s' /\ fs_ok s' 8 /\
  um s' = um demo /\ upt s' = upt demo /\
  forall b o, 0 <= b < 8 -> 0 <= o < 4096 -> image (dsk s') 0 (b * 4096 + o) =
    if cached demo b && dirty demo b then view demo b o else image (dsk demo) 0 (b * 4096 + o).
Proof. exact (fs_sync_correct demo 8 demo_ok). Defined.
