(* ===== verification/FsInit.v ===== *)
(** * Starting the file system (fs/fs.c: read_super, check_write_block, read_bitmap, fs_init) *)

From Stdlib Require Import ZArith Lia.
From stdpp Require Import base numbers list gmap strings.
From S2P Require Import Prelude Mmu Str StrThms Wp KState Elf Signo Env TlbEx Syscall Ide Fs FsMem FsCache Gx.

Section Init.
Context {D : Type} {HD : DiskDev D}.
Implicit Types (s : fs_st D).

(** ** A picture of the cache: which blocks are in it, with what bytes, and the disk *)
Record pic (n : Z) (C : Z -> bool) (v : Z -> Z -> Z) (img : Z -> Z) s : Prop := {
  pc_bytes : bytes_ok (um s);
  pc_plenty : plenty s;
  pc_cap : n * 4096 <= capacity (dsk s) 0;
  pc_cached : forall b, 0 <= b < NBLK -> cached s b = C b;
  pc_perm : forall b, 0 <= b < NBLK -> C b = true -> hasbits (perm_of s (diskaddr b)) PTE_D = true;
  pc_view : forall b o, 0 <= b < NBLK -> C b = true -> 0 <= o < 4096 -> rd8 (um s) (diskaddr b + o) = v b o;
  pc_img : forall o, image (dsk s) 0 o = img o }.

Definition upd {A} (f : Z -> A) (b : Z) (x : A) : Z -> A := fun c => if c =? b then x else f c.

Lemma pic_rw n C v img s b o : pic n C v img s -> 0 <= b < NBLK -> C b = true -> 0 <= o < 4096 -> rw s (diskaddr b + o).
Proof.
  intros P Hb Hc Ho. pose proof (pc_cached _ _ _ _ _ P b Hb) as Hx. pose proof (pc_perm _ _ _ _ _ P b Hb Hc) as Hp. rewrite Hc in Hx.
  split; [by apply legal_block|]. unfold cached, page_mapped, perm_of in *. rewrite vpn_block by done. rewrite vpn_block0 in Hx, Hp by done. done.
Qed.

(** A block is loaded. *)
Lemma pic_load n C v img s b : pic n C v img s -> 0 <= b < NBLK -> b < n -> C b = false -> exists s',
  (syscall_mem_alloc (diskaddr b) PTE_D ;; ide_read 0 (u32 (b * SECT2BLK)) (diskaddr b) SECT2BLK) s = Val tt s' /\
  pic n (upd C b true) (upd v b (fun o => img (b * 4096 + o))) img s' /\ super s' = super s /\ bitmap s' = bitmap s.
Proof.
  intros P Hb Hn Hc. pose proof P as [].
  assert (Hcap : (b + 1) * 4096 <= capacity (dsk s) 0) by lia. destruct (load_raw s b Hb Hcap pc_plenty0) as (s' & E & [Lb Ls Lm [Sc Si] Lc Lp' Lp Ln Lk La]).
  exists s'. split; [exact E|]. split; [|done]. split.
  - by apply Lb.
  - done.
  - by rewrite Sc.
  - intros c Hc'. rewrite Lc, pc_cached0 by done. unfold upd. by destruct (c =? b).
  - intros c Hc'. unfold upd. destruct (Z.eqb_spec c b) as [->|]; [by rewrite Lp'|]. intros H. rewrite Lp by done. by apply pc_perm0.
  - intros c o Hc'. unfold upd. destruct (Z.eqb_spec c b) as [->|]; intros H Ho; [by rewrite Ln, pc_img0|]. rewrite Lk by done. by apply pc_view0.
  - intros o. by rewrite Si.
Qed.

Lemma nth_lookup_some (l : list Z) i : (i < length l)%nat -> l !! i = Some (nth i l 0).
Proof. revert i. induction l as [|x l IH]; intros [|i] H; cbn in *; [lia|lia|done|]. apply IH. lia. Qed.

(** Bytes are stored in a cached block. *)
Lemma pic_store n C v img s b bs : pic n C v img s -> 0 <= b < NBLK -> C b = true -> (length bs <= 4096)%nat ->
  Forall (fun x => 0 <= x < 256) bs -> exists s', st_bytes (diskaddr b) bs s = Val tt s' /\
  pic n C (upd v b (fun o => if decide (o < Z.of_nat (length bs)) then nth (Z.to_nat o) bs 0 else v b o)) img s' /\
  super s' = super s /\ bitmap s' = bitmap s.
Proof.
  intros P Hb Hc Hl HF. pose proof P as [].
  exists (set_um (wr_bytes (um s) (diskaddr b) bs) s). split. { apply st_bytes_rw. intros i Hi. apply (pic_rw n C v img); (done || lia). }
  split; [|done]. split; try done; [by apply wr_bytes_ok|]. intros c o Hc' HC Ho. cbn [um set_um]. rewrite rd_wr_bytes. unfold upd.
  destruct (Z.eqb_spec c b) as [->|Hne].
  - replace (diskaddr b + o - diskaddr b) with o by lia. destruct (decide (o < Z.of_nat (length bs))) as [Hlt|Hge].
    + rewrite decide_True by lia. apply u8_byte. rewrite Forall_lookup in HF. apply (HF (Z.to_nat o)).
      apply nth_lookup_some. lia.
    + rewrite decide_False by lia. by apply pc_view0.
  - rewrite decide_False by (rewrite !diskaddr_eq by done; nia). by apply pc_view0.
Qed.

Lemma pic_ext n C v img s C' v' img' : pic n C v img s -> (forall b, 0 <= b < NBLK -> C' b = C b) ->
  (forall b o, 0 <= b < NBLK -> C b = true -> 0 <= o < 4096 -> v' b o = v b o) -> (forall o, img' o = img o) -> pic n C' v' img' s.
Proof.
  intros [] HC Hv Hi. split; try done.
  - intros b Hb. by rewrite HC, pc_cached0.
  - intros b Hb. rewrite HC by done. by apply pc_perm0.
  - intros b o Hb. rewrite HC by done. intros Hc Ho. by rewrite Hv, pc_view0.
  - intros o. by rewrite Hi.
Qed.

Lemma pic_super n C v img s x : pic n C v img s -> pic n C v img (set_super x s).
Proof. intros []. by split. Qed.
Lemma pic_bitmap n C v img s x : pic n C v img s -> pic n C v img (set_bitmap x s).
Proof. intros []. by split. Qed.

(** The byte is there; so is the word. *)
Lemma pic_ld8 n C v img s b o : pic n C v img s -> 0 <= b < NBLK -> C b = true -> 0 <= o < 4096 -> ld8 (diskaddr b + o) s = Val (v b o) s.
Proof. intros P Hb Hc Ho. rewrite ld8_rw by (by apply (pic_rw n C v img)). by rewrite (pc_view _ _ _ _ _ P). Qed.

Definition word_at (v : Z -> Z) (o : Z) : Z := v o + 256 * v (o + 1) + 65536 * v (o + 2) + 16777216 * v (o + 3).

Lemma pic_ld32 n C v img s b o : pic n C v img s -> 0 <= b < NBLK -> C b = true -> 0 <= o -> o + 4 <= 4096 -> o mod 4 = 0 ->
  ld32 (diskaddr b + o) s = Val (word_at (v b) o) s.
Proof.
  intros P Hb Hc Ho Ho' Hm. rewrite ld32_rw; [|by apply (pic_rw n C v img); (done || lia)|by apply diskaddr_mod4].
  unfold rd32, word_at. rewrite <- !Z.add_assoc. by rewrite !(pc_view _ _ _ _ _ P) by (done || lia).
Qed.

(** The block goes to the disk. *)
Lemma pic_write n C v img s b : pic n C v img s -> 0 <= b < NBLK -> b < n -> C b = true -> exists s',
  write_block b s = Val tt s' /\
  pic n C v (fun o => if decide (b * 4096 <= o < (b + 1) * 4096) then v b (o - b * 4096) else img o) s' /\
  super s' = super s /\ bitmap s' = bitmap s.
Proof.
  intros P Hb Hn Hc. pose proof P as []. assert (Hb' := Hb). unfold NBLK in Hb'.
  destruct (ide_write_ok 0 (b * 8) (diskaddr b) SECT2BLK s) as (d' & Hcap & E & Him).
  { unfold is_u32. lia. } { lia. } { by vm_compute. } { done. } { change SECT2BLK with 8. unfold BY2SECT. lia. }
  { change SECT2BLK with 8. unfold BY2SECT. lia. }
  { change (SECT2BLK * BY2SECT) with 4096. unfold rw_range. assert (E3 : UTEMP = 4186112) by reflexivity.
    assert (E4 : UTOP = 2134900736) by reflexivity. rewrite E3, E4. split; [rewrite diskaddr_eq by done; lia|].
    split; [rewrite diskaddr_eq by done; lia|]. intros i Hi. by apply (pic_rw n C v img). }
  exists (set_dsk d' s). split.
  - unfold write_block, block_is_mapped, va_is_mapped. rewrite bind_gets. change (page_mapped s (diskaddr b)) with (cached s b).
    rewrite pc_cached0, Hc, bind_assert_true by done. rewrite sect_eq by done. exact E.
  - split; [|done]. split; try done; [by cbn [dsk set_dsk]; rewrite Hcap|]. intros o. cbn [dsk set_dsk]. rewrite Him.
    change SECT2BLK with 8. unfold BY2SECT. destruct (decide (b * 4096 <= o < (b + 1) * 4096)) as [Ho|Ho].
    + rewrite decide_True by lia. replace (o - b * 8 * 512) with (o - b * 4096) by lia. apply pc_view0; (done || lia).
    + rewrite decide_False by lia. apply pc_img0.
Qed.

(** The block leaves the cache. *)
Lemma pic_unmap n C v img s b : pic n C v img s -> 0 <= b < NBLK -> exists s',
  syscall_mem_unmap (diskaddr b) s = Val 0 s' /\ pic n (upd C b false) v img s' /\ super s' = super s /\ bitmap s' = bitmap s.
Proof.
  intros P Hb. pose proof P as []. exists (set_upt (delete (VPN (diskaddr b)) (upt s)) s).
  split. { unfold syscall_mem_unmap. by rewrite legal_block0. }
  assert (Hp : forall c, 0 <= c < NBLK -> perm_of (set_upt (delete (VPN (diskaddr b)) (upt s)) s) (diskaddr c) =
    if c =? b then 0 else perm_of s (diskaddr c)).
  { intros c Hc. unfold perm_of. cbn [upt set_upt]. rewrite !vpn_block0 by done. destruct (Z.eqb_spec c b) as [->|]; [by rewrite lookup_delete_eq|].
    by rewrite lookup_delete_ne by lia. }
  split; [|done]. split; try done.
  - intros c Hc. unfold cached, page_mapped. rewrite Hp by done. unfold upd. destruct (c =? b); [done|]. by apply pc_cached0.
  - intros c Hc. rewrite Hp by done. unfold upd. destruct (c =? b); [done|]. by apply pc_perm0.
  - intros c o Hc. unfold upd. destruct (c =? b); [done|]. by apply pc_view0.
Qed.

(** A block is copied over another. *)
Lemma pic_copy n C v img s a b : pic n C v img s -> 0 <= a < NBLK -> 0 <= b < NBLK -> C a = true -> C b = true -> exists s',
  memcpy_at (diskaddr a) (diskaddr b) 4096 s = Val tt s' /\ pic n C (upd v a (v b)) img s' /\ super s' = super s /\ bitmap s' = bitmap s.
Proof.
  intros P Ha Hb Hca Hcb. unfold memcpy_at.
  rewrite (bind_val _ _ _ _ _ (ld_bytes_rw s 4096 (diskaddr b) ltac:(intros i Hi; apply (pic_rw n C v img); (done || lia)))).
  set (bs := map _ _). assert (Hl : length bs = 4096%nat) by (unfold bs; by rewrite length_map, zseq_length).
  destruct (pic_store n C v img s a bs P Ha Hca ltac:(lia)) as (s' & E & P' & S').
  { apply Forall_forall. intros x Hx. apply list_elem_of_fmap in Hx as (i & -> & _). apply (pc_bytes _ _ _ _ _ P). }
  exists s'. split; [exact E|]. split; [|done]. apply (pic_ext _ _ _ _ _ _ _ _ P'); try done.
  intros c o Hc Hcc Ho. unfold upd. destruct (c =? a); [|done]. rewrite decide_True by lia. unfold bs. rewrite nth_map_zseq by lia.
  by rewrite (pc_view _ _ _ _ _ P).
Qed.

(** The comparison with a string. *)
Lemma pic_streq n C v img s b l : pic n C v img s -> 0 <= b < NBLK -> C b = true -> forall o, 0 <= o -> o + Z.of_nat (length l) < 4096 ->
  (forall i, (i < length l)%nat -> v b (o + Z.of_nat i) = nth i l 0) -> v b (o + Z.of_nat (length l)) = 0 ->
  streq_at (diskaddr b + o) l s = Val true s.
Proof.
  intros P Hb Hc. induction l as [|x l IH]; intros o Ho Hl Hv Hz; cbn [streq_at length] in *;
    rewrite (bind_val _ _ _ _ _ (pic_ld8 n C v img s b o P Hb Hc ltac:(lia))).
  - rewrite Z.add_0_r in Hz. by rewrite Hz.
  - pose proof (Hv 0%nat ltac:(lia)) as H0. rewrite Z.add_0_r in H0. rewrite H0. cbn [nth]. rewrite Z.eqb_refl.
    rewrite <- Z.add_assoc. apply IH; [lia|lia| |].
    + intros i Hi. specialize (Hv (S i) ltac:(lia)). cbn [nth] in Hv. rewrite <- Hv. f_equal. lia.
    + rewrite <- Hz. f_equal. lia.
Qed.

(** ** The steps of the start *)

(** [read_block] before the bitmap is known. *)
Lemma pic_read n C v img s b : pic n C v img s -> 0 <= b < NBLK -> b < n -> C b = false -> bitmap s = 0 ->
  super s = 0 \/ (super s = diskaddr 1 /\ C 1 = true /\ word_at (v 1) 4 = n) -> exists s',
  read_block b s = Val (Ok (diskaddr b, true)) s' /\ pic n (upd C b true) (upd v b (fun o => img (b * 4096 + o))) img s' /\
  super s' = super s /\ bitmap s' = bitmap s.
Proof.
  intros P Hb Hn Hc Hbm Hs. destruct (pic_load n C v img s b P Hb Hn Hc) as (s' & E & P' & S'). exists s'. split; [|done].
  apply bind_val_inv in E as (r & s1 & E1 & E2). unfold read_block. rewrite bind_gets.
  assert (Hfirst : (if super s =? 0 then mret None else n ← ld32 (s_nblocks (super s)); mret (Some n)) s =
    Val (if super s =? 0 then None else Some n) s).
  { destruct Hs as [->|(-> & Hc1 & Hw)]; [done|]. destruct (Z.eqb_spec (diskaddr 1) 0) as [Ez|_]; [by rewrite diskaddr_eq in Ez|].
    unfold s_nblocks. rewrite (bind_val _ _ _ _ _ (pic_ld32 n C v img s 1 4 P ltac:(done) Hc1 ltac:(lia) ltac:(lia) eq_refl)). by rewrite Hw. }
  rewrite (bind_val _ _ _ _ _ Hfirst). cbv beta.
  replace (match (if super s =? 0 then None else Some n) with Some n0 => b <? n0 | None => true end) with true
    by (destruct (super s =? 0); [done|symmetry; by apply Z.ltb_lt]).
  rewrite bind_assert_true, bind_gets, Hbm. cbn [Z.eqb]. rewrite bind_ret, bind_assert_true. unfold block_is_mapped, va_is_mapped.
  rewrite bind_gets. change (page_mapped s (diskaddr b)) with (cached s b). rewrite (pc_cached _ _ _ _ _ P), Hc by done.
  rewrite (bind_val _ _ _ _ _ E1). cbv beta. by rewrite (bind_val _ _ _ _ _ E2).
Qed.

Lemma pic_mapped n C v img s b : pic n C v img s -> 0 <= b < NBLK -> block_is_mapped b s = Val (C b) s.
Proof.
  intros P Hb. unfold block_is_mapped, va_is_mapped, gets. change (page_mapped s (diskaddr b)) with (cached s b).
  by rewrite (pc_cached _ _ _ _ _ P).
Qed.

Definition none (_ : Z) : bool := false.
(** The blocks below [k] are cached; block 0 holds a copy of the super block. *)
Definition below (k : Z) (c : Z) : bool := (0 <=? c) && (c <? k).
Definition copy1 (img : Z -> Z) (c o : Z) : Z := if c =? 0 then img (4096 + o) else img (c * 4096 + o).

Lemma check_write_block_ok n v img s : pic n (upd none 1 true) v img s -> (forall o, 0 <= o < 4096 -> v 1 o = img (4096 + o)) ->
  bitmap s = 0 -> 1 < n -> exists s', check_write_block s = Val tt s' /\ pic n (below 2) (copy1 img) img s' /\
  super s' = diskaddr 1 /\ bitmap s' = 0.
Proof.
  intros P Hv1 Hbm Hn. unfold check_write_block. rewrite bind_modify. set (s0 := set_super 0 s).
  assert (Hs0 : super s0 = 0) by done. assert (Hb0 : bitmap s0 = 0) by done.
  assert (H0 : 0 <= 0 < NBLK) by done. assert (H1 : 0 <= 1 < NBLK) by done.
  destruct (pic_read n _ v img s0 0 (pic_super _ _ _ _ _ 0 P) H0 ltac:(lia) eq_refl Hbm (or_introl eq_refl)) as (s1 & E1 & P1 & Ss1 & Sb1).
  rewrite (bind_val _ _ _ _ _ E1). cbv beta.
  destruct (pic_copy n _ _ _ s1 0 1 P1 H0 H1 eq_refl eq_refl) as (s2 & E2 & P2 & Ss2 & Sb2). rewrite (bind_val _ _ _ _ _ E2). cbv beta.
  destruct (pic_store n _ _ _ s2 1 (oops ++ [0]) P2 H1 eq_refl) as (s3 & E3 & P3 & Ss3 & Sb3); [cbn; lia|repeat constructor; done|].
  unfold strcpy_at. rewrite (bind_val _ _ _ _ _ E3). cbv beta.
  destruct (pic_write n _ _ _ s3 1 P3 H1 Hn eq_refl) as (s4 & E4 & P4 & Ss4 & Sb4). rewrite (bind_val _ _ _ _ _ E4). cbv beta.
  rewrite (bind_val _ _ _ _ _ (pic_mapped _ _ _ _ _ 1 P4 H1)). cbv beta. rewrite bind_assert_true.
  destruct (pic_unmap n _ _ _ s4 1 P4 H1) as (s5 & E5 & P5 & Ss5 & Sb5). rewrite (bind_val _ _ _ _ _ E5). cbv beta.
  rewrite (bind_val _ _ _ _ _ (pic_mapped _ _ _ _ _ 1 P5 H1)). cbv beta. rewrite bind_assert_true.
  destruct (pic_read n _ _ _ s5 1 P5 H1 Hn eq_refl) as (s6 & E6 & P6 & Ss6 & Sb6); [congruence|left; congruence|].
  rewrite (bind_val _ _ _ _ _ E6). cbv beta.
  pose proof (pic_streq n _ _ _ s6 1 oops P6 H1 eq_refl 0 ltac:(lia) ltac:(cbn; lia)) as E7. rewrite Z.add_0_r in E7.
  rewrite (bind_val _ _ _ _ _ (E7 ltac:(intros i Hi; cbn in Hi; do 6 (destruct i as [|i]; [reflexivity|]); lia) eq_refl)).
  cbv beta. rewrite bind_assert_true.
  destruct (pic_copy n _ _ _ s6 1 0 P6 H1 H0 eq_refl eq_refl) as (s8 & E8 & P8 & Ss8 & Sb8). rewrite (bind_val _ _ _ _ _ E8). cbv beta.
  destruct (pic_write n _ _ _ s8 1 P8 H1 Hn eq_refl) as (s9 & E9 & P9 & Ss9 & Sb9). rewrite (bind_val _ _ _ _ _ E9). cbv beta.
  eexists. split; [reflexivity|]. split; [|split; [done|cbn [bitmap set_super]; congruence]]. apply pic_super.
  apply (pic_ext _ _ _ _ _ _ _ _ P9).
  - intros b Hb. unfold upd, below, none. destruct (Z.eqb_spec b 1) as [->|]; [done|]. destruct (Z.eqb_spec b 0) as [->|]; [done|].
    destruct (Z.leb_spec 0 b), (Z.ltb_spec b 2); (done || lia).
  - intros b o Hb Hc Ho. unfold upd, copy1. destruct (Z.eqb_spec b 1) as [->|].
    + cbn [Z.eqb Pos.eqb]. rewrite Hv1 by done. done.
    + destruct (Z.eqb_spec b 0) as [->|]; [by rewrite Hv1|]. unfold upd, none in Hc. destruct (Z.eqb_spec b 1), (Z.eqb_spec b 0); done.
  - intros o. unfold upd. cbn [Z.eqb Pos.eqb]. destruct (decide (1 * 4096 <= o < (1 + 1) * 4096)) as [Ho|Ho].
    + rewrite Hv1 by lia. f_equal. lia.
    + done.
Qed.

Lemma read_bitmap_loop n img k : forall j s, 0 <= j -> 2 + j + Z.of_nat k <= n -> n <= NBLK -> word_at (fun o => img (4096 + o)) 4 = n ->
  pic n (below (2 + j)) (copy1 img) img s -> super s = diskaddr 1 -> bitmap s = 0 -> exists s',
  for_each (zseq j k) (fun i => read_block (i + 2) ;; mret tt) s = Val tt s' /\
  pic n (below (2 + (j + Z.of_nat k))) (copy1 img) img s' /\ super s' = diskaddr 1 /\ bitmap s' = 0.
Proof.
  induction k as [|k IH]; intros j s Hj Hn HN Hw P Hs Hb; [exists s; by rewrite Z.add_0_r|]. cbn [zseq for_each].
  destruct (pic_read n _ _ _ s (j + 2) P ltac:(lia) ltac:(lia)) as (s1 & E1 & P1 & Ss1 & Sb1).
  { unfold below. apply andb_false_iff. right. apply Z.ltb_ge. lia. } { done. }
  { right. split; [done|]. split; [unfold below; apply andb_true_iff; split; [done|apply Z.ltb_lt; lia]|exact Hw]. }
  rewrite bind_bind, (bind_val _ _ _ _ _ E1). cbv beta. rewrite bind_ret.
  destruct (IH (j + 1) s1) as (s2 & E2 & P2 & Ss2 & Sb2); [lia|lia|done|done| |congruence|congruence|].
  { apply (pic_ext _ _ _ _ _ _ _ _ P1); [| |done].
    - intros b Hx. unfold upd, below. destruct (Z.eqb_spec b (j + 2)) as [->|].
      + apply andb_true_iff. split; [apply Z.leb_le; lia|apply Z.ltb_lt; lia].
      + f_equal. destruct (Z.ltb_spec b (2 + (j + 1))), (Z.ltb_spec b (2 + j)); (done || lia).
    - intros b o Hx _ Ho. unfold upd, copy1. destruct (Z.eqb_spec b (j + 2)) as [->|]; [|done]. destruct (Z.eqb_spec (j + 2) 0); [lia|done]. }
  exists s2. split; [exact E2|]. by replace (j + Z.of_nat (S k)) with (j + 1 + Z.of_nat k) by lia.
Qed.

(** ** fs_init *)

(** A file system of [n] blocks on disk 0: the magic number, the count, and the boot block,
    the super block and the bitmap marked used. *)
Definition disk_byte s (o : Z) : Z := image (dsk s) 0 o.
Definition disk_free s (b : Z) : bool := Z.testbit (word_at (disk_byte s) (8192 + 4 * (b / 32))) (b mod 32).

Record formatted s n : Prop := {
  fmt_range : 2 + nbitmap n <= n <= NBLK;
  fmt_cap : n * 4096 <= capacity (dsk s) 0;
  fmt_magic : word_at (disk_byte s) 4096 = FS_MAGIC;
  fmt_nblocks : word_at (disk_byte s) 4100 = n;
  fmt_used : forall b, 0 <= b < 2 + nbitmap n -> disk_free s b = false }.

(** The server at its start. *)
Record started s : Prop := {
  st_super : super s = 0;
  st_bitmap : bitmap s = 0;
  st_bytes : bytes_ok (um s);
  st_plenty : plenty s;
  st_cached : forall b, 0 <= b < NBLK -> cached s b = false }.

Lemma pic_start n s : started s -> n * 4096 <= capacity (dsk s) 0 -> pic n none (fun _ _ => 0) (disk_byte s) s.
Proof. intros [] Hc. by split. Qed.

(** The super block is read: the magic number and the size are tested. *)
Lemma read_super_first s : started s -> 2 * 4096 <= capacity (dsk s) 0 -> exists s1,
  read_block 1 s = Val (Ok (diskaddr 1, true)) s1 /\ bitmap s1 = 0 /\
  forall n, 1 < n -> n * 4096 <= capacity (dsk s) 0 -> pic n (upd none 1 true) (upd (fun _ _ => 0) 1 (fun o => disk_byte s (1 * 4096 + o))) (disk_byte s) s1.
Proof.
  intros S Hc. pose proof S as [].
  destruct (pic_read 2 none _ _ s 1 (pic_start 2 s S Hc) ltac:(by vm_compute) ltac:(lia) eq_refl st_bitmap0 (or_introl st_super0)) as (s1 & E & P & _ & Hb).
  exists s1. split; [done|]. split; [congruence|]. intros n Hn Hcn.
  destruct (pic_read n none _ _ s 1 (pic_start n s S Hcn) ltac:(done) Hn eq_refl st_bitmap0 (or_introl st_super0)) as (s2 & E' & P' & _).
  rewrite E in E'. by injection E' as ->.
Qed.

Lemma free_disk n img s b : pic n (below (2 + nbitmap n)) (copy1 img) img s -> 0 <= b < n -> n <= NBLK -> 2 + nbitmap n <= n ->
  free s b = Z.testbit (word_at img (8192 + 4 * (b / 32))) (b mod 32).
Proof.
  intros P Hb Hn Hr. destruct (bitmap_word_block n b Hb Hn) as (k & o & Hk & Ho & Ho' & Hm & Ek & E). unfold free. rewrite hasbits_bit, E. f_equal.
  unfold rd32, word_at. rewrite <- !Z.add_assoc.
  assert (Hc : below (2 + nbitmap n) k = true) by (unfold below; apply andb_true_iff; split; [apply Z.leb_le|apply Z.ltb_lt]; lia).
  rewrite !(pc_view _ _ _ _ _ P) by (done || lia). unfold copy1. destruct (Z.eqb_spec k 0); [lia|].
  assert (Eo : k * 4096 + o = 8192 + 4 * (b / 32)).
  { unfold bitmap_word in E. rewrite !diskaddr_eq in E by (done || lia). lia. }
  rewrite !Z.add_assoc, Eo. done.
Qed.

Lemma assert_used_ok s n b : fs_ok s n -> 0 <= b < 2 + nbitmap n -> assert_used b s = Val tt s.
Proof.
  intros O Hb. unfold assert_used. rewrite (bind_val _ _ _ _ _ (block_is_free_ok s n b O ltac:(lia))). cbv beta.
  by rewrite (ok_used _ _ O b Hb), andb_false_r.
Qed.

Lemma assert_used_loop s n k : fs_ok s n -> forall j, 0 <= j -> j + Z.of_nat k <= nbitmap n ->
  for_each (zseq j k) (fun i => assert_used (i + 2)) s = Val tt s.
Proof.
  intros O. induction k as [|k IH]; intros j Hj Hk; [done|]. cbn [zseq for_each].
  rewrite (bind_val _ _ _ _ _ (assert_used_ok s n (j + 2) O ltac:(lia))). cbv beta. apply IH; lia.
Qed.

(** [read_super]: the magic number and the size are tested, in a state where block 1 is cached. *)
Lemma super_tested s : started s -> 2 * 4096 <= capacity (dsk s) 0 -> exists s1, bitmap s1 = 0 /\
  (forall n, 1 < n -> n * 4096 <= capacity (dsk s) 0 ->
    pic n (upd none 1 true) (upd (fun _ _ => 0) 1 (fun o => disk_byte s (1 * 4096 + o))) (disk_byte s) s1) /\
  forall (k : unit -> M (fs_st D) unit), (read_super ≫= k) s =
    (assert "bad file system magic number" (word_at (disk_byte s) 4096 =? FS_MAGIC) ≫= fun _ =>
     assert "file system is too large" (word_at (disk_byte s) 4100 <=? NBLK) ≫= k) (set_super (diskaddr 1) s1).
Proof.
  intros S Hc. destruct (read_super_first s S Hc) as (s1 & E1 & Hb1 & HP). exists s1. split; [done|]. split; [done|].
  assert (H1 : 0 <= 1 < NBLK) by done.
  set (s2 := set_super (diskaddr 1) s1). pose proof (pic_super _ _ _ _ _ (diskaddr 1) (HP 2 ltac:(lia) Hc)) as P2. fold s2 in P2.
  assert (Em : ld32 (diskaddr 1) s2 = Val (word_at (disk_byte s) 4096) s2).
  { pose proof (pic_ld32 2 _ _ _ s2 1 0 P2 H1 eq_refl ltac:(lia) ltac:(lia) eq_refl) as E. rewrite Z.add_0_r in E. exact E. }
  assert (En : ld32 (s_nblocks (diskaddr 1)) s2 = Val (word_at (disk_byte s) 4100) s2).
  { exact (pic_ld32 2 _ _ _ s2 1 4 P2 H1 eq_refl ltac:(lia) ltac:(lia) eq_refl). }
  intros k. unfold read_super. rewrite bind_bind, (bind_val _ _ _ _ _ E1). cbv beta iota. rewrite !bind_bind, bind_modify. fold s2.
    rewrite bind_bind, (bind_val _ _ _ _ _ Em). cbv beta. rewrite bind_bind. unfold mbind at 1, M_bind at 1. unfold mbind at 3, M_bind at 3.
    destruct (assert _ _ s2) as [[] s3| | |] eqn:Ea; try done.
    assert (s3 = s2) as -> by (unfold assert in Ea; destruct (_ =? _); [by injection Ea|done]).
    by rewrite bind_bind, (bind_val _ _ _ _ _ En).
Qed.

(** The state of the server after a start on a file system of [n] blocks. *)
Record initialised s n s' : Prop := {
  it_ok : fs_ok s' n;
  it_plenty : plenty s';
  it_disk : forall o, image (dsk s') 0 o = image (dsk s) 0 o;
  it_view : forall b o, 1 <= b < n -> 0 <= o < 4096 -> view s' b o = image (dsk s) 0 (b * 4096 + o);
  it_free : forall b, 0 <= b < n -> free s' b = disk_free s b }.

Lemma fs_init_ok s n : started s -> 2 * 4096 <= capacity (dsk s) 0 -> formatted s n -> exists s', fs_init s = Val tt s' /\ initialised s n s'.
Proof.
  intros S Hc [[Hr HN] Hcap Hmag Hnb Hu]. destruct (super_tested s S Hc) as (s1 & Hb1 & HP & Hrs). assert (H1 : 0 <= 1 < NBLK) by done.
  set (s2 := set_super (diskaddr 1) s1) in *. unfold fs_init. rewrite Hrs. rewrite Hmag, Hnb. rewrite Z.eqb_refl, bind_assert_true. destruct (Z.leb_spec n NBLK); [|lia]. rewrite bind_assert_true.
  assert (Hn3 : 1 < n) by (assert (0 <= nbitmap n) by (unfold nbitmap, BIT2BLK, BY2BLK, BY2PG in *; dlia); lia).
  destruct (check_write_block_ok n _ _ s2 (pic_super _ _ _ _ _ (diskaddr 1) (HP n Hn3 Hcap)) ltac:(intros o Ho; reflexivity) Hb1 Hn3) as (s3 & E3 & P3 & Hs3 & Hb3).
  rewrite (bind_val _ _ _ _ _ E3). cbv beta. unfold read_bitmap. rewrite bind_gets, Hs3.
  assert (Hnb3 : ld32 (s_nblocks (diskaddr 1)) s3 = Val n s3).
  { unfold s_nblocks. rewrite (pic_ld32 n _ _ _ s3 1 4 P3 H1 eq_refl ltac:(lia) ltac:(lia) eq_refl). by rewrite <- Hnb. }
  rewrite (bind_val _ _ _ _ _ Hnb3). cbv beta zeta. fold (nbitmap n).
  pose proof (nbitmap_range n ltac:(lia)) as Hnr.
  destruct (read_bitmap_loop n (disk_byte s) (Z.to_nat (nbitmap n)) 0 s3) as (s4 & E4 & P4 & Hs4 & Hb4); [lia|lia|done|by rewrite <- Hnb|exact P3|done|done|].
  rewrite (bind_val _ _ _ _ _ E4). cbv beta. rewrite bind_modify. set (s5 := set_bitmap (diskaddr 2) s4).
  rewrite Z2Nat.id, Z.add_0_l in P4 by lia. pose proof (pic_bitmap _ _ _ _ _ (diskaddr 2) P4) as P5. fold s5 in P5.
  assert (Hfree : forall b, 0 <= b < n -> free s5 b = disk_free s b) by (intros b Hb; by apply (free_disk n (disk_byte s) s5 b P5)).
  assert (O : fs_ok s5 n).
  { pose proof P5 as [Q1 Q2 Q3 Q4 Q5 Q6 Q7]. split; try done.
    - unfold rd32. rewrite <- !Z.add_assoc. assert (Hc1 : below (2 + nbitmap n) 1 = true) by (unfold below; apply andb_true_iff; split; [done|apply Z.ltb_lt; lia]).
      rewrite !Q6 by done. rewrite !Z.add_assoc. exact Hnb.
    - intros b Hb. rewrite Q4 by lia. unfold below. apply andb_true_iff. split; [apply Z.leb_le|apply Z.ltb_lt]; lia.
    - intros b Hb. rewrite Hfree by lia. by apply Hu.
    - intros b Hb Hcb. apply Q5; [lia|]. rewrite <- Q4 by lia. done. }
  rewrite (bind_val _ _ _ _ _ (assert_used_ok s5 n 0 O ltac:(lia))). cbv beta.
  rewrite (bind_val _ _ _ _ _ (assert_used_ok s5 n 1 O ltac:(lia))). cbv beta.
  exists s5. split; [exact (assert_used_loop s5 n (Z.to_nat (nbitmap n)) O 0 ltac:(lia) ltac:(lia))|]. pose proof P5 as [Q1 Q2 Q3 Q4 Q5 Q6 Q7].
  split; [done|done|done| |done]. intros b o Hb Ho. unfold view. rewrite Q4 by lia.
  destruct (below _ b) eqn:Eb; [|by rewrite Q7]. rewrite Q6 by (done || lia). unfold copy1. by destruct (Z.eqb_spec b 0); [lia|].
Qed.

(** C13: Starting the file server on a disk with a file system: [fs_init] returns with the
    invariant of the file system established, every block but block 0 reads as on the disk, the
    free blocks are those the bitmap on the disk says, and the disk is as before although the
    super block was overwritten for a test in between. A wrong magic number or a size
    beyond the region for cached blocks makes the server panic. *)
Theorem fs_init_correct s : started s -> 2 * 4096 <= capacity (dsk s) 0 ->
  (forall n, formatted s n -> exists s', fs_init s = Val tt s' /\ fs_ok s' n /\ plenty s' /\
    (forall o, image (dsk s') 0 o = image (dsk s) 0 o) /\
    (forall b o, 1 <= b < n -> 0 <= o < 4096 -> view s' b o = image (dsk s) 0 (b * 4096 + o)) /\
    (forall b, 0 <= b < n -> free s' b = disk_free s b)) /\
  (word_at (disk_byte s) 4096 <> FS_MAGIC -> exists s', fs_init s = Panic "bad file system magic number" s') /\
  (word_at (disk_byte s) 4096 = FS_MAGIC -> NBLK < word_at (disk_byte s) 4100 -> exists s', fs_init s = Panic "file system is too large" s').
Proof.
  intros S Hc. split.
  - intros n HF. destruct (fs_init_ok s n S Hc HF) as (s' & E & [O P Di V Fr]). by exists s'.
  - destruct (super_tested s S Hc) as (s1 & _ & _ & Hrs). unfold fs_init. rewrite Hrs. split.
    + intros Hm. destruct (Z.eqb_spec (word_at (disk_byte s) 4096) FS_MAGIC); [done|]. by eexists.
    + intros Hm Hn. rewrite Hm, Z.eqb_refl, bind_assert_true. destruct (Z.leb_spec (word_at (disk_byte s) 4100) NBLK); [lia|]. by eexists.
Qed.
End Init.

(** A disk of eight blocks with an empty file system. *)
Definition raw_disk : gx :=
  mkGx 0 0 [] 0 (fun _ => list_to_map [(4096, 151); (4097, 96); (4098, 40); (4099, 104); (4100, 8); (8192, 248)]) 32768.
Definition boot : fs_st gx := mkFs ∅ ∅ [] raw_disk 0 0.

Lemma boot_started : started boot.
Proof.
  split.
  - done.
  - done.
  - intros a. unfold rd8. cbn [um boot]. rewrite lookup_empty. cbn. lia.
  - constructor.
  - intros b _. unfold cached, page_mapped, perm_of. cbn [upt boot]. by rewrite lookup_empty.
Qed.

Lemma boot_formatted : formatted boot 8.
Proof.
  assert (En : nbitmap 8 = 1) by reflexivity. split; rewrite ?En; [by vm_compute|by vm_compute|by vm_compute|by vm_compute|].
  intros b Hb. assert (b = 0 \/ b = 1 \/ b = 2) as [-> | [-> | ->]] by lia; by vm_compute.
Qed.

Lemma fs_init_correct_witness : exists s', fs_init boot = Val tt s' /\ fs_ok s' 8 /\ free s' 2 = false /\ free s' 3 = true.
Proof.
  assert (Hc : 2 * 4096 <= capacity (dsk boot) 0) by (by vm_compute).
  destruct (proj1 (fs_init_correct boot boot_started Hc) 8 boot_formatted) as (s' & E & O & _ & _ & _ & F).
  exists s'. split; [exact E|]. split; [exact O|]. split; rewrite F by lia; by vm_compute.
Defined.
