(* ===== verification/FsPath.v ===== *)
(** * Files and paths in the view of the disk (fs/fs.c: file_get_block, dir_lookup, walk_path)

    Places and fields of [struct File]; the search [resolve] that [walk_path] refines, the
    steps of the refinement, and the theorem. *)

From Stdlib Require Import ZArith Lia.
From stdpp Require Import base numbers list gmap strings.
From S2P Require Import Prelude Mmu KState Elf Signo Env TlbEx Syscall Str StrThms Wp Ide Fs Gx FsMem FsCache.
From S2P Require Import FsBlockThms.


Section Files.
Context {D : Type} {HD : DiskDev D}.
Implicit Types (s : fs_st D).

(** ** Places of files *)
Record place := mkPlace { p_blk : Z; p_off : Z }.
Implicit Types (p : place).
Definition addr p : Z := diskaddr (p_blk p) + p_off p.

(** A field of the file, as a word of the view. *)
Definition field s p (k : Z) : Z := vword s (p_blk p) (p_off p + k).
Definition size_of s p : Z := field s p 128.
Definition type_of s p : Z := field s p 132.
Definition index_of s p : Z := field s p 176.

(** The number of block [i] of the file; 0 when there is none. *)
Definition fptr s p i : Z :=
  if i <? NDIRECT then field s p (136 + 4 * i)
  else if index_of s p =? 0 then 0 else vword s (index_of s p) (4 * i).

Record fits n p : Prop := {
  pl_blk : 0 <= p_blk p < n;
  pl_off : 0 <= p_off p;
  pl_end : p_off p + BY2FILE <= 4096;
  pl_align : p_off p mod 4 = 0 }.

Definition placed n s p : Prop := fits n p /\ cached s (p_blk p) = true.

(** A block number that a file may hold. *)
Definition valid_blk s n v : Prop := 2 + nbitmap n <= v < n /\ free s v = false.

(** The index block of the file is readable when block [i] needs it. *)
Definition index_ok s n p i : Prop := i < NDIRECT \/ valid_blk s n (index_of s p).

Lemma valid_ext P s s' n v : fs_ok s n -> fs_ok s' n -> (forall b o, 0 <= b < n -> 2 <= b < 2 + nbitmap n -> P b o) ->
  extp P n s s' -> valid_blk s n v -> valid_blk s' n v.
Proof.
  intros O O' HP X [Hv Hf]. pose proof (ok_range _ _ O). pose proof (ok_reserved _ _ O). split; [done|]. rewrite <- Hf.
  apply (free_view s s' n v); try done; [lia|]. intros k o Hk Ho. apply (ext_view _ _ _ _ X); [lia|done|apply HP; lia].
Qed.

Lemma placed_ext P n s s' p : extp P n s s' -> placed n s p -> placed n s' p.
Proof. intros X [F C]. split; [done|]. apply (ext_cached _ _ _ _ X); [apply F|done]. Qed.

Lemma ld32_field s n p k : fs_ok s n -> placed n s p -> 0 <= k -> k + 4 <= BY2FILE -> k mod 4 = 0 ->
  ld32 (addr p + k) s = Val (field s p k) s.
Proof.
  intros O [[] C] Hk Hk2 Hm. unfold addr. rewrite <- Z.add_assoc. unfold BY2FILE in *. apply (ld32_block s n); try done; [lia|].
  dlia.
Qed.

(** ** file_block_walk *)

(** The slot of block [i]: a word of a cached block that holds [fptr]. *)
Record slot_at n s p i sb so : Prop := {
  sl_blk : 0 <= sb < n;
  sl_cached : cached s sb = true;
  sl_off : 0 <= so;
  sl_end : so + 4 <= 4096;
  sl_align : so mod 4 = 0;
  sl_where : if i <? NDIRECT then sb = p_blk p /\ so = p_off p + (136 + 4 * i)
             else sb = index_of s p /\ so = 4 * i;
  sl_val : vword s sb so = fptr s p i }.

Lemma file_block_walk_ok s n p i alloc : fs_ok s n -> plenty s -> placed n s p -> 0 <= i < NINDIRECT -> index_ok s n p i ->
  exists s' sb so, file_block_walk (addr p) i alloc s = Val (Ok (diskaddr sb + so)) s' /\
    fs_ok s' n /\ ext n s s' /\ slot_at n s' p i sb so.
Proof.
  intros O Hp Pl Hi Hx. pose proof (ok_range _ _ O) as Hn. unfold file_block_walk. unfold NDIRECT, NINDIRECT, BY2BLK, BY2PG in *.
  change (4096 / 4) with 1024 in *. destruct (Z.ltb_spec i 10) as [Hlt|Hge].
  - exists s, (p_blk p), (p_off p + (136 + 4 * i)). split; [|split; [done|split; [apply ext_refl|]]].
    { unfold f_direct, addr, mret, M_ret. do 2 f_equal. lia. }
    destruct Pl as [[] C]. unfold BY2FILE in *. split; try done; [lia|lia|dlia| |].
    + by destruct (Z.ltb_spec i NDIRECT); [|unfold NDIRECT in *; lia].
    + unfold fptr, NDIRECT. destruct (Z.ltb_spec i 10); [done|lia].
  - destruct (Z.ltb_spec i 1024); [|lia]. destruct Hx as [Hx|Hv]; [unfold NDIRECT in Hx; lia|].
    unfold f_indirect. rewrite (bind_val _ _ _ _ _ (ld32_field s n p 176 O Pl ltac:(lia) ltac:(unfold BY2FILE; lia) ltac:(done))).
    cbv beta. change (field s p 176) with (index_of s p). destruct Hv as [Hv Hf].
    destruct (Z.eqb_spec (index_of s p) 0); [lia|]. unfold bindr at 1. rewrite bind_ret. cbv beta iota.
    rewrite (bind_val _ _ _ _ _ (ld32_field s n p 176 O Pl ltac:(lia) ltac:(unfold BY2FILE; lia) ltac:(done))). cbv beta.
    change (field s p 176) with (index_of s p).
    destruct (read_block_ok s n (index_of s p) O ltac:(lia) Hf Hp) as (s' & E & O' & X & C).
    exists s', (index_of s p), (4 * i). unfold bindr. rewrite (bind_val _ _ _ _ _ E). split; [done|].
    split; [done|]. split; [done|].
    assert (Ei : index_of s' p = index_of s p).
    { unfold index_of, field. destruct Pl as [[] _]. unfold BY2FILE in *. apply (ext_vword n); (done || lia). }
    split; try done; [lia|lia|lia|dlia| |].
    + unfold NDIRECT. destruct (Z.ltb_spec i 10); [lia|]. by rewrite Ei.
    + unfold fptr, NDIRECT. destruct (Z.ltb_spec i 10); [lia|]. rewrite Ei. by destruct (Z.eqb_spec (index_of s p) 0).
Qed.

(** The functions on the view agree on states with the same bytes in the file. *)
Lemma field_ext P n s s' p k : extp P n s s' -> fits n p -> 0 <= k -> k + 4 <= BY2FILE ->
  (forall o, p_off p + k <= o < p_off p + k + 4 -> P (p_blk p) o) -> field s' p k = field s p k.
Proof.
  intros X [] Hk Hk2 HP. unfold field, BY2FILE in *. apply vword_ext. intros i Hi.
  apply (ext_view _ _ _ _ X); [done|lia|]. apply HP. lia.
Qed.

Lemma fptr_ext P n s s' p i : extp P n s s' -> fits n p -> 0 <= i < NINDIRECT ->
  (forall o, p_off p + 136 <= o < p_off p + 180 -> P (p_blk p) o) ->
  (NDIRECT <= i -> valid_blk s n (index_of s p) /\ 2 <= 2 + nbitmap n /\ forall o, P (index_of s p) o) -> fptr s' p i = fptr s p i.
Proof.
  intros X Pl Hi HP HI. unfold fptr. unfold NDIRECT, NINDIRECT, BY2BLK, BY2PG in *. change (4096 / 4) with 1024 in *.
  destruct (Z.ltb_spec i 10).
  - apply (field_ext P n); try done; [lia|unfold BY2FILE; lia|]. intros o Ho. apply HP. lia.
  - unfold index_of. rewrite (field_ext P n s s' p 176 X Pl) by (unfold BY2FILE; try lia; intros o Ho; apply HP; lia).
    change (field s p 176) with (index_of s p). destruct (HI ltac:(lia)) as ([Hv _] & H2 & HP2).
    destruct (index_of s p =? 0); [done|]. apply vword_ext. intros k Hk.
    apply (ext_view _ _ _ _ X); [lia|lia|apply HP2].
Qed.

(** ** file_map_block: the block is there, or is not and is not asked for *)
Lemma file_map_block_ok s n p i alloc : fs_ok s n -> plenty s -> placed n s p -> 0 <= i < NINDIRECT -> index_ok s n p i ->
  fptr s p i <> 0 \/ alloc = false ->
  exists s', file_map_block (addr p) i alloc s =
    Val (if fptr s p i =? 0 then Err (- E_NOT_FOUND) else Ok (fptr s p i)) s' /\ fs_ok s' n /\ ext n s s'.
Proof.
  intros O Hp Pl Hi Hx Hc. destruct (file_block_walk_ok s n p i alloc O Hp Pl Hi Hx) as (s' & sb & so & E & O' & X & SL).
  exists s'. unfold file_map_block, bindr at 1. rewrite (bind_val _ _ _ _ _ E). cbv beta iota. destruct SL.
  assert (L : ld32 (diskaddr sb + so) s' = Val (fptr s' p i) s').
  { rewrite <- sl_val0. apply (ld32_block s' n); try done. lia. }
  assert (Ef : fptr s' p i = fptr s p i).
  { apply (fptr_ext everywhere n); try done; [apply Pl|]. intros Hge. pose proof (ok_range _ _ O). split; [by destruct Hx; [lia|]|]. split; [lia|done]. }
  rewrite Ef in *. rewrite (bind_val _ _ _ _ _ L). cbv beta. split; [|done].
  destruct (Z.eqb_spec (fptr s p i) 0) as [Ez|Ez].
  - destruct Hc as [| ->]; [done|]. done.
  - unfold bindr. rewrite bind_ret. cbv beta iota. by rewrite (bind_val _ _ _ _ _ L).
Qed.

Lemma file_get_block_ok s n p i : fs_ok s n -> plenty s -> placed n s p -> 0 <= i < NINDIRECT -> index_ok s n p i ->
  valid_blk s n (fptr s p i) ->
  exists s', file_get_block (addr p) i s = Val (Ok (diskaddr (fptr s p i))) s' /\ fs_ok s' n /\ ext n s s' /\
    cached s' (fptr s p i) = true.
Proof.
  intros O Hp Pl Hi Hx Hv. pose proof (ok_range _ _ O). pose proof Hv as [Hr Hf].
  destruct (file_map_block_ok s n p i true O Hp Pl Hi Hx ltac:(left; lia)) as (s1 & E1 & O1 & X1).
  destruct (Z.eqb_spec (fptr s p i) 0); [lia|].
  assert (Hv1 : free s1 (fptr s p i) = false) by (rewrite <- Hf; apply (ext_free n); (done || lia)).
  destruct (read_block_ok s1 n (fptr s p i) O1 ltac:(lia) Hv1 (ext_plenty _ _ _ _ X1 Hp)) as (s2 & E2 & O2 & X2 & C2).
  exists s2. unfold file_get_block, bindr. rewrite (bind_val _ _ _ _ _ E1). cbv beta iota.
  rewrite (bind_val _ _ _ _ _ E2). split; [done|]. split; [done|]. split; [by apply (ext_trans _ _ _ s1)|done].
Qed.
End Files.

(** ** The specification *)

(** The names between the slashes. *)
Fixpoint split_path (path : list Z) : list (list Z) :=
  match path with
  | [] => [[]]
  | c :: path' =>
      if c =? 47 then [] :: split_path path'
      else match split_path path' with e :: r => (c :: e) :: r | [] => [[c]] end
  end.
Definition components (path : list Z) : list (list Z) := filter (fun e => e <> []) (split_path path).

Section Spec.
Context {D : Type} {HD : DiskDev D}.
Implicit Types (s : fs_st D).

(** Entry [j] of the directory block [b] has this name. *)
Definition name_at s b o (name : list Z) : bool :=
  bool_decide (map (fun k => view s b k) (zseq o (S (length name))) = name ++ [0]).
Definition entry_named s b (name : list Z) (j : Z) : bool := name_at s b (BY2FILE * j) name.

(** The first entry with the name, in the blocks [is] of the directory. *)
Fixpoint dir_scan s p (name : list Z) (l : list Z) : option (Z * Z) :=
  match l with
  | [] => None
  | i :: l' =>
      match List.find (entry_named s (fptr s p i) name) (zseq 0 16) with
      | Some j => Some (fptr s p i, j)
      | None => dir_scan s p name l'
      end
  end.
Definition dir_blocks s p : list Z := zseq 0 (Z.to_nat (size_of s p / BY2BLK)).
Definition entry (blk j : Z) : place := mkPlace blk (BY2FILE * j).
Definition dir_find s p (name : list Z) : option place :=
  match dir_scan s p name (dir_blocks s p) with Some (blk, j) => Some (entry blk j) | None => None end.

Fixpoint resolve s (names : list (list Z)) (dir : Z) (file : place) : walk_res :=
  match names with
  | [] => mkWalk 0 dir (addr file) None
  | name :: rest =>
      if MAXNAMELEN <=? Z.of_nat (length name) then mkWalk (- E_BAD_PATH) 0 0 None
      else if negb (type_of s file =? FTYPE_DIR) then mkWalk (- E_NOT_FOUND) 0 0 None
      else match dir_find s file name with
      | None => if bool_decide (rest = []) then mkWalk (- E_NOT_FOUND) (addr file) 0 (Some name)
                else mkWalk (- E_NOT_FOUND) 0 0 None
      | Some f => resolve s rest (addr file) f
      end
  end.

Definition root : place := mkPlace 1 8.

(** ** A well-formed tree

    [kd b]: block [b] holds directory entries. Every directory refers to such blocks, through
    an index block that is not one. *)
Definition dir_ok (kd : Z -> bool) s n p : Prop :=
  forall i, 0 <= i < size_of s p / BY2BLK -> i < NINDIRECT /\
    (NDIRECT <= i -> valid_blk s n (index_of s p) /\ kd (index_of s p) = false) /\
    valid_blk s n (fptr s p i) /\ kd (fptr s p i) = true.

Record tree_ok (kd : Z -> bool) s n : Prop := {
  tr_data : forall b, kd b = true -> 2 + nbitmap n <= b < n;
  tr_root : type_of s root = FTYPE_DIR -> dir_ok kd s n root;
  tr_entry : forall b j, kd b = true -> 0 <= j < 16 -> type_of s (entry b j) = FTYPE_DIR -> dir_ok kd s n (entry b j) }.

(** The bytes that lookups leave alone: all but the [f_dir] of entries. *)
Definition but_dirs (kd : Z -> bool) (b o : Z) : Prop := ~ (kd b = true /\ 180 <= o mod 256 < 184).
Abbreviation sim kd := (extp (but_dirs kd)).

(** The files of the tree. *)
Definition in_tree (kd : Z -> bool) n p : Prop :=
  fits n p /\ (p = root \/ exists j, kd (p_blk p) = true /\ 0 <= j < 16 /\ p_off p = BY2FILE * j).

Lemma in_tree_dir kd s n p : tree_ok kd s n -> in_tree kd n p -> type_of s p = FTYPE_DIR -> dir_ok kd s n p.
Proof.
  intros T [Pl [->|(j & Hk & Hj & Ho)]] Ht; [by apply (tr_root _ _ _ T)|].
  assert (E : p = entry (p_blk p) j) by (destruct p as [b o]; exact (f_equal (mkPlace b) Ho)).
  rewrite E. apply (tr_entry _ _ _ T); [done|done|]. by rewrite <- E.
Qed.

(** Bytes 0 to 179 of a file of the tree. *)
Lemma in_tree_byte kd s n p k : tree_ok kd s n -> in_tree kd n p -> 0 <= k < 180 -> but_dirs kd (p_blk p) (p_off p + k).
Proof.
  intros T [Pl [->|(j & Hk & Hj & Ho)]] Hr [H1 H2].
  - cbn [p_blk root] in H1. pose proof (tr_data _ _ _ T 1 H1). unfold nbitmap, BIT2BLK, BY2BLK, BY2PG in *. dlia.
  - rewrite Ho in H2. unfold BY2FILE in H2. dlia.
Qed.

Lemma field_sim kd s s' n p k : tree_ok kd s n -> sim kd n s s' -> in_tree kd n p -> 0 <= k -> k + 4 <= 180 ->
  field s' p k = field s p k.
Proof.
  intros T X I Hk Hk2. apply (field_ext _ n s s' p k X (proj1 I) Hk); [unfold BY2FILE; lia|].
  intros o Ho. replace o with (p_off p + (o - p_off p)) by lia. apply (in_tree_byte _ s n); try done. lia.
Qed.

Lemma fptr_sim kd s s' n p i : fs_ok s n -> tree_ok kd s n -> sim kd n s s' -> in_tree kd n p -> dir_ok kd s n p ->
  0 <= i < size_of s p / BY2BLK -> fptr s' p i = fptr s p i.
Proof.
  intros O T X I Hd Hi. pose proof (ok_range _ _ O). destruct (Hd i Hi) as (H1 & H2 & _).
  apply (fptr_ext (but_dirs kd) n); try done; [by destruct I|lia| |].
  - intros o Ho. replace o with (p_off p + (o - p_off p)) by lia. apply (in_tree_byte _ s n); try done. lia.
  - intros Hge. destruct (H2 Hge) as [Hv Hk]. split; [done|]. split; [lia|]. intros o [Hk' _]. congruence.
Qed.

Lemma valid_sim kd s s' n v : fs_ok s n -> fs_ok s' n -> tree_ok kd s n -> sim kd n s s' -> valid_blk s n v -> valid_blk s' n v.
Proof.
  intros O O' T X. apply (valid_ext (but_dirs kd)); try done. intros b o Hb Hb2 [Hk _].
  pose proof (tr_data _ _ _ T b Hk). lia.
Qed.

Lemma dir_ok_sim kd s s' n p : fs_ok s n -> fs_ok s' n -> tree_ok kd s n -> sim kd n s s' -> in_tree kd n p ->
  dir_ok kd s n p -> dir_ok kd s' n p.
Proof.
  intros O O' T X I Hd i Hi. unfold size_of in Hi. rewrite (field_sim kd s s' n p 128 T X I) in Hi by lia.
  change (field s p 128) with (size_of s p) in Hi. destruct (Hd i Hi) as (H1 & H2 & H3 & H4).
  rewrite (fptr_sim kd s s' n p i O T X I Hd Hi). unfold index_of. rewrite (field_sim kd s s' n p 176 T X I) by lia.
  change (field s p 176) with (index_of s p). split; [done|]. split; [|split; [by apply (valid_sim kd s)|done]].
  intros Hge. destruct (H2 Hge) as [Hv Hk]. split; [by apply (valid_sim kd s)|done].
Qed.

Lemma vword_sim kd s s' n b o : sim kd n s s' -> 0 <= b < n -> 0 <= o -> o + 4 <= 4096 ->
  (forall i, 0 <= i < 4 -> but_dirs kd b (o + i)) -> vword s' b o = vword s b o.
Proof. intros X Hb Ho Ho2 HP. apply vword_ext. intros i Hi. apply (ext_view _ _ _ _ X); [done|lia|by apply HP]. Qed.

Lemma tree_ok_sim kd s s' n : fs_ok s n -> fs_ok s' n -> tree_ok kd s n -> sim kd n s s' -> tree_ok kd s' n.
Proof.
  intros O O' T X. pose proof (ok_range _ _ O). pose proof (ok_reserved _ _ O).
  assert (IR : in_tree kd n root) by (split; [split; cbn [p_blk p_off root]; unfold BY2FILE; first [lia|done]|by left]).
  assert (IE : forall b j, kd b = true -> 0 <= j < 16 -> in_tree kd n (entry b j)).
  { intros b j Hk Hj. pose proof (tr_data _ _ _ T b Hk). split; [split; cbn [p_blk p_off entry]; unfold BY2FILE; first [lia|dlia]|].
    right. by exists j. }
  assert (HT : forall p, in_tree kd n p -> type_of s' p = type_of s p)
    by (intros p I; unfold type_of; apply (field_sim kd s s' n); (done || lia)).
  split.
  - apply (tr_data _ _ _ T).
  - intros Ht. apply (dir_ok_sim kd s); try done. apply (tr_root _ _ _ T). by rewrite <- HT.
  - intros b j Hk Hj Ht. apply (dir_ok_sim kd s); try done; [by apply IE|]. apply (tr_entry _ _ _ T); try done.
    rewrite <- HT; [done|by apply IE].
Qed.

(** ** Comparing names *)
Lemma streq_at_ok s n b : fs_ok s n -> 0 <= b < n -> cached s b = true -> forall name o, 0 <= o ->
  o + Z.of_nat (length name) < 4096 -> streq_at (diskaddr b + o) name s = Val (name_at s b o name) s.
Proof.
  intros O Hb Hc. induction name as [|x name IH]; intros o Ho Ho2; cbn [streq_at length] in *;
    rewrite (bind_val _ _ _ _ _ (ld8_block s n b o O Hb Hc ltac:(lia))); cbv beta.
  - unfold name_at. cbn [length zseq map app]. unfold mret, M_ret. f_equal.
    destruct (Z.eqb_spec (view s b o) 0) as [->|Hne]; [done|]. symmetry. apply bool_decide_eq_false_2. congruence.
  - destruct (Z.eqb_spec (view s b o) x) as [E|E].
    + rewrite <- Z.add_assoc, IH by lia. f_equal. unfold name_at. cbn [length]. rewrite (zseq_S o). cbn [map app].
      rewrite E. apply bool_decide_ext. split; [intros H'; exact (f_equal (cons x) H')|intros H'; by injection H'].
    + unfold mret, M_ret. f_equal. symmetry. apply bool_decide_eq_false_2. cbn [length]. rewrite zseq_S. cbn [map app]. congruence.
Qed.

(** A named entry starts with the name: two states that agree on the first bytes of the entries agree. *)
Lemma name_at_sim kd s s' n b j name : sim kd n s s' -> 0 <= b < n -> 0 <= j < 16 -> (length name < 128)%nat ->
  entry_named s' b name j = entry_named s b name j.
Proof.
  intros X Hb Hj Hl. unfold entry_named, name_at, BY2FILE.
  replace (map (fun k => view s' b k) (zseq (256 * j) (S (length name)))) with
    (map (fun k => view s b k) (zseq (256 * j) (S (length name)))); [done|].
  apply map_ext_in. intros k Hk%list_elem_of_In%elem_of_zseq. symmetry. apply (ext_view _ _ _ _ X); [done|lia|].
  intros [_ Hm]. dlia.
Qed.

Lemma find_ext_in {X} (f g : X -> bool) l : (forall x, x ∈ l -> f x = g x) -> List.find f l = List.find g l.
Proof.
  induction l as [|x l IH]; intros H; [done|]. cbn. rewrite (H x) by left. rewrite IH; [done|]. intros y Hy. apply H. by right.
Qed.

Lemma dir_scan_sim kd s s' n p name l : fs_ok s n -> tree_ok kd s n -> sim kd n s s' -> in_tree kd n p -> dir_ok kd s n p ->
  (length name < 128)%nat -> (forall i, i ∈ l -> 0 <= i < size_of s p / BY2BLK) -> dir_scan s' p name l = dir_scan s p name l.
Proof.
  intros O T X I Hd Hl. induction l as [|i l IH]; intros Hin; [done|]. cbn [dir_scan].
  pose proof (Hin i ltac:(left)) as Hi. rewrite (fptr_sim kd s s' n p i) by done.
  destruct (Hd i Hi) as (_ & _ & [Hv _] & _). pose proof (ok_range _ _ O).
  rewrite (find_ext_in (entry_named s' (fptr s p i) name) (entry_named s (fptr s p i) name)).
  - rewrite IH; [done|]. intros k Hk. apply Hin. by right.
  - intros j Hj%elem_of_zseq. apply (name_at_sim kd s s' n); try done; lia.
Qed.

(** ** dir_lookup *)

(** The inner loop, on the cached directory block [b]. *)
Definition entry_loop (dir b : Z) (name : list Z) : M (fs_st D) (option (cres Z)) :=
  for_first (zseq 0 (Z.to_nat FILE2BLK)) (fun j =>
    let f := diskaddr b + BY2FILE * j in
    e ← streq_at (f_name f) name;
    if e : bool then st32 (f_dir f) dir ;; mret (Some (Ok f)) else mret None).

Definition dir_marked s b j dir : fs_st D := stored s b (BY2FILE * j + 180) dir.

Lemma entry_loop_ok s n dir b name : fs_ok s n -> 0 <= b < n -> cached s b = true -> (length name < 128)%nat ->
  entry_loop dir b name s = match List.find (entry_named s b name) (zseq 0 16) with
    | Some j => Val (Some (Ok (diskaddr b + BY2FILE * j))) (dir_marked s b j dir)
    | None => Val None s end.
Proof.
  intros O Hb Hc Hl. unfold entry_loop. change (Z.to_nat FILE2BLK) with 16%nat.
  match goal with |- for_first _ ?f _ = _ => set (body := f) end.
  assert (HB : forall j, 0 <= j < 16 -> body j s = if entry_named s b name j
    then Val (Some (Ok (diskaddr b + BY2FILE * j))) (dir_marked s b j dir) else Val None s).
  { intros j Hj. unfold body, f_name. rewrite (bind_val _ _ _ _ _ (streq_at_ok s n b O Hb Hc name (BY2FILE * j)
      ltac:(unfold BY2FILE; lia) ltac:(unfold BY2FILE; lia))). cbv beta.
    change (name_at s b (BY2FILE * j) name) with (entry_named s b name j). destruct (entry_named s b name j); [|done].
    unfold f_dir. rewrite <- Z.add_assoc. unfold BY2FILE.
    by rewrite (bind_val _ _ _ _ _ (st32_block s n b (256 * j + 180) dir O Hb Hc ltac:(lia) ltac:(dlia))). }
  rewrite (for_first_find (entry_named s b name)).
  - pose proof (find_zseq (entry_named s b name) 16 0) as Hf. destruct (List.find _ (zseq 0 16)) as [j|]; [|done].
    destruct Hf as (Hj & E & _). by rewrite HB, E by lia.
  - intros j Hj%elem_of_zseq E. by rewrite HB, E by lia.
  - intros j Hj%elem_of_zseq E. rewrite HB, E by lia. eauto.
Qed.

(** A found entry, with its [f_dir] set. *)
Record found kd n dir s' f : Prop := {
  fo_tree : in_tree kd n f;
  fo_cached : cached s' (p_blk f) = true;
  fo_dir : is_u32 dir -> field s' f 180 = dir }.

Lemma dir_marked_ok kd s n b j dir : fs_ok s n -> tree_ok kd s n -> kd b = true -> cached s b = true -> 0 <= j < 16 ->
  fs_ok (dir_marked s b j dir) n /\ sim kd n s (dir_marked s b j dir) /\ found kd n dir (dir_marked s b j dir) (entry b j).
Proof.
  intros O T Hk Hc Hj. pose proof (ok_range _ _ O). pose proof (tr_data _ _ _ T b Hk). unfold dir_marked, BY2FILE in *.
  split; [apply fs_ok_stored; (done || lia)|]. split.
  - apply (ext_mono (except b (256 * j + 180))); [|apply stored_ext; (done || lia)].
    intros b' o _ _ Hd [-> Ho]. apply Hd. split; [done|]. dlia.
  - split; [|done|].
    + split; [split; cbn [p_blk p_off entry]; unfold BY2FILE; first [lia|dlia]|]. right. by exists j.
    + intros Hd. unfold field. cbn [p_blk p_off entry]. unfold BY2FILE. apply (vword_stored_eq _ n); (done || lia).
Qed.

Lemma find_entry_in s b name j : List.find (entry_named s b name) (zseq 0 16) = Some j -> 0 <= j < 16.
Proof. pose proof (find_zseq (entry_named s b name) 16 0) as H. intros E. rewrite E in H. lia. Qed.

Lemma dir_lookup_ok kd s n p name : fs_ok s n -> plenty s -> tree_ok kd s n -> in_tree kd n p -> cached s (p_blk p) = true ->
  dir_ok kd s n p -> (length name < 128)%nat -> exists s',
  dir_lookup (addr p) name s = Val (match dir_find s p name with Some f => Ok (addr f) | None => Err (- E_NOT_FOUND) end) s' /\
  fs_ok s' n /\ sim kd n s s' /\ forall f, dir_find s p name = Some f -> found kd n (addr p) s' f.
Proof.
  intros O Hp T I Hc Hd Hl. unfold dir_lookup, f_size, dir_find, dir_blocks.
  rewrite (bind_val _ _ _ _ _ (ld32_field s n p 128 O (conj (proj1 I) Hc) ltac:(lia) ltac:(unfold BY2FILE; lia) ltac:(done))).
  cbv beta zeta. change (field s p 128) with (size_of s p).
  assert (Hin : forall i, i ∈ zseq 0 (Z.to_nat (size_of s p / BY2BLK)) -> 0 <= i < size_of s p / BY2BLK)
    by (intros i Hi%elem_of_zseq; lia).
  revert Hin. generalize (zseq 0 (Z.to_nat (size_of s p / BY2BLK))) as l. intros l Hin.
  match goal with |- context [for_first l ?f] => set (body := f) end.
  assert (G : forall l s1, (forall i, i ∈ l -> 0 <= i < size_of s p / BY2BLK) -> fs_ok s1 n -> sim kd n s s1 -> exists s',
    for_first l body s1 = Val (match dir_scan s p name l with Some (b, j) => Some (Ok (addr (entry b j))) | None => None end) s' /\
    fs_ok s' n /\ sim kd n s s' /\
    forall b j, dir_scan s p name l = Some (b, j) -> found kd n (addr p) s' (entry b j)).
  { clear l Hin. induction l as [|i l IH]; intros s1 Hin O1 X1; cbn [for_first dir_scan].
    - exists s1. by split.
    - pose proof (Hin i ltac:(left)) as Hi. pose proof (Hd i Hi) as (Hi2 & Hx & Hv & Hk).
      assert (T1 : tree_ok kd s1 n) by (by apply (tree_ok_sim kd s)).
      assert (Ef : fptr s1 p i = fptr s p i) by (by apply (fptr_sim kd s s1 n)).
      assert (Hc1 : cached s1 (p_blk p) = true) by (apply (ext_cached _ _ _ _ X1); [apply I|done]).
      assert (Hx1 : index_ok s1 n p i).
      { destruct (Z_lt_dec i NDIRECT); [by left|right]. destruct (Hx ltac:(lia)) as [Hvx _]. unfold index_of.
        rewrite (field_sim kd s s1 n p 176) by (done || lia). by apply (valid_sim kd s). }
      assert (Hv1 : valid_blk s1 n (fptr s1 p i)) by (rewrite Ef; by apply (valid_sim kd s)).
      destruct (file_get_block_ok s1 n p i O1 (ext_plenty _ _ _ _ X1 Hp) (conj (proj1 I) Hc1) ltac:(lia) Hx1 Hv1)
        as (s2 & E2 & O2 & X2 & C2).
      assert (X12 : sim kd n s s2) by (apply (ext_trans _ _ _ s1); [done|]; by apply (ext_mono everywhere)).
      assert (T2 : tree_ok kd s2 n) by (by apply (tree_ok_sim kd s)).
      rewrite Ef in E2, C2. pose proof (ok_range _ _ O).
      assert (Hbody : body i s1 = entry_loop (addr p) (fptr s p i) name s2).
      { unfold body. rewrite (bind_val _ _ _ _ _ E2). reflexivity. }
      rewrite (entry_loop_ok s2 n (addr p) (fptr s p i) name O2 ltac:(destruct Hv; lia) C2 Hl) in Hbody.
      rewrite (find_ext_in (entry_named s2 (fptr s p i) name) (entry_named s (fptr s p i) name)) in Hbody.
      2: { intros j Hj%elem_of_zseq. destruct Hv. apply (name_at_sim kd s s2 n); (done || lia). }
      destruct (List.find (entry_named s (fptr s p i) name) (zseq 0 16)) as [j|] eqn:Ej; rewrite (bind_val _ _ _ _ _ Hbody); cbv beta iota.
      + pose proof (find_entry_in _ _ _ _ Ej) as Hj.
        destruct (dir_marked_ok kd s2 n (fptr s p i) j (addr p) O2 T2 Hk C2 Hj) as (O3 & X3 & F3).
        exists (dir_marked s2 (fptr s p i) j (addr p)). split; [done|]. split; [done|].
        split; [by apply (ext_trans _ _ _ s2)|]. by intros b j' [= <- <-].
      + apply IH; [|done|done]. intros k Hk2. apply Hin. by right. }
  destruct (G l s Hin O (ext_refl _ _ _)) as (s' & E & O' & X & F). exists s'. rewrite (bind_val _ _ _ _ _ E). cbv beta.
  destruct (dir_scan s p name l) as [[b j]|]; (split; [done|]); split; try done; split; try done.
  intros f [= <-]. by apply F.
Qed.

(** ** Paths as lists of names *)
Lemma split_path_cons path : exists e r, split_path path = e :: r.
Proof.
  destruct path as [|c path]; [by exists [], []|]. cbn [split_path]. destruct (c =? 47); [by exists [], (split_path path)|].
  destruct (split_path path) as [|e r]; [by exists [c], []|by exists (c :: e), r].
Qed.

Lemma components_slash path : components (47 :: path) = components path.
Proof. unfold components. cbn [split_path Z.eqb Pos.eqb]. by rewrite filter_cons_False by tauto. Qed.

Lemma components_skip path : components (skip_slash path) = components path.
Proof.
  induction path as [|c path IH]; [done|]. cbn [skip_slash]. destruct (Z.eqb_spec c 47) as [->|]; [|done].
  by rewrite IH, components_slash.
Qed.

Lemma path_elem_split path : split_path path = (path_elem path).1 ::
  match (path_elem path).2 with [] => [] | _ :: r => split_path r end.
Proof.
  induction path as [|c path IH]; [done|]. cbn [split_path path_elem]. destruct (Z.eqb_spec c 47); [done|].
  rewrite IH. by destruct (path_elem path) as [e [|x r]].
Qed.

Lemma path_elem_slash path : match (path_elem path).2 with [] => True | c :: _ => c = 47 end.
Proof.
  induction path as [|c path IH]; [done|]. cbn [path_elem]. destruct (Z.eqb_spec c 47) as [->|]; [done|].
  by destruct (path_elem path).
Qed.

Lemma path_elem_length path : (length (path_elem path).1 + length (path_elem path).2 = length path)%nat.
Proof.
  induction path as [|c path IH]; [done|]. cbn [path_elem]. destruct (c =? 47); [done|].
  destruct (path_elem path) as [e r]. cbn in *. lia.
Qed.

Lemma skip_slash_length path : (length (skip_slash path) <= length path)%nat.
Proof. induction path as [|c path IH]; [done|]. cbn. destruct (c =? 47); cbn; lia. Qed.

(** No leading slash. *)
Definition stripped (path : list Z) : Prop := match path with [] => True | c :: _ => c <> 47 end.

Lemma skip_slash_stripped path : stripped (skip_slash path).
Proof. induction path as [|c path IH]; [done|]. cbn [skip_slash]. by destruct (Z.eqb_spec c 47). Qed.

(** The first name of a path and what follows its slashes. *)
Lemma components_elem path : path <> [] -> stripped path ->
  components path = (path_elem path).1 :: components (skip_slash (path_elem path).2) /\ (path_elem path).1 <> [].
Proof.
  intros Hne Hs. assert (He : (path_elem path).1 <> []).
  { destruct path as [|c path]; [done|]. cbn [path_elem]. destruct (Z.eqb_spec c 47); [done|]. by destruct (path_elem path). }
  split; [|done]. unfold components at 1. rewrite path_elem_split, filter_cons_True by done. f_equal.
  pose proof (path_elem_slash path) as Hsl. rewrite components_skip. destruct ((path_elem path).2) as [|c r]; [done|].
  subst c. by rewrite components_slash.
Qed.

Lemma components_nil path : stripped path -> (components path = [] <-> path = []).
Proof.
  intros Hs. split; [|by intros ->]. intros E. destruct path as [|c path]; [done|].
  destruct (components_elem (c :: path)) as [E' _]; [done|done|]. congruence.
Qed.

(** ** walk_path *)
Lemma dir_scan_in kd s n p name l b j : dir_ok kd s n p -> (forall i, i ∈ l -> 0 <= i < size_of s p / BY2BLK) ->
  dir_scan s p name l = Some (b, j) -> kd b = true /\ 0 <= j < 16.
Proof.
  intros Hd. induction l as [|i l IH]; intros Hin E; [done|]. cbn [dir_scan] in E.
  destruct (List.find _ _) as [j'|] eqn:Ef.
  - injection E as <- <-. destruct (Hd i (Hin i ltac:(left))) as (_ & _ & _ & Hk). split; [done|].
    by apply find_entry_in in Ef.
  - apply IH; [|done]. intros k Hk. apply Hin. by right.
Qed.

Lemma entry_in_tree kd s n b j : fs_ok s n -> tree_ok kd s n -> kd b = true -> 0 <= j < 16 -> in_tree kd n (entry b j).
Proof.
  intros O T Hk Hj. pose proof (ok_range _ _ O). pose proof (tr_data _ _ _ T b Hk).
  split; [split; cbn [p_blk p_off entry]; unfold BY2FILE; first [lia|dlia]|]. right. by exists j.
Qed.

Lemma dir_blocks_in s p i : i ∈ dir_blocks s p -> 0 <= i < size_of s p / BY2BLK.
Proof. unfold dir_blocks. rewrite elem_of_zseq. lia. Qed.

Lemma resolve_sim kd s s' n : fs_ok s n -> tree_ok kd s n -> sim kd n s s' -> forall names dir p, in_tree kd n p ->
  resolve s' names dir p = resolve s names dir p.
Proof.
  intros O T X. induction names as [|name names IH]; intros dir p I; [done|]. cbn [resolve].
  destruct (Z.leb_spec MAXNAMELEN (Z.of_nat (length name))); [done|]. unfold MAXNAMELEN in *.
  replace (type_of s' p) with (type_of s p) by (symmetry; apply (field_sim kd s s' n p 132 T X I); lia).
  destruct (Z.eqb_spec (type_of s p) FTYPE_DIR) as [Et|]; [|done]. cbn [negb].
  pose proof (in_tree_dir kd s n p T I Et) as Hd.
  assert (Ef : dir_find s' p name = dir_find s p name).
  { unfold dir_find. replace (dir_blocks s' p) with (dir_blocks s p)
      by (unfold dir_blocks, size_of; by rewrite (field_sim kd s s' n p 128 T X I) by lia).
    rewrite (dir_scan_sim kd s s' n p name _ O T X I Hd); [done|lia|]. apply dir_blocks_in. }
  rewrite Ef. unfold dir_find. destruct (dir_scan s p name (dir_blocks s p)) as [[b j]|] eqn:Es; [|done].
  destruct (dir_scan_in kd s n p name _ b j Hd (dir_blocks_in s p) Es). apply IH. by apply (entry_in_tree kd s).
Qed.

Lemma walk_loop_ok kd n : forall fuel path dir p s, fs_ok s n -> plenty s -> tree_ok kd s n -> in_tree kd n p ->
  cached s (p_blk p) = true -> stripped path -> (length path <= fuel)%nat ->
  exists s', walk_loop fuel path dir (addr p) s = Val (resolve s (components path) dir p) s' /\ fs_ok s' n /\ sim kd n s s'.
Proof.
  induction fuel as [|fuel IH]; intros path dir p s O Hp T I Hc Hs Hf.
  { destruct path; [|cbn in Hf; lia]. exists s. split; [done|]. split; [done|apply ext_refl]. }
  destruct (decide (path = [])) as [->|Hne]; [exists s; split; [done|]; split; [done|apply ext_refl]|].
  destruct (components_elem path Hne Hs) as [Ec Hne2]. pose proof (path_elem_length path) as Hlen.
  assert (E0 : walk_loop (S fuel) path dir (addr p) = (let '(name, path) := path_elem path in
    if MAXNAMELEN <=? Z.of_nat (length name) then mret (mkWalk (- E_BAD_PATH) 0 0 None)
    else ty ← ld32 (f_type (addr p)); if negb (ty =? FTYPE_DIR) then mret (mkWalk (- E_NOT_FOUND) 0 0 None)
      else r ← dir_lookup (addr p) name; match r with
        | Err e => if (e =? - E_NOT_FOUND) && bool_decide (skip_slash path = []) then mret (mkWalk e (addr p) 0 (Some name))
                   else mret (mkWalk e 0 0 None)
        | Ok file => walk_loop fuel (skip_slash path) (addr p) file end)) by (destruct path; [done|reflexivity]).
  rewrite E0, Ec. destruct (path_elem path) as [name rest]. cbn [fst snd] in *. cbn [resolve].
  destruct (Z.leb_spec MAXNAMELEN (Z.of_nat (length name)));
    [exists s; split; [done|]; split; [done|apply ext_refl]|]. unfold MAXNAMELEN in *.
  unfold f_type. rewrite (bind_val _ _ _ _ _ (ld32_field s n p 132 O (conj (proj1 I) Hc) ltac:(lia) ltac:(unfold BY2FILE; lia) ltac:(done))).
  cbv beta. change (field s p 132) with (type_of s p).
  destruct (Z.eqb_spec (type_of s p) FTYPE_DIR) as [Et|]; cbn [negb];
    [|exists s; split; [done|]; split; [done|apply ext_refl]].
  pose proof (in_tree_dir kd s n p T I Et) as Hd.
  destruct (dir_lookup_ok kd s n p name O Hp T I Hc Hd ltac:(lia)) as (s1 & E1 & O1 & X1 & F1).
  rewrite (bind_val _ _ _ _ _ E1). cbv beta.
  destruct (dir_find s p name) as [f|].
  - destruct (F1 f eq_refl) as [If Cf _]. pose proof (tree_ok_sim kd s s1 n O O1 T X1) as T1.
    pose proof (skip_slash_length rest).
    assert (length name <> 0)%nat by (by destruct name).
    destruct (IH (skip_slash rest) (addr p) f s1 O1 (ext_plenty _ _ _ _ X1 Hp) T1 If Cf (skip_slash_stripped rest) ltac:(lia))
      as (s2 & E2 & O2 & X2).
    exists s2. rewrite E2. rewrite (resolve_sim kd s s1 n O T X1 _ _ _ If). split; [done|]. split; [done|].
    by apply (ext_trans _ _ _ s1).
  - exists s1. rewrite Z.eqb_refl. cbn [andb].
    pose proof (components_nil (skip_slash rest) (skip_slash_stripped rest)) as Hn.
    destruct (decide (skip_slash rest = [])) as [En|En].
    + rewrite En, bool_decide_eq_true_2 by done. rewrite bool_decide_eq_true_2 by done. done.
    + rewrite !bool_decide_eq_false_2 by tauto. done.
Qed.
End Spec.


Section Paths.
Context {D : Type} {HD : DiskDev D}.
Implicit Types (s : fs_st D).

Lemma walk_path_ok kd s n path : fs_ok s n -> plenty s -> tree_ok kd s n -> exists s',
  walk_path path s = Val (resolve s (components path) 0 root) s' /\ fs_ok s' n /\ tree_ok kd s' n /\
  extp (but_dirs kd) n s s'.
Proof.
  intros O Hp T. pose proof (ok_range _ _ O). pose proof (ok_reserved _ _ O). unfold walk_path. rewrite bind_gets.
  replace (s_root (super s)) with (addr root) by (unfold s_root; by rewrite (ok_super _ _ O)).
  assert (I : in_tree kd n root) by (split; [split; cbn [p_blk p_off root]; unfold BY2FILE; first [lia|done]|by left]).
  destruct (walk_loop_ok kd n (length path) (skip_slash path) 0 root s O Hp T I
    ltac:(apply (ok_cached _ _ O); cbn [p_blk root]; lia) (skip_slash_stripped path) (skip_slash_length path))
    as (s' & E & O' & X).
  exists s'. rewrite E, components_skip. split; [done|]. split; [done|]. split; [|done]. by apply (tree_ok_sim kd s).
Qed.

(** C8: [walk_path] refines the search [resolve] in a well-formed directory tree: it follows the
    names between the slashes (repeated, leading and trailing slashes do not count), takes the
    first entry of that name in each directory, and returns the same result, directory, file and
    last name; an overlong name gives [-E_BAD_PATH], a missing name or a file in the middle of
    the path [-E_NOT_FOUND]. It terminates on every path and changes nothing but the [f_dir]
    fields of directory entries and which blocks are cached. *)
Theorem walk_path_correct kd s n path : fs_ok s n -> plenty s -> tree_ok kd s n -> exists s',
  walk_path path s = Val (resolve s (components path) 0 root) s' /\ fs_ok s' n /\ tree_ok kd s' n /\
  (forall b o, 0 <= b < n -> 0 <= o < 4096 -> ~ (kd b = true /\ 180 <= o mod 256 < 184) -> view s' b o = view s b o).
Proof.
  intros O Hp T. destruct (walk_path_ok kd s n path O Hp T) as (s' & E & O' & T' & X). exists s'.
  split; [done|]. split; [done|]. split; [done|]. intros b o Hb Ho HP. by apply (ext_view _ _ _ _ X).
Qed.
End Paths.

(** In the file system [demo] block 3 holds directory entries. *)
Definition demo_kd (b : Z) : bool := b =? 3.

Lemma demo_no_dir j : 0 <= j < 16 -> size_of demo (entry 3 j) / BY2BLK = 0.
Proof.
  intros Hj. assert (j = 0 \/ j = 1 \/ j = 2 \/ j = 3 \/ j = 4 \/ j = 5 \/ j = 6 \/ j = 7 \/ j = 8 \/ j = 9 \/ j = 10 \/ j = 11 \/
    j = 12 \/ j = 13 \/ j = 14 \/ j = 15) as HH by lia.
  repeat (destruct HH as [-> | HH]; [by vm_compute|]). subst j. by vm_compute.
Qed.

Lemma demo_tree : tree_ok demo_kd demo 8.
Proof.
  split.
  - intros b Hb%Z.eqb_eq. subst b. by vm_compute.
  - intros _ i Hi. change (size_of demo root / BY2BLK) with 1 in Hi. assert (i = 0) as -> by lia.
    change (fptr demo root 0) with 3. split; [by vm_compute|]. split; [by vm_compute|].
    split; [|done]. by split; [vm_compute|rewrite demo_free].
  - intros b j Hb%Z.eqb_eq Hj _ i Hi. subst b. rewrite demo_no_dir in Hi by done. lia.
Qed.

(** ["//d/x"]: [x] is missing in the directory [d]. *)
Lemma walk_path_correct_witness : exists s',
  walk_path [47; 47; 100; 47; 120] demo = Val (mkWalk (- E_NOT_FOUND) (diskaddr 3 + 256) 0 (Some [120])) s' /\ fs_ok s' 8.
Proof.
  destruct (walk_path_correct demo_kd demo 8 [47; 47; 100; 47; 120] demo_ok demo_plenty demo_tree) as (s' & E & O & _).
  exists s'. split; [|exact O]. rewrite E. reflexivity.
Defined.
