(* ===== verification/FsFormat.v ===== *)
(** * Building the image of the disk (tools/fsformat.c)

    The tool runs on the host. Its memory is the array [disk] followed by the super block:
    byte [o] of [disk[b].data] is at address [b * 4096 + o], [super] is at [SUPER], and a
    [struct File *] is an address. [btype] has the [type] of each block. The files and
    directories of the host are values of [hnode]; the host's calls succeed, and [read]
    returns a full block as long as there is one. *)

From Stdlib Require Import ZArith Lia.
From stdpp Require Import base numbers list gmap strings.
From S2P Require Import Prelude Mmu Str StrThms Wp KState Elf Signo Env TlbEx Syscall Ide Fs.

Definition NBLOCK := 1024.
Definition nbitblock := (NBLOCK + BIT2BLK - 1) / BIT2BLK.
Definition SUPER := NBLOCK * BY2BLK.
Definition sizeof_Super := 264.

Definition BLOCK_FREE := 0.
Definition BLOCK_BOOT := 1.
Definition BLOCK_BMAP := 2.
Definition BLOCK_SUPER := 3.
Definition BLOCK_DATA := 4.
Definition BLOCK_FILE := 5.
Definition BLOCK_INDEX := 6.

(** A file of the host with its content, or a directory with its entries in the order of
    [readdir]. *)
Inductive hnode :=
| HFile (content : list Z)
| HDir (entries : list (list Z * hnode)).

Record img := mkImg { mem : bmem; btype : gmap Z Z; nextbno : Z }.
Definition set_mem (v : bmem) (s : img) : img := mkImg v (btype s) (nextbno s).

Abbreviation H := (M img).

(** ** Memory *)
Definition get8 (a : Z) : H Z := gets (fun s => rd8 (mem s) a).
Definition get32 (a : Z) : H Z := gets (fun s => rd32 (mem s) a).
Definition put32 (a v : Z) : H unit := modify (fun s => set_mem (wr32 (mem s) a v) s).
Definition put_bytes (a : Z) (bs : list Z) : H unit := modify (fun s => set_mem (wr_bytes (mem s) a bs) s).
Definition memset (a v n : Z) : H unit := put_bytes a (replicate (Z.to_nat n) v).

(** [disk[bno].data] *)
Definition block (bno : Z) : H Z :=
  if (0 <=? bno) && (bno <? NBLOCK) then mret (bno * BY2BLK) else undef "disk[bno]".

(** The root directory, in [super]. *)
Definition root_dir : Z := s_root SUPER.

(** ** Byte order: with CONFIG_REVERSE_ENDIAN the words of the image are turned around *)
Definition reverse (p : Z) : H unit :=
  y ← get32 p;
  put_bytes p [u8 (Z.shiftr y 24); u8 (Z.shiftr y 16); u8 (Z.shiftr y 8); u8 y].

Definition reverse_file (ff : Z) : H unit :=
  reverse (f_size ff) ;; reverse (f_type ff) ;;
  for_each (zseq 0 (Z.to_nat NDIRECT)) (fun i => reverse (f_direct ff i)) ;;
  reverse (f_indirect ff).

(** The loop over the files of a directory block stops at the first without a name. *)
Fixpoint reverse_files (l : list Z) (b : Z) : H unit :=
  match l with
  | [] => mret tt
  | i :: l' =>
      let ff := b * BY2BLK + BY2FILE * i in
      c ← get8 (f_name ff);
      if c =? 0 then mret tt else reverse_file ff ;; reverse_files l' b
  end.

Definition reverse_block (b : Z) : H unit :=
  ty ← gets (fun s => default 0 (btype s !! b));
  let a := b * BY2BLK in
  if ty =? BLOCK_SUPER then reverse (s_magic a) ;; reverse (s_nblocks a) ;; reverse_file (s_root a)
  else if ty =? BLOCK_FILE then reverse_files (zseq 0 (Z.to_nat FILE2BLK)) b
  else if (ty =? BLOCK_INDEX) || (ty =? BLOCK_BMAP) then
    for_each (zseq 0 (Z.to_nat (BY2BLK / 4))) (fun i => reverse (a + 4 * i))
  else mret tt.

(** ** init_disk *)
Definition set_type (b ty : Z) : H unit := modify (fun s => mkImg (mem s) (<[b := ty]> (btype s)) (nextbno s)).

Definition init_disk : H unit :=
  set_type 0 BLOCK_BOOT ;;
  modify (fun s => mkImg (mem s) (btype s) (2 + nbitblock)) ;;
  for_each (zseq 0 (Z.to_nat nbitblock)) (fun i => set_type (2 + i) BLOCK_BMAP) ;;
  for_each (zseq 0 (Z.to_nat nbitblock)) (fun i => memset ((2 + i) * BY2BLK) 255 BY2BLK) ;;
  (if negb (NBLOCK =? nbitblock * BIT2BLK) then
     let diff := NBLOCK mod BIT2BLK / 8 in
     memset ((2 + (nbitblock - 1)) * BY2BLK + diff) 0 (BY2BLK - diff)
   else mret tt) ;;
  set_type 1 BLOCK_SUPER ;;
  put32 (s_magic SUPER) FS_MAGIC ;;
  put32 (s_nblocks SUPER) NBLOCK ;;
  put32 (f_type root_dir) FTYPE_DIR ;;
  put_bytes (f_name root_dir) [47; 0].

(** ** Blocks *)

(** The array is not guarded: block NBLOCK is past its end. *)
Definition next_block (ty : Z) : H Z :=
  nb ← gets nextbno;
  if NBLOCK <=? nb then undef "disk[nextbno]" else
  set_type nb ty ;;
  modify (fun s => mkImg (mem s) (btype s) (nb + 1)) ;;
  mret nb.

Definition flush_bitmap : H unit :=
  nb ← gets nextbno;
  for_each (zseq 0 (Z.to_nat nb)) (fun i =>
    a ← block (2 + i / BIT2BLK);
    let p := a + 4 * (i mod BIT2BLK / 32) in
    w ← get32 p;
    put32 p (Z.land w (u32 (Z.lnot (Z.shiftl 1 (i mod 32)))))).

Definition save_block_link (f nblk bno : Z) : H unit :=
  assert "nblk < NINDIRECT" (nblk <? NINDIRECT) ;;
  if nblk <? NDIRECT then put32 (f_direct f nblk) bno
  else
    x ← get32 (f_indirect f);
    (if x =? 0 then x ← next_block BLOCK_INDEX; put32 (f_indirect f) x else mret tt) ;;
    x ← get32 (f_indirect f);
    a ← block x;
    put32 (a + 4 * nblk) bno.

Definition make_link_block (dirf nblk : Z) : H Z :=
  bno ← next_block BLOCK_FILE;
  save_block_link dirf nblk bno ;;
  size ← get32 (f_size dirf);
  put32 (f_size dirf) (u32 (size + BY2BLK)) ;;
  mret bno.

(** ** Files and directories *)

(** Block [i] of the directory. *)
Definition dir_block (dirf i : Z) : H Z :=
  bno ← (if i <? 10 then get32 (f_direct dirf i)
         else x ← get32 (f_indirect dirf); a ← block x; get32 (a + 4 * i));
  block bno.

Definition create_file (dirf : Z) : H Z :=
  size ← get32 (f_size dirf);
  let nblk := size / BY2BLK in
  r ← for_first (zseq 0 (Z.to_nat nblk)) (fun i =>
    blk ← dir_block dirf i;
    for_first (zseq 0 (Z.to_nat FILE2BLK)) (fun j =>
      c ← get8 (f_name (blk + BY2FILE * j));
      if c =? 0 then mret (Some (blk + BY2FILE * j)) else mret None));
  match r with
  | Some f => mret f
  | None => bno ← make_link_block dirf nblk; block bno
  end.

(** [while ((r = read(fd, disk[nextbno].data, n)) > 0)]: [content] is what is left to read. *)
Fixpoint write_content (n : nat) (target iblk : Z) (content : list Z) : H unit :=
  match content with
  | [] => mret tt
  | _ =>
      match n with
      | O => undef "the file does not end"
      | S n' =>
          nb ← gets nextbno;
          a ← block nb;
          put_bytes a (take (Z.to_nat BY2BLK) content) ;;
          b ← next_block BLOCK_DATA;
          save_block_link target iblk b ;;
          write_content n' target (iblk + 1) (drop (Z.to_nat BY2BLK) content)
      end
  end.

(** [strcpy(target->f_name, fname)] *)
Definition copy_name (target : Z) (name : list Z) : H unit :=
  if MAXNAMELEN <=? Z.of_nat (length name) then undef "strcpy past f_name" else put_bytes (f_name target) (name ++ [0]).

Definition write_file (dirf : Z) (name content : list Z) : H unit :=
  target ← create_file dirf;
  copy_name target name ;;
  put32 (f_size target) (u32 (Z.of_nat (length content))) ;;
  put32 (f_type target) FTYPE_REG ;;
  write_content (length content) target 0 content.

(** [strncpy(pdir->f_name, name, MAXNAMELEN - 1)]: at most 127 characters, the rest of the 127
    is zero. *)
Definition strncpy_name (pdir : Z) (name : list Z) : H unit :=
  let l := take 127 name in put_bytes (f_name pdir) (l ++ replicate (127 - length l) 0).

Definition dot : list Z := [46].
Definition dotdot : list Z := [46; 46].

(** [write_file] or [write_directory] on an entry [name] of the host. *)
Fixpoint write_node (nd : hnode) (dirf : Z) (name : list Z) {struct nd} : H unit :=
  match nd with
  | HFile content => write_file dirf name content
  | HDir entries =>
      pdir ← create_file dirf;
      strncpy_name pdir name ;;
      c ← get8 (f_name pdir + (MAXNAMELEN - 1));
      (if negb (c =? 0) then panic "file name is too long" else mret tt) ;;
      put32 (f_type pdir) FTYPE_DIR ;;
      (fix write_entries (l : list (list Z * hnode)) : H unit :=
        match l with
        | [] => mret tt
        | (n, e) :: l' =>
            (if bool_decide (n = dot) || bool_decide (n = dotdot) then mret tt else write_node e pdir n) ;;
            write_entries l'
        end) entries
  end.

(** ** main *)

(** The bytes of the image. *)
Definition finish_fs (rev : bool) : H bmem :=
  m ← gets mem;
  put_bytes (1 * BY2BLK) (map (fun k => rd8 m (SUPER + k)) (zseq 0 (Z.to_nat sizeof_Super))) ;;
  (if rev then for_each (zseq 0 (Z.to_nat NBLOCK)) reverse_block else mret tt) ;;
  gets mem.

(** [args] is [argv + 2]. *)
Definition main (rev : bool) (args : list (list Z * hnode)) : H bmem :=
  init_disk ;;
  assert "Usage: fsformat <img-file> [files or directories]..." (negb (Z.of_nat (length args) + 2 <? 3)) ;;
  for_each args (fun '(name, nd) => write_node nd root_dir name) ;;
  flush_bitmap ;;
  finish_fs rev.

(** The tool's memory at its start. *)
Definition img0 : img := mkImg ∅ ∅ 0.
