(* ===== verification/FsFormatDir.v ===== *)
(** * The image builder: links and directories (tools/fsformat.c: save_block_link, make_link_block, create_file)

    What a [struct File] in the tool's memory links to, and the steps that extend it; the
    entries of a directory. *)

From Stdlib Require Import ZArith Lia.
From stdpp Require Import base numbers list gmap strings.
From S2P Require Import Prelude Mmu KState Elf Signo Env TlbEx Syscall Str StrThms Wp Ide Fs FsCache FsFormat.

(** Block [i] of the file at [p]. *)
Definition blk (m : bmem) (p i : Z) : Z :=
  if i <? 10 then rd32 m (f_direct p i) else rd32 m (rd32 m (f_indirect p) * 4096 + 4 * i).
Definition idx (m : bmem) (p : Z) : Z := rd32 m (f_indirect p).

Lemma blk_lo m p i : i < 10 -> blk m p i = rd32 m (f_direct p i).
Proof. intros H. unfold blk. by destruct (Z.ltb_spec i 10); [|lia]. Qed.
Lemma blk_hi m p i : 10 <= i -> blk m p i = rd32 m (idx m p * 4096 + 4 * i).
Proof. intros H. unfold blk. by destruct (Z.ltb_spec i 10); [lia|]. Qed.

(** The file has [B] blocks, all of them, and the index block, in [lo .. nb). *)
Record links (m : bmem) (p B lo nb : Z) : Prop := {
  lk_count : 0 <= B <= NINDIRECT;
  lk_fit : B <= nb - lo;
  lk_range : forall i, 0 <= i < B -> lo <= blk m p i < nb;
  lk_inj : forall i j, 0 <= i < B -> 0 <= j < B -> blk m p i = blk m p j -> i = j;
  lk_none : B <= 10 -> idx m p = 0;
  lk_idx : 10 < B -> lo <= idx m p < nb /\ forall i, 0 <= i < B -> blk m p i <> idx m p }.

(** Blocks not handed out yet are zero. *)
Definition zeros (m : bmem) (nb : Z) : Prop := forall a, nb * 4096 <= a < SUPER -> rd8 m a = 0.

(** The [struct File] at [p] is not in the blocks from [lo] on. *)
Record outside (p lo : Z) : Prop := {
  out_pos : 0 <= p;
  out_low : 3 <= lo <= NBLOCK;
  out_far : p + 256 <= lo * 4096 \/ SUPER <= p }.

Definition same_on (P : Z -> Prop) (m m' : bmem) : Prop := forall a, P a -> rd8 m' a = rd8 m a.

Lemma same_rd32 P m m' a : same_on P m m' -> (forall i, 0 <= i < 4 -> P (a + i)) -> rd32 m' a = rd32 m a.
Proof. intros S H. apply rd32_ext. intros i Hi. by apply S, H. Qed.

Lemma SUPER_val : SUPER = 4194304.
Proof. reflexivity. Qed.

Lemma rd32_zeros m nb a : zeros m nb -> nb * 4096 <= a -> a + 4 <= SUPER -> rd32 m a = 0.
Proof.
  intros Z Ha Hb. unfold rd32. pose proof (Z a) as H0. pose proof (Z (a + 1)) as H1. pose proof (Z (a + 2)) as H2. pose proof (Z (a + 3)) as H3.
  rewrite H0, H1, H2, H3 by lia. done.
Qed.

(** The bytes a file's links are in, a range of the record and the index block, and its size. *)
Definition lmeta (m : bmem) (p B a : Z) : Prop :=
  p + 136 <= a < p + 180 \/ (10 < B /\ idx m p * 4096 <= a < idx m p * 4096 + 4096).
Definition meta (m : bmem) (p B a : Z) : Prop := p + 128 <= a < p + 132 \/ lmeta m p B a.

Lemma same_mono (P Q : Z -> Prop) m m' : same_on P m m' -> (forall a, Q a -> P a) -> same_on Q m m'.
Proof. intros S H a Ha. by apply S, H. Qed.

Lemma same_links m m' p B : same_on (meta m p B) m m' -> same_on (lmeta m p B) m m'.
Proof. intros S. apply (same_mono _ _ _ _ S). by right. Qed.

Lemma same_size m m' p B : same_on (meta m p B) m m' -> rd32 m' (f_size p) = rd32 m (f_size p).
Proof. intros S. apply (same_rd32 _ _ _ _ S). intros i Hi. left. unfold f_size. lia. Qed.

(** A record that is copied to [p'], with the index block unchanged, has the same links. *)
Definition same_rec (m m' : bmem) (p p' : Z) : Prop := forall k, 136 <= k < 180 -> rd8 m' (p' + k) = rd8 m (p + k).

Section Move.
Context (m m' : bmem) (p p' B lo nb : Z) (L : links m p B lo nb) (R : same_rec m m' p p').
Context (I : 10 < B -> same_on (fun a => idx m p * 4096 <= a < idx m p * 4096 + 4096) m m').

Lemma rec_word k : 136 <= k -> k + 4 <= 180 -> rd32 m' (p' + k) = rd32 m (p + k).
Proof using R.
  intros H1 H2. unfold rd32. pose proof (R k ltac:(lia)) as H0. rewrite <- !Z.add_assoc, H0. by rewrite !R by lia.
Qed.

Lemma move_idx : idx m' p' = idx m p.
Proof using R. apply rec_word; lia. Qed.

Lemma move_blk i : 0 <= i < B -> blk m' p' i = blk m p i.
Proof using All.
  intros Hi. destruct (Z.lt_ge_cases i 10) as [Hd|Hd].
  - rewrite !blk_lo by done. unfold f_direct. rewrite <- !Z.add_assoc. apply rec_word; lia.
  - rewrite !blk_hi by done. rewrite move_idx. pose proof (lk_count _ _ _ _ _ L) as Hc. change NINDIRECT with 1024 in Hc.
    apply (same_rd32 _ _ _ _ (I ltac:(lia))). intros k Hk. lia.
Qed.

Lemma move_links nb' : nb <= nb' -> links m' p' B lo nb'.
Proof using All.
  intros Hnb. pose proof move_blk as E. destruct L as [C T Ra Ij N X]. split; [done|lia| | | |].
  - intros i Hi. rewrite E by done. specialize (Ra i Hi). lia.
  - intros i j Hi Hj. rewrite !E by done. by apply Ij.
  - intros Hb. rewrite move_idx. by apply N.
  - intros Hb. rewrite move_idx. destruct (X Hb) as [X1 X2]. split; [lia|]. intros i Hi. rewrite E by done. by apply X2.
Qed.
End Move.

Section Keep.
Context (m m' : bmem) (p B lo nb : Z) (L : links m p B lo nb) (K : same_on (lmeta m p B) m m').

Lemma keep_rec : same_rec m m' p p.
Proof using K. intros k Hk. apply K. unfold lmeta. lia. Qed.
Lemma keep_index : 10 < B -> same_on (fun a => idx m p * 4096 <= a < idx m p * 4096 + 4096) m m'.
Proof using K. intros HB a Ha. apply K. unfold lmeta. lia. Qed.

Lemma keep_idx : idx m' p = idx m p.
Proof using K. apply move_idx, keep_rec. Qed.
Lemma keep_blk i : 0 <= i < B -> blk m' p i = blk m p i.
Proof using K L. apply (move_blk m m' p p B lo nb L keep_rec keep_index). Qed.
Lemma keep_links nb' : nb <= nb' -> links m' p B lo nb'.
Proof using K L. apply (move_links m m' p p B lo nb L keep_rec keep_index). Qed.
End Keep.

Lemma links_mono m p B lo nb nb' : links m p B lo nb -> nb <= nb' -> links m p B lo nb'.
Proof. intros L H. by apply (keep_links m m p B lo nb L). Qed.

(** ** next_block *)
Definition took (ty : Z) (s : img) : img := mkImg (mem s) (<[nextbno s := ty]> (btype s)) (nextbno s + 1).

Lemma next_block_ok ty s : nextbno s < NBLOCK -> next_block ty s = Val (nextbno s) (took ty s).
Proof. intros H. unfold next_block. msteps. destruct (Z.leb_spec NBLOCK (nextbno s)); [lia|]. done. Qed.

Lemma block_ok b s : 0 <= b < NBLOCK -> block b s = Val (b * 4096) s.
Proof. intros H. unfold block. destruct (Z.leb_spec 0 b), (Z.ltb_spec b NBLOCK); (done || lia). Qed.

Lemma zeros_mono m nb nb' : zeros m nb -> nb <= nb' -> zeros m nb'.
Proof. intros Z H a Ha. apply Z. lia. Qed.

(** ** save_block_link *)
Section Link.
Context (s : img) (p B lo b : Z).
Let m := mem s.
Let nb := nextbno s.
Context (L : links m p B lo nb) (Z0 : zeros m nb) (O : outside p lo) (Hlo : lo <= nb).
Context (Hb : lo <= b < nb) (Hnew : forall i, 0 <= i < B -> blk m p i <> b) (Hnx : 10 < B -> b <> idx m p).
Context (HB : B + 1 <= nb - lo) (Hroom : nb + (if B =? 10 then 1 else 0) <= NBLOCK).

(** After the link is saved in [s']. *)
Record linked (s' : img) : Prop := {
  ld_links : links (mem s') p (B + 1) lo (nextbno s');
  ld_new : blk (mem s') p B = b;
  ld_old : forall i, 0 <= i < B -> blk (mem s') p i = blk m p i;
  ld_next : nextbno s' = nb + (if B =? 10 then 1 else 0);
  ld_zeros : zeros (mem s') (nextbno s');
  ld_idx : idx (mem s') p = if B =? 10 then nb else idx m p;
  ld_frame : forall a, ~ (p + 136 <= a < p + 180) -> ~ (10 <= B /\ idx (mem s') p * 4096 <= a < idx (mem s') p * 4096 + 4096) ->
    rd8 (mem s') a = rd8 m a }.

Lemma linked_intro s' m' : mem s' = m' -> nextbno s' = nb + (if B =? 10 then 1 else 0) ->
  blk m' p B = b -> (forall i, 0 <= i < B -> blk m' p i = blk m p i) -> idx m' p = (if B =? 10 then nb else idx m p) ->
  (forall a, ~ (p + 136 <= a < p + 180) -> ~ (10 <= B /\ idx m' p * 4096 <= a < idx m' p * 4096 + 4096) -> rd8 m' a = rd8 m a) ->
  linked s'.
Proof using All.
  intros Em En Eb Eo Ei Ef. pose proof (lk_count _ _ _ _ _ L) as Hc. pose proof SUPER_val as HS. change NBLOCK with 1024 in *.
  split; rewrite ?Em; try done.
  - destruct L as [C T R I N X]. pose proof (out_low _ _ O). split; [change NINDIRECT with 1024; destruct (B =? 10); lia|rewrite En; destruct (B =? 10); lia| | | |].
    + intros i Hi. rewrite En. destruct (Z.eq_dec i B) as [->|]; [rewrite Eb; destruct (B =? 10); lia|].
      rewrite Eo by lia. specialize (R i ltac:(lia)). destruct (B =? 10); lia.
    + intros i j Hi Hj. destruct (Z.eq_dec i B) as [->|Hi'], (Z.eq_dec j B) as [->|Hj']; [done| | |].
      * rewrite Eb, Eo by lia. intros E. by destruct (Hnew j ltac:(lia)).
      * rewrite Eb, Eo by lia. intros E. by destruct (Hnew i ltac:(lia)).
      * rewrite !Eo by lia. apply I; lia.
    + intros Hle. rewrite Ei. destruct (Z.eqb_spec B 10); [lia|]. apply N. lia.
    + intros Hgt. rewrite Ei, En. destruct (Z.eqb_spec B 10) as [->|Hne].
      * split; [lia|]. intros i Hi. destruct (Z.eq_dec i 10) as [->|]; [rewrite Eb; lia|]. rewrite Eo by lia.
        specialize (R i ltac:(lia)). lia.
      * destruct (X ltac:(lia)) as [X1 X2]. split; [lia|]. intros i Hi. destruct (Z.eq_dec i B) as [->|]; [rewrite Eb; apply Hnx; lia|].
        rewrite Eo by lia. apply X2. lia.
  - intros a Ha. rewrite En in Ha. rewrite Ef.
    + apply Z0. fold nb. destruct (B =? 10); lia.
    + destruct (out_far _ _ O), (B =? 10); lia.
    + intros [H1 H2]. rewrite Ei in H2. destruct (Z.eqb_spec B 10); [lia|]. destruct (lk_idx _ _ _ _ _ L ltac:(lia)) as [X1 _]. lia.
Qed.

Lemma save_block_link_ok : exists s', save_block_link p B b s = Val tt s' /\ linked s'.
Proof using All.
  pose proof (lk_count _ _ _ _ _ L) as Hc. pose proof SUPER_val as HS. change NBLOCK with 1024 in *. change NINDIRECT with 1024 in *.
  assert (Hp : p + 256 <= lo * 4096 \/ 4194304 <= p) by (destruct (out_far _ _ O); lia).
  assert (H3 : 3 <= lo) by apply (out_low _ _ O).
  assert (Hub : is_u32 b) by (unfold is_u32; destruct (B =? 10); lia).
  assert (HB2 : B < 1024) by (destruct (B =? 10); lia).
  unfold save_block_link. replace (B <? NINDIRECT) with true by (symmetry; by apply Z.ltb_lt).
  rewrite bind_assert_true. change NDIRECT with 10. destruct (Z.ltb_spec B 10) as [Hd|Hd].
  - eexists. split; [reflexivity|]. eapply linked_intro; [reflexivity| | | | |].
    + cbn [nextbno set_mem]. destruct (Z.eqb_spec B 10); [lia|]. fold nb. lia.
    + rewrite blk_lo by done. by apply rd32_wr32_eq.
    + intros i Hi. rewrite !blk_lo by lia. unfold f_direct. apply rd32_wr32_ne. lia.
    + destruct (Z.eqb_spec B 10); [lia|]. unfold idx, f_indirect, f_direct. apply rd32_wr32_ne. lia.
    + intros a Ha _. cbn [mem set_mem]. rewrite rd_wr32, decide_False; [done|]. unfold f_direct. lia.
  - assert (HX : exists m1 s1, (x ← get32 (f_indirect p); if x =? 0 then x ← next_block BLOCK_INDEX; put32 (f_indirect p) x else mret tt) s = Val tt s1 /\
      mem s1 = m1 /\ nextbno s1 = nb + (if B =? 10 then 1 else 0) /\ idx m1 p = (if B =? 10 then nb else idx m p) /\
      (forall a, ~ (p + 176 <= a < p + 180) -> rd8 m1 a = rd8 m a)).
    { unfold get32. msteps. fold m. change (rd32 m (f_indirect p)) with (idx m p). destruct (Z.eqb_spec B 10) as [->|Hne].
      - rewrite (lk_none _ _ _ _ _ L) by lia. cbn [Z.eqb]. rewrite (bind_val _ _ _ _ _ (next_block_ok BLOCK_INDEX s ltac:(change NBLOCK with 1024; fold nb; lia))).
        fold nb. do 2 eexists. split; [reflexivity|]. split; [reflexivity|]. split; [done|]. cbn [mem set_mem took]. fold m. split.
        + unfold idx. apply rd32_wr32_eq. unfold is_u32. lia.
        + intros a Ha. rewrite rd_wr32, decide_False; [done|]. unfold f_indirect. lia.
      - destruct (lk_idx _ _ _ _ _ L ltac:(lia)) as [X1 X2]. destruct (Z.eqb_spec (idx m p) 0); [lia|].
        do 2 eexists. split; [reflexivity|]. split; [reflexivity|]. split; [fold nb; lia|]. split; [done|]. done. }
    destruct HX as (m1 & s1 & E1 & Em1 & En1 & Ei1 & Ef1).
    assert (Hx : lo <= idx m1 p < nextbno s1 /\ (forall i, 0 <= i < B -> blk m p i <> idx m1 p) /\ b <> idx m1 p).
    { rewrite Ei1, En1. destruct (Z.eqb_spec B 10) as [->|Hne].
      - split; [lia|]. split; [|lia]. intros i Hi. pose proof (lk_range _ _ _ _ _ L i Hi). lia.
      - destruct (lk_idx _ _ _ _ _ L ltac:(lia)) as [X1 X2]. split; [lia|]. split; [done|]. apply Hnx. lia. }
    destruct Hx as (Hx1 & Hx2 & Hx3). set (x := idx m1 p) in *.
    assert (Hxn : x < 1024) by (rewrite En1 in Hx1; lia).
    exists (set_mem (wr32 m1 (x * 4096 + 4 * B) b) s1). split.
    { rewrite <- bind_bind. rewrite (bind_val _ _ _ _ _ E1). unfold get32. msteps. rewrite Em1. fold x. change (rd32 m1 (f_indirect p)) with x.
      rewrite (bind_val _ _ _ _ _ (block_ok x s1 ltac:(change NBLOCK with 1024; lia))). unfold put32, modify. by rewrite Em1. }
    assert (Ei : idx (wr32 m1 (x * 4096 + 4 * B) b) p = x).
    { unfold idx, f_indirect. rewrite rd32_wr32_ne by lia. done. }
    assert (Eix : B <> 10 -> idx m p = x). { intros Hne. rewrite Ei1. destruct (Z.eqb_spec B 10); [lia|done]. }
    eapply linked_intro; [reflexivity|done| | | |]; cbn [mem set_mem].
    + rewrite blk_hi, Ei by done. by apply rd32_wr32_eq.
    + intros i Hi. destruct (Z.lt_ge_cases i 10) as [Hl|Hl].
      * rewrite !blk_lo by done. unfold f_direct. rewrite rd32_wr32_ne by lia. apply rd32_ext. intros k Hk. apply Ef1. lia.
      * rewrite !blk_hi, Ei, Eix by lia. rewrite rd32_wr32_ne by lia.
        apply rd32_ext. intros k Hk. apply Ef1. lia.
    + by rewrite Ei.
    + intros a Ha1 Ha2. rewrite Ei in Ha2. rewrite rd_wr32, decide_False by lia. apply Ef1. lia.
Qed.
End Link.

(** ** Searches over consecutive indices *)
Section Search.
Context {S A : Type} (body : Z -> M S (option A)) (s : S).

Lemma for_first_miss n : forall a, (forall i, a <= i < a + Z.of_nat n -> body i s = Val None s) ->
  for_first (zseq a n) body s = Val None s.
Proof.
  induction n as [|n IH]; intros a H; [done|]. cbn [zseq for_first]. rewrite (bind_val _ _ _ _ _ (H a ltac:(lia))).
  apply IH. intros i Hi. apply H. lia.
Qed.

Lemma for_first_hit k r n : forall a, a <= k < a + Z.of_nat n -> (forall i, a <= i < k -> body i s = Val None s) ->
  body k s = Val (Some r) s -> for_first (zseq a n) body s = Val (Some r) s.
Proof.
  induction n as [|n IH]; intros a Hk H E; [lia|]. cbn [zseq for_first]. destruct (Z.eq_dec a k) as [->|Hne].
  - by rewrite (bind_val _ _ _ _ _ E).
  - rewrite (bind_val _ _ _ _ _ (H a ltac:(lia))). apply IH; [lia| |done]. intros i Hi. apply H. lia.
Qed.
End Search.

(** ** A directory of [n] entries in [B] blocks *)
Definition slot (m : bmem) (p k : Z) : Z := blk m p (k / 16) * 4096 + 256 * (k mod 16).

Record dir_at (m : bmem) (p n B lo nb : Z) : Prop := {
  da_links : links m p B lo nb;
  da_size : rd32 m (f_size p) = 4096 * B;
  da_count : 0 <= n <= 16 * B;
  da_used : forall k, 0 <= k < n -> rd8 m (slot m p k) <> 0;
  da_free : forall k o, n <= k < 16 * B -> 0 <= o < 256 -> rd8 m (slot m p k + o) = 0 }.

(** The blocks of a directory of [n] entries that was never larger. *)
Definition dirblocks (n : Z) : Z := (n + 15) / 16.

Lemma dirblocks_fit n k : 0 <= k < n -> 0 <= k < 16 * dirblocks n.
Proof. unfold dirblocks. dlia. Qed.

(** The blocks a new entry in a directory of [n] takes, and the directory has afterwards. *)
Definition dcost (n : Z) : Z := if n mod 16 =? 0 then 1 + (if n / 16 =? 10 then 1 else 0) else 0.

Section Slots.
Context (m : bmem) (p B lo nb : Z) (L : links m p B lo nb) (O : outside p lo) (Hnb : nb <= NBLOCK).

(** A slot is in a block of the directory, not where the size and the links are. *)
Lemma slot_in k : 0 <= k < 16 * B -> lo * 4096 <= slot m p k /\ slot m p k + 256 <= nb * 4096.
Proof using L. intros Hk. pose proof (lk_range _ _ _ _ _ L (k / 16) ltac:(dlia)). unfold slot. dlia. Qed.

Lemma slot_meta k a : 0 <= k < 16 * B -> slot m p k <= a < slot m p k + 256 -> ~ meta m p B a /\ ~ (p <= a < p + 256).
Proof using All.
  intros Hk Ha. pose proof (slot_in k Hk). pose proof (out_far _ _ O). pose proof SUPER_val. change NBLOCK with 1024 in Hnb.
  split; [|lia]. unfold meta, lmeta. intros [?|[?|[HB Hi]]]; [lia..|]. destruct (lk_idx _ _ _ _ _ L HB) as [_ Hx].
  apply (Hx (k / 16)); [dlia|]. unfold slot in Ha. dlia.
Qed.

Lemma slot_inj k k' a : 0 <= k < 16 * B -> 0 <= k' < 16 * B ->
  slot m p k <= a < slot m p k + 256 -> slot m p k' <= a < slot m p k' + 256 -> k = k'.
Proof using L.
  intros Hk Hk' Ha Ha'. assert (k / 16 = k' / 16).
  { apply (lk_inj _ _ _ _ _ L); [dlia|dlia|]. unfold slot in *. dlia. }
  unfold slot in *. rewrite H in Ha. dlia.
Qed.
End Slots.

(** Where the size and links are unchanged, so are the places of the entries. *)
Lemma keep_slot m m' p B lo nb k : links m p B lo nb -> same_on (lmeta m p B) m m' -> 0 <= k < 16 * B ->
  slot m' p k = slot m p k.
Proof. intros L K Hk. unfold slot. by rewrite (keep_blk m m' p B lo nb L K) by dlia. Qed.

(** The next free entry gets a name. *)
Lemma dir_fill m m' p n B lo nb nb' : dir_at m p n B lo nb -> outside p lo -> nb <= nb' -> nb <= NBLOCK -> n < 16 * B ->
  same_on (meta m p B) m m' ->
  same_on (fun a => lo * 4096 <= a < nb * 4096 /\ ~ (slot m p n <= a < slot m p n + 256)) m m' ->
  rd8 m' (slot m p n) <> 0 -> dir_at m' p (n + 1) B lo nb'.
Proof.
  intros [L Sz C U F] O Hn1 Hn2 Hn K1 K2 Hc. pose proof (same_links _ _ _ _ K1) as K3.
  assert (Hs : forall k, 0 <= k < 16 * B -> slot m' p k = slot m p k) by (intros k; by apply (keep_slot m m' p B lo nb)).
  assert (Hb : forall k o, 0 <= k < 16 * B -> k <> n -> 0 <= o < 256 -> rd8 m' (slot m' p k + o) = rd8 m (slot m p k + o)).
  { intros k o Hk Hne Ho. rewrite Hs by done. apply K2. pose proof (slot_in m p B lo nb L k Hk). split; [lia|]. intros Ha.
    apply Hne. apply (slot_inj m p B lo nb L k n (slot m p k + o)); lia. }
  split.
  - by apply (keep_links m m' p B lo nb L K3).
  - by rewrite (same_size _ _ _ _ K1).
  - lia.
  - intros k Hk. destruct (Z.eq_dec k n) as [->|Hne]; [by rewrite Hs by lia|].
    pose proof (Hb k 0 ltac:(lia) Hne ltac:(lia)) as H. rewrite !Z.add_0_r in H. rewrite H. apply U. lia.
  - intros k o Hk Ho. rewrite Hb by lia. apply F; lia.
Qed.

(** ** create_file *)
Lemma dir_block_ok s p B lo i : links (mem s) p B lo (nextbno s) -> 3 <= lo -> nextbno s <= NBLOCK -> 0 <= i < B ->
  dir_block p i s = Val (blk (mem s) p i * 4096) s.
Proof.
  intros L Hlo Hn Hi. pose proof (lk_range _ _ _ _ _ L i Hi). unfold dir_block, get32. destruct (Z.ltb_spec i 10) as [Hl|Hl].
  - rewrite bind_gets. rewrite <- blk_lo by done. apply block_ok. lia.
  - destruct (lk_idx _ _ _ _ _ L ltac:(lia)) as [Hx _]. unfold idx in Hx. msteps.
    rewrite (bind_val _ _ _ _ _ (block_ok (rd32 (mem s) (f_indirect p)) s ltac:(lia))). msteps.
    change (rd32 (mem s) (rd32 (mem s) (f_indirect p) * 4096 + 4 * i)) with (rd32 (mem s) (idx (mem s) p * 4096 + 4 * i)).
    rewrite <- blk_hi by done. apply block_ok. lia.
Qed.

(** What [create_file] leaves in a directory of [n] entries: the place [f] of a free one. *)
Record created (s s' : img) (p n lo f : Z) : Prop := {
  cr_dir : dir_at (mem s') p n (n / 16 + 1) lo (nextbno s');
  cr_place : f = slot (mem s') p n;
  cr_next : nextbno s' = nextbno s + dcost n;
  cr_zeros : zeros (mem s') (nextbno s');
  cr_old : forall i, 0 <= i < dirblocks n -> blk (mem s') p i = blk (mem s) p i;
  cr_new : forall i, dirblocks n <= i < n / 16 + 1 -> nextbno s <= blk (mem s') p i;
  cr_index : 10 < n / 16 + 1 -> 10 < dirblocks n /\ idx (mem s') p = idx (mem s) p \/ nextbno s <= idx (mem s') p;
  cr_frame : forall a, ~ meta (mem s') p (n / 16 + 1) a -> rd8 (mem s') a = rd8 (mem s) a }.

Section Create.
Context (s : img) (p n lo : Z).
Let m := mem s.
Let nb := nextbno s.
Context (B : Z) (EB : B = dirblocks n).
Context (Da : dir_at m p n B lo nb) (Z0 : zeros m nb) (O : outside p lo) (Hroom : nb + dcost n <= NBLOCK) (Hlo : lo <= nb).

(** A round of the search, at entry [k]. *)
Lemma free_slot_test k : 0 <= k < 16 * B ->
  (c ← get8 (f_name (blk m p (k / 16) * 4096 + BY2FILE * (k mod 16)));
   if c =? 0 then mret (Some (blk m p (k / 16) * 4096 + BY2FILE * (k mod 16))) else mret None) s =
  Val (if k <? n then None else Some (slot m p k)) s.
Proof using Da.
  intros Hk. unfold get8, f_name. rewrite bind_gets. change BY2FILE with 256. change (blk m p (k / 16) * 4096 + 256 * (k mod 16)) with (slot m p k).
  destruct (Z.ltb_spec k n) as [Hl|Hl].
  - pose proof (da_used _ _ _ _ _ _ Da k ltac:(lia)) as H. fold m. destruct (Z.eqb_spec (rd8 m (slot m p k)) 0); done.
  - pose proof (da_free _ _ _ _ _ _ Da k 0 ltac:(lia) ltac:(lia)) as H. rewrite Z.add_0_r in H. fold m. by rewrite H.
Qed.

(** A round of the outer search: block [i]. *)
Lemma search_block i : 0 <= i < B -> 3 <= lo -> nb <= NBLOCK ->
  (blk ← dir_block p i;
   for_first (zseq 0 (Z.to_nat FILE2BLK)) (fun j =>
      c ← get8 (f_name (blk + BY2FILE * j));
      if c =? 0 then mret (Some (blk + BY2FILE * j)) else mret None)) s =
  Val (if decide (16 * i <= n < 16 * i + 16) then Some (slot m p n) else if 16 * i <? n then None else Some (slot m p (16 * i))) s.
Proof using Da.
  intros Hi H3 Hn. rewrite (bind_val _ _ _ _ _ (dir_block_ok s p B lo i (da_links _ _ _ _ _ _ Da) H3 Hn Hi)). fold m.
  change (Z.to_nat FILE2BLK) with 16%nat.
  assert (T : forall j, 0 <= j < 16 -> (c ← get8 (f_name (blk m p i * 4096 + BY2FILE * j));
      if c =? 0 then mret (Some (blk m p i * 4096 + BY2FILE * j)) else mret None) s =
      Val (if 16 * i + j <? n then None else Some (slot m p (16 * i + j))) s).
  { intros j Hj. pose proof (free_slot_test (16 * i + j) ltac:(lia)) as T. replace ((16 * i + j) / 16) with i in T by dlia.
    replace ((16 * i + j) mod 16) with j in T by dlia. exact T. }
  destruct (decide _) as [Hn1|Hn1].
  - apply (for_first_hit _ _ (n - 16 * i)); [lia| |].
    + intros j Hj. rewrite T by lia. destruct (Z.ltb_spec (16 * i + j) n); [done|lia].
    + rewrite T by lia. replace (16 * i + (n - 16 * i)) with n by lia. by rewrite Z.ltb_irrefl.
  - destruct (Z.ltb_spec (16 * i) n) as [Hl|Hl].
    + apply for_first_miss. intros j Hj. rewrite T by lia. destruct (Z.ltb_spec (16 * i + j) n); [done|lia].
    + apply (for_first_hit _ _ 0); [lia|intros j; lia|]. rewrite T by lia. rewrite Z.add_0_r. by destruct (Z.ltb_spec (16 * i) n); [lia|].
Qed.

Lemma make_link_block_ok : n = 16 * B -> exists s', make_link_block p B s = Val nb s' /\ created s s' p n lo (nb * 4096).
Proof using All.
  intros Hn. unfold dirblocks in EB. pose proof (da_links _ _ _ _ _ _ Da) as L. pose proof (out_low _ _ O) as Hl. pose proof SUPER_val as HS.
  pose proof (lk_fit _ _ _ _ _ L). pose proof (lk_count _ _ _ _ _ L). pose proof (out_far _ _ O) as Hf.
  assert (Hc : dcost n = 1 + (if B =? 10 then 1 else 0)). { unfold dcost. replace (n mod 16) with 0 by dlia. by replace (n / 16) with B by dlia. }
  rewrite Hc in Hroom. assert (Hnb : nb < NBLOCK) by (destruct (B =? 10); lia).
  destruct (save_block_link_ok (took BLOCK_FILE s) p B lo nb) as (s2 & E2 & K).
  { apply (links_mono _ _ _ _ nb); [done|]. cbn. fold nb. lia. }
  { apply (zeros_mono _ nb); [done|]. cbn. fold nb. lia. }
  { done. } { cbn. fold nb. lia. } { cbn. fold nb. lia. }
  { intros i Hi. pose proof (lk_range _ _ _ _ _ L i Hi). cbn. fold m. lia. }
  { intros HB. destruct (lk_idx _ _ _ _ _ L HB). cbn. fold m. lia. }
  { cbn. fold nb. lia. } { cbn. fold nb. destruct (B =? 10); lia. }
  destruct K as [KL KN KO Kn Kz Ki Kf]. cbn [mem nextbno took] in KO, Kn, Ki, Kf. fold nb in Kn, Ki. fold m in KO, Ki, Kf. change NBLOCK with 1024 in *.
  assert (Hn2 : nb + 1 <= nextbno s2 <= 1024) by (destruct (B =? 10); lia).
  assert (Hx : 10 <= B -> lo <= idx (mem s2) p < nextbno s2) by (intros HB; apply (lk_idx _ _ _ _ _ KL); lia).
  assert (Esz : rd32 (mem s2) (f_size p) = 4096 * B).
  { rewrite <- (da_size _ _ _ _ _ _ Da). apply rd32_ext. intros i Hi. unfold f_size. apply Kf; [lia|]. intros [HB Hi2]. specialize (Hx HB). lia. }
  set (m3 := wr32 (mem s2) (f_size p) (u32 (4096 * B + BY2BLK))). exists (set_mem m3 s2). split.
  { unfold make_link_block. rewrite (bind_val _ _ _ _ _ (next_block_ok BLOCK_FILE s Hnb)). fold nb. rewrite (bind_val _ _ _ _ _ E2).
    unfold get32, put32. msteps. by rewrite Esz. }
  assert (F3 : forall a, ~ (p + 128 <= a < p + 132) -> rd8 m3 a = rd8 (mem s2) a).
  { intros a Ha. unfold m3. rewrite rd_wr32, decide_False; [done|]. unfold f_size. lia. }
  assert (S3 : same_on (lmeta (mem s2) p (B + 1)) (mem s2) m3).
  { intros a [Ha|[HB Ha]]; apply F3; [lia|]. specialize (Hx ltac:(lia)). lia. }
  assert (Hs3 : forall k, 0 <= k < 16 * (B + 1) -> slot m3 p k = slot (mem s2) p k) by (intros k; by apply (keep_slot _ _ _ _ lo (nextbno s2))).
  assert (Hs2 : forall k, 0 <= k < 16 * B -> slot (mem s2) p k = slot m p k) by (intros k Hk; unfold slot; by rewrite KO by dlia).
  assert (Hby : forall k o, 0 <= k < 16 * (B + 1) -> 0 <= o < 256 -> rd8 m3 (slot m3 p k + o) = rd8 m (slot (mem s2) p k + o)).
  { intros k o Hk Ho. rewrite Hs3 by done. destruct (slot_meta (mem s2) p (B + 1) lo (nextbno s2) KL O ltac:(change NBLOCK with 1024; lia) k (slot (mem s2) p k + o) Hk ltac:(lia)) as [N1 N2].
    unfold meta, lmeta in N1. rewrite F3 by lia. apply Kf; lia. }
  assert (EB1 : n / 16 + 1 = B + 1) by dlia.
  assert (Ei : idx m3 p = idx (mem s2) p) by (apply (keep_idx (mem s2) m3 p (B + 1)); exact S3).
  split; cbn [mem nextbno set_mem]; rewrite ?EB1; unfold dirblocks; rewrite <- ?EB.
  - split.
    + by apply (keep_links (mem s2) m3 p (B + 1) lo (nextbno s2) KL S3).
    + unfold m3. rewrite rd32_wr32_eq; unfold u32, is_u32, BY2BLK, BY2PG; dlia.
    + lia.
    + intros k Hk. pose proof (Hby k 0 ltac:(lia) ltac:(lia)) as H1. rewrite !Z.add_0_r in H1. rewrite H1, Hs2 by lia.
      apply (da_used _ _ _ _ _ _ Da). lia.
    + intros k o Hk Ho. rewrite Hby by lia. unfold slot. replace (k / 16) with B by dlia. rewrite KN. apply Z0. dlia.
  - rewrite Hs3 by lia. unfold slot. replace (n / 16) with B by dlia. rewrite KN. dlia.
  - rewrite Kn, Hc. lia.
  - intros a Ha. rewrite F3 by lia. by apply Kz.
  - intros i Hi. rewrite (keep_blk (mem s2) m3 p (B + 1) lo (nextbno s2) KL S3) by lia. apply KO. lia.
  - intros i Hi. replace i with B by lia. rewrite (keep_blk (mem s2) m3 p (B + 1) lo (nextbno s2) KL S3) by lia. rewrite KN. fold nb. lia.
  - intros HB. rewrite Ei, Ki. fold m nb. destruct (Z.eqb_spec B 10); lia.
  - intros a Ha.
    unfold meta, lmeta in Ha. rewrite Ei in Ha. fold m. rewrite F3 by lia. apply Kf; lia.
Qed.

Lemma create_file_ok : exists f s', create_file p s = Val f s' /\ created s s' p n lo f.
Proof using All.
  unfold dirblocks in EB.
  pose proof (out_low _ _ O) as Hl. pose proof (da_count _ _ _ _ _ _ Da) as Hc. pose proof (lk_count _ _ _ _ _ (da_links _ _ _ _ _ _ Da)) as HB.
  assert (Hd : 0 <= dcost n) by (unfold dcost; destruct (n mod 16 =? 0), (n / 16 =? 10); lia).
  unfold create_file, get32. rewrite bind_gets. fold m. rewrite (da_size _ _ _ _ _ _ Da). cbv zeta. replace (4096 * B / BY2BLK) with B by (unfold BY2BLK, BY2PG; dlia).
  destruct (decide (n = 16 * B)) as [E|E].
  - destruct make_link_block_ok as (s' & E1 & C); [done|]. exists (nb * 4096), s'. split; [|done].
    erewrite bind_val; [|apply for_first_miss; intros i Hi; rewrite search_block by lia; rewrite decide_False by lia; by destruct (Z.ltb_spec (16 * i) n); [|lia]].
    cbv beta iota. rewrite (bind_val _ _ _ _ _ E1). apply block_ok.
    destruct C as [_ _ Hn _ _ _]. fold nb in Hn. unfold dcost in *. replace (n mod 16) with 0 in * by dlia. cbn [Z.eqb] in *. destruct (n / 16 =? 10); lia.
  - exists (slot m p n), s. split.
    + erewrite bind_val; [|apply (for_first_hit _ _ (n / 16) (slot m p n)); [dlia| |]]; [done| |].
      * intros i Hi. rewrite search_block by dlia. rewrite decide_False by dlia. by destruct (Z.ltb_spec (16 * i) n); [|dlia].
      * rewrite search_block by dlia. by rewrite decide_True by dlia.
    + assert (Hm : n mod 16 <> 0) by dlia. assert (EB1 : n / 16 + 1 = B) by dlia.
      split; rewrite ?EB1; fold m nb; try done; [|intros i Hi; unfold dirblocks in Hi; lia|intros Hx; left; unfold dirblocks; split; [lia|done]].
      unfold dcost. destruct (Z.eqb_spec (n mod 16) 0); lia.
Qed.
End Create.
