(* ===== verification/FsFormatTree.v ===== *)
(** * The image builder: contents and trees (tools/fsformat.c: write_file, write_directory)

    The loop that writes a content, the trees of the host and of the image, and what fills a
    blank entry. *)

From Stdlib Require Import ZArith Lia.
From stdpp Require Import base numbers list gmap strings.
From S2P Require Import Prelude Mmu KState Elf Signo Env TlbEx Syscall Str StrThms Wp Ide Fs FsCache FsFormat.
From S2P Require Import FsFormatDir.

Definition bytes (l : list Z) : Prop := Forall (fun c => 0 <= c < 256) l.
Definition len (l : list Z) : Z := Z.of_nat (length l).
Definition byte (l : list Z) (k : Z) : Z := nth (Z.to_nat k) l 0.

(** The blocks of a content; those it takes in a file that has [B] already, the index included. *)
Definition blocks (c : list Z) : Z := (len c + 4095) / 4096.
Definition ccost (B : Z) (c : list Z) : Z := blocks c + (if (B <=? 10) && (10 <? B + blocks c) then 1 else 0).

Lemma blocks_drop c : c <> [] -> blocks (drop 4096 c) = blocks c - 1 /\ 1 <= blocks c.
Proof.
  intros Hc. unfold blocks, len. rewrite length_drop. destruct c as [|x c]; [done|]. cbn [length].
  destruct (Nat.le_gt_cases (S (length c)) 4096) as [H|H].
  - replace (S (length c) - 4096)%nat with 0%nat by lia. change (Z.of_nat 0) with 0. split; dlia.
  - rewrite Nat2Z.inj_sub by lia. split; dlia.
Qed.

Lemma ccost_step B c : 0 <= B -> c <> [] -> ccost B c = 1 + (if B =? 10 then 1 else 0) + ccost (B + 1) (drop 4096 c).
Proof.
  intros HB Hc. unfold ccost. destruct (blocks_drop c Hc) as [-> H].
  destruct (Z.eqb_spec B 10), (Z.leb_spec B 10), (Z.leb_spec (B + 1) 10), (Z.ltb_spec 10 (B + blocks c)), (Z.ltb_spec 10 (B + 1 + (blocks c - 1))); cbn; lia.
Qed.

Lemma ccost_pos B c : 0 <= ccost B c.
Proof. unfold ccost, blocks, len. destruct (_ && _); dlia. Qed.

(** The bytes of the file from block [B] on. *)
Definition holds (m : bmem) (p B : Z) (c : list Z) : Prop :=
  forall k, 0 <= k < len c -> rd8 m (blk m p (B + k / 4096) * 4096 + k mod 4096) = byte c k.

(** After the content is written behind the first [B] blocks of the file at [p]. *)
Record appended (s s' : img) (p B lo : Z) (c : list Z) : Prop := {
  ap_links : links (mem s') p (B + blocks c) lo (nextbno s');
  ap_next : nextbno s' = nextbno s + ccost B c;
  ap_zeros : zeros (mem s') (nextbno s');
  ap_same : forall i o, 0 <= i < B -> 0 <= o < 4096 -> blk (mem s') p i = blk (mem s) p i /\
    rd8 (mem s') (blk (mem s) p i * 4096 + o) = rd8 (mem s) (blk (mem s) p i * 4096 + o);
  ap_holds : holds (mem s') p B c;
  ap_frame : forall a, ~ (p + 136 <= a < p + 180) -> ~ (lo * 4096 <= a < SUPER) -> rd8 (mem s') a = rd8 (mem s) a }.

Lemma nth_take_byte c k : 0 <= k < 4096 -> nth (Z.to_nat k) (take 4096 c) 0 = byte c k.
Proof. intros Hk. unfold byte. rewrite !nth_lookup, lookup_take_lt by lia. done. Qed.

Lemma byte_drop c k : 0 <= k -> byte (drop 4096 c) k = byte c (4096 + k).
Proof. intros Hk. unfold byte. rewrite !nth_lookup, lookup_drop. do 3 f_equal. lia. Qed.

Lemma byte_range c k : bytes c -> 0 <= byte c k < 256.
Proof.
  intros H. unfold byte. rewrite nth_lookup. destruct (c !! Z.to_nat k) as [x|] eqn:E; [|done].
  apply (Forall_lookup_1 _ _ _ _ H E).
Qed.

Lemma byte_out c k : len c <= k -> byte c k = 0.
Proof. intros H. unfold byte, len in *. apply nth_overflow. lia. Qed.

(** One block: read from the host, allocated, linked. *)
Section Block.
Context (s : img) (p B lo : Z) (c : list Z).
Let m := mem s.
Let nb := nextbno s.
Context (L : links m p B lo nb) (Z0 : zeros m nb) (O : outside p lo) (Hlo : lo <= nb) (Hc : bytes c).
Context (Hroom : nb + 1 + (if B =? 10 then 1 else 0) <= NBLOCK).

Definition append_block : H unit :=
  a ← block nb;
  put_bytes a (take (Z.to_nat BY2BLK) c) ;;
  b ← next_block BLOCK_DATA;
  save_block_link p B b.

Lemma append_block_ok : exists s', append_block s = Val tt s' /\
  links (mem s') p (B + 1) lo (nextbno s') /\ nextbno s' = nb + 1 + (if B =? 10 then 1 else 0) /\ zeros (mem s') (nextbno s') /\
  blk (mem s') p B = nb /\ (forall o, 0 <= o < 4096 -> rd8 (mem s') (nb * 4096 + o) = byte c o) /\
  (forall i o, 0 <= i < B -> 0 <= o < 4096 -> blk (mem s') p i = blk m p i /\ rd8 (mem s') (blk m p i * 4096 + o) = rd8 m (blk m p i * 4096 + o)) /\
  (forall a, ~ (p + 136 <= a < p + 180) -> ~ (lo * 4096 <= a < SUPER) -> rd8 (mem s') a = rd8 m a).
Proof using All.
  pose proof (out_low _ _ O) as Hl. pose proof SUPER_val as HS. pose proof (out_far _ _ O) as Hf. rewrite HS in Hf. pose proof (lk_fit _ _ _ _ _ L).
  assert (Hnb : nb < NBLOCK) by (destruct (B =? 10); lia). change NBLOCK with 1024 in *.
  set (m1 := wr_bytes m (nb * 4096) (take 4096 c)). set (s1 := set_mem m1 s).
  assert (F1 : forall a, ~ (nb * 4096 <= a < nb * 4096 + 4096) -> rd8 m1 a = rd8 m a).
  { intros a Ha. unfold m1. rewrite rd_wr_bytes, decide_False; [done|]. rewrite length_take. lia. }
  assert (D1 : forall o, 0 <= o < 4096 -> rd8 m1 (nb * 4096 + o) = byte c o).
  { intros o Ho. unfold m1. rewrite rd_wr_bytes, length_take. replace (nb * 4096 + o - nb * 4096) with o by lia.
    destruct (decide _) as [Hd|Hd]; [rewrite nth_take_byte by done; by apply u8_byte, byte_range|].
    rewrite byte_out by (unfold len; lia). apply Z0. fold nb. lia. }
  assert (K1 : same_on (lmeta m p B) m m1).
  { intros a [Ha|[HB Ha]]; apply F1; [lia|]. destruct (lk_idx _ _ _ _ _ L HB). lia. }
  destruct (save_block_link_ok (took BLOCK_DATA s1) p B lo nb) as (s3 & E3 & K3).
  { cbn. apply (keep_links m m1 p B lo nb L K1). fold nb. lia. }
  { intros a Ha. cbn in *. fold nb in Ha. rewrite F1 by lia. apply Z0. fold nb. lia. }
  { done. } { cbn. fold nb. lia. } { cbn. fold nb. lia. }
  { intros i Hi. cbn. rewrite (keep_blk m m1 p B lo nb L K1) by done. pose proof (lk_range _ _ _ _ _ L i Hi). lia. }
  { intros HB. cbn. rewrite (keep_idx m m1 p B K1). destruct (lk_idx _ _ _ _ _ L HB). lia. }
  { cbn. fold nb. lia. } { cbn. fold nb. change NBLOCK with 1024. lia. }
  exists s3. destruct K3 as [KL KN KO Kn Kz _ Kf]. cbn [mem nextbno took s1 set_mem] in KO, Kn, Kf. fold nb in Kn.
  assert (Hnx : nb + 1 <= nextbno s3 <= 1024) by (destruct (B =? 10); lia).
  assert (Hblk : forall i o, 0 <= i < B + 1 -> 0 <= o < 4096 -> rd8 (mem s3) (blk (mem s3) p i * 4096 + o) = rd8 m1 (blk (mem s3) p i * 4096 + o)).
  { intros i o Hi Ho. pose proof (lk_range _ _ _ _ _ KL i Hi). apply Kf; [lia|]. intros [HB Ha].
    destruct (lk_idx _ _ _ _ _ KL ltac:(lia)) as [_ Hx]. specialize (Hx i Hi). lia. }
  split.
  { unfold append_block. rewrite (bind_val _ _ _ _ _ (block_ok nb s ltac:(change NBLOCK with 1024; lia))). unfold put_bytes. rewrite bind_modify.
    change (Z.to_nat BY2BLK) with 4096%nat. fold m1 s1. rewrite (bind_val _ _ _ _ _ (next_block_ok BLOCK_DATA s1 ltac:(change NBLOCK with 1024; exact Hnb))). exact E3. }
  split; [done|]. split; [done|]. split; [done|]. split; [done|]. split; [|split].
  - intros o Ho. pose proof (Hblk B o ltac:(pose proof (lk_count _ _ _ _ _ L); lia) Ho) as H1. rewrite KN in H1. rewrite H1. by apply D1.
  - intros i o Hi Ho. assert (Ei : blk (mem s3) p i = blk m p i) by (rewrite KO by done; by apply (keep_blk m m1 p B lo nb L K1)).
    split; [done|]. rewrite <- Ei. rewrite Hblk by lia. apply F1. rewrite Ei. pose proof (lk_range _ _ _ _ _ L i Hi). lia.
  - intros a Ha1 Ha2. rewrite Kf; [apply F1; lia|done|]. intros [HB Ha]. destruct (lk_idx _ _ _ _ _ KL ltac:(lia)) as [Hx _]. lia.
Qed.
End Block.

Lemma append_nothing s p B lo : links (mem s) p B lo (nextbno s) -> zeros (mem s) (nextbno s) -> appended s s p B lo [].
Proof.
  intros L Z0. split; try done; [by rewrite Z.add_0_r| |].
  - unfold ccost. change (blocks []) with 0. destruct (Z.leb_spec B 10), (Z.ltb_spec 10 (B + 0)); cbn [andb]; lia.
  - intros k Hk. unfold len in Hk. cbn in Hk. lia.
Qed.

Lemma write_content_ok p lo n : forall c s B, (length c <= n)%nat -> bytes c ->
  links (mem s) p B lo (nextbno s) -> zeros (mem s) (nextbno s) -> outside p lo -> lo <= nextbno s ->
  nextbno s + ccost B c <= NBLOCK -> exists s', write_content n p B c s = Val tt s' /\ appended s s' p B lo c.
Proof.
  induction n as [|n IH]; intros [|x c0] s B Hn Hc L Z0 O Hlo Hroom; [by exists s; split; [|apply append_nothing]|cbn in Hn; lia|by exists s; split; [|apply append_nothing]|].
  set (c := x :: c0) in *. assert (Hne : c <> []) by done. pose proof (lk_count _ _ _ _ _ L) as HB.
  rewrite ccost_step in Hroom by (done || lia). pose proof (ccost_pos (B + 1) (drop 4096 c)) as Hp.
  destruct (append_block_ok s p B lo c L Z0 O Hlo Hc ltac:(lia)) as (s1 & E1 & L1 & N1 & Z1 & B1 & D1 & S1 & F1).
  assert (Hlo1 : lo <= nextbno s1) by (destruct (B =? 10); lia).
  destruct (IH (drop 4096 c) s1 (B + 1)) as (s2 & E2 & [AL AN AZ AS AH AF]); try done.
  { rewrite length_drop. cbn in *. lia. } { by apply Forall_drop. } { lia. }
  destruct (blocks_drop c Hne) as [Ebl Hbl]. exists s2. split.
  { change (write_content (S n) p B c) with (nb ← gets nextbno; a ← block nb; put_bytes a (take (Z.to_nat BY2BLK) c) ;; b ← next_block BLOCK_DATA; save_block_link p B b ;; write_content n p (B + 1) (drop (Z.to_nat BY2BLK) c)). rewrite bind_gets. unfold append_block in E1.
    apply bind_val_inv in E1 as (a & t1 & Ea & E1). apply bind_val_inv in E1 as ([] & t2 & Eb & E1). apply bind_val_inv in E1 as (b & t3 & Ec & E1).
    rewrite (bind_val _ _ _ _ _ Ea), (bind_val _ _ _ _ _ Eb), (bind_val _ _ _ _ _ Ec), (bind_val _ _ _ _ _ E1). exact E2. }
  assert (Hblk : forall i, 0 <= i < B + 1 -> blk (mem s2) p i = blk (mem s1) p i) by (intros i Hi; apply (AS i 0); lia).
  split; try done.
  - replace (B + blocks c) with (B + 1 + blocks (drop 4096 c)) by lia. done.
  - rewrite AN, N1, (ccost_step B c) by (done || lia). lia.
  - intros i o Hi Ho. destruct (S1 i o Hi Ho) as [H1 H2]. destruct (AS i o ltac:(lia) Ho) as [H3 H4]. rewrite H3. split; [done|]. by rewrite <- H2, <- H1.
  - intros k Hk. destruct (Z.lt_ge_cases k 4096) as [Hl|Hl].
    + replace (k / 4096) with 0 by dlia. rewrite Z.add_0_r. destruct (AS B (k mod 4096) ltac:(lia) ltac:(dlia)) as [H3 H4].
      rewrite H3, H4, B1. replace (k mod 4096) with k by dlia. apply D1. lia.
    + pose proof (AH (k - 4096)) as H5. rewrite byte_drop in H5 by lia. replace (4096 + (k - 4096)) with k in H5 by lia. rewrite <- H5.
      * do 2 f_equal; [|dlia]. do 2 f_equal. dlia.
      * unfold len in *. rewrite length_drop. lia.
  - intros a Ha1 Ha2. rewrite AF by done. by apply F1.
Qed.

(** ** The host's files *)

(** Induction on the tree of the host. *)
Lemma hnode_rect' (P : hnode -> Prop) : (forall c, P (HFile c)) -> (forall es, Forall (fun x => P x.2) es -> P (HDir es)) ->
  forall nd, P nd.
Proof.
  intros HF HD. fix IH 1. intros [c|es]; [apply HF|]. apply HD. induction es as [|[nm e] es IHes]; constructor; [apply IH|exact IHes].
Qed.

(** The entries of a directory but [.] and [..]. *)
Definition shown (x : list Z * hnode) : bool := negb (bool_decide (x.1 = dot) || bool_decide (x.1 = dotdot)).
Definition visible (es : list (list Z * hnode)) : list (list Z * hnode) := List.filter shown es.

(** The blocks that writing a node takes, its entry in the directory apart. *)
Fixpoint cost (nd : hnode) : Z :=
  match nd with
  | HFile c => ccost 0 c
  | HDir es =>
      (fix entries (l : list (list Z * hnode)) (k : Z) : Z :=
        match l with
        | [] => 0
        | (n, e) :: l' => if shown (n, e) then dcost k + cost e + entries l' (k + 1) else entries l' k
        end) es 0
  end.

(** The entries of [l] after [k] others. *)
Fixpoint ecost (l : list (list Z * hnode)) (k : Z) : Z :=
  match l with [] => 0 | (n, e) :: l' => dcost k + cost e + ecost l' (k + 1) end.

Lemma cost_dir es : cost (HDir es) = ecost (visible es) 0.
Proof.
  cbn [cost]. match goal with |- ?f es 0 = _ => enough (T : forall k, f es k = ecost (visible es) k) by apply T end.
  induction es as [|[n e] es IH]; intros k; [done|]. unfold visible in *. cbn [List.filter].
  destruct (shown (n, e)); cbn [ecost]; by rewrite IH.
Qed.

(** A name of 1 to 127 characters; the bytes of a file; the names of a directory. *)
Definition name_ok (name : list Z) : Prop := name <> [] /\ (length name < 128)%nat /\ Forall (fun c => 0 < c < 256) name.

Inductive host_ok : hnode -> Prop :=
| host_file c : bytes c -> host_ok (HFile c)
| host_dir es : Forall (fun x => name_ok x.1) (visible es) -> Forall (fun x => host_ok x.2) (visible es) -> host_ok (HDir es).

(** ** The files of the image *)
Definition named (m : bmem) (f : Z) (name : list Z) : Prop := forall i, 0 <= i <= len name -> rd8 m (f + i) = byte name i.

Record file_at (m : bmem) (p : Z) (c : list Z) (lo hi : Z) : Prop := {
  fa_type : rd32 m (f_type p) = FTYPE_REG;
  fa_size : rd32 m (f_size p) = len c;
  fa_links : links m p (blocks c) lo hi;
  fa_holds : holds m p 0 c }.

(** The entries [vis] of the directory at [p] by name, with the blocks [L k .. H k) of entry
    [k]: apart from each other and from the blocks of the directory. *)
Record laid (m : bmem) (p : Z) (vis : list (list Z * hnode)) (lo hi : Z) (L H : nat -> Z) : Prop := {
  ld_dir : dir_at m p (Z.of_nat (length vis)) (dirblocks (Z.of_nat (length vis))) lo hi;
  ld_name : forall k x, vis !! k = Some x -> named m (slot m p (Z.of_nat k)) x.1;
  ld_in : forall k, (k < length vis)%nat -> lo <= L k <= H k /\ H k <= hi;
  ld_blk : forall k i, (k < length vis)%nat -> 0 <= i < dirblocks (Z.of_nat (length vis)) -> ~ (L k <= blk m p i < H k);
  ld_index : forall k, (k < length vis)%nat -> 10 < dirblocks (Z.of_nat (length vis)) -> ~ (L k <= idx m p < H k);
  ld_apart : forall j k, (j < k < length vis)%nat -> H j <= L k }.

(** The file at [p] is [nd], with everything in it, in the blocks [lo .. hi). *)
Inductive tree (m : bmem) : Z -> hnode -> Z -> Z -> Prop :=
| tree_file p c lo hi : file_at m p c lo hi -> tree m p (HFile c) lo hi
| tree_dir p es lo hi L H : rd32 m (f_type p) = FTYPE_DIR -> laid m p (visible es) lo hi L H ->
    (forall k x, visible es !! k = Some x -> tree m (slot m p (Z.of_nat k)) x.2 (L k) (H k)) -> tree m p (HDir es) lo hi.

(** A record that is copied, with its blocks unchanged. *)
Definition same_file (m m' : bmem) (p p' lo hi : Z) : Prop :=
  (forall k, 128 <= k < 180 -> rd8 m' (p' + k) = rd8 m (p + k)) /\ same_on (fun a => lo * 4096 <= a < hi * 4096) m m'.

Section Copy.
Context (m m' : bmem) (p p' B lo hi : Z) (S : same_file m m' p p' lo hi) (K : links m p B lo hi).

Lemma copy_word k : 128 <= k -> k + 4 <= 180 -> rd32 m' (p' + k) = rd32 m (p + k).
Proof using S.
  intros H1 H2. destruct S as [R _]. unfold rd32. pose proof (R k ltac:(lia)) as H0. rewrite <- !Z.add_assoc, H0. by rewrite !R by lia.
Qed.

Lemma copy_rec : same_rec m m' p p'.
Proof using S. intros k Hk. apply S. lia. Qed.

Lemma copy_index : 10 < B -> same_on (fun a => idx m p * 4096 <= a < idx m p * 4096 + 4096) m m'.
Proof using K S. intros HB a Ha. apply S. destruct (lk_idx _ _ _ _ _ K HB). lia. Qed.

Lemma copy_links : links m' p' B lo hi.
Proof using K S. apply (move_links m m' p p' B lo hi K copy_rec copy_index). lia. Qed.

Lemma copy_blk i : 0 <= i < B -> blk m' p' i = blk m p i.
Proof using K S. apply (move_blk m m' p p' B lo hi K copy_rec copy_index). Qed.

Lemma copy_slot k : 0 <= k < 16 * B -> slot m' p' k = slot m p k.
Proof using K S. intros Hk. unfold slot. by rewrite copy_blk by dlia. Qed.

Lemma copy_byte i o : 0 <= i < B -> 0 <= o < 4096 -> rd8 m' (blk m p i * 4096 + o) = rd8 m (blk m p i * 4096 + o).
Proof using K S. intros Hi Ho. apply S. pose proof (lk_range _ _ _ _ _ K i Hi). lia. Qed.
End Copy.

Lemma copy_dir m m' p p' n B lo hi : same_file m m' p p' lo hi -> dir_at m p n B lo hi -> dir_at m' p' n B lo hi.
Proof.
  intros S [K Sz C U F]. assert (E : forall k, 0 <= k < 16 * B -> slot m' p' k = slot m p k) by (intros k; by apply (copy_slot m m' p p' B lo hi S K)).
  assert (Hb : forall k o, 0 <= k < 16 * B -> 0 <= o < 256 -> rd8 m' (slot m' p' k + o) = rd8 m (slot m p k + o)).
  { intros k o Hk Ho. rewrite E by done. apply S. pose proof (slot_in m p B lo hi K k Hk). lia. }
  split; [by apply (copy_links m m' p)| |done| |].
  - rewrite <- Sz. apply (copy_word _ _ _ _ _ _ S); lia.
  - intros k Hk. pose proof (Hb k 0 ltac:(lia) ltac:(lia)) as H. rewrite !Z.add_0_r in H. rewrite H. by apply U.
  - intros k o Hk Ho. rewrite Hb by lia. by apply F.
Qed.

(** The name of an entry stays where it is. *)
Lemma named_keep m m' f name : (length name < 128)%nat -> (forall o, 0 <= o < 128 -> rd8 m' (f + o) = rd8 m (f + o)) ->
  named m f name -> named m' f name.
Proof. intros Hl H N i Hi. unfold len in *. rewrite H by lia. apply N. unfold len. lia. Qed.

Lemma copy_laid m m' p p' vis lo hi L H : Forall (fun x => name_ok x.1) vis -> same_file m m' p p' lo hi ->
  laid m p vis lo hi L H -> laid m' p' vis lo hi L H.
Proof.
  intros Hok S [D N I Bk X A]. pose proof (da_links _ _ _ _ _ _ D) as K.
  split; [by apply (copy_dir m m' p)| |done| | |done].
  - intros k x Hx. assert (Hk : 0 <= Z.of_nat k < 16 * dirblocks (Z.of_nat (length vis))).
    { apply dirblocks_fit. apply lookup_lt_Some in Hx. lia. }
    rewrite (copy_slot m m' p p' _ lo hi S K) by done. destruct (Forall_lookup_1 _ _ _ _ Hok Hx) as (_ & Hl & _).
    apply (named_keep m); [done| |by apply N]. intros o Ho. apply S. pose proof (slot_in m p _ lo hi K _ Hk). lia.
  - intros k i Hk Hi. rewrite (copy_blk m m' p p' _ lo hi S K) by done. by apply Bk.
  - intros k Hk HB. rewrite (move_idx m m' p p') by apply (copy_rec m m' p p' lo hi S). by apply X.
Qed.

Lemma tree_copy m p nd lo hi : tree m p nd lo hi -> forall m' p', host_ok nd -> same_file m m' p p' lo hi -> tree m' p' nd lo hi.
Proof.
  intros T. induction T as [p c lo hi [Ty Sz K Hh]|p es lo hi L H Ty D T IH]; intros m' p' Hok S.
  - constructor. split.
    + rewrite <- Ty. apply (copy_word _ _ _ _ _ _ S); lia.
    + rewrite <- Sz. apply (copy_word _ _ _ _ _ _ S); lia.
    + by apply (copy_links m m' p).
    + intros k Hk. assert (Hi : 0 <= 0 + k / 4096 < blocks c) by (unfold blocks; dlia).
      rewrite (copy_blk m m' p p' _ lo hi S K) by done. rewrite (copy_byte m m' p p' _ lo hi S K) by (done || dlia). by apply Hh.
  - inversion Hok as [|? Hn Hc]; subst. apply (tree_dir _ _ _ _ _ L H).
    + rewrite <- Ty. apply (copy_word _ _ _ _ _ _ S); lia.
    + by apply (copy_laid m m' p).
    + intros k x Hx. assert (Hk : (k < length (visible es))%nat) by by apply lookup_lt_Some in Hx.
      pose proof (da_links _ _ _ _ _ _ (ld_dir _ _ _ _ _ _ _ D)) as K.
      assert (Hs : 0 <= Z.of_nat k < 16 * dirblocks (Z.of_nat (length (visible es)))) by (apply dirblocks_fit; lia).
      rewrite (copy_slot m m' p p' _ lo hi S K) by done. apply IH; [done|apply (Forall_lookup_1 _ _ _ _ Hc Hx)|].
      pose proof (slot_in m p _ lo hi K _ Hs). destruct (ld_in _ _ _ _ _ _ _ D k Hk). split.
      * intros o Ho. apply S. lia.
      * intros a Ha. apply S. lia.
Qed.

(** ** A node written into a blank entry *)
Definition blank (m : bmem) (f : Z) : Prop := forall o, 0 <= o < 256 -> rd8 m (f + o) = 0.

Record made (s s' : img) (f : Z) (name : list Z) (nd : hnode) : Prop := {
  md_tree : tree (mem s') f nd (nextbno s) (nextbno s');
  md_name : named (mem s') f name;
  md_next : nextbno s' = nextbno s + cost nd;
  md_zeros : zeros (mem s') (nextbno s');
  md_frame : forall a, ~ (f <= a < f + 256) -> ~ (nextbno s * 4096 <= a < SUPER) -> rd8 (mem s') a = rd8 (mem s) a }.

Lemma blank_word m f k : blank m f -> 0 <= k -> k + 4 <= 256 -> rd32 m (f + k) = 0.
Proof. intros Bl H1 H2. unfold rd32. rewrite <- !Z.add_assoc. by rewrite !Bl by lia. Qed.

Lemma no_links m f nb : rd32 m (f_indirect f) = 0 -> links m f 0 nb nb.
Proof. intros E. split; try lia; [change NINDIRECT with 1024; lia|]. by intros _. Qed.

Section Blank.
Context (s : img) (f : Z) (name : list Z).
Context (Bl : blank (mem s) f) (Z0 : zeros (mem s) (nextbno s)) (O : outside f (nextbno s)) (Hname : name_ok name).

Lemma name_byte i : 0 <= i -> u8 (byte name i) = byte name i.
Proof using Hname.
  intros Hi. apply u8_byte, byte_range. destruct Hname as (_ & _ & H). apply (Forall_impl _ _ _ H). intros c Hc. cbv beta in *. lia.
Qed.

Lemma name_pad k l i : 0 <= i < len (l ++ replicate k 0) -> nth (Z.to_nat i) (l ++ replicate k 0) 0 = byte l i.
Proof using.
  intros Hi. unfold byte, len in *. rewrite length_app, length_replicate in Hi. destruct (Nat.lt_ge_cases (Z.to_nat i) (length l)) as [H|H].
  - by rewrite app_nth1.
  - rewrite app_nth2, (nth_overflow l) by done. rewrite nth_lookup, lookup_replicate_2 by lia. done.
Qed.

(** The name and zeros behind it are put in the blank entry. *)
Lemma put_name k : len name + 1 <= len (name ++ replicate k 0) <= 128 \/ len name <= 127 /\ len (name ++ replicate k 0) <= 128 ->
  let m1 := wr_bytes (mem s) f (name ++ replicate k 0) in
  named m1 f name /\ (forall o, 128 <= o < 256 -> rd8 m1 (f + o) = 0) /\ (forall o, len name <= o < 256 -> rd8 m1 (f + o) = 0) /\
  (forall a, ~ (f <= a < f + 256) -> rd8 m1 a = rd8 (mem s) a).
Proof using Bl Hname.
  intros Hk m1. set (bs := name ++ replicate k 0) in *. assert (Hbs : len name <= len bs) by (unfold bs, len; rewrite length_app; lia).
  assert (Hr : forall o, 0 <= o < 256 -> rd8 m1 (f + o) = byte name o).
  { intros o Ho. unfold m1. rewrite rd_wr_bytes. replace (f + o - f) with o by lia. fold (len bs). destruct (decide _) as [Hd|Hd].
    - unfold bs. rewrite name_pad by (fold bs; lia). apply name_byte. lia.
    - rewrite Bl by lia. symmetry. apply byte_out. lia. }
  split_and!.
  - intros i Hi. apply Hr. lia.
  - intros o Ho. rewrite Hr by lia. apply byte_out. lia.
  - intros o Ho. rewrite Hr by (unfold len in *; lia). apply byte_out. lia.
  - intros a Ha. unfold m1. rewrite rd_wr_bytes. fold (len bs). rewrite decide_False by lia. done.
Qed.

(** write_file after [create_file]. *)
Definition fill_file (c : list Z) : H unit :=
  copy_name f name ;;
  put32 (f_size f) (u32 (Z.of_nat (length c))) ;;
  put32 (f_type f) FTYPE_REG ;;
  write_content (length c) f 0 c.

Lemma fill_file_ok c : bytes c -> nextbno s + ccost 0 c <= NBLOCK -> exists s', fill_file c s = Val tt s' /\ made s s' f name (HFile c).
Proof using All.
  intros Hc Hroom. destruct Hname as (Hne & Hlen & _). pose proof (out_low _ _ O) as Hl. pose proof (out_far _ _ O) as Hf. pose proof SUPER_val as HS.
  destruct (put_name 1) as (N1 & T1 & _ & F1). { unfold len. rewrite length_app. cbn. lia. }
  set (m1 := wr_bytes (mem s) f (name ++ replicate 1 0)) in *.
  assert (Hsz : is_u32 (len c)).
  { unfold ccost, blocks in Hroom. change NBLOCK with 1024 in *. unfold is_u32. destruct (_ && _) in Hroom; unfold len in *; dlia. }
  set (m2 := wr32 m1 (f_size f) (len c)). set (m3 := wr32 m2 (f_type f) FTYPE_REG).
  assert (F3 : forall a, ~ (f + 128 <= a < f + 136) -> rd8 m3 a = rd8 m1 a).
  { intros a Ha. unfold m3, m2, f_type, f_size. rewrite !rd_wr32, !decide_False by lia. done. }
  assert (FO : forall a, ~ (f <= a < f + 256) -> rd8 m3 a = rd8 (mem s) a) by (intros a Ha; rewrite F3, F1 by lia; done).
  assert (K3 : links m3 f 0 (nextbno s) (nextbno s)).
  { apply no_links. unfold f_indirect, rd32. rewrite <- !Z.add_assoc, !F3, !T1 by lia. done. }
  assert (Z3 : zeros m3 (nextbno s)). { intros a Ha. rewrite FO by lia. by apply Z0. }
  destruct (write_content_ok f (nextbno s) (length c) c (set_mem m3 s) 0) as (s' & E & [AL AN AZ AS AH AF]); try done.
  exists s'. split.
  { unfold fill_file, copy_name, put_bytes, put32. rewrite (proj2 (Z.leb_gt _ _)) by (change MAXNAMELEN with 128; lia). unfold f_name. msteps.
    cbn [mem set_mem]. fold (len c). rewrite (u32_small (len c)) by done. change (name ++ [0]) with (name ++ replicate 1 0). exact E. }
  assert (R : forall k, 0 <= k < 136 -> rd8 (mem s') (f + k) = rd8 m3 (f + k)) by (intros k Hk; apply AF; lia).
  split; try done.
  - constructor. split; [| |done|done].
    + transitivity (rd32 m3 (f_type f)); [apply rd32_ext; intros i Hi; unfold f_type; rewrite <- Z.add_assoc; apply R; lia|]. by apply rd32_wr32_eq.
    + transitivity (rd32 m3 (f_size f)); [apply rd32_ext; intros i Hi; unfold f_size; rewrite <- Z.add_assoc; apply R; lia|].
      unfold m3, m2. unfold f_type, f_size. rewrite rd32_wr32_ne by lia. by apply rd32_wr32_eq.
  - apply (named_keep m1); [done| |done]. intros o Ho. rewrite R, F3 by lia. done.
  - intros a Ha1 Ha2. rewrite AF by lia. by apply FO.
Qed.
End Blank.
