(* ===== verification/FsFormatNode.v ===== *)
(** * The image builder: writing a tree (tools/fsformat.c: write_file, write_directory) *)

From Stdlib Require Import ZArith Lia.
From stdpp Require Import base numbers list gmap strings.
From S2P Require Import Prelude Mmu Str StrThms Wp KState Elf Signo Env TlbEx Syscall Ide Fs FsCache FsFormat FsFormatDir FsFormatTree.

(** A node [nd] was written into the directory at [p], which had [n] entries. *)
Record placed (s s' : img) (p n lo : Z) (name : list Z) (nd : hnode) : Prop := {
  pl_dir : dir_at (mem s') p (n + 1) (dirblocks (n + 1)) lo (nextbno s');
  pl_next : nextbno s' = nextbno s + dcost n + cost nd;
  pl_zeros : zeros (mem s') (nextbno s');
  pl_old : forall i, 0 <= i < dirblocks n -> blk (mem s') p i = blk (mem s) p i;
  pl_new : forall i, dirblocks n <= i < dirblocks (n + 1) -> nextbno s <= blk (mem s') p i;
  pl_index : 10 < dirblocks (n + 1) -> 10 < dirblocks n /\ idx (mem s') p = idx (mem s) p \/ nextbno s <= idx (mem s') p;
  pl_below : forall i, 0 <= i < dirblocks (n + 1) -> blk (mem s') p i < nextbno s + dcost n;
  pl_below_index : 10 < dirblocks (n + 1) -> idx (mem s') p < nextbno s + dcost n;
  pl_name : named (mem s') (slot (mem s') p n) name;
  pl_tree : tree (mem s') (slot (mem s') p n) nd (nextbno s + dcost n) (nextbno s');
  pl_frame : forall a, ~ meta (mem s') p (dirblocks (n + 1)) a -> ~ (slot (mem s') p n <= a < slot (mem s') p n + 256) ->
    ~ (nextbno s * 4096 <= a < SUPER) -> rd8 (mem s') a = rd8 (mem s) a }.

Lemma dirblocks_S n : 0 <= n -> dirblocks (n + 1) = n / 16 + 1.
Proof. unfold dirblocks. dlia. Qed.

Lemma dcost_range n : 0 <= dcost n <= 2.
Proof. unfold dcost. destruct (n mod 16 =? 0), (n / 16 =? 10); lia. Qed.

Section Place.
Context (s : img) (p n lo : Z) (name : list Z) (nd : hnode).
Context (Da : dir_at (mem s) p n (dirblocks n) lo (nextbno s)) (Z0 : zeros (mem s) (nextbno s)) (O : outside p lo).
Context (Hlo : lo <= nextbno s) (Hname : name_ok name).

(** [create_file], then the node is filled in. *)
Lemma place_ok (fill : Z -> H unit) : nextbno s + dcost n + cost nd <= NBLOCK -> 0 <= cost nd ->
  (forall f s1, blank (mem s1) f -> zeros (mem s1) (nextbno s1) -> outside f (nextbno s1) -> nextbno s1 + cost nd <= NBLOCK ->
    exists s', fill f s1 = Val tt s' /\ made s1 s' f name nd) ->
  exists s', (f ← create_file p; fill f) s = Val tt s' /\ placed s s' p n lo name nd.
Proof using All.
  intros Hroom Hcost Hfill. pose proof (da_count _ _ _ _ _ _ Da) as Hn. pose proof (dcost_range n) as Hdc. pose proof SUPER_val as HS.
  pose proof (out_low _ _ O) as Hl. pose proof (out_far _ _ O) as Hf.
  destruct (create_file_ok s p n lo (dirblocks n) eq_refl Da Z0 O ltac:(lia) Hlo) as (f & s1 & E1 & [D1 P1 N1 Z1 O1 W1 X1 F1]).
  rewrite <- dirblocks_S in D1, W1, X1, F1 by lia. set (B := dirblocks (n + 1)) in *. pose proof (da_links _ _ _ _ _ _ D1) as K1.
  assert (Hs : 0 <= n < 16 * B) by (apply dirblocks_fit; lia). pose proof (slot_in _ _ _ _ _ K1 n Hs) as Hin. rewrite <- P1 in Hin.
  change NBLOCK with 1024 in *.
  destruct (Hfill f s1) as (s' & E2 & [T N Nx Z' F]).
  { intros o Ho. rewrite P1. apply (da_free _ _ _ _ _ _ D1); lia. } { done. }
  { split; [lia|change NBLOCK with 1024; lia|left; lia]. } { lia. }
  exists s'. split; [by rewrite (bind_val _ _ _ _ _ E1)|].
  assert (Hmeta : forall a, meta (mem s1) p B a -> ~ (f <= a < f + 256) /\ ~ (nextbno s1 * 4096 <= a < SUPER)).
  { intros a Ha. split.
    - intros Hfa. rewrite P1 in Hfa. by destruct (slot_meta _ _ _ _ _ K1 O ltac:(change NBLOCK with 1024; lia) n a Hs Hfa).
    - unfold meta, lmeta in Ha. destruct Ha as [Ha|[Ha|[HB Ha]]]; [lia|lia|]. destruct (lk_idx _ _ _ _ _ K1 HB). lia. }
  assert (Km : same_on (meta (mem s1) p B) (mem s1) (mem s')) by (intros a Ha; apply F; by apply Hmeta).
  pose proof (same_links _ _ _ _ Km) as Kl.
  assert (Eb : forall i, 0 <= i < B -> blk (mem s') p i = blk (mem s1) p i) by (intros i; apply (keep_blk _ _ _ _ _ _ K1 Kl)).
  assert (Ei : idx (mem s') p = idx (mem s1) p) by apply (keep_idx _ _ _ _ Kl).
  assert (Ef : slot (mem s') p n = f) by (rewrite P1; by apply (keep_slot _ _ _ B lo (nextbno s1))).
  split; rewrite ?Ef; fold B.
  - apply (dir_fill (mem s1) (mem s') p n B lo (nextbno s1)); try done; [lia|change NBLOCK with 1024; lia|lia| |].
    + intros a [Ha Hnf]. rewrite <- P1 in Hnf. apply F; lia.
    + rewrite <- P1. destruct Hname as (Hne & _ & Hc). pose proof (N 0) as N0. rewrite Z.add_0_r in N0. rewrite N0 by (unfold len; lia).
      destruct name as [|x l]; [done|]. apply Forall_cons in Hc as [Hx _]. cbv beta in Hx. change (byte (x :: l) 0) with x. lia.
  - rewrite Nx, N1. lia.
  - done.
  - intros i Hi. rewrite Eb by (unfold B, dirblocks in *; dlia). by apply O1.
  - intros i Hi. rewrite Eb by (unfold dirblocks in *; dlia). by apply W1.
  - intros HB. rewrite Ei. by apply X1.
  - intros i Hi. rewrite Eb by done. pose proof (lk_range _ _ _ _ _ K1 i Hi). lia.
  - intros HB. rewrite Ei. destruct (lk_idx _ _ _ _ _ K1 HB). lia.
  - done.
  - by rewrite <- N1.
  - intros a Ha1 Ha2 Ha3. unfold meta, lmeta in Ha1. rewrite Ei in Ha1. rewrite F by lia. apply F1. done.
Qed.
End Place.

(** The entries of a directory, one after the other. *)
Definition write_entries (pdir : Z) : list (list Z * hnode) -> H unit :=
  fix write_entries (l : list (list Z * hnode)) : H unit :=
    match l with
    | [] => mret tt
    | (n, e) :: l' =>
        (if bool_decide (n = dot) || bool_decide (n = dotdot) then mret tt else write_node e pdir n) ;;
        write_entries l'
    end.

Lemma write_entries_visible pdir es s :
  write_entries pdir es s = for_each (visible es) (fun '(n, e) => write_node e pdir n) s.
Proof.
  revert s. induction es as [|[n e] es IH]; intros s; [done|]. unfold visible in *. cbn [write_entries List.filter]. unfold shown at 1.
  cbn [fst]. destruct (bool_decide (n = dot) || bool_decide (n = dotdot)); cbn [negb for_each]; [by rewrite bind_ret|].
  apply bind_ext. intros _ s'. apply IH.
Qed.

Lemma ecost_pos l : Forall (fun x => 0 <= cost x.2) l -> forall k, 0 <= ecost l k.
Proof.
  induction 1 as [|[n e] l He Hl IH]; intros k; cbn [ecost]; [lia|]. cbn in He. pose proof (dcost_range k). pose proof (IH (k + 1)). lia.
Qed.

Lemma Forall_visible (P : list Z * hnode -> Prop) es : Forall P es -> Forall P (visible es).
Proof. induction 1 as [|x l Hx Hl IH]; [constructor|]. unfold visible in *. cbn [List.filter]. destruct (shown x); [by constructor|done]. Qed.

Lemma cost_pos nd : 0 <= cost nd.
Proof.
  induction nd as [c|es IH] using hnode_rect'; [apply ccost_pos|]. rewrite cost_dir. apply ecost_pos. by apply Forall_visible.
Qed.

(** ** One more entry in a directory *)
Section Snoc.
Context (s s' : img) (p lo : Z) (pre : list (list Z * hnode)) (L H : nat -> Z) (name : list Z) (nd : hnode).
Let n := Z.of_nat (length pre).
Context (D : laid (mem s) p pre lo (nextbno s) L H) (O : outside p lo) (Hlo : lo <= nextbno s) (Hn : nextbno s' <= NBLOCK).
Context (P : placed s s' p n lo name nd).

Definition L' (k : nat) : Z := if bool_decide (k = length pre) then nextbno s + dcost n else L k.
Definition H' (k : nat) : Z := if bool_decide (k = length pre) then nextbno s' else H k.

Lemma old_slot k : 0 <= k < n -> slot (mem s') p k = slot (mem s) p k.
Proof using P. intros Hk. unfold slot. rewrite (pl_old _ _ _ _ _ _ _ P); [done|]. pose proof (dirblocks_fit n k Hk). dlia. Qed.

(** The bytes of the older entries and of their blocks. *)
Lemma old_entry k o : 0 <= k < n -> 0 <= o < 256 -> rd8 (mem s') (slot (mem s) p k + o) = rd8 (mem s) (slot (mem s) p k + o).
Proof using D O Hn P.
  intros Hk Ho. pose proof (da_links _ _ _ _ _ _ (pl_dir _ _ _ _ _ _ _ P)) as K.
  pose proof (dirblocks_fit (n + 1) k ltac:(lia)) as F1. pose proof (dirblocks_fit (n + 1) n ltac:(unfold n; lia)) as F2.
  pose proof (slot_in _ _ _ _ _ (da_links _ _ _ _ _ _ (ld_dir _ _ _ _ _ _ _ D)) k (dirblocks_fit n k Hk)) as Hin.
  rewrite <- old_slot by done. apply (pl_frame _ _ _ _ _ _ _ P).
  - apply (slot_meta _ _ _ _ _ K O Hn k); [done|lia].
  - intros Ha. assert (k = n); [|lia]. apply (slot_inj _ _ _ _ _ K k n (slot (mem s') p k + o)); (done || lia).
  - rewrite old_slot by done. lia.
Qed.

Lemma old_block k : (k < length pre)%nat -> same_on (fun a => L k * 4096 <= a < H k * 4096) (mem s) (mem s').
Proof using D O Hn P.
  intros Hk a Ha. pose proof SUPER_val as HS. pose proof (out_far _ _ O) as Hf. change NBLOCK with 1024 in *.
  destruct (ld_in _ _ _ _ _ _ _ D k Hk) as [HL HH]. fold n in D. pose proof (pl_next _ _ _ _ _ _ _ P) as Hnx. pose proof (dcost_range n). pose proof (cost_pos nd).
  assert (Hb : forall i, 0 <= i < dirblocks (n + 1) -> ~ (L k <= blk (mem s') p i < H k)).
  { intros i Hi. destruct (Z.lt_ge_cases i (dirblocks n)) as [Hlt|Hge].
    - rewrite (pl_old _ _ _ _ _ _ _ P) by lia. apply (ld_blk _ _ _ _ _ _ _ D k i Hk). fold n. lia.
    - pose proof (pl_new _ _ _ _ _ _ _ P i ltac:(lia)). lia. }
  apply (pl_frame _ _ _ _ _ _ _ P); [| |lia].
  - unfold meta, lmeta. intros [?|[?|[HB Hx]]]; [lia|lia|]. destruct (pl_index _ _ _ _ _ _ _ P HB) as [[HB' Ei]|Hi]; [|lia].
    pose proof (ld_index _ _ _ _ _ _ _ D k Hk HB'). rewrite Ei in Hx. lia.
  - pose proof (dirblocks_fit (n + 1) n ltac:(unfold n; lia)) as F2. pose proof (Hb (n / 16) ltac:(dlia)). unfold slot. dlia.
Qed.

Lemma snoc_trees : Forall (fun x => host_ok x.2) pre ->
  (forall k x, pre !! k = Some x -> tree (mem s) (slot (mem s) p (Z.of_nat k)) x.2 (L k) (H k)) ->
  forall k x, (pre ++ [(name, nd)]) !! k = Some x -> tree (mem s') (slot (mem s') p (Z.of_nat k)) x.2 (L' k) (H' k).
Proof using D O Hn P.
  intros Hok T k x Hx. unfold L', H'. apply lookup_snoc_Some in Hx as [[Hk Hx]|[-> <-]].
  - rewrite !bool_decide_false by lia. rewrite old_slot by (unfold n; lia). apply (tree_copy (mem s) (slot (mem s) p (Z.of_nat k))).
    + by apply T.
    + apply (Forall_lookup_1 _ _ _ _ Hok Hx).
    + split; [|by apply old_block]. intros o Ho. apply old_entry; unfold n; lia.
  - rewrite !bool_decide_true by done. apply (pl_tree _ _ _ _ _ _ _ P).
Qed.

Lemma snoc_laid : Forall (fun x => name_ok x.1) pre -> laid (mem s') p (pre ++ [(name, nd)]) lo (nextbno s') L' H'.
Proof using All.
  intros Hok. pose proof (pl_next _ _ _ _ _ _ _ P) as Hnx. pose proof (dcost_range n) as Hdc. pose proof (cost_pos nd) as Hcp. pose proof (da_count _ _ _ _ _ _ (ld_dir _ _ _ _ _ _ _ D)) as Hda.
  assert (En : Z.of_nat (length (pre ++ [(name, nd)])) = n + 1) by (unfold n; rewrite length_app; cbn; lia).
  assert (Hin : forall k, (k < length (pre ++ [(name, nd)]))%nat -> (k < length pre)%nat \/ k = length pre) by (intros k; rewrite length_app; cbn; lia).
  assert (HL : forall k, (k < length pre)%nat -> L' k = L k /\ H' k = H k) by (intros k Hk; unfold L', H'; by rewrite !bool_decide_false by lia).
  assert (HN : L' (length pre) = nextbno s + dcost n /\ H' (length pre) = nextbno s') by (unfold L', H'; by rewrite !bool_decide_true).
  split; rewrite ?En.
  - apply (pl_dir _ _ _ _ _ _ _ P).
  - intros k x Hx. apply lookup_snoc_Some in Hx as [[Hk Hx]|[-> <-]]; [|apply (pl_name _ _ _ _ _ _ _ P)].
    rewrite old_slot by (unfold n; lia). destruct (Forall_lookup_1 _ _ _ _ Hok Hx) as (_ & Hl & _).
    apply (named_keep (mem s)); [done| |by apply (ld_name _ _ _ _ _ _ _ D)]. intros o Ho. apply old_entry; unfold n; lia.
  - intros k [Hk| ->]%Hin; [destruct (HL k Hk) as [-> ->]; destruct (ld_in _ _ _ _ _ _ _ D k Hk); lia|]. destruct HN as [-> ->]. lia.
  - intros k i [Hk| ->]%Hin Hi; [destruct (HL k Hk) as [-> ->]|destruct HN as [-> ->]; pose proof (pl_below _ _ _ _ _ _ _ P i Hi); lia].
    destruct (ld_in _ _ _ _ _ _ _ D k Hk). destruct (Z.lt_ge_cases i (dirblocks n)) as [Hlt|Hge].
    + rewrite (pl_old _ _ _ _ _ _ _ P) by lia. apply (ld_blk _ _ _ _ _ _ _ D k i Hk). fold n. lia.
    + pose proof (pl_new _ _ _ _ _ _ _ P i ltac:(lia)). lia.
  - intros k [Hk| ->]%Hin HB; [destruct (HL k Hk) as [-> ->]|destruct HN as [-> ->]; pose proof (pl_below_index _ _ _ _ _ _ _ P HB); lia].
    destruct (ld_in _ _ _ _ _ _ _ D k Hk). destruct (pl_index _ _ _ _ _ _ _ P HB) as [[HB' ->]|Hi]; [|lia]. by apply (ld_index _ _ _ _ _ _ _ D).
  - intros j k [Hjk Hk]. apply Hin in Hk as [Hk| ->]; destruct (HL j ltac:(lia)) as [_ ->].
    + destruct (HL k Hk) as [-> _]. apply (ld_apart _ _ _ _ _ _ _ D). lia.
    + destruct HN as [-> _]. destruct (ld_in _ _ _ _ _ _ _ D j ltac:(lia)). lia.
Qed.
End Snoc.

(** ** Writing nodes *)

(** [write_node] puts the node into any directory with room. *)
Definition places (nd : hnode) : Prop := forall s p n lo name,
  dir_at (mem s) p n (dirblocks n) lo (nextbno s) -> zeros (mem s) (nextbno s) -> outside p lo -> lo <= nextbno s ->
  name_ok name -> nextbno s + dcost n + cost nd <= NBLOCK ->
  exists s', write_node nd p name s = Val tt s' /\ placed s s' p n lo name nd.

(** The entries [vis] were put into the directory at [p]. *)
Record filled (s s' : img) (p lo : Z) (vis : list (list Z * hnode)) (L H : nat -> Z) : Prop := {
  fl_laid : laid (mem s') p vis lo (nextbno s') L H;
  fl_trees : forall k x, vis !! k = Some x -> tree (mem s') (slot (mem s') p (Z.of_nat k)) x.2 (L k) (H k);
  fl_zeros : zeros (mem s') (nextbno s');
  fl_frame : forall a, ~ (p + 128 <= a < p + 132) -> ~ (p + 136 <= a < p + 180) -> ~ (lo * 4096 <= a < SUPER) -> rd8 (mem s') a = rd8 (mem s) a }.

Lemma filled_snoc s s1 s2 p lo pre L H name nd : Forall (fun x => name_ok x.1) pre -> Forall (fun x => host_ok x.2) pre ->
  outside p lo -> lo <= nextbno s1 -> nextbno s2 <= NBLOCK -> filled s s1 p lo pre L H -> placed s1 s2 p (Z.of_nat (length pre)) lo name nd ->
  exists L2 H2, filled s s2 p lo (pre ++ [(name, nd)]) L2 H2.
Proof.
  intros Hn Hh O Hlo Hnb [D T Z0 F] P. exists (L' s1 pre L), (H' s2 pre H). split.
  - by apply (snoc_laid s1).
  - intros k x Hx. by apply (snoc_trees s1 s2 p lo pre L H name nd).
  - apply (pl_zeros _ _ _ _ _ _ _ P).
  - intros a H1 H2 H3. pose proof SUPER_val as HS. change NBLOCK with 1024 in *.
    pose proof (da_links _ _ _ _ _ _ (pl_dir _ _ _ _ _ _ _ P)) as K. rewrite (pl_frame _ _ _ _ _ _ _ P); [by apply F| | |lia].
    + unfold meta, lmeta. intros [?|[?|[HB Hi]]]; [done|done|]. destruct (lk_idx _ _ _ _ _ K HB). lia.
    + pose proof (slot_in _ _ _ _ _ K (Z.of_nat (length pre)) (dirblocks_fit (Z.of_nat (length pre) + 1) (Z.of_nat (length pre)) ltac:(lia))). lia.
Qed.

Lemma entries_ok s p lo vis : outside p lo -> forall pre s1 L H, Forall (fun x => places x.2) vis ->
  Forall (fun x => name_ok x.1) (pre ++ vis) -> Forall (fun x => host_ok x.2) (pre ++ vis) ->
  filled s s1 p lo pre L H -> lo <= nextbno s1 -> nextbno s1 + ecost vis (Z.of_nat (length pre)) <= NBLOCK ->
  exists s2 L2 H2, for_each vis (fun '(n, e) => write_node e p n) s1 = Val tt s2 /\ filled s s2 p lo (pre ++ vis) L2 H2 /\
    nextbno s2 = nextbno s1 + ecost vis (Z.of_nat (length pre)).
Proof.
  intros O. induction vis as [|[name nd] vis IH]; intros pre s1 L H Hp Hn Hh F Hlo Hroom.
  - exists s1, L, H. rewrite app_nil_r. split; [done|]. split; [done|]. cbn. lia.
  - apply Forall_cons in Hp as [Hp Hps]. cbn [snd] in Hp. cbn [ecost for_each] in *.
    pose proof (ecost_pos vis ltac:(apply Forall_true; intros x; apply cost_pos) (Z.of_nat (length pre) + 1)) as He.
    pose proof (dcost_range (Z.of_nat (length pre))). pose proof (cost_pos nd).
    assert (En : Z.of_nat (length pre) + 1 = Z.of_nat (length (pre ++ [(name, nd)]))) by (rewrite length_app; cbn; lia).
    assert (Hpre : Forall (fun x => name_ok x.1) pre /\ Forall (fun x => host_ok x.2) pre) by (apply Forall_app in Hn as [? _]; apply Forall_app in Hh as [? _]; done).
    destruct (Hp s1 p (Z.of_nat (length pre)) lo name) as (s2 & E2 & P); [apply (ld_dir _ _ _ _ _ _ _ (fl_laid _ _ _ _ _ _ _ F))|apply F|done|done| |lia|].
    { apply Forall_app in Hn as [_ Hn]. by apply Forall_cons in Hn as [Hn _]. }
    pose proof (pl_next _ _ _ _ _ _ _ P) as Hx.
    destruct (filled_snoc s s1 s2 p lo pre L H name nd) as (L2 & H2 & F2); try apply Hpre; (done || lia || idtac).
    destruct (IH (pre ++ [(name, nd)]) s2 L2 H2) as (s3 & L3 & H3 & E3 & F3 & Nx); rewrite <- ?app_assoc; try done; [lia|rewrite <- En; lia|].
    rewrite <- app_assoc in F3. exists s3, L3, H3. split; [|split; [done|rewrite Nx, <- En; lia]].
    by rewrite (bind_val _ _ _ _ _ E2).
Qed.

(** An empty directory. *)
Lemma empty_filled s p : rd32 (mem s) (f_size p) = 0 -> rd32 (mem s) (f_indirect p) = 0 -> zeros (mem s) (nextbno s) ->
  filled s s p (nextbno s) [] (fun _ => 0) (fun _ => 0).
Proof.
  intros Es Ei Z0. change (dirblocks (Z.of_nat 0)) with 0. split; [|done|done|done].
  split; cbn [length]; change (dirblocks (Z.of_nat 0)) with 0; try (intros; lia).
  - split; try (intros; lia). by apply no_links.
  - done.
Qed.

(** write_directory after [create_file]. *)
Definition fill_dir (es : list (list Z * hnode)) (name : list Z) (f : Z) : H unit :=
  strncpy_name f name ;;
  c ← get8 (f_name f + (MAXNAMELEN - 1));
  (if negb (c =? 0) then panic "file name is too long" else mret tt) ;;
  put32 (f_type f) FTYPE_DIR ;;
  write_entries f es.

Lemma fill_dir_ok es name f s : Forall (fun x => places x.2) (visible es) -> host_ok (HDir es) -> name_ok name ->
  blank (mem s) f -> zeros (mem s) (nextbno s) -> outside f (nextbno s) -> nextbno s + cost (HDir es) <= NBLOCK ->
  exists s', fill_dir es name f s = Val tt s' /\ made s s' f name (HDir es).
Proof.
  intros Hp Hh Hname Bl Z0 O Hroom. inversion Hh as [|? Hvn Hvh]; subst. pose proof Hname as (Hne & Hlen & _).
  pose proof (out_low _ _ O) as Hl. pose proof (out_far _ _ O) as Hf. pose proof SUPER_val as HS.
  destruct (put_name s f name Bl Hname (127 - length name)) as (N1 & T1 & X1 & F1). { right. unfold len. rewrite length_app, length_replicate. lia. }
  set (m1 := wr_bytes (mem s) f (name ++ replicate (127 - length name) 0)) in *. set (m2 := wr32 m1 (f_type f) FTYPE_DIR). set (s2 := set_mem m2 s).
  assert (F2 : forall a, ~ (f + 132 <= a < f + 136) -> rd8 m2 a = rd8 m1 a).
  { intros a Ha. unfold m2, f_type. rewrite rd_wr32, decide_False by lia. done. }
  assert (FO : forall a, ~ (f <= a < f + 256) -> rd8 m2 a = rd8 (mem s) a) by (intros a Ha; rewrite F2, F1 by lia; done).
  assert (Z2 : zeros m2 (nextbno s)). { intros a Ha. rewrite FO by lia. by apply Z0. }
  assert (E0 : rd32 m2 (f_size f) = 0 /\ rd32 m2 (f_indirect f) = 0).
  { unfold f_size, f_indirect, rd32. rewrite <- !Z.add_assoc. rewrite !F2, !T1 by lia. done. }
  rewrite cost_dir in Hroom.
  destruct (entries_ok s2 f (nextbno s) (visible es) O [] s2 (fun _ => 0) (fun _ => 0)) as (s' & L & Hi & E & [D T Z' F] & Nx); try done.
  { exact (empty_filled s2 f (proj1 E0) (proj2 E0) Z2). }
  exists s'. split.
  { unfold fill_dir, strncpy_name, get8, put_bytes, put32. rewrite (firstn_all2 (n := 127)) by lia. msteps. cbn [mem set_mem]. unfold f_name.
    fold m1. change (MAXNAMELEN - 1) with 127. rewrite X1 by (unfold len; lia). cbn [Z.eqb negb]. msteps. fold m1 m2 s2. by rewrite write_entries_visible. }
  assert (R : forall k, 0 <= k < 128 \/ 132 <= k < 136 -> rd8 (mem s') (f + k) = rd8 m2 (f + k)) by (intros k Hk; apply F; lia).
  split; try done.
  - apply (tree_dir _ _ _ _ _ L Hi); [|done|done].
    transitivity (rd32 m2 (f_type f)); [apply rd32_ext; intros i Hx; unfold f_type; rewrite <- Z.add_assoc; apply R; lia|]. by apply rd32_wr32_eq.
  - apply (named_keep m1); [done| |done]. intros o Ho. rewrite R, F2 by lia. done.
  - by rewrite cost_dir.
  - intros a Ha1 Ha2. rewrite F by lia. by apply FO.
Qed.

Lemma write_node_ok nd : host_ok nd -> places nd.
Proof.
  induction nd as [c|es IH] using hnode_rect'; intros Hok s p n lo name Da Z0 O Hlo Hname Hroom.
  - inversion Hok as [? Hc|]; subst. destruct (place_ok s p n lo name (HFile c) Da Z0 O Hlo Hname (fun f => fill_file f name c)) as (s' & E & P); try done; [apply cost_pos| |].
    + intros f s1 Bl Z1 O1 Hr. by apply fill_file_ok.
    + by exists s'.
  - destruct (place_ok s p n lo name (HDir es) Da Z0 O Hlo Hname (fill_dir es name)) as (s' & E & P); try done; [apply cost_pos| |].
    + intros f s1 Bl Z1 O1 Hr. apply fill_dir_ok; try done. inversion Hok as [|? _ Hh]; subst. apply Forall_visible in IH.
      apply Forall_lookup_2. intros k x Hx. by apply (Forall_lookup_1 _ _ _ _ IH Hx), (Forall_lookup_1 _ _ _ _ Hh Hx).
    + by exists s'.
Qed.
