(* ===== verification/FsFormatMain.v ===== *)
(** * The image builder: the image (tools/fsformat.c: init_disk, flush_bitmap, finish_fs, main) *)

From Stdlib Require Import ZArith Lia.
From stdpp Require Import base numbers list gmap strings.
From S2P Require Import Prelude Mmu Str StrThms Wp KState Elf Signo Env TlbEx Syscall Ide Fs FsMem FsCache.
From S2P Require Import FsFormat FsFormatDir FsFormatTree FsFormatNode.

(** ** The memory holds bytes *)
Definition bytewise {A} (x : H A) : Prop := forall s a s', bytes_ok (mem s) -> x s = Val a s' -> bytes_ok (mem s').

Create HintDb bytewise.
#[local] Hint Constants Opaque : bytewise.

Section Bytewise.
Context {A B : Type}.

Lemma bytewise_ret (a : A) : bytewise (mret a).
Proof. intros s b s' H [= _ <-]. done. Qed.
Lemma bytewise_bind (x : H A) (k : A -> H B) : bytewise x -> (forall a, bytewise (k a)) -> bytewise (x ≫= k).
Proof. intros Hx Hk s b s' H E. apply bind_val_inv in E as (a & s1 & E1 & E2). apply (Hk a s1 b); [|done]. by apply (Hx s a). Qed.
Lemma bytewise_gets (f : img -> A) : bytewise (gets f).
Proof. intros s b s' H [= _ <-]. done. Qed.
Lemma bytewise_undef why : bytewise (undef (A := A) why).
Proof. by intros s b s' H E. Qed.
Lemma bytewise_panic msg : bytewise (panic (A := A) msg).
Proof. by intros s b s' H E. Qed.
Lemma bytewise_if (c : bool) (x y : H A) : bytewise x -> bytewise y -> bytewise (if c then x else y).
Proof. by destruct c. Qed.
End Bytewise.

Lemma bytewise_put32 a v : bytewise (put32 a v).
Proof. intros s b s' H [= _ <-]. by apply wr32_bytes_ok. Qed.
Lemma bytewise_put_bytes a bs : bytewise (put_bytes a bs).
Proof. intros s b s' H [= _ <-]. by apply wr_bytes_ok. Qed.
Lemma bytewise_type b ty : bytewise (set_type b ty).
Proof. by intros s x s' H [= _ <-]. Qed.
Lemma bytewise_next f : bytewise (modify (fun s => mkImg (mem s) (btype s) (f s))).
Proof. by intros s x s' H [= _ <-]. Qed.
Lemma bytewise_each {X} (l : list X) (body : X -> H unit) : (forall x, bytewise (body x)) -> bytewise (for_each l body).
Proof. intros Hb. induction l as [|x l IH]; [apply bytewise_ret|]. apply bytewise_bind; [apply Hb|done]. Qed.
Lemma bytewise_first {X A} (l : list X) (body : X -> H (option A)) : (forall x, bytewise (body x)) -> bytewise (for_first l body).
Proof.
  intros Hb. induction l as [|x l IH]; [apply bytewise_ret|]. apply bytewise_bind; [apply Hb|]. intros [a|]; [apply bytewise_ret|done].
Qed.

#[local] Hint Resolve bytewise_ret bytewise_gets bytewise_undef bytewise_panic bytewise_put32 bytewise_put_bytes bytewise_type bytewise_next : bytewise.

(** Follows the text of a computation. *)
Ltac bytewise :=
  repeat first
    [ solve [eauto with bytewise]
    | apply bytewise_bind; [|intros ?]
    | apply bytewise_each; intros ?
    | apply bytewise_first; intros ?
    | apply bytewise_if
    | match goal with |- bytewise (match ?x with _ => _ end) => destruct x end ].

Lemma bytewise_next_block ty : bytewise (next_block ty).
Proof. unfold next_block. bytewise. Qed.
Lemma bytewise_block b : bytewise (block b).
Proof. unfold block. bytewise. Qed.
#[local] Hint Resolve bytewise_next_block bytewise_block : bytewise.
Lemma bytewise_link f i b : bytewise (save_block_link f i b).
Proof. unfold save_block_link, assert, get32. bytewise. Qed.
#[local] Hint Resolve bytewise_link : bytewise.
Lemma bytewise_create p : bytewise (create_file p).
Proof. unfold create_file, make_link_block, dir_block, get32, get8. bytewise. Qed.
#[local] Hint Resolve bytewise_create : bytewise.
Lemma bytewise_content n : forall f i c, bytewise (write_content n f i c).
Proof. induction n as [|n IH]; intros f i [|x c]; cbn [write_content]; bytewise. Qed.
#[local] Hint Resolve bytewise_content : bytewise.
Lemma bytewise_node nd : forall p name, bytewise (write_node nd p name).
Proof.
  induction nd as [c|es IH] using hnode_rect'; intros p name.
  - cbn [write_node]. unfold write_file, copy_name. bytewise.
  - change (write_node (HDir es) p name) with (f ← create_file p; fill_dir es name f). unfold fill_dir, strncpy_name, get8.
    bytewise. induction IH as [|[n e] l He Hl IHl]; cbn [write_entries]; bytewise.
Qed.
#[local] Hint Resolve bytewise_node : bytewise.
Lemma bytewise_init : bytewise init_disk.
Proof. unfold init_disk, memset. cbv zeta. bytewise. Qed.
Lemma bytewise_flush : bytewise flush_bitmap.
Proof. unfold flush_bitmap, get32. bytewise. Qed.

(** ** init_disk *)
Definition mem0 : bmem :=
  let diff := NBLOCK mod BIT2BLK / 8 in
  let bm := wr_bytes (wr_bytes ∅ ((2 + 0) * BY2BLK) (replicate (Z.to_nat BY2BLK) 255))
    ((2 + (nbitblock - 1)) * BY2BLK + diff) (replicate (Z.to_nat (BY2BLK - diff)) 0) in
  wr_bytes (wr32 (wr32 (wr32 bm (s_magic SUPER) FS_MAGIC) (s_nblocks SUPER) NBLOCK) (f_type root_dir) FTYPE_DIR) (f_name root_dir) [47; 0].
Definition type0 : gmap Z Z := <[1 := BLOCK_SUPER]> (<[2 + 0 := BLOCK_BMAP]> (<[0 := BLOCK_BOOT]> ∅)).
Definition img1 : img := mkImg mem0 type0 (2 + nbitblock).

Lemma mem0_low a : 0 <= a < SUPER -> rd8 mem0 a = if decide (8192 <= a < 8320) then 255 else 0.
Proof.
  intros Ha. rewrite SUPER_val in Ha. unfold mem0, f_type, f_name, root_dir, s_root, s_magic, s_nblocks. rewrite SUPER_val.
  change (NBLOCK mod BIT2BLK / 8) with 128. change ((2 + (nbitblock - 1)) * BY2BLK) with 8192. change ((2 + 0) * BY2BLK) with 8192.
  change (Z.to_nat BY2BLK) with 4096%nat. change (Z.to_nat (BY2BLK - 128)) with 3968%nat.
  rewrite rd_wr_bytes, decide_False by (cbn; lia). rewrite !rd_wr32, !decide_False by lia.
  rewrite !rd_wr_bytes, !length_replicate. change (Z.of_nat 4096) with 4096. change (Z.of_nat 3968) with 3968.
  destruct (decide (8192 + 128 <= a < 8192 + 128 + 3968)).
  - rewrite decide_False by lia. rewrite nth_lookup, lookup_replicate_2 by lia. done.
  - destruct (decide (8192 <= a < 8192 + 4096)).
    + rewrite decide_True by lia. rewrite nth_lookup, lookup_replicate_2 by lia. done.
    + rewrite decide_False by lia. done.
Qed.

Lemma mem0_super : rd32 mem0 SUPER = FS_MAGIC /\ rd32 mem0 (SUPER + 4) = NBLOCK /\ rd32 mem0 (f_type root_dir) = FTYPE_DIR /\
  rd32 mem0 (f_size root_dir) = 0 /\ rd32 mem0 (f_indirect root_dir) = 0.
Proof. by vm_compute. Qed.

(** What the rest of the tool starts from. *)
Record init_done (s1 : img) : Prop := {
  id_next : nextbno s1 = 3;
  id_bytes : bytes_ok (mem s1);
  id_low : forall a, 0 <= a < SUPER -> rd8 (mem s1) a = if decide (8192 <= a < 8320) then 255 else 0;
  id_magic : rd32 (mem s1) SUPER = FS_MAGIC;
  id_nblocks : rd32 (mem s1) (SUPER + 4) = NBLOCK;
  id_type : rd32 (mem s1) (f_type root_dir) = FTYPE_DIR;
  id_size : rd32 (mem s1) (f_size root_dir) = 0;
  id_indirect : rd32 (mem s1) (f_indirect root_dir) = 0 }.

Lemma img0_bytes : bytes_ok (mem img0).
Proof. intros a. unfold rd8. cbn [mem img0]. by rewrite lookup_empty. Qed.

Lemma init_disk_run : init_disk img0 = Val tt img1.
Proof.
  unfold init_disk, set_type, memset, put_bytes, put32. change (zseq 0 (Z.to_nat nbitblock)) with [0]. cbn [for_each].
  change (negb (NBLOCK =? nbitblock * BIT2BLK)) with true. cbv zeta iota. msteps. cbn [mem btype nextbno set_mem img0].
  unfold modify, set_mem. cbn [mem btype nextbno]. unfold img1, mem0, type0. cbv zeta. reflexivity.
Qed.

Lemma init_disk_ok : exists s1, init_disk img0 = Val tt s1 /\ init_done s1.
Proof.
  destruct mem0_super as (M1 & M2 & M3 & M4 & M5). exists img1. split; [exact init_disk_run|].
  split; try (cbn [mem nextbno img1]; assumption); [reflexivity| |exact mem0_low].
  apply (bytewise_init img0 tt img1 img0_bytes init_disk_run).
Qed.

(** ** The entries of the root *)
Lemma root_outside : outside root_dir 3.
Proof. split; [by vm_compute|by vm_compute|right; by vm_compute]. Qed.

Lemma init_filled s1 : init_done s1 -> filled s1 s1 root_dir 3 [] (fun _ => 0) (fun _ => 0).
Proof.
  intros D. rewrite <- (id_next _ D). apply empty_filled; [apply (id_size _ D)|apply (id_indirect _ D)|].
  rewrite (id_next _ D). intros a Ha. rewrite (id_low _ D) by lia. by rewrite decide_False by lia.
Qed.

Lemma args_ok s1 args : filled s1 s1 root_dir 3 [] (fun _ => 0) (fun _ => 0) -> nextbno s1 = 3 ->
  Forall (fun x => name_ok x.1) args -> Forall (fun x => host_ok x.2) args -> 3 + ecost args 0 <= NBLOCK ->
  exists s L R, for_each args (fun '(name, nd) => write_node nd root_dir name) s1 = Val tt s /\ filled s1 s root_dir 3 args L R /\ nextbno s = 3 + ecost args 0.
Proof.
  intros F E3 Hn Hh Hroom. destruct (entries_ok s1 root_dir 3 args root_outside [] s1 (fun _ => 0) (fun _ => 0)) as (s & L & R & E & Fi & Nx).
  - apply (Forall_impl _ _ _ Hh). intros x. apply write_node_ok.
  - done.
  - done.
  - done.
  - lia.
  - cbn [length]. change (Z.of_nat 0) with 0. lia.
  - exists s, L, R. split; [exact E|]. split; [exact Fi|]. rewrite Nx, E3. done.
Qed.

(** ** flush_bitmap: the first [j] bits are clear *)
Record flushed (m0 m : bmem) (j : Z) : Prop := {
  fd_words : forall w, 0 <= w < 32 -> is_u32 (rd32 m (8192 + 4 * w));
  fd_bits : forall b, 0 <= b < NBLOCK -> Z.testbit (rd32 m (8192 + 4 * (b / 32))) (b mod 32) = (j <=? b);
  fd_frame : forall a, ~ (8192 <= a < 8320) -> rd8 m a = rd8 m0 a }.

Lemma flush_step m0 m j : flushed m0 m j -> 0 <= j < NBLOCK -> let p := 8192 + 4 * (j / 32) in
  flushed m0 (wr32 m p (Z.land (rd32 m p) (u32 (Z.lnot (bit_of j))))) (j + 1).
Proof.
  change NBLOCK with 1024. intros [W B F] Hj p. assert (Hw : is_u32 (Z.land (rd32 m p) (u32 (Z.lnot (bit_of j))))).
  { apply land_u32; [apply W; dlia|apply u32_range]. }
  split.
  - intros w Hw'. destruct (Z.eq_dec w (j / 32)) as [->|Hne]; [by rewrite rd32_wr32_eq|]. rewrite rd32_wr32_ne by (unfold p; lia). by apply W.
  - change NBLOCK with 1024 in *. intros b Hb. destruct (Z.eq_dec (b / 32) (j / 32)) as [E|E].
    + rewrite E. fold p. rewrite rd32_wr32_eq by done. rewrite testbit_clear_bit by dlia. pose proof (B b Hb) as Hbit. rewrite E in Hbit. fold p in Hbit. rewrite Hbit.
      destruct (Z.leb_spec j b), (Z.leb_spec (j + 1) b), (Z.eqb_spec (b mod 32) (j mod 32)); cbn; try done; dlia.
    + rewrite rd32_wr32_ne by (unfold p; lia). rewrite B by done. destruct (Z.leb_spec j b), (Z.leb_spec (j + 1) b); try done; exfalso; [|lia].
      assert (b = j) as -> by lia. done.
  - intros a Ha. rewrite rd_wr32, decide_False by (unfold p; dlia). by apply F.
Qed.

Lemma flush_bitmap_ok s m0 : flushed m0 (mem s) 0 -> 0 <= nextbno s <= NBLOCK -> exists s', flush_bitmap s = Val tt s' /\
  flushed m0 (mem s') (nextbno s) /\ nextbno s' = nextbno s /\ btype s' = btype s.
Proof.
  intros F0 Hnb. unfold flush_bitmap. rewrite bind_gets. set (nb := nextbno s) in *.
  destruct (for_each_inv (fun l t => exists j, l = zseq j (Z.to_nat (nb - j)) /\ 0 <= j <= nb /\ flushed m0 (mem t) j /\ nextbno t = nb /\ btype t = btype s)
    (fun i => a ← block (2 + i / BIT2BLK); let p := a + 4 * (i mod BIT2BLK / 32) in w ← get32 p; put32 p (Z.land w (u32 (Z.lnot (Z.shiftl 1 (i mod 32))))))
    (zseq 0 (Z.to_nat nb)) s) as (s' & E & (j & Ej & Hj & Fj & Nj & Tj)).
  - exists 0. rewrite Z.sub_0_r. split; [done|]. split; [lia|]. done.
  - intros i l' t (j & El & Hj & Fj & Nj & Tj). destruct (Z.to_nat (nb - j)) as [|k] eqn:Ek; [done|]. cbn [zseq] in El. injection El as -> ->.
    change NBLOCK with 1024 in *. eexists. split.
    + replace (2 + j / BIT2BLK) with 2 by (unfold BIT2BLK, BY2BLK, BY2PG; dlia). rewrite (bind_val _ _ _ _ _ (block_ok 2 t ltac:(done))).
      cbv zeta. unfold get32. rewrite bind_gets. reflexivity.
    + exists (j + 1). replace (Z.to_nat (nb - (j + 1))) with k by lia. split; [done|]. split; [lia|]. split; [|done].
      replace (j mod BIT2BLK / 32) with (j / 32) by (unfold BIT2BLK, BY2BLK, BY2PG; dlia).
      apply (flush_step m0 (mem t) j Fj). change NBLOCK with 1024. lia.
  - exists s'. split; [exact E|]. assert (j = nb) as -> by (destruct (Z.to_nat (nb - j)) eqn:Ek; [lia|done]). done.
Qed.

(** ** The image *)
Record image_of (args : list (list Z * hnode)) (m : bmem) : Prop := {
  im_bytes : bytes_ok m;
  im_magic : rd32 m 4096 = FS_MAGIC;
  im_nblocks : rd32 m 4100 = NBLOCK;
  im_free : forall b, 0 <= b < NBLOCK -> Z.testbit (rd32 m (8192 + 4 * (b / 32))) (b mod 32) = (3 + ecost args 0 <=? b);
  im_tree : tree m 4104 (HDir args) 3 (3 + ecost args 0) }.

(** The arguments of the tool: names, contents, and room for all of it. *)
Record args_fit (args : list (list Z * hnode)) : Prop := {
  af_some : args <> [];
  af_names : Forall (fun x => name_ok x.1) args;
  af_hosts : Forall (fun x => host_ok x.2) args;
  af_shown : visible args = args;
  af_room : 3 + ecost args 0 <= NBLOCK }.

Definition finished (m : bmem) : bmem := wr_bytes m 4096 (map (fun k => rd8 m (SUPER + k)) (zseq 0 (Z.to_nat sizeof_Super))).

Lemma finish_byte m a : bytes_ok m -> rd8 (finished m) a = if decide (4096 <= a < 4360) then rd8 m (SUPER + (a - 4096)) else rd8 m a.
Proof.
  intros Hb. unfold finished. change (Z.to_nat sizeof_Super) with 264%nat. rewrite rd_wr_bytes, length_map, zseq_length.
  change (4096 + Z.of_nat 264) with 4360. destruct (decide _); [|done]. rewrite nth_map_zseq by lia. apply u8_byte, Hb.
Qed.

Lemma finish_word m a k : bytes_ok m -> a = 4096 + k -> 0 <= k <= 260 -> rd32 (finished m) a = rd32 m (SUPER + k).
Proof.
  intros Hb -> Hk. unfold rd32. rewrite !finish_byte, !decide_True by (done || lia). by do 3 (f_equal; [|do 2 f_equal; lia]); f_equal; lia.
Qed.

Lemma full_word m w : (forall a, 8192 <= a < 8320 -> rd8 m a = 255) -> 0 <= w < 32 -> rd32 m (8192 + 4 * w) = 4294967295.
Proof. intros H Hw. unfold rd32. by rewrite !H by lia. Qed.

Lemma full_flushed m : (forall a, 8192 <= a < 8320 -> rd8 m a = 255) -> flushed m m 0.
Proof.
  intros H. split; [| |done].
  - intros w Hw. by rewrite full_word.
  - change NBLOCK with 1024. intros b Hb. rewrite full_word by (done || dlia). destruct (Z.leb_spec 0 b); [|lia].
    change 4294967295 with (Z.ones 32). apply Z.ones_spec_low. dlia.
Qed.

Lemma visible_host args : visible args = args -> Forall (fun x => name_ok x.1) args -> Forall (fun x => host_ok x.2) args -> host_ok (HDir args).
Proof. intros E Hn Hh. constructor; by rewrite E. Qed.

(** The tree in the tool's memory is the tree of the image, with the root where [super] was copied. *)
Lemma finish_tree args s1 s m2 L R : init_done s1 -> args_fit args -> filled s1 s root_dir 3 args L R -> nextbno s <= NBLOCK ->
  bytes_ok m2 -> (forall a, ~ (8192 <= a < 8320) -> rd8 m2 a = rd8 (mem s) a) -> tree (finished m2) 4104 (HDir args) 3 (nextbno s).
Proof.
  intros D0 [_ Hn Hh Hv _] [D T Z0 F] Hnb Hb2 F2. change NBLOCK with 1024 in *. pose proof SUPER_val as HS.
  assert (Eroot : root_dir = 4194312) by reflexivity.
  apply (tree_copy (mem s) root_dir).
  - apply (tree_dir _ _ _ _ _ L R); rewrite ?Hv; [|done|done]. rewrite <- (id_type _ D0).
    apply rd32_ext. intros i Hi. apply F; unfold f_type; lia.
  - by apply visible_host.
  - split.
    + intros k Hk. rewrite (finish_byte m2 _ Hb2), decide_True by lia. rewrite F2 by lia. f_equal. rewrite Eroot, HS. lia.
    + intros a Ha. rewrite (finish_byte m2 _ Hb2), decide_False by lia. apply F2. lia.
Qed.

Lemma main_ok args : args_fit args -> exists m s, main false args img0 = Val m s /\ image_of args m.
Proof.
  intros A. pose proof A as [Hne Hn Hh Hv Hroom]. pose proof SUPER_val as HS. assert (Er : root_dir = SUPER + 8) by reflexivity.
  destruct init_disk_ok as (s1 & E1 & D).
  destruct (args_ok s1 args (init_filled s1 D) (id_next _ D) Hn Hh Hroom) as (s & L & R & E & F & Nx).
  assert (Bs : bytes_ok (mem s)).
  { refine (bytewise_each args _ _ s1 tt s (id_bytes _ D) E). intros [n e]. apply bytewise_node. }
  assert (Hlow : forall a, 0 <= a < 12288 -> rd8 (mem s) a = rd8 (mem s1) a).
  { intros a Ha. apply (fl_frame _ _ _ _ _ _ _ F); lia. }
  assert (Hn3 : 0 <= ecost args 0) by (apply ecost_pos; apply Forall_true; intros x; apply cost_pos).
  destruct (flush_bitmap_ok s (mem s)) as (s2 & E2 & [W B F2] & N2 & _).
  { apply full_flushed. intros a Ha. rewrite Hlow, (id_low _ D) by lia. by rewrite decide_True by lia. }
  { change NBLOCK with 1024 in *. lia. }
  pose proof (bytewise_flush s tt s2 Bs E2) as B2.
  exists (finished (mem s2)), (set_mem (finished (mem s2)) s2). split.
  - unfold main. rewrite (bind_val _ _ _ _ _ E1). replace (Z.of_nat (length args) + 2 <? 3) with false by (destruct args; [done|symmetry; apply Z.ltb_ge; cbn [length]; lia]).
    rewrite bind_assert_true, (bind_val _ _ _ _ _ E), (bind_val _ _ _ _ _ E2). reflexivity.
  - assert (Hs : forall k, 0 <= k < 8 -> rd8 (mem s2) (SUPER + k) = rd8 (mem s1) (SUPER + k)).
    { intros k Hk. rewrite F2 by lia. apply (fl_frame _ _ _ _ _ _ _ F); lia. }
    split.
    + by apply wr_bytes_ok.
    + rewrite (finish_word (mem s2) 4096 0 B2 eq_refl ltac:(lia)), Z.add_0_r. rewrite <- (id_magic _ D). apply rd32_ext. intros i Hi. apply Hs. lia.
    + rewrite (finish_word (mem s2) 4100 4 B2 eq_refl ltac:(lia)). rewrite <- (id_nblocks _ D). apply rd32_ext. intros i Hi. rewrite <- Z.add_assoc. apply Hs. lia.
    + intros b Hb. rewrite <- Nx, <- (B b Hb). f_equal. change NBLOCK with 1024 in *. apply rd32_ext. intros i Hi.
      rewrite (finish_byte (mem s2) _ B2), decide_False by dlia. reflexivity.
    + rewrite <- Nx. apply (finish_tree args s1 s (mem s2) L R D A F); [rewrite Nx; exact Hroom|exact B2|exact F2].
Qed.
