(* ===== verification/FsImage.v ===== *)
(** * The image on the disk of the file server

    The image that tools/fsformat.c builds, read by fs/fs.c: which of its blocks hold directory
    entries, and that the server's search finds the files of the host. *)

From Stdlib Require Import ZArith Lia.
From stdpp Require Import base numbers list gmap strings.
From S2P Require Import Prelude Mmu Str StrThms Wp KState Elf Signo Env TlbEx Syscall Ide Fs FsMem FsCache FsInit FsPath Gx.
From S2P Require Import FsFormat FsFormatDir FsFormatTree FsFormatNode FsFormatMain.

(** ** The blocks of directory entries *)

(** The directory at [q] has its blocks in [l], its index block elsewhere, all in [lo .. hi). *)
Definition dmeta (m : bmem) (l : list Z) (lo hi q : Z) : Prop :=
  forall i, 0 <= i < rd32 m (f_size q) / 4096 -> i < NINDIRECT /\
    (10 <= i -> lo <= idx m q < hi /\ idx m q ∉ l) /\ lo <= blk m q i < hi /\ blk m q i ∈ l.

Record listed (m : bmem) (l : list Z) (lo hi p : Z) : Prop := {
  ls_in : forall b, b ∈ l -> lo <= b < hi;
  ls_self : rd32 m (f_type p) = FTYPE_DIR -> dmeta m l lo hi p;
  ls_entries : forall b j, b ∈ l -> 0 <= j < 16 -> rd32 m (f_type (b * 4096 + 256 * j)) = FTYPE_DIR -> dmeta m l lo hi (b * 4096 + 256 * j) }.

Lemma dmeta_weaken m l l' lo hi lo' hi' q : dmeta m l lo hi q -> (forall b, b ∈ l -> b ∈ l') -> (forall b, b ∈ l' -> lo <= b < hi -> b ∈ l) ->
  lo' <= lo -> hi <= hi' -> dmeta m l' lo' hi' q.
Proof.
  intros Dm Hin Hback H1 H2 i Hi. destruct (Dm i Hi) as (Hn & Hx & Hb & Hl). split; [done|]. split; [|split; [lia|by apply Hin]].
  intros Hge. destruct (Hx Hge) as [Hr Hnl]. split; [lia|]. intros Hl'. apply Hnl. by apply Hback.
Qed.

(** The lists of finitely many entries. *)
Lemma choose_lists (Q : nat -> list Z -> Prop) n : (forall k, (k < n)%nat -> exists l, Q k l) -> exists f, forall k, (k < n)%nat -> Q k (f k).
Proof.
  induction n as [|n IH]; intros HQ; [exists (fun _ => []); lia|]. destruct IH as [f Hf]; [intros k Hk; apply HQ; lia|].
  destruct (HQ n ltac:(lia)) as [l Hl]. exists (fun k => if decide (k = n) then l else f k). intros k Hk.
  destruct (decide (k = n)) as [->|]; [done|]. apply Hf. lia.
Qed.

Section Listed.
Context (m : bmem) (p : Z) (vis : list (list Z * hnode)) (lo hi : Z) (L H : nat -> Z).
Let n := Z.of_nat (length vis).
Let B := dirblocks n.
Context (D : laid m p vis lo hi L H).
Context (f : nat -> list Z) (Hf : forall k, (k < length vis)%nat -> listed m (f k) (L k) (H k) (slot m p (Z.of_nat k))).

Definition all_lists : list Z := map (blk m p) (zseq 0 (Z.to_nat B)) ++ concat (map f (seq 0 (length vis))).

Lemma in_all b : b ∈ all_lists <-> (exists i, 0 <= i < B /\ b = blk m p i) \/ (exists k, (k < length vis)%nat /\ b ∈ f k).
Proof using.
  unfold all_lists. rewrite elem_of_app, !list_elem_of_In, in_map_iff, in_concat. split.
  - intros [(i & <- & Hi)|(l & Hl & Hb)].
    + left. apply list_elem_of_In, elem_of_zseq in Hi. exists i. split; [lia|done].
    + right. apply in_map_iff in Hl as (k & <- & Hk%in_seq). exists k. split; [lia|]. by apply list_elem_of_In.
  - intros [(i & Hi & ->)|(k & Hk & Hb)].
    + left. exists i. split; [done|]. apply list_elem_of_In, elem_of_zseq. lia.
    + right. exists (f k). split; [|by apply list_elem_of_In]. apply in_map_iff. exists k. split; [done|]. apply in_seq. lia.
Qed.

Lemma child_weaken k q : (k < length vis)%nat -> dmeta m (f k) (L k) (H k) q -> dmeta m all_lists lo hi q.
Proof using D Hf.
  intros Hk Dm. destruct (ld_in _ _ _ _ _ _ _ D k Hk) as [HL HH]. apply (dmeta_weaken m (f k) _ (L k) (H k)); try lia; [done| |].
  - intros b Hb. apply in_all. right. by exists k.
  - intros b Hb Hr. apply in_all in Hb as [(i & Hi & ->)|(k' & Hk' & Hb)].
    + destruct (ld_blk _ _ _ _ _ _ _ D k i Hk Hi). done.
    + destruct (lt_eq_lt_dec k k') as [[Hlt| ->]|Hlt]; [|done|]; pose proof (ls_in _ _ _ _ _ (Hf k' Hk') b Hb).
      * pose proof (ld_apart _ _ _ _ _ _ _ D k k' ltac:(lia)). lia.
      * pose proof (ld_apart _ _ _ _ _ _ _ D k' k ltac:(lia)). lia.
Qed.

Lemma listed_all : listed m all_lists lo hi p.
Proof using All.
  pose proof (ld_dir _ _ _ _ _ _ _ D) as Da. fold n B in Da. pose proof (da_links _ _ _ _ _ _ Da) as K. pose proof (lk_count _ _ _ _ _ K) as HB.
  split.
  - intros b Hb. apply in_all in Hb as [(i & Hi & ->)|(k & Hk & Hb)]; [by apply (lk_range _ _ _ _ _ K)|].
    destruct (ld_in _ _ _ _ _ _ _ D k Hk). pose proof (ls_in _ _ _ _ _ (Hf k Hk) b Hb). lia.
  - intros _ i Hi. rewrite (da_size _ _ _ _ _ _ Da) in Hi. replace (4096 * B / 4096) with B in Hi by dlia. split; [lia|]. split; [|split].
    + intros Hge. destruct (lk_idx _ _ _ _ _ K ltac:(lia)) as [Hx Hne]. split; [done|]. intros Hin.
      apply in_all in Hin as [(j & Hj & Ej)|(k & Hk & Hb)]; [by apply (Hne j Hj)|].
      pose proof (ls_in _ _ _ _ _ (Hf k Hk) _ Hb). pose proof (ld_index _ _ _ _ _ _ _ D k Hk ltac:(fold n B; lia)). lia.
    + by apply (lk_range _ _ _ _ _ K).
    + apply in_all. left. by exists i.
  - intros b j Hb Hj Ht. apply in_all in Hb as [(i & Hi & ->)|(k & Hk & Hb)].
    + assert (Es : blk m p i * 4096 + 256 * j = slot m p (16 * i + j)).
      { unfold slot. replace ((16 * i + j) / 16) with i by dlia. by replace ((16 * i + j) mod 16) with j by dlia. }
      rewrite Es in *. destruct (Z.lt_ge_cases (16 * i + j) n) as [Hlt|Hge].
      * assert (Hk : (Z.to_nat (16 * i + j) < length vis)%nat) by lia. pose proof (Hf _ Hk) as Hl. rewrite Z2Nat.id in Hl by lia.
        apply (child_weaken _ _ Hk). by apply (ls_self _ _ _ _ _ Hl).
      * exfalso. assert (E0 : rd32 m (f_type (slot m p (16 * i + j))) = 0); [|rewrite E0 in Ht; done].
        unfold rd32, f_type. rewrite <- !Z.add_assoc. rewrite !(da_free _ _ _ _ _ _ Da) by lia. done.
    + apply (child_weaken _ _ Hk). by apply (ls_entries _ _ _ _ _ (Hf k Hk)).
Qed.
End Listed.

Lemma tree_listed m p nd lo hi : tree m p nd lo hi -> exists l, listed m l lo hi p.
Proof.
  intros T. induction T as [p c lo hi [Ty _ _ _]|p es lo hi L H Ty D T IH].
  - exists []. split; [by intros b Hb%elem_of_nil| |by intros b j Hb%elem_of_nil]. rewrite Ty. done.
  - destruct (choose_lists (fun k l => listed m l (L k) (H k) (slot m p (Z.of_nat k))) (length (visible es))) as [f Hf].
    + intros k Hk. destruct (lookup_lt_is_Some_2 _ _ Hk) as [x Hx]. by apply (IH k x).
    + exists (all_lists m p (visible es) f). by apply (listed_all m p (visible es) lo hi L H).
Qed.

(** ** The view of the server *)
Definition reads_as {D : Type} {HD : DiskDev D} (s : fs_st D) (m : bmem) : Prop :=
  forall b o, 1 <= b < NBLOCK -> 0 <= o < 4096 -> view s b o = rd8 m (b * 4096 + o).

(** The address in the image of a file; it lies inside its block. *)
Definition at_image (p : place) : Z := p_blk p * 4096 + p_off p.
Record inside (p : place) : Prop := { in_blk : 1 <= p_blk p < NBLOCK; in_off : 0 <= p_off p; in_end : p_off p + 256 <= 4096 }.

Lemma inside_entry b j : 1 <= b < NBLOCK -> 0 <= j < 16 -> inside (entry b j).
Proof. intros Hb Hj. split; cbn [p_blk p_off entry]; unfold BY2FILE; lia. Qed.

Lemma at_entry b j : at_image (entry b j) = b * 4096 + 256 * j.
Proof. done. Qed.

(** ** The first index that satisfies a test *)
Lemma find_miss (f : Z -> bool) n : forall a, (forall i, a <= i < a + Z.of_nat n -> f i = false) -> List.find f (zseq a n) = None.
Proof. induction n as [|n IH]; intros a H; [done|]. cbn [zseq List.find]. rewrite H by lia. apply IH. intros i Hi. apply H. lia. Qed.

Lemma find_hit (f : Z -> bool) k n : forall a, a <= k < a + Z.of_nat n -> (forall i, a <= i < k -> f i = false) -> f k = true ->
  List.find f (zseq a n) = Some k.
Proof.
  induction n as [|n IH]; intros a Hk H E; [lia|]. cbn [zseq List.find]. destruct (Z.eq_dec a k) as [->|Hne]; [by rewrite E|].
  rewrite H by lia. apply IH; [lia| |done]. intros i Hi. apply H. lia.
Qed.

(** The file of the host at a path. *)
Fixpoint hfind (nd : hnode) (names : list (list Z)) : option hnode :=
  match names with
  | [] => Some nd
  | name :: rest =>
      match nd with
      | HFile _ => None
      | HDir es => match List.find (fun x => bool_decide (x.1 = name)) (visible es) with Some x => hfind x.2 rest | None => None end
      end
  end.

Lemma find_index {X} (f : X -> bool) l x : List.find f l = Some x ->
  exists k, l !! k = Some x /\ f x = true /\ forall j y, (j < k)%nat -> l !! j = Some y -> f y = false.
Proof.
  induction l as [|y l IH]; [done|]. cbn [List.find]. destruct (f y) eqn:E; intros Hx.
  - injection Hx as ->. exists 0%nat. split; [done|]. split; [done|]. lia.
  - destruct (IH Hx) as (k & Hk & Hf & Hj). exists (S k). split; [done|]. split; [done|]. intros [|j] z Hlt Hz; [by injection Hz as <-|].
    apply (Hj j); [lia|done].
Qed.

Section Server.
Context {D : Type} {HD : DiskDev D} (s : fs_st D) (m : bmem) (hi : Z).
Context (V : reads_as s m) (F : forall b, 0 <= b < NBLOCK -> free s b = (hi <=? b)) (Hhi : hi <= NBLOCK).

Lemma vword_reads b o : 1 <= b < NBLOCK -> 0 <= o <= 4092 -> vword s b o = rd32 m (b * 4096 + o).
Proof using V. intros Hb Ho. unfold vword, rd32. rewrite !V by lia. by rewrite <- !Z.add_assoc. Qed.

Lemma field_reads p k : inside p -> 0 <= k <= 252 -> field s p k = rd32 m (at_image p + k).
Proof using V. intros [] Hk. unfold field, at_image. rewrite vword_reads by lia. by rewrite Z.add_assoc. Qed.

Lemma fptr_reads p i : inside p -> 0 <= i < 1024 -> (10 <= i -> 1 <= idx m (at_image p) < NBLOCK) -> fptr s p i = blk m (at_image p) i.
Proof using V.
  intros I Hi Hx. unfold fptr. change NDIRECT with 10. destruct (Z.ltb_spec i 10) as [Hl|Hl].
  - rewrite blk_lo by done. rewrite field_reads by (done || lia). unfold f_direct. f_equal. lia.
  - rewrite blk_hi by done. unfold index_of. rewrite field_reads by (done || lia). change (rd32 m (at_image p + 176)) with (idx m (at_image p)).
    specialize (Hx Hl). destruct (Z.eqb_spec (idx m (at_image p)) 0); [lia|]. by rewrite vword_reads by lia.
Qed.

(** A directory of the image is one the search accepts. *)
Lemma dmeta_dir_ok l p : inside p -> (forall b, b ∈ l -> 3 <= b < hi) -> dmeta m l 3 hi (at_image p) ->
  dir_ok (fun b => bool_decide (b ∈ l)) s NBLOCK p.
Proof using All.
  intros I Hl Dm i Hi. unfold size_of in Hi. rewrite field_reads in Hi by (done || lia). unfold BY2BLK, BY2PG in Hi.
  destruct (Dm i Hi) as (H1 & H2 & H3 & H4). change NINDIRECT with 1024 in *. change NBLOCK with 1024 in *.
  assert (Hv : forall b, 3 <= b < hi -> valid_blk s 1024 b).
  { intros b Hb. split; [change (nbitmap 1024) with 1; lia|]. rewrite F by lia. apply Z.leb_gt; lia. }
  rewrite fptr_reads by (done || (intros Hge; destruct (H2 Hge); change NBLOCK with 1024; lia) || lia).
  split; [done|]. split; [|split; [by apply Hv|by apply bool_decide_true]].
  intros Hge. destruct (H2 Hge) as [Hx Hn]. unfold index_of. rewrite field_reads by (done || lia). change (rd32 m (at_image p + 176)) with (idx m (at_image p)).
  split; [by apply Hv|by apply bool_decide_false].
Qed.

Lemma image_tree_ok l : listed m l 3 hi 4104 -> tree_ok (fun b => bool_decide (b ∈ l)) s NBLOCK.
Proof using All.
  intros [Hin Hself Hent]. change NBLOCK with 1024 in *. assert (Ir : inside root) by (split; cbn; change NBLOCK with 1024; lia).
  split.
  - intros b Hb%bool_decide_eq_true. change (nbitmap 1024) with 1. specialize (Hin b Hb). lia.
  - intros Ht. apply dmeta_dir_ok; [done|done|]. apply Hself. unfold type_of in Ht. by rewrite field_reads in Ht by (done || lia).
  - intros b j Hb%bool_decide_eq_true Hj Ht. specialize (Hin b Hb) as Hbr.
    assert (Ie : inside (entry b j)) by (apply inside_entry; change NBLOCK with 1024; lia).
    apply dmeta_dir_ok; [done|done|]. apply Hent; [done|done|]. unfold type_of in Ht. by rewrite field_reads in Ht by (done || lia).
Qed.

(** ** Searching the image *)

(** The entry is named [x]: the server's comparison with a name. *)
Lemma named_reads b j x name : 1 <= b < NBLOCK -> 0 <= j < 16 -> name_ok x -> name_ok name -> named m (b * 4096 + 256 * j) x ->
  entry_named s b name j = bool_decide (x = name).
Proof using V.
  intros Hb Hj (_ & Hlx & Hx) (_ & Hln & Hn) N.
  assert (Hv : forall i, 0 <= i < 128 -> view s b (BY2FILE * j + i) = rd8 m (b * 4096 + 256 * j + i)).
  { intros i Hi. unfold BY2FILE. rewrite V by lia. f_equal. lia. }
  unfold entry_named, name_at. apply bool_decide_ext. split; intros E.
  - assert (Hby : forall i, 0 <= i <= len name -> rd8 m (b * 4096 + 256 * j + i) = byte name i).
    { intros i Hi. unfold len in Hi. rewrite <- Hv by lia. apply (f_equal (fun l => nth (Z.to_nat i) l 0)) in E.
      replace (nth (Z.to_nat i) (map (fun k => view s b k) (zseq (BY2FILE * j) (S (length name)))) 0) with (view s b (BY2FILE * j + i)) in E.
      - rewrite E. change [0] with (replicate 1 0). apply name_pad. unfold len. rewrite length_app. cbn. lia.
      - rewrite nth_lookup. change (map ?f ?l) with (f <$> l). rewrite list_lookup_fmap, zseq_lookup by lia. cbn. do 2 f_equal. lia. }
    assert (Hz : forall (a c : list Z) i, Forall (fun c => 0 < c < 256) a -> (i < length a)%nat -> byte a (Z.of_nat i) <> 0).
    { intros a c i Ha Hi. unfold byte. rewrite Nat2Z.id, nth_lookup. destruct (lookup_lt_is_Some_2 _ _ Hi) as [y Hy]. rewrite Hy.
      pose proof (Forall_lookup_1 _ _ _ _ Ha Hy) as H0. cbn in *. lia. }
    assert (El : length x = length name).
    { destruct (lt_eq_lt_dec (length x) (length name)) as [[Hlt|Heq]|Hgt]; [exfalso|done|exfalso].
      - apply (Hz name [] (length x) Hn Hlt). rewrite <- Hby by (unfold len; lia). rewrite N by (unfold len; lia). by apply byte_out.
      - apply (Hz x [] (length name) Hx Hgt). rewrite <- N by (unfold len; lia). rewrite Hby by (unfold len; lia). by apply byte_out. }
    apply list_eq_same_length with (length name); [done|done|]. intros i y z Hi Hy Hzz.
    assert (E2 : byte x (Z.of_nat i) = byte name (Z.of_nat i)) by (rewrite <- N, <- Hby by (unfold len; lia); done).
    unfold byte in E2. rewrite Nat2Z.id, !nth_lookup, Hy, Hzz in E2. exact E2.
  - subst x. apply list_eq_same_length with (S (length name)); [by rewrite length_app; cbn; lia|by rewrite length_map, zseq_length|].
    intros i y z Hi Hy Hzz. change (map ?f ?l) with (f <$> l) in Hy. rewrite list_lookup_fmap, zseq_lookup in Hy by lia. cbn in Hy. injection Hy as <-.
    rewrite Hv by lia. rewrite N by (unfold len; lia). rewrite <- (name_pad 1 name (Z.of_nat i)) by (unfold len; rewrite length_app; cbn; lia).
    rewrite Nat2Z.id, nth_lookup. change (replicate 1 0) with [0]. by rewrite Hzz.
Qed.

(** The search of a directory of the image. *)
Section Find.
Context (p : place) (vis : list (list Z * hnode)) (lo hi2 : Z) (L H : nat -> Z).
Let n := Z.of_nat (length vis).
Let B := dirblocks n.
Context (I : inside p) (La : laid m (at_image p) vis lo hi2 L H) (Hlo : 1 <= lo) (Hhi2 : hi2 <= NBLOCK).
Context (Hn : Forall (fun x => name_ok x.1) vis) (name : list Z) (Hname : name_ok name).

Lemma dir_pointer i : 0 <= i < B -> fptr s p i = blk m (at_image p) i /\ 1 <= blk m (at_image p) i < NBLOCK.
Proof using V I La Hlo Hhi2.
  intros Hi. pose proof (da_links _ _ _ _ _ _ (ld_dir _ _ _ _ _ _ _ La)) as K. fold n B in K. pose proof (lk_range _ _ _ _ _ K i Hi).
  pose proof (lk_count _ _ _ _ _ K) as HB. change NINDIRECT with 1024 in HB. split; [|lia]. apply fptr_reads; [done|lia|].
  intros Hge. destruct (lk_idx _ _ _ _ _ K ltac:(lia)). lia.
Qed.

Lemma entry_test k x : vis !! k = Some x -> let i := Z.of_nat k / 16 in
  entry_named s (blk m (at_image p) i) name (Z.of_nat k mod 16) = bool_decide (x.1 = name).
Proof using V I La Hlo Hhi2 Hn Hname.
  intros Hx i. assert (Hk : (k < length vis)%nat) by by apply lookup_lt_Some in Hx.
  destruct (dir_pointer i) as [_ Hb]. { pose proof (dirblocks_fit n (Z.of_nat k) ltac:(lia)) as Hf. fold B in Hf. unfold i. dlia. }
  apply (named_reads (blk m (at_image p) i) _ x.1 name); [done|dlia|apply (Forall_lookup_1 _ _ _ _ Hn Hx)|done|].
  exact (ld_name _ _ _ _ _ _ _ La k x Hx).
Qed.

Lemma dir_find_first k x : vis !! k = Some x -> x.1 = name -> (forall j y, (j < k)%nat -> vis !! j = Some y -> y.1 <> name) ->
  dir_find s p name = Some (entry (blk m (at_image p) (Z.of_nat k / 16)) (Z.of_nat k mod 16)).
Proof using V I La Hlo Hhi2 Hn Hname.
  intros Hx Ex Hfirst. assert (Hk : (k < length vis)%nat) by by apply lookup_lt_Some in Hx.
  pose proof (dirblocks_fit n (Z.of_nat k) ltac:(lia)) as Hf. fold B in Hf.
  assert (T : forall i j, 0 <= i -> 0 <= j < 16 -> 16 * i + j <= Z.of_nat k ->
    entry_named s (fptr s p i) name j = if decide (16 * i + j = Z.of_nat k) then true else false).
  { intros i j Hi Hj Hle. destruct (dir_pointer i) as [-> _]; [lia|].
    destruct (lookup_lt_is_Some_2 vis (Z.to_nat (16 * i + j)) ltac:(lia)) as [y Hy]. pose proof (entry_test _ y Hy) as E. cbv zeta in E.
    rewrite Z2Nat.id in E by lia. replace ((16 * i + j) / 16) with i in E by dlia. replace ((16 * i + j) mod 16) with j in E by dlia. rewrite E.
    destruct (decide _) as [Hd|Hd].
    - replace (Z.to_nat (16 * i + j)) with k in Hy by lia. apply bool_decide_true. congruence.
    - apply bool_decide_false. apply (Hfirst (Z.to_nat (16 * i + j)) y); [lia|done]. }
  assert (Hscan : forall cnt a, a <= Z.of_nat k / 16 < a + Z.of_nat cnt -> 0 <= a ->
    dir_scan s p name (zseq a cnt) = Some (fptr s p (Z.of_nat k / 16), Z.of_nat k mod 16)).
  { induction cnt as [|cnt IH]; intros a Ha H0; [lia|]. rewrite zseq_S. cbn [dir_scan]. destruct (Z.eq_dec a (Z.of_nat k / 16)) as [->|Hne].
    - rewrite (find_hit _ (Z.of_nat k mod 16)); [done|dlia| |].
      + intros j Hj. rewrite T by dlia. by rewrite decide_False by dlia.
      + rewrite T by dlia. by rewrite decide_True by dlia.
    - rewrite find_miss; [apply IH; lia|]. intros j Hj. rewrite T by dlia. by rewrite decide_False by dlia. }
  unfold dir_find, dir_blocks, size_of. rewrite field_reads by (done || lia). change (at_image p + 128) with (f_size (at_image p)).
  rewrite (da_size _ _ _ _ _ _ (ld_dir _ _ _ _ _ _ _ La)). fold n B. replace (4096 * B / BY2BLK) with B by (unfold BY2BLK, BY2PG; dlia).
  rewrite Hscan by dlia. destruct (dir_pointer (Z.of_nat k / 16)) as [-> _]; [dlia|done].
Qed.
End Find.

(** The server finds what the host has at a path. *)
Lemma resolve_finds names : forall nd p lo hi2 dir nd', tree m (at_image p) nd lo hi2 -> inside p -> 1 <= lo -> hi2 <= NBLOCK -> host_ok nd ->
  hfind nd names = Some nd' -> exists dir' f lo' hi', resolve s names dir p = mkWalk 0 dir' (addr f) None /\
    tree m (at_image f) nd' lo' hi' /\ inside f /\ 1 <= lo' /\ hi' <= NBLOCK.
Proof using V.
  induction names as [|name rest IH]; intros nd p lo hi2 dir nd' T I Hlo Hhi2 Hok Hf.
  - injection Hf as <-. by exists dir, p, lo, hi2.
  - destruct nd as [c|es]; [done|]. cbn [hfind] in Hf. destruct (List.find _ (visible es)) as [x|] eqn:Ef; [|done].
    destruct (find_index _ _ _ Ef) as (k & Hx & Ex%bool_decide_eq_true & Hfirst). inversion Hok as [|? Hn Hh]; subst.
    inversion T as [|? ? ? ? L H Ty La Tc]; subst. pose proof (Forall_lookup_1 _ _ _ _ Hn Hx) as Hnx. cbv beta in Hnx.
    assert (Hk : (k < length (visible es))%nat) by by apply lookup_lt_Some in Hx.
    cbn [resolve]. rewrite (proj2 (Z.leb_gt _ _)) by (destruct Hnx as (_ & Hl & _); change MAXNAMELEN with 128; lia).
    unfold type_of. rewrite field_reads by (done || lia). change (at_image p + 132) with (f_type (at_image p)). rewrite Ty, Z.eqb_refl. cbn [negb].
    rewrite (dir_find_first p (visible es) lo hi2 L H I La Hlo Hhi2 Hn _ Hnx k x Hx eq_refl).
    + destruct (ld_in _ _ _ _ _ _ _ La k Hk) as [HL HH].
      destruct (dir_pointer p (visible es) lo hi2 L H I La Hlo Hhi2 (Z.of_nat k / 16)) as [_ Hb].
      { pose proof (dirblocks_fit (Z.of_nat (length (visible es))) (Z.of_nat k) ltac:(lia)). dlia. }
      apply (IH x.2 (entry (blk m (at_image p) (Z.of_nat k / 16)) (Z.of_nat k mod 16)) (L k) (H k)); try lia; [|by apply inside_entry; dlia| |done].
      * rewrite at_entry. by apply Tc.
      * apply (Forall_lookup_1 _ _ _ _ Hh Hx).
    + intros j y Hj Hy. specialize (Hfirst j y Hj Hy). by apply bool_decide_eq_false in Hfirst.
Qed.

(** A file of the host, as the server reads it. *)
Definition same_content (f : place) (nd : hnode) : Prop :=
  match nd with
  | HDir _ => type_of s f = FTYPE_DIR
  | HFile c => type_of s f = FTYPE_REG /\ size_of s f = len c /\
      forall k, 0 <= k < len c -> view s (fptr s f (k / 4096)) (k mod 4096) = byte c k
  end.

Lemma tree_content f nd lo hi2 : tree m (at_image f) nd lo hi2 -> inside f -> 1 <= lo -> hi2 <= NBLOCK -> same_content f nd.
Proof using V.
  intros T I Hlo Hhi2. destruct nd as [c|es]; inversion T as [? ? ? ? [Ty Sz K Hh]|? ? ? ? L H Ty La Tc]; subst; cbn [same_content].
  - unfold type_of, size_of. rewrite !field_reads by (done || lia). split; [exact Ty|]. split; [exact Sz|]. intros k Hk.
    assert (Hi : 0 <= k / 4096 < blocks c) by (unfold blocks; dlia). pose proof (lk_range _ _ _ _ _ K _ Hi) as Hr.
    pose proof (lk_count _ _ _ _ _ K) as HB. change NINDIRECT with 1024 in HB.
    rewrite fptr_reads; [|done|lia|intros Hge; destruct (lk_idx _ _ _ _ _ K ltac:(lia)); lia].
    rewrite V by (lia || dlia). exact (Hh k Hk).
  - unfold type_of. by rewrite field_reads by (done || lia).
Qed.
End Server.

(** ** From the host's files to the running server *)

(** The disk 0 of the server, not started yet, has the bytes [m]. *)
Record holds_image {D : Type} {HD : DiskDev D} (s : fs_st D) (m : bmem) : Prop := {
  hi_started : started s;
  hi_capacity : NBLOCK * 4096 <= capacity (dsk s) 0;
  hi_bytes : forall o, 0 <= o < NBLOCK * 4096 -> image (dsk s) 0 o = rd8 m o }.

Section Start.
Context {D : Type} {HD : DiskDev D} (args : list (list Z * hnode)) (m : bmem) (s : fs_st D).
Context (Im : image_of args m) (Hs : holds_image s m) (A : args_fit args).

Lemma disk_word o : 0 <= o -> o + 4 <= NBLOCK * 4096 -> word_at (disk_byte s) o = rd32 m o.
Proof using Hs. intros H1 H2. unfold word_at, rd32, disk_byte. by rewrite !(hi_bytes _ _ Hs) by lia. Qed.

Lemma args_pos : 0 <= ecost args 0.
Proof using. apply ecost_pos, Forall_true. intros x. apply cost_pos. Qed.

Lemma disk_free_image b : 0 <= b < NBLOCK -> disk_free s b = (3 + ecost args 0 <=? b).
Proof using Hs Im.
  intros Hb. unfold disk_free. rewrite disk_word by (change NBLOCK with 1024 in *; dlia). by apply (im_free _ _ Im).
Qed.

Lemma image_formatted : formatted s NBLOCK.
Proof using Hs Im.
  pose proof args_pos as Hp. split.
  - by vm_compute.
  - apply (hi_capacity _ _ Hs).
  - rewrite disk_word by (change NBLOCK with 1024; lia). apply (im_magic _ _ Im).
  - rewrite disk_word by (change NBLOCK with 1024; lia). apply (im_nblocks _ _ Im).
  - intros b Hb. change (nbitmap NBLOCK) with 1 in Hb. rewrite disk_free_image by (change NBLOCK with 1024; lia). apply Z.leb_gt. lia.
Qed.

Lemma image_start_ok : exists s', fs_init s = Val tt s' /\ fs_ok s' NBLOCK /\ plenty s' /\ reads_as s' m /\
  forall b, 0 <= b < NBLOCK -> free s' b = (3 + ecost args 0 <=? b).
Proof using Hs Im.
  destruct (fs_init_ok s NBLOCK (hi_started _ _ Hs)) as (s' & E & [O P _ V F]).
  - pose proof (hi_capacity _ _ Hs). change NBLOCK with 1024 in *. lia.
  - exact image_formatted.
  - exists s'. split; [done|]. split; [done|]. split; [done|]. split.
    + intros b o Hb Ho. rewrite V by done. apply (hi_bytes _ _ Hs). change NBLOCK with 1024 in *. lia.
    + intros b Hb. rewrite F by done. by apply disk_free_image.
Qed.

Lemma start_tree s' : reads_as s' m -> (forall b, 0 <= b < NBLOCK -> free s' b = (3 + ecost args 0 <=? b)) -> exists kd, tree_ok kd s' NBLOCK.
Proof using Im A.
  intros V F. destruct (tree_listed _ _ _ _ _ (im_tree _ _ Im)) as [l Hl]. exists (fun b => bool_decide (b ∈ l)).
  apply (image_tree_ok s' m (3 + ecost args 0) V F (af_room _ A) l Hl).
Qed.
End Start.

(** C16: The image that the tool builds is a file system. With names of 1 to 127 characters and
    room for everything, [main] returns an image; a file server started on a disk with it finds
    the magic number and the size, uses exactly the blocks the tool handed out, and every
    directory refers to blocks of entries through index blocks in use. *)
Theorem fsformat_wellformed args : args_fit args -> exists m t, FsFormat.main false args img0 = Val m t /\ bytes_ok m /\
  forall (D : Type) (HD : DiskDev D) (s : fs_st D), holds_image s m -> exists s' kd, fs_init s = Val tt s' /\
    fs_ok s' NBLOCK /\ tree_ok kd s' NBLOCK /\ forall b, 0 <= b < NBLOCK -> free s' b = (3 + ecost args 0 <=? b).
Proof.
  intros A. destruct (main_ok args A) as (m & t & E & Im). exists m, t. split; [done|]. split; [apply (im_bytes _ _ Im)|].
  intros D HD s Hs. destruct (image_start_ok args m s Im Hs) as (s' & E' & O & _ & V & F).
  destruct (start_tree args m Im A s' V F) as [kd T]. by exists s', kd.
Qed.

(** C9: What goes into the image comes out of the server. The server started on the image finds,
    under every path of the host's files given to the tool, a file with the type, the size and
    every byte of the host's file, or a directory. *)
Theorem fsformat_roundtrip args : args_fit args -> exists m t, FsFormat.main false args img0 = Val m t /\ bytes_ok m /\
  forall (D : Type) (HD : DiskDev D) (s : fs_st D), holds_image s m -> exists s', fs_init s = Val tt s' /\
    forall path nd, hfind (HDir args) (components path) = Some nd -> exists dir f s2,
      walk_path path s' = Val (mkWalk 0 dir (addr f) None) s2 /\ same_content s' f nd.
Proof.
  intros A. destruct (main_ok args A) as (m & t & E & Im). exists m, t. split; [done|]. split; [apply (im_bytes _ _ Im)|].
  intros D HD s Hs. destruct (image_start_ok args m s Im Hs) as (s' & E' & O & P & V & F). destruct (start_tree args m Im A s' V F) as [kd T].
  exists s'. split; [done|]. intros path nd Hf. pose proof (af_room _ A) as Hroom.
  destruct (walk_path_ok kd s' NBLOCK path O P T) as (s2 & E2 & _).
  destruct (resolve_finds s' m V (components path) (HDir args) root 3 (3 + ecost args 0) 0 nd) as (dir & f & lo & hi & Er & Tf & If & Hl & Hh);
    [exact (im_tree _ _ Im)|by split|lia|lia|by apply visible_host; apply A|done|].
  exists dir, f, s2. rewrite E2, Er. split; [done|]. by apply (tree_content s' m V f nd lo hi).
Qed.

(** ** Two files of the host: [a] and [d/x]. *)
Definition demo_args : list (list Z * hnode) := [([97], HFile [65]); ([100], HDir [(dot, HDir []); ([120], HFile [7; 8; 9])])].

Definition server_on (m : bmem) : fs_st gx := mkFs ∅ ∅ [] (mkGx 0 0 [] 0 (fun _ => m) (NBLOCK * 4096)) 0 0.

Lemma server_on_holds m : bytes_ok m -> holds_image (server_on m) m.
Proof.
  intros Hb. split; [|by vm_compute|].
  - split; [done|done| |constructor|].
    + intros a. unfold rd8. cbn [um server_on]. rewrite lookup_empty. cbn. lia.
    + intros b _. unfold cached, page_mapped, perm_of. cbn [upt server_on]. by rewrite lookup_empty.
  - intros o _. cbn. unfold gx_image. cbn [g_img]. fold (rd8 m o). apply u8_byte, Hb.
Qed.

Lemma demo_name c : 0 < c < 256 -> name_ok [c].
Proof. intros H. split; [done|]. split; [cbn [length]; lia|by constructor]. Qed.

Lemma demo_args_fit : args_fit demo_args.
Proof.
  assert (Hf : host_ok (HFile [65]) /\ host_ok (HFile [7; 8; 9])) by (split; constructor; repeat (constructor; [lia|]); constructor).
  assert (Hd : host_ok (HDir [(dot, HDir []); ([120], HFile [7; 8; 9])])).
  { constructor; repeat constructor; try apply demo_name; (lia || apply Hf). }
  split; [done| | |done|by vm_compute].
  - repeat constructor; apply demo_name; lia.
  - constructor; [apply Hf|]. constructor; [exact Hd|constructor].
Qed.

Lemma fsformat_wellformed_witness : exists m t s' kd, FsFormat.main false demo_args img0 = Val m t /\
  fs_init (server_on m) = Val tt s' /\ tree_ok kd s' NBLOCK /\ free s' 6 = false /\ free s' 7 = true.
Proof.
  destruct (fsformat_wellformed demo_args demo_args_fit) as (m & t & E & Hb & H).
  destruct (H gx _ (server_on m) (server_on_holds m Hb)) as (s' & kd & E' & _ & T & F).
  exists m, t, s', kd. split; [exact E|]. split; [exact E'|]. split; [exact T|].
  split; (rewrite F; [by vm_compute|change NBLOCK with 1024; lia]).
Defined.

Lemma fsformat_roundtrip_witness : exists m t s' dir f s2, FsFormat.main false demo_args img0 = Val m t /\
  fs_init (server_on m) = Val tt s' /\ walk_path [47; 100; 47; 120] s' = Val (mkWalk 0 dir (addr f) None) s2 /\
  size_of s' f = 3 /\ view s' (fptr s' f 0) 1 = 8.
Proof.
  destruct (fsformat_roundtrip demo_args demo_args_fit) as (m & t & E & Hb & H).
  destruct (H gx _ (server_on m) (server_on_holds m Hb)) as (s' & E' & W).
  destruct (W [47; 100; 47; 120] (HFile [7; 8; 9]) eq_refl) as (dir & f & s2 & E2 & _ & Sz & C).
  exists m, t, s', dir, f, s2. split; [exact E|]. split; [exact E'|]. split; [exact E2|]. split; [exact Sz|].
  apply (C 1). change (len [7; 8; 9]) with 3. lia.
Defined.
