(* ===== verification/Serv.v ===== *)
(** * The file server's requests (fs/serv.c, user/lib/pageref.c, user/lib/ipc.c)

    The open-file table is a list of [MAXOPEN] entries. A page of the table is shared with
    the clients that have the file open: [refs] holds the reference counts above 1, which the
    clients change. [codes] are the results of the kernel for the sends to come (none: 0),
    [sent] the replies, newest first. A request is mapped at [REQVA] when it is received. *)

From Stdlib Require Import ZArith Lia.
From stdpp Require Import base numbers list gmap strings.
From S2P Require Import Prelude Mmu Str Wp KState Elf Signo Env TlbEx Syscall Ide Fs.

Definition MAXOPEN := 1024.
Definition FILEVA := 1610612736. (* 0x60000000 *)
Definition REQVA := 268431360.   (* 0x0ffff000 *)
Definition MAXPATHLEN := 1024.
Definition FSREQ_OPEN := 1.
Definition FSREQ_MAP := 2.
Definition FSREQ_SET_SIZE := 3.
Definition FSREQ_CLOSE := 4.
Definition FSREQ_DIRTY := 5.
Definition FSREQ_REMOVE := 6.
Definition FSREQ_SYNC := 7.

(** [struct Open] *)
Record Open := mkOpen { o_file : Z; o_fileid : Z; o_mode : Z; o_ff : Z }.

(** [struct Filefd]: [f_fd] (device, offset, mode), [f_fileid], [f_file] *)
Definition fd_dev_id (p : Z) : Z := p.
Definition fd_offset (p : Z) : Z := p + 4.
Definition fd_omode (p : Z) : Z := p + 8.
Definition f_fileid (p : Z) : Z := p + 12.
Definition f_file (p : Z) : Z := p + 16.
Definition devfile_id : Z := 102. (* 'f' *)

(** A reply: receiver, value, page and permissions. *)
Record reply := mkReply { r_whom : Z; r_val : Z; r_srcva : Z; r_perm : Z }.

Section Server.
Context {D : Type} {HD : DiskDev D}.

Record srv := mkSrv {
  fs : fs_st D;
  opentab : list Open;
  refs : gmap Z Z;
  codes : list Z;
  sent : list reply }.

Definition set_fs (v : fs_st D) (s : srv) : srv := mkSrv v (opentab s) (refs s) (codes s) (sent s).
Definition set_opentab (v : list Open) (s : srv) : srv := mkSrv (fs s) v (refs s) (codes s) (sent s).
Definition set_refs (v : gmap Z Z) (s : srv) : srv := mkSrv (fs s) (opentab s) v (codes s) (sent s).
Definition set_codes (v : list Z) (s : srv) : srv := mkSrv (fs s) (opentab s) (refs s) v (sent s).
Definition set_sent (v : list reply) (s : srv) : srv := mkSrv (fs s) (opentab s) (refs s) (codes s) v.

Abbreviation S := (M srv).
Definition infs {A} (m : M (fs_st D) A) : S A := zoom fs set_fs m.

(** ** user/lib/pageref.c *)
Definition pageref (va : Z) : S Z :=
  gets (fun s => if page_mapped (fs s) va then default 1 (refs s !! VPN va) else 0).

(** ** user/lib/ipc.c *)

(** The loop takes the results of the kernel until one is not [-E_IPC_NOT_RECV]. *)
Fixpoint send_result (l : list Z) : Z * list Z :=
  match l with
  | [] => (0, [])
  | c :: l' => if c =? - E_IPC_NOT_RECV then send_result l' else (c, l')
  end.

(** A page that is sent gets one more reference. *)
Definition ipc_send (whom val srcva perm : Z) : S unit :=
  l ← gets codes;
  let '(r, l') := send_result l in
  modify (set_codes l') ;;
  when (r =? 0)
    (modify (fun s => set_sent (mkReply whom val srcva perm :: sent s) s) ;;
     when (negb (srcva =? 0))
       (modify (fun s => set_refs (<[VPN srcva := 1 + default 1 (refs s !! VPN srcva)]> (refs s)) s))) ;;
  assert "r == 0" (r =? 0).

(** ** serv.c *)
Definition serve_init : S unit :=
  modify (set_opentab (map (fun i => mkOpen 0 i (if i =? 0 then 1 else 0) (FILEVA + i * BY2PG)) (zseq 0 (Z.to_nat MAXOPEN)))).

Definition open_at (i : Z) : S Open :=
  l ← gets opentab; lift_opt "opentab" (l !! Z.to_nat i).
Definition set_open (i : Z) (o : Open) : S unit :=
  modify (fun s => set_opentab (<[Z.to_nat i := o]> (opentab s)) s).

(** Case 1 of the switch, which case 0 falls into: the entry and its new file id. *)
Definition open_take (i : Z) : S (cres (Z * Z)) :=
  o ← open_at i;
  let id := u32 (o_fileid o + MAXOPEN) in
  set_open i (mkOpen (o_file o) id (o_mode o) (o_ff o)) ;;
  infs (st_bytes (o_ff o) (replicate (Z.to_nat BY2PG) 0)) ;;
  mret (Ok (i, id)).

Definition open_alloc : S (cres (Z * Z)) :=
  r ← for_first (zseq 0 (Z.to_nat MAXOPEN)) (fun i =>
    o ← open_at i;
    n ← pageref (o_ff o);
    if n =? 0 then
      r ← infs (syscall_mem_alloc (o_ff o) (Z.lor PTE_D PTE_LIBRARY));
      if r <? 0 then mret (Some (Err r)) else t ← open_take i; mret (Some t)
    else if n =? 1 then t ← open_take i; mret (Some t)
    else mret None);
  mret (default (Err (- E_MAX_OPEN)) r).

Definition open_lookup (envid fileid : Z) : S (cres Z) :=
  let i := fileid mod MAXOPEN in
  o ← open_at i;
  n ← pageref (o_ff o);
  if (n =? 1) || negb (o_fileid o =? fileid) then mret (Err (- E_INVAL)) else mret (Ok i).

(** The C string at [a]. *)
Fixpoint load_str (fuel : nat) (a : Z) : M (fs_st D) (list Z) :=
  match fuel with
  | O => undef "the string does not end"
  | Datatypes.S fuel' => c ← ld8 a; if c =? 0 then mret [] else l ← load_str fuel' (a + 1); mret (c :: l)
  end.
Definition str_fuel : nat := Z.to_nat 8192.

(** After a negative result of [open_alloc] (an error, or a file id from 2^31 on) the C code goes
    on, after an error with the uninitialised pointer [o]. *)
Definition serve_open (envid rq : Z) : S unit :=
  r ← open_alloc;
  match r with
  | Err e => ipc_send envid (u32 e) 0 0
  | Ok (_, id) => when (s32 id <? 0) (ipc_send envid id 0 0)
  end ;;
  path ← infs (load_str str_fuel rq);
  f ← infs (file_open path);
  match f with
  | Err e => ipc_send envid (u32 e) 0 0
  | Ok f =>
      match r with
      | Err _ => undef "o is not initialised"
      | Ok (i, _) =>
          o ← open_at i;
          mode ← infs (ld32 (rq + MAXPATHLEN));
          set_open i (mkOpen f (o_fileid o) mode (o_ff o)) ;;
          infs (memcpy_at (f_file (o_ff o)) f 256 ;;
                st32 (f_fileid (o_ff o)) (o_fileid o) ;;
                st32 (fd_omode (o_ff o)) mode ;;
                st32 (fd_dev_id (o_ff o)) devfile_id) ;;
          ipc_send envid 0 (o_ff o) (Z.lor PTE_D PTE_LIBRARY)
      end
  end.

(** The handlers of an open file: look the file up, run the operation, reply. *)
Definition with_open (envid fileid : Z) (k : Z -> S unit) : S unit :=
  r ← open_lookup envid fileid;
  match r with
  | Err e => ipc_send envid (u32 e) 0 0
  | Ok i => o ← open_at i; k (o_file o)
  end.

Definition serve_map (envid rq : Z) : S unit :=
  id ← infs (ld32 rq);
  with_open envid id (fun f =>
    offset ← infs (ld32 (rq + 4));
    r ← infs (file_get_block f (offset / BY2BLK));
    match r with
    | Err e => ipc_send envid (u32 e) 0 0
    | Ok blk => ipc_send envid 0 blk (Z.lor PTE_D PTE_LIBRARY)
    end).

Definition serve_set_size (envid rq : Z) : S unit :=
  id ← infs (ld32 rq);
  with_open envid id (fun f =>
    size ← infs (ld32 (rq + 4));
    r ← infs (file_set_size f size);
    ipc_send envid (if r <? 0 then u32 r else 0) 0 0).

Definition serve_close (envid rq : Z) : S unit :=
  id ← infs (ld32 rq);
  with_open envid id (fun f => infs (file_close f) ;; ipc_send envid 0 0 0).

Definition serve_remove (envid rq : Z) : S unit :=
  path ← infs (load_str str_fuel rq);
  r ← infs (file_remove path);
  ipc_send envid (u32 r) 0 0.

Definition serve_dirty (envid rq : Z) : S unit :=
  id ← infs (ld32 rq);
  with_open envid id (fun f =>
    offset ← infs (ld32 (rq + 4));
    r ← infs (file_dirty f offset);
    ipc_send envid (if r <? 0 then u32 r else 0) 0 0).

Definition serve_sync (envid : Z) : S unit := infs fs_sync ;; ipc_send envid 0 0 0.

(** One request: the value, the sender, the permissions and the page that came with it. *)
Record request := mkRequest { q_req : Z; q_whom : Z; q_perm : Z; q_page : list Z }.

Definition receive (q : request) : S unit :=
  when (hasbits (q_perm q) PTE_V)
    (infs (map_fresh REQVA (q_perm q) ;;
           modify (fun s => set_um (foldl (fun m '(a, b) => wr8 m a b) (um s)
             (zip (zseq REQVA (length (q_page q))) (q_page q))) s))).

(** One round of the loop of [serve]. *)
Definition serve_one (q : request) : S unit :=
  receive q ;;
  if negb (hasbits (q_perm q) PTE_V) then mret tt
  else
    (let req := q_req q in
     let whom := q_whom q in
     if req =? FSREQ_OPEN then serve_open whom REQVA
     else if req =? FSREQ_MAP then serve_map whom REQVA
     else if req =? FSREQ_SET_SIZE then serve_set_size whom REQVA
     else if req =? FSREQ_CLOSE then serve_close whom REQVA
     else if req =? FSREQ_DIRTY then serve_dirty whom REQVA
     else if req =? FSREQ_REMOVE then serve_remove whom REQVA
     else if req =? FSREQ_SYNC then serve_sync whom
     else mret tt) ;;
    infs (syscall_mem_unmap REQVA) ;; mret tt.

Definition serve (l : list request) : S unit := for_each l serve_one.

Definition main (l : list request) : S unit :=
  assert "sizeof(struct File) == BY2FILE" (FILE2BLK * BY2FILE =? BY2BLK) ;;
  serve_init ;;
  infs fs_init ;;
  serve l.
End Server.
Arguments srv : clear implicits.
