(* ===== verification/ServThms.v ===== *)
(** * Theorems on the open-file table (fs/serv.c) *)

From Stdlib Require Import ZArith Lia.
From stdpp Require Import base numbers list gmap strings.
From S2P Require Import Prelude Mmu Str StrThms Wp KState Elf Signo Env TlbEx Syscall Ide Fs FsMem FsCache Serv Gx FsBlockThms.

Section Table.
Context {D : Type} {HD : DiskDev D}.
Implicit Types (s : srv D).

(** Entry [i] has a file id that is [i] modulo the size of the table, and its own page. *)
Definition tab_ok s : Prop :=
  length (opentab s) = Z.to_nat MAXOPEN /\
  forall i o, opentab s !! i = Some o -> o_fileid o mod MAXOPEN = Z.of_nat i /\ o_ff o = FILEVA + Z.of_nat i * BY2PG.

Definition ref_of s va : Z := if page_mapped (fs s) va then default 1 (refs s !! VPN va) else 0.
Definition page_of (i : Z) : Z := FILEVA + i * BY2PG.

Lemma open_at_ok s i : tab_ok s -> 0 <= i < MAXOPEN -> exists o, opentab s !! Z.to_nat i = Some o /\
  open_at i s = Val o s /\ o_fileid o mod MAXOPEN = i /\ o_ff o = page_of i.
Proof.
  intros [Hl H] Hi. unfold MAXOPEN in *. destruct (lookup_lt_is_Some_2 (opentab s) (Z.to_nat i)) as [o Eo]; [lia|].
  exists o. destruct (H _ _ Eo) as [H1 H2]. rewrite Z2Nat.id in H1, H2 by lia. split; [done|]. split; [|done].
  unfold open_at. rewrite bind_gets. by rewrite Eo.
Qed.

Lemma fileid_next id i : id mod MAXOPEN = i -> u32 (id + MAXOPEN) mod MAXOPEN = i.
Proof. unfold MAXOPEN, u32. intros <-. dlia. Qed.

(** The page of an entry: user memory, apart from the others. *)
Lemma page_of_legal i k : 0 <= i < MAXOPEN -> 0 <= k < BY2PG -> is_illegal_va (page_of i + k) = false /\
  VPN (page_of i + k) = 393216 + i.
Proof.
  unfold page_of, FILEVA, MAXOPEN, BY2PG. intros Hi Hk. split.
  - unfold is_illegal_va. assert (E1 : UTEMP = 4186112) by reflexivity. assert (E2 : UTOP = 2134900736) by reflexivity.
    rewrite E1, E2. destruct (Z.ltb_spec (1610612736 + i * 4096 + k) 4186112), (Z.leb_spec 2134900736 (1610612736 + i * 4096 + k)); first [done|lia].
  - unfold VPN. rewrite shiftr_div by lia. change (2 ^ 12) with 4096. dlia.
Qed.

Lemma infs_val {A} (m : M (fs_st D) A) s a t : m (fs s) = Val a t -> infs m s = Val a (set_fs t s).
Proof. apply zoom_val. Qed.

(** Taking entry [i], whose page is mapped and writable: a new id, a page of zeros. *)
Lemma open_take_ok s i : tab_ok s -> 0 <= i < MAXOPEN ->
  page_mapped (fs s) (page_of i) = true -> hasbits (perm_of (fs s) (page_of i)) PTE_D = true ->
  exists o m, opentab s !! Z.to_nat i = Some o /\
    let id := u32 (o_fileid o + MAXOPEN) in
    let s' := set_fs (set_um m (fs s)) (set_opentab (<[Z.to_nat i := mkOpen (o_file o) id (o_mode o) (o_ff o)]> (opentab s)) s) in
    open_take i s = Val (Ok (i, id)) s' /\ tab_ok s' /\ id mod MAXOPEN = i /\
    (forall a, rd8 m a = if decide (page_of i <= a < page_of i + BY2PG) then 0 else rd8 (um (fs s)) a).
Proof.
  intros T Hi Hm Hd. destruct (open_at_ok s i T Hi) as (o & Eo & E & Hid & Hff). unfold BY2PG.
  exists o, (wr_bytes (um (fs s)) (o_ff o) (replicate (Z.to_nat 4096) 0)). split; [done|]. cbv zeta.
  set (id := u32 (o_fileid o + MAXOPEN)). split; [|split; [|split]].
  - unfold open_take. rewrite (bind_val _ _ _ _ _ E). cbv beta. fold id. unfold set_open. rewrite bind_modify.
    erewrite bind_val; [reflexivity|]. apply infs_val. cbn [fs set_opentab]. unfold BY2PG. rewrite Hff.
    apply st_bytes_rw. rewrite length_replicate. intros k Hk.
    destruct (page_of_legal i k Hi ltac:(unfold BY2PG; lia)) as [L1 L2].
    destruct (page_of_legal i 0 Hi ltac:(unfold BY2PG; lia)) as [_ L3]. rewrite Z.add_0_r in L3.
    split; [done|]. unfold page_mapped, perm_of in *. rewrite L2. rewrite L3 in Hm, Hd. done.
  - destruct T as [Hl H]. split; cbn [opentab set_fs set_opentab]; [by rewrite length_insert|].
    intros k o' Ho'. apply list_lookup_insert_Some in Ho' as [(<- & <- & _)|(Hne & Ho')]; [|by apply H].
    cbn [o_fileid o_ff]. rewrite Z2Nat.id by lia. split; [by apply fileid_next|done].
  - by apply fileid_next.
  - intros a. rewrite rd_wr_bytes, length_replicate, Hff. rewrite Z2Nat.id by lia. case_decide; [|done].
    rewrite nth_lookup, lookup_replicate_2 by lia. done.
Qed.

(** ** open_alloc *)

(** An entry is usable when nobody but the server maps its page. *)
Definition usable s (i : Z) : bool := ref_of s (page_of i) <? 2.

(** The pages of the table are writable where they are mapped; counts are not negative. *)
Definition pages_ok s : Prop := forall i, 0 <= i < MAXOPEN -> 0 <= ref_of s (page_of i) /\
  (page_mapped (fs s) (page_of i) = true -> 1 <= ref_of s (page_of i) /\ hasbits (perm_of (fs s) (page_of i)) PTE_D = true).

Lemma ref_unmapped s i : pages_ok s -> 0 <= i < MAXOPEN -> ref_of s (page_of i) = 0 -> page_mapped (fs s) (page_of i) = false.
Proof. intros P Hi E. destruct (P i Hi) as [_ H]. destruct (page_mapped (fs s) (page_of i)); [|done]. destruct (H eq_refl). lia. Qed.

Lemma alloc_entry_page s i : plenty (fs s) -> 0 <= i < MAXOPEN -> exists t,
  infs (syscall_mem_alloc (page_of i) (Z.lor PTE_D PTE_LIBRARY)) s = Val 0 (set_fs t s) /\
  page_mapped t (page_of i) = true /\ hasbits (perm_of t (page_of i)) PTE_D = true /\
  (forall a, VPN a <> VPN (page_of i) -> rd8 (um t) a = rd8 (um (fs s)) a /\ perm_of t a = perm_of (fs s) a).
Proof.
  intros Hp Hi. destruct (ask_plenty (fs s) Hp) as (l & E & _). destruct (page_of_legal i 0 Hi ltac:(unfold BY2PG; lia)) as [L _].
  rewrite Z.add_0_r in L. eexists. split.
  - apply infs_val. unfold syscall_mem_alloc. rewrite L. rewrite (bind_val _ _ _ _ _ E). reflexivity.
  - unfold page_mapped, perm_of. cbn [upt um set_upt set_um set_answers]. rewrite lookup_insert_eq.
    split; [done|]. split; [done|]. intros a Ha. rewrite rd8_clear, decide_False by done.
    by rewrite lookup_insert_ne by congruence.
Qed.

(** What is left of a state after an entry was taken. *)
Record taken s s' i id : Prop := {
  tk_ok : tab_ok s';
  tk_id : id mod MAXOPEN = i;
  tk_entry : exists o, opentab s !! Z.to_nat i = Some o /\ id = u32 (o_fileid o + MAXOPEN) /\
    opentab s' !! Z.to_nat i = Some (mkOpen (o_file o) id (o_mode o) (o_ff o));
  tk_others : forall k, k <> Z.to_nat i -> opentab s' !! k = opentab s !! k;
  tk_page : page_mapped (fs s') (page_of i) = true /\ forall k, 0 <= k < BY2PG -> rd8 (um (fs s')) (page_of i + k) = 0;
  tk_refs : refs s' = refs s;
  tk_mem : forall a, VPN a <> VPN (page_of i) -> rd8 (um (fs s')) a = rd8 (um (fs s)) a /\ perm_of (fs s') a = perm_of (fs s) a }.

Lemma vpn_page_of i a : 0 <= i < MAXOPEN -> VPN a <> VPN (page_of i) -> ~ (page_of i <= a < page_of i + BY2PG).
Proof.
  intros Hi Hne Hin. apply Hne. destruct (page_of_legal i (a - page_of i) Hi ltac:(lia)) as [_ E1].
  destruct (page_of_legal i 0 Hi ltac:(unfold BY2PG; lia)) as [_ E2]. rewrite Z.add_0_r in E2.
  replace (page_of i + (a - page_of i)) with a in E1 by lia. congruence.
Qed.

Lemma open_take_taken s t i : tab_ok s -> 0 <= i < MAXOPEN ->
  page_mapped t (page_of i) = true -> hasbits (perm_of t (page_of i)) PTE_D = true ->
  (forall a, VPN a <> VPN (page_of i) -> rd8 (um t) a = rd8 (um (fs s)) a /\ perm_of t a = perm_of (fs s) a) ->
  exists s' id, open_take i (set_fs t s) = Val (Ok (i, id)) s' /\ taken s s' i id.
Proof.
  intros T Hi Hm Hd Hmem. destruct (open_take_ok (set_fs t s) i T Hi Hm Hd) as (o & m & Eo & E & T' & Hid & V).
  eexists _, _. split; [exact E|]. destruct T as [Hl _]. split; try done.
  - exists o. split; [done|]. split; [done|]. cbn [opentab set_fs set_opentab]. apply list_lookup_insert_eq.
    unfold MAXOPEN in *. cbn [opentab set_fs] in *. lia.
  - intros k Hk. cbn [opentab set_fs set_opentab]. by rewrite list_lookup_insert_ne.
  - split; [exact Hm|]. intros k Hk. cbn [fs set_fs um set_um]. rewrite V, decide_True by lia. done.
  - intros a Ha. cbn [fs set_fs um set_um]. rewrite V. rewrite decide_False by (by apply vpn_page_of). by apply Hmem.
Qed.

Lemma open_alloc_ok s : tab_ok s -> pages_ok s -> plenty (fs s) ->
  match List.find (usable s) (zseq 0 (Z.to_nat MAXOPEN)) with
  | Some i => exists s' id, open_alloc s = Val (Ok (i, id)) s' /\ taken s s' i id
  | None => open_alloc s = Val (Err (- E_MAX_OPEN)) s
  end.
Proof.
  intros T P Hp. unfold open_alloc. match goal with |- context [for_first _ ?f] => set (body := f) end.
  assert (HN : forall i, 0 <= i < MAXOPEN -> usable s i = false -> body i s = Val None s).
  { intros i Hi Hu. destruct (open_at_ok s i T Hi) as (o & Eo & E & _ & Hff). unfold body.
    rewrite (bind_val _ _ _ _ _ E). cbv beta. rewrite Hff. unfold pageref. rewrite bind_gets. fold (ref_of s (page_of i)).
    unfold usable in Hu. apply Z.ltb_ge in Hu. destruct (Z.eqb_spec (ref_of s (page_of i)) 0); [lia|].
    by destruct (Z.eqb_spec (ref_of s (page_of i)) 1); [lia|]. }
  assert (HS : forall i, 0 <= i < MAXOPEN -> usable s i = true -> exists s' id, body i s = Val (Some (Ok (i, id))) s' /\ taken s s' i id).
  { intros i Hi Hu. destruct (open_at_ok s i T Hi) as (o & Eo & E & _ & Hff). unfold body.
    rewrite (bind_val _ _ _ _ _ E). cbv beta. rewrite Hff. unfold pageref. rewrite bind_gets. fold (ref_of s (page_of i)).
    unfold usable in Hu. apply Z.ltb_lt in Hu. destruct (P i Hi) as [H0 H1].
    destruct (Z.eqb_spec (ref_of s (page_of i)) 0) as [E0|].
    - destruct (alloc_entry_page s i Hp Hi) as (t & Ea & Hm & Hd & Hmem). rewrite (bind_val _ _ _ _ _ Ea). cbv beta.
      change (0 <? 0) with false. cbv iota.
      destruct (open_take_taken s t i T Hi Hm Hd Hmem) as (s' & id & Et & Tk).
      exists s', id. by rewrite (bind_val _ _ _ _ _ Et).
    - destruct (Z.eqb_spec (ref_of s (page_of i)) 1); [|lia].
      assert (Hm : page_mapped (fs s) (page_of i) = true).
      { unfold ref_of in *. by destruct (page_mapped (fs s) (page_of i)). }
      destruct (open_take_taken s (fs s) i T Hi Hm (proj2 (H1 Hm)) ltac:(done)) as (s' & id & Et & Tk).
      exists s', id. replace (set_fs (fs s) s) with s in Et by by destruct s. by rewrite (bind_val _ _ _ _ _ Et). }
  assert (EF : for_first (zseq 0 (Z.to_nat MAXOPEN)) body s = match List.find (usable s) (zseq 0 (Z.to_nat MAXOPEN)) with
    | Some x => body x s | None => Val None s end).
  { apply for_first_find; intros i Hi%elem_of_zseq Hu; unfold MAXOPEN in Hi.
    - apply HN; [unfold MAXOPEN; lia|done].
    - destruct (HS i ltac:(unfold MAXOPEN; lia) Hu) as (s' & id & E & _). eauto. }
  pose proof (find_zseq (usable s) (Z.to_nat MAXOPEN) 0) as Hf.
  destruct (List.find (usable s) (zseq 0 (Z.to_nat MAXOPEN))) as [i|].
  - destruct Hf as (Hi & Hu & _). destruct (HS i ltac:(unfold MAXOPEN in *; lia) Hu) as (s' & id & E & Tk).
    exists s', id. rewrite E in EF. by rewrite (bind_val _ _ _ _ _ EF).
  - by rewrite (bind_val _ _ _ _ _ EF).
Qed.

(** open_lookup *)
Lemma open_lookup_ok s envid fileid : tab_ok s -> 0 <= fileid ->
  exists o, opentab s !! Z.to_nat (fileid mod MAXOPEN) = Some o /\
  open_lookup envid fileid s = Val (if (ref_of s (page_of (fileid mod MAXOPEN)) =? 1) || negb (o_fileid o =? fileid)
    then Err (- E_INVAL) else Ok (fileid mod MAXOPEN)) s.
Proof.
  intros T Hf. assert (Hi : 0 <= fileid mod MAXOPEN < MAXOPEN) by (apply Z.mod_pos_bound; unfold MAXOPEN; lia).
  destruct (open_at_ok s _ T Hi) as (o & Eo & E & _ & Hff). exists o. split; [done|]. unfold open_lookup.
  rewrite (bind_val _ _ _ _ _ E). cbv beta. rewrite Hff. unfold pageref. rewrite bind_gets. fold (ref_of s (page_of (fileid mod MAXOPEN))).
  by destruct ((ref_of s (page_of (fileid mod MAXOPEN)) =? 1) || negb (o_fileid o =? fileid)).
Qed.

(** ** Properties *)

(** C29: [open_alloc] takes the first entry of the table whose page no client maps, gives it the
    next file id of that entry, clears its page and leaves the other entries and the rest of the
    memory alone; it fails with [-E_MAX_OPEN] exactly when every page is mapped by a client. The
    file id finds the entry again once a client maps the page, and only then; the entry's
    earlier id is refused. *)
Theorem open_alloc_correct s : tab_ok s -> pages_ok s -> plenty (fs s) ->
  (exists i id s', open_alloc s = Val (Ok (i, id)) s' /\ tab_ok s' /\ 0 <= i < MAXOPEN /\
    ref_of s (page_of i) < 2 /\ (forall k, 0 <= k < i -> 2 <= ref_of s (page_of k)) /\
    (forall k, k <> Z.to_nat i -> opentab s' !! k = opentab s !! k) /\
    (forall k, 0 <= k < BY2PG -> rd8 (um (fs s')) (page_of i + k) = 0) /\
    (forall a, VPN a <> VPN (page_of i) -> rd8 (um (fs s')) a = rd8 (um (fs s)) a) /\
    (forall envid n, let s2 := set_refs (<[VPN (page_of i) := n]> (refs s')) s' in
      open_lookup envid id s2 = Val (if n =? 1 then Err (- E_INVAL) else Ok i) s2) /\
    (forall envid o, opentab s !! Z.to_nat i = Some o -> is_u32 (o_fileid o) ->
      open_lookup envid (o_fileid o) s' = Val (Err (- E_INVAL)) s')) \/
  (open_alloc s = Val (Err (- E_MAX_OPEN)) s /\ forall k, 0 <= k < MAXOPEN -> 2 <= ref_of s (page_of k)).
Proof.
  intros T P Hp. pose proof (open_alloc_ok s T P Hp) as H. pose proof (find_zseq (usable s) (Z.to_nat MAXOPEN) 0) as Hf.
  destruct (List.find (usable s) (zseq 0 (Z.to_nat MAXOPEN))) as [i|]; [left|right].
  - destruct H as (s' & id & E & Tk). destruct Hf as (Hi & Hu & Hl). rewrite Z2Nat.id in Hi by (unfold MAXOPEN; lia).
    pose proof Tk as []. destruct tk_entry0 as (o & Eo & Eid & Eo').
    exists i, id, s'. split; [done|]. split; [done|]. split; [lia|]. split; [unfold usable in Hu; by apply Z.ltb_lt|].
    split. { intros k Hk. specialize (Hl k ltac:(lia)). unfold usable in Hl. by apply Z.ltb_ge. }
    split; [done|]. split; [apply tk_page0|]. split; [intros a Ha; by apply tk_mem0|]. split.
    + intros envid n s2. assert (T2 : tab_ok s2) by done.
      destruct (open_lookup_ok s2 envid id T2 ltac:(subst id; apply u32_range)) as (o2 & Eo2 & ->). rewrite tk_id0 in *.
      change (opentab s2) with (opentab s') in Eo2. rewrite Eo' in Eo2. injection Eo2 as <-. cbn [o_fileid].
      rewrite Z.eqb_refl. cbn [negb]. rewrite orb_false_r. unfold ref_of, s2. cbn [fs set_refs refs].
      rewrite (proj1 tk_page0), lookup_insert_eq. cbn [default]. reflexivity.
    + intros envid o1 Eo1 Hu1. rewrite Eo in Eo1. injection Eo1 as <-.
      destruct T as [_ HT]. destruct (HT _ _ Eo) as [Hmod _]. rewrite Z2Nat.id in Hmod by lia.
      destruct (open_lookup_ok s' envid (o_fileid o) tk_ok0 ltac:(apply Hu1)) as (o2 & Eo2 & ->). rewrite Hmod in *.
      rewrite Eo' in Eo2. injection Eo2 as <-. cbn [o_fileid].
      assert (Hne : id <> o_fileid o) by (subst id; unfold u32, MAXOPEN, is_u32 in *; dlia).
      destruct (Z.eqb_spec id (o_fileid o)); [done|]. cbn [negb]. by rewrite orb_true_r.
  - split; [done|]. intros k Hk. specialize (Hf k ltac:(unfold MAXOPEN in *; lia)). unfold usable in Hf. by apply Z.ltb_ge.
Qed.
End Table.

(** *** At a server that has just started, with the file system [demo] *)
Definition demo_srv : srv gx :=
  mkSrv demo (map (fun i => mkOpen 0 i (if i =? 0 then 1 else 0) (FILEVA + i * BY2PG)) (zseq 0 (Z.to_nat MAXOPEN))) ∅ [] [].

Lemma lookup_zseq n : forall a i x, zseq a n !! i = Some x -> x = a + Z.of_nat i.
Proof.
  induction n as [|n IH]; intros a i x H; [done|]. rewrite zseq_S in H. destruct i as [|i]; [injection H as <-; lia|].
  change (zseq (a + 1) n !! i = Some x) in H. apply IH in H. lia.
Qed.

Lemma demo_tab_ok : tab_ok demo_srv.
Proof.
  split; [unfold demo_srv; cbn [opentab]; by rewrite length_map, zseq_length|].
  intros i o H. unfold demo_srv in H. cbn [opentab] in H. change (map ?f ?l) with (f <$> l) in H.
  rewrite list_lookup_fmap in H. destruct (zseq 0 (Z.to_nat MAXOPEN) !! i) as [x|] eqn:E; [|done].
  pose proof (lookup_lt_Some _ _ _ E) as Hlt. rewrite zseq_length in Hlt. apply lookup_zseq in E. injection H as <-.
  cbn [o_fileid o_ff]. subst x. unfold MAXOPEN in *. split; [apply Z.mod_small; lia|done].
Qed.

Lemma demo_pages_ok : pages_ok demo_srv.
Proof.
  intros i Hi. assert (E : page_mapped (fs demo_srv) (page_of i) = false).
  { destruct (page_of_legal i 0 Hi ltac:(unfold BY2PG; lia)) as [_ E]. rewrite Z.add_0_r in E.
    unfold page_mapped, perm_of. rewrite E. unfold MAXOPEN in Hi. unfold demo_srv, demo, demo_pages. cbn [fs upt list_to_map foldr].
    unfold list_to_map. cbn [foldr fst snd]. by rewrite !lookup_insert_ne, lookup_empty by lia. }
  unfold ref_of. rewrite E. split; [lia|done].
Qed.

Lemma open_alloc_correct_witness : exists i id s', open_alloc demo_srv = Val (Ok (i, id)) s' /\ tab_ok s'.
Proof.
  destruct (open_alloc_correct demo_srv demo_tab_ok demo_pages_ok demo_plenty) as [(i & id & s' & E & T & _)|[_ H]].
  - exists i, id, s'. split; [exact E|exact T].
  - exfalso. specialize (H 0 ltac:(unfold MAXOPEN; lia)). destruct (demo_pages_ok 0 ltac:(unfold MAXOPEN; lia)) as [_ H2].
    revert H. unfold ref_of. change (page_mapped (fs demo_srv) (page_of 0)) with false. cbv iota. lia.
Defined.
