(* ===== verification/Check.v ===== *)
(** * The self-test of the file system (fs/check.c)

    The program cannot pass: its first request is for the page at [BY2PG], an address below
    [UTEMP], which the kernel refuses. *)

From Stdlib Require Import ZArith Lia.
From stdpp Require Import base numbers list gmap strings.
From S2P Require Import Prelude Mmu Str Wp KState Elf Signo Env TlbEx Syscall Ide Fs Gx FsBlockThms.

(** ["This is the NEW message of the day!\n"] *)
Definition msg : list Z :=
  [84; 104; 105; 115; 32; 105; 115; 32; 116; 104; 101; 32; 78; 69; 87; 32; 109; 101; 115; 115; 97; 103; 101; 32;
   111; 102; 32; 116; 104; 101; 32; 100; 97; 121; 33; 10].
(** ["This is a different massage of the day!\n"] *)
Definition diff_msg : list Z :=
  [84; 104; 105; 115; 32; 105; 115; 32; 97; 32; 100; 105; 102; 102; 101; 114; 101; 110; 116; 32; 109; 97; 115; 115;
   97; 103; 101; 32; 111; 102; 32; 116; 104; 101; 32; 100; 97; 121; 33; 10].
(** ["/not-found"] and ["/newmotd"] *)
Definition not_found_path : list Z := [47; 110; 111; 116; 45; 102; 111; 117; 110; 100].
Definition newmotd_path : list Z := [47; 110; 101; 119; 109; 111; 116; 100].

Section Check.
Context {D : Type} {HD : DiskDev D}.
Abbreviation F := (M (fs_st D)).

(** 0 when the string [b] starts the memory at [a]. *)
Fixpoint strecmp (a : Z) (b : list Z) : F Z :=
  match b with
  | [] => mret 0
  | x :: b' => c ← ld8 a; if c =? x then strecmp (a + 1) b' else mret 1
  end.

(** [user_panic] on an error. *)
Definition must {A} (what : string) (m : F (cres A)) : F A :=
  r ← m; match r with Err _ => panic what | Ok a => mret a end.
Definition must0 (what : string) (m : F Z) : F unit :=
  r ← m; if r <? 0 then panic what else mret tt.

Definition fs_check : F unit :=
  must0 "syscall_mem_alloc" (syscall_mem_alloc BY2PG PTE_D) ;;
  let bits := BY2PG in
  bp ← gets bitmap;
  memcpy_at bits bp 4096 ;;
  r ← must "alloc_block" alloc_block;
  w ← ld32 (bitmap_word bits r);
  assert "bits[r / 32] & (1 << (r % 32))" (hasbits w (bit_of r)) ;;
  bp ← gets bitmap;
  w ← ld32 (bitmap_word bp r);
  assert "!(bitmap[r / 32] & (1 << (r % 32)))" (negb (hasbits w (bit_of r))) ;;
  r ← file_open not_found_path;
  match r with
  | Err e => assert "file_open /not-found" (e =? - E_NOT_FOUND)
  | Ok _ => panic "file_open /not-found succeeded!"
  end ;;
  f ← must "file_open /newmotd" (file_open newmotd_path);
  blk ← must "file_get_block" (file_get_block f 0);
  c ← strecmp blk msg;
  assert "file_get_block returned unexpected data" (c =? 0) ;;
  b ← ld8 blk;
  st8 blk b ;;
  file_flush f ;;
  must0 "file_set_size" (file_set_size f 0) ;;
  d ← ld32 (f_direct f 0);
  assert "f->f_direct[0] == 0" (d =? 0) ;;
  must0 "file_set_size 2" (file_set_size f (Z.of_nat (length diff_msg))) ;;
  blk ← must "file_get_block 2" (file_get_block f 0);
  strcpy_at blk diff_msg ;;
  file_flush f ;;
  file_close f.

Definition check_main : F unit := fs_init ;; fs_check.

(** The self-test of the file system panics in every state, before it tests anything: the
    page it asks for lies below [UTEMP]. *)
Theorem fs_check_panics (s : fs_st D) : fs_check s = Panic "syscall_mem_alloc" s.
Proof. reflexivity. Qed.
End Check.
