(* ===== verification/Uproc.v ===== *)
(** * A user process (user/lib/syscall_lib.c, pageref.c, ipc.c, wait.c)

    The process as its library code sees it: the page table maps virtual pages to frames with
    permission bits, the content of a frame is bytes at [frame * 4096 + offset], and frames
    from [nextf] on are unused and zero. [others] counts the references other environments
    hold to a frame, [answers] says for each allocation to come whether the kernel has a
    page (none: yes). [inbox] holds the messages the process will receive, [sent] the ones
    it sent, [codes] the kernel's results for the sends to come (none: 0). [keys] are the
    characters of the console (0: none yet), [cons] what was printed, newest first.
    [fsenv] is the identifier of the file server, [fsipcbuf] the address of that array.
    [ptabs] holds the page tables (by their index in the directory) that are there besides
    those some page of [pt] needs: a table stays when its last page is unmapped. *)

From Stdlib Require Import ZArith Lia.
From stdpp Require Import base numbers list gmap strings.
From S2P Require Import Prelude Mmu Str Wp KState Elf Signo Env TlbEx Syscall.

(** A message: value, sender, permissions, and the bytes of the page that comes with it. *)
Record msg := mkMsg { m_val : Z; m_from : Z; m_perm : Z; m_page : option (list Z) }.

(** What the other environments do while the process waits: bytes they write to frames, and
    reference counts that change. *)
Record event := mkEvent { e_bytes : list (Z * Z); e_others : list (Z * Z) }.

Record uproc := mkU {
  pt : gmap Z (Z * Z);
  fm : bmem;
  nextf : Z;
  others : gmap Z Z;
  answers : list bool;
  inbox : list msg;
  sent : list (Z * Z * Z * Z);
  codes : list Z;
  keys : list Z;
  cons : list (list Z);
  events : list event;
  fsenv : Z;
  fsipcbuf : Z;
  ptabs : gset Z }.

Definition set_pt (v : gmap Z (Z * Z)) (s : uproc) : uproc :=
  mkU v (fm s) (nextf s) (others s) (answers s) (inbox s) (sent s) (codes s) (keys s) (cons s) (events s) (fsenv s) (fsipcbuf s) (ptabs s).
Definition set_fm (v : bmem) (s : uproc) : uproc :=
  mkU (pt s) v (nextf s) (others s) (answers s) (inbox s) (sent s) (codes s) (keys s) (cons s) (events s) (fsenv s) (fsipcbuf s) (ptabs s).
Definition set_nextf (v : Z) (s : uproc) : uproc :=
  mkU (pt s) (fm s) v (others s) (answers s) (inbox s) (sent s) (codes s) (keys s) (cons s) (events s) (fsenv s) (fsipcbuf s) (ptabs s).
Definition set_others (v : gmap Z Z) (s : uproc) : uproc :=
  mkU (pt s) (fm s) (nextf s) v (answers s) (inbox s) (sent s) (codes s) (keys s) (cons s) (events s) (fsenv s) (fsipcbuf s) (ptabs s).
Definition set_answers (v : list bool) (s : uproc) : uproc :=
  mkU (pt s) (fm s) (nextf s) (others s) v (inbox s) (sent s) (codes s) (keys s) (cons s) (events s) (fsenv s) (fsipcbuf s) (ptabs s).
Definition set_inbox (v : list msg) (s : uproc) : uproc :=
  mkU (pt s) (fm s) (nextf s) (others s) (answers s) v (sent s) (codes s) (keys s) (cons s) (events s) (fsenv s) (fsipcbuf s) (ptabs s).
Definition set_sent (v : list (Z * Z * Z * Z)) (s : uproc) : uproc :=
  mkU (pt s) (fm s) (nextf s) (others s) (answers s) (inbox s) v (codes s) (keys s) (cons s) (events s) (fsenv s) (fsipcbuf s) (ptabs s).
Definition set_codes (v : list Z) (s : uproc) : uproc :=
  mkU (pt s) (fm s) (nextf s) (others s) (answers s) (inbox s) (sent s) v (keys s) (cons s) (events s) (fsenv s) (fsipcbuf s) (ptabs s).
Definition set_keys (v : list Z) (s : uproc) : uproc :=
  mkU (pt s) (fm s) (nextf s) (others s) (answers s) (inbox s) (sent s) (codes s) v (cons s) (events s) (fsenv s) (fsipcbuf s) (ptabs s).
Definition set_cons (v : list (list Z)) (s : uproc) : uproc :=
  mkU (pt s) (fm s) (nextf s) (others s) (answers s) (inbox s) (sent s) (codes s) (keys s) v (events s) (fsenv s) (fsipcbuf s) (ptabs s).
Definition set_events (v : list event) (s : uproc) : uproc :=
  mkU (pt s) (fm s) (nextf s) (others s) (answers s) (inbox s) (sent s) (codes s) (keys s) (cons s) v (fsenv s) (fsipcbuf s) (ptabs s).

Definition set_ptabs (v : gset Z) (s : uproc) : uproc :=
  mkU (pt s) (fm s) (nextf s) (others s) (answers s) (inbox s) (sent s) (codes s) (keys s) (cons s) (events s) (fsenv s) (fsipcbuf s) v.

Abbreviation U := (M uproc).

(** ** The page table *)

(** [vpt[vpn]]: 0 when the page is not mapped. *)
Definition vpt (s : uproc) (vpn : Z) : Z :=
  match pt s !! vpn with Some (f, perm) => Z.lor (f * 4096) perm | None => 0 end.
Definition perm_of (s : uproc) (vpn : Z) : Z := match pt s !! vpn with Some (_, perm) => perm | None => 0 end.
Definition mapped (s : uproc) (va : Z) : bool := hasbits (perm_of s (VPN va)) PTE_V.

(** The page tables of the process. *)
Definition tables (s : uproc) : gset Z :=
  ptabs s ∪ list_to_set (map (fun kv => kv.1 / 1024) (map_to_list (pt s))).

(** [vpd[i] & PTE_V]; the entries of the three windows are always valid. The directory is
    mapped in every address space, so that this load does not fault. *)
Definition has_vpd (i : Z) (s : uproc) : bool :=
  bool_decide (i ∈ tables s) || ((PDX UENVS <=? i) && (i <=? PDX UVPT)).

(** References to a frame: the pages of this process and of the others. *)
Definition refs_to (s : uproc) (f : Z) : Z :=
  Z.of_nat (length (filter (fun kv => kv.2.1 = f) (map_to_list (pt s)))) + default 0 (others s !! f).

(** user/lib/pageref.c: a page without a page table is not mapped. *)
Definition pageref (va : Z) : U Z :=
  gets (fun s => match pt s !! VPN va with
    | Some (f, perm) => if hasbits perm PTE_V then refs_to s f else 0
    | None => 0 end).

(** ** System calls, as the library sees them *)
Definition ask : U bool :=
  l ← gets answers;
  match l with [] => mret true | b :: l' => modify (set_answers l') ;; mret b end.

Definition map_fresh (va perm : Z) : U unit :=
  modify (fun s => set_nextf (nextf s + 1) (set_pt (<[VPN va := (nextf s, Z.lor perm PTE_V)]> (pt s)) s)).

Definition syscall_mem_alloc (va perm : Z) : U Z :=
  if is_illegal_va va then mret (- E_INVAL) else
  b ← ask;
  if b : bool then map_fresh va perm ;; mret 0 else mret (- E_NO_MEM).

(** Within the process. *)
Definition syscall_mem_map (srcva dstva perm : Z) : U Z :=
  if is_illegal_va srcva || is_illegal_va dstva then mret (- E_INVAL) else
  e ← gets (fun s => pt s !! VPN srcva);
  match e with
  | None => mret (- E_INVAL)
  | Some (f, _) =>
      b ← ask;
      if b : bool then modify (fun s => set_pt (<[VPN dstva := (f, Z.lor perm PTE_V)]> (pt s)) s) ;; mret 0
      else mret (- E_NO_MEM)
  end.

Definition syscall_mem_unmap (va : Z) : U Z :=
  if is_illegal_va va then mret (- E_INVAL) else
  modify (fun s => match pt s !! VPN va with
    | Some _ => set_ptabs ({[VPN va / 1024]} ∪ ptabs s) (set_pt (delete (VPN va) (pt s)) s)
    | None => s end) ;;
  mret 0.

(** The load of [vpt[vpn]]. Without a page table the load itself faults: the kernel takes a
    zeroed page for the missing table (passive_alloc, in the window at UVPT), or panics when
    it has none. The entries of the kernel's windows are outside this model of a process. *)
Definition ld_vpt (vpn : Z) : U Z :=
  let i := vpn / 1024 in
  if (PDX UENVS <=? i) && (i <=? PDX UVPT) then undef "an entry of the kernel's windows" else
  v ← gets (has_vpd i);
  if v : bool then gets (fun s => vpt s vpn) else
  b ← ask;
  if b : bool then modify (fun s => set_ptabs ({[i]} ∪ ptabs s) s) ;; mret 0 else panic "page_alloc(&p)".

(** ** Loads and stores *)
Definition touch (va : Z) (write : bool) : U Z :=
  if is_illegal_va va then undef "address outside the user space" else
  e ← gets (fun s => pt s !! VPN va);
  match e with
  | Some (f, perm) => assert "TLB Mod" (negb write || hasbits perm PTE_D) ;; mret (f * 4096 + va mod 4096)
  | None =>
      f ← gets nextf;
      b ← ask;
      if b : bool then map_fresh va PTE_D ;; mret (f * 4096 + va mod 4096) else panic "page_alloc(&p)"
  end.

Definition ld8 (a : Z) : U Z := p ← touch a false; gets (fun s => rd8 (fm s) p).
Definition st8 (a v : Z) : U unit := p ← touch a true; modify (fun s => set_fm (wr8 (fm s) p v) s).
Definition ld32 (a : Z) : U Z :=
  if a mod 4 =? 0 then p ← touch a false; gets (fun s => rd32 (fm s) p) else undef "unaligned load".
Definition st32 (a v : Z) : U unit :=
  if a mod 4 =? 0 then p ← touch a true; modify (fun s => set_fm (wr32 (fm s) p v) s) else undef "unaligned store".

Fixpoint ld_bytes (a : Z) (n : nat) : U (list Z) :=
  match n with O => mret [] | S n' => b ← ld8 a; bs ← ld_bytes (a + 1) n'; mret (b :: bs) end.
Fixpoint st_bytes (a : Z) (bs : list Z) : U unit :=
  match bs with [] => mret tt | b :: bs' => st8 a b ;; st_bytes (a + 1) bs' end.

(** [memcpy], byte by byte in order. *)
Fixpoint memcpy_loop (dst src : Z) (n : nat) : U unit :=
  match n with O => mret tt | S n' => b ← ld8 src; st8 dst b ;; memcpy_loop (dst + 1) (src + 1) n' end.

Fixpoint load_str (fuel : nat) (a : Z) : U (list Z) :=
  match fuel with
  | O => undef "the string does not end"
  | S fuel' => c ← ld8 a; if c =? 0 then mret [] else l ← load_str fuel' (a + 1); mret (c :: l)
  end.

(** [syscall_yield]: the others run. *)
Definition syscall_yield : U unit :=
  l ← gets events;
  match l with
  | [] => undef "waits for ever"
  | e :: l' => modify (fun s => set_events l' (set_others (foldl (fun m '(f, n) => <[f := n]> m) (others s) (e_others e))
      (set_fm (foldl (fun m '(a, b) => wr8 m a b) (fm s) (e_bytes e)) s)))
  end.

(** The console. *)
Definition syscall_cgetc : U Z :=
  l ← gets keys;
  match l with [] => mret 0 | c :: l' => modify (set_keys l') ;; mret c end.
Definition syscall_print_cons (va : Z) (num : Z) : U Z :=
  if is_illegal_va_range va num then mret (- E_INVAL)
  else bs ← ld_bytes va (Z.to_nat num); modify (fun s => set_cons (bs :: cons s) s) ;; mret 0.

(** ** ipc.c *)
Fixpoint send_result (l : list Z) : Z * list Z :=
  match l with [] => (0, []) | c :: l' => if c =? - E_IPC_NOT_RECV then send_result l' else (c, l') end.

Definition ipc_send (whom val srcva perm : Z) : U unit :=
  l ← gets codes;
  let '(r, l') := send_result l in
  modify (set_codes l') ;;
  assert "r == 0" (r =? 0) ;;
  modify (fun s => set_sent ((whom, val, srcva, perm) :: sent s) s).

(** A page that arrives is a new frame with its bytes. *)
Definition map_page (va perm : Z) (bs : list Z) : U unit :=
  modify (fun s => set_nextf (nextf s + 1) (set_pt (<[VPN va := (nextf s, Z.lor perm PTE_V)]> (pt s))
    (set_fm (foldl (fun m '(a, b) => wr8 m a b) (fm s) (zip (zseq (nextf s * 4096) (length bs)) bs)) s))).

(** The value, the sender and the permissions received. *)
Definition ipc_recv (dstva : Z) : U (Z * Z * Z) :=
  assert "syscall_ipc_recv err" (negb (negb (dstva =? 0) && is_illegal_va dstva)) ;;
  l ← gets inbox;
  match l with
  | [] => undef "no message arrives"
  | m :: l' =>
      modify (set_inbox l') ;;
      match m_page m with
      | Some bs => map_page dstva (m_perm m) bs
      | None => mret tt
      end ;;
      mret (m_val m, m_from m, m_perm m)
  end.

