(* ===== verification/UprocMem.v ===== *)
(** * The memory of a process: lemmas

    What loads and stores of the library code do on pages that are mapped: [vbyte] and
    [vword] read through the page table, [vstring] and [vwords] are the C strings and the
    arrays of pointers in it. *)

From Stdlib Require Import ZArith Lia.
From stdpp Require Import base numbers list gmap strings.
From S2P Require Import Prelude Mmu Str StrThms Wp KState Elf Signo Env TlbEx Syscall Uproc.

(** ** Reading through the page table *)
Definition vbyte (u : uproc) (va : Z) : option Z :=
  if is_illegal_va va then None else
  match pt u !! VPN va with Some (f, _) => Some (rd8 (fm u) (f * 4096 + va mod 4096)) | None => None end.

Definition vword (u : uproc) (va : Z) : option Z :=
  b0 ← vbyte u va; b1 ← vbyte u (va + 1); b2 ← vbyte u (va + 2); b3 ← vbyte u (va + 3);
  Some (b0 + 256 * b1 + 65536 * b2 + 16777216 * b3).

Lemma legal_range va : is_illegal_va va = false -> UTEMP <= va < UTOP.
Proof. unfold is_illegal_va. intros H%orb_false_iff. lia. Qed.

Lemma vbyte_legal u va b : vbyte u va = Some b -> UTEMP <= va < UTOP.
Proof. unfold vbyte. destruct (is_illegal_va va) eqn:E; [done|]. intros _. by apply legal_range. Qed.

Lemma vword_legal u va w : vword u va = Some w -> UTEMP <= va < UTOP.
Proof. unfold vword. destruct (vbyte u va) eqn:E; [|done]. intros _. by eapply vbyte_legal. Qed.

Lemma vbyte_inv u va b : vbyte u va = Some b ->
  is_illegal_va va = false /\ exists f p, pt u !! VPN va = Some (f, p) /\ b = rd8 (fm u) (f * 4096 + va mod 4096).
Proof.
  unfold vbyte. destruct (is_illegal_va va); [done|]. destruct (pt u !! VPN va) as [[f p]|] eqn:E; [|done].
  intros [= <-]. split; [done|]. by exists f, p.
Qed.

Lemma touch_read u va f p : is_illegal_va va = false -> pt u !! VPN va = Some (f, p) ->
  touch va false u = Val (f * 4096 + va mod 4096) u.
Proof. intros Hl Hp. unfold touch. rewrite Hl, bind_gets, Hp. cbn [negb orb]. by rewrite bind_assert_true. Qed.

Lemma ld8_vbyte u va b : vbyte u va = Some b -> ld8 va u = Val b u.
Proof.
  intros (Hl & f & p & Hp & ->)%vbyte_inv. unfold ld8. by rewrite (bind_val _ _ _ _ _ (touch_read u va f p Hl Hp)).
Qed.

(** An aligned word lies in one page. *)
Lemma aligned_page va k : va mod 4 = 0 -> 0 <= k < 4 -> VPN (va + k) = VPN va /\ (va + k) mod 4096 = va mod 4096 + k.
Proof. intros Ha Hk. rewrite !VPN_div. dlia. Qed.

Lemma ld32_vword u va w : va mod 4 = 0 -> vword u va = Some w -> ld32 va u = Val w u.
Proof.
  intros Ha. unfold vword. destruct (vbyte u va) as [b0|] eqn:E0; [|done]. apply vbyte_inv in E0 as (Hl & f & p & Hp & ->).
  unfold vbyte. destruct (aligned_page va 1 Ha ltac:(lia)) as [-> ->].
  destruct (aligned_page va 2 Ha ltac:(lia)) as [-> ->]. destruct (aligned_page va 3 Ha ltac:(lia)) as [-> ->].
  rewrite Hp. destruct (is_illegal_va (va + 1)), (is_illegal_va (va + 2)), (is_illegal_va (va + 3)); try done.
  cbn. intros [= <-]. unfold ld32. rewrite (proj2 (Z.eqb_eq _ _) Ha).
  rewrite (bind_val _ _ _ _ _ (touch_read u va f p Hl Hp)). cbn. do 2 f_equal. unfold rd32. by rewrite !Z.add_assoc.
Qed.

(** ** Strings and arrays of pointers *)
Fixpoint vstring (u : uproc) (a : Z) (l : list Z) : Prop :=
  match l with
  | [] => vbyte u a = Some 0
  | b :: l' => vbyte u a = Some b /\ 0 < b < 256 /\ vstring u (a + 1) l'
  end.

Fixpoint vwords (u : uproc) (a : Z) (ps : list Z) : Prop :=
  match ps with
  | [] => vword u a = Some 0
  | p :: ps' => vword u a = Some p /\ p <> 0 /\ vwords u (a + 4) ps'
  end.

(** What can be read in [u] can be read in [u']. *)
Definition keeps (u u' : uproc) : Prop := forall va b, vbyte u va = Some b -> vbyte u' va = Some b.

Lemma keeps_vword u u' va w : keeps u u' -> vword u va = Some w -> vword u' va = Some w.
Proof.
  intros K. unfold vword. destruct (vbyte u va) eqn:E0; [|done]. destruct (vbyte u (va + 1)) eqn:E1; [|done].
  destruct (vbyte u (va + 2)) eqn:E2; [|done]. destruct (vbyte u (va + 3)) eqn:E3; [|done].
  by rewrite (K _ _ E0), (K _ _ E1), (K _ _ E2), (K _ _ E3).
Qed.

Lemma keeps_vstring u u' l : keeps u u' -> forall a, vstring u a l -> vstring u' a l.
Proof.
  intros K. induction l as [|b l IH]; intros a; cbn [vstring]; [apply K|].
  intros (H1 & H2 & H3). split; [by apply K|]. split; [done|]. by apply IH.
Qed.

Lemma keeps_vwords u u' ps : keeps u u' -> forall a, vwords u a ps -> vwords u' a ps.
Proof.
  intros K. induction ps as [|p ps IH]; intros a; cbn [vwords]; [by apply keeps_vword|].
  intros (H1 & H2 & H3). split; [by eapply keeps_vword|]. split; [done|]. by apply IH.
Qed.

Lemma vstring_app u l1 l2 : forall a, vstring u a (l1 ++ l2) -> vstring u (a + Z.of_nat (length l1)) l2.
Proof.
  induction l1 as [|b l1 IH]; intros a; cbn [app vstring length]; [by rewrite Z.add_0_r|].
  intros (_ & _ & H). specialize (IH _ H). by replace (a + Z.of_nat (S (length l1))) with (a + 1 + Z.of_nat (length l1)) by lia.
Qed.

Lemma vstring_head u a l : vstring u a l -> vbyte u a = Some (hd 0 l).
Proof. destruct l as [|b l]; cbn; [done|]. by intros (H & _). Qed.

Lemma vwords_lookup u ps p : forall a i, vwords u a ps -> ps !! i = Some p ->
  vword u (a + 4 * Z.of_nat i) = Some p /\ p <> 0.
Proof.
  induction ps as [|q ps IH]; intros a i; [done|]. cbn [vwords]. intros (H1 & H2 & H3). destruct i as [|i].
  - intros [= ->]. by replace (a + 4 * Z.of_nat 0) with a by lia.
  - intros Hi. destruct (IH (a + 4) i H3 Hi) as [H4 H5]. split; [|done].
    by replace (a + 4 * Z.of_nat (S i)) with (a + 4 + 4 * Z.of_nat i) by lia.
Qed.

Lemma vwords_end u ps : forall a, vwords u a ps -> vword u (a + 4 * Z.of_nat (length ps)) = Some 0.
Proof.
  induction ps as [|q ps IH]; intros a; cbn [vwords length]; [by rewrite Z.add_0_r|].
  intros (_ & _ & H). specialize (IH _ H). by replace (a + 4 * Z.of_nat (S (length ps))) with (a + 4 + 4 * Z.of_nat (length ps)) by lia.
Qed.

(** ** Stores into one page *)

(** The memory is that of [u], with [m] instead of the content. *)
Section Page.
Context (u : uproc) (base g q : Z).
Context (Hbase : base mod 4096 = 0) (Hlegal : UTEMP <= base /\ base + 4096 <= UTOP).
Context (Hpage : pt u !! VPN base = Some (g, q)) (Hw : hasbits q PTE_D = true).

Lemma in_page o : 0 <= o < 4096 ->
  is_illegal_va (base + o) = false /\ VPN (base + o) = VPN base /\ (base + o) mod 4096 = o.
Proof using Hbase Hlegal.
  intros Ho. split; [|rewrite !VPN_div; dlia]. unfold is_illegal_va.
  destruct (Z.ltb_spec (base + o) UTEMP), (Z.leb_spec UTOP (base + o)); (done || lia).
Qed.

Lemma touch_page o m wr : 0 <= o < 4096 -> touch (base + o) wr (set_fm m u) = Val (g * 4096 + o) (set_fm m u).
Proof using Hbase Hlegal Hpage Hw.
  intros Ho. destruct (in_page o Ho) as (H1 & H2 & H3). unfold touch. rewrite H1, bind_gets, H2. cbn [pt set_fm].
  rewrite Hpage, Hw, orb_true_r, bind_assert_true. by rewrite H3.
Qed.

Lemma st8_page o m v : 0 <= o < 4096 -> st8 (base + o) v (set_fm m u) = Val tt (set_fm (wr8 m (g * 4096 + o) v) u).
Proof using Hbase Hlegal Hpage Hw.
  intros Ho. unfold st8. by rewrite (bind_val _ _ _ _ _ (touch_page o m true Ho)).
Qed.

Lemma st32_page o m v : 0 <= o < 4096 -> o mod 4 = 0 ->
  st32 (base + o) v (set_fm m u) = Val tt (set_fm (wr32 m (g * 4096 + o) v) u).
Proof using Hbase Hlegal Hpage Hw.
  intros Ho Ha. unfold st32. assert (E : (base + o) mod 4 =? 0 = true) by (apply Z.eqb_eq; dlia). rewrite E.
  by rewrite (bind_val _ _ _ _ _ (touch_page o m true Ho)).
Qed.

(** Memories that differ from [u]'s in the frame [g] only; other pages read the same. *)
Definition off_frame (m : bmem) : Prop := forall a, ~ (g * 4096 <= a < g * 4096 + 4096) -> rd8 m a = rd8 (fm u) a.

Lemma off_frame_keeps u0 m : off_frame m ->
  (forall va b, vbyte u0 va = Some b -> exists f p, f <> g /\ pt u !! VPN va = Some (f, p) /\ b = rd8 (fm u) (f * 4096 + va mod 4096)) ->
  keeps u0 (set_fm m u).
Proof.
  intros Hm H va b Hb. destruct (H va b Hb) as (f & p & Hf & Hp & ->). unfold vbyte.
  apply vbyte_inv in Hb as (-> & _). cbn [pt fm set_fm]. rewrite Hp. f_equal. apply Hm.
  assert (0 <= va mod 4096 < 4096) by (by apply Z.mod_pos_bound). lia.
Qed.

(** [memcpy] into the page from bytes [c] that no write to the page changes. *)
Lemma memcpy_page (c : Z -> Z) src n : forall k o m, off_frame m -> 0 <= o -> o + Z.of_nat n <= 4096 ->
  (forall m j, off_frame m -> k <= j < k + Z.of_nat n -> vbyte (set_fm m u) (src + j) = Some (c j)) ->
  memcpy_loop (base + o) (src + k) n (set_fm m u) = Val tt (set_fm (wr_bytes m (g * 4096 + o) (map c (zseq k n))) u).
Proof using Hbase Hlegal Hpage Hw.
  induction n as [|n IH]; intros k o m Hm Ho Hn Hc; cbn [memcpy_loop zseq map wr_bytes]; [done|].
  rewrite (bind_val _ _ _ _ _ (ld8_vbyte _ _ _ (Hc m k Hm ltac:(lia)))).
  rewrite (bind_val _ _ _ _ _ (st8_page o m _ ltac:(lia))). rewrite <- !Z.add_assoc. apply IH; [|lia|lia|].
  - intros a Ha. rewrite rd_wr8. rewrite decide_False by lia. by apply Hm.
  - intros m' j Hm' Hj. apply Hc; [done|lia].
Qed.
End Page.
