(* ===== verification/Fd.v ===== *)
(** * File descriptors (user/lib/fd.c, user/include/fd.h)

    Descriptor [i] is the page at [INDEX2FD i]; its data is mapped from [INDEX2DATA i]. Here
    are the parts that no device is needed for, and the theorem on the descriptor table. *)

From Stdlib Require Import ZArith Lia.
From stdpp Require Import base numbers list gmap strings.
From S2P Require Import Prelude Mmu KState Elf Signo Env TlbEx Syscall Str Wp Uproc.


Definition MAXFD := 32.
Definition FILEBASE := 1610612736. (* 0x60000000 *)
Definition FDTABLE := FILEBASE - PDMAP.
Definition INDEX2FD (i : Z) : Z := u32 (FDTABLE + i * BY2PG).
Definition INDEX2DATA (i : Z) : Z := u32 (FILEBASE + i * PDMAP).

(** [struct Fd] *)
Definition fd_dev_id (p : Z) : Z := p.
Definition fd_offset (p : Z) : Z := p + 4.
Definition fd_omode (p : Z) : Z := p + 8.

(** lib.h *)
Definition O_RDONLY := 0.
Definition O_WRONLY := 1.
Definition O_RDWR := 2.
Definition O_ACCMODE := 3.

(** [struct Stat]: name, size, is-directory flag, device. *)
Definition st_name (p : Z) : Z := p.
Definition st_size (p : Z) : Z := p + 128.
Definition st_isdir (p : Z) : Z := p + 132.
Definition st_dev (p : Z) : Z := p + 136.

(** The first index of [0 .. MAXFD - 2] whose page is not mapped: without a page table, or
    with an invalid entry. *)
Definition fd_alloc : U (cres Z) :=
  r ← for_first (zseq 0 (Z.to_nat (MAXFD - 1))) (fun fdno =>
    let va := INDEX2FD fdno in
    v ← gets (has_vpd (va / PDMAP));
    if negb v then mret (Some (Ok va)) else
    e ← ld_vpt (va / BY2PG);
    if negb (hasbits e PTE_V) then mret (Some (Ok va)) else mret None);
  mret (default (Err (- E_MAX_OPEN)) r).

Definition fd_close (fd : Z) : U unit := syscall_mem_unmap fd ;; mret tt.

(** [fdnum] is an [int]: the test does not stop negative numbers. There is no test of the
    page directory here: the load of the entry may fault. *)
Definition fd_lookup (fdnum : Z) : U (cres Z) :=
  if MAXFD <=? fdnum then mret (Err (- E_INVAL)) else
  let va := INDEX2FD fdnum in
  e ← ld_vpt (va / BY2PG);
  if hasbits e PTE_V then mret (Ok va) else mret (Err (- E_INVAL)).

Definition fd2num (fd : Z) : Z := u32 (fd - FDTABLE) / BY2PG.
Definition fd2data (fd : Z) : Z := INDEX2DATA (fd2num fd).
Definition num2fd (fd : Z) : Z := u32 (fd * BY2PG + FDTABLE).


(** The page of descriptor [i] is mapped. *)
Definition fd_used (s : uproc) (i : Z) : bool := hasbits (vpt s (INDEX2FD i / BY2PG)) PTE_V.

(** The page table of descriptor [i]. *)
Definition fd_tab (i : Z) : Z := INDEX2FD i / PDMAP.

Lemma fd_tab_vpn i : INDEX2FD i / BY2PG / 1024 = fd_tab i.
Proof. unfold fd_tab. by rewrite Z.div_div. Qed.

Lemma fd_tab_small i : 0 <= i < MAXFD -> fd_tab i = 383.
Proof.
  intros Hi. unfold fd_tab, INDEX2FD, MAXFD, BY2PG, PDMAP in *. assert (FDTABLE = 1606418432) as -> by reflexivity.
  rewrite u32_small by (unfold is_u32; lia). dlia.
Qed.

(** ** Loads of the page tables *)
Lemma mapped_table s vpn e : pt s !! vpn = Some e -> has_vpd (vpn / 1024) s = true.
Proof.
  intros H. unfold has_vpd. rewrite bool_decide_eq_true_2; [done|]. unfold tables. apply elem_of_union_r, elem_of_list_to_set.
  apply list_elem_of_fmap. exists (vpn, e). split; [done|]. by apply elem_of_map_to_list.
Qed.

Lemma used_table s i : fd_used s i = true -> has_vpd (fd_tab i) s = true.
Proof.
  unfold fd_used, vpt. rewrite <- fd_tab_vpn. destruct (pt s !! (INDEX2FD i / BY2PG)) as [e|] eqn:E; [|done].
  intros _. by apply (mapped_table s _ e).
Qed.

(** The state after a load whose page table was missing. *)
Definition installed (i : Z) (s : uproc) : uproc := set_ptabs ({[i]} ∪ ptabs s) (set_answers (tl (answers s)) s).

Definition in_window (i : Z) : bool := (PDX UENVS <=? i) && (i <=? PDX UVPT).

Lemma ld_vpt_run s vpn : in_window (vpn / 1024) = false ->
  ld_vpt vpn s = if has_vpd (vpn / 1024) s then Val (vpt s vpn) s
    else if hd true (answers s) then Val 0 (installed (vpn / 1024) s) else Panic "page_alloc(&p)" (set_answers (tl (answers s)) s).
Proof.
  intros Hw. unfold in_window in Hw. unfold ld_vpt. rewrite Hw, bind_gets. destruct (has_vpd _ s); [done|].
  unfold ask, installed. rewrite bind_bind, bind_gets. destruct s as [? ? ? ? [|[] l] ? ? ? ? ? ? ? ? ?]; reflexivity.
Qed.

Lemma ld_vpt_table s vpn : in_window (vpn / 1024) = false -> has_vpd (vpn / 1024) s = true -> ld_vpt vpn s = Val (vpt s vpn) s.
Proof. intros Hw Hv. by rewrite ld_vpt_run, Hv. Qed.

Lemma fd_alloc_loop s n : forall a, 0 <= a -> a + Z.of_nat n <= MAXFD ->
  match for_first (zseq a n) (fun fdno =>
    let va := INDEX2FD fdno in
    v ← gets (has_vpd (va / PDMAP));
    if negb v then mret (Some (Ok va)) else
    e ← ld_vpt (va / BY2PG);
    if negb (hasbits e PTE_V) then mret (Some (Ok va)) else mret None) s with
  | Val (Some r) s' => s' = s /\ exists i, r = @Ok Z (INDEX2FD i) /\ a <= i < a + Z.of_nat n /\ fd_used s i = false /\ forall k, a <= k < i -> fd_used s k = true
  | Val None s' => s' = s /\ forall k, a <= k < a + Z.of_nat n -> fd_used s k = true
  | _ => False
  end.
Proof.
  induction n as [|n IH]; intros a Ha Hn; cbn [zseq for_first]; [split; [done|]; intros k Hk; lia|].
  assert (Hstop : fd_used s a = false -> exists i, @Ok Z (INDEX2FD a) = Ok (INDEX2FD i) /\ a <= i < a + Z.of_nat (S n) /\
    fd_used s i = false /\ forall k, a <= k < i -> fd_used s k = true).
  { intros Hu. exists a. split; [done|]. split; [lia|]. split; [done|]. intros k Hk. lia. }
  cbv zeta. unfold mbind at 1, M_bind at 1. rewrite bind_gets. fold (fd_tab a).
  destruct (has_vpd (fd_tab a) s) eqn:Ev; cbn [negb].
  2:{ split; [done|]. apply Hstop. destruct (fd_used s a) eqn:Eu; [|done]. rewrite (used_table s a Eu) in Ev. done. }
  assert (El : ld_vpt (INDEX2FD a / BY2PG) s = Val (vpt s (INDEX2FD a / BY2PG)) s).
  { apply ld_vpt_table; rewrite fd_tab_vpn; [|done]. rewrite fd_tab_small by lia. reflexivity. }
  rewrite (bind_val _ _ _ _ _ El). fold (fd_used s a). destruct (fd_used s a) eqn:Eu; cbn [negb].
  - cbn. specialize (IH (a + 1) ltac:(lia) ltac:(lia)). cbv zeta in IH. destruct (for_first _ _ s) as [[r|] s'| | |]; try done.
    + destruct IH as (-> & i & -> & Hi & Hu & Hk). split; [done|]. exists i. split; [done|]. split; [lia|]. split; [done|].
      intros k Hk'. destruct (Z.eq_dec k a) as [->|]; [done|]. apply Hk. lia.
    + destruct IH as (-> & Hk). split; [done|]. intros k Hk'. destruct (Z.eq_dec k a) as [->|]; [done|]. apply Hk. lia.
  - split; [done|]. by apply Hstop.
Qed.

Lemma INDEX2FD_small i : 0 <= i < MAXFD -> INDEX2FD i = FDTABLE + i * BY2PG.
Proof. intros Hi. unfold INDEX2FD. apply u32_small. unfold is_u32, MAXFD, BY2PG in *. assert (FDTABLE = 1606418432) by reflexivity. lia. Qed.

Lemma fd2num_small i k : 0 <= i < MAXFD -> 0 <= k < BY2PG -> fd2num (INDEX2FD i + k) = i.
Proof.
  intros Hi Hk. rewrite INDEX2FD_small by done. unfold fd2num. unfold MAXFD, BY2PG in *.
  replace (FDTABLE + i * 4096 + k - FDTABLE) with (i * 4096 + k) by lia. rewrite u32_small by (unfold is_u32; lia). dlia.
Qed.

(** [fd_alloc] on every state. *)
Lemma fd_alloc_run s :
  match fd_alloc s with
  | Val (Ok fd) s' => s' = s /\ exists i, fd = INDEX2FD i /\ 0 <= i < MAXFD - 1 /\ fd_used s i = false /\ forall k, 0 <= k < i -> fd_used s k = true
  | Val (Err e) s' => s' = s /\ e = - E_MAX_OPEN /\ forall k, 0 <= k < MAXFD - 1 -> fd_used s k = true
  | _ => False
  end.
Proof.
  pose proof (fd_alloc_loop s (Z.to_nat (MAXFD - 1)) 0 ltac:(lia) ltac:(unfold MAXFD; lia)) as H.
  unfold fd_alloc. unfold mbind, M_bind at 1. cbv zeta in *. destruct (for_first _ _ s) as [[r|] s'| | |]; try done.
  - destruct H as (-> & i & -> & Hi & Hu & Hk). cbn. split; [done|]. exists i. split; [done|]. split; [exact Hi|]. done.
  - destruct H as (-> & Hk). cbn. split; [done|]. split; [done|]. exact Hk.
Qed.

(** [fd_lookup] on every number whose entry is outside the windows. *)
Lemma fd_lookup_run s i : i < MAXFD -> in_window (fd_tab i) = false ->
  fd_lookup i s =
    if fd_used s i then Val (Ok (INDEX2FD i)) s
    else if has_vpd (fd_tab i) s then Val (Err (- E_INVAL)) s
    else if hd true (answers s) then Val (Err (- E_INVAL)) (installed (fd_tab i) s)
    else Panic "page_alloc(&p)" (set_answers (tl (answers s)) s).
Proof.
  intros Hi Hw. pose proof (ld_vpt_run s (INDEX2FD i / BY2PG)) as E. rewrite fd_tab_vpn in E. specialize (E Hw).
  unfold fd_lookup. destruct (Z.leb_spec MAXFD i); [lia|]. cbv zeta. destruct (has_vpd (fd_tab i) s) eqn:Ev.
  - rewrite (bind_val _ _ _ _ _ E). fold (fd_used s i). by destruct (fd_used s i).
  - assert (Hu : fd_used s i = false) by (destruct (fd_used s i) eqn:Hu; [by rewrite (used_table s i Hu) in Ev|done]).
    rewrite Hu. destruct (hd true (answers s)); [by rewrite (bind_val _ _ _ _ _ E)|]. unfold mbind, M_bind. by rewrite E.
Qed.

Lemma has_installed i s : has_vpd i (installed i s) = true.
Proof. unfold has_vpd. rewrite bool_decide_eq_true_2; [done|]. unfold tables. cbn. set_solver. Qed.

Lemma fd_vpn k : INDEX2FD k / BY2PG = VPN (INDEX2FD k).
Proof. by rewrite VPN_div. Qed.

Lemma fd_legal i : 0 <= i < MAXFD -> is_illegal_va (INDEX2FD i) = false.
Proof.
  intros Hi. rewrite INDEX2FD_small by done. unfold is_illegal_va, MAXFD, BY2PG in *.
  assert (FDTABLE = 1606418432) as -> by reflexivity. assert (UTEMP = 4186112) as -> by reflexivity.
  assert (UTOP = 2134900736) as -> by reflexivity.
  destruct (Z.ltb_spec (1606418432 + i * 4096) 4186112), (Z.leb_spec 2134900736 (1606418432 + i * 4096)); (done || lia).
Qed.

Lemma fd_vpn_inj i k : 0 <= i < MAXFD -> 0 <= k < MAXFD -> VPN (INDEX2FD i) = VPN (INDEX2FD k) -> i = k.
Proof.
  intros Hi Hk. rewrite !INDEX2FD_small, !VPN_div by done. unfold BY2PG. assert (FDTABLE = 1606418432) as -> by reflexivity. dlia.
Qed.

Lemma hasbits_valid f perm : hasbits (Z.lor (f * 4096) (Z.lor perm PTE_V)) PTE_V = true.
Proof.
  change (valid (Z.lor (f * 4096) (Z.lor perm PTE_V)) = true). rewrite valid_testbit, !Z.lor_spec.
  change (Z.testbit PTE_V 9) with true. by rewrite !orb_true_r.
Qed.

(** A free descriptor whose page is then mapped, and unmapped by [fd_close]. *)
Lemma fd_cycle s i perm s2 : 0 <= i < MAXFD -> fd_used s i = false -> syscall_mem_alloc (INDEX2FD i) perm s = Val 0 s2 ->
  (forall k, 0 <= k < MAXFD -> fd_used s2 k = if decide (i = k) then true else fd_used s k) /\
  exists s3, fd_close (INDEX2FD i) s2 = Val tt s3 /\ has_vpd (fd_tab i) s3 = true /\
    forall k, 0 <= k < MAXFD -> fd_used s3 k = fd_used s k.
Proof.
  intros Hi Hu E. unfold syscall_mem_alloc in E. rewrite (fd_legal i Hi) in E.
  assert (Hpt : exists f, pt s2 = <[VPN (INDEX2FD i) := (f, Z.lor perm PTE_V)]> (pt s)).
  { unfold ask in E. rewrite bind_bind, bind_gets in E.
    destruct s as [? ? nf ? [|[] l] ? ? ? ? ? ? ? ? ?]; try done; injection E as <-; exists nf; done. }
  destruct Hpt as [f Hpt]. split.
  - intros k Hk. unfold fd_used, vpt. rewrite fd_vpn, Hpt. case_decide as Hd.
    + subst k. rewrite lookup_insert_eq. apply hasbits_valid.
    + by rewrite lookup_insert_ne by (intros E1%fd_vpn_inj; done).
  - unfold fd_close, syscall_mem_unmap. rewrite (fd_legal i Hi), bind_bind, bind_modify, Hpt, lookup_insert_eq.
    eexists. split; [reflexivity|]. split.
    + unfold has_vpd. rewrite bool_decide_eq_true_2; [done|]. unfold tables. cbn [ptabs set_ptabs].
      rewrite <- fd_vpn, fd_tab_vpn. set_solver.
    + intros k Hk. unfold fd_used, vpt. rewrite fd_vpn. cbn [pt set_ptabs set_pt]. destruct (decide (i = k)) as [<-|Hd].
      * rewrite lookup_delete_eq. unfold fd_used, vpt in Hu. rewrite fd_vpn in Hu. by rewrite Hu.
      * rewrite lookup_delete_ne, lookup_insert_ne by (intros E1%fd_vpn_inj; done). done.
Qed.

Lemma fd_of_num i : 0 <= i < MAXFD -> fd2num (INDEX2FD i) = i.
Proof. intros Hi. rewrite <- (Z.add_0_r (INDEX2FD i)). apply fd2num_small; [done|unfold BY2PG; lia]. Qed.

Lemma fd_data i : 0 <= i < MAXFD -> fd2data (INDEX2FD i) = FILEBASE + i * PDMAP.
Proof.
  intros Hi. unfold fd2data, INDEX2DATA. rewrite fd_of_num by done. apply u32_small. unfold is_u32, FILEBASE, PDMAP, MAXFD in *. lia.
Qed.

(** The descriptors share a page table: a lookup that returns leaves it there. *)
Lemma one_table s i j r s' : 0 <= i < MAXFD -> 0 <= j < MAXFD -> fd_lookup i s = Val r s' ->
  fd_lookup j s' = Val (if fd_used s' j then Ok (INDEX2FD j) else Err (- E_INVAL)) s' /\ fd_used s' j = fd_used s j.
Proof.
  intros Hi Hj. pose proof (fd_tab_small i Hi) as Ti. pose proof (fd_tab_small j Hj) as Tj.
  rewrite !fd_lookup_run by (lia || rewrite ?Ti, ?Tj; reflexivity). rewrite Ti, Tj.
  assert (H : has_vpd 383 s' = true ->
    (if fd_used s' j then Val (Ok (INDEX2FD j)) s' else if has_vpd 383 s' then Val (Err (- E_INVAL)) s'
     else if hd true (answers s') then Val (Err (- E_INVAL)) (installed 383 s')
     else Panic "page_alloc(&p)" (set_answers (tl (answers s')) s')) =
    Val (if fd_used s' j then Ok (INDEX2FD j) else Err (- E_INVAL)) s') by (intros ->; by destruct (fd_used s' j)).
  destruct (fd_used s i) eqn:Eu; [|destruct (has_vpd 383 s) eqn:Ev; [|destruct (hd true (answers s)); [|done]]];
    intros [= _ <-]; (split; [apply H|done]).
  - rewrite <- Ti. by apply used_table.
  - done.
  - apply has_installed.
Qed.

Lemma alloc_cycle s fd perm s2 : fd_alloc s = Val (Ok fd) s -> syscall_mem_alloc fd perm s = Val 0 s2 ->
  fd_lookup (fd2num fd) s2 = Val (Ok fd) s2 /\
  exists s3, fd_close fd s2 = Val tt s3 /\ fd_lookup (fd2num fd) s3 = Val (Err (- E_INVAL)) s3 /\
    fd_alloc s3 = Val (Ok fd) s3.
Proof.
  intros Ea Em. pose proof (fd_alloc_run s) as R. rewrite Ea in R. destruct R as (_ & i & -> & Hi & Hu & Hk).
  assert (Hi' : 0 <= i < MAXFD) by lia. pose proof (fd_tab_small i Hi') as Ti.
  destruct (fd_cycle s i perm s2 Hi' Hu Em) as (U2 & s3 & Ec & V3 & U3). rewrite (fd_of_num i Hi').
  rewrite !fd_lookup_run by (lia || rewrite Ti; reflexivity). split.
  - by rewrite U2, decide_True by done.
  - exists s3. split; [exact Ec|]. rewrite fd_lookup_run by (lia || rewrite Ti; reflexivity). rewrite U3, Hu, V3 by done.
    split; [done|]. pose proof (fd_alloc_run s3) as R. destruct (fd_alloc s3) as [[e|fd'] s'| | |]; try done.
    + destruct R as (_ & _ & H). rewrite <- (U3 i Hi'), H in Hu by done. done.
    + destruct R as (-> & j & -> & Hj & Hu' & Hk'). rewrite U3 in Hu' by lia.
      assert (j = i) as ->; [|done]. destruct (Z.lt_trichotomy j i) as [H|[H|H]]; [|done|].
      * by rewrite Hk in Hu' by lia.
      * by rewrite <- (U3 i Hi'), Hk' in Hu by lia.
Qed.

