(* ===== verification/Ufile.v ===== *)
(** * Files of a process (user/lib/fsipc.c, user/lib/file.c)

    A request is written to the page [fsipcbuf] and sent to the file server; the reply comes
    with a page, which is mapped where the caller asked. Paths are C strings. *)

From Stdlib Require Import ZArith Lia.
From stdpp Require Import base numbers list gmap strings.
From S2P Require Import Prelude Mmu Str Wp KState Elf Signo Env TlbEx Syscall Uproc Fd.

Definition MAXPATHLEN := 1024.
Definition MAXFILESIZE := 4194304.
Definition FTYPE_DIR := 1.
Definition FSREQ_OPEN := 1.
Definition FSREQ_MAP := 2.
Definition FSREQ_SET_SIZE := 3.
Definition FSREQ_CLOSE := 4.
Definition FSREQ_DIRTY := 5.
Definition FSREQ_REMOVE := 6.
Definition FSREQ_SYNC := 7.

(** [struct Filefd]: the descriptor, the file id, the copy of the [struct File]. *)
Definition f_fileid (p : Z) : Z := p + 12.
Definition ff_name (p : Z) : Z := p + 16.
Definition ff_size (p : Z) : Z := p + 144.
Definition ff_type (p : Z) : Z := p + 148.

(** ** fsipc.c *)

(** The reply's value, as an [int], and the permissions of its page. *)
Definition fsipc (type fsreq dstva : Z) : U (Z * Z) :=
  srv ← gets fsenv;
  ipc_send srv type fsreq PTE_D ;;
  '(v, _, perm) ← ipc_recv dstva;
  mret (s32 v, perm).

Definition fsipc_open (path : list Z) (omode fd : Z) : U Z :=
  req ← gets fsipcbuf;
  if MAXPATHLEN <=? Z.of_nat (length path) then mret (- E_BAD_PATH) else
  st_bytes req (path ++ [0]) ;;
  st32 (req + MAXPATHLEN) omode ;;
  '(r, _) ← fsipc FSREQ_OPEN req fd;
  mret r.

Definition fsipc_map (fileid offset dstva : Z) : U Z :=
  req ← gets fsipcbuf;
  st32 req fileid ;;
  st32 (req + 4) offset ;;
  '(r, perm) ← fsipc FSREQ_MAP req dstva;
  if r <? 0 then mret r else
  assert "fsipc_map: unexpected permissions" (Z.land perm (u32 (Z.lnot (Z.lor PTE_D PTE_LIBRARY))) =? PTE_V) ;;
  mret 0.

Definition fsipc_set_size (fileid size : Z) : U Z :=
  req ← gets fsipcbuf;
  st32 req fileid ;;
  st32 (req + 4) size ;;
  '(r, _) ← fsipc FSREQ_SET_SIZE req 0; mret r.

Definition fsipc_close (fileid : Z) : U Z :=
  req ← gets fsipcbuf;
  st32 req fileid ;;
  '(r, _) ← fsipc FSREQ_CLOSE req 0; mret r.

Definition fsipc_dirty (fileid offset : Z) : U Z :=
  req ← gets fsipcbuf;
  st32 req fileid ;;
  st32 (req + 4) offset ;;
  '(r, _) ← fsipc FSREQ_DIRTY req 0; mret r.

Definition fsipc_remove (path : list Z) : U Z :=
  let len := Z.of_nat (length path) in
  if (len =? 0) || (MAXPATHLEN <? len) then mret (- E_BAD_PATH) else
  req ← gets fsipcbuf;
  st_bytes req (path ++ [0]) ;;
  '(r, _) ← fsipc FSREQ_REMOVE req 0; mret r.

Definition fsipc_sync : U Z :=
  req ← gets fsipcbuf;
  '(r, _) ← fsipc FSREQ_SYNC req 0; mret r.

(** ** file.c *)

(** [for (i = from; i < to; i += BY2PG)]: stops at the first error. *)
Definition page_steps (from to : Z) : list Z :=
  map (fun k => from + k * BY2PG) (zseq 0 (Z.to_nat ((to - from + BY2PG - 1) / BY2PG))).
Fixpoint for_err {S X} (l : list X) (body : X -> M S Z) : M S Z :=
  match l with
  | [] => mret 0
  | x :: l' => r ← body x; if negb (r =? 0) then mret r else for_err l' body
  end.

(** The descriptor's number or the error. *)
Definition open (path : list Z) (mode : Z) : U Z :=
  a ← fd_alloc;
  match a with
  | Err e => mret e
  | Ok fd =>
      r ← fsipc_open path mode fd;
      if negb (r =? 0) then mret r else
      let va := fd2data fd in
      size ← ld32 (ff_size fd);
      fileid ← ld32 (f_fileid fd);
      r ← for_err (page_steps 0 size) (fun i => fsipc_map fileid i (u32 (va + i)));
      if negb (r =? 0) then mret r else mret (fd2num fd)
  end.

Definition file_close (fd : Z) : U Z :=
  fileid ← ld32 (f_fileid fd);
  size ← ld32 (ff_size fd);
  let va := fd2data fd in
  for_each (page_steps 0 size) (fun i => fsipc_dirty fileid i ;; mret tt) ;;
  r ← fsipc_close fileid;
  if r <? 0 then mret r else
  if size =? 0 then mret 0 else
  for_err (page_steps 0 size) (fun i => r ← syscall_mem_unmap (u32 (va + i)); mret (if r <? 0 then r else 0)).

(** All of [offset], [n] and the size are [u_int]: the sum wraps. *)
Definition file_read (fd buf n offset : Z) : U Z :=
  size ← ld32 (ff_size fd);
  if size <? offset then mret 0 else
  let n := if size <? u32 (offset + n) then u32 (size - offset) else n in
  memcpy_loop buf (u32 (fd2data fd + offset)) (Z.to_nat n) ;;
  mret (s32 n).

Definition read_map (fdnum offset : Z) : U (cres Z) :=
  f ← fd_lookup fdnum;
  match f with
  | Err e => mret (Err e)
  | Ok fd =>
      id ← ld32 (fd_dev_id fd);
      if negb (id =? 102) then mret (Err (- E_INVAL)) else
      let va := u32 (fd2data fd + offset) in
      if MAXFILESIZE <=? offset then mret (Err (- E_NO_DISK)) else
      v ← gets (has_vpd (PDX va));
      if negb v then mret (Err (- E_NO_DISK)) else
      e ← ld_vpt (VPN va);
      if negb (hasbits e PTE_V) then mret (Err (- E_NO_DISK)) else mret (Ok va)
  end.

Definition ftruncate (fdnum size : Z) : U Z :=
  if MAXFILESIZE <? size then mret (- E_NO_DISK) else
  f ← fd_lookup fdnum;
  match f with
  | Err e => mret e
  | Ok fd =>
      id ← ld32 (fd_dev_id fd);
      if negb (id =? 102) then mret (- E_INVAL) else
      fileid ← ld32 (f_fileid fd);
      oldsize ← ld32 (ff_size fd);
      st32 (ff_size fd) size ;;
      r ← fsipc_set_size fileid size;
      if r <? 0 then mret r else
      let va := fd2data fd in
      r ← for_err (page_steps (ROUND oldsize BY2PG) (ROUND size BY2PG)) (fun i =>
        r ← fsipc_map fileid i (u32 (va + i));
        if r <? 0 then fsipc_set_size fileid oldsize ;; mret r else mret 0);
      if negb (r =? 0) then mret r else
      for_each (page_steps (ROUND size BY2PG) (ROUND oldsize BY2PG)) (fun i =>
        r ← syscall_mem_unmap (u32 (va + i));
        assert "ftruncate: syscall_mem_unmap" (0 <=? r)) ;;
      mret 0
  end.

Definition file_write (fd buf n offset : Z) : U Z :=
  let tot := u32 (offset + n) in
  if MAXFILESIZE <? tot then mret (- E_NO_DISK) else
  size ← ld32 (ff_size fd);
  r ← (if size <? tot then ftruncate (fd2num fd) tot else mret 0);
  if r <? 0 then mret r else
  memcpy_loop (u32 (fd2data fd + offset)) buf (Z.to_nat n) ;;
  mret (s32 n).

(** [strcpy] of the name, byte by byte. *)
Fixpoint strcpy_loop (fuel : nat) (dst src : Z) : U unit :=
  match fuel with
  | O => undef "the string does not end"
  | S fuel' => c ← ld8 src; st8 dst c ;; if c =? 0 then mret tt else strcpy_loop fuel' (dst + 1) (src + 1)
  end.

Definition file_stat (fd st : Z) : U Z :=
  strcpy_loop (Z.to_nat BY2PG) (st_name st) (ff_name fd) ;;
  size ← ld32 (ff_size fd);
  st32 (st_size st) size ;;
  ty ← ld32 (ff_type fd);
  st32 (st_isdir st) (if ty =? FTYPE_DIR then 1 else 0) ;;
  mret 0.

Definition remove (path : list Z) : U Z := fsipc_remove path.
Definition sync : U Z := fsipc_sync.
