(* ===== verification/Upipe.v ===== *)
(** * Pipes and the console of a process (user/lib/pipe.c, user/lib/console.c)

    A pipe is a page that the descriptors of both ends map: read position, write position and
    a ring of 32 bytes. While a function waits, the other environments run. The increment of a
    position and the copy of a byte are one expression in the code, whose order C leaves to the
    compiler: [pos_first] chooses it, as in PipeRing.v. Without preemption the two orders agree
    ([get_byte_order], [put_byte_order]). *)

From Stdlib Require Import ZArith Lia.
From stdpp Require Import base numbers list gmap strings.
From S2P Require Import Prelude Mmu Str StrThms Wp KState Elf Signo Env TlbEx Syscall Uproc UprocMem Fd.

(** ** pipe.c *)
Definition BY2PIPE := 32.
Definition p_rpos (p : Z) : Z := p.
Definition p_wpos (p : Z) : Z := p + 4.
Definition p_buf (p i : Z) : Z := p + 8 + i.
Definition devpipe_id : Z := 112. (* 'p' *)
Definition devcons_id : Z := 99.  (* 'c' *)

Definition fd_take : U (cres Z) :=
  a ← fd_alloc;
  match a with
  | Err e => mret (Err e)
  | Ok fd => r ← syscall_mem_alloc fd (Z.lor PTE_D PTE_LIBRARY); if r <? 0 then mret (Err r) else mret (Ok fd)
  end.

(** The numbers of the two ends. On an error the steps done before are undone. *)
Definition pipe : U (cres (Z * Z)) :=
  a ← fd_take;
  match a with
  | Err e => mret (Err e)
  | Ok fd0 =>
      b ← fd_take;
      match b with
      | Err e => syscall_mem_unmap fd0 ;; mret (Err e)
      | Ok fd1 =>
          let va := fd2data fd0 in
          r ← syscall_mem_alloc va (Z.lor PTE_D PTE_LIBRARY);
          if r <? 0 then syscall_mem_unmap fd1 ;; syscall_mem_unmap fd0 ;; mret (Err r) else
          r ← syscall_mem_map va (fd2data fd1) (Z.lor PTE_D PTE_LIBRARY);
          if r <? 0 then
            syscall_mem_unmap va ;; syscall_mem_unmap fd1 ;; syscall_mem_unmap fd0 ;; mret (Err r)
          else
            st32 (fd_dev_id fd0) devpipe_id ;;
            st32 (fd_omode fd0) O_RDONLY ;;
            st32 (fd_dev_id fd1) devpipe_id ;;
            st32 (fd_omode fd1) O_WRONLY ;;
            mret (Ok (fd2num fd0, fd2num fd1))
      end
  end.

(** The two counts are read in one time slice: the code repeats until [env_runs] stays. *)
Definition _pipe_is_closed (fd p : Z) : U bool :=
  fd_ref ← pageref fd;
  pipe_ref ← pageref p;
  mret (fd_ref =? pipe_ref).

(** How a program's reads and writes run: the rounds they may wait for the other environments,
    and the order of the two accesses of [p->p_buf[(p->p_pos++) % BY2PIPE]]. *)
Record runs := mkRuns { wait_rounds : nat; pos_first : bool }.

(** [p->p_buf[(p->p_rpos++) % BY2PIPE]] *)
Definition get_byte (pf : bool) (p : Z) : U Z :=
  r ← ld32 (p_rpos p);
  if pf then st32 (p_rpos p) (u32 (r + 1)) ;; ld8 (p_buf p (r mod BY2PIPE))
  else b ← ld8 (p_buf p (r mod BY2PIPE)); st32 (p_rpos p) (u32 (r + 1)) ;; mret b.

(** [p->p_buf[(p->p_wpos++) % BY2PIPE] = *src] *)
Definition put_byte (pf : bool) (p src : Z) : U unit :=
  w ← ld32 (p_wpos p);
  if pf then st32 (p_wpos p) (u32 (w + 1)) ;; b ← ld8 src; st8 (p_buf p (w mod BY2PIPE)) b
  else b ← ld8 src; st8 (p_buf p (w mod BY2PIPE)) b ;; st32 (p_wpos p) (u32 (w + 1)).

(** The wait of [pipe_read]: [true] when there is a byte, [false] when the function returns. *)
Fixpoint read_wait (fuel : nat) (fd p i : Z) : U bool :=
  match fuel with
  | O => undef "waits for ever"
  | S fuel' =>
      r ← ld32 (p_rpos p);
      w ← ld32 (p_wpos p);
      if negb (w <=? r) then mret true
      else if negb (i =? 0) then mret false
      else
        c ← _pipe_is_closed fd p;
        if c : bool then mret false else syscall_yield ;; read_wait fuel' fd p i
  end.

(** The loop over the [n] bytes; [left] of them remain. *)
Fixpoint read_loop (rs : runs) (left : nat) (fd p buf i : Z) : U Z :=
  match left with
  | O => mret i
  | S left' =>
      go ← read_wait (wait_rounds rs) fd p i;
      if negb go then mret i else
      b ← get_byte (pos_first rs) p;
      st8 (buf + i) b ;;
      read_loop rs left' fd p buf (i + 1)
  end.

Definition pipe_read (rs : runs) (fd vbuf n offset : Z) : U Z :=
  read_loop rs (Z.to_nat n) fd (fd2data fd) vbuf 0.

Fixpoint write_wait (fuel : nat) (fd p : Z) : U bool :=
  match fuel with
  | O => undef "waits for ever"
  | S fuel' =>
      w ← ld32 (p_wpos p);
      r ← ld32 (p_rpos p);
      if negb (BY2PIPE <=? u32 (w - r)) then mret true
      else
        c ← _pipe_is_closed fd p;
        if c : bool then mret false else syscall_yield ;; write_wait fuel' fd p
  end.

Fixpoint write_loop (rs : runs) (left : nat) (fd p buf i n : Z) : U Z :=
  match left with
  | O => mret n
  | S left' =>
      go ← write_wait (wait_rounds rs) fd p;
      if negb go then mret i else
      put_byte (pos_first rs) p (buf + i) ;;
      write_loop rs left' fd p buf (i + 1) n
  end.

Definition pipe_write (rs : runs) (fd vbuf n offset : Z) : U Z :=
  write_loop rs (Z.to_nat n) fd (fd2data fd) vbuf 0 n.

(** 1, 0 or the error. *)
Definition pipe_is_closed (fdnum : Z) : U Z :=
  f ← fd_lookup fdnum;
  match f with
  | Err e => mret e
  | Ok fd => c ← _pipe_is_closed fd (fd2data fd); mret (if c : bool then 1 else 0)
  end.

Definition pipe_close (fd : Z) : U Z :=
  syscall_mem_unmap fd ;; syscall_mem_unmap (fd2data fd) ;; mret 0.

Definition pipe_stat (fd stat : Z) : U Z := mret 0.

(** ** console.c *)
Definition iscons (fdnum : Z) : U Z :=
  f ← fd_lookup fdnum;
  match f with
  | Err e => mret e
  | Ok fd => id ← ld32 (fd_dev_id fd); mret (if id =? devcons_id then 1 else 0)
  end.

Definition opencons : U Z :=
  a ← fd_take;
  match a with
  | Err e => mret e
  | Ok fd => st32 (fd_dev_id fd) devcons_id ;; st32 (fd_omode fd) O_RDWR ;; mret (fd2num fd)
  end.

Fixpoint wait_key (fuel : nat) : U Z :=
  match fuel with
  | O => undef "waits for ever"
  | S fuel' => c ← syscall_cgetc; if c =? 0 then syscall_yield ;; wait_key fuel' else mret c
  end.

(** The echo, then the character. *)
Definition cons_read (fuel : nat) (fd vbuf n offset : Z) : U Z :=
  if n =? 0 then mret 0 else
  c ← wait_key fuel;
  modify (fun s => set_cons ((if negb (c =? 13) then [u8 c] else [10]) :: cons s) s) ;;
  if c <? 0 then mret c
  else if c =? 4 then mret 0
  else st8 vbuf c ;; mret 1.

Definition cons_write (fd buf n offset : Z) : U Z :=
  r ← syscall_print_cons buf n;
  if r <? 0 then mret r else mret (s32 n).

Definition cons_close (fd : Z) : U Z := mret 0.

(** ["<cons>"] *)
Definition cons_stat (fd st : Z) : U Z :=
  st_bytes (st_name st) [60; 99; 111; 110; 115; 62; 0] ;; mret 0.

(** ** The order of the two accesses does not matter without preemption *)
Lemma set_fm_self u : u = set_fm (fm u) u.
Proof. by destruct u. Qed.

Lemma ring_slot p r : 8 <= 8 + r mod BY2PIPE < 4096 /\ p_buf p (r mod BY2PIPE) = p + (8 + r mod BY2PIPE).
Proof. unfold p_buf, BY2PIPE. split; [dlia|lia]. Qed.

Section Order.
Context (u : uproc) (p g q : Z).
Context (Hp : p mod 4096 = 0) (Hlegal : UTEMP <= p /\ p + 4096 <= UTOP).
Context (Hpage : pt u !! VPN p = Some (g, q)) (Hw : hasbits q PTE_D = true).

Lemma ld8_page o m : 0 <= o < 4096 -> ld8 (p + o) (set_fm m u) = Val (rd8 m (g * 4096 + o)) (set_fm m u).
Proof using Hp Hlegal Hpage Hw.
  intros Ho. unfold ld8. by rewrite (bind_val _ _ _ _ _ (touch_page u p g q Hp Hlegal Hpage Hw o m false Ho)).
Qed.

Lemma ld32_page o m : 0 <= o < 4096 -> o mod 4 = 0 -> ld32 (p + o) (set_fm m u) = Val (rd32 m (g * 4096 + o)) (set_fm m u).
Proof using Hp Hlegal Hpage Hw.
  intros Ho Ha. unfold ld32. assert (E : (p + o) mod 4 =? 0 = true) by (apply Z.eqb_eq; dlia). rewrite E.
  by rewrite (bind_val _ _ _ _ _ (touch_page u p g q Hp Hlegal Hpage Hw o m false Ho)).
Qed.

(** Reading a byte, with either order: the byte of the slot, and the position one further. *)
Lemma get_byte_order pf : let r := rd32 (fm u) (g * 4096) in
  get_byte pf p u = Val (rd8 (fm u) (g * 4096 + (8 + r mod BY2PIPE))) (set_fm (wr32 (fm u) (g * 4096) (u32 (r + 1))) u).
Proof using Hp Hlegal Hpage Hw.
  intros r. destruct (ring_slot p r) as [Hs Es].
  pose proof (ld32_page 0 (fm u) ltac:(lia) eq_refl) as E1. rewrite <- set_fm_self, !Z.add_0_r in E1.
  pose proof (st32_page u p g q Hp Hlegal Hpage Hw 0 (fm u) (u32 (r + 1)) ltac:(lia) eq_refl) as E2.
  rewrite <- set_fm_self, !Z.add_0_r in E2. pose proof (ld8_page (8 + r mod BY2PIPE) (fm u) ltac:(lia)) as E3. rewrite <- set_fm_self in E3.
  unfold get_byte, p_rpos. rewrite (bind_val _ _ _ _ _ E1). fold r. rewrite Es. destruct pf.
  - rewrite (bind_val _ _ _ _ _ E2), ld8_page by lia. f_equal. rewrite rd_wr32. by rewrite decide_False by lia.
  - rewrite (bind_val _ _ _ _ _ E3), (bind_val _ _ _ _ _ E2). done.
Qed.

(** Writing a byte from a page other than the pipe's, with either order. *)
Lemma put_byte_order pf src f q' : is_illegal_va src = false -> pt u !! VPN src = Some (f, q') -> f <> g ->
  let w := rd32 (fm u) (g * 4096 + 4) in let b := rd8 (fm u) (f * 4096 + src mod 4096) in
  put_byte pf p src u =
    Val tt (set_fm (wr8 (wr32 (fm u) (g * 4096 + 4) (u32 (w + 1))) (g * 4096 + (8 + w mod BY2PIPE)) b) u).
Proof using Hp Hlegal Hpage Hw.
  intros Hl Hsrc Hfg w b. destruct (ring_slot p w) as [Hs Es].
  assert (Hm : 0 <= src mod 4096 < 4096) by (by apply Z.mod_pos_bound).
  assert (Hld : forall m, rd8 m (f * 4096 + src mod 4096) = b -> ld8 src (set_fm m u) = Val b (set_fm m u)).
  { intros m Hb. unfold ld8. rewrite (bind_val _ _ _ _ _ (touch_read (set_fm m u) src f q' Hl Hsrc)). by unfold gets; cbn; rewrite Hb. }
  pose proof (ld32_page 4 (fm u) ltac:(lia) eq_refl) as E1. rewrite <- set_fm_self in E1.
  unfold put_byte, p_wpos. rewrite (bind_val _ _ _ _ _ E1). fold w. rewrite Es. destruct pf.
  - rewrite set_fm_self at 1. rewrite (bind_val _ _ _ _ _ (st32_page u p g q Hp Hlegal Hpage Hw 4 _ _ ltac:(lia) eq_refl)).
    rewrite (bind_val _ _ _ _ _ (Hld (wr32 (fm u) (g * 4096 + 4) (u32 (w + 1))) ltac:(rewrite rd_wr32, decide_False by lia; done))).
    by rewrite (st8_page u p g q Hp Hlegal Hpage Hw) by lia.
  - rewrite set_fm_self at 1. rewrite (bind_val _ _ _ _ _ (Hld (fm u) eq_refl)).
    rewrite (bind_val _ _ _ _ _ (st8_page u p g q Hp Hlegal Hpage Hw (8 + w mod BY2PIPE) (fm u) b ltac:(lia))).
    rewrite (st32_page u p g q Hp Hlegal Hpage Hw 4 _ _ ltac:(lia) eq_refl). do 2 f_equal.
    unfold wr32, wr8. rewrite !(insert_insert_ne _ _ (g * 4096 + (8 + w mod BY2PIPE))) by lia. done.
Qed.
End Order.
