(* ===== verification/PipeRing.v ===== *)
(** * The ring buffer of a pipe under preemption (user/lib/pipe.c)

    One reader and one writer share the page of the pipe and are preempted between any two
    memory accesses. The code copies the byte and increments the position in one expression,
    [rbuf[i++] = p->p_buf[(p->p_rpos++) % BY2PIPE]], which C lets the compiler order either
    way: the model has both orders. With the byte first the ring refines a queue under every
    preemption; with the position first it does as long as neither thread is preempted between
    its two accesses ([calm]), and not otherwise. *)

From Stdlib Require Import ZArith Lia.
From stdpp Require Import base numbers list relations.
From S2P Require Import Prelude.

Definition BY2PIPE := 32.

(** Where the reader is: at the test of the loop, past it, or between the two accesses, with
    the byte loaded or with the position stored. *)
Inductive rpc := RTest | RGo | RInc (b : Z) | RByte (pos : Z).
Inductive wpc := WTest | WGo | WInc (b : Z) | WByte (pos : Z).

(** [struct Pipe], the two threads, the bytes still to be written and those delivered. *)
Record ring := mkRing {
  p_rpos : Z; p_wpos : Z; p_buf : Z -> Z;
  rthread : rpc; wthread : wpc;
  inp : list Z; outp : list Z }.

Definition put (f : Z -> Z) (i v : Z) : Z -> Z := fun k => if k =? i then v else f k.

Section Order.
(** The position is stored before the byte is copied. *)
Context (pos_first : bool).

(** One access of the reader; [None]: it waits. *)
Definition rstep (s : ring) : option ring :=
  match rthread s with
  | RTest =>
      if p_rpos s <? p_wpos s
      then Some (mkRing (p_rpos s) (p_wpos s) (p_buf s) RGo (wthread s) (inp s) (outp s)) else None
  | RGo =>
      if pos_first
      then Some (mkRing (u32 (p_rpos s + 1)) (p_wpos s) (p_buf s) (RByte (p_rpos s)) (wthread s) (inp s) (outp s))
      else Some (mkRing (p_rpos s) (p_wpos s) (p_buf s) (RInc (p_buf s (p_rpos s mod BY2PIPE))) (wthread s) (inp s) (outp s))
  | RInc b => Some (mkRing (u32 (p_rpos s + 1)) (p_wpos s) (p_buf s) RTest (wthread s) (inp s) (outp s ++ [b]))
  | RByte pos =>
      Some (mkRing (p_rpos s) (p_wpos s) (p_buf s) RTest (wthread s) (inp s) (outp s ++ [p_buf s (pos mod BY2PIPE)]))
  end.

(** One access of the writer. *)
Definition wstep (s : ring) : option ring :=
  match wthread s with
  | WTest =>
      match inp s with
      | [] => None
      | _ =>
          if u32 (p_wpos s - p_rpos s) <? BY2PIPE
          then Some (mkRing (p_rpos s) (p_wpos s) (p_buf s) (rthread s) WGo (inp s) (outp s)) else None
      end
  | WGo =>
      match inp s with
      | [] => None
      | b :: inp' =>
          if pos_first
          then Some (mkRing (p_rpos s) (u32 (p_wpos s + 1)) (p_buf s) (rthread s) (WByte (p_wpos s)) (inp s) (outp s))
          else Some (mkRing (p_rpos s) (p_wpos s) (put (p_buf s) (p_wpos s mod BY2PIPE) b) (rthread s) (WInc b) inp' (outp s))
      end
  | WInc b => Some (mkRing (p_rpos s) (u32 (p_wpos s + 1)) (p_buf s) (rthread s) WTest (inp s) (outp s))
  | WByte pos =>
      match inp s with
      | [] => None
      | b :: inp' => Some (mkRing (p_rpos s) (p_wpos s) (put (p_buf s) (pos mod BY2PIPE) b) (rthread s) WTest inp' (outp s))
      end
  end.

Inductive step (s s' : ring) : Prop :=
| step_reader : rstep s = Some s' -> step s s'
| step_writer : wstep s = Some s' -> step s s'.

(** Between its two accesses, with the position stored. *)
Definition reader_between (s : ring) : bool := match rthread s with RByte _ => true | _ => false end.
Definition writer_between (s : ring) : bool := match wthread s with WByte _ => true | _ => false end.

(** Steps that do not preempt the other thread there. *)
Inductive calm (s s' : ring) : Prop :=
| calm_reader : rstep s = Some s' -> writer_between s = false -> calm s s'
| calm_writer : wstep s = Some s' -> reader_between s = false -> calm s s'.
End Order.

(** An empty pipe whose positions are [c]. *)
Definition start (c : Z) (bs : list Z) : ring := mkRing c c (fun _ => 0) RTest WTest bs [].

(** ** The specification: a queue of at most [BY2PIPE] bytes, at [BY2PIPE] of them the writer
    waits *)
Record queue := mkQueue { q_in : list Z; q_bytes : list Z; q_out : list Z }.
Inductive qstep : queue -> queue -> Prop :=
| q_enqueue b i q o : (length q < Z.to_nat BY2PIPE)%nat -> qstep (mkQueue (b :: i) q o) (mkQueue i (q ++ [b]) o)
| q_dequeue b i q o : qstep (mkQueue i (b :: q) o) (mkQueue i q (o ++ [b])).

(** The queue a ring stands for: the bytes from the next one to read to the next free slot. A
    position that is stored before its byte is copied counts from the copy on, one that is
    stored after it when it is stored. *)
Definition content (f : Z -> Z) (from : Z) (n : nat) : list Z := map (fun k => f (k mod BY2PIPE)) (zseq from n).
Definition pending (s : ring) : list Z := match wthread s with WInc b => [b] | _ => [] end.
Definition read_pos (s : ring) : Z := match rthread s with RByte pos => pos | _ => p_rpos s end.
Definition write_pos (s : ring) : Z := match wthread s with WByte pos => pos | _ => p_wpos s end.
Definition queue_of (s : ring) : queue :=
  mkQueue (pending s ++ inp s) (content (p_buf s) (read_pos s) (Z.to_nat (write_pos s - read_pos s))) (outp s).

(** ** The invariant, for both orders *)
Record ring_ok (s : ring) : Prop := {
  rg_pos : 0 <= read_pos s <= write_pos s;
  rg_size : write_pos s - read_pos s <= BY2PIPE;
  rg_wrap : write_pos s + Z.of_nat (length (pending s ++ inp s)) < 4294967296;
  rg_reader : match rthread s with
    | RTest => True
    | RGo => p_rpos s < write_pos s
    | RInc b => p_rpos s < write_pos s /\ b = p_buf s (p_rpos s mod BY2PIPE)
    | RByte pos => p_rpos s = pos + 1 /\ pos < write_pos s end;
  rg_writer : match wthread s with
    | WTest => True
    | WGo => p_wpos s - read_pos s < BY2PIPE /\ inp s <> []
    | WInc b => p_wpos s - read_pos s < BY2PIPE /\ b = p_buf s (p_wpos s mod BY2PIPE)
    | WByte pos => p_wpos s = pos + 1 /\ pos - read_pos s < BY2PIPE /\ inp s <> [] end;
  rg_apart : reader_between s && writer_between s = false }.

Lemma start_ok c bs : 0 <= c -> c + Z.of_nat (length bs) < 4294967296 -> ring_ok (start c bs).
Proof. intros Hc Hl. split; cbn; unfold BY2PIPE; try lia; done. Qed.

Lemma content_put f from n i v : 0 <= from -> (forall k, from <= k < from + Z.of_nat n -> k mod BY2PIPE <> i) ->
  content (put f i v) from n = content f from n.
Proof.
  intros Hf H. unfold content. apply map_ext_in. intros k Hk%list_elem_of_In%elem_of_zseq. unfold put.
  by destruct (Z.eqb_spec (k mod BY2PIPE) i) as [E|]; [destruct (H k Hk)|].
Qed.

(** The slot of the write position holds none of the bytes between. *)
Lemma slot_apart r w k : 0 <= r -> w - r < BY2PIPE -> r <= k < w -> k mod BY2PIPE <> w mod BY2PIPE.
Proof. unfold BY2PIPE. intros Hr Hw Hk. dlia. Qed.

Lemma write_pos_calm s : writer_between s = false -> write_pos s = p_wpos s.
Proof. unfold writer_between, write_pos. by destruct (wthread s). Qed.

Lemma read_pos_calm s : reader_between s = false -> read_pos s = p_rpos s.
Proof. unfold reader_between, read_pos. by destruct (rthread s). Qed.

(** What the writer needs stays when bytes are taken. *)
Lemma writer_kept s r r' f : r <= r' -> f = p_buf s ->
  match wthread s with
  | WTest => True
  | WGo => p_wpos s - r < BY2PIPE /\ inp s <> []
  | WInc b => p_wpos s - r < BY2PIPE /\ b = p_buf s (p_wpos s mod BY2PIPE)
  | WByte pos => p_wpos s = pos + 1 /\ pos - r < BY2PIPE /\ inp s <> [] end ->
  match wthread s with
  | WTest => True
  | WGo => p_wpos s - r' < BY2PIPE /\ inp s <> []
  | WInc b => p_wpos s - r' < BY2PIPE /\ b = f (p_wpos s mod BY2PIPE)
  | WByte pos => p_wpos s = pos + 1 /\ pos - r' < BY2PIPE /\ inp s <> [] end.
Proof.
  intros Hle ->. destruct (wthread s); [done|intros [? ?]; split; [lia|done]|intros [? ?]; split; [lia|done]|].
  intros (? & ? & ?). split; [done|]. split; [lia|done].
Qed.

(** Taking the byte at the read position. *)
Lemma read_queue f r w : r < w -> content f r (Z.to_nat (w - r)) = f (r mod BY2PIPE) :: content f (r + 1) (Z.to_nat (w - (r + 1))).
Proof.
  intros H. replace (Z.to_nat (w - r)) with (S (Z.to_nat (w - (r + 1)))) by lia. unfold content. by rewrite zseq_S.
Qed.

(** A byte joins at the write position. *)
Lemma snoc_queue f r w : r <= w ->
  content f r (Z.to_nat (w + 1 - r)) = content f r (Z.to_nat (w - r)) ++ [f (w mod BY2PIPE)].
Proof.
  intros Hr. replace (Z.to_nat (w + 1 - r)) with (S (Z.to_nat (w - r))) by lia.
  unfold content. rewrite zseq_snoc, map_app. cbn [map].
  by replace (r + Z.of_nat (Z.to_nat (w - r))) with w by lia.
Qed.

(** A byte stored at the write position is none of those waiting. *)
Lemma write_queue f r w b : 0 <= r <= w -> w - r < BY2PIPE ->
  content (put f (w mod BY2PIPE) b) r (Z.to_nat (w - r)) = content f r (Z.to_nat (w - r)).
Proof.
  intros Hr Hw. apply content_put; [lia|]. intros k Hk. apply (slot_apart r); (done || lia).
Qed.

Lemma content_room f r w : 0 <= r <= w -> w - r < BY2PIPE -> (length (content f r (Z.to_nat (w - r))) < Z.to_nat BY2PIPE)%nat.
Proof. intros Hr Hw. unfold content. rewrite length_map, zseq_length. unfold BY2PIPE in *. lia. Qed.

Lemma rstep_ok pf s s' : ring_ok s -> rstep pf s = Some s' -> writer_between s = false -> ring_ok s' /\
  (queue_of s' = queue_of s \/ qstep (queue_of s) (queue_of s')).
Proof.
  intros [Hp Hz Hw Hr Hwr _] E Hb. pose proof (write_pos_calm s Hb) as Ew. unfold rstep in E.
  unfold read_pos in Hp, Hz, Hwr. destruct (rthread s) as [| |b|pos] eqn:Et.
  - destruct (Z.ltb_spec (p_rpos s) (p_wpos s)); [|done]. injection E as <-. split.
    + split; try done. cbn [rthread p_rpos]. change (p_rpos s < write_pos s). lia.
    + left. unfold queue_of, read_pos. cbn [rthread]. by rewrite Et.
  - destruct pf; injection E as <-.
    + assert (Hu : u32 (p_rpos s + 1) = p_rpos s + 1) by (apply u32_small; unfold is_u32; lia). rewrite Hu. split; [|left].
      * by split.
      * unfold queue_of, read_pos. cbn [rthread]. by rewrite Et.
    + split; [|left]; [by split|]. unfold queue_of, read_pos. cbn [rthread]. by rewrite Et.
  - injection E as <-. destruct Hr as [Hlt ->].
    assert (Hu : u32 (p_rpos s + 1) = p_rpos s + 1) by (apply u32_small; unfold is_u32; lia). rewrite Hu. split.
    + split; try done; try (change (write_pos _) with (write_pos s); unfold read_pos; cbn [rthread p_rpos]; lia).
      apply (writer_kept s (p_rpos s)); [unfold read_pos; cbn; lia|done|done].
    + right. unfold queue_of, read_pos. rewrite Et. cbn [rthread p_rpos p_buf].
      change (write_pos _) with (write_pos s). rewrite (read_queue _ (p_rpos s)) by done. apply q_dequeue.
  - injection E as <-. destruct Hr as [Hrp Hlt]. split.
    + split; try done; try (change (write_pos _) with (write_pos s); unfold read_pos; cbn [rthread p_rpos]; lia).
      apply (writer_kept s pos); [unfold read_pos; cbn; lia|done|done].
    + right. unfold queue_of, read_pos. rewrite Et. cbn [rthread p_rpos p_buf].
      change (write_pos _) with (write_pos s). rewrite (read_queue _ pos), Hrp by done. apply q_dequeue.
Qed.

(** What the reader needs stays when a byte is stored. *)
Lemma reader_kept s w w' b0 : reader_between s = false -> 0 <= p_rpos s -> w <= w' -> w - p_rpos s < BY2PIPE ->
  match rthread s with
  | RTest => True
  | RGo => p_rpos s < w
  | RInc b => p_rpos s < w /\ b = p_buf s (p_rpos s mod BY2PIPE)
  | RByte pos => p_rpos s = pos + 1 /\ pos < w end ->
  match rthread s with
  | RTest => True
  | RGo => p_rpos s < w'
  | RInc b => p_rpos s < w' /\ b = put (p_buf s) (w mod BY2PIPE) b0 (p_rpos s mod BY2PIPE)
  | RByte pos => p_rpos s = pos + 1 /\ pos < w' end.
Proof.
  intros Hb H0 Hle Hs. unfold reader_between in Hb. destruct (rthread s) as [| |b|]; [done|lia| |done].
  intros [Hr ->]. split; [lia|]. unfold put.
  destruct (Z.eqb_spec (p_rpos s mod BY2PIPE) (w mod BY2PIPE)) as [Ex|]; [|done].
  by destruct (slot_apart (p_rpos s) w (p_rpos s)); [lia|done|lia|].
Qed.

Lemma reader_more s w w' : w <= w' ->
  match rthread s with
  | RTest => True
  | RGo => p_rpos s < w
  | RInc b => p_rpos s < w /\ b = p_buf s (p_rpos s mod BY2PIPE)
  | RByte pos => p_rpos s = pos + 1 /\ pos < w end ->
  match rthread s with
  | RTest => True
  | RGo => p_rpos s < w'
  | RInc b => p_rpos s < w' /\ b = p_buf s (p_rpos s mod BY2PIPE)
  | RByte pos => p_rpos s = pos + 1 /\ pos < w' end.
Proof. intros H. destruct (rthread s); [done|lia|intros [? ?]; split; [lia|done]|lia]. Qed.

Lemma wstep_ok pf s s' : ring_ok s -> wstep pf s = Some s' -> reader_between s = false -> ring_ok s' /\
  (queue_of s' = queue_of s \/ qstep (queue_of s) (queue_of s')).
Proof.
  intros [Hp Hz Hw Hr Hwr _] E Hb. pose proof (read_pos_calm s Hb) as Er. unfold wstep in E.
  unfold write_pos, pending in Hp, Hz, Hw, Hr. destruct (wthread s) as [| |b|pos] eqn:Et.
  - destruct (inp s) as [|b i] eqn:Ei; [done|].
    assert (Hu : u32 (p_wpos s - p_rpos s) = p_wpos s - p_rpos s)
      by (apply u32_small; unfold is_u32, BY2PIPE in *; cbn [app length] in Hw; lia).
    rewrite Hu in E. destruct (Z.ltb_spec (p_wpos s - p_rpos s) BY2PIPE); [|done]. injection E as <-. split.
    + split; try done; [|by rewrite andb_false_r]. cbn [wthread p_wpos inp].
      change (read_pos _) with (read_pos s). split; [lia|done].
    + left. unfold queue_of, write_pos, pending. cbn [wthread inp]. by rewrite Et, Ei.
  - destruct (inp s) as [|b i] eqn:Ei; [done|]. destruct Hwr as [Hlt _]. cbn [app length] in Hw. destruct pf; injection E as <-.
    + assert (Hu : u32 (p_wpos s + 1) = p_wpos s + 1) by (apply u32_small; unfold is_u32; lia). rewrite Hu. split; [|left].
      * split; try done. change (reader_between _) with (reader_between s). by rewrite Hb.
      * unfold queue_of, write_pos, pending. cbn [wthread inp]. by rewrite Et, Ei.
    + pose proof (write_queue (p_buf s) (read_pos s) (p_wpos s) b Hp Hlt) as Q. split; [|left].
      * split; try done; [|split; [exact Hlt|]|by rewrite andb_false_r].
        -- cbn [rthread p_rpos p_buf]. apply (reader_kept s); [done|lia|unfold write_pos; cbn; lia|lia|done].
        -- cbn [p_buf p_wpos]. unfold put. by rewrite Z.eqb_refl.
      * unfold queue_of, write_pos, pending. cbn [wthread inp p_buf p_wpos]. rewrite Et, Ei.
        change (read_pos _) with (read_pos s). by rewrite Q.
  - injection E as <-. destruct Hwr as [Hlt ->]. cbn [app length] in Hw.
    assert (Hu : u32 (p_wpos s + 1) = p_wpos s + 1) by (apply u32_small; unfold is_u32; lia). rewrite Hu. split.
    + split; try (change (read_pos _) with (read_pos s); unfold write_pos, pending; cbn [wthread p_wpos inp app]; lia); try done.
      * apply (reader_more s (p_wpos s)); [unfold write_pos; cbn; lia|done].
      * by rewrite andb_false_r.
    + right. unfold queue_of, write_pos, pending. cbn [wthread inp p_buf p_wpos app]. rewrite Et. cbn [app].
      change (read_pos _) with (read_pos s).
      rewrite snoc_queue by lia. apply q_enqueue. by apply content_room.
  - destruct (inp s) as [|b i] eqn:Ei; [done|]. destruct Hwr as (Hwp & Hlt & _). cbn [app length] in Hw. injection E as <-.
    split.
    + split; try (change (read_pos _) with (read_pos s); unfold write_pos, pending; cbn [wthread p_wpos inp app]; lia); try done.
      * cbn [rthread p_rpos p_buf]. apply (reader_kept s); [done|lia|unfold write_pos; cbn; lia|lia|done].
      * by rewrite andb_false_r.
    + right. unfold queue_of, write_pos, pending. cbn [wthread inp p_buf p_wpos app]. rewrite Et, Ei. cbn [app].
      change (read_pos _) with (read_pos s).
      rewrite Hwp, snoc_queue, write_queue by lia. unfold put at 1. rewrite Z.eqb_refl.
      apply q_enqueue. by apply content_room.
Qed.

Lemma step_calm pf s s' : ring_ok s -> calm pf s s' -> ring_ok s' /\ (queue_of s' = queue_of s \/ qstep (queue_of s) (queue_of s')).
Proof. intros O [E Hb|E Hb]; [by apply (rstep_ok pf)|by apply (wstep_ok pf)]. Qed.

Lemma steps_ok pf s s' : ring_ok s -> rtc (calm pf) s s' -> ring_ok s' /\ rtc qstep (queue_of s) (queue_of s').
Proof.
  intros O R. induction R as [s|s s1 s2 H R IH]; [by split|].
  destruct (step_calm pf s s1 O H) as [O1 [E|Q]]; destruct (IH O1) as [O2 R2]; (split; [done|]).
  - by rewrite <- E.
  - by apply (rtc_l _ _ (queue_of s1)).
Qed.

Lemma qsteps_bytes q q' : rtc qstep q q' -> q_out q' ++ q_bytes q' ++ q_in q' = q_out q ++ q_bytes q ++ q_in q.
Proof.
  induction 1 as [q|q q1 q2 H R IH]; [done|]. rewrite IH. destruct H; cbn; by rewrite <- ?app_assoc.
Qed.
