(* ===== verification/PipeThms.v ===== *)
(** * Theorems on pipes (user/lib/pipe.c, user/lib/fork.c, user/lib/fd.c) *)

From Stdlib Require Import ZArith Lia.
From stdpp Require Import base numbers list relations.
From S2P Require Import Prelude PipeRing.

(** ** The ring *)
Lemma reader_moves pf s : ring_ok s -> writer_between s = false ->
  reader_between s = true \/ q_bytes (queue_of s) <> [] -> exists s', calm pf s s'.
Proof.
  intros O Hb Hleft. destruct (rstep pf s) as [s'|] eqn:E; [exists s'; by left|]. exfalso.
  unfold rstep in E. unfold queue_of, read_pos, reader_between in Hleft.
  destruct (rthread s) as [| | |]; [|by destruct pf|done|done].
  destruct (Z.ltb_spec (p_rpos s) (p_wpos s)); [done|]. destruct Hleft as [|Hleft]; [done|]. apply Hleft. cbn [q_bytes].
  rewrite (write_pos_calm s Hb). by replace (Z.to_nat (p_wpos s - p_rpos s)) with 0%nat by lia.
Qed.

Lemma writer_moves pf s : ring_ok s -> reader_between s = false ->
  writer_between s = true \/ (q_bytes (queue_of s) = [] /\ q_in (queue_of s) <> []) -> exists s', calm pf s s'.
Proof.
  intros [Hp Hz Hw _ Hwr _] Hb Hleft. destruct (wstep pf s) as [s'|] eqn:E; [exists s'; by right|]. exfalso.
  unfold wstep in E. unfold queue_of, writer_between, write_pos, pending in *.
  destruct (wthread s) as [| | |]; [|destruct Hwr as [_ Hi]; by destruct (inp s), pf|done|destruct Hwr as (_ & _ & Hi); by destruct (inp s)].
  destruct Hleft as [|[Hq Hi]]; [done|]. cbn [q_bytes q_in app] in *. destruct (inp s) as [|b i]; [done|].
  apply (f_equal length) in Hq. unfold content in Hq. rewrite length_map, zseq_length in Hq. cbn [length] in Hq.
  rewrite (read_pos_calm s Hb) in *. unfold BY2PIPE in E. replace (p_wpos s - p_rpos s) with 0 in E by lia. done.
Qed.

Lemma ring_progress pf s : ring_ok s -> q_in (queue_of s) <> [] \/ q_bytes (queue_of s) <> [] -> exists s', calm pf s s'.
Proof.
  intros O Hleft. destruct (reader_between s) eqn:Er, (writer_between s) eqn:Ew.
  - pose proof (rg_apart s O) as H. by rewrite Er, Ew in H.
  - apply reader_moves; [done|done|by left].
  - apply writer_moves; [done|done|by left].
  - destruct (decide (q_bytes (queue_of s) = [])) as [Eb|Eb]; [|apply reader_moves; [done|done|by right]].
    apply writer_moves; [done|done|]. right. split; [done|]. by destruct Hleft.
Qed.

(** With the byte first no step is excluded. *)
Lemma byte_first_between s s' : step false s s' -> reader_between s = false /\ writer_between s = false ->
  calm false s s' /\ reader_between s' = false /\ writer_between s' = false.
Proof.
  intros [E|E] [Hr Hw].
  - split; [by left|]. unfold rstep in E. destruct (rthread s) as [| | |] eqn:Et; [destruct (_ <? _); [|done]| | |];
      injection E as <-; done.
  - split; [by right|]. unfold wstep in E. destruct (wthread s) as [| | |] eqn:Et;
      [destruct (inp s); [done|]; destruct (_ <? _); [|done]|destruct (inp s); [done|]| |destruct (inp s); [done|]];
      injection E as <-; done.
Qed.

Lemma byte_first_calm c bs s : rtc (step false) (start c bs) s -> rtc (calm false) (start c bs) s.
Proof.
  assert (H : reader_between (start c bs) = false /\ writer_between (start c bs) = false) by done.
  revert H. generalize (start c bs). intros s0 H R. induction R as [s0|s0 s1 s2 Hs R IH]; [constructor|].
  destruct (byte_first_between s0 s1 Hs H) as [C H1]. by apply (rtc_l _ _ s1); [|apply IH].
Qed.

(** C12: The ring buffer of a pipe refines a queue, for both orders of the two accesses of
    [p->p_buf[p->p_pos++]], which C does not fix. With the byte copied before the position is
    stored this holds under every preemption of the reader and the writer between their
    memory accesses; with the position stored first, under every preemption except one between
    the store of the position and the copy of the byte (pipe_position_first_breaks shows that
    that one loses bytes). Each access is then an enqueue, a dequeue or invisible; so the bytes
    come out in the order they went in, none lost or repeated, at most 32 of them wait, and as
    long as bytes are left one of the two can go on. The positions must not wrap: fewer than
    2^32 bytes. *)
Theorem pipe_fifo (pos_first : bool) c bs s : 0 <= c -> c + Z.of_nat (length bs) < 4294967296 ->
  rtc (if pos_first then calm true else step false) (start c bs) s ->
  rtc qstep (mkQueue bs [] []) (queue_of s) /\
  bs = outp s ++ q_bytes (queue_of s) ++ q_in (queue_of s) /\
  (length (q_bytes (queue_of s)) <= 32)%nat /\
  (outp s = bs \/ exists s', calm pos_first s s').
Proof.
  intros Hc Hl R.
  assert (R' : rtc (calm pos_first) (start c bs) s) by (destruct pos_first; [exact R|by apply byte_first_calm]).
  destruct (steps_ok _ _ _ (start_ok c bs Hc Hl) R') as [O Q].
  assert (E0 : queue_of (start c bs) = mkQueue bs [] []).
  { unfold queue_of, pending, start, read_pos, write_pos. cbn [wthread rthread inp outp p_rpos p_wpos p_buf app].
    by rewrite Z.sub_diag. }
  rewrite E0 in Q. pose proof (qsteps_bytes _ _ Q) as Hb. cbn [q_in q_bytes q_out app] in Hb.
  change (q_out (queue_of s)) with (outp s) in Hb. split; [done|]. split; [done|]. split.
  - unfold queue_of. cbn [q_bytes]. unfold content. rewrite length_map, zseq_length.
    destruct O. unfold BY2PIPE in *. lia.
  - destruct (decide (q_in (queue_of s) = [])) as [Ei|Ei]; [|right; by apply ring_progress; [|left]].
    destruct (decide (q_bytes (queue_of s) = [])) as [Eb|Eb]; [left|right; by apply ring_progress; [|right]].
    rewrite Ei, Eb, !app_nil_r in Hb. done.
Qed.

(** A run: [true] is a step of the reader, [false] one of the writer. *)
Fixpoint run (pf : bool) (l : list bool) (s : ring) : option ring :=
  match l with
  | [] => Some s
  | b :: l' => match (if b then rstep pf s else wstep pf s) with Some s' => run pf l' s' | None => None end
  end.

Lemma run_steps pf l : forall s s', run pf l s = Some s' -> rtc (step pf) s s'.
Proof.
  induction l as [|b l IH]; intros s s' E; cbn in E; [injection E as <-; constructor|].
  destruct b.
  - destruct (rstep pf s) as [s1|] eqn:E1; [|done]. apply (rtc_l (step pf) s s1); [by constructor 1|by apply IH].
  - destruct (wstep pf s) as [s1|] eqn:E1; [|done]. apply (rtc_l (step pf) s s1); [by constructor 2|by apply IH].
Qed.

(** The byte goes through with either order; with the position first no thread is preempted
    between its two accesses. *)
Lemma pipe_fifo_witness :
  (exists s, run false [false; false; false; true; true; true] (start 0 [65]) = Some s /\ [65] = outp s) /\
  (exists s, run true [false; false; false; true; true; true] (start 0 [65]) = Some s /\ [65] = outp s).
Proof.
  split.
  - set (r := run false [false; false; false; true; true; true] (start 0 [65])).
    assert (E : r = Some (mkRing 1 1 (put (fun _ => 0) 0 65) RTest WTest [] [65])) by reflexivity.
    eexists. split; [exact E|].
    pose proof (pipe_fifo false 0 [65] _ ltac:(lia) ltac:(cbn; lia) (run_steps _ _ _ _ E)) as (_ & H & _). exact H.
  - set (r := run true [false; false; false; true; true; true] (start 0 [65])).
    assert (E : r = Some (mkRing 1 1 (put (fun _ => 0) 0 65) RTest WTest [] [65])) by reflexivity.
    assert (R : rtc (calm true) (start 0 [65]) (mkRing 1 1 (put (fun _ => 0) 0 65) RTest WTest [] [65])).
    { do 3 (eapply rtc_l; [apply calm_writer; reflexivity|]).
      do 3 (eapply rtc_l; [apply calm_reader; reflexivity|]). apply rtc_refl. }
    eexists. split; [exact E|].
    pose proof (pipe_fifo true 0 [65] _ ltac:(lia) ltac:(cbn; lia) R) as (_ & H & _). exact H.
Defined.

(** With the position stored before the byte is copied the pipe is not a queue: preempted in
    between, the writer lets the reader take a byte that was never written. C does not fix
    the order of the two accesses in the code. *)
Theorem pipe_position_first_breaks : exists s, rtc (step true) (start 0 [65]) s /\ outp s = [0].
Proof.
  set (r := run true [false; false; true; true; true] (start 0 [65])).
  destruct r as [s|] eqn:E; [|discriminate E]. exists s. split; [exact (run_steps _ _ _ _ E)|]. by injection E as <-.
Qed.

(** After the write position wraps to 0 the test [rpos >= wpos] holds. *)
Record stuck (s : ring) : Prop := {
  st_rpos : p_rpos s = 4294967295;
  st_wpos : 0 <= p_wpos s <= 31;
  st_reader : rthread s = RTest;
  st_writer : match wthread s with WTest => True | WGo | WInc _ => u32 (p_wpos s - p_rpos s) < BY2PIPE | WByte _ => False end }.

Lemma stuck_step s s' : stuck s -> step false s s' -> stuck s' /\ outp s' = outp s.
Proof.
  intros [Hr Hw Ht Hwr] [E|E].
  - unfold rstep in E. rewrite Ht in E. destruct (Z.ltb_spec (p_rpos s) (p_wpos s)); [lia|done].
  - unfold wstep in E. rewrite Hr in *. unfold u32, BY2PIPE in *. destruct (wthread s) as [| |b|] eqn:Ew; [| | |done].
    + destruct (inp s); [done|]. destruct (Z.ltb_spec ((p_wpos s - 4294967295) mod 4294967296) 32); [|done].
      injection E as <-. by split.
    + destruct (inp s); [done|]. injection E as <-. by split.
    + injection E as <-. split; [|done]. split; cbn [p_rpos p_wpos rthread wthread]; try done.
      dlia.
Qed.

(** After 2^32 - 1 bytes a pipe jams: the next byte makes the write position wrap to 0, the
    reader takes the pipe for empty, and nothing is delivered ever after, whatever the two do. *)
Theorem pipe_wrap_jams bs : exists s, rtc (step false) (start 4294967295 (65 :: bs)) s /\
  forall s', rtc (step false) s s' -> outp s' = [] /\ rstep false s' = None.
Proof.
  destruct (run false [false; false; false] (start 4294967295 (65 :: bs))) as [s|] eqn:E; [|discriminate E].
  exists s. split; [exact (run_steps _ _ _ _ E)|].
  assert (Hs : stuck s /\ outp s = []) by (injection E as <-; split; [split; cbn; try done; lia|done]).
  destruct Hs as [Hs Ho]. clear E. intros s' R. revert Hs Ho. induction R as [s|s s1 s2 H R IH]; intros Hs Ho.
  - split; [done|]. destruct Hs. unfold rstep. rewrite st_reader0. destruct (Z.ltb_spec (p_rpos s) (p_wpos s)); [lia|done].
  - destruct (stuck_step s s1 Hs H) as [H1 E1]. apply IH; [done|congruence].
Qed.

(** ** Reference counts: who still has the pipe open *)

(** A process holds an end of the pipe through two pages: the descriptor's and the pipe's. *)
Inductive hold := Shut | DataOnly | FdOnly | Full.
Record handle := mkHandle { h_reader : bool; h_hold : hold }.

(** [dup] maps the pipe first, [pipe_close] unmaps the descriptor first; [fork] copies the pages
    in the order of their addresses, the descriptor first. *)
Inductive hstep : bool -> hold -> hold -> Prop :=
| dup_data f : hstep f Shut DataOnly
| dup_fd f : hstep f DataOnly Full
| close_fd f : hstep f Full DataOnly
| close_data f : hstep f DataOnly Shut
| fork_fd : hstep true Shut FdOnly
| fork_data : hstep true FdOnly Full.

(** [forks]: processes that fork take part. *)
Inductive hsteps (forks : bool) : list handle -> list handle -> Prop :=
| hs l1 e h h' l2 : hstep forks h h' -> hsteps forks (l1 ++ mkHandle e h :: l2) (l1 ++ mkHandle e h' :: l2).

Definition has_fd (h : hold) : bool := match h with FdOnly | Full => true | _ => false end.
Definition has_data (h : hold) : bool := match h with DataOnly | Full => true | _ => false end.

(** [pageref] of the descriptor of one end, and of the pipe. *)
Definition fd_ref (e : bool) (l : list handle) : Z := zsum (fun h => if Bool.eqb (h_reader h) e && has_fd (h_hold h) then 1 else 0) l.
Definition pipe_ref (l : list handle) : Z := zsum (fun h => if has_data (h_hold h) then 1 else 0) l.

(** [_pipe_is_closed] for one end. *)
Definition seems_closed (e : bool) (l : list handle) : bool := fd_ref e l =? pipe_ref l.

Definition no_fd_only (l : list handle) : Prop := forall h, h ∈ l -> h_hold h <> FdOnly.

Lemma hsteps_no_fd_only l l' : hsteps false l l' -> no_fd_only l -> no_fd_only l'.
Proof.
  intros [l1 e h h' l2 H] N x Hx. apply elem_of_app in Hx as [Hx|Hx]; [apply N; set_solver|].
  apply elem_of_cons in Hx as [->|Hx]; [|apply N; set_solver]. by inversion H.
Qed.

Lemma fd_ref_le e l : no_fd_only l -> fd_ref e l <= pipe_ref l /\
  (fd_ref e l = pipe_ref l -> forall h, h ∈ l -> h_reader h = negb e -> h_hold h = Shut).
Proof.
  unfold fd_ref, pipe_ref. induction l as [|h l IH]; intros N; [split; [done|intros _ h Hh; by apply not_elem_of_nil in Hh]|].
  rewrite !zsum_cons. destruct IH as [IH1 IH2]; [intros x Hx; apply N; by right|].
  assert (Hh : (if Bool.eqb (h_reader h) e && has_fd (h_hold h) then 1 else 0) <= (if has_data (h_hold h) then 1 else 0)).
  { pose proof (N h ltac:(left)). destruct (h_hold h), (Bool.eqb (h_reader h) e); cbn; done || lia. }
  split; [lia|]. intros E x Hx Hr. apply elem_of_cons in Hx as [->|Hx]; [|apply IH2; [lia|done|done]].
  pose proof (N h ltac:(left)). destruct (h_hold h); [done| |done|]; cbn in *; destruct e, (h_reader h); cbn in *; try done; lia.
Qed.

(** C40: While processes open (by [dup]) and close ends, at every moment between two of their
    system calls: if one end of the pipe seems closed, no process holds the other end, not even
    for a moment between mapping and unmapping its two pages. *)
Theorem pipe_close_safe l l' e : (forall h, h ∈ l -> h_hold h = Shut \/ h_hold h = Full) -> rtc (hsteps false) l l' ->
  seems_closed e l' = true -> forall h, h ∈ l' -> h_reader h = negb e -> h_hold h = Shut.
Proof.
  intros H0 R Hc. assert (N : no_fd_only l').
  { assert (N : no_fd_only l) by (intros h Hh; destruct (H0 h Hh) as [->| ->]; done).
    clear -R N. induction R as [|l l1 l2 H R IH]; [done|]. apply IH. by apply (hsteps_no_fd_only l). }
  apply Z.eqb_eq in Hc. by apply fd_ref_le.
Qed.

Lemma pipe_close_safe_witness : seems_closed true [mkHandle true Full; mkHandle false Shut] = true /\
  h_hold (mkHandle false Shut) = Shut.
Proof.
  split; [reflexivity|].
  apply (pipe_close_safe [mkHandle true Full; mkHandle false Full] [mkHandle true Full; mkHandle false Shut] true).
  - intros h Hh. apply elem_of_cons in Hh as [->|Hh]; [by right|]. apply elem_of_cons in Hh as [->|Hh]; [by right|].
    by apply not_elem_of_nil in Hh.
  - apply (rtc_l _ _ [mkHandle true Full; mkHandle false DataOnly]); [|apply (rtc_l _ _ [mkHandle true Full; mkHandle false Shut]); [|constructor]].
    + apply (hs false [mkHandle true Full] false Full DataOnly []). constructor.
    + apply (hs false [mkHandle true Full] false DataOnly Shut []). constructor.
  - reflexivity.
  - right. left.
  - reflexivity.
Defined.

(** With [fork] the counts lie: while a process that holds the write end forks, another
    process that reads can see its end closed, and takes the end of the file for reached. *)
Theorem pipe_fork_race : exists l', rtc (hsteps true) [mkHandle true Full; mkHandle true Full; mkHandle false Full; mkHandle true Shut] l' /\
  seems_closed true l' = true /\ mkHandle false Full ∈ l'.
Proof.
  exists [mkHandle true Full; mkHandle true Full; mkHandle false Full; mkHandle true FdOnly]. split; [|split].
  - apply rtc_once. apply (hs true [mkHandle true Full; mkHandle true Full; mkHandle false Full] true Shut FdOnly []). constructor.
  - reflexivity.
  - right. right. left.
Qed.
