(* ===== verification/FdOps.v ===== *)
(** * Operations on descriptors through their devices, and the start and end of a program
    (user/lib/fd.c, user/lib/fprintf.c, user/lib/libos.c, user/lib/entry.S)

    The device table is the list of the three devices; [read], [write], [close] and [stat]
    look the device of a descriptor up and call its function. *)

From Stdlib Require Import ZArith Lia.
From stdpp Require Import base numbers list gmap strings.
From S2P Require Import Prelude Mmu KState Elf Signo Env TlbEx Syscall Str Print Wp Uproc Fd Ufile Upipe.


(** [struct Dev] *)
Record Dev := mkDev {
  dev_id : Z;
  dev_read : Z -> Z -> Z -> Z -> U Z;
  dev_write : Z -> Z -> Z -> Z -> U Z;
  dev_close : Z -> U Z;
  dev_stat : Z -> Z -> U Z }.

Section Devices.
(** How reads and writes run. *)
Context (rounds : runs).

Definition devfile : Dev := mkDev 102 file_read file_write file_close file_stat.
Definition devcons : Dev := mkDev devcons_id (cons_read (wait_rounds rounds)) cons_write cons_close cons_stat.
Definition devpipe : Dev := mkDev devpipe_id (pipe_read rounds) (pipe_write rounds) pipe_close pipe_stat.
Definition devtab : list Dev := [devfile; devcons; devpipe].

Definition dev_lookup (id : Z) : cres Dev :=
  match List.find (fun d => dev_id d =? id) devtab with Some d => Ok d | None => Err (- E_INVAL) end.

(** The descriptor and its device. *)
Definition fd_dev (fdnum : Z) : U (cres (Z * Dev)) :=
  f ← fd_lookup fdnum;
  match f with
  | Err e => mret (Err e)
  | Ok fd =>
      id ← ld32 (fd_dev_id fd);
      match dev_lookup (s32 id) with Err e => mret (Err e) | Ok d => mret (Ok (fd, d)) end
  end.

Definition close (fdnum : Z) : U Z :=
  f ← fd_dev fdnum;
  match f with
  | Err e => mret e
  | Ok (fd, dev) => r ← dev_close dev fd; fd_close fd ;; mret r
  end.

Definition close_all : U unit := for_each (zseq 0 (Z.to_nat MAXFD)) (fun i => close i ;; mret tt).

(** The pages of the data, then the page of the descriptor. *)
Definition dup_pages (ova nva : Z) : U Z :=
  v ← gets (has_vpd (PDX ova));
  if negb v then mret 0 else
  for_err (page_steps 0 PDMAP) (fun i =>
    pte ← ld_vpt (VPN (u32 (ova + i)));
    if hasbits pte PTE_V then
      r ← syscall_mem_map (u32 (ova + i)) (u32 (nva + i)) (Z.land pte (Z.lor PTE_D PTE_LIBRARY));
      mret (if r <? 0 then r else 0)
    else mret 0).

Definition dup (oldfdnum newfdnum : Z) : U Z :=
  f ← fd_lookup oldfdnum;
  match f with
  | Err e => mret e
  | Ok oldfd =>
      close newfdnum ;;
      let newfd := INDEX2FD newfdnum in
      let ova := fd2data oldfd in
      let nva := fd2data newfd in
      let err r := syscall_mem_unmap newfd ;; for_each (page_steps 0 PDMAP) (fun i => syscall_mem_unmap (u32 (nva + i)) ;; mret tt) ;; mret r in
      r ← dup_pages ova nva;
      if negb (r =? 0) then err r else
      pte ← ld_vpt (VPN oldfd);
      r ← syscall_mem_map oldfd newfd (Z.land pte (Z.lor PTE_D PTE_LIBRARY));
      if r <? 0 then err r else mret newfdnum
  end.

(** The offset grows by what was read or written. *)
Definition advance (fd r : Z) : U unit :=
  when (0 <? r) (off ← ld32 (fd_offset fd); st32 (fd_offset fd) (u32 (off + r))).

Definition read (fdnum buf n : Z) : U Z :=
  f ← fd_dev fdnum;
  match f with
  | Err e => mret e
  | Ok (fd, dev) =>
      mode ← ld32 (fd_omode fd);
      if Z.land mode O_ACCMODE =? O_WRONLY then mret (- E_INVAL) else
      off ← ld32 (fd_offset fd);
      r ← dev_read dev fd buf n off;
      advance fd r ;; mret r
  end.

(** [tot] counts up to [n]: fuel for one byte a round is enough. *)
Fixpoint readn_loop (fuel : nat) (fdnum buf n tot : Z) : U Z :=
  if tot <? n then
    match fuel with
    | O => undef "the loop of readn does not end"
    | S fuel' =>
        m ← read fdnum (u32 (buf + tot)) (n - tot);
        if m <? 0 then mret m else if m =? 0 then mret tot else readn_loop fuel' fdnum buf n (tot + m)
    end
  else mret tot.
Definition readn (fdnum buf n : Z) : U Z := readn_loop (Z.to_nat n) fdnum buf n 0.

Definition write (fdnum buf n : Z) : U Z :=
  f ← fd_dev fdnum;
  match f with
  | Err e => mret e
  | Ok (fd, dev) =>
      mode ← ld32 (fd_omode fd);
      if Z.land mode O_ACCMODE =? O_RDONLY then mret (- E_INVAL) else
      off ← ld32 (fd_offset fd);
      r ← dev_write dev fd buf n off;
      advance fd r ;; mret r
  end.

Definition seek (fdnum offset : Z) : U Z :=
  f ← fd_lookup fdnum;
  match f with Err e => mret e | Ok fd => st32 (fd_offset fd) offset ;; mret 0 end.

(** [st_dev], the pointer to the device, is represented by the device's id. *)
Definition fstat (fdnum st : Z) : U Z :=
  f ← fd_dev fdnum;
  match f with
  | Err e => mret e
  | Ok (fd, dev) =>
      st8 (st_name st) 0 ;; st32 (st_size st) 0 ;; st32 (st_isdir st) 0 ;; st32 (st_dev st) (dev_id dev) ;;
      dev_stat dev fd st
  end.

Definition stat (path : list Z) (st : Z) : U Z :=
  fd ← open path O_RDONLY;
  if s32 fd <? 0 then mret fd else r ← fstat fd st; close fd ;; mret r.

(** ** fprintf.c: the blocks of [vprintfmt] are written one by one until one fails. The string
    of a block is in the buffer [buf]. *)
Fixpoint print_output (fd buf : Z) (blocks : list (list Z)) (ret : Z) : U Z :=
  match blocks with
  | [] => mret ret
  | b :: bs =>
      if ret <? 0 then print_output fd buf bs ret else
      st_bytes buf b ;;
      r ← write fd buf (Z.of_nat (length b));
      print_output fd buf bs (if r <? 0 then r else ret + r)
  end.

Definition fprintf (fd buf : Z) (fmt : list Z) (ap : list va) : U Z :=
  match vprintfmt (S (length fmt)) fmt ap [] with
  | Done blocks => print_output fd buf blocks 0
  | _ => undef "vprintfmt"
  end.

Definition printf (buf : Z) (fmt : list Z) (ap : list va) : U Z := fprintf 1 buf fmt ap.
End Devices.


Section Program.
(** How reads run; the program's [main] over [argc] and [argv]. *)
Context (rounds : runs).

(** The process destroys itself: nothing after it runs ([Run]). *)
Definition destroy_self {A} : U A := fun s => Run 0 s.

Definition exit {A} : U A := close_all rounds ;; destroy_self.

Definition libmain (main : Z -> Z -> U Z) (argc argv : Z) : U unit := main argc argv ;; exit.

(** entry.S: the arguments are the two words at the stack pointer. *)
Definition _start (main : Z -> Z -> U Z) (sp : Z) : U unit :=
  argc ← ld32 sp; argv ← ld32 (u32 (sp + 4)); libmain main argc argv.
End Program.
