(* ===== verification/Usignal.v ===== *)
(** * Signals on the user's side (user/lib/signal.c)

    The signal sets a program works on, and the functions that register the entry [do_signal]
    before the first use of a system call on signals. The functions run over the kernel's
    state as sequences of system calls of the current environment; its [struct Env], which the
    program reads through the window at UENVS, is the kernel's. *)

From Stdlib Require Import ZArith Lia.
From stdpp Require Import base numbers list gmap strings.
From S2P Require Import Prelude Queue Mmu Pmap KState Elf Signo Env Sched TlbEx Signal Syscall.

(** ** Signal sets: [set->sig[signum / 32]] *)

(** [None]: the index is outside the two words. *)
Definition on_word (set : sigset_t) (signum : Z) (f : Z -> Z -> Z) : option sigset_t :=
  let bit := u32 (Z.shiftl 1 (Z.land signum 31)) in
  match Z.quot signum 32 with
  | 0 => Some (mkSigset (f (sig0 set) bit) (sig1 set))
  | 1 => Some (mkSigset (sig0 set) (f (sig1 set) bit))
  | _ => None
  end.

Definition sigemptyset : sigset_t := mkSigset 0 0.
Definition sigfillset : sigset_t := mkSigset (u32 (-1)) (u32 (-1)).
Definition sigaddset (set : sigset_t) (signum : Z) : option sigset_t := on_word set signum Z.lor.
Definition sigdelset (set : sigset_t) (signum : Z) : option sigset_t :=
  on_word set signum (fun w bit => Z.land w (u32 (Z.lnot bit))).
Definition sigismember (set : sigset_t) (signum : Z) : option Z :=
  let bit := u32 (Z.shiftl 1 (Z.land signum 31)) in
  match Z.quot signum 32 with
  | 0 => Some (if hasbits (sig0 set) bit then 1 else 0)
  | 1 => Some (if hasbits (sig1 set) bit then 1 else 0)
  | _ => None
  end.

Section User.
(** The address of [do_signal]; what a handler does; [exit]. *)
Context (do_signal_addr : Z) (run_handler : Z -> Z -> K unit) (exit : K unit).

(** The entry the kernel starts: [tf] and [originMask] are addresses on the user's stack. *)
Definition do_signal (tf signo handler originMask : Z) : K unit :=
  (if negb (handler =? 0) then run_handler handler signo
   else when ((signo =? SIGKILL) || (signo =? SIGSEGV) || (signo =? SIGTERM)) exit) ;;
  sys_back_do_signal 0 tf originMask ;;
  panic "syscall_set_trapframe returned".

(** [env->do_signal_entry != do_signal]: the entry of the caller. *)
Definition own_entry : K Z := c ← curenv_deref; get_env c do_signal_entry.

(** [if (env->do_signal_entry != do_signal) msyscall(SYS_set_sig_entry, envid, do_signal);] *)
Definition ensure_entry (envid : Z) : K unit :=
  e ← own_entry;
  when (negb (e =? do_signal_addr)) (sys_set_sig_entry envid do_signal_addr ;; mret tt).

Definition in_range (signo : Z) : bool := (1 <=? signo) && (signo <=? 64).

Definition sigaction_ (signo act oldact : Z) : K Z :=
  if negb (in_range signo) then mret (-1) else
  ensure_entry 0 ;;
  sys_sigaction signo act oldact ;;
  mret 0.

Definition kill (envid signo : Z) : K Z :=
  if negb (in_range signo) then mret (-1) else
  ensure_entry envid ;;
  sys_kill envid signo.

Definition sigprocmask (how set oldset : Z) : K Z :=
  if negb (how =? SIG_BLOCK) && negb (how =? SIG_UNBLOCK) && negb (how =? SIG_SETMASK) then mret (-1) else
  ensure_entry 0 ;;
  sys_sigprocmask how set oldset ;;
  mret 0.
End User.
