(* ===== verification/UsignalThms.v ===== *)
(** * Theorems on the user's side of signals (user/lib/signal.c) *)

From Stdlib Require Import ZArith Lia.
From stdpp Require Import base numbers list gmap strings.
From S2P Require Import Prelude Queue Mmu Pmap KState Elf Signo Env Sched TlbEx Signal Syscall SignalThms Usignal.

(** ** Signal sets *)
Lemma bit_mask n : 0 <= n -> u32 (Z.shiftl 1 (Z.land n 31)) = 2 ^ (n mod 32).
Proof.
  intros Hn. change 31 with (Z.ones 5). rewrite land_ones_mod by lia. change (2 ^ 5) with 32. rewrite Z.shiftl_1_l.
  apply u32_small. pose proof (Z.mod_pos_bound n 32 ltac:(lia)). pose proof (Z.pow_lt_mono_r 2 (n mod 32) 32 ltac:(lia) ltac:(lia) ltac:(lia)).
  pose proof (Z.pow_pos_nonneg 2 (n mod 32) ltac:(lia) ltac:(lia)). unfold is_u32. change (2 ^ 32) with 4294967296 in *. lia.
Qed.

Lemma on_word_eq set n f : 0 <= n < 64 -> on_word set n f =
  Some (if n <? 32 then mkSigset (f (sig0 set) (2 ^ (n mod 32))) (sig1 set) else mkSigset (sig0 set) (f (sig1 set) (2 ^ (n mod 32)))).
Proof.
  intros Hn. unfold on_word. rewrite bit_mask by lia. rewrite Z.quot_div_nonneg by lia. destruct (Z.ltb_spec n 32).
  - by rewrite Z.div_small by lia.
  - by replace (n / 32) with 1 by dlia.
Qed.

Lemma testbit_word n k : 0 <= n -> 0 <= k < 32 -> Z.testbit (2 ^ (n mod 32)) k = (n mod 32 =? k).
Proof. intros Hn Hk. apply Z.pow2_bits_eqb. by apply Z.mod_pos_bound. Qed.

Lemma pow_u32 n : 0 <= n -> is_u32 (2 ^ (n mod 32)).
Proof. intros Hn. rewrite <- bit_mask by done. apply u32_range. Qed.

Lemma land_is_u32 a b : is_u32 a -> 0 <= b -> is_u32 (Z.land a b).
Proof.
  intros [H1 H2] Hb. split; [by apply Z.land_nonneg; left|].
  destruct (Z.eq_dec (Z.land a b) 0) as [->|Hn]; [lia|]. change 4294967296 with (2 ^ 32).
  apply Z.log2_lt_pow2; [pose proof (Z.land_nonneg a b); lia|]. eapply Z.le_lt_trans; [by apply Z.log2_land|].
  apply Z.min_lt_iff. left. destruct (Z.eq_dec a 0) as [->|]; [by cbn in Hn|]. by apply Z.log2_lt_pow2; [lia|].
Qed.

(** The same word: the same signal when the bits are the same. *)
Lemma same_signal n k : 0 <= n < 64 -> 0 <= k < 64 -> (n <? 32) = (k <? 32) -> (n mod 32 =? k mod 32) = (n =? k).
Proof.
  intros Hn Hk H. destruct (Z.eqb_spec n k) as [->|Hne]; [apply Z.eqb_refl|]. apply Z.eqb_neq.
  destruct (Z.ltb_spec n 32), (Z.ltb_spec k 32); try done; dlia.
Qed.

Ltac same_word n k := destruct (Z.ltb_spec n 32), (Z.ltb_spec k 32); (done || lia).

(** the user's signal sets are sets of the signals 1 to 63, with the kernel's meaning of
    a set: sigaddset and sigdelset add and remove the one signal, sigemptyset has none and
    sigfillset all, sigismember is the kernel's test. Signal 64, which the other functions
    accept, is outside the array in all three. *)
Theorem user_sigset_laws set n k : is_sigset set -> 1 <= n < 64 -> 1 <= k < 64 ->
  (exists a, sigaddset set n = Some a /\ is_sigset a /\ member a k = (n =? k) || member set k) /\
  (exists d, sigdelset set n = Some d /\ is_sigset d /\ member d k = negb (n =? k) && member set k) /\
  sigismember set k = Some (if member set k then 1 else 0) /\
  member sigemptyset k = false /\ member sigfillset k = true /\
  sigaddset set 64 = None /\ sigdelset set 64 = None /\ sigismember set 64 = None.
Proof.
  intros [H0 H1] Hn Hk. assert (Hm : 0 <= k mod 32 < 32) by (by apply Z.mod_pos_bound).
  split_and!; try done.
  - unfold sigaddset. rewrite on_word_eq by lia. eexists. split; [done|]. split.
    { destruct (n <? 32); (split; [|]); cbn; try done; apply lor_u32; (done || apply pow_u32; lia). }
    rewrite !member_testbit by lia. destruct (Z.ltb_spec n 32), (Z.ltb_spec k 32); cbn [sig0 sig1].
    2,3: replace (n =? k) with false by (symmetry; apply Z.eqb_neq; lia); done.
    all: rewrite Z.lor_spec, testbit_word, same_signal by (lia || same_word n k); by rewrite orb_comm.
  - unfold sigdelset. rewrite on_word_eq by lia. eexists. split; [done|]. split.
    { destruct (n <? 32); (split; [|]); cbn; try done; apply land_is_u32; (done || apply u32_range). }
    rewrite !member_testbit by lia. destruct (Z.ltb_spec n 32), (Z.ltb_spec k 32); cbn [sig0 sig1].
    2,3: replace (n =? k) with false by (symmetry; apply Z.eqb_neq; lia); done.
    all: rewrite Z.land_spec, (u32_lnot_testbit _ _ (pow_u32 n ltac:(lia)) Hm), testbit_word, same_signal by (lia || same_word n k); by rewrite andb_comm.
  - rewrite member_testbit by lia. unfold sigismember. rewrite bit_mask by lia. rewrite Z.quot_div_nonneg by lia.
    destruct (Z.ltb_spec k 32).
    + rewrite Z.div_small by lia. rewrite hasbits_testbit by lia. done.
    + replace (k / 32) with 1 by dlia. rewrite hasbits_testbit by lia. done.
  - rewrite member_testbit by lia. by destruct (k <? 32); rewrite Z.bits_0.
  - rewrite member_testbit by lia. unfold sigfillset. change (u32 (-1)) with (Z.ones 32). cbn [sig0 sig1].
    destruct (k <? 32); rewrite Z.ones_spec_low; (done || lia).
Qed.

Lemma user_sigset_laws_witness : exists a, sigaddset sigemptyset 9 = Some a /\ member a 9 = true.
Proof.
  destruct (user_sigset_laws sigemptyset 9 9) as ((a & E & _ & H) & _); [split; vm_compute; split; (discriminate || reflexivity)|lia|lia|].
  exists a. split; [exact E|]. rewrite H. reflexivity.
Defined.

(** ** kill *)

(** SIGTERM to [e] becomes its only pending signal. *)
Lemma kill_pending s e p fl : pending e [] (p :: fl) s ->
  let s1 := set_signo_of p SIGTERM (set_signo_free_list (next_of s p) s) in
  let s2 := set_next_of p None s1 in
  let s3 := set_envs (<[e := with_signoHeader (Some p) (env s2 e)]> (envs s2)) s2 in
  forall c, pending e [p] fl (set_curenv c s3).
Proof.
  intros [Pc Pp Pd Pg Pl Pt] s1 s2 s3 c. cbn [app] in Pd. apply NoDup_cons in Pd as [Hp Hd].
  assert (Hn : forall q, next_of (set_curenv c s3) q = if decide (p = q) then None else next_of s q).
  { intros q. change (next_of s2 q = if decide (p = q) then None else next_of s q). unfold s2. rewrite next_of_set_next.
    case_decide; [done|]. unfold s1. by rewrite next_of_set_signo. }
  assert (Hs : forall q, signo_of (set_curenv c s3) q = if decide (p = q) then SIGTERM else signo_of s q).
  { intros q. change (signo_of s2 q = if decide (p = q) then SIGTERM else signo_of s q). unfold s2. rewrite signo_of_set_next.
    unfold s1. by rewrite signo_of_set_signo. }
  assert (He : env (set_curenv c s3) e = with_signoHeader (Some p) (env s e)).
  { change (env s3 e = with_signoHeader (Some p) (env s e)). unfold s3. by rewrite env_upd, decide_True. }
  split.
  - rewrite He. split; [done|]. by rewrite Hn, decide_True.
  - destruct Pp as [_ Pp]. change (chain (set_curenv c s3) (next_of s p) fl). apply (chain_ext s); [|exact Pp].
    intros q Hq. rewrite Hn, decide_False; [done|]. by intros ->.
  - cbn [app]. by apply NoDup_cons.
  - intros q ->%list_elem_of_singleton. rewrite Hs, decide_True by done. unfold SIGTERM. lia.
  - cbn [length]. lia.
  - rewrite He. exact Pt.
Qed.

(** kill looks at the entry of its caller, not of the target: when the caller has
    registered [do_signal] already, the target's entry is not set. SIGTERM to an environment
    without an entry is accepted, and the kernel panics when that environment is resumed. *)
Theorem kill_unregistered_panics do_signal_addr s c e envid p fl l :
  curenv s = Some c -> do_signal_entry (env s c) = do_signal_addr ->
  envid2env envid false s = Val (Ok (Some e)) s -> do_signal_entry (env s e) = 0 ->
  pending e [] (p :: fl) s -> member (env_sigprocmask (env s e)) SIGTERM = false ->
  exists s' w, kill do_signal_addr envid SIGTERM s = Val 0 s' /\
    _do_signal l (set_curenv (Some e) s') = Panic "only SIGSEGV can exit in kern" w.
Proof.
  intros Hc Hd Hid He P Hm. set (s1 := set_signo_of p SIGTERM (set_signo_free_list (next_of s p) s)).
  set (s2 := set_next_of p None s1). set (s3 := set_envs (<[e := with_signoHeader (Some p) (env s2 e)]> (envs s2)) s2).
  assert (Hk : kill do_signal_addr envid SIGTERM s = Val 0 s3).
  { unfold kill. change (in_range SIGTERM) with true. cbn [negb].
    assert (Ee : ensure_entry do_signal_addr envid s = Val tt s).
    { unfold ensure_entry, own_entry, curenv_deref. msteps. rewrite Hc. cbn [lift_opt]. unfold get_env. msteps. rewrite Hd, Z.eqb_refl. done. }
    rewrite (bind_val _ _ _ _ _ Ee). unfold sys_kill. rewrite (bind_val _ _ _ _ _ Hid). unfold signo_alloc.
    destruct (pe_pool _ _ _ _ P) as [Hf _]. msteps. rewrite Hf. change (s8 SIGTERM) with SIGTERM. unfold env_deref. cbn [lift_opt]. msteps.
    unfold get_env, upd_env. fold s1.
    assert (Hh : signoHeader (env s1 e) = None) by exact (pe_chain _ _ _ _ P).
    msteps. rewrite Hh. msteps. fold s2. done. }
  pose proof (kill_pending s e p fl P (Some e)) as P3. fold s1 s2 s3 in P3. set (s4 := set_curenv (Some e) s3) in *.
  assert (Hee : env s4 e = with_signoHeader (Some p) (env s e)).
  { change (env s3 e = with_signoHeader (Some p) (env s e)). unfold s3. by rewrite env_upd, decide_True. }
  assert (Hsp : signo_of s4 p = SIGTERM).
  { change (signo_of s2 p = SIGTERM). unfold s2. rewrite signo_of_set_next. unfold s1. by rewrite signo_of_set_signo, decide_True. }
  destruct (find_signal_ok e [p] fl s4 P3) as (s5 & E & St & _).
  assert (Hch : (choose e [p] s4).1.1 = Some p).
  { unfold choose. cbn [take_signal]. rewrite Hee, Hsp. cbn [env_sigprocmask with_signoHeader sighandler_table]. rewrite Hm.
    unfold is_ignored. destruct (_ !! _) as [h|]; [|done]. by rewrite andb_false_r. }
  rewrite Hch in E. cbn [option_map] in E. rewrite Hsp in E. exists s3, s5. split; [exact Hk|]. fold s4.
  unfold _do_signal, curenv_deref. msteps. change (curenv s4) with (Some e). cbn [lift_opt]. msteps. unfold get_env. msteps.
  assert (He5 : do_signal_entry (env s5 e) = 0).
  { pose proof (f_equal do_signal_entry (ss_self _ _ _ St)) as H. cbn in H. rewrite H, Hee. exact He. }
  rewrite He5. done.
Qed.

(** A caller that has registered, environment 0, and a fresh environment 1. *)
Definition kill_state : kstate :=
  match (signo_init ;; upd_env 0 (fun e => with_env_id 1024 (with_do_signal_entry 4198400 e)) ;;
         upd_env 1 (fun e => with_env_status ENV_RUNNABLE (with_env_id 2049 e)) ;; modify (set_curenv (Some 0))) kernel_bss with
  | Val _ s => s
  | _ => kernel_bss
  end.

Lemma kill_state_pending : pending 1 [] (0 :: zseq 1 1023) kill_state.
Proof.
  split.
  - apply chainb_chain. vm_compute. reflexivity.
  - apply chainb_chain. vm_compute. reflexivity.
  - exact (NoDup_zseq 0 1024).
  - intros p Hp. by apply not_elem_of_nil in Hp.
  - cbn. lia.
  - vm_compute. reflexivity.
Qed.

#[local] Opaque kill_state.

Lemma kill_unregistered_panics_witness : exists s' w, kill 4198400 2049 SIGTERM kill_state = Val 0 s' /\
  _do_signal KTF (set_curenv (Some 1) s') = Panic "only SIGSEGV can exit in kern" w.
Proof.
  apply (kill_unregistered_panics 4198400 kill_state 0 1 2049 0 (zseq 1 1023) KTF).
  - vm_compute. reflexivity.
  - vm_compute. reflexivity.
  - vm_compute. reflexivity.
  - vm_compute. reflexivity.
  - exact kill_state_pending.
  - vm_compute. reflexivity.
Defined.
