(* ===== verification/Fork.v ===== *)
(** * Fork and copy-on-write (user/lib/fork.c)

    The environments as their programs see them: [tabs] gives each existing environment its
    page table, a map from virtual pages to frames with permission bits; the bytes of the
    frames are in [fmem] at [frame * 4096 + offset], frames from [nextf] on are unused and
    zero. [answers] says for each page allocation to come whether the kernel has a page
    (none: yes), [ids] gives the results of the [syscall_exofork]s to come. The code's own
    stack is not in the model. *)

From Stdlib Require Import ZArith Lia.
From stdpp Require Import base numbers list gmap strings.
From S2P Require Import Prelude Mmu Str Wp KState Elf Signo Env TlbEx Syscall.

Abbreviation ptable := (gmap Z (Z * Z)).

Record world := mkWorld {
  tabs : gmap Z ptable;
  fmem : bmem;
  nextf : Z;
  answers : list bool;
  ids : list Z;
  modentry : gmap Z Z;
  status : gmap Z Z }.

Definition set_tabs (v : gmap Z ptable) (w : world) : world := mkWorld v (fmem w) (nextf w) (answers w) (ids w) (modentry w) (status w).
Definition set_fmem (v : bmem) (w : world) : world := mkWorld (tabs w) v (nextf w) (answers w) (ids w) (modentry w) (status w).
Definition set_nextf (v : Z) (w : world) : world := mkWorld (tabs w) (fmem w) v (answers w) (ids w) (modentry w) (status w).
Definition set_answers (v : list bool) (w : world) : world := mkWorld (tabs w) (fmem w) (nextf w) v (ids w) (modentry w) (status w).
Definition set_ids (v : list Z) (w : world) : world := mkWorld (tabs w) (fmem w) (nextf w) (answers w) v (modentry w) (status w).
Definition set_modentry (v : gmap Z Z) (w : world) : world := mkWorld (tabs w) (fmem w) (nextf w) (answers w) (ids w) v (status w).
Definition set_status (v : gmap Z Z) (w : world) : world := mkWorld (tabs w) (fmem w) (nextf w) (answers w) (ids w) (modentry w) v.

Abbreviation W := (M world).

Definition tab (w : world) (e : Z) : ptable := default ∅ (tabs w !! e).
Definition page (w : world) (e vpn : Z) : option (Z * Z) := tab w e !! vpn.
Definition map_page (e vpn f perm : Z) (w : world) : world :=
  set_tabs (<[e := <[vpn := (f, Z.lor perm PTE_V)]> (tab w e)]> (tabs w)) w.
Definition map_fresh (e vpn perm : Z) (w : world) : world := set_nextf (nextf w + 1) (map_page e vpn (nextf w) perm w).

(** [vpt[vpn] & 0xfff]: 0 when the page is not mapped. *)
Definition perm_at (w : world) (e vpn : Z) : Z := match page w e vpn with Some (_, p) => Z.land p 4095 | None => 0 end.

Section Process.
(** The running environment and the address of [cow_entry]. *)
Context (me cow : Z).

(** ** System calls *)
Definition env_of (envid : Z) : Z := if envid =? 0 then me else envid.
Definition exists_env (envid : Z) : W bool := gets (fun w => bool_decide (is_Some (tabs w !! env_of envid))).

Definition ask : W bool :=
  l ← gets answers;
  match l with [] => mret true | b :: l' => modify (set_answers l') ;; mret b end.

Definition mem_alloc (envid va perm : Z) : W Z :=
  if is_illegal_va va then mret (- E_INVAL) else
  e ← exists_env envid;
  if negb e then mret (- E_BAD_ENV) else
  b ← ask;
  if b : bool then modify (map_fresh (env_of envid) (VPN va) perm) ;; mret 0 else mret (- E_NO_MEM).

Definition mem_map (srcid srcva dstid dstva perm : Z) : W Z :=
  if is_illegal_va srcva || is_illegal_va dstva then mret (- E_INVAL) else
  s ← exists_env srcid;
  d ← exists_env dstid;
  if negb (s && d) then mret (- E_BAD_ENV) else
  p ← gets (fun w => page w (env_of srcid) (VPN srcva));
  match p with
  | None => mret (- E_INVAL)
  | Some (f, _) =>
      b ← ask;
      if b : bool then modify (map_page (env_of dstid) (VPN dstva) f perm) ;; mret 0 else mret (- E_NO_MEM)
  end.

Definition mem_unmap (envid va : Z) : W Z :=
  if is_illegal_va va then mret (- E_INVAL) else
  e ← exists_env envid;
  if negb e then mret (- E_BAD_ENV) else
  modify (fun w => set_tabs (<[env_of envid := delete (VPN va) (tab w (env_of envid))]> (tabs w)) w) ;; mret 0.

Definition set_tlb_mod_entry (envid f : Z) : W Z :=
  e ← exists_env envid;
  if negb e then mret (- E_BAD_ENV) else
  modify (fun w => set_modentry (<[env_of envid := f]> (modentry w)) w) ;; mret 0.

Definition set_env_status (envid st : Z) : W Z :=
  e ← exists_env envid;
  if negb e then mret (- E_BAD_ENV) else
  modify (fun w => set_status (<[env_of envid := st]> (status w)) w) ;; mret 0.

(** A positive result is a new environment with an empty address space, not runnable. *)
Definition exofork : W Z :=
  l ← gets ids;
  match l with
  | [] => mret (- E_NO_FREE_ENV)
  | r :: l' =>
      modify (set_ids l') ;;
      when (0 <? r) (modify (fun w => set_tabs (<[r := ∅]> (tabs w)) (set_status (<[r := ENV_NOT_RUNNABLE]> (status w)) w))) ;;
      mret r
  end.

(** ** Memory accesses of the running program *)

(** The address in the frames; [None]: the page is not writable, TLB Mod. *)
Definition touch (va : Z) (write : bool) : W (option Z) :=
  if is_illegal_va va then undef "address outside the user space" else
  p ← gets (fun w => page w me (VPN va));
  match p with
  | Some (f, perm) => mret (if write && negb (hasbits perm PTE_D) then None else Some (f * 4096 + va mod 4096))
  | None =>
      assert "invalid memory" (negb ((USTACKTOP <=? va) && (va <? USTACKTOP + BY2PG))) ;;
      f ← gets nextf;
      b ← ask;
      assert "page_alloc(&p)" b ;;
      modify (map_fresh me (VPN va) PTE_D) ;;
      mret (Some (f * 4096 + va mod 4096))
  end.

Definition load (va : Z) : W Z :=
  p ← touch va false;
  match p with Some a => gets (fun w => rd8 (fmem w) a) | None => undef "load" end.

(** A store in the handler itself. *)
Definition handler_store (va b : Z) : W unit :=
  p ← touch va true;
  match p with Some a => modify (fun w => set_fmem (wr8 (fmem w) a b) w) | None => undef "TLB Mod in cow_entry" end.

(** [memcpy], byte by byte. *)
Fixpoint copy (dst src : Z) (n : nat) : W unit :=
  match n with O => mret tt | S n' => b ← load src; handler_store dst b ;; copy (dst + 1) (src + 1) n' end.

(** ** fork.c *)

(** The handler ignores the results of its system calls. *)
Definition cow_entry (va : Z) : W unit :=
  perm ← gets (fun w => perm_at w me (VPN va));
  assert "[cow_entry]:unwritable virtual adder" (hasbits perm PTE_COW) ;;
  let perm := Z.lor (Z.lxor perm PTE_COW) PTE_D in
  mem_alloc 0 UCOW perm ;;
  copy UCOW (ROUNDDOWN va BY2PG) (Z.to_nat BY2PG) ;;
  mem_map 0 UCOW 0 (ROUNDDOWN va BY2PG) perm ;;
  mem_unmap 0 UCOW ;;
  mret tt.

(** A store of the program: after a TLB Mod exception it is repeated. *)
Fixpoint store (fuel : nat) (va b : Z) : W unit :=
  match fuel with
  | O => undef "the store faults again and again"
  | S fuel' =>
      p ← touch va true;
      match p with
      | Some a => modify (fun w => set_fmem (wr8 (fmem w) a b) w)
      | None =>
          h ← gets (fun w => default 0 (modentry w !! me));
          assert "TLB Mod but no user handler registered" (negb (h =? 0)) ;;
          if h =? cow then cow_entry va ;; store fuel' va b else undef "another handler"
      end
  end.

Definition duppage (envid vpn : Z) : W unit :=
  perm ← gets (fun w => perm_at w me vpn);
  let addr := vpn * BY2PG in
  if negb (hasbits perm PTE_D) || hasbits perm PTE_LIBRARY || hasbits perm PTE_COW then
    mem_map 0 addr envid addr perm ;; mret tt
  else
    let perm := Z.lor (Z.lxor perm PTE_D) PTE_COW in
    mem_map 0 addr envid addr perm ;;
    mem_map 0 addr 0 addr perm ;; mret tt.

(** [vpd[PDX(i)] & PTE_V]: a page table exists; when no page in it is mapped the inner loop
    does nothing, so the test can be the one for a mapped page. *)
Definition vpd_valid (w : world) (pdx : Z) : bool :=
  existsb (fun kv => kv.1 / 1024 =? pdx) (map_to_list (tab w me)).

Definition dup_table (child i : Z) : W unit :=
  v ← gets (fun w => vpd_valid w (PDX i));
  when v
    (for_each (zseq 0 1024) (fun k =>
      let va := i + k * BY2PG in
      when (va <? USTACKTOP)
        (p ← gets (fun w => perm_at w me (VPN va));
         when (hasbits p PTE_V) (duppage child (VPN va))))).

(** [if ((r = m) != 0) return r;] *)
Definition try {A} (m : W Z) (k : W (cres A)) : W (cres A) :=
  r ← m; if r =? 0 then k else mret (Err r).

(** In the child [fork] returns 0; this is the parent. *)
Definition fork : W (cres Z) :=
  h ← gets (fun w => default 0 (modentry w !! me));
  try (if negb (h =? cow) then set_tlb_mod_entry 0 cow else mret 0)
    (child ← exofork;
     let child := u32 child in
     for_each (zseq 0 (Z.to_nat (USTACKTOP / PDMAP + 1))) (fun k => dup_table child (k * PDMAP)) ;;
     try (set_tlb_mod_entry child cow)
       (try (set_env_status child ENV_RUNNABLE)
          (mret (Ok child)))).
End Process.
