(* ===== verification/ForkThms.v ===== *)
(** * Fork gives the child a private copy (user/lib/fork.c)

    [iso]: a frame that a program can write is mapped once, unless all its mappings are
    shared on purpose (PTE_LIBRARY). [fork] and copy-on-write keep it; so after a fork the two
    programs have separate memories. *)

From Stdlib Require Import ZArith Lia.
From stdpp Require Import base numbers list gmap strings.
From S2P Require Import Prelude Mmu Str StrThms Wp KState Elf Signo Env TlbEx Syscall Fork.

(** ** Permission bits *)
Definition D (p : Z) : bool := Z.testbit p 10.
Definition V (p : Z) : bool := Z.testbit p 9.
Definition LIB (p : Z) : bool := Z.testbit p 2.
Definition COW (p : Z) : bool := Z.testbit p 0.

Lemma hasbits_D p : hasbits p PTE_D = D p.
Proof. exact (hasbits_testbit p 10 ltac:(lia)). Qed.
Lemma hasbits_V p : hasbits p PTE_V = V p.
Proof. exact (hasbits_testbit p 9 ltac:(lia)). Qed.
Lemma hasbits_LIB p : hasbits p PTE_LIBRARY = LIB p.
Proof. exact (hasbits_testbit p 2 ltac:(lia)). Qed.
Lemma hasbits_COW p : hasbits p PTE_COW = COW p.
Proof. exact (hasbits_testbit p 0 ltac:(lia)). Qed.

Definition is_perm (p : Z) : Prop := 0 <= p < 4096.

Lemma is_perm_shiftr p : is_perm p <-> Z.shiftr p 12 = 0.
Proof. unfold is_perm. rewrite shiftr_div by lia. change (2 ^ 12) with 4096. dlia. Qed.
Lemma is_perm_lor a b : is_perm a -> is_perm b -> is_perm (Z.lor a b).
Proof. rewrite !is_perm_shiftr, Z.shiftr_lor. by intros -> ->. Qed.
Lemma is_perm_lxor a b : is_perm a -> is_perm b -> is_perm (Z.lxor a b).
Proof. rewrite !is_perm_shiftr, Z.shiftr_lxor. by intros -> ->. Qed.
Lemma land_perm p : is_perm p -> Z.land p 4095 = p.
Proof. intros H. change 4095 with (Z.ones 12). rewrite land_ones_mod by lia. apply Z.mod_small, H. Qed.
(** Setting a bit that is set. *)
Lemma lor_bit_id p k : 0 <= k -> Z.testbit p k = true -> Z.lor p (2 ^ k) = p.
Proof.
  intros Hk H. apply Z.bits_inj'. intros n Hn. rewrite Z.lor_spec, Z.pow2_bits_eqb by lia.
  destruct (Z.eqb_spec k n); [subst; by rewrite H|by rewrite orb_false_r].
Qed.
Lemma lor_V p : V p = true -> Z.lor p PTE_V = p.
Proof. exact (lor_bit_id p 9 ltac:(lia)). Qed.

(** The permissions of a page after [duppage]. *)
Definition dup_perm (p : Z) : Z :=
  if negb (D p) || LIB p || COW p then p else Z.lor (Z.lor (Z.lxor p PTE_D) PTE_COW) PTE_V.

Lemma dup_perm_ok p : is_perm p -> V p = true -> is_perm (dup_perm p) /\ V (dup_perm p) = true /\
  LIB (dup_perm p) = LIB p /\ D (dup_perm p) = D p && (LIB p || COW p) /\
  COW (dup_perm p) = COW p || (D p && negb (LIB p)).
Proof.
  intros Hp Hv. unfold dup_perm. destruct (D p) eqn:ED, (LIB p) eqn:EL, (COW p) eqn:EC; cbn [negb orb andb]; try done.
  split_and!; [| | | |].
  - apply is_perm_lor; [apply is_perm_lor; [apply is_perm_lxor; [done|]|]|]; unfold is_perm; vm_compute; split; done.
  - unfold V, PTE_V. rewrite Z.lor_spec. by rewrite orb_true_r.
  - unfold LIB in *. rewrite !Z.lor_spec, Z.lxor_spec, EL. done.
  - unfold D in *. rewrite !Z.lor_spec, Z.lxor_spec, ED. done.
  - unfold COW in *. rewrite !Z.lor_spec, Z.lxor_spec, EC. done.
Qed.

(** ** Pages *)
Lemma tab_insert w t e e' : tab (set_tabs (<[e := t]> (tabs w)) w) e' = if decide (e = e') then t else tab w e'.
Proof. unfold tab. cbn [tabs set_tabs]. destruct (decide (e = e')) as [<-|H]; [by rewrite lookup_insert_eq|by rewrite lookup_insert_ne]. Qed.

Lemma page_map w e v f p e' v' : page (map_page e v f p w) e' v' =
  if decide (e = e' /\ v = v') then Some (f, Z.lor p PTE_V) else page w e' v'.
Proof.
  unfold page, map_page. rewrite tab_insert. destruct (decide (e = e')) as [<-|He].
  - destruct (decide (v = v')) as [<-|Hv]; [rewrite decide_True by done; by rewrite lookup_insert_eq|].
    rewrite decide_False by naive_solver. by rewrite lookup_insert_ne.
  - by rewrite decide_False by naive_solver.
Qed.

Lemma page_unmap w e v e' v' :
  page (set_tabs (<[e := delete v (tab w e)]> (tabs w)) w) e' v' = if decide (e = e' /\ v = v') then None else page w e' v'.
Proof.
  unfold page. rewrite tab_insert. destruct (decide (e = e')) as [<-|He].
  - destruct (decide (v = v')) as [<-|Hv]; [rewrite decide_True by done; by rewrite lookup_delete_eq|].
    rewrite decide_False by naive_solver. by rewrite lookup_delete_ne.
  - by rewrite decide_False by naive_solver.
Qed.

(** The byte a program sees; a page that is not mapped reads as zeros. *)
Definition view (w : world) (e va : Z) : Z :=
  match page w e (VPN va) with Some (f, _) => rd8 (fmem w) (f * 4096 + va mod 4096) | None => 0 end.

Record iso (w : world) : Prop := {
  iso_nextf : 0 <= nextf w;
  iso_bytes : bytes_ok (fmem w);
  iso_zero : forall a, nextf w * 4096 <= a -> rd8 (fmem w) a = 0;
  iso_frame : forall e v f p, page w e v = Some (f, p) -> 0 <= f < nextf w;
  iso_perm : forall e v f p, page w e v = Some (f, p) -> is_perm p /\ V p = true;
  iso_cow : forall e v f p, page w e v = Some (f, p) -> D p = true -> LIB p = false -> COW p = false;
  iso_one : forall e1 v1 e2 v2 f p1 p2, page w e1 v1 = Some (f, p1) -> page w e2 v2 = Some (f, p2) ->
    (e1 = e2 -> v1 <> v2) -> D p1 = true -> LIB p1 = true /\ LIB p2 = true }.

(** What the system calls and accesses here keep. *)
Record same (w w' : world) : Prop := {
  same_known : forall e, is_Some (tabs w' !! e) <-> is_Some (tabs w !! e);
  same_answers : answers w' = answers w;
  same_ids : ids w' = ids w;
  same_entry : modentry w' = modentry w;
  same_status : status w' = status w }.

Lemma same_refl w : same w w.
Proof. by split. Qed.
Lemma same_trans w1 w2 w3 : same w1 w2 -> same w2 w3 -> same w1 w3.
Proof. intros [] []. split; [|congruence..]. intros e. by rewrite same_known1. Qed.

Lemma known_insert w t e : is_Some (tabs w !! e) -> forall e', is_Some (<[e := t]> (tabs w) !! e') <-> is_Some (tabs w !! e').
Proof. intros H e'. destruct (decide (e = e')) as [<-|Hn]; [rewrite lookup_insert_eq; naive_solver|by rewrite lookup_insert_ne]. Qed.

Lemma same_map w e v f p : is_Some (tabs w !! e) -> same w (map_page e v f p w).
Proof. intros H. split; try done. by apply known_insert. Qed.
Lemma same_fresh w e v p : is_Some (tabs w !! e) -> same w (map_fresh e v p w).
Proof. intros H. split; try done. by apply known_insert. Qed.
Lemma same_fmem w m : same w (set_fmem m w).
Proof. by split. Qed.
Lemma same_unmap w e v : is_Some (tabs w !! e) -> same w (set_tabs (<[e := delete v (tab w e)]> (tabs w)) w).
Proof. intros H. split; try done. by apply known_insert. Qed.

(** ** The system calls when they succeed *)
Section Calls.
Context (me cow : Z).
Implicit Types (w : world).

Lemma exists_env_ok envid w : is_Some (tabs w !! env_of me envid) -> exists_env me envid w = Val true w.
Proof. intros H. unfold exists_env, gets. by rewrite bool_decide_true. Qed.

Lemma ask_ok w : answers w = [] -> ask w = Val true w.
Proof. intros H. unfold ask. rewrite bind_gets, H. done. Qed.

Lemma mem_alloc_ok envid va perm w : is_illegal_va va = false -> is_Some (tabs w !! env_of me envid) -> answers w = [] ->
  mem_alloc me envid va perm w = Val 0 (map_fresh (env_of me envid) (VPN va) perm w).
Proof.
  intros Hl He Ha. unfold mem_alloc. rewrite Hl, (bind_val _ _ _ _ _ (exists_env_ok _ _ He)). cbn [negb].
  by rewrite (bind_val _ _ _ _ _ (ask_ok _ Ha)).
Qed.

Lemma mem_map_ok sid sva did dva perm f p w : is_illegal_va sva = false -> is_illegal_va dva = false ->
  is_Some (tabs w !! env_of me sid) -> is_Some (tabs w !! env_of me did) -> answers w = [] ->
  page w (env_of me sid) (VPN sva) = Some (f, p) ->
  mem_map me sid sva did dva perm w = Val 0 (map_page (env_of me did) (VPN dva) f perm w).
Proof.
  intros Hs Hd Hes Hed Ha Hp. unfold mem_map. rewrite Hs, Hd. cbn [orb].
  rewrite (bind_val _ _ _ _ _ (exists_env_ok _ _ Hes)), (bind_val _ _ _ _ _ (exists_env_ok _ _ Hed)). cbn [negb andb].
  rewrite bind_gets, Hp. by rewrite (bind_val _ _ _ _ _ (ask_ok _ Ha)).
Qed.

Lemma mem_unmap_ok envid va w : is_illegal_va va = false -> is_Some (tabs w !! env_of me envid) ->
  mem_unmap me envid va w = Val 0 (set_tabs (<[env_of me envid := delete (VPN va) (tab w (env_of me envid))]> (tabs w)) w).
Proof.
  intros Hl He. unfold mem_unmap. by rewrite Hl, (bind_val _ _ _ _ _ (exists_env_ok _ _ He)).
Qed.
End Calls.

Lemma legal_page vpn : VPN UTEMP <= vpn < VPN UTOP -> is_illegal_va (vpn * BY2PG) = false /\ VPN (vpn * BY2PG) = vpn.
Proof.
  unfold VPN, is_illegal_va. rewrite !shiftr_div by lia. change (2 ^ 12) with 4096.
  change (UTEMP / 4096) with 1022. change (UTOP / 4096) with 521216. change UTEMP with 4186112. change UTOP with 2134900736.
  unfold BY2PG. intros Hv. split; [|by apply Z.div_mul].
  destruct (Z.ltb_spec (vpn * 4096) 4186112), (Z.leb_spec 2134900736 (vpn * 4096)); (done || lia).
Qed.

(** ** duppage *)
Lemma lor_dup p : is_perm p -> V p = true -> Z.lor (dup_perm p) PTE_V = dup_perm p.
Proof. intros Hp Hv. apply lor_V. by destruct (dup_perm_ok p Hp Hv) as (_ & ? & _). Qed.

Section Dup.
Context (me cow child : Z).
Implicit Types (w : world).

(** The page [vpn] is shared between [me] and [child]; the rest stays. *)
Definition dupped (w w' : world) (vpn f p : Z) : Prop :=
  forall e v, page w' e v = if decide (v = vpn /\ (e = me \/ e = child)) then Some (f, dup_perm p) else page w e v.

Lemma iso_dupped w w' vpn f p : iso w -> page w me vpn = Some (f, p) -> dupped w w' vpn f p ->
  fmem w' = fmem w -> nextf w' = nextf w -> iso w'.
Proof.
  intros I Hp Hd Hm Hn. pose proof I as []. destruct (iso_perm0 _ _ _ _ Hp) as [Hr Hv].
  destruct (dup_perm_ok p Hr Hv) as (Hr' & Hv' & HL & HD & HC).
  split; rewrite ?Hm, ?Hn; try done.
  - intros e v f' p' E. rewrite Hd in E. destruct (decide _); [injection E as <- <-|]; by eapply iso_frame0.
  - intros e v f' p' E. rewrite Hd in E. destruct (decide _); [by injection E as <- <-|by eapply iso_perm0].
  - intros e v f' p' E. rewrite Hd in E. destruct (decide _); [injection E as <- <-|by eapply iso_cow0].
    rewrite HD, HL, HC. intros D1 L1. rewrite L1, orb_false_l in D1. apply andb_true_iff in D1 as [D1 C1].
    by rewrite (iso_cow0 _ _ _ _ Hp D1 L1) in C1.
  - intros e1 v1 e2 v2 f' p1 p2 E1 E2 Hne D1. rewrite Hd in E1, E2.
    assert (Hmine : forall e v pq, page w e v = Some (f, pq) -> (e = me -> v <> vpn) ->
      (D p = true -> LIB p = true /\ LIB pq = true) /\ (D pq = true -> LIB pq = true /\ LIB p = true)).
    { intros e v pq E Hx. split; intros HDx.
      - apply (iso_one0 me vpn e v f p pq Hp E); [intros <- ->; by apply Hx|done].
      - apply (iso_one0 e v me vpn f pq p E Hp); [intros ->; by apply Hx|done]. }
    destruct (decide (v1 = vpn /\ _)) as [C1|C1], (decide (v2 = vpn /\ _)) as [C2|C2].
    + injection E1 as <- <-. injection E2 as <-. rewrite HL. rewrite HD in D1. apply andb_true_iff in D1 as [D1 L1].
      apply orb_true_iff in L1 as [L1|L1]; [done|]. destruct (LIB p) eqn:EL; [done|].
      by rewrite (iso_cow0 _ _ _ _ Hp D1 EL) in L1.
    + injection E1 as <- <-. rewrite HL. rewrite HD in D1. apply andb_true_iff in D1 as [D1 _].
      apply (Hmine e2 v2 p2 E2); [naive_solver|done].
    + injection E2 as <- <-. rewrite HL. apply (Hmine e1 v1 p1 E1); [naive_solver|done].
    + by apply (iso_one0 e1 v1 e2 v2 f' p1 p2).
Qed.

Hypothesis me_pos : me <> 0.
Hypothesis child_pos : child <> 0.
Hypothesis child_new : child <> me.

Lemma duppage_ok vpn f p w : iso w -> answers w = [] -> is_Some (tabs w !! me) -> is_Some (tabs w !! child) ->
  VPN UTEMP <= vpn < VPN UTOP -> page w me vpn = Some (f, p) ->
  exists w', duppage me child vpn w = Val tt w' /\ iso w' /\ same w w' /\ dupped w w' vpn f p /\ fmem w' = fmem w /\ nextf w' = nextf w.
Proof.
  intros I Ha Hme Hch Hv Hp. destruct (legal_page vpn Hv) as [Hl Hvpn]. pose proof I as []. destruct (iso_perm0 _ _ _ _ Hp) as [Hr HV].
  assert (E0 : env_of me 0 = me) by done. assert (Ec : env_of me child = child).
  { unfold env_of. by destruct (Z.eqb_spec child 0). }
  assert (Hperm : perm_at w me vpn = p) by (unfold perm_at; rewrite Hp; by apply land_perm).
  assert (Hm0 : forall perm, mem_map me 0 (vpn * BY2PG) child (vpn * BY2PG) perm w = Val 0 (map_page child vpn f perm w)).
  { intros perm. rewrite (mem_map_ok me 0 (vpn * BY2PG) child (vpn * BY2PG) perm f p w); rewrite ?E0, ?Ec, ?Hvpn; done. }
  unfold duppage. rewrite bind_gets, Hperm, hasbits_D, hasbits_LIB, hasbits_COW.
  destruct (negb (D p) || LIB p || COW p) eqn:Ed.
  - rewrite (bind_val _ _ _ _ _ (Hm0 p)). cbv beta. eexists. split; [reflexivity|].
    assert (Hd : dupped w (map_page child vpn f p w) vpn f p).
    { intros e v. rewrite page_map, lor_V by done. unfold dup_perm. rewrite Ed.
      destruct (decide (child = e /\ vpn = v)) as [[<- <-]|H1]; [by rewrite decide_True by (split; [done|by right])|].
      destruct (decide (v = vpn /\ (e = me \/ e = child))) as [[-> [->| ->]]|H2]; [done| |done]. exfalso. by apply H1. }
    split; [by eapply iso_dupped|]. split; [by apply same_map|]. done.
  - set (q := Z.lor (Z.lxor p PTE_D) PTE_COW). rewrite (bind_val _ _ _ _ _ (Hm0 q)). cbv beta.
    set (w1 := map_page child vpn f q w).
    assert (Hp1 : page w1 me vpn = Some (f, p)) by (unfold w1; rewrite page_map, decide_False by naive_solver; done).
    assert (Hk : forall e, is_Some (tabs w1 !! e) <-> is_Some (tabs w !! e)) by by apply known_insert.
    rewrite (bind_val _ _ _ _ _ (mem_map_ok me 0 (vpn * BY2PG) 0 (vpn * BY2PG) q f p w1 Hl Hl
      ltac:(rewrite E0; by apply Hk) ltac:(rewrite E0; by apply Hk) Ha ltac:(rewrite E0, Hvpn; done))). rewrite E0, Hvpn.
    eexists. split; [reflexivity|].
    assert (Hd : dupped w (map_page me vpn f q w1) vpn f p).
    { intros e v. unfold w1. rewrite !page_map. unfold dup_perm. rewrite Ed. fold q.
      destruct (decide (me = e /\ vpn = v)) as [[<- <-]|H1]; [by rewrite decide_True by (split; [done|by left])|].
      destruct (decide (child = e /\ vpn = v)) as [[<- <-]|H2]; [by rewrite decide_True by (split; [done|by right])|].
      destruct (decide (v = vpn /\ (e = me \/ e = child))) as [[-> [->| ->]]|H3]; [by exfalso; apply H1|by exfalso; apply H2|done]. }
    split; [by eapply iso_dupped|]. split; [|done].
    apply (same_trans w w1); [by apply same_map|]. apply same_map. by apply Hk.
Qed.
End Dup.

(** ** fork *)
Definition dup_page (o : option (Z * Z)) : option (Z * Z) := match o with Some (f, p) => Some (f, dup_perm p) | None => None end.

Section Loop.
Context (me cow child : Z) (w0 : world).
Hypothesis me_pos : me <> 0.
Hypothesis child_pos : child <> 0.
Hypothesis child_new : child <> me.
Hypothesis child_empty : forall v, page w0 child v = None.
Hypothesis above_utemp : forall v f p, page w0 me v = Some (f, p) -> VPN UTEMP <= v.
Hypothesis rich0 : answers w0 = [].
Hypothesis me_known : is_Some (tabs w0 !! me).
Hypothesis child_known : is_Some (tabs w0 !! child).

(** The page tables when the pages below [n] are done. *)
Definition target (n e v : Z) : option (Z * Z) :=
  if decide (v < Z.min n (VPN USTACKTOP) /\ (e = me \/ e = child)) then dup_page (page w0 me v) else page w0 e v.

Record progress (n : Z) (w : world) : Prop := {
  pg_iso : iso w;
  pg_same : same w0 w;
  pg_fmem : fmem w = fmem w0;
  pg_nextf : nextf w = nextf w0;
  pg_pages : forall e v, page w e v = target n e v }.

Lemma target_none n e v : page w0 me n = None -> target (n + 1) e v = target n e v.
Proof.
  intros H. unfold target. destruct (decide (v < Z.min (n + 1) _ /\ _)) as [[H1 H2]|H1], (decide (v < Z.min n _ /\ _)) as [H3|H3]; try done.
  - assert (Hv : v = n) by (assert (~ v < Z.min n (VPN USTACKTOP)) by naive_solver; lia). subst v. rewrite H. cbn [dup_page].
    destruct H2 as [->| ->]; [by rewrite H|by rewrite child_empty].
  - exfalso. apply H1. split; [lia|apply H3].
Qed.

Lemma target_past n m e v : VPN USTACKTOP <= n -> n <= m -> target m e v = target n e v.
Proof. intros H Hm. unfold target. by rewrite !Z.min_r by lia. Qed.

Lemma progress_target n m w : (forall e v, target m e v = target n e v) -> progress n w -> progress m w.
Proof. intros H []. split; try done. intros e v. by rewrite H. Qed.

Definition dup_one (n : Z) : W unit :=
  when (n * BY2PG <? USTACKTOP)
    (p ← gets (fun w => perm_at w me (VPN (n * BY2PG)));
     when (hasbits p PTE_V) (duppage me child (VPN (n * BY2PG)))).

Lemma dup_one_ok n w : 0 <= n -> progress n w -> exists w', dup_one n w = Val tt w' /\ progress (n + 1) w'.
Proof.
  intros Hn P. pose proof P as []. unfold dup_one.
  assert (Hvpn : VPN (n * BY2PG) = n).
  { unfold VPN. rewrite shiftr_div by lia. change (2 ^ 12) with 4096. unfold BY2PG. by apply Z.div_mul. }
  assert (HN : VPN USTACKTOP = 521214) by reflexivity. assert (HS : USTACKTOP = 521214 * 4096) by reflexivity.
  destruct (Z.ltb_spec (n * BY2PG) USTACKTOP) as [Hlt|Hge]; cbn [when].
  2:{ exists w. split; [done|]. apply (progress_target n); [|done]. intros e v. apply target_past; [unfold BY2PG in *; lia|lia]. }
  assert (Hlt' : n < VPN USTACKTOP) by (unfold BY2PG in *; lia).
  assert (Ep : page w me n = page w0 me n).
  { rewrite pg_pages0. unfold target. rewrite decide_False by lia. done. }
  rewrite bind_gets, Hvpn. unfold perm_at. rewrite Ep. destruct (page w0 me n) as [[f p]|] eqn:E0.
  - destruct (iso_perm _ pg_iso0 me n f p Ep) as [Hr HV]. rewrite land_perm, hasbits_V, HV by done. cbn [when].
    assert (Hu : VPN UTOP = 521216) by reflexivity. destruct pg_same0.
    destruct (duppage_ok me child child_pos child_new n f p w pg_iso0) as (w' & E & I' & S' & Hd & Hm & Hnf).
    { by rewrite same_answers0. } { by apply same_known0. } { by apply same_known0. } { split; [by eapply above_utemp|lia]. } { done. }
    exists w'. split; [exact E|]. split; [done|by apply (same_trans w0 w); [split|]|congruence|congruence|].
    intros e v. rewrite Hd, pg_pages0. unfold target. destruct (decide (v = n /\ _)) as [[-> He]|H1].
    + rewrite decide_True by (split; [lia|done]). rewrite E0. done.
    + destruct (decide (v < Z.min n _ /\ _)) as [[H2 H3]|H2]; [by rewrite decide_True by (split; [lia|done])|].
      rewrite decide_False; [done|]. intros [H3 H4]. destruct (Z.eq_dec v n); [by apply H1|apply H2; split; [lia|done]].
  - exists w. split; [done|]. apply (progress_target n); [|done]. intros e v. by apply target_none.
Qed.

Lemma dup_ones_ok k : forall n w, 0 <= n -> progress n w ->
  exists w', for_each (zseq n k) dup_one w = Val tt w' /\ progress (n + Z.of_nat k) w'.
Proof.
  induction k as [|k IH]; intros n w Hn P; [exists w; by rewrite Z.add_0_r|]. cbn [zseq for_each].
  destruct (dup_one_ok n w Hn P) as (w1 & E1 & P1). rewrite (bind_val _ _ _ _ _ E1). cbv beta.
  destruct (IH (n + 1) w1 ltac:(lia) P1) as (w2 & E2 & P2). exists w2. split; [done|].
  by replace (n + Z.of_nat (S k)) with (n + 1 + Z.of_nat k) by lia.
Qed.
End Loop.

Section Fork.
Context (me cow : Z).
Hypothesis me_pos : me <> 0.
Hypothesis cow_pos : cow <> 0.

Lemma zseq_shift n a b : zseq (a + b) n = map (fun k => b + k) (zseq a n).
Proof.
  revert a. induction n as [|n IH]; intros a; [done|]. cbn [zseq map]. f_equal; [lia|]. rewrite <- IH. f_equal. lia.
Qed.

Lemma for_each_map {X Y} (f : X -> Y) (body : Y -> W unit) l w : for_each (map f l) body w = for_each l (fun x => body (f x)) w.
Proof.
  revert w. induction l as [|x l IH]; intros w; [done|]. cbn [map for_each]. unfold mbind, M_bind.
  destruct (body (f x) w); [apply IH|done..].
Qed.

Lemma for_each_ext {X} (b1 b2 : X -> W unit) l w : (forall x w, x ∈ l -> b1 x w = b2 x w) -> for_each l b1 w = for_each l b2 w.
Proof.
  revert w. induction l as [|x l IH]; intros w H; [done|]. cbn [for_each]. unfold mbind, M_bind.
  rewrite H by left. destruct (b2 x w) as [[] w'| | |]; [|done..]. apply IH. intros y w1 Hy. apply H. by right.
Qed.

Section Parent.
Context (child : Z) (w0 : world).
Hypothesis child_pos : child <> 0.
Hypothesis child_new : child <> me.
Hypothesis child_empty : forall v, page w0 child v = None.
Hypothesis above_utemp : forall v f p, page w0 me v = Some (f, p) -> VPN UTEMP <= v.
Hypothesis rich0 : answers w0 = [].
Hypothesis me_known : is_Some (tabs w0 !! me).
Hypothesis child_known : is_Some (tabs w0 !! child).

Lemma vpd_invalid w j v : vpd_valid me w j = false -> v / 1024 = j -> page w me v = None.
Proof.
  intros H Hv. destruct (page w me v) as [[f p]|] eqn:E; [|done]. exfalso. apply Bool.not_true_iff_false in H. apply H.
  unfold vpd_valid. apply existsb_exists. exists (v, (f, p)). split; [by apply list_elem_of_In, elem_of_map_to_list|].
  cbn. by apply Z.eqb_eq.
Qed.

Lemma dup_table_ok j w : 0 <= j < 1024 -> progress me child w0 (j * 1024) w ->
  exists w', dup_table me child (j * PDMAP) w = Val tt w' /\ progress me child w0 ((j + 1) * 1024) w'.
Proof.
  intros Hj P. unfold dup_table. rewrite bind_gets.
  assert (Hx : PDX (j * PDMAP) = j).
  { unfold PDX. rewrite shiftr_div by lia. change 1023 with (Z.ones 10). rewrite land_ones_mod by lia.
    change (2 ^ 22) with PDMAP. rewrite Z.div_mul by done. by apply Z.mod_small. }
  rewrite Hx. destruct (vpd_valid me w j) eqn:Ev; cbn [when].
  - destruct (dup_ones_ok me child w0 me_pos child_pos child_new child_empty above_utemp rich0 me_known child_known 1024 (j * 1024) w ltac:(lia) P)
      as (w' & E & P'). exists w'. split; [|by replace ((j + 1) * 1024) with (j * 1024 + Z.of_nat 1024) by lia].
    rewrite <- E. rewrite <- (Z.add_0_l (j * 1024)), zseq_shift, for_each_map. apply for_each_ext. intros k w1 _.
    unfold dup_one. replace ((j * 1024 + k) * BY2PG) with (j * PDMAP + k * BY2PG) by (unfold BY2PG, PDMAP; lia). done.
  - exists w. split; [done|]. pose proof P as []. split; try done. intros e v. rewrite pg_pages0. unfold target.
    destruct (decide (v < Z.min (j * 1024) _ /\ _)) as [[H1 H2]|H1]; [by rewrite decide_True by (split; [lia|done])|].
    destruct (decide (v < Z.min ((j + 1) * 1024) _ /\ _)) as [[H2 H3]|H2]; [|done].
    assert (Hlo : j * 1024 <= v) by (assert (~ v < Z.min (j * 1024) (VPN USTACKTOP)) by naive_solver; lia).
    assert (E : page w me v = None) by (apply (vpd_invalid w j v Ev); dlia).
    assert (E0 : page w0 me v = None).
    { rewrite <- E, pg_pages0. unfold target. by rewrite decide_False by lia. }
    rewrite E0. destruct H3 as [->| ->]; [done|by rewrite child_empty].
Qed.

Lemma dup_tables_ok k : forall j w, 0 <= j -> j + Z.of_nat k <= 1024 -> progress me child w0 (j * 1024) w ->
  exists w', for_each (zseq j k) (fun k => dup_table me child (k * PDMAP)) w = Val tt w' /\
    progress me child w0 ((j + Z.of_nat k) * 1024) w'.
Proof.
  induction k as [|k IH]; intros j w Hj Hk P; [exists w; by rewrite Z.add_0_r|]. cbn [zseq for_each].
  destruct (dup_table_ok j w ltac:(lia) P) as (w1 & E1 & P1). rewrite (bind_val _ _ _ _ _ E1). cbv beta.
  destruct (IH (j + 1) w1 ltac:(lia) ltac:(lia) P1) as (w2 & E2 & P2). exists w2. split; [done|].
  by replace (j + Z.of_nat (S k)) with (j + 1 + Z.of_nat k) by lia.
Qed.
End Parent.

(** The state in which the loop of [fork] starts. *)
Lemma iso_tables w w' : iso w -> fmem w' = fmem w -> nextf w' = nextf w -> (forall e v, page w' e v = page w e v) -> iso w'.
Proof.
  intros [] Hm Hn Hp. split; rewrite ?Hm, ?Hn; try done.
  - intros e v f p. rewrite Hp. apply iso_frame0.
  - intros e v f p. rewrite Hp. apply iso_perm0.
  - intros e v f p. rewrite Hp. apply iso_cow0.
  - intros e1 v1 e2 v2 f p1 p2. rewrite !Hp. apply iso_one0.
Qed.

Definition forked (w0 w : world) (child : Z) : Prop :=
  forall e v, page w e v = if decide (v < VPN USTACKTOP /\ (e = me \/ e = child)) then dup_page (page w0 me v) else page w0 e v.

Record fork_done (w0 w : world) (child : Z) : Prop := {
  fd_iso : iso w;
  fd_answers : answers w = [];
  fd_fmem : fmem w = fmem w0;
  fd_pages : forked w0 w child;
  fd_known : is_Some (tabs w !! me) /\ is_Some (tabs w !! child);
  fd_entry : modentry w !! me = Some cow /\ modentry w !! child = Some cow;
  fd_status : status w !! child = Some ENV_RUNNABLE }.

Lemma set_entry_ok envid w : is_Some (tabs w !! env_of me envid) ->
  set_tlb_mod_entry me envid cow w = Val 0 (set_modentry (<[env_of me envid := cow]> (modentry w)) w).
Proof. intros H. unfold set_tlb_mod_entry. by rewrite (bind_val _ _ _ _ _ (exists_env_ok me envid w H)). Qed.
Lemma set_status_ok envid st w : is_Some (tabs w !! env_of me envid) ->
  set_env_status me envid st w = Val 0 (set_status (<[env_of me envid := st]> (status w)) w).
Proof. intros H. unfold set_env_status. by rewrite (bind_val _ _ _ _ _ (exists_env_ok me envid w H)). Qed.

Lemma try_ok {A} (m : W Z) (k : W (cres A)) w w' : m w = Val 0 w' -> try m k w = k w'.
Proof. intros E. unfold try. by rewrite (bind_val _ _ _ _ _ E). Qed.

Lemma fork_ok w0 child rest : iso w0 -> answers w0 = [] -> ids w0 = child :: rest -> 0 < child < 2147483648 ->
  is_Some (tabs w0 !! me) -> tabs w0 !! child = None ->
  (forall v f p, page w0 me v = Some (f, p) -> VPN UTEMP <= v) ->
  exists w, fork me cow w0 = Val (Ok child) w /\ fork_done w0 w child.
Proof.
  intros I Ha Hid Hc Hme Hch Hut. assert (Hne : child <> me) by (intros ->; rewrite Hch in Hme; by destruct Hme).
  assert (Hu : u32 child = child) by (apply u32_small; unfold is_u32; lia).
  assert (Ech : env_of me child = child) by (unfold env_of; by destruct (Z.eqb_spec child 0); [lia|]).
  unfold fork. rewrite bind_gets. set (h := default 0 _).
  set (w1 := if negb (h =? cow) then set_modentry (<[me := cow]> (modentry w0)) w0 else w0).
  assert (E1 : (if negb (h =? cow) then set_tlb_mod_entry me 0 cow else mret 0) w0 = Val 0 w1).
  { unfold w1. destruct (negb (h =? cow)); [by rewrite (set_entry_ok 0 w0 Hme)|done]. }
  rewrite (try_ok _ _ _ _ E1).
  set (w2 := set_tabs (<[child := ∅]> (tabs w0)) (set_status (<[child := ENV_NOT_RUNNABLE]> (status w1)) (set_ids rest w1))).
  assert (E2 : exofork w1 = Val child w2).
  { unfold exofork. rewrite bind_gets. replace (ids w1) with (child :: rest) by (unfold w1; by destruct (negb _)).
    rewrite bind_modify. destruct (Z.ltb_spec 0 child); [|lia]. cbn [when]. rewrite bind_modify. unfold w2, w1. by destruct (negb _). }
  rewrite (bind_val _ _ _ _ _ E2). cbv beta. rewrite Hu.
  assert (Hp2 : forall e v, page w2 e v = page w0 e v).
  { intros e v. unfold page, tab, w2. cbn [tabs set_tabs]. destruct (decide (child = e)) as [<-|Hx].
    - by rewrite lookup_insert_eq, Hch.
    - by rewrite lookup_insert_ne. }
  assert (H1 : fmem w1 = fmem w0 /\ nextf w1 = nextf w0 /\ answers w1 = answers w0) by (unfold w1; by destruct (negb _)).
  destruct H1 as (Hm1 & Hn1 & Ha1).
  assert (I2 : iso w2) by by apply (iso_tables w0).
  assert (Kme : is_Some (tabs w2 !! me)) by (unfold w2; cbn [tabs set_tabs]; by rewrite lookup_insert_ne).
  assert (Kch : is_Some (tabs w2 !! child)) by (unfold w2; cbn [tabs set_tabs]; rewrite lookup_insert_eq; by eexists).
  assert (Hemp : forall v, page w2 child v = None) by (intros v; rewrite Hp2; unfold page, tab; by rewrite Hch).
  destruct (dup_tables_ok child w2 ltac:(lia) Hne Hemp ltac:(intros v f p; rewrite Hp2; apply Hut) ltac:(cbn; congruence) Kme Kch
    (Z.to_nat (USTACKTOP / PDMAP + 1)) 0 w2) as (w3 & E3 & P3); [lia|by vm_compute| |].
  { split; [done|apply same_refl|done|done|]. intros e v. unfold target. destruct (decide _) as [[Hv He]|]; [|done].
    assert (Hx : page w2 me v = None).
    { destruct (page w2 me v) as [[f p]|] eqn:E; [|done]. rewrite Hp2 in E. apply Hut in E. unfold VPN in *. assert (0 <= Z.shiftr UTEMP 12) by (by vm_compute). lia. }
    rewrite Hx. destruct He as [->| ->]; [done|by rewrite Hemp]. }
  rewrite (bind_val _ _ _ _ _ E3). cbv beta. pose proof P3 as [I3 S3 Hm3 Hn3 Hp3]. pose proof S3 as [Sk Sa Si Se Ss].
  assert (Kme3 : is_Some (tabs w3 !! me)) by by apply Sk. assert (Kch3 : is_Some (tabs w3 !! child)) by by apply Sk.
  rewrite (try_ok _ _ _ _ (set_entry_ok child w3 ltac:(by rewrite Ech))).
  set (w4 := set_modentry _ w3).
  rewrite (try_ok _ _ _ _ (set_status_ok child ENV_RUNNABLE w4 ltac:(by rewrite Ech))). rewrite Ech.
  eexists. split; [reflexivity|]. split; try done.
  - by apply (iso_tables w3).
  - cbn. rewrite Sa. cbn. congruence.
  - cbn. rewrite Hm3. cbn. done.
  - intros e v. change (page w3 e v = if decide (v < VPN USTACKTOP /\ (e = me \/ e = child)) then dup_page (page w0 me v) else page w0 e v).
    rewrite Hp3. unfold target. rewrite !Hp2.
    replace (Z.min ((0 + Z.of_nat (Z.to_nat (USTACKTOP / PDMAP + 1))) * 1024) (VPN USTACKTOP)) with (VPN USTACKTOP) by by vm_compute.
    done.
  - unfold w4. rewrite Ech. cbn [set_status set_modentry modentry]. split; [|by rewrite lookup_insert_eq].
    rewrite lookup_insert_ne by done. rewrite Se. unfold w2. cbn [set_tabs set_status set_ids modentry]. unfold w1, h.
    destruct (Z.eqb_spec (default 0 (modentry w0 !! me)) cow) as [Eh|Eh]; cbn [negb set_modentry modentry]; [|by rewrite lookup_insert_eq].
    destruct (modentry w0 !! me); cbn in Eh; [by subst|by subst cow].
  - cbn [set_status status]. by rewrite lookup_insert_eq.
Qed.
End Fork.
