(* ===== verification/ForkIso.v ===== *)
(** * After a fork the two programs have separate memories (user/lib/fork.c) *)

From Stdlib Require Import ZArith Lia.
From stdpp Require Import base numbers list gmap strings.
From S2P Require Import Prelude Mmu Str StrThms Wp KState Elf Signo Env TlbEx Syscall Fork ForkThms.

(** ** Addresses *)
Lemma frame_addr f va g vb : f * 4096 + va mod 4096 = g * 4096 + vb mod 4096 -> f = g /\ va mod 4096 = vb mod 4096.
Proof. intros H. dlia. Qed.

(** Pages a program may write and does not share: not mapped yet, writable, or copy-on-write. *)
Definition private (w : world) (e va : Z) : Prop :=
  is_illegal_va va = false /\ va < USTACKTOP /\ VPN va <> VPN UCOW /\
  match page w e (VPN va) with Some (_, p) => (D p = true \/ COW p = true) /\ LIB p = false | None => True end.

Section Stores.
Context (me cow : Z).
Hypothesis cow_pos : cow <> 0.
Implicit Types (w : world).

(** Only the view of [me] at [va] changes. *)
Record stored (w w' : world) (va b : Z) : Prop := {
  so_iso : iso w';
  so_same : same w w';
  so_view : forall e x, view w' e x = if decide (e = me /\ x = va) then u8 b else view w e x;
  so_ucow : page w' me (VPN UCOW) = page w me (VPN UCOW);
  so_other : forall e v, e <> me -> page w' e v = page w e v;
  so_private : forall x, private w me x -> private w' me x }.

Lemma touch_mapped va wr f p w : is_illegal_va va = false -> page w me (VPN va) = Some (f, p) ->
  touch me va wr w = Val (if wr && negb (D p) then None else Some (f * 4096 + va mod 4096)) w.
Proof. intros Hl Hp. unfold touch. by rewrite Hl, bind_gets, Hp, hasbits_D. Qed.

(** Writing a byte of a page mapped writable and not shared. *)
Lemma write_ok va b f p w : iso w -> page w me (VPN va) = Some (f, p) -> D p = true -> LIB p = false ->
  stored w (set_fmem (wr8 (fmem w) (f * 4096 + va mod 4096) b) w) va b.
Proof.
  intros I Hp HD HL. pose proof I as []. set (w' := set_fmem _ w). assert (Hpg : forall e v, page w' e v = page w e v) by done.
  pose proof (iso_frame _ _ _ _ Hp) as Hf.
  split; [|apply same_fmem| |done|done|done].
  - split; try done; [by apply wr8_bytes_ok|]. intros a Ha. change (nextf w * 4096 <= a) in Ha. unfold w'. cbn [fmem set_fmem]. rewrite rd_wr8.
    destruct (decide (f * 4096 + va mod 4096 = a)); [|by apply iso_zero]. exfalso.
    assert (0 <= va mod 4096 < 4096) by (by apply Z.mod_pos_bound). lia.
  - intros e x. unfold view. rewrite Hpg. destruct (page w e (VPN x)) as [[g q]|] eqn:Eg.
    + unfold w'. cbn [fmem set_fmem]. rewrite rd_wr8. destruct (decide (f * 4096 + va mod 4096 = g * 4096 + x mod 4096)) as [Ea|Ea].
      * apply frame_addr in Ea as [<- Ex]. destruct (decide (e = me /\ VPN va = VPN x)) as [[-> Hv]|Hv].
        -- assert (x = va) as -> by (rewrite !VPN_div in Hv; dlia). by rewrite decide_True.
        -- exfalso. destruct (iso_one me (VPN va) e (VPN x) f p q Hp Eg) as [HL' _]; [intros <- Hx; by apply Hv|done|congruence].
      * rewrite decide_False; [done|]. intros [-> ->]. rewrite Hp in Eg. by injection Eg as <- <-.
    + rewrite decide_False; [done|]. intros [-> ->]. by rewrite Hp in Eg.
Qed.

(** A fresh page reads as zeros, like the unmapped page before. *)
Lemma fresh_ok v perm w : iso w -> is_Some (tabs w !! me) -> page w me v = None -> is_perm perm -> COW perm = false ->
  let w' := map_fresh me v perm w in
  iso w' /\ same w w' /\ (forall e x, view w' e x = view w e x) /\
  (forall e u, page w' e u = if decide (me = e /\ v = u) then Some (nextf w, Z.lor perm PTE_V) else page w e u) /\ fmem w' = fmem w.
Proof.
  intros I Hme Hp Hr HC w'. pose proof I as [].
  assert (Hpg : forall e u, page w' e u = if decide (me = e /\ v = u) then Some (nextf w, Z.lor perm PTE_V) else page w e u).
  { intros e u. unfold w', map_fresh. change (page (map_page me v (nextf w) perm w) e u = if decide (me = e /\ v = u) then Some (nextf w, Z.lor perm PTE_V) else page w e u).
    apply page_map. }
  assert (HCV : COW (Z.lor perm PTE_V) = false) by (unfold COW in *; by rewrite Z.lor_spec, HC).
  split; [|split; [by apply same_fresh|split; [|by split]]].
  - split; cbn [nextf fmem w' map_fresh set_nextf map_page set_tabs].
    + lia.
    + done.
    + intros a Ha. apply iso_zero. lia.
    + intros e u f p. rewrite Hpg. destruct (decide _); [intros [= <- <-]; lia|]. intros E. specialize (iso_frame _ _ _ _ E). lia.
    + intros e u f p. rewrite Hpg. destruct (decide _); [intros [= <- <-]|by apply iso_perm].
      split; [apply is_perm_lor; [done|unfold is_perm; vm_compute; by split]|]. unfold V, PTE_V. rewrite Z.lor_spec. by rewrite orb_true_r.
    + intros e u f p. rewrite Hpg. destruct (decide _); [by intros [= <- <-]|by apply iso_cow].
    + intros e1 u1 e2 u2 f p1 p2. rewrite !Hpg. intros E1 E2 Hne.
      destruct (decide (me = e1 /\ v = u1)) as [[<- <-]|H1], (decide (me = e2 /\ v = u2)) as [[<- <-]|H2].
      * by destruct (Hne eq_refl).
      * injection E1 as <- <-. specialize (iso_frame _ _ _ _ E2). lia.
      * injection E2 as <- <-. specialize (iso_frame _ _ _ _ E1). lia.
      * by apply (iso_one e1 u1 e2 u2 f p1 p2).
  - intros e x. unfold view. rewrite Hpg. change (fmem w') with (fmem w). destruct (decide (me = e /\ v = VPN x)) as [[<- ->]|]; [|done].
    rewrite Hp. apply iso_zero. assert (0 <= x mod 4096) by (by apply Z.mod_pos_bound). lia.
Qed.

(** ** cow_entry *)
Lemma page_legal va i : is_illegal_va va = false -> 0 <= i < 4096 -> is_illegal_va (va / 4096 * 4096 + i) = false.
Proof.
  unfold is_illegal_va. change UTEMP with (1022 * 4096). change UTOP with (521216 * 4096). intros H Hi.
  destruct (Z.ltb_spec va (1022 * 4096)), (Z.leb_spec (521216 * 4096) va); try done.
  destruct (Z.ltb_spec (va / 4096 * 4096 + i) (1022 * 4096)), (Z.leb_spec (521216 * 4096) (va / 4096 * 4096 + i)); (done || dlia).
Qed.

Lemma page_offset v i : 0 <= i < 4096 -> VPN (v * 4096 + i) = v /\ (v * 4096 + i) mod 4096 = i.
Proof. intros Hi. rewrite VPN_div. dlia. Qed.

Lemma copy_ok f p g q va n : forall i w, bytes_ok (fmem w) -> 0 <= i -> i + Z.of_nat n <= 4096 -> is_illegal_va va = false ->
  page w me (VPN va) = Some (f, p) -> page w me (VPN UCOW) = Some (g, q) -> D q = true -> f <> g ->
  exists m, copy me (UCOW + i) (va / 4096 * 4096 + i) n w = Val tt (set_fmem m w) /\ bytes_ok m /\
    forall a, rd8 m a = if decide (g * 4096 + i <= a < g * 4096 + i + Z.of_nat n) then rd8 (fmem w) (f * 4096 + (a - g * 4096)) else rd8 (fmem w) a.
Proof.
  induction n as [|n IH]; intros i w Hb Hi Hn Hl Hp Hq HD Hfg.
  - exists (fmem w). split; [by destruct w|]. split; [done|]. intros a. by rewrite decide_False by lia.
  - cbn [copy]. destruct (page_offset (va / 4096) i ltac:(lia)) as [Hv1 Ho1].
    assert (HU : UCOW = 1023 * 4096) by reflexivity. destruct (page_offset 1023 i ltac:(lia)) as [Hv2 Ho2]. rewrite <- HU in Hv2, Ho2.
    assert (HvU : VPN UCOW = 1023) by reflexivity.
    assert (E1 : load me (va / 4096 * 4096 + i) w = Val (rd8 (fmem w) (f * 4096 + i)) w).
    { unfold load. rewrite (bind_val _ _ _ _ _ (touch_mapped _ _ f p w (page_legal va i Hl ltac:(lia)) ltac:(by rewrite Hv1, <- VPN_div))).
      cbn [andb]. by rewrite Ho1. }
    rewrite (bind_val _ _ _ _ _ E1). cbv beta.
    set (w1 := set_fmem (wr8 (fmem w) (g * 4096 + i) (rd8 (fmem w) (f * 4096 + i))) w).
    assert (E2 : handler_store me (UCOW + i) (rd8 (fmem w) (f * 4096 + i)) w = Val tt w1).
    { unfold handler_store. rewrite (bind_val _ _ _ _ _ (touch_mapped (UCOW + i) true g q w ltac:(exact (page_legal UCOW i eq_refl ltac:(lia))) ltac:(by rewrite Hv2, <- HvU))).
      rewrite HD. cbn [negb andb]. by rewrite Ho2. }
    rewrite (bind_val _ _ _ _ _ E2). cbv beta.
    destruct (IH (i + 1) w1 ltac:(by apply wr8_bytes_ok) ltac:(lia) ltac:(lia) Hl Hp Hq HD Hfg) as (m & E & Hbm & Hm).
    exists m. rewrite !Z.add_assoc in E. split; [exact E|]. split; [done|]. intros a. rewrite Hm. unfold w1. cbn [fmem set_fmem]. rewrite !rd_wr8.
    destruct (decide (g * 4096 + (i + 1) <= a < g * 4096 + (i + 1) + Z.of_nat n)).
    + rewrite (decide_True (P := g * 4096 + i <= a < _)) by lia. rewrite decide_False; [done|]. intros H. apply Hfg. lia.
    + destruct (decide (g * 4096 + i = a)) as [<-|].
      * rewrite decide_True by lia. rewrite u8_byte by apply Hb. f_equal. lia.
      * by rewrite decide_False by lia.
Qed.

(** The permissions of the private copy. *)
Definition cow_perm (p : Z) : Z := Z.lor (Z.lxor p PTE_COW) PTE_D.

Lemma cow_perm_ok p : is_perm p -> COW p = true -> is_perm (cow_perm p) /\ D (cow_perm p) = true /\
  COW (cow_perm p) = false /\ LIB (cow_perm p) = LIB p.
Proof.
  intros Hp HC. unfold cow_perm. split_and!.
  - apply is_perm_lor; [apply is_perm_lxor; [done|]|]; unfold is_perm; vm_compute; by split.
  - unfold D, PTE_D. rewrite Z.lor_spec. by rewrite orb_true_r.
  - unfold COW in *. rewrite Z.lor_spec, Z.lxor_spec, HC. done.
  - unfold LIB. rewrite Z.lor_spec, Z.lxor_spec. change (Z.testbit PTE_COW 2) with false. change (Z.testbit PTE_D 2) with false.
    by rewrite xorb_false_r, orb_false_r.
Qed.

Lemma perm_V p : D (Z.lor p PTE_V) = D p /\ COW (Z.lor p PTE_V) = COW p /\ LIB (Z.lor p PTE_V) = LIB p /\ V (Z.lor p PTE_V) = true.
Proof.
  unfold D, COW, LIB, V. rewrite !Z.lor_spec. change (Z.testbit PTE_V 10) with false. change (Z.testbit PTE_V 0) with false.
  change (Z.testbit PTE_V 2) with false. change (Z.testbit PTE_V 9) with true. by rewrite !orb_false_r, orb_true_r.
Qed.

(** After the handler the page is a private writable copy; no program sees a difference. *)
Record copied (w w' : world) (v : Z) : Prop := {
  co_iso : iso w';
  co_same : same w w';
  co_view : forall e x, view w' e x = view w e x;
  co_page : exists f p, page w' me v = Some (f, p) /\ D p = true /\ LIB p = false;
  co_pages : forall e u, ~ (e = me /\ u = v) -> page w' e u = page w e u }.

Lemma cow_entry_ok va f p w : iso w -> answers w = [] -> is_Some (tabs w !! me) -> is_illegal_va va = false ->
  page w me (VPN va) = Some (f, p) -> COW p = true -> LIB p = false -> page w me (VPN UCOW) = None ->
  exists w', cow_entry me va w = Val tt w' /\ copied w w' (VPN va).
Proof.
  intros I Ha Hme Hl Hp HC HL HU. pose proof I as []. destruct (iso_perm _ _ _ _ Hp) as [Hr HV].
  destruct (cow_perm_ok p Hr HC) as (Hr' & HD' & HC' & HL'). destruct (perm_V (cow_perm p)) as (HDV & HCV & HLV & HVV).
  assert (E0 : env_of me 0 = me) by done.
  assert (Hne : VPN va <> VPN UCOW) by (intros E; rewrite E in Hp; congruence).
  assert (Hrd : ROUNDDOWN va BY2PG = va / 4096 * 4096).
  { change BY2PG with (2 ^ 12). rewrite ROUNDDOWN_div; [change (2 ^ 12) with 4096; lia|lia|].
    unfold is_illegal_va in Hl. apply orb_false_iff in Hl as [H1 H2]. apply Z.ltb_ge in H1. apply Z.leb_gt in H2.
    unfold is_u32. assert (UTOP < 4294967296) by by vm_compute. assert (0 <= UTEMP) by by vm_compute. lia. }
  assert (HvR : VPN (va / 4096 * 4096) = VPN va) by (rewrite !VPN_div; by apply Z.div_mul).
  assert (HlR : is_illegal_va (va / 4096 * 4096) = false) by (rewrite <- (Z.add_0_r (_ * _)); by apply page_legal).
  unfold cow_entry. rewrite bind_gets. unfold perm_at. rewrite Hp, land_perm by done. rewrite hasbits_COW, HC.
  rewrite bind_assert_true. cbv zeta. fold (cow_perm p). rewrite Hrd.
  rewrite (bind_val _ _ _ _ _ (mem_alloc_ok me 0 UCOW (cow_perm p) w eq_refl Hme Ha)). cbv beta. rewrite E0.
  destruct (fresh_ok (VPN UCOW) (cow_perm p) w I Hme HU Hr' HC') as (I1 & S1 & V1 & P1 & M1).
  set (w1 := map_fresh me (VPN UCOW) (cow_perm p) w) in *. set (g := nextf w) in *.
  assert (Hp1 : page w1 me (VPN va) = Some (f, p)) by (rewrite P1, decide_False by (intros [_ Hx]; by apply Hne); done).
  assert (Hq1 : page w1 me (VPN UCOW) = Some (g, Z.lor (cow_perm p) PTE_V)) by (rewrite P1, decide_True by done; done).
  pose proof (iso_frame _ _ _ _ Hp) as Hfg.
  destruct (copy_ok f p g _ va (Z.to_nat BY2PG) 0 w1 ltac:(by rewrite M1) ltac:(lia) ltac:(unfold BY2PG; lia) Hl Hp1 Hq1 ltac:(by rewrite HDV) ltac:(lia))
    as (m & E2 & Hbm & Hm). rewrite !Z.add_0_r in E2. rewrite (bind_val _ _ _ _ _ E2). cbv beta.
  set (w2 := set_fmem m w1).
  assert (K2 : is_Some (tabs w2 !! me)) by by apply S1.
  assert (A2 : answers w2 = []) by (destruct S1; cbn; congruence).
  rewrite (bind_val _ _ _ _ _ (mem_map_ok me 0 UCOW 0 (va / 4096 * 4096) (cow_perm p) g _ w2 eq_refl HlR K2 K2 A2 Hq1)). cbv beta.
  rewrite E0, HvR. set (w3 := map_page me (VPN va) g (cow_perm p) w2).
  assert (K3 : is_Some (tabs w3 !! me)) by (by apply (same_map w2 me (VPN va) g (cow_perm p) K2)).
  rewrite (bind_val _ _ _ _ _ (mem_unmap_ok me 0 UCOW w3 eq_refl K3)). cbv beta. rewrite E0. set (w4 := set_tabs _ w3).
  eexists. split; [reflexivity|].
  assert (P4 : forall e u, page w4 e u = if decide (e = me /\ u = VPN va) then Some (g, Z.lor (cow_perm p) PTE_V) else page w e u).
  { intros e u. unfold w4. rewrite page_unmap. unfold w3. rewrite page_map. change (page w2 e u) with (page w1 e u). rewrite P1.
    destruct (decide (me = e /\ VPN UCOW = u)) as [[<- <-]|H1]; [rewrite decide_False by (intros [_ Hx]; by apply Hne); done|].
    destruct (decide (me = e /\ VPN va = u)) as [[<- <-]|H2]; [by rewrite decide_True|].
    rewrite decide_False by (intros [-> ->]; by apply H2). done. }
  assert (Sm : fmem w4 = m) by done. assert (Sn : nextf w4 = g + 1) by done.
  assert (Hmf : forall a, a < g * 4096 -> rd8 m a = rd8 (fmem w) a).
  { intros a Hlt. rewrite Hm, decide_False by lia. by rewrite M1. }
  split.
  - split; rewrite ?Sm, ?Sn; try done; [lia| | | | |].
    + intros a Hx. rewrite Hm, decide_False by (unfold BY2PG; lia). rewrite M1. apply iso_zero. lia.
    + intros e u f' p'. rewrite P4. destruct (decide _); [intros [= <- <-]; lia|]. intros E. specialize (iso_frame _ _ _ _ E). lia.
    + intros e u f' p'. rewrite P4. destruct (decide _); [intros [= <- <-]|by apply iso_perm].
      split; [|done]. apply is_perm_lor; [done|unfold is_perm; vm_compute; by split].
    + intros e u f' p'. rewrite P4. destruct (decide _); [intros [= <- <-]; congruence|by apply iso_cow].
    + intros e1 u1 e2 u2 f' p1 p2. rewrite !P4. intros X1 X2 Hx.
      destruct (decide (e1 = me /\ u1 = VPN va)) as [[-> ->]|N1], (decide (e2 = me /\ u2 = VPN va)) as [[-> ->]|N2].
      * by destruct (Hx eq_refl).
      * injection X1 as <- <-. specialize (iso_frame _ _ _ _ X2). lia.
      * injection X2 as <- <-. specialize (iso_frame _ _ _ _ X1). lia.
      * by apply (iso_one e1 u1 e2 u2 f' p1 p2).
  - apply (same_trans w w1); [done|]. apply (same_trans w1 w2); [apply same_fmem|]. apply (same_trans w2 w3); [by apply same_map|]. by apply same_unmap.
  - intros e x. unfold view. rewrite P4, Sm. assert (Hx : 0 <= x mod 4096 < 4096) by by apply Z.mod_pos_bound.
    destruct (decide (e = me /\ VPN x = VPN va)) as [[-> Ev]|Nv].
    + rewrite Ev, Hp. rewrite Hm. change (Z.of_nat (Z.to_nat BY2PG)) with 4096. rewrite decide_True by lia.
      rewrite M1. f_equal. lia.
    + destruct (page w e (VPN x)) as [[h r]|] eqn:Eh; [|done]. apply Hmf. specialize (iso_frame _ _ _ _ Eh). lia.
  - exists g, (Z.lor (cow_perm p) PTE_V). rewrite P4, decide_True by done. split; [done|]. split; congruence.
  - intros e u Hx. by rewrite P4, decide_False.
Qed.

(** ** Stores *)

(** The page of [va] was made writable without a visible change; then the byte is written. *)
Lemma stored_after w w1 va b : copied w w1 (VPN va) -> VPN va <> VPN UCOW -> exists f, page w1 me (VPN va) = Some f /\
  (exists p, f.2 = p /\ D p = true) /\ stored w (set_fmem (wr8 (fmem w1) (f.1 * 4096 + va mod 4096) b) w1) va b.
Proof.
  intros [I1 S1 V1 (f & p & Hp & HD & HL) P1] Hne. exists (f, p). split; [done|]. split; [by exists p|]. cbn [fst].
  destruct (write_ok va b f p w1 I1 Hp HD HL) as [I2 S2 V2 U2 O2 _].
  split; [done|by apply (same_trans w w1)| | | |].
  - intros e x. by rewrite V2, V1.
  - rewrite U2. apply P1. intros [_ H]. by apply Hne.
  - intros e v He. rewrite O2 by done. apply P1. by intros [-> _].
  - intros x (Hl & Hs & Hu & Hx). split; [done|]. split; [done|]. split; [done|].
    change (page (set_fmem _ w1) me (VPN x)) with (page w1 me (VPN x)).
    destruct (decide (VPN x = VPN va)) as [->|Hv]; [rewrite Hp; split; [by left|done]|]. rewrite P1; [done|]. by intros [_ H].
Qed.

Lemma store_ok va b w : iso w -> answers w = [] -> is_Some (tabs w !! me) -> modentry w !! me = Some cow ->
  page w me (VPN UCOW) = None -> private w me va -> exists w', store me cow 2 va b w = Val tt w' /\ stored w w' va b.
Proof.
  intros I Ha Hme He HU (Hl & Hs & Hu & Hpriv). cbn [store]. destruct (page w me (VPN va)) as [[f p]|] eqn:Ep.
  - destruct Hpriv as [Hw HL]. rewrite (bind_val _ _ _ _ _ (touch_mapped va true f p w Hl Ep)). cbv beta. cbn [andb]. destruct (D p) eqn:ED; cbn [negb].
    + eexists. split; [reflexivity|]. by apply (write_ok va b f p).
    + destruct Hw as [Hw|HC]; [done|]. rewrite bind_gets, He. change (default 0 (Some cow)) with cow. destruct (Z.eqb_spec cow 0); [done|]. cbn [negb].
      rewrite bind_assert_true, Z.eqb_refl. destruct (cow_entry_ok va f p w I Ha Hme Hl Ep HC HL HU) as (w1 & E1 & C1).
      rewrite (bind_val _ _ _ _ _ E1). cbv beta. pose proof (stored_after w w1 va b C1 Hu) as ([g q] & Eg & (p' & Hp' & HD') & St).
      cbn in Hp'. subst p'. rewrite (bind_val _ _ _ _ _ (touch_mapped va true g q w1 Hl Eg)). cbv beta. rewrite HD'. cbn [negb andb].
      eexists. split; [reflexivity|exact St].
  - assert (HD : is_perm PTE_D /\ COW PTE_D = false /\ D PTE_D = true /\ LIB PTE_D = false) by (unfold is_perm; vm_compute; done).
    destruct HD as (Hr & HC & HD & HL). destruct (perm_V PTE_D) as (HDV & HCV & HLV & _).
    destruct (fresh_ok (VPN va) PTE_D w I Hme Ep Hr HC) as (I1 & S1 & V1 & P1 & M1). set (w1 := map_fresh me (VPN va) PTE_D w) in *.
    assert (E1 : touch me va true w = Val (Some (nextf w * 4096 + va mod 4096)) w1).
    { unfold touch. rewrite Hl, bind_gets, Ep. destruct (Z.leb_spec USTACKTOP va); [lia|]. cbn [andb negb]. rewrite bind_assert_true, bind_gets.
      by rewrite (bind_val _ _ _ _ _ (ask_ok w Ha)), bind_assert_true. }
    assert (C1 : copied w w1 (VPN va)).
    { split; try done.
      - exists (nextf w), (Z.lor PTE_D PTE_V). rewrite P1, decide_True by done. split; [done|]. split; congruence.
      - intros e u Hx. rewrite P1, decide_False; [done|]. intros [<- <-]. by apply Hx. }
    rewrite (bind_val _ _ _ _ _ E1). cbv beta. eexists. split; [reflexivity|].
    pose proof (stored_after w w1 va b C1 Hu) as ([g q] & Eg & _ & St). rewrite P1, decide_True in Eg by done. injection Eg as <- <-. exact St.
Qed.
End Stores.

(** ** Two programs after a fork *)

(** Stores of programs: who, where, what. *)
Definition run_stores (cow : Z) (l : list (Z * Z * Z)) : W unit := for_each l (fun '(e, va, b) => store e cow 2 va b).

(** A memory of its own: the stores of [e] over [m]. *)
Definition own (e : Z) (m : Z -> Z) (l : list (Z * Z * Z)) : Z -> Z :=
  foldl (fun m '(e', va, b) => if e' =? e then fun x => if x =? va then u8 b else m x else m) m l.

Lemma own_ext e l x : forall m1 m2, m1 x = m2 x -> own e m1 l x = own e m2 l x.
Proof.
  induction l as [|[[e' v'] b'] l IH]; intros m1 m2 Hx; [done|]. unfold own in *. cbn [foldl]. apply IH.
  destruct (e' =? e); [by destruct (x =? v')|done].
Qed.

(** What a program needs to run. *)
Definition ready (cow : Z) (w : world) (e : Z) : Prop :=
  is_Some (tabs w !! e) /\ modentry w !! e = Some cow /\ page w e (VPN UCOW) = None.

Lemma private_pages w w' e x : page w' e (VPN x) = page w e (VPN x) -> private w e x -> private w' e x.
Proof. intros E (H1 & H2 & H3 & H4). unfold private. by rewrite E. Qed.

Lemma run_stores_ok cow l : cow <> 0 -> forall w, iso w -> answers w = [] ->
  Forall (fun '(e, va, b) => ready cow w e /\ private w e va) l ->
  exists w', run_stores cow l w = Val tt w' /\ forall e x, view w' e x = own e (view w e) l x.
Proof.
  intros Hc. induction l as [|[[e va] b] l IH]; intros w I Ha HF; [by exists w|].
  apply Forall_cons in HF as [[(K & E & U) Hp] HF]. unfold run_stores. cbn [for_each].
  destruct (store_ok e cow Hc va b w I Ha K E U Hp) as (w1 & E1 & [I1 S1 V1 U1 O1 P1]). rewrite (bind_val _ _ _ _ _ E1). cbv beta.
  destruct (IH w1) as (w2 & E2 & V2).
  - done.
  - destruct S1. congruence.
  - apply (Forall_impl _ _ _ HF). intros [[e2 va2] b2] [(K2 & M2 & U2) Hp2]. destruct (decide (e2 = e)) as [->|Hne].
    + split; [|by apply P1]. split; [by apply S1|]. split; [by destruct S1; congruence|congruence].
    + split; [|apply (private_pages w); [by apply O1|done]]. split; [by apply S1|]. split; [by destruct S1; congruence|]. by rewrite O1.
  - exists w2. split; [exact E2|]. intros e2 x. rewrite V2. unfold own at 2. cbn [foldl]. destruct (Z.eqb_spec e e2) as [<-|Hne].
    + apply own_ext. rewrite V1. destruct (Z.eqb_spec x va); [by rewrite decide_True|by rewrite decide_False by naive_solver].
    + apply own_ext. rewrite V1. by rewrite decide_False by naive_solver.
Qed.

(** C3: A fork gives the child a private copy of the parent's memory. [fork] returns, the child is
    runnable, reads what the parent read at the fork, and nobody else's view changes; pages
    marked PTE_LIBRARY stay shared. Whatever the two programs then write to pages that are not
    shared, in any order, each write ends (through [cow_entry] where the page is
    copy-on-write) and each program sees the memory of the fork with its own writes only. *)
Theorem fork_snapshot me cow w0 child rest : me <> 0 -> cow <> 0 -> iso w0 -> answers w0 = [] -> ids w0 = child :: rest ->
  0 < child < 2147483648 -> is_Some (tabs w0 !! me) -> tabs w0 !! child = None ->
  (forall v f p, page w0 me v = Some (f, p) -> VPN UTEMP <= v) -> page w0 me (VPN UCOW) = None ->
  exists w, fork me cow w0 = Val (Ok child) w /\ status w !! child = Some ENV_RUNNABLE /\
    (forall e x, view w e x = if decide (e = child /\ x < USTACKTOP) then view w0 me x else view w0 e x) /\
    (forall v f p, v < VPN USTACKTOP -> page w0 me v = Some (f, p) -> hasbits p PTE_LIBRARY = true ->
      page w me v = Some (f, p) /\ page w child v = Some (f, p)) /\
    forall l, Forall (fun '(e, va, b) => (e = me \/ e = child) /\ private w0 me va) l ->
      exists w', run_stores cow l w = Val tt w' /\
        forall x, x < USTACKTOP -> view w' me x = own me (view w0 me) l x /\ view w' child x = own child (view w0 me) l x.
Proof.
  intros Hme Hcow I Ha Hid Hc Kme Kch Hut Hu.
  destruct (fork_ok me cow Hme Hcow w0 child rest I Ha Hid Hc Kme Kch Hut) as (w & E & [If Af Mf Pf [Km Kc] [Em Ec] Sf]).
  assert (Hne : child <> me) by (intros ->; rewrite Kch in Kme; by destruct Kme).
  assert (HV : forall x, VPN x < VPN USTACKTOP <-> x < USTACKTOP).
  { intros x. rewrite !VPN_div. change USTACKTOP with (521214 * 4096). dlia. }
  exists w. split; [exact E|]. split; [done|].
  assert (Hview : forall e x, view w e x = if decide (e = child /\ x < USTACKTOP) then view w0 me x else view w0 e x).
  { intros e x. unfold view. rewrite Pf, Mf. destruct (decide (VPN x < VPN USTACKTOP /\ _)) as [[H1 [->| ->]]|H1].
    - rewrite decide_False by (intros [-> _]; by apply Hne). by destruct (page w0 me (VPN x)) as [[f p]|].
    - rewrite decide_True by (split; [done|by apply HV]). by destruct (page w0 me (VPN x)) as [[f p]|].
    - rewrite decide_False; [done|]. intros [-> Hx]. apply H1. split; [by apply HV|by right]. }
  split; [done|]. split.
  - intros v f p Hv Hp HL. rewrite hasbits_LIB in HL. rewrite !Pf, !decide_True by naive_solver. rewrite Hp. cbn [dup_page].
    unfold dup_perm. by rewrite HL, orb_true_r.
  - intros l HF. destruct (run_stores_ok cow l Hcow w If Af) as (w' & E' & V').
    + apply (Forall_impl _ _ _ HF). intros [[e va] b] [He (Hl & Hs & Hu' & Hp)].
      assert (Hpg : forall v, v < VPN USTACKTOP -> page w e v = dup_page (page w0 me v)) by (intros v Hv; rewrite Pf, decide_True; done).
      split.
      * split; [by destruct He as [->| ->]|]. split; [by destruct He as [->| ->]|]. rewrite Hpg by by vm_compute. by rewrite Hu.
      * split; [done|]. split; [done|]. split; [done|]. rewrite Hpg by by apply HV.
        destruct (page w0 me (VPN va)) as [[f p]|] eqn:Ep; [|done]. cbn [dup_page]. destruct Hp as [Hw HL].
        destruct (iso_perm _ I _ _ _ _ Ep) as [Hr HV']. destruct (dup_perm_ok p Hr HV') as (_ & _ & L & D' & C').
        rewrite L, D', C', HL. split; [|done]. rewrite andb_true_r. destruct Hw as [->| ->]; [right; by rewrite orb_true_r|right; done].
    + exists w'. split; [exact E'|]. intros x Hx. rewrite !V'. split; apply own_ext; rewrite Hview.
      * by rewrite decide_False by (intros [Hy _]; by apply Hne).
      * by rewrite decide_True.
Qed.

(** A program with one page, its first byte 65. *)
Definition one_page : world :=
  mkWorld {[ 1 := {[ 1024 := (0, 1536) ]} ]} {[ 0 := 65 ]} 1 [] [2] ∅ ∅.

Lemma one_page_at e v f p : page one_page e v = Some (f, p) -> e = 1 /\ v = 1024 /\ f = 0 /\ p = 1536.
Proof.
  unfold page, tab, one_page. cbn [tabs]. destruct (decide (e = 1)) as [->|He].
  - rewrite lookup_singleton_eq. cbn. destruct (decide (v = 1024)) as [->|Hv].
    + rewrite lookup_singleton_eq. by intros [= <- <-].
    + by rewrite lookup_singleton_ne by done.
  - by rewrite lookup_singleton_ne by done.
Qed.

Lemma one_page_iso : iso one_page.
Proof.
  split; cbn [nextf fmem one_page].
  - lia.
  - intros a. unfold rd8. destruct (decide (a = 0)) as [->|]; [by rewrite lookup_singleton_eq|by rewrite lookup_singleton_ne].
  - intros a Ha. unfold rd8. by rewrite lookup_singleton_ne by lia.
  - intros e v f p H. apply one_page_at in H as (_ & _ & -> & _). lia.
  - intros e v f p H. apply one_page_at in H as (_ & _ & _ & ->). unfold is_perm. split; [lia|done].
  - intros e v f p H. apply one_page_at in H as (_ & _ & _ & ->). done.
  - intros e1 v1 e2 v2 f p1 p2 H1 H2 Hne. apply one_page_at in H1 as (-> & -> & _). apply one_page_at in H2 as (-> & -> & _).
    by destruct (Hne eq_refl).
Qed.

(** The parent writes 66, the child 67 at the same address. *)
Lemma fork_snapshot_witness : exists w w', fork 1 7 one_page = Val (Ok 2) w /\
  run_stores 7 [(1, 4194304, 66); (2, 4194304, 67)] w = Val tt w' /\ view w' 1 4194304 = 66 /\ view w' 2 4194304 = 67.
Proof.
  destruct (fork_snapshot 1 7 one_page 2 [] ltac:(done) ltac:(done) one_page_iso eq_refl eq_refl ltac:(lia) ltac:(by eexists) eq_refl
    ltac:(intros v f p H; apply one_page_at in H as (_ & -> & _); by vm_compute) eq_refl) as (w & E & _ & _ & _ & H).
  assert (P : private one_page 1 4194304) by (split; [done|]; split; [by vm_compute|]; split; [done|]; split; [by left|done]).
  destruct (H [(1, 4194304, 66); (2, 4194304, 67)]) as (w' & E' & V).
  - constructor; [by split; [left|]|]. constructor; [by split; [right|]|constructor].
  - exists w, w'. destruct (V 4194304 ltac:(by vm_compute)) as [V1 V2]. split; [exact E|]. split; [exact E'|]. split; [exact V1|exact V2].
Defined.
