(* ===== verification/ForkKernel.v ===== *)
(** * The kernel implements the environments that fork is written for

    Fork.v describes the system calls as a user program sees them: tables from virtual pages
    to frames. Here each of those descriptions is shown to be what the kernel's own code does
    (kern/syscall_all.c, kern/tlbex.c): frames are physical pages under a renaming, the bytes
    of a frame are the bytes of its page, and the table of an environment is what its page
    directory maps. *)

From Stdlib Require Import ZArith Lia.
From stdpp Require Import base numbers list gmap strings.
From S2P Require Import Prelude Queue Mmu Pmap PmapInv PmapOps PmapInsert PmapThms.
From S2P Require Import KState Elf Signo Env Sched TlbEx Signal Syscall Traps EnvThms SchedThms PmapFree EnvInv EnvSpec MemThms TlbThms IpcThms SysThms.
From S2P Require Import Str StrThms Wp Fork ForkThms.
Import LIST.

(** ** The relation *)

(** A page of the description and an entry of the page table. *)
Definition same_page (φ : Z -> Z) (n : Z) (o : option (Z * Z)) (k : option Z) : Prop :=
  match o, k with
  | None, None => True
  | Some (f, p), Some pte => 0 <= f < n /\ φ f = PPN pte /\ p = Z.land pte 4095
  | _, _ => False
  end.

(** A frame some environment maps in the user part. *)
Definition in_use (w : world) (f : Z) : Prop := exists e v p, 0 <= v < VPN UTOP /\ page w e v = Some (f, p).

(** [w] describes the environments [L] of the kernel state [s]; frame [f] is page [φ f]. *)
Record represents (L : list Z) (φ : Z -> Z) (s : kstate) (w : world) : Prop := {
  rp_env : forall i, i ∈ L -> ENVX (env_id (env s i)) = i /\ env_id (env s i) <> 0 /\
    (env_status (env s i) = ENV_RUNNABLE \/ env_status (env s i) = ENV_NOT_RUNNABLE);
  rp_tabs : forall id, is_Some (tabs w !! id) <-> exists i, i ∈ L /\ env_id (env s i) = id;
  rp_page : forall i v, i ∈ L -> 0 <= v < VPN UTOP ->
    same_page φ (nextf w) (page w (env_id (env s i)) v) (mapping s i (v * BY2PG));
  rp_inj : forall f g, in_use w f -> in_use w g -> φ f = φ g -> f = g;
  rp_data : forall f, in_use w f -> data_page (dirs s L) (phys (pm s)) (φ f);
  rp_bytes : forall f o, in_use w f -> 0 <= o < 4096 -> rd8 (fmem w) (f * 4096 + o) = page_byte (phys (pm s)) (φ f) o;
  rp_next : 0 <= nextf w /\ forall a, nextf w * 4096 <= a -> rd8 (fmem w) a = 0;
  rp_entry : (forall i, i ∈ L -> default 0 (modentry w !! env_id (env s i)) = env_user_tlb_mod_entry (env s i)) /\
    forall id, tabs w !! id = None -> modentry w !! id = None;
  rp_status : forall i st, i ∈ L -> status w !! env_id (env s i) = Some st -> env_status (env s i) = st;
  rp_queue : exists sl, run_queue s sl }.

Lemma VPN_mul v : VPN (v * BY2PG) = v.
Proof. rewrite VPN_div. unfold BY2PG. by apply Z.div_mul. Qed.

Lemma VPN_user va : user_va va -> 0 <= VPN va < VPN UTOP.
Proof. unfold user_va. rewrite !VPN_div. intros H. assert (E : UTOP = 2134900736) by reflexivity. rewrite E in *. dlia. Qed.

Lemma user_va_page v : 0 <= v < VPN UTOP -> user_va (v * BY2PG).
Proof. unfold user_va. rewrite !VPN_div. assert (E : UTOP = 2134900736) by reflexivity. rewrite E. unfold BY2PG. dlia. Qed.

(** The description's inputs do not matter. *)
Lemma represents_inputs L φ s w a l : represents L φ s w -> represents L φ s (set_ids l (set_answers a w)).
Proof. intros []. by split. Qed.

Section Rep.
Context (L : list Z) (ext : Z -> Z) (fl pfl : list Z) (φ : Z -> Z) (s : kstate) (w : world).
Context (I : kinv L ext fl pfl s) (R : represents L φ s w).

Lemma env_id_inj i j : i ∈ L -> j ∈ L -> env_id (env s i) = env_id (env s j) -> i = j.
Proof using R.
  intros Hi Hj E. destruct (rp_env _ _ _ _ R i Hi) as [H1 _], (rp_env _ _ _ _ R j Hj) as [H2 _]. congruence.
Qed.

(** A page in use belongs to an environment of [L], and is not free. *)
Lemma in_use_mapped f : in_use w f -> exists i v pte, i ∈ L /\ 0 <= v < VPN UTOP /\ mapping s i (v * BY2PG) = Some pte /\
  PPN pte = φ f /\ 0 <= f < nextf w.
Proof using R.
  intros (e & v & p & Hv & Hp). assert (He : is_Some (tabs w !! e)).
  { unfold page, tab in Hp. destruct (tabs w !! e); [by eexists|]. cbn in Hp. by rewrite lookup_empty in Hp. }
  apply (rp_tabs _ _ _ _ R) in He as (i & Hi & <-). pose proof (rp_page _ _ _ _ R i v Hi Hv) as S. rewrite Hp in S.
  destruct (mapping s i (v * BY2PG)) as [pte|] eqn:Em; [|done]. destruct S as (S1 & S2 & _). by exists i, v, pte.
Qed.

Lemma in_use_not_free f : in_use w f -> φ f ∉ pfl.
Proof using I R.
  intros (i & v & pte & Hi & Hv & Hm & <- & _)%in_use_mapped.
  by destruct (mapped_page L ext fl pfl s I i (v * BY2PG) Hi (user_va_page v Hv) pte Hm) as (_ & H & _).
Qed.

Lemma page_range e v f p : 0 <= v < VPN UTOP -> page w e v = Some (f, p) -> 0 <= f < nextf w.
Proof using R. intros Hv Hp. destruct (in_use_mapped f) as (i & v' & pte & _ & _ & _ & _ & H); [by exists e, v, p|done]. Qed.

(** What an environment of [L] sees of a page. *)
Lemma page_of i va : i ∈ L -> user_va va -> same_page φ (nextf w) (page w (env_id (env s i)) (VPN va)) (mapping s i va).
Proof using R.
  intros Hi Hva. replace (mapping s i va) with (mapping s i (VPN va * BY2PG)); [by apply R, VPN_user|].
  unfold mapping. apply lookup_pte_vpn. by rewrite VPN_mul.
Qed.
End Rep.

(** ** One entry of one table changes *)
Definition set_page (id v : Z) (o : option (Z * Z)) (w : world) : world :=
  set_tabs (<[id := match o with Some x => <[v := x]> (tab w id) | None => delete v (tab w id) end]> (tabs w)) w.

Lemma page_set w id v o e u : page (set_page id v o w) e u = if decide (id = e /\ v = u) then o else page w e u.
Proof.
  unfold page, set_page. rewrite tab_insert. destruct (decide (id = e)) as [<-|He].
  - destruct (decide (v = u)) as [<-|Hv].
    + rewrite decide_True by done. destruct o; [by rewrite lookup_insert_eq|by rewrite lookup_delete_eq].
    + rewrite decide_False by naive_solver. destruct o; [by rewrite lookup_insert_ne|by rewrite lookup_delete_ne].
  - by rewrite decide_False by naive_solver.
Qed.

Lemma set_page_id w id v : is_Some (tabs w !! id) -> set_page id v (page w id v) w = w.
Proof.
  intros [t Ht]. unfold set_page, page, tab. rewrite Ht. change (default ∅ (Some t)) with t. unfold set_tabs.
  assert (E : match t !! v with Some x => <[v:=x]> t | None => delete v t end = t).
  { destruct (t !! v) eqn:Ev; [by apply insert_id|by apply delete_id]. }
  rewrite E, insert_id by done. by destruct w.
Qed.

Section Change.
Context (L : list Z) (ext : Z -> Z) (fl pfl pfl' : list Z) (φ φ' : Z -> Z) (s s' : kstate) (w : world).
Context (I : kinv L ext fl pfl s) (R : represents L φ s w) (e va n : Z) (o : option (Z * Z)).
Context (He : e ∈ L) (Hva : user_va va) (St : memory_step L ext fl pfl' s s').
Context (Hm : same_mappings L e va s s') (Hd : same_data L pfl s s').
Context (Hφ : forall g, in_use w g -> φ' g = φ g) (Hn : nextf w <= n) (Ho : same_page φ' n o (mapping s' e va)).
Context (Hf : forall f p, o = Some (f, p) -> (forall g, in_use w g -> φ g = φ' f -> g = f) /\
  data_page (dirs s L) (phys (pm s')) (φ' f) /\
  forall x, 0 <= x < 4096 -> rd8 (fmem w) (f * 4096 + x) = page_byte (phys (pm s')) (φ' f) x).
Let id := env_id (env s e).
Let w' := set_nextf n (set_page id (VPN va) o w).

Lemma page_change i v : page w' i v = if decide (id = i /\ VPN va = v) then o else page w i v.
Proof using. apply (page_set w id (VPN va) o i v). Qed.

Lemma in_use_change f : in_use w' f -> in_use w f \/ exists p, o = Some (f, p).
Proof using.
  intros (i & v & p & Hv & Hp). rewrite page_change in Hp. destruct (decide _) as [_|_]; [right; by exists p|].
  left. by exists i, v, p.
Qed.

Lemma byte_kept f x : in_use w f -> data_page (dirs s L) (phys (pm s')) (φ f) /\
  page_byte (phys (pm s')) (φ f) x = page_byte (phys (pm s)) (φ f) x.
Proof using I R Hd.
  intros Hu. destruct (Hd (φ f)) as [H1 H2]; [by apply R|by apply (in_use_not_free L ext fl pfl φ s w)|].
  split; [done|]. unfold page_byte. by rewrite H2.
Qed.

Lemma represents_change : represents L φ' s' w'.
Proof using I R He Hva St Hm Hd Hφ Hn Ho Hf.
  pose proof (ms_only _ _ _ _ _ _ St) as Es.
  assert (Henv : forall i, env s' i = env s i) by (intros i; by rewrite Es).
  assert (Hdirs : dirs s' L = dirs s L) by (rewrite Es; reflexivity).
  assert (Hid : is_Some (tabs w !! id)) by (apply (rp_tabs _ _ _ _ R); by exists e).
  assert (Hφ' : forall f, in_use w' f -> (in_use w f /\ φ' f = φ f) \/ exists p, o = Some (f, p)).
  { intros f Hu. destruct (in_use_change f Hu) as [H|H]; [left; by rewrite Hφ|by right]. }
  assert (Hknown : forall x, is_Some (tabs w' !! x) <-> is_Some (tabs w !! x)) by (by apply known_insert).
  destruct R as [R1 R2 R3 R4 R5 R6 R7 R8 R9 R10]. split.
  - intros i. rewrite Henv. apply R1.
  - intros x. setoid_rewrite Henv. by rewrite Hknown, R2.
  - intros i v Hi Hv. rewrite Henv, page_change. destruct (decide _) as [[E1 E2]|Hne].
    + assert (e = i) as <- by (by apply (env_id_inj L φ s w R)). subst v.
      replace (mapping s' e (VPN va * BY2PG)) with (mapping s' e va); [exact Ho|].
      unfold mapping. apply lookup_pte_vpn. by rewrite VPN_mul.
    + rewrite Hm; [|done|by apply user_va_page|rewrite VPN_mul; intros [-> ->]; by apply Hne].
      pose proof (R3 i v Hi Hv) as S. unfold same_page in *. destruct (page w _ v) as [[f p]|] eqn:Ep; [|done].
      destruct (mapping s i _); [|done]. destruct S as (S1 & S2 & S3). split; [cbn [nextf set_nextf w']; lia|].
      split; [|done]. rewrite Hφ; [done|]. by exists (env_id (env s i)), v, p.
  - assert (Hself : forall f g p, o = Some (f, p) -> in_use w g -> φ' f = φ' g -> f = g).
    { intros f g p Hof Hg E. symmetry. apply (Hf f p Hof); [done|]. by rewrite E, Hφ. }
    intros f g Hu Hg E. destruct (Hφ' f Hu) as [[Hu' Ef]|[p Hof]], (Hφ' g Hg) as [[Hg' Eg]|[q Hog]].
    + apply R4; [done..|congruence].
    + symmetry. by apply (Hself g f q).
    + by apply (Hself f g p).
    + congruence.
  - intros f Hu. rewrite Hdirs. destruct (Hφ' f Hu) as [[Hu' ->]|[p Hof]]; [by apply (byte_kept f 0)|by apply (Hf f p)].
  - intros f x Hu Hx. cbn [fmem set_nextf set_page set_tabs w']. destruct (Hφ' f Hu) as [[Hu' ->]|[p Hof]].
    + destruct (byte_kept f x Hu') as [_ ->]. by apply R6.
    + by apply (Hf f p).
  - destruct R7 as [H1 H2]. cbn [nextf fmem set_nextf set_page set_tabs w']. split; [lia|]. intros a Ha. apply H2. lia.
  - setoid_rewrite Henv. destruct R8 as [H1 H2]. split; [exact H1|]. intros x Hx. apply H2.
    destruct (tabs w !! x) eqn:Ex; [|done]. assert (H : is_Some (tabs w' !! x)) by (apply Hknown; by eexists). by rewrite Hx in H; destruct H.
  - intros i st. rewrite Henv. apply R9.
  - destruct R10 as [sl [Q1 Q2]]. exists sl. split; [rewrite Es; exact Q1|]. intros i. by rewrite Henv.
Qed.
End Change.

(** ** Naming an environment *)

(** The caller may name itself and its children; the description does not know of parents. *)
Definition permitted (s : kstate) (c envid : Z) : Prop := is_u32 envid /\
  (envid = 0 \/ ENVX envid = c \/ env_parent_id (env s (ENVX envid)) = env_id (env s c)).

Section Calls.
Context (ext : Z -> Z) (c : Z).
Implicit Types (s : kstate) (w : world).

(** The kernel, trapped by [c], and its description. *)
Definition described s w : Prop := exists L fl pfl φ, caller L ext fl pfl c s /\ represents L φ s w.

(** A call of the kernel and its description: for some inputs of the description both return
    the same result, in states that correspond again. *)
Definition implements (s : kstate) (w : world) (k : K Z) (d : Z -> W Z) : Prop :=
  exists r s' w' a l, k s = Val r s' /\ d (env_id (env s c)) (set_ids l (set_answers a w)) = Val r w' /\ described s' w'.

Section State.
Context (L : list Z) (fl pfl : list Z) (φ : Z -> Z) (s : kstate) (w : world).
Context (C : caller L ext fl pfl c s) (R : represents L φ s w).
Let me := env_id (env s c).

Lemma resolve_known envid : permitted s c envid ->
  match resolve s envid true with
  | Some e => e ∈ L /\ env_of me envid = env_id (env s e) /\ is_Some (tabs w !! env_of me envid)
  | None => tabs w !! env_of me envid = None
  end.
Proof using C R.
  intros [Hu Hp]. destruct C as [I F Hc HcL]. destruct (resolve s envid true) as [e|] eqn:E.
  - pose proof (resolve_live _ _ _ _ _ _ _ _ _ I F Hc HcL Hu E) as He. split; [done|].
    assert (Hid : env_of me envid = env_id (env s e)).
    { unfold resolve in E. rewrite Hc in E. unfold env_of. destruct (Z.eqb_spec envid 0); [by injection E as <-|].
      destruct (Z.eqb_spec (env_id (env s (ENVX envid))) envid) as [Hid|]; [|by rewrite orb_true_r in E].
      destruct (_ || _) in E; [done|]. destruct (_ || _) in E; [injection E as <-|done]. by rewrite Hid. }
    split; [done|]. rewrite Hid. apply (rp_tabs _ _ _ _ R). by exists e.
  - destruct (tabs w !! env_of me envid) eqn:Et; [|done]. exfalso.
    assert (H : is_Some (tabs w !! env_of me envid)) by by eexists.
    apply (rp_tabs _ _ _ _ R) in H as (i & Hi & Hid). destruct (rp_env _ _ _ _ R i Hi) as (Hx & _ & Hs).
    unfold resolve in E. unfold env_of in Hid. rewrite Hc in E. destruct (Z.eqb_spec envid 0); [done|].
    rewrite Hid in Hx. subst i. rewrite Hid, Z.eqb_refl in E.
    assert (Hf : (env_status (env s (ENVX envid)) =? ENV_FREE) = false) by (by destruct Hs as [-> | ->]). rewrite Hf in E.
    cbn [orb negb] in E. destruct Hp as [|[Hp|Hp]]; [done| |]; rewrite Hp, Z.eqb_refl in E; by rewrite ?orb_true_r in E.
Qed.

Lemma memory_caller pfl' s' : memory_step L ext fl pfl' s s' -> caller L ext fl pfl' c s'.
Proof using C.
  intros [Es Is _ _ _]. destruct C as [I F Hc HcL]. split; [done| | |done]; rewrite Es; done.
Qed.

Lemma described_here a l : described s (set_ids l (set_answers a w)).
Proof using C R. exists L, fl, pfl, φ. split; [done|]. by apply represents_inputs. Qed.
End State.

(** An operation on memory that leaves the mapping of [va] as it was. *)
Lemma represents_same L fl pfl pfl' φ s s' w e va : kinv L ext fl pfl s -> represents L φ s w -> e ∈ L -> user_va va ->
  memory_step L ext fl pfl' s s' -> same_mappings L e va s s' -> same_data L pfl s s' -> mapping s' e va = mapping s e va ->
  represents L φ s' w.
Proof.
  intros I R He Hva St Hm Hd Hsame.
  assert (Hk : is_Some (tabs w !! env_id (env s e))) by (apply (rp_tabs _ _ _ _ R); by exists e).
  pose proof (page_of L φ s w R e va He Hva) as S.
  pose proof (represents_change L ext fl pfl pfl' φ φ s s' w I R e va (nextf w) (page w (env_id (env s e)) (VPN va)) He Hva St Hm Hd
    ltac:(done) ltac:(lia) ltac:(by rewrite Hsame)) as H.
  rewrite set_page_id in H by done. destruct w; apply H. intros f p Hp.
  assert (Hu : in_use (mkWorld tabs fmem nextf answers ids modentry status) f) by (exists (env_id (env s e)), (VPN va), p; split; [by apply VPN_user|done]).
  split; [intros g Hg; by apply (rp_inj _ _ _ _ R)|]. split; [by apply (byte_kept L ext fl pfl φ s s' _ I R Hd f 0)|].
  intros x Hx. destruct (byte_kept L ext fl pfl φ s s' _ I R Hd f x Hu) as [_ ->]. by apply (rp_bytes _ _ _ _ R).
Qed.

Lemma land_mk_pte pp perm : 0 <= pp < 1048576 -> 0 <= perm < 4096 -> Z.land (mk_pte pp perm) 4095 = Z.lor perm PTE_V.
Proof.
  intros Hp Hq. unfold mk_pte. rewrite page2pa_mul by done. change 4095 with (Z.ones 12). rewrite !Z.land_lor_distr_l.
  rewrite !land_ones_mod by lia. change (2 ^ 12) with 4096. rewrite Z_mod_mult, Z.lor_0_l, (Z.mod_small perm) by done. done.
Qed.

(** A fresh page is mapped at [va]. *)
Lemma represents_alloc L fl p pfl1 pfl' φ s s' w e va perm : kinv L ext fl (p :: pfl1) s -> represents L φ s w ->
  e ∈ L -> user_va va -> 0 <= perm < 4096 -> memory_step L ext fl pfl' s s' -> same_mappings L e va s s' ->
  same_data L (p :: pfl1) s s' -> mapping s' e va = Some (mk_pte p perm) -> (forall i, word (phys (pm s')) p i = 0) ->
  pp_ref (pm s') p = 1 ->
  represents L (fun f => if f =? nextf w then p else φ f) s' (map_fresh (env_id (env s e)) (VPN va) perm w).
Proof.
  intros I R He Hu Hperm St Hm Hd Hmap Hz Hp1. destruct (rp_next _ _ _ _ R) as [N1 N2].
  assert (Hr : 0 <= p < npage (pm s)) by (apply (inv_fl_range _ _ _ _ (k_pm _ _ _ _ _ I)); left).
  pose proof (wf_npage _ _ _ (inv_mem _ _ _ _ (k_pm _ _ _ _ _ I))) as Hnp.
  assert (Hmk : PPN (mk_pte p perm) = p) by (apply PPN_mk_pte; lia).
  apply (represents_change L ext fl (p :: pfl1) pfl' φ _ s s' w I R e va _ (Some (nextf w, Z.lor perm PTE_V)) He Hu St Hm Hd).
  - intros g Hg. destruct (in_use_mapped L φ s w R g Hg) as (_ & _ & _ & _ & _ & _ & _ & Hlt).
    by destruct (Z.eqb_spec g (nextf w)); [lia|].
  - lia.
  - rewrite Hmap. cbn [same_page]. rewrite Z.eqb_refl, Hmk, land_mk_pte by lia. lia.
  - intros f q [= <- <-]. rewrite Z.eqb_refl. split.
    { intros g Hg Eg. pose proof (in_use_not_free L ext fl (p :: pfl1) φ s w I R g Hg) as Hn.
      rewrite Eg in Hn. destruct Hn. left. }
    split.
    + assert (HD : dirs s' L = dirs s L) by (rewrite (ms_only _ _ _ _ _ _ St); reflexivity).
      rewrite <- HD, <- Hmk. apply (counted_once _ ext pfl' (pm s') (dir_of s' e) va);
        [apply St|by apply elem_of_dirs|done|exact Hmap|by rewrite Hmk].
    + intros x Hx. rewrite N2 by lia. unfold page_byte, word_byte. by rewrite Hz, Z.shiftr_0_l.
Qed.

Lemma exists_env_eq w me envid : exists_env me envid w = Val (bool_decide (is_Some (Fork.tabs w !! env_of me envid))) w.
Proof. done. Qed.

Section Impl.
Context (s : kstate) (w : world) (D : described s w).
Let me := env_id (env s c).

(** A call that changes nothing. *)
Lemma impl_unchanged k d r a l a' l' : k s = Val r s ->
  d me (set_ids l (set_answers a w)) = Val r (set_ids l' (set_answers a' w)) -> implements s w k d.
Proof using D.
  intros E1 E2. exists r, s. do 3 eexists. split; [exact E1|]. split; [exact E2|].
  destruct D as (L & fl & pfl & φ & C & R). by apply (described_here L fl pfl φ).
Qed.

(** The kernel and the description agree on whether the environment may be named. *)
Lemma impl_bad_env envid (k : cres (option Z) -> K Z) (d : Z -> bool -> W Z) : permitted s c envid ->
  (k (Err (- E_BAD_ENV)) s = Val (- E_BAD_ENV) s) -> (forall w', d me false w' = Val (- E_BAD_ENV) w') ->
  (forall L fl pfl φ e, caller L ext fl pfl c s -> represents L φ s w -> e ∈ L -> resolve s envid true = Some e ->
    env_of me envid = env_id (env s e) -> is_Some (tabs w !! env_of me envid) -> implements s w (k (Ok (Some e))) (fun me => d me true)) ->
  implements s w (envid2env envid true ≫= k) (fun me => exists_env me envid ≫= d me).
Proof using D.
  intros Hp K1 D1 HS. pose proof D as (L & fl & pfl & φ & C & R). pose proof C as [I F Hc HcL].
  pose proof (resolve_known L fl pfl φ s w C R envid Hp) as Hk. fold me in Hk.
  assert (EK : (envid2env envid true ≫= k) s = k (match resolve s envid true with
    | Some e => Ok (Some e) | None => Err (- E_BAD_ENV) end) s) by exact (bind_val _ _ _ _ _ (envid2env_resolve s c envid true Hc)).
  destruct (resolve s envid true) as [e|] eqn:Er.
  - destruct Hk as (He & Hid & Hks). destruct (HS L fl pfl φ e C R He eq_refl Hid Hks) as (r & s' & w' & a & l & E1 & E2 & D').
    exists r, s', w', a, l. split; [by rewrite EK|]. split; [|done].
    rewrite (bind_val _ _ _ _ _ (exists_env_eq _ _ _)). fold me. cbn [Fork.tabs set_ids set_answers].
    by rewrite bool_decide_true.
  - apply (impl_unchanged _ _ (- E_BAD_ENV) [] [] [] []); [by rewrite EK|].
    rewrite (bind_val _ _ _ _ _ (exists_env_eq _ _ _)). cbn [Fork.tabs set_ids set_answers]. by rewrite Hk.
Qed.

Lemma alloc_implements envid va perm : permitted s c envid -> 0 <= perm < 4096 ->
  implements s w (sys_mem_alloc envid va perm) (fun me => mem_alloc me envid va perm).
Proof using D.
  intros Hp Hperm. unfold sys_mem_alloc, mem_alloc.
  destruct (is_illegal_va va) eqn:Hva; [by apply (impl_unchanged _ _ (- E_INVAL) [] [] [] [])|].
  apply legal_user in Hva as Hu. apply impl_bad_env; [done..|]. intros L fl pfl φ e C R He Er Hid Hks. pose proof C as [I F Hc HcL].
  assert (EK : forall r s', alloc_at e va perm s = Val r s' -> (rp ← pmap_op page_alloc; match rp with Err r => mret r | Ok pp =>
    e ← env_deref (Some e); pgdir ← get_env e env_pgdir; asid ← get_env e env_asid; pmap_op (page_insert pgdir asid pp va perm) end) s = Val r s').
  { intros r s' <-. by apply bind_ext; intros [r'|p] s1. }
  destruct pfl as [|p pfl1].
  { apply (impl_unchanged _ _ (- E_NO_MEM) [false] [] [] []); [|done]. by apply EK, (alloc_at_none L ext fl). }
  destruct (alloc_at_run L ext fl p pfl1 s e va perm I He Hu Hperm) as (r & s' & pfl' & E & St & Hm & Hd & Hnin & Hres).
  destruct Hres as [(-> & Hmap & Hz & Hp1)|(-> & _ & Hsame & _)].
  - exists 0, s'. eexists. exists [], []. split; [by apply EK|]. split.
    { reflexivity. }
    exists L, fl, pfl', (fun f => if f =? nextf w then p else φ f). split; [by apply (memory_caller L fl (p :: pfl1) s)|].
    fold me. rewrite Hid. by apply (represents_alloc L fl p pfl1 pfl' φ s s' (set_ids [] (set_answers [] w)) e va perm I
      (represents_inputs _ _ _ _ _ _ R) He Hu Hperm St Hm Hd).
  - exists (- E_NO_MEM), s', (set_ids [] (set_answers [] w)), [false], []. split; [by apply EK|]. split; [done|].
    exists L, fl, pfl', φ. split; [by apply (memory_caller L fl (p :: pfl1) s)|].
    apply represents_inputs. by apply (represents_same L fl (p :: pfl1) pfl' φ s s' w e va).
Qed.
Lemma map_implements srcid srcva dstid dstva perm : permitted s c srcid -> permitted s c dstid -> 0 <= perm < 4096 ->
  (forall p, pp_ref (pm s) p < 65535) ->
  implements s w (sys_mem_map srcid srcva dstid dstva perm) (fun me => mem_map me srcid srcva dstid dstva perm).
Proof using D.
  intros Hp1 Hp2 Hperm H16. pose proof D as (L & fl & pfl & φ & C & R). pose proof C as [I F Hc HcL].
  destruct (is_illegal_va srcva || is_illegal_va dstva) eqn:Hv.
  { apply (impl_unchanged _ _ (- E_INVAL) [] [] [] []); unfold sys_mem_map, mem_map; by rewrite Hv. }
  apply orb_false_iff in Hv as [Hv1 Hv2]. apply legal_user in Hv1 as Hu1. apply legal_user in Hv2 as Hu2.
  pose proof (resolve_known L fl pfl φ s w C R srcid Hp1) as Hk1. pose proof (resolve_known L fl pfl φ s w C R dstid Hp2) as Hk2.
  fold me in Hk1, Hk2.
  assert (ED : forall a l, mem_map me srcid srcva dstid dstva perm (set_ids l (set_answers a w)) =
    (if negb (bool_decide (is_Some (Fork.tabs w !! env_of me srcid)) && bool_decide (is_Some (Fork.tabs w !! env_of me dstid)))
     then mret (- E_BAD_ENV) else
     p ← gets (fun w => page w (env_of me srcid) (VPN srcva));
     match p with
     | None => mret (- E_INVAL)
     | Some (f, _) => b ← ask; if b : bool then modify (map_page (env_of me dstid) (VPN dstva) f perm) ;; mret 0 else mret (- E_NO_MEM)
     end) (set_ids l (set_answers a w))) by (intros a l; unfold mem_map; by rewrite Hv1, Hv2).
  assert (Hbad : sys_mem_map srcid srcva dstid dstva perm s = Val (- E_BAD_ENV) s ->
    bool_decide (is_Some (Fork.tabs w !! env_of me srcid)) && bool_decide (is_Some (Fork.tabs w !! env_of me dstid)) = false ->
    implements s w (sys_mem_map srcid srcva dstid dstva perm) (fun me => mem_map me srcid srcva dstid dstva perm)).
  { intros E Hb. apply (impl_unchanged _ _ (- E_BAD_ENV) [] [] [] []); [done|]. by rewrite ED, Hb. }
  destruct (resolve s srcid true) as [src|] eqn:Er1.
  2:{ apply Hbad; [|by rewrite Hk1]. unfold sys_mem_map. rewrite Hv1, Hv2. cbn [orb].
      by rewrite (bind_val _ _ _ _ _ (envid2env_resolve s c srcid true Hc)), Er1. }
  destruct (resolve s dstid true) as [dst|] eqn:Er2.
  2:{ apply Hbad; [|by rewrite Hk2, andb_false_r]. unfold sys_mem_map. rewrite Hv1, Hv2. cbn [orb].
      rewrite (bind_val _ _ _ _ _ (envid2env_resolve s c srcid true Hc)), Er1.
      by rewrite (bind_val _ _ _ _ _ (envid2env_resolve s c dstid true Hc)), Er2. }
  destruct Hk1 as (Hs & Hid1 & Hks1), Hk2 as (Hd & Hid2 & Hks2). rewrite !bool_decide_true in ED by done.
  pose proof (sys_mem_map_at s c srcid src srcva dstid dst dstva perm Hc Hv1 Hv2 Er1 Er2) as EK.
  pose proof (map_at_run L ext fl pfl s src srcva dst dstva perm I Hs Hd Hu1 Hu2 Hperm H16) as Hrun.
  pose proof (page_of L φ s w R src srcva Hs Hu1) as Hpg. rewrite <- Hid1 in Hpg.
  destruct (mapping s src srcva) as [pte|] eqn:Em, (page w (env_of me srcid) (VPN srcva)) as [[f q]|] eqn:Ep; try done.
  2:{ apply (impl_unchanged _ _ (- E_INVAL) [] [] [] []); [by rewrite EK|]. rewrite ED. cbn [negb andb]. rewrite bind_gets.
      change (page (set_ids _ _)) with (page w). by rewrite Ep. }
  destruct Hpg as (Hf1 & Hf2 & _), Hrun as (Hnin & r & s' & pfl' & E & St & Hm & Hdat & Hres).
  assert (Hu : in_use w f) by (exists (env_of me srcid), (VPN srcva), q; split; [by apply VPN_user|done]).
  destruct Hres as [(-> & Hmap & Hpp)|(-> & _ & Hsame)].
  - exists 0, s'. eexists. exists [], []. split; [by rewrite EK|]. split.
    { rewrite ED. cbn [negb andb]. rewrite bind_gets. change (page (set_ids _ _)) with (page w). rewrite Ep. reflexivity. }
    exists L, fl, pfl', φ. split; [by apply (memory_caller L fl pfl s)|]. rewrite Hid2.
    destruct (mapped_page L ext fl pfl s I src srcva Hs Hu1 pte Em) as (Hr & _ & _).
    pose proof (wf_npage _ _ _ (inv_mem _ _ _ _ (k_pm _ _ _ _ _ I))) as Hnp.
    apply (represents_change L ext fl pfl pfl' φ φ s s' (set_ids [] (set_answers [] w)) I
      (represents_inputs _ _ _ _ _ _ R) dst dstva (nextf w) (Some (f, Z.lor perm PTE_V)) Hd Hu2 St Hm Hdat); [done|done| |].
    + rewrite Hmap. cbn [same_page]. rewrite Hpp, land_mk_pte by lia. done.
    + intros f' q' [= <- <-]. split; [intros g Hg; by apply (rp_inj _ _ _ _ R)|].
      split; [by apply (byte_kept L ext fl pfl φ s s' w I R Hdat f 0)|]. intros x Hx.
      destruct (byte_kept L ext fl pfl φ s s' w I R Hdat f x Hu) as [_ ->]. by apply (rp_bytes _ _ _ _ R).
  - exists (- E_NO_MEM), s', (set_ids [] (set_answers [] w)), [false], []. split; [by rewrite EK|]. split.
    { rewrite ED. cbn [negb andb]. rewrite bind_gets. change (page (set_ids _ _)) with (page w). by rewrite Ep. }
    exists L, fl, pfl', φ. split; [by apply (memory_caller L fl pfl s)|].
    apply represents_inputs. by apply (represents_same L fl pfl pfl' φ s s' w dst dstva).
Qed.

Lemma unmap_implements envid va : permitted s c envid ->
  implements s w (sys_mem_unmap envid va) (fun me => mem_unmap me envid va).
Proof using D.
  intros Hp. unfold sys_mem_unmap, mem_unmap.
  destruct (is_illegal_va va) eqn:Hva; [by apply (impl_unchanged _ _ (- E_INVAL) [] [] [] [])|].
  apply legal_user in Hva as Hu. apply impl_bad_env; [done..|]. intros L fl pfl φ e C R He Er Hid Hks. pose proof C as [I F Hc HcL].
  destruct (unmap_at_run L ext fl pfl s e va I He Hu) as (s' & pfl' & E & St & Hm & Hd & Hnone & _).
  exists 0, s'. eexists. exists [], []. split; [exact E|]. split; [reflexivity|].
  exists L, fl, pfl', φ. split; [by apply (memory_caller L fl pfl s)|]. fold me. rewrite Hid.
  apply (represents_change L ext fl pfl pfl' φ φ s s' (set_ids [] (set_answers [] w)) I
    (represents_inputs _ _ _ _ _ _ R) e va (nextf w) None He Hu St Hm Hd); [done|done| |done]. by rewrite Hnone.
Qed.
(** A change of other fields of the environment [e]. *)
Lemma env_change L fl pfl φ e s' w' : caller L ext fl pfl c s -> represents L φ s w -> e ∈ L ->
  pm s' = pm s -> env_free_list s' = env_free_list s -> asid_bitmap s' = asid_bitmap s -> base_pgdir s' = base_pgdir s ->
  curenv s' = curenv s -> (forall i, i <> e -> env s' i = env s i) ->
  env_id (env s' e) = env_id (env s e) /\ env_pgdir (env s' e) = env_pgdir (env s e) /\ env_asid (env s' e) = env_asid (env s e) ->
  env_status (env s' e) = ENV_RUNNABLE \/ env_status (env s' e) = ENV_NOT_RUNNABLE ->
  tabs w' = tabs w -> fmem w' = fmem w -> nextf w' = nextf w ->
  default 0 (modentry w' !! env_id (env s e)) = env_user_tlb_mod_entry (env s' e) ->
  (forall st, status w' !! env_id (env s e) = Some st -> env_status (env s' e) = st) ->
  (forall id, id <> env_id (env s e) -> modentry w' !! id = modentry w !! id /\ status w' !! id = status w !! id) ->
  (exists sl, run_queue s' sl) -> described s' w'.
Proof using.
  intros [I F Hc HcL] R He Epm Efl Eas Eb Ec Eo (Eid & Epg & Easid) Hst Et Ef En Hmod Hstat Hoth Hq.
  assert (Hall : forall i, env_id (env s' i) = env_id (env s i) /\ env_pgdir (env s' i) = env_pgdir (env s i) /\ env_asid (env s' i) = env_asid (env s i)).
  { intros i. destruct (decide (i = e)) as [->|Hne]; [done|]. by rewrite Eo. }
  assert (Hdir : forall i, dir_of s' i = dir_of s i) by (intros i; unfold dir_of; by destruct (Hall i) as (_ & -> & _)).
  assert (HD : dirs s' L = dirs s L) by (apply map_ext_in; intros i _; apply Hdir).
  assert (Hpage : forall i v, page w' i v = page w i v) by (intros i v; unfold page, tab; by rewrite Et).
  assert (Huse : forall f, in_use w' f -> in_use w f) by (intros f (i & v & p & Hv & Hp); exists i, v, p; by rewrite <- Hpage).
  assert (Hne : forall i, i ∈ L -> i <> e -> env_id (env s i) <> env_id (env s e)).
  { intros i Hi Hie E. by apply Hie, (env_id_inj L φ s w R). }
  exists L, fl, pfl, φ. split.
  - split; [|intros i Hi; rewrite Eo; [by apply F|intros ->; by apply (k_disj _ _ _ _ _ I e)]|congruence|done].
    apply (kinv_ext _ _ _ _ s); try done. intros i _. by destruct (Hall i) as (_ & ? & ?).
  - destruct R as [R1 R2 R3 R4 R5 R6 R7 R8 R9 R10]. split.
    + intros i Hi. destruct (Hall i) as (-> & _). destruct (R1 i Hi) as (H1 & H2 & H3). split_and!; [done..|].
      destruct (decide (i = e)) as [->|Hie]; [done|by rewrite Eo].
    + intros id. rewrite Et, R2. split; intros (i & Hi & <-); exists i; by destruct (Hall i) as (-> & _).
    + intros i v Hi Hv. destruct (Hall i) as (-> & _). unfold mapping. rewrite Hpage, En, Epm, Hdir. by apply R3.
    + intros f g Hf Hg. apply R4; auto.
    + intros f Hf. rewrite HD, Epm. auto.
    + intros f o Hf Ho. rewrite Ef, Epm. auto.
    + by rewrite En, Ef.
    + destruct R8 as [H1 H2]. split.
      * intros i Hi. destruct (Hall i) as (-> & _). destruct (decide (i = e)) as [->|Hie]; [done|].
        destruct (Hoth _ (Hne i Hi Hie)) as [-> _]. rewrite Eo by done. by apply H1.
      * intros id. rewrite Et. intros Hid. destruct (decide (id = env_id (env s e))) as [->|Hie].
        { assert (H : is_Some (tabs w !! env_id (env s e))) by (apply R2; by exists e). rewrite Hid in H. by destruct H. }
        destruct (Hoth _ Hie) as [-> _]. by apply H2.
    + intros i st Hi. destruct (Hall i) as (-> & _). destruct (decide (i = e)) as [->|Hie]; [apply Hstat|].
      destruct (Hoth _ (Hne i Hi Hie)) as [_ ->]. rewrite Eo by done. by apply R9.
    + done.
Qed.

Lemma set_entry_implements envid f : permitted s c envid ->
  implements s w (sys_set_tlb_mod_entry envid f) (fun me => set_tlb_mod_entry me envid f).
Proof using D.
  intros Hp. unfold sys_set_tlb_mod_entry, set_tlb_mod_entry. apply impl_bad_env; [done..|].
  intros L fl pfl φ e C R He Er Hid Hks. cbn [negb env_deref lift_opt].
  exists 0, (put_env e (with_env_user_tlb_mod_entry f) s). eexists. exists [], []. split; [by mstep|]. split; [reflexivity|].
  assert (He' : forall i, env (put_env e (with_env_user_tlb_mod_entry f) s) i =
    if decide (e = i) then with_env_user_tlb_mod_entry f (env s e) else env s i) by (intros i; apply env_put).
  destruct (rp_env _ _ _ _ R e He) as (_ & _ & Hst). destruct (rp_queue _ _ _ _ R) as (sl & Q1 & Q2).
  apply (env_change L fl pfl φ e); try done.
  - intros i Hi. by rewrite He', decide_False by congruence.
  - by rewrite He', decide_True.
  - by rewrite He', decide_True.
  - fold me. rewrite Hid, He', decide_True by done. cbn [modentry set_modentry set_ids set_answers]. by rewrite lookup_insert_eq.
  - intros st Hs. rewrite He', decide_True by done. by apply (rp_status _ _ _ _ R).
  - intros id Hne. fold me. rewrite Hid. cbn [modentry status set_modentry set_ids set_answers]. by rewrite lookup_insert_ne.
  - exists sl. split; [exact Q1|]. intros i. rewrite He', Q2. by destruct (decide (e = i)) as [<-|].
Qed.

Lemma set_status_implements envid st : permitted s c envid -> st = ENV_RUNNABLE \/ st = ENV_NOT_RUNNABLE ->
  implements s w (sys_set_env_status envid st) (fun me => set_env_status me envid st).
Proof using D.
  intros Hp Hst. pose proof D as (L & fl & pfl & φ & C & R). pose proof C as [I F Hc HcL].
  pose proof (resolve_known L fl pfl φ s w C R envid Hp) as Hk. fold me in Hk. unfold set_env_status.
  destruct (resolve s envid true) as [e|] eqn:Er.
  2:{ apply (impl_unchanged _ _ (- E_BAD_ENV) [] [] [] []).
      - unfold sys_set_env_status. destruct Hst as [-> | ->]; cbn [Z.eqb ENV_RUNNABLE ENV_NOT_RUNNABLE Pos.eqb negb andb];
          by rewrite (bind_val _ _ _ _ _ (envid2env_resolve s c envid true Hc)), Er.
      - rewrite (bind_val _ _ _ _ _ (exists_env_eq _ _ _)). cbn [Fork.tabs set_ids set_answers]. by rewrite Hk. }
  destruct Hk as (He & Hid & Hks). destruct (rp_env _ _ _ _ R e He) as (_ & _ & Hold). destruct (rp_queue _ _ _ _ R) as (sl & Q).
  destruct (set_env_status_run s c sl envid st e Hc Q Hst Er Hold) as (s' & E & Q' & He' & Es).
  exists 0, s'. eexists. exists [], []. split; [exact E|]. split.
  { rewrite (bind_val _ _ _ _ _ (exists_env_eq _ _ _)), bool_decide_true by done. reflexivity. }
  apply (env_change L fl pfl φ e); try done; try (by rewrite Es).
  - intros i Hi. by rewrite He', decide_False by congruence.
  - by rewrite He', decide_True.
  - by rewrite He', decide_True.
  - rewrite He', decide_True by done. by apply (proj1 (rp_entry _ _ _ _ R)).
  - intros st'. fold me. rewrite Hid, He', decide_True by done. cbn [status Fork.set_status set_ids set_answers]. rewrite lookup_insert_eq. by intros [= <-].
  - intros id Hne. fold me. rewrite Hid. cbn [modentry status Fork.set_status set_ids set_answers]. by rewrite lookup_insert_ne.
  - by exists (requeued (env_status (env s e)) st e sl).
Qed.
(** [sys_exofork] needs a page for the directory and an ASID: the code does not test for either. *)
Lemma exofork_implements : 0 <= mkenvid_i s < 2097151 ->
  (LIST_EMPTY (env_free_list s) = true \/
   (LIST_EMPTY (page_free_list (pm s)) = false /\ is_Some (find (asid_is_free s) (zseq 0 (Z.to_nat NASID))))) ->
  implements s w sys_exofork (fun _ => exofork).
Proof using D.
  intros Hn Hres. pose proof D as (L & fl & pfl & φ & C & R). pose proof C as [I F Hc HcL].
  destruct fl as [|e fl].
  { apply (impl_unchanged _ _ (- E_NO_FREE_ENV) [] [] [] []); [|done]. by apply (exofork_none L ext pfl c). }
  destruct Hres as [He|[Hpf [a Ha]]]; [by apply (is_list_empty _ _ (k_free _ _ _ _ _ I)) in He|].
  destruct pfl as [|p pfl].
  { by rewrite (proj2 (is_list_empty _ _ (inv_fl _ _ _ _ (k_pm _ _ _ _ _ I))) eq_refl) in Hpf. }
  destruct (exofork_ok L ext e fl p pfl c s a C Hn Ha) as (s' & E & [KC KQ KO KE KM KD [KN KR] KV]).
  assert (He : 0 <= e < 1024) by (apply (k_part _ _ _ _ _ I); left; left).
  set (r := env_id (env s' e)) in *. assert (Hr : 0 < r) by lia.
  assert (Hx : ENVX r = e) by (rewrite ENVX_mod by lia; rewrite KN; dlia).
  assert (HeL : e ∉ L) by (apply (k_disj _ _ _ _ _ I); left).
  assert (Hnew : tabs w !! r = None).
  { destruct (tabs w !! r) eqn:Et; [|done]. assert (H : is_Some (tabs w !! r)) by by eexists.
    apply (rp_tabs _ _ _ _ R) in H as (i & Hi & Hid). destruct (rp_env _ _ _ _ R i Hi) as (H & _). rewrite Hid, Hx in H. by rewrite <- H in Hi. }
  assert (HrL : forall i, i ∈ L -> env_id (env s i) <> r).
  { intros i Hi Hid. assert (H : is_Some (tabs w !! r)) by (apply R; by exists i). rewrite Hnew in H. by destruct H. }
  assert (Ho : forall i, i ∈ L -> env s' i = env s i) by (intros i Hi; apply KO; by intros ->).
  exists r, s'. eexists. exists [], [r]. split; [exact E|]. split.
  { unfold exofork. cbn [ids set_ids]. rewrite bind_gets. cbn [ids set_ids]. rewrite bind_modify.
    assert (Hlt : (0 <? r) = true) by (by apply Z.ltb_lt). rewrite Hlt. reflexivity. }
  exists (e :: L), fl, pfl, φ. split; [exact KC|].
  set (w' := set_tabs _ _).
  assert (Hpage : forall x v, page w' x v = if decide (x = r) then None else page w x v).
  { intros x v. unfold page, tab, w'. cbn [tabs set_tabs Fork.set_status set_ids set_answers]. destruct (decide (x = r)) as [->|Hne].
    - rewrite lookup_insert_eq. cbn. by rewrite lookup_empty.
    - by rewrite lookup_insert_ne. }
  assert (Huse : forall f, in_use w' f -> in_use w f).
  { intros f (x & v & q & Hv & Hp). rewrite Hpage in Hp. destruct (decide (x = r)); [done|]. by exists x, v, q. }
  pose proof (rp_queue _ _ _ _ R) as (sl & Q1 & Q2).
  assert (Hst : env_status (env s' e) = ENV_NOT_RUNNABLE) by (by rewrite KV).
  assert (Hdir : forall f, in_use w' f -> data_page (dirs s' (e :: L)) (phys (pm s')) (φ f) /\
    forall i, word (phys (pm s')) (φ f) i = word (phys (pm s)) (φ f) i).
  { intros f Hf. apply KD; [by apply R, Huse|]. by apply (in_use_not_free L ext (e :: fl) (p :: pfl) φ s w I R), Huse. }
  split.
  - intros i [->|Hi]%elem_of_cons.
    + fold r. split; [done|]. split; [lia|]. by right.
    + rewrite Ho by done. by apply R.
  - intros x. unfold w'. cbn [tabs set_tabs Fork.set_status set_ids set_answers]. destruct (decide (x = r)) as [->|Hne].
    + rewrite lookup_insert_eq. split; [|by eexists]. intros _. exists e. by split; [left|].
    + rewrite lookup_insert_ne by done. rewrite (rp_tabs _ _ _ _ R). split.
      * intros (i & Hi & <-). exists i. split; [by right|]. by rewrite Ho.
      * intros (i & [->|Hi]%elem_of_cons & <-); [by destruct Hne|]. exists i. split; [done|]. by rewrite Ho.
  - intros i v [->|Hi]%elem_of_cons Hv.
    + fold r. rewrite Hpage, decide_True by done. by rewrite KE by by apply user_va_page.
    + rewrite Ho, Hpage, decide_False by (done || by apply HrL). rewrite KM by (done || by apply user_va_page). by apply (rp_page _ _ _ _ R).
  - intros f g Hf Hg. by apply (rp_inj _ _ _ _ R); apply Huse.
  - intros f Hf. by apply Hdir.
  - intros f o Hf Hox. unfold page_byte. destruct (Hdir f Hf) as [_ ->]. by apply (rp_bytes _ _ _ _ R); [apply Huse|].
  - apply R.
  - destruct (rp_entry _ _ _ _ R) as [H1 H2]. split.
    + intros i [->|Hi]%elem_of_cons.
      * fold r. unfold w'. cbn [modentry set_tabs Fork.set_status set_ids set_answers]. rewrite (H2 r Hnew). by rewrite KV.
      * rewrite Ho by done. by apply H1.
    + intros x Hxx. apply H2. unfold w' in Hxx. cbn [tabs set_tabs Fork.set_status set_ids set_answers] in Hxx.
      destruct (decide (x = r)) as [->|Hne]; [done|]. by rewrite lookup_insert_ne in Hxx.
  - intros i st [->|Hi]%elem_of_cons; unfold w'; cbn [status set_tabs Fork.set_status set_ids set_answers].
    + fold r. rewrite lookup_insert_eq. intros [= <-]. done.
    + rewrite Ho by done. rewrite lookup_insert_ne by (apply not_eq_sym; by apply HrL). by apply (rp_status _ _ _ _ R).
  - exists sl. split; [by rewrite KQ|]. intros i. rewrite Q2. destruct (decide (i = e)) as [->|Hne]; [|by rewrite KO].
    rewrite Hst. rewrite (F e) by left. done.
Qed.
End Impl.
End Calls.
