(* ===== verification/ForkAccess.v ===== *)
(** * The running program's accesses, and the whole interface (kern/tlbex.c, kern/syscall_all.c)

    A load or store goes through the TLB and, on a miss, through the refill handler. What it
    reaches is the byte that Fork.v describes; a store changes that byte only. With the
    system calls of ForkKernel.v this makes the kernel an implementation of Fork.v. *)

From Stdlib Require Import ZArith Lia.
From stdpp Require Import base numbers list gmap strings.
From S2P Require Import Prelude Queue Mmu Pmap PmapInv PmapOps PmapInsert PmapThms.
From S2P Require Import KState Elf Signo Env Sched TlbEx Signal Syscall Traps EnvThms SchedThms PmapFree EnvInv EnvSpec MemThms TlbThms IpcThms SysThms.
From S2P Require Import Str StrThms Wp Fork ForkThms ForkKernel.
Import LIST.

(** ** A byte of user data is stored *)
Definition poke (p off b : Z) (s : kstate) : kstate := set_pm (set_phys (set_page_byte (phys (pm s)) p off b) (pm s)) s.

Section Poke.
Context (L : list Z) (ext : Z -> Z) (fl pfl : list Z) (s : kstate) (I : kinv L ext fl pfl s).
Context (p off b : Z) (Hp : data_page (dirs s L) (phys (pm s)) p) (Hoff : 0 <= off < 4096).
Let m' := set_page_byte (phys (pm s)) p off b.

Lemma poke_other q i : q <> p -> word m' q i = word (phys (pm s)) q i.
Proof using. intros H. unfold m', set_page_byte. rewrite word_upd, decide_False; [done|]. intros [E _]; by apply H. Qed.

Lemma poke_u32 i : is_u32 (word m' p i).
Proof using I Hoff.
  pose proof (wf_words _ _ _ (inv_mem _ _ _ _ (k_pm _ _ _ _ _ I))) as Hw. unfold m', set_page_byte. rewrite word_upd.
  case_decide; [|apply Hw]. apply set_word_byte_u32; [apply Hw|dlia].
Qed.

Lemma poke_mapping i va : i ∈ L -> user_va va -> mapping (poke p off b s) i va = mapping s i va.
Proof using Hp.
  intros Hi Hva. unfold mapping. apply (data_lookup (dirs s L) (phys (pm s)) m' p Hp poke_other); [by apply elem_of_dirs|done].
Qed.

Lemma poke_kinv : kinv L ext fl pfl (poke p off b s).
Proof using I Hp Hoff.
  pose proof (k_pm _ _ _ _ _ I) as Ip. apply (kinv_set_pm _ _ _ pfl); [done| | |done].
  - destruct Ip. split; try done.
    + by apply (data_wf (dirs s L) _ (phys (pm s)) m' inv_mem p Hp poke_other poke_u32).
    + intros q Hq. transitivity (ext q + refs (dirs s L) m' q); [|done].
      rewrite (data_refs (dirs s L) (phys (pm s)) m' p Hp poke_other). by apply inv_ref.
  - intros d a va e Hs Hva Hl. cbn [phys set_phys]. destruct (kinv_live _ _ _ _ _ I) as (L1 & _). destruct (L1 _ _ Hs) as [Hd _].
    etransitivity; [exact (data_lookup (dirs s L) (phys (pm s)) m' p Hp poke_other d va Hd Hva)|]. by apply (k_coh _ _ _ _ _ I d a).
Qed.

Lemma poke_data q : data_page (dirs s L) (phys (pm s)) q -> data_page (dirs (poke p off b s) L) (phys (pm (poke p off b s))) q.
Proof using Hp.
  intros Hq. apply (data_page_mono _ _ (phys (pm s))); [|exact Hq]. intros d i Hd _ _. symmetry.
  by apply (data_dir (dirs s L) (phys (pm s)) m' p Hp poke_other).
Qed.
End Poke.

Lemma poke_represents L ext fl pfl φ s w f off b : kinv L ext fl pfl s -> represents L φ s w -> in_use w f -> 0 <= off < 4096 ->
  represents L φ (poke (φ f) off b s) (Fork.set_fmem (wr8 (fmem w) (f * 4096 + off) b) w).
Proof.
  intros I R Hf Ho. pose proof (rp_data _ _ _ _ R f Hf) as Hp. pose proof R as [R1 R2 R3 R4 R5 R6 R7 R8 R9 R10].
  destruct (in_use_mapped L φ s w R f Hf) as (_ & _ & _ & _ & _ & _ & _ & Hlt).
  split; try done.
  - intros i v Hi Hv. rewrite (poke_mapping L s (φ f) off b Hp) by (done || by apply user_va_page). by apply R3.
  - intros g Hg. apply poke_data; [done|]. by apply R5.
  - intros g o Hg Hox. cbn [fmem Fork.set_fmem pm poke set_pm phys set_phys]. rewrite page_byte_set, rd_wr8 by done.
    destruct (decide (φ f = φ g /\ off = o)) as [[E <-]|Hne].
    + assert (f = g) as <- by by apply R4. by rewrite decide_True.
    + rewrite decide_False by (intros E; apply Hne; assert (f = g) as <- by lia; split; [done|lia]). by apply R6.
  - destruct R7 as [N1 N2]. split; [done|]. intros a Ha. cbn [nextf fmem Fork.set_fmem] in *. rewrite rd_wr8, decide_False by lia. by apply N2.
  - destruct R10 as (sl & [Q1 Q2]). by exists sl.
Qed.

(** ** Accesses of the running program *)

(** The hardware looks the address up under the current ASID; the handler refills on a miss.
    The result is the physical page; [None]: a store to a page without PTE_D, TLB Mod. *)
Definition access (va : Z) (write : bool) : K (option Z) :=
  asid ← gets hw_asid;
  hit ← gets (fun s => tlb (pm s) !! entryhi asid va);
  e ← match hit with Some e => mret e | None => do_tlb_refill va end;
  mret (if write && negb (hasbits e PTE_D) then None else Some (PPN e)).

Lemma hasbits_land_4095 e : hasbits (Z.land e 4095) PTE_D = hasbits e PTE_D.
Proof. unfold hasbits. by rewrite <- Z.land_assoc. Qed.

(** A page is left for the address and one for its page table. *)
Definition two_pages (s : kstate) : Prop := exists p q l, is_list (page_free_list (pm s)) (p :: q :: l).

Section Access.
Context (ext : Z -> Z) (c : Z).

(** [described] with the renaming of the frames, and [c] on the processor. *)
Definition running (φ : Z -> Z) (s : kstate) (w : world) : Prop := exists L fl pfl,
  caller L ext fl pfl c s /\ represents L φ s w /\ cur_pgdir (pm s) = env_pgdir (env s c) /\ hw_asid s = env_asid (env s c).

Lemma running_refilling L fl pfl s : caller L ext fl pfl c s -> cur_pgdir (pm s) = env_pgdir (env s c) ->
  hw_asid s = env_asid (env s c) -> refilling L ext fl pfl c s.
Proof. intros [I F Hc HcL] Hd Ha. by split. Qed.

(** The TLB is not part of the description. *)
Lemma represents_entry L φ s w asid va pte : represents L φ s w -> represents L φ (with_entry asid va pte s) w.
Proof. intros [? ? ? ? ? ? ? ? ? (sl & [? ?])]. split; try done. by exists sl. Qed.

Lemma access_mapped L fl pfl φ s w va write pte : caller L ext fl pfl c s -> represents L φ s w ->
  cur_pgdir (pm s) = env_pgdir (env s c) -> hw_asid s = env_asid (env s c) -> user_va va -> passive va -> mapping s c va = Some pte ->
  exists s', access va write s = Val (if write && negb (hasbits pte PTE_D) then None else Some (PPN pte)) s' /\ running φ s' w /\
    phys (pm s') = phys (pm s).
Proof.
  intros C R Hd Ha Hva Hp Hm. pose proof C as [I F Hc HcL]. unfold access. rewrite bind_gets. cbv beta. rewrite bind_gets. cbv beta.
  destruct (tlb (pm s) !! entryhi (hw_asid s) va) as [e|] eqn:Et.
  - exists s. assert (Some e = Some pte) as [= ->].
    { rewrite <- Hm. symmetry. apply (k_coh _ _ _ _ _ I (dir_of s c) (hw_asid s)); [|done|done].
      apply elem_of_spaces. exists c. by rewrite Ha. }
    split; [by mstep|]. split; [|done]. by exists L, fl, pfl.
  - pose proof (do_tlb_refill_ok L ext fl pfl c s va (running_refilling L fl pfl s C Hd Ha) Hva Hp) as E. rewrite Hm in E.
    exists (with_entry (hw_asid s) va pte s). split; [by rewrite (bind_val _ _ _ _ _ E)|]. split; [|done].
    exists L, fl, pfl. split; [|split; [by apply represents_entry|done]]. split; [|done..].
    rewrite Ha. by apply tlb_fill.
Qed.

Lemma access_unmapped L fl p q pfl φ s w va write : caller L ext fl (p :: q :: pfl) c s -> represents L φ s w ->
  cur_pgdir (pm s) = env_pgdir (env s c) -> hw_asid s = env_asid (env s c) -> user_va va -> passive va -> mapping s c va = None ->
  exists s', access va write s = Val (Some p) s' /\
    running (fun f => if f =? nextf w then p else φ f) s' (map_fresh (env_id (env s c)) (VPN va) PTE_D w).
Proof.
  intros C R Hd Ha Hva Hp Hm. pose proof C as [I F Hc HcL]. unfold access. rewrite bind_gets. cbv beta. rewrite bind_gets. cbv beta.
  assert (Et : tlb (pm s) !! entryhi (hw_asid s) va = None).
  { destruct (tlb (pm s) !! entryhi (hw_asid s) va) as [e|] eqn:Et; [|done]. rewrite <- Hm. symmetry.
    apply (k_coh _ _ _ _ _ I (dir_of s c) (hw_asid s)); [|done|].
    - apply elem_of_spaces. exists c. by rewrite Ha.
    - rewrite Et. pose proof (k_coh _ _ _ _ _ I (dir_of s c) (hw_asid s) va e
        ltac:(apply elem_of_spaces; exists c; by rewrite Ha) Hva Et) as H. unfold mapping in Hm. congruence. }
  rewrite Et. pose proof (do_tlb_refill_ok L ext fl _ c s va (running_refilling L fl _ s C Hd Ha) Hva Hp) as E. rewrite Hm in E.
  destruct E as [(s' & pfl' & E & [FI FO FC FM FS FD FT FZ FR FN FH])|[H _]]; [|discriminate H].
  assert (Hr : 0 <= p < npage (pm s)) by (apply (inv_fl_range _ _ _ _ (k_pm _ _ _ _ _ I)); left).
  pose proof (wf_npage _ _ _ (inv_mem _ _ _ _ (k_pm _ _ _ _ _ I))) as Hnp.
  exists s'. split.
  { rewrite (bind_val _ _ _ _ _ E). rewrite PPN_mk_pte by (unfold PTE_D; lia).
    assert (Hw : hasbits (mk_pte p PTE_D) PTE_D = true).
    { rewrite <- hasbits_land_4095, land_mk_pte by (unfold PTE_D; lia). done. }
    rewrite Hw. by rewrite andb_false_r. }
  exists L, fl, pfl'. assert (St : memory_step L ext fl pfl' s s') by by split.
  split; [by apply (memory_caller ext c L fl (p :: q :: pfl) s)|]. split.
  - apply (represents_alloc ext L fl p (q :: pfl) pfl' φ s s' w c va PTE_D); done.
  - rewrite FC. by rewrite FO.
Qed.
End Access.

(** ** The interface of fork *)

(** The system calls Fork.v uses, as the kernel executes them and as it describes them. *)
Inductive call :=
| CAlloc (envid va perm : Z)
| CMap (srcid srcva dstid dstva perm : Z)
| CUnmap (envid va : Z)
| CEntry (envid func : Z)
| CStatus (envid st : Z)
| CExofork.

Definition kernel_call (k : call) : K Z :=
  match k with
  | CAlloc envid va perm => sys_mem_alloc envid va perm
  | CMap srcid srcva dstid dstva perm => sys_mem_map srcid srcva dstid dstva perm
  | CUnmap envid va => sys_mem_unmap envid va
  | CEntry envid func => sys_set_tlb_mod_entry envid func
  | CStatus envid st => sys_set_env_status envid st
  | CExofork => sys_exofork
  end.

Definition program_call (me : Z) (k : call) : W Z :=
  match k with
  | CAlloc envid va perm => mem_alloc me envid va perm
  | CMap srcid srcva dstid dstva perm => mem_map me srcid srcva dstid dstva perm
  | CUnmap envid va => mem_unmap me envid va
  | CEntry envid func => set_tlb_mod_entry me envid func
  | CStatus envid st => set_env_status me envid st
  | CExofork => exofork
  end.

(** What the description takes for granted: the environment named is the caller, a child or
    none, permissions are permission bits, no count is about to wrap, and a new environment
    finds a page and an ASID. *)
Definition sound_call (s : kstate) (c : Z) (k : call) : Prop :=
  match k with
  | CAlloc envid _ perm => permitted s c envid /\ 0 <= perm < 4096
  | CMap srcid _ dstid _ perm => permitted s c srcid /\ permitted s c dstid /\ 0 <= perm < 4096 /\
      forall p, pp_ref (pm s) p < 65535
  | CUnmap envid _ => permitted s c envid
  | CEntry envid _ => permitted s c envid
  | CStatus envid st => permitted s c envid /\ (st = ENV_RUNNABLE \/ st = ENV_NOT_RUNNABLE)
  | CExofork => 0 <= mkenvid_i s < 2097151 /\
      (LIST_EMPTY (env_free_list s) = true \/
       (LIST_EMPTY (page_free_list (pm s)) = false /\ is_Some (find (asid_is_free s) (zseq 0 (Z.to_nat NASID)))))
  end.

(** C4: The kernel's system calls implement the environments that [fork] and [cow_entry]
    are written for. From a kernel state that satisfies the invariant and is described by a
    world (frames are physical pages up to a renaming, with the same bytes, the tables are
    what the page directories map, handlers and statuses agree), each call returns the result
    that the description gives for some outcome of its allocations, and the new states
    correspond again, with the kernel's invariant kept. *)
Theorem kernel_implements_calls ext c s w k : described ext c s w -> sound_call s c k ->
  exists r s' w' a l, kernel_call k s = Val r s' /\
    program_call (env_id (env s c)) k (set_ids l (set_answers a w)) = Val r w' /\ described ext c s' w'.
Proof.
  intros D. destruct k; cbn [sound_call kernel_call program_call].
  - intros [Hp Hq]. by apply (alloc_implements ext c s w D).
  - intros (H1 & H2 & Hq & H16). by apply (map_implements ext c s w D).
  - intros Hp. by apply (unmap_implements ext c s w D).
  - intros Hp. by apply (set_entry_implements ext c s w D).
  - intros [Hp Hst]. by apply (set_status_implements ext c s w D).
  - intros [Hn Hr]. by apply (exofork_implements ext c s w D).
Qed.

(** C5: Loads and stores of the running program, through the TLB and the refill handler, are
    the accesses of the description. Both end, with the page given on the first touch when
    there was none; a store to a page without PTE_D is a TLB Mod exception in both; otherwise
    the byte reached is the same, and after a store to it the states correspond again. *)
Theorem access_implements ext c φ s w va write : running ext c φ s w -> passive va ->
  (mapping s c va = None -> two_pages s) ->
  exists o o' φ' s' w', access va write s = Val o s' /\
    touch (env_id (env s c)) va write (set_ids [] (set_answers [] w)) = Val o' w' /\ running ext c φ' s' w' /\
    match o, o' with
    | None, None => write = true
    | Some p, Some a => page_byte (phys (pm s')) p (va mod 4096) = rd8 (fmem w') a /\
        forall b, running ext c φ' (poke p (va mod 4096) b s') (Fork.set_fmem (wr8 (fmem w') a b) w')
    | _, _ => False
    end.
Proof.
  intros (L & fl & pfl & C & R & Hd & Ha) Hp H2. pose proof C as [I F Hc HcL]. set (me := env_id (env s c)).
  assert (Hva : user_va va) by (destruct Hp as [Hp _]; unfold user_va; assert (HU : UTEMP = 4186112) by reflexivity; lia).
  assert (Hleg : is_illegal_va va = false) by (destruct Hp as [Hp _]; apply orb_false_iff; split; [apply Z.ltb_ge|apply Z.leb_gt]; lia).
  pose proof (page_of L φ s w R c va HcL Hva) as Hpg. fold me in Hpg.
  assert (Hoff : 0 <= va mod 4096 < 4096) by (by apply Z.mod_pos_bound).
  assert (Hstore : forall φ' s' w' f b, running ext c φ' s' w' -> in_use w' f ->
    running ext c φ' (poke (φ' f) (va mod 4096) b s') (Fork.set_fmem (wr8 (fmem w') (f * 4096 + va mod 4096) b) w')).
  { intros φ' s' w' f b (L' & fl' & pfl' & C' & R' & Hd' & Ha') Hf. pose proof C' as [I' F' Hc' HcL']. exists L', fl', pfl'.
    split; [|split; [by apply (poke_represents L' ext fl' pfl')|done]]. split; [|done..].
    apply poke_kinv; [done|by apply R'|done]. }
  assert (Hread : forall φ' s' w' f, running ext c φ' s' w' -> in_use w' f ->
    page_byte (phys (pm s')) (φ' f) (va mod 4096) = rd8 (fmem w') (f * 4096 + va mod 4096)).
  { intros φ' s' w' f (L' & fl' & pfl' & _ & R' & _) Hf. symmetry. by apply (rp_bytes _ _ _ _ R'). }
  unfold touch. rewrite Hleg. destruct (mapping s c va) as [pte|] eqn:Em, (page w me (VPN va)) as [[f q]|] eqn:Ep; try done.
  - destruct Hpg as (_ & Hf & ->).
    destruct (access_mapped ext c L fl pfl φ s w va write pte C R Hd Ha Hva Hp Em) as (s' & E & Rn & _).
    assert (Hu : in_use w f) by (exists me, (VPN va); eexists; split; [by apply VPN_user|exact Ep]).
    assert (Rn' : running ext c φ s' (set_ids [] (set_answers [] w))).
    { destruct Rn as (L' & fl' & pfl' & C' & R' & Hda). exists L', fl', pfl'. split; [done|]. split; [by apply represents_inputs|done]. }
    do 2 eexists. exists φ, s', (set_ids [] (set_answers [] w)). split; [exact E|]. split.
    { rewrite bind_gets. change (page (set_ids _ _)) with (page w). rewrite Ep, hasbits_land_4095. reflexivity. }
    split; [exact Rn'|]. destruct (write && negb (hasbits pte PTE_D)) eqn:Hw; [by apply andb_true_iff in Hw as [? _]|].
    rewrite <- Hf. split; [by apply (Hread φ s' (set_ids [] (set_answers [] w)))|]. intros b.
    by apply (Hstore φ s' (set_ids [] (set_answers [] w))).
  - destruct (H2 eq_refl) as (p & q & l & Hl). pose proof (is_list_unique _ _ _ (inv_fl _ _ _ _ (k_pm _ _ _ _ _ I)) Hl) as ->.
    destruct (access_unmapped ext c L fl p q l φ s w va write C R Hd Ha Hva Hp Em) as (s' & E & Rn).
    set (φ' := fun f => if f =? nextf w then p else φ f) in *. set (w' := map_fresh me (VPN va) PTE_D w).
    assert (Rn' : running ext c φ' s' (set_ids [] (set_answers [] w'))).
    { destruct Rn as (L' & fl' & pfl' & C' & R' & Hda). exists L', fl', pfl'. split; [done|]. split; [by apply represents_inputs|done]. }
    assert (Hu : in_use (set_ids [] (set_answers [] w')) (nextf w)).
    { exists me, (VPN va), (Z.lor PTE_D PTE_V). split; [by apply VPN_user|]. unfold w', map_fresh.
      change (page (map_page me (VPN va) (nextf w) PTE_D w) me (VPN va) = Some (nextf w, Z.lor PTE_D PTE_V)).
      by rewrite page_map, decide_True. }
    assert (Hφ : φ' (nextf w) = p) by (unfold φ'; by rewrite Z.eqb_refl).
    do 2 eexists. exists φ', s', (set_ids [] (set_answers [] w')). split; [exact E|]. split.
    { rewrite bind_gets. change (page (set_ids _ _)) with (page w). rewrite Ep. destruct Hp as [_ Hst].
      assert (Hz : negb ((USTACKTOP <=? va) && (va <? USTACKTOP + BY2PG)) = true).
      { destruct (Z.leb_spec USTACKTOP va), (Z.ltb_spec va (USTACKTOP + BY2PG)); cbn; done || lia. }
      rewrite Hz, bind_assert_true by done. reflexivity. }
    split; [exact Rn'|]. rewrite <- Hφ. split; [by apply (Hread φ' s')|]. intros b. by apply (Hstore φ' s').
Qed.

(** ** Witnesses: one environment that has mapped nothing *)
Definition one_world : world := mkWorld {[ 2048 := ∅ ]} ∅ 0 [] [] ∅ ∅.

Lemma one_env_unmapped va : user_va va -> mapping one_env 0 va = None.
Proof.
  intros Hva. assert (H : forallb (fun i => negb (valid (word (phys (pm one_env)) (dir_of one_env 0) i))) (zseq 0 (Z.to_nat NU)) = true)
    by (vm_compute; reflexivity).
  rewrite forallb_forall in H. pose proof (PDX_user va Hva) as Hr. specialize (H (PDX va)).
  rewrite <- list_elem_of_In, elem_of_zseq in H. specialize (H ltac:(lia)). apply negb_true_iff in H.
  unfold mapping, lookup_pte. by rewrite H.
Qed.

Lemma one_env_id : env_id (env one_env 0) = 2048 /\ env_user_tlb_mod_entry (env one_env 0) = 0.
Proof. vm_compute. split; reflexivity. Qed.

#[local] Opaque one_env.

Lemma one_world_page e v : page one_world e v = None.
Proof.
  unfold page, tab, one_world. cbn [tabs]. destruct (decide (e = 2048)) as [->|Hne].
  - by rewrite lookup_singleton_eq.
  - rewrite lookup_singleton_ne by done. cbn. by rewrite lookup_empty.
Qed.

Lemma one_world_represents φ : represents [0] φ one_env one_world.
Proof.
  destruct one_env_id as [Hid Hen]. destruct one_env_ok as (_ & _ & _ & Hst).
  assert (Hno : forall f, ~ in_use one_world f) by (intros f (e & v & p & _ & H); by rewrite one_world_page in H).
  split.
  - intros i ->%list_elem_of_singleton. rewrite Hid. split; [done|]. split; [done|]. by left.
  - intros id. unfold one_world. cbn [tabs]. split.
    + intros [t Ht]. destruct (decide (id = 2048)) as [->|Hne]; [exists 0; split; [left|done]|by rewrite lookup_singleton_ne in Ht].
    + intros (i & ->%list_elem_of_singleton & <-). rewrite Hid, lookup_singleton_eq. by eexists.
  - intros i v ->%list_elem_of_singleton Hv. rewrite one_world_page, one_env_unmapped by by apply user_va_page. done.
  - intros f g Hf. destruct (Hno f Hf).
  - intros f Hf. destruct (Hno f Hf).
  - intros f o Hf. destruct (Hno f Hf).
  - split; [reflexivity|]. intros a _. reflexivity.
  - split; [|intros id _; reflexivity]. intros i ->%list_elem_of_singleton. rewrite Hen. reflexivity.
  - intros i st _ H. unfold one_world in H. cbn [status] in H. rewrite lookup_empty in H. discriminate H.
  - exists [0]. exact one_env_queue.
Qed.

Lemma one_world_described : described (boot_ext 1) 0 one_env one_world.
Proof. do 3 eexists. exists (fun f => f). split; [exact one_env_caller|apply one_world_represents]. Qed.

Lemma one_env_allocs : match sys_mem_alloc 0 4194304 PTE_D one_env with Val r _ => r = 0 | _ => False end.
Proof. vm_compute. reflexivity. Qed.

(** A page is allocated at 0x400000: the program sees a fresh frame. *)
Lemma kernel_implements_calls_witness : exists s' w', kernel_call (CAlloc 0 4194304 PTE_D) one_env = Val 0 s' /\
  page w' 2048 1024 = Some (0, Z.lor PTE_D PTE_V) /\ described (boot_ext 1) 0 s' w'.
Proof.
  destruct (kernel_implements_calls (boot_ext 1) 0 one_env one_world (CAlloc 0 4194304 PTE_D) one_world_described
    ltac:(split; [split; [split; [discriminate|reflexivity]|left; reflexivity]|split; [discriminate|reflexivity]]))
    as (r & s' & w' & a & l & E1 & E2 & D).
  pose proof one_env_allocs as H. change (sys_mem_alloc _ _ _ _) with (kernel_call (CAlloc 0 4194304 PTE_D) one_env) in H.
  rewrite E1 in H. subst r. destruct one_env_id as [Hid _]. rewrite Hid in E2.
  exists s', w'. split; [exact E1|]. split; [|exact D].
  destruct a as [|[] a]; [| |discriminate E2]; injection E2 as <-; reflexivity.
Defined.

(** [c] switched to: memory and description are the same. *)
Lemma running_switch L ext fl pfl c φ s w : caller L ext fl pfl c s -> represents L φ s w -> running ext c φ (running_as c s) w.
Proof.
  intros [I F Hc HcL] [? ? ? ? ? ? ? ? ? (sl & [? ?])]. exists L, fl, pfl.
  split; [split; [apply (re_inv _ _ _ _ _ _ (running_as_ok _ _ _ _ c _ I HcL))|done..]|].
  split; [|done]. split; try done. by exists sl.
Qed.

(** The first touch of 0x400000 by the program. *)
Lemma access_implements_witness : exists o o' s' w', access 4194304 true (running_as 0 one_env) = Val o s' /\
  touch (env_id (env (running_as 0 one_env) 0)) 4194304 true (set_ids [] (set_answers [] one_world)) = Val o' w'.
Proof.
  destruct (access_implements (boot_ext 1) 0 (fun f => f) (running_as 0 one_env) one_world 4194304 true
    (running_switch _ _ _ _ _ _ _ _ one_env_caller (one_world_represents (fun f => f))) passive_4M)
    as (o & o' & φ' & s' & w' & E & E' & _).
  - intros _. exists 6, 5, [4; 3; 2; 1]. exact (inv_fl _ _ _ _ (k_pm _ _ _ _ _ (re_inv _ _ _ _ _ _ running_ok))).
  - exists o, o', s', w'. exact (conj E E').
Defined.
