(* ===== verification/Spawn.v ===== *)
(** * Starting a program (user/lib/spawn.c)

    The state is the calling process (Uproc.v), whose files and memory [spawn] uses, together
    with the environments it makes: their page tables, status, and the two words of the trap
    frame that [spawn] sets. The system calls that name another environment are those of
    Fork.v, run on the tables of the process and of its children; they keep the counts of the
    references from other environments. *)

From Stdlib Require Import ZArith Lia.
From stdpp Require Import base numbers list gmap strings.
From S2P Require Import Prelude Mmu Str Wp KState Elf Signo Env TlbEx Syscall Fork.
From S2P Require Import Uproc Fd Ufile Upipe FdOps.

(** The fields [cp0_epc] and [regs[29]] of a child's [env_tf]. *)
Record start := mkStart { tf_epc : Z; tf_sp : Z }.

Record family := mkFamily {
  self : uproc;
  kids : gmap Z (gmap Z (Z * Z));
  newids : list Z;
  kid_mod : gmap Z Z;
  kid_status : gmap Z Z;
  kid_start : gmap Z start }.

Definition set_self (u : uproc) (s : family) : family :=
  mkFamily u (kids s) (newids s) (kid_mod s) (kid_status s) (kid_start s).
Definition set_kids (v : gmap Z (gmap Z (Z * Z))) (s : family) : family :=
  mkFamily (self s) v (newids s) (kid_mod s) (kid_status s) (kid_start s).
Definition set_start (v : gmap Z start) (s : family) : family :=
  mkFamily (self s) (kids s) (newids s) (kid_mod s) (kid_status s) v.

Abbreviation SP := (M family).

(** What the process does with its own memory and files. *)
Definition lift {A} (m : Uproc.U A) : SP A := zoom self set_self m.

(** ** References of the children to frames *)
Definition frames_in (t : gmap Z (Z * Z)) : list Z := map (fun kv => kv.2.1) (map_to_list t).
Definition kid_frames (k : gmap Z (gmap Z (Z * Z))) : list Z :=
  concat (map (fun kv => frames_in kv.2) (map_to_list k)).
Definition count (f : Z) (l : list Z) : Z := Z.of_nat (length (filter (fun g => g = f) l)).

(** The counts after the children's tables went from [old] to [new]. *)
Definition recount (old new : list Z) (o : gmap Z Z) : gmap Z Z :=
  foldr (fun f m => <[f := default 0 (o !! f) + count f new - count f old]> m) o (old ++ new).

Section Spawn.
(** The identifier of the process; how reads run; the longest string, and the most
    arguments, that are looked at. *)
Context (me : Z) (rounds : runs) (fuel : nat).

(** ** System calls *)
Definition to_world (s : family) : world :=
  mkWorld (<[me := pt (self s)]> (kids s)) (fm (self s)) (nextf (self s)) (answers (self s))
    (newids s) (kid_mod s) (kid_status s).

Definition of_world (w : world) (s : family) : family :=
  let kids' := delete me (tabs w) in
  let u := self s in
  mkFamily
    (mkU (tab w me) (fmem w) (Fork.nextf w) (recount (kid_frames (kids s)) (kid_frames kids') (others u))
      (Fork.answers w) (inbox u) (sent u) (codes u) (keys u) (cons u) (events u) (fsenv u) (fsipcbuf u) (tables u))
    kids' (ids w) (modentry w) (status w) (kid_start s).

Definition sys {A} (m : W A) : SP A := zoom to_world of_world m.

Definition is_kid (id : Z) (s : family) : bool := bool_decide (is_Some (kids s !! id)).

(** [envs[ENVX(child)].env_tf] with [cp0_epc] and [regs[29]] replaced. *)
Definition syscall_set_trapframe (child epc sp : Z) : SP Z :=
  e ← gets (is_kid child);
  if e : bool then modify (fun s => set_start (<[child := mkStart epc sp]> (kid_start s)) s) ;; mret 0
  else mret (- E_BAD_ENV).

Definition syscall_env_destroy (child : Z) : SP Z :=
  e ← gets (is_kid child);
  if e : bool then
    sys (modify (fun w => Fork.set_tabs (delete child (tabs w)) (Fork.set_status (delete child (status w)) w))) ;;
    mret 0
  else mret (- E_BAD_ENV).

(** ** init_stack *)

Fixpoint strlen_at (n : nat) (p : Z) : Uproc.U Z :=
  match n with
  | O => undef "the string does not end"
  | S n' => c ← ld8 p; if c =? 0 then mret 0 else l ← strlen_at n' (u32 (p + 1)); mret (l + 1)
  end.
Definition arg (argv i : Z) : Uproc.U Z := ld32 (u32 (argv + 4 * i)).

(** [for (argc = 0; argv[argc]; argc++)]: [argc] and [tot]. *)
Fixpoint count_args (n : nat) (argv argc tot : Z) : Uproc.U (Z * Z) :=
  match n with
  | O => undef "argv does not end"
  | S n' =>
      p ← arg argv argc;
      if p =? 0 then mret (argc, tot) else
      l ← strlen_at fuel p;
      count_args n' argv (argc + 1) (tot + (l + 1))
  end.

(** [for (j = 0; j < strlen(argv[i]); j++)]; returns [ctemp]. *)
Fixpoint copy_arg (n : nat) (argv i ctemp argv_temp j : Z) : Uproc.U Z :=
  p ← arg argv i;
  l ← strlen_at fuel p;
  if j <? l then
    match n with
    | O => undef "the argument does not end"
    | S n' => c ← ld8 argv_temp; st8 ctemp c ;; copy_arg n' argv i (u32 (ctemp + 1)) (u32 (argv_temp + 1)) (j + 1)
    end
  else mret ctemp.

(** [for (i = 0; i < argc; i++)]: [left] is [argc - i]. *)
Fixpoint copy_args (left : nat) (argv i ctemp : Z) : Uproc.U unit :=
  match left with
  | O => mret tt
  | S left' =>
      p ← arg argv i;
      ctemp ← copy_arg fuel argv i ctemp p 0;
      st8 ctemp 0 ;;
      copy_args left' argv (i + 1) (u32 (ctemp + 1))
  end.

(** [args[i] = ctemp]; returns the last [ctemp]. *)
Fixpoint point_args (left : nat) (args argv i ctemp : Z) : Uproc.U Z :=
  match left with
  | O => mret ctemp
  | S left' =>
      st32 (u32 (args + 4 * i)) ctemp ;;
      p ← arg argv i;
      l ← strlen_at fuel p;
      point_args left' args argv (i + 1) (u32 (ctemp + (l + 1)))
  end.

(** Where a place in the parent's page [UTEMP] is in the child's stack. *)
Definition in_child (a : Z) : Z := u32 (USTACKTOP - UTEMP - BY2PG + a).

(** The words and strings of the page; the result is [*init_sp]. *)
Definition fill_stack (argv argc tot : Z) : Uproc.U Z :=
  let strings := u32 (UTEMP + BY2PG - tot) in
  let args := u32 (UTEMP + BY2PG - ROUND tot 4 - 4 * (argc + 1)) in
  copy_args (Z.to_nat argc) argv 0 strings ;;
  ctemp ← point_args (Z.to_nat argc) args argv 0 (in_child strings);
  st32 (u32 (args + 4 * argc)) (u32 (ctemp - 1)) ;;
  st32 (u32 (args - 4)) (in_child args) ;;
  st32 (u32 (args - 8)) argc ;;
  mret (in_child (u32 (args - 8))).

(** The stack pointer, or the error code. *)
Definition init_stack (child argv : Z) : SP (cres Z) :=
  '(argc, tot) ← lift (count_args fuel argv 0 0);
  if BY2PG <? u32 (ROUND tot 4 + 4 * (argc + 3)) then mret (Err (- E_NO_MEM)) else
  r ← sys (mem_alloc me 0 UTEMP PTE_D);
  if r <? 0 then mret (Err r) else
  sp ← lift (fill_stack argv argc tot);
  r ← sys (mem_map me 0 UTEMP child (USTACKTOP - BY2PG) PTE_D);
  if r <? 0 then sys (mem_unmap me 0 UTEMP) ;; mret (Err r) else
  r ← sys (mem_unmap me 0 UTEMP);
  if r <? 0 then sys (mem_unmap me 0 UTEMP) ;; mret (Err r) else
  mret (Ok sp).

(** ** spawn *)

(** The callback of [elf_load_seg]; [src] is an offset from [bin]. *)
Definition spawn_mapper (child bin va offset perm : Z) (src : option Z) (len : Z) : SP Z :=
  r ← sys (mem_alloc me child va perm);
  if negb (r =? 0) then mret r else
  match src with
  | Some o =>
      r ← sys (mem_map me child va 0 UTEMP (Z.lor perm PTE_D));
      if negb (r =? 0) then sys (mem_unmap me child va) ;; mret r else
      lift (memcpy_loop (u32 (UTEMP + offset)) (u32 (bin + o)) (Z.to_nat len)) ;;
      sys (mem_unmap me 0 UTEMP)
  | None => mret 0
  end.

Definition ld16 (a : Z) : Uproc.U Z :=
  if a mod 2 =? 0 then x ← ld8 a; y ← ld8 (a + 1); mret (x + 256 * y) else undef "unaligned load".

(** [u_char elfbuf[512]]: the header, then each program header, is read into it. *)
Definition sizeof_elfbuf := 512.

Definition read_phdr (elfbuf : Z) : Uproc.U Elf32_Phdr :=
  ty ← ld32 elfbuf; po ← ld32 (elfbuf + 4); va ← ld32 (elfbuf + 8);
  fs ← ld32 (elfbuf + 16); ms ← ld32 (elfbuf + 20); fl ← ld32 (elfbuf + 24);
  mret (mkPhdr ty po va fs ms fl).

(** [ELF_FOREACH_PHDR_OFF]: [e_phnum] and [e_phentsize] are read from [elfbuf] again in each
    round, after the program header has been read over the start of the ELF header. [r] is the
    variable of the caller: on [goto err1] it has the result of the last [seek] or [readn]. *)
Fixpoint load_segments (n : nat) (child fd elfbuf idx ph_off r : Z) : SP (cres Z) :=
  phnum ← lift (ld16 (elfbuf + 44));
  if idx <? phnum then
    match n with
    | O => undef "the loop over the program headers does not end"
    | S n' =>
        r ← lift (seek fd ph_off);
        if r <? 0 then mret (Err r) else
        phentsize ← lift (ld16 (elfbuf + 42));
        if sizeof_elfbuf <? phentsize then undef "elfbuf overflows" else
        r ← lift (readn rounds fd elfbuf phentsize);
        if r <? 0 then mret (Err r) else
        ph ← lift (read_phdr elfbuf);
        ok ← (if p_type ph =? PT_LOAD then
                b ← lift (read_map fd (p_offset ph));
                match b with
                | Err _ => mret false
                | Ok bin => q ← elf_load_seg (spawn_mapper child bin) ph; mret (negb (q <? 0))
                end
              else mret true);
        if negb ok then mret (Err r) else
        phentsize ← lift (ld16 (elfbuf + 42));
        load_segments n' child fd elfbuf (idx + 1) (u32 (ph_off + phentsize)) r
    end
  else mret (Ok r).

(** One page of the parent: shared with the child when it is a library page. *)
Definition share_page (child pn : Z) : SP Z :=
  perm ← gets (fun s => Z.land (vpt (self s) pn) 4095);
  if hasbits perm PTE_V && hasbits perm PTE_LIBRARY then
    let va := pn * BY2PG in
    r ← sys (mem_map me 0 va child va perm);
    mret (if r <? 0 then r else 0)
  else mret 0.

(** The loops over [pdeno] and [pteno]. *)
Definition share_library (child : Z) : SP Z :=
  for_err (zseq 0 (Z.to_nat (PDX USTACKTOP + 1))) (fun pdeno =>
    v ← gets (fun s => vpd_valid me (to_world s) pdeno);
    if v : bool then for_err (zseq (pdeno * 1024) 1024) (share_page child) else mret 0).

Definition err (fd r : Z) : SP Z := lift (close rounds fd) ;; mret r.
Definition err1 (child fd r : Z) : SP Z := syscall_env_destroy child ;; err fd r.
Definition err2 (child r : Z) : SP Z := syscall_env_destroy child ;; mret r.

(** After the segments: the registers, the shared pages, the status. *)
Definition start_child (child entrypoint sp : Z) : SP Z :=
  r ← syscall_set_trapframe child entrypoint sp;
  if negb (r =? 0) then err2 child r else
  r ← share_library child;
  if r <? 0 then err2 child r else
  r ← sys (set_env_status me child ENV_RUNNABLE);
  if r <? 0 then err2 child r else
  mret (s32 child).

(** [elfbuf] is the address of that local variable. [child] is a [u_int]: the test for a
    negative result of [syscall_exofork] never succeeds. *)
Definition spawn (prog : list Z) (argv elfbuf : Z) : SP Z :=
  fd ← lift (open prog O_RDONLY);
  let fd := s32 fd in
  if fd <? 0 then mret fd else
  r ← lift (readn rounds fd elfbuf sizeof_Ehdr);
  if negb (r =? sizeof_Ehdr) then err fd r else
  hdr ← lift (ld_bytes elfbuf (Z.to_nat sizeof_Ehdr));
  match elf_from hdr sizeof_Ehdr with
  | None => err fd (- E_NOT_EXEC)
  | Some ehdr =>
      c ← sys exofork;
      let child := u32 c in
      if child <? 0 then err fd child else
      st ← init_stack child argv;
      match st with
      | Err _ => err1 child fd r
      | Ok sp =>
          ph_off ← lift (ld32 (elfbuf + 28));
          q ← load_segments (Z.to_nat 65536) child fd elfbuf 0 ph_off r;
          match q with
          | Err r => err1 child fd r
          | Ok _ =>
              lift (close rounds fd) ;;
              start_child child (e_entry ehdr) sp
          end
      end
  end.

(** [spawnl(prog, arg0, ...)]: the arguments are an array on the caller's stack, at [args]. *)
Definition spawnl (prog : list Z) (args elfbuf : Z) : SP Z := spawn prog args elfbuf.
End Spawn.
