(* ===== verification/SpawnThms.v ===== *)
(** * The first page of a new program's stack (user/lib/spawn.c: init_stack)

    The loops of [init_stack] as writes of bytes and words to the frame of the page UTEMP, and
    the theorem on every branch of it. *)

From Stdlib Require Import ZArith Lia.
From stdpp Require Import base numbers list gmap strings.
From S2P Require Import Prelude Mmu Str StrThms Wp KState Elf Signo Env TlbEx Syscall Fork ForkThms ForkIso.
From S2P Require Import Uproc UprocMem Fd Ufile Upipe FdOps Spawn.

(** The addresses of the layout as numbers. *)
Ltac addresses := assert (UTEMP = 4186112) by reflexivity; assert (UTOP = 2134900736) by reflexivity;
  assert (USTACKTOP = 2134892544) by reflexivity.
Ltac small := rewrite !u32_small by (unfold is_u32; addresses; lia).

(** ** The arguments *)

(** The strings one after the other, each with its zero. *)
Definition flat (strs : list (list Z)) : list Z := concat (map (fun l => l ++ [0]) strs).

(** Where they are when the first is at [c]. *)
Fixpoint places (c : Z) (strs : list (list Z)) : list Z :=
  match strs with [] => [] | l :: r => c :: places (c + (Z.of_nat (length l) + 1)) r end.

Fixpoint wr_words (m : bmem) (a : Z) (ws : list Z) : bmem :=
  match ws with [] => m | w :: r => wr_words (wr32 m a w) (a + 4) r end.

Definition size (strs : list (list Z)) : Z := Z.of_nat (length (flat strs)).

Lemma size_cons l strs : size (l :: strs) = Z.of_nat (length l) + 1 + size strs.
Proof. unfold size, flat. cbn [map concat]. rewrite !length_app. cbn [length]. lia. Qed.
Lemma size_nonneg strs : 0 <= size strs.
Proof. unfold size. lia. Qed.

Lemma wr_bytes_app l1 l2 : forall m a, wr_bytes m a (l1 ++ l2) = wr_bytes (wr_bytes m a l1) (a + Z.of_nat (length l1)) l2.
Proof.
  induction l1 as [|b l1 IH]; intros m a; cbn [app wr_bytes length]; [by rewrite Z.add_0_r|].
  rewrite IH. f_equal. lia.
Qed.

(** [argv] is an array of pointers [ps] to the strings [strs] that ends with NULL. *)
Record args_at (u : uproc) (argv : Z) (ps : list Z) (strs : list (list Z)) : Prop := {
  aa_aligned : argv mod 4 = 0;
  aa_words : vwords u argv ps;
  aa_strings : Forall2 (vstring u) ps strs }.

Lemma keeps_args u u' argv ps strs : keeps u u' -> args_at u argv ps strs -> args_at u' argv ps strs.
Proof.
  intros K [A B C]. split; [done|by eapply keeps_vwords|]. eapply Forall2_impl; [exact C|]. intros a l. by apply keeps_vstring.
Qed.

Section Args.
Context (fuel : nat).

Lemma arg_ok u argv w i : argv mod 4 = 0 -> vword u (argv + 4 * i) = Some w -> arg argv i u = Val w u.
Proof.
  intros Ha Hw. pose proof (vword_legal _ _ _ Hw) as Hl. unfold arg.
  small.
  apply ld32_vword; [dlia|done].
Qed.

Lemma strlen_at_ok u l : forall n a, (length l < n)%nat -> vstring u a l -> strlen_at n a u = Val (Z.of_nat (length l)) u.
Proof.
  induction l as [|b l IH]; intros n a Hn H; (destruct n as [|n]; [cbn [length] in Hn; lia|]); cbn [strlen_at vstring length] in *.
  - by rewrite (bind_val _ _ _ _ _ (ld8_vbyte _ _ _ H)).
  - destruct H as (H1 & H2 & H3). rewrite (bind_val _ _ _ _ _ (ld8_vbyte _ _ _ H1)).
    destruct (Z.eqb_spec b 0); [lia|]. pose proof (vbyte_legal _ _ _ H1). small.
    rewrite (bind_val _ _ _ _ _ (IH n (a + 1) ltac:(lia) H3)). f_equal. unfold mret, M_ret. f_equal. lia.
Qed.

(** The [i]-th argument. *)
Lemma args_lookup u argv ps strs i l : args_at u argv ps strs -> strs !! i = Some l ->
  exists p, arg argv (Z.of_nat i) u = Val p u /\ p <> 0 /\ vstring u p l /\ UTEMP <= p < UTOP.
Proof.
  intros [A B C] Hl. destruct (Forall2_lookup_r _ _ _ _ _ C Hl) as (p & Hp & Hs).
  destruct (vwords_lookup u ps p argv i B Hp) as [Hw Hn]. exists p. split; [by apply arg_ok|]. split; [done|]. split; [done|].
  eapply vbyte_legal. by apply vstring_head.
Qed.

Lemma args_end u argv ps strs : args_at u argv ps strs -> arg argv (Z.of_nat (length strs)) u = Val 0 u.
Proof.
  intros [A B C]. rewrite <- (Forall2_length _ _ _ C). apply arg_ok; [done|]. by apply vwords_end.
Qed.

(** Strings short enough, and not too many. *)
Definition within (strs : list (list Z)) : Prop := Forall (fun l => (length l < fuel)%nat) strs.

Lemma within_lookup strs i l : within strs -> strs !! i = Some l -> (length l < fuel)%nat.
Proof. intros H Hl. by apply (Forall_lookup_1 _ _ _ _ H Hl). Qed.

Lemma count_args_ok u argv ps done_ : forall rest n, args_at u argv ps (done_ ++ rest) -> within (done_ ++ rest) ->
  (length rest < n)%nat ->
  count_args fuel n argv (Z.of_nat (length done_)) (size done_) u =
    Val (Z.of_nat (length (done_ ++ rest)), size (done_ ++ rest)) u.
Proof.
  intros rest. revert done_. induction rest as [|l rest IH]; intros done_ n HA HW Hn; (destruct n as [|n]; [cbn [length] in Hn; lia|]); cbn [count_args].
  - rewrite app_nil_r in *. by rewrite (bind_val _ _ _ _ _ (args_end _ _ _ _ HA)).
  - assert (Hl : (done_ ++ l :: rest) !! length done_ = Some l) by by apply list_lookup_middle.
    destruct (args_lookup _ _ _ _ _ _ HA Hl) as (p & Ep & Hp & Hs & _). rewrite (bind_val _ _ _ _ _ Ep).
    destruct (Z.eqb_spec p 0); [done|].
    rewrite (bind_val _ _ _ _ _ (strlen_at_ok _ _ _ _ (within_lookup _ _ _ HW Hl) Hs)).
    assert (E : done_ ++ l :: rest = (done_ ++ [l]) ++ rest) by by rewrite <- app_assoc.
    rewrite E in *. specialize (IH (done_ ++ [l]) n HA HW ltac:(cbn [length] in Hn; lia)).
    rewrite <- IH. f_equal; [rewrite length_app; cbn [length]; lia|].
    unfold size, flat. rewrite map_app, concat_app, length_app. cbn [map concat]. rewrite app_nil_r, length_app. cbn [length]. lia.
Qed.

(** ** Filling the page at UTEMP *)
Section Fill.
Context (u0 u1 : uproc) (g q argv : Z) (ps : list Z) (strs : list (list Z)).
Context (Hpage : pt u1 !! VPN UTEMP = Some (g, q)) (Hw : hasbits q PTE_D = true).
Context (HK : forall m, off_frame u1 g m -> keeps u0 (set_fm m u1)).
Context (HA : args_at u0 argv ps strs) (HW : within strs).

Local Notation at_page m := (set_fm m u1).

Lemma args_now m : off_frame u1 g m -> args_at (at_page m) argv ps strs.
Proof using HA HK. intros Hm. eapply keeps_args; [by apply HK|done]. Qed.

Lemma off_wr8 m o v : off_frame u1 g m -> 0 <= o < 4096 -> off_frame u1 g (wr8 m (g * 4096 + o) v).
Proof. intros Hm Ho a Ha. rewrite rd_wr8. destruct (decide (g * 4096 + o = a)); [lia|]. by apply Hm. Qed.
Lemma off_wr_bytes m o l : off_frame u1 g m -> 0 <= o -> o + Z.of_nat (length l) <= 4096 ->
  off_frame u1 g (wr_bytes m (g * 4096 + o) l).
Proof. intros Hm Ho Hl a Ha. rewrite rd_wr_bytes. rewrite decide_False by lia. by apply Hm. Qed.
Lemma off_wr32 m o v : off_frame u1 g m -> 0 <= o -> o + 4 <= 4096 -> off_frame u1 g (wr32 m (g * 4096 + o) v).
Proof. intros Hm Ho Hl a Ha. rewrite rd_wr32. rewrite decide_False by lia. by apply Hm. Qed.

Lemma store8 o m v : 0 <= o < 4096 -> st8 (UTEMP + o) v (at_page m) = Val tt (at_page (wr8 m (g * 4096 + o) v)).
Proof using Hpage Hw. by apply (st8_page u1 UTEMP g q eq_refl ltac:(by vm_compute) Hpage Hw). Qed.
Lemma store32 o m v : 0 <= o < 4096 -> o mod 4 = 0 -> st32 (UTEMP + o) v (at_page m) = Val tt (at_page (wr32 m (g * 4096 + o) v)).
Proof using Hpage Hw. by apply (st32_page u1 UTEMP g q eq_refl ltac:(by vm_compute) Hpage Hw). Qed.

(** One argument, from its [length l1]-th character. *)
Lemma copy_arg_ok i l p l2 : forall l1 n o m, off_frame u1 g m -> strs !! i = Some l -> l = l1 ++ l2 ->
  (forall m, off_frame u1 g m -> arg argv (Z.of_nat i) (at_page m) = Val p (at_page m) /\ vstring (at_page m) p l) ->
  (length l2 <= n)%nat -> 0 <= o -> o + Z.of_nat (length l2) <= 4096 ->
  copy_arg fuel n argv (Z.of_nat i) (UTEMP + o) (p + Z.of_nat (length l1)) (Z.of_nat (length l1)) (at_page m) =
    Val (UTEMP + o + Z.of_nat (length l2)) (at_page (wr_bytes m (g * 4096 + o) l2)).
Proof using Hpage Hw HW.
  induction l2 as [|b l2 IH]; intros l1 n o m Hm Hl El Hp Hn Ho Hlen.
  all: destruct (Hp m Hm) as [Ep Hs]; pose proof (within_lookup _ _ _ HW Hl) as Hf.
  - assert (Ex : copy_arg fuel n argv (Z.of_nat i) (UTEMP + o) (p + Z.of_nat (length l1)) (Z.of_nat (length l1)) (at_page m) = Val (UTEMP + o) (at_page m)).
    { destruct n; cbn [copy_arg]; rewrite (bind_val _ _ _ _ _ Ep), (bind_val _ _ _ _ _ (strlen_at_ok _ _ _ _ Hf Hs));
        rewrite El, app_nil_r; by rewrite Z.ltb_irrefl. }
    rewrite Ex. cbn [length wr_bytes]. by rewrite Z.add_0_r.
  - destruct n as [|n]; [cbn [length] in Hn; lia|]. cbn [copy_arg length] in *.
    rewrite (bind_val _ _ _ _ _ Ep), (bind_val _ _ _ _ _ (strlen_at_ok _ _ _ _ Hf Hs)).
    assert (Hlt : Z.of_nat (length l1) <? Z.of_nat (length l) = true).
    { apply Z.ltb_lt. rewrite El, length_app. cbn [length]. lia. }
    rewrite Hlt. pose proof Hs as Hs'. rewrite El in Hs'. apply vstring_app in Hs'. cbn [vstring] in Hs'. destruct Hs' as (Hb & Hr & Hnext).
    rewrite (bind_val _ _ _ _ _ (ld8_vbyte _ _ _ Hb)).
    rewrite (bind_val _ _ _ _ _ (store8 o m b ltac:(lia))).
    pose proof (vbyte_legal _ _ _ Hb). small.
    specialize (IH (l1 ++ [b]) n (o + 1) (wr8 m (g * 4096 + o) b) ltac:(apply off_wr8; (done || lia)) Hl
      ltac:(by rewrite <- app_assoc) Hp ltac:(lia) ltac:(lia) ltac:(lia)).
    rewrite length_app in IH. cbn [length] in IH. rewrite Nat2Z.inj_add in IH. change (Z.of_nat 1) with 1 in IH.
    replace (UTEMP + o + 1) with (UTEMP + (o + 1)) by lia. rewrite <- Z.add_assoc, IH. f_equal; [lia|].
    cbn [wr_bytes]. by rewrite Z.add_assoc.
Qed.

Lemma copy_args_ok rest : forall done_ o m, off_frame u1 g m -> strs = done_ ++ rest -> 0 <= o -> o + size rest <= 4096 ->
  copy_args fuel (length rest) argv (Z.of_nat (length done_)) (UTEMP + o) (at_page m) =
    Val tt (at_page (wr_bytes m (g * 4096 + o) (flat rest))).
Proof using HA HK Hpage Hw HW.
  induction rest as [|l rest IH]; intros done_ o m Hm E Ho Hsz; cbn [length copy_args]; [done|]. rewrite size_cons in Hsz.
  pose proof (size_nonneg rest) as Hsn.
  assert (Hl : strs !! length done_ = Some l) by (rewrite E; by apply list_lookup_middle).
  destruct (args_lookup _ _ _ _ _ _ HA Hl) as (p & Ep0 & Hp & _ & Hpl).
  assert (Hall : forall m, off_frame u1 g m -> arg argv (Z.of_nat (length done_)) (at_page m) = Val p (at_page m) /\ vstring (at_page m) p l).
  { intros m' Hm'. destruct HA as [A B C]. destruct (Forall2_lookup_r _ _ _ _ _ C Hl) as (p' & Hp' & Hs').
    destruct (vwords_lookup _ _ _ _ _ B Hp') as [Hw' _]. pose proof (arg_ok _ _ _ _ A Hw') as E'. rewrite Ep0 in E'. injection E' as <-.
    split; [apply arg_ok; [done|]; by eapply keeps_vword; [apply HK|]|]. by eapply keeps_vstring; [apply HK|]. }
  destruct (Hall m Hm) as [Ep _]. rewrite (bind_val _ _ _ _ _ Ep).
  pose proof (copy_arg_ok (length done_) l p l [] fuel o m Hm Hl eq_refl Hall ltac:(pose proof (within_lookup _ _ _ HW Hl); lia) Ho ltac:(lia)) as Ec.
  cbn [length] in Ec. rewrite Z.add_0_r in Ec. rewrite (bind_val _ _ _ _ _ Ec).
  rewrite <- (Z.add_assoc UTEMP o), (bind_val _ _ _ _ _ (store8 (o + Z.of_nat (length l)) _ 0 ltac:(lia))).
  small.
  replace (Z.of_nat (length done_) + 1) with (Z.of_nat (length (done_ ++ [l]))) by (rewrite length_app; cbn [length]; lia).
  replace (UTEMP + (o + Z.of_nat (length l)) + 1) with (UTEMP + (o + Z.of_nat (length l) + 1)) by lia.
  rewrite IH; [|apply off_wr8; [apply off_wr_bytes; (done || lia)|lia]|by rewrite E, <- app_assoc|lia|lia].
  do 2 f_equal. unfold flat. cbn [map concat]. rewrite wr_bytes_app. f_equal; [|rewrite length_app; cbn [length]; lia].
  rewrite wr_bytes_app. cbn [wr_bytes]. f_equal. lia.
Qed.

Lemma off_wr_words ws : forall m o, off_frame u1 g m -> 0 <= o -> o + 4 * Z.of_nat (length ws) <= 4096 ->
  off_frame u1 g (wr_words m (g * 4096 + o) ws).
Proof.
  induction ws as [|w ws IH]; intros m o Hm Ho Hl; cbn [wr_words length] in *; [done|].
  rewrite <- Z.add_assoc. apply IH; [apply off_wr32; (done || lia)|lia|lia].
Qed.

Lemma length_places strs' : forall c, length (places c strs') = length strs'.
Proof. induction strs' as [|l r IH]; intros c; cbn; [done|]. by rewrite IH. Qed.

Lemma point_args_ok rest : forall done_ o c m, off_frame u1 g m -> strs = done_ ++ rest -> 0 <= o -> o mod 4 = 0 ->
  o + 4 * Z.of_nat (length done_ + length rest) <= 4096 -> 0 <= c -> c + size rest < 4294967296 ->
  point_args fuel (length rest) (UTEMP + o) argv (Z.of_nat (length done_)) c (at_page m) =
    Val (c + size rest) (at_page (wr_words m (g * 4096 + (o + 4 * Z.of_nat (length done_))) (places c rest))).
Proof using HA HK Hpage Hw HW.
  induction rest as [|l rest IH]; intros done_ o c m Hm E Ho Hal Hlen Hc Hsz; cbn [length point_args places].
  { unfold size. cbn. by rewrite Z.add_0_r. }
  rewrite size_cons in *. pose proof (size_nonneg rest) as Hsn. cbn [length] in Hlen.
  assert (Hl : strs !! length done_ = Some l) by (rewrite E; by apply list_lookup_middle).
  small. rewrite <- Z.add_assoc.
  rewrite (bind_val _ _ _ _ _ (store32 (o + 4 * Z.of_nat (length done_)) m c ltac:(lia) ltac:(dlia))).
  set (m1 := wr32 m _ c). assert (Hm1 : off_frame u1 g m1) by (apply off_wr32; (done || lia)).
  destruct (args_lookup _ _ _ _ _ _ (args_now m1 Hm1) Hl) as (p & Ep & _ & Hs & _).
  rewrite (bind_val _ _ _ _ _ Ep), (bind_val _ _ _ _ _ (strlen_at_ok _ _ _ _ (within_lookup _ _ _ HW Hl) Hs)).
  small.
  replace (Z.of_nat (length done_) + 1) with (Z.of_nat (length (done_ ++ [l]))) by (rewrite length_app; cbn [length]; lia).
  rewrite IH; [|done|by rewrite E, <- app_assoc|done|done|rewrite length_app; cbn [length]; lia|lia|lia].
  f_equal; [lia|]. f_equal. cbn [wr_words]. unfold m1. f_equal. rewrite length_app. cbn [length]. lia.
Qed.

(** The offsets of the strings and of the array in the page. *)
Definition str_off (l : list (list Z)) : Z := 4096 - size l.
Definition arg_off (l : list (list Z)) : Z := 4096 - ROUND (size l) 4 - 4 * (Z.of_nat (length l) + 1).
Definition fits (l : list (list Z)) : Prop := ROUND (size l) 4 + 4 * (Z.of_nat (length l) + 3) <= 4096.

Definition stack_mem (l : list (list Z)) (m : bmem) : bmem :=
  let G := g * 4096 in
  let n := Z.of_nat (length l) in
  let top := USTACKTOP - 4096 in
  wr32 (wr32 (wr32 (wr_words (wr_bytes m (G + str_off l) (flat l)) (G + arg_off l) (places (top + str_off l) l))
    (G + (arg_off l + 4 * n)) (USTACKTOP - 1)) (G + (arg_off l - 4)) (top + arg_off l)) (G + (arg_off l - 8)) n.

Lemma ROUND4 x : 0 <= x < 4294967292 -> ROUND x 4 = 4 * ((x + 3) / 4).
Proof. intros Hx. change 4 with (2 ^ 2) at 1. rewrite ROUND_div by lia. change (2 ^ 2) with 4. f_equal. f_equal. lia. Qed.

Lemma fits_offsets l : fits l -> 0 <= size l -> size l < 4294967292 ->
  8 <= arg_off l /\ arg_off l mod 4 = 0 /\ arg_off l + 4 * (Z.of_nat (length l) + 1) <= str_off l /\ str_off l <= 4096.
Proof. unfold fits, arg_off, str_off. intros Hf H0 H1. rewrite ROUND4 in * by lia. dlia. Qed.

Lemma in_child_off o : 0 <= o <= 4096 -> in_child (UTEMP + o) = USTACKTOP - 4096 + o.
Proof. intros Ho. unfold in_child, BY2PG. addresses. rewrite u32_small by (unfold is_u32; lia). lia. Qed.

Lemma off_stack_mem m : off_frame u1 g m -> fits strs -> size strs < 4294967292 -> off_frame u1 g (stack_mem strs m).
Proof.
  intros Hm Hf Hs. pose proof (size_nonneg strs) as H0. destruct (fits_offsets strs Hf H0 Hs) as (H1 & H2 & H3 & H4).
  unfold stack_mem. repeat (apply off_wr32; [|lia|lia]). apply off_wr_words; [|lia|rewrite length_places; lia].
  apply off_wr_bytes; [done|lia|]. unfold str_off, size in *. lia.
Qed.

Lemma fill_stack_ok m : off_frame u1 g m -> fits strs -> size strs < 4294967292 ->
  fill_stack fuel argv (Z.of_nat (length strs)) (size strs) (at_page m) =
    Val (USTACKTOP - 4096 + (arg_off strs - 8)) (at_page (stack_mem strs m)).
Proof using HA HK Hpage Hw HW.
  intros Hm Hf Hs. pose proof (size_nonneg strs) as H0. destruct (fits_offsets strs Hf H0 Hs) as (H1 & H2 & H3 & H4).
  set (n := Z.of_nat (length strs)) in *. unfold fill_stack. fold n.
  assert (Es : u32 (UTEMP + BY2PG - size strs) = UTEMP + str_off strs).
  { unfold str_off, BY2PG in *. small. lia. }
  assert (Ea : u32 (UTEMP + BY2PG - ROUND (size strs) 4 - 4 * (n + 1)) = UTEMP + arg_off strs).
  { unfold arg_off, BY2PG in *. fold n in H1 |- *. unfold fits in Hf. small. lia. }
  rewrite Es, Ea. assert (En : Z.to_nat n = length strs) by (unfold n; lia). rewrite En.
  pose proof (copy_args_ok strs [] (str_off strs) m Hm eq_refl ltac:(lia) ltac:(unfold str_off; lia)) as E1.
  cbn [length] in E1. rewrite (bind_val _ _ _ _ _ E1).
  set (m1 := wr_bytes m _ _) in *. assert (Hm1 : off_frame u1 g m1).
  { apply off_wr_bytes; [done|lia|]. unfold str_off, size in *. lia. }
  rewrite !in_child_off by lia.
  pose proof (point_args_ok strs [] (arg_off strs) (USTACKTOP - 4096 + str_off strs) m1 Hm1 eq_refl ltac:(lia) H2
    ltac:(cbn [length]; lia) ltac:(addresses; lia) ltac:(unfold str_off; addresses; lia)) as E2.
  change (Z.of_nat (length [])) with 0 in E2. rewrite Z.mul_0_r, Z.add_0_r in E2. rewrite (bind_val _ _ _ _ _ E2).
  set (m2 := wr_words m1 _ _) in *.
  assert (Ea1 : u32 (UTEMP + arg_off strs + 4 * n) = UTEMP + (arg_off strs + 4 * n)) by (small; lia).
  assert (Ea2 : u32 (UTEMP + arg_off strs - 4) = UTEMP + (arg_off strs - 4)) by (small; lia).
  assert (Ea3 : u32 (UTEMP + arg_off strs - 8) = UTEMP + (arg_off strs - 8)) by (small; lia).
  assert (Ec : u32 (USTACKTOP - 4096 + str_off strs + size strs - 1) = USTACKTOP - 1) by (unfold str_off; small; lia).
  rewrite Ea1, Ea2, Ea3, Ec, in_child_off by lia.
  rewrite (bind_val _ _ _ _ _ (store32 (arg_off strs + 4 * n) m2 _ ltac:(lia) ltac:(dlia))).
  rewrite (bind_val _ _ _ _ _ (store32 (arg_off strs - 4) _ _ ltac:(lia) ltac:(dlia))).
  by rewrite (bind_val _ _ _ _ _ (store32 (arg_off strs - 8) _ _ ltac:(lia) ltac:(dlia))).
Qed.
End Fill.
End Args.

(** ** What the page holds *)
Lemma rd_wr_words_out ws : forall m a x, x < a \/ a + 4 * Z.of_nat (length ws) <= x -> rd8 (wr_words m a ws) x = rd8 m x.
Proof.
  induction ws as [|w ws IH]; intros m a x Hx; cbn [wr_words length] in *; [done|].
  rewrite IH by lia. rewrite rd_wr32. by rewrite decide_False by lia.
Qed.

Lemma rd32_wr_words ws : forall m a i w, Forall is_u32 ws -> ws !! i = Some w -> rd32 (wr_words m a ws) (a + 4 * Z.of_nat i) = w.
Proof.
  induction ws as [|v ws IH]; intros m a i w HF Hi; [done|]. apply Forall_cons_1 in HF as [Hv HF]. cbn [wr_words]. destruct i as [|i].
  - injection Hi as ->. rewrite Z.mul_0_r, Z.add_0_r. rewrite <- (rd32_wr32_eq m a w Hv) at 2.
    apply rd32_ext. intros k Hk. apply rd_wr_words_out. lia.
  - cbn [lookup list_lookup] in Hi. rewrite <- (IH (wr32 m a v) (a + 4) i w HF Hi). f_equal. lia.
Qed.

(** Each string is where its pointer says. *)
Lemma places_flat strs : forall c i l, strs !! i = Some l -> exists p, places c strs !! i = Some p /\
  c <= p /\ p + Z.of_nat (length l) + 1 <= c + size strs /\
  forall k, (k <= length l)%nat -> nth (Z.to_nat (p - c) + k) (flat strs) 0 = nth k (l ++ [0]) 0.
Proof.
  induction strs as [|l0 strs IH]; intros c i l Hi; [done|]. rewrite size_cons. pose proof (size_nonneg strs).
  unfold flat. cbn [map concat places]. fold (flat strs). destruct i as [|i].
  - injection Hi as ->. exists c. split; [done|]. split; [lia|]. split; [lia|]. intros k Hk.
    rewrite Z.sub_diag. cbn [Z.to_nat Nat.add]. apply app_nth1. rewrite length_app. cbn [length]. lia.
  - cbn [lookup list_lookup] in Hi |- *. destruct (IH (c + (Z.of_nat (length l0) + 1)) i l Hi) as (p & Hp & H1 & H2 & H3).
    exists p. split; [done|]. split; [lia|]. split; [lia|]. intros k Hk. rewrite <- (H3 k Hk).
    rewrite app_nth2; rewrite length_app; cbn [length]; [f_equal; lia|lia].
Qed.

Lemma places_u32 strs : forall c, 0 <= c -> c + size strs < 4294967296 -> Forall is_u32 (places c strs).
Proof.
  induction strs as [|l strs IH]; intros c Hc Hs; cbn [places]; [done|]. rewrite size_cons in Hs. pose proof (size_nonneg strs).
  apply Forall_cons_2; [unfold is_u32; lia|]. apply IH; lia.
Qed.

(** ** The two views of the state *)
Section Views.
Context (me : Z).
Implicit Types (s : family) (w : world).

Lemma to_of w s : is_Some (tabs w !! me) -> to_world me (of_world me w s) = w.
Proof.
  intros [t Ht]. unfold to_world, of_world. cbn. destruct w as [T fmw nf an idw mo st]. cbn in *. f_equal.
  rewrite insert_delete_eq. unfold tab. cbn. rewrite Ht. cbn. by apply insert_id.
Qed.

Lemma sys_val {A} (m : W A) s a w : m (to_world me s) = Val a w -> sys me m s = Val a (of_world me w s).
Proof. intros H. unfold sys, zoom. by rewrite H. Qed.

Lemma lift_val {A} (m : Uproc.U A) s a u : m (self s) = Val a u -> lift m s = Val a (set_self u s).
Proof. intros H. unfold lift, zoom. by rewrite H. Qed.

Lemma set_self_id s : set_self (self s) s = s.
Proof. by destruct s. Qed.

Lemma to_world_fm m s : to_world me (set_self (set_fm m (self s)) s) = Fork.set_fmem m (to_world me s).
Proof. done. Qed.

Lemma page_me s v : page (to_world me s) me v = pt (self s) !! v.
Proof. unfold page, tab. cbn. by rewrite lookup_insert_eq. Qed.

Lemma page_kid s e v : e <> me -> page (to_world me s) e v = default ∅ (kids s !! e) !! v.
Proof. intros H. unfold page, tab. cbn. by rewrite lookup_insert_ne by congruence. Qed.

Lemma known_me s : is_Some (tabs (to_world me s) !! env_of me 0).
Proof. cbn. rewrite lookup_insert_eq. by eexists. Qed.

Lemma known_kid s e : e <> me -> e <> 0 -> is_Some (kids s !! e) -> is_Some (tabs (to_world me s) !! env_of me e).
Proof.
  intros Hm H0 Hk. unfold env_of. destruct (Z.eqb_spec e 0); [done|]. cbn. by rewrite lookup_insert_ne by congruence.
Qed.
End Views.

(** ** System calls with any answers of the kernel *)
Definition next_answer (l : list bool) : bool := hd true l.

Lemma ask_run w : Fork.ask w = Val (next_answer (Fork.answers w)) (Fork.set_answers (tl (Fork.answers w)) w).
Proof. unfold Fork.ask. rewrite bind_gets. destruct w as [T m n [|b l] i o t]; done. Qed.

Lemma mem_alloc_run me envid va perm w : is_illegal_va va = false -> is_Some (tabs w !! env_of me envid) ->
  mem_alloc me envid va perm w =
    let w1 := Fork.set_answers (tl (Fork.answers w)) w in
    if next_answer (Fork.answers w) then Val 0 (Fork.map_fresh (env_of me envid) (VPN va) perm w1) else Val (- E_NO_MEM) w1.
Proof.
  intros Hl He. unfold mem_alloc. rewrite Hl, (bind_val _ _ _ _ _ (exists_env_ok _ _ _ He)). cbn [negb].
  rewrite (bind_val _ _ _ _ _ (ask_run w)). by destruct (next_answer _).
Qed.

Lemma mem_map_run me sid sva did dva perm f p w : is_illegal_va sva = false -> is_illegal_va dva = false ->
  is_Some (tabs w !! env_of me sid) -> is_Some (tabs w !! env_of me did) ->
  page w (env_of me sid) (VPN sva) = Some (f, p) ->
  mem_map me sid sva did dva perm w =
    let w1 := Fork.set_answers (tl (Fork.answers w)) w in
    if next_answer (Fork.answers w) then Val 0 (Fork.map_page (env_of me did) (VPN dva) f perm w1) else Val (- E_NO_MEM) w1.
Proof.
  intros Hs Hd Hes Hed Hp. unfold mem_map. rewrite Hs, Hd. cbn [orb].
  rewrite (bind_val _ _ _ _ _ (exists_env_ok _ _ _ Hes)), (bind_val _ _ _ _ _ (exists_env_ok _ _ _ Hed)). cbn [negb andb].
  rewrite bind_gets, Hp. rewrite (bind_val _ _ _ _ _ (ask_run w)). by destruct (next_answer _).
Qed.

(** ** The child's stack *)

(** The word an environment reads. *)
Definition wview (w : world) (e a : Z) : Z := view w e a + 256 * view w e (a + 1) + 65536 * view w e (a + 2) + 16777216 * view w e (a + 3).

(** From the stack pointer up: [argc], [argv], the array of pointers, and the strings they
    point to. Behind the array there is no NULL but the address of the page's last byte. *)
Record stack_holds (w : world) (e sp : Z) (strs : list (list Z)) : Prop := {
  sh_page : USTACKTOP - BY2PG <= sp < USTACKTOP /\ sp mod 4 = 0;
  sh_argc : wview w e sp = Z.of_nat (length strs);
  sh_argv : wview w e (sp + 4) = sp + 8;
  sh_arg : forall i l, strs !! i = Some l ->
    let p := wview w e (sp + 8 + 4 * Z.of_nat i) in
    p < USTACKTOP /\ forall k, (k <= length l)%nat -> view w e (p + Z.of_nat k) = nth k (l ++ [0]) 0;
  sh_end : wview w e (sp + 8 + 4 * Z.of_nat (length strs)) = USTACKTOP - 1 }.

(** The page as [stack_mem] leaves it, seen by an environment that maps it as its stack. *)
Lemma stack_mem_holds w e g p strs m : page w e (VPN (USTACKTOP - BY2PG)) = Some (g, p) ->
  fmem w = stack_mem g strs m -> fits strs -> size strs < 4294967292 ->
  Forall (fun l => Forall (fun b => 0 < b < 256) l) strs ->
  stack_holds w e (USTACKTOP - 4096 + (arg_off strs - 8)) strs.
Proof.
  intros Hp Hm Hf Hs Hb. pose proof (size_nonneg strs) as H0. destruct (fits_offsets strs Hf H0 Hs) as (H1 & H2 & H3 & H4).
  assert (Hv : forall o, 0 <= o < 4096 -> view w e (USTACKTOP - 4096 + o) = rd8 (stack_mem g strs m) (g * 4096 + o)).
  { intros o Ho. unfold view. assert (E : VPN (USTACKTOP - 4096 + o) = VPN (USTACKTOP - BY2PG)).
    { rewrite !VPN_div. unfold BY2PG. addresses. dlia. }
    rewrite E, Hp, Hm. f_equal. addresses. dlia. }
  assert (Hw : forall o, 0 <= o -> o + 4 <= 4096 -> wview w e (USTACKTOP - 4096 + o) = rd32 (stack_mem g strs m) (g * 4096 + o)).
  { intros o Ho1 Ho2. unfold wview, rd32. rewrite <- !Z.add_assoc. rewrite !Z.add_assoc. rewrite <- !(Z.add_assoc (USTACKTOP - 4096)), <- !(Z.add_assoc (g * 4096)).
    by rewrite !Hv by lia. }
  set (n := Z.of_nat (length strs)) in *. set (top := USTACKTOP - 4096) in *.
  assert (Hout : forall x, str_off strs <= x < 4096 -> rd8 (stack_mem g strs m) (g * 4096 + x) = u8 (nth (Z.to_nat (x - str_off strs)) (flat strs) 0)).
  { intros x Hx. unfold stack_mem. fold n. rewrite !rd_wr32. rewrite !decide_False by lia.
    rewrite rd_wr_words_out by (rewrite length_places; lia). rewrite rd_wr_bytes.
    rewrite decide_True by (unfold str_off, size in *; lia). do 2 f_equal. lia. }
  split.
  - split; [unfold BY2PG; lia|]. unfold top. addresses. dlia.
  - rewrite Hw by lia. unfold stack_mem. apply rd32_wr32_eq. unfold is_u32. fold n. lia.
  - replace (top + (arg_off strs - 8) + 4) with (top + (arg_off strs - 4)) by lia. rewrite Hw by lia. unfold stack_mem.
    rewrite rd32_wr32_ne by lia. rewrite rd32_wr32_eq; [fold top; lia|]. unfold is_u32. fold top. unfold top. addresses. lia.
  - intros i l Hl. cbv zeta. destruct (places_flat strs (top + str_off strs) i l Hl) as (q & Hq & P1 & P2 & P3).
    assert (Hi : Z.of_nat i < n). { apply lookup_lt_Some in Hl. unfold n. lia. }
    assert (Ew : wview w e (top + (arg_off strs - 8) + 8 + 4 * Z.of_nat i) = q).
    { replace (top + (arg_off strs - 8) + 8 + 4 * Z.of_nat i) with (top + (arg_off strs + 4 * Z.of_nat i)) by lia.
      rewrite Hw by lia. unfold stack_mem. fold n. rewrite !rd32_wr32_ne by lia. rewrite Z.add_assoc.
      apply rd32_wr_words; [apply places_u32; unfold str_off in *; addresses; lia|exact Hq]. }
    rewrite Ew. unfold str_off in P2. split; [unfold top in *; lia|]. intros k Hk.
    set (x := q - top). assert (Ex : q + Z.of_nat k = top + (x + Z.of_nat k)) by (unfold x; lia).
    rewrite Ex, Hv by (unfold x, str_off in *; lia). rewrite Hout by (unfold x, str_off in *; lia).
    replace (Z.to_nat (x + Z.of_nat k - str_off strs)) with (Z.to_nat (q - (top + str_off strs)) + k)%nat by (unfold x; lia).
    rewrite P3 by lia. apply u8_byte. pose proof (Forall_lookup_1 _ _ _ _ Hb Hl) as Hlb. cbn in Hlb.
    destruct (decide (k < length l)%nat) as [Hkl|Hkl].
    + rewrite app_nth1 by lia. destruct (lookup_lt_is_Some_2 l k Hkl) as [b Eb]. rewrite (nth_lookup_Some _ _ _ _ Eb).
      pose proof (Forall_lookup_1 _ _ _ _ Hlb Eb). cbn in *. lia.
    + rewrite app_nth2 by lia. replace (k - length l)%nat with 0%nat by lia. cbn. lia.
  - replace (top + (arg_off strs - 8) + 8 + 4 * Z.of_nat (length strs)) with (top + (arg_off strs + 4 * n)) by (unfold n; lia).
    rewrite Hw by lia. unfold stack_mem. fold n. rewrite !rd32_wr32_ne by lia. apply rd32_wr32_eq. unfold is_u32. addresses. lia.
Qed.

(** The characters of a C string. *)
Lemma vstring_chars u l : forall a, vstring u a l -> Forall (fun b => 0 < b < 256) l.
Proof. induction l as [|b l IH]; intros a; cbn [vstring]; [done|]. intros (_ & H2 & H3). apply Forall_cons_2; [done|]. by eapply IH. Qed.

Lemma args_chars u argv ps strs : args_at u argv ps strs -> Forall (fun l => Forall (fun b => 0 < b < 256) l) strs.
Proof. intros [_ _ C]. induction C as [|p l ps strs H C IH]; [done|]. apply Forall_cons_2; [by eapply vstring_chars|done]. Qed.

(** Enough words fit beside the strings; the sum in the code does not wrap. *)
Lemma fits_test strs : size strs + 4 * (Z.of_nat (length strs) + 3) < 4294967288 ->
  (BY2PG <? u32 (ROUND (size strs) 4 + 4 * (Z.of_nat (length strs) + 3))) = false <-> fits strs.
Proof.
  intros H. pose proof (size_nonneg strs). unfold fits, BY2PG. rewrite ROUND4 by lia.
  rewrite u32_small by (unfold is_u32; dlia). rewrite Z.ltb_ge. done.
Qed.

(** The pages of all environments but [x] are the same. *)
Definition same_pages (w w' : world) (x : Z * Z -> Prop) : Prop := forall e v, ~ x (e, v) -> page w' e v = page w e v.

Section InitStack.
Context (me fuel : Z) (child argv : Z) (ps : list Z) (strs : list (list Z)) (s : family).
Context (Hme : me <> 0) (Hnk : kids s !! me = None) (Hkid : is_Some (kids s !! child)) (Hc : child <> 0).
Context (Hut : pt (self s) !! VPN UTEMP = None).
Context (Hfr : forall v f p, pt (self s) !! v = Some (f, p) -> 0 <= f < nextf (self s)).
Context (HA : args_at (self s) argv ps strs) (HW : within (Z.to_nat fuel) strs) (Hlen : Z.of_nat (length strs) < fuel).
Context (Hsz : size strs + 4 * (Z.of_nat (length strs) + 3) < 4294967288).

Let w := to_world me s.
Let g := nextf (self s).
Let w1 := Fork.set_answers (tl (Fork.answers w)) w.
Let w2 := Fork.map_fresh me (VPN UTEMP) PTE_D w1.
Let s2 := of_world me w2 s.
Let m' := stack_mem g strs (fm (self s)).
Let w3 := Fork.set_fmem m' w2.

Lemma child_not_me : child <> me.
Proof using Hc Hkid Hnk. intros ->. destruct Hkid. congruence. Qed.

Lemma tabs_w2 e : is_Some (tabs w !! e) -> is_Some (tabs w2 !! e).
Proof using. intros H. unfold w2. cbn [Fork.map_fresh tabs Fork.set_nextf Fork.map_page Fork.set_tabs]. rewrite lookup_insert. case_decide; [by eexists|done]. Qed.

Lemma world_s2 : to_world me s2 = w2.
Proof using. apply to_of, tabs_w2. exact (known_me me s). Qed.

Lemma page_w2 e v : page w2 e v = if decide (me = e /\ VPN UTEMP = v) then Some (g, Z.lor PTE_D PTE_V) else page w e v.
Proof using. exact (page_map w1 me (VPN UTEMP) g PTE_D e v). Qed.

Lemma fill_run : fits strs -> lift (fill_stack (Z.to_nat fuel) argv (Z.of_nat (length strs)) (size strs)) s2 =
  Val (USTACKTOP - 4096 + (arg_off strs - 8)) (set_self (set_fm m' (self s2)) s2).
Proof using HA HW Hfr Hut Hsz.
  intros Hf. apply lift_val.
  assert (Hp : pt (self s2) !! VPN UTEMP = Some (g, Z.lor PTE_D PTE_V)).
  { rewrite <- (page_me me s2), world_s2, page_w2. by rewrite decide_True. }
  assert (HK : forall m, off_frame (self s2) g m -> keeps (self s) (set_fm m (self s2))).
  { intros m Hm. apply (off_frame_keeps _ g); [done|]. intros va b (Hl & f & p & Hv & ->)%vbyte_inv.
    exists f, p. specialize (Hfr _ _ _ Hv). split; [unfold g; lia|]. split; [|done].
    rewrite <- (page_me me s2), world_s2, page_w2, decide_False by (intros [_ E]; congruence). by rewrite <- (page_me me) in Hv. }
  pose proof (fill_stack_ok (Z.to_nat fuel) (self s) (self s2) g (Z.lor PTE_D PTE_V) argv ps strs Hp eq_refl HK HA HW (fm (self s2))
    ltac:(done) Hf ltac:(lia)) as E.
  exact E.
Qed.

(** After the page has been filled. *)
Let s3 := set_self (set_fm m' (self s2)) s2.
Let w4 := Fork.set_answers (tl (Fork.answers w1)) w3.
Let w5 := if next_answer (Fork.answers w1) then Fork.map_page child (VPN (USTACKTOP - BY2PG)) g PTE_D w4 else w4.
Let w6 := Fork.set_tabs (<[me := delete (VPN UTEMP) (tab w5 me)]> (tabs w5)) w5.
Let s6 := of_world me w6 (of_world me w5 s3).

Lemma tabs_w5 e : is_Some (tabs w !! e) -> is_Some (tabs w5 !! e).
Proof using.
  intros H%tabs_w2. unfold w5. destruct (next_answer _); [|done].
  cbn [Fork.map_page tabs Fork.set_tabs]. rewrite lookup_insert. case_decide; [by eexists|done].
Qed.

Lemma last_calls : (r ← sys me (mem_map me 0 UTEMP child (USTACKTOP - BY2PG) PTE_D);
  if r <? 0 then sys me (mem_unmap me 0 UTEMP) ;; mret (Err r) else
  r ← sys me (mem_unmap me 0 UTEMP);
  if r <? 0 then sys me (mem_unmap me 0 UTEMP) ;; mret (Err r) else
  mret (Ok (USTACKTOP - 4096 + (arg_off strs - 8)))) s3 =
  Val (if next_answer (Fork.answers w1) then Ok (USTACKTOP - 4096 + (arg_off strs - 8)) else Err (- E_NO_MEM)) s6.
Proof using Hc Hkid Hme Hnk.
  assert (Hw3 : to_world me s3 = w3) by (unfold s3; rewrite to_world_fm; by rewrite world_s2).
  assert (Hk : is_Some (tabs w !! env_of me child)) by exact (known_kid me s child child_not_me Hc Hkid).
  assert (E1 : mem_map me 0 UTEMP child (USTACKTOP - BY2PG) PTE_D (to_world me s3) =
    Val (if next_answer (Fork.answers w1) then 0 else - E_NO_MEM) w5).
  { rewrite Hw3. rewrite (mem_map_run me 0 UTEMP child (USTACKTOP - BY2PG) PTE_D g (Z.lor PTE_D PTE_V) w3 eq_refl eq_refl).
    - cbv zeta. unfold env_of. destruct (Z.eqb_spec child 0); [done|]. unfold w5. by destruct (next_answer (Fork.answers w1)) eqn:E;
        (change (Fork.answers w3) with (Fork.answers w1); rewrite E).
    - apply tabs_w2, known_me.
    - by apply tabs_w2.
    - change (page w3 (env_of me 0) (VPN UTEMP)) with (page w2 me (VPN UTEMP)). rewrite page_w2. by rewrite decide_True. }
  rewrite (bind_val _ _ _ _ _ (sys_val me _ _ _ _ E1)).
  assert (E2 : mem_unmap me 0 UTEMP (to_world me (of_world me w5 s3)) = Val 0 w6).
  { rewrite to_of by (apply tabs_w5; exact (known_me me s)). apply (mem_unmap_ok me 0 UTEMP); [done|]. apply tabs_w5, known_me. }
  assert (En : - E_NO_MEM <? 0 = true) by reflexivity. destruct (next_answer (Fork.answers w1)); [change (0 <? 0) with false|rewrite En]; cbv iota.
  - by rewrite (bind_val _ _ _ _ _ (sys_val me _ _ _ _ E2)).
  - by rewrite (bind_val _ _ _ _ _ (sys_val me _ _ _ _ E2)).
Qed.

(** Case by case. *)
Lemma count_run : lift (count_args (Z.to_nat fuel) (Z.to_nat fuel) argv 0 0) s = Val (Z.of_nat (length strs), size strs) s.
Proof using HA HW Hlen.
  pose proof (count_args_ok (Z.to_nat fuel) (self s) argv ps [] strs (Z.to_nat fuel) HA HW ltac:(lia)) as E.
  pose proof (lift_val _ _ _ _ E) as E'. by rewrite set_self_id in E'.
Qed.

Lemma init_stack_refuse : ~ fits strs -> init_stack me (Z.to_nat fuel) child argv s = Val (Err (- E_NO_MEM)) s.
Proof using HA HW Hlen Hsz.
  intros Hf. unfold init_stack. rewrite (bind_val _ _ _ _ _ count_run). cbv beta iota.
  destruct (BY2PG <? _) eqn:E; [done|]. apply fits_test in E; [done|lia].
Qed.

Lemma init_stack_run : fits strs -> init_stack me (Z.to_nat fuel) child argv s =
  if next_answer (Fork.answers w) then
    Val (if next_answer (Fork.answers w1) then Ok (USTACKTOP - 4096 + (arg_off strs - 8)) else Err (- E_NO_MEM)) s6
  else Val (Err (- E_NO_MEM)) (of_world me w1 s).
Proof using All.
  intros Hf. unfold init_stack. rewrite (bind_val _ _ _ _ _ count_run). cbv beta iota.
  destruct (BY2PG <? _) eqn:E; [by apply fits_test in Hf; [congruence|lia]|clear E].
  pose proof (mem_alloc_run me 0 UTEMP PTE_D w eq_refl (known_me me s)) as E. cbv zeta in E. fold w1 in E.
  destruct (next_answer (Fork.answers w)).
  - rewrite (bind_val _ _ _ _ _ (sys_val me _ _ _ _ E)). change (0 <? 0) with false. cbv iota.
    change (of_world me _ s) with s2. rewrite (bind_val _ _ _ _ _ (fill_run Hf)). exact last_calls.
  - by rewrite (bind_val _ _ _ _ _ (sys_val me _ _ _ _ E)).
Qed.

Lemma world_s6 : to_world me s6 = w6.
Proof using.
  apply to_of. unfold w6. cbn [tabs Fork.set_tabs]. rewrite lookup_insert_eq. by eexists.
Qed.

Lemma page_w6 e v : page w6 e v = if decide (me = e /\ VPN UTEMP = v) then None else
  if decide (next_answer (Fork.answers w1) = true /\ child = e /\ VPN (USTACKTOP - BY2PG) = v) then Some (g, Z.lor PTE_D PTE_V)
  else page w e v.
Proof using.
  unfold w6. rewrite page_unmap. case_decide; [done|]. unfold w5. destruct (next_answer (Fork.answers w1)).
  - rewrite page_map. destruct (decide (child = e /\ VPN (USTACKTOP - BY2PG) = v)) as [H'|H'].
    + by rewrite decide_True.
    + rewrite decide_False by (intros (_ & H2); exact (H' H2)). change (page w4 e v) with (page w2 e v). rewrite page_w2. by rewrite decide_False.
  - rewrite decide_False by (intros (H1 & _); discriminate H1). change (page w4 e v) with (page w2 e v). rewrite page_w2. by rewrite decide_False.
Qed.

Lemma fmem_w6 a : a < g * 4096 -> fits strs -> rd8 (fmem w6) a = rd8 (fmem w) a.
Proof using Hsz.
  intros Ha Hf. assert (E : fmem w6 = m') by (unfold w6, w5; by destruct (next_answer _)). rewrite E.
  apply (off_stack_mem (self s) g strs); (done || lia).
Qed.

Lemma init_stack_facts : fits strs -> next_answer (Fork.answers w) = true ->
  exists s', init_stack me (Z.to_nat fuel) child argv s =
    Val (if next_answer (tl (Fork.answers w)) then Ok (USTACKTOP - 4096 + (arg_off strs - 8)) else Err (- E_NO_MEM)) s' /\
  (forall e v, page (to_world me s') e v = if decide (me = e /\ VPN UTEMP = v) then None else
    if decide (next_answer (tl (Fork.answers w)) = true /\ child = e /\ VPN (USTACKTOP - BY2PG) = v) then Some (g, Z.lor PTE_D PTE_V)
    else page w e v) /\
  fmem (to_world me s') = m' /\ (forall a, a < g * 4096 -> rd8 (fmem (to_world me s')) a = rd8 (fmem w) a).
Proof using All.
  intros Hf Hn. exists s6. rewrite init_stack_run, Hn by done. split; [done|]. rewrite world_s6. split; [exact page_w6|].
  split; [unfold w6, w5; by destruct (next_answer _)|]. intros a Ha. by apply fmem_w6.
Qed.
End InitStack.

(** C10: init_stack builds the stack of a new program, on every branch. When the strings and
    the array do not fit in one page it returns [-E_NO_MEM] and does nothing; when the kernel
    has no page it returns [-E_NO_MEM]; when both calls succeed, the top page of the child's
    stack holds, from the returned stack pointer up, argc, argv, the pointers and the strings.
    In each case the page UTEMP is unmapped again, every other page of every environment is
    as before and no byte of the parent has changed. *)
Theorem init_stack_correct me fuel child argv ps strs s :
  let w := to_world me s in
  let stack := VPN (USTACKTOP - BY2PG) in
  let sp := USTACKTOP - 4096 + (arg_off strs - 8) in
  me <> 0 -> kids s !! me = None -> is_Some (kids s !! child) -> child <> 0 ->
  pt (self s) !! VPN UTEMP = None ->
  (forall v f p, pt (self s) !! v = Some (f, p) -> 0 <= f < nextf (self s)) ->
  args_at (self s) argv ps strs -> within (Z.to_nat fuel) strs -> Z.of_nat (length strs) < fuel ->
  size strs + 4 * (Z.of_nat (length strs) + 3) < 4294967288 ->
  exists r s', init_stack me (Z.to_nat fuel) child argv s = Val r s' /\
    let w' := to_world me s' in
    same_pages w w' (fun x => r = Ok sp /\ x = (child, stack)) /\
    (forall a, a < nextf (self s) * 4096 -> rd8 (fmem w') a = rd8 (fmem w) a) /\
    match r with
    | Err e => e = - E_NO_MEM /\
        (~ fits strs /\ s' = s \/ fits strs /\ (next_answer (Fork.answers w) && next_answer (tl (Fork.answers w))) = false)
    | Ok sp' => sp' = sp /\ fits strs /\ stack_holds w' child sp strs /\
        page w' child stack = Some (nextf (self s), Z.lor PTE_D PTE_V)
    end.
Proof.
  intros w stack sp Hme Hnk Hkid Hc Hut Hfr HA HW Hlen Hsz. set (x := VPN UTEMP).
  destruct (decide (fits strs)) as [Hf|Hf].
  2:{ exists (Err (- E_NO_MEM)), s. split; [by apply (init_stack_refuse me fuel child argv ps strs s)|].
      split; [done|]. split; [done|]. split; [done|]. by left. }
  destruct (next_answer (Fork.answers w)) eqn:E1.
  2:{ pose proof (init_stack_run me fuel child argv ps strs s Hme Hnk Hkid Hc Hut Hfr HA HW Hlen Hsz Hf) as E.
      fold w in E. rewrite E1 in E. eexists _, _. split; [exact E|]. rewrite to_of by exact (known_me me s).
      split; [done|]. split; [done|]. split; [done|]. by right. }
  destruct (init_stack_facts me fuel child argv ps strs s Hme Hnk Hkid Hc Hut Hfr HA HW Hlen Hsz Hf E1) as (s' & E & Hp & Hm & Hb).
  fold w in E, Hp, Hb. eexists _, _. split; [exact E|]. cbv zeta. split; [|split; [exact Hb|]].
  - intros e v Hx. rewrite Hp. destruct (decide (me = e /\ VPN UTEMP = v)) as [[<- <-]|].
    { symmetry. unfold w. by rewrite page_me. }
    rewrite decide_False; [done|]. intros (D2 & <- & <-). rewrite D2 in Hx. by apply Hx.
  - destruct (next_answer (tl (Fork.answers w))) eqn:E2; [|split; [done|]; by right].
    assert (Hpc : page (to_world me s') child stack = Some (nextf (self s), Z.lor PTE_D PTE_V)).
    { rewrite Hp, decide_False; [by rewrite decide_True|]. intros [<- _]. destruct Hkid. congruence. }
    split; [done|]. split; [done|]. split; [|exact Hpc].
    eapply stack_mem_holds; [exact Hpc|exact Hm|done|lia|exact (args_chars _ _ _ _ HA)].
Qed.

(** A process that runs [ls -l] in the new environment 2. *)
Definition ls_args : list (list Z) := [[108; 115]; [45; 108]].
Definition ls_proc : uproc :=
  mkU {[1280 := (0, 1536)]} (wr_bytes (wr_words ∅ 0 [5242896; 5242899; 0]) 16 (flat ls_args)) 1 ∅ [] [] [] [] [] [] [] 0 0 ∅.
Definition ls_family : family := mkFamily ls_proc {[2 := ∅]} [] ∅ ∅ ∅.

Lemma ls_args_at : args_at ls_proc 5242880 [5242896; 5242899] ls_args.
Proof.
  split; [done|repeat split; (vm_compute; congruence)|].
  repeat (apply Forall2_cons; split; [repeat split; (vm_compute; congruence)|]). apply Forall2_nil. done.
Qed.

Lemma init_stack_correct_witness : exists s', init_stack 1 100 2 5242880 ls_family = Val (Ok 2134892516) s' /\
  wview (to_world 1 s') 2 2134892516 = 2 /\ page (to_world 1 s') 1 (VPN UTEMP) = None.
Proof.
  destruct (init_stack_correct 1 100 2 5242880 [5242896; 5242899] ls_args ls_family) as (r & s' & E & Hp & Hm & Hr).
  - done.
  - by vm_compute.
  - by eexists.
  - done.
  - by vm_compute.
  - intros v f p Hv. cbn in Hv. apply lookup_singleton_Some in Hv as [_ [= <- <-]]. cbn. lia.
  - exact ls_args_at.
  - repeat (apply Forall_cons_2; [vm_compute; lia|]). apply Forall_nil_2.
  - cbn. lia.
  - vm_compute. reflexivity.
  - change (Z.to_nat 100) with 100%nat in E. exists s'. destruct r as [e|sp].
    { exfalso. destruct Hr as (_ & [[Hf _]|[_ Ha]]); [|vm_compute in Ha; discriminate]. apply Hf. vm_compute. discriminate. }
    destruct Hr as (-> & _ & [_ H _ _ _] & _). split; [exact E|]. split; [exact H|].
    rewrite Hp; [by vm_compute|]. intros (_ & [=]).
Defined.
