(* ===== verification/SpawnLoad.v ===== *)
(** * Loading a program into a new environment (user/lib/spawn.c, lib/elfloader.c)

    [spawn_mapper] does to the memory of the child what [image_mapper] does to an image; so
    [elf_load_seg] puts the segment into the child, and leaves everybody else alone. *)

From Stdlib Require Import ZArith Lia.
From stdpp Require Import base numbers list gmap strings.
From S2P Require Import Prelude Mmu Str StrThms Wp KState Elf ElfThms Signo Env TlbEx Syscall Fork ForkThms ForkIso.
From S2P Require Import Uproc UprocMem Fd Ufile Upipe FdOps Spawn SpawnThms.

(** The memory of an environment as an image. *)
Definition env_image (w : world) (e : Z) : image := fun a =>
  match page w e (VPN a) with Some (f, _) => Some (rd8 (fmem w) (f * 4096 + a mod 4096)) | None => None end.

(** Frames in use are below [nextf], and unused frames are zero. *)
Record frames_ok (w : world) : Prop := {
  fo_next : 0 <= Fork.nextf w;
  fo_bytes : bytes_ok (fmem w);
  fo_zero : forall a, Fork.nextf w * 4096 <= a -> rd8 (fmem w) a = 0;
  fo_below : forall e v f p, page w e v = Some (f, p) -> 0 <= f < Fork.nextf w }.

Section Load.
Context (me child bin : Z) (content : Z -> Z) (size : Z).
Context (Hme : me <> 0) (Hc : child <> 0).

(** The parent's memory holds the file; [m] is the child's memory. *)
Record loading (s0 s : family) (m : image) : Prop := {
  lo_image : forall a, env_image (to_world me s) child a = m a;
  lo_frames : frames_ok (to_world me s);
  lo_answers : answers (self s) = [];
  lo_kids : kids s !! me = None /\ is_Some (kids s !! child);
  lo_utemp : pt (self s) !! VPN UTEMP = None;
  lo_file : forall k, 0 <= k < size -> vbyte (self s) (bin + k) = Some (content k);
  lo_pages : same_pages (to_world me s0) (to_world me s) (fun x => x.1 = child);
  lo_next : nextf (self s0) <= nextf (self s);
  lo_bytes : forall a, a < nextf (self s0) * 4096 -> rd8 (fm (self s)) a = rd8 (fm (self s0)) a }.

Lemma kids_not_me s : kids s !! me = None -> is_Some (kids s !! child) -> child <> me.
Proof using. intros H [t Ht] E. rewrite E, H in Ht. discriminate. Qed.

Lemma vbyte_world s a : vbyte (self s) a = if is_illegal_va a then None else
  match page (to_world me s) me (VPN a) with Some (f, _) => Some (rd8 (fmem (to_world me s)) (f * 4096 + a mod 4096)) | None => None end.
Proof. unfold vbyte. by rewrite page_me. Qed.

Lemma page_of_VPN va a : page_of va <= a < page_of va + 4096 <-> VPN va = VPN a.
Proof. unfold page_of. rewrite !VPN_div. split; intros H; dlia. Qed.

(** A fresh frame in the child's page of [va] with any content; UTEMP may have been used. *)
Section Step.
Context (s0 s : family) (m : image) (HL : loading s0 s m) (va : Z).
Let w := to_world me s.
Let g := nextf (self s).

Record stepped (s' : family) : Prop := {
  st_page : exists p, forall e v, page (to_world me s') e v =
    if decide (child = e /\ VPN va = v) then Some (g, p) else page w e v;
  st_known : kids s' !! me = None /\ is_Some (kids s' !! child);
  st_next : nextf (self s') = g + 1;
  st_answers : answers (self s') = [];
  st_bytes : bytes_ok (fm (self s'));
  st_frame : forall a, ~ (g * 4096 <= a < g * 4096 + 4096) -> rd8 (fm (self s')) a = rd8 (fm (self s)) a }.

Lemma frame_below e v f p : page w e v = Some (f, p) -> 0 <= f < g.
Proof using HL. apply (fo_below _ (lo_frames _ _ _ HL)). Qed.

Lemma child_ne_me : child <> me.
Proof using HL. destruct (lo_kids _ _ _ HL). by apply (kids_not_me s). Qed.

(** What others map has not changed. *)
Lemma byte_below s' e v f p o : stepped s' -> page w e v = Some (f, p) -> 0 <= o < 4096 ->
  rd8 (fmem (to_world me s')) (f * 4096 + o) = rd8 (fmem w) (f * 4096 + o).
Proof using HL. intros H Hp Ho. apply (st_frame _ H). pose proof (frame_below _ _ _ _ Hp). lia. Qed.

Lemma loading_step s' : stepped s' -> loading s0 s' (fun a =>
  if decide (page_of va <= a < page_of va + 4096) then Some (rd8 (fm (self s')) (g * 4096 + a mod 4096)) else m a).
Proof using All.
  intros H. destruct (st_page _ H) as [p Hp]. pose proof child_ne_me as Hcm. split.
  - intros a. unfold env_image. rewrite Hp. destruct (decide (child = child /\ VPN va = VPN a)) as [[_ E]|E].
    + by rewrite decide_True by by apply page_of_VPN.
    + rewrite decide_False by (rewrite page_of_VPN; naive_solver). rewrite <- (lo_image _ _ _ HL a). unfold env_image.
      fold w. destruct (page w child (VPN a)) as [[f q]|] eqn:Ef; [|done]. f_equal.
      eapply byte_below; [done|exact Ef|]. by apply Z.mod_pos_bound.
  - assert (En : Fork.nextf (to_world me s') = g + 1) by exact (st_next _ H). split.
    + rewrite En. pose proof (fo_next _ (lo_frames _ _ _ HL)) as H0. change (0 <= g) in H0. lia.
    + exact (st_bytes _ H).
    + intros a Ha. rewrite En in Ha. change (rd8 (fm (self s')) a = 0). rewrite (st_frame _ H) by lia.
      apply (fo_zero _ (lo_frames _ _ _ HL)). change (g * 4096 <= a). lia.
    + intros e v f q. rewrite Hp, En. pose proof (fo_next _ (lo_frames _ _ _ HL)) as H0. change (0 <= g) in H0.
      case_decide; [intros [= <- <-]; lia|]. intros Hf%frame_below. lia.
  - exact (st_answers _ H).
  - exact (st_known _ H).
  - rewrite <- page_me with (me := me), Hp, decide_False by naive_solver. unfold w. rewrite page_me. exact (lo_utemp _ _ _ HL).
  - intros k Hk. pose proof (lo_file _ _ _ HL k Hk) as Hv. rewrite vbyte_world in *. destruct (is_illegal_va _); [done|].
    rewrite Hp, decide_False by naive_solver. fold w in Hv |- *. destruct (page w me (VPN (bin + k))) as [[f q]|] eqn:Ef; [|done].
    rewrite <- Hv. f_equal. eapply byte_below; [done|exact Ef|]. by apply Z.mod_pos_bound.
  - intros e v Hx. rewrite Hp, decide_False by (intros [<- _]; by apply Hx). exact (lo_pages _ _ _ HL e v Hx).
  - rewrite (st_next _ H). pose proof (lo_next _ _ _ HL). unfold g. lia.
  - intros a Ha. rewrite (st_frame _ H) by (pose proof (lo_next _ _ _ HL); unfold g; lia). exact (lo_bytes _ _ _ HL a Ha).
Qed.
End Step.

(** ** spawn_mapper *)
Section Mapper.
Context (s0 s : family) (m : image) (HL : loading s0 s m) (va perm : Z) (Hva : is_illegal_va va = false).
Let w := to_world me s.
Let g := nextf (self s).
Let w1 := Fork.map_fresh child (VPN va) perm w.
Let s1 := of_world me w1 s.

Lemma known_child : is_Some (tabs w !! env_of me child) /\ env_of me child = child.
Proof using Hc HL.
  destruct (lo_kids _ _ _ HL) as [H1 H2]. split; [by apply known_kid; [apply (kids_not_me s)|..]|].
  unfold env_of. by destruct (Z.eqb_spec child 0).
Qed.

Lemma lw_alloc_run : sys me (mem_alloc me child va perm) s = Val 0 s1.
Proof using Hc HL Hva.
  destruct known_child as [H1 H2]. apply sys_val.
  pose proof (mem_alloc_ok me child va perm w Hva H1 (lo_answers _ _ _ HL)) as E. by rewrite H2 in E.
Qed.

Lemma lw_tabs_w1 e : is_Some (tabs w !! e) -> is_Some (tabs w1 !! e).
Proof using. intros H. unfold w1. cbn [Fork.map_fresh tabs Fork.set_nextf Fork.map_page Fork.set_tabs]. rewrite lookup_insert. case_decide; [by eexists|done]. Qed.

Lemma lw_world_s1 : to_world me s1 = w1.
Proof using. apply to_of, lw_tabs_w1. exact (known_me me s). Qed.

Lemma lw_page_w1 e v : page w1 e v = if decide (child = e /\ VPN va = v) then Some (g, Z.lor perm PTE_V) else page w e v.
Proof using. exact (page_map w child (VPN va) g perm e v). Qed.

Lemma kids_of w' s' : child <> me -> is_Some (tabs w' !! child) ->
  kids (of_world me w' s') !! me = None /\ is_Some (kids (of_world me w' s') !! child).
Proof using. intros Hn Hk. cbn. by rewrite lookup_delete_eq, lookup_delete_ne by congruence. Qed.

Lemma child_tab w' : is_Some (tabs w' !! env_of me child) -> is_Some (tabs w' !! child).
Proof using Hc HL. by destruct known_child as [_ ->]. Qed.

Lemma lw_stepped_s1 : stepped s va s1.
Proof using Hc HL.
  assert (Hk : is_Some (tabs w1 !! child)) by (apply lw_tabs_w1, child_tab, known_child).
  split; [exists (Z.lor perm PTE_V); rewrite lw_world_s1; exact lw_page_w1| |done|exact (lo_answers _ _ _ HL)|exact (fo_bytes _ (lo_frames _ _ _ HL))|done].
  apply kids_of; [apply (child_ne_me s0 s m HL)|exact Hk].
Qed.

(** Without content. *)
Lemma mapper_zero len : exists s', spawn_mapper me child bin va 0 perm None len s = Val 0 s' /\
  loading s0 s' (put_page content va 0 None len m).
Proof using All.
  exists s1. split; [unfold spawn_mapper; by rewrite (bind_val _ _ _ _ _ lw_alloc_run)|].
  pose proof (loading_step s0 s m HL va s1 lw_stepped_s1) as HL1. destruct HL1 as [I F A K U L P N B]. split; try done.
  intros a. rewrite I. unfold put_page. case_decide; [|done]. f_equal.
  apply (fo_zero _ (lo_frames _ _ _ HL)). change (g * 4096 <= g * 4096 + a mod 4096). pose proof (Z.mod_pos_bound a 4096). lia.
Qed.

(** With content. *)
Context (offset o len : Z) (Hoff : offset = va mod 4096) (Ho : 0 <= o) (Hlen : 0 <= len) (Hsz : o + len <= size) (Hpg : offset + len <= 4096).

Let uperm := Z.lor (Z.lor perm PTE_D) PTE_V.
Let w2 := Fork.map_page me (VPN UTEMP) g (Z.lor perm PTE_D) w1.
Let s2 := of_world me w2 s1.
Let mem' := wr_bytes (fm (self s)) (g * 4096 + offset) (map (fun k => content (o + k)) (zseq 0 (Z.to_nat len))).
Let s3 := set_self (set_fm mem' (self s2)) s2.
Let w3 := Fork.set_fmem mem' w2.
Let w4 := Fork.set_tabs (<[me := delete (VPN UTEMP) (tab w3 me)]> (tabs w3)) w3.
Let s4 := of_world me w4 s3.

Lemma lw_tabs_w2 e : is_Some (tabs w !! e) -> is_Some (tabs w2 !! e).
Proof using. intros H%lw_tabs_w1. unfold w2. cbn [tabs Fork.map_page Fork.set_tabs]. rewrite lookup_insert. case_decide; [by eexists|done]. Qed.

Lemma lw_world_s2 : to_world me s2 = w2.
Proof using. apply to_of, lw_tabs_w2. exact (known_me me s). Qed.

Lemma lw_page_w2 e v : page w2 e v = if decide (me = e /\ VPN UTEMP = v) then Some (g, uperm) else page w1 e v.
Proof using. exact (page_map w1 me (VPN UTEMP) g (Z.lor perm PTE_D) e v). Qed.

Lemma lw_map_run : sys me (mem_map me child va 0 UTEMP (Z.lor perm PTE_D)) s1 = Val 0 s2.
Proof using Hc HL Hva.
  destruct known_child as [H1 H2]. apply sys_val. rewrite lw_world_s1.
  apply (mem_map_ok me child va 0 UTEMP (Z.lor perm PTE_D) g (Z.lor perm PTE_V)); [done|done|by apply lw_tabs_w1|by apply lw_tabs_w1, known_me|
    exact (lo_answers _ _ _ HL)|].
  rewrite H2, lw_page_w1. by rewrite decide_True.
Qed.

Lemma lw_page_s2 a f q : page w me (VPN a) = Some (f, q) -> pt (self s2) !! VPN a = Some (f, q).
Proof using HL.
  intros Hp. rewrite <- (page_me me s2), lw_world_s2, lw_page_w2. rewrite decide_False.
  - rewrite lw_page_w1, decide_False; [done|]. intros [E _]. by apply (child_ne_me s0 s m HL).
  - intros [_ E]. rewrite <- E in Hp. unfold w in Hp. rewrite page_me, (lo_utemp _ _ _ HL) in Hp. done.
Qed.

(** The file's bytes can be read while the page at UTEMP is written. *)
Lemma lw_file_s2 mm k : off_frame (self s2) g mm -> 0 <= k < size -> vbyte (set_fm mm (self s2)) (bin + k) = Some (content k).
Proof using HL.
  intros Hm Hk. pose proof (lo_file _ _ _ HL k Hk) as Hv. rewrite vbyte_world in Hv. unfold vbyte.
  destruct (is_illegal_va (bin + k)); [done|]. fold w in Hv. destruct (page w me (VPN (bin + k))) as [[f q]|] eqn:Ef; [|done].
  cbn [pt fm set_fm]. rewrite (lw_page_s2 _ _ _ Ef). rewrite <- Hv. f_equal.
  pose proof (frame_below s0 s m HL _ _ _ _ Ef) as Hf. rewrite Hm; [done|]. pose proof (Z.mod_pos_bound (bin + k) 4096). fold g in Hf. lia.
Qed.

Lemma lw_write_run : lift (memcpy_loop (u32 (UTEMP + offset)) (u32 (bin + o)) (Z.to_nat len)) s2 = Val tt s3.
Proof using HL Hoff Ho Hlen Hsz Hpg.
  apply lift_val. assert (Hor : 0 <= offset) by (rewrite Hoff; by apply Z.mod_pos_bound).
  destruct (Z.eq_dec len 0) as [E0|E0]. { unfold mem'. rewrite E0. reflexivity. }
  assert (Hb : u32 (bin + o) = bin + o + 0).
  { pose proof (lo_file _ _ _ HL o ltac:(lia)) as Hv. apply vbyte_legal in Hv. rewrite u32_small; [lia|]. unfold is_u32. addresses. lia. }
  assert (Hu : u32 (UTEMP + offset) = UTEMP + offset) by (apply u32_small; unfold is_u32; addresses; lia).
  rewrite Hb, Hu.
  apply (memcpy_page (self s2) UTEMP g uperm eq_refl ltac:(by vm_compute)) with (m := fm (self s2)); [| |done|lia|lia|].
  - rewrite <- (page_me me s2), lw_world_s2, lw_page_w2. by rewrite decide_True.
  - unfold uperm. rewrite hasbits_D. unfold D. rewrite !Z.lor_spec. by rewrite orb_true_r.
  - intros mm j Hmm Hj. rewrite <- Z.add_assoc. apply lw_file_s2; [done|lia].
Qed.

Lemma lw_world_s3 : to_world me s3 = w3.
Proof using. unfold s3. rewrite to_world_fm. by rewrite lw_world_s2. Qed.

Lemma lw_unmap_run : sys me (mem_unmap me 0 UTEMP) s3 = Val 0 s4.
Proof using.
  apply sys_val. rewrite lw_world_s3. apply (mem_unmap_ok me 0 UTEMP); [done|]. apply lw_tabs_w2. exact (known_me me s).
Qed.

Lemma lw_world_s4 : to_world me s4 = w4.
Proof using. apply to_of. unfold w4. cbn [tabs Fork.set_tabs]. rewrite lookup_insert_eq. by eexists. Qed.

Lemma lw_page_w4 e v : page w4 e v = if decide (child = e /\ VPN va = v) then Some (g, Z.lor perm PTE_V) else page w e v.
Proof using HL.
  pose proof (child_ne_me s0 s m HL) as Hn. unfold w4. rewrite page_unmap. destruct (decide (me = e /\ VPN UTEMP = v)) as [[<- <-]|H1].
  - rewrite decide_False by (intros [E _]; done). symmetry. unfold w. rewrite page_me. exact (lo_utemp _ _ _ HL).
  - change (page w3 e v) with (page w2 e v). rewrite lw_page_w2, decide_False by done. apply lw_page_w1.
Qed.

Lemma lw_tabs_w4 e : is_Some (tabs w !! e) -> is_Some (tabs w4 !! e).
Proof using. intros H%lw_tabs_w2. unfold w4. cbn [tabs Fork.set_tabs]. rewrite lookup_insert. case_decide; [by eexists|done]. Qed.

Lemma mem'_at a : rd8 mem' a = if decide (g * 4096 + offset <= a < g * 4096 + offset + len)
  then u8 (content (o + (a - (g * 4096 + offset)))) else rd8 (fm (self s)) a.
Proof using uperm Hlen.
  unfold mem'. rewrite rd_wr_bytes. rewrite length_map, zseq_length, Z2Nat.id by done. case_decide; [|done]. f_equal.
  rewrite nth_lookup, list_lookup_fmap. rewrite zseq_lookup by lia. cbn. f_equal. lia.
Qed.

Lemma lw_stepped_s4 : stepped s va s4.
Proof using Hc HL Hoff Hlen Hpg.
  assert (Hor : 0 <= offset) by (rewrite Hoff; by apply Z.mod_pos_bound).
  split; [exists (Z.lor perm PTE_V); rewrite lw_world_s4; exact lw_page_w4| |done|exact (lo_answers _ _ _ HL)| |].
  - apply kids_of; [apply (child_ne_me s0 s m HL)|]. apply lw_tabs_w4, child_tab, known_child.
  - change (bytes_ok mem'). unfold mem'. intros a. rewrite rd_wr_bytes. case_decide; [apply u8_range|]. apply (fo_bytes _ (lo_frames _ _ _ HL)).
  - intros a Ha. change (rd8 mem' a = rd8 (fm (self s)) a). rewrite mem'_at. rewrite decide_False by (fold g in Ha; lia). done.
Qed.

Lemma mapper_content : exists s', spawn_mapper me child bin va offset perm (Some o) len s = Val 0 s' /\
  loading s0 s' (put_page content va offset (Some o) len m).
Proof using All.
  exists s4. split.
  { unfold spawn_mapper. rewrite (bind_val _ _ _ _ _ lw_alloc_run). cbn [Z.eqb negb]. rewrite (bind_val _ _ _ _ _ lw_map_run). cbn [Z.eqb negb].
    rewrite (bind_val _ _ _ _ _ lw_write_run). exact lw_unmap_run. }
  pose proof (loading_step s0 s m HL va s4 lw_stepped_s4) as HL1. destruct HL1 as [I F A K U L P N B]. split; try done.
  intros a. rewrite I. unfold put_page. case_decide as Hpa; [|done]. f_equal. change (fm (self s4)) with mem'. rewrite mem'_at.
  assert (Hor : 0 <= offset) by (rewrite Hoff; by apply Z.mod_pos_bound).
  assert (Ea : a mod 4096 = a - page_of va) by (unfold page_of in *; dlia). rewrite Ea.
  destruct (decide (page_of va + offset <= a < page_of va + offset + len)).
  - rewrite decide_True by (fold g; lia). fold g. replace (o + (g * 4096 + (a - page_of va) - (g * 4096 + offset))) with (o + (a - page_of va - offset)) by lia.
    apply u8_byte. pose proof (lo_file _ _ _ HL (o + (a - page_of va - offset)) ltac:(lia)) as Hv.
    apply vbyte_inv in Hv as (_ & f & q & _ & ->). apply (fo_bytes _ (lo_frames _ _ _ HL)).
  - rewrite decide_False by (fold g; lia). apply (fo_zero _ (lo_frames _ _ _ HL)). change (g * 4096 <= g * 4096 + (a - page_of va)). lia.
Qed.
End Mapper.

(** C11: elf_load_seg with spawn's callback loads a segment into the child, for a segment as in
    elf_load_seg_correct whose file content the caller's memory holds at [bin]: the content is
    at the segment's addresses in the child, the rest of the segment is zero, the child's
    other pages are as before; no other environment's page and no byte of the caller changes,
    and the page UTEMP through which the content was written is unmapped again. *)
Theorem spawn_segment_correct ph s : let w := to_world me s in
  let va := p_vaddr ph in let fs := p_filesz ph in let ms := p_memsz ph in
  loading s s (env_image w child) -> size = fs ->
  UTEMP <= page_of va -> va < UTOP -> va + ms <= UTOP -> 0 <= fs <= ms ->
  (va mod 4096 = 0 \/ 4096 - va mod 4096 <= fs) ->
  exists s', elf_load_seg (spawn_mapper me child bin) ph s = Val 0 s' /\
    let w' := to_world me s' in
    (forall k, 0 <= k < ms -> env_image w' child (va + k) = Some (if k <? fs then content k else 0)) /\
    (forall a, a < page_of va \/ page_of (va + ms - 1) + 4096 <= a -> env_image w' child a = env_image w child a) /\
    same_pages w w' (fun x => x.1 = child) /\
    (forall a, a < nextf (self s) * 4096 -> rd8 (fmem w') a = rd8 (fmem w) a).
Proof using Hc Hme.
  intros w va fs ms HL Hsz Hlo Hlt Hhi Hfs Hgood. assert (Hva : 0 <= va) by (unfold page_of in Hlo; addresses; dlia).
  assert (Hlim : va + ms + 8192 < 4294967296) by (addresses; lia).
  destruct (elf_load_seg_correct content ph (env_image w child) Hva Hfs Hlim Hgood) as (m' & E & H1 & H2).
  destruct (elf_load_seg_sim content (spawn_mapper me child bin) (loading s) ph) with (s := s) (m := env_image w child) (m' := m') as (s' & Es & HL'); try done.
  { intros va' off perm src len t m [Hr Hsrc] HLt.
    assert (Hleg : is_illegal_va va' = false).
    { fold va ms in Hr. assert (page_of va <= va) by (unfold page_of; dlia). unfold is_illegal_va.
      destruct (Z.ltb_spec va' UTEMP), (Z.leb_spec UTOP va'); (done || lia). }
    destruct src as [o|].
    - destruct Hsrc as (H3 & H4 & H5 & H6 & H7). fold fs in H6. apply (mapper_content s t m HLt va' perm Hleg off o len); (done || lia).
    - rewrite Hsrc. by apply mapper_zero. }
  exists s'. split; [exact Es|]. cbv zeta. destruct HL' as [I _ _ _ _ _ P _ B]. split; [|split; [|split; [exact P|exact B]]].
  - intros k Hk. rewrite I. by apply H1.
  - intros a Ha. rewrite I. by apply H2.
Qed.
End Load.

(** Five bytes of memory at 0x400000, three of them in the file, which is at 0x500000. *)
Definition seg_bytes : list Z := [7; 8; 9].
Definition seg_family : family :=
  mkFamily (mkU {[1280 := (0, 1536)]} (wr_bytes ∅ 0 seg_bytes) 1 ∅ [] [] [] [] [] [] [] 0 0 ∅) {[2 := ∅]} [] ∅ ∅ ∅.

Lemma seg_page e v f p : page (to_world 1 seg_family) e v = Some (f, p) -> f = 0.
Proof.
  unfold page, tab. cbn. destruct (decide (1 = e)) as [<-|H1].
  - rewrite lookup_insert_eq. cbn. intros [_ [= <- _]]%lookup_singleton_Some. done.
  - rewrite lookup_insert_ne by done. destruct (decide (2 = e)) as [<-|H2].
    + rewrite lookup_singleton_eq. cbn. by rewrite lookup_empty.
    + rewrite lookup_singleton_ne by done. cbn. by rewrite lookup_empty.
Qed.

Lemma seg_loading : loading 1 2 5242880 (fun k => nth (Z.to_nat k) seg_bytes 0) 3 seg_family seg_family
  (env_image (to_world 1 seg_family) 2).
Proof.
  assert (B : bytes_ok (wr_bytes ∅ 0 seg_bytes)). { apply wr_bytes_ok. intros a. unfold rd8. rewrite lookup_empty. cbn. lia. }
  split; try done.
  - split; [by vm_compute|exact B| |].
    + intros a Ha. change (rd8 (wr_bytes ∅ 0 seg_bytes) a = 0). change (4096 <= a) in Ha. rewrite rd_wr_bytes.
      change (Z.of_nat (length seg_bytes)) with 3. rewrite decide_False by lia. unfold rd8. by rewrite lookup_empty.
    + intros e v f p ->%seg_page. cbn. lia.
  - intros k Hk. assert (k = 0 \/ k = 1 \/ k = 2) as [-> | [-> | ->]] by lia; by vm_compute.
Qed.

Lemma spawn_segment_correct_witness : exists s',
  elf_load_seg (spawn_mapper 1 2 5242880) (mkPhdr PT_LOAD 0 4194304 3 5 0) seg_family = Val 0 s' /\
  env_image (to_world 1 s') 2 4194306 = Some 9 /\ env_image (to_world 1 s') 2 4194308 = Some 0.
Proof.
  destruct (spawn_segment_correct 1 2 5242880 (fun k => nth (Z.to_nat k) seg_bytes 0) 3 ltac:(done) ltac:(done)
    (mkPhdr PT_LOAD 0 4194304 3 5 0) seg_family) as (s' & E & H & _).
  - exact seg_loading.
  - done.
  - by vm_compute.
  - by vm_compute.
  - by vm_compute.
  - cbn. lia.
  - left. by vm_compute.
  - exists s'. split; [exact E|]. split; [exact (H 2 ltac:(cbn; lia))|exact (H 4 ltac:(cbn; lia))].
Defined.
