(* ===== verification/SpawnStart.v ===== *)
(** * Spawn: starting the child, and the errors of spawn (user/lib/spawn.c) *)

From Stdlib Require Import ZArith Lia.
From stdpp Require Import base numbers list gmap strings.
From S2P Require Import Prelude Mmu Str StrThms Wp KState Elf ElfThms Signo Env TlbEx Syscall Fork ForkThms.
From S2P Require Import Uproc UprocMem Fd Ufile Upipe FdOps Spawn SpawnThms SpawnLoad.

(** A loop that stops at the first error meets none. *)
Lemma for_err_ok {S} (I : Z -> S -> Prop) (body : Z -> M S Z) n :
  forall a s, (forall x s, a <= x < a + Z.of_nat n -> I x s -> exists s', body x s = Val 0 s' /\ I (x + 1) s') -> I a s ->
  exists s', for_err (zseq a n) body s = Val 0 s' /\ I (a + Z.of_nat n) s'.
Proof.
  induction n as [|n IH]; intros a s Hb Ha; cbn [zseq for_err]; [exists s; by rewrite Z.add_0_r|].
  destruct (Hb a s ltac:(lia) Ha) as (s1 & E1 & H1). rewrite (bind_val _ _ _ _ _ E1). cbn [Z.eqb negb].
  destruct (IH (a + 1) s1) as (s2 & E2 & H2); [intros x t Hx; apply Hb; lia|done|].
  exists s2. split; [done|]. by replace (a + Z.of_nat (Datatypes.S n)) with (a + 1 + Z.of_nat n) by lia.
Qed.

Lemma vpt_perm f p : is_perm p -> Z.land (Z.lor (f * 4096) p) 4095 = p.
Proof.
  intros Hp. rewrite Z.land_lor_distr_l, (land_perm p Hp). change 4095 with (Z.ones 12). rewrite land_ones_mod by lia.
  change (2 ^ 12) with 4096. by rewrite Z.mod_mul.
Qed.

Section Start.
Context (me child : Z) (Hme : me <> 0) (Hc : child <> 0) (s0 : family).
Let w0 := to_world me s0.
Context (Hkid : is_Some (kids s0 !! child)) (Hnk : kids s0 !! me = None) (Hans : answers (self s0) = []).

(** A page that the parent shares with its children. *)
Definition library (v : Z) : option (Z * Z) :=
  match page w0 me v with Some (f, p) => if V p && LIB p then Some (f, p) else None | None => None end.

Context (Hperm : forall v f p, page w0 me v = Some (f, p) -> is_perm p).
Context (Hlegal : forall v f, library v = Some f -> VPN UTEMP <= v < VPN UTOP).

(** The pages below [n] are shared. *)
Record sharing (n : Z) (s : family) : Prop := {
  sg_page : forall e v, page (to_world me s) e v =
    if decide (e = child /\ v < n /\ is_Some (library v)) then library v else page w0 e v;
  sg_kids : kids s !! me = None /\ is_Some (kids s !! child);
  sg_answers : answers (self s) = [];
  sg_rest : fm (self s) = fm (self s0) /\ nextf (self s) = nextf (self s0) /\ newids s = newids s0 /\
    kid_mod s = kid_mod s0 /\ kid_status s = kid_status s0 /\ kid_start s = kid_start s0 }.

Lemma not_me s n : sharing n s -> child <> me.
Proof using. intros [_ [H1 [t H2]] _ _] E. rewrite E, H1 in H2. discriminate. Qed.

Lemma page_parent n s v : sharing n s -> page (to_world me s) me v = page w0 me v.
Proof using. intros H. rewrite (sg_page _ _ H), decide_False; [done|]. intros [E _]. symmetry in E. revert E. by eapply not_me. Qed.

Lemma sharing_skip n m s : (forall v, n <= v < m -> library v = None) -> n <= m -> sharing n s -> sharing m s.
Proof using.
  intros Hv Hnm [P K A R]. split; [|done..]. intros e v. rewrite P.
  destruct (decide (e = child /\ v < n /\ is_Some (library v))) as [H1|H1].
  - rewrite decide_True; [done|]. destruct H1 as (H1 & H2 & H3). split; [done|]. split; [lia|done].
  - rewrite decide_False; [done|]. intros (H2 & H3 & H4). apply H1. split; [done|]. split; [|done].
    destruct (Z.ltb_spec v n); [done|]. rewrite Hv in H4 by lia. by destruct H4.
Qed.

Lemma share_page_ok n s : 0 <= n -> sharing n s -> exists s', share_page me child n s = Val 0 s' /\ sharing (n + 1) s'.
Proof using Hc Hlegal Hme Hperm.
  intros Hn H. unfold share_page. rewrite bind_gets.
  assert (Ev : Z.land (vpt (self s) n) 4095 = match page w0 me n with Some (f, p) => p | None => 0 end).
  { unfold vpt. rewrite <- (page_me me s), (page_parent n s n H). destruct (page w0 me n) as [[f p]|] eqn:E; [|done].
    apply vpt_perm. by eapply Hperm. }
  rewrite Ev, hasbits_V, hasbits_LIB. destruct (library n) as [[f p]|] eqn:El.
  2:{ assert (Hno : (let p := match page w0 me n with Some (_, p) => p | None => 0 end in V p && LIB p) = false).
      { unfold library in El. destruct (page w0 me n) as [[f p]|]; [by destruct (V p && LIB p)|done]. }
      cbv zeta in Hno. assert (Hsk : sharing (n + 1) s).
      { apply (sharing_skip n); [|lia|done]. intros v Hv. by replace v with n by lia. }
      destruct (page w0 me n) as [[f p]|]; rewrite Hno; by exists s. }
  destruct (Hlegal n (f, p) El) as [L1 L2]. destruct (legal_page n (conj L1 L2)) as [L3 L4].
  unfold library in El. destruct (page w0 me n) as [[f' p']|] eqn:Ep; [|done]. destruct (V p' && LIB p') eqn:Eb; [|done]. injection El as -> ->.
  destruct (sg_kids _ _ H) as [K1 K2]. pose proof (not_me s n H) as Hcm.
  set (w := to_world me s). set (w' := Fork.map_page child n f p w).
  assert (E : mem_map me 0 (n * BY2PG) child (n * BY2PG) p w = Val 0 w').
  { pose proof (mem_map_ok me 0 (n * BY2PG) child (n * BY2PG) p f p w L3 L3 (known_me me s) (known_kid me s child Hcm Hc K2) (sg_answers _ _ H)) as E; fold w in E.
    rewrite L4 in E. unfold env_of in E at 2. destruct (Z.eqb_spec child 0); [done|]. apply E.
    change (page w (env_of me 0) n) with (page w me n). unfold w. by rewrite (page_parent n s n H). }
  cbv zeta. rewrite (bind_val _ _ _ _ _ (sys_val me _ _ _ _ E)). exists (of_world me w' s). split; [done|].
  assert (Hw : to_world me (of_world me w' s) = w').
  { apply to_of. cbn [w' Fork.map_page tabs Fork.set_tabs]. rewrite lookup_insert_ne by done. exact (known_me me s). }
  assert (Hlib : library n = Some (f, p)) by (unfold library; by rewrite Ep, Eb).
  split; [|split; [cbn; by rewrite lookup_delete_eq|]|exact (sg_answers _ _ H)|exact (sg_rest _ _ H)].
  - intros e v. rewrite Hw. unfold w'. rewrite page_map. destruct (decide (child = e /\ n = v)) as [[<- <-]|Hne].
    + rewrite decide_True by (split; [done|]; split; [lia|by eexists]). rewrite Hlib. apply andb_true_iff in Eb as [Eb _]. by rewrite lor_V.
    + unfold w. rewrite (sg_page _ _ H). destruct (decide (e = child /\ v < n /\ is_Some (library v))) as [D|D].
      * rewrite decide_True; [done|]. destruct D as (D1 & D2 & D3). split; [done|]. split; [lia|done].
      * rewrite decide_False; [done|]. intros (D1 & D2 & D3). apply D. split; [done|]. split; [|done].
        destruct (Z.eq_dec v n) as [->|]; [by destruct Hne|lia].
  - cbn. rewrite lookup_delete_ne by done. rewrite lookup_insert_eq. by eexists.
Qed.

Lemma share_library_ok : exists s', share_library me child s0 = Val 0 s' /\ sharing (1024 * (PDX USTACKTOP + 1)) s'.
Proof using All.
  unfold share_library.
  destruct (for_err_ok (fun j s => sharing (1024 * j) s) (fun pdeno =>
    v ← gets (fun s => vpd_valid me (to_world me s) pdeno);
    if v : bool then for_err (zseq (pdeno * 1024) 1024) (share_page me child) else mret 0) (Z.to_nat (PDX USTACKTOP + 1)) 0 s0) as (s' & E & H).
  - intros j s Hj H. rewrite bind_gets. destruct (vpd_valid me (to_world me s) j) eqn:Ev.
    + destruct (for_err_ok (fun n s => 0 <= n -> sharing n s) (share_page me child) 1024 (j * 1024) s) as (s' & E & H').
      * intros n t Hn Ht. destruct (share_page_ok n t ltac:(lia) (Ht ltac:(lia))) as (t' & E' & H'). by exists t'.
      * intros _. by rewrite Z.mul_comm.
      * exists s'. split; [exact E|]. replace (1024 * (j + 1)) with (j * 1024 + Z.of_nat 1024) by lia. apply H'. lia.
    + exists s. split; [done|]. apply (sharing_skip (1024 * j)); [|lia|done]. intros v Hv.
      unfold library. rewrite <- (page_parent _ s v H). by rewrite (vpd_invalid me _ j v Ev ltac:(dlia)).
  - split; [|done|done|done]. intros e v. fold w0. destruct (decide (e = child /\ v < 1024 * 0 /\ is_Some (library v))) as [(_ & D1 & [x D2])|]; [|done].
    destruct (Hlegal v x D2) as [H _]. assert (VPN UTEMP = 1022) by reflexivity. lia.
  - exists s'. split; [exact E|]. exact H.
Qed.
End Start.

(** C17: the end of spawn starts the child: its trap frame has the entry point and the stack
    pointer, it is runnable, every page that the parent maps as a library page is mapped at
    the same address to the same frame with the same permissions, and the child's other pages,
    the pages of the others and the contents of all frames are as before. The identifier is
    returned. *)
Theorem start_child_correct me child entrypoint sp s : let w := to_world me s in
  me <> 0 -> 0 < child < 2147483648 -> is_Some (kids s !! child) -> kids s !! me = None -> answers (self s) = [] ->
  (forall v f p, page w me v = Some (f, p) -> is_perm p) ->
  (forall v f, library me s v = Some f -> VPN UTEMP <= v < VPN UTOP) ->
  exists s', start_child me child entrypoint sp s = Val child s' /\ let w' := to_world me s' in
    (forall e v, page w' e v = if decide (e = child /\ is_Some (library me s v)) then library me s v else page w e v) /\
    fmem w' = fmem w /\ kid_start s' !! child = Some (mkStart entrypoint sp) /\ kid_status s' !! child = Some ENV_RUNNABLE.
Proof.
  intros w Hme Hc Hkid Hnk Ha Hp Hl. set (s1 := set_start (<[child := mkStart entrypoint sp]> (kid_start s)) s).
  assert (E1 : syscall_set_trapframe child entrypoint sp s = Val 0 s1).
  { unfold syscall_set_trapframe. rewrite bind_gets. unfold is_kid. by rewrite bool_decide_true. }
  destruct (share_library_ok me child Hme ltac:(lia) s1 Hkid Hnk Ha Hp Hl) as (s2 & E2 & [P [K1 K2] A R]).
  assert (Hcm : child <> me) by (intros ->; destruct Hkid; congruence).
  set (w2 := to_world me s2). pose proof (known_kid me s2 child Hcm ltac:(lia) K2) as Hk2. fold w2 in Hk2.
  set (w3 := Fork.set_status (<[env_of me child := ENV_RUNNABLE]> (status w2)) w2).
  assert (E3 : set_env_status me child ENV_RUNNABLE w2 = Val 0 w3) by exact (set_status_ok me child ENV_RUNNABLE w2 Hk2).
  exists (of_world me w3 s2). split.
  { unfold start_child. rewrite (bind_val _ _ _ _ _ E1). cbn [Z.eqb negb]. rewrite (bind_val _ _ _ _ _ E2). change (0 <? 0) with false. cbv iota.
    rewrite (bind_val _ _ _ _ _ (sys_val me _ _ _ _ E3)). change (0 <? 0) with false. cbv iota. unfold mret, M_ret. f_equal.
    unfold s32. rewrite u32_small by (unfold is_u32; lia). by destruct (Z.ltb_spec child 2147483648); [|lia]. }
  assert (Hw : to_world me (of_world me w3 s2) = w3) by (apply to_of; exact (known_me me s2)).
  cbv zeta. rewrite Hw. split; [|split; [exact (proj1 R)|split]].
  - intros e v. change (page w3 e v) with (page w2 e v). unfold w2. rewrite P.
    destruct (decide (e = child /\ is_Some (library me s v))) as [[-> H]|H].
    + apply decide_True. split; [done|]. split; [|exact H]. destruct H as [f H]. destruct (Hl v f H) as [_ H'].
      assert (VPN UTOP = 521216) by reflexivity. assert (PDX USTACKTOP = 508) by reflexivity. lia.
    + apply decide_False. intros (H1 & _ & H2). by apply H.
  - cbn. destruct R as (_ & _ & _ & _ & _ & ->). cbn. by rewrite lookup_insert_eq.
  - cbn. unfold env_of. destruct (Z.eqb_spec child 0); [lia|]. by rewrite lookup_insert_eq.
Qed.

(** A parent with a library page at 0x60000000 and an ordinary one. *)
Definition lib_family : family :=
  mkFamily (mkU {[393216 := (0, 1540); 1280 := (1, 1536)]} ∅ 2 ∅ [] [] [] [] [] [] [] 0 0 ∅) {[2 := {[1024 := (5, 512)]}]} [] ∅ ∅ ∅.

Lemma lib_pages v f p : page (to_world 1 lib_family) 1 v = Some (f, p) -> v = 393216 /\ f = 0 /\ p = 1540 \/ v = 1280 /\ f = 1 /\ p = 1536.
Proof.
  rewrite page_me. cbn. intros [[<- [= <- <-]]|[_ [<- [= <- <-]]%lookup_singleton_Some]]%lookup_insert_Some; tauto.
Qed.

Lemma start_child_correct_witness : exists s', start_child 1 2 4194304 2134892516 lib_family = Val 2 s' /\
  page (to_world 1 s') 2 393216 = Some (0, 1540) /\ page (to_world 1 s') 2 1280 = None /\ kid_status s' !! 2 = Some ENV_RUNNABLE.
Proof.
  destruct (start_child_correct 1 2 4194304 2134892516 lib_family) as (s' & E & P & _ & _ & H).
  - done.
  - lia.
  - by eexists.
  - by vm_compute.
  - done.
  - intros v f p [(_ & _ & ->)|(_ & _ & ->)]%lib_pages; unfold is_perm; lia.
  - intros v [f p]. unfold library. destruct (page (to_world 1 lib_family) 1 v) as [[f' p']|] eqn:Ep; [|done].
    apply lib_pages in Ep as [(-> & -> & ->)|(-> & -> & ->)]; vm_compute; intros [=]. by split.
  - exists s'. split; [exact E|]. split; [rewrite P; by vm_compute|]. split; [rewrite P; by vm_compute|exact H].
Defined.

(** ** When there is no child *)

(** [init_stack] for an environment that does not exist fails, and maps nothing. *)
Lemma init_stack_unknown me fuel child argv ps strs s :
  me <> 0 -> child <> 0 -> child <> me -> kids s !! child = None -> pt (self s) !! VPN UTEMP = None ->
  (forall v f p, pt (self s) !! v = Some (f, p) -> 0 <= f < nextf (self s)) ->
  args_at (self s) argv ps strs -> within (Z.to_nat fuel) strs -> Z.of_nat (length strs) < fuel ->
  size strs + 4 * (Z.of_nat (length strs) + 3) < 4294967288 ->
  exists e s', init_stack me (Z.to_nat fuel) child argv s = Val (Err e) s' /\ kids s' !! child = None /\
    forall e v, page (to_world me s') e v = page (to_world me s) e v.
Proof.
  intros Hme Hc Hcm Hnk Hut Hfr HA HW Hlen Hsz. destruct (decide (fits strs)) as [Hf|Hf].
  2:{ exists (- E_NO_MEM), s. split; [by apply (init_stack_refuse me fuel child argv ps strs)|done]. }
  unfold init_stack. rewrite (bind_val _ _ _ _ _ (count_run fuel argv ps strs s HA HW Hlen)). cbv beta iota.
  destruct (BY2PG <? _) eqn:Eb; [by apply fits_test in Hf; [congruence|lia]|clear Eb].
  set (w := to_world me s). set (w1 := Fork.set_answers (tl (Fork.answers w)) w).
  assert (Hkids : forall w' s', tabs w' !! child = None -> kids (of_world me w' s') !! child = None).
  { intros w' s' H. cbn. by rewrite lookup_delete_ne. }
  assert (Hw0 : tabs w !! child = None) by (cbn; by rewrite lookup_insert_ne).
  pose proof (mem_alloc_run me 0 UTEMP PTE_D w eq_refl (known_me me s)) as E. cbv zeta in E. fold w1 in E.
  destruct (next_answer (Fork.answers w)) eqn:En.
  2:{ rewrite (bind_val _ _ _ _ _ (sys_val me _ _ _ _ E)). eexists _, _. split; [reflexivity|]. split; [by apply Hkids|].
      rewrite to_of by exact (known_me me s). done. }
  rewrite (bind_val _ _ _ _ _ (sys_val me _ _ _ _ E)). change (0 <? 0) with false. cbv iota.
  pose proof (fill_run me fuel argv ps strs s Hut Hfr HA HW Hsz Hf) as EF. fold w w1 in EF.
  change (env_of me 0) with me. rewrite (bind_val _ _ _ _ _ EF). clear EF E.
  set (m' := stack_mem _ _ _). pose proof (world_s2 me s) as W2. fold w w1 in W2.
  set (w2 := Fork.map_fresh me (VPN UTEMP) PTE_D w1) in *. set (s2 := of_world me w2 s) in *.
  set (s3 := set_self (set_fm m' (self s2)) s2). set (w3 := Fork.set_fmem m' w2).
  assert (W3 : to_world me s3 = w3) by (unfold s3; rewrite to_world_fm; by rewrite W2).
  assert (Hn2 : tabs w2 !! child = None) by (cbn [w2 Fork.map_fresh tabs Fork.set_nextf Fork.map_page Fork.set_tabs]; by rewrite lookup_insert_ne).
  assert (E2 : mem_map me 0 UTEMP child (USTACKTOP - BY2PG) PTE_D (to_world me s3) = Val (- E_BAD_ENV) w3).
  { rewrite W3. unfold mem_map. change (is_illegal_va UTEMP || is_illegal_va (USTACKTOP - BY2PG)) with false. cbv iota.
    rewrite (bind_val _ _ _ _ _ (exists_env_ok me 0 w3 (tabs_w2 me s me (known_me me s)))).
    unfold exists_env, env_of. destruct (Z.eqb_spec child 0); [done|]. rewrite bind_gets. cbn [w3 tabs set_fmem].
    rewrite Hn2, bool_decide_false by (by intros [? [=]]). done. }
  rewrite (bind_val _ _ _ _ _ (sys_val me _ _ _ _ E2)). change (- E_BAD_ENV <? 0) with true. cbv iota.
  set (w4 := Fork.set_tabs (<[me := delete (VPN UTEMP) (tab w3 me)]> (tabs w3)) w3).
  assert (K3 : is_Some (tabs w3 !! me)) by exact (tabs_w2 me s me (known_me me s)).
  assert (E3 : mem_unmap me 0 UTEMP (to_world me (of_world me w3 s3)) = Val 0 w4).
  { rewrite to_of by exact K3. exact (mem_unmap_ok me 0 UTEMP w3 eq_refl K3). }
  rewrite (bind_val _ _ _ _ _ (sys_val me _ _ _ _ E3)). eexists _, _. split; [reflexivity|]. split.
  - apply Hkids. cbn [w4 tabs Fork.set_tabs w3 set_fmem]. by rewrite lookup_insert_ne.
  - intros e v. rewrite to_of by (cbn [w4 tabs Fork.set_tabs]; rewrite lookup_insert_eq; by eexists).
    unfold w4. rewrite page_unmap. destruct (decide (me = e /\ VPN UTEMP = v)) as [[<- <-]|H]; [unfold w; by rewrite page_me|].
    change (page w3 e v) with (page w2 e v). pose proof (page_w2 me s e v) as P2. cbv zeta in P2. fold w w1 in P2.
    change (page w2 e v = page w e v). unfold w2. rewrite P2. by rewrite decide_False.
Qed.

(** C34: when no environment is free, the negative result of [syscall_exofork], kept in an
    unsigned variable, is not noticed; [init_stack] fails on the environment that does not
    exist, and [spawn] closes the file and returns 52, the number of bytes of the ELF header
    that were read, as if that were the identifier of a child. *)
Theorem spawn_no_env me rounds fuel prog argv ps strs elfbuf s fd s1 s2 hdr ehdr :
  let child := u32 (- E_NO_FREE_ENV) in
  lift (open prog O_RDONLY) s = Val fd s1 -> 0 <= s32 fd ->
  lift (readn rounds (s32 fd) elfbuf sizeof_Ehdr) s1 = Val sizeof_Ehdr s2 ->
  lift (ld_bytes elfbuf (Z.to_nat sizeof_Ehdr)) s2 = Val hdr s2 -> elf_from hdr sizeof_Ehdr = Some ehdr ->
  newids s2 = [] -> kids s2 !! child = None -> me <> 0 -> child <> me -> pt (self s2) !! VPN UTEMP = None ->
  (forall v f p, pt (self s2) !! v = Some (f, p) -> 0 <= f < nextf (self s2)) ->
  args_at (self s2) argv ps strs -> within (Z.to_nat fuel) strs -> Z.of_nat (length strs) < fuel ->
  size strs + 4 * (Z.of_nat (length strs) + 3) < 4294967288 ->
  exists s', spawn me rounds (Z.to_nat fuel) prog argv elfbuf s = (lift (close rounds (s32 fd)) ;; mret 52) s' /\
    forall e v, page (to_world me s') e v = page (to_world me s2) e v.
Proof.
  intros child Ho Hfd Hr Hh He Hids Hnk Hme Hcm Hut Hfr HA HW Hlen Hsz.
  unfold spawn. rewrite (bind_val _ _ _ _ _ Ho). cbv zeta. destruct (Z.ltb_spec (s32 fd) 0); [lia|].
  rewrite (bind_val _ _ _ _ _ Hr). change (sizeof_Ehdr =? sizeof_Ehdr) with true. cbn [negb]. rewrite (bind_val _ _ _ _ _ Hh), He.
  set (w := to_world me s2). set (s3 := of_world me w s2).
  assert (E1 : exofork w = Val (- E_NO_FREE_ENV) w).
  { unfold exofork. rewrite bind_gets. unfold w at 1. cbn [ids to_world]. by rewrite Hids. }
  rewrite (bind_val _ _ _ _ _ (sys_val me _ _ _ _ E1)). fold child s3. destruct (Z.ltb_spec child 0) as [Hlt|_].
  { vm_compute in Hlt. discriminate. }
  assert (W3 : to_world me s3 = w) by (apply to_of; exact (known_me me s2)).
  assert (Hv : forall v, pt (self s3) !! v = pt (self s2) !! v).
  { intros v. rewrite <- (page_me me s3), W3. apply page_me. }
  assert (HA3 : args_at (self s3) argv ps strs).
  { eapply keeps_args; [|exact HA]. intros a b. rewrite !(vbyte_world me), W3. done. }
  destruct (init_stack_unknown me fuel child argv ps strs s3 Hme ltac:(done) Hcm) as (e & s4 & E4 & K4 & P4);
    [|by rewrite Hv|intros v f p; rewrite Hv; exact (Hfr v f p)|done..|].
  { cbn. rewrite lookup_delete_ne, lookup_insert_ne by congruence. done. }
  rewrite (bind_val _ _ _ _ _ E4). exists s4. split.
  - unfold err1. assert (E5 : syscall_env_destroy me child s4 = Val (- E_BAD_ENV) s4).
    { unfold syscall_env_destroy. rewrite bind_gets. unfold is_kid. by rewrite K4, bool_decide_false by (by intros [? [=]]). }
    rewrite (bind_val _ _ _ _ _ E5). done.
  - intros e' v. rewrite P4, W3. done.
Qed.

(** The program [a], a file of one ELF header, and no environment for it. *)
Definition elf_bytes : list Z :=
  [127; 69; 76; 70] ++ replicate 12 0 ++ [2; 0; 8; 0; 1; 0; 0; 0; 0; 0; 64; 0; 52; 0; 0; 0] ++ replicate 8 0 ++
  [52; 0; 32; 0; 0; 0; 0; 0; 0; 0; 0; 0].
Definition filefd_bytes : list Z := [102; 0; 0; 0] ++ replicate 8 0 ++ [7; 0; 0; 0] ++ replicate 128 0 ++ [52].
Definition full_family : family :=
  mkFamily (mkU {[1280 := (0, 1536); 1281 := (1, 1536)]} (fm ls_proc) 2 ∅ []
    [mkMsg 0 3 1540 (Some filefd_bytes); mkMsg 0 3 1536 (Some elf_bytes)] [] [] [] [] [] 3 5246976 ∅) ∅ [] ∅ ∅ ∅.
Definition one_round : runs := mkRuns 1 false.
Definition after {A} (o : outcome family A) (d : family) : family := match o with Val _ s => s | _ => d end.
Definition full_open : family := Eval vm_compute in after (lift (open [97] O_RDONLY) full_family) full_family.
Definition full_read : family := Eval vm_compute in after (lift (readn one_round 0 5244928 sizeof_Ehdr) full_open) full_family.

Lemma spawn_no_env_witness : exists s', spawn 1 one_round 100 [97] 5242880 5244928 full_family = (lift (close one_round 0) ;; mret 52) s' /\
  page (to_world 1 s') 1 1280 = Some (0, 1536).
Proof.
  destruct (spawn_no_env 1 one_round 100 [97] 5242880 [5242896; 5242899] ls_args 5244928 full_family 0 full_open full_read elf_bytes
    (mkEhdr 4194304 52 32 0)) as (s' & E & P).
  - vm_compute. reflexivity.
  - by vm_compute.
  - vm_compute. reflexivity.
  - vm_compute. reflexivity.
  - vm_compute. reflexivity.
  - reflexivity.
  - vm_compute. reflexivity.
  - done.
  - by vm_compute.
  - vm_compute. reflexivity.
  - intros v f p Hv. assert (H : map_Forall (fun _ (fp : Z * Z) => 0 <= fp.1 < nextf (self full_read)) (pt (self full_read))).
    { apply (bool_decide_eq_true_1 _). vm_compute. reflexivity. }
    exact (H v (f, p) Hv).
  - split; [done|repeat split; (vm_compute; congruence)|].
    repeat (apply Forall2_cons; split; [repeat split; (vm_compute; congruence)|]). apply Forall2_nil. done.
  - repeat (apply Forall_cons_2; [vm_compute; lia|]). apply Forall_nil_2.
  - cbn. lia.
  - vm_compute. reflexivity.
  - change (Z.to_nat 100) with 100%nat in E. exists s'. split; [exact E|]. rewrite P. vm_compute. reflexivity.
Defined.
