(* ===== verification/Shell.v ===== *)
(** * The shell: tokens and commands (user/sh.c)

    The line is a C string in the memory [line]; [_gettoken] cuts it into tokens in place:
    blanks and symbols become zeros. [gettoken] runs one token ahead. The shell's files and
    memory are those of the process in [fam]; while a line is parsed, its bytes are in
    [line]. [forks] gives the results of the [fork]s to come, [seen] what the two reads of a
    [struct Env] in [wait] show each time. A program that exits is a [Run]. *)

From Stdlib Require Import ZArith Lia.
From stdpp Require Import base numbers list gmap strings.
From S2P Require Import Prelude Mmu Str Print Wp KState Elf Signo Env TlbEx Syscall Uproc Fd Ufile Upipe FdOps Spawn.

Definition WHITESPACE : list Z := [32; 9; 13; 10].
Definition SYMBOLS : list Z := [60; 124; 62; 38; 59; 40; 41]. (* <|>&;() *)

(** [strchr(set, c)] for a set without zeros: not found for 0. *)
Definition in_set (c : Z) (set : list Z) : bool := existsb (Z.eqb c) set.

(** ** _gettoken *)

(** [while (strchr(WHITESPACE, *s)) *s++ = 0;] *)
Fixpoint skip_blanks (fuel : nat) (s : Z) (m : bmem) : option (Z * bmem) :=
  match fuel with
  | O => None
  | S fuel' => if in_set (rd8 m s) WHITESPACE then skip_blanks fuel' (s + 1) (wr8 m s 0) else Some (s, m)
  end.

Fixpoint skip_word (fuel : nat) (s : Z) (m : bmem) : option Z :=
  match fuel with
  | O => None
  | S fuel' =>
      let c := rd8 m s in
      if negb (c =? 0) && negb (in_set c (WHITESPACE ++ SYMBOLS)) then skip_word fuel' (s + 1) m else Some s
  end.

(** The kind of the token, its two ends, the memory. [None]: no fuel. *)
Definition _gettoken (fuel : nat) (s : Z) (m : bmem) : option (Z * Z * Z * bmem) :=
  if s =? 0 then Some (0, 0, 0, m) else
  '(s, m) ← skip_blanks fuel s m;
  let c := rd8 m s in
  if c =? 0 then Some (0, 0, 0, m)
  else if in_set c SYMBOLS then Some (c, s, s + 1, wr8 m s 0)
  else s' ← skip_word fuel s m; Some (119, s, s', m).

(** ** gettoken: its static variables and the line *)
Record lexer := mkLexer { line : bmem; nc : Z; np1 : Z; np2 : Z }.

Definition gettoken_start (fuel : nat) (s : Z) (m : bmem) : option lexer :=
  '(c, p1, p2, m) ← _gettoken fuel s m; Some (mkLexer m c p1 p2).

(** [gettoken(0, &p1)]: the token and [p1]. *)
Definition gettoken (fuel : nat) (l : lexer) : option (Z * Z * lexer) :=
  '(c, p1, p2, m) ← _gettoken fuel (np2 l) (line l);
  Some (nc l, np1 l, mkLexer m c p1 p2).

(** ** parsecmd *)
Definition MAXARGS := 128.

Section Shell.
(** The identifier of the process; how reads and writes run; fuel for the scans of the line;
    addresses: [buf], the buffer of [printf], [argv] and [elfbuf] on the stack. *)
Context (me : Z) (rounds : runs) (fuel : nat) (buf pbuf argv_at elfbuf : Z).

Record shell := mkShell { fam : family; lex : lexer; forks : list Z; rightpipe : Z; seen : list (Z * Z) }.
Definition set_fam (v : family) (s : shell) : shell := mkShell v (lex s) (forks s) (rightpipe s) (seen s).
Definition set_lex (v : lexer) (s : shell) : shell := mkShell (fam s) v (forks s) (rightpipe s) (seen s).
Definition set_forks (v : list Z) (s : shell) : shell := mkShell (fam s) (lex s) v (rightpipe s) (seen s).
Definition set_rightpipe (v : Z) (s : shell) : shell := mkShell (fam s) (lex s) (forks s) v (seen s).
Definition set_seen (v : list (Z * Z)) (s : shell) : shell := mkShell (fam s) (lex s) (forks s) (rightpipe s) v.

Abbreviation Sh := (M shell).
Definition infam {A} (m : M family A) : Sh A := zoom fam set_fam m.
Definition inproc {A} (m : M uproc A) : Sh A := infam (lift m).

Definition token : Sh (Z * Z) :=
  l ← gets lex;
  '(c, t, l') ← lift_opt "the line does not end" (gettoken fuel l);
  modify (set_lex l') ;; mret (c, t).

(** The C string at [t], in the line. *)
Fixpoint str_at (n : nat) (m : bmem) (t : Z) : list Z :=
  match n with O => [] | S n' => let c := rd8 m t in if c =? 0 then [] else c :: str_at n' m (t + 1) end.

(** The call of [fork]: the result that comes next. *)
Definition do_fork : Sh Z :=
  l ← gets forks;
  match l with [] => undef "no result of fork" | r :: l' => modify (set_forks l') ;; mret r end.

Definition exit_ : Sh unit := inproc (exit rounds).

(** [open] for [<] and [>]: the file becomes descriptor [to]. *)
Definition redirect (mode to : Z) : Sh unit :=
  '(c, t) ← token;
  (if negb (c =? 119) then exit_ else mret tt) ;;
  m ← gets (fun s => line (lex s));
  fd ← inproc (open (str_at fuel m t) mode);
  assert "no such file" (0 <=? s32 fd) ;;
  r ← inproc (dup rounds fd to);
  assert "dup err" (0 <=? s32 r) ;;
  inproc (close rounds fd) ;; mret tt.

(** [argv] so far, in order; each round takes a token. *)
Fixpoint parsecmd (n : nat) (argv : list Z) : Sh (list Z) :=
  match n with
  | O => undef "the command does not end"
  | S n' =>
      '(c, t) ← token;
      if c =? 0 then mret argv
      else if c =? 119 then
        (if MAXARGS <=? Z.of_nat (length argv) then exit_ else mret tt) ;;
        parsecmd n' (argv ++ [t])
      else if c =? 60 then redirect O_RDONLY 0 ;; parsecmd n' argv
      else if c =? 62 then redirect O_WRONLY 1 ;; parsecmd n' argv
      else if c =? 124 then
        p ← inproc pipe;
        match p with
        | Err _ => panic "pipe allocate err"
        | Ok (p0, p1) =>
            child ← do_fork;
            modify (set_rightpipe child) ;;
            if child =? 0 then
              r ← inproc (dup rounds p0 0);
              assert "dup err" (0 <=? s32 r) ;;
              inproc (close rounds p0) ;; inproc (close rounds p1) ;;
              parsecmd n' []
            else
              r ← inproc (dup rounds p1 1);
              assert "dup err" (0 <=? s32 r) ;;
              inproc (close rounds p1) ;; inproc (close rounds p0) ;;
              mret argv
        end
      else parsecmd n' argv
  end.

(** ** wait.c *)

(** The environment's slot is read until it has another identifier or is free. *)
Fixpoint wait_loop (n : nat) (envid : Z) : Sh unit :=
  match n with
  | O => undef "waits for ever"
  | S n' =>
      l ← gets seen;
      match l with
      | [] => undef "waits for ever"
      | (id, st) :: l' =>
          modify (set_seen l') ;;
          when ((id =? u32 envid) && negb (st =? ENV_FREE)) (inproc syscall_yield ;; wait_loop n' envid)
      end
  end.
Definition wait (envid : Z) : Sh unit := l ← gets seen; wait_loop (S (length l)) envid.

(** ** runcmd *)

(** The bytes of the line and the pointers of [argv] in the process's memory. *)
Definition put_line : Sh unit :=
  m ← gets (fun s => line (lex s));
  inproc (st_bytes buf (map (rd8 m) (zseq buf (Z.to_nat 1024)))).
Definition put_argv (argv : list Z) : Sh unit :=
  for_each (zip (zseq 0 (length argv)) argv) (fun '(i, p) => inproc (st32 (argv_at + 4 * i) p)).

Definition sizeof_buf := 1024.

Definition runcmd : Sh unit :=
  bs ← inproc (ld_bytes buf (Z.to_nat sizeof_buf));
  l ← lift_opt "the line does not end" (gettoken_start fuel buf (list_to_map (zip (zseq buf (Z.to_nat sizeof_buf)) bs)));
  modify (set_lex l) ;;
  modify (set_rightpipe 0) ;;
  argv ← parsecmd fuel [];
  if Z.of_nat (length argv) =? 0 then mret tt else
  if MAXARGS <=? Z.of_nat (length argv) then undef "argv[MAXARGS] is past the array" else
  put_line ;;
  put_argv (argv ++ [0]) ;;
  m ← gets (fun s => line (lex s));
  child ← infam (spawn me rounds fuel (str_at fuel m (hd 0 argv)) argv_at elfbuf);
  inproc (close_all rounds) ;;
  when (0 <=? child) (wait child) ;;
  right ← gets rightpipe;
  when (negb (right =? 0)) (wait right) ;;
  exit_.

(** ** readline *)

(** [for (int i = 0; i < n; i++)]; [n] is a [u_int], but [i] is never negative at the test. The
    line is complete ([true]), or too long. *)
Fixpoint readline_loop (steps : nat) (n i : Z) : Sh bool :=
  if i <? n then
    match steps with
    | O => undef "reads for ever"
    | S steps' =>
        r ← inproc (read rounds 0 (u32 (buf + i)) 1);
        (if negb (r =? 1) then exit_ else mret tt) ;;
        c ← inproc (ld8 (u32 (buf + i)));
        i ← (if (c =? 8) || (c =? 127) then
               let j := if 0 <? i then i - 2 else -1 in
               d ← inproc (ld8 (u32 (buf + j)));
               (if negb (d =? 8) then inproc (printf rounds pbuf [8] []) ;; mret tt else mret tt) ;;
               mret j
             else mret i);
        c ← inproc (ld8 (u32 (buf + i)));
        if (c =? 13) || (c =? 10) then inproc (st8 (u32 (buf + i)) 0) ;; mret true
        else readline_loop steps' n (i + 1)
    end
  else mret false.

(** The rest of a line that is too long. *)
Fixpoint skip_line (steps : nat) : Sh unit :=
  match steps with
  | O => undef "reads for ever"
  | S steps' =>
      r ← inproc (read rounds 0 buf 1);
      if negb (r =? 1) then mret tt else
      c ← inproc (ld8 buf);
      if (c =? 13) || (c =? 10) then mret tt else skip_line steps'
  end.

Definition readline (n : Z) : Sh unit :=
  ok ← readline_loop fuel n 0;
  if ok : bool then mret tt else skip_line fuel ;; inproc (st8 buf 0).

(** ** main *)
Definition usage : Sh unit := exit_.

(** [ARGBEGIN]: the flags in one argument. *)
Fixpoint flags (l : list Z) (fl : bool * bool) : Sh (bool * bool) :=
  match l with
  | [] => mret fl
  | c :: l' =>
      if c =? 105 then flags l' (true, snd fl)
      else if c =? 120 then flags l' (fst fl, true)
      else usage ;; flags l' fl
  end.

(** The arguments after the flags; [argv] without its first element, without the end. *)
Fixpoint options (argv : list (list Z)) (fl : bool * bool) : Sh (list (list Z) * (bool * bool)) :=
  match argv with
  | (45 :: c :: l) :: rest =>
      if (c =? 45) && match l with [] => true | _ => false end then mret (rest, fl)
      else fl ← flags (c :: l) fl; options rest fl
  | _ => mret (argv, fl)
  end.

(** One command. *)
Definition step (interactive echocmds : bool) : Sh unit :=
  when interactive (inproc (printf rounds pbuf [10; 36; 32] []) ;; mret tt) ;;
  readline sizeof_buf ;;
  c ← inproc (ld8 buf);
  if c =? 35 then mret tt else
  when echocmds (s ← inproc (load_str fuel buf); inproc (printf rounds pbuf [35; 32; 37; 115; 10] [VStr s]) ;; mret tt) ;;
  r ← do_fork;
  assert "fork" (0 <=? r) ;;
  if r =? 0 then runcmd ;; exit_ else wait r.

Fixpoint steps (n : nat) (interactive echocmds : bool) : Sh unit :=
  match n with O => mret tt | S n' => step interactive echocmds ;; steps n' interactive echocmds end.

(** [n] commands. [after] is the string behind the last argument, which [argv[1]] is when one
    argument is left: [init_stack] leaves the empty string there. *)
Definition main (n : nat) (argv : list (list Z)) (after : list Z) : Sh unit :=
  r ← inproc (iscons 0);
  '(rest, (i, x)) ← options (tl argv) (false, false);
  let interactive := negb (r =? 0) || i in
  (if 1 <? Z.of_nat (length rest) then usage else mret tt) ;;
  when (Z.of_nat (length rest) =? 1)
    (inproc (close rounds 0) ;;
     r ← inproc (open (nth 1 rest after) O_RDONLY);
     assert "open" (0 <=? s32 r) ;;
     assert "r == 0" (r =? 0)) ;;
  steps n interactive x.
End Shell.
