(* ===== verification/UserProgs.v ===== *)
(** * User programs (user/cat.c, user/echo.c, user/num.c, user/ls.c, user/init.c,
    user/icode.c)

    The programs a user runs from the shell, over the library. [argv] is the list of the
    argument strings with the program's name first; buffers are addresses. *)

From Stdlib Require Import ZArith Lia.
From stdpp Require Import base numbers list gmap strings.
From S2P Require Import Prelude Mmu Str Print Wp KState Elf Signo Env TlbEx Syscall Uproc Fd Ufile Upipe FdOps Spawn Shell.

Section Programs.
(** How reads and writes run; rounds of a loop; the buffer of [printf]. *)
Context (rounds : runs) (fuel : nat) (pbuf : Z).

Definition print (fmt : list Z) (ap : list va) : Uproc.U Z := printf rounds pbuf fmt ap.
Definition print_ (fmt : list Z) (ap : list va) : Uproc.U unit := print fmt ap ;; mret tt.

(** A file argument: opened, handed to [body], closed. *)
Definition with_file (body : Z -> Uproc.U unit) (path : list Z) : Uproc.U unit :=
  f ← open path O_RDONLY;
  assert "can't open" (0 <=? s32 f) ;;
  body f ;;
  close rounds f ;; mret tt.

(** ** cat.c: [buf] has 8192 bytes *)
Fixpoint cat_loop (n : nat) (f buf : Z) : Uproc.U unit :=
  match n with
  | O => undef "cat reads on"
  | S n' =>
      k ← read rounds f buf 8192;
      if 0 <? k then
        r ← write rounds 1 buf k;
        assert "write error copying" (r =? k) ;;
        cat_loop n' f buf
      else assert "error reading" (0 <=? k)
  end.
Definition cat (f buf : Z) : Uproc.U unit := cat_loop fuel f buf.

Definition cat_main (buf : Z) (argv : list (list Z)) : Uproc.U unit :=
  match tl argv with
  | [] => cat 0 buf
  | files => for_each files (with_file (fun f => cat f buf))
  end.

(** ** echo.c *)
Definition str_n : list Z := [45; 110]. (* "-n" *)

(** The arguments, with a blank before each but the first. *)
Fixpoint echo_args (first : bool) (args : list (list Z)) : Uproc.U unit :=
  match args with
  | [] => mret tt
  | a :: args' => when (negb first) (print_ [32] []) ;; print_ [37; 115] [VStr a] ;; echo_args false args'
  end.

Definition echo_main (argv : list (list Z)) : Uproc.U unit :=
  let nflag := match tl argv with a :: _ => bool_decide (a = str_n) | [] => false end in
  let argv := if nflag then tl argv else argv in
  echo_args true (tl argv) ;;
  when (negb nflag) (print_ [10] []).

(** ** num.c: the variables [bol] and [line]; [c] is the address of the local variable *)
Fixpoint num_loop (n : nat) (f c : Z) (bol : bool) (line : Z) : Uproc.U (bool * Z) :=
  match n with
  | O => undef "num reads on"
  | S n' =>
      k ← read rounds f c 1;
      if 0 <? k then
        when bol (print_ [37; 53; 100; 32] [VInt (u32 (line + 1))]) ;; (* "%5d " *)
        let line := if bol then line + 1 else line in
        ch ← ld8 c;
        r ← print [37; 99] [VInt ch];
        assert "write error copying" (r =? 1) ;;
        num_loop n' f c (ch =? 10) line
      else assert "error reading" (0 <=? k) ;; mret (bol, line)
  end.

Fixpoint num_files (c : Z) (files : list (list Z)) (bol : bool) (line : Z) : Uproc.U unit :=
  match files with
  | [] => mret tt
  | path :: files' =>
      f ← open path O_RDONLY;
      assert "can't open" (0 <=? s32 f) ;;
      '(bol, line) ← num_loop fuel f c bol line;
      close rounds f ;;
      num_files c files' bol line
  end.

Definition num_main (c : Z) (argv : list (list Z)) : Uproc.U unit :=
  match tl argv with
  | [] => num_loop fuel 0 c true 0 ;; mret tt
  | files => num_files c files true 0
  end.

(** ** ls.c: [st] and [f] are the addresses of a [struct Stat] and of a [struct File] *)
Record ls_flags := mkFlags { flag_d : bool; flag_F : bool; flag_l : bool }.

Definition sizeof_File := 256.
Definition file_name (f : Z) : Z := f.
Definition file_size (f : Z) : Z := f + 128.
Definition file_type (f : Z) : Z := f + 132.

Section Ls.
Context (st fbuf : Z).

Definition ls1 (fl : ls_flags) (prefix : option (list Z)) (isdir : bool) (size : Z) (name : list Z) : Uproc.U unit :=
  when (flag_l fl) (print_ [37; 49; 49; 100; 32; 37; 99; 32] [VInt size; VInt (if isdir then 100 else 45)]) ;; (* "%11d %c " *)
  match prefix with
  | Some p =>
      let sep := if negb (bool_decide (p = [])) && negb (List.last p 0 =? 47) then [47] else [] in
      print_ [37; 115; 37; 115] [VStr p; VStr sep]
  | None => mret tt
  end ;;
  print_ [37; 115] [VStr name] ;;
  when (flag_F fl && isdir) (print_ [47] []) ;;
  print_ [32] [].

(** The descriptor of the directory is not closed. *)
Fixpoint lsdir_loop (n : nat) (fl : ls_flags) (fd : Z) (prefix : list Z) : Uproc.U Z :=
  match n with
  | O => undef "the directory does not end"
  | S n' =>
      k ← readn rounds fd fbuf sizeof_File;
      if k =? sizeof_File then
        c ← ld8 (file_name fbuf);
        when (negb (c =? 0))
          (ty ← ld32 (file_type fbuf); size ← ld32 (file_size fbuf); name ← load_str 256 (file_name fbuf);
           ls1 fl (Some prefix) (ty =? FTYPE_DIR) size name) ;;
        lsdir_loop n' fl fd prefix
      else mret k
  end.

Definition lsdir (fl : ls_flags) (path prefix : list Z) : Uproc.U unit :=
  fd ← open path O_RDONLY;
  assert "open" (0 <=? s32 fd) ;;
  n ← lsdir_loop fuel fl (s32 fd) prefix;
  assert "short read in directory" (n <=? 0) ;;
  assert "error reading directory" (0 <=? n).

Definition ls (fl : ls_flags) (path prefix : list Z) : Uproc.U unit :=
  r ← stat rounds path st;
  assert "stat" (0 <=? s32 r) ;;
  isdir ← ld32 (st_isdir st);
  size ← ld32 (st_size st);
  if negb (isdir =? 0) && negb (flag_d fl) then lsdir fl path prefix
  else ls1 fl None (negb (isdir =? 0)) size path.

Definition ls_usage : Uproc.U unit :=
  print_ (map (fun c => Z.of_nat (Ascii.nat_of_ascii c)) (String.list_ascii_of_string "usage: ls [-dFl] [file...]") ++ [10]) [] ;; exit rounds.

Fixpoint ls_flag (l : list Z) (fl : ls_flags) : Uproc.U ls_flags :=
  match l with
  | [] => mret fl
  | c :: l' =>
      if c =? 100 then ls_flag l' (mkFlags true (flag_F fl) (flag_l fl))
      else if c =? 70 then ls_flag l' (mkFlags (flag_d fl) true (flag_l fl))
      else if c =? 108 then ls_flag l' (mkFlags (flag_d fl) (flag_F fl) true)
      else ls_usage ;; ls_flag l' fl
  end.

Fixpoint ls_options (argv : list (list Z)) (fl : ls_flags) : Uproc.U (list (list Z) * ls_flags) :=
  match argv with
  | (45 :: c :: l) :: rest =>
      if (c =? 45) && match l with [] => true | _ => false end then mret (rest, fl)
      else fl ← ls_flag (c :: l) fl; ls_options rest fl
  | _ => mret (argv, fl)
  end.

Definition ls_main (argv : list (list Z)) : Uproc.U unit :=
  '(files, fl) ← ls_options (tl argv) (mkFlags false false false);
  match files with
  | [] => ls fl [47] []
  | _ => for_each files (fun p => ls fl p p)
  end ;;
  print_ [10] [].
End Ls.

(** ** init.c: a console as descriptors 0 and 1, then one shell after the other *)
Definition init_console : Uproc.U unit :=
  r ← opencons;
  assert "opencons" (r =? 0) ;;
  r ← dup rounds 0 1;
  assert "dup" (0 <=? s32 r).

(** [n] shells; the result when one could not be started. [args] is the address of the
    arguments of [spawnl], the pointers to the string [sh] and NULL. *)
Fixpoint init_loop (n : nat) (me args elfbuf : Z) : M shell (option Z) :=
  match n with
  | O => mret None
  | S n' =>
      r ← infam (spawnl me rounds fuel [115; 104; 46; 98] args elfbuf);
      if r <? 0 then mret (Some r) else
      wait r ;;
      init_loop n' me args elfbuf
  end.

Definition init_main (n : nat) (me args elfbuf : Z) : M shell (option Z) :=
  inproc init_console ;; init_loop n me args elfbuf.
(** ** icode.c: the texts that [debugf] prints between its own messages; [buf] has 513 bytes *)
Fixpoint icode_read (n : nat) (fd buf : Z) : Uproc.U (list (list Z)) :=
  match n with
  | O => undef "icode reads on"
  | S n' =>
      k ← read rounds fd buf 512;
      if 0 <? k then
        st8 (buf + k) 0 ;;
        text ← load_str 513 buf;
        rest ← icode_read n' fd buf;
        mret (text :: rest)
      else mret []
  end.

Definition icode_file (buf : Z) : Uproc.U (list (list Z)) :=
  fd ← open [47; 109; 111; 116; 100] O_RDONLY; (* "/motd" *)
  assert "icode: open /motd" (0 <=? s32 fd) ;;
  texts ← icode_read fuel (s32 fd) buf;
  close rounds (s32 fd) ;;
  mret texts.

(** [args] is the address of the arguments of [spawnl]. *)
Definition icode_main (me args elfbuf buf : Z) : M shell (list (list Z)) :=
  texts ← inproc (icode_file buf);
  r ← infam (spawnl me rounds fuel [105; 110; 105; 116; 46; 98] args elfbuf); (* "init.b" *)
  assert "icode: spawn /init" (0 <=? r) ;;
  mret texts.
End Programs.
