(* ===== verification/ShellThms.v ===== *)
(** * Theorems on the shell's tokens (user/sh.c) *)

From Stdlib Require Import ZArith Lia.
From stdpp Require Import base numbers list gmap strings.
From S2P Require Import Prelude Str StrThms Shell.

(** ** What the tokens of a line are *)
Inductive tok := TSym (c : Z) | TWord (w : list Z).

Definition blank (c : Z) : bool := in_set c WHITESPACE.
Definition symbol (c : Z) : bool := in_set c SYMBOLS.
Definition delim (c : Z) : bool := blank c || symbol c.

Definition flush (cur : list Z) (k : list tok) : list tok := match cur with [] => k | _ => TWord cur :: k end.

(** Words are the longest runs of other characters; [cur] is the word so far. *)
Fixpoint toks (cur l : list Z) : list tok :=
  match l with
  | [] => flush cur []
  | c :: l' =>
      if blank c then flush cur (toks [] l')
      else if symbol c then flush cur (TSym c :: toks [] l')
      else toks (cur ++ [c]) l'
  end.

(** ** The scans *)
Lemma in_set_app c s1 s2 : in_set c (s1 ++ s2) = in_set c s1 || in_set c s2.
Proof. apply existsb_app. Qed.

Lemma delim_zero : delim 0 = false.
Proof. reflexivity. Qed.

Lemma cstring_ext m m' p l : (forall a, p <= a <= p + Z.of_nat (length l) -> rd8 m' a = rd8 m a) -> cstring m p l -> cstring m' p l.
Proof.
  revert p. induction l as [|c l IH]; intros p H; cbn [cstring length] in *; [intros <-; apply H; lia|].
  intros (E & Hc & Hl). split; [rewrite H by lia; exact E|]. split; [done|]. apply IH; [|done]. intros a Ha. apply H. lia.
Qed.

Record skipped (m : bmem) (q : Z) (l : list Z) (q' : Z) (m' : bmem) (l' : list Z) : Prop := {
  sk_le : q <= q';
  sk_end : q' + Z.of_nat (length l') = q + Z.of_nat (length l);
  sk_str : cstring m' q' l';
  sk_toks : toks [] l' = toks [] l;
  sk_head : match l' with [] => True | c :: _ => blank c = false end;
  sk_out : forall a, a < q \/ q' <= a -> rd8 m' a = rd8 m a;
  sk_zero : forall a, q <= a < q' -> rd8 m' a = 0 }.

Lemma skip_blanks_ok l : forall fuel q m, cstring m q l -> (length l < fuel)%nat ->
  exists q' m' l', skip_blanks fuel q m = Some (q', m') /\ skipped m q l q' m' l'.
Proof.
  induction l as [|c l IH]; intros fuel q m Hc Hf; (destruct fuel as [|fuel]; [cbn in Hf; lia|]); cbn [skip_blanks cstring] in *.
  - rewrite Hc. exists q, m, []. split; [done|]. split; try done; lia.
  - destruct Hc as (E & Hr & Hl). rewrite E. destruct (in_set c WHITESPACE) eqn:Eb.
    + destruct (IH fuel (q + 1) (wr8 m q 0)) as (q' & m' & l' & E' & [L En S T H O Z0]).
      { apply (cstring_ext m); [|done]. intros a Ha. rewrite rd_wr8. by rewrite decide_False by lia. }
      { cbn in Hf. lia. }
      exists q', m', l'. split; [done|]. split; [lia|cbn [length]; lia|done| |done| |].
      * rewrite T. cbn [toks]. unfold blank. by rewrite Eb.
      * intros a Ha. rewrite O by lia. rewrite rd_wr8. by rewrite decide_False by lia.
      * intros a Ha. destruct (decide (a = q)) as [->|]; [|apply Z0; lia]. rewrite O by lia. rewrite rd_wr8. by rewrite decide_True.
    + exists q, m, (c :: l). split; [done|]. split; try done; lia.
Qed.

(** The characters of [w] at [p]. *)
Fixpoint word_at (m : bmem) (p : Z) (w : list Z) : Prop :=
  match w with [] => True | c :: w' => rd8 m p = c /\ 0 < c < 256 /\ word_at m (p + 1) w' end.

Lemma word_cstring m p w : word_at m p w -> rd8 m (p + Z.of_nat (length w)) = 0 -> cstring m p w.
Proof.
  revert p. induction w as [|c w IH]; intros p H Hz; cbn [word_at cstring length] in *; [by rewrite Z.add_0_r in Hz|].
  destruct H as (E & Hc & Hw). split; [done|]. split; [done|]. apply IH; [done|]. rewrite <- Hz. f_equal. lia.
Qed.

Lemma word_at_ext m m' p w : (forall a, p <= a < p + Z.of_nat (length w) -> rd8 m' a = rd8 m a) -> word_at m p w -> word_at m' p w.
Proof.
  revert p. induction w as [|c w IH]; intros p H; cbn [word_at length] in *; [done|]. intros (E & Hc & Hw).
  split; [rewrite H by lia; exact E|]. split; [done|]. apply IH; [|done]. intros a Ha. apply H. lia.
Qed.

Definition ends_word (l : list Z) : Prop := match l with [] => True | c :: _ => delim c = true end.

Lemma skip_word_ok l : forall fuel q m, cstring m q l -> (length l < fuel)%nat ->
  exists w l2, l = w ++ l2 /\ skip_word fuel q m = Some (q + Z.of_nat (length w)) /\ word_at m q w /\
    cstring m (q + Z.of_nat (length w)) l2 /\ ends_word l2 /\
    (forall cur, cur ++ w <> [] -> toks cur l = TWord (cur ++ w) :: toks [] l2) /\
    (forall c r, l = c :: r -> delim c = false -> w <> []).
Proof.
  induction l as [|c l IH]; intros fuel q m Hc Hf; (destruct fuel as [|fuel]; [cbn in Hf; lia|]); cbn [skip_word cstring] in *.
  - rewrite Hc. exists [], []. cbn [length app toks]. rewrite Z.add_0_r. split_and!; try done.
    intros cur Hne. rewrite app_nil_r in *. by destruct cur.
  - destruct Hc as (E & Hr & Hl). rewrite E, in_set_app. fold (blank c) (symbol c) (delim c).
    destruct (Z.eqb_spec c 0); [lia|]. cbn [negb andb]. destruct (delim c) eqn:Ed; cbn [negb].
    + exists [], (c :: l). cbn [length app]. rewrite Z.add_0_r. split_and!; try done.
      * intros cur Hne. rewrite app_nil_r in *. unfold delim in Ed. cbn [toks]. unfold flush. destruct cur; [done|].
        destruct (blank c); [done|]. rewrite orb_false_l in Ed. by rewrite Ed.
      * intros c' r [= <- <-]. congruence.
    + cbn [length] in Hf. destruct (IH fuel (q + 1) m Hl ltac:(lia)) as (w & l2 & -> & E2 & Hw & H2 & He & Ht & _).
      exists (c :: w), l2. cbn [length app word_at]. replace (q + Z.of_nat (S (length w))) with (q + 1 + Z.of_nat (length w)) by lia.
      destruct Hr. split_and!; try done.
      intros cur Hne. cbn [toks]. unfold delim in Ed. apply orb_false_iff in Ed as [-> ->].
      rewrite Ht by by destruct cur. by rewrite <- app_assoc.
Qed.

(** ** One token *)
Record scanned (m : bmem) (q : Z) (l : list Z) (c p1 p2 : Z) (m' : bmem) : Prop := {
  sc_out : forall a, a < q \/ q + Z.of_nat (length l) <= a -> rd8 m' a = rd8 m a;
  sc_term : ends_word l -> rd8 m' q = 0;
  sc_tok : match toks [] l with
    | [] => c = 0 /\ p2 = 0
    | TSym s :: ts => c = s /\ symbol c = true /\ q < p2 /\ exists l2, cstring m' p2 l2 /\ toks [] l2 = ts /\ p2 + Z.of_nat (length l2) = q + Z.of_nat (length l)
    | TWord w :: ts => c = 119 /\ w <> [] /\ q <= p1 /\ p2 = p1 + Z.of_nat (length w) /\ word_at m' p1 w /\
        exists l2, cstring m' p2 l2 /\ toks [] l2 = ts /\ ends_word l2 /\ p2 + Z.of_nat (length l2) = q + Z.of_nat (length l)
    end }.

Lemma gettoken_ok fuel q m l : 0 < q -> cstring m q l -> (length l < fuel)%nat ->
  exists c p1 p2 m', _gettoken fuel q m = Some (c, p1, p2, m') /\ scanned m q l c p1 p2 m'.
Proof.
  intros Hq Hc Hf. unfold _gettoken. destruct (Z.eqb_spec q 0); [lia|].
  destruct (skip_blanks_ok l fuel q m Hc Hf) as (q' & m1 & l1 & E & [L En S T H O Z0]). rewrite E. cbn [mbind option_bind].
  assert (Hl1 : (length l1 <= length l)%nat) by lia.
  assert (Hout : forall a, a < q \/ q + Z.of_nat (length l) <= a -> rd8 m1 a = rd8 m a) by (intros a Ha; apply O; lia).
  assert (Hterm : q < q' -> rd8 m1 q = 0) by (intros Hlt; apply Z0; lia).
  destruct l1 as [|c l1]; cbn [cstring] in S.
  - rewrite S. cbn. eexists _, _, _, _. split; [reflexivity|]. split; [done| |].
    + intros _. destruct (decide (q = q')) as [->|]; [done|apply Hterm; lia].
    + by rewrite <- T.
  - destruct S as (Es & Hr & Hs). rewrite Es. destruct (Z.eqb_spec c 0); [lia|]. fold (symbol c). destruct (symbol c) eqn:Esy.
    + eexists _, _, _, _. split; [reflexivity|]. cbn [length] in *. split.
      * intros a Ha. rewrite rd_wr8, decide_False by lia. by apply Hout.
      * intros _. rewrite rd_wr8. destruct (decide (q' = q)); [done|apply Hterm; lia].
      * rewrite <- T. cbn [toks]. rewrite H, Esy. cbn [flush]. split; [done|]. split; [done|]. split; [lia|].
        exists l1. split; [|split; [done|lia]]. apply (cstring_ext m1); [|done]. intros a Ha. rewrite rd_wr8. by rewrite decide_False by lia.
    + destruct (skip_word_ok (c :: l1) fuel q' m1) as (w & l2 & El & E2 & Hw & H2 & He & Ht & Hne); [done|cbn [length] in *; lia|].
      rewrite E2. cbn [mbind option_bind]. eexists _, _, _, _. split; [reflexivity|].
      assert (Hd : delim c = false) by (unfold delim; by rewrite H, Esy).
      specialize (Hne c l1 eq_refl Hd). split; [done| |].
      * intros Hends. destruct (decide (q = q')) as [Eq|]; [|apply Hterm; lia]. exfalso. subst q'.
        destruct l as [|c0 l0]; cbn [length] in En; [lia|]. cbn in Hends. cbn [cstring] in Hc. destruct Hc as (E0 & _).
        rewrite O in Es by lia. congruence.
      * rewrite <- T. rewrite (Ht [] Hne). cbn [app]. split; [done|]. split; [done|]. split; [done|]. split; [done|]. split; [done|].
        exists l2. split; [done|]. split; [done|]. split; [done|]. rewrite <- En, El, length_app. lia.
Qed.

(** ** A whole line *)

(** The calls of [gettoken] until it returns 0: kind, pointer, and the string at the pointer
    when the call returns. *)
Fixpoint all_tokens (n fuel : nat) (lx : lexer) : option (list (Z * Z * list Z) * lexer) :=
  match n with
  | O => None
  | S n' =>
      '(c, p, lx') ← gettoken fuel lx;
      if c =? 0 then Some ([], lx') else
      '(r, l) ← all_tokens n' fuel lx'; Some ((c, p, str_at fuel (line lx') p) :: r, l)
  end.

(** A result of [gettoken], with the memory [m] at the end, is the token. *)
Definition matches (m : bmem) (r : Z * Z * list Z) (t : tok) : Prop :=
  let '(c, p, s) := r in
  match t with TSym x => c = x | TWord w => c = 119 /\ s = w /\ cstring m p w end.

Lemma str_at_ok w : forall fuel m p, cstring m p w -> (length w < fuel)%nat -> str_at fuel m p = w.
Proof.
  induction w as [|c w IH]; intros fuel m p H Hf; (destruct fuel as [|fuel]; [cbn in Hf; lia|]); cbn [str_at cstring length] in *.
  - by rewrite H.
  - destruct H as (-> & Hc & Hw). destruct (Z.eqb_spec c 0); [lia|]. f_equal. apply IH; [done|lia].
Qed.

(** The lexer has scanned one token ahead; the rest of the line ends at [e]. *)
Definition ahead (fuel : nat) (e : Z) (lx : lexer) (ts : list tok) : Prop :=
  let rest ts' l2 := cstring (line lx) (np2 lx) l2 /\ toks [] l2 = ts' /\ np2 lx + Z.of_nat (length l2) = e /\ (length l2 < fuel)%nat in
  match ts with
  | [] => nc lx = 0 /\ np2 lx = 0
  | TSym s :: ts' => nc lx = s /\ symbol s = true /\ 0 < np2 lx /\ exists l2, rest ts' l2
  | TWord w :: ts' => nc lx = 119 /\ w <> [] /\ 0 < np1 lx /\ np2 lx = np1 lx + Z.of_nat (length w) /\ (length w < fuel)%nat /\
      word_at (line lx) (np1 lx) w /\ exists l2, rest ts' l2 /\ ends_word l2
  end.

(** A token is scanned. *)
Lemma scanned_ahead fuel e m q l c p1 p2 m' : 0 < q -> q + Z.of_nat (length l) = e -> (length l < fuel)%nat ->
  scanned m q l c p1 p2 m' -> ahead fuel e (mkLexer m' c p1 p2) (toks [] l).
Proof.
  intros Hq He Hf [_ _ Ht]. unfold ahead. cbn [nc np1 np2 line]. destruct (toks [] l) as [|[s|w] ts]; [done| |].
  - destruct Ht as (-> & Hs & Hlt & l2 & H2 & H3 & H4). split; [done|]. split; [done|]. split; [lia|]. exists l2. split_and!; (done || lia).
  - destruct Ht as (-> & Hw & Hp & Hp2 & Hat & l2 & H2 & H3 & H4 & H5). split_and!; try (done || lia). exists l2. split_and!; (done || lia).
Qed.

Lemma all_tokens_ok fuel e ts : forall n lx, ahead fuel e lx ts -> (length ts < n)%nat ->
  exists r lx', all_tokens n fuel lx = Some (r, lx') /\ Forall2 (matches (line lx')) r ts /\
    (forall a, np2 lx = 0 \/ a < np2 lx \/ e <= a -> rd8 (line lx') a = rd8 (line lx) a).
Proof.
  induction ts as [|t ts IH]; intros n lx Ha Hn; (destruct n as [|n]; [cbn in Hn; lia|]); cbn [all_tokens].
  - destruct Ha as [E0 E2]. unfold gettoken, _gettoken. rewrite E2, E0. cbn [mbind option_bind Z.eqb]. eexists [], _. split; [reflexivity|]. done.
  - assert (H : exists l2, 0 < np2 lx /\ nc lx <> 0 /\ cstring (line lx) (np2 lx) l2 /\ toks [] l2 = ts /\
      np2 lx + Z.of_nat (length l2) = e /\ (length l2 < fuel)%nat).
    { destruct t as [s|w]; cbn [ahead] in Ha.
      - destruct Ha as (-> & Hs & Hp & l2 & H1 & H2 & H3 & H4). exists l2. split_and!; try done. by intros ->.
      - destruct Ha as (-> & Hw & Hp & -> & Hl & Hat & l2 & (H1 & H2 & H3 & H4) & _). exists l2. split_and!; (done || lia). }
    destruct H as (l2 & Hp & Hnz & H1 & H2 & H3 & H4).
    destruct (gettoken_ok fuel (np2 lx) (line lx) l2 Hp H1 H4) as (c & p1 & p2 & m' & E & Sc).
    unfold gettoken. rewrite E. cbn [mbind option_bind]. destruct (Z.eqb_spec (nc lx) 0); [done|].
    pose proof (scanned_ahead fuel e _ _ _ _ _ _ _ Hp H3 H4 Sc) as A. rewrite H2 in A.
    cbn [length] in Hn. destruct (IH n _ A ltac:(lia)) as (r & lx' & E' & F & O). rewrite E'. cbn [line] in *. pose proof Sc as [So Ste Sto].
    assert (Hout : forall a, a < np2 lx \/ e <= a -> rd8 (line lx') a = rd8 (line lx) a).
    { intros a Hx. rewrite O; [apply So; lia|]. cbn [np2]. rewrite H2 in Sto. destruct ts as [|[s|w] ts]; [left; apply Sto|right|right].
      - destruct Sto as (_ & _ & Hlt & l3 & _ & _ & H5). lia.
      - destruct Sto as (_ & _ & Hle & -> & _ & l3 & _). lia. }
    eexists _, _. split; [reflexivity|]. split; [|intros a [Hx|Hx]; [lia|by apply Hout]].
    constructor; [|done]. destruct t as [s|w]; [by destruct Ha|]. cbn [ahead] in Ha.
    destruct Ha as (-> & Hw & Hp1 & Ep2 & Hl & Hat & l3 & (H5 & H6 & H7 & H8) & Hends). cbn [matches].
    assert (l3 = l2) as ->.
    { clear -H1 H5. revert H1 H5. generalize (np2 lx). revert l3. induction l2 as [|c l2 IH]; intros [|c' l3] p H H'; cbn [cstring] in *; [done|lia|lia|].
      destruct H as (<- & _ & H). destruct H' as (<- & _ & H'). f_equal. by apply (IH l3 (p + 1)). }
    assert (Hwm : cstring m' (np1 lx) w).
    { apply word_cstring; [|rewrite <- Ep2; by apply Ste]. apply (word_at_ext (line lx)); [|done]. intros a Hx. apply So. lia. }
    split; [done|]. split; [by apply str_at_ok|].
    assert (Hnext : forall a, np1 lx <= a <= np2 lx -> rd8 (line lx') a = rd8 m' a).
    { intros a Hx. apply O. cbn [np2]. rewrite H2 in Sto. destruct ts as [|[s|w'] ts]; [left; apply Sto|right; left|right; left].
      - destruct Sto as (_ & _ & Hlt & _). lia.
      - destruct Sto as (_ & Hne & Hle & -> & _). destruct w'; [done|]. cbn [length]. lia. }
    apply (cstring_ext m'); [|done]. intros a Hx. apply Hnext. lia.
Qed.

(** C30: The shell cuts a line into its tokens. The calls of [gettoken] end; they return, in order,
    the symbols of the line and its words (the longest runs of characters that are neither
    blanks nor symbols). When a word is returned it is a C string, although nothing need
    separate it from the next token, and it is still one when the whole line is read; no byte
    outside the line changes. *)
Theorem gettoken_tokens fuel m a l : cstring m a l -> 0 < a -> (S (length l) < fuel)%nat ->
  exists lx r lx', gettoken_start fuel a m = Some lx /\ all_tokens fuel fuel lx = Some (r, lx') /\
    Forall2 (matches (line lx')) r (toks [] l) /\
    forall x, x < a \/ a + Z.of_nat (length l) < x -> rd8 (line lx') x = rd8 m x.
Proof.
  intros Hc Ha Hf. destruct (gettoken_ok fuel a m l Ha Hc ltac:(lia)) as (c & p1 & p2 & m' & E & Sc).
  unfold gettoken_start. rewrite E. cbn [mbind option_bind].
  pose proof (scanned_ahead fuel (a + Z.of_nat (length l)) m a l c p1 p2 m' Ha eq_refl ltac:(lia) Sc) as A.
  assert (Hlen : forall l cur, (length (toks cur l) <= length l + match cur with [] => 0 | _ => 1 end)%nat).
  { clear. induction l as [|c l IH]; intros cur; cbn [toks length]; [by destruct cur; cbn|].
    specialize (IH []) as I0. specialize (IH (cur ++ [c])). cbn in I0.
    destruct (blank c); [|destruct (symbol c)]; [destruct cur; cbn [flush length] in *; lia..|]. destruct (cur ++ [c]), cur; lia. }
  specialize (Hlen l []). cbn in Hlen.
  destruct (all_tokens_ok fuel _ _ fuel _ A ltac:(lia)) as (r & lx' & E' & F & O).
  eexists _, r, lx'. split; [reflexivity|]. split; [exact E'|]. split; [done|]. intros x Hx. cbn [line np2] in *. pose proof Sc as [So _ Sto].
  rewrite O; [apply So; lia|]. destruct (toks [] l) as [|[s|w] ts]; [left; apply Sto|right|right].
  - destruct Sto as (_ & _ & Hlt & l2 & _ & _ & H). lia.
  - destruct Sto as (_ & _ & Hle & -> & _). lia.
Qed.

(** ["ls >a"] *)
Lemma gettoken_tokens_witness : exists lx r lx',
  gettoken_start 9 100 (list_to_map [(100, 108); (101, 115); (102, 32); (103, 62); (104, 97)]) = Some lx /\
  all_tokens 9 9 lx = Some (r, lx') /\ Forall2 (matches (line lx')) r [TWord [108; 115]; TSym 62; TWord [97]].
Proof.
  destruct (gettoken_tokens 9 (list_to_map [(100, 108); (101, 115); (102, 32); (103, 62); (104, 97)]) 100 [108; 115; 32; 62; 97])
    as (lx & r & lx' & E & E' & F & _).
  - cbn [cstring]. split_and!; (reflexivity || lia).
  - lia.
  - cbn. lia.
  - exists lx, r, lx'. split; [exact E|]. split; [exact E'|exact F].
Defined.
