(* ===== verification/Kernel.v ===== *)
(** * The kernel as a whole: an invariant that every entry of the kernel keeps

    The state of the kernel while user mode runs, [on_cpu], and what an entry of the kernel
    may do, [ends]: return to a user mode in which [on_cpu] holds again, or halt because
    memory or runnable environments have run out. Here are the invariant and its
    preservation by the parts that several entries share: changes of an environment's fields,
    of the memory, of the process on the processor. KernelSafe.v has the entries. *)

From Stdlib Require Import ZArith Lia.
From stdpp Require Import base numbers list gmap strings.
From S2P Require Import Prelude Queue Mmu Pmap PmapInv PmapOps PmapInsert PmapThms.
From S2P Require Import KState Elf Signo Env Sched TlbEx Signal Syscall Traps EnvThms SchedThms PmapFree EnvInv EnvSpec MemThms TlbThms IpcThms SysThms.
From S2P Require Import Str StrThms Wp.
Import LIST.

(** ** The invariant *)

(** The fields of an environment that is in use, or free. No signal is pending. *)
Record env_fine (used : Prop) (v : Env) : Prop := {
  ef_used : used -> env_status v = ENV_RUNNABLE \/ env_status v = ENV_NOT_RUNNABLE;
  ef_free : ~ used -> env_status v = ENV_FREE;
  ef_recv : env_ipc_recving v <> 0 -> env_status v = ENV_NOT_RUNNABLE /\ user_va (env_ipc_dstva v);
  ef_quiet : signoHeader v = None;
  ef_table : length (sighandler_table v) = 64%nat }.

(** A page that user code may hold: neither a page directory nor a page table, nor one the
    kernel itself keeps. *)
Definition user_page (D : list Z) (ext : Z -> Z) (m : mem) (p : Z) : Prop := data_page D m p /\ ext p = 0.

(** The part of the address spaces above UTOP: every directory of [D] maps itself at UVPT,
    and shares with the template directory [b] the tables of the windows UENVS and UPAGES,
    which belong to the kernel. [n] is the number of pages of memory. *)
Record windows (D : list Z) (b : Z) (ext : Z -> Z) (n : Z) (m : mem) : Prop := {
  win_self : forall d, d ∈ D -> word m d (PDX UVPT) = mk_pte d 0;
  win_copy : forall d i, d ∈ D -> PDX UTOP <= i < PDX UVPT -> word m d i = word m b i;
  win_table : forall i, PDX UTOP <= i < PDX UVPT -> valid (word m b i) = true ->
    PPN (word m b i) < n /\ 1 <= ext (PPN (word m b i)) /\
    forall j, 0 <= j < 1024 -> valid (word m (PPN (word m b i)) j) = true -> PPN (word m (PPN (word m b i)) j) < n }.

(** The pages of the kernel are no part of the user's address spaces, and hold the windows. *)
Record kernel_pages (D : list Z) (ext : Z -> Z) (base : Z) (t : pmap_st) : Prop := {
  kp_held : forall q, 1 <= ext q -> data_page D (phys t) q;
  kp_win : forall b, base = slot b 0 -> windows D b ext (npage t) (phys t) }.

(** [kinv], the fields of the environments, and: every page that user code can reach is a
    user page. *)
Record kernel_ok (L : list Z) (ext : Z -> Z) (fl pfl : list Z) (s : kstate) : Prop := {
  ko_inv : kinv L ext fl pfl s;
  ko_env : forall i, env_fine (i ∈ L) (env s i);
  ko_data : forall i va pte, i ∈ L -> user_va va -> mapping s i va = Some pte ->
    user_page (dirs s L) ext (phys (pm s)) (PPN pte);
  ko_pages : kernel_pages (dirs s L) ext (base_pgdir s) (pm s);
  ko_ids : 0 <= mkenvid_i s }.

(** Environment [c] runs in user mode: it is runnable, its address space is the current
    one, and the run queue [sl] holds exactly the runnable environments. *)
Record on_cpu (L : list Z) (ext : Z -> Z) (fl pfl sl : list Z) (c : Z) (s : kstate) : Prop := {
  oc_ok : kernel_ok L ext fl pfl s;
  oc_queue : run_queue s sl;
  oc_cur : curenv s = Some c;
  oc_run : env_status (env s c) = ENV_RUNNABLE;
  oc_dir : cur_pgdir (pm s) = env_pgdir (env s c);
  oc_asid : hw_asid s = env_asid (env s c) }.

Arguments ef_used {used v}. Arguments ef_free {used v}. Arguments ef_recv {used v}.
Arguments ef_quiet {used v}. Arguments ef_table {used v}.
Arguments ko_inv {L ext fl pfl s}. Arguments ko_env {L ext fl pfl s}.
Arguments ko_data {L ext fl pfl s}. Arguments ko_pages {L ext fl pfl s}. Arguments ko_ids {L ext fl pfl s}.
Arguments oc_ok {L ext fl pfl sl c s}. Arguments oc_queue {L ext fl pfl sl c s}.
Arguments oc_cur {L ext fl pfl sl c s}. Arguments oc_run {L ext fl pfl sl c s}.
Arguments oc_dir {L ext fl pfl sl c s}. Arguments oc_asid {L ext fl pfl sl c s}.

Definition user_mode (ext : Z -> Z) (c : Z) (s : kstate) : Prop := exists L fl pfl sl, on_cpu L ext fl pfl sl c s.

(** Only shortage halts the machine. *)
Definition shortage (msg : string) : Prop :=
  msg = "no runnale env"%string \/ msg = "page_alloc(&p)"%string \/ msg = "page_insert"%string.

Definition ends (ext : Z -> Z) {A} (o : outcome kstate A) (Q : A -> kstate -> Prop) : Prop :=
  match o with
  | Val a s => Q a s
  | Run e s => user_mode ext e s
  | Panic msg _ => shortage msg
  | Undef _ => False
  end.

Lemma ends_bind ext {A B} (m : K A) (k : A -> K B) s Q :
  ends ext (m s) (fun a s' => ends ext (k a s') Q) -> ends ext ((m ≫= k) s) Q.
Proof. unfold mbind, M_bind. by destruct (m s). Qed.

Lemma ends_mono ext {A} (o : outcome kstate A) (P Q : A -> kstate -> Prop) :
  ends ext o P -> (forall a s, P a s -> Q a s) -> ends ext o Q.
Proof. destruct o; cbn; auto. Qed.

Lemma ends_seq ext {A B} (m : K A) (k : A -> K B) s P Q :
  ends ext (m s) P -> (forall a s', P a s' -> ends ext (k a s') Q) -> ends ext ((m ≫= k) s) Q.
Proof. intros H HK. apply ends_bind. by apply (ends_mono _ _ P). Qed.

(** The same for code that does not leave the kernel. *)
Definition returns {A} (o : outcome kstate A) (Q : A -> kstate -> Prop) : Prop :=
  match o with
  | Val a s => Q a s
  | Panic msg _ => shortage msg
  | _ => False
  end.

Lemma returns_ends ext {A} (o : outcome kstate A) Q : returns o Q -> ends ext o Q.
Proof. by destruct o. Qed.

Lemma returns_seq {A B} (m : K A) (k : A -> K B) s P Q :
  returns (m s) P -> (forall a s', P a s' -> returns (k a s') Q) -> returns ((m ≫= k) s) Q.
Proof. unfold mbind, M_bind. destruct (m s); cbn; auto. Qed.

(** ** Frames *)
Lemma env_fine_iff (P Q : Prop) v : (P <-> Q) -> env_fine P v -> env_fine Q v.
Proof. intros H [? ? ? ? ?]. split; tauto. Qed.

Lemma runnable_used (L : list Z) v : forall i : Z, env_fine (i ∈ L) v -> env_status v = ENV_RUNNABLE -> i ∈ L.
Proof.
  intros i F Hr. destruct (decide (i ∈ L)) as [|Hn]; [done|]. by rewrite (ef_free F Hn) in Hr.
Qed.

Lemma oc_live {L ext fl pfl sl c s} : on_cpu L ext fl pfl sl c s -> c ∈ L.
Proof. intros O. apply (runnable_used L (env s c)); [exact (ko_env (oc_ok O) c)|exact (oc_run O)]. Qed.

Lemma kernel_ok_free {L ext fl pfl s} : kernel_ok L ext fl pfl s -> free_marked fl s.
Proof.
  intros O i Hi. apply (ef_free (ko_env O i)). by apply (k_disj _ _ _ _ _ (ko_inv O)).
Qed.

Lemma oc_caller {L ext fl pfl sl c s} : on_cpu L ext fl pfl sl c s -> caller L ext fl pfl c s.
Proof.
  intros O. pose proof (oc_ok O) as Ok. split; [apply (ko_inv Ok)|exact (kernel_ok_free Ok)|exact (oc_cur O)|].
  exact (oc_live O).
Qed.

Lemma oc_refilling {L ext fl pfl sl c s} : on_cpu L ext fl pfl sl c s -> refilling L ext fl pfl c s.
Proof. intros O. split; [exact (ko_inv (oc_ok O))|exact (oc_live O)|exact (oc_dir O)|exact (oc_asid O)]. Qed.

Lemma kinv_cur L ext fl pfl s g : kinv L ext fl pfl s -> kinv L ext fl pfl (set_pm (set_cur_pgdir g (pm s)) s).
Proof.
  intros I. apply (kinv_set_pm _ _ _ pfl); [done| |apply I|done]. destruct (k_pm _ _ _ _ _ I). by split.
Qed.

(** A page the kernel holds is not free, and the template directory is one. *)
Lemma held_not_free {L ext fl pfl s q} : kinv L ext fl pfl s -> 1 <= ext q -> q ∉ pfl.
Proof. intros I Hq Hin. destruct (free_unreferenced _ _ _ _ _ (k_pm _ _ _ _ _ I) Hin). lia. Qed.

Lemma base_held {L ext fl pfl s} : kinv L ext fl pfl s -> forall b, base_pgdir s = slot b 0 -> 1 <= ext b.
Proof.
  intros I b Hb. destruct (k_base _ _ _ _ _ I) as (b' & Hb' & He). rewrite Hb in Hb'. unfold slot in Hb'.
  by replace b with b' by lia.
Qed.

(** The page of a mapping counted once is a user page. *)
Lemma counted_user D ext fl t d va pte : pmap_inv D ext fl t -> d ∈ D -> user_va va ->
  lookup_pte (phys t) d va = Some pte -> pp_ref t (PPN pte) = 1 -> user_page D ext (phys t) (PPN pte).
Proof.
  intros I Hd Hva El H1. split; [by apply (counted_once D ext fl t d va)|].
  destruct (lookup_some_parts D ext fl t I d va Hd Hva pte El) as (V1 & V2 & V3 & _ & V5).
  rewrite (inv_ref _ _ _ _ I) in H1 by done. pose proof (inv_ext _ _ _ _ I (PPN pte)).
  assert (1 <= refs D (phys t) (PPN pte)); [|lia].
  apply (refs_leaf D (phys t) (PPN pte) d (PDX va) (PTX va)); auto with mos.
  unfold leaf_maps. by rewrite V1, V2, V3, Z.eqb_refl.
Qed.

(** The kernel's pages keep their content, and the directories their entries from UTOP on. *)
Lemma kernel_pages_step D D' ext base t t' : kernel_pages D ext base t -> npage t' = npage t ->
  (forall b, base = slot b 0 -> 1 <= ext b) ->
  (forall q, 1 <= ext q -> data_page D' (phys t') q /\ forall i, word (phys t') q i = word (phys t) q i) ->
  (forall d, d ∈ D' -> d ∈ D /\ forall i, PDX UTOP <= i -> word (phys t') d i = word (phys t) d i) ->
  kernel_pages D' ext base t'.
Proof.
  intros [KH KW] Hn Hb HK HD. split; [by intros q Hq; apply HK|]. intros b E. destruct (KW b E) as [W1 W2 W3].
  assert (HB : forall i, word (phys t') b i = word (phys t) b i) by (intros i; by apply HK, Hb).
  assert (HU : PDX UTOP <= PDX UVPT) by done. split.
  - intros d Hd. destruct (HD d Hd) as [Hd' Hw]. by rewrite Hw, W1.
  - intros d i Hd Hi. destruct (HD d Hd) as [Hd' Hw]. rewrite Hw, HB by lia. by apply W2.
  - intros i Hi. rewrite HB, Hn. intros Hv. destruct (W3 i Hi Hv) as (T1 & T2 & T3). split; [done|]. split; [done|].
    intros j. rewrite (proj2 (HK _ T2)). apply T3.
Qed.

(** A new directory, which [env_setup_vm] built. *)
Lemma kernel_pages_new D ext base p t t' : kernel_pages D ext base t -> ext p = 0 -> p ∉ D ->
  (exists b, base = slot b 0) -> (forall b, base = slot b 0 -> 1 <= ext b /\ vm_ready b p t t') ->
  (forall q, 1 <= ext q -> data_page (p :: D) (phys t') q) ->
  (forall q i, q <> p -> word (phys t') q i = word (phys t) q i) -> kernel_pages (p :: D) ext base t'.
Proof.
  intros [KH KW] Hp HpD (b0 & E0) HB HK HS. split; [exact HK|]. intros b E. destruct (KW b E) as [W1 W2 W3].
  destruct (HB b E) as [Hb [V1 [V2 _] _ _ (V5 & _)]].
  assert (HH : forall q i, 1 <= ext q -> word (phys t') q i = word (phys t) q i) by (intros q i Hq; apply HS; intros ->; lia).
  split.
  - intros d [->|Hd]%elem_of_cons; [done|]. rewrite HS by (by intros ->). by apply W1.
  - intros d i [->|Hd]%elem_of_cons Hi; rewrite (HH b) by done; [by apply V1|]. rewrite HS by (by intros ->). by apply W2.
  - intros i Hi. rewrite (HH b), V5 by done. intros Hv. destruct (W3 i Hi Hv) as (T1 & T2 & T3). split; [done|]. split; [done|].
    intros j. rewrite (HH _ j T2). apply T3.
Qed.

(** Changes outside the memory: other fields of the environments, the queue, the frame,
    the current environment and directory. *)
Lemma kernel_ok_frame L ext fl pfl s s' g :
  env_free_list s' = env_free_list s -> asid_bitmap s' = asid_bitmap s -> base_pgdir s' = base_pgdir s ->
  mkenvid_i s' = mkenvid_i s -> pm s' = set_cur_pgdir g (pm s) ->
  (forall i, env_pgdir (env s' i) = env_pgdir (env s i) /\ env_asid (env s' i) = env_asid (env s i)) ->
  (forall i, env_fine (i ∈ L) (env s' i)) -> kernel_ok L ext fl pfl s -> kernel_ok L ext fl pfl s'.
Proof.
  intros E1 E2 E3 E4 E5 HE HF O.
  assert (Hd : forall i, dir_of s' i = dir_of s i) by (intros i; unfold dir_of; by destruct (HE i) as [-> _]).
  assert (HD : dirs s' L = dirs s L) by (apply map_ext_in; intros i _; apply Hd).
  assert (Hph : phys (pm s') = phys (pm s)) by by rewrite E5.
  split.
  - apply (kinv_ext _ _ _ _ (set_pm (set_cur_pgdir g (pm s)) s)); try done. by apply kinv_cur, (ko_inv O).
  - exact HF.
  - intros i va pte Hi Hva. unfold mapping. rewrite Hph, Hd, HD. by apply (ko_data O).
  - rewrite HD, E3, E5. destruct (ko_pages O). by split.
  - rewrite E4. exact (ko_ids O).
Qed.

Lemma same_cur (t : pmap_st) : t = set_cur_pgdir (cur_pgdir t) t.
Proof. by destruct t. Qed.

(** A change of one environment. *)
Lemma kernel_ok_put L ext fl pfl s e f :
  env_pgdir (f (env s e)) = env_pgdir (env s e) -> env_asid (f (env s e)) = env_asid (env s e) ->
  env_fine (e ∈ L) (f (env s e)) -> kernel_ok L ext fl pfl s -> kernel_ok L ext fl pfl (put_env e f s).
Proof.
  intros H1 H2 HF O. apply (kernel_ok_frame L ext fl pfl s _ (cur_pgdir (pm s))); try done; [apply same_cur| |].
  - intros i. rewrite env_put. by destruct (decide (e = i)) as [<-|].
  - intros i. rewrite env_put. destruct (decide (e = i)) as [<-|]; [done|]. exact (ko_env O i).
Qed.

(** Operations on the memory, with their effect on the mapping of [va] in [e]. *)
Lemma kernel_ok_memory L ext fl pfl pfl' s s' e va : kernel_ok L ext fl pfl s -> memory_step L ext fl pfl' s s' ->
  same_mappings L e va s s' -> same_data L pfl s s' ->
  (forall pte, mapping s' e va = Some pte -> user_page (dirs s L) ext (phys (pm s')) (PPN pte)) ->
  kernel_ok L ext fl pfl' s'.
Proof.
  intros O [Es I' Hc Hnp Hhigh] HS HD Hnew.
  assert (Hdirs : dirs s' L = dirs s L) by by rewrite Es.
  split; [done|intros i; rewrite Es; exact (ko_env O i)| | |rewrite Es; exact (ko_ids O)].
  - intros i va' pte Hi Hva Hm. rewrite Hdirs.
    destruct (decide (i = e /\ VPN va' = VPN va)) as [[-> HV]|Hne].
    + apply Hnew. rewrite <- Hm. unfold mapping. apply lookup_pte_vpn. by symmetry.
    + rewrite HS in Hm by done. destruct (ko_data O i va' pte Hi Hva Hm) as [Hd He]. split; [|done]. apply HD; [done|].
      by apply (mapped_page L ext fl pfl s (ko_inv O) i va' Hi Hva pte).
  - assert (Hb : base_pgdir s' = base_pgdir s) by by rewrite Es. rewrite Hdirs, Hb.
    apply (kernel_pages_step _ _ _ _ _ _ (ko_pages O) Hnp); [exact (base_held (ko_inv O))|..].
    + intros q Hq. apply HD; [by apply (kp_held _ _ _ _ (ko_pages O))|exact (held_not_free (ko_inv O) Hq)].
    + intros d Hd. split; [done|]. apply list_elem_of_fmap in Hd as (i & -> & Hi). intros k. by apply Hhigh.
Qed.

Lemma on_cpu_memory L ext fl pfl pfl' sl c s s' : on_cpu L ext fl pfl sl c s -> kernel_ok L ext fl pfl' s' ->
  s' = set_pm (pm s') s -> cur_pgdir (pm s') = cur_pgdir (pm s) -> on_cpu L ext fl pfl' sl c s'.
Proof.
  intros O Ok Es Hc. destruct O as [_ [Q1 Q2] H1 H2 H3 H4]. split; [done|..]; rewrite ?Hc, Es; by try split.
Qed.

(** ** User memory *)

(** The hardware and the kernel may access address [a]; for a store, the page is writable
    or not there yet (the refill handler makes it writable). *)
Definition accessible (s : kstate) (c a : Z) (write : bool) : Prop :=
  passive a /\ (write = true -> forall pte, mapping s c a = Some pte -> hasbits pte PTE_D = true).

Lemma passive_user a : passive a -> user_va a.
Proof. intros [H _]. unfold user_va. assert (HU : UTEMP = 4186112) by reflexivity. lia. Qed.

Lemma hasbits_mk_pte p perm k : 0 <= k -> hasbits perm (2 ^ k) = true -> hasbits (mk_pte p perm) (2 ^ k) = true.
Proof.
  intros Hk. rewrite !hasbits_testbit by done. intros H. unfold mk_pte. by rewrite !Z.lor_spec, H, orb_true_r.
Qed.

(** What an access to user memory does to the kernel: memory only, and every access that
    was possible stays so. *)
Record user_step (L : list Z) (ext : Z -> Z) (fl sl : list Z) (c : Z) (s s' : kstate) : Prop := {
  us_cpu : exists pfl', on_cpu L ext fl pfl' sl c s';
  us_only : s' = set_pm (pm s') s;
  us_acc : forall a w, accessible s c a w -> accessible s' c a w }.

Arguments us_cpu {L ext fl sl c s s'}. Arguments us_only {L ext fl sl c s s'}.
Arguments us_acc {L ext fl sl c s s'}.

Section UserMemory.
Context (L : list Z) (ext : Z -> Z) (fl sl : list Z) (c : Z).

Lemma user_step_refl pfl s : on_cpu L ext fl pfl sl c s -> user_step L ext fl sl c s s.
Proof using. intros O. split; [by exists pfl|by destruct s|done]. Qed.

Lemma user_step_trans s1 s2 s3 : user_step L ext fl sl c s1 s2 -> user_step L ext fl sl c s2 s3 -> user_step L ext fl sl c s1 s3.
Proof using.
  intros [_ E1 A1] [C2 E2 A2]. split; [done| |auto]. rewrite E2, E1. reflexivity.
Qed.

Lemma kernel_ok_store pfl s p m' : kernel_ok L ext fl pfl s -> user_page (dirs s L) ext (phys (pm s)) p ->
  (forall q i, q <> p -> word m' q i = word (phys (pm s)) q i) -> (forall i, is_u32 (word m' p i)) ->
  kernel_ok L ext fl pfl (set_pm (set_phys m' (pm s)) s) /\
  (forall i va, i ∈ L -> user_va va -> mapping (set_pm (set_phys m' (pm s)) s) i va = mapping s i va) /\
  (forall q, data_page (dirs s L) (phys (pm s)) q -> data_page (dirs s L) m' q).
Proof using.
  intros O [Hp Hpe] HS HW. pose proof (ko_inv O) as I. pose proof (k_pm _ _ _ _ _ I) as Ip.
  assert (HL : forall d va, d ∈ dirs s L -> user_va va -> lookup_pte m' d va = lookup_pte (phys (pm s)) d va)
    by (intros d va; apply (data_lookup (dirs s L) (phys (pm s)) m' p Hp HS)).
  assert (HM : forall i va, i ∈ L -> user_va va -> mapping (set_pm (set_phys m' (pm s)) s) i va = mapping s i va)
    by (intros i va Hi Hva; unfold mapping; apply HL; [by apply elem_of_dirs|done]).
  assert (HD : forall q, data_page (dirs s L) (phys (pm s)) q -> data_page (dirs s L) m' q).
  { intros q Hq. apply (data_page_mono _ _ (phys (pm s))); [|exact Hq]. intros d i Hd _ _. symmetry.
    by apply (data_dir (dirs s L) (phys (pm s)) m' p Hp HS). }
  split; [|done]. split; [|exact (ko_env O)| | |exact (ko_ids O)].
  - apply (kinv_set_pm _ _ _ pfl); [done| | |done].
    + destruct Ip. split; try done.
      * by apply (data_wf (dirs s L) _ (phys (pm s)) m' inv_mem p Hp HS HW).
      * intros q Hq. transitivity (ext q + refs (dirs s L) m' q); [|done].
        rewrite (data_refs (dirs s L) (phys (pm s)) m' p Hp HS). by apply inv_ref.
    + intros d a va e Hs Hva Hl. cbn [phys set_phys]. destruct (kinv_live _ _ _ _ _ I) as (L1 & _). destruct (L1 _ _ Hs) as [Hd _].
      rewrite HL by done. by apply (k_coh _ _ _ _ _ I d a).
  - intros i va pte Hi Hva Hm. rewrite HM in Hm by done. destruct (ko_data O i va pte Hi Hva Hm) as [Hd He].
    split; [by apply HD|done].
  - apply (kernel_pages_step (dirs s L) _ ext (base_pgdir s) (pm s)); [exact (ko_pages O)|done|exact (base_held I)|..].
    + intros q Hq. split; [apply HD; by apply (kp_held _ _ _ _ (ko_pages O))|]. intros i. apply HS. intros ->. lia.
    + intros d Hd. split; [done|]. intros i _. apply HS. intros ->. by destruct Hp.
Qed.

(** A store to a page that user code can reach. *)
Lemma store_step pfl s p m' : on_cpu L ext fl pfl sl c s -> user_page (dirs s L) ext (phys (pm s)) p ->
  (forall q i, q <> p -> word m' q i = word (phys (pm s)) q i) -> (forall i, is_u32 (word m' p i)) ->
  user_step L ext fl sl c s (set_pm (set_phys m' (pm s)) s).
Proof using.
  intros O Hp HS HW. destruct (kernel_ok_store pfl s p m' (oc_ok O) Hp HS HW) as (Ok & HM & _).
  split; [|done|].
  - exists pfl. by apply (on_cpu_memory L ext fl pfl pfl sl c s).
  - intros a w [Ha Hw]. split; [done|]. intros -> pte. rewrite HM; [by apply Hw|exact (oc_live O)|by apply passive_user].
Qed.

(** The refill handler. *)
Lemma refill_returns pfl s va : on_cpu L ext fl pfl sl c s -> passive va ->
  returns (do_tlb_refill va s) (fun e s' => user_step L ext fl sl c s s' /\ mapping s' c va = Some e).
Proof using.
  intros O Hp. pose proof (passive_user _ Hp) as Hva. pose proof (oc_live O) as HcL.
  pose proof (oc_ok O) as Ok. pose proof (oc_refilling O) as R.
  pose proof (do_tlb_refill_ok L ext fl pfl c s va R Hva Hp) as H.
  destruct (mapping s c va) as [pte|] eqn:Hm.
  - rewrite H. split; [|exact Hm]. split; [|done|done].
    exists pfl. apply (on_cpu_memory L ext fl pfl pfl sl c s); try done.
    destruct Ok as [I HE HD HP HI]. split; try done; [rewrite (oc_asid O); by apply tlb_fill|]. destruct HP. by split.
  - destruct pfl as [|p pfl1]; [rewrite H; right; by left|].
    destruct H as [(s' & pfl' & E & F)|(_ & s' & E)]; rewrite E; [|by right; right].
    split; [|apply F]. destruct F as [F1 F2 F3 F4 F5 F6 F7 F8 F9 F10 F11].
    assert (HR : 0 <= p < npage (pm s)) by (apply (inv_fl_range _ _ _ _ (k_pm _ _ _ _ _ (ko_inv Ok))); left).
    pose proof (wf_npage _ _ _ (inv_mem _ _ _ _ (k_pm _ _ _ _ _ (ko_inv Ok)))) as Hn.
    assert (HP : PPN (mk_pte p PTE_D) = p) by (apply PPN_mk_pte; unfold PTE_D; lia).
    assert (HD : dirs s' L = dirs s L) by by rewrite F2.
    assert (Ok' : kernel_ok L ext fl pfl' s').
    { apply (kernel_ok_memory L ext fl (p :: pfl1) pfl' s s' c va); [done|by split|done|done|].
      intros pte. rewrite F4. intros [= <-]. rewrite <- HD.
      apply (counted_user _ ext pfl' (pm s') (dir_of s' c) va); [apply F1|by apply elem_of_dirs|done|exact F4|by rewrite HP]. }
    split; [|done|].
    + exists pfl'. by apply (on_cpu_memory L ext fl (p :: pfl1) pfl' sl c s).
    + intros a w [Ha Hw]. split; [done|]. intros -> pte Hmp. destruct (decide (VPN a = VPN va)) as [HV|HV].
      * unfold mapping in Hmp, F4. rewrite (lookup_pte_vpn _ _ _ _ HV), F4 in Hmp. injection Hmp as <-.
        by apply (hasbits_mk_pte p PTE_D 10).
      * rewrite F5 in Hmp by (done || (by apply passive_user) || (by intros [_ ?])). by apply Hw.
Qed.

Lemma refill_ends pfl s va : on_cpu L ext fl pfl sl c s -> passive va ->
  ends ext (do_tlb_refill va s) (fun e s' => user_step L ext fl sl c s s' /\ mapping s' c va = Some e).
Proof using. intros O Hp. by apply returns_ends, (refill_returns pfl). Qed.
End UserMemory.

(** ** The kernel's own accesses to user memory *)

(** The [n] words, or bytes, from [va] on. *)
Definition words_ok (s : kstate) (c va : Z) (n : nat) (write : bool) : Prop :=
  is_u32 va /\ va mod 4 = 0 /\ forall i, 0 <= i < Z.of_nat n -> accessible s c (u32 (va + 4 * i)) write.
Definition bytes_ok (s : kstate) (c va : Z) (n : nat) (write : bool) : Prop :=
  is_u32 va /\ forall i, 0 <= i < Z.of_nat n -> accessible s c (u32 (va + i)) write.

Lemma u32_add a b : u32 (u32 a + b) = u32 (a + b).
Proof. unfold u32. by rewrite Zplus_mod_idemp_l. Qed.

Lemma words_ok_cons s c va n w : words_ok s c va (S n) w -> accessible s c va w /\ words_ok s c (u32 (va + 4)) n w.
Proof.
  intros (Hu & Hm & H). split.
  - specialize (H 0 ltac:(lia)). by rewrite Z.mul_0_r, Z.add_0_r, u32_small in H.
  - split; [apply u32_range|]. split; [unfold u32; dlia|]. intros i Hi. rewrite u32_add.
    replace (va + 4 + 4 * i) with (va + 4 * (i + 1)) by lia. apply H. lia.
Qed.

Lemma bytes_ok_cons s c va n w : bytes_ok s c va (S n) w -> accessible s c va w /\ bytes_ok s c (u32 (va + 1)) n w.
Proof.
  intros (Hu & H). split.
  - specialize (H 0 ltac:(lia)). by rewrite Z.add_0_r, u32_small in H.
  - split; [apply u32_range|]. intros i Hi. rewrite u32_add.
    replace (va + 1 + i) with (va + (i + 1)) by lia. apply H. lia.
Qed.

Lemma words_ok_step L ext fl sl c s s' va n w : user_step L ext fl sl c s s' -> words_ok s c va n w -> words_ok s' c va n w.
Proof. intros U (H1 & H2 & H3). split; [done|]. split; [done|]. intros i Hi. by apply (us_acc U), H3. Qed.

Lemma bytes_ok_step L ext fl sl c s s' va n w : user_step L ext fl sl c s s' -> bytes_ok s c va n w -> bytes_ok s' c va n w.
Proof. intros U (H1 & H2). split; [done|]. intros i Hi. by apply (us_acc U), H2. Qed.

Section KernelAccess.
Context (L : list Z) (ext : Z -> Z) (fl sl : list Z) (c : Z).
Notation stepped s := (fun _ s' => user_step L ext fl sl c s s').

(** [m] may follow any access. *)
Lemma ends_after {A B} (m : K A) (k : A -> K B) s : ends ext (m s) (stepped s) ->
  (forall a s1 pfl1, user_step L ext fl sl c s s1 -> on_cpu L ext fl pfl1 sl c s1 -> ends ext (k a s1) (stepped s1)) ->
  ends ext ((m ≫= k) s) (stepped s).
Proof using.
  intros H HK. apply (ends_seq _ _ _ _ (stepped s)); [exact H|]. intros a s1 U. destruct (us_cpu U) as (pfl1 & O1).
  apply (ends_mono _ _ (stepped s1)); [by apply (HK a s1 pfl1)|]. intros _ s2 U2. by apply (user_step_trans _ _ _ _ _ _ s1).
Qed.

Lemma ends_here {A} (a : A) pfl s : on_cpu L ext fl pfl sl c s -> ends ext ((mret a : K A) s) (stepped s).
Proof using. intros O. by apply (user_step_refl L ext fl sl c pfl). Qed.

Lemma translate_ends pfl s va w : on_cpu L ext fl pfl sl c s -> accessible s c va w ->
  ends ext (translate va w s) (fun p s' => user_step L ext fl sl c s s' /\ user_page (dirs s' L) ext (phys (pm s')) p).
Proof using.
  intros O [Hp Hw]. pose proof (passive_user _ Hp) as Hva. unfold translate.
  assert (Hr : (va <? 0) || (UTOP <=? va) = false)
    by (unfold user_va in Hva; apply orb_false_iff; split; [apply Z.ltb_ge|apply Z.leb_gt]; lia).
  rewrite Hr, bind_gets. cbv beta. rewrite bind_gets. cbv beta.
  apply (ends_seq _ _ _ _ (fun e s' => user_step L ext fl sl c s s' /\ mapping s' c va = Some e)).
  - destruct (tlb (pm s) !! entryhi (hw_asid s) va) as [e|] eqn:Et.
    + split; [by apply (user_step_refl L ext fl sl c pfl)|].
      apply (k_coh _ _ _ _ _ (ko_inv (oc_ok O)) (dir_of s c) (hw_asid s)); [|done|done].
      apply elem_of_spaces. exists c. split; [exact (oc_live O)|]. split; [done|exact (oc_asid O)].
    + rewrite (bind_val _ _ _ true s).
      2:{ unfold no_pending. rewrite bind_gets. cbv beta. rewrite (oc_cur O). unfold get_env, gets.
          by rewrite (ef_quiet (ko_env (oc_ok O) c)). }
      destruct Hp as [Hp1 Hp2]. rewrite (proj2 (Z.leb_le UTEMP va)) by lia. cbn [andb].
      by apply (refill_ends L ext fl sl c pfl).
  - intros e s' [U Hm].
    assert (Hd : w && negb (hasbits e PTE_D) = false).
    { destruct w; [|done]. cbn. apply negb_false_iff.
      by apply (proj2 (us_acc U va true (conj Hp Hw)) eq_refl). }
    rewrite Hd. split; [done|]. destruct (us_cpu U) as (pfl1 & O1).
    apply (ko_data (oc_ok O1) c va); [exact (oc_live O1)|done|done].
Qed.

Lemma uload_ends pfl s va : on_cpu L ext fl pfl sl c s -> va mod 4 = 0 -> accessible s c va false ->
  ends ext (uload va s) (stepped s).
Proof using.
  intros O Hm Ha. unfold uload. rewrite Hm. cbn [Z.eqb negb].
  apply (ends_seq _ _ _ _ _ _ (translate_ends pfl s va false O Ha)). by intros p s' [U _].
Qed.

Lemma uload_byte_ends pfl s va : on_cpu L ext fl pfl sl c s -> accessible s c va false -> ends ext (uload_byte va s) (stepped s).
Proof using.
  intros O Ha. apply (ends_seq _ _ _ _ _ _ (translate_ends pfl s va false O Ha)). by intros p s' [U _].
Qed.

Lemma memory_words pfl s p i : on_cpu L ext fl pfl sl c s -> is_u32 (word (phys (pm s)) p i).
Proof using. intros O. apply (wf_words _ _ _ (inv_mem _ _ _ _ (k_pm _ _ _ _ _ (ko_inv (oc_ok O))))). Qed.

Lemma ustore_ends pfl s va v : on_cpu L ext fl pfl sl c s -> va mod 4 = 0 -> accessible s c va true ->
  ends ext (ustore va v s) (stepped s).
Proof using.
  intros O Hm Ha. unfold ustore. rewrite Hm. cbn [Z.eqb negb].
  apply (ends_seq _ _ _ _ _ _ (translate_ends pfl s va true O Ha)). intros p s' [U Hp].
  destruct (us_cpu U) as (pfl1 & O1). apply (user_step_trans _ _ _ _ _ _ s'); [exact U|].
  apply (store_step L ext fl sl c pfl1 s' p); [done|done|..]; intros *.
  - intros Hne. rewrite word_upd, decide_False; [done|]. by intros [<- _].
  - rewrite word_upd. case_decide; [apply u32_range|by apply (memory_words pfl1)].
Qed.

Lemma ustore_byte_ends pfl s va b : on_cpu L ext fl pfl sl c s -> accessible s c va true -> ends ext (ustore_byte va b s) (stepped s).
Proof using.
  intros O Ha. apply (ends_seq _ _ _ _ _ _ (translate_ends pfl s va true O Ha)). intros p s' [U Hp].
  destruct (us_cpu U) as (pfl1 & O1). apply (user_step_trans _ _ _ _ _ _ s'); [exact U|].
  apply (store_step L ext fl sl c pfl1 s' p); [done|done|..]; intros *; unfold set_page_byte; rewrite word_upd.
  - intros Hne. rewrite decide_False; [done|]. by intros [<- _].
  - case_decide; [|by apply (memory_words pfl1)]. apply set_word_byte_u32; [by apply (memory_words pfl1)|].
    pose proof (Z.mod_pos_bound (va mod 4096) 4). lia.
Qed.

(** Runs of words and bytes. *)
Lemma uload_words_ends n pfl s va : on_cpu L ext fl pfl sl c s -> words_ok s c va n false ->
  ends ext (uload_words va n s) (stepped s).
Proof using.
  revert pfl s va. induction n as [|n IH]; intros pfl s va O W; [by apply (ends_here _ pfl)|].
  pose proof (proj1 (proj2 W)) as Hm. apply words_ok_cons in W as [Ha W]. cbn [uload_words].
  apply ends_after; [by apply (uload_ends pfl)|]. intros w s1 pfl1 U1 O1.
  apply ends_after; [by apply (IH pfl1), (words_ok_step _ _ _ _ _ _ _ _ _ _ U1)|]. intros ws s2 pfl2 U2 O2. by apply (ends_here _ pfl2).
Qed.

Lemma ustore_words_ends ws pfl s va : on_cpu L ext fl pfl sl c s -> words_ok s c va (length ws) true ->
  ends ext (ustore_words va ws s) (stepped s).
Proof using.
  revert pfl s va. induction ws as [|w ws IH]; intros pfl s va O W; [by apply (ends_here _ pfl)|].
  pose proof (proj1 (proj2 W)) as Hm. apply words_ok_cons in W as [Ha W]. cbn [ustore_words].
  apply ends_after; [by apply (ustore_ends pfl)|]. intros _ s1 pfl1 U1 O1.
  by apply (IH pfl1), (words_ok_step _ _ _ _ _ _ _ _ _ _ U1).
Qed.

Lemma uload_bytes_ends n pfl s va : on_cpu L ext fl pfl sl c s -> bytes_ok s c va n false ->
  ends ext (uload_bytes va n s) (stepped s).
Proof using.
  revert pfl s va. induction n as [|n IH]; intros pfl s va O W; [by apply (ends_here _ pfl)|].
  apply bytes_ok_cons in W as [Ha W]. cbn [uload_bytes].
  apply ends_after; [by apply (uload_byte_ends pfl)|]. intros w s1 pfl1 U1 O1.
  apply ends_after; [by apply (IH pfl1), (bytes_ok_step _ _ _ _ _ _ _ _ _ _ U1)|]. intros ws s2 pfl2 U2 O2. by apply (ends_here _ pfl2).
Qed.

Lemma ustore_bytes_ends bs pfl s va : on_cpu L ext fl pfl sl c s -> bytes_ok s c va (length bs) true ->
  ends ext (ustore_bytes va bs s) (stepped s).
Proof using.
  revert pfl s va. induction bs as [|b bs IH]; intros pfl s va O W; [by apply (ends_here _ pfl)|].
  apply bytes_ok_cons in W as [Ha W]. cbn [ustore_bytes].
  apply ends_after; [by apply (ustore_byte_ends pfl)|]. intros _ s1 pfl1 U1 O1.
  by apply (IH pfl1), (bytes_ok_step _ _ _ _ _ _ _ _ _ _ U1).
Qed.
End KernelAccess.

(** ** Handing over the processor *)

(** [schedule] is called: the queue holds the runnable environments, and the current one
    even if it has just been stopped. *)
Record handing (L : list Z) (ext : Z -> Z) (fl pfl sl : list Z) (s : kstate) : Prop := {
  ha_ok : kernel_ok L ext fl pfl s;
  ha_queue : TAILQ.is_tailq (env_sched_list s) sl;
  ha_member : forall i, i ∈ sl <-> env_status (env s i) = ENV_RUNNABLE \/ curenv s = Some i }.

Lemma on_cpu_handing L ext fl pfl sl c s : on_cpu L ext fl pfl sl c s -> handing L ext fl pfl sl s.
Proof.
  intros [Ok [Hq Hs] Hc Hr _ _]. split; [done|done|]. intros i. rewrite Hs, Hc. split; [by left|]. by intros [?|[= <-] ].
Qed.

Lemma env_switch e s i : exists tf r, env (switch e s) i = with_env_runs r (with_env_tf tf (env s i)).
Proof.
  assert (H1 : exists tf, env (save_context s) i = with_env_tf tf (env s i)).
  { assert (Hid : env s i = with_env_tf (env_tf (env s i)) (env s i)) by by destruct (env s i).
    unfold save_context. destruct (curenv s) as [c|]; [|by eexists]. rewrite env_upd.
    destruct (decide (c = i)) as [<-|]; by eexists. }
  destruct H1 as (tf & H1).
  assert (Hid : env (save_context s) i = with_env_runs (env_runs (env (save_context s) i)) (env (save_context s) i))
    by by destruct (env (save_context s) i).
  exists tf. unfold switch. set (s1 := set_curenv (Some e) (save_context s)).
  change (env (set_hw_asid _ (set_pm _ ?x)) i) with (env x i). rewrite env_upd.
  destruct (decide (e = i)) as [<-|]; change (env s1) with (env (save_context s)); [by eexists; rewrite H1|].
  rewrite Hid, H1. by eexists.
Qed.

Lemma switch_parts e s : exists v, switch e s =
  set_hw_asid (env_asid (env s e)) (set_pm (set_cur_pgdir (env_pgdir (env s e)) (pm s)) (set_curenv (Some e) (set_envs v s))).
Proof.
  destruct (switch_env e s e) as ((_ & _ & _ & Hg & Ha) & _).
  assert (Hs : exists v, save_context s = set_envs v s).
  { unfold save_context. destruct (curenv s); [by eexists|]. exists (envs s). by destruct s. }
  destruct Hs as (v & Hs).
  assert (E : exists w, switch e s = set_hw_asid (env_asid (env (switch e s) e))
    (set_pm (set_cur_pgdir (env_pgdir (env (switch e s) e)) (pm s)) (set_curenv (Some e) (set_envs w s)))).
  { unfold switch at 1. rewrite Hs. eexists. unfold switch. rewrite Hs. reflexivity. }
  rewrite Hg, Ha in E. exact E.
Qed.

(** The fields [env_fine] looks at. *)
Lemma env_fine_ext P v w : env_status w = env_status v -> env_ipc_recving w = env_ipc_recving v ->
  env_ipc_dstva w = env_ipc_dstva v -> signoHeader w = signoHeader v -> sighandler_table w = sighandler_table v ->
  env_fine P v -> env_fine P w.
Proof. intros E1 E2 E3 E4 E5 [? ? ? ? ?]. split; by rewrite ?E1, ?E2, ?E3, ?E4, ?E5. Qed.

Lemma switch_ok L ext fl pfl sl e s n q : kernel_ok L ext fl pfl s -> TAILQ.is_tailq q sl ->
  (forall i, i ∈ sl <-> env_status (env s i) = ENV_RUNNABLE) -> env_status (env s e) = ENV_RUNNABLE ->
  on_cpu L ext fl pfl sl e (switch e (set_sched_count n (set_env_sched_list q s))).
Proof.
  intros Ok Hq Hm Hr. set (s0 := set_sched_count n (set_env_sched_list q s)).
  destruct (switch_rest e s0) as (H1 & H2 & _ & _ & H5 & H6 & _).
  assert (Hst : forall i, env_status (env (switch e s0) i) = env_status (env s i))
    by (intros i; by destruct (env_switch e s0 i) as (tf & r & ->)).
  destruct (switch_env e s0 e) as ((_ & _ & _ & Hg & Ha) & _). destruct (switch_parts e s0) as (w & Hsw).
  split; [| |exact H1|by rewrite Hst|by rewrite H6, Hg|by rewrite H5, Ha].
  - apply (kernel_ok_frame L ext fl pfl s _ (env_pgdir (env s e))); [by rewrite Hsw..| | |done].
    + intros i. by destruct (env_switch e s0 i) as (tf & r & ->).
    + intros i. destruct (env_switch e s0 i) as (tf & r & ->). by apply (env_fine_ext _ (env s i)), Ok.
  - split; [by rewrite H2|]. intros i. by rewrite Hst.
Qed.

Lemma requeue_member s sl i : (forall i, i ∈ sl <-> env_status (env s i) = ENV_RUNNABLE \/ curenv s = Some i) ->
  i ∈ requeue s (curenv s) sl <-> env_status (env s i) = ENV_RUNNABLE.
Proof.
  intros Hm. pose proof (Hm i) as Hi. unfold requeue, is_runnable. destruct (curenv s) as [c|]; [|rewrite Hi; naive_solver].
  rewrite elem_of_app, elem_of_without, Hi. destruct (Z.eqb_spec (env_status (env s c)) ENV_RUNNABLE) as [E|E].
  - rewrite list_elem_of_singleton. destruct (decide (i = c)) as [->|]; [tauto|]. split; [|tauto]. intros [ [_ [H|H] ]|H]; [done|by injection H as <-|done].
  - split; [intros [ [Hne [H|H] ]|H]; [done|by injection H as ->|by apply elem_of_nil in H]|]. intros H. left. split; [by intros ->|by left].
Qed.

Lemma schedule_ends L ext fl pfl sl s yield Q : handing L ext fl pfl sl s -> ends ext (schedule yield s) Q.
Proof.
  intros [Ok Hq Hm]. destruct (keeps yield s) eqn:Hk.
  - destruct (curenv s) as [c|] eqn:Ec; [|unfold keeps in Hk; by rewrite Ec in Hk].
    rewrite (schedule_keep yield s c Ec Hk).
    assert (Hr : env_status (env s c) = ENV_RUNNABLE).
    { unfold keeps in Hk. rewrite Ec in Hk. apply andb_true_iff in Hk as [_ Hk]. by apply Z.eqb_eq in Hk. }
    exists L, fl, pfl, sl.
    replace (set_sched_count (dec_count (sched_count s)) s)
      with (set_sched_count (dec_count (sched_count s)) (set_env_sched_list (env_sched_list s) s)) by by destruct s.
    apply switch_ok; try done. intros i. rewrite Hm. split; [|by left]. by intros [?|[= <-] ].
  - destruct (schedule_switch yield s sl Hq) as (q & Hq' & E); [|done|].
    { intros c Hc. apply Hm. by right. }
    rewrite E. pose proof (fun i => requeue_member s sl i Hm) as HM. destruct (requeue s (curenv s) sl) as [|e l] eqn:ER; [by left|].
    assert (Hr : env_status (env s e) = ENV_RUNNABLE) by (apply HM; left).
    unfold is_runnable. rewrite (proj2 (Z.eqb_eq _ _) Hr). exists L, fl, pfl, (e :: l). by apply switch_ok.
Qed.
