(* ===== verification/KernelCalls.v ===== *)
(** * The system calls keep the invariant of the kernel

    One lemma per call, each from a state in which user mode runs, and the table of system
    calls, [syscall_ends]. What the kernel leaves to its callers is stated as [sane]. *)

From Stdlib Require Import ZArith Lia.
From stdpp Require Import base numbers list gmap strings.
From S2P Require Import Prelude Queue Mmu Pmap PmapInv PmapOps PmapInsert PmapThms.
From S2P Require Import KState Elf Signo Env Sched TlbEx Signal Syscall Traps EnvThms SchedThms PmapFree EnvInv EnvSpec MemThms TlbThms IpcThms SysThms.
From S2P Require Import Str StrThms Wp ForkAccess Kernel.
Import LIST.

(** ** Destroying an environment *)
Lemma kinv_perm L L' ext fl pfl s : L ≡ₚ L' -> kinv L ext fl pfl s -> kinv L' ext fl pfl s.
Proof.
  intros HP I. assert (Hin : forall i, i ∈ L' <-> i ∈ L) by (intros i; by rewrite HP).
  assert (HD : dirs s L ≡ₚ dirs s L') by by apply Permutation_map.
  split; try apply I; try done.
  - intros i. rewrite Hin. apply I.
  - intros i Hi. rewrite Hin. by apply I.
  - intros i Hi. apply I. by apply Hin.
  - rewrite <- HD. apply I.
  - intros i Hi. apply I. by apply Hin.
  - intros i j Hi Hj. apply I; by apply Hin.
  - intros d a va e (i & Hi & -> & ->)%elem_of_spaces. apply (k_coh _ _ _ _ _ I).
    apply elem_of_spaces. exists i. split; [by apply Hin|done].
Qed.

Lemma without_perm e L : NoDup L -> e ∈ L -> L ≡ₚ e :: without e L.
Proof.
  intros N (l1 & l2 & ->)%list_elem_of_split. rewrite without_split by done. by rewrite Permutation_middle.
Qed.

Section Entries.
Context (L : list Z) (ext : Z -> Z) (fl pfl sl : list Z) (c : Z) (s : kstate) (O : on_cpu L ext fl pfl sl c s).
Notation back := (fun _ s' => user_mode ext c s').

Let HK : kernel_ok L ext fl pfl s := oc_ok O.
Let Hc : curenv s = Some c := oc_cur O.
Let HcL : c ∈ L := oc_live O.

Lemma back_here {A} (a : A) : ends ext ((mret a : K A) s) back.
Proof using O. by exists L, fl, pfl, sl. Qed.

Lemma resolve_ends {A} envid cp (err : Z -> K A) (k : option Z -> K A) Q : is_u32 envid ->
  (forall r, ends ext (err r s) Q) ->
  (forall e, e ∈ L -> resolve s envid cp = Some e -> ends ext (k (Some e) s) Q) ->
  ends ext ((r ← envid2env envid cp; match r with Err r => err r | Ok o => k o end) s) Q.
Proof using O.
  intros Hu He Hk. rewrite (bind_val _ _ _ _ _ (envid2env_resolve s c envid cp Hc)).
  destruct (resolve s envid cp) as [e|] eqn:Hr; [|apply He]. apply Hk; [|done].
  exact (resolve_live L ext fl pfl s c envid cp e (ko_inv HK) (kernel_ok_free HK) Hc HcL Hu Hr).
Qed.

(** A change of the fields of one environment that neither the memory nor the scheduler use. *)
Lemma on_cpu_put e f : env_pgdir (f (env s e)) = env_pgdir (env s e) -> env_asid (f (env s e)) = env_asid (env s e) ->
  env_status (f (env s e)) = env_status (env s e) -> env_fine (e ∈ L) (f (env s e)) ->
  on_cpu L ext fl pfl sl c (put_env e f s).
Proof using O.
  intros H1 H2 H3 HF. destruct (oc_queue O) as [Hq Hs].
  assert (Hst : forall i, env_status (env (put_env e f s) i) = env_status (env s i))
    by (intros i; rewrite env_put; by destruct (decide (e = i)) as [<-|]).
  assert (Hg : env_pgdir (env (put_env e f s) c) = env_pgdir (env s c) /\ env_asid (env (put_env e f s) c) = env_asid (env s c))
    by (rewrite env_put; by destruct (decide (e = c)) as [<-|]).
  destruct Hg as [Hg Ha]. split; [by apply kernel_ok_put|split; [done|]|done|rewrite Hst; exact (oc_run O)|rewrite Hg; exact (oc_dir O)|rewrite Ha; exact (oc_asid O)].
  intros i. by rewrite Hst.
Qed.

Lemma fine e : env_fine (e ∈ L) (env s e).
Proof using O. exact (ko_env HK e). Qed.

(** *** The memory calls *)
Lemma memory_ends {A} (a : A) pfl' s' e va : memory_step L ext fl pfl' s s' -> same_mappings L e va s s' ->
  same_data L pfl s s' ->
  (forall pte, mapping s' e va = Some pte -> user_page (dirs s L) ext (phys (pm s')) (PPN pte)) ->
  ends ext (Val a s') back.
Proof using O.
  intros M HS HD Hn. exists L, fl, pfl', sl. apply (on_cpu_memory L ext fl pfl pfl' sl c s); [done| |exact (ms_only _ _ _ _ _ _ M)|exact (ms_cur _ _ _ _ _ _ M)].
  by apply (kernel_ok_memory L ext fl pfl pfl' s s' e va).
Qed.

Lemma mapped_data e va pte pfl' s' : memory_step L ext fl pfl' s s' -> same_data L pfl s s' -> e ∈ L -> user_va va ->
  mapping s e va = Some pte -> user_page (dirs s L) ext (phys (pm s')) (PPN pte).
Proof using O.
  intros M HD He Hva Hm. destruct (ko_data HK e va pte He Hva Hm) as [Hd Hex]. split; [|done]. apply HD; [done|].
  by apply (mapped_page L ext fl pfl s (ko_inv HK) e va He Hva pte).
Qed.

Lemma mem_alloc_ends envid va perm : is_u32 envid -> 0 <= perm < 4096 ->
  ends ext (sys_mem_alloc envid va perm s) back.
Proof using O.
  intros Hu Hperm. destruct (is_illegal_va va) eqn:Hva; [unfold sys_mem_alloc; rewrite Hva; apply back_here|].
  apply legal_user in Hva as Hv. destruct (resolve s envid true) as [e|] eqn:Er.
  2:{ unfold sys_mem_alloc. rewrite Hva, (bind_val _ _ _ _ _ (envid2env_resolve s c envid true Hc)), Er. apply back_here. }
  rewrite (sys_mem_alloc_at s c envid e va perm Hc Hva Er).
  pose proof (resolve_live L ext fl pfl s c envid true e (ko_inv HK) (kernel_ok_free HK) Hc HcL Hu Er) as He.
  pose proof (ko_inv HK) as I.
  assert (Hcase : pfl = [] \/ exists p l, pfl = p :: l) by (clear; destruct pfl; [by left|right; by do 2 eexists]).
  destruct Hcase as [Ep|(p & pfl1 & Ep)]; pose proof I as J; rewrite Ep in J.
  { rewrite (alloc_at_none L ext fl s e va perm J). apply back_here. }
  destruct (alloc_at_run L ext fl p pfl1 s e va perm J He Hv Hperm) as (r & s' & pfl' & E & M & HS & HD & Hp & Hres).
  rewrite E. assert (Hdirs : dirs s' L = dirs s L) by by rewrite (ms_only _ _ _ _ _ _ M).
  rewrite <- Ep in HD. apply (memory_ends r pfl' s' e va M HS HD). intros pte Hm.
  destruct Hres as [(_ & Hm' & _ & Hr)|(_ & _ & Hm' & _)].
  - rewrite Hm' in Hm. injection Hm as <-. pose proof (wf_npage _ _ _ (inv_mem _ _ _ _ (k_pm _ _ _ _ _ I))) as Hn.
    pose proof (inv_fl_range _ _ _ _ (k_pm _ _ _ _ _ I) p ltac:(rewrite Ep; left)) as Hrg.
    assert (HP : PPN (mk_pte p perm) = p) by (apply PPN_mk_pte; lia). rewrite <- Hdirs.
    apply (counted_user _ ext pfl' (pm s') (dir_of s' e) va); [apply M|by apply elem_of_dirs|done|exact Hm'|by rewrite HP].
  - rewrite Hm' in Hm. by apply (mapped_data e va pte pfl').
Qed.

Lemma map_at_ends {A} (f : Z -> A) src srcva dst dstva perm : src ∈ L -> dst ∈ L -> user_va srcva -> user_va dstva ->
  0 <= perm < 4096 -> (forall p, pp_ref (pm s) p < 65535) ->
  exists r s', map_at src srcva dst dstva perm s = Val r s' /\ ends ext (Val (f r) s') back /\
    (mapping s src srcva = None -> s' = s).
Proof using O.
  intros Hs Hd Hv1 Hv2 Hperm H16. pose proof (ko_inv HK) as I.
  pose proof (map_at_run L ext fl pfl s src srcva dst dstva perm I Hs Hd Hv1 Hv2 Hperm H16) as H.
  destruct (mapping s src srcva) as [pte|] eqn:Em.
  2:{ do 2 eexists. split; [exact H|]. split; [apply back_here|done]. }
  destruct H as (Hp & r & s' & pfl' & E & M & HS & HD & Hres). exists r, s'. split; [exact E|]. split; [|done].
  apply (memory_ends (f r) pfl' s' dst dstva M HS HD). intros pte' Hm.
  destruct Hres as [(_ & Hm' & HP)|(_ & _ & Hm')]; rewrite Hm' in Hm.
  - injection Hm as <-. rewrite HP. by apply (mapped_data src srcva pte pfl').
  - by apply (mapped_data dst dstva pte' pfl').
Qed.

Lemma mem_map_ends srcid srcva dstid dstva perm : is_u32 srcid -> is_u32 dstid -> 0 <= perm < 4096 ->
  (forall p, pp_ref (pm s) p < 65535) -> ends ext (sys_mem_map srcid srcva dstid dstva perm s) back.
Proof using O.
  intros Hu1 Hu2 Hperm H16. pose proof (fun i cp e u => resolve_live L ext fl pfl s c i cp e (ko_inv HK) (kernel_ok_free HK) Hc HcL u) as RL.
  destruct (is_illegal_va srcva || is_illegal_va dstva) eqn:Hva; [unfold sys_mem_map; rewrite Hva; apply back_here|].
  apply orb_false_iff in Hva as [Hva1 Hva2].
  destruct (resolve s srcid true) as [src|] eqn:E1; [destruct (resolve s dstid true) as [dst|] eqn:E2|].
  - rewrite (sys_mem_map_at s c srcid src srcva dstid dst dstva perm Hc Hva1 Hva2 E1 E2).
    apply legal_user in Hva1, Hva2. apply RL in E1, E2; [|done..].
    destruct (map_at_ends (fun r => r) src srcva dst dstva perm E1 E2 Hva1 Hva2 Hperm H16) as (r & s' & -> & H & _). exact H.
  - unfold sys_mem_map. rewrite Hva1, Hva2. cbn [orb].
    rewrite (bind_val _ _ _ _ _ (envid2env_resolve s c srcid true Hc)), E1.
    rewrite (bind_val _ _ _ _ _ (envid2env_resolve s c dstid true Hc)), E2. apply back_here.
  - unfold sys_mem_map. rewrite Hva1, Hva2. cbn [orb].
    rewrite (bind_val _ _ _ _ _ (envid2env_resolve s c srcid true Hc)), E1. apply back_here.
Qed.

Lemma mem_unmap_ends envid va : is_u32 envid -> ends ext (sys_mem_unmap envid va s) back.
Proof using O.
  intros Hu. destruct (is_illegal_va va) eqn:Hva; [unfold sys_mem_unmap; rewrite Hva; apply back_here|].
  destruct (resolve s envid true) as [e|] eqn:Er.
  2:{ unfold sys_mem_unmap. rewrite Hva, (bind_val _ _ _ _ _ (envid2env_resolve s c envid true Hc)), Er. apply back_here. }
  rewrite (sys_mem_unmap_at s c envid e va Hc Hva Er).
  pose proof (resolve_live L ext fl pfl s c envid true e (ko_inv HK) (kernel_ok_free HK) Hc HcL Hu Er) as He.
  destruct (unmap_at_run L ext fl pfl s e va (ko_inv HK) He (legal_user va Hva)) as (s' & pfl' & E & M & HS & HD & Hm & _).
  rewrite E. apply (memory_ends 0 pfl' s' e va M HS HD). intros pte. by rewrite Hm.
Qed.
End Entries.

(** ** Changes outside memory and environments *)
Lemma kernel_ok_same L ext fl pfl s s' : env_free_list s' = env_free_list s -> asid_bitmap s' = asid_bitmap s ->
  base_pgdir s' = base_pgdir s -> mkenvid_i s' = mkenvid_i s -> pm s' = pm s -> envs s' = envs s ->
  kernel_ok L ext fl pfl s -> kernel_ok L ext fl pfl s'.
Proof.
  intros E1 E2 E3 E4 E5 E6 O. assert (HE : forall i, env s' i = env s i) by (intros i; unfold env; by rewrite E6).
  apply (kernel_ok_frame L ext fl pfl s s' (cur_pgdir (pm s))); try done; [by rewrite E5, <- same_cur|..].
  - intros i. by rewrite HE.
  - intros i. rewrite HE. exact (ko_env O i).
Qed.

(** The frame, the console and the devices: [f] leaves what the invariant looks at alone. *)
Definition outside (f : kstate -> kstate) : Prop := forall s,
  env_free_list (f s) = env_free_list s /\ asid_bitmap (f s) = asid_bitmap s /\ base_pgdir (f s) = base_pgdir s /\
  mkenvid_i (f s) = mkenvid_i s /\ pm (f s) = pm s /\ envs (f s) = envs s /\ env_sched_list (f s) = env_sched_list s /\
  curenv (f s) = curenv s /\ hw_asid (f s) = hw_asid s.

Lemma on_cpu_outside L ext fl pfl sl c s f : outside f -> on_cpu L ext fl pfl sl c s -> on_cpu L ext fl pfl sl c (f s).
Proof.
  intros Hf [Ok [Q1 Q2] Hc Hr Hd Ha]. destruct (Hf s) as (E1 & E2 & E3 & E4 & E5 & E6 & E7 & E8 & E9).
  assert (HE : forall i, env (f s) i = env s i) by (intros i; unfold env; by rewrite E6).
  split; rewrite ?HE, ?E5, ?E8, ?E9; try done.
  - by apply (kernel_ok_same L ext fl pfl s).
  - split; [by rewrite E7|]. intros i. by rewrite HE.
Qed.

Lemma outside_ktf g : outside (fun s => set_ktf (g s) s).
Proof. done. Qed.
Lemma outside_cons g : outside (fun s => set_cons_out (g s) s).
Proof. done. Qed.
Lemma outside_in g : outside (fun s => set_cons_in (g s) s).
Proof. done. Qed.
Lemma outside_dev g : outside (fun s => set_dev_out (g s) s).
Proof. done. Qed.

(** ** Messages *)
Section Messages.
Context (L : list Z) (ext : Z -> Z) (fl pfl sl : list Z) (c : Z) (s : kstate) (O : on_cpu L ext fl pfl sl c s).
Notation back := (fun _ s' => user_mode ext c s').

Lemma message_on_cpu e value perm : e ∈ L -> env_ipc_recving (env s e) <> 0 ->
  on_cpu L ext fl pfl (sl ++ [e]) c (message_state e value (env_id (env s c)) perm s) /\ user_va (env_ipc_dstva (env s e)).
Proof using O.
  intros He Hrecv. destruct (ef_recv (ko_env (oc_ok O) e) Hrecv) as [Hst Hdst]. split; [|done].
  destruct (oc_queue O) as [Q1 Q2]. set (s1 := message_state e value (env_id (env s c)) perm s).
  pose proof (fun i => message_state_env e value (env_id (env s c)) perm s i) as HE. fold s1 in HE.
  assert (Hne : e <> c) by (intros ->; rewrite (oc_run O) in Hst; discriminate Hst).
  assert (HEc : env s1 c = env s c) by by rewrite HE, decide_False.
  split; [| |exact (oc_cur O)|rewrite HEc; exact (oc_run O)|rewrite HEc; exact (oc_dir O)|rewrite HEc; exact (oc_asid O)].
  - apply (kernel_ok_same L ext fl pfl (put_env e (with_message value (env_id (env s c)) perm) s)); try done.
    apply kernel_ok_put; [done|done| |exact (oc_ok O)]. destruct (ko_env (oc_ok O) e) as [F1 F2 F3 F4 F5].
    split; try done. by left.
  - assert (Hnin : e ∉ sl) by (rewrite Q2, Hst; done).
    split; [by apply (TAILQ.insert_tail_refines _ sl)|]. intros i. rewrite elem_of_app, list_elem_of_singleton, Q2, HE.
    destruct (decide (e = i)) as [<-|]; [|naive_solver]. cbn. rewrite Hst. split; [by intros|by right].
Qed.

Lemma try_send_ends envid value srcva perm : is_u32 envid -> 0 <= perm < 4096 -> (forall p, pp_ref (pm s) p < 65535) ->
  ends ext (sys_ipc_try_send envid value srcva perm s) back.
Proof using O.
  intros Hu Hperm H16. pose proof (oc_cur O) as Hc. pose proof (oc_live O) as HcL.
  destruct (negb (srcva =? 0) && is_illegal_va srcva) eqn:Hv; [unfold sys_ipc_try_send; rewrite Hv; by apply (back_here L ext fl pfl sl)|].
  destruct (resolve s envid false) as [e|] eqn:Hr.
  2:{ unfold sys_ipc_try_send. rewrite Hv, (bind_val _ _ _ _ _ (envid2env_resolve s c envid false Hc)), Hr. by apply (back_here L ext fl pfl sl). }
  pose proof (resolve_live L ext fl pfl s c envid false e (ko_inv (oc_ok O)) (kernel_ok_free (oc_ok O)) Hc HcL Hu Hr) as He.
  destruct (Z.eqb_spec (env_ipc_recving (env s e)) 0) as [H0|H0].
  { unfold sys_ipc_try_send. rewrite Hv, (bind_val _ _ _ _ _ (envid2env_resolve s c envid false Hc)), Hr. cbn [env_deref lift_opt].
    mstep. unfold get_env. rewrite bind_gets. cbv beta. rewrite H0. by apply (back_here L ext fl pfl sl). }
  rewrite (try_send_message envid value srcva perm s c e Hc Hv Hr H0).
  destruct (message_on_cpu e value perm He H0) as [O1 Hdst]. set (s1 := message_state _ _ _ _ _) in *.
  destruct (Z.eqb_spec srcva 0) as [|Hz]; [by apply (back_here L ext fl pfl (sl ++ [e]))|]. cbn [negb andb] in *. apply legal_user in Hv.
  assert (Hd1 : env_ipc_dstva (env s1 e) = env_ipc_dstva (env s e)) by (unfold s1; by rewrite message_state_env, decide_True).
  rewrite <- Hd1 in Hdst.
  destruct (map_at_ends L ext fl pfl (sl ++ [e]) c s1 O1 (fun _ => 0) c srcva e _ perm HcL He Hv Hdst Hperm H16) as (r & s' & E & B & Hnone).
  destruct (env_lookup L ext fl pfl s1 (ko_inv (oc_ok O1)) c srcva HcL Hv) as (o & El & Ho).
  unfold map_at, get_env in E. rewrite bind_gets in E. cbv beta in E. rewrite (bind_val _ _ _ _ _ El) in E.
  unfold get_env. rewrite bind_gets. cbv beta. rewrite (bind_val _ _ _ _ _ El).
  destruct o as [[p a]|]; [|by apply (back_here L ext fl pfl (sl ++ [e]))].
  do 2 (rewrite bind_gets in E; cbv beta in E). do 3 (rewrite bind_gets; cbv beta). rewrite (bind_val _ _ _ _ _ E). exact B.
Qed.

Lemma ipc_recv_ends dstva : ends ext (sys_ipc_recv dstva s) back.
Proof using O.
  unfold sys_ipc_recv. destruct (negb (dstva =? 0) && is_illegal_va dstva) eqn:Hv; [by apply (back_here L ext fl pfl sl)|].
  assert (Hdst : user_va dstva).
  { destruct (Z.eqb_spec dstva 0) as [E0|]; [rewrite E0; by vm_compute|]. by apply legal_user. }
  unfold curenv_deref. rewrite bind_bind, bind_gets. cbv beta. rewrite (oc_cur O). cbn [lift_opt]. mstep.
  rewrite !bind_upd_env, bind_modify, !put_put.
  set (f := fun v => with_env_status _ _). set (s1 := set_ktf _ _).
  apply (ends_seq _ _ _ _ (fun _ _ => False)); [|done]. apply (schedule_ends L ext fl pfl sl).
  pose proof (env_put c f s) as HE. destruct (oc_queue O) as [Q1 Q2]. destruct (ko_env (oc_ok O) c) as [F1 F2 F3 F4 F5].
  pose proof (oc_live O) as HcL. split; [|done|].
  - apply (kernel_ok_same L ext fl pfl (put_env c f s)); try done.
    apply kernel_ok_put; [done|done| |exact (oc_ok O)]. split; try done. by right.
  - intros i. change (env s1 i) with (env (put_env c f s) i). change (curenv s1) with (curenv s). rewrite Q2, HE, (oc_cur O).
    destruct (decide (c = i)) as [<-|Hne]; [|split; [by left|intros [?|[= ?] ]; [done|congruence] ] ].
    rewrite (oc_run O). split; [by right|done].
Qed.
End Messages.

(** ** Creation and destruction *)
Lemma freed_ok L ext fl pfl pfl' sl e s s' : kernel_ok L ext fl pfl s -> e ∈ L ->
  env_status (env s e) = ENV_RUNNABLE -> kinv (without e L) ext (e :: fl) pfl' s' ->
  freed (without e L) e sl pfl pfl' s s' -> kernel_ok (without e L) ext (e :: fl) pfl' s'.
Proof.
  intros O He Hr I' F. pose proof (fe_env _ _ _ _ _ _ _ F) as HE.
  assert (Hd : forall i, dir_of s' i = dir_of s i)
    by (intros i; unfold dir_of; rewrite HE; by destruct (decide (e = i)) as [<-|]).
  destruct (fe_rest _ _ _ _ _ _ _ F) as (_ & _ & Hid & _ & _ & _ & _ & Hbase). split; [done| | | |rewrite Hid; exact (ko_ids O)].
  - intros i. rewrite HE. destruct (ko_env O i) as [F1 F2 F3 F4 F5]. destruct (decide (e = i)) as [<-|Hne].
    + split; try done.
      * intros [? _]%elem_of_without. done.
      * intros Hv. destruct (F3 Hv) as [Hs _]. by rewrite Hr in Hs.
    + apply (env_fine_iff (i ∈ L)); [|exact (ko_env O i)]. rewrite elem_of_without. naive_solver.
  - intros i va pte Hi Hva. unfold mapping. rewrite Hd, (fe_lookup _ _ _ _ _ _ _ F i va Hi Hva). intros Hm.
    pose proof (proj1 (elem_of_without _ _ _) Hi) as [Hne HiL].
    destruct (ko_data O i va pte HiL Hva Hm) as [[D1 D2] D3]. split; [|exact D3].
    assert (HD : forall d, d ∈ dirs s' (without e L) -> exists j, j ∈ without e L /\ j ∈ L /\ d = dir_of s j).
    { intros d (j & -> & Hj)%list_elem_of_fmap. exists j. rewrite Hd. split; [done|]. split; [|done].
      by apply elem_of_without in Hj as [_ ?]. }
    split.
    + intros (j & Hj & HjL & E)%HD. apply D1. rewrite E. by apply elem_of_dirs.
    + intros d k (j & Hj & HjL & ->)%HD Hk. rewrite (fe_dirs _ _ _ _ _ _ _ F j k Hj).
      apply D2; [by apply elem_of_dirs|done].
  - assert (HD' : dirs s' (without e L) = dirs s (without e L)) by (apply map_ext_in; intros i _; apply Hd). rewrite HD', Hbase.
    pose proof (kinv_NoDup _ _ _ _ _ (ko_inv O)) as N.
    apply (kernel_pages_step _ _ _ _ _ _ (ko_pages O) (fe_npage _ _ _ _ _ _ _ F)); [exact (base_held (ko_inv O))|..].
    + intros q Hq. destruct (kp_held _ _ _ _ (ko_pages O) q Hq) as [Q1 Q2].
      assert (HP : dirs s L ≡ₚ dirs s (e :: without e L)) by (apply Permutation_map, without_perm; done).
      apply (fe_data _ _ _ _ _ _ _ F). split; [by rewrite <- HP|]. intros d i. rewrite <- HP. by apply Q2.
    + intros d (j & -> & Hj)%list_elem_of_fmap. pose proof (proj1 (elem_of_without _ _ _) Hj) as [_ HjL].
      split; [by apply elem_of_dirs|]. intros k _. exact (fe_dirs _ _ _ _ _ _ _ F j k Hj).
Qed.

Lemma env_destroy_ends L ext fl pfl sl c s e : on_cpu L ext fl pfl sl c s -> env_status (env s e) = ENV_RUNNABLE ->
  ends ext (env_destroy e s) (fun _ s' => user_mode ext c s').
Proof.
  intros O Hr. pose proof (oc_ok O) as HO. destruct (oc_queue O) as [Q1 Q2].
  assert (He : e ∈ L) by (exact (runnable_used L (env s e) e (ko_env HO e) Hr)).
  pose proof (kinv_NoDup _ _ _ _ _ (ko_inv HO)) as N.
  destruct (env_free_ok (without e L) ext e fl pfl sl s) as (s' & pfl' & E & F & I').
  { exact (kinv_perm _ _ _ _ _ _ (without_perm e L N He) (ko_inv HO)). }
  { exact Q1. }
  { by apply Q2. }
  unfold env_destroy. rewrite (bind_val _ _ _ _ _ E), bind_gets. cbv beta.
  destruct (fe_rest _ _ _ _ _ _ _ F) as (Hcur & _ & _ & _ & _ & _ & Hhw & _). rewrite Hcur, (oc_cur O).
  pose proof (freed_ok L ext fl pfl pfl' sl e s s' HO He Hr I' F) as O'. pose proof (fe_env _ _ _ _ _ _ _ F) as HE.
  assert (HM : forall i, i ∈ without e sl <-> env_status (env s' i) = ENV_RUNNABLE).
  { intros i. rewrite elem_of_without, Q2, HE. destruct (decide (e = i)) as [<-|]; [|naive_solver].
    split; [by intros [? _]|done]. }
  destruct (decide (c = e)) as [<-|Hne].
  - rewrite bool_decide_eq_true_2 by done. rewrite bind_modify.
    apply (schedule_ends (without c L) ext (c :: fl) pfl' (without c sl)). split.
    + by apply (kernel_ok_same _ _ _ _ s').
    + exact (fe_sched _ _ _ _ _ _ _ F).
    + intros i. rewrite HM. split; [by left|]. by intros [?|?].
  - rewrite bool_decide_eq_false_2 by congruence. exists (without e L), (e :: fl), pfl', (without e sl).
    assert (HEc : env s' c = env s c) by by rewrite HE, decide_False.
    split; rewrite ?HEc; [done|split; [exact (fe_sched _ _ _ _ _ _ _ F)|exact HM]|by rewrite Hcur, (oc_cur O)|exact (oc_run O)|..].
    + rewrite (fe_cur _ _ _ _ _ _ _ F). exact (oc_dir O).
    + rewrite Hhw. exact (oc_asid O).
Qed.

(** A new environment finds a page and an ASID. *)
Definition room (s : kstate) : Prop := mkenvid_i s < 2097151 /\
  (LIST_EMPTY (env_free_list s) = true \/
   (LIST_EMPTY (page_free_list (pm s)) = false /\ is_Some (find (asid_is_free s) (zseq 0 (Z.to_nat NASID))))).

Lemma forked_ok L ext fl pfl' c e p a s s' : kernel_ok L ext (e :: fl) (p :: pfl') s ->
  IpcThms.forked L ext fl pfl' c e p a s s' -> kernel_ok (e :: L) ext fl pfl' s' /\ env_status (env s e) = ENV_FREE.
Proof.
  intros O F. pose proof (ko_inv O) as I. assert (HeL : e ∉ L) by (apply (k_disj _ _ _ _ _ I); left).
  pose proof (ef_free (ko_env O e) HeL) as Hfree. split; [|done].
  destruct (fk_rest _ _ _ _ _ _ _ _ _ _ F) as (Hid & _ & _).
  pose proof (ca_inv _ _ _ _ _ _ (fk_caller _ _ _ _ _ _ _ _ _ _ F)) as I'.
  split; [done| | | |rewrite Hid; pose proof (ko_ids O); lia].
  - intros i. destruct (decide (i = e)) as [->|Hne].
    + rewrite (fk_env _ _ _ _ _ _ _ _ _ _ F). destruct (ko_env O e) as [F1 F2 F3 F4 F5], (ko_env O c) as [_ _ _ _ F6]. split; cbn.
      * by right.
      * intros H. by destruct H; left.
      * intros Hv. destruct (F3 Hv) as [Hs _]. by rewrite Hfree in Hs.
      * done.
      * exact F6.
    + rewrite (fk_other _ _ _ _ _ _ _ _ _ _ F) by done. apply (env_fine_iff (i ∈ L)); [|exact (ko_env O i)].
      rewrite elem_of_cons. naive_solver.
  - intros i va pte [->|Hi]%elem_of_cons Hva Hm; [by rewrite (fk_empty _ _ _ _ _ _ _ _ _ _ F) in Hm|].
    rewrite (fk_maps _ _ _ _ _ _ _ _ _ _ F) in Hm by done.
    destruct (ko_data O i va pte Hi Hva Hm) as [Hd Hex]. split; [|done]. apply (fk_data _ _ _ _ _ _ _ _ _ _ F); [done|].
    by apply (mapped_page L ext (e :: fl) (p :: pfl') s I i va Hi Hva pte).
  - destruct (fk_vm _ _ _ _ _ _ _ _ _ _ F) as [Hbase Hvm]. destruct (k_base _ _ _ _ _ I) as (b & Hb & _).
    destruct (free_unreferenced _ _ _ _ p (k_pm _ _ _ _ _ I) ltac:(left)) as [Href Hex]. apply unreferenced_data in Href.
    assert (HD : dirs s' (e :: L) = p :: dirs s L).
    { assert (He : dir_of s' e = p) by (apply dir_of_slot; by rewrite (fk_env _ _ _ _ _ _ _ _ _ _ F)). cbn [dirs map]. rewrite He. f_equal.
      apply map_ext_in. intros i Hi%list_elem_of_In. unfold dir_of. rewrite (fk_other _ _ _ _ _ _ _ _ _ _ F); [done|]. by intros ->. }
    pose proof (fk_data _ _ _ _ _ _ _ _ _ _ F) as HF. rewrite HD in *. rewrite Hbase.
    apply (kernel_pages_new _ _ _ _ _ _ (ko_pages O) Hex); [apply Href|by exists b| | |exact (fk_words _ _ _ _ _ _ _ _ _ _ F)].
    + intros b' Hb'. split; [by apply (base_held I)|by apply Hvm].
    + intros q Hq. apply HF; [by apply (kp_held _ _ _ _ (ko_pages O))|exact (held_not_free I Hq)].
Qed.

Lemma exofork_ends L ext fl pfl sl c s : on_cpu L ext fl pfl sl c s -> room s ->
  ends ext (sys_exofork s) (fun _ s' => user_mode ext c s').
Proof.
  intros O [Hn Hroom]. pose proof (oc_ok O) as HO. pose proof (ko_inv HO) as I. pose proof (ko_ids HO) as H0.
  destruct fl as [|e fl]; [rewrite (exofork_none L ext pfl c s (oc_caller O)); by exists L, [], pfl, sl|].
  destruct Hroom as [Hr|[Hp [a Ha]]]; [by apply (is_list_empty _ _ (k_free _ _ _ _ _ I)) in Hr|].
  destruct pfl as [|p pfl'].
  { rewrite (proj2 (is_list_empty _ _ (inv_fl _ _ _ _ (k_pm _ _ _ _ _ I))) eq_refl) in Hp. discriminate Hp. }
  destruct (exofork_ok L ext e fl p pfl' c s a (oc_caller O) (conj H0 Hn) Ha) as (s' & E & F). rewrite E.
  destruct (forked_ok _ _ _ _ _ _ _ _ _ _ HO F) as [O' Hfree]. destruct (oc_queue O) as [Q1 Q2].
  destruct (fk_rest _ _ _ _ _ _ _ _ _ _ F) as (_ & Hhw & Hcp).
  assert (Hne : c <> e) by (intros ->; rewrite (oc_run O) in Hfree; discriminate Hfree).
  pose proof (fk_other _ _ _ _ _ _ _ _ _ _ F) as HE. exists (e :: L), fl, pfl', sl.
  split; rewrite ?(HE c Hne); [done| |exact (ca_cur _ _ _ _ _ _ (fk_caller _ _ _ _ _ _ _ _ _ _ F))|exact (oc_run O)| |].
  - split; [by rewrite (fk_queue _ _ _ _ _ _ _ _ _ _ F)|]. intros i. rewrite Q2. destruct (decide (i = e)) as [->|Hi]; [|by rewrite HE].
    rewrite Hfree, (fk_env _ _ _ _ _ _ _ _ _ _ F). done.
  - rewrite Hcp. exact (oc_dir O).
  - rewrite Hhw. exact (oc_asid O).
Qed.

(** ** The status of an environment *)
Lemma set_env_status_ends L ext fl pfl sl c s envid status : on_cpu L ext fl pfl sl c s -> is_u32 envid ->
  (forall e, resolve s envid true = Some e ->
     (e = c -> status = ENV_RUNNABLE) /\ (status = ENV_RUNNABLE -> env_ipc_recving (env s e) = 0)) ->
  ends ext (sys_set_env_status envid status s) (fun _ s' => user_mode ext c s').
Proof.
  intros O Hu Hsane. pose proof (oc_ok O) as HO. pose proof (oc_cur O) as Hc.
  destruct (negb (status =? ENV_RUNNABLE) && negb (status =? ENV_NOT_RUNNABLE)) eqn:Hst;
    [unfold sys_set_env_status; rewrite Hst; by apply (back_here L ext fl pfl sl)|].
  assert (Hst' : status = ENV_RUNNABLE \/ status = ENV_NOT_RUNNABLE).
  { destruct (Z.eqb_spec status ENV_RUNNABLE); [by left|]. destruct (Z.eqb_spec status ENV_NOT_RUNNABLE); [by right|done]. }
  destruct (resolve s envid true) as [e|] eqn:Hr.
  2:{ unfold sys_set_env_status. rewrite Hst, (bind_val _ _ _ _ _ (envid2env_resolve s c envid true Hc)), Hr. by apply (back_here L ext fl pfl sl). }
  pose proof (resolve_live L ext fl pfl s c envid true e (ko_inv HO) (kernel_ok_free HO) Hc (oc_live O) Hu Hr) as He.
  destruct (Hsane e eq_refl) as [S1 S2]. destruct (ko_env HO e) as [F1 F2 F3 F4 F5].
  destruct (set_env_status_run s c sl envid status e Hc (oc_queue O) Hst' Hr (F1 He)) as (s' & E & Q & HE & Es).
  rewrite E. exists L, fl, pfl. eexists.
  assert (HEc : env_status (env s' c) = ENV_RUNNABLE /\ env_pgdir (env s' c) = env_pgdir (env s c) /\ env_asid (env s' c) = env_asid (env s c)).
  { rewrite HE. pose proof (oc_run O) as Hrun. destruct (decide (e = c)) as [->|]; [|done]. split; [|done]. by apply S1. }
  destruct HEc as (Hc1 & Hc2 & Hc3).
  split; [|exact Q|rewrite Es; exact Hc|done|rewrite Hc2, Es; exact (oc_dir O)|rewrite Hc3, Es; exact (oc_asid O)].
  apply (kernel_ok_frame L ext fl pfl s s' (cur_pgdir (pm s))); try (rewrite Es; done); [rewrite Es; apply same_cur|..|exact HO].
  - intros i. rewrite HE. by destruct (decide (e = i)) as [<-|].
  - intros i. rewrite HE. destruct (decide (e = i)) as [<-|]; [|exact (ko_env HO i)].
    split; try done; cbn. intros Hv. split; [|by apply F3]. destruct Hst' as [->|]; [by rewrite S2 in Hv|done].
Qed.

(** ** The calls that read or write user memory *)
Section UserCalls.
Context (L : list Z) (ext : Z -> Z) (fl pfl sl : list Z) (c : Z) (s : kstate) (O : on_cpu L ext fl pfl sl c s).
Notation back := (fun _ s' => user_mode ext c s').
Notation stepped := (fun _ s' => user_step L ext fl sl c s s').

Lemma user_step_back {A} (o : outcome kstate A) : ends ext o stepped -> ends ext o back.
Proof using. intros H. apply (ends_mono _ _ _ _ H). intros _ s' U. destruct (us_cpu U) as (pfl' & O'). by exists L, fl, pfl', sl. Qed.

Lemma after_access {A B} (m : K A) (k : A -> K B) : ends ext (m s) stepped ->
  (forall a s1 pfl1, user_step L ext fl sl c s s1 -> on_cpu L ext fl pfl1 sl c s1 -> ends ext (k a s1) back) ->
  ends ext ((m ≫= k) s) back.
Proof using.
  intros H HK. apply (ends_seq _ _ _ _ _ _ H). intros a s1 U. destruct (us_cpu U) as (pfl1 & O1). by apply (HK a s1 pfl1).
Qed.

Lemma user_step_env s1 i : user_step L ext fl sl c s s1 -> env s1 i = env s i.
Proof using. intros U. by rewrite (us_only U). Qed.

Lemma outside_back {A} (a : A) f : outside f -> ends ext ((modify f ;; mret a : K A) s) back.
Proof using O. intros Hf. exists L, fl, pfl, sl. by apply (on_cpu_outside _ _ _ _ _ _ _ f). Qed.

Lemma put_back {A} (a : A) e f : env_pgdir (f (env s e)) = env_pgdir (env s e) -> env_asid (f (env s e)) = env_asid (env s e) ->
  env_status (f (env s e)) = env_status (env s e) -> env_fine (e ∈ L) (f (env s e)) ->
  ends ext ((upd_env e f ;; mret a : K A) s) back.
Proof using O. intros H1 H2 H3 HF. exists L, fl, pfl, sl. by apply (on_cpu_put L ext fl pfl sl c s O e f). Qed.

Lemma uload_tf_ends va : words_ok s c va 38 false -> ends ext (uload_tf va s) stepped.
Proof using O.
  intros W. apply (ends_after L ext fl sl c _ _ s); [by apply (uload_words_ends L ext fl sl c 38 pfl)|].
  intros ws s1 pfl1 U1 O1. by apply (ends_here L ext fl sl c _ pfl1).
Qed.

Lemma uload_sigset_ends va : words_ok s c va 2 false -> ends ext (uload_sigset va s) stepped.
Proof using O.
  intros W. pose proof (words_ok_cons _ _ _ _ _ W) as [A1 W1]. pose proof (words_ok_cons _ _ _ _ _ W1) as [A2 _].
  apply (ends_after L ext fl sl c _ _ s); [by apply (uload_ends L ext fl sl c pfl); [|apply W|]|]. intros a s1 pfl1 U1 O1.
  apply (ends_after L ext fl sl c _ _ s1).
  { apply (uload_ends L ext fl sl c pfl1); [done|apply W1|by apply (us_acc U1)]. }
  intros b s2 pfl2 U2 O2. by apply (ends_here L ext fl sl c _ pfl2).
Qed.

Lemma ustore_sigset_ends va m : words_ok s c va 2 true -> ends ext (ustore_sigset va m s) stepped.
Proof using O. intros W. pose proof (words_ok_cons _ _ _ _ _ W) as [A1 W1]. pose proof (words_ok_cons _ _ _ _ _ W1) as [A2 _].
  apply (ends_after L ext fl sl c _ _ s); [by apply (ustore_ends L ext fl sl c pfl); [|apply W|]|]. intros a s1 pfl1 U1 O1.
  apply (ustore_ends L ext fl sl c pfl1); [done|apply W1|by apply (us_acc U1)].
Qed.
End UserCalls.

Lemma mapping_put s e f i va : env_pgdir (f (env s e)) = env_pgdir (env s e) -> mapping (put_env e f s) i va = mapping s i va.
Proof.
  intros Hf. unfold mapping, dir_of. rewrite env_put. destruct (decide (e = i)) as [<-|]; [|done]. by rewrite Hf.
Qed.

Lemma accessible_same s s' c a w : (forall a, mapping s' c a = mapping s c a) -> accessible s c a w -> accessible s' c a w.
Proof. intros HM [H1 H2]. split; [done|]. intros Hw pte. rewrite HM. by apply H2. Qed.

Lemma words_ok_acc s s' c va n w : (forall a w, accessible s c a w -> accessible s' c a w) -> words_ok s c va n w -> words_ok s' c va n w.
Proof. intros HA (W1 & W2 & W3). split; [done|]. split; [done|]. intros i Hi. by apply HA, W3. Qed.

Section MoreCalls.
Context (L : list Z) (ext : Z -> Z) (fl pfl sl : list Z) (c : Z) (s : kstate) (O : on_cpu L ext fl pfl sl c s).
Notation back := (fun _ s' => user_mode ext c s').

(** A field that the invariant does not look at. *)
Lemma set_field_ends envid cp f : is_u32 envid ->
  (forall v, env_pgdir (f v) = env_pgdir v /\ env_asid (f v) = env_asid v /\ env_status (f v) = env_status v /\
     (forall P, env_fine P v -> env_fine P (f v))) ->
  ends ext ((r ← envid2env envid cp; match r with
    | Err r => mret r
    | Ok o => e ← env_deref o; upd_env e f ;; mret 0 end) s) back.
Proof using O.
  intros Hu Hf. apply (resolve_ends L ext fl pfl sl c s O envid cp (fun r => mret r) _ _ Hu); [intros r; by apply (back_here L ext fl pfl sl)|].
  intros e He _. cbn [env_deref lift_opt]. mstep. destruct (Hf (env s e)) as (H1 & H2 & H3 & H4).
  apply (put_back L ext fl pfl sl c s O); try done. apply H4. exact (ko_env (oc_ok O) e).
Qed.

(** [m] returns with the run queue and every possible access as they were. *)
Definition kept (s' : kstate) : Prop := exists pfl', on_cpu L ext fl pfl' sl c s' /\ forall a w, accessible s c a w -> accessible s' c a w.

Lemma kept_back {A} (o : outcome kstate A) : ends ext o (fun _ s' => kept s') -> ends ext o back.
Proof using. intros H. apply (ends_mono _ _ _ _ H). intros _ s' (pfl' & O' & _). by exists L, fl, pfl', sl. Qed.

Lemma set_trapframe_ends envid tf_va : is_u32 envid ->
  (is_illegal_va_range tf_va sizeof_Trapframe = false -> words_ok s c tf_va 38 false) ->
  ends ext (sys_set_trapframe envid tf_va s) (fun _ s' => kept s').
Proof using O.
  assert (H0 : kept s) by (by exists pfl).
  intros Hu Hw. unfold sys_set_trapframe. destruct (is_illegal_va_range _ _); [exact H0|].
  apply (resolve_ends L ext fl pfl sl c s O envid true (fun r => mret r) _ _ Hu); [intros r; exact H0|].
  intros e He _. rewrite bind_gets. cbv beta.
  apply (ends_seq _ _ _ _ _ _ (uload_tf_ends L ext fl pfl sl c s O tf_va (Hw eq_refl))). intros tf s1 U1.
  destruct (us_cpu U1) as (pfl1 & O1). destruct (bool_decide _).
  - exists pfl1. split; [|exact (us_acc U1)]. apply (on_cpu_outside _ _ _ _ _ _ _ (set_ktf tf)); [exact (outside_ktf (fun _ => tf))|done].
  - cbn [env_deref lift_opt]. mstep. exists pfl1. split.
    + apply (on_cpu_put L ext fl pfl1 sl c s1 O1 e (with_env_tf tf)); try done.
      apply (env_fine_ext _ (env s1 e)); try done. exact (ko_env (oc_ok O1) e).
    + intros a w Ha. apply (accessible_same s1); [intros a'; by apply mapping_put|]. by apply (us_acc U1).
Qed.

Lemma back_do_signal_ends envid tf_va originMask : is_u32 envid -> envid = 0 \/ envid = env_id (env s c) ->
  (is_illegal_va_range tf_va sizeof_Trapframe = false -> words_ok s c tf_va 38 false) -> words_ok s c originMask 2 false ->
  ends ext (sys_back_do_signal envid tf_va originMask s) back.
Proof using O.
  intros Hu He Htf Hm. unfold sys_back_do_signal, curenv_deref. rewrite bind_bind, bind_gets. cbv beta. rewrite (oc_cur O). cbn [lift_opt].
  mstep. unfold get_env. rewrite bind_gets. cbv beta.
  assert (Ha : negb (negb (envid =? 0) && negb (envid =? env_id (env s c))) = true).
  { destruct He as [-> | ->]; rewrite ?Z.eqb_refl; [done|]. by rewrite andb_false_r. }
  rewrite Ha, bind_assert_true. apply (ends_seq _ _ _ _ _ _ (set_trapframe_ends envid tf_va Hu Htf)).
  intros r s1 (pfl1 & O1 & A1). destruct (r <? 0); [by exists L, fl, pfl1, sl|].
  apply (after_access L ext fl sl c s1); [by apply (uload_sigset_ends L ext fl pfl1 sl c s1 O1), (words_ok_acc s)|].
  intros m s2 pfl2 U2 O2. apply (put_back L ext fl pfl2 sl c s2 O2); try done.
  apply (env_fine_ext _ (env s2 c)); try done. exact (ko_env (oc_ok O2) c).
Qed.

Lemma uload_sigaction_ends va : words_ok s c va 3 false ->
  ends ext (uload_sigaction va s) (fun _ s' => user_step L ext fl sl c s s').
Proof using O.
  intros W. pose proof (words_ok_cons _ _ _ _ _ W) as [A1 W1].
  apply (ends_after L ext fl sl c _ _ s); [by apply (uload_ends L ext fl sl c pfl); [|apply W|]|]. intros a s1 pfl1 U1 O1.
  apply (ends_after L ext fl sl c _ _ s1).
  { apply (uload_sigset_ends L ext fl pfl1); [done|]. exact (words_ok_step _ _ _ _ _ _ _ _ _ _ U1 W1). }
  intros b s2 pfl2 U2 O2. by apply (ends_here L ext fl sl c _ pfl2).
Qed.

Lemma ustore_sigaction_ends va a : words_ok s c va 3 true ->
  ends ext (ustore_sigaction va a s) (fun _ s' => user_step L ext fl sl c s s').
Proof using O.
  intros W. pose proof (words_ok_cons _ _ _ _ _ W) as [A1 W1].
  apply (ends_after L ext fl sl c _ _ s); [by apply (ustore_ends L ext fl sl c pfl); [|apply W|]|]. intros b s1 pfl1 U1 O1.
  apply (ustore_sigset_ends L ext fl pfl1); [done|]. exact (words_ok_step _ _ _ _ _ _ _ _ _ _ U1 W1).
Qed.

Lemma print_bytes_ends (l : list Z) va : (forall i, i ∈ l -> accessible s c (u32 (va + i)) false) ->
  ends ext (for_each l (fun i => b ← uload_byte (u32 (va + i)); printcharc b) s) back.
Proof using O.
  revert pfl s O. induction l as [|i l IH]; intros pfl0 s0 O0 Ha; cbn [for_each]; [by exists L, fl, pfl0, sl|].
  rewrite bind_bind. apply (after_access L ext fl sl c s0).
  { apply (uload_byte_ends L ext fl sl c pfl0); [done|]. apply Ha. left. }
  intros b s1 pfl1 U1 O1. unfold printcharc. rewrite bind_modify.
  apply (IH pfl1); [by apply (on_cpu_outside _ _ _ _ _ _ _ (fun s => set_cons_out (u8 b :: cons_out s) s))|].
  intros j Hj. exact (us_acc U1 _ _ (Ha j ltac:(by right))).
Qed.

Lemma print_cons_ends va num : bytes_ok s c va (Z.to_nat num) false -> ends ext (sys_print_cons va num s) back.
Proof using O.
  intros (Hu & Hb). unfold sys_print_cons. destruct (_ || _); [by apply (back_here L ext fl pfl sl)|].
  apply (ends_seq _ _ _ _ back); [|intros _ s1 U; exact U]. apply print_bytes_ends.
  intros i Hi. apply Hb. apply elem_of_zseq in Hi. lia.
Qed.

Lemma cgetc_ends : (exists ch, ch ∈ cons_in s /\ ch <> 0) -> ends ext (sys_cgetc s) back.
Proof using O.
  intros (ch & Hin & Hne). unfold sys_cgetc. rewrite bind_gets. cbv beta.
  destruct (list_find (fun ch => ch <> 0) (cons_in s)) as [[i x]|] eqn:E.
  - apply (outside_back L ext fl pfl sl c s O x (set_cons_in (drop (S i) (cons_in s)))).
    exact (outside_in (fun _ => drop (S i) (cons_in s))).
  - apply list_find_None in E. rewrite Forall_forall in E. by destruct (E ch Hin).
Qed.

Lemma write_dev_ends va pa len : bytes_ok s c va (Z.to_nat len) false -> ends ext (sys_write_dev va pa len s) back.
Proof using O.
  intros Hb. unfold sys_write_dev. destruct (is_illegal_va_range va len); [by apply (back_here L ext fl pfl sl)|].
  destruct (negb (dev_ok pa len)); [by apply (back_here L ext fl pfl sl)|].
  apply (after_access L ext fl sl c s); [by apply (uload_bytes_ends L ext fl sl c _ pfl)|]. intros bs s1 pfl1 U1 O1.
  apply (outside_back L ext fl pfl1 sl c s1 O1 0 (fun s => set_dev_out ((Z.lor KSEG1 pa, bs) :: dev_out s) s)).
  exact (outside_dev (fun s => (Z.lor KSEG1 pa, bs) :: dev_out s)).
Qed.

Lemma read_dev_ends va pa len : bytes_ok s c va (Z.to_nat len) true -> ends ext (sys_read_dev va pa len s) back.
Proof using O.
  intros Hb. unfold sys_read_dev. destruct (is_illegal_va_range va len); [by apply (back_here L ext fl pfl sl)|].
  destruct (negb (dev_ok pa len)); [by apply (back_here L ext fl pfl sl)|]. rewrite bind_gets. cbv beta.
  apply (after_access L ext fl sl c s); [|intros _ s1 pfl1 U1 O1; by apply (back_here L ext fl pfl1 sl c s1)].
  apply (ustore_bytes_ends L ext fl sl c _ pfl); [done|]. by rewrite length_map, zseq_length.
Qed.

Lemma sigprocmask_ends how set oldset : (set <> 0 -> words_ok s c set 2 false) -> (oldset <> 0 -> words_ok s c oldset 2 true) ->
  ends ext (sys_sigprocmask how set oldset s) back.
Proof using O.
  intros Hs Ho. unfold sys_sigprocmask, curenv_deref. rewrite bind_bind, bind_gets. cbv beta. rewrite (oc_cur O). cbn [lift_opt].
  mstep. unfold get_env. rewrite bind_gets. cbv beta. set (old := env_sigprocmask (env s c)).
  set (T := fun (b : bool) (s1 : kstate) => exists pfl1, on_cpu L ext fl pfl1 sl c s1 /\ (oldset <> 0 -> words_ok s1 c oldset 2 true)).
  apply (ends_seq _ _ _ _ T).
  - assert (H0 : forall b, ends ext ((mret b : K bool) s) T) by (intros b; exists pfl; by split).
    assert (HU : forall f : sigset_t -> Env -> Env, (forall m v, env_pgdir (f m v) = env_pgdir v /\ env_asid (f m v) = env_asid v /\
        env_status (f m v) = env_status v /\ forall P, env_fine P v -> env_fine P (f m v)) -> set <> 0 ->
      ends ext ((m ← uload_sigset set; upd_env c (f m) ;; mret false) s) T).
    { intros f Hf Hne. apply (ends_seq _ _ _ _ _ _ (uload_sigset_ends L ext fl pfl sl c s O set (Hs Hne))). intros m s1 U1.
      destruct (us_cpu U1) as (pfl1 & O1). exists pfl1. destruct (Hf m (env s1 c)) as (F1 & F2 & F3 & F4). split.
      - apply (on_cpu_put L ext fl pfl1 sl c s1 O1 c (f m)); try done. apply F4. exact (ko_env (oc_ok O1) c).
      - intros Hno. apply (words_ok_acc s1); [intros a w; apply accessible_same; intros a'; by apply mapping_put|]. exact (words_ok_step _ _ _ _ _ _ _ _ _ _ U1 (Ho Hno)). }
    destruct (Z.eqb_spec set 0) as [|Hne]; cbn [negb]; [apply H0|].
    destruct (how =? SIG_BLOCK); [|destruct (how =? SIG_UNBLOCK); [|destruct (how =? SIG_SETMASK); [|apply H0] ] ]; apply HU; try done; intros m v;
      (split; [done|split; [done|split; [done|intros P; by apply env_fine_ext] ] ]).
  - intros bad s1 (pfl1 & O1 & W1). destruct (negb bad && negb (oldset =? 0)) eqn:Eb; cbn [when]; [|by exists L, fl, pfl1, sl].
    apply (user_step_back L ext fl sl c s1). apply (ustore_sigset_ends L ext fl pfl1); [done|]. apply W1.
    apply andb_true_iff in Eb as [_ Eb]. by destruct (Z.eqb_spec oldset 0).
Qed.

Lemma get_handler_ok n : 1 <= n <= 64 -> exists h, get_handler c n s = Val h s.
Proof using O.
  intros Hn. unfold get_handler, get_env. rewrite bind_gets. cbv beta. unfold handler_slot.
  destruct (Z.leb_spec 1 n), (Z.leb_spec n 64); try lia. cbn [andb].
  destruct (lookup_lt_is_Some_2 (sighandler_table (env s c)) (Z.to_nat (n - 1))) as (h & Eh).
  { rewrite (ef_table (ko_env (oc_ok O) c)). lia. }
  rewrite Eh. by exists h.
Qed.
End MoreCalls.

Lemma sigaction_ends L ext fl pfl sl c s signo act oldact : on_cpu L ext fl pfl sl c s -> 1 <= s32 signo <= 64 ->
  (act <> 0 -> words_ok s c act 3 false) -> (oldact <> 0 -> words_ok s c oldact 3 true) ->
  ends ext (sys_sigaction signo act oldact s) (fun _ s' => user_mode ext c s').
Proof.
  intros O Hn Ha Ho. unfold sys_sigaction, curenv_deref. rewrite bind_bind, bind_gets. cbv beta. rewrite (oc_cur O). cbn [lift_opt].
  mstep. destruct (get_handler_ok L ext fl pfl sl c s O _ Hn) as (h & Eh). rewrite (bind_val _ _ _ _ _ Eh).
  apply (ends_seq _ _ _ _ (fun _ => kept L ext fl sl c s)).
  - destruct (Z.eqb_spec act 0) as [|Hne]; cbn [negb when]; [by exists pfl|].
    apply (ends_seq _ _ _ _ _ _ (uload_sigaction_ends L ext fl pfl sl c s O act (Ha Hne))). intros a s1 U1.
    destruct (us_cpu U1) as (pfl1 & O1). exists pfl1.
    split; [|intros b w Hb; apply (accessible_same s1); [intros b'; by apply mapping_put|by apply (us_acc U1)] ].
    apply (on_cpu_put L ext fl pfl1 sl c s1 O1 c (fun e => with_sighandler_table
      (<[Z.to_nat (s32 signo - 1) := a]> (sighandler_table e)) e)); try done.
    destruct (ko_env (oc_ok O1) c) as [F1 F2 F3 F4 F5]. split; try done. cbn. by rewrite length_insert.
  - intros _ s1 (pfl1 & O1 & A1). destruct (Z.eqb_spec oldact 0) as [|Hne]; cbn [negb when]; [by exists L, fl, pfl1, sl|].
    apply (user_step_back L ext fl sl c s1). by apply (ustore_sigaction_ends L ext fl pfl1), (words_ok_acc s), Ho.
Qed.

(** ** What a program must respect

    The conditions under which a system call keeps the invariant, one line per call. Each is
    a case the code does not handle: permission bits from 12 on reach the page number,
    reference counts wrap at 2^16, a new environment does not notice that no page or no ASID
    is left, an environment that is not in the run queue is taken out of it all the same
    (sys_env_destroy of a stopped one, or the scheduler after one has stopped itself), one
    that waits for a message is made runnable, and user addresses the kernel touches without
    a check. Signals are left to SignalThms.v and SignalTrip.v. *)
Definition counts_ok (s : kstate) : Prop := forall p, pp_ref (pm s) p < 65535.

Definition sane (s : kstate) (c sysno a1 a2 a3 a4 a5 : Z) : Prop :=
  match sysno with
  | 1 => bytes_ok s c a1 (Z.to_nat a2) false
  | 4 => forall e, resolve s a1 true = Some e -> env_status (env s e) = ENV_RUNNABLE
  | 6 => 0 <= a3 < 4096
  | 7 => 0 <= a5 < 4096 /\ counts_ok s
  | 9 => room s
  | 10 => forall e, resolve s a1 true = Some e ->
      (e = c -> a2 = ENV_RUNNABLE) /\ (a2 = ENV_RUNNABLE -> env_ipc_recving (env s e) = 0)
  | 11 => is_illegal_va_range a2 sizeof_Trapframe = false -> words_ok s c a2 38 false
  | 12 => False   (* sys_panic: KernelSafe.v *)
  | 13 => 0 <= a4 < 4096 /\ counts_ok s
  | 15 => exists ch, ch ∈ cons_in s /\ ch <> 0
  | 16 => bytes_ok s c a1 (Z.to_nat a3) false
  | 17 => bytes_ok s c a1 (Z.to_nat a3) true
  | 18 => 1 <= s32 a1 <= 64 /\ (a2 <> 0 -> words_ok s c a2 3 false) /\ (a3 <> 0 -> words_ok s c a3 3 true)
  | 19 => (a2 <> 0 -> words_ok s c a2 2 false) /\ (a3 <> 0 -> words_ok s c a3 2 true)
  | 20 => False
  | 21 => (a1 = 0 \/ a1 = env_id (env s c)) /\
      (is_illegal_va_range a2 sizeof_Trapframe = false -> words_ok s c a2 38 false) /\ words_ok s c a3 2 false
  | _ => True
  end.

Lemma void_ends ext c (m : K unit) s : ends ext (m s) (fun _ s' => user_mode ext c s') ->
  ends ext (void m s) (fun _ s' => user_mode ext c s').
Proof. intros H. by apply (ends_seq _ _ _ _ _ _ H). Qed.

Lemma syscall_ends L ext fl pfl sl c s sysno a1 a2 a3 a4 a5 : on_cpu L ext fl pfl sl c s -> 0 <= sysno < MAX_SYSNO ->
  is_u32 a1 -> is_u32 a3 -> sane s c sysno a1 a2 a3 a4 a5 ->
  ends ext (syscall_table sysno a1 a2 a3 a4 a5 s) (fun _ s' => user_mode ext c s').
Proof.
  intros O Hn H1 H3.
  assert (Hin : sysno ∈ zseq 0 23) by (apply elem_of_zseq; exact Hn). let l := eval vm_compute in (zseq 0 23) in change (zseq 0 23) with l in Hin.
  repeat (apply elem_of_cons in Hin as [-> | Hin]; [cbn [sane syscall_table]|]); [..|by apply elem_of_nil in Hin].
  - intros _. apply void_ends. exists L, fl, pfl, sl. by apply (on_cpu_outside _ _ _ _ _ _ _ (fun s => set_cons_out (u8 a1 :: cons_out s) s)).
  - by apply (print_cons_ends L ext fl pfl sl).
  - intros _. unfold sys_getenvid, curenv_deref. rewrite bind_bind, bind_gets. cbv beta. rewrite (oc_cur O). by exists L, fl, pfl, sl.
  - intros _. apply void_ends. by apply (schedule_ends L ext fl pfl sl), (on_cpu_handing _ _ _ _ _ c).
  - intros Hs. apply (resolve_ends L ext fl pfl sl c s O a1 true (fun r => mret r) _ _ H1); [intros r; by apply (back_here L ext fl pfl sl)|].
    intros e _ Hr. cbn [env_deref lift_opt]. mstep. by apply void_ends, (env_destroy_ends L ext fl pfl sl), Hs.
  - intros _. apply (set_field_ends L ext fl pfl sl c s O); [done|]. intros v. split_and!; try done. intros P. by apply env_fine_ext.
  - by apply (mem_alloc_ends L ext fl pfl sl).
  - intros [Hp Hr]. by apply (mem_map_ends L ext fl pfl sl).
  - intros _. by apply (mem_unmap_ends L ext fl pfl sl).
  - by apply (exofork_ends L ext fl pfl sl).
  - by apply (set_env_status_ends L ext fl pfl sl).
  - intros Hw. apply (kept_back L ext fl sl c s). by apply (set_trapframe_ends L ext fl pfl).
  - done.
  - intros [Hp Hr]. by apply (try_send_ends L ext fl pfl sl).
  - intros _. by apply (ipc_recv_ends L ext fl pfl sl).
  - by apply (cgetc_ends L ext fl pfl sl).
  - by apply (write_dev_ends L ext fl pfl sl).
  - by apply (read_dev_ends L ext fl pfl sl).
  - intros (Hs & Ha & Ho). by apply void_ends, (sigaction_ends L ext fl pfl sl).
  - intros (Ha & Ho). by apply void_ends, (sigprocmask_ends L ext fl pfl sl).
  - done.
  - intros (Ha & Ht & Ho). by apply (back_do_signal_ends L ext fl pfl sl).
  - intros _. apply (set_field_ends L ext fl pfl sl c s O); [done|]. intros v. split_and!; try done. intros P. by apply env_fine_ext.
Qed.
