(* ===== verification/KernelSafe.v ===== *)
(** * Every entry of the kernel keeps its invariant

    The system calls, the page faults, the timer interrupt and the copy-on-write exception
    of any number of programs, one after the other, with the loads and stores the programs
    make in between, the loads of the windows above UTOP included: [kernel_safe], for the
    events that [allowed] admits. *)

From Stdlib Require Import ZArith Lia.
From stdpp Require Import base numbers list gmap strings.
From S2P Require Import Prelude Queue Mmu Pmap PmapInv PmapOps PmapInsert PmapThms.
From S2P Require Import KState Elf Signo Env Sched TlbEx Signal Syscall Traps EnvThms SchedThms PmapFree EnvInv EnvSpec MemThms TlbThms IpcThms SysThms.
From S2P Require Import Str StrThms Wp ForkAccess Kernel KernelCalls.
Import LIST.

(** ** Loads above UTOP

    A program also loads from the windows: [envs] at UENVS, [pages] at UPAGES, its own page
    tables ([vpt]) and its directory ([vpd]) at UVPT. A table that is missing is installed
    by the refill handler, through the directory's entry for itself. *)

(** What a program loads, and where it stores. *)
Definition readable (va : Z) : Prop :=
  UTEMP <= va < UVPT \/ (UVPT <= va < ULIM /\ (PTX va < NU \/ PTX va = PDX UVPT)).
Definition writable (va : Z) : Prop := UTEMP <= va < UTOP.

Lemma writable_readable va : writable va -> readable va /\ user_va va.
Proof.
  unfold writable, readable, user_va. change UTEMP with 4186112. change UTOP with 2134900736. change UVPT with 2143289344.
  intros H. split; [left|]; lia.
Qed.

Lemma readable_cases va : readable va ->
  writable va \/ (is_u32 va /\ UENVS <= va < UVPT /\ PDX UTOP <= PDX va < PDX UVPT) \/
  (is_u32 va /\ UVPT <= va < ULIM /\ PDX va = PDX UVPT /\ (PTX va < NU \/ PTX va = PDX UVPT)).
Proof.
  unfold readable, writable. change (PDX UTOP) with 509. change (PDX UVPT) with 511. rewrite PDX_div.
  change UTEMP with 4186112. change UTOP with 2134900736. change UENVS with 2134900736. change UVPT with 2143289344. change ULIM with 2147483648.
  unfold is_u32. intros [H|[H1 H2]]; [destruct (decide (va < 2134900736))|]; [left; lia|right; left|right; right];
    (split; [lia|split; [lia|] ]); [|split; [|done] ]; dlia.
Qed.

(** [page_lookup] at any address whose table and page are in memory. *)
Lemma page_lookup_range s d va : (forall p i, is_u32 (word (phys s) p i)) -> npage s <= 524288 ->
  let pde := word (phys s) d (PDX va) in
  (valid pde = true -> PPN pde < npage s /\ (valid (word (phys s) (PPN pde) (PTX va)) = true -> PPN (word (phys s) (PPN pde) (PTX va)) < npage s)) ->
  page_lookup (slot d 0) va s =
    Val (match lookup_pte (phys s) d va with Some e => Some (PPN e, slot (PPN pde) (PTX va)) | None => None end) s.
Proof.
  intros HW Hn pde HR. assert (Hi : 0 <= PDX va < 1024) by (rewrite PDX_div; dlia).
  unfold page_lookup, pgdir_walk, lookup_pte. rewrite slot_add, bind_bind, (bind_val _ _ _ _ _ (load_slot s d (PDX va) Hi)). fold pde.
  change (hasbits pde PTE_V) with (valid pde). destruct (valid pde) eqn:E; cbn [negb]; [|by rewrite bind_ret].
  destruct (HR eq_refl) as [Hp Hl]. rewrite bind_bind, (bind_val _ _ _ _ _ (KADDR_pte s pde (HW _ _) Hp Hn)), bind_ret, slot_add.
  rewrite (bind_val _ _ _ _ _ (load_slot _ _ _ (PTX_range va))). change (hasbits ?x PTE_V) with (valid x).
  destruct (valid (word (phys s) (PPN pde) (PTX va))) eqn:Ee; [|done]. by rewrite (bind_val _ _ _ _ _ (pa2page_pte s _ (Hl eq_refl))).
Qed.

(** Translations of other addresses do not concern the invariant. *)
Lemma tlb_fill_high L ext fl pfl s e va pte : kinv L ext fl pfl s -> e ∈ L -> is_u32 va -> ~ user_va va ->
  kinv L ext fl pfl (with_entry (env_asid (env s e)) va pte s).
Proof.
  intros I He Hu Hva. destruct (k_asid _ _ _ _ _ I e He) as [Ha _]. unfold NASID in Ha.
  assert (Hne : forall a va' v, 0 <= a < 64 -> user_va va' -> <[entryhi (env_asid (env s e)) va := pte]> (tlb (pm s)) !! entryhi a va' = Some v ->
    tlb (pm s) !! entryhi a va' = Some v).
  { intros a va' v Ha' Hva' [[E _]|[_ H]]%lookup_insert_Some; [|done]. apply entryhi_inj in E as [_ HV]; auto with mos.
    exfalso. apply Hva. unfold user_va, VPN in *. rewrite !shiftr_div in HV by lia. change UTOP with 2134900736 in *. change (2 ^ 12) with 4096 in HV.
    unfold is_u32 in Hu. dlia. }
  pose proof I as [I1 I2 I3 I4 I5 I6 I7 I8 I9 I10]. split; try done.
  - by apply pmap_inv_tlb.
  - intros d a va' v Hs Hva' Hl. apply (I8 d a va'); [done|done|]. apply Hne; [|done|exact Hl].
    by apply (kinv_live _ _ _ _ _ I) in Hs as [_ ?].
  - intros a va' Ha' Hua Hva'. destruct (tlb _ !! _) as [v|] eqn:E; [|done]. apply Hne in E; [|done..]. by rewrite I9 in E.
Qed.

Section Windows.
Context (L : list Z) (ext : Z -> Z) (fl pfl sl : list Z) (c : Z) (s : kstate) (O : on_cpu L ext fl pfl sl c s).
Context (va : Z) (Hu : is_u32 va).
Let I : kinv L ext fl pfl s := ko_inv (oc_ok O).
Let HcL : c ∈ L := oc_live O.
Let d := dir_of s c.
Let m := phys (pm s).

Lemma cur_windows : exists b, windows (dirs s L) b ext (npage (pm s)) m.
Proof using O. destruct (k_base _ _ _ _ _ I) as (b & Hb & _). exists b. exact (kp_win _ _ _ _ (ko_pages (oc_ok O)) b Hb). Qed.

(** Both windows and the page tables lie in memory. *)
Lemma window_range : (UENVS <= va < UVPT /\ PDX UTOP <= PDX va < PDX UVPT) \/
    (PDX va = PDX UVPT /\ (PTX va < NU \/ PTX va = PDX UVPT)) ->
  valid (word m d (PDX va)) = true -> PPN (word m d (PDX va)) < npage (pm s) /\
    (valid (word m (PPN (word m d (PDX va))) (PTX va)) = true -> PPN (word m (PPN (word m d (PDX va))) (PTX va)) < npage (pm s)).
Proof using O.
  pose proof (k_pm _ _ _ _ _ I) as Ip. pose proof (inv_mem _ _ _ _ Ip) as W. pose proof (elem_of_dirs s L c HcL) as HD. fold d in HD.
  pose proof (wf_dirs _ _ _ W d HD) as Hd. pose proof (wf_npage _ _ _ W) as Hn. destruct cur_windows as (b & [W1 W2 W3]).
  pose proof (PTX_range va) as Hx. intros [[_ Hi]|[Hi Hk]] Hv.
  - rewrite (W2 d _ HD Hi) in *. destruct (W3 _ Hi Hv) as (T1 & _ & T3). split; [done|]. by apply T3.
  - assert (HP : PPN (mk_pte d 0) = d) by (apply PPN_mk_pte; lia). rewrite Hi, (W1 d HD), HP. split; [apply Hd|]. intros Hv'.
    destruct Hk as [Hk | ->]; [apply (wf_tab_range _ _ _ W); [done|lia|done]|]. rewrite (W1 d HD), HP. apply Hd.
Qed.

Hypothesis Hwin : (UENVS <= va < UVPT /\ PDX UTOP <= PDX va < PDX UVPT) \/
  (UVPT <= va < ULIM /\ PDX va = PDX UVPT /\ (PTX va < NU \/ PTX va = PDX UVPT)).

Lemma window_not_user : ~ user_va va.
Proof using Hwin c d s. unfold user_va. change UTOP with UENVS. change UVPT with (UENVS + 8388608) in *. intros H. destruct Hwin as [[? _]|[? _]]; lia. Qed.

Lemma window_lookup : pmap_op (page_lookup (cur_pgdir (pm s)) va) s =
  Val (match mapping s c va with Some e => Some (PPN e, slot (PPN (word m d (PDX va))) (PTX va)) | None => None end) s.
Proof using O Hwin.
  pose proof (k_pm _ _ _ _ _ I) as Ip. pose proof (inv_mem _ _ _ _ Ip) as W. rewrite (oc_dir O), (k_dir _ _ _ _ _ I c HcL). fold d.
  rewrite (pmap_op_val _ _ _ _ (page_lookup_range (pm s) d va (wf_words _ _ _ W) (proj2 (wf_npage _ _ _ W)) (window_range ltac:(tauto)))).
  by rewrite set_pm_pm.
Qed.

Lemma window_hit fuel asid pte : mapping s c va = Some pte -> do_tlb_refill_loop fuel va asid s = Val pte s.
Proof using O Hwin.
  intros Hm. pose proof window_lookup as E. rewrite Hm in E. unfold mapping, lookup_pte in Hm. fold d m in Hm.
  destruct (valid (word m d (PDX va))); [|done]. destruct (valid (word m _ (PTX va))); [|done]. injection Hm as Hm.
  destruct fuel; cbn [do_tlb_refill_loop]; rewrite bind_gets; cbv beta; rewrite (bind_val _ _ _ _ _ E);
    rewrite (pmap_op_val _ _ _ _ (load_slot (pm s) _ _ (PTX_range va))), set_pm_pm; fold m; by rewrite Hm.
Qed.

(** The entry in the TLB. *)
Lemma window_entry pte : user_step L ext fl sl c s (with_entry (hw_asid s) va pte s).
Proof using O Hu Hwin.
  split; [|done|done]. exists pfl. apply (on_cpu_memory L ext fl pfl pfl sl c s); try done.
  pose proof (oc_ok O) as [_ HE HD HP HI]. split; try done; [|destruct HP; by split].
  rewrite (oc_asid O). apply tlb_fill_high; [done|exact HcL|done|exact window_not_user].
Qed.
End Windows.

(** *** A page table that is missing *)
Lemma walk_self t d va create : word (phys t) d (PDX UVPT) = mk_pte d 0 -> PDX va = PDX UVPT -> 0 <= d < npage t -> npage t <= 524288 ->
  pgdir_walk (slot d 0) va create t = Val (Ok (Some (slot d (PTX va)))) t.
Proof.
  intros Hw Hi Hd Hn. assert (Hx : 0 <= PDX va < 1024) by (rewrite PDX_div; dlia).
  unfold pgdir_walk. rewrite slot_add, Hi, (bind_val _ _ _ _ _ (load_slot t d (PDX UVPT) ltac:(done))), Hw.
  change (hasbits ?x PTE_V) with (valid x). rewrite valid_mk_pte. cbn [negb].
  assert (HP : PPN (mk_pte d 0) = d) by (apply PPN_mk_pte; lia).
  assert (He : is_u32 (mk_pte d 0)) by (apply mk_pte_u32; unfold is_u32; lia).
  by rewrite (bind_val _ _ _ _ _ (KADDR_pte t _ He ltac:(rewrite HP; lia) Hn)), HP, slot_add.
Qed.

Lemma PTE_ADDR_vpn va : is_u32 va -> VPN (PTE_ADDR va) = VPN va.
Proof. intros Hu. rewrite PTE_ADDR_div by done. unfold VPN. rewrite !shiftr_div by lia. change (2 ^ 12) with 4096. dlia. Qed.

Section MissingTable.
Context (L : list Z) (ext : Z -> Z) (fl pfl sl : list Z) (c : Z) (s : kstate) (O : on_cpu L ext fl pfl sl c s).
Context (va : Z) (Hu : is_u32 va) (Hva : UVPT <= va < ULIM) (Hi : PDX va = PDX UVPT) (Hk : PTX va < NU).
Hypothesis Hm : mapping s c va = None.
Let I : kinv L ext fl pfl s := ko_inv (oc_ok O).
Let HcL : c ∈ L := oc_live O.
Let d := dir_of s c.
Let va0 := PTX va * PDMAP.

Lemma table_va : user_va va0 /\ PDX va0 = PTX va.
Proof using Hk c d s va va0.
  pose proof (PTX_range va) as Hx. unfold va0, user_va. change UTOP with 2134900736. change PDMAP with 4194304. rewrite NU_eq in Hk.
  split; [lia|]. rewrite PDX_div, Z.div_mul, Z.mod_small by lia. done.
Qed.

Lemma table_facts : word (phys (pm s)) d (PDX UVPT) = mk_pte d 0 /\ valid (word (phys (pm s)) d (PTX va)) = false /\
  d ∈ dirs s L /\ 0 <= d < npage (pm s) /\ npage (pm s) <= 524288.
Proof using O Hi Hm.
  pose proof (k_pm _ _ _ _ _ I) as Ip. pose proof (inv_mem _ _ _ _ Ip) as W. pose proof (elem_of_dirs s L c HcL) as HD. fold d in HD.
  pose proof (wf_dirs _ _ _ W d HD) as Hd. pose proof (wf_npage _ _ _ W) as Hn.
  destruct (cur_windows L ext fl pfl sl c s O) as (b & [W1 _ _]). pose proof (W1 d HD) as Hs. split; [done|]. split; [|split; [done|split; [done|lia] ] ].
  unfold mapping, lookup_pte in Hm. fold d in Hm. rewrite Hi, Hs, valid_mk_pte, PPN_mk_pte in Hm by lia.
  by destruct (valid (word (phys (pm s)) d (PTX va))).
Qed.

(** The handler takes a page and installs it. *)
Lemma table_fault p pfl1 asid : pfl = p :: pfl1 -> exists t,
  passive_alloc va (slot d 0) asid s = Val tt (set_pm (set_tlb (delete (entryhi asid (PTE_ADDR va)) (tlb (pm s))) t) s) /\
  word (phys t) d (PTX va) = mk_pte p PTE_D /\ created (dirs s L) ext pfl (pm s) d va0 pfl1 t.
Proof using O Hu Hva Hi Hk Hm.
  intros Ep. destruct table_va as [Hv0 H0]. destruct table_facts as (Hs & Hinv & HD & Hd & Hn). pose proof (k_pm _ _ _ _ _ I) as Ip.
  destruct (walk_create_new (dirs s L) ext pfl (pm s) Ip d va0 HD Hv0 p pfl1 Ep ltac:(by rewrite H0)) as (q' & _ & EA & _ & _ & C).
  destruct (new_page_facts (dirs s L) ext pfl (pm s) Ip p pfl1 Ep) as (Hp & _ & Href & _ & _ & HPP). apply unreferenced_data in Href.
  assert (Hpd : p <> d) by (intros ->; by destruct Href). set (m' := new_table_memory (pm s) d va0 p) in *.
  exists (set_phys m' (set_pp_ref p 1 (set_free q' (pm s)))). split; [|split; [|exact C] ].
  2:{ cbn [phys set_phys]. unfold m', new_table_memory. by rewrite H0, word_upd, decide_True. }
  rewrite open_zones; [|change UTEMP with 4186112; unfold UVPT, ULIM, PDMAP in *; lia|change USTACKTOP with 2134892544; unfold BY2PG, UVPT, ULIM, PDMAP in *; lia|lia].
  rewrite (bind_pmap _ _ _ _ _ EA). set (t1 := set_phys _ (set_free q' (pm s))).
  assert (Hs1 : forall i, word (phys t1) d i = word (phys (pm s)) d i) by (intros i; cbn; by rewrite word_clear, decide_False).
  destruct (vpn_indices _ _ (PTE_ADDR_vpn va Hu)) as [Hi' Hk']. rewrite Hi in Hi'.
  pose proof (fun cr => walk_self t1 d (PTE_ADDR va) cr ltac:(by rewrite Hs1) Hi' Hd Hn) as EW.
  unfold panic_on, page_insert. erewrite (bind_pmap _ _ (set_pm t1 s)); [|cbn [pm set_pm]; rewrite (bind_val _ _ _ _ _ (EW false)), Hk';
    rewrite (bind_val _ _ _ _ _ (load_slot t1 d _ (PTX_range va))), Hs1; change (hasbits ?x PTE_V) with (valid x); rewrite Hinv;
    unfold page_insert_new, tlb_invalidate, tlb_out; rewrite bind_modify;
    rewrite (bind_val _ _ _ _ _ (walk_self (set_tlb (delete (entryhi asid (PTE_ADDR va)) (tlb t1)) t1) d (PTE_ADDR va) true ltac:(cbn; by rewrite Hs1) Hi' Hd Hn)), Hk';
    unfold set_pte; rewrite (bind_val _ _ _ _ _ (store_slot _ _ _ _ (PTX_range va))), bind_modify; reflexivity].
  cbn [Z.eqb negb]. unfold mret, M_ret. change (set_pm ?x (set_pm t1 s)) with (set_pm x s). f_equal. f_equal.
  unfold m', new_table_memory. rewrite H0. change (pp_ref (set_phys _ (set_tlb _ t1)) p) with (pp_ref (pm s) p).
  rewrite (inv_fl_ref _ _ _ _ Ip p) by (rewrite Ep; left). reflexivity.
Qed.

(** ... which changes no mapping. *)
Lemma table_step p pfl1 hi t : pfl = p :: pfl1 -> created (dirs s L) ext pfl (pm s) d va0 pfl1 t ->
  on_cpu L ext fl pfl1 sl c (set_pm (set_tlb (delete hi (tlb (pm s))) t) s) /\
  forall i a, i ∈ L -> user_va a -> mapping (set_pm (set_tlb (delete hi (tlb (pm s))) t) s) i a = mapping s i a.
Proof using O Hi Hk Hm.
  intros Ep [C1 C2 C3 C4 C5 C6 C7 C8 _ (C9 & C10 & C11) C12]. set (s' := set_pm _ s).
  assert (HM : forall i a, i ∈ L -> user_va a -> mapping s' i a = mapping s i a) by (intros i a Hin Ha; exact (C3 _ _ (elem_of_dirs s L i Hin) Ha)).
  split; [|exact HM]. destruct table_va as [Hv0 H0]. destruct table_facts as (_ & Hinv & _).
  assert (I' : kinv L ext fl pfl1 s').
  { apply (kinv_set_pm _ _ _ pfl); [exact I|by apply pmap_inv_tlb| |].
    - intros d' a v e Hs Hv He. apply tlb_subset in He. cbn [phys set_tlb]. rewrite C3; [|by apply (kinv_live _ _ _ _ _ I) in Hs as [? _]|done].
      by apply (k_coh _ _ _ _ _ I d' a).
    - intros h e. apply tlb_subset. }
  apply (on_cpu_memory L ext fl pfl pfl1 sl c s); [exact O| |done|exact C11].
  apply (kernel_ok_memory L ext fl pfl pfl1 s s' c va0); [exact (oc_ok O)| | | |].
  - split; [done|exact I'|exact C11|exact C9|]. intros i k Hin. apply C12. by apply elem_of_dirs.
  - intros i a Hin Ha _. by apply HM.
  - apply same_data_words; [|exact C5]. intros q Hq Hn. apply C8; [done|]. intros Hin. by destruct Hn.
  - intros pte. rewrite HM; [|exact HcL|done]. unfold mapping, lookup_pte. fold d. by rewrite H0, Hinv.
Qed.
End MissingTable.

(** ** The handler at every address a program loads *)

(** Why the kernel refuses an address. *)
Definition refused (s : kstate) (c va : Z) (msg : string) : Prop := mapping s c va = None /\
  ((USTACKTOP <= va < USTACKTOP + BY2PG /\ msg = "invalid memory"%string) \/
   (UENVS <= va < UPAGES /\ msg = "envs zone"%string) \/ (UPAGES <= va < UVPT /\ msg = "pages zone"%string)).

(** [m] gives a [Q], or the kernel halts for shortage, or for a reason in [D]. *)
Definition returns_or {A} (D : string -> Prop) (o : outcome kstate A) (Q : A -> kstate -> Prop) : Prop :=
  match o with
  | Val a s => Q a s
  | Panic msg _ => shortage msg \/ D msg
  | _ => False
  end.

Lemma returns_or_seq {A B} D (m : K A) (k : A -> K B) s P Q :
  returns_or D (m s) P -> (forall a s', P a s' -> returns_or D (k a s') Q) -> returns_or D ((m ≫= k) s) Q.
Proof. unfold mbind, M_bind. destruct (m s); cbn; auto. Qed.

Lemma returns_weaken {A} D (o : outcome kstate A) Q : returns o Q -> returns_or D o Q.
Proof. destruct o; cbn; tauto. Qed.


Lemma bind_same {S A B} (m m' : M S A) (k : A -> M S B) s : m s = m' s -> (m ≫= k) s = (m' ≫= k) s.
Proof. unfold mbind, M_bind. by intros ->. Qed.

Lemma refill_at_hit s va pte : _do_tlb_refill va (hw_asid s) s = Val pte s ->
  do_tlb_refill va s = Val pte (with_entry (hw_asid s) va pte s).
Proof. intros E. unfold do_tlb_refill. rewrite bind_gets. cbv beta. by rewrite (bind_val _ _ _ _ _ E). Qed.

Lemma refill_at_miss s va pgdir : cur_pgdir (pm s) = pgdir -> pmap_op (page_lookup pgdir va) s = Val None s ->
  do_tlb_refill va s = ((passive_alloc va pgdir (hw_asid s) ;; do_tlb_refill_loop 1 va (hw_asid s)) ≫= fun e =>
    pmap_op (modify (fun t => set_tlb (<[entryhi (hw_asid s) va := e]> (tlb t)) t)) ;; mret e) s.
Proof.
  intros Hc E. unfold do_tlb_refill, _do_tlb_refill. rewrite bind_gets. cbv beta. apply bind_same.
  cbn [do_tlb_refill_loop]. rewrite bind_gets, Hc. cbv beta. by rewrite (bind_val _ _ _ _ _ E).
Qed.

Lemma passive_refuses va pgdir asid s : UTEMP <= va -> 
  USTACKTOP <= va < USTACKTOP + BY2PG \/ UENVS <= va < UVPT -> exists msg, passive_alloc va pgdir asid s = Panic msg s /\
  ((USTACKTOP <= va < USTACKTOP + BY2PG /\ msg = "invalid memory"%string) \/
   (UENVS <= va < UPAGES /\ msg = "envs zone"%string) \/ (UPAGES <= va < UVPT /\ msg = "pages zone"%string)).
Proof.
  intros H0 H. unfold passive_alloc. rewrite (proj2 (Z.ltb_ge _ _) H0). cbn [when]. mstep.
  destruct (Z.leb_spec USTACKTOP va), (Z.ltb_spec va (USTACKTOP + BY2PG)); cbn [andb negb];
    try (eexists; split; [reflexivity|left; split; [lia|done] ]).
  all: assert (HU : UENVS <= UPAGES <= UVPT) by done; mstep; destruct (Z.leb_spec UENVS va); [|lia].
  all: destruct (Z.ltb_spec va UPAGES); cbn [andb negb]; [eexists; split; [reflexivity|right; left; split; [lia|done] ]|].
  all: mstep; rewrite (proj2 (Z.leb_le UPAGES va)), (proj2 (Z.ltb_lt va UVPT)) by lia; cbn [andb negb];
    eexists; split; [reflexivity|right; right; split; [lia|done] ].
Qed.

Section Readable.
Context (L : list Z) (ext : Z -> Z) (fl pfl sl : list Z) (c : Z) (s : kstate) (O : on_cpu L ext fl pfl sl c s).
Context (va : Z).
Let I : kinv L ext fl pfl s := ko_inv (oc_ok O).
Let HcL : c ∈ L := oc_live O.
Notation reads := (returns_or (refused s c va) (do_tlb_refill va s)
  (fun e s' => user_step L ext fl sl c s s' /\ (user_va va -> mapping s' c va = Some e))).

Lemma refused_ends pgdir : cur_pgdir (pm s) = pgdir -> pmap_op (page_lookup pgdir va) s = Val None s -> mapping s c va = None ->
  UTEMP <= va -> USTACKTOP <= va < USTACKTOP + BY2PG \/ UENVS <= va < UVPT -> reads.
Proof using.
  intros Hc E Hm H0 H. rewrite (refill_at_miss s va pgdir Hc E).
  destruct (passive_refuses va pgdir (hw_asid s) s H0 H) as (msg & EP & Hmsg).
  erewrite bind_panic by (erewrite bind_panic; [reflexivity|exact EP]). right. by split.
Qed.

Lemma writable_refill : writable va -> reads.
Proof using O.
  intros Hw. assert (Hva : user_va va) by (unfold writable, user_va in *; change UTEMP with 4186112 in *; lia).
  destruct (decide (USTACKTOP <= va < USTACKTOP + BY2PG)) as [Hg|Hg].
  2:{ apply returns_weaken. pose proof (refill_returns L ext fl sl c pfl s va O (conj Hw Hg)) as R.
      destruct (do_tlb_refill va s); cbn in *; [|done..]. by destruct R as [R1 R2]. }
  destruct (mapping s c va) as [pte|] eqn:Hm.
  - rewrite (refill_at_hit s va pte) by exact (refill_hit _ _ _ _ _ _ 2 va (hw_asid s) pte (oc_refilling O) Hva Hm).
    split; [|by intros _]. split; [|done|done]. exists pfl. apply (on_cpu_memory L ext fl pfl pfl sl c s); try done.
    pose proof (oc_ok O) as [_ HE HD HP HI]. split; try done; [rewrite (oc_asid O); by apply tlb_fill|]. destruct HP. by split.
  - destruct (env_lookup L ext fl pfl s I c va HcL Hva) as (o & El & Ho). rewrite Hm in Ho. rewrite Ho in El.
    apply (refused_ends _ (oc_dir O) El Hm); [apply Hw|by left].
Qed.

Lemma window_refill : is_u32 va -> UENVS <= va < UVPT -> PDX UTOP <= PDX va < PDX UVPT -> reads.
Proof using O.
  intros Hu Hw Hi. assert (Hn : ~ user_va va) by (apply (window_not_user c s); by left).
  destruct (mapping s c va) as [pte|] eqn:Hm.
  - rewrite (refill_at_hit s va pte) by (apply (window_hit L ext fl pfl sl c s O va ltac:(by left)); exact Hm).
    split; [|done]. by apply (window_entry L ext fl pfl sl c s O va Hu ltac:(by left)).
  - pose proof (window_lookup L ext fl pfl sl c s O va ltac:(by left)) as E. rewrite Hm in E.
    apply (refused_ends _ eq_refl E Hm); [|by right]. change UTEMP with 4186112. change UENVS with 2134900736 in Hw. lia.
Qed.

Lemma table_refill : is_u32 va -> UVPT <= va < ULIM -> PDX va = PDX UVPT -> PTX va < NU \/ PTX va = PDX UVPT -> reads.
Proof using O.
  intros Hu Hw Hi Hk. assert (HW : (UENVS <= va < UVPT /\ PDX UTOP <= PDX va < PDX UVPT) \/
    (UVPT <= va < ULIM /\ PDX va = PDX UVPT /\ (PTX va < NU \/ PTX va = PDX UVPT))) by (right; exact (conj Hw (conj Hi Hk))).
  pose proof (window_not_user c s va HW) as Hn. destruct (mapping s c va) as [pte|] eqn:Hm.
  { rewrite (refill_at_hit s va pte) by (apply (window_hit L ext fl pfl sl c s O va HW); exact Hm).
    split; [|done]. by apply (window_entry L ext fl pfl sl c s O va Hu HW). }
  pose proof (window_lookup L ext fl pfl sl c s O va HW) as E. rewrite Hm in E. pose proof (k_pm _ _ _ _ _ I) as Ip.
  destruct (table_facts L ext fl pfl sl c s O va Hi Hm) as (Hs & Hinv & HD & Hd & Hnp).
  assert (Hk' : PTX va < NU).
  { destruct Hk as [?|Hk]; [done|]. rewrite Hk, Hs, valid_mk_pte in Hinv. discriminate Hinv. }
  rewrite (oc_dir O), (k_dir _ _ _ _ _ I c HcL) in E. assert (Hcur : cur_pgdir (pm s) = slot (dir_of s c) 0) by (rewrite (oc_dir O); exact (k_dir _ _ _ _ _ I c HcL)).
  rewrite (refill_at_miss s va _ Hcur E). assert (Hcase : pfl = [] \/ exists p l, pfl = p :: l) by (clear; destruct pfl; [by left|right; by do 2 eexists]).
  destruct Hcase as [Ep|(p & pfl1 & Ep)].
  { assert (EP : passive_alloc va (slot (dir_of s c) 0) (hw_asid s) s = Panic "page_alloc(&p)" s).
    { rewrite open_zones; [|change UTEMP with 4186112; unfold UVPT, ULIM, PDMAP in *; lia|change USTACKTOP with 2134892544; unfold BY2PG, UVPT, ULIM, PDMAP in *; lia|lia].
      rewrite (bind_pmap_id _ _ _ (Err (- E_NO_MEM))); [done|]. apply page_alloc_empty. rewrite <- Ep. apply (inv_fl _ _ _ _ Ip). }
    erewrite bind_panic by (erewrite bind_panic; [reflexivity|exact EP]). left. right. by left. }
  destruct (table_fault L ext fl pfl sl c s O va Hu Hw Hi Hk' Hm p pfl1 (hw_asid s) Ep) as (t & EP & Hpte & C).
  destruct (table_step L ext fl pfl sl c s O va Hi Hk' Hm p pfl1 (entryhi (hw_asid s) (PTE_ADDR va)) t Ep C) as [O' HM].
  set (s' := set_pm (set_tlb _ t) s) in *.
  assert (Hm' : mapping s' c va = Some (mk_pte p PTE_D)).
  { unfold mapping, lookup_pte. change (dir_of s' c) with (dir_of s c). change (phys (pm s')) with (phys t).
    rewrite Hi, (cr_high _ _ _ _ _ _ _ _ C _ (PDX UVPT) HD ltac:(done)), Hs, valid_mk_pte, PPN_mk_pte, Hpte, valid_mk_pte by lia. done. }
  assert (EL : (passive_alloc va (slot (dir_of s c) 0) (hw_asid s) ;; do_tlb_refill_loop 1 va (hw_asid s)) s = Val (mk_pte p PTE_D) s').
  { rewrite (bind_val _ _ _ _ _ EP). apply (window_hit L ext fl pfl1 sl c s' O' va HW). exact Hm'. }
  rewrite (bind_val _ _ _ _ _ EL). split; [|done].
  apply (user_step_trans L ext fl sl c s s').
  - split; [by exists pfl1|done|]. intros a w [Ha Hwr]. split; [done|]. intros -> pte. rewrite HM; [by apply Hwr|exact HcL|by apply passive_user].
  - apply (window_entry L ext fl pfl1 sl c s' O' va Hu HW).
Qed.

Lemma refill_readable : readable va -> reads.
Proof using O.
  intros [Hw|[(Hu & Hw & Hi)|(Hu & Hw & Hi & Hk)] ]%readable_cases; [by apply writable_refill|by apply window_refill|by apply table_refill].
Qed.
End Readable.

(** ** System calls through the dispatcher *)

(** The two arguments on the user stack. *)
Definition load_args (sp : Z) : K (Z * Z) :=
  arg4 ← uload (u32 (sp + 16)); arg5 ← uload (u32 (sp + 20)); mret (arg4, arg5).

Lemma do_syscall_args tf s : ktf s = tf -> 0 <= s32 (reg tf 4) < MAX_SYSNO ->
  do_syscall s = (args ← load_args (reg tf 29);
    r ← syscall_table (s32 (reg tf 4)) (reg tf 5) (reg tf 6) (reg tf 7) args.1 args.2;
    modify (fun s => set_ktf (set_reg 2 (u32 r) (ktf s)) s)) (set_ktf (set_epc (u32 (cp0_epc tf + 4)) tf) s).
Proof.
  intros Ht Hn. unfold do_syscall. rewrite bind_gets, Ht. cbv beta zeta.
  destruct (Z.ltb_spec (s32 (reg tf 4)) 0), (Z.leb_spec MAX_SYSNO (s32 (reg tf 4))); try lia. cbn [orb].
  rewrite bind_modify. unfold load_args. rewrite Ht, !bind_bind.
  apply bind_ext. intros a4 s1. rewrite !bind_bind. by apply bind_ext.
Qed.

(** ** What may trap *)

(** The stack pointer [do_tlb_mod] saves the frame at. *)
Definition fault_sp (tf : Trapframe) : Z :=
  let sp := reg tf 29 in
  let sp := if (sp <? USTACKTOP) || (UXSTACKTOP <=? sp) then UXSTACKTOP else sp in
  u32 (sp - sizeof_Trapframe).

(** The frame of an exception of program [c]: its words are 32 bits wide; an address that
    misses the TLB is one that programs load; a program that takes TLB Mod has room for the
    frame on its exception stack; a system call has readable arguments and, unless it is
    sys_panic, respects [sane]. A timer interrupt, a number outside the table and an
    exception without a handler may come at any time. *)
Definition trap_ok (s : kstate) (c : Z) (tf : Trapframe) : Prop :=
  (length (regs tf) = 32%nat /\ forall i, is_u32 (reg tf i)) /\
  match exception_handlers (exc_code tf) with
  | handle_int => True
  | handle_tlb => readable (cp0_badvaddr tf)
  | handle_mod => words_ok s c (fault_sp tf) 38 true
  | handle_sys => 0 <= s32 (reg tf 4) < MAX_SYSNO ->
      words_ok s c (u32 (reg tf 29 + 16)) 2 false /\
      (s32 (reg tf 4) <> 12 -> forall a4 a5 s',
        load_args (reg tf 29) (set_ktf (set_epc (u32 (cp0_epc tf + 4)) tf) s) = Val (a4, a5) s' ->
        sane s' c (s32 (reg tf 4)) (reg tf 5) (reg tf 6) (reg tf 7) a4 a5)
  | handle_reserved => True
  end.

(** The exceptions that halt the machine: an address that is refused, a store to a page
    without PTE_D by a program without a handler for it, sys_panic (12), and an exception
    the kernel has no handler for. *)
Definition fatal (s : kstate) (c : Z) (tf : Trapframe) (msg : string) : Prop :=
  match exception_handlers (exc_code tf) with
  | handle_int => False
  | handle_tlb => refused s c (cp0_badvaddr tf) msg
  | handle_mod => env_user_tlb_mod_entry (env s c) = 0 /\ msg = "TLB Mod but no user handler registered"%string
  | handle_sys => s32 (reg tf 4) = 12 /\ msg = "%s"%string
  | handle_reserved => msg = "Unknown ExcCode"%string
  end.

(** [ends], with panics for the reasons in [D]. *)
Definition ends_or (ext : Z -> Z) {A} (D : string -> Prop) (o : outcome kstate A) (Q : A -> kstate -> Prop) : Prop :=
  match o with
  | Panic msg _ => shortage msg \/ D msg
  | _ => ends ext o Q
  end.

Lemma ends_weaken ext {A} D (o : outcome kstate A) Q : ends ext o Q -> ends_or ext D o Q.
Proof. destruct o; cbn; tauto. Qed.

Lemma ends_or_seq ext {A B} D (m : K A) (k : A -> K B) s P Q :
  ends ext (m s) P -> (forall a s', P a s' -> ends_or ext D (k a s') Q) -> ends_or ext D ((m ≫= k) s) Q.
Proof. unfold mbind, M_bind. destruct (m s); cbn; auto. Qed.

Section Trap.
Context (L : list Z) (ext : Z -> Z) (fl pfl sl : list Z) (c : Z) (s : kstate) (O : on_cpu L ext fl pfl sl c s).
Notation back := (fun _ s' => user_mode ext c s').

Lemma load_args_ends sp : words_ok s c (u32 (sp + 16)) 2 false ->
  ends ext (load_args sp s) (fun _ s' => user_step L ext fl sl c s s').
Proof using O.
  intros W. pose proof (words_ok_cons _ _ _ _ _ W) as [A1 W1]. pose proof (words_ok_cons _ _ _ _ _ W1) as [A2 _].
  rewrite u32_add in A2, W1. replace (sp + 16 + 4) with (sp + 20) in A2, W1 by lia.
  apply (ends_after L ext fl sl c _ _ s); [by apply (uload_ends L ext fl sl c pfl); [|apply W|]|]. intros a s1 pfl1 U1 O1.
  apply (ends_after L ext fl sl c _ _ s1).
  { apply (uload_ends L ext fl sl c pfl1); [done|apply W1|by apply (us_acc U1)]. }
  intros b s2 pfl2 U2 O2. by apply (ends_here L ext fl sl c _ pfl2).
Qed.

Lemma ktf_back tf : user_mode ext c (set_ktf tf s).
Proof using O. exists L, fl, pfl, sl. by apply (on_cpu_outside _ _ _ _ _ _ _ (set_ktf tf) (outside_ktf (fun _ => tf))). Qed.

Lemma do_tlb_mod_ends : length (regs (ktf s)) = 32%nat -> words_ok s c (fault_sp (ktf s)) 38 true ->
  ends_or ext (fun msg => env_user_tlb_mod_entry (env s c) = 0 /\ msg = "TLB Mod but no user handler registered"%string)
    (do_tlb_mod KTF s) back.
Proof using O.
  intros Hl Hw. unfold do_tlb_mod. cbn [get_tf put_tf]. rewrite bind_gets. cbv beta zeta. fold (fault_sp (ktf s)).
  set (tf := ktf s) in *. rewrite bind_modify. set (s0 := set_ktf _ s).
  assert (O0 : on_cpu L ext fl pfl sl c s0) by exact (on_cpu_outside _ _ _ _ _ _ _ (set_ktf _) (outside_ktf (fun _ => _)) O).
  apply (ends_or_seq ext _ _ _ _ (fun _ s1 => user_step L ext fl sl c s0 s1)).
  { apply (ustore_words_ends L ext fl sl c _ pfl); [done|]. unfold tf_words. rewrite length_app, Hl. exact Hw. }
  intros _ s1 U1. destruct (us_cpu U1) as (pfl1 & O1). unfold curenv_deref. rewrite bind_bind, bind_gets. cbv beta. rewrite (oc_cur O1). cbn [lift_opt]. mstep.
  unfold get_env. rewrite bind_gets. cbv beta. rewrite (user_step_env L ext fl sl c s0 s1 c U1). change (env s0 c) with (env s c).
  destruct (Z.eqb_spec (env_user_tlb_mod_entry (env s c)) 0) as [He|_]; cbn [negb]; [right; by split|]. rewrite bind_gets. cbv beta.
  exists L, fl, pfl1, sl. exact (on_cpu_outside _ _ _ _ _ _ _ (set_ktf _) (outside_ktf (fun _ => _)) O1).
Qed.
End Trap.

Lemma do_syscall_ends L ext fl pfl sl c s tf : on_cpu L ext fl pfl sl c s -> ktf s = tf -> (forall i, is_u32 (reg tf i)) ->
  (0 <= s32 (reg tf 4) < MAX_SYSNO -> words_ok s c (u32 (reg tf 29 + 16)) 2 false /\
    (s32 (reg tf 4) <> 12 -> forall a4 a5 s', load_args (reg tf 29) (set_ktf (set_epc (u32 (cp0_epc tf + 4)) tf) s) = Val (a4, a5) s' ->
      sane s' c (s32 (reg tf 4)) (reg tf 5) (reg tf 6) (reg tf 7) a4 a5)) ->
  ends_or ext (fun msg => s32 (reg tf 4) = 12 /\ msg = "%s"%string) (do_syscall s) (fun _ s' => user_mode ext c s').
Proof.
  intros O Ht Hu Hs. destruct (decide (0 <= s32 (reg tf 4) < MAX_SYSNO)) as [Hn|Hn].
  - destruct (Hs Hn) as [Hw Hsane]. rewrite (do_syscall_args tf s Ht Hn). set (s0 := set_ktf _ s) in *.
    assert (O0 : on_cpu L ext fl pfl sl c s0) by exact (on_cpu_outside _ _ _ _ _ _ _ (set_ktf _) (outside_ktf (fun _ => _)) O).
    pose proof (load_args_ends L ext fl pfl sl c s0 O0 (reg tf 29) Hw) as E.
    destruct (load_args (reg tf 29) s0) as [[a4 a5] s1|msg s1| |] eqn:Ea;
      [|rewrite (bind_panic _ _ _ _ _ Ea); by left|apply ends_weaken, ends_bind; rewrite Ea; exact E..].
    rewrite (bind_val _ _ _ _ _ Ea). destruct (us_cpu E) as (pfl1 & O1). cbn [fst snd].
    destruct (decide (s32 (reg tf 4) = 12)) as [E12|N12]; [rewrite E12; right; by split|]. apply ends_weaken.
    apply (ends_seq _ _ _ _ (fun _ s' => user_mode ext c s')).
    + apply (syscall_ends L ext fl pfl1 sl); [done|done|apply Hu|apply Hu|]. by apply Hsane.
    + intros r s2 (L2 & fl2 & pfl2 & sl2 & O2). by apply (ktf_back L2 ext fl2 pfl2 sl2).
  - unfold do_syscall. rewrite bind_gets, Ht. cbv beta zeta.
    assert (Hb : (s32 (reg tf 4) <? 0) || (MAX_SYSNO <=? s32 (reg tf 4)) = true).
    { destruct (Z.ltb_spec (s32 (reg tf 4)) 0), (Z.leb_spec MAX_SYSNO (s32 (reg tf 4))); done || lia. }
    rewrite Hb. by apply (ktf_back L ext fl pfl sl).
Qed.

(** Whatever the handler does, the way back to user mode finds no signal. *)
Lemma ret_ends ext c s l : user_mode ext c s -> exists tf, (ret_from_exception l ;; get_tf l) s = Val tf s.
Proof.
  intros (L & fl & pfl & sl & O).
  assert (E : ret_from_exception l s = Val tt s)
    by exact (no_signal l c s (oc_cur O) (ef_quiet (ko_env (oc_ok O) c))).
  rewrite (bind_val _ _ _ _ _ E). by destruct l; eexists.
Qed.

Lemma exception_ends ext c s tf : user_mode ext c s -> trap_ok s c tf ->
  (exists tf' c' s', exception tf s = Val tf' s' /\ user_mode ext c' s') \/
  (exists msg s', exception tf s = Panic msg s' /\ (shortage msg \/ fatal s c tf msg)).
Proof.
  intros (L & fl & pfl & sl & O) [[Hl Hu] H]. unfold exception, fatal. set (s0 := set_ktf tf s) in *.
  assert (O0 : on_cpu L ext fl pfl sl c s0) by exact (on_cpu_outside _ _ _ _ _ _ _ (set_ktf _) (outside_ktf (fun _ => _)) O).
  assert (E : ends_or ext (fatal s c tf) (run_handler (exception_handlers (exc_code tf)) s0) (fun _ s' => user_mode ext c s')).
  { unfold fatal. destruct (exception_handlers (exc_code tf)); cbn [run_handler]; [|rewrite bind_gets; cbv beta|..].
    - apply ends_weaken. by apply (schedule_ends L ext fl pfl sl), (on_cpu_handing _ _ _ _ _ c).
    - pose proof (refill_readable L ext fl pfl sl c s0 O0 _ H) as R. change (cp0_badvaddr (ktf s0)) with (cp0_badvaddr tf).
      destruct (do_tlb_refill (cp0_badvaddr tf) s0) as [e s1|msg s1| |] eqn:Er; [|rewrite (bind_panic _ _ _ _ _ Er); exact R|done|done].
      rewrite (bind_val _ _ _ _ _ Er). destruct R as [U _], (us_cpu U) as (pfl1 & O1). by exists L, fl, pfl1, sl.
    - by apply (do_tlb_mod_ends L ext fl pfl sl c s0 O0).
    - by apply (do_syscall_ends L ext fl pfl sl c s0 tf).
    - by right. }
  destruct (run_handler _ s0) as [[] s1|msg s1|e s1|]; cbn in E.
  - left. destruct (ret_ends ext c s1 KTF E) as (tf' & Et). by exists tf', c, s1.
  - right. by exists msg, s1.
  - left. destruct (ret_ends ext e s1 (ETF e) E) as (tf' & Et). by exists tf', e, s1.
  - done.
Qed.

(** ** Programs and the kernel, step by step *)

(** What happens next: an exception with the frame [tf], or a load or store of the program
    that runs (through the TLB and, on a miss, the refill handler; a store that is not
    permitted changes nothing, its exception is the next [Trap]). *)
Inductive event :=
| Trap (tf : Trapframe)
| Load (va : Z)
| Store (va b : Z).

Definition run_event (ev : event) : K unit :=
  match ev with
  | Trap tf => exception tf ;; mret tt
  | Load va => access va false ;; mret tt
  | Store va b => o ← access va true;
      match o with Some p => modify (poke p (va mod 4096) b) | None => mret tt end
  end.

(** The events the theorems cover. *)
Definition allowed (s : kstate) (c : Z) (ev : event) : Prop :=
  match ev with
  | Trap tf => trap_ok s c tf
  | Load va => readable va
  | Store va _ => writable va
  end.

(** The events at which the kernel halts by design. *)
Definition halts (s : kstate) (c : Z) (ev : event) (msg : string) : Prop :=
  match ev with
  | Trap tf => fatal s c tf msg
  | Load va | Store va _ => refused s c va msg
  end.

Inductive reachable (s0 : kstate) : kstate -> Prop :=
| reach_start : reachable s0 s0
| reach_step s c ev s' : reachable s0 s -> curenv s = Some c -> allowed s c ev -> run_event ev s = Val tt s' ->
    reachable s0 s'.

Lemma access_returns L ext fl pfl sl c s va w : on_cpu L ext fl pfl sl c s -> readable va ->
  returns_or (refused s c va) (access va w s) (fun o s' => user_step L ext fl sl c s s' /\
    (user_va va -> forall p, o = Some p -> user_page (dirs s' L) ext (phys (pm s')) p)).
Proof.
  intros O Hr. unfold access. rewrite bind_gets. cbv beta. rewrite bind_gets. cbv beta.
  apply (returns_or_seq _ _ _ _ (fun e s' => user_step L ext fl sl c s s' /\ (user_va va -> mapping s' c va = Some e))).
  - destruct (tlb (pm s) !! entryhi (hw_asid s) va) as [e|] eqn:Et; [|by apply (refill_readable L ext fl pfl)].
    split; [by apply (user_step_refl L ext fl sl c pfl)|]. intros Hva.
    apply (k_coh _ _ _ _ _ (ko_inv (oc_ok O)) (dir_of s c) (hw_asid s)); [|done|done].
    apply elem_of_spaces. exists c. split; [exact (oc_live O)|]. split; [done|exact (oc_asid O)].
  - intros e s' [U Hm]. split; [done|]. intros Hva p. destruct (_ && _); [done|]. intros [= <-].
    destruct (us_cpu U) as (pfl1 & O1). by apply (ko_data (oc_ok O1) c va); [exact (oc_live O1)| |apply Hm].
Qed.

Lemma poke_step L ext fl pfl sl c s p off b : on_cpu L ext fl pfl sl c s -> user_page (dirs s L) ext (phys (pm s)) p ->
  0 <= off < 4096 -> user_step L ext fl sl c s (poke p off b s).
Proof.
  intros O Hp Ho. apply (store_step L ext fl sl c pfl s p); [done|done|..]; intros *; unfold set_page_byte; rewrite word_upd.
  - intros Hne. rewrite decide_False; [done|]. by intros [<- _].
  - pose proof (memory_words L ext fl sl c pfl s p) as Hw.
    case_decide; [|by apply Hw]. apply set_word_byte_u32; [by apply Hw|].
    pose proof (Z.mod_pos_bound off 4). lia.
Qed.

Lemma event_ends ext c s ev : user_mode ext c s -> allowed s c ev ->
  (exists c' s', run_event ev s = Val tt s' /\ user_mode ext c' s') \/
  (exists msg s', run_event ev s = Panic msg s' /\ (shortage msg \/ halts s c ev msg)).
Proof.
  intros HU Ha. destruct ev as [tf|va|va b]; cbn [run_event allowed halts] in *.
  - destruct (exception_ends ext c s tf HU Ha) as [(tf' & c' & s' & E & U)|(msg & s' & E & Hs)].
    + left. exists c', s'. by rewrite (bind_val _ _ _ _ _ E).
    + right. exists msg, s'. by rewrite (bind_panic _ _ _ _ _ E).
  - destruct HU as (L & fl & pfl & sl & O). pose proof (access_returns L ext fl pfl sl c s va false O Ha) as E.
    destruct (access va false s) as [o s'|msg s'| |] eqn:Ea; [..|done|done].
    + left. destruct E as [U _]. destruct (us_cpu U) as (pfl1 & O1). exists c, s'. rewrite (bind_val _ _ _ _ _ Ea). split; [done|]. by exists L, fl, pfl1, sl.
    + right. exists msg, s'. by rewrite (bind_panic _ _ _ _ _ Ea).
  - destruct HU as (L & fl & pfl & sl & O). destruct (writable_readable va Ha) as [Hr Hva].
    pose proof (access_returns L ext fl pfl sl c s va true O Hr) as E.
    destruct (access va true s) as [o s'|msg s'| |] eqn:Ea; [..|done|done].
    + left. destruct E as [U Hd]. destruct (us_cpu U) as (pfl1 & O1). exists c. rewrite (bind_val _ _ _ _ _ Ea).
      destruct o as [p|]; eexists; (split; [reflexivity|]); [|by exists L, fl, pfl1, sl].
      assert (Ho : 0 <= va mod 4096 < 4096) by (by apply Z.mod_pos_bound).
      destruct (us_cpu (poke_step L ext fl pfl1 sl c s' p (va mod 4096) b O1 (Hd Hva p eq_refl) Ho)) as (pfl2 & O2).
      by exists L, fl, pfl2, sl.
    + right. exists msg, s'. by rewrite (bind_panic _ _ _ _ _ Ea).
Qed.

Lemma user_cur {ext c s} : user_mode ext c s -> curenv s = Some c.
Proof. intros (L & fl & pfl & sl & O). exact (oc_cur O). Qed.

Lemma reachable_user ext c0 s0 s : user_mode ext c0 s0 -> reachable s0 s -> exists c, user_mode ext c s.
Proof.
  intros H0 R. induction R as [|s c ev s' R IH Hc Ha E]; [by exists c0|]. destruct IH as (c' & HU).
  assert (c' = c) as -> by (pose proof (user_cur HU); congruence).
  destruct (event_ends ext c s ev HU Ha) as [(c2 & s2 & E2 & U2)|(msg & s2 & E2 & _)]; rewrite E in E2; [|done].
  injection E2 as <-. by exists c2.
Qed.

Lemma event_safe {ext c s} : user_mode ext c s -> forall ev, allowed s c ev ->
  (exists s', run_event ev s = Val tt s') \/
  (exists msg s', run_event ev s = Panic msg s' /\ (shortage msg \/ halts s c ev msg)).
Proof.
  intros HU ev Ha. destruct (event_ends ext c s ev HU Ha) as [(c2 & s2 & E2 & _)|H]; [left; by exists s2|by right].
Qed.

(** C2: The kernel keeps its invariant, and does nothing undefined, for programs whose events
    respect [allowed]. Start in a state in which a program runs in user mode and the invariant
    holds (page tables and reference counts consistent, the TLB coherent, no page that user
    code reaches a page directory, a page table or a page of the kernel, the windows in every
    directory, the run queue exactly the runnable environments, the free ones marked so, a
    waiting one stopped). Then in every state that allowed events reach a program runs with
    the invariant, and every allowed event comes back to user mode, of the same or of another
    program, or halts the machine: no page or no runnable environment is left, or a reason of
    [halts] (an unmapped page of a window or the guard page above the stack, TLB Mod without a
    registered handler, sys_panic, an exception without a handler).

    Allowed are: loads from UTEMP up, of the windows [envs] and [pages] and of the page tables
    of user memory at UVPT; stores from UTEMP to UTOP; misses of the TLB at the addresses that
    may be loaded; timer interrupts; TLB Mod with room for the frame on the exception stack;
    unknown exceptions; and system calls whose arguments respect [sane].

    Not covered, most of them because the code does break the invariant there: addresses
    below UTEMP, sys_kill and what else makes a signal pending; stores above UTOP, and loads
    of page tables for addresses above ULIM; and by [sane]: permission bits from 12 on,
    reference counts at 65535, sys_exofork without a page, an ASID or an identifier left,
    stopping oneself with sys_set_env_status or making a waiting receiver runnable with it,
    destroying an environment that is not runnable, pointers (the stack pointer among them)
    to memory the caller cannot access, signal numbers outside 1 to 64, sys_back_do_signal for another environment, and
    waiting for a character that does not come. *)
Theorem kernel_safe ext c0 s0 s : user_mode ext c0 s0 -> reachable s0 s ->
  exists c, curenv s = Some c /\ user_mode ext c s /\ forall ev, allowed s c ev ->
    (exists s', run_event ev s = Val tt s') \/
    (exists msg s', run_event ev s = Panic msg s' /\ (shortage msg \/ halts s c ev msg)).
Proof.
  intros H0 R. destruct (reachable_user ext c0 s0 s H0 R) as (c & HU). exists c.
  split; [exact (user_cur HU)|]. split; [done|exact (event_safe HU)].
Qed.

(** ** Witness: the only program of a small kernel *)
Lemma one_env_fine i : env_fine (i ∈ [0]) (env one_env i).
Proof.
  assert (Hs : forallb (fun x : Z * Env => x.1 =? 0) (map_to_list (envs one_env)) = true) by (vm_compute; reflexivity).
  destruct (decide (i = 0)) as [->|Hne].
  - split.
    + intros _. left. apply one_env_ok.
    + intros H. destruct H. left.
    + intros H. exfalso. apply H. vm_compute. reflexivity.
    + vm_compute. reflexivity.
    + vm_compute. reflexivity.
  - assert (E : env one_env i = env0).
    { unfold env. destruct (envs one_env !! i) as [v|] eqn:E; [|reflexivity]. exfalso.
      rewrite forallb_forall in Hs. specialize (Hs (i, v)).
      rewrite <- list_elem_of_In, elem_of_map_to_list in Hs. specialize (Hs E). cbn [fst] in Hs. apply Z.eqb_eq in Hs. exact (Hne Hs). }
    rewrite E. split.
    + intros H. apply list_elem_of_singleton in H. congruence.
    + reflexivity.
    + intros H. by destruct H.
    + reflexivity.
    + reflexivity.
Qed.

(** The switch to [c] makes a state one in which user mode runs. *)
Lemma running_as_on_cpu L ext fl pfl sl c s : kernel_ok L ext fl pfl s -> run_queue s sl -> curenv s = Some c ->
  env_status (env s c) = ENV_RUNNABLE -> on_cpu L ext fl pfl sl c (running_as c s).
Proof.
  intros O [Q1 Q2] Hc Hr. split; [|by split|done|done|done|done].
  by apply (kernel_ok_frame L ext fl pfl s _ (env_pgdir (env s c))); [..|exact (ko_env O)|].
Qed.

Lemma one_env_pages : kernel_pages (dirs one_env [0]) (boot_ext 1) (base_pgdir one_env) (pm one_env).
Proof.
  assert (HD : dirs one_env [0] = [7]) by (vm_compute; reflexivity).
  assert (HE : forallb (fun i => negb (valid (word (phys (pm one_env)) 7 i))) (zseq 0 509) = true) by (vm_compute; reflexivity).
  assert (HW : forallb (fun i => negb (valid (word (phys (pm one_env)) 0 i)) && (word (phys (pm one_env)) 7 i =? word (phys (pm one_env)) 0 i))
    (zseq 509 2) = true) by (vm_compute; reflexivity).
  assert (HS : word (phys (pm one_env)) 7 (PDX UVPT) = mk_pte 7 0) by (vm_compute; reflexivity).
  assert (HB : base_pgdir one_env = slot 0 0) by (vm_compute; reflexivity).
  rewrite forallb_forall in HE, HW. rewrite HD, HB. clear HD HB.
  assert (HW' : forall i, PDX UTOP <= i < PDX UVPT -> valid (word (phys (pm one_env)) 0 i) = false /\ word (phys (pm one_env)) 7 i = word (phys (pm one_env)) 0 i).
  { intros i Hi. change (PDX UTOP) with 509 in Hi. change (PDX UVPT) with 511 in Hi.
    assert (Hin : i ∈ zseq 509 2) by (apply elem_of_zseq; lia). apply list_elem_of_In, HW, andb_true_iff in Hin as [H1 H2].
    split; [exact (proj1 (negb_true_iff _) H1)|exact (proj1 (Z.eqb_eq _ _) H2)]. }
  split.
  - intros q Hq. unfold boot_ext in Hq. destruct (Z.leb_spec 0 q) as [H1|H1], (Z.ltb_spec q 1) as [H2|H2]; cbn in Hq; try lia.
    split; [rewrite list_elem_of_singleton; lia|]. intros d i ->%list_elem_of_singleton Hi Hv. exfalso.
    assert (Hin : i ∈ zseq 0 509) by (apply elem_of_zseq; rewrite NU_eq in Hi; lia). apply list_elem_of_In, HE in Hin.
    rewrite Hv in Hin. discriminate Hin.
  - intros b Hb. assert (b = 0) as -> by (unfold slot in Hb; lia). split.
    + intros d ->%list_elem_of_singleton. exact HS.
    + intros d i ->%list_elem_of_singleton Hi. apply HW'. exact Hi.
    + intros i Hi Hv. destruct (HW' i Hi) as [Hf _]. rewrite Hf in Hv. discriminate Hv.
Qed.

Lemma one_env_kernel_ok : kernel_ok [0] (boot_ext 1) (zseq 1 (Z.to_nat 1023)) [6; 5; 4; 3; 2; 1] one_env.
Proof.
  split; [exact (proj1 one_env_ok)|exact one_env_fine| |exact one_env_pages|exact (proj1 one_env_counter)].
  intros i va pte Hi%list_elem_of_singleton Hva Hm. rewrite Hi, one_env_unmapped in Hm by exact Hva. discriminate Hm.
Qed.

Lemma running_on_cpu : user_mode (boot_ext 1) 0 TlbThms.running.
Proof.
  do 4 eexists. unfold TlbThms.running. destruct one_env_ok as (_ & _ & Hc & Hr).
  exact (running_as_on_cpu _ _ _ _ _ 0 one_env one_env_kernel_ok one_env_queue Hc Hr).
Qed.

Lemma running_stores : match run_event (Store 4194304 65) TlbThms.running with Val _ _ => True | _ => False end.
Proof. vm_compute. exact I. Qed.

Lemma timer_ok s c : trap_ok s c tf0.
Proof.
  split; [|exact I]. split; [reflexivity|]. intros i. unfold reg. cbn [regs tf0].
  assert (H : nth i (replicate 32 0) 0 = 0) by (do 33 (destruct i as [|i]; [reflexivity|]); by destruct i).
  rewrite H. split; [discriminate|reflexivity].
Qed.

#[local] Opaque TlbThms.running.

Lemma table_readable : readable (UVPT + 4096).
Proof. right. split; [vm_compute; split; [discriminate|reflexivity]|]. left. vm_compute. reflexivity. Qed.

(** A store to a page that is not there yet; then a timer interrupt, or a load of the entry of
    an address whose page table is not there ([vpt] at UVPT + 4096). *)
Lemma kernel_safe_witness : exists s1 c, run_event (Store 4194304 65) TlbThms.running = Val tt s1 /\
  user_mode (boot_ext 1) c s1 /\ forall ev, ev ∈ [Trap tf0; Load (UVPT + 4096)] ->
  ((exists s2, run_event ev s1 = Val tt s2) \/
   (exists msg s2, run_event ev s1 = Panic msg s2 /\ (shortage msg \/ halts s1 c ev msg))).
Proof.
  pose proof running_stores as Hs.
  destruct (run_event (Store 4194304 65) TlbThms.running) as [[] s1| | |] eqn:E; [|destruct Hs..].
  destruct running_on_cpu as (L & fl & pfl & sl & O) eqn:EO. clear EO.
  assert (R : reachable TlbThms.running s1)
    by exact (reach_step _ _ 0 (Store 4194304 65) s1 (reach_start _) (oc_cur O) (proj1 passive_4M) E).
  destruct (kernel_safe (boot_ext 1) 0 TlbThms.running s1 running_on_cpu R) as (c & _ & HU & Hev).
  exists s1, c. split; [reflexivity|]. split; [exact HU|]. intros ev [->|[->|[]%elem_of_nil]%elem_of_cons]%elem_of_cons.
  - exact (Hev (Trap tf0) (timer_ok s1 c)).
  - exact (Hev (Load (UVPT + 4096)) table_readable).
Defined.
