(* ===== verification/Boot.v ===== *)
(** * From reset to user mode (init/init.c, tests/*/init.c, and the self-tests)

    [boot]: the memory and the environments are set up, in the order of mips_init; then
    [mips_programs] creates the first programs and the first timer interrupt runs one of
    them. Shown here: [boot] establishes the invariant of the kernel and maps [pages] and
    [envs] in the template directory, and what it boots is a state from which
    [KernelSafe.kernel_safe] starts. The self-tests of kern/pmap.c and kern/env.c are at
    the end. *)

From Stdlib Require Import ZArith Lia.
From stdpp Require Import base numbers list gmap strings.
From S2P Require Import Prelude Queue Mmu Pmap PmapInv PmapOps PmapInsert PmapThms.
From S2P Require Import KState Elf ElfThms Signo Env Sched TlbEx Signal Syscall Traps EnvThms SchedThms PmapFree EnvInv EnvSpec MemThms TlbThms IpcThms SysThms.
From S2P Require Import Str StrThms Wp ForkAccess Kernel KernelCalls KernelSafe.
Import LIST.

(** ** The start of the kernel *)

(** mips_detect_memory, mips_vm_init, page_init, env_init, as in tests/lab3_1/init.c.
    [memsize_reg] is what the machine reports, [kend] the end of the kernel's image,
    [envs_kva] the address of [envs] in it. *)
Definition boot (memsize_reg kend envs_kva : Z) : K unit :=
  pages ← pmap_op (mips_mem_init memsize_reg kend);
  env_init pages envs_kva.

(** ENV_CREATE_PRIORITY: a program is its binary and its priority. *)
Definition create_all (programs : list (list Z * Z)) : K unit :=
  for_each programs (fun p => env_create p.1 p.2 ;; mret tt).

(** mips_init up to kclock_init: tests/lab4_2/init.c has this form, and init/init.c with the
    calls its comments list. *)
Definition mips_programs (memsize_reg kend envs_kva : Z) (programs : list (list Z * Z)) : K unit :=
  boot memsize_reg kend envs_kva ;; create_all programs.

(** mips_init as it is committed: the calls that set up memory and environments are
    comments. *)
Definition mips_init (user_bare_loop : list Z) : K unit :=
  env_create user_bare_loop 1 ;; env_create user_bare_loop 2 ;; mret tt.

(** ** A window of the template directory *)
Section Window.
Context (ext : Z -> Z) (b t va pp0 perm : Z) (fl : list Z) (s : pmap_st).
Context (Hva : is_u32 va) (Hb : 0 <= b < npage s) (Htb : t <> b) (Hperm : 0 <= perm < 4096) (Htlb : tlb s = ∅).

(** The counts when the first [k] pages are mapped. *)
Definition mapped_ext (k p : Z) : Z := ext p + ind (p =? t) + ind ((pp0 <=? p) && (p <? pp0 + k)).

Record window (k : Z) (s' : pmap_st) : Prop := {
  wn_inv : pmap_inv [] (mapped_ext k) fl s';
  wn_dir : word (phys s') b (PDX va) = mk_pte t PTE_D;
  wn_tab : forall i, 0 <= i < 1024 -> word (phys s') t i = if i <? k then mk_pte (pp0 + i) perm else 0;
  wn_old : forall q i, q <> t -> ~ (q = b /\ i = PDX va) -> word (phys s') q i = word (phys s) q i;
  wn_same : npage s' = npage s /\ tlb s' = ∅ /\ cur_pgdir s' = cur_pgdir s;
  wn_range : 0 <= t < npage s /\ t ∉ fl }.

Lemma window_npage k s' : window k s' -> npage s <= 524288.
Proof. intros W. destruct (wn_same _ _ W) as (<- & _). apply (wf_npage _ _ _ (inv_mem _ _ _ _ (wn_inv _ _ W))). Qed.

Lemma window_PPN k s' : window k s' -> PPN (mk_pte t PTE_D) = t.
Proof.
  intros W. pose proof (window_npage _ _ W). destruct (wn_range _ _ W) as [? _]. apply PPN_mk_pte; unfold PTE_D; lia.
Qed.

(** The end of [page_insert]: the entry and the reference. *)
Lemma window_fill k s' : window k s' -> 0 <= k < 1024 -> 0 <= pp0 -> pp0 + k < npage s ->
  pp0 + k ∉ fl -> mapped_ext k (pp0 + k) < 65535 ->
  window (k + 1) (set_pp_ref (pp0 + k) (pp_ref s' (pp0 + k) + 1) (set_phys (upd (phys s') t k (mk_pte (pp0 + k) perm)) s')).
Proof.
  intros W Hk Hp0 Hp Hfl Hlim. destruct W as [I Hd HT HO HS HR]. destruct HS as (Hn & Ht & Hc).
  assert (Href : pp_ref s' (pp0 + k) = mapped_ext k (pp0 + k)).
  { rewrite (inv_ref _ _ _ _ I) by lia. by rewrite refs_nil, Z.add_0_r. }
  assert (Hext : forall p, mapped_ext (k + 1) p = mapped_ext k p + ind (pp0 + k =? p)).
  { intros p. unfold mapped_ext. destruct (Z.leb_spec pp0 p), (Z.ltb_spec p (pp0 + k)), (Z.ltb_spec p (pp0 + (k + 1))), (Z.eqb_spec (pp0 + k) p);
      cbn [andb ind]; lia. }
  pose proof (inv_ext _ _ _ _ I (pp0 + k)) as Hge.
  assert (HR' : forall p, pp_ref (set_pp_ref (pp0 + k) (pp_ref s' (pp0 + k) + 1) (set_phys (upd (phys s') t k (mk_pte (pp0 + k) perm)) s')) p
    = pp_ref s' p + ind (pp0 + k =? p)).
  { intros p. rewrite pp_ref_set. destruct (Z.eqb_spec (pp0 + k) p) as [<-|]; [rewrite decide_True, u16_small by (done || lia); cbn [ind]; lia|].
    rewrite decide_False by done. cbn [ind]. rewrite Z.add_0_r. done. }
  split; try done.
  - split; [|exact (inv_fl _ _ _ _ I)|exact (inv_fl_range _ _ _ _ I)|..].
    + apply mem_wf_nil; [apply (wf_npage _ _ _ (inv_mem _ _ _ _ I))|]. intros p i. cbn. rewrite word_upd.
      case_decide; [apply mk_pte_u32; unfold is_u32; lia|apply (wf_words _ _ _ (inv_mem _ _ _ _ I))].
    + intros p Hin. rewrite HR', (inv_fl_ref _ _ _ _ I) by done. destruct (Z.eqb_spec (pp0 + k) p) as [<-|]; [done|]. done.
    + intros p. rewrite Hext. pose proof (inv_ext _ _ _ _ I p). pose proof (ind_nonneg (pp0 + k =? p)). lia.
    + intros p. rewrite HR'. pose proof (inv_ref16 _ _ _ _ I p). destruct (Z.eqb_spec (pp0 + k) p) as [<-|]; cbn [ind]; lia.
    + intros p Hin. rewrite HR', Hext, (inv_ref _ _ _ _ I) by done. rewrite !refs_nil. lia.
  - cbn. rewrite word_upd, decide_False; [done|]. by intros [? _].
  - intros i Hi. cbn. rewrite word_upd. destruct (decide (t = t /\ k = i)) as [ [_ <-]|Hne].
    + by rewrite (proj2 (Z.ltb_lt _ _)) by lia.
    + rewrite HT by done. assert (k <> i) by (intros ->; by destruct Hne).
      destruct (Z.ltb_spec i k), (Z.ltb_spec i (k + 1)); try done; lia.
  - intros q i Hq Hqi. cbn. rewrite word_upd, decide_False; [by apply HO|]. intros [? _]. by subst.
Qed.
Lemma tlb_nothing asid va' s' : tlb s' = ∅ -> tlb_invalidate asid va' s' = Val tt s'.
Proof. intros H. unfold tlb_invalidate, tlb_out, modify. rewrite H, delete_empty, <- H. by destruct s'. Qed.

Definition filled (k : Z) (s' : pmap_st) : pmap_st :=
  set_pp_ref (pp0 + k) (pp_ref s' (pp0 + k) + 1) (set_phys (upd (phys s') t k (mk_pte (pp0 + k) perm)) s').

Definition fill_pte (ppte pp : Z) : P Z :=
  set_pte ppte pp perm ;; modify (fun s => set_pp_ref pp (pp_ref s pp + 1) s) ;; mret 0.

Lemma fill_pte_eq k s' : 0 <= k < 1024 -> fill_pte (slot t k) (pp0 + k) s' = Val 0 (filled k s').
Proof. intros Hk. unfold fill_pte, set_pte. by rewrite (bind_val _ _ _ _ _ (store_slot _ _ _ _ Hk)). Qed.

Lemma walk_window k s' va' create : window k s' -> PDX va' = PDX va ->
  pgdir_walk (slot b 0) va' create s' = Val (Ok (Some (slot t (PTX va')))) s'.
Proof.
  intros W E. pose proof (window_npage _ _ W) as Hn. pose proof (wn_range _ _ W) as [Hr _]. destruct (wn_same _ _ W) as (Hns & _).
  assert (Hx : 0 <= PDX va < 1024) by (rewrite PDX_div; dlia).
  unfold pgdir_walk. rewrite slot_add, E, (bind_val _ _ _ _ _ (load_slot s' b (PDX va) Hx)), (wn_dir _ _ W).
  change (hasbits ?x PTE_V) with (valid x). rewrite valid_mk_pte. cbn [negb].
  assert (He : is_u32 (mk_pte t PTE_D)) by (apply mk_pte_u32; unfold is_u32, PTE_D; lia).
  rewrite (bind_val _ _ _ _ _ (KADDR_pte s' (mk_pte t PTE_D) He ltac:(rewrite (window_PPN _ _ W); lia) ltac:(lia))).
  by rewrite (window_PPN _ _ W), slot_add.
Qed.

(** [page_insert] for a page after the first. *)
Lemma window_insert k s' va' asid : window k s' -> 0 <= k < 1024 -> PDX va' = PDX va -> PTX va' = k ->
  page_insert (slot b 0) asid (pp0 + k) va' perm s' = Val 0 (filled k s').
Proof.
  intros W Hk Hd Hx. unfold page_insert. rewrite (bind_val _ _ _ _ _ (walk_window k s' va' false W Hd)), Hx.
  rewrite (bind_val _ _ _ _ _ (load_slot s' t k Hk)), (wn_tab _ _ W k Hk), Z.ltb_irrefl.
  change (hasbits 0 PTE_V) with (valid 0). rewrite valid_0. unfold page_insert_new.
  rewrite (bind_val _ _ _ _ _ (tlb_nothing asid va' s' (proj1 (proj2 (wn_same _ _ W))))).
  rewrite (bind_val _ _ _ _ _ (walk_window k s' va' true W Hd)), Hx. by apply fill_pte_eq.
Qed.

(** ... and for the first: the table is allocated. *)
Lemma window_first asid pp : pmap_inv [] ext (t :: fl) s -> word (phys s) b (PDX va) = 0 ->
  exists s1, window 0 s1 /\ page_insert (slot b 0) asid pp va perm s = fill_pte (slot t (PTX va)) pp s1.
Proof.
  intros I H0. destruct (inv_fl _ _ _ _ I) as [ [Hnin _]%NoDup_cons _].
  assert (Hp : 0 <= t < npage s) by (apply (inv_fl_range _ _ _ _ I); left).
  pose proof (wf_npage _ _ _ (inv_mem _ _ _ _ I)) as Hn.
  assert (Hx : 0 <= PDX va < 1024) by (rewrite PDX_div; dlia).
  destruct (page_alloc_cons s t fl (inv_fl _ _ _ _ I) Hp ltac:(lia)) as (q' & Hq & EA).
  assert (EW : pgdir_walk (slot b 0) va false s = Val (Ok None) s).
  { unfold pgdir_walk. rewrite slot_add, (bind_val _ _ _ _ _ (load_slot s b (PDX va) Hx)), H0.
    change (hasbits 0 PTE_V) with (valid 0). by rewrite valid_0. }
  set (s1 := set_phys (upd (clear_page (phys s) t) b (PDX va) (mk_pte t PTE_D))
    (set_pp_ref t 1 (set_phys (clear_page (phys s) t) (set_free q' s)))).
  assert (EC : pgdir_walk (slot b 0) va true s = Val (Ok (Some (slot t (PTX va)))) s1).
  { unfold pgdir_walk. rewrite slot_add, (bind_val _ _ _ _ _ (load_slot s b (PDX va) Hx)), H0.
    change (hasbits 0 PTE_V) with (valid 0). rewrite valid_0. cbn [negb].
    rewrite (bind_val _ _ _ _ _ EA). msteps.
    rewrite (bind_val _ _ _ _ _ (store_slot _ _ (PDX va) _ Hx)), dir_pte_mk.
    erewrite bind_val by (apply page2kva_page; [exact Hp|exact (proj2 Hn)]). by rewrite slot_add. }
  exists s1. split.
  2:{ unfold page_insert. rewrite (bind_val _ _ _ _ _ EW). unfold page_insert_new.
      rewrite (bind_val _ _ _ _ _ (tlb_nothing asid va s Htlb)). by rewrite (bind_val _ _ _ _ _ EC). }
  assert (Href : forall p, pp_ref s1 p = pp_ref s p + ind (p =? t)).
  { intros p. change (pp_ref s1 p) with (pp_ref (set_pp_ref t 1 (set_phys (clear_page (phys s) t) (set_free q' s))) p).
    rewrite pp_ref_set. change (pp_ref (set_phys _ _) p) with (pp_ref s p).
    destruct (Z.eqb_spec p t) as [->|]; [rewrite decide_True, (inv_fl_ref _ _ _ _ I) by (done || left); done|].
    rewrite decide_False by done. cbn [ind]. lia. }
  assert (Hw : forall q i, word (phys s1) q i = if decide (b = q /\ PDX va = i) then mk_pte t PTE_D
    else if decide (t = q) then 0 else word (phys s) q i).
  { intros q i. change (phys s1) with (upd (clear_page (phys s) t) b (PDX va) (mk_pte t PTE_D)). by rewrite word_upd, word_clear. }
  assert (Hext : forall p, mapped_ext 0 p = ext p + ind (p =? t)).
  { intros p. unfold mapped_ext. rewrite Z.add_0_r. destruct (Z.leb_spec pp0 p), (Z.ltb_spec p pp0); cbn [andb ind]; lia. }
  split.
  - split; [|exact Hq|..].
    + apply mem_wf_nil; [done|]. intros p i. rewrite Hw. case_decide; [apply mk_pte_u32; unfold is_u32, PTE_D; lia|].
      case_decide; [unfold is_u32; lia|]. apply (wf_words _ _ _ (inv_mem _ _ _ _ I)).
    + intros p Hin. apply (inv_fl_range _ _ _ _ I). by right.
    + intros p Hin. rewrite Href, (inv_fl_ref _ _ _ _ I) by by right. destruct (Z.eqb_spec p t) as [->|]; done.
    + intros p. rewrite Hext. pose proof (inv_ext _ _ _ _ I p). pose proof (ind_nonneg (p =? t)). lia.
    + intros p. rewrite Href. pose proof (inv_ref16 _ _ _ _ I p). destruct (Z.eqb_spec p t) as [->|]; cbn [ind]; [|lia].
      rewrite (inv_fl_ref _ _ _ _ I) by left. lia.
    + intros p Hin. rewrite Href, Hext, (inv_ref _ _ _ _ I), !refs_nil by done. lia.
  - rewrite Hw, decide_True; done.
  - intros i Hi. rewrite Hw, decide_False by (intros [Hbt _]; by apply Htb). rewrite decide_True by done.
    by destruct (Z.ltb_spec i 0); [lia|].
  - intros q i Hq' Hqi. rewrite Hw, decide_False by (intros [<- <-]; by apply Hqi). rewrite decide_False; [done|]. intros <-. by apply Hq'.
  - done.
  - done.
Qed.
End Window.

(** ** map_segment fills a window *)
Lemma flags_small perm : 0 <= perm < 4096 -> 0 <= Z.lor PTE_V perm < 4096.
Proof.
  intros H. assert (Hl : Z.lor PTE_V perm mod 2 ^ 12 = Z.lor PTE_V perm).
  { rewrite <- Z.land_ones, Z.land_lor_distr_l by lia. rewrite !Z.land_ones by lia. change (PTE_V mod 2 ^ 12) with PTE_V.
    by rewrite (Z.mod_small perm) by lia. }
  rewrite <- Hl. change 4096 with (2 ^ 12). by apply Z.mod_pos_bound.
Qed.

Lemma window_index va k : is_u32 va -> va mod 4194304 = 0 -> 0 <= k < 1024 ->
  u32 (va + k * 4096) = va + k * 4096 /\ PDX (va + k * 4096) = PDX va /\ PTX (va + k * 4096) = k.
Proof.
  intros Hva Hal Hk. unfold is_u32 in Hva. rewrite u32_small by (unfold is_u32; dlia). rewrite !PDX_div, PTX_div.
  split; [done|]. dlia.
Qed.

Section Segment.
Context (ext : Z -> Z) (b t va pp0 n perm : Z) (fl : list Z) (asid : Z) (s : kstate).
Context (I : pmap_inv [] ext (t :: fl) (pm s)) (Ht : tlb (pm s) = ∅) (Hb : 0 <= b < npage (pm s)) (Htb : t <> b).
Context (Hperm : 0 <= perm < 4096) (H0 : word (phys (pm s)) b (PDX va) = 0).
Context (Hva : is_u32 va) (Hal : va mod 4194304 = 0) (Hn : 0 < n <= 1024).
Context (Hp0 : 0 <= pp0) (Hpn : pp0 + n <= npage (pm s)) (Hext : forall p, pp0 <= p < pp0 + n -> 1 <= ext p < 65534).
Notation win := (window ext b t va pp0 perm fl (pm s)).
Notation fill := (filled t pp0 perm).

Lemma segment_fill k s' : win k s' -> 0 <= k < n -> win (k + 1) (fill k s').
Proof.
  intros W Hk. apply (window_fill ext b t va pp0 perm fl (pm s)); try done; try lia.
  - intros Hin. destruct (free_unreferenced _ _ _ _ (pp0 + k) I ltac:(by right)) as [_ He]. specialize (Hext (pp0 + k)). lia.
  - unfold mapped_ext. specialize (Hext (pp0 + k) ltac:(lia)).
    destruct (Z.ltb_spec (pp0 + k) (pp0 + k)); [lia|]. rewrite andb_false_r. cbn [ind]. destruct (Z.eqb_spec (pp0 + k) t); cbn [ind]; lia.
Qed.

Lemma segment_page k s' : 0 <= k < n -> npage s' = npage (pm s) -> pa2page (u32 (4096 * pp0 + k * 4096)) s' = Val (pp0 + k) s'.
Proof.
  intros Hk Hs'. pose proof (wf_npage _ _ _ (inv_mem _ _ _ _ I)) as HN. rewrite u32_small by (unfold is_u32; lia).
  assert (HP : PPN (4096 * pp0 + k * 4096) = pp0 + k) by (rewrite PPN_div; dlia).
  rewrite pa2page_pte, HP; [done|]. rewrite HP. lia.
Qed.

(** The body of the loop of map_segment. *)
Definition segment_body (k : Z) : K unit :=
  let i := k * BY2PG in
  pp ← pmap_op (pa2page (u32 (4096 * pp0 + i)));
  pmap_op (page_insert (slot b 0) asid pp (u32 (va + i)) perm) ;;
  mret tt.

Lemma segment_first : exists s', segment_body 0 s = Val tt (set_pm s' s) /\ win 1 s'.
Proof.
  destruct (window_first ext b t va pp0 perm fl (pm s)) with (asid := asid) (pp := pp0) as (s1 & W0 & EF); try assumption.
  destruct (window_index va 0 Hva Hal ltac:(lia)) as (HU & _ & HX). change (0 * 4096) with 0 in HU, HX. rewrite Z.add_0_r in HU, HX.
  exists (fill 0 s1). split; [|by apply (segment_fill 0); [|lia]]. unfold segment_body. change (0 * BY2PG) with 0.
  rewrite (bind_pmap _ _ s _ _ (segment_page 0 (pm s) ltac:(lia) eq_refl)). cbv beta. rewrite !Z.add_0_r, HU.
  erewrite bind_pmap; [reflexivity|]. cbn [pm set_pm]. rewrite EF, HX. rewrite <- (Z.add_0_r pp0) at 1. by apply fill_pte_eq.
Qed.

Lemma segment_next k s' : win k s' -> 1 <= k < n -> segment_body k (set_pm s' s) = Val tt (set_pm (fill k s') s).
Proof.
  intros W Hk. destruct (window_index va k Hva Hal ltac:(lia)) as (HU & HD & HX). destruct (wn_same _ _ _ _ _ _ _ _ _ _ W) as (Hn' & _).
  unfold segment_body, BY2PG. cbv zeta. rewrite (bind_pmap _ _ (set_pm s' s) _ _ (segment_page k s' ltac:(lia) Hn')). cbv beta. rewrite HU.
  erewrite bind_pmap; [reflexivity|]. by apply (window_insert ext b t va pp0 perm fl (pm s)); [..|lia| |].
Qed.

Lemma segment_loop : exists s', for_each (zseq 0 (Z.to_nat n)) segment_body s = Val tt (set_pm s' s) /\ win n s'.
Proof.
  destruct segment_first as (s1 & E1 & W1). replace (Z.to_nat n) with (S (Z.to_nat (n - 1))) by lia.
  rewrite zseq_S. cbn [for_each]. rewrite (bind_val _ _ _ _ _ E1).
  destruct (for_each_inv (fun l x => exists k s', l = zseq k (Z.to_nat (n - k)) /\ 1 <= k <= n /\ x = set_pm s' s /\ win k s')
    segment_body (zseq (0 + 1) (Z.to_nat (n - 1))) (set_pm s1 s)) as (x' & E & k & s' & El & Hk & -> & W).
  - exists 1, s1. split_and!; done || lia.
  - intros x l x' (k & s' & El & Hk & -> & W). destruct (decide (k = n)) as [->|Hkn]; [by rewrite Z.sub_diag in El|].
    replace (Z.to_nat (n - k)) with (S (Z.to_nat (n - (k + 1)))) in El by lia. rewrite zseq_S in El. injection El as -> ->.
    eexists. split; [apply segment_next; [done|lia]|]. exists (k + 1), (fill k s'). split_and!; try done; try lia. apply segment_fill; [done|lia].
  - destruct (decide (k = n)) as [->|Hkn]; [by exists s'|].
    replace (Z.to_nat (n - k)) with (S (Z.to_nat (n - (k + 1)))) in El by lia. done.
Qed.
End Segment.

Lemma map_segment_ok ext b t va pp0 n perm fl asid s : pmap_inv [] ext (t :: fl) (pm s) -> tlb (pm s) = ∅ ->
  0 <= b < npage (pm s) -> t <> b -> 0 <= perm < 4096 -> word (phys (pm s)) b (PDX va) = 0 ->
  is_u32 va -> va mod 4194304 = 0 -> 0 < n <= 1024 -> 0 <= pp0 -> pp0 + n <= npage (pm s) ->
  (forall p, pp0 <= p < pp0 + n -> 1 <= ext p < 65534) ->
  exists s', map_segment (slot b 0) asid (4096 * pp0) va (4096 * n) perm s = Val tt (set_pm s' s) /\
    window ext b t va pp0 (Z.lor PTE_V perm) fl (pm s) n s'.
Proof.
  intros I Ht Hb Htb Hperm H0 Hva Hal Hn Hp0 Hpn Hext.
  assert (E1 : 4096 * pp0 mod 4096 =? 0 = true) by (apply Z.eqb_eq; dlia).
  assert (E2 : va mod 4096 =? 0 = true) by (apply Z.eqb_eq; dlia).
  assert (E3 : 4096 * n mod 4096 =? 0 = true) by (apply Z.eqb_eq; dlia).
  assert (E4 : 4096 * n / 4096 = n) by dlia.
  unfold map_segment, BY2PG. rewrite E1, E2, E3, E4, !bind_assert_true.
  apply (segment_loop ext b t va pp0 n (Z.lor PTE_V perm) fl asid s); try done. by apply flags_small.
Qed.

(** ** env_init *)
Lemma env_init_list s : is_list (env_free_list s) [] -> exists q,
  for_each (map (fun k => NENV - 1 - k) (zseq 0 (Z.to_nat NENV))) (fun i =>
    modify (fun s => set_env_free_list (LIST_INSERT_HEAD i (env_free_list s)) s)) s = Val tt (set_env_free_list q s) /\
  is_list q (zseq 0 (Z.to_nat NENV)).
Proof.
  intros H0.
  destruct (for_each_inv (fun l x => exists k q, l = map (fun k => NENV - 1 - k) (zseq k (Z.to_nat (NENV - k))) /\ 0 <= k <= NENV /\
      x = set_env_free_list q s /\ is_list q (zseq (NENV - k) (Z.to_nat k)))
    (fun i => modify (fun s => set_env_free_list (LIST_INSERT_HEAD i (env_free_list s)) s))
    (map (fun k => NENV - 1 - k) (zseq 0 (Z.to_nat NENV))) s) as (x & E & k & q & El & Hk & -> & HL).
  - exists 0, (env_free_list s). split; [done|]. split; [done|]. split; [by destruct s|done].
  - intros i l x (k & q & El & Hk & -> & HL). destruct (decide (k = NENV)) as [->|Hkn]; [by rewrite Z.sub_diag in El|].
    replace (Z.to_nat (NENV - k)) with (S (Z.to_nat (NENV - (k + 1)))) in El by lia. rewrite zseq_S in El. cbn [map] in El.
    injection El as -> ->. eexists. split; [reflexivity|]. exists (k + 1), (LIST_INSERT_HEAD (NENV - 1 - k) q).
    split; [done|]. split; [lia|]. split; [done|]. replace (Z.to_nat (k + 1)) with (S (Z.to_nat k)) by lia.
    replace (NENV - (k + 1)) with (NENV - 1 - k) by lia. rewrite zseq_S. replace (NENV - 1 - k + 1) with (NENV - k) by lia.
    apply insert_head_refines; [done|]. rewrite elem_of_zseq. lia.
  - exists q. split; [exact E|]. destruct (decide (k = NENV)) as [->|Hkn]; [by rewrite Z.sub_diag in HL|].
    replace (Z.to_nat (NENV - k)) with (S (Z.to_nat (NENV - (k + 1)))) in El by lia. done.
Qed.

(** A reference to a page from outside the tables. *)
Lemma pmap_inv_hold ext fl s p : pmap_inv [] ext fl s -> 0 <= p < npage s -> p ∉ fl -> pp_ref s p < 65535 ->
  pmap_inv [] (fun q => ext q + ind (q =? p)) fl (set_pp_ref p (pp_ref s p + 1) s).
Proof.
  intros I Hp Hfl Hlim. pose proof (inv_ref16 _ _ _ _ I p) as H16.
  assert (HR : forall q, pp_ref (set_pp_ref p (pp_ref s p + 1) s) q = pp_ref s q + ind (q =? p)).
  { intros q. rewrite pp_ref_set. destruct (Z.eqb_spec q p) as [->|]; [rewrite decide_True, u16_small by (done || lia); done|].
    rewrite decide_False by done. cbn [ind]. lia. }
  split; [exact (inv_mem _ _ _ _ I)|exact (inv_fl _ _ _ _ I)|exact (inv_fl_range _ _ _ _ I)|..].
  - intros q Hq. rewrite HR, (inv_fl_ref _ _ _ _ I) by done. by destruct (Z.eqb_spec q p) as [->|].
  - intros q. pose proof (inv_ext _ _ _ _ I q). pose proof (ind_nonneg (q =? p)). lia.
  - intros q. rewrite HR. pose proof (inv_ref16 _ _ _ _ I q). destruct (Z.eqb_spec q p) as [->|]; cbn [ind]; lia.
  - intros q Hq. rewrite HR, (inv_ref _ _ _ _ I) by done. rewrite !refs_nil. lia.
Qed.

Lemma va2pa_through s b t p perm va : is_u32 va -> word (phys s) b (PDX va) = mk_pte t PTE_D ->
  word (phys s) t (PTX va) = mk_pte p perm -> 0 <= t < npage s -> npage s <= 524288 -> 0 <= p < npage s -> 0 <= perm < 4096 ->
  va2pa (slot b 0) va s = Val (4096 * p) s.
Proof.
  intros Hva Hd Ht Htn Hn Hp Hperm. assert (Hx : 0 <= PDX va < 1024) by (rewrite PDX_div; dlia).
  unfold va2pa. rewrite slot_add, (bind_val _ _ _ _ _ (load_slot s b (PDX va) Hx)), Hd.
  change (hasbits ?x PTE_V) with (valid x). rewrite valid_mk_pte. cbn [negb].
  assert (HP : PPN (mk_pte t PTE_D) = t) by (apply PPN_mk_pte; unfold PTE_D; lia).
  assert (He : is_u32 (mk_pte t PTE_D)) by (apply mk_pte_u32; unfold is_u32, PTE_D; lia).
  rewrite (bind_val _ _ _ _ _ (KADDR_pte s _ He ltac:(rewrite HP; lia) Hn)), HP, slot_add.
  rewrite (bind_val _ _ _ _ _ (load_slot s t _ (PTX_range va))), Ht.
  change (hasbits ?x PTE_V) with (valid x). rewrite valid_mk_pte. cbn [negb].
  assert (He' : is_u32 (mk_pte p perm)) by (apply mk_pte_u32; unfold is_u32; lia).
  rewrite PTE_ADDR_div, <- PPN_div, PPN_mk_pte by (done || lia). done.
Qed.

(** The kernel after [boot]: every environment is free, nothing runs, and the windows UPAGES
    and UENVS of the template directory show [pages] and [envs], which start in the pages
    [pp1] and [pp2]. *)
Record booted (ext : Z -> Z) (pfl : list Z) (np pp1 pp2 : Z) (s : kstate) : Prop := {
  bt_ok : kernel_ok [] ext (zseq 0 (Z.to_nat NENV)) pfl s;
  bt_queue : run_queue s [];
  bt_cur : curenv s = None;
  bt_first : mkenvid_i s = 0;
  bt_asids : forall a, asid_used s a = false;
  bt_pool : pool s (zseq 0 (Z.to_nat 1024));
  bt_pages : forall k, 0 <= k < np -> va2pa (base_pgdir s) (UPAGES + 4096 * k) (pm s) = Val (4096 * (pp1 + k)) (pm s);
  bt_envs : forall k, 0 <= k < 251 -> va2pa (base_pgdir s) (UENVS + 4096 * k) (pm s) = Val (4096 * (pp2 + k)) (pm s) }.

(** The tables of a window lie in memory and belong to the kernel. *)
Lemma window_table ext b t va pp0 perm fl s n s' : window ext b t va pp0 perm fl s n s' -> 0 <= perm < 4096 ->
  0 <= ext t -> 0 <= pp0 -> pp0 + n <= npage s' -> PPN (word (phys s') b (PDX va)) = t /\ t < npage s' /\ 1 <= mapped_ext ext t pp0 n t /\
  forall j, 0 <= j < 1024 -> valid (word (phys s') t j) = true -> PPN (word (phys s') t j) < npage s'.
Proof.
  intros W Hperm He Hp Hn. pose proof (wn_same _ _ _ _ _ _ _ _ _ _ W) as (Hns & _). pose proof (wn_range _ _ _ _ _ _ _ _ _ _ W) as [Hr _].
  pose proof (wf_npage _ _ _ (inv_mem _ _ _ _ (wn_inv _ _ _ _ _ _ _ _ _ _ W))) as HN.
  split; [rewrite (wn_dir _ _ _ _ _ _ _ _ _ _ W); apply PPN_mk_pte; unfold PTE_D; lia|]. split; [lia|]. split.
  - unfold mapped_ext. rewrite Z.eqb_refl. cbn [ind]. pose proof (ind_nonneg ((pp0 <=? t) && (t <? pp0 + n))).
    lia.
  - intros j Hj. rewrite (wn_tab _ _ _ _ _ _ _ _ _ _ W j Hj). destruct (Z.ltb_spec j n); [|by rewrite valid_0].
    intros _. rewrite PPN_mk_pte; lia.
Qed.

(** The two windows. *)
Lemma env_init_windows ext b t1 t2 fl np pp1 pp2 s : pmap_inv [] ext (t1 :: t2 :: fl) (pm s) -> tlb (pm s) = ∅ ->
  0 <= b < npage (pm s) -> 1 <= ext b -> (forall i, word (phys (pm s)) b i = 0) ->
  0 < np <= 1024 -> 0 <= pp1 -> pp1 + np <= npage (pm s) -> (forall p, pp1 <= p < pp1 + np -> 1 <= ext p < 100) ->
  0 <= pp2 -> pp2 + 251 <= npage (pm s) -> (forall p, pp2 <= p < pp2 + 251 -> 1 <= ext p < 100) ->
  exists ext' t, (map_segment (slot b 0) 0 (4096 * pp1) UPAGES (4096 * np) PTE_G ;;
      map_segment (slot b 0) 0 (4096 * pp2) UENVS (4096 * 251) PTE_G) s = Val tt (set_pm t s) /\
    pmap_inv [] ext' fl t /\ tlb t = ∅ /\ 1 <= ext' b /\ npage t = npage (pm s) /\ kernel_pages [] ext' (slot b 0) t /\
    (forall k, 0 <= k < np -> va2pa (slot b 0) (UPAGES + 4096 * k) t = Val (4096 * (pp1 + k)) t) /\
    (forall k, 0 <= k < 251 -> va2pa (slot b 0) (UENVS + 4096 * k) t = Val (4096 * (pp2 + k)) t).
Proof.
  intros I Ht Hb Heb Hz Hnp Hp1 Hpn1 He1 Hp2 Hpn2 He2. pose proof (inv_fl _ _ _ _ I) as [N _].
  apply NoDup_cons in N as [N1 N2]. pose proof (wf_npage _ _ _ (inv_mem _ _ _ _ I)) as Hn.
  assert (Hbn : forall x, x ∈ t1 :: t2 :: fl -> x <> b) by (intros x Hx ->; destruct (free_unreferenced _ _ _ _ _ I Hx); lia).
  assert (G1 : is_u32 UPAGES /\ UPAGES mod 4194304 = 0) by (by vm_compute). assert (G2 : is_u32 UENVS /\ UENVS mod 4194304 = 0) by (by vm_compute).
  assert (HG : 0 <= PTE_G < 4096) by (by vm_compute).
  assert (Hdx : PDX UPAGES <> PDX UENVS) by (by vm_compute).
  destruct (map_segment_ok ext b t1 UPAGES pp1 np PTE_G (t2 :: fl) 0 s) as (u & E1 & W1); try done; try apply G1.
  { apply Hbn; left. } { intros p Hp. specialize (He1 p Hp). lia. }
  assert (Hm : forall p, ext p <= mapped_ext ext t1 pp1 np p <= ext p + 2).
  { intros p. unfold mapped_ext. destruct (p =? t1), ((pp1 <=? p) && (p <? pp1 + np)); cbn [ind]; lia. }
  destruct (wn_same _ _ _ _ _ _ _ _ _ _ W1) as (Hun & Hut & _).
  destruct (map_segment_ok (mapped_ext ext t1 pp1 np) b t2 UENVS pp2 251 PTE_G fl 0 (set_pm u s)) as (v & E2 & W2);
    cbn [pm set_pm]; rewrite ?Hun; try done; try apply G2.
  { apply W1. } { apply Hbn. right. left. }
  { rewrite (wn_old _ _ _ _ _ _ _ _ _ _ W1), Hz; [done| |intros [_ ?]; by apply Hdx]. intros <-. by apply (Hbn b); [left|]. }
  { intros p Hp. specialize (He2 p Hp). specialize (Hm p). lia. }
  cbn [pm set_pm] in W2. destruct (wn_same _ _ _ _ _ _ _ _ _ _ W2) as (Hvn & Hvt & _).
  exists (mapped_ext (mapped_ext ext t1 pp1 np) t2 pp2 251), v. split.
  { rewrite (bind_val _ _ _ _ _ E1). exact E2. }
  assert (Hf : 0 <= Z.lor PTE_V PTE_G < 4096) by (by vm_compute).
  destruct (wn_range _ _ _ _ _ _ _ _ _ _ W1) as [R1 _]. destruct (wn_range _ _ _ _ _ _ _ _ _ _ W2) as [R2 _]. rewrite Hun in R2.
  assert (HO : forall q i, q <> t2 -> ~ (q = b /\ i = PDX UENVS) -> word (phys v) q i = word (phys u) q i)
    by exact (wn_old _ _ _ _ _ _ _ _ _ _ W2).
  assert (Ht1 : t1 <> t2 /\ t1 <> b) by (split; [intros ->; apply N1; left|apply Hbn; left]). destruct Ht1 as [Ht12 Ht1b].
  assert (HA : word (phys v) b (PDX UPAGES) = word (phys u) b (PDX UPAGES)).
  { apply HO; [intros <-; by apply (Hbn b); [right; left|]|]. intros [_ ?]. by apply Hdx. }
  assert (HB : forall i, word (phys v) t1 i = word (phys u) t1 i) by (intros i; apply HO; [done|]; by intros [? _]).
  split; [apply W2|]. split; [done|]. split; [|split; [congruence|split; [|split] ] ].
  - pose proof (Hm b). unfold mapped_ext at 1. pose proof (ind_nonneg (b =? t2)). pose proof (ind_nonneg ((pp2 <=? b) && (b <? pp2 + 251))). lia.
  - destruct (window_table _ _ _ _ _ _ _ _ _ _ W1 Hf (inv_ext _ _ _ _ I t1) Hp1 ltac:(lia)) as (P1 & P2 & P3 & P4).
    destruct (window_table _ _ _ _ _ _ _ _ _ _ W2 Hf (inv_ext _ _ _ _ (wn_inv _ _ _ _ _ _ _ _ _ _ W1) t2) Hp2 ltac:(lia)) as (Q1 & Q2 & Q3 & Q4).
    split; [intros q _; split; [apply not_elem_of_nil|intros d i Hd; by apply elem_of_nil in Hd]|].
    intros b' Hb'. assert (b' = b) as -> by (unfold slot in Hb'; lia). split; [intros d Hd; by apply elem_of_nil in Hd|intros d i Hd; by apply elem_of_nil in Hd|].
    intros i Hi _. change (PDX UTOP) with 509 in Hi. change (PDX UVPT) with 511 in Hi.
    destruct (decide (i = 509)) as [->|Hne].
    + change 509 with (PDX UENVS). rewrite Q1. by split_and!.
    + replace i with (PDX UPAGES) by (change (PDX UPAGES) with 510; lia). rewrite HA, P1, Hvn. split; [exact P2|]. split.
      * unfold mapped_ext at 1. pose proof (ind_nonneg (t1 =? t2)). pose proof (ind_nonneg ((pp2 <=? t1) && (t1 <? pp2 + 251))). lia.
      * intros j Hj. rewrite HB. by apply P4.
  - intros k Hk. destruct (window_index UPAGES k (proj1 G1) (proj2 G1) ltac:(lia)) as (HU & HD & HX). rewrite (Z.mul_comm 4096 k).
    apply (va2pa_through v b t1 (pp1 + k) (Z.lor PTE_V PTE_G)); rewrite ?HD, ?HX, ?Hvn, ?Hun; try done; try lia.
    + unfold is_u32. change UPAGES with 2139095040. lia.
    + rewrite (wn_old _ _ _ _ _ _ _ _ _ _ W2); [apply W1| |]. { intros <-. by apply (Hbn b); [right; left|]. } intros [_ ?]. by apply Hdx.
    + rewrite (wn_old _ _ _ _ _ _ _ _ _ _ W2); [| |].
      * rewrite (wn_tab _ _ _ _ _ _ _ _ _ _ W1) by lia. by rewrite (proj2 (Z.ltb_lt _ _)) by lia.
      * intros ->. apply N1. left.
      * intros [-> _]. by apply (Hbn b); [left|].
  - intros k Hk. destruct (window_index UENVS k (proj1 G2) (proj2 G2) ltac:(lia)) as (HU & HD & HX). rewrite (Z.mul_comm 4096 k).
    apply (va2pa_through v b t2 (pp2 + k) (Z.lor PTE_V PTE_G)); rewrite ?HD, ?HX, ?Hvn, ?Hun; try done; try lia.
    + unfold is_u32. change UENVS with 2134900736. lia.
    + apply W2.
    + rewrite (wn_tab _ _ _ _ _ _ _ _ _ _ W2) by lia. by rewrite (proj2 (Z.ltb_lt _ _)) by lia.
Qed.

Lemma env0_fine i : env_fine (i ∈ ([] : list Z)) env0.
Proof. split; [intros H; by apply elem_of_nil in H|reflexivity|intros H; by destruct H|reflexivity|reflexivity]. Qed.

Lemma env_init_ok ext b t1 t2 fl np pp1 pp2 s : pmap_inv [] ext (b :: t1 :: t2 :: fl) (pm s) -> tlb (pm s) = ∅ ->
  envs s = ∅ -> curenv s = None -> mkenvid_i s = 0 -> asid_bitmap s = ∅ -> signos s = ∅ ->
  ROUND (u32 (npage (pm s) * sizeof_Page)) BY2PG = 4096 * np ->
  0 < np <= 1024 -> 0 <= pp1 -> pp1 + np <= npage (pm s) -> (forall p, pp1 <= p < pp1 + np -> 1 <= ext p < 99) ->
  0 <= pp2 -> pp2 + 251 <= npage (pm s) -> (forall p, pp2 <= p < pp2 + 251 -> 1 <= ext p < 99) ->
  exists s' ext', env_init (ULIM + 4096 * pp1) (ULIM + 4096 * pp2) s = Val tt s' /\ booted ext' fl np pp1 pp2 s'.
Proof.
  intros I Ht Hes Hc Hmk Has Hsg HR Hnp Hp1 Hpn1 He1 Hp2 Hpn2 He2. unfold env_init. msteps.
  set (s1 := set_env_free_list _ _). assert (HL0 : is_list (env_free_list s1) []) by (split; [constructor|done]).
  destruct (env_init_list s1 HL0) as (q & E1 & HL). rewrite (bind_val _ _ _ _ _ E1). set (s2 := set_env_free_list q s1).
  destruct (page_alloc_ok [] ext b (t1 :: t2 :: fl) (pm s2) I) as (u & E2 & I2 & Hz & _ & _ & Hn & _ & Htl & _ & Hnin & Hb & H0).
  rewrite (bind_pmap _ _ _ _ _ E2). pose proof (wf_npage _ _ _ (inv_mem _ _ _ _ I)) as HN. change (pm s2) with (pm s) in *.
  assert (Hu0 : pp_ref u b = 0).
  { destruct (free_unreferenced _ _ _ _ b I ltac:(left)) as [_ Hx]. rewrite (inv_ref _ _ _ _ I2) by (by rewrite Hn). by rewrite refs_nil, Hx. }
  pose proof (pmap_inv_hold ext _ u b I2 ltac:(by rewrite Hn) Hnin ltac:(lia)) as I3. set (v := set_pp_ref b (pp_ref u b + 1) u) in *.
  set (ext1 := fun q => ext q + ind (q =? b)) in *.
  rewrite (bind_pmap (modify _) _ _ tt v) by done.
  rewrite (bind_pmap _ _ _ (slot b 0) v) by (apply page2kva_page; change (npage v) with (npage u); rewrite Hn; lia). mstep.
  set (s3 := set_base_pgdir _ _).
  assert (HP : forall p t, 0 <= p -> PADDR (ULIM + 4096 * p) t = Val (4096 * p) t).
  { intros p t Hp. unfold PADDR. destruct (Z.ltb_spec (ULIM + 4096 * p) ULIM); [lia|]. unfold mret, M_ret. f_equal. lia. }
  rewrite (bind_pmap _ _ s3 _ _ (HP pp1 v Hp1)). mstep. cbn [pm set_pm s3 set_base_pgdir].
  change (npage v) with (npage u). rewrite Hn, HR.
  assert (Hx : forall p, ext p <= ext1 p <= ext p + 1) by (intros p; unfold ext1; destruct (p =? b); cbn [ind]; lia).
  destruct (env_init_windows ext1 b t1 t2 fl np pp1 pp2 s3) as (ext2 & w & EW & I4 & Hwt & Hwb & Hwn & HKP & HM1 & HM2);
    change (pm s3) with v; change (npage v) with (npage u); rewrite ?Hn; try done.
  { change (tlb v) with (tlb u). by rewrite Htl. } { unfold ext1. rewrite Z.eqb_refl. cbn [ind]. pose proof (inv_ext _ _ _ _ I b). lia. }
  { intros p Hp. specialize (He1 p Hp). specialize (Hx p). lia. }
  { intros p Hp. specialize (He2 p Hp). specialize (Hx p). lia. }
  change (set_pm v s3) with s3. apply bind_val_inv in EW as ([] & s4 & EA & EB). rewrite (bind_val _ _ _ _ _ EA).
  rewrite (bind_pmap _ _ s4 _ _ (HP pp2 (pm s4) Hp2)), set_pm_pm.
  assert (HE : ROUND (NENV * sizeof_Env) BY2PG = 4096 * 251) by (by vm_compute). rewrite HE, (bind_val _ _ _ _ _ EB).
  assert (HN0 : next_of (set_pm w s3) 1023 = None) by (unfold next_of, node; change (signos (set_pm w s3)) with (signos s); by rewrite Hsg).
  destruct (signo_init_ok _ HN0) as (s5 & ES & Hpool & E5). exists s5, ext2. split; [exact ES|].
  assert (Hpm : pm s5 = w) by by rewrite E5. assert (Hba : base_pgdir s5 = slot b 0) by by rewrite E5.
  assert (Hfl : env_free_list s5 = q) by (rewrite E5; reflexivity).
  assert (Henv : forall i, env s5 i = env0) by (intros i; rewrite E5; unfold env; cbn; by rewrite Hes).
  split.
  - split.
    + apply kinv_initial; rewrite ?Hpm; [rewrite Hfl; exact HL|exact I4|exact Hwt|]. exists b. by split.
    + intros i. rewrite Henv. exact (env0_fine i).
    + intros i va pte Hi. by apply elem_of_nil in Hi.
    + rewrite Hpm, Hba. exact HKP.
    + rewrite E5. change (0 <= mkenvid_i s). lia.
  - split; [rewrite E5; exact (TAILQ.is_tailq_init _)|]. intros i. rewrite Henv. split; [by intros ?%elem_of_nil|done].
  - by rewrite E5.
  - by rewrite E5.
  - intros a. rewrite E5. unfold asid_used, asid_word. cbn. by rewrite Has, lookup_empty, Z.bits_0.
  - exact Hpool.
  - intros k Hk. rewrite Hpm, Hba. by apply HM1.
  - intros k Hk. rewrite Hpm, Hba. by apply HM2.
Qed.

(** A machine and a kernel image for it: memory of [msize] bytes that holds the image up to
    [kend], the [pages] array behind it, and three pages for the template directory and its
    tables; [envs] is a page-aligned array in the image. The [pages] array fits its window. *)
Record machine (msize kend envs_kva : Z) : Prop := {
  mc_size : 0 <= msize <= 2147483648;
  mc_window : 0 < 12 * (msize / 4096) <= PDMAP;
  mc_image : ULIM <= kend /\ kend + 4095 < 4294967296;
  mc_top : ROUND kend BY2PG + 12 * (msize / 4096) + 4095 < 4294967296;
  mc_fit : used_pages (ROUND kend BY2PG + 12 * (msize / 4096)) + 3 <= msize / 4096;
  mc_envs : envs_kva mod 4096 = 0 /\ ULIM <= envs_kva /\ envs_kva + NENV * sizeof_Env <= kend }.

(** The free pages after [boot], in the order in which they are handed out. *)
Definition boot_free (msize kend : Z) : list Z :=
  let n := msize / 4096 in
  let used := used_pages (ROUND kend BY2PG + 12 * n) in reverse (zseq used (Z.to_nat (n - used - 3))).

Lemma boot_ok msize kend envs_kva : machine msize kend envs_kva ->
  exists s ext, boot msize kend envs_kva kernel_bss = Val tt s /\
    booted ext (boot_free msize kend) ((12 * (msize / 4096) + 4095) / 4096)
      ((ROUND kend BY2PG - ULIM) / 4096) ((envs_kva - ULIM) / 4096) s.
Proof.
  intros [Hm Hn [Hk Hk2] Htop Hfit (Ha & Hu & He)]. unfold boot_free. cbv zeta.
  set (n := msize / 4096) in *. set (top := ROUND kend BY2PG + 12 * n) in *. set (used := used_pages top) in *.
  destruct (page_init_used kend Hk Hk2) as (HR & _ & Hused).
  assert (Hn' : 0 <= n <= 524288) by (unfold n; dlia).
  assert (Hu4 : top - ULIM <= 4096 * used <= top - ULIM + 4095) by (unfold used, used_pages; dlia).
  assert (HRn : ROUND kend BY2PG = 4096 * ((kend + 4095) / 4096)).
  { change BY2PG with (2 ^ 12). rewrite ROUND_div by (unfold ULIM in *; lia). change (2 ^ 12) with 4096. f_equal. f_equal. lia. }
  destruct (mips_mem_init_correct msize kend Hm Hk Hk2 Htop) as (s & E & Hns & I & Ht); [fold n top used; lia|].
  fold n in Hns, I. fold top in I. fold used in I.
  assert (Hfl : reverse (zseq used (Z.to_nat (n - used))) = n - 1 :: n - 2 :: n - 3 :: reverse (zseq used (Z.to_nat (n - used - 3)))).
  { replace (Z.to_nat (n - used)) with (S (S (S (Z.to_nat (n - used - 3))))) by lia. rewrite !zseq_snoc, !reverse_app. cbn.
    repeat f_equal; lia. }
  rewrite Hfl in I. unfold boot. rewrite (bind_pmap _ _ kernel_bss _ _ E).
  change (NENV * sizeof_Env) with 1028096 in He. unfold ULIM in *.
  set (pp1 := (ROUND kend BY2PG - 2147483648) / 4096). set (pp2 := (envs_kva - 2147483648) / 4096).
  assert (E1 : ROUND kend BY2PG = 2147483648 + 4096 * pp1) by (unfold pp1; rewrite HRn; dlia).
  assert (E2 : envs_kva = 2147483648 + 4096 * pp2) by (unfold pp2; dlia).
  set (np := (12 * n + 4095) / 4096).
  assert (Hpu : pp1 + np <= used /\ 0 <= pp1 /\ 0 <= pp2 /\ pp2 + 251 <= used).
  { assert (Ht4 : top = 2147483648 + 4096 * pp1 + 12 * n) by (unfold top; lia).
    assert (Hke : envs_kva + 1028096 <= ROUND kend BY2PG) by (clear -He HRn; rewrite HRn; dlia).
    unfold np. clearbody pp1 pp2 used top. clear -E1 E2 Ht4 Hke Hu4 Hu HRn Hk Hn'.
    assert (Hr : pp1 + (12 * n + 4095) / 4096 <= used) by dlia. assert (H0 : 0 <= (12 * n + 4095) / 4096) by dlia.
    assert (H1 : 2147483648 <= ROUND kend BY2PG) by (rewrite HRn; dlia). lia. }
  rewrite E1, E2.
  assert (HB : forall p, 0 <= p < used -> 1 <= boot_ext used p < 99).
  { intros p Hp. unfold boot_ext. by rewrite (proj2 (Z.leb_le 0 p)), (proj2 (Z.ltb_lt p used)) by lia. }
  destruct (env_init_ok (boot_ext used) (n - 1) (n - 2) (n - 3) (reverse (zseq used (Z.to_nat (n - used - 3)))) np pp1 pp2 (set_pm s kernel_bss))
    as (s' & ext' & E' & B); cbn [pm set_pm]; rewrite ?Hns; try done.
  - unfold sizeof_Page. rewrite u32_small by (unfold is_u32; lia). change BY2PG with (2 ^ 12).
    rewrite ROUND_div by lia. unfold np. change (2 ^ 12) with 4096. f_equal. f_equal. lia.
  - unfold np, PDMAP in *. dlia.
  - lia.
  - lia.
  - intros p Hp. apply HB. lia.
  - lia.
  - lia.
  - intros p Hp. apply HB. lia.
  - by exists s', ext'.
Qed.

(** C36: start-up establishes the kernel's invariant. On every machine with enough memory,
    mips_detect_memory, mips_vm_init, page_init and env_init return; every environment is
    free, in the order of [envs], nothing is runnable and nothing runs, the pages behind the
    [pages] array are free but for the template directory and its two tables, the last page
    of memory first; the TLB agrees with every address space, and the template maps the
    [pages] array at UPAGES and the [envs] array at UENVS, page by page. *)
Theorem boot_correct msize kend envs_kva : machine msize kend envs_kva ->
  let n := msize / 4096 in
  exists s ext, boot msize kend envs_kva kernel_bss = Val tt s /\
    kernel_ok [] ext (zseq 0 (Z.to_nat NENV)) (boot_free msize kend) s /\ run_queue s [] /\ curenv s = None /\
    (forall k, 0 <= k < (12 * n + 4095) / 4096 ->
       va2pa (base_pgdir s) (UPAGES + 4096 * k) (pm s) = Val (ROUND kend BY2PG - ULIM + 4096 * k) (pm s)) /\
    (forall k, 0 <= k < 251 -> va2pa (base_pgdir s) (UENVS + 4096 * k) (pm s) = Val (envs_kva - ULIM + 4096 * k) (pm s)).
Proof.
  intros M n. destruct (boot_ok msize kend envs_kva M) as (s & ext & E & [B1 B2 B3 _ _ _ B7 B8]).
  destruct M as [_ _ [H1 H2] _ _ (H3 & H4 & _)]. destruct (page_init_used kend H1 H2) as (_ & _ & HR).
  exists s, ext. split; [done|]. split; [done|]. split; [done|]. split; [done|]. split.
  - intros k Hk. rewrite B7 by done. f_equal.
    assert (HRn : ROUND kend BY2PG = 4096 * ((kend + 4095) / 4096)).
    { change BY2PG with (2 ^ 12). rewrite ROUND_div by (unfold ULIM in *; lia). change (2 ^ 12) with 4096. f_equal. f_equal. lia. }
    rewrite HRn. unfold ULIM. dlia.
  - intros k Hk. rewrite B8 by done. f_equal. unfold ULIM in *. dlia.
Qed.

(** ** Loading a program

    A segment is loaded through calls of the mapper that stay in it; what they all keep, the
    loader keeps, and it ends. *)
(** A computation ends with [Q], or halts for a reason in [failure]. *)
Definition keeps_or {St A} (failure : string -> Prop) (Q : St -> Prop) (o : outcome St A) : Prop :=
  match o with
  | Val _ s => Q s
  | Panic msg _ => failure msg
  | _ => False
  end.

Lemma keeps_bind {St A B} failure (P Q : St -> Prop) (m : M St A) (k : A -> M St B) s :
  keeps_or failure P (m s) -> (forall a s', P s' -> keeps_or failure Q (k a s')) -> keeps_or failure Q ((m ≫= k) s).
Proof. unfold mbind, M_bind. destruct (m s); cbn; auto. Qed.

Section LoadKeeps.
Context {St : Type} (map_page : Z -> Z -> Z -> option Z -> Z -> M St Z) (Q : St -> Prop) (failure : string -> Prop).

Context (ph : Elf32_Phdr).
Let va := p_vaddr ph.
Let fs := p_filesz ph.
Let ms := p_memsz ph.
Context (Hva : 0 <= va) (Hfs : 0 <= fs <= ms) (Hlim : va + ms + 8192 < 4294967296).
Context (Hmap : forall a offset perm src len s, Q s -> va <= a <= va + ms -> (perm = PTE_V \/ perm = Z.lor PTE_V PTE_D) ->
  0 <= offset -> match src with Some o => 0 <= o /\ 0 <= len /\ o + len <= fs /\ offset + len <= 4096 | None => True end ->
  keeps_or failure Q (map_page a offset perm src len s)).

Lemma load_content_keeps perm fuel : (perm = PTE_V \/ perm = Z.lor PTE_V PTE_D) -> forall i s, 0 <= i -> fs - i <= 4096 * Z.of_nat fuel ->
  Q s -> match load_content map_page fuel va perm fs i s with
    | Val r s' => Q s' /\ forall i', r = Ok i' -> 0 <= i'
    | o => keeps_or failure Q o
    end.
Proof.
  intros Hperm. induction fuel as [|fuel IH]; intros i s Hi Hfuel HQ; cbn [load_content].
  { destruct (Z.ltb_spec i fs); [lia|]. split; [done|]. by intros i' [= <-]. }
  destruct (Z.ltb_spec i fs) as [Hlt|]; [|split; [done|]; by intros i' [= <-] ].
  assert (H1 : keeps_or failure Q (map_page (u32 (va + i)) 0 perm (Some i) (MIN (u32 (fs - i)) BY2PG) s)).
  { rewrite !u32_small by (unfold is_u32; lia). apply Hmap; [done|lia|done|lia|]. unfold MIN, BY2PG. destruct (Z.leb_spec (fs - i) 4096); lia. }
  unfold mbind, M_bind. destruct (map_page _ _ _ _ _ s) as [r s1| | |]; cbn in H1; try done.
  destruct (negb (r =? 0)); [by split|]. rewrite u32_small by (unfold is_u32, BY2PG; lia). apply IH; [unfold BY2PG; lia..|done].
Qed.

Lemma load_bss_keeps perm fuel : (perm = PTE_V \/ perm = Z.lor PTE_V PTE_D) -> forall i s, 0 <= i -> ms - i <= 4096 * Z.of_nat fuel ->
  Q s -> keeps_or failure Q (load_bss map_page fuel va perm fs ms i s).
Proof.
  intros Hperm. induction fuel as [|fuel IH]; intros i s Hi Hfuel HQ; cbn [load_bss].
  { by destruct (Z.ltb_spec i ms); [lia|]. }
  destruct (Z.ltb_spec i ms) as [Hlt|]; [|done]. apply (keeps_bind _ Q).
  { rewrite (u32_small (va + i)) by (unfold is_u32; lia). apply Hmap; [done|lia|done|lia|done]. }
  intros r s1 H1. destruct (negb (r =? 0)); [done|]. rewrite u32_small by (unfold is_u32, BY2PG; lia). apply IH; [unfold BY2PG; lia..|done].
Qed.

Lemma elf_load_seg_keeps s : Q s -> keeps_or failure Q (elf_load_seg map_page ph s).
Proof.
  intros HQ. unfold elf_load_seg. fold va fs ms. set (perm := if hasbits _ _ then _ else _).
  assert (Hperm : perm = PTE_V \/ perm = Z.lor PTE_V PTE_D) by (unfold perm; destruct (hasbits _ _); [by right|by left]).
  assert (Ho : va - ROUNDDOWN va BY2PG = va mod 4096).
  { change BY2PG with (2 ^ 12). rewrite ROUNDDOWN_div by (unfold is_u32; lia). change (2 ^ 12) with 4096. dlia. }
  rewrite Ho. assert (Hr : 0 <= va mod 4096 < 4096) by (by apply Z.mod_pos_bound).
  set (first := MIN fs (BY2PG - va mod 4096)).
  assert (Hf : 0 <= first <= fs /\ va mod 4096 + first <= 4096) by (unfold first, MIN, BY2PG; destruct (Z.leb_spec fs (4096 - va mod 4096)); lia).
  apply (keeps_bind _ Q).
  { destruct (negb (va mod 4096 =? 0)) eqn:E; [|done]. apply Hmap; [done|lia|done|lia|lia]. }
  intros r s1 H1. destruct (negb (r =? 0)); [done|]. set (i0 := if negb (va mod 4096 =? 0) then first else 0).
  assert (Hi0 : 0 <= i0) by (unfold i0; destruct (negb _); lia).
  pose proof (load_content_keeps perm (load_fuel fs) Hperm i0 s1 Hi0) as HC.
  pose proof (load_fuel_enough (fun _ => 0) fs ltac:(lia)) as F1. pose proof (load_fuel_enough (fun _ => 0) ms ltac:(lia)) as F2.
  specialize (HC ltac:(lia) H1). unfold mbind, M_bind. destruct (load_content _ _ _ _ _ _ s1) as [ri s2| | |]; try done.
  destruct HC as [H2 Hi']. destruct ri as [r'|i']; [done|]. specialize (Hi' i' eq_refl). apply load_bss_keeps; [done|done|lia|done].
Qed.
End LoadKeeps.

(** *** The mapper of the kernel *)
Definition no_room (msg : string) : Prop :=
  msg = "[kern/env.c/load_icode_mapper]no more process space"%string \/ msg = "elf_load_seg"%string.

Lemma copy_to_page_frame m p off bs : (forall q i, is_u32 (word m q i)) ->
  (forall q i, is_u32 (word (copy_to_page m p off bs) q i)) /\
  (forall q i, q <> p -> word (copy_to_page m p off bs) q i = word m q i).
Proof.
  revert m off. induction bs as [|b bs IH]; intros m off H; cbn [copy_to_page]; [done|].
  destruct (IH (set_page_byte m p off b) (off + 1)) as [IH1 IH2].
  { intros q i. unfold set_page_byte. rewrite word_upd. case_decide; [|done]. apply set_word_byte_u32; [done|].
    by apply Z.mod_pos_bound. }
  split; [done|]. intros q i Hq. rewrite IH2 by done. unfold set_page_byte. rewrite word_upd, decide_False; [done|]. by intros [<- _].
Qed.

Section Mapper.
Context (L : list Z) (ext : Z -> Z) (fl : list Z) (e : Z) (He : e ∈ L) (s0 : kstate).

(** Only the memory differs from [s0], and the invariant holds. *)
Definition loading (s : kstate) : Prop := s = set_pm (pm s) s0 /\ exists pfl, kernel_ok L ext fl pfl s.

(** A page is taken: it is no one's, and may be written. *)
Lemma take_page s p pfl : kernel_ok L ext fl (p :: pfl) s -> exists s1, pmap_op page_alloc s = Val (Ok p) s1 /\
  s1 = set_pm (pm s1) s /\ kernel_ok L ext fl pfl s1 /\ user_page (dirs s1 L) ext (phys (pm s1)) p /\
  0 <= p < npage (pm s1) /\ (p ∉ pfl) /\ pp_ref (pm s1) p = 0.
Proof.
  intros O. pose proof (ko_inv O) as I. destruct (alloc_step L ext fl p pfl s I) as (s1 & E & M & HM & HD & _ & H0 & Hnin & Hr).
  pose proof (ms_only _ _ _ _ _ _ M) as Es. assert (HU : user_va 0) by (by vm_compute).
  exists s1. split; [done|]. split; [done|]. split.
  - apply (kernel_ok_memory L ext fl (p :: pfl) pfl s s1 e 0 O M); [intros i va Hi Hva _; by apply HM|done|].
    intros pte. rewrite HM by done. intros Hm. destruct (ko_data O e 0 pte He HU Hm) as [Hd Hex]. split; [|done]. apply HD; [done|].
    by apply (mapped_page L ext fl (p :: pfl) s I e 0 He HU pte Hm).
  - pose proof (k_pm _ _ _ _ _ (ms_inv _ _ _ _ _ _ M)) as I1. split; [|done].
    split; [|by apply (free_unreferenced _ _ _ _ p (k_pm _ _ _ _ _ I) ltac:(left))].
    apply unreferenced_data. pose proof (inv_ref _ _ _ _ I1 p Hr).
    pose proof (inv_ext _ _ _ _ I1 p). pose proof (refs_nonneg (dirs s1 L) (phys (pm s1)) p). lia.
Qed.

(** ... and given to [e]. *)
Lemma give_page s p pfl va perm : kernel_ok L ext fl pfl s -> user_va va -> 0 <= perm < 4096 ->
  0 <= p < npage (pm s) -> p ∉ pfl -> pp_ref (pm s) p = 0 ->
  exists r s' pfl', pmap_op (page_insert (env_pgdir (env s e)) (env_asid (env s e)) p va perm) s = Val r s' /\
    s' = set_pm (pm s') s /\ kernel_ok L ext fl pfl' s'.
Proof using He.
  intros O Hva Hperm Hp Hpfl H0. pose proof (ko_inv O) as I.
  destruct (env_insert L ext fl pfl s I e va He Hva p perm Hp Hpfl ltac:(lia) Hperm) as (r & s' & pfl' & E & M & HS & HD & Hres).
  exists r, s', pfl'. split; [done|]. split; [apply M|]. apply (kernel_ok_memory L ext fl pfl pfl' s s' e va O M HS HD).
  assert (Hdirs : dirs s' L = dirs s L) by by rewrite (ms_only _ _ _ _ _ _ M). intros pte.
  destruct Hres as [(_ & Hm & _ & Hrf & _)|(_ & _ & _ & _ & Hm & _)]; rewrite Hm; [|done]. intros [= <-].
  pose proof (wf_npage _ _ _ (inv_mem _ _ _ _ (k_pm _ _ _ _ _ I))) as Hn.
  assert (HP : PPN (mk_pte p perm) = p) by (apply PPN_mk_pte; lia). rewrite <- Hdirs.
  apply (counted_user _ ext pfl' (pm s') (dir_of s' e) va); [apply M|by apply elem_of_dirs|done|exact Hm|]. rewrite HP, Hrf, H0.
  destruct (mapping s e va) as [e0|] eqn:Em; [|done].
  destruct (mapped_page L ext fl pfl s I e va He Hva e0 Em) as (_ & _ & Hpos). destruct (Z.eqb_spec (PPN e0) p) as [Ep|]; [rewrite Ep in Hpos; lia|done].
Qed.

Lemma mapper_keeps binary base va offset perm src len s : loading s -> user_va va -> 0 <= perm < 4096 -> 0 <= offset ->
  match src with Some o => 0 <= base + o /\ 0 <= len /\ base + o + len <= Z.of_nat (length binary) /\ offset + len <= 4096 | None => True end ->
  keeps_or no_room loading (load_icode_mapper binary base e va offset perm src len s).
Proof using He.
  intros [Es (pfl & O)] Hva Hperm Hoff Hsrc. unfold load_icode_mapper. destruct pfl as [|p pfl].
  { rewrite (bind_pmap_id _ _ _ (Err (- E_NO_MEM))); [by left|]. apply page_alloc_empty, (k_pm _ _ _ _ _ (ko_inv O)). }
  destruct (take_page s p pfl O) as (s1 & E1 & Es1 & O1 & Hd & Hr & Hnin & H0). rewrite (bind_val _ _ _ _ _ E1).
  assert (HG : forall s2, s2 = set_pm (pm s2) s1 -> kernel_ok L ext fl pfl s2 -> npage (pm s2) = npage (pm s1) -> pp_ref (pm s2) p = 0 ->
    keeps_or no_room loading ((pgdir ← get_env e env_pgdir; asid ← get_env e env_asid; pmap_op (page_insert pgdir asid p va perm)) s2)).
  { intros s2 Es2 O2 Hn2 H2. destruct (give_page s2 p pfl va perm O2 Hva Hperm ltac:(by rewrite Hn2) Hnin H2) as (r & s' & pfl' & E & Es' & O').
    unfold get_env. rewrite !bind_gets. rewrite E. split; [|by exists pfl']. rewrite Es', Es2, Es1, Es. done. }
  destruct src as [o|]; [|apply (HG s1); [by destruct s1|done..] ]. destruct Hsrc as (B1 & B2 & B3 & B4).
  assert (G1 : (base + o <? 0) || (Z.of_nat (length binary) <? base + o + len) = false) by (apply orb_false_iff; split; apply Z.ltb_ge; lia).
  unfold slice. rewrite G1. rewrite !bind_bind, bind_ret.
  pose proof (wf_npage _ _ _ (inv_mem _ _ _ _ (k_pm _ _ _ _ _ (ko_inv O1)))) as Hn.
  rewrite !bind_bind. rewrite (bind_pmap_id _ _ _ (slot p 0)) by (apply page2kva_page; [done|apply Hn]).
  assert (G2 : BY2PG <? offset + len = false) by (apply Z.ltb_ge; unfold BY2PG; lia). rewrite G2.
  set (bs := take _ _). set (m' := copy_to_page (phys (pm s1)) p offset bs).
  destruct (copy_to_page_frame (phys (pm s1)) p offset bs) as [C1 C2]; [apply (wf_words _ _ _ (inv_mem _ _ _ _ (k_pm _ _ _ _ _ (ko_inv O1))))|].
  rewrite (bind_pmap _ _ s1 tt (set_phys m' (pm s1))) by done.
  destruct (kernel_ok_store L ext fl pfl s1 p m' O1 Hd ltac:(intros q i Hq; by apply C2) (C1 p)) as (O2 & _). by apply HG.
Qed.
End Mapper.

(** *** env_create *)

(** A binary that the loader reads within its bounds, and whose segments are in user space. *)
Definition segment_fits (size : Z) (ph : Elf32_Phdr) : bool :=
  (0 <=? p_offset ph) && (p_offset ph + p_filesz ph <=? size) &&
  (0 <=? p_filesz ph) && (p_filesz ph <=? p_memsz ph) && (0 <=? p_vaddr ph) && (p_vaddr ph + p_memsz ph <? UTOP).

Definition loadable (binary : list Z) : bool :=
  match elf_from binary (Z.of_nat (length binary)) with
  | Some ehdr => forallb (fun off => match phdr_at binary off with
      | Some ph => negb (p_type ph =? PT_LOAD) || segment_fits (Z.of_nat (length binary)) ph
      | None => false
      end) (phdr_offs ehdr)
  | None => false
  end.

Lemma keeps_for_each {St X} (failure : string -> Prop) (Q : St -> Prop) (body : X -> M St unit) l s :
  Q s -> (forall x s, x ∈ l -> Q s -> keeps_or failure Q (body x s)) -> keeps_or failure Q (for_each l body s).
Proof.
  intros H HB. revert s H. induction l as [|x l IH]; intros s H; cbn [for_each]; [done|].
  apply (keeps_bind _ Q); [apply HB; [left|done]|]. intros _ s' H'. apply IH; [|done]. intros y t Hy. apply HB. by right.
Qed.

Lemma load_icode_keeps L ext fl e s0 s binary : e ∈ L -> loading L ext fl s0 s -> loadable binary = true ->
  keeps_or no_room (fun s' => exists f, (forall v, f v = with_env_tf (env_tf (f v)) v) /\
    exists s1, loading L ext fl s0 s1 /\ s' = put_env e f s1) (load_icode e binary s).
Proof.
  intros He HQ HL. unfold loadable in HL. unfold load_icode. destruct (elf_from binary _) as [ehdr|]; [|done].
  rewrite forallb_forall in HL.
  assert (HF : keeps_or no_room (loading L ext fl s0) (for_each (phdr_offs ehdr) (fun ph_off =>
        ph ← lift_opt "program header past the binary" (phdr_at binary ph_off);
        if p_type ph =? PT_LOAD then
          panic_on "elf_load_seg" (elf_load_seg (load_icode_mapper binary (p_offset ph) e) ph)
        else mret tt) s)).
  { apply keeps_for_each; [done|]. intros off t Hoff HQt. specialize (HL off ltac:(by apply list_elem_of_In)). cbv beta in HL.
    destruct (phdr_at binary off) as [ph|]; [|done]. cbn [lift_opt]. rewrite bind_ret. destruct (p_type ph =? PT_LOAD); [|done].
    cbn [negb orb] in HL. unfold segment_fits in HL. repeat (apply andb_true_iff in HL as [HL ?]). rewrite ?Z.leb_le, ?Z.ltb_lt in *.
    unfold panic_on. assert (HU : UTOP = 2134900736) by reflexivity. apply (keeps_bind _ (loading L ext fl s0)).
    - apply elf_load_seg_keeps; [lia..| |done]. intros a offset perm src len u HQu Ha Hperm Ho Hs.
      apply (mapper_keeps L ext fl e He s0); [done|unfold user_va; lia| |done|].
      + destruct Hperm as [-> | ->]; by vm_compute.
      + destruct src; [lia|done].
    - intros r t' H'. destruct (negb (r =? 0)); [by right|done]. }
  unfold mbind, M_bind. destruct (for_each _ _ s) as [ [] s1|msg s1| |]; cbn in HF; try done.
  cbn [keeps_or]. exists (fun v => with_env_tf (set_epc (e_entry ehdr) (env_tf v)) v). split; [done|]. by exists s1.
Qed.

(** *** No page left

    env_alloc does not look at the result of env_setup_vm; the loader then finds that there is
    no page and halts, for a program that has something to load. *)
Definition has_content (binary : list Z) : bool :=
  match elf_from binary (Z.of_nat (length binary)) with
  | Some ehdr => existsb (fun off => match phdr_at binary off with
      | Some ph => (p_type ph =? PT_LOAD) && (0 <? p_memsz ph)
      | None => false
      end) (phdr_offs ehdr)
  | None => false
  end.

Lemma env_alloc_no_page s e fl : is_list (env_free_list s) (e :: fl) -> is_list (page_free_list (pm s)) [] ->
  exists s1, env_alloc 0 s = Val (Ok e) s1 /\ pm s1 = pm s.
Proof.
  intros Hf Hp. destruct (remove_head_refines _ _ _ Hf) as (q & Eq & _). unfold env_alloc. mstep.
  pose proof (is_list_head _ _ _ Hf) as Hh.
  destruct (LIST_EMPTY (env_free_list s)) eqn:Ee; [by apply (is_list_empty _ _ Hf) in Ee|].
  rewrite Hh. cbn [lift_opt]. mstep. rewrite Eq. cbn [lift_opt]. msteps. set (s1 := set_env_free_list q s).
  rewrite (bind_val (env_setup_vm e) _ s1 (- E_NO_MEM) s1).
  2:{ unfold env_setup_vm. by rewrite (bind_pmap_id _ _ _ (Err (- E_NO_MEM))) by by apply page_alloc_empty. }
  rewrite !bind_upd_env. unfold asid_alloc. rewrite bind_bind, bind_gets. cbv beta.
  destruct (find _ _) as [a|].
  - rewrite bind_bind, bind_modify, bind_ret, bind_upd_env. unfold mkenvid. rewrite bind_bind, bind_modify, bind_bind, bind_gets, bind_ret.
    rewrite !bind_upd_env. eexists. split; reflexivity.
  - rewrite bind_ret, bind_ret. unfold mkenvid. rewrite bind_bind, bind_modify, bind_bind, bind_gets, bind_ret.
    rewrite !bind_upd_env. eexists. split; reflexivity.
Qed.

Lemma load_fuel_pos n : 0 < n -> exists m, load_fuel n = S m.
Proof. intros H. exists (Z.to_nat (n / BY2PG)). unfold load_fuel, BY2PG. dlia. Qed.

Section NoPage.
Context (binary : list Z) (base e : Z) (s : kstate) (Hp : is_list (page_free_list (pm s)) []).

Lemma mapper_no_page va offset perm src len {B} (k : Z -> K B) Q :
  keeps_or no_room Q ((load_icode_mapper binary base e va offset perm src len ≫= k) s).
Proof using Hp.
  unfold load_icode_mapper. rewrite bind_bind, (bind_pmap_id _ _ _ (Err (- E_NO_MEM))) by by apply page_alloc_empty. by left.
Qed.

Lemma elf_load_seg_no_page ph :
  keeps_or no_room (fun s' => s' = s /\ p_memsz ph <= 0) (elf_load_seg (load_icode_mapper binary base e) ph s).
Proof using Hp.
  unfold elf_load_seg. set (perm := if hasbits _ _ then _ else _).
  destruct (negb (p_vaddr ph - ROUNDDOWN (p_vaddr ph) BY2PG =? 0)); [apply mapper_no_page|]. rewrite bind_ret. cbn [Z.eqb negb].
  assert (HC : 0 < p_filesz ph \/ load_content (load_icode_mapper binary base e) (load_fuel (p_filesz ph)) (p_vaddr ph) perm (p_filesz ph) 0 s = Val (Ok 0) s).
  { destruct (decide (0 < p_filesz ph)); [by left|right]. destruct (load_fuel _); cbn [load_content]; by destruct (Z.ltb_spec 0 (p_filesz ph)); [lia|]. }
  destruct HC as [Hf|HC].
  - destruct (load_fuel_pos _ Hf) as (n & ->). cbn [load_content]. rewrite (proj2 (Z.ltb_lt _ _) Hf), bind_bind. apply mapper_no_page.
  - rewrite (bind_val _ _ _ _ _ HC). destruct (decide (0 < p_memsz ph)) as [Hm|Hm].
    + destruct (load_fuel_pos _ Hm) as (n & ->). cbn [load_bss]. rewrite (proj2 (Z.ltb_lt _ _) Hm). apply mapper_no_page.
    + assert (E : load_bss (load_icode_mapper binary base e) (load_fuel (p_memsz ph)) (p_vaddr ph) perm (p_filesz ph) (p_memsz ph) 0 s = Val 0 s).
      { assert (Hz : 0 <? p_memsz ph = false) by (apply Z.ltb_ge; lia). destruct (load_fuel (p_memsz ph)); cbn [load_bss]; rewrite Hz; reflexivity. }
      rewrite E. split; [done|lia].
Qed.
End NoPage.

Lemma load_icode_no_page e binary s : is_list (page_free_list (pm s)) [] -> loadable binary = true -> has_content binary = true ->
  keeps_or no_room (fun _ => False) (load_icode e binary s).
Proof.
  intros Hp HL HC. unfold loadable in HL. unfold has_content in HC. unfold load_icode. destruct (elf_from binary _) as [ehdr|]; [|done].
  rewrite forallb_forall in HL. apply existsb_exists in HC as (o & Ho & HC). apply list_elem_of_In in Ho.
  set (body := fun ph_off : Z => _). set (bad := fun off => exists ph, phdr_at binary off = Some ph /\ p_type ph = PT_LOAD /\ 0 < p_memsz ph).
  assert (HF : forall l, (forall x, x ∈ l -> x ∈ phdr_offs ehdr) -> keeps_or no_room (fun s' => s' = s /\ forall x, x ∈ l -> ~ bad x) (for_each l body s)).
  { induction l as [|x l IH]; intros Hl; cbn [for_each]; [split; [done|]; by intros x ?%elem_of_nil|].
    apply (keeps_bind _ (fun s' => s' = s /\ ~ bad x)).
    - specialize (HL x ltac:(apply list_elem_of_In, Hl; left)). cbv beta in HL. unfold body.
      destruct (phdr_at binary x) as [ph|] eqn:E; [|done]. cbn [lift_opt]. rewrite bind_ret. destruct (Z.eqb_spec (p_type ph) PT_LOAD) as [Et|Et].
      2:{ split; [done|]. intros (ph' & E' & Et' & _). congruence. }
      unfold panic_on. apply (keeps_bind _ (fun s' => s' = s /\ p_memsz ph <= 0)); [by apply elf_load_seg_no_page|].
      intros r s' [-> Hm]. destruct (negb (r =? 0)); [by right|]. split; [done|]. intros (ph' & E' & _ & Hm'). assert (ph' = ph) as -> by congruence. lia.
    - intros _ s' [-> Hx]. specialize (IH ltac:(intros y Hy; apply Hl; by right)). unfold keeps_or in *. destruct (for_each l body s); try done.
      destruct IH as [-> IH]. split; [done|]. intros y [->|Hy]%elem_of_cons; [done|by apply IH]. }
  specialize (HF _ (fun x H => H)). unfold mbind, M_bind. destruct (for_each _ _ s) as [ [] s'|msg s'| |]; cbn in HF; try done.
  destruct HF as [_ HF]. exfalso. apply (HF o Ho). destruct (phdr_at binary o) as [ph|] eqn:E; [|done]. exists ph.
  apply andb_true_iff in HC as [H1%Z.eqb_eq H2%Z.ltb_lt]. by rewrite E.
Qed.

(** What [env_create] leaves. *)
Record created (L : list Z) (ext : Z -> Z) (fl : list Z) (e : Z) (sl : list Z) (a : Z) (s s' : kstate) : Prop := {
  cd_ok : exists pfl', kernel_ok (e :: L) ext fl pfl' s';
  cd_queue : run_queue s' (e :: sl);
  cd_rest : curenv s' = curenv s /\ mkenvid_i s' = mkenvid_i s + 1 /\
    forall j, 0 <= j -> asid_used s' j = asid_used s j || (a =? j) }.

(** The new environment before its program is loaded. *)
Lemma created_blank L ext fl e p pfl s s1 a priority : kernel_ok L ext (e :: fl) (p :: pfl) s -> allocated L ext e p a 0 s s1 ->
  kinv (e :: L) ext fl pfl s1 ->
  kernel_ok (e :: L) ext fl pfl (put_env e (with_env_status ENV_RUNNABLE) (put_env e (with_env_pri priority) s1)).
Proof.
  intros O A I1. set (s2 := put_env e _ _). pose proof (ko_inv O) as I.
  assert (HeL : e ∉ L) by (apply (k_disj _ _ _ _ _ I); left). pose proof (ef_free (ko_env O e) HeL) as Hfree.
  assert (Henv : forall j, env s2 j = if decide (e = j) then with_env_status ENV_RUNNABLE (with_env_pri priority (env s1 e)) else env s1 j).
  { intros j. unfold s2. rewrite !env_put. destruct (decide (e = j)) as [<-|]; [by rewrite decide_True|done]. }
  assert (Hdir : forall i, dir_of s2 i = dir_of s1 i) by (intros i; unfold dir_of; rewrite Henv; by destruct (decide (e = i)) as [<-|]).
  destruct (allocated_view L ext e fl p pfl 0 s a s1 I A) as (V1 & V2 & V3).
  split.
  - apply (kinv_ext _ _ _ _ s1); try reflexivity; [|exact I1]. intros i _. rewrite Henv. by destruct (decide (e = i)) as [<-|].
  - intros i. rewrite Henv. destruct (decide (e = i)) as [<-|Hne].
    + rewrite (al_env _ _ _ _ _ _ _ _ A). destruct (ko_env O e) as [F1 F2 F3 F4 F5]. split; cbn.
      * by left.
      * intros H. by destruct H; left.
      * intros Hv. destruct (F3 Hv) as [Hs _]. by rewrite Hfree in Hs.
      * done.
      * done.
    + rewrite (al_other _ _ _ _ _ _ _ _ A) by congruence. apply (env_fine_iff (i ∈ L)); [|exact (ko_env O i)].
      rewrite elem_of_cons. naive_solver.
  - intros i va pte Hi Hva. assert (HD : dirs s2 (e :: L) = dirs s1 (e :: L)) by (apply map_ext_in; intros j _; apply Hdir).
    unfold mapping. rewrite Hdir, HD. intros Hm. change (mapping s1 i va = Some pte) in Hm.
    apply elem_of_cons in Hi as [->|Hi]; [by rewrite (V1 va Hva) in Hm|]. rewrite V2 in Hm by done.
    destruct (ko_data O i va pte Hi Hva Hm) as [Hd Hex]. split; [|done]. apply (V3 (PPN pte)); [done|].
    by apply (mapped_page L ext (e :: fl) (p :: pfl) s I i va Hi Hva pte).
  - assert (HD : dirs s2 (e :: L) = dirs s1 (e :: L)) by (apply map_ext_in; intros j _; apply Hdir). rewrite HD.
    assert (HD1 : dirs s1 (e :: L) = p :: dirs s L).
    { assert (He : dir_of s1 e = p) by (apply dir_of_slot; by rewrite (al_env _ _ _ _ _ _ _ _ A)). cbn [dirs map]. rewrite He. f_equal.
      apply map_ext_in. intros i Hi%list_elem_of_In. unfold dir_of. rewrite (al_other _ _ _ _ _ _ _ _ A); [done|]. by intros ->. }
    destruct (k_base _ _ _ _ _ I) as (b & Hb & _).
    destruct (free_unreferenced _ _ _ _ p (k_pm _ _ _ _ _ I) ltac:(left)) as [Href Hex]. apply unreferenced_data in Href.
    change (base_pgdir s2) with (base_pgdir s1). change (pm s2) with (pm s1). rewrite (al_base _ _ _ _ _ _ _ _ A). rewrite HD1 in *.
    apply (kernel_pages_new _ _ _ _ _ _ (ko_pages O) Hex); [apply Href|by exists b| | |exact (al_words _ _ _ _ _ _ _ _ A)].
    + intros b' Hb'. split; [by apply (base_held I)|by apply (al_vm _ _ _ _ _ _ _ _ A)].
    + intros q Hq. apply V3; [by apply (kp_held _ _ _ _ (ko_pages O))|exact (held_not_free I Hq)].
  - destruct (al_rest _ _ _ _ _ _ _ _ A) as (_ & _ & _ & Hid & _). change (0 <= mkenvid_i s1). rewrite Hid. pose proof (ko_ids O). lia.
Qed.

Lemma env_create_keeps L ext fl e pfl sl s a binary priority : kernel_ok L ext (e :: fl) pfl s -> run_queue s sl ->
  mkenvid_i s < 2097151 -> find (asid_is_free s) (zseq 0 (Z.to_nat NASID)) = Some a -> loadable binary = true -> has_content binary = true ->
  keeps_or no_room (created L ext fl e sl a s) (env_create binary priority s).
Proof.
  intros O Q Hid Ha HL HC. pose proof (ko_inv O) as I. unfold env_create. destruct pfl as [|p pfl].
  { destruct (env_alloc_no_page s e fl (k_free _ _ _ _ _ I) (inv_fl _ _ _ _ (k_pm _ _ _ _ _ I))) as (s1 & E & Hpm).
    rewrite (bind_val _ _ _ _ _ E), !bind_upd_env. apply (keeps_bind _ (fun _ => False)); [|done].
    apply load_icode_no_page; [|done..]. cbn [pm put_env set_envs]. rewrite Hpm. apply (inv_fl _ _ _ _ (k_pm _ _ _ _ _ I)). }
  destruct (env_alloc_ok L ext e fl p pfl 0 s a I (conj (ko_ids O) Hid) Ha) as (s1 & E & A & I1).
  rewrite (bind_val _ _ _ _ _ E), !bind_upd_env. set (s2 := put_env e _ _).
  pose proof (created_blank L ext fl e p pfl s s1 a priority O A I1) as O2. fold s2 in O2.
  assert (HeL : e ∉ L) by (apply (k_disj _ _ _ _ _ I); left). pose proof (ef_free (ko_env O e) HeL) as Hfree.
  destruct (al_rest _ _ _ _ _ _ _ _ A) as (R1 & R2 & _ & R4 & _).
  assert (HQ : loading (e :: L) ext fl s2 s2) by (split; [done|by exists pfl]).
  eapply keeps_bind; [exact (load_icode_keeps (e :: L) ext fl e s2 s2 binary ltac:(left) HQ HL)|].
  intros _ s4 (f & Hf & s3 & [E3 (pfl3 & O3)] & ->). rewrite bind_modify. set (s5 := set_env_sched_list _ _).
  assert (H3 : forall i, env s3 i = env s2 i) by (intros i; by rewrite E3).
  assert (H2 : forall i, i <> e -> env s2 i = env s i).
  { intros i Hi. unfold s2. rewrite !env_put, !decide_False by congruence. by apply (al_other _ _ _ _ _ _ _ _ A). }
  assert (H2e : env_status (env s2 e) = ENV_RUNNABLE) by (unfold s2; by rewrite env_put, decide_True).
  assert (Hst : forall i, env_status (env s5 i) = env_status (env s2 i)).
  { intros i. change (env s5 i) with (env (put_env e f s3) i). rewrite env_put, !H3. destruct (decide (e = i)) as [<-|]; [|done]. by rewrite Hf. }
  destruct Q as [Q1 Q2]. assert (He : e ∉ sl) by (rewrite Q2, Hfree; done).
  cbn [keeps_or]. split.
  - exists pfl3. apply (kernel_ok_frame (e :: L) ext fl pfl3 s3 s5 (cur_pgdir (pm s3))); try done.
    + apply same_cur.
    + intros i. change (env s5 i) with (env (put_env e f s3) i). rewrite env_put. destruct (decide (e = i)) as [<-|]; [|done]. by rewrite Hf.
    + intros i. change (env s5 i) with (env (put_env e f s3) i). rewrite env_put. destruct (decide (e = i)) as [<-|]; [|exact (ko_env O3 i)].
      rewrite Hf. by apply (env_fine_ext _ (env s3 e)); [..|exact (ko_env O3 e)].
  - split.
    + change (env_sched_list s5) with (TAILQ.TAILQ_INSERT_HEAD e (env_sched_list s3)). apply TAILQ.tailq_insert_head_refines; [|done].
      rewrite E3. change (env_sched_list (set_pm (pm s3) s2)) with (env_sched_list s1). by rewrite R2.
    + intros i. rewrite Hst, elem_of_cons, Q2. destruct (decide (i = e)) as [->|Hi]; [by rewrite H2e; split; [|by left]|].
      rewrite H2 by done. split; [by intros [?|?]|by right].
  - change (curenv s5) with (curenv s3). change (mkenvid_i s5) with (mkenvid_i s3). rewrite E3. split; [exact R1|]. split; [exact R4|].
    intros j Hj. change (asid_used s5 j) with (asid_used s3 j). rewrite E3. by apply (al_asid _ _ _ _ _ _ _ _ A).
Qed.

(** ** The first programs *)

(** [k] programs were created and none has run. *)
Definition set_up (ext : Z -> Z) (k : Z) (s : kstate) : Prop := exists L pfl sl,
  kernel_ok L ext (zseq k (Z.to_nat (NENV - k))) pfl s /\ run_queue s sl /\ Z.of_nat (length sl) = k /\
  curenv s = None /\ mkenvid_i s = k /\ forall j, 0 <= j -> asid_used s j = (j <? k).

Lemma first_asid s k : 0 <= k < NASID -> (forall j, 0 <= j -> asid_used s j = (j <? k)) ->
  find (asid_is_free s) (zseq 0 (Z.to_nat NASID)) = Some k.
Proof.
  intros Hk Hu. assert (Hf : forall j, 0 <= j -> asid_is_free s j = negb (j <? k)) by (intros j Hj; by rewrite asid_is_free_used, Hu).
  destruct (find _ _) as [a|] eqn:E.
  - apply find_zseq_least in E as (Ha & H1 & H2). rewrite Hf in H1 by lia. destruct (Z.ltb_spec a k) as [|Hge]; [done|].
    destruct (decide (a = k)) as [->|]; [done|]. specialize (H2 k ltac:(lia)). rewrite Hf, Z.ltb_irrefl in H2 by lia. done.
  - eapply find_none in E; [|apply list_elem_of_In, elem_of_zseq; instantiate (1 := k); unfold NASID in *; lia].
    rewrite Hf, Z.ltb_irrefl in E by lia. done.
Qed.

Lemma booted_set_up ext pfl np pp1 pp2 s : booted ext pfl np pp1 pp2 s -> set_up ext 0 s.
Proof.
  intros B. exists [], pfl, []. split; [exact (bt_ok _ _ _ _ _ _ B)|]. split; [exact (bt_queue _ _ _ _ _ _ B)|].
  split; [done|]. split; [exact (bt_cur _ _ _ _ _ _ B)|]. split; [exact (bt_first _ _ _ _ _ _ B)|].
  intros j Hj. rewrite (bt_asids _ _ _ _ _ _ B). by destruct (Z.ltb_spec j 0); [lia|].
Qed.

Lemma create_all_keeps ext programs : forall k s, 0 <= k -> k + Z.of_nat (length programs) <= NASID ->
  (forall p, p ∈ programs -> loadable p.1 = true /\ has_content p.1 = true) -> set_up ext k s ->
  keeps_or no_room (set_up ext (k + Z.of_nat (length programs))) (create_all programs s).
Proof.
  assert (HN : NASID = 64 /\ NENV = 1024) by done. destruct HN as [HA HE].
  unfold create_all. induction programs as [|[b pri] l IH]; intros k s Hk Hlen HP HS; cbn [for_each length]; [by rewrite Z.add_0_r|].
  cbn [length] in Hlen. destruct HS as (L & pfl & sl & O & Q & Hsl & Hc & Hid & Hu).
  destruct (HP (b, pri) ltac:(left)) as [H1 H2]. cbn [fst snd] in *.
  replace (Z.to_nat (NENV - k)) with (S (Z.to_nat (NENV - (k + 1)))) in O by lia. rewrite zseq_S in O.
  rewrite bind_bind. eapply keeps_bind.
  { apply (env_create_keeps L ext _ k pfl sl s k b pri O Q); [lia|apply first_asid; [lia|done]|done|done]. }
  intros e s' [ (pfl' & O') Q' (R1 & R2 & R3)]. rewrite bind_ret.
  replace (k + Z.of_nat (S (length l))) with (k + 1 + Z.of_nat (length l)) by lia.
  apply IH; [lia|lia|intros p Hp; apply HP; by right|]. exists (k :: L), pfl', (k :: sl).
  split; [done|]. split; [done|]. split; [cbn [length]; lia|]. split; [congruence|]. split; [lia|].
  intros j Hj. rewrite R3, Hu by done. destruct (Z.ltb_spec j k), (Z.eqb_spec k j), (Z.ltb_spec j (k + 1)); try done; lia.
Qed.

(** The clock's first interrupt, in a state in which nothing runs. *)
Lemma first_interrupt ext k s tf : set_up ext k s -> 0 < k -> exception_handlers (exc_code tf) = handle_int ->
  exists s' c, run_event (Trap tf) s = Val tt s' /\ user_mode ext c s'.
Proof.
  intros (L & pfl & sl & O & Q & Hsl & Hc & _) Hk Ht.
  set (s0 := set_ktf tf s). assert (HH : handing L ext (zseq k (Z.to_nat (NENV - k))) pfl sl s0).
  { split; [|apply Q|].
    - by apply (kernel_ok_frame L ext _ pfl s s0 (cur_pgdir (pm s))); [..|apply same_cur| |exact (ko_env O)|].
    - intros i. change (curenv s0) with (curenv s). rewrite Hc. destruct Q as [_ Q2]. change (env s0) with (env s). rewrite Q2.
      split; [by left|]. by intros [?|?]. }
  pose proof (schedule_ends L ext _ pfl sl s0 false (fun _ _ => False) HH) as E.
  assert (Hc0 : curenv s0 = None) by exact Hc.
  destruct (schedule_switch false s0 sl (ha_queue _ _ _ _ _ _ HH)) as (q & _ & Es); [by rewrite Hc0|unfold keeps; by rewrite Hc0|].
  rewrite Es in E. rewrite Hc0 in E, Es. unfold requeue in E, Es. destruct sl as [|e l]; [cbn in Hsl; lia|]. cbv zeta in E, Es.
  destruct (is_runnable s0 e) eqn:Er.
  2:{ exfalso. unfold is_runnable in Er. apply Z.eqb_neq in Er. apply Er. apply (rq_status _ _ Q). left. }
  cbn [ends] in E. set (s1 := switch e _) in *. destruct (ret_ends ext e s1 (ETF e) E) as (tf' & Et).
  exists s1, e. split; [|exact E]. cbn [run_event]. rewrite (bind_val _ _ _ tf' s1); [done|]. unfold exception. cbv zeta. fold s0. rewrite Ht. cbn [run_handler]. by rewrite Es.
Qed.

(** ** From reset on *)

(** A state of the running system: some program runs, the invariant holds, and every event
    that [allowed] admits ends. *)
Definition safe (ext : Z -> Z) (s : kstate) : Prop := exists c, curenv s = Some c /\ user_mode ext c s /\ forall ev, allowed s c ev ->
  (exists s', run_event ev s = Val tt s') \/
  (exists msg s', run_event ev s = Panic msg s' /\ (shortage msg \/ halts s c ev msg)).

(** C1: the system from reset on, for programs whose events respect [KernelSafe.allowed]
    (the loads, stores, traps and system calls it admits, and those it leaves out, are listed
    at [KernelSafe.kernel_safe]). On a machine with enough memory for the kernel, let
    mips_init set up memory and environments and create one to sixty-four programs whose
    binaries are well-formed and have something to load. Either it halts because there is no
    page for a program's segments. Or the first timer interrupt resumes one of the programs in
    user mode; then in every state that is reached by allowed events the invariant of the
    kernel holds, and every allowed event comes back to user mode or halts the machine: no
    page or no runnable environment is left, or one of the reasons of [KernelSafe.halts]. *)
Theorem boot_safe msize kend envs_kva programs tf : machine msize kend envs_kva ->
  0 < Z.of_nat (length programs) <= NASID ->
  (forall p, p ∈ programs -> loadable p.1 = true /\ has_content p.1 = true) ->
  exception_handlers (exc_code tf) = handle_int ->
  (exists msg s, mips_programs msize kend envs_kva programs kernel_bss = Panic msg s /\ no_room msg) \/
  (exists s0 s1 c ext, mips_programs msize kend envs_kva programs kernel_bss = Val tt s0 /\ run_event (Trap tf) s0 = Val tt s1 /\
    user_mode ext c s1 /\ forall s, reachable s1 s -> safe ext s).
Proof.
  intros HM Hlen HP Ht. destruct (boot_ok msize kend envs_kva HM) as (s & ext & E & B). unfold mips_programs. rewrite (bind_val _ _ _ _ _ E).
  pose proof (create_all_keeps ext programs 0 s ltac:(lia) ltac:(lia) HP (booted_set_up _ _ _ _ _ _ B)) as HC.
  destruct (create_all programs s) as [ [] s0|msg s0| |]; cbn [keeps_or] in HC; [right|left; by exists msg, s0|done|done].
  destruct (first_interrupt ext _ s0 tf HC ltac:(lia) Ht) as (s1 & c & Et & HU).
  exists s0, s1, c, ext. split; [done|]. split; [done|]. split; [done|]. intros s' R.
  destruct (reachable_user ext c s1 s' HU R) as (c' & HU'). exists c'.
  split; [exact (user_cur HU')|]. split; [done|exact (event_safe HU')].
Qed.

(** ** The self-tests *)

(** physical_memory_manage_check builds a list of its own: the element [i] of [test_pages] is
    [i], the element [q] is 10; the counts tell them apart. *)
Definition test_ref (i : Z) : Z := if i =? 10 then 20 else i.

(** [while (p != NULL) { assert(p->pp_ref == answer[j++]); p = LIST_NEXT(p, pp_link); }] *)
Fixpoint check_order (q : LIST.t) (p : option Z) (answer : list Z) : P unit :=
  match p, answer with
  | None, _ => mret tt
  | Some i, a :: rest =>
      assert "p->pp_ref == answer[j++]" (test_ref i =? a) ;;
      check_order q (next q i) rest
  | Some _, [] => undef "answer past its end"
  end.

Definition physical_memory_manage_check (kend : Z) : P unit :=
  pp0 ← check_ok "page_alloc(&pp0) == 0" page_alloc;
  pp1 ← check_ok "page_alloc(&pp1) == 0" page_alloc;
  pp2 ← check_ok "page_alloc(&pp2) == 0" page_alloc;
  assert "pp1 && pp1 != pp0" (negb (pp1 =? pp0)) ;;
  assert "pp2 && pp2 != pp1 && pp2 != pp0" (negb (pp2 =? pp1) && negb (pp2 =? pp0)) ;;
  fl ← gets (fun s => lh_first (page_free_list s));
  modify (fun s => set_free (LIST_INIT (page_free_list s)) s) ;;
  check_err "page_alloc(&pp) == -E_NO_MEM" page_alloc ;;
  temp ← page2kva pp0;
  store temp 1000 ;;
  page_free pp0 ;;
  pp0 ← check_ok "page_alloc(&pp0) == 0" page_alloc;
  check "temp == (int * )page2kva(pp0)" (page2kva pp0) temp ;;
  check "*temp == 0" (load temp) 0 ;;
  modify (fun s => set_free (set_first fl (page_free_list s)) s) ;;
  page_free pp0 ;;
  page_free pp1 ;;
  page_free pp2 ;;
  alloc kend (10 * sizeof_Page) BY2PG true ;;
  let test_free := foldr LIST_INSERT_HEAD LIST.empty [0; 1; 2; 3; 4; 5; 6; 7; 8; 9] in
  assert "p != NULL" (negb (LIST_EMPTY test_free)) ;;
  check_order test_free (LIST_FIRST test_free) [0; 1; 2; 3; 4; 5; 6; 7; 8; 9] ;;
  alloc kend sizeof_Page BY2PG true ;;
  let test_free := LIST_INSERT_AFTER 4 10 test_free in
  check_order test_free (LIST_FIRST test_free) [0; 1; 2; 3; 4; 20; 5; 6; 7; 8; 9].

Definition env_alloc_ok_or (msg : string) : K Z :=
  r ← env_alloc 0; match r with Ok e => mret e | Err _ => panic msg end.

(** [for (page_addr = 0; page_addr < n; page_addr += BY2PG)]: the window at [va] shows [pa]. *)
Definition check_window (base va pa n : Z) : K unit :=
  for_each (zseq 0 (Z.to_nat ((n + BY2PG - 1) / BY2PG))) (fun k =>
    a ← pmap_op (va2pa base (va + k * BY2PG));
    assert "va2pa(base_pgdir, va) == pa" (a =? pa + k * BY2PG)).

Definition env_check (pages_kva envs_kva : Z) : K unit :=
  pe0 ← env_alloc_ok_or "env_alloc(&pe0, 0) == 0";
  pe1 ← env_alloc_ok_or "env_alloc(&pe1, 0) == 0";
  pe2 ← env_alloc_ok_or "env_alloc(&pe2, 0) == 0";
  assert "pe1 && pe1 != pe0" (negb (pe1 =? pe0)) ;;
  assert "pe2 && pe2 != pe1 && pe2 != pe0" (negb (pe2 =? pe1) && negb (pe2 =? pe0)) ;;
  fl ← gets (fun s => lh_first (env_free_list s));
  modify (fun s => set_env_free_list (LIST_INIT (env_free_list s)) s) ;;
  r ← env_alloc 0;
  assert "env_alloc(&pe, 0) == -E_NO_FREE_ENV" (rc r =? - E_NO_FREE_ENV) ;;
  modify (fun s => set_env_free_list (set_first fl (env_free_list s)) s) ;;
  id0 ← get_env pe0 env_id; assert "pe0->env_id == 2048" (id0 =? 2048) ;;
  id1 ← get_env pe1 env_id; assert "pe1->env_id == 4097" (id1 =? 4097) ;;
  id2 ← get_env pe2 env_id; assert "pe2->env_id == 6146" (id2 =? 6146) ;;
  base ← gets base_pgdir;
  n ← gets (fun s => npage (pm s));
  pages_pa ← pmap_op (PADDR pages_kva);
  check_window base UPAGES pages_pa (n * sizeof_Page) ;;
  envs_pa ← pmap_op (PADDR envs_kva);
  check_window base UENVS envs_pa (NENV * sizeof_Env) ;;
  pgdir2 ← get_env pe2 env_pgdir;
  a ← pmap_op (load (pgdir2 + 4 * PDX UTOP));
  b ← pmap_op (load (base + 4 * PDX UTOP));
  assert "pe2->env_pgdir[PDX(UTOP)] == base_pgdir[PDX(UTOP)]" (a =? b) ;;
  z ← pmap_op (load (pgdir2 + 4 * (PDX UTOP - 1)));
  assert "pe2->env_pgdir[PDX(UTOP) - 1] == 0" (z =? 0) ;;
  sched_insert_tail pe0 ;;
  sched_insert_tail pe1 ;;
  sched_insert_tail pe2 ;;
  env_free pe2 ;;
  env_free pe1 ;;
  env_free pe0.

Definition envid2env_check : K unit :=
  pe0 ← env_alloc_ok_or "env_alloc(&pe0, 0) == 0";
  pe2 ← env_alloc_ok_or "env_alloc(&pe2, 0) == 0";
  upd_env pe2 (with_env_status ENV_FREE) ;;
  id ← get_env pe2 env_id;
  re ← envid2env id false;
  assert "re == -E_BAD_ENV" (rc re =? - E_BAD_ENV) ;;
  upd_env pe2 (with_env_status ENV_RUNNABLE) ;;
  id ← get_env pe2 env_id;
  re ← envid2env id false;
  match re with
  | Ok (Some pe) => id' ← get_env pe env_id; assert "pe->env_id == pe2->env_id && re == 0" (id' =? id)
  | Ok None => undef "NULL env"
  | Err _ => panic "pe->env_id == pe2->env_id && re == 0"
  end ;;
  modify (set_curenv (Some pe0)) ;;
  id ← get_env pe2 env_id;
  re ← envid2env id true;
  assert "re == -E_BAD_ENV" (rc re =? - E_BAD_ENV).

(** ** A machine of 64 MB *)
Definition kend64 : Z := 2151677952.   (* 0x80400000 *)
Definition envs64 : Z := 2148073472.   (* 0x80090000 *)

Lemma machine64 : machine 67108864 kend64 envs64.
Proof. split; by vm_compute. Qed.

Lemma boot_correct_witness : exists s, boot 67108864 kend64 envs64 kernel_bss = Val tt s /\ run_queue s [] /\
  va2pa (base_pgdir s) UPAGES (pm s) = Val (ROUND kend64 BY2PG - ULIM) (pm s).
Proof.
  destruct (boot_correct 67108864 kend64 envs64 machine64) as (s & ext & E & _ & Q & _ & H & _).
  exists s. split; [exact E|]. split; [exact Q|]. rewrite <- (Z.add_0_r UPAGES), <- (Z.add_0_r (ROUND kend64 BY2PG - ULIM)).
  exact (H 0 (conj (Z.le_refl 0) eq_refl)).
Defined.

(** The tests of tests/lab2_1, lab3_1 and lab4_1. *)
Definition returns_b {S A} (o : outcome S A) : bool := match o with Val _ _ => true | _ => false end.

Theorem self_tests_pass :
  returns_b ((mips_mem_init 67108864 kend64 ;; physical_memory_manage_check kend64) pmap_bss) = true /\
  returns_b ((boot 67108864 kend64 envs64 ;; env_check kend64 envs64) kernel_bss) = true /\
  returns_b ((boot 67108864 kend64 envs64 ;; envid2env_check) kernel_bss) = true.
Proof. split_and!; vm_compute; reflexivity. Qed.

(** Without the calls that are comments in init/init.c there is no free environment, and
    env_create goes on with an uninitialised pointer. *)
Lemma mips_init_undefined binary : mips_init binary kernel_bss = Undef "env_create: NULL env".
Proof. reflexivity. Qed.

(** A program of two instructions at 0x400000. *)
Definition tiny_program : list Z :=
  [127; 69; 76; 70] ++ replicate 12 0 ++ [2; 0; 8; 0; 1; 0; 0; 0] ++ [0; 0; 64; 0] ++ [52; 0; 0; 0] ++ replicate 10 0 ++ [32; 0; 1; 0] ++
  replicate 6 0 ++
  [1; 0; 0; 0] ++ [84; 0; 0; 0] ++ [0; 0; 64; 0] ++ [0; 0; 64; 0] ++ [8; 0; 0; 0] ++ [8; 0; 0; 0] ++ [5; 0; 0; 0] ++ [0; 0; 1; 0] ++
  [0; 0; 16; 8; 0; 0; 0; 0].

Lemma tiny_fits : forall p, p ∈ [(tiny_program, 1); (tiny_program, 2)] -> loadable p.1 = true /\ has_content p.1 = true.
Proof. intros p [->|[->|[]%elem_of_nil]%elem_of_cons]%elem_of_cons; vm_compute; split; reflexivity. Qed.

Lemma tiny_count : 0 < Z.of_nat (length [(tiny_program, 1); (tiny_program, 2)]) <= NASID.
Proof. by vm_compute. Qed.

Lemma tiny_boots : returns_b (mips_programs 67108864 kend64 envs64 [(tiny_program, 1); (tiny_program, 2)] kernel_bss) = true.
Proof. vm_compute. reflexivity. Qed.

Lemma returns_panic {S A} (o : outcome S A) msg s : returns_b o = true -> o = Panic msg s -> False.
Proof. by intros H ->. Qed.

Lemma boot_safe_witness : exists s0 s1 c ext,
  mips_programs 67108864 kend64 envs64 [(tiny_program, 1); (tiny_program, 2)] kernel_bss = Val tt s0 /\
  run_event (Trap tf0) s0 = Val tt s1 /\ user_mode ext c s1 /\ forall s, reachable s1 s -> safe ext s.
Proof.
  destruct (boot_safe 67108864 kend64 envs64 [(tiny_program, 1); (tiny_program, 2)] tf0 machine64
    tiny_count tiny_fits eq_refl) as [(msg & s & E & _)|H]; [|exact H].
  destruct (returns_panic _ _ _ tiny_boots E).
Defined.
