(* ===== verification/HostTools.v ===== *)
(** * The other programs of the host (tools/bintoc.c, tools/readelf/)

    [bintoc] turns a program's binary into the C file that is linked into the kernel;
    [readelf] prints the addresses of the sections of an ELF file. Text is a list of
    character codes. The files of the host are a map from names to contents; opening a file
    for writing succeeds. The theorems read the output back. *)

From Stdlib Require Import ZArith Lia Ascii String.
From stdpp Require Import base numbers list gmap strings.
From S2P Require Import Prelude Mmu Elf Print PrintThms.

(** ** Text *)
Definition chars (s : string) : list Z := map (fun c => Z.of_nat (nat_of_ascii c)) (list_ascii_of_string s).

(** [%d] of a number that is not negative, and [%x]. *)
Definition dec_text (n : Z) : list Z := reverse (num_digits 32 n 10 false).
Definition hex_text (n : Z) : list Z := reverse (num_digits 32 n 16 false).

(** ** bintoc *)

(** What a run does: exit, leaving the files in a state, after printing; stop at an
    assertion; or go wrong. *)
Inductive run (W : Type) :=
| Exit (code : Z) (w : W) (stdout : list Z)
| Aborted (msg : string) (w : W)
| Wild (why : string).
Arguments Exit {W} code w stdout.
Arguments Aborted {W} msg w.
Arguments Wild {W} why.

Abbreviation files := (gmap (list Z) (list Z)).

Definition BMAX := Z.shiftl 4 25.

Definition help_text : list Z :=
  chars "convert ELF binary file to C file." ++ [10] ++
  chars " -h            print this message" ++ [10] ++
  chars " -f <file>     tell the binary file  (input)" ++ [10] ++
  chars " -o <file>     tell the c file       (output)" ++ [10] ++
  chars " -p <prefix>   add prefix to the array name" ++ [10].

(** The loop over the arguments: where an option is set. *)
Inductive parsed :=
| Help
| Refused (msg : string)
| Options (bin_file out_file prefix : option (list Z)).

Fixpoint parse_args (args : list (list Z)) (bin_file out_file prefix : option (list Z)) : parsed :=
  match args with
  | [] => Options bin_file out_file prefix
  | a :: rest =>
      if negb (bool_decide (head a = Some 45)) then parse_args rest bin_file out_file prefix else
      if bool_decide (a = chars "-f") then
        match rest, bin_file with
        | [], _ => Refused "i + 1 < argc"
        | _, Some _ => Refused "bin_file == NULL"
        | v :: rest', None => parse_args rest' (Some v) out_file prefix
        end
      else if bool_decide (a = chars "-o") then
        match rest, out_file with
        | [], _ => Refused "i + 1 < argc"
        | _, Some _ => Refused "out_file == NULL"
        | v :: rest', None => parse_args rest' bin_file (Some v) prefix
        end
      else if bool_decide (a = chars "-p") then
        match rest, prefix with
        | [], _ => Refused "i + 1 < argc"
        | _, Some _ => Refused "prefix == NULL"
        | v :: rest', None => parse_args rest' bin_file out_file (Some v)
        end
      else Help
  end.

(** The name up to the first dot. *)
Fixpoint cut_dot (name : list Z) : list Z :=
  match name with
  | [] => []
  | c :: l => if c =? 46 then [] else c :: cut_dot l
  end.

(** [for (i = 0; i < size; i++) fprintf(out, "0x%x%c", binary[i], i < size - 1 ? ',' : '}')] *)
Fixpoint print_bytes (binary : list Z) : list Z :=
  match binary with
  | [] => []
  | b :: rest => [48; 120] ++ hex_text b ++ [match rest with [] => 125 | _ => 44 end] ++ print_bytes rest
  end.

Definition c_head (prefix name : list Z) (size : Z) : list Z :=
  chars "unsigned int binary_" ++ prefix ++ [95] ++ name ++ chars "_size = " ++ dec_text size ++ chars ";" ++ [10] ++
  chars "unsigned char binary_" ++ prefix ++ [95] ++ name ++ chars "_start[] = {".

Definition c_file (prefix name binary : list Z) : list Z :=
  c_head prefix name (Z.of_nat (length binary)) ++ print_bytes binary ++ [59; 10].

(** [args] is args[1], args[2], ... The size is an [int]; with a negative one the test
    against [BMAX] passes and [fread] gets a huge count. *)
Definition bintoc_main (args : list (list Z)) (w : files) : run files :=
  match parse_args args None None None with
  | Help => Exit 0 w help_text
  | Refused msg => Aborted msg w
  | Options None _ _ => Aborted "bin_file != NULL" w
  | Options _ None _ => Aborted "out_file != NULL" w
  | Options (Some bin_file) (Some out_file) prefix =>
      let w1 := <[out_file := []]> w in
      match w !! bin_file with
      | None => Aborted "bin != NULL" w1
      | Some _ =>
          let binary := default [] (w1 !! bin_file) in
          let size := s32 (Z.of_nat (length binary)) in
          if negb (size <? BMAX) then Aborted "size < BMAX" w1 else
          if size <? 0 then Wild "fread past binary" else
          Exit 0 (<[out_file := c_file (default [] prefix) (cut_dot bin_file) binary]> w1) []
      end
  end.

(** ** readelf *)

Definition is_elf_format (binary : list Z) (size : Z) : option bool :=
  if negb (sizeof_Ehdr <=? size) then Some false else
  m0 ← byte_at binary 0;
  if negb (m0 =? 127) then Some false else
  m1 ← byte_at binary 1;
  if negb (m1 =? 69) then Some false else
  m2 ← byte_at binary 2;
  if negb (m2 =? 76) then Some false else
  m3 ← byte_at binary 3;
  Some (m3 =? 70).

Definition sizeof_Shdr := 40.

(** [((Elf32_Shdr * )sh_table + i)->sh_addr] *)
Definition section_addr (binary : list Z) (e_shoff i : Z) : option Z := word_at binary (e_shoff + i * sizeof_Shdr + 12).

(** [printf("%d:0x%x\n", i, addr)] *)
Definition section_line (i addr : Z) : list Z := dec_text i ++ [58; 48; 120] ++ hex_text addr ++ [10].

Fixpoint print_sections (binary : list Z) (e_shoff : Z) (idx : list Z) : option (list Z) :=
  match idx with
  | [] => Some []
  | i :: rest =>
      addr ← section_addr binary e_shoff i;
      out ← print_sections binary e_shoff rest;
      Some (section_line i addr ++ out)
  end.

(** The result and what is printed; [None]: a read outside the buffer. *)
Definition readelf (binary : list Z) (size : Z) : option (Z * list Z) :=
  ok ← is_elf_format binary size;
  if negb ok then Some (-1, []) else
  e_shoff ← word_at binary 32;
  e_shnum ← half_at binary 48;
  out ← print_sections binary e_shoff (zseq 0 (Z.to_nat e_shnum));
  Some (0, out).

(** [argv] is argv[1], argv[2], ...; the buffer has one byte more than the file, 0. *)
Definition readelf_main (argv : list (list Z)) (w : files) : run files :=
  match argv with
  | [] => Exit 1 w []
  | name :: _ =>
      match w !! name with
      | None => Exit 1 w []
      | Some content =>
          let fsize := s32 (Z.of_nat (length content)) in
          if fsize <? 0 then Exit 1 w [] else
          match readelf (content ++ [0]) fsize with
          | Some (r, out) => Exit r w out
          | None => Wild "read past the file"
          end
      end
  end.

(** ** Reading the output back *)

(** The numbers of an initialiser [0x..,0x..}], most of a C compiler's view of it: the state
    is what has been read of the current number: nothing, [0], [0x], digits. *)
Definition is_hex (c : Z) : bool := ((48 <=? c) && (c <=? 57)) || ((97 <=? c) && (c <=? 102)).

Fixpoint read_init (text : list Z) (st : nat) (acc : Z) : option (list Z * list Z) :=
  match text with
  | [] => None
  | c :: rest =>
      match st with
      | 0%nat => if c =? 48 then read_init rest 1 0 else None
      | 1%nat => if c =? 120 then read_init rest 2 0 else None
      | 2%nat => if is_hex c then read_init rest 3 (digit_value c) else None
      | _ =>
          if is_hex c then read_init rest 3 (acc * 16 + digit_value c) else
          if c =? 44 then '(l, k) ← read_init rest 0 0; Some (acc :: l, k) else
          if c =? 125 then Some ([acc], rest) else None
      end
  end.

Lemma digit_char_hex d : 0 <= d < 16 -> is_hex (digit_char d false) = true.
Proof.
  intros Hd. unfold is_hex, digit_char. destruct (Z.leb_spec d 9).
  - by rewrite (proj2 (Z.leb_le 48 _)), (proj2 (Z.leb_le _ 57)) by lia.
  - rewrite (proj2 (Z.leb_le 97 (97 + d - 10))), (proj2 (Z.leb_le (97 + d - 10) 102)) by lia. by rewrite orb_true_r.
Qed.

Lemma num_digits_hex fuel n : Forall (fun c => is_hex c = true) (num_digits fuel n 16 false).
Proof.
  revert n. induction fuel as [|fuel IH]; intros n; cbn [num_digits]; [done|]. constructor.
  - apply digit_char_hex. by apply Z.mod_pos_bound.
  - destruct (n / 16 =? 0); [done|apply IH].
Qed.

Lemma hex_text_digits n : 0 <= n < 16 ^ 32 -> Forall (fun c => is_hex c = true) (hex_text n) /\ value 16 (hex_text n) = n /\ hex_text n <> [].
Proof.
  intros Hn. unfold hex_text. split; [apply Forall_reverse, num_digits_hex|]. split; [by apply num_digits_value|].
  change 32%nat with (S 31). cbn [num_digits]. rewrite reverse_cons. by intros [_ ?]%app_nil.
Qed.

Lemma read_digits ds rest acc : Forall (fun c => is_hex c = true) ds ->
  read_init (ds ++ rest) 3 acc = read_init rest 3 (foldl (fun acc c => acc * 16 + digit_value c) acc ds).
Proof.
  intros H. revert acc. induction H as [|c ds Hc H IH]; intros acc; [done|]. cbn [app read_init foldl]. by rewrite Hc, IH.
Qed.

Lemma read_number n rest : 0 <= n < 16 ^ 32 -> read_init ([48; 120] ++ hex_text n ++ rest) 0 0 = read_init rest 3 n.
Proof.
  intros Hn. destruct (hex_text_digits n Hn) as (H1 & H2 & H3). destruct (hex_text n) as [|c ds]; [done|].
  apply Forall_cons in H1 as [Hc H1]. cbn [app read_init Z.eqb]. rewrite Hc, read_digits by done. f_equal. rewrite <- H2. done.
Qed.

Lemma read_print_bytes binary rest : binary <> [] -> Forall (fun b => 0 <= b < 256) binary ->
  read_init (print_bytes binary ++ rest) 0 0 = Some (binary, rest).
Proof.
  intros Hne H. induction H as [|b l Hb H IH]; [done|]. cbn [print_bytes]. rewrite <- !app_assoc. rewrite read_number by lia.
  destruct l as [|b' l]; [done|]. cbn [app read_init is_hex Z.leb Z.eqb andb orb Z.compare]. rewrite IH by done. done.
Qed.

(** *** bintoc *)

(** bintoc -f b -o o -p p: the C file declares the size of the binary and an array whose
    initialiser reads back to its bytes, under the name of the binary up to the first dot. *)
Theorem bintoc_correct b o p binary w : w !! b = Some binary -> b <> o -> binary <> [] ->
  Z.of_nat (length binary) < BMAX -> Forall (fun x => 0 <= x < 256) binary ->
  exists text, bintoc_main [chars "-f"; b; chars "-o"; o; chars "-p"; p] w = Exit 0 (<[o := c_head p (cut_dot b) (Z.of_nat (length binary)) ++ text]> w) [] /\
    read_init text 0 0 = Some (binary, [59; 10]) /\ value 10 (dec_text (Z.of_nat (length binary))) = Z.of_nat (length binary).
Proof.
  intros Hb Hne Hnil Hlen Hbytes. exists (print_bytes binary ++ [59; 10]).
  assert (HB : BMAX = 134217728) by reflexivity.
  split; [|split; [by apply read_print_bytes|]].
  - unfold bintoc_main. change (parse_args _ _ _ _) with (Options (Some b) (Some o) (Some p)). cbv iota zeta. rewrite Hb, lookup_insert_ne by done. rewrite Hb. change (default [] (Some binary)) with binary.
    assert (Hs : s32 (Z.of_nat (length binary)) = Z.of_nat (length binary)).
    { unfold s32, u32. rewrite Z.mod_small by lia. by destruct (Z.ltb_spec (Z.of_nat (length binary)) 2147483648); [|lia]. }
    rewrite Hs. destruct (Z.ltb_spec (Z.of_nat (length binary)) BMAX); [|lia]. cbn [negb].
    destruct (Z.ltb_spec (Z.of_nat (length binary)) 0); [lia|]. by rewrite insert_insert_eq.
  - unfold dec_text. apply num_digits_value; [lia| |done]. rewrite HB in Hlen. lia.
Qed.

(** What bintoc writes for an empty file is not C: the brace is never closed. *)
Lemma bintoc_empty p name : c_file p name [] = c_head p name 0 ++ [59; 10].
Proof. reflexivity. Qed.

Lemma bintoc_correct_witness : exists text,
  bintoc_main [chars "-f"; chars "loop.b"; chars "-o"; chars "loop.b.c"; chars "-p"; chars "user_bare"] {[chars "loop.b" := [0; 127; 255]]} =
    Exit 0 (<[chars "loop.b.c" := c_head (chars "user_bare") (chars "loop") 3 ++ text]> {[chars "loop.b" := [0; 127; 255]]}) [] /\
  read_init text 0 0 = Some ([0; 127; 255], [59; 10]).
Proof.
  destruct (bintoc_correct (chars "loop.b") (chars "loop.b.c") (chars "user_bare") [0; 127; 255] {[chars "loop.b" := [0; 127; 255]]})
    as (text & E & R & _); [apply lookup_singleton_eq|discriminate|discriminate|vm_compute; reflexivity|repeat constructor; vm_compute; (discriminate || reflexivity)|].
  exists text. exact (conj E R).
Defined.

(** *** readelf *)
Section Fields.
Context (b : list Z) (Hb : Forall (fun x => 0 <= x < 256) b).

Lemma byte_at_in i : 0 <= i < Z.of_nat (length b) -> exists v, byte_at b i = Some v /\ 0 <= v < 256.
Proof using Hb.
  intros Hi. unfold byte_at. destruct (Z.ltb_spec i 0); [lia|]. destruct (lookup_lt_is_Some_2 b (Z.to_nat i)) as [v Hv]; [lia|].
  exists v. split; [done|]. rewrite Forall_lookup in Hb. by apply (Hb (Z.to_nat i)).
Qed.

Lemma half_at_in i : 0 <= i -> i + 2 <= Z.of_nat (length b) -> exists v, half_at b i = Some v /\ 0 <= v < 65536.
Proof using Hb.
  intros H1 H2. destruct (byte_at_in i) as (x & Ex & Hx); [lia|]. destruct (byte_at_in (i + 1)) as (y & Ey & Hy); [lia|].
  exists (x + 256 * y). unfold half_at. rewrite Ex, Ey. split; [done|lia].
Qed.

Lemma word_at_in i : 0 <= i -> i + 4 <= Z.of_nat (length b) -> exists v, word_at b i = Some v /\ 0 <= v < 4294967296.
Proof using Hb.
  intros H1 H2. destruct (half_at_in i) as (x & Ex & Hx); [lia..|]. destruct (half_at_in (i + 2)) as (y & Ey & Hy); [lia..|].
  exists (x + 65536 * y). unfold word_at. rewrite Ex, Ey. split; [done|lia].
Qed.
End Fields.

Lemma print_sections_ok b shoff : Forall (fun x => 0 <= x < 256) b -> 0 <= shoff -> forall n a, 0 <= a ->
  shoff + (a + Z.of_nat n) * 40 <= Z.of_nat (length b) ->
  exists addrs, length addrs = n /\ (forall k, (k < n)%nat -> exists v, addrs !! k = Some v /\ section_addr b shoff (a + Z.of_nat k) = Some v /\ 0 <= v < 4294967296) /\
    print_sections b shoff (zseq a n) = Some (concat (zip_with section_line (zseq a n) addrs)).
Proof.
  intros Hb Hs. induction n as [|n IH]; intros a Ha Hl; [exists []; split; [done|]; split; [lia|done]|].
  destruct (word_at_in b Hb (shoff + a * sizeof_Shdr + 12)) as (v & Ev & Hv); [unfold sizeof_Shdr; lia..|].
  destruct (IH (a + 1)) as (l & El & HL & EP); [lia..|]. exists (v :: l). split; [cbn; lia|]. split.
  - intros [|k] Hk; [exists v; rewrite Z.add_0_r; done|]. destruct (HL k ltac:(lia)) as (u & E1 & E2 & E3). exists u.
    replace (a + Z.of_nat (S k)) with (a + 1 + Z.of_nat k) by lia. done.
  - rewrite zseq_S. cbn [print_sections zip_with concat]. unfold section_addr. rewrite Ev, EP. done.
Qed.

(** For an ELF file whose section table lies in the file, readelf returns 0 and prints one
    line for each section: its index in decimal and its address in hexadecimal; both numbers
    read back. *)
Theorem readelf_correct b : Forall (fun x => 0 <= x < 256) b -> 52 <= Z.of_nat (length b) -> take 4 b = [127; 69; 76; 70] ->
  exists shoff shnum, word_at b 32 = Some shoff /\ half_at b 48 = Some shnum /\
    (shoff + shnum * 40 <= Z.of_nat (length b) -> exists addrs, Z.of_nat (length addrs) = shnum /\
      readelf b (Z.of_nat (length b)) = Some (0, concat (zip_with section_line (zseq 0 (length addrs)) addrs)) /\
      forall k, 0 <= k < shnum -> exists v, addrs !! Z.to_nat k = Some v /\ section_addr b shoff k = Some v /\
        value 10 (dec_text k) = k /\ value 16 (hex_text v) = v).
Proof.
  intros Hb Hl Hm. destruct (word_at_in b Hb 32) as (shoff & E1 & H1); [lia..|]. destruct (half_at_in b Hb 48) as (shnum & E2 & H2); [lia..|].
  exists shoff, shnum. split; [done|]. split; [done|]. intros Hfit.
  destruct (print_sections_ok b shoff Hb ltac:(lia) (Z.to_nat shnum) 0) as (addrs & El & HL & EP); [lia..|].
  exists addrs. split; [lia|]. split.
  - assert (EI : is_elf_format b (Z.of_nat (length b)) = Some true).
    { unfold is_elf_format. rewrite (proj2 (Z.leb_le sizeof_Ehdr _)) by (unfold sizeof_Ehdr; lia).
      destruct b as [|x0 [|x1 [|x2 [|x3 b']]]]; try discriminate Hm. injection Hm as -> -> -> ->. reflexivity. }
    unfold readelf. rewrite EI. cbn [mbind option_bind negb]. rewrite E1. cbn [mbind option_bind]. rewrite E2. cbn [mbind option_bind].
    rewrite EP, El. done.
  - intros k Hk. destruct (HL (Z.to_nat k) ltac:(lia)) as (v & Ek & Es & Hv). exists v. rewrite Z.add_0_l, Z2Nat.id in Es by lia.
    split; [done|]. split; [done|]. split; [unfold dec_text; apply num_digits_value; [lia| |done]|apply hex_text_digits; lia].
    change (10 ^ Z.of_nat 32) with 100000000000000000000000000000000. lia.
Qed.

(** A file that is not ELF: -1 and no output; a section table past the end is read past the
    buffer. *)
Lemma readelf_not_elf b size : is_elf_format b size = Some false -> readelf b size = Some (-1, []).
Proof. intros H. unfold readelf. by rewrite H. Qed.

Definition bad_table : list Z := [127; 69; 76; 70] ++ replicate 28 0 ++ [52; 0; 0; 0] ++ replicate 12 0 ++ [1; 0] ++ replicate 2 0.

Lemma readelf_past_buffer : length bad_table = 52%nat /\ readelf (bad_table ++ [0]) 52 = None.
Proof. split; reflexivity. Qed.
